(* ===== verification/_CoqProject ===== *)
-Q . S2P
Prelude.v
State.v
Mmio.v
Pte.v
PageAlloc.v
PageTable.v
BlockIO.v
Buffer.v
BufferCache.v
BufferInit.v
InodeIO.v
Bitmap.v
Inode.v
PageFault.v
UserMem.v
Namei.v
Directory.v
Path.v
Sched.v
Plic.v
Tty.v
Super.v
FileIO.v
Pipe.v
FileRead.v
FileWrite.v
Sync.v
Mount.v
OpenFiles.v
Process.v
SysCalls.v
FileCount.v
Time.v
Exec.v
Trap.v
Boot.v
Tables.v
Frame.v
Irq.v
Smp.v
Locks.v
