(* ===== verification/Prelude.v ===== *)
(** * K210-Linux 0.11: a verification development of the kernel in [src/src_test]

    The repository ports Linux 0.11 to the Kendryte K210 (RISC-V, 64 bits, Sv39).  The directory
    [src_test] holds the kernel: memory management (mm), file system (fs), processes, scheduler and
    character and block devices (kernel), page-table entries (riscvfunc), traps (trap), start-up
    (startup), the drivers of the chip's vendor (drivers) and its locks (bsp).  This library models the
    parts of it that carry its logic as executable definitions and proves what they do.

    ** How the program is modelled

    The kernel is one state, the record [kernel] of State.v: memory management [k_mm], block devices
    and buffers [k_blk], the tables of the file system [k_fs], tasks [k_sched], terminal [k_tty],
    the physical memory [k_pmem] as a function from addresses to bytes, and [k_dev]: the tables of the
    interrupt drivers and the log of all accesses to device registers.  A C function is a
    computation of the monad [K] (this file): it reads and changes the state and returns a value
    ([Ok]) or stops ([Stop]).  A stop is [panic()], an access the C language leaves undefined
    ([Fault]), a loop without end ([Hang], [NoFuel]), or a point where the task gives up the processor:
    [Sleep] in [sleep_on], [Switch] in [switch_to].  What the task does when it is resumed is a
    definition of its own where the code that follows changes state ([switch_resume],
    [sleep_on_resume], [waitpid_woken], [waitpid_reaped]).

    A C integer is a [Z] at its width: [u8], [u16], [u32], [u64], [s32], [s64] are the conversions and
    are written where the C code can wrap round.  Structures in memory that the code accesses
    through casts (page tables, disk blocks, directory entries) are read and written in [k_pmem] with
    [rd8] to [rd64] and [wr8] to [wr64].

    A C loop is [for_up] when its number of rounds is known, a Fixpoint over what it scans, or [loop]
    with fuel.  Fuel: [SCHED_FUEL] for the loop of [schedule] (two rounds are enough,
    [schedule_chooses]); [ROUNDS] of [getblk] and the i-node loops (what changes under the loop is a
    buffer or i-node that [sync_inodes] touched, at most once each; [bread_transparent],
    [getblk_replacement] and [iget_returns_inode] show it is enough); 65 process numbers in
    [find_empty_process] ([find_empty_process_unique]); [PATH_FUEL] for the characters of a path;
    [ARG_FUEL], the size of the argument pages, for the arguments of [do_execve], and 3 for its rounds
    (a script has an interpreter that is not looked at as a script again);
    [TTY_FUEL], one more than a queue holds, and [READ_FUEL] for the rounds of [tty_read].  The
    specifications of the form [runs m k Q] say that the code returns: no stop, and no lack of fuel.

    ** The files

    - Prelude: record update, machine integers, the monad, loops, lists indexed by [Z], little-endian
      memory, and the tactics [rsimpl], [blia], [dlia].
    - State: the structures of include/linux and the global variables; accessors; a state for examples.
    - Pte: riscvfunc/page_table_entry.c.  PageAlloc: the allocator of mm/memory.c behind the class
      [FrameAllocator].  PageTable: page tables, sharing and copy on write.  PageFault: demand
      paging, kernel/segment.c.  UserMem: buffers of the program, [verify_area] of fork.c.
    - BlockIO: kernel/blk_drv.  Buffer, BufferCache, BufferInit: fs/buffer.c, its invariant
      [cache_ok], its abstraction [disk] and boot.  Buffer.v calls the i-node table through the class
      [SyncInodes]; InodeIO.v is its instance, so the two files call each other as the C code does.
    - InodeIO, Inode: fs/inode.c.  Bitmap: fs/bitmap.c, truncate.c.  Namei, Directory, Path: fs/namei.c.
      Super: fs/super.c; Mount: what [mount_root] makes of a disk.  FileIO, FileRead, FileWrite, Pipe: file_dev.c,
      block_dev.c, pipe.c, char_dev.c, read_write.c.  Sync: [sync] of fs/buffer.c with i-nodes that have to
      be written.  OpenFiles, FileCount: open.c, fcntl.c, stat.c, ioctl.c.
    - Sched: kernel/sched.c.  Process: fork.c, exit.c.  SysCalls: signal.c, sys.c.  Time: mktime.c.
      Tty: kernel/chr_drv.  Exec: fs/exec.c.
    - Mmio: registers of devices, behind the class [Board].  Plic: drivers/plic.c and timer.c.
    - Trap: trap/machine_exception.c, machine_interrupt.c, kernel/system_call.S and the table of
      linux/sys.h, which call the handlers of all the other files.
    - Boot: startup/machine_main.c, the initialisation of all components, and [setup].
    - Tables: the types of the kernel's tables and structures, [tables_ok].
    - Frame: what every system call leaves alone ([tables_ok] among it), and the theorems about the whole interface.
      Irq: what happens at an interrupt of the timer, through drivers, traps and scheduler.
    - Smp, Locks: bsp/include/atomic.h and bsp/locks.c.  These run on several harts at once, so they are
      not computations of [K] but trees of memory operations (ITree) that a machine interleaves; Smp.v
      has the machine and a logic for what a lock protects, whose rules Locks.v applies.

    ** What is proved

    - Memory: the allocators return the highest free frame or run; sharing a table at [fork] and
      freeing it at [exit] restores every use count; [put_page] and the page faults map what they
      should; copy on write gives the writer a frame of its own.
    - Storage: the buffer cache is transparent, loses nothing when it evicts, and [sync] brings
      every dirty i-node to its place on the disk and makes the rest equal to what was seen; i-nodes survive a round trip; [bmap],
      [iget], the allocation of zones, the search of a directory, [permission], [namei] against a
      reference that walks the directories on the disk, [file_read]
      and [file_write] do what their callers rely on, and what is written is read back; a pipe refines
      a bounded queue, with the sleep, the signal and the short counts of its callers.
    - Start: [machine_main] establishes the invariants that the other theorems assume, and [setup] mounts
      the root file system: [mount_root] reads the super block and its bit maps and leaves a state in which
      the theorem about [namei] applies.
    - Descriptors: the count of a file is the number of descriptors that refer to it, kept by [dup],
      by [close], and by [copy_process] whenever it returns, but for the one failure that leaves a child behind.
    - Processes: [schedule] decides and takes the right task, no runnable task starves,
      [find_empty_process] ends with a number that is not in use, [kill] signals exactly the tasks it
      should, [setreuid] gives no id away.
    - The whole interface: no system call except [execve] makes a task privileged; a trapped system
      call returns behind the [ecall] with its value in a0.
    - Interrupts: a tick of the timer is claimed, served once, completed, and the threshold restored, also
      when the tick switches to another task.
    - Locks: core locks exclude and semaphores are never overdrawn, in every interleaving of any number
      of harts.
    - Terminal: its queues refine bounded queues.
    - Defects: several theorems state what the code does where that differs from what it means to do
      (copy of 8 bytes at copy on write, one byte per [mem_copy], the search of a bitmap that does not
      advance, [mount] that never succeeds, the kill character that hangs, a sleeper that is never
      woken, a calendar that is two days late, stores that break copy on write, recursive locks that do
      not exclude and wait for the wrong entry, a system call number out of range, for which
      [bad_sys_call] does not restore the stack pointer and the model stops).

    ** Parameters and hypotheses

    [fork_process_exit] (a label of the assembly code) and the addresses of the timer functions are
    parameters; [Uart] says whether the serial line is busy; the physical addresses that the linker
    chooses are constants; [frame], [stat_junk] and [termio_junk] are the kernel stack under local
    variables that the C code copies out; [wait_fuel] bounds the rounds of [waitpid], which the code
    does not bound; [timer_fn] stands for the functions that kernel timers call and [driver] for the interrupt
    routines of other drivers.  [Board] says what a read of a device register returns after the accesses
    so far, which core runs, and whether an external interrupt is pending.  The hypotheses on
    states are invariants ([cache_ok], [sched_ok], [files_ok], ...), each with an example state that
    satisfies it.

    ** Not modelled

    The trap vectors that save and restore registers, the supervisor traps and the control registers
    (trap, riscvfunc/privilege.c, core.c), with them the enabling and nesting of interrupts, and the calls
    of the start that set up timer 0 and the serial line through other drivers; printing
    (printk, syslog); the vendor's other drivers and its delays (drivers, bsp/sleep.c); weak memory:
    Smp.v assumes that the fences make the code of the locks sequentially consistent; the user programs, with [user_main]
    and [init] of machine_main.c; fs/bak and the directories outside src_test.
    Interrupts are not interleaved: a computation of [K] runs until it returns, sleeps or switches.  Output
    of [printk] is left out everywhere. *)
From Stdlib Require Import ZArith Lia String.
From stdpp Require Import base list numbers.
Open Scope Z_scope.

(** ** Record update

    [r <| field := v |>] is the C assignment [r.field = v] on a structure value.
    A record type opts in with an instance of [Eta]. *)

Class Eta (R : Type) := eta_expand : R -> R.
Class Setter {R T : Type} (field : R -> T) := upd : (T -> T) -> R -> R.
Arguments upd {R T} field {Setter} f r : simpl never.

Ltac solve_setter :=
  match goal with
  | |- @Setter ?R ?T ?field =>
      let e := constr:(ltac:(let i := constr:(_ : Eta R) in
                             let i' := eval red in i in exact i') : R -> R) in
      exact (fun (f : T -> T) (r : R) =>
        ltac:(let t := eval cbv beta in (e r) in
              let p := eval pattern (field r) in t in
              match p with
              | ?g _ => let u := eval cbv beta in (g (f (field r))) in exact u
              end))
  end.
#[export] Hint Extern 1 (@Setter _ _ _) => solve_setter : typeclass_instances.

Declare Scope kernel_scope.
Delimit Scope kernel_scope with kernel.
Open Scope kernel_scope.
Notation "r <| p := v |>" := (upd p (fun _ => v) r)
  (at level 1, left associativity, v at level 99) : kernel_scope.
Notation "r <| p ::= f |>" := (upd p f r)
  (at level 1, left associativity, f at level 99) : kernel_scope.

(** [rsimpl] computes the read of a field of an updated record. *)
Ltac rsimpl_step :=
  match goal with
  | |- context [?p (@upd _ _ ?q ?i ?f ?r)] =>
      first [ progress change (p (@upd _ _ q i f r)) with (p r)
            | progress change (p (@upd _ _ q i f r)) with (f (p r)) ]
  end.
Ltac rsimpl_step_in H :=
  match type of H with
  | context [?p (@upd _ _ ?q ?i ?f ?r)] =>
      first [ progress change (p (@upd _ _ q i f r)) with (p r) in H
            | progress change (p (@upd _ _ q i f r)) with (f (p r)) in H ]
  end.
Ltac rsimpl := repeat (rsimpl_step; cbv beta).
Ltac rsimpl_in H := repeat (rsimpl_step_in H; cbv beta in H).
Ltac rsimpl_all :=
  repeat match goal with H : _ |- _ => progress rsimpl_in H end; rsimpl.

(** ** Machine integers: a C value of width [w] is a [Z] reduced modulo [2^w] *)

Definition u8 (x : Z) : Z := x mod 2 ^ 8.
Definition u16 (x : Z) : Z := x mod 2 ^ 16.
Definition u32 (x : Z) : Z := x mod 2 ^ 32.
Definition u64 (x : Z) : Z := x mod 2 ^ 64.
(** Conversion to [int] and to [int64_t] (two's complement). *)
Definition s32 (x : Z) : Z := (x + 2 ^ 31) mod 2 ^ 32 - 2 ^ 31.
Definition s64 (x : Z) : Z := (x + 2 ^ 63) mod 2 ^ 64 - 2 ^ 63.
(** A C condition: any non-zero value is true. *)
Definition truth (x : Z) : bool := negb (x =? 0).
Definition b2z (b : bool) : Z := if b then 1 else 0.

Lemma u8_bound x : 0 <= u8 x < 256.
Proof. unfold u8. pose proof (Z.mod_pos_bound x (2 ^ 8)). lia. Qed.
Lemma u16_bound x : 0 <= u16 x < 65536.
Proof. unfold u16. pose proof (Z.mod_pos_bound x (2 ^ 16)). lia. Qed.
Lemma u64_bound x : 0 <= u64 x < 2 ^ 64.
Proof. unfold u64. pose proof (Z.mod_pos_bound x (2 ^ 64)). lia. Qed.
Lemma u8_small x : 0 <= x < 256 -> u8 x = x.
Proof. intros. unfold u8. apply Z.mod_small. lia. Qed.
Lemma u16_small x : 0 <= x < 65536 -> u16 x = x.
Proof. intros. unfold u16. apply Z.mod_small. lia. Qed.
Lemma u32_small x : 0 <= x < 2 ^ 32 -> u32 x = x.
Proof. intros. unfold u32. apply Z.mod_small. lia. Qed.
Lemma u64_small x : 0 <= x < 2 ^ 64 -> u64 x = x.
Proof. intros. unfold u64. apply Z.mod_small. lia. Qed.
Lemma s32_small x : - 2 ^ 31 <= x < 2 ^ 31 -> s32 x = x.
Proof. intros. unfold s32. rewrite Z.mod_small; lia. Qed.
Lemma s64_small x : - 2 ^ 63 <= x < 2 ^ 63 -> s64 x = x.
Proof. intros. unfold s64. rewrite Z.mod_small; lia. Qed.
Lemma truth_true x : truth x = true <-> x <> 0.
Proof. unfold truth. destruct (Z.eqb_spec x 0); cbn; split; congruence. Qed.
Lemma truth_false x : truth x = false <-> x = 0.
Proof. unfold truth. destruct (Z.eqb_spec x 0); cbn; split; congruence. Qed.

(** [blia] decides a comparison that the code makes, also when it mentions [Z.of_nat]. *)
Ltac blia_core :=
  first [ apply Z.leb_le; lia | apply Z.leb_gt; lia | apply Z.ltb_lt; lia
        | apply Z.ltb_ge; lia | apply Z.eqb_eq; lia | apply Z.eqb_neq; lia ].
Ltac blia := first [ lia | blia_core | symmetry; blia_core ].
(** [lia] with the equations of [/] and [mod]. *)
Ltac dlia := Z.div_mod_to_equations; lia.

Create HintDb word discriminated.
Create Rewrite HintDb word.
#[export] Hint Rewrite u8_small u16_small u32_small u64_small s32_small
  using lia : word.
#[export] Hint Resolve u8_bound u16_bound u64_bound : word.

(** Bit fields: [width] bits of [w] from bit [off] on. *)
Definition get_field (off width w : Z) : Z := Z.shiftr w off mod 2 ^ width.
Definition set_field (off width v w : Z) : Z :=
  Z.lor (Z.ldiff w (Z.shiftl (Z.ones width) off)) (Z.shiftl (v mod 2 ^ width) off).

Section BitFields.
Context (off width : Z) (Hoff : 0 <= off) (Hwidth : 0 <= width).

Lemma testbit_get_field w i :
  0 <= i -> Z.testbit (get_field off width w) i = (i <? width) && Z.testbit w (i + off).
Proof.
  intros Hi. unfold get_field. destruct (Z.ltb_spec i width).
  - rewrite Z.mod_pow2_bits_low, Z.shiftr_spec by lia. done.
  - rewrite Z.mod_pow2_bits_high by lia. done.
Qed.

Lemma testbit_set_field v w i :
  0 <= i ->
  Z.testbit (set_field off width v w) i =
  if (off <=? i) && (i <? off + width) then Z.testbit v (i - off) else Z.testbit w i.
Proof.
  intros Hi. unfold set_field. rewrite Z.lor_spec, Z.ldiff_spec.
  destruct (Z.leb_spec off i); cbn.
  - rewrite !Z.shiftl_spec by lia. destruct (Z.ltb_spec i (off + width)).
    + rewrite Z.ones_spec_low, Z.mod_pow2_bits_low by lia.
      cbn. by rewrite andb_false_r.
    + rewrite Z.ones_spec_high, Z.mod_pow2_bits_high by lia.
      cbn. by rewrite andb_true_r, orb_false_r.
  - rewrite !Z.shiftl_spec_low by lia. cbn. by rewrite andb_true_r, orb_false_r.
Qed.

Lemma get_set_field_same v w : get_field off width (set_field off width v w) = v mod 2 ^ width.
Proof.
  apply Z.bits_inj'. intros i Hi.
  rewrite testbit_get_field, testbit_set_field by lia.
  destruct (Z.ltb_spec i width).
  - rewrite Z.mod_pow2_bits_low by lia.
    replace (off <=? i + off) with true by lia.
    replace (i + off <? off + width) with true by lia. cbn. f_equal. lia.
  - rewrite Z.mod_pow2_bits_high by lia. done.
Qed.

Lemma get_field_bound w : 0 <= get_field off width w < 2 ^ width.
Proof. apply Z.mod_pos_bound, Z.pow_pos_nonneg; lia. Qed.
End BitFields.

Lemma get_set_field_other off width off' width' v w :
  0 <= off -> 0 <= width -> 0 <= off' -> 0 <= width' ->
  off + width <= off' \/ off' + width' <= off ->
  get_field off width (set_field off' width' v w) = get_field off width w.
Proof.
  intros ???? Hdis. apply Z.bits_inj'. intros i Hi.
  rewrite !testbit_get_field, testbit_set_field by lia.
  destruct (Z.ltb_spec i width); [|done].
  replace ((off' <=? i + off) && (i + off <? off' + width')) with false; [done|].
  destruct (Z.leb_spec off' (i + off)), (Z.ltb_spec (i + off) (off' + width')); cbn; lia.
Qed.

Lemma set_field_bound n off width v w :
  0 <= off -> 0 <= width -> off + width <= n ->
  0 <= w < 2 ^ n -> 0 <= set_field off width v w < 2 ^ n.
Proof.
  intros ??? [Hw0 Hw]. assert (0 <= set_field off width v w) as Hnn.
  { unfold set_field. apply Z.lor_nonneg. split.
    - apply Z.ldiff_nonneg. left; lia.
    - apply Z.shiftl_nonneg. apply Z.mod_pos_bound, Z.pow_pos_nonneg; lia. }
  split; [done|].
  destruct (decide (set_field off width v w = 0)) as [->|Hne]; [lia|].
  apply Z.log2_lt_pow2; [lia|]. apply Z.nle_gt. intros Hle.
  pose proof (Z.bit_log2 (set_field off width v w) ltac:(lia)) as Hb.
  rewrite testbit_set_field in Hb by (try lia; apply Z.log2_nonneg).
  set (l := Z.log2 _) in *.
  replace (l <? off + width) with false in Hb by lia. rewrite andb_false_r in Hb.
  destruct (decide (w = 0)) as [->|]; [by rewrite Z.testbit_0_l in Hb|].
  rewrite Z.bits_above_log2 in Hb; [done|lia|].
  assert (Z.log2 w < n) by (apply Z.log2_lt_pow2; lia). lia.
Qed.

(** ** Byte memory: little-endian loads and stores of [n] bytes *)

Definition memory := Z -> Z.

Fixpoint ld (n : nat) (m : memory) (a : Z) : Z :=
  match n with
  | O => 0
  | S k => u8 (m a) + 256 * ld k m (a + 1)
  end.
Definition st (n : nat) (m : memory) (a v : Z) : memory :=
  fun x => if (a <=? x) && (x <? a + Z.of_nat n)
           then u8 (Z.shiftr v (8 * (x - a))) else m x.
(** [memset(dst,c,len)] and [memcpy(dst,src,len)]. *)
Definition memset (m : memory) (dst c len : Z) : memory :=
  fun x => if (dst <=? x) && (x <? dst + len) then u8 c else m x.
Definition memcpy (m : memory) (dst src len : Z) : memory :=
  fun x => if (dst <=? x) && (x <? dst + len) then m (src + (x - dst)) else m x.

Arguments ld : simpl never.
Arguments st : simpl never.
Arguments memset : simpl never.
Arguments memcpy : simpl never.

Lemma in_range_true a x n : a <= x < a + n -> (a <=? x) && (x <? a + n) = true.
Proof. intros. apply andb_true_iff. lia. Qed.
Lemma in_range_false a x n : x < a \/ a + n <= x -> (a <=? x) && (x <? a + n) = false.
Proof. intros. apply andb_false_iff. lia. Qed.

Section Memory.
Implicit Types (m : memory).

Lemma ld_bound n m a : 0 <= ld n m a < 256 ^ Z.of_nat n.
Proof.
  revert a. induction n as [|n IH]; intros a; [change (ld 0 m a) with 0; lia|].
  change (ld (S n) m a) with (u8 (m a) + 256 * ld n m (a + 1)).
  specialize (IH (a + 1)). pose proof (u8_bound (m a)).
  rewrite Nat2Z.inj_succ, Z.pow_succ_r by lia. lia.
Qed.

Lemma ld_ext n m m' a :
  (forall x, a <= x < a + Z.of_nat n -> m' x = m x) -> ld n m' a = ld n m a.
Proof.
  revert a. induction n as [|n IH]; intros a Hx; [done|].
  change (u8 (m' a) + 256 * ld n m' (a + 1) = u8 (m a) + 256 * ld n m (a + 1)).
  rewrite Hx by lia. rewrite IH; [done|]. intros x ?. apply Hx. lia.
Qed.

Lemma ld_st_disjoint n k m a b v :
  a + Z.of_nat n <= b \/ b + Z.of_nat k <= a -> ld n (st k m b v) a = ld n m a.
Proof. intros. apply ld_ext. intros x ?. unfold st. rewrite in_range_false; [done|lia]. Qed.

(** Reading back [k] of the bytes of a stored value, from byte [i] on. *)
Lemma ld_st_at k n m a v i :
  0 <= i -> i + Z.of_nat k <= Z.of_nat n ->
  ld k (st n m a v) (a + i) = Z.shiftr v (8 * i) mod 256 ^ Z.of_nat k.
Proof.
  revert i. induction k as [|k IH]; intros i ??.
  - change (0 = Z.shiftr v (8 * i) mod 1). by rewrite Z.mod_1_r.
  - change (u8 (st n m a v (a + i)) + 256 * ld k (st n m a v) (a + i + 1) =
            Z.shiftr v (8 * i) mod 256 ^ Z.of_nat (S k)).
    unfold st at 1. rewrite in_range_true by lia.
    replace (a + i - a) with i by lia.
    replace (a + i + 1) with (a + (i + 1)) by lia. rewrite IH by lia.
    rewrite Nat2Z.inj_succ, Z.pow_succ_r by lia.
    rewrite Z.rem_mul_r by (try lia; apply Z.pow_nonzero; lia).
    f_equal.
    + unfold u8. change (2 ^ 8) with 256. by rewrite Z.mod_mod.
    + f_equal. f_equal. change 256 with (2 ^ 8).
      rewrite <- Z.shiftr_div_pow2, Z.shiftr_shiftr by lia. f_equal. lia.
Qed.

Lemma ld_st_same n m a v : ld n (st n m a v) a = v mod 256 ^ Z.of_nat n.
Proof.
  pose proof (ld_st_at n n m a v 0 ltac:(lia) ltac:(lia)) as H.
  rewrite Z.add_0_r, Z.mul_0_r, Z.shiftr_0_r in H. exact H.
Qed.

Lemma ld_memset_0 n m a dst len :
  dst <= a -> a + Z.of_nat n <= dst + len -> ld n (memset m dst 0 len) a = 0.
Proof.
  revert a. induction n as [|n IH]; intros a ??; [done|].
  change (u8 (memset m dst 0 len a) + 256 * ld n (memset m dst 0 len) (a + 1) = 0).
  unfold memset at 1. rewrite in_range_true by lia. rewrite IH by lia. done.
Qed.

Lemma ld_memset_disjoint n m a dst c len :
  a + Z.of_nat n <= dst \/ dst + len <= a -> ld n (memset m dst c len) a = ld n m a.
Proof. intros. apply ld_ext. intros x ?. unfold memset. rewrite in_range_false; [done|lia]. Qed.

Lemma ld_memcpy_disjoint n m a dst src len :
  a + Z.of_nat n <= dst \/ dst + len <= a -> ld n (memcpy m dst src len) a = ld n m a.
Proof. intros. apply ld_ext. intros x ?. unfold memcpy. rewrite in_range_false; [done|lia]. Qed.

Lemma ld_shift n m m' a a' :
  (forall i, 0 <= i < Z.of_nat n -> m' (a' + i) = m (a + i)) -> ld n m' a' = ld n m a.
Proof.
  revert a a'. induction n as [|n IH]; intros a a' H; [done|].
  change (u8 (m' a') + 256 * ld n m' (a' + 1) = u8 (m a) + 256 * ld n m (a + 1)).
  pose proof (H 0 ltac:(lia)) as H0. rewrite !Z.add_0_r in H0. rewrite H0.
  rewrite (IH (a + 1) (a' + 1)); [done|]. intros i ?.
  rewrite <- !Z.add_assoc. apply H. lia.
Qed.

Lemma ld_memcpy n m dst src len i :
  0 <= i -> i + Z.of_nat n <= len ->
  ld n (memcpy m dst src len) (dst + i) = ld n m (src + i).
Proof.
  intros. apply ld_shift. intros j ?. unfold memcpy. rewrite in_range_true by lia.
  f_equal. lia.
Qed.
End Memory.

(** ** The kernel monad

    A C function that touches global state is a state transformer that either
    returns a value or stops.  The ways to stop are the ways control does not
    come back to the caller:
    - [Panic]: [panic()] (kernel/panic.c) prints and spins for ever;
    - [Sleep q]: the code calls [sleep_on] on the wait queue [q], that is, the
      running task gives the processor up; nothing after that point is run in
      the same activation;
    - [Switch p]: [schedule] (kernel/sched.c) gave the processor to the task [p];
    - [DoExit code]: [do_exit(code)] (kernel/exit.c) ends the running task;
    - [Fault]: the C code dereferences NULL or indexes an array out of bounds;
    - [Hang]: a loop that polls a device register never ends;
    - [NoFuel]: the bound given to a loop was too small (the theorems show that
      this does not happen). *)

Inductive which_queue := ReadQ | WriteQ | SecondaryQ.
Inductive waitq :=
  | WaitBuffer (bh : nat) | WaitBufferFree | WaitRequest
  | WaitInode (ino : nat) | WaitSuper (sb : nat) | WaitTty (tty : Z) (q : which_queue).

Inductive stop :=
  | Panic (msg : string) | Sleep (q : waitq) | Switch (task : Z) | DoExit (code : Z)
  | Fault (why : string) | Hang | NoFuel.

Inductive outcome (S A : Type) :=
  | Ok (a : A) (s : S)
  | Stop (e : stop) (s : S).
Arguments Ok {S A} a s.
Arguments Stop {S A} e s.

Definition M (S A : Type) : Type := S -> outcome S A.

Definition ret {S A} (a : A) : M S A := fun s => Ok a s.
Definition halt {S A} (e : stop) : M S A := fun s => Stop e s.
Definition bind {S A B} (m : M S A) (k : A -> M S B) : M S B :=
  fun s => match m s with Ok a s' => k a s' | Stop e s' => Stop e s' end.
Arguments bind : simpl never.
Definition gets {S A} (f : S -> A) : M S A := fun s => Ok (f s) s.
Definition modify {S} (f : S -> S) : M S unit := fun s => Ok tt (f s).
Definition panic {S A} (msg : string) : M S A := halt (Panic msg).
Definition fault {S A} (why : string) : M S A := halt (Fault why).

Notation "'let!' x := m 'in' k" := (bind m (fun x => k))
  (at level 10, x pattern, m at level 100, k at level 200,
   format "'[v' 'let!'  x  :=  m  'in' '/' k ']'") : kernel_scope.
Notation "m ;;; k" := (bind m (fun _ => k))
  (at level 100, k at level 200, right associativity,
   format "'[v' m  ;;; '/' k ']'") : kernel_scope.

Definition skip {S} : M S unit := ret tt.
Definition when {S} (b : bool) (m : M S unit) : M S unit := if b then m else skip.
Definition unwrap {S A} (why : string) (o : option A) : M S A :=
  match o with Some a => ret a | None => fault why end.

(** A C loop: [body] either goes round again ([inl]) or leaves ([inr]). *)
Fixpoint loop {S A B} (fuel : nat) (body : A -> M S (A + B)) (a : A) : M S B :=
  match fuel with
  | O => halt NoFuel
  | Datatypes.S n =>
      let! r := body a in
      match r with inl a' => loop n body a' | inr b => ret b end
  end.

(** [for(i = lo; i < lo + n; i++) body(i)]. *)
Fixpoint for_up {S} (lo : Z) (n : nat) (body : Z -> M S unit) : M S unit :=
  match n with
  | O => skip
  | Datatypes.S k => body lo ;;; for_up (lo + 1) k body
  end.

Lemma loop_S {S A B} n (body : A -> M S (A + B)) a :
  loop (Datatypes.S n) body a =
  bind (body a) (fun r => match r with inl a' => loop n body a' | inr b => ret b end).
Proof. reflexivity. Qed.

Section Monad.
Context {S A B : Type}.
Implicit Types (m : M S A) (k : A -> M S B) (s : S).

Lemma bind_Ok m k s a s' : m s = Ok a s' -> bind m k s = k a s'.
Proof. intros H. unfold bind. by rewrite H. Qed.
Lemma bind_Stop m k s e s' : m s = Stop e s' -> bind m k s = Stop e s'.
Proof. intros H. unfold bind. by rewrite H. Qed.
Lemma bind_Ok_inv m k s b s'' :
  bind m k s = Ok b s'' -> exists a s', m s = Ok a s' /\ k a s' = Ok b s''.
Proof. unfold bind. destruct (m s) as [a s'|]; [eauto|discriminate]. Qed.
Lemma bind_assoc {C} m k (h : B -> M S C) s :
  bind (bind m k) h s = bind m (fun a => bind (k a) h) s.
Proof. unfold bind. by destruct (m s). Qed.
End Monad.

(** [runs m s Q]: started in [s], the code returns, and [Q] holds of the value
    returned and of the state it leaves. *)
Definition runs {S A} (m : M S A) (s : S) (Q : A -> S -> Prop) : Prop :=
  match m s with Ok a s' => Q a s' | Stop _ _ => False end.

Arguments runs : simpl never.

(** [mayrun m s Q E]: as [runs], but the code may also stop, with [E]. *)
Definition mayrun {S A} (m : M S A) (s : S) (Q : A -> S -> Prop) (E : stop -> S -> Prop) : Prop :=
  match m s with Ok a s' => Q a s' | Stop e s' => E e s' end.

Section Runs.
Context {S A B : Type}.
Implicit Types (s : S).

Lemma runs_Ok (m : M S A) s Q : runs m s Q <-> exists a s', m s = Ok a s' /\ Q a s'.
Proof.
  unfold runs. destruct (m s) as [a s'|e s']; split.
  - eauto.
  - intros (?&?&[= -> ->]&?); done.
  - done.
  - intros (?&?&?&?); done.
Qed.
Lemma runs_ret (a : A) s (Q : A -> S -> Prop) : Q a s -> runs (ret a) s Q.
Proof. done. Qed.
Lemma runs_gets (f : S -> A) s (Q : A -> S -> Prop) : Q (f s) s -> runs (gets f) s Q.
Proof. done. Qed.
Lemma runs_modify (f : S -> S) s (Q : unit -> S -> Prop) : Q tt (f s) -> runs (modify f) s Q.
Proof. done. Qed.
Lemma runs_bind (m : M S A) (k : A -> M S B) s Q :
  runs m s (fun a s' => runs (k a) s' Q) -> runs (bind m k) s Q.
Proof. unfold runs, bind. by destruct (m s). Qed.
Lemma runs_step (m : M S A) (k : A -> M S B) s a s' Q :
  m s = Ok a s' -> runs (k a) s' Q -> runs (bind m k) s Q.
Proof. unfold runs. intros H. by rewrite (bind_Ok _ _ _ _ _ H). Qed.
Lemma runs_assoc {C} (m : M S A) (k : A -> M S B) (h : B -> M S C) s Q :
  runs (bind m (fun a => bind (k a) h)) s Q -> runs (bind (bind m k) h) s Q.
Proof. unfold runs. by rewrite bind_assoc. Qed.
Lemma runs_mono (m : M S A) s (Q Q' : A -> S -> Prop) :
  (forall a s', Q a s' -> Q' a s') -> runs m s Q -> runs m s Q'.
Proof. unfold runs. destruct (m s); eauto. Qed.
Lemma runs_conj (m : M S A) s Q Q' : runs m s Q -> runs m s Q' -> runs m s (fun a s' => Q a s' /\ Q' a s').
Proof. unfold runs. destruct (m s); eauto. Qed.

End Runs.

Section Loops.
Context {S A B : Type}.
Implicit Types (s : S).

(** Loops: an invariant with a measure that decreases at each round. *)
Lemma runs_loop (I : A -> S -> Prop) (mu : A -> S -> nat) (Q : B -> S -> Prop)
    (body : A -> M S (A + B)) fuel a s :
  (forall a s, I a s -> runs (body a) s (fun r s' =>
     match r with inl a' => I a' s' /\ (mu a' s' < mu a s)%nat | inr b => Q b s' end)) ->
  I a s -> (mu a s < fuel)%nat -> runs (loop fuel body a) s Q.
Proof.
  intros Hbody. revert a s. induction fuel as [|n IH]; intros a s HI Hmu; [lia|].
  cbn. apply runs_bind. eapply runs_mono; [|by apply Hbody].
  intros [a'|b] s'; cbn; [|done]. intros [??]. apply IH; [done|lia].
Qed.

Lemma runs_for_up (I : Z -> S -> Prop) (body : Z -> M S unit) n lo s :
  (forall i s, lo <= i < lo + Z.of_nat n -> I i s -> runs (body i) s (fun _ => I (i + 1))) ->
  I lo s -> runs (for_up lo n body) s (fun _ => I (lo + Z.of_nat n)).
Proof.
  revert lo s. induction n as [|n IH]; intros lo s Hbody HI; cbn.
  - apply runs_ret. by rewrite Z.add_0_r.
  - apply runs_bind. eapply runs_mono; [|apply Hbody; [lia|done]].
    intros ? s1 HI1. replace (lo + Z.of_nat (Datatypes.S n)) with (lo + 1 + Z.of_nat n) by lia.
    apply IH; [|done]. intros i s0 ? ?. apply Hbody; [lia|done].
Qed.
End Loops.

(** A component works on its own part of the kernel state: [zoom] runs it there. *)
Definition zoom {S T A} (get : S -> T) (put : T -> S -> S) (m : M T A) : M S A :=
  fun s => match m (get s) with
           | Ok a t => Ok a (put t s)
           | Stop e t => Stop e (put t s)
           end.

(** [mrun] executes the code in the goal as far as equations allow. *)
Ltac mrun :=
  repeat (cbn [ret halt gets modify panic fault skip when unwrap] in *;
          first [ rewrite bind_assoc
                | erewrite bind_Ok by (first [reflexivity | eassumption]) ]; cbv beta).

(** ** Lists as C arrays, indexed by [Z] *)

Definition idx {A} (l : list A) (i : Z) : option A :=
  if i <? 0 then None else l !! Z.to_nat i.
Definition upd_idx {A} (l : list A) (i : Z) (x : A) : list A := <[Z.to_nat i := x]> l.

Lemma idx_Some_bound {A} (l : list A) i x : idx l i = Some x -> 0 <= i < Z.of_nat (length l).
Proof.
  unfold idx. destruct (Z.ltb_spec i 0); [done|]. intros ?%lookup_lt_Some. lia.
Qed.
Lemma idx_is_Some {A} (l : list A) i : 0 <= i < Z.of_nat (length l) -> exists x, idx l i = Some x.
Proof.
  intros. unfold idx. destruct (Z.ltb_spec i 0); [lia|]. apply lookup_lt_is_Some. lia.
Qed.
Lemma idx_upd_eq {A} (l : list A) i x : 0 <= i < Z.of_nat (length l) -> idx (upd_idx l i x) i = Some x.
Proof.
  intros. unfold idx, upd_idx. destruct (Z.ltb_spec i 0); [lia|].
  apply list_lookup_insert_eq. lia.
Qed.
Lemma idx_upd_ne {A} (l : list A) i j x : 0 <= i -> i <> j -> idx (upd_idx l i x) j = idx l j.
Proof.
  intros. unfold idx, upd_idx. destruct (Z.ltb_spec j 0); [done|].
  apply list_lookup_insert_ne. lia.
Qed.
Lemma length_upd_idx {A} (l : list A) i x : length (upd_idx l i x) = length l.
Proof. apply length_insert. Qed.
Lemma upd_idx_upd_idx {A} (l : list A) i x y : upd_idx (upd_idx l i x) i y = upd_idx l i y.
Proof. apply list_insert_insert_eq. Qed.
Lemma upd_idx_id {A} (l : list A) i x : idx l i = Some x -> upd_idx l i x = l.
Proof.
  unfold idx, upd_idx. destruct (Z.ltb_spec i 0); [done|]. apply list_insert_id.
Qed.
#[export] Hint Rewrite @length_upd_idx @upd_idx_upd_idx : word.
