(* ===== verification/State.v ===== *)
(** * The kernel's data: the structures of [include/linux/*.h] and the global variables

    A structure of the C code is a record with the same fields.  A pointer into one
    of the static tables ([inode_table], [file_table], [super_block], [request], the
    buffer heads from [start_buffer] on) is the index of the entry, and [None] is
    NULL; a pointer to a [task_struct] is its address; every other pointer
    (page tables, buffer data, the RAM disk) is a physical address into [k_pmem].
    The kernel runs untranslated (machine mode), so [k_pmem] is the memory its
    loads and stores go to. *)
From Stdlib Require Import ZArith Lia String.
From stdpp Require Import base list gmap.
From S2P Require Import Prelude.
Open Scope Z_scope.

(** ** Constants of linux/fs.h, linux/mm.h, linux/sched.h, riscvfunc/include/page_table.h *)
Definition PAGE_SIZE : Z := 4096.
Definition LOW_MEM : Z := 0x80100000.
Definition PAGING_SIZE : Z := 4096.
Definition PAGING_SHIFT : Z := 12.
Definition PAGING_HIGH_LEVEL_SHIFT : Z := 21.
Definition PAGING_HIGH_LEVEL_SIZE : Z := 2 * 1024 * 1024.
Definition PAGING_MEMORY : Z := 15 * 1024 * 1024.
Definition PAGING_PAGES : Z := Z.shiftr PAGING_MEMORY PAGING_SHIFT.
Definition PAGE_ROOT_TABLE_NUM : Z := 8.
Definition PAGE_DIR_TABLE_NUM : Z := 512 * 4.
Definition PAGE_TABLE_ITEM_NUM : Z := 512.
Definition USER_START_ADDR : Z := 0xC0000000.
Definition USER_END_ADDR : Z :=
  USER_START_ADDR + PAGE_DIR_TABLE_NUM * PAGE_TABLE_ITEM_NUM * PAGE_SIZE - 1.
Definition GET_PAGE_DIR_ID (x : Z) : Z :=
  Z.shiftr (Z.land x 0x3FFFFFFF) PAGING_HIGH_LEVEL_SHIFT.
Definition GET_PAGE_DIR_SIZE (x : Z) : Z :=
  Z.shiftr (u64 (x + PAGING_HIGH_LEVEL_SIZE - 1)) PAGING_HIGH_LEVEL_SHIFT.
Definition GET_PAGE_ENTRY_ID (x : Z) : Z :=
  Z.shiftr (Z.land x (PAGING_HIGH_LEVEL_SIZE - 1)) PAGING_SHIFT.
Definition GET_PAGE_ID (x : Z) : Z := Z.shiftr (Z.land x 0x3FFFFFFF) PAGING_SHIFT.

Definition BLOCK_SIZE : Z := 1024.
Definition NR_OPEN : nat := 20.
Definition NR_INODE : nat := 32.
Definition NR_FILE : nat := 64.
Definition NR_SUPER : nat := 8.
Definition NR_HASH : Z := 307.
Definition NR_REQUEST : nat := 32.
Definition NR_BLK_DEV : Z := 7.
Definition I_MAP_SLOTS : nat := 8.
Definition Z_MAP_SLOTS : nat := 8.
Definition SUPER_MAGIC : Z := 0x137F.
Definition ROOT_INO : Z := 1.
Definition NAME_LEN : Z := 14.
Definition INODES_PER_BLOCK : Z := BLOCK_SIZE / 32.
Definition DIR_ENTRIES_PER_BLOCK : Z := BLOCK_SIZE / 16.
Definition READ : Z := 0.
Definition WRITE : Z := 1.
Definition READA : Z := 2.
Definition WRITEA : Z := 3.
(** [MAJOR(a)] on an unsigned value, [MINOR(a)]. *)
Definition MAJOR (a : Z) : Z := Z.shiftr (u32 a) 8.
Definition MINOR (a : Z) : Z := Z.land a 0xff.
Definition NR_TASKS : nat := 64.
Definition HZ : Z := 100.
Definition TASK_RUNNING : Z := 0.
Definition TASK_INTERRUPTIBLE : Z := 1.
Definition TASK_UNINTERRUPTIBLE : Z := 2.
Definition TASK_ZOMBIE : Z := 3.
Definition TASK_STOPPED : Z := 4.
Definition KERNEL_STACK_SIZE : Z := 32768.

(** ** File modes (sys/stat.h), error numbers (errno.h), signals (signal.h) *)
Definition S_IFMT : Z := 0xF000.
Definition S_ISREG (m : Z) : bool := Z.land m S_IFMT =? 0x8000.
Definition S_ISBLK (m : Z) : bool := Z.land m S_IFMT =? 0x6000.
Definition S_ISDIR (m : Z) : bool := Z.land m S_IFMT =? 0x4000.
Definition S_ISCHR (m : Z) : bool := Z.land m S_IFMT =? 0x2000.

Definition EPERM : Z := 1.
Definition ENOENT : Z := 2.
Definition ESRCH : Z := 3.
Definition EINTR : Z := 4.
Definition EIO : Z := 5.
Definition EBADF : Z := 9.
Definition ECHILD : Z := 10.
Definition EAGAIN : Z := 11.
Definition ENOMEM : Z := 12.
Definition EACCES : Z := 13.
Definition EINVAL : Z := 22.
Definition EMFILE : Z := 24.
Definition ENOSPC : Z := 28.
Definition ESPIPE : Z := 29.
Definition ENOSYS : Z := 38.
Definition SIGHUP : Z := 1.
Definition SIGKILL : Z := 9.
Definition SIGSEGV : Z := 11.
Definition SIGPIPE : Z := 13.
Definition SIGALRM : Z := 14.
Definition SIGCHLD : Z := 17.
Definition SIGSTOP : Z := 19.

(** ** Structures *)
(** [struct buffer_head] (linux/fs.h). *)
Record buffer_head := mkBufferHead {
  b_data : Z;
  b_blocknr : Z;
  b_dev : Z;
  b_uptodate : Z;
  b_dirt : Z;
  b_count : Z;
  b_lock : Z;
  b_wait : option Z;
  b_prev : option nat;
  b_next : option nat;
  b_prev_free : option nat;
  b_next_free : option nat }.
#[export] Instance eta_buffer_head : Eta buffer_head := fun r =>
  mkBufferHead (b_data r) (b_blocknr r) (b_dev r) (b_uptodate r) (b_dirt r) (b_count r) (b_lock r)
    (b_wait r) (b_prev r) (b_next r) (b_prev_free r) (b_next_free r).

(** [struct m_inode] (linux/fs.h); the fields up to [i_zone] are those of [struct d_inode]. *)
Record m_inode := mkInode {
  i_mode : Z;
  i_uid : Z;
  i_size : Z;
  i_mtime : Z;
  i_gid : Z;
  i_nlinks : Z;
  i_zone : list Z;
  i_wait : option Z;
  i_atime : Z;
  i_ctime : Z;
  i_dev : Z;
  i_num : Z;
  i_count : Z;
  i_lock : Z;
  i_dirt : Z;
  i_pipe : Z;
  i_mount : Z;
  i_seek : Z;
  i_update : Z }.
#[export] Instance eta_m_inode : Eta m_inode := fun r =>
  mkInode (i_mode r) (i_uid r) (i_size r) (i_mtime r) (i_gid r) (i_nlinks r) (i_zone r) (i_wait r)
    (i_atime r) (i_ctime r) (i_dev r) (i_num r) (i_count r) (i_lock r) (i_dirt r) (i_pipe r)
    (i_mount r) (i_seek r) (i_update r).

(** [struct file] (linux/fs.h). *)
Record file := mkFile {
  f_mode : Z;
  f_flags : Z;
  f_count : Z;
  f_inode : option nat;
  f_pos : Z }.
#[export] Instance eta_file : Eta file := fun r =>
  mkFile (f_mode r) (f_flags r) (f_count r) (f_inode r) (f_pos r).

(** [struct super_block] (linux/fs.h); the fields up to [s_magic] are those of [struct
    d_super_block]. *)
Record super_block := mkSuper {
  s_ninodes : Z;
  s_nzones : Z;
  s_imap_blocks : Z;
  s_zmap_blocks : Z;
  s_firstdatazone : Z;
  s_log_zone_size : Z;
  s_max_size : Z;
  s_magic : Z;
  s_imap : list (option nat);
  s_zmap : list (option nat);
  s_dev : Z;
  s_isup : option nat;
  s_imount : option nat;
  s_time : Z;
  s_wait : option Z;
  s_lock : Z;
  s_rd_only : Z;
  s_dirt : Z }.
#[export] Instance eta_super_block : Eta super_block := fun r =>
  mkSuper (s_ninodes r) (s_nzones r) (s_imap_blocks r) (s_zmap_blocks r) (s_firstdatazone r)
    (s_log_zone_size r) (s_max_size r) (s_magic r) (s_imap r) (s_zmap r) (s_dev r) (s_isup r)
    (s_imount r) (s_time r) (s_wait r) (s_lock r) (s_rd_only r) (s_dirt r).

(** [struct request] (kernel/blk_drv/blk.h). *)
Record request := mkRequest {
  rq_dev : Z;
  rq_cmd : Z;
  rq_errors : Z;
  rq_sector : Z;
  rq_nr_sectors : Z;
  rq_buffer : Z;
  rq_waiting : option Z;
  rq_bh : option nat;
  rq_next : option nat }.
#[export] Instance eta_request : Eta request := fun r =>
  mkRequest (rq_dev r) (rq_cmd r) (rq_errors r) (rq_sector r) (rq_nr_sectors r) (rq_buffer r)
    (rq_waiting r) (rq_bh r) (rq_next r).

(** [struct blk_dev_struct]: [request_fn] is set when a driver registered its request function. *)
Record blk_dev_struct := mkBlkDev {
  request_fn : bool;
  current_request : option nat }.
#[export] Instance eta_blk_dev_struct : Eta blk_dev_struct := fun r =>
  mkBlkDev (request_fn r) (current_request r).

(** [struct sigaction] (signal.h). *)
Record sigaction := mkSigaction {
  sa_handler : Z;
  sa_mask : Z;
  sa_flags : Z;
  sa_restorer : Z }.
#[export] Instance eta_sigaction : Eta sigaction := fun r =>
  mkSigaction (sa_handler r) (sa_mask r) (sa_flags r) (sa_restorer r).

(** [struct tss_struct] (linux/sched.h). *)
Record tss_struct := mkTss {
  tss_regs : list Z;
  tss_fregs : list Z;
  tss_epc : Z }.
#[export] Instance eta_tss_struct : Eta tss_struct := fun r =>
  mkTss (tss_regs r) (tss_fregs r) (tss_epc r).

(** [struct task_struct] (linux/sched.h). *)
Record task_struct := mkTask {
  t_state : Z;
  t_counter : Z;
  t_priority : Z;
  t_signal : Z;
  t_sigaction : list sigaction;
  t_blocked : Z;
  t_exit_code : Z;
  t_start_code : Z;
  t_end_code : Z;
  t_end_data : Z;
  t_brk : Z;
  t_start_stack : Z;
  t_pid : Z;
  t_father : Z;
  t_pgrp : Z;
  t_session : Z;
  t_leader : Z;
  t_uid : Z;
  t_euid : Z;
  t_suid : Z;
  t_gid : Z;
  t_egid : Z;
  t_sgid : Z;
  t_alarm : Z;
  t_utime : Z;
  t_stime : Z;
  t_cutime : Z;
  t_cstime : Z;
  t_start_time : Z;
  t_tty : Z;
  t_umask : Z;
  t_pwd : option nat;
  t_root : option nat;
  t_executable : option nat;
  t_close_on_exec : Z;
  t_filp : list (option nat);
  t_page_dir_table : Z;
  t_code_base : Z;
  t_data_base : Z;
  t_code_limit : Z;
  t_data_limit : Z;
  t_tss : tss_struct }.
#[export] Instance eta_task_struct : Eta task_struct := fun r =>
  mkTask (t_state r) (t_counter r) (t_priority r) (t_signal r) (t_sigaction r) (t_blocked r)
    (t_exit_code r) (t_start_code r) (t_end_code r) (t_end_data r) (t_brk r) (t_start_stack r)
    (t_pid r) (t_father r) (t_pgrp r) (t_session r) (t_leader r) (t_uid r) (t_euid r) (t_suid r)
    (t_gid r) (t_egid r) (t_sgid r) (t_alarm r) (t_utime r) (t_stime r) (t_cutime r) (t_cstime r)
    (t_start_time r) (t_tty r) (t_umask r) (t_pwd r) (t_root r) (t_executable r) (t_close_on_exec
    r) (t_filp r) (t_page_dir_table r) (t_code_base r) (t_data_base r) (t_code_limit r)
    (t_data_limit r) (t_tss r).

(** [struct termios] (termios.h), [struct tty_queue] and [struct tty_struct] (linux/tty.h).  The
    field [write] of a tty is always [rs_write]. *)
Record termios := mkTermios {
  c_iflag : Z;
  c_oflag : Z;
  c_cflag : Z;
  c_lflag : Z;
  c_line : Z;
  c_cc : list Z }.
#[export] Instance eta_termios : Eta termios := fun r =>
  mkTermios (c_iflag r) (c_oflag r) (c_cflag r) (c_lflag r) (c_line r) (c_cc r).
Record tty_queue := mkQueue {
  q_data : Z;
  q_head : Z;
  q_tail : Z;
  q_proc_list : option Z;
  q_buf : list Z }.
#[export] Instance eta_tty_queue : Eta tty_queue := fun r =>
  mkQueue (q_data r) (q_head r) (q_tail r) (q_proc_list r) (q_buf r).
Record tty_struct := mkTty {
  tt_termios : termios;
  tt_pgrp : Z;
  tt_stopped : Z;
  read_q : tty_queue;
  write_q : tty_queue;
  secondary : tty_queue }.
#[export] Instance eta_tty_struct : Eta tty_struct := fun r =>
  mkTty (tt_termios r) (tt_pgrp r) (tt_stopped r) (read_q r) (write_q r) (secondary r).

(** [trap_info_t] (trap.h): [ti_regs] and [ti_fregs] are the addresses of the saved registers. *)
Record trap_info_t := mkTrapInfo {
  ti_epc : Z;
  ti_newepc : Z;
  ti_regs : Z;
  ti_fregs : Z;
  ti_int_num : Z;
  ti_int_threshold : Z }.
#[export] Instance eta_trap_info_t : Eta trap_info_t := fun r =>
  mkTrapInfo (ti_epc r) (ti_newepc r) (ti_regs r) (ti_fregs r) (ti_int_num r) (ti_int_threshold r).

(** [plic_instance_t] (drivers/include/plic.h), [timer_instance_t] (drivers/timer.c); a function pointer
    is the address of the function, 0 for NULL. *)
Record plic_instance_t := mkPlicInstance { pi_callback : Z; pi_ctx : Z }.
#[export] Instance eta_plic_instance_t : Eta plic_instance_t := fun r => mkPlicInstance (pi_callback r) (pi_ctx r).
Record timer_instance_t := mkTimerInstance { tmi_callback : Z; tmi_ctx : Z; tmi_single_shot : Z }.
#[export] Instance eta_timer_instance_t : Eta timer_instance_t := fun r =>
  mkTimerInstance (tmi_callback r) (tmi_ctx r) (tmi_single_shot r).
(** An access to a register of a device, with the value that was read or written. *)
Inductive io_event := IoRead (a v : Z) | IoWrite (a v : Z).

(** [struct timer_list] (kernel/sched.c): [tm_fn] is the address of a function, [tm_next] the index
    of an entry of the table [timer_list]. *)
Record timer := mkTimer {
  tm_jiffies : Z;
  tm_fn : option Z;
  tm_next : option nat }.
#[export] Instance eta_timer : Eta timer := fun r => mkTimer (tm_jiffies r) (tm_fn r) (tm_next r).

(** ** Global variables, by the file that owns them *)
(** mm/memory.c: [mem_map], [HIGH_MEMORY]; [traned], [lastuseraddr], [lastkerneladdr] (the statics
    of the page_transform functions); riscvfunc/page_table.c: [page_dir_table] (0 is NULL);
    kernel/segment.c: [fs_is_kernel]. *)
Record mm_state := mkMm {
  mem_map : list Z;
  HIGH_MEMORY : Z;
  page_dir_table : Z;
  traned : bool;
  lastuseraddr : Z;
  lastkerneladdr : Z;
  fs_is_kernel : Z }.
#[export] Instance eta_mm_state : Eta mm_state := fun r =>
  mkMm (mem_map r) (HIGH_MEMORY r) (page_dir_table r) (traned r) (lastuseraddr r) (lastkerneladdr
    r) (fs_is_kernel r).

(** fs/buffer.c, kernel/blk_drv/ll_rw_blk.c and kernel/blk_drv/ramdisk.c.  [buffers] are the heads
    from [start_buffer] on. *)
Record blk_state := mkBlk {
  buffers : list buffer_head;
  hash_table : list (option nat);
  free_list : nat;
  buffer_wait : option Z;
  requests : list request;
  wait_for_request : option Z;
  blk_dev : list blk_dev_struct;
  rd_start : Z;
  rd_length : Z }.
#[export] Instance eta_blk_state : Eta blk_state := fun r =>
  mkBlk (buffers r) (hash_table r) (free_list r) (buffer_wait r) (requests r) (wait_for_request r)
    (blk_dev r) (rd_start r) (rd_length r).

(** fs/inode.c, fs/super.c, fs/file_table.c.  [last_inode] is the static of [get_empty_inode]. *)
Record fs_state := mkFs {
  inode_table : list m_inode;
  last_inode : nat;
  super_blocks : list super_block;
  file_table : list file;
  ROOT_DEV : Z }.
#[export] Instance eta_fs_state : Eta fs_state := fun r =>
  mkFs (inode_table r) (last_inode r) (super_blocks r) (file_table r) (ROOT_DEV r).

(** kernel/sched.c, kernel/fork.c, trap/trap_common.c ([trap_info], [trap_from_interrupt]).  [tasks] holds the task
    structures by address, [task] is the table of pointers to them. *)
Record sched_state := mkSched {
  tasks : gmap Z task_struct;
  task : list (option Z);
  current : Z;
  jiffies : Z;
  startup_time : Z;
  last_pid : Z;
  kernel_stack : list Z;
  kernel_stackbottom : list Z;
  cur_kernel_stack : Z;
  cur_kernel_stackbottom : Z;
  old_kernel_stack : Z;
  trap_info : trap_info_t;
  trap_from_interrupt : bool;
  timer_list : list timer;
  next_timer : option nat }.
#[export] Instance eta_sched_state : Eta sched_state := fun r =>
  mkSched (tasks r) (task r) (current r) (jiffies r) (startup_time r) (last_pid r) (kernel_stack
    r) (kernel_stackbottom r) (cur_kernel_stack r) (cur_kernel_stackbottom r) (old_kernel_stack r)
    (trap_info r) (trap_from_interrupt r) (timer_list r) (next_timer r).

(** kernel/chr_drv/tty_io.c: [tty_table], the static [cr_flag] of [tty_write], and the bytes that
    [serial_send_interrupt] has written to the UART, the last one first. *)
Record tty_state := mkTtyState {
  tty_table : list tty_struct;
  cr_flag : Z;
  uart_out : list Z }.
#[export] Instance eta_tty_state : Eta tty_state := fun r =>
  mkTtyState (tty_table r) (cr_flag r) (uart_out r).

(** drivers/plic.c ([plic_instance] by core and source, and the static flag of [plic_init]) and
    drivers/timer.c ([timer_instance] and [time_irq] by device and channel); [io_log] is the sequence of
    accesses to device registers, the last one first. *)
Record dev_state := mkDev {
  io_log : list io_event;
  plic_instance : list (list plic_instance_t);
  s_plic_priorities_init_flag : Z;
  timer_instance : list (list timer_instance_t);
  time_irq : list (list Z) }.
#[export] Instance eta_dev_state : Eta dev_state := fun r =>
  mkDev (io_log r) (plic_instance r) (s_plic_priorities_init_flag r) (timer_instance r) (time_irq r).

(** The whole kernel; [k_pmem] is physical memory. *)
Record kernel := mkKernel {
  k_mm : mm_state;
  k_blk : blk_state;
  k_fs : fs_state;
  k_sched : sched_state;
  k_pmem : memory;
  k_tty : tty_state;
  k_dev : dev_state }.
#[export] Instance eta_kernel : Eta kernel := fun r =>
  mkKernel (k_mm r) (k_blk r) (k_fs r) (k_sched r) (k_pmem r) (k_tty r) (k_dev r).

Abbreviation K := (M kernel).

(** ** Loads and stores of physical memory *)
Definition rd (n : nat) (a : Z) : K Z := gets (fun k => ld n (k_pmem k) a).
Definition wr (n : nat) (a v : Z) : K unit := modify (fun k => k <| k_pmem ::= fun m => st n m a v |>).
Definition rd8 := rd 1.
Definition rd16 := rd 2.
Definition rd32 := rd 4.
Definition rd64 := rd 8.
Definition wr8 := wr 1.
Definition wr16 := wr 2.
Definition wr32 := wr 4.
Definition wr64 := wr 8.
Definition kmemset (dst c len : Z) : K unit := modify (fun k => k <| k_pmem ::= fun m => memset m dst c len |>).
Definition kmemcpy (dst src len : Z) : K unit := modify (fun k => k <| k_pmem ::= fun m => memcpy m dst src len |>).

(** ** Table entries: reading through a pointer, and writing fields through it *)
Definition get_bh (b : nat) : K buffer_head :=
  let! l := gets (fun k => buffers (k_blk k)) in unwrap "buffer_head pointer" (l !! b).
Definition mod_bh (b : nat) (f : buffer_head -> buffer_head) : K unit :=
  let! h := get_bh b in
  modify (fun k => k <| k_blk ::= fun s => s <| buffers ::= fun l => <[b := f h]> l |> |>).
Definition get_rq (r : nat) : K request :=
  let! l := gets (fun k => requests (k_blk k)) in unwrap "request pointer" (l !! r).
Definition mod_rq (r : nat) (f : request -> request) : K unit :=
  let! q := get_rq r in
  modify (fun k => k <| k_blk ::= fun s => s <| requests ::= fun l => <[r := f q]> l |> |>).
Definition get_blk_dev (major : Z) : K blk_dev_struct :=
  let! l := gets (fun k => blk_dev (k_blk k)) in unwrap "blk_dev index" (idx l major).
Definition mod_blk_dev (major : Z) (f : blk_dev_struct -> blk_dev_struct) : K unit :=
  let! d := get_blk_dev major in
  modify (fun k => k <| k_blk ::= fun s => s <| blk_dev ::= fun l => upd_idx l major (f d) |> |>).
Definition get_inode (i : nat) : K m_inode :=
  let! l := gets (fun k => inode_table (k_fs k)) in unwrap "m_inode pointer" (l !! i).
Definition mod_inode (i : nat) (f : m_inode -> m_inode) : K unit :=
  let! n := get_inode i in
  modify (fun k => k <| k_fs ::= fun s => s <| inode_table ::= fun l => <[i := f n]> l |> |>).
Definition get_sb (i : nat) : K super_block :=
  let! l := gets (fun k => super_blocks (k_fs k)) in unwrap "super_block pointer" (l !! i).
Definition mod_sb (i : nat) (f : super_block -> super_block) : K unit :=
  let! n := get_sb i in
  modify (fun k => k <| k_fs ::= fun s => s <| super_blocks ::= fun l => <[i := f n]> l |> |>).
Definition get_file (i : nat) : K file :=
  let! l := gets (fun k => file_table (k_fs k)) in unwrap "file pointer" (l !! i).
Definition mod_file (i : nat) (f : file -> file) : K unit :=
  let! n := get_file i in
  modify (fun k => k <| k_fs ::= fun s => s <| file_table ::= fun l => <[i := f n]> l |> |>).
Definition get_task (p : Z) : K task_struct :=
  let! l := gets (fun k => tasks (k_sched k)) in unwrap "task_struct pointer" (l !! p).
Definition mod_task (p : Z) (f : task_struct -> task_struct) : K unit :=
  let! t := get_task p in
  modify (fun k => k <| k_sched ::= fun s => s <| tasks ::= fun l => <[p := f t]> l |> |>).
Definition get_tty (i : Z) : K tty_struct :=
  let! l := gets (fun k => tty_table (k_tty k)) in unwrap "tty_table index" (idx l i).
Definition mod_tty (i : Z) (f : tty_struct -> tty_struct) : K unit :=
  let! t := get_tty i in
  modify (fun k => k <| k_tty ::= fun s => s <| tty_table ::= fun l => upd_idx l i (f t) |> |>).
(** The three queues of a tty: [read_q], [write_q], [secondary]. *)
Definition queue_of (q : which_queue) (t : tty_struct) : tty_queue :=
  match q with ReadQ => read_q t | WriteQ => write_q t | SecondaryQ => secondary t end.
Definition mod_queue (i : Z) (q : which_queue) (f : tty_queue -> tty_queue) : K unit :=
  mod_tty i (fun t => match q with
    | ReadQ => t <| read_q ::= f |>
    | WriteQ => t <| write_q ::= f |>
    | SecondaryQ => t <| secondary ::= f |>
    end).
(** [current -> ...]. *)
Definition cur : K task_struct := let! p := gets (fun k => current (k_sched k)) in get_task p.
Definition mod_cur (f : task_struct -> task_struct) : K unit :=
  let! p := gets (fun k => current (k_sched k)) in mod_task p f.
(** [CURRENT_TIME] (linux/sched.h), [suser()] (linux/kernel.h). *)
Definition CURRENT_TIME : K Z :=
  gets (fun k => startup_time (k_sched k) + Z.quot (jiffies (k_sched k)) HZ).
Definition suser : K bool := let! t := cur in ret (t_euid t =? 0).
(** [wake_up(&q)] (kernel/sched.c) on the head [q] of a wait queue. *)
Definition wake_up (q : option Z) : K unit :=
  match q with Some p => mod_task p (fun t => t <| t_state := TASK_RUNNING |>) | None => skip end.

(** The address of the task structure of task 0. *)
Definition init_task : Z := 0x80020000.
(** The head of a wait queue, [*p]. *)
Definition set_waitq (q : waitq) (v : option Z) : K unit :=
  match q with
  | WaitBuffer b => mod_bh b (fun h => h <| b_wait := v |>)
  | WaitBufferFree => modify (fun k => k <| k_blk ::= fun s => s <| buffer_wait := v |> |>)
  | WaitRequest => modify (fun k => k <| k_blk ::= fun s => s <| wait_for_request := v |> |>)
  | WaitInode i => mod_inode i (fun n => n <| i_wait := v |>)
  | WaitSuper i => mod_sb i (fun n => n <| s_wait := v |>)
  | WaitTty t q => mod_queue t q (fun n => n <| q_proc_list := v |>)
  end.
(** [sleep_on(p)] (kernel/sched.c) up to its call of [schedule()].  The caller is then not
    runnable, so [schedule()] switches to another task and the activation stops here. *)
Definition sleep_on {A} (q : waitq) : K A :=
  let! self := gets (fun k => current (k_sched k)) in
  if self =? init_task then panic "task[0] trying to sleep"
  else
    set_waitq q (Some self) ;;;
    mod_cur (fun t => t <| t_state := TASK_UNINTERRUPTIBLE |>) ;;;
    halt (Sleep q).

(** What a successful access through a pointer does. *)
Lemma get_bh_Ok k b h : buffers (k_blk k) !! b = Some h -> get_bh b k = Ok h k.
Proof. intros H. unfold get_bh, bind, gets. by rewrite H. Qed.
Lemma mod_bh_Ok k b h f : buffers (k_blk k) !! b = Some h ->
  mod_bh b f k = Ok tt (k <| k_blk ::= fun s => s <| buffers ::= fun l => <[b := f h]> l |> |>).
Proof. intros H. unfold mod_bh. by rewrite (bind_Ok _ _ _ h k) by by apply get_bh_Ok. Qed.
Lemma get_inode_Ok k i n : inode_table (k_fs k) !! i = Some n -> get_inode i k = Ok n k.
Proof. intros H. unfold get_inode, bind, gets. by rewrite H. Qed.
Lemma cur_Ok k t : tasks (k_sched k) !! current (k_sched k) = Some t -> cur k = Ok t k.
Proof. intros H. unfold cur, get_task, bind, gets. by rewrite H. Qed.
(** ** A concrete state, used by the witnesses: the static data before [machine_main] runs
    (all zero), with the task structure of the initial task at [0x80020000]. *)
Definition zero_inode : m_inode :=
  mkInode 0 0 0 0 0 0 (replicate 9 0) None 0 0 0 0 0 0 0 0 0 0 0.
Definition zero_file : file := mkFile 0 0 0 None 0.
Definition zero_super : super_block :=
  mkSuper 0 0 0 0 0 0 0 0 (replicate I_MAP_SLOTS None) (replicate Z_MAP_SLOTS None)
    0 None None 0 None 0 0 0.
Definition zero_request : request := mkRequest 0 0 0 0 0 0 None None None.
Definition zero_sigaction : sigaction := mkSigaction 0 0 0 0.
Definition zero_task : task_struct :=
  mkTask 0 0 0 0 (replicate 32 zero_sigaction) 0 0 0 0 0 0 0 0 0 0 0 0 0 0 0 0 0 0 0 0 0 0 0 0 0 0
    None None None 0 (replicate NR_OPEN None) 0 0 0 0 0
    (mkTss (replicate 32 0) (replicate 32 0) 0).
Definition TIME_REQUESTS : nat := 64.
(** [tty_table] as tty_io.c initialises it: ICRNL, ISIG | ICANON | ECHO | ECHOPRT | ECHOKE, INIT_C_CC. *)
Definition TTY_BUF_SIZE : Z := 1024.
Definition init_tty : tty_struct :=
  let queue := mkQueue 0 0 0 None (replicate (Z.to_nat TTY_BUF_SIZE) 0) in
  mkTty (mkTermios 0x100 0 0 (1 + 2 + 8 + 0x400 + 0x800) 0 [3; 28; 127; 21; 4; 0; 1; 0; 17; 19; 26; 0; 18; 15; 23; 22; 0])
    0 0 queue queue queue.
Definition kernel0 : kernel :=
  mkKernel
    (mkMm (replicate (Z.to_nat PAGING_PAGES) 0) 0 0 false 0 0 0)
    (mkBlk [] (replicate (Z.to_nat NR_HASH) None) 0 None (replicate NR_REQUEST zero_request) None
       (replicate (Z.to_nat NR_BLK_DEV) (mkBlkDev false None)) 0 0)
    (mkFs (replicate NR_INODE zero_inode) 0 (replicate NR_SUPER zero_super)
       (replicate NR_FILE zero_file) 0)
    (mkSched {[init_task := zero_task]} (Some init_task :: replicate (NR_TASKS - 1) None) init_task
       0 0 0 (replicate NR_TASKS 0) (replicate NR_TASKS 0) 0 0 0 (mkTrapInfo 0 0 0 0 0 0) false
       (replicate TIME_REQUESTS (mkTimer 0 None None)) None)
    (fun _ => 0)
    (mkTtyState [init_tty] 0 [])
    (mkDev [] (replicate 2 (replicate 66 (mkPlicInstance 0 0))) 0 (replicate 3 (replicate 4 (mkTimerInstance 0 0 0)))
       (replicate 3 (replicate 4 0))).
