(* ===== verification/Mmio.v ===== *)
(** * Registers of devices (drivers/include/plic.h, drivers/include/timer.h, drivers/include/io.h)

    A device is what it answers: the class [Board] gives the value that a register read returns after a
    sequence of accesses, the number of the core, and whether an external interrupt is pending.  Every
    access to a register is recorded in [io_log], reads included, because a read of [claim_complete] or
    [eoi] changes the device.  The addresses are those of the structures [plic_t] and
    [kendryte_timer_t]. *)
From Stdlib Require Import ZArith Lia String.
From stdpp Require Import base list gmap.
From S2P Require Import Prelude State.
Open Scope Z_scope.

Class Board := {
  io_reply : list io_event -> Z -> Z;
  core_id : Z;
  meip_pending : list io_event -> bool }.

Definition mod_dev (f : dev_state -> dev_state) : K unit := modify (fun k => k <| k_dev ::= f |>).
Section Registers.
Context {BD : Board}.
(** A volatile load and store of 32 bits. *)
Definition readl (a : Z) : K Z :=
  let! log := gets (fun k => io_log (k_dev k)) in
  let v := u32 (io_reply log a) in
  mod_dev (fun d => d <| io_log ::= fun l => IoRead a v :: l |>) ;;;
  ret v.
Definition writel (a v : Z) : K unit := mod_dev (fun d => d <| io_log ::= fun l => IoWrite a (u32 v) :: l |>).
End Registers.

(** ** The interrupt controller *)
Definition PLIC_BASE_ADDR : Z := 0x0C000000.
Definition PLIC_NUM_CORES : nat := 2.
Definition IRQN_MAX : nat := 66.
Definition PLIC_NUM_SOURCES : Z := Z.of_nat IRQN_MAX - 1.
Definition PLIC_NUM_PRIORITIES : Z := 7.
(** [source_priorities.priority[i]], [target_enables.target[t].enable[i]],
    [targets.target[t].priority_threshold] and [.claim_complete] *)
Definition plic_priority (i : Z) : Z := PLIC_BASE_ADDR + 4 * i.
Definition plic_enable (t i : Z) : Z := PLIC_BASE_ADDR + 0x2000 + 256 * t + 4 * i.
Definition plic_threshold (t : Z) : Z := PLIC_BASE_ADDR + 0x200000 + 0x2000 * t.
Definition plic_claim_complete (t : Z) : Z := PLIC_BASE_ADDR + 0x200000 + 0x2000 * t + 4.

(** ** The timers *)
Definition TIMER_DEVICE_MAX : Z := 3.
Definition TIMER_CHANNEL_MAX : Z := 4.
Definition IRQN_TIMER0A_INTERRUPT : Z := 14.
Definition IRQN_TIMER0B_INTERRUPT : Z := 15.
(** [timer[n]], and of its channel [c] the registers [control], [eoi]; the [intr_stat] and [eoi] of all
    channels. *)
Definition timer_base (n : Z) : Z := 0x502D0000 + 0x10000 * n.
Definition timer_load_count (n c : Z) : Z := timer_base n + 20 * c.
Definition timer_current_value (n c : Z) : Z := timer_base n + 20 * c + 4.
Definition timer_control (n c : Z) : Z := timer_base n + 20 * c + 8.
Definition timer_channel_eoi (n c : Z) : Z := timer_base n + 20 * c + 12.
Definition timer_channel_intr_stat (n c : Z) : Z := timer_base n + 20 * c + 16.
Definition timer_intr_stat (n : Z) : Z := timer_base n + 0xa0.
Definition timer_eoi (n : Z) : Z := timer_base n + 0xa4.
Definition timer_raw_intr_stat (n : Z) : Z := timer_base n + 0xa8.
Definition timer_load_count2 (n c : Z) : Z := timer_base n + 0xb0 + 4 * c.
