(* ===== verification/Pte.v ===== *)
(** * Page-table entries (riscvfunc/page_table_entry.c, riscvfunc/include/page_table_entry.h)

    An entry is the 64-bit word of [struct pte_64model]: the flags V R W X U G A D
    in bits 0 to 7 and the physical page number in bits 10 to 47.  The functions on
    entries are given on the word ([pte_...]) and, as the C code has them, on the
    address of an entry in memory ([pte_common_...]). *)
From Stdlib Require Import ZArith Lia String.
From stdpp Require Import base list.
From S2P Require Import Prelude State.
Open Scope Z_scope.

(** ** Fields of [struct pte_64model] *)
Definition PTE_OFFSET_V : Z := 0.
Definition PTE_OFFSET_R : Z := 1.
Definition PTE_OFFSET_W : Z := 2.
Definition PTE_OFFSET_X : Z := 3.
Definition PTE_OFFSET_U : Z := 4.
Definition PTE_OFFSET_D : Z := 7.
Definition PTE_OFFSET_PPN : Z := 10.
Definition PTE_OFFSETBASE_ACCESSIBILITY : Z := 1.
Definition PTE_ADDR_OFFSET_LENGTH : Z := 12.
Definition pte_v : Z -> Z := get_field PTE_OFFSET_V 1.
Definition pte_r : Z -> Z := get_field PTE_OFFSET_R 1.
Definition pte_w : Z -> Z := get_field PTE_OFFSET_W 1.
Definition pte_x : Z -> Z := get_field PTE_OFFSET_X 1.
Definition pte_u : Z -> Z := get_field PTE_OFFSET_U 1.
Definition pte_d : Z -> Z := get_field PTE_OFFSET_D 1.
Definition pte_ppn : Z -> Z := get_field PTE_OFFSET_PPN 38.

(** [enum pte_accessibility]. *)
Definition pte_accessibility_pointer : Z := 0.
Definition pte_accessibility_readexecute : Z := 5.
Definition pte_accessibility_all : Z := 7.

(** ** The operations on the word of an entry *)
Definition pte_set_accessibility (accessibility w : Z) : Z :=
  let bit off := b2z (truth (Z.land accessibility
                   (Z.shiftl 1 (off - PTE_OFFSETBASE_ACCESSIBILITY)))) in
  let w := set_field PTE_OFFSET_R 1 (bit PTE_OFFSET_R) w in
  let w := set_field PTE_OFFSET_W 1 (bit PTE_OFFSET_W) w in
  set_field PTE_OFFSET_X 1 (bit PTE_OFFSET_X) w.
Definition pte_addr_to_ppn (addr w : Z) : Z :=
  set_field PTE_OFFSET_PPN 38 (Z.shiftr addr PTE_ADDR_OFFSET_LENGTH) w.
Definition pte_ppn_to_addr (w : Z) : Z := Z.shiftl (pte_ppn w) PTE_ADDR_OFFSET_LENGTH.
Definition pte_enable_entry (w : Z) : Z := set_field PTE_OFFSET_V 1 1 w.
Definition pte_disable_entry (w : Z) : Z := set_field PTE_OFFSET_V 1 0 w.
Definition pte_enable_user (w : Z) : Z := set_field PTE_OFFSET_U 1 1 w.
Definition pte_disable_user (w : Z) : Z := set_field PTE_OFFSET_U 1 0 w.
Definition pte_set_writeable (w : Z) : Z := set_field PTE_OFFSET_W 1 1 w.
(** The plain C assignment [pte -> w = 0] of [try_to_share]. *)
Definition pte_clear_writeable (w : Z) : Z := set_field PTE_OFFSET_W 1 0 w.

(** ** The operations on an entry in memory *)
Definition mod_pte (pte : Z) (f : Z -> Z) : K unit := let! w := rd64 pte in wr64 pte (f w).
Definition pte_common_init (pte itemnum : Z) : K unit := kmemset pte 0 (8 * itemnum).
Definition pte_common_set_accessibility (pte accessibility : Z) : K unit :=
  mod_pte pte (pte_set_accessibility accessibility).
Definition pte_common_addr_to_ppn (pte addr : Z) : K unit := mod_pte pte (pte_addr_to_ppn addr).
Definition pte_common_ppn_to_addr (pte : Z) : K Z :=
  let! w := rd64 pte in ret (pte_ppn_to_addr w).
Definition pte_common_enable_entry (pte : Z) : K unit := mod_pte pte pte_enable_entry.
Definition pte_common_disable_entry (pte : Z) : K unit := mod_pte pte pte_disable_entry.
Definition pte_common_enable_user (pte : Z) : K unit := mod_pte pte pte_enable_user.
Definition pte_common_disable_user (pte : Z) : K unit := mod_pte pte pte_disable_user.
Definition pte_common_set_writeable (pte : Z) : K unit := mod_pte pte pte_set_writeable.
(** [pte_refresh_tlb()] is [sfence.vm]; the translation look-aside buffer is not part
    of the state, so it has no effect here. *)
Definition pte_refresh_tlb : K unit := skip.

(** ** What the operations do to the fields *)
Section Fields.
Local Ltac fields := unfold pte_set_accessibility, pte_addr_to_ppn, pte_enable_entry,
  pte_disable_entry, pte_enable_user, pte_disable_user, pte_set_writeable, pte_clear_writeable,
  pte_v, pte_r, pte_w, pte_x, pte_u, pte_d, pte_ppn,
  PTE_OFFSET_V, PTE_OFFSET_R, PTE_OFFSET_W, PTE_OFFSET_X, PTE_OFFSET_U, PTE_OFFSET_D,
  PTE_OFFSET_PPN in *;
  repeat first [ rewrite get_set_field_same by lia
               | rewrite get_set_field_other by lia ]; try reflexivity.
Implicit Types (w addr a : Z).

Lemma v_set_accessibility a w : pte_v (pte_set_accessibility a w) = pte_v w.
Proof. fields. Qed.
Lemma u_set_accessibility a w : pte_u (pte_set_accessibility a w) = pte_u w.
Proof. fields. Qed.
Lemma d_set_accessibility a w : pte_d (pte_set_accessibility a w) = pte_d w.
Proof. fields. Qed.
Lemma ppn_set_accessibility a w : pte_ppn (pte_set_accessibility a w) = pte_ppn w.
Proof. fields. Qed.
Lemma w_set_readexecute w : pte_w (pte_set_accessibility pte_accessibility_readexecute w) = 0.
Proof. fields. Qed.
Lemma r_set_readexecute w : pte_r (pte_set_accessibility pte_accessibility_readexecute w) = 1.
Proof. fields. Qed.
Lemma w_set_all w : pte_w (pte_set_accessibility pte_accessibility_all w) = 1.
Proof. fields. Qed.
Lemma r_set_all w : pte_r (pte_set_accessibility pte_accessibility_all w) = 1.
Proof. fields. Qed.
Lemma x_set_all w : pte_x (pte_set_accessibility pte_accessibility_all w) = 1.
Proof. fields. Qed.
Lemma r_enable_entry w : pte_r (pte_enable_entry w) = pte_r w.
Proof. fields. Qed.
Lemma x_enable_entry w : pte_x (pte_enable_entry w) = pte_x w.
Proof. fields. Qed.
Lemma r_enable_user w : pte_r (pte_enable_user w) = pte_r w.
Proof. fields. Qed.
Lemma x_enable_user w : pte_x (pte_enable_user w) = pte_x w.
Proof. fields. Qed.
Lemma v_addr_to_ppn a w : pte_v (pte_addr_to_ppn a w) = pte_v w.
Proof. fields. Qed.
Lemma w_addr_to_ppn a w : pte_w (pte_addr_to_ppn a w) = pte_w w.
Proof. fields. Qed.
Lemma v_enable_entry w : pte_v (pte_enable_entry w) = 1.
Proof. fields. Qed.
Lemma w_enable_entry w : pte_w (pte_enable_entry w) = pte_w w.
Proof. fields. Qed.
Lemma u_enable_entry w : pte_u (pte_enable_entry w) = pte_u w.
Proof. fields. Qed.
Lemma ppn_enable_entry w : pte_ppn (pte_enable_entry w) = pte_ppn w.
Proof. fields. Qed.
Lemma v_enable_user w : pte_v (pte_enable_user w) = pte_v w.
Proof. fields. Qed.
Lemma w_enable_user w : pte_w (pte_enable_user w) = pte_w w.
Proof. fields. Qed.
Lemma u_enable_user w : pte_u (pte_enable_user w) = 1.
Proof. fields. Qed.
Lemma ppn_enable_user w : pte_ppn (pte_enable_user w) = pte_ppn w.
Proof. fields. Qed.
Lemma v_set_writeable w : pte_v (pte_set_writeable w) = pte_v w.
Proof. fields. Qed.
Lemma w_set_writeable w : pte_w (pte_set_writeable w) = 1.
Proof. fields. Qed.
Lemma ppn_set_writeable w : pte_ppn (pte_set_writeable w) = pte_ppn w.
Proof. fields. Qed.
Lemma ppn_addr_to_ppn a w :
  0 <= a < 2 ^ 50 -> pte_ppn (pte_addr_to_ppn a w) = Z.shiftr a 12.
Proof.
  intros. fields. unfold PTE_ADDR_OFFSET_LENGTH.
  rewrite Z.shiftr_div_pow2 by lia. apply Z.mod_small.
  split; [apply Z.div_pos; lia|]. apply Z.div_lt_upper_bound; lia.
Qed.
Lemma set_accessibility_bound a w : 0 <= w < 2 ^ 64 -> 0 <= pte_set_accessibility a w < 2 ^ 64.
Proof. intros. unfold pte_set_accessibility. repeat apply set_field_bound; done. Qed.
Lemma addr_to_ppn_bound a w : 0 <= w < 2 ^ 64 -> 0 <= pte_addr_to_ppn a w < 2 ^ 64.
Proof. intros. by apply set_field_bound. Qed.
Lemma enable_entry_bound w : 0 <= w < 2 ^ 64 -> 0 <= pte_enable_entry w < 2 ^ 64.
Proof. intros. by apply set_field_bound. Qed.
Lemma enable_user_bound w : 0 <= w < 2 ^ 64 -> 0 <= pte_enable_user w < 2 ^ 64.
Proof. intros. by apply set_field_bound. Qed.
Lemma set_writeable_bound w : 0 <= w < 2 ^ 64 -> 0 <= pte_set_writeable w < 2 ^ 64.
Proof. intros. by apply set_field_bound. Qed.
End Fields.

Create HintDb pte discriminated.
Create Rewrite HintDb pte.
#[export] Hint Rewrite v_set_accessibility u_set_accessibility d_set_accessibility
  ppn_set_accessibility w_set_readexecute r_set_readexecute w_set_all v_addr_to_ppn
  w_addr_to_ppn v_enable_entry w_enable_entry u_enable_entry ppn_enable_entry v_enable_user
  w_enable_user u_enable_user ppn_enable_user v_set_writeable w_set_writeable
  ppn_set_writeable r_set_all x_set_all r_enable_entry x_enable_entry r_enable_user
  x_enable_user : pte.
#[export] Hint Resolve set_accessibility_bound addr_to_ppn_bound enable_entry_bound
  enable_user_bound set_writeable_bound : pte.

(** A page-aligned address of the 50-bit physical space goes through an entry unchanged;
    of any other address the entry keeps the page. *)
Lemma ppn_to_addr_to_ppn a w :
  0 <= a < 2 ^ 50 -> pte_ppn_to_addr (pte_addr_to_ppn a w) = a - a mod PAGE_SIZE.
Proof.
  intros. unfold pte_ppn_to_addr. rewrite ppn_addr_to_ppn by done.
  unfold PTE_ADDR_OFFSET_LENGTH, PAGE_SIZE.
  rewrite Z.shiftr_div_pow2, Z.shiftl_mul_pow2 by lia. change (2 ^ 12) with 4096.
  pose proof (Z.div_mod a 4096). lia.
Qed.

(** Executing an operation on an entry in memory. *)
Definition pte_upd (f : Z -> Z) (m : memory) (a : Z) : memory := st 8 m a (f (ld 8 m a)).
(** The operations keep an entry a 64-bit word. *)
Definition word_op (f : Z -> Z) : Prop := forall w, 0 <= w < 2 ^ 64 -> 0 <= f w < 2 ^ 64.

Lemma mod_pte_Ok k pte f : mod_pte pte f k = Ok tt (k <| k_pmem ::= fun m => pte_upd f m pte |>).
Proof. reflexivity. Qed.
Lemma ld8_bound m a : 0 <= ld 8 m a < 2 ^ 64.
Proof. exact (ld_bound 8 m a). Qed.
Lemma ld8_st8 m a v : 0 <= v < 2 ^ 64 -> ld 8 (st 8 m a v) a = v.
Proof. intros. rewrite ld_st_same. apply Z.mod_small. exact H. Qed.
Lemma ld_pte_upd f m a : word_op f -> ld 8 (pte_upd f m a) a = f (ld 8 m a).
Proof. intros Hf. apply ld8_st8, Hf, ld8_bound. Qed.
Lemma ld_pte_upd_ne n f m a b :
  b + Z.of_nat n <= a \/ a + 8 <= b -> ld n (pte_upd f m a) b = ld n m b.
Proof. intros. by apply ld_st_disjoint. Qed.
Lemma pte_upd_ne f m a x : x < a \/ a + 8 <= x -> pte_upd f m a x = m x.
Proof. intros. unfold pte_upd, st. by rewrite in_range_false by (cbn; lia). Qed.

Lemma word_op_set_accessibility a : word_op (pte_set_accessibility a).
Proof. intros w. apply set_accessibility_bound. Qed.
Lemma word_op_addr_to_ppn a : word_op (pte_addr_to_ppn a).
Proof. intros w. apply addr_to_ppn_bound. Qed.
Lemma word_op_enable_entry : word_op pte_enable_entry.
Proof. intros w. apply enable_entry_bound. Qed.
Lemma word_op_enable_user : word_op pte_enable_user.
Proof. intros w. apply enable_user_bound. Qed.
Lemma word_op_set_writeable : word_op pte_set_writeable.
Proof. intros w. apply set_writeable_bound. Qed.
Lemma word_op_clear_writeable : word_op pte_clear_writeable.
Proof. intros w ?. by apply set_field_bound. Qed.
#[export] Hint Resolve word_op_set_accessibility word_op_addr_to_ppn word_op_enable_entry
  word_op_enable_user word_op_set_writeable word_op_clear_writeable : pte.
#[export] Hint Rewrite ld_pte_upd using (solve [auto with pte]) : pte.
