(* ===== verification/PageAlloc.v ===== *)
(** * Physical page allocation (mm/memory.c)

    [mem_map] holds one byte per page frame: the number of users of the frame, or
    [USED] for a frame that is not managed.  The file models [get_free_page],
    [get_free_pages], [free_page], [free_pages] and [mem_init], states the contract
    of an allocator of frames as the class [FrameAllocator] and proves that the
    code implements it. *)
From Stdlib Require Import ZArith Lia String.
From stdpp Require Import base list.
From S2P Require Import Prelude State.
Open Scope Z_scope.

Definition USED : Z := 100.
(** [MAP_NR(addr)]. *)
Definition MAP_NR (addr : Z) : Z := Z.shiftr (u64 (addr - LOW_MEM)) PAGING_SHIFT.

Definition get_mem_map (i : Z) : K Z :=
  let! l := gets (fun k => mem_map (k_mm k)) in unwrap "mem_map index" (idx l i).
Definition set_mem_map (i v : Z) : K unit :=
  let! _ := get_mem_map i in
  modify (fun k => k <| k_mm ::= fun s => s <| mem_map ::= fun l => upd_idx l i (u8 v) |> |>).

(** [while(--i) { ... }] of [get_free_page]; the argument is [i] before the decrement. *)
Fixpoint get_free_page_scan (i : nat) : K Z :=
  match i with
  | O => ret 0
  | S j =>
      if (j =? 0)%nat then ret 0
      else
        let! c := get_mem_map (Z.of_nat j) in
        if c =? 0 then
          set_mem_map (Z.of_nat j) 1 ;;;
          let addr := u64 (Z.shiftl (Z.of_nat j) PAGING_SHIFT + LOW_MEM) in
          kmemset addr 0 PAGING_SIZE ;;;
          ret addr
        else get_free_page_scan j
  end.
Definition get_free_page : K Z := get_free_page_scan (Z.to_nat PAGING_PAGES).

(** The first [for] loop of [get_free_pages]: looks for a used frame among
    [j], [j - 1], ..., [lo]; [Some j'] is the first one found. *)
Definition find_used (fuel : nat) (lo j : Z) : K (option Z) :=
  loop fuel (fun j =>
    if lo <=? j then
      let! c := get_mem_map j in
      if negb (c =? 0) then ret (inr (Some j)) else ret (inl (u64 (j - 1)))
    else ret (inr None)) j.
(** The second [for] loop: marks the frames [j] down to [lo]. *)
Definition mark_used (fuel : nat) (lo j : Z) : K unit :=
  loop fuel (fun j =>
    if lo <=? j then set_mem_map j 1 ;;; ret (inl (u64 (j - 1)))
    else ret (inr tt)) j.
Definition get_free_pages (pagenum : Z) : K Z :=
  let fuel := S (Z.to_nat PAGING_PAGES) in
  loop fuel (fun i =>
    if u64 (pagenum - 1) <? i then
      let lo := u64 (i - pagenum + 1) in
      let! used := find_used fuel lo i in
      match used with
      | Some j => ret (inl (u64 (j - 1)))
      | None =>
          mark_used fuel lo i ;;;
          let addr := u64 (Z.shiftl (u64 (i - pagenum + 1)) PAGING_SHIFT + LOW_MEM) in
          kmemset addr 0 (PAGING_SIZE * pagenum) ;;;
          ret (inr addr)
      end
    else ret (inr 0)) (PAGING_PAGES - 1).

Definition free_page (addr : Z) : K unit :=
  if addr <? LOW_MEM then skip
  else
    let! high := gets (fun k => HIGH_MEMORY (k_mm k)) in
    if high <=? addr then panic "trying to free nonexistent page"
    else
      let i := Z.shiftr (addr - LOW_MEM) PAGING_SHIFT in
      let! c := get_mem_map i in
      set_mem_map i (c - 1) ;;;
      if truth c then skip
      else set_mem_map i 0 ;;; panic "trying to free free page".

(** [for(i = 0;i < pagenum;i++,addr += PAGE_SIZE) free_page(addr)]. *)
Definition free_pages (addr pagenum : Z) : K unit :=
  for_up 0 (Z.to_nat pagenum) (fun i => free_page (u64 (addr + i * PAGE_SIZE))).

(** [mem_init]: [i] is an [int] and [end_mem] counts down to zero. *)
Definition mem_init (start_mem end_mem : Z) : K unit :=
  modify (fun k => k <| k_mm ::= fun s => s <| HIGH_MEMORY := end_mem |> |>) ;;;
  for_up 0 (Z.to_nat PAGING_PAGES) (fun i => set_mem_map i USED) ;;;
  let i := s32 (MAP_NR start_mem) in
  let n := Z.shiftr (u64 (end_mem - start_mem)) PAGING_SHIFT in
  for_up i (Z.to_nat n) (fun j => set_mem_map j 0).

(** ** Invariant and abstraction *)

Definition wf_mm (k : kernel) : Prop :=
  Z.of_nat (length (mem_map (k_mm k))) = PAGING_PAGES /\
  Forall (fun c => 0 <= c < 256) (mem_map (k_mm k)).

(** Abstract view: the use count of frame [i], and the frame's address. *)
Definition count (k : kernel) (i : Z) : Z := default USED (idx (mem_map (k_mm k)) i).
Definition frame_addr (i : Z) : Z := LOW_MEM + i * PAGING_SIZE.
Definition is_frame (i : Z) : Prop := 1 <= i < PAGING_PAGES.

(** The state after frame [i] got the count [c]. *)
Definition set_count (i c : Z) (k : kernel) : kernel :=
  k <| k_mm ::= fun s => s <| mem_map ::= fun l => upd_idx l i c |> |>.
Definition zero_page (a n : Z) (k : kernel) : kernel :=
  k <| k_pmem ::= fun m => memset m a 0 n |>.

Lemma PAGING_PAGES_val : PAGING_PAGES = 3840.
Proof. reflexivity. Qed.
#[export] Hint Rewrite PAGING_PAGES_val : word.

Section Counts.
Implicit Types (k : kernel) (i c : Z).

Lemma wf_idx k i : wf_mm k -> 0 <= i < PAGING_PAGES -> idx (mem_map (k_mm k)) i = Some (count k i).
Proof.
  intros [Hl _] Hi. unfold count. by destruct (idx_is_Some (mem_map (k_mm k)) i ltac:(lia)) as [c ->].
Qed.
Lemma count_bound k i : wf_mm k -> 0 <= i < PAGING_PAGES -> 0 <= count k i < 256.
Proof.
  intros Hwf Hi. pose proof (wf_idx k i Hwf Hi) as H. destruct Hwf as [_ Hf].
  unfold idx in H. destruct (i <? 0); [done|]. exact (Forall_lookup_1 _ _ _ _ Hf H).
Qed.
Lemma wf_set_count k i c : wf_mm k -> 0 <= c < 256 -> wf_mm (set_count i c k).
Proof.
  intros [Hl Hf] Hc. unfold wf_mm, set_count. rsimpl. rewrite length_upd_idx.
  split; [done|]. by apply Forall_insert.
Qed.
Lemma wf_zero_page k a n : wf_mm (zero_page a n k) <-> wf_mm k.
Proof. reflexivity. Qed.
Lemma count_set_eq k i c : wf_mm k -> 0 <= i < PAGING_PAGES -> count (set_count i c k) i = c.
Proof.
  intros [Hl _] Hi. unfold count, set_count. rsimpl. rewrite idx_upd_eq by lia. done.
Qed.
Lemma count_set_ne k i j c : 0 <= i -> i <> j -> count (set_count i c k) j = count k j.
Proof. intros. unfold count, set_count. rsimpl. by rewrite idx_upd_ne. Qed.
Lemma set_count_twice k i c c' : set_count i c' (set_count i c k) = set_count i c' k.
Proof.
  destruct k as [[] ?????]. unfold set_count, upd. cbn. by rewrite upd_idx_upd_idx.
Qed.
Lemma get_mem_map_Ok k i : wf_mm k -> 0 <= i < PAGING_PAGES -> get_mem_map i k = Ok (count k i) k.
Proof. intros. unfold get_mem_map, bind, gets. by rewrite wf_idx. Qed.
Lemma set_mem_map_Ok k i v :
  wf_mm k -> 0 <= i < PAGING_PAGES -> set_mem_map i v k = Ok tt (set_count i (u8 v) k).
Proof. intros. unfold set_mem_map. erewrite bind_Ok by by apply get_mem_map_Ok. done. Qed.
End Counts.

Lemma frame_addr_shift i : 0 <= i < 2 ^ 51 -> u64 (Z.shiftl i PAGING_SHIFT + LOW_MEM) = frame_addr i.
Proof.
  intros. unfold frame_addr, PAGING_SHIFT, PAGING_SIZE. rewrite Z.shiftl_mul_pow2 by lia.
  rewrite u64_small; unfold LOW_MEM; lia.
Qed.
Lemma MAP_NR_frame_addr i d : 0 <= i < 2 ^ 51 -> 0 <= d < PAGING_SIZE -> MAP_NR (frame_addr i + d) = i.
Proof.
  unfold MAP_NR, frame_addr, PAGING_SHIFT, PAGING_SIZE. intros.
  rewrite u64_small by (unfold LOW_MEM; lia). rewrite Z.shiftr_div_pow2 by lia.
  replace (LOW_MEM + i * 4096 + d - LOW_MEM) with (d + i * 2 ^ 12) by lia.
  rewrite Z.div_add, Z.div_small by lia. lia.
Qed.

(** ** [get_free_page] *)

(** The frame the scan from [i] downwards finds. *)
Definition last_free (k : kernel) (n : Z) (i : Z) : Prop :=
  1 <= i < n /\ count k i = 0 /\ forall j, i < j < n -> count k j <> 0.

Lemma get_free_page_scan_spec k n :
  wf_mm k -> Z.of_nat n <= PAGING_PAGES ->
  (exists i, last_free k (Z.of_nat n) i /\
     get_free_page_scan n k =
     Ok (frame_addr i) (zero_page (frame_addr i) PAGING_SIZE (set_count i 1 k))) \/
  ((forall j, 1 <= j < Z.of_nat n -> count k j <> 0) /\ get_free_page_scan n k = Ok 0 k).
Proof.
  intros Hwf. induction n as [|n IH]; intros Hn; [right; split; [lia|done]|].
  cbn [get_free_page_scan]. destruct (Nat.eqb_spec n 0); [right; split; [lia|done]|].
  erewrite bind_Ok by (apply get_mem_map_Ok; [done|lia]).
  destruct (Z.eqb_spec (count k (Z.of_nat n)) 0) as [H0|H0].
  - left. exists (Z.of_nat n). split; [split_and!; [lia..|done|lia]|].
    erewrite bind_Ok by (apply set_mem_map_Ok; [done|lia]).
    rewrite PAGING_PAGES_val in Hn. rewrite frame_addr_shift by lia. reflexivity.
  - destruct IH as [(i&(?&?&Hj)&->)|(Hj&->)]; [lia|left|right].
    + exists i. split; [|done]. split_and!; [lia..|done|].
      intros j ?. destruct (decide (j = Z.of_nat n)) as [->|]; [done|]. apply Hj; lia.
    + split; [|done]. intros j ?. destruct (decide (j = Z.of_nat n)) as [->|]; [done|].
      apply Hj. lia.
Qed.

(** [get_free_page]: on every branch. *)
Lemma get_free_page_cases k :
  wf_mm k ->
  (exists i, last_free k PAGING_PAGES i /\
     get_free_page k =
     Ok (frame_addr i) (zero_page (frame_addr i) PAGING_SIZE (set_count i 1 k))) \/
  ((forall j, is_frame j -> count k j <> 0) /\ get_free_page k = Ok 0 k).
Proof.
  intros Hwf. unfold get_free_page. rewrite PAGING_PAGES_val.
  exact (get_free_page_scan_spec k (Z.to_nat 3840) Hwf ltac:(rewrite PAGING_PAGES_val; lia)).
Qed.

(** ** [free_page] *)

Lemma free_page_low k a : a < LOW_MEM -> free_page a k = Ok tt k.
Proof. intros. unfold free_page. by replace (a <? LOW_MEM) with true by lia. Qed.

Lemma free_page_high k a :
  LOW_MEM <= a -> HIGH_MEMORY (k_mm k) <= a ->
  free_page a k = Stop (Panic "trying to free nonexistent page") k.
Proof.
  intros. unfold free_page. replace (a <? LOW_MEM) with false by lia.
  unfold bind, gets. by replace (HIGH_MEMORY (k_mm k) <=? a) with true by lia.
Qed.

Lemma free_page_frame k i d :
  wf_mm k -> 0 <= i < PAGING_PAGES -> 0 <= d < PAGING_SIZE ->
  frame_addr i + d < HIGH_MEMORY (k_mm k) ->
  free_page (frame_addr i + d) k =
  if truth (count k i) then Ok tt (set_count i (count k i - 1) k)
  else Stop (Panic "trying to free free page") (set_count i 0 k).
Proof.
  intros Hwf Hi Hd Hh. unfold free_page.
  replace (frame_addr i + d <? LOW_MEM) with false by (unfold frame_addr, PAGING_SIZE in *; lia).
  unfold gets, bind at 1. replace (HIGH_MEMORY (k_mm k) <=? frame_addr i + d) with false by lia.
  replace (Z.shiftr (frame_addr i + d - LOW_MEM) PAGING_SHIFT) with i.
  2:{ unfold frame_addr, PAGING_SIZE, PAGING_SHIFT in *. rewrite Z.shiftr_div_pow2 by lia.
      replace (LOW_MEM + i * 4096 + d - LOW_MEM) with (d + i * 2 ^ 12) by lia.
      rewrite Z.div_add, Z.div_small; lia. }
  erewrite bind_Ok by by apply get_mem_map_Ok.
  erewrite bind_Ok by by apply set_mem_map_Ok.
  pose proof (count_bound k i Hwf Hi) as Hc.
  destruct (truth (count k i)) eqn:Ht.
  - apply truth_true in Ht. by rewrite u8_small by lia.
  - apply truth_false in Ht.
    erewrite bind_Ok by (apply set_mem_map_Ok; [apply wf_set_count; [done|apply u8_bound]|done]).
    unfold panic, halt. by rewrite set_count_twice.
Qed.

(** ** The contract of an allocator of frames *)

(** [alloc] hands out a free frame, zeroed, with count 1, or says there is none; [free]
    drops one use of a frame.  Nothing else changes. *)
Class FrameAllocator (alloc : K Z) (free : Z -> K unit) := {
  alloc_spec k : wf_mm k ->
    runs alloc k (fun a k' => wf_mm k' /\
      ((a = 0 /\ k' = k /\ forall j, is_frame j -> count k j <> 0) \/
       (exists i, is_frame i /\ a = frame_addr i /\ count k i = 0 /\
          k' = zero_page a PAGING_SIZE (set_count i 1 k))));
  free_spec k i : wf_mm k -> is_frame i -> count k i <> 0 ->
    frame_addr i < HIGH_MEMORY (k_mm k) ->
    runs (free (frame_addr i)) k (fun _ k' => wf_mm k' /\ k' = set_count i (count k i - 1) k)
}.

#[export] Instance page_allocator : FrameAllocator get_free_page free_page.
Proof.
  split.
  - intros k Hwf. unfold runs.
    destruct (get_free_page_cases k Hwf) as [(i&(?&?&?)&->)|(?&->)].
    + split; [apply wf_set_count; [done|lia]|]. right. by exists i.
    + split; [done|]. by left.
  - intros k i Hwf Hi Hc Hh. unfold runs, is_frame in *.
    rewrite <- (Z.add_0_r (frame_addr i)).
    rewrite free_page_frame by (unfold PAGING_SIZE; try lia; done).
    apply truth_true in Hc as Ht. rewrite Ht. split; [|done].
    pose proof (count_bound k i Hwf ltac:(lia)). apply wf_set_count; [done|lia].
Qed.

(** ** [get_free_pages] *)

(** [n] consecutive free frames from [i] on, none of them frame 0. *)
Definition free_run (k : kernel) (n i : Z) : Prop :=
  1 <= i /\ i + n <= PAGING_PAGES /\ forall j, i <= j < i + n -> count k j = 0.
(** The counts after [n] frames from [lo] on were marked, the highest first. *)
Fixpoint mark_down (n : nat) (lo : Z) (k : kernel) : kernel :=
  match n with O => k | S m => mark_down m lo (set_count (lo + Z.of_nat m) 1 k) end.

Lemma wf_mark_down n lo k : wf_mm k -> wf_mm (mark_down n lo k).
Proof.
  revert k. induction n as [|n IH]; intros k Hwf; [done|]. apply IH, wf_set_count; [done|lia].
Qed.
Lemma count_mark_down n lo k j :
  wf_mm k -> 0 <= lo -> lo + Z.of_nat n <= PAGING_PAGES ->
  count (mark_down n lo k) j = if (lo <=? j) && (j <? lo + Z.of_nat n) then 1 else count k j.
Proof.
  revert k. induction n as [|n IH]; intros k Hwf ??; cbn [mark_down].
  - by rewrite in_range_false by lia.
  - rewrite IH by (try apply wf_set_count; try done; lia).
    destruct (decide (j = lo + Z.of_nat n)) as [->|].
    + rewrite count_set_eq by (try done; lia).
      rewrite (in_range_true lo _ (Z.of_nat (S n))) by lia. by rewrite in_range_false by lia.
    + rewrite count_set_ne by lia.
      replace (j <? lo + Z.of_nat (S n)) with (j <? lo + Z.of_nat n); [done|].
      destruct (Z.ltb_spec j (lo + Z.of_nat n)), (Z.ltb_spec j (lo + Z.of_nat (S n))); lia.
Qed.
Lemma mark_down_frame n lo k :
  k_pmem (mark_down n lo k) = k_pmem k /\ k_blk (mark_down n lo k) = k_blk k /\
  k_fs (mark_down n lo k) = k_fs k /\ k_sched (mark_down n lo k) = k_sched k /\
  HIGH_MEMORY (k_mm (mark_down n lo k)) = HIGH_MEMORY (k_mm k) /\
  page_dir_table (k_mm (mark_down n lo k)) = page_dir_table (k_mm k).
Proof. revert k. induction n as [|n IH]; intros k; [done|]. exact (IH (set_count _ 1 k)). Qed.

Lemma find_used_spec k fuel lo j :
  wf_mm k -> 1 <= lo -> lo - 1 <= j < PAGING_PAGES -> (Z.to_nat (j + 1 - lo) < fuel)%nat ->
  runs (find_used fuel lo j) k (fun r k' => k' = k /\
    match r with
    | Some u => lo <= u <= j /\ count k u <> 0
    | None => forall x, lo <= x <= j -> count k x = 0
    end).
Proof.
  intros Hwf Hlo Hj Hfuel. unfold find_used.
  apply (runs_loop (fun a s => s = k /\ lo - 1 <= a <= j /\ forall x, a < x <= j -> count k x = 0)
           (fun a _ => Z.to_nat (a + 1 - lo))); [|split_and!; [done|lia..]|done].
  intros a s (->&?&Hx). destruct (Z.leb_spec lo a); [|by apply runs_ret; split; [|intros; apply Hx; lia]].
  rewrite PAGING_PAGES_val in *.
  apply runs_bind. unfold runs at 1. rewrite get_mem_map_Ok by (rewrite ?PAGING_PAGES_val; lia || done).
  destruct (Z.eqb_spec (count k a) 0); cbn; apply runs_ret; cbn.
  - rewrite u64_small by lia. split; [|lia]. split_and!; [done|lia..|].
    intros x ?. destruct (decide (x = a)) as [->|]; [done|]. apply Hx; lia.
  - split; [done|]. split; [lia|done].
Qed.

Lemma mark_used_spec n k fuel lo :
  wf_mm k -> 1 <= lo -> lo + Z.of_nat n <= PAGING_PAGES -> (n < fuel)%nat ->
  mark_used fuel lo (lo + Z.of_nat n - 1) k = Ok tt (mark_down n lo k).
Proof.
  rewrite PAGING_PAGES_val. revert k fuel.
  induction n as [|n IH]; intros k fuel Hwf ?? Hf; (destruct fuel as [|fuel]; [lia|]);
    unfold mark_used; cbn [loop]; fold mark_used.
  - replace (lo <=? lo + Z.of_nat 0 - 1) with false by blia. done.
  - replace (lo <=? lo + Z.of_nat (S n) - 1) with true by blia.
    rewrite bind_assoc. erewrite bind_Ok by (apply set_mem_map_Ok; rewrite ?PAGING_PAGES_val; done || lia).
    rewrite u8_small, u64_small by lia. unfold ret at 1, bind at 1.
    replace (lo + Z.of_nat (S n) - 1 - 1) with (lo + Z.of_nat n - 1) by lia.
    replace (lo + Z.of_nat (S n) - 1) with (lo + Z.of_nat n) by lia.
    apply IH; [apply wf_set_count; [done|lia]|lia..].
Qed.

(** [get_free_pages(n)] finds the highest run of [n] free frames when there is one, and
    answers 0 exactly when there is none. *)
Lemma get_free_pages_cases k n :
  wf_mm k -> 1 <= n < PAGING_PAGES ->
  runs (get_free_pages n) k (fun a k' => wf_mm k' /\
    ((a = 0 /\ k' = k /\ forall i, ~ free_run k n i) \/
     (exists i, free_run k n i /\ (forall i', i < i' -> ~ free_run k n i') /\
        a = frame_addr i /\
        k' = zero_page a (PAGING_SIZE * n) (mark_down (Z.to_nat n) i k)))).
Proof.
  intros Hwf Hn. unfold get_free_pages. pose proof PAGING_PAGES_val as HP.
  apply (runs_loop (fun a s => s = k /\ 0 <= a < PAGING_PAGES /\
                      forall i, a < i + n - 1 -> ~ free_run k n i) (fun a _ => Z.to_nat a)).
  2:{ split_and!; [done|lia..|]. intros i ? (?&?&?). lia. }
  2:{ lia. }
  intros a s (->&Ha&Hno). rewrite u64_small by lia.
  destruct (Z.ltb_spec (n - 1) a).
  2:{ apply runs_ret. split; [done|]. left. split_and!; [done..|].
      intros i Hr. apply (Hno i); [destruct Hr; lia|done]. }
  rewrite !(u64_small (a - n + 1)) by lia.
  apply runs_bind. eapply runs_mono; [|apply find_used_spec; [done|lia..]].
  intros [u|] s; cbv beta iota; intros [-> Hr].
  - apply runs_ret. rewrite u64_small by lia. split; [|lia]. split_and!; [done|lia..|].
    intros i Hi Hrun. destruct (decide (a < i + n - 1)) as [|]; [by apply (Hno i)|].
    destruct Hr as [? Hc]. apply Hc, Hrun. lia.
  - apply runs_bind. unfold runs at 1.
    pose proof (mark_used_spec (Z.to_nat n) k (S (Z.to_nat PAGING_PAGES)) (a - n + 1)) as Hm.
    replace (a - n + 1 + Z.of_nat (Z.to_nat n) - 1) with a in Hm by lia.
    rewrite Hm by (try done; lia). cbn [kmemset modify]. apply runs_bind, runs_modify, runs_ret.
    rewrite frame_addr_shift by lia.
    split; [by apply wf_mark_down|]. right. exists (a - n + 1). split_and!; [split_and!; [lia..|]| |done..].
    + intros j ?. apply Hr. lia.
    + intros i' ?. apply Hno. lia.
Qed.

(** ** [mem_init] *)

Lemma for_set_mem_map k lo n v :
  wf_mm k -> 0 <= lo -> lo + Z.of_nat n <= PAGING_PAGES ->
  runs (for_up lo n (fun i => set_mem_map i v)) k (fun _ k' => wf_mm k' /\
    HIGH_MEMORY (k_mm k') = HIGH_MEMORY (k_mm k) /\
    forall j, 0 <= j < PAGING_PAGES ->
      count k' j = if (lo <=? j) && (j <? lo + Z.of_nat n) then u8 v else count k j).
Proof.
  intros Hwf Hlo Hn.
  apply (runs_for_up (fun i k' => wf_mm k' /\ HIGH_MEMORY (k_mm k') = HIGH_MEMORY (k_mm k) /\
    forall j, 0 <= j < PAGING_PAGES ->
      count k' j = if (lo <=? j) && (j <? i) then u8 v else count k j)).
  - intros i s Hi (Hs&Hh&Hj). unfold runs. rewrite set_mem_map_Ok by (done || lia).
    split_and!; [apply wf_set_count; [done|apply u8_bound]|done|].
    intros j ?. destruct (decide (j = i)) as [->|].
    + rewrite count_set_eq by (done || lia).
      replace (lo <=? i) with true by lia. by replace (i <? i + 1) with true by lia.
    + rewrite count_set_ne, Hj by lia. by replace (j <? i + 1) with (j <? i) by lia.
  - split_and!; [done..|]. intros j ?. rewrite andb_comm.
    destruct (Z.ltb_spec j lo), (Z.leb_spec lo j); cbn; done || lia.
Qed.

(** After booting with [mem_init(start,end)] the frames from [start] to [end] are free and
    every other frame is [USED]. *)
Lemma mem_init_counts k start_mem end_mem :
  wf_mm k -> LOW_MEM <= start_mem <= end_mem -> end_mem <= LOW_MEM + PAGING_MEMORY ->
  (start_mem - LOW_MEM) mod PAGE_SIZE = 0 -> (end_mem - LOW_MEM) mod PAGE_SIZE = 0 ->
  runs (mem_init start_mem end_mem) k (fun _ k' => wf_mm k' /\
    HIGH_MEMORY (k_mm k') = end_mem /\
    forall j, 0 <= j < PAGING_PAGES ->
      count k' j = if (start_mem <=? frame_addr j) && (frame_addr j <? end_mem) then 0 else USED).
Proof.
  intros Hwf Hs He Hm1 Hm2. pose proof PAGING_PAGES_val as HP. unfold PAGING_MEMORY, PAGE_SIZE in *.
  unfold mem_init. apply runs_bind, runs_modify, runs_bind.
  eapply runs_mono; [|apply for_set_mem_map; [done|lia..]].
  intros _ k1 (Hwf1&Hh1&Hc1). cbv beta in *.
  assert (MAP_NR start_mem = (start_mem - LOW_MEM) / 4096) as ->.
  { unfold MAP_NR, PAGING_SHIFT. rewrite u64_small by (unfold LOW_MEM in *; lia).
    by rewrite Z.shiftr_div_pow2 by lia. }
  set (i := (start_mem - LOW_MEM) / 4096).
  assert (Z.shiftr (u64 (end_mem - start_mem)) PAGING_SHIFT = (end_mem - start_mem) / 4096) as ->.
  { unfold PAGING_SHIFT. rewrite u64_small by (unfold LOW_MEM in *; lia).
    by rewrite Z.shiftr_div_pow2 by lia. }
  assert (start_mem = LOW_MEM + i * 4096) as Hi by (pose proof (Z.div_mod (start_mem - LOW_MEM) 4096); lia).
  set (e := (end_mem - LOW_MEM) / 4096).
  assert (end_mem = LOW_MEM + e * 4096) as Hee by (pose proof (Z.div_mod (end_mem - LOW_MEM) 4096); lia).
  replace (end_mem - start_mem) with ((e - i) * 4096) by lia. rewrite Z.div_mul by lia.
  rewrite s32_small by lia.
  eapply runs_mono; [|apply for_set_mem_map; [done|lia..]].
  intros _ k2 (Hwf2&Hh2&Hc2). split_and!; [done|by rewrite Hh2, Hh1|].
  intros j ?. rewrite Hc2, Hc1 by lia. unfold frame_addr, PAGING_SIZE.
  rewrite (in_range_true 0) by lia.
  destruct (decide (i <= j < e)).
  - rewrite in_range_true by lia.
    by rewrite (proj2 (Z.leb_le _ _)), (proj2 (Z.ltb_lt _ _)) by lia.
  - rewrite in_range_false by lia.
    destruct (Z.leb_spec start_mem (LOW_MEM + j * 4096)), (Z.ltb_spec (LOW_MEM + j * 4096) end_mem);
      done || lia.
Qed.

(** ** A concrete state: memory as [mem_init] leaves it at boot (the frames from 0x80100000 to
    0x80600000 are free, the others [USED]), a page directory below the managed memory *)
Definition demo_pd : Z := 0x80030000.
Definition FREE_FRAMES : Z := 1280.
Definition empty_space : kernel :=
  kernel0 <| k_mm ::= fun s => s <| page_dir_table := demo_pd |> <| HIGH_MEMORY := 0x80600000 |>
    <| mem_map := replicate (Z.to_nat FREE_FRAMES) 0 ++ replicate (Z.to_nat (PAGING_PAGES - FREE_FRAMES)) USED |> |>.

Lemma kernel0_wf : wf_mm kernel0.
Proof. split; [vm_compute; reflexivity|]. apply Forall_replicate. lia. Qed.
Lemma empty_space_wf : wf_mm empty_space.
Proof.
  split; [vm_compute; reflexivity|]. unfold empty_space, kernel0. rsimpl.
  cbn [k_mm mem_map]. apply Forall_app. split; apply Forall_replicate; unfold USED; lia.
Qed.
Lemma empty_space_count i : is_frame i -> count empty_space i = if i <? FREE_FRAMES then 0 else USED.
Proof.
  intros [Hi Hi']. unfold count, idx. replace (i <? 0) with false by lia.
  unfold empty_space, kernel0. rsimpl. cbn [k_mm mem_map]. rewrite PAGING_PAGES_val in *. unfold FREE_FRAMES.
  destruct (Z.ltb_spec i 1280).
  - rewrite lookup_app_l by (rewrite length_replicate; lia). rewrite lookup_replicate_2 by lia. done.
  - rewrite lookup_app_r by (rewrite length_replicate; lia). rewrite length_replicate, lookup_replicate_2 by lia. done.
Qed.
(** As [mem_init] leaves it, a frame that is not above the memory it was given is below [HIGH_MEMORY]. *)
Lemma empty_space_high i : i < FREE_FRAMES -> frame_addr i < HIGH_MEMORY (k_mm empty_space).
Proof.
  intros Hi. change (frame_addr i < 0x80600000). unfold FREE_FRAMES, frame_addr, PAGING_SIZE, LOW_MEM in *. lia.
Qed.
Lemma empty_space_free i : is_frame i -> count empty_space i = 0 -> frame_addr i < HIGH_MEMORY (k_mm empty_space).
Proof.
  intros Hi Hc. rewrite empty_space_count in Hc by done. apply empty_space_high.
  destruct (Z.ltb_spec i FREE_FRAMES); [done|]. discriminate.
Qed.
(** What [mem_init] does at boot. *)
Lemma empty_space_boot :
  runs (mem_init 0x80100000 0x80600000) (kernel0 <| k_mm ::= fun s => s <| page_dir_table := demo_pd |> |>) (fun _ k' =>
    HIGH_MEMORY (k_mm k') = HIGH_MEMORY (k_mm empty_space) /\ forall j, is_frame j -> count k' j = count empty_space j).
Proof.
  eapply runs_mono; [|apply mem_init_counts; try (vm_compute; done || (split; discriminate))].
  - intros _ k' (_&Hh&Hc). split; [done|]. intros j Hj. rewrite Hc, empty_space_count by (done || (destruct Hj; lia)).
    unfold frame_addr, FREE_FRAMES, LOW_MEM, PAGING_SIZE. destruct Hj.
    destruct (Z.ltb_spec j 1280); destruct (Z.leb_spec 0x80100000 (0x80100000 + j * 4096)), (Z.ltb_spec (0x80100000 + j * 4096) 0x80600000); done || lia.
  - exact kernel0_wf.
Qed.

(** ** Properties *)

Module PageAllocProps.

(** C13: [get_free_page] on every branch.  If some frame other than frame 0 is free, the
    code takes the highest such frame, sets its count to 1, zeroes its 4096 bytes and
    returns its address (never 0); if none is free it returns 0 and changes nothing.
    Frame 0 is never handed out, although [mem_init] marks it free. *)
Theorem get_free_page_highest_free k :
  wf_mm k ->
  (exists i, last_free k PAGING_PAGES i /\ frame_addr i <> 0 /\
     get_free_page k =
     Ok (frame_addr i) (zero_page (frame_addr i) PAGING_SIZE (set_count i 1 k))) \/
  ((forall j, is_frame j -> count k j <> 0) /\ get_free_page k = Ok 0 k).
Proof.
  intros Hwf. destruct (get_free_page_cases k Hwf) as [(i&Hi&Hk)|?]; [left|by right].
  exists i. split_and!; [done| |done]. destruct Hi as [? _].
  unfold frame_addr, LOW_MEM, PAGING_SIZE. lia.
Qed.
Lemma get_free_page_highest_free_witness : exists a k, get_free_page empty_space = Ok a k.
Proof.
  destruct (get_free_page_highest_free empty_space empty_space_wf) as [(i&_&_&E)|[_ E]]; eauto.
Defined.

(** [get_free_pages(n)] returns the highest run of [n] consecutive free frames (not
    using frame 0), all marked with count 1 and zeroed, and returns 0 with the state
    unchanged exactly when no such run exists: the skip-ahead scan misses nothing and
    terminates. *)
Theorem get_free_pages_highest_run k n :
  wf_mm k -> 1 <= n < PAGING_PAGES ->
  runs (get_free_pages n) k (fun a k' => wf_mm k' /\
    ((a = 0 /\ k' = k /\ forall i, ~ free_run k n i) \/
     (exists i, free_run k n i /\ (forall i', i < i' -> ~ free_run k n i') /\
        a = frame_addr i /\
        (forall j, count k' j = if (i <=? j) && (j <? i + n) then 1 else count k j) /\
        k_pmem k' = memset (k_pmem k) a 0 (PAGING_SIZE * n)))).
Proof.
  intros Hwf Hn. eapply runs_mono; [|by apply get_free_pages_cases].
  intros a k' [Hwf' [H|(i&Hr&Hmax&->&->)]]; (split; [done|]); [by left|right].
  exists i. split_and!; [done..| |].
  - intros j. change (count (mark_down (Z.to_nat n) i k) j = if (i <=? j) && (j <? i + n) then 1 else count k j).
    destruct Hr as (?&?&_). rewrite count_mark_down by (done || lia). by rewrite Z2Nat.id by lia.
  - unfold zero_page. rsimpl. by destruct (mark_down_frame (Z.to_nat n) i k) as [-> _].
Qed.
Lemma get_free_pages_highest_run_witness : runs (get_free_pages 4) empty_space (fun _ k' => wf_mm k').
Proof.
  eapply runs_mono; [|apply (get_free_pages_highest_run empty_space 4 empty_space_wf);
    rewrite PAGING_PAGES_val; lia].
  intros a k' [H _]. exact H.
Defined.

(** Freeing what was allocated: after [get_free_page] returned a frame below
    [HIGH_MEMORY], [free_page] of that address returns normally and every use count is
    what it was before the allocation. *)
Theorem free_page_get_free_page k :
  wf_mm k -> (exists j, is_frame j /\ count k j = 0) ->
  (forall j, is_frame j -> count k j = 0 -> frame_addr j < HIGH_MEMORY (k_mm k)) ->
  runs (let! a := get_free_page in free_page a) k (fun _ k' =>
    wf_mm k' /\ forall j, count k' j = count k j).
Proof.
  intros Hwf (j0&Hj0&Hc0) Hh. apply runs_bind.
  eapply runs_mono; [|by apply (alloc_spec (alloc := get_free_page))].
  intros a k1 [Hwf1 [(->&->&Hno)|(i&Hi&->&Hci&->)]]; [by destruct (Hno j0)|].
  assert (0 <= i < PAGING_PAGES) as Hi' by (destruct Hi; lia).
  assert (count (zero_page (frame_addr i) PAGING_SIZE (set_count i 1 k)) i = 1) as Hc1
    by by apply count_set_eq.
  eapply runs_mono; [|apply (free_spec (free := free_page)); try done].
  2:{ by rewrite Hc1. } 2:{ by apply Hh. }
  intros _ k2 [Hwf2 ->]. split; [done|]. intros j. rewrite Hc1.
  destruct (decide (i = j)) as [<-|].
  - rewrite count_set_eq by done. by rewrite Hci.
  - rewrite count_set_ne by (done || lia).
    change (count (set_count i 1 k) j = count k j). by apply count_set_ne; [lia|].
Qed.
Lemma free_page_get_free_page_witness :
  runs (let! a := get_free_page in free_page a) empty_space (fun _ k' => count k' 3 = 0).
Proof.
  assert (is_frame 3) as H3 by (split; [lia|rewrite PAGING_PAGES_val; lia]).
  eapply runs_mono; [|apply (free_page_get_free_page empty_space empty_space_wf)].
  - intros _ k' [_ H]. rewrite H. exact (empty_space_count 3 H3).
  - exists 3. split; [exact H3|exact (empty_space_count 3 H3)].
  - intros j Hj Hc. exact (empty_space_free j Hj Hc).
Defined.

(** Double free is caught: [free_page] of a frame whose count is zero panics, and the
    count is left at zero (the wrapped-around 255 is not kept). *)
Theorem free_page_double_free k i :
  wf_mm k -> is_frame i -> frame_addr i < HIGH_MEMORY (k_mm k) -> count k i = 0 ->
  exists k', free_page (frame_addr i) k = Stop (Panic "trying to free free page") k' /\
    count k' i = 0 /\ wf_mm k'.
Proof.
  intros Hwf Hi Hh Hc. assert (0 <= i < PAGING_PAGES) by (destruct Hi; lia).
  exists (set_count i 0 k). rewrite <- (Z.add_0_r (frame_addr i)).
  rewrite free_page_frame by (unfold PAGING_SIZE; done || lia).
  rewrite Hc. split_and!; [done|by apply count_set_eq|by apply wf_set_count].
Qed.
Lemma free_page_double_free_witness :
  exists k', free_page (frame_addr 3) empty_space = Stop (Panic "trying to free free page") k'.
Proof.
  assert (is_frame 3) as H3 by (split; [lia|rewrite PAGING_PAGES_val; lia]).
  destruct (free_page_double_free empty_space 3 empty_space_wf H3 (empty_space_high 3 eq_refl)
    (empty_space_count 3 H3)) as (k'&E&_). exists k'. exact E.
Defined.

(** Booting with [mem_init(start,end)] on page-aligned bounds inside the managed 15 MB
    makes exactly the frames between [start] and [end] free and every other one [USED]. *)
Theorem mem_init_frees_range k start_mem end_mem :
  wf_mm k -> LOW_MEM <= start_mem <= end_mem -> end_mem <= LOW_MEM + PAGING_MEMORY ->
  (start_mem - LOW_MEM) mod PAGE_SIZE = 0 -> (end_mem - LOW_MEM) mod PAGE_SIZE = 0 ->
  runs (mem_init start_mem end_mem) k (fun _ k' => wf_mm k' /\
    HIGH_MEMORY (k_mm k') = end_mem /\
    forall j, 0 <= j < PAGING_PAGES ->
      count k' j = if (start_mem <=? frame_addr j) && (frame_addr j <? end_mem) then 0 else USED).
Proof. apply mem_init_counts. Qed.
Lemma mem_init_frees_range_witness :
  runs (mem_init (LOW_MEM + 2 * PAGE_SIZE) (LOW_MEM + PAGING_MEMORY)) empty_space (fun _ k' => wf_mm k').
Proof.
  eapply runs_mono; [|apply (mem_init_frees_range empty_space);
    [apply empty_space_wf|vm_compute; split; discriminate|vm_compute; discriminate|reflexivity|reflexivity]].
  intros _ k' [H _]. exact H.
Defined.

End PageAllocProps.
