(* ===== verification/PageTable.v ===== *)
(** * Page tables of user space (mm/memory.c)

    Models [free_page_tables], [copy_page_tables], [put_page], [un_wp_page],
    [do_wp_page], [write_verify], [get_empty_page], [copy_page], [try_to_share] and
    [share_page].  Tables live in physical memory: the directory of the running task
    is at [page_dir_table], entry [GET_PAGE_DIR_ID(addr)] of it points to a table, and
    entry [GET_PAGE_ENTRY_ID(addr)] of that maps the page.  The abstraction is [walk]:
    the entry that maps a user address. *)
From Stdlib Require Import ZArith Lia String.
From stdpp Require Import base list gmap.
From S2P Require Import Prelude State Pte PageAlloc.
Open Scope Z_scope.

Definition ALIGN_TEST_4KB (x : Z) : Z := Z.land x (PAGING_SIZE - 1).
Definition ALIGN_TEST_2MB (x : Z) : Z := Z.land x (PAGING_HIGH_LEVEL_SIZE - 1).
Definition invalidate : K unit := pte_refresh_tlb.
(** [oom()]: prints and ends the task. *)
Definition oom {A} : K A := halt (DoExit SIGSEGV).
(** The address of entry [i] of the table at [base]. *)
Definition entry (base i : Z) : Z := base + 8 * i.

(** [copy_page(from,to)]: the loop advances [i], not the two pointers. *)
Definition copy_page (from to : Z) : K unit :=
  for_up 0 (Z.to_nat (PAGING_SIZE / 8)) (fun _ => let! w := rd64 from in wr64 to w).

(** The inner loop of [free_page_tables]: entries [nr], ..., 511 of a table. *)
Definition free_table_entries (pg_table : Z) : K unit :=
  for_up 0 (Z.to_nat PAGE_TABLE_ITEM_NUM) (fun nr =>
    let e := entry pg_table nr in
    let! w := rd64 e in
    when (truth (pte_v w)) (free_page (pte_ppn_to_addr w)) ;;;
    pte_common_init e 1).
Definition free_page_tables (from dir0 size : Z) : K unit :=
  if truth (ALIGN_TEST_4KB from) then panic "free_page_tables called with wrong alignment"
  else if from =? 0 then panic "Trying to free up swapper memory space"
  else
    let size := GET_PAGE_DIR_SIZE size in
    let! base := gets (fun k => page_dir_table (k_mm k)) in
    let dir := entry base (GET_PAGE_DIR_ID from) in
    for_up 0 (Z.to_nat size) (fun d =>
      let e := entry dir d in
      let! w := rd64 e in
      if truth (pte_v w) then
        let! pg_table := pte_common_ppn_to_addr e in
        free_table_entries pg_table ;;;
        let! t := pte_common_ppn_to_addr e in
        free_page t ;;;
        pte_common_init e 1
      else skip) ;;;
    invalidate.

(** The body of the inner loop of [copy_page_tables]. *)
Definition copy_entry (from_e to_e : Z) : K unit :=
  let! w := rd64 from_e in
  if truth (pte_v w) then
    wr64 to_e w ;;;
    pte_common_set_accessibility to_e pte_accessibility_readexecute ;;;
    let! pagebaseaddr := pte_common_ppn_to_addr to_e in
    if LOW_MEM <? pagebaseaddr then
      let! w' := rd64 to_e in
      wr64 from_e w' ;;;
      let i := Z.shiftr (pagebaseaddr - LOW_MEM) PAGING_SHIFT in
      let! c := get_mem_map i in
      set_mem_map i (c + 1)
    else skip
  else skip.

(** The inner loop: both pointers go through the 512 entries. *)
Definition copy_table_entries (from_page_table to_page_table : Z) : K unit :=
  for_up 0 512 (fun nr => copy_entry (entry from_page_table nr) (entry to_page_table nr)).
(** The outer loop, [d] directory entries done so far; [inr] is an early [return]. *)
Definition copy_page_tables (from to to_dir size : Z) : K Z :=
  if to_dir =? 0 then ret 0
  else if truth (ALIGN_TEST_2MB from) || truth (ALIGN_TEST_2MB to) then
    panic "copy_page_tables called with wrong alignment"
  else
    let! base := gets (fun k => page_dir_table (k_mm k)) in
    let from_dir := entry base (GET_PAGE_DIR_ID from) in
    let size := GET_PAGE_DIR_SIZE size in
    let! r := loop (S (Z.to_nat size)) (fun d =>
      if d <? size then
        let from_e := entry from_dir d in
        let to_e := entry to_dir d in
        let! tw := rd64 to_e in
        if truth (pte_v tw) then panic "copy_page_tables: already exist"
        else
          let! fw := rd64 from_e in
          if truth (pte_v fw) then
            let! from_page_table := pte_common_ppn_to_addr from_e in
            let! to_page_table := get_free_page in
            if to_page_table =? 0 then ret (inr (-1))
            else
              pte_common_addr_to_ppn to_e to_page_table ;;;
              pte_common_set_accessibility to_e pte_accessibility_pointer ;;;
              pte_common_enable_entry to_e ;;;
              copy_table_entries from_page_table to_page_table ;;;
              ret (inl (d + 1))
          else ret (inl (d + 1))
      else ret (inr 0)) 0 in
    if r =? 0 then invalidate ;;; ret 0 else ret r.

(** [put_page]: the two tests on [page] only print a warning, but the second one reads
    [mem_map]. *)
Definition put_page (page address : Z) : K Z :=
  let! _ := get_mem_map (MAP_NR page) in
  let! base := gets (fun k => page_dir_table (k_mm k)) in
  let d := entry base (GET_PAGE_DIR_ID address) in
  let! dw := rd64 d in
  let! page_table :=
    if truth (pte_v dw) then pte_common_ppn_to_addr d
    else
      let! tmp := get_free_page in
      if tmp =? 0 then ret 0
      else
        pte_common_init tmp PAGE_TABLE_ITEM_NUM ;;;
        pte_common_addr_to_ppn d tmp ;;;
        pte_common_set_accessibility d pte_accessibility_pointer ;;;
        pte_common_enable_user d ;;;
        pte_common_enable_entry d ;;;
        ret tmp in
  if negb (truth (pte_v dw)) && (page_table =? 0) then ret 0
  else
    let e := entry page_table (GET_PAGE_ENTRY_ID address) in
    pte_common_addr_to_ppn e page ;;;
    pte_common_set_accessibility e pte_accessibility_all ;;;
    pte_common_enable_user e ;;;
    pte_common_enable_entry e ;;;
    invalidate ;;;
    ret page.

Definition un_wp_page (table_entry : Z) : K unit :=
  let! old_page := pte_common_ppn_to_addr table_entry in
  let! single :=
    if LOW_MEM <=? old_page then let! c := get_mem_map (MAP_NR old_page) in ret (c =? 1)
    else ret false in
  if single then pte_common_set_writeable table_entry ;;; invalidate
  else
    let! new_page := get_free_page in
    if new_page =? 0 then oom
    else
      (if LOW_MEM <=? old_page then
         let! c := get_mem_map (MAP_NR old_page) in set_mem_map (MAP_NR old_page) (c - 1)
       else skip) ;;;
      pte_common_addr_to_ppn table_entry new_page ;;;
      pte_common_set_accessibility table_entry pte_accessibility_all ;;;
      pte_common_enable_user table_entry ;;;
      pte_common_enable_entry table_entry ;;;
      invalidate ;;;
      copy_page old_page new_page.

Definition do_wp_page (address : Z) : K unit :=
  let! base := gets (fun k => page_dir_table (k_mm k)) in
  let! table := pte_common_ppn_to_addr (entry base (GET_PAGE_DIR_ID address)) in
  un_wp_page (entry table (GET_PAGE_ENTRY_ID address)).

Definition write_verify (address : Z) : K unit :=
  let! base := gets (fun k => page_dir_table (k_mm k)) in
  let dir := entry base (GET_PAGE_DIR_ID address) in
  let! dw := rd64 dir in
  if pte_v dw =? 0 then skip
  else
    let! table := pte_common_ppn_to_addr dir in
    let page := entry table (GET_PAGE_ENTRY_ID address) in
    let! w := rd64 page in
    when ((pte_v w =? 1) && (pte_w w =? 0)) (un_wp_page page).

Definition get_empty_page (address : Z) : K unit :=
  let! tmp := get_free_page in
  let! bad := if tmp =? 0 then ret true
              else let! r := put_page tmp address in ret (r =? 0) in
  if bad then free_page tmp ;;; oom else skip.

(** [try_to_share(address,p)]; the two page directories are those of [p] and of
    [current].  The entry of the other task is write-protected, and so is the (invalid)
    entry of this one, but the mapping itself is not copied. *)
Definition try_to_share (address p : Z) : K Z :=
  let! pt := get_task p in
  let! ct := cur in
  let from_dir := entry (t_page_dir_table pt) (GET_PAGE_DIR_ID address) in
  let to_dir := entry (t_page_dir_table ct) (GET_PAGE_DIR_ID address) in
  let! fd := rd64 from_dir in
  if negb (truth (pte_v fd)) then ret 0
  else
    let from_page := entry (pte_ppn_to_addr fd) (GET_PAGE_ENTRY_ID address) in
    let! fw := rd64 from_page in
    if negb (truth (pte_v fw)) || truth (pte_d fw) then ret 0
    else
      let! phys_addr := pte_common_ppn_to_addr from_page in
      let! high := gets (fun k => HIGH_MEMORY (k_mm k)) in
      if (high <=? phys_addr) || (phys_addr <? LOW_MEM) then ret 0
      else
        let! td := rd64 to_dir in
        (if negb (truth (pte_v td)) then
           let! to := get_free_page in
           if to =? 0 then oom
           else
             pte_common_addr_to_ppn to_dir to ;;;
             pte_common_set_accessibility to_dir pte_accessibility_all ;;;
             pte_common_enable_entry to_dir ;;;
             pte_common_enable_user to_dir
         else skip) ;;;
        let! to_table := pte_common_ppn_to_addr to_dir in
        let to_page := entry to_table (GET_PAGE_ENTRY_ID address) in
        let! tw := rd64 to_page in
        if truth (pte_v tw) then panic "try_to_share: to_page already exists"
        else
          mod_pte from_page pte_clear_writeable ;;;
          mod_pte to_page pte_clear_writeable ;;;
          invalidate ;;;
          let i := Z.shiftr (phys_addr - LOW_MEM) PAGING_SHIFT in
          let! c := get_mem_map i in
          set_mem_map i (c + 1) ;;;
          ret 1.

(** [for(p = &LAST_TASK;p >= &FIRST_TASK;--p)] of [share_page], slot [n - 1] down to 0. *)
Fixpoint share_page_scan (address : Z) (n : nat) : K Z :=
  match n with
  | O => ret 0
  | S m =>
      let! tbl := gets (fun k => task (k_sched k)) in
      let! self := gets (fun k => current (k_sched k)) in
      let! slot := unwrap "task index" (tbl !! m) in
      match slot with
      | None => share_page_scan address m
      | Some p =>
          if p =? self then share_page_scan address m
          else
            let! pt := get_task p in
            let! ct := cur in
            if decide (t_executable pt = t_executable ct) then
              let! r := try_to_share address p in
              if truth r then ret 1 else share_page_scan address m
            else share_page_scan address m
      end
  end.
Definition share_page (address : Z) : K Z :=
  let! ct := cur in
  match t_executable ct with
  | None => ret 0
  | Some x =>
      let! n := get_inode x in
      if i_count n <? 2 then ret 0 else share_page_scan address NR_TASKS
  end.

(** ** The abstraction: what a directory maps *)

Definition dir_entry (k : kernel) (pd d : Z) : Z := ld 8 (k_pmem k) (entry pd d).
Definition table_of (k : kernel) (pd d : Z) : Z := pte_ppn_to_addr (dir_entry k pd d).
(** The valid entry that maps [addr] in the directory at [pd], if there is one: the walk
    that the hardware makes below the root table. *)
Definition walk (k : kernel) (pd addr : Z) : option Z :=
  if truth (pte_v (dir_entry k pd (GET_PAGE_DIR_ID addr))) then
    let w := ld 8 (k_pmem k)
               (entry (table_of k pd (GET_PAGE_DIR_ID addr)) (GET_PAGE_ENTRY_ID addr)) in
    if truth (pte_v w) then Some w else None
  else None.

(** The directory's bytes lie outside frame [i]. *)
Definition apart_dir (pd i : Z) : Prop :=
  frame_addr i + PAGE_SIZE <= pd \/ pd + 8 * PAGE_DIR_TABLE_NUM <= frame_addr i.
(** Entry [d] of the directory holds the table in frame [i]. *)
Definition has_table (k : kernel) (pd d i : Z) : Prop :=
  0 <= d < PAGE_TABLE_ITEM_NUM /\ pte_v (dir_entry k pd d) <> 0 /\ is_frame i /\
  table_of k pd d = frame_addr i.

Record pt_wf (k : kernel) (pd : Z) : Prop := mkPtWf {
  wf_dir_apart : forall i, is_frame i -> count k i = 0 -> apart_dir pd i;
  wf_dir_table : forall d, 0 <= d < PAGE_TABLE_ITEM_NUM -> pte_v (dir_entry k pd d) <> 0 ->
    exists i, has_table k pd d i /\ count k i <> 0 /\ apart_dir pd i;
  wf_dir_inj : forall d d' i, has_table k pd d i -> has_table k pd d' i -> d = d' }.

(** *** Address arithmetic *)
Lemma dir_id_bound a : 0 <= GET_PAGE_DIR_ID a < PAGE_TABLE_ITEM_NUM.
Proof.
  unfold GET_PAGE_DIR_ID, PAGING_HIGH_LEVEL_SHIFT, PAGE_TABLE_ITEM_NUM.
  change 0x3FFFFFFF with (Z.ones 30). rewrite Z.land_ones, Z.shiftr_div_pow2 by lia.
  pose proof (Z.mod_pos_bound a (2 ^ 30)). split; [apply Z.div_pos; lia|].
  apply Z.div_lt_upper_bound; lia.
Qed.
Lemma entry_id_bound a : 0 <= GET_PAGE_ENTRY_ID a < PAGE_TABLE_ITEM_NUM.
Proof.
  unfold GET_PAGE_ENTRY_ID, PAGING_SHIFT, PAGE_TABLE_ITEM_NUM.
  change (PAGING_HIGH_LEVEL_SIZE - 1) with (Z.ones 21). rewrite Z.land_ones, Z.shiftr_div_pow2 by lia.
  pose proof (Z.mod_pos_bound a (2 ^ 21)). split; [apply Z.div_pos; lia|].
  apply Z.div_lt_upper_bound; lia.
Qed.
Lemma frame_addr_bound i : is_frame i -> LOW_MEM < frame_addr i < 2 ^ 32.
Proof. unfold is_frame, frame_addr, LOW_MEM, PAGING_SIZE. rewrite PAGING_PAGES_val. lia. Qed.
Lemma frame_addr_aligned i : frame_addr i mod PAGE_SIZE = 0.
Proof.
  unfold frame_addr, PAGING_SIZE, PAGE_SIZE. by rewrite Z.mod_add by lia.
Qed.
Lemma frame_addr_inj i j : frame_addr i = frame_addr j -> i = j.
Proof. unfold frame_addr, PAGING_SIZE. lia. Qed.
Lemma ppn_frame i w : is_frame i -> pte_ppn_to_addr (pte_addr_to_ppn (frame_addr i) w) = frame_addr i.
Proof.
  intros Hi. pose proof (frame_addr_bound i Hi). unfold LOW_MEM in *.
  rewrite ppn_to_addr_to_ppn by lia. rewrite frame_addr_aligned. lia.
Qed.
Lemma ppn_to_addr_ext w w' : pte_ppn w = pte_ppn w' -> pte_ppn_to_addr w = pte_ppn_to_addr w'.
Proof. unfold pte_ppn_to_addr. by intros ->. Qed.

(** *** What changes a walk *)

(** Two states agree on the memory that the directory [pd] and its tables occupy. *)
Definition same_tables (k k' : kernel) (pd : Z) : Prop :=
  (forall d, 0 <= d < PAGE_TABLE_ITEM_NUM -> dir_entry k' pd d = dir_entry k pd d) /\
  (forall d e, 0 <= d < PAGE_TABLE_ITEM_NUM -> 0 <= e < PAGE_TABLE_ITEM_NUM ->
     pte_v (dir_entry k pd d) <> 0 ->
     ld 8 (k_pmem k') (entry (table_of k pd d) e) = ld 8 (k_pmem k) (entry (table_of k pd d) e)).

Lemma walk_same k k' pd a : same_tables k k' pd -> walk k' pd a = walk k pd a.
Proof.
  intros [Hd Ht]. unfold walk, table_of. pose proof (dir_id_bound a). pose proof (entry_id_bound a).
  rewrite Hd by done. destruct (truth _) eqn:E; [|done]. apply truth_true in E.
  unfold table_of in Ht. by rewrite Ht.
Qed.

(** The same directory and no table's frame freed: well-formedness carries over. *)
Lemma pt_wf_same k k' pd :
  pt_wf k pd -> (forall d, 0 <= d < PAGE_TABLE_ITEM_NUM -> dir_entry k' pd d = dir_entry k pd d) ->
  (forall i, is_frame i -> count k i <> 0 -> (exists d, has_table k pd d i) -> count k' i <> 0) ->
  (forall i, is_frame i -> count k' i = 0 -> count k i = 0 \/ apart_dir pd i) -> pt_wf k' pd.
Proof.
  intros [Ha Ht Hi] Hd Hc Hc'. assert (forall d i, has_table k' pd d i -> has_table k pd d i) as Hhas.
  { intros d i (?&Hv&?&E). unfold table_of in *. rewrite Hd in Hv, E by done. done. }
  split.
  - intros i Hf H0. destruct (Hc' i Hf H0); eauto.
  - intros d Hdr Hv. rewrite Hd in Hv by done.
    destruct (Ht d Hdr Hv) as (i&Hh&Hci&Hap). pose proof Hh as (_&_&Hf&E).
    exists i. split_and!; [|by eauto|done]. unfold has_table, table_of in *. by rewrite Hd.
  - eauto.
Qed.

(** *** Allocating a frame does not disturb a directory *)

Ltac frames := unfold has_table, apart_dir, entry, is_frame, frame_addr in *;
  unfold PAGE_SIZE, PAGING_SIZE, PAGE_DIR_TABLE_NUM, PAGE_TABLE_ITEM_NUM in *; cbv beta in *;
  rewrite ?PAGING_PAGES_val in *.

(** A store outside the directory and its tables is invisible to them. *)
Lemma same_tables_outside k k' pd (touched : Z -> Prop) :
  pt_wf k pd ->
  (forall x, ~ touched x -> k_pmem k' x = k_pmem k x) ->
  (forall x, pd <= x < pd + 8 * PAGE_TABLE_ITEM_NUM -> ~ touched x) ->
  (forall d i x, has_table k pd d i -> frame_addr i <= x < frame_addr i + PAGE_SIZE -> ~ touched x) ->
  same_tables k k' pd.
Proof.
  intros Hwf Hm Hd Ht. split.
  - intros d ?. apply ld_ext. intros x Hx. apply Hm, Hd. frames. lia.
  - intros d e ?? Hv. destruct (wf_dir_table _ _ Hwf d ltac:(done) Hv) as (i&Hh&_&_).
    apply ld_ext. intros x Hx. apply Hm, (Ht d i); [done|]. destruct Hh as (_&_&_&->) in Hx.
    frames. lia.
Qed.

Section Alloc.
Context (k : kernel) (pd i : Z).
Context (Hmm : wf_mm k) (Hpt : pt_wf k pd) (Hi : is_frame i) (Hfree : count k i = 0).
Let k1 := zero_page (frame_addr i) PAGING_SIZE (set_count i 1 k).

Lemma alloc_not_table d : ~ has_table k pd d i.
Proof.
  intros Hh. pose proof Hh as (?&Hv&_&E). destruct (wf_dir_table _ _ Hpt d ltac:(done) Hv)
    as (j&(_&_&_&E')&Hc&_). rewrite E in E'. apply frame_addr_inj in E'. congruence.
Qed.
Lemma alloc_same_tables : same_tables k k1 pd.
Proof.
  apply (same_tables_outside _ _ _ (fun x => frame_addr i <= x < frame_addr i + PAGE_SIZE)); [done|..].
  - intros x Hx. unfold k1, zero_page. rsimpl. unfold memset. rewrite in_range_false; [done|].
    frames. lia.
  - intros x Hx. pose proof (wf_dir_apart _ _ Hpt i Hi Hfree). frames. lia.
  - intros d j x Hh ? ?. assert (j <> i) as Hne by (intros ->; exact (alloc_not_table d Hh)).
    frames. lia.
Qed.
Lemma alloc_wf_mm : wf_mm k1.
Proof. apply wf_set_count; [done|lia]. Qed.
Lemma alloc_count j : count k1 j = if decide (i = j) then 1 else count k j.
Proof.
  unfold k1. change (count (set_count i 1 k) j = if decide (i = j) then 1 else count k j).
  destruct (decide (i = j)) as [<-|]; [apply count_set_eq|apply count_set_ne]; try done;
    destruct Hi; lia.
Qed.
Lemma alloc_pt_wf : pt_wf k1 pd.
Proof.
  apply (pt_wf_same k); [done|by apply alloc_same_tables|..].
  - intros j Hj Hcj _. rewrite alloc_count. by destruct (decide _).
  - intros j Hj. rewrite alloc_count. destruct (decide _); [done|by left].
Qed.
End Alloc.

(** *** Writing an entry of the directory or of a table *)

Section WriteEntry.
Context (k k' : kernel) (pd : Z) (Hpt : pt_wf k pd).
Context (Hcount : forall i, count k' i = count k i).

(** Entry [d] of the directory now points to the frame [i], a table with no valid entry. *)
Lemma link_table d i :
  0 <= d < PAGE_TABLE_ITEM_NUM -> pte_v (dir_entry k pd d) = 0 ->
  is_frame i -> count k i <> 0 -> apart_dir pd i -> (forall d', ~ has_table k pd d' i) ->
  (forall x, ~ entry pd d <= x < entry pd d + 8 ->
     ~ frame_addr i <= x < frame_addr i + PAGE_SIZE -> k_pmem k' x = k_pmem k x) ->
  pte_v (dir_entry k' pd d) = 1 -> table_of k' pd d = frame_addr i ->
  (forall e, 0 <= e < PAGE_TABLE_ITEM_NUM -> ld 8 (k_pmem k') (entry (frame_addr i) e) = 0) ->
  pt_wf k' pd /\ (forall a, walk k' pd a = walk k pd a).
Proof.
  intros Hd Hv Hi Hc Hap Hnew Hm Hv' Ht' Hz.
  assert (forall d', 0 <= d' < PAGE_TABLE_ITEM_NUM -> d' <> d -> dir_entry k' pd d' = dir_entry k pd d') as Hdir.
  { intros d' ??. apply ld_ext. intros x Hx. apply Hm; frames; lia. }
  assert (forall d' j, d' <> d -> has_table k' pd d' j -> has_table k pd d' j) as Hhas.
  { intros d' j ? (?&V&?&E). unfold table_of in *. rewrite Hdir in V, E by done. done. }
  assert (forall j, has_table k' pd d j -> j = i) as Hself.
  { intros j (_&_&_&E). rewrite Ht' in E. symmetry. by apply frame_addr_inj. }
  split; [split|].
  - intros j Hj. rewrite Hcount. by apply (wf_dir_apart _ _ Hpt).
  - intros d' Hd' V'. destruct (decide (d' = d)) as [->|Hne].
    + exists i. rewrite Hcount. unfold has_table. rewrite Hv'. split_and!; (done || lia).
    + rewrite Hdir in V' by done. destruct (wf_dir_table _ _ Hpt d' Hd' V') as (j&(?&?&?&E)&?&?).
      exists j. rewrite Hcount. unfold has_table, table_of in *. rewrite Hdir by done. split_and!; (done || lia).
  - intros d1 d2 j H1 H2. destruct (decide (d1 = d)) as [->|], (decide (d2 = d)) as [->|]; [done|..].
    + apply Hself in H1 as ->. by destruct (Hnew d2); apply Hhas.
    + apply Hself in H2 as ->. by destruct (Hnew d1); apply Hhas.
    + by apply (wf_dir_inj _ _ Hpt _ _ j); apply Hhas.
  - intros a. unfold walk. pose proof (dir_id_bound a) as Hb. pose proof (entry_id_bound a).
    destruct (decide (GET_PAGE_DIR_ID a = d)) as [->|Hne].
    + rewrite Hv', Hv, Ht', Hz by done. done.
    + unfold table_of. rewrite Hdir by done. destruct (truth _) eqn:V; [|done].
      apply truth_true in V. destruct (wf_dir_table _ _ Hpt _ Hb V) as (j&Hh&?&Hapj).
      assert (j <> i) by (intros ->; by eapply Hnew). destruct Hh as (_&_&_&E).
      unfold table_of in E. rewrite E. replace (ld 8 (k_pmem k') _)
        with (ld 8 (k_pmem k) (entry (frame_addr j) (GET_PAGE_ENTRY_ID a))); [done|].
      symmetry. apply ld_ext. intros x Hx. apply Hm; frames; lia.
Qed.

(** Entry [e] of the table that directory entry [d] holds was written. *)
Lemma write_leaf d e :
  0 <= d < PAGE_TABLE_ITEM_NUM -> 0 <= e < PAGE_TABLE_ITEM_NUM -> pte_v (dir_entry k pd d) <> 0 ->
  let a := entry (table_of k pd d) e in
  (forall x, ~ a <= x < a + 8 -> k_pmem k' x = k_pmem k x) ->
  pt_wf k' pd /\ (forall a', GET_PAGE_DIR_ID a' <> d \/ GET_PAGE_ENTRY_ID a' <> e -> walk k' pd a' = walk k pd a') /\
  (forall a', GET_PAGE_DIR_ID a' = d -> GET_PAGE_ENTRY_ID a' = e ->
     walk k' pd a' = let w := ld 8 (k_pmem k') a in if truth (pte_v w) then Some w else None).
Proof.
  intros Hd He Hv a Hm. destruct (wf_dir_table _ _ Hpt d Hd Hv) as (i&Hh&Hc&Hap).
  assert (a = entry (frame_addr i) e) as Ea by (destruct Hh as (_&_&_&<-); done).
  assert (forall d', 0 <= d' < PAGE_TABLE_ITEM_NUM -> dir_entry k' pd d' = dir_entry k pd d') as Hdir.
  { intros d' ?. apply ld_ext. intros x Hx. apply Hm. rewrite Ea. frames. lia. }
  split; [|split].
  - apply (pt_wf_same k); [done..| |]; intros j ?; rewrite Hcount; auto.
  - intros a' Hne. unfold walk, table_of. pose proof (dir_id_bound a') as Hb. pose proof (entry_id_bound a').
    rewrite Hdir by done. destruct (truth _) eqn:V; [|done]. apply truth_true in V.
    destruct (wf_dir_table _ _ Hpt _ Hb V) as (j&Hhj&_&_).
    replace (ld 8 (k_pmem k') _) with
      (ld 8 (k_pmem k) (entry (pte_ppn_to_addr (dir_entry k pd (GET_PAGE_DIR_ID a'))) (GET_PAGE_ENTRY_ID a'))); [done|].
    symmetry. apply ld_ext. intros x Hx. apply Hm. rewrite Ea.
    assert (j = i -> GET_PAGE_DIR_ID a' = d) as Hinj.
    { intros ->. by apply (wf_dir_inj _ _ Hpt _ _ i). }
    destruct Hhj as (_&_&_&E). unfold table_of in E. rewrite E in Hx.
    destruct (decide (j = i)) as [->|]; frames; [|lia]. specialize (Hinj eq_refl). lia.
  - intros a' <- <-. unfold walk, table_of. rewrite Hdir by done.
    apply truth_true in Hv. by rewrite Hv.
Qed.
End WriteEntry.

(** ** [put_page] *)

(** Memory after an entry was filled in the way [put_page] and [un_wp_page] do it. *)
Definition fill_entry (acc page : Z) (m : memory) (a : Z) : memory :=
  pte_upd pte_enable_entry (pte_upd pte_enable_user
    (pte_upd (pte_set_accessibility acc) (pte_upd (pte_addr_to_ppn page) m a) a) a) a.
(** A user page at physical address [page], readable, writable and executable. *)
Definition user_page (page w : Z) : Prop :=
  pte_v w = 1 /\ pte_r w = 1 /\ pte_w w = 1 /\ pte_x w = 1 /\ pte_u w = 1 /\ pte_ppn_to_addr w = page.

Lemma ld_fill_entry acc page m a :
  ld 8 (fill_entry acc page m a) a =
  pte_enable_entry (pte_enable_user (pte_set_accessibility acc (pte_addr_to_ppn page (ld 8 m a)))).
Proof. unfold fill_entry. by autorewrite with pte. Qed.
Lemma fill_entry_ne acc page m a x : ~ a <= x < a + 8 -> fill_entry acc page m a x = m x.
Proof. intros. unfold fill_entry. rewrite !pte_upd_ne by lia. done. Qed.
Lemma ppn_fill acc i w : is_frame i ->
  pte_ppn_to_addr (pte_enable_entry (pte_enable_user (pte_set_accessibility acc
    (pte_addr_to_ppn (frame_addr i) w)))) = frame_addr i.
Proof.
  intros Hi. rewrite <- (ppn_frame i w Hi) at 2. apply ppn_to_addr_ext. by autorewrite with pte.
Qed.
Lemma fill_entry_user i m a :
  is_frame i -> user_page (frame_addr i) (ld 8 (fill_entry pte_accessibility_all (frame_addr i) m a) a).
Proof.
  intros Hi. rewrite ld_fill_entry. unfold user_page. autorewrite with pte. split_and!; try done.
  by apply ppn_fill.
Qed.

(** The directory of the running task maps [address] to a fresh, writable user page at
    [page]; every other page is mapped as before. *)
Definition maps_page (k k' : kernel) (pd address page : Z) : Prop :=
  (exists w, walk k' pd address = Some w /\ user_page page w) /\
  forall a, GET_PAGE_DIR_ID a <> GET_PAGE_DIR_ID address \/ GET_PAGE_ENTRY_ID a <> GET_PAGE_ENTRY_ID address ->
    walk k' pd a = walk k pd a.

Lemma fill_leaf k pd address i :
  pt_wf k pd -> pte_v (dir_entry k pd (GET_PAGE_DIR_ID address)) <> 0 -> is_frame i ->
  let a := entry (table_of k pd (GET_PAGE_DIR_ID address)) (GET_PAGE_ENTRY_ID address) in
  let k' := k <| k_pmem ::= fun m => fill_entry pte_accessibility_all (frame_addr i) m a |> in
  pt_wf k' pd /\ maps_page k k' pd address (frame_addr i).
Proof.
  intros Hpt Hv Hi a k'.
  destruct (write_leaf k k' pd Hpt ltac:(done) _ _ (dir_id_bound address) (entry_id_bound address) Hv)
    as (Hwf&Hother&Hself).
  { intros x Hx. unfold k'. rsimpl. by apply fill_entry_ne. }
  split; [done|]. split; [|done]. pose proof (fill_entry_user i (k_pmem k) a Hi) as Hu.
  eexists. split; [|exact Hu]. rewrite Hself by done. cbv zeta.
  change (k_pmem k') with (fill_entry pte_accessibility_all (frame_addr i) (k_pmem k) a).
  destruct Hu as (Hv1&_). fold a. by rewrite Hv1.
Qed.

(** A new table in the free frame [j] is linked to entry [d] of the directory. *)
Definition link_state (k : kernel) (pd j d : Z) : kernel :=
  (zero_page (frame_addr j) PAGING_SIZE (set_count j 1 k)) <| k_pmem ::= fun m =>
    fill_entry pte_accessibility_pointer (frame_addr j) (memset m (frame_addr j) 0 (8 * PAGE_TABLE_ITEM_NUM))
      (entry pd d) |>.

Lemma link_fresh k pd j d :
  wf_mm k -> pt_wf k pd -> is_frame j -> count k j = 0 ->
  0 <= d < PAGE_TABLE_ITEM_NUM -> pte_v (dir_entry k pd d) = 0 ->
  let k2 := link_state k pd j d in
  wf_mm k2 /\ pt_wf k2 pd /\ (forall a, walk k2 pd a = walk k pd a) /\
  pte_v (dir_entry k2 pd d) = 1 /\ table_of k2 pd d = frame_addr j /\
  (forall i, count k2 i = if decide (j = i) then 1 else count k i).
Proof.
  intros Hmm Hpt Hj Hcj Hd Hv k2. pose proof (wf_dir_apart _ _ Hpt j Hj Hcj) as Hap.
  pose proof (alloc_pt_wf k pd j Hmm Hpt Hj Hcj) as Hpt1.
  pose proof (alloc_count k j Hmm Hj) as Hc1.
  pose proof (alloc_same_tables k pd j Hpt Hj Hcj) as Hs1.
  set (k1 := zero_page (frame_addr j) PAGING_SIZE (set_count j 1 k)) in *.
  assert (pte_v (dir_entry k2 pd d) = 1 /\ table_of k2 pd d = frame_addr j) as [Hv2 Ht2].
  { unfold table_of, dir_entry, k2, link_state. rsimpl. rewrite ld_fill_entry. split.
    - by autorewrite with pte.
    - by apply ppn_fill. }
  destruct (link_table k1 k2 pd Hpt1 ltac:(done) d j) as [Hpt2 Hw]; try done.
  - by rewrite (proj1 Hs1).
  - rewrite Hc1. by destruct (decide _).
  - intros d' (?&Hv'&Hf&E). apply (alloc_not_table k pd j Hpt Hcj d').
    unfold has_table, table_of in *. rewrite (proj1 Hs1) in Hv', E by done. done.
  - intros x Hx Hx'. unfold k2, link_state. rsimpl. rewrite fill_entry_ne by done.
    unfold memset. rewrite in_range_false; [done|]. frames. lia.
  - intros e He. unfold k2, link_state. rsimpl.
    erewrite ld_ext; [apply (ld_memset_0 8 (k_pmem k1) _ (frame_addr j) (8 * PAGE_TABLE_ITEM_NUM)); frames; lia|].
    intros x Hx. apply fill_entry_ne. frames. lia.
  - split_and!; try done; [by apply (alloc_wf_mm k)|].
    intros a. rewrite Hw. by apply walk_same.
Qed.

(** The free frames of the list got a user each; every other count is the same. *)
Definition frames_taken (k k' : kernel) (l : list Z) : Prop :=
  Forall (fun j => is_frame j /\ count k j = 0) l /\ forall x, count k' x = if decide (x ∈ l) then 1 else count k x.
(** A frame that is in use and is neither a table nor part of the directory. *)
Definition data_frame (k : kernel) (pd f : Z) : Prop :=
  is_frame f /\ count k f <> 0 /\ apart_dir pd f /\ forall d, ~ has_table k pd d f.
Definition same_frame (k k' : kernel) (f : Z) : Prop :=
  forall x, frame_addr f <= x < frame_addr f + PAGE_SIZE -> k_pmem k' x = k_pmem k x.

(** [put_page] on every branch; [l] is the new table, if one was needed. *)
Lemma put_page_spec k i address :
  let pd := page_dir_table (k_mm k) in
  wf_mm k -> pt_wf k pd -> is_frame i ->
  runs (put_page (frame_addr i) address) k (fun r k' => wf_mm k' /\ pt_wf k' pd /\
    page_dir_table (k_mm k') = pd /\
    ((r = 0 /\ k' = k /\ pte_v (dir_entry k pd (GET_PAGE_DIR_ID address)) = 0 /\
      forall j, is_frame j -> count k j <> 0) \/
     (r = frame_addr i /\ maps_page k k' pd address (frame_addr i) /\
      (exists l, frames_taken k k' l /\ length l = if truth (pte_v (dir_entry k pd (GET_PAGE_DIR_ID address))) then 0%nat else 1%nat) /\
      forall f, data_frame k pd f -> same_frame k k' f))).
Proof.
  intros pd Hmm Hpt Hi. unfold put_page.
  assert (MAP_NR (frame_addr i) = i) as ->.
  { rewrite <- (Z.add_0_r (frame_addr i)). apply MAP_NR_frame_addr; frames; lia. }
  unfold runs. erewrite bind_Ok by (apply get_mem_map_Ok; [done|frames; lia]).
  erewrite bind_Ok by reflexivity. fold pd. cbv zeta. erewrite bind_Ok by reflexivity.
  fold (dir_entry k pd (GET_PAGE_DIR_ID address)).
  destruct (truth (pte_v (dir_entry k pd (GET_PAGE_DIR_ID address)))) eqn:Hv.
  - apply truth_true in Hv. erewrite bind_Ok by reflexivity. cbn [negb andb].
    change (wf_mm k) in Hmm. destruct (fill_leaf k pd address i Hpt Hv Hi) as [Hwf' Hmap].
    split_and!; [done..|]. right. split_and!; [done..| |].
    + exists []. split; [|done]. split; [constructor|]. intros x. by rewrite decide_False by apply not_elem_of_nil.
    + intros f (Hf&_&_&Hno) x Hx. apply fill_entry_ne.
      destruct (wf_dir_table _ _ Hpt _ (dir_id_bound address) Hv) as (g&Hg&_&_).
      assert (g <> f) by (intros ->; by eapply Hno). pose proof (entry_id_bound address). destruct Hg as (_&_&_&E).
      change (pte_ppn_to_addr _) with (table_of k pd (GET_PAGE_DIR_ID address)). rewrite E. frames. lia.
  - apply truth_false in Hv. rewrite bind_assoc.
    destruct (get_free_page_cases k Hmm) as [(j&(Hj&Hcj&_)&Hg)|(Hno&Hg)].
    2:{ erewrite bind_Ok by exact Hg. cbn. split_and!; [done..|]. by left. }
    erewrite bind_Ok by exact Hg.
    replace (frame_addr j =? 0) with false by (pose proof (frame_addr_bound j Hj); unfold LOW_MEM in *; lia).
    pose proof (dir_id_bound address) as Hdb. pose proof (entry_id_bound address) as Heb.
    destruct (link_fresh k pd j (GET_PAGE_DIR_ID address) Hmm Hpt Hj Hcj Hdb Hv)
      as (Hmm2&Hpt2&Hw2&Hv2&Ht2&Hc2).
    set (k2 := link_state k pd j (GET_PAGE_DIR_ID address)) in *.
    destruct (fill_leaf k2 pd address i Hpt2 ltac:(lia) Hi) as [Hwf' [Hmap Hmap']].
    rewrite Ht2 in Hwf', Hmap, Hmap'.
    erewrite (bind_Ok _ _ _ (frame_addr j) k2) by reflexivity.
    rewrite Hv. replace (frame_addr j =? 0) with false
      by (pose proof (frame_addr_bound j Hj); unfold LOW_MEM in *; lia).
    cbn [negb andb truth].
    split_and!; [done..|]. right. split_and!; [done|split; [done|]|exists [j]; split; [|done]; split|].
    + intros a Ha. by rewrite Hmap'.
    + constructor; [done|constructor].
    + intros x. change (count k2 x = if decide (x ∈ [j]) then 1 else count k x). rewrite Hc2.
      destruct (decide (j = x)) as [->|]; [by rewrite decide_True by set_solver|by rewrite decide_False by set_solver].
    + intros f (Hf&Hcf&Haf&_) x Hx. assert (f <> j) by congruence.
      etransitivity; [apply fill_entry_ne; frames; lia|]. unfold k2, link_state. rsimpl.
      etransitivity; [apply fill_entry_ne; frames; lia|]. unfold memset at 1. rewrite in_range_false by (frames; lia).
      unfold zero_page. rsimpl. unfold memset. rewrite in_range_false by (frames; lia). done.
Qed.

(** ** Copy on write *)

(** The loop of [copy_page] stores the first word of [from] to the first word of [to],
    512 times. *)
Lemma copy_page_spec k from to :
  from + 8 <= to \/ to + 8 <= from ->
  runs (copy_page from to) k (fun _ k' => k' = k <| k_pmem := k_pmem k' |> /\
    (forall x, ~ to <= x < to + 8 -> k_pmem k' x = k_pmem k x) /\
    ld 8 (k_pmem k') to = ld 8 (k_pmem k) from).
Proof.
  intros Hdis. unfold copy_page. eapply runs_mono; [|apply (runs_for_up (fun n s =>
    s = k <| k_pmem := k_pmem s |> /\ (forall x, ~ to <= x < to + 8 -> k_pmem s x = k_pmem k x) /\
    (0 < n -> ld 8 (k_pmem s) to = ld 8 (k_pmem k) from)))].
  - intros _ s (?&?&Hl). split_and!; [done..|]. apply Hl. done.
  - intros n s _ (Es&Hs&_). apply runs_bind, runs_gets, runs_modify. rsimpl. split_and!.
    + by rewrite Es at 1.
    + intros x Hx. unfold st. rewrite in_range_false by (cbn; lia). by apply Hs.
    + intros _. rewrite ld8_st8 by apply ld8_bound. apply ld_ext. intros x Hx. apply Hs. cbn in Hx. lia.
  - split_and!; [by destruct k|done|lia].
Qed.

Lemma ppn_to_addr_run k' a :
  pte_common_ppn_to_addr a k' = Ok (pte_ppn_to_addr (ld 8 (k_pmem k') a)) k'.
Proof. reflexivity. Qed.
Lemma MAP_NR_frame j : is_frame j -> MAP_NR (frame_addr j) = j.
Proof.
  intros. rewrite <- (Z.add_0_r (frame_addr j)). apply MAP_NR_frame_addr; frames; lia.
Qed.

Section UnWp.
Context (k : kernel) (e i : Z).
Context (Hmm : wf_mm k) (Hi : is_frame i).
Context (Hpage : pte_ppn_to_addr (ld 8 (k_pmem k) e) = frame_addr i).

(** The only user of the page: the entry becomes writable, nothing else changes. *)
Lemma un_wp_single :
  count k i = 1 -> un_wp_page e k = Ok tt (k <| k_pmem ::= fun m => pte_upd pte_set_writeable m e |>).
Proof.
  intros Hc. unfold un_wp_page. rewrite (bind_Ok _ _ _ _ _ (ppn_to_addr_run k e)), Hpage.
  replace (LOW_MEM <=? frame_addr i) with true by (pose proof (frame_addr_bound i Hi); lia).
  rewrite bind_assoc, MAP_NR_frame by done.
  erewrite bind_Ok by (apply get_mem_map_Ok; [done|frames; lia]). by rewrite Hc.
Qed.

(** A shared page and no frame left: the task is killed. *)
Lemma un_wp_oom :
  count k i <> 1 -> (forall j, is_frame j -> count k j <> 0) -> un_wp_page e k = Stop (DoExit SIGSEGV) k.
Proof.
  intros Hc Hno. unfold un_wp_page. rewrite (bind_Ok _ _ _ _ _ (ppn_to_addr_run k e)), Hpage.
  replace (LOW_MEM <=? frame_addr i) with true by (pose proof (frame_addr_bound i Hi); lia).
  rewrite bind_assoc, MAP_NR_frame by done.
  erewrite bind_Ok by (apply get_mem_map_Ok; [done|frames; lia]).
  erewrite bind_Ok by reflexivity. replace (count k i =? 1) with false by lia.
  destruct (get_free_page_cases k Hmm) as [(j&(Hj&Hcj&_)&Hg)|(_&Hg)]; [by destruct (Hno j)|].
  erewrite bind_Ok by exact Hg. done.
Qed.

(** A shared page: the fresh frame [j] replaces it. *)
Definition cow_replaced (k' : kernel) (j : Z) : Prop :=
  is_frame j /\ count k j = 0 /\ wf_mm k' /\ page_dir_table (k_mm k') = page_dir_table (k_mm k) /\
  (forall x, count k' x = if decide (x = j) then 1 else if decide (x = i) then count k i - 1 else count k x) /\
  user_page (frame_addr j) (ld 8 (k_pmem k') e) /\
  ld 8 (k_pmem k') (frame_addr j) = ld 8 (k_pmem k) (frame_addr i) /\
  (forall x, 8 <= x < PAGE_SIZE -> k_pmem k' (frame_addr j + x) = 0) /\
  (forall x, ~ e <= x < e + 8 -> ~ frame_addr j <= x < frame_addr j + PAGE_SIZE ->
     k_pmem k' x = k_pmem k x).

(** The state in which [copy_page] is called. *)
Let filled (j : Z) : kernel :=
  (set_count i (count k i - 1) (zero_page (frame_addr j) PAGING_SIZE (set_count j 1 k)))
    <| k_pmem ::= fun m => fill_entry pte_accessibility_all (frame_addr j) m e |>.

Lemma copy_filled j :
  is_frame j -> count k j = 0 -> 2 <= count k i ->
  e + 8 <= frame_addr j \/ frame_addr j + PAGE_SIZE <= e ->
  e + 8 <= frame_addr i \/ frame_addr i + PAGE_SIZE <= e ->
  runs (copy_page (frame_addr i) (frame_addr j)) (filled j) (fun _ k' => cow_replaced k' j).
Proof.
  intros Hj Hcj Hc Hej Hei. assert (i <> j) as Hij by (intros ->; lia).
  assert (0 <= i < PAGING_PAGES /\ 0 <= j < PAGING_PAGES) as [Hi' Hj'] by (frames; lia).
  pose proof (count_bound k i Hmm Hi') as Hb.
  assert (forall x, ~ e <= x < e + 8 -> ~ frame_addr j <= x < frame_addr j + PAGE_SIZE ->
    k_pmem (filled j) x = k_pmem k x) as Hf.
  { intros x ??. unfold filled. rsimpl. rewrite fill_entry_ne by done. unfold zero_page, set_count.
    rsimpl. unfold memset. rewrite in_range_false; [done|]. unfold PAGING_SIZE, PAGE_SIZE in *. lia. }
  eapply runs_mono; [|apply copy_page_spec; frames; lia].
  intros _ k' (Ek&Hm&Hl). assert (k_mm k' = k_mm (filled j)) as Emm by (rewrite Ek; reflexivity).
  unfold cow_replaced. unfold wf_mm, count at 2. rewrite Emm. split_and!; try done.
  - apply (wf_set_count (set_count j 1 k)); [apply wf_set_count; [done|lia]|lia].
  - apply (wf_set_count (set_count j 1 k)); [apply wf_set_count; [done|lia]|lia].
  - intros x. change (count (set_count i (count k i - 1) (set_count j 1 k)) x =
      if decide (x = j) then 1 else if decide (x = i) then count k i - 1 else count k x).
    assert (wf_mm (set_count j 1 k)) by (apply wf_set_count; [done|lia]).
    destruct (decide (x = j)) as [->|]; [|destruct (decide (x = i)) as [->|]].
    + rewrite count_set_ne, count_set_eq by (done || lia). done.
    + by rewrite count_set_eq.
    + by rewrite !count_set_ne by (done || lia).
  - erewrite ld_ext; [by apply (fill_entry_user j (k_pmem (zero_page (frame_addr j) PAGING_SIZE k)) e)|].
    intros x Hx. rewrite Hm by (frames; cbn in Hx; lia). done.
  - rewrite Hl. apply ld_ext. intros x Hx. apply Hf; frames; cbn in Hx; lia.
  - intros x Hx. rewrite Hm by lia. unfold filled. rsimpl.
    rewrite fill_entry_ne by (frames; lia). unfold zero_page, set_count. rsimpl. unfold memset.
    rewrite in_range_true by (unfold PAGING_SIZE, PAGE_SIZE in *; lia). done.
  - intros x ??. rewrite Hm by (frames; lia). by apply Hf.
Qed.

Lemma un_wp_shared :
  2 <= count k i -> (exists j, is_frame j /\ count k j = 0) ->
  (forall j, is_frame j -> count k j = 0 -> e + 8 <= frame_addr j \/ frame_addr j + PAGE_SIZE <= e) ->
  e + 8 <= frame_addr i \/ frame_addr i + PAGE_SIZE <= e ->
  runs (un_wp_page e) k (fun _ k' => exists j, cow_replaced k' j).
Proof.
  intros Hc (j0&Hj0&Hcj0) Hout Hei. unfold un_wp_page.
  eapply runs_step; [apply ppn_to_addr_run|]. rewrite Hpage.
  replace (LOW_MEM <=? frame_addr i) with true by (pose proof (frame_addr_bound i Hi); lia).
  rewrite MAP_NR_frame by done. assert (0 <= i < PAGING_PAGES) as Hi' by (frames; lia).
  apply runs_assoc. eapply runs_step; [by apply get_mem_map_Ok|]. eapply runs_step; [reflexivity|].
  replace (count k i =? 1) with false by lia.
  destruct (get_free_page_cases k Hmm) as [(j&(Hj&Hcj&_)&Hg)|(Hno&_)]; [|by destruct (Hno j0)].
  eapply runs_step; [exact Hg|].
  replace (frame_addr j =? 0) with false by (pose proof (frame_addr_bound j Hj); unfold LOW_MEM in *; lia).
  pose proof (alloc_wf_mm k j Hmm) as Hmm1. pose proof (alloc_count k j Hmm Hj) as Hc1.
  set (k1 := zero_page (frame_addr j) PAGING_SIZE (set_count j 1 k)) in *.
  assert (i <> j) as Hij by (intros ->; lia).
  assert (count k1 i = count k i) as Hci by (rewrite Hc1; by destruct (decide _)).
  pose proof (count_bound k i Hmm Hi') as Hb.
  apply runs_assoc. eapply runs_step; [by apply get_mem_map_Ok|].
  eapply runs_step; [by apply set_mem_map_Ok|]. rewrite Hci, u8_small by lia.
  do 5 (eapply runs_step; [reflexivity|]).
  apply (runs_mono _ (filled j) (fun _ k' => cow_replaced k' j)); [by eauto|].
  apply copy_filled; eauto.
Qed.
End UnWp.

(** ** Sharing a table at fork *)

(** The write-protected entry that both sides get. *)
Definition protect (w : Z) : Z := pte_set_accessibility pte_accessibility_readexecute w.
Definition slot (k : kernel) (table n : Z) : Z := ld 8 (k_pmem k) (entry table n).
(** The entry is valid and maps frame [i]. *)
Definition refers (w i : Z) : bool := truth (pte_v w) && (pte_ppn_to_addr w =? frame_addr i).
(** The number of entries below [n] that map frame [i]. *)
Fixpoint refs (k : kernel) (table i : Z) (n : nat) : Z :=
  match n with
  | O => 0
  | S m => refs k table i m + b2z (refers (slot k table (Z.of_nat m)) i)
  end.
(** Every valid entry of the table maps a managed frame. *)
Definition maps_frames (k : kernel) (table : Z) : Prop :=
  forall n, 0 <= n < PAGE_TABLE_ITEM_NUM -> pte_v (slot k table n) <> 0 ->
    exists i, is_frame i /\ pte_ppn_to_addr (slot k table n) = frame_addr i.

(** The frames that it maps are below [high]. *)
Definition mapped_below (k : kernel) (table high : Z) : Prop :=
  forall i, is_frame i -> 0 < refs k table i (Z.to_nat PAGE_TABLE_ITEM_NUM) -> frame_addr i < high.

Lemma protect_ppn w : pte_ppn_to_addr (protect w) = pte_ppn_to_addr w.
Proof. apply ppn_to_addr_ext. unfold protect. by autorewrite with pte. Qed.

Lemma copy_entry_spec k from_e to_e :
  wf_mm k -> from_e + 8 <= to_e \/ to_e + 8 <= from_e ->
  (pte_v (ld 8 (k_pmem k) from_e) <> 0 ->
     exists i, is_frame i /\ pte_ppn_to_addr (ld 8 (k_pmem k) from_e) = frame_addr i) ->
  runs (copy_entry from_e to_e) k (fun _ k' =>
    let w := ld 8 (k_pmem k) from_e in
    wf_mm k' /\ page_dir_table (k_mm k') = page_dir_table (k_mm k) /\
    HIGH_MEMORY (k_mm k') = HIGH_MEMORY (k_mm k) /\
    (forall x, ~ from_e <= x < from_e + 8 -> ~ to_e <= x < to_e + 8 -> k_pmem k' x = k_pmem k x) /\
    ld 8 (k_pmem k') from_e = (if truth (pte_v w) then protect w else w) /\
    ld 8 (k_pmem k') to_e = (if truth (pte_v w) then protect w else ld 8 (k_pmem k) to_e) /\
    forall i, is_frame i -> count k' i = if refers w i then u8 (count k i + 1) else count k i).
Proof.
  intros Hmm Hdis Hfr. unfold copy_entry. eapply runs_step; [reflexivity|].
  set (w := ld 8 (k_pmem k) from_e) in *. unfold refers.
  destruct (truth (pte_v w)) eqn:Hv; [|by apply runs_ret].
  apply truth_true in Hv. destruct (Hfr Hv) as (i&Hi&Ei).
  eapply runs_step; [reflexivity|]. eapply runs_step; [apply mod_pte_Ok|].
  set (m2 := pte_upd (pte_set_accessibility pte_accessibility_readexecute) (st 8 (k_pmem k) to_e w) to_e).
  set (k2 := k <| k_pmem := m2 |>).
  assert (ld 8 m2 to_e = protect w) as Hl2.
  { unfold m2. autorewrite with pte. rewrite ld8_st8 by apply ld8_bound. done. }
  eapply (runs_step _ _ _ (frame_addr i) k2).
  { change (Ok (pte_ppn_to_addr (ld 8 m2 to_e)) k2 = Ok (frame_addr i) k2).
    by rewrite Hl2, protect_ppn, Ei. }
  pose proof (frame_addr_bound i Hi) as Hb. replace (LOW_MEM <? frame_addr i) with true by lia.
  eapply (runs_step _ _ _ (protect w) k2); [by rewrite <- Hl2|].
  eapply runs_step; [reflexivity|]. cbv zeta.
  replace (Z.shiftr (frame_addr i - LOW_MEM) PAGING_SHIFT) with i.
  2:{ rewrite <- (MAP_NR_frame i Hi) at 1. unfold MAP_NR. rewrite u64_small; [done|].
      unfold LOW_MEM in *. lia. }
  assert (0 <= i < PAGING_PAGES) as Hi' by (frames; lia).
  set (k3 := k2 <| k_pmem ::= fun m => st 8 m from_e (protect w) |>).
  assert (wf_mm k3) as Hmm3 by exact Hmm.
  eapply runs_step; [by apply (get_mem_map_Ok k3)|].
  unfold runs. rewrite (set_mem_map_Ok k3) by done. cbv zeta.
  assert (0 <= protect w < 2 ^ 64) as Hpw by (apply word_op_set_accessibility, ld8_bound).
  split_and!.
  - apply wf_set_count; [done|apply u8_bound].
  - done.
  - done.
  - intros x ??. unfold set_count, k3, k2. rsimpl. unfold st at 1.
    rewrite in_range_false by (cbn; lia). unfold m2. rewrite pte_upd_ne by lia.
    unfold st. by rewrite in_range_false by (cbn; lia).
  - unfold set_count, k3, k2. rsimpl. by rewrite ld8_st8.
  - unfold set_count, k3, k2. rsimpl. rewrite ld_st_disjoint by (cbn; lia). done.
  - intros j Hj. cbn [andb]. rewrite Ei. destruct (Z.eqb_spec (frame_addr i) (frame_addr j)) as [E|E].
    + apply frame_addr_inj in E as <-. by rewrite count_set_eq.
    + rewrite count_set_ne; [done|lia|]. by intros ->.
Qed.

Lemma refs_nonneg k table i n : 0 <= refs k table i n.
Proof. induction n; cbn; [done|]. destruct (refers _ _); cbn; lia. Qed.

(** Both tables after the loop, and every use count. *)
Lemma copy_table_entries_spec k from to :
  wf_mm k -> from + PAGE_SIZE <= to \/ to + PAGE_SIZE <= from -> maps_frames k from ->
  runs (copy_table_entries from to) k (fun _ k' =>
    wf_mm k' /\ page_dir_table (k_mm k') = page_dir_table (k_mm k) /\
    HIGH_MEMORY (k_mm k') = HIGH_MEMORY (k_mm k) /\
    (forall x, ~ from <= x < from + PAGE_SIZE -> ~ to <= x < to + PAGE_SIZE -> k_pmem k' x = k_pmem k x) /\
    (forall n, 0 <= n < PAGE_TABLE_ITEM_NUM ->
       let w := slot k from n in
       slot k' from n = (if truth (pte_v w) then protect w else w) /\
       slot k' to n = (if truth (pte_v w) then protect w else slot k to n)) /\
    forall i, is_frame i -> count k' i = u8 (count k i + refs k from i (Z.to_nat PAGE_TABLE_ITEM_NUM))).
Proof.
  intros Hmm Hdis Hmap. unfold copy_table_entries.
  eapply runs_mono; [|apply (runs_for_up (fun n s => 0 <= n /\
    wf_mm s /\ page_dir_table (k_mm s) = page_dir_table (k_mm k) /\
    HIGH_MEMORY (k_mm s) = HIGH_MEMORY (k_mm k) /\
    (forall x, ~ from <= x < from + 8 * n -> ~ to <= x < to + 8 * n -> k_pmem s x = k_pmem k x) /\
    (forall m, 0 <= m < n -> let w := slot k from m in
       slot s from m = (if truth (pte_v w) then protect w else w) /\
       slot s to m = (if truth (pte_v w) then protect w else slot k to m)) /\
    forall i, is_frame i -> count s i = u8 (count k i + refs k from i (Z.to_nat n))))].
  - intros _ k' (_&?&?&?&?&?&?). done.
  - intros n s Hn (_&Hmms&Hpds&Hhs&Hmem&Hslots&Hcnt).
    assert (slot s from n = slot k from n /\ slot s to n = slot k to n) as [Ef Et].
    { split; apply ld_ext; intros x Hx; apply Hmem; frames; lia. }
    eapply runs_mono; [|apply copy_entry_spec; [done|frames; lia|]].
    2:{ fold (slot s from n). rewrite Ef. apply Hmap. unfold PAGE_TABLE_ITEM_NUM. lia. }
    intros _ k' (Hmm'&Hpd'&Hh'&Hmem'&Hfn&Htn&Hcnt'). fold (slot s from n) in *.
    fold (slot s to n) in *. rewrite Ef in *. rewrite Et in *.
    split_and!; [lia|done|congruence|congruence|..].
    + intros x ??. rewrite Hmem' by (frames; lia). apply Hmem; lia.
    + intros m Hm. destruct (decide (m = n)) as [->|]; [done|].
      cbv zeta. destruct (Hslots m ltac:(lia)) as [<- <-].
      split; apply ld_ext; intros x Hx; apply Hmem'; frames; lia.
    + intros i Hi. rewrite Hcnt', (Hcnt i Hi) by done.
      rewrite Z2Nat.inj_add by lia. change (Z.to_nat 1) with 1%nat. rewrite Nat.add_1_r.
      cbn [refs]. rewrite Z2Nat.id by lia. unfold u8.
      destruct (refers _ _); cbn [b2z]; [rewrite Z.add_mod_idemp_l by lia|]; f_equal; lia.
  - split_and!; try done; [lia|]. intros i Hi. cbn [refs Z.to_nat]. rewrite Z.add_0_r.
    symmetry. apply u8_small, count_bound; [done|]. frames; lia.
Qed.

(** ** Freeing the pages of a table *)

Lemma refs_mono k table i n m : (n <= m)%nat -> refs k table i n <= refs k table i m.
Proof. induction 1 as [|m' _ IH]; cbn; [lia|]. destruct (refers _ _); cbn; lia. Qed.

(** Every entry is cleared and every frame loses one use for each entry that mapped it. *)
Lemma free_table_entries_spec k table :
  wf_mm k -> maps_frames k table ->
  (forall i, is_frame i -> refs k table i (Z.to_nat PAGE_TABLE_ITEM_NUM) <= count k i) ->
  mapped_below k table (HIGH_MEMORY (k_mm k)) ->
  runs (free_table_entries table) k (fun _ k' =>
    wf_mm k' /\ page_dir_table (k_mm k') = page_dir_table (k_mm k) /\
    HIGH_MEMORY (k_mm k') = HIGH_MEMORY (k_mm k) /\
    (forall x, ~ table <= x < table + PAGE_SIZE -> k_pmem k' x = k_pmem k x) /\
    (forall n, 0 <= n < PAGE_TABLE_ITEM_NUM -> slot k' table n = 0) /\
    forall i, is_frame i -> count k' i = count k i - refs k table i (Z.to_nat PAGE_TABLE_ITEM_NUM)).
Proof.
  intros Hmm Hmap Hrefs Hhigh. unfold free_table_entries.
  eapply runs_mono; [|apply (runs_for_up (fun n s => 0 <= n /\ wf_mm s /\
    page_dir_table (k_mm s) = page_dir_table (k_mm k) /\ HIGH_MEMORY (k_mm s) = HIGH_MEMORY (k_mm k) /\
    (forall x, ~ table <= x < table + 8 * n -> k_pmem s x = k_pmem k x) /\
    (forall m, 0 <= m < n -> slot s table m = 0) /\
    forall i, is_frame i -> count s i = count k i - refs k table i (Z.to_nat n)))].
  - intros _ k' (_&?&?&?&Hm&?&?). unfold PAGE_TABLE_ITEM_NUM in *. done.
  - intros n s Hn (_&Hmms&Hpds&Hhs&Hmem&Hslots&Hcnt).
    change (0 + Z.of_nat (Z.to_nat PAGE_TABLE_ITEM_NUM)) with 512 in Hn.
    assert (slot s table n = slot k table n) as Es.
    { apply ld_ext. intros x Hx. apply Hmem. frames; lia. }
    assert (forall i, refs k table i (Z.to_nat (n + 1)) =
      refs k table i (Z.to_nat n) + b2z (refers (slot k table n) i)) as Hstep.
    { intros i. rewrite Z2Nat.inj_add, Nat.add_1_r by lia. cbn [refs]. by rewrite Z2Nat.id by lia. }
    assert (runs (when (truth (pte_v (slot s table n))) (free_page (pte_ppn_to_addr (slot s table n)))) s
      (fun _ k' => wf_mm k' /\ k_pmem k' = k_pmem s /\ page_dir_table (k_mm k') = page_dir_table (k_mm s) /\
         HIGH_MEMORY (k_mm k') = HIGH_MEMORY (k_mm s) /\
         forall i, is_frame i -> count k' i = count k i - refs k table i (Z.to_nat (n + 1)))) as Hfree.
    { rewrite Es. unfold when. destruct (truth (pte_v (slot k table n))) eqn:Hv.
      - apply truth_true in Hv as Hv'. destruct (Hmap n ltac:(unfold PAGE_TABLE_ITEM_NUM; lia) Hv') as (i&Hi&Ei).
        assert (forall j, refers (slot k table n) j = (frame_addr i =? frame_addr j)) as Hr.
        { intros j. unfold refers. by rewrite Hv, Ei. }
        pose proof (refs_mono k table i (Z.to_nat (n + 1)) (Z.to_nat PAGE_TABLE_ITEM_NUM)
            ltac:(unfold PAGE_TABLE_ITEM_NUM; lia)) as Hle.
        rewrite Hstep, Hr, Z.eqb_refl in Hle. cbn [b2z] in Hle. pose proof (refs_nonneg k table i (Z.to_nat n)).
        assert (count s i <> 0) by (rewrite Hcnt by done; pose proof (Hrefs i Hi); lia).
        rewrite Ei. eapply runs_mono; [|apply (free_spec (free := free_page)); try done].
        2:{ rewrite Hhs. apply Hhigh; [done|lia]. }
        intros _ k' [? ->]. split_and!; [done..|]. intros j Hj. rewrite Hstep, Hr.
        assert (0 <= i < PAGING_PAGES) by (frames; lia).
        destruct (Z.eqb_spec (frame_addr i) (frame_addr j)) as [E|E]; cbn [b2z].
        + apply frame_addr_inj in E as <-. rewrite count_set_eq, Hcnt by done. lia.
        + rewrite count_set_ne, Hcnt; [lia|done|lia|]. by intros ->.
      - apply runs_ret. split_and!; [done..|]. intros j Hj. rewrite Hcnt, Hstep by done.
        unfold refers. rewrite Hv. cbn. lia. }
    eapply runs_step; [reflexivity|]. apply runs_bind. eapply runs_mono; [|exact Hfree].
    intros _ k' (?&Em&?&?&?). apply runs_modify. rsimpl. split_and!; try done; try congruence; [lia|..].
    + intros x ?. rewrite Em. unfold memset. rewrite in_range_false by (frames; lia). apply Hmem. lia.
    + intros m Hm. unfold slot. rsimpl. destruct (decide (m = n)) as [->|].
      * apply ld_memset_0; frames; lia.
      * rewrite ld_memset_disjoint, Em by (frames; lia). apply Hslots. lia.
  - split_and!; try done; [lia|]. intros i Hi. change (Z.to_nat 0) with O. cbn [refs]. by rewrite Z.sub_0_r.
Qed.

(** Copying a table at fork and freeing the copy restores every use count. *)
Lemma refs_protected k k' from to i n :
  (forall m, 0 <= m < Z.of_nat n -> let w := slot k from m in
     slot k' to m = if truth (pte_v w) then protect w else 0) ->
  refs k' to i n = refs k from i n.
Proof.
  induction n as [|n IH]; intros H; [done|]. cbn [refs]. rewrite IH by (intros; apply H; lia).
  f_equal. f_equal. rewrite H by lia. cbv zeta. unfold refers.
  destruct (truth (pte_v (slot k from (Z.of_nat n)))) eqn:Hv.
  - rewrite protect_ppn. unfold protect. autorewrite with pte. by rewrite Hv.
  - done.
Qed.

Lemma copy_free_table k from to :
  wf_mm k -> from + PAGE_SIZE <= to \/ to + PAGE_SIZE <= from -> maps_frames k from ->
  (forall n, 0 <= n < PAGE_TABLE_ITEM_NUM -> slot k to n = 0) ->
  (forall i, is_frame i -> count k i + refs k from i (Z.to_nat PAGE_TABLE_ITEM_NUM) < 256) ->
  mapped_below k from (HIGH_MEMORY (k_mm k)) ->
  runs (copy_table_entries from to ;;; free_table_entries to) k (fun _ k' =>
    (forall i, is_frame i -> count k' i = count k i) /\
    (forall n, 0 <= n < PAGE_TABLE_ITEM_NUM -> slot k' to n = 0)).
Proof.
  intros Hmm Hdis Hmap Hz Hb Hh. apply runs_bind.
  eapply runs_mono; [|by apply copy_table_entries_spec].
  intros _ k1 (Hmm1&_&Hh1&_&Hs1&Hc1).
  assert (forall n, 0 <= n < PAGE_TABLE_ITEM_NUM -> let w := slot k from n in
    slot k1 to n = if truth (pte_v w) then protect w else 0) as Hto.
  { intros n Hn. destruct (Hs1 n Hn) as [_ ->]. by rewrite Hz. }
  assert (forall i, refs k1 to i (Z.to_nat PAGE_TABLE_ITEM_NUM) =
    refs k from i (Z.to_nat PAGE_TABLE_ITEM_NUM)) as Hr.
  { intros i. apply refs_protected. intros m Hm. apply Hto. unfold PAGE_TABLE_ITEM_NUM in *. lia. }
  assert (forall i, is_frame i ->
    count k1 i = count k i + refs k from i (Z.to_nat PAGE_TABLE_ITEM_NUM)) as Hc1'.
  { intros i Hi. rewrite Hc1 by done. apply u8_small. pose proof (refs_nonneg k from i (Z.to_nat PAGE_TABLE_ITEM_NUM)).
    pose proof (count_bound k i Hmm ltac:(frames; lia)). pose proof (Hb i Hi). lia. }
  eapply runs_mono; [|apply free_table_entries_spec; [done|..]].
  - intros _ k2 (_&_&_&_&?&Hc2). split; [|done]. intros i Hi. rewrite Hc2, Hc1', Hr by done. lia.
  - intros n Hn. rewrite Hto by done. cbv zeta. destruct (truth _) eqn:Hv; [|by intros []].
    intros _. rewrite protect_ppn. apply Hmap; [done|]. by apply truth_true.
  - intros i Hi. rewrite Hr, Hc1' by done. pose proof (count_bound k i Hmm ltac:(frames; lia)). lia.
  - intros i Hi. rewrite Hh1, Hr. by apply Hh.
Qed.

(** ** [do_wp_page] *)

(** A walk that succeeds goes through a table in a used frame. *)
Lemma walk_table k pd address w :
  pt_wf k pd -> walk k pd address = Some w ->
  exists t, has_table k pd (GET_PAGE_DIR_ID address) t /\ count k t <> 0 /\ apart_dir pd t /\
    pte_v w <> 0 /\ ld 8 (k_pmem k) (entry (frame_addr t) (GET_PAGE_ENTRY_ID address)) = w.
Proof.
  intros Hpt. unfold walk. destruct (truth (pte_v _)) eqn:Hv; [|done]. apply truth_true in Hv.
  destruct (wf_dir_table _ _ Hpt _ (dir_id_bound address) Hv) as (t&Ht&Hc&Hap).
  pose proof Ht as (_&_&_&E). rewrite E. destruct (truth (pte_v (ld _ _ _))) eqn:Hv'; [|done].
  apply truth_true in Hv'. intros [= <-]. by exists t.
Qed.

(** The walks after the entry that maps [address] was redirected to the fresh frame [j]. *)
Lemma cow_replaced_walk k k' pd address i t j :
  pt_wf k pd -> (forall d, ~ has_table k pd d i) -> 2 <= count k i ->
  has_table k pd (GET_PAGE_DIR_ID address) t -> count k t <> 0 -> apart_dir pd t ->
  let e := entry (frame_addr t) (GET_PAGE_ENTRY_ID address) in
  cow_replaced k e i k' j ->
  pt_wf k' pd /\
  (forall a, GET_PAGE_DIR_ID a <> GET_PAGE_DIR_ID address \/
     GET_PAGE_ENTRY_ID a <> GET_PAGE_ENTRY_ID address -> walk k' pd a = walk k pd a) /\
  walk k' pd address = let w := ld 8 (k_pmem k') e in if truth (pte_v w) then Some w else None.
Proof.
  intros Hpt Hnt Hc Ht Hct Hapt e (Hj&Hcj&_&_&Hcnt&_&_&_&Hmem).
  pose proof Ht as (Hd&Hv&Hft&Et). pose proof (entry_id_bound address) as Heb.
  set (k1 := k' <| k_pmem := fun x => if (e <=? x) && (x <? e + 8) then k_pmem k x else k_pmem k' x |>).
  assert (same_tables k k1 pd) as Hs1.
  { apply (same_tables_outside _ _ _ (fun x => frame_addr j <= x < frame_addr j + PAGE_SIZE)); [done|..].
    - intros x Hx. unfold k1. rsimpl. destruct ((e <=? x) && (x <? e + 8)) eqn:E; [done|].
      apply Hmem; [|done]. intros ?. rewrite in_range_true in E by lia. done.
    - intros x Hx. pose proof (wf_dir_apart _ _ Hpt j Hj Hcj). frames. lia.
    - intros d j' x Hh ? ?. assert (j' <> j).
      { intros ->. by apply (alloc_not_table k pd j Hpt Hcj d). } frames. lia. }
  assert (pt_wf k1 pd) as Hpt1.
  { apply (pt_wf_same k); [done|apply Hs1|..]; change (count k1) with (count k').
    - intros x _ Hx _. rewrite Hcnt. destruct (decide _); [done|]. destruct (decide _); [lia|done].
    - intros x _. rewrite Hcnt. destruct (decide _); [done|]. destruct (decide _); [lia|by left]. }
  assert (table_of k1 pd (GET_PAGE_DIR_ID address) = frame_addr t) as Et1.
  { unfold table_of. by rewrite (proj1 Hs1). }
  destruct (write_leaf k1 k' pd Hpt1 ltac:(done) _ _ Hd Heb) as (?&Ho&Hself).
  { by rewrite (proj1 Hs1). }
  { rewrite Et1. fold e. intros x Hx. unfold k1. rsimpl. by rewrite in_range_false by lia. }
  split_and!; [done| |].
  - intros a Ha. rewrite Ho by done. by apply walk_same.
  - rewrite Hself by done. by rewrite Et1.
Qed.

Lemma do_wp_page_spec k address i w :
  let pd := page_dir_table (k_mm k) in
  wf_mm k -> pt_wf k pd -> is_frame i -> count k i <> 0 -> (forall d, ~ has_table k pd d i) ->
  walk k pd address = Some w -> pte_ppn_to_addr w = frame_addr i ->
  mayrun (do_wp_page address) k
    (fun _ k' => pt_wf k' pd /\
       (forall a, GET_PAGE_DIR_ID a <> GET_PAGE_DIR_ID address \/
          GET_PAGE_ENTRY_ID a <> GET_PAGE_ENTRY_ID address -> walk k' pd a = walk k pd a) /\
       ((count k i = 1 /\ walk k' pd address = Some (pte_set_writeable w) /\
         forall x, count k' x = count k x) \/
        (2 <= count k i /\ exists j w', is_frame j /\ count k j = 0 /\ count k' j = 1 /\
           count k' i = count k i - 1 /\ walk k' pd address = Some w' /\ user_page (frame_addr j) w' /\
           ld 8 (k_pmem k') (frame_addr j) = ld 8 (k_pmem k) (frame_addr i) /\
           forall x, 8 <= x < PAGE_SIZE -> k_pmem k' (frame_addr j + x) = 0)))
    (fun e k' => e = DoExit SIGSEGV /\ k' = k /\ 2 <= count k i /\ forall j, is_frame j -> count k j <> 0).
Proof.
  intros pd Hmm Hpt Hi Hc Hnt Hw Ei. destruct (walk_table _ _ _ _ Hpt Hw) as (t&Ht&Hct&Hapt&Hvw&El).
  pose proof Ht as (Hd&Hv&Hft&Et). pose proof (count_bound k i Hmm ltac:(frames; lia)) as Hcb.
  set (e := entry (frame_addr t) (GET_PAGE_ENTRY_ID address)) in *.
  pose proof (entry_id_bound address) as Heb.
  assert (do_wp_page address k = un_wp_page e k) as Erun.
  { unfold do_wp_page, e. rewrite <- Et. reflexivity. }
  unfold mayrun. rewrite Erun. rewrite <- El in Ei, Hvw.
  destruct (decide (count k i = 1)) as [H1|H1].
  - rewrite (un_wp_single k e i) by done. set (k' := k <| k_pmem ::= _ |>).
    destruct (write_leaf k k' pd Hpt ltac:(done) _ _ Hd Heb Hv) as (Hwf'&Ho&Hs).
    { rewrite Et. fold e. intros x Hx. unfold k'. rsimpl. apply pte_upd_ne. lia. }
    split_and!; [done..|]. left. split_and!; [done| |done]. rewrite Hs, Et by done. fold e. cbv zeta.
    unfold k'. rsimpl. rewrite ld_pte_upd by auto with pte. rewrite El in *. autorewrite with pte.
    apply truth_true in Hvw. by rewrite Hvw.
  - destruct (get_free_page_cases k Hmm) as [(j&(Hj&Hcj&_)&_)|(Hno&_)].
    2:{ rewrite (un_wp_oom k e i) by done. split_and!; [done|done|lia|done]. }
    assert (runs (un_wp_page e) k (fun _ k' => exists j, cow_replaced k e i k' j)) as Hrun.
    { apply (un_wp_shared k e i Hmm Hi Ei); [lia|by eauto|..].
      - intros j' ??. assert (j' <> t) by congruence. unfold e. frames. lia.
      - assert (i <> t) by (intros ->; by eapply Hnt). unfold e. frames. lia. }
    unfold runs in Hrun. destruct (un_wp_page e k) as [[] k'|]; [|done].
    destruct Hrun as (j'&Hrep). destruct (cow_replaced_walk k k' pd address i t j') as (?&?&Hs); try done; [lia|].
    split_and!; [done..|]. right. split; [lia|].
    destruct Hrep as (Hj'&Hcj'&_&_&Hcnt&Hup&Hfirst&Hrest&_).
    exists j', (ld 8 (k_pmem k') e). rewrite !Hcnt, decide_True by done.
    rewrite decide_False, decide_True by (done || congruence). split_and!; try done.
    rewrite Hs. destruct Hup as (Hv1&_). cbv zeta. fold e. by rewrite Hv1.
Qed.

(** ** A concrete address space: a directory below the managed memory that maps the first
    user page to frame 6, used twice, through a table in frame 5 *)
Definition demo_table : Z := pte_enable_entry (pte_addr_to_ppn (frame_addr 5) 0).
Definition demo_leaf : Z := protect (pte_enable_user (pte_enable_entry (pte_addr_to_ppn (frame_addr 6) 0))).
Definition demo_space : kernel :=
  (set_count 6 2 (set_count 5 1 empty_space))
    <| k_pmem := st 8 (st 8 (fun _ => 0) demo_pd demo_table) (frame_addr 5) demo_leaf |>.

Lemma ld_zero n a : ld n (fun _ => 0) a = 0.
Proof. revert a. induction n as [|n IH]; intros a; [done|]. change (u8 0 + 256 * ld n (fun _ => 0) (a + 1) = 0). by rewrite IH. Qed.
Lemma apart_demo i : is_frame i -> apart_dir demo_pd i.
Proof. intros. unfold demo_pd. frames. unfold LOW_MEM. lia. Qed.
Lemma empty_space_pt : pt_wf empty_space demo_pd.
Proof.
  assert (forall d, dir_entry empty_space demo_pd d = 0) as E by (intros; apply ld_zero).
  split.
  - intros. by apply apart_demo.
  - intros d _. rewrite E. by intros [].
  - intros d d' i (_&Hv&_). rewrite E in Hv. by destruct Hv.
Qed.

Lemma demo_space_wf : wf_mm demo_space.
Proof. apply (wf_set_count (set_count 5 1 empty_space)); [apply wf_set_count; [apply empty_space_wf|]|]; lia. Qed.
Lemma demo_space_count i : is_frame i -> count demo_space i = if i =? 6 then 2 else if i =? 5 then 1 else if i <? FREE_FRAMES then 0 else USED.
Proof.
  intros Hi. change (count (set_count 6 2 (set_count 5 1 empty_space)) i = if i =? 6 then 2 else if i =? 5 then 1 else if i <? FREE_FRAMES then 0 else USED).
  assert (wf_mm (set_count 5 1 empty_space)) by (apply wf_set_count; [apply empty_space_wf|lia]).
  destruct (Z.eqb_spec i 6) as [->|]; [by apply count_set_eq|]. rewrite count_set_ne by lia.
  destruct (Z.eqb_spec i 5) as [->|]; [by apply count_set_eq; [apply empty_space_wf|]|].
  rewrite count_set_ne by lia. by apply empty_space_count.
Qed.
Lemma demo_dir d : 0 <= d < PAGE_TABLE_ITEM_NUM ->
  dir_entry demo_space demo_pd d = if d =? 0 then demo_table else 0.
Proof.
  intros. unfold dir_entry, demo_space. rsimpl.
  rewrite ld_st_disjoint by (unfold demo_pd; frames; unfold LOW_MEM; lia).
  destruct (Z.eqb_spec d 0) as [->|].
  - unfold entry. rewrite Z.mul_0_r, Z.add_0_r. by apply ld8_st8.
  - rewrite ld_st_disjoint by (frames; lia). apply ld_zero.
Qed.
Lemma demo_table_of : table_of demo_space demo_pd 0 = frame_addr 5.
Proof. unfold table_of. rewrite demo_dir by done. reflexivity. Qed.
Lemma demo_has d i : has_table demo_space demo_pd d i -> d = 0 /\ i = 5.
Proof.
  intros (Hd&Hv&_&E). rewrite demo_dir in Hv by done. destruct (Z.eqb_spec d 0) as [->|]; [|by destruct Hv].
  rewrite demo_table_of in E. apply frame_addr_inj in E. done.
Qed.
Lemma demo_space_pt : pt_wf demo_space demo_pd.
Proof.
  split.
  - intros. by apply apart_demo.
  - intros d Hd Hv. exists 5. assert (d = 0) as ->.
    { rewrite demo_dir in Hv by done. destruct (Z.eqb_spec d 0); [done|by destruct Hv]. }
    split_and!; [|by rewrite demo_space_count|by apply apart_demo].
    repeat split; try done.
  - intros d d' i [-> _]%demo_has [-> _]%demo_has. done.
Qed.
Lemma demo_walk : walk demo_space demo_pd USER_START_ADDR = Some demo_leaf.
Proof.
  unfold walk. change (GET_PAGE_DIR_ID USER_START_ADDR) with 0. rewrite demo_table_of, demo_dir by done.
  change (truth (pte_v (if 0 =? 0 then demo_table else 0))) with true. cbv zeta iota.
  change (entry (frame_addr 5) (GET_PAGE_ENTRY_ID USER_START_ADDR)) with (frame_addr 5).
  unfold demo_space. rsimpl. rewrite ld8_st8 by done. reflexivity.
Qed.

Lemma demo_slot n : 0 <= n < PAGE_TABLE_ITEM_NUM ->
  slot demo_space (frame_addr 5) n = if n =? 0 then demo_leaf else 0.
Proof.
  intros. unfold slot, demo_space. rsimpl. destruct (Z.eqb_spec n 0) as [->|].
  - unfold entry. rewrite Z.mul_0_r, Z.add_0_r. by apply ld8_st8.
  - rewrite !ld_st_disjoint by (unfold demo_pd; frames; unfold LOW_MEM; lia). apply ld_zero.
Qed.
Lemma demo_maps : maps_frames demo_space (frame_addr 5).
Proof.
  intros n Hn. rewrite demo_slot by done. destruct (n =? 0); [|by intros []].
  intros _. exists 6. split; [|reflexivity]. frames; lia.
Qed.
Lemma demo_refs i n : (n <= Z.to_nat PAGE_TABLE_ITEM_NUM)%nat -> refs demo_space (frame_addr 5) i n <= 1.
Proof.
  assert (forall m, 0 < m < PAGE_TABLE_ITEM_NUM -> refers (slot demo_space (frame_addr 5) m) i = false) as H.
  { intros m Hm. rewrite demo_slot by lia. by replace (m =? 0) with false by lia. }
  induction n as [|n IH]; intros Hn; cbn [refs]; [lia|]. destruct n as [|n].
  - cbn [refs]. destruct (refers _ _); cbn; lia.
  - rewrite H by (unfold PAGE_TABLE_ITEM_NUM in *; lia). specialize (IH ltac:(lia)). cbn [b2z]. lia.
Qed.
Lemma demo_space_high : HIGH_MEMORY (k_mm demo_space) = 0x80600000.
Proof. reflexivity. Qed.
(** The table maps frame 6 only. *)
Lemma demo_below : mapped_below demo_space (frame_addr 5) (HIGH_MEMORY (k_mm demo_space)).
Proof.
  rewrite demo_space_high. intros i Hi Hr. destruct (decide (i = 6)) as [->|Hne]; [reflexivity|]. exfalso.
  assert (forall n, (n <= Z.to_nat PAGE_TABLE_ITEM_NUM)%nat -> refs demo_space (frame_addr 5) i n = 0) as H.
  { induction n as [|n IH]; intros Hn; cbn [refs]; [done|]. rewrite IH by lia.
    rewrite demo_slot by (unfold PAGE_TABLE_ITEM_NUM in *; lia). unfold refers. destruct (Z.of_nat n =? 0); [|done].
    change (pte_ppn_to_addr demo_leaf) with (frame_addr 6). destruct (Z.eqb_spec (frame_addr 6) (frame_addr i)) as [E|]; [|by rewrite andb_false_r].
    apply frame_addr_inj in E. destruct (Hne (eq_sym E)). }
  by rewrite H in Hr.
Qed.
Lemma demo_fresh n : 0 <= n < PAGE_TABLE_ITEM_NUM -> slot demo_space (frame_addr 8) n = 0.
Proof.
  intros. unfold slot, demo_space. rsimpl.
  rewrite !ld_st_disjoint by (unfold demo_pd; frames; unfold LOW_MEM; lia). apply ld_zero.
Qed.

(** ** Properties *)

Module PageTableProps.

(** C14: [put_page] on every branch, for a page in a managed frame.  The running task's
    directory stays well formed.  Either the page is returned and [address] is mapped to it,
    readable, writable, executable and user accessible, while every other user page is mapped
    as before and the only use count that may change is that of one free frame, taken for a
    new table; or there was no table for [address] and no free frame, and 0 is returned with
    nothing changed. *)
Theorem put_page_maps k i address :
  let pd := page_dir_table (k_mm k) in
  wf_mm k -> pt_wf k pd -> is_frame i ->
  runs (put_page (frame_addr i) address) k (fun r k' => wf_mm k' /\ pt_wf k' pd /\
    page_dir_table (k_mm k') = pd /\
    ((r = 0 /\ k' = k /\ pte_v (dir_entry k pd (GET_PAGE_DIR_ID address)) = 0 /\
      forall j, is_frame j -> count k j <> 0) \/
     (r = frame_addr i /\ maps_page k k' pd address (frame_addr i) /\
      forall j, count k' j <> count k j -> count k j = 0 /\ count k' j = 1))).
Proof.
  intros pd Hmm Hpt Hi. eapply runs_mono; [|by apply put_page_spec].
  intros r k' (?&?&?&[?|(?&?&(l&[Hl Hc]&_)&_)]); split_and!; try done; [by left|]. right. split_and!; [done..|].
  intros j. rewrite Hc. destruct (decide (j ∈ l)) as [Hj|]; [|done]. rewrite Forall_forall in Hl. by apply Hl in Hj as [_ ->].
Qed.
Lemma put_page_maps_witness :
  runs (put_page (frame_addr 7) USER_START_ADDR) empty_space (fun r k' => wf_mm k').
Proof.
  eapply runs_mono; [|apply (put_page_maps empty_space 7 USER_START_ADDR);
    [apply empty_space_wf|apply empty_space_pt|split; [lia|rewrite PAGING_PAGES_val; lia]]].
  cbv beta. intros r k' [H _]. exact H.
Defined.

(** C30: Copy on write ([do_wp_page]) of a user page in frame [i] that is mapped but write
    protected, where [i] is not itself a page table.  With one user the entry just becomes
    writable.  With more users, and a free frame left, the address is remapped, writable, to
    a fresh frame whose use count is 1, frame [i] loses one use, all other user pages are
    mapped as before and the directory stays well formed; with no free frame the task is
    killed.  What is copied is only the first 8 bytes of the page: the other 4088 bytes of
    the new page are zero. *)
Theorem do_wp_page_cow k address i w :
  let pd := page_dir_table (k_mm k) in
  wf_mm k -> pt_wf k pd -> is_frame i -> count k i <> 0 -> (forall d, ~ has_table k pd d i) ->
  walk k pd address = Some w -> pte_ppn_to_addr w = frame_addr i ->
  mayrun (do_wp_page address) k
    (fun _ k' => pt_wf k' pd /\
       (forall a, GET_PAGE_DIR_ID a <> GET_PAGE_DIR_ID address \/
          GET_PAGE_ENTRY_ID a <> GET_PAGE_ENTRY_ID address -> walk k' pd a = walk k pd a) /\
       ((count k i = 1 /\ walk k' pd address = Some (pte_set_writeable w) /\
         forall x, count k' x = count k x) \/
        (2 <= count k i /\ exists j w', is_frame j /\ count k j = 0 /\ count k' j = 1 /\
           count k' i = count k i - 1 /\ walk k' pd address = Some w' /\ user_page (frame_addr j) w' /\
           ld 8 (k_pmem k') (frame_addr j) = ld 8 (k_pmem k) (frame_addr i) /\
           forall x, 8 <= x < PAGE_SIZE -> k_pmem k' (frame_addr j + x) = 0)))
    (fun e k' => e = DoExit SIGSEGV /\ k' = k /\ 2 <= count k i /\ forall j, is_frame j -> count k j <> 0).
Proof. apply do_wp_page_spec. Qed.
Lemma do_wp_page_cow_witness :
  mayrun (do_wp_page USER_START_ADDR) demo_space (fun _ k' => pt_wf k' demo_pd) (fun e _ => e = DoExit SIGSEGV).
Proof.
  pose proof (do_wp_page_cow demo_space USER_START_ADDR 6 demo_leaf demo_space_wf demo_space_pt
    ltac:(split; [lia|rewrite PAGING_PAGES_val; lia]) ltac:(rewrite demo_space_count; [done|split; done])
    ltac:(intros d [_ H]%demo_has; discriminate H) demo_walk ltac:(reflexivity)) as H.
  revert H. unfold mayrun. destruct (do_wp_page USER_START_ADDR demo_space); [intros [H _]; exact H|].
  intros [H _]. exact H.
Defined.

(** What fork does to one page table ([copy_page_tables], inner loop).  Afterwards both
    tables hold, for every page that was mapped, the same write-protected entry, entries that
    were not valid are as before, nothing outside the two tables changed, and the use count
    of every frame grew by the number of entries that map it, modulo 256. *)
Theorem copy_table_entries_shares k from to :
  wf_mm k -> from + PAGE_SIZE <= to \/ to + PAGE_SIZE <= from -> maps_frames k from ->
  runs (copy_table_entries from to) k (fun _ k' =>
    wf_mm k' /\ page_dir_table (k_mm k') = page_dir_table (k_mm k) /\
    HIGH_MEMORY (k_mm k') = HIGH_MEMORY (k_mm k) /\
    (forall x, ~ from <= x < from + PAGE_SIZE -> ~ to <= x < to + PAGE_SIZE -> k_pmem k' x = k_pmem k x) /\
    (forall n, 0 <= n < PAGE_TABLE_ITEM_NUM ->
       let w := slot k from n in
       slot k' from n = (if truth (pte_v w) then protect w else w) /\
       slot k' to n = (if truth (pte_v w) then protect w else slot k to n)) /\
    forall i, is_frame i -> count k' i = u8 (count k i + refs k from i (Z.to_nat PAGE_TABLE_ITEM_NUM))).
Proof. apply copy_table_entries_spec. Qed.
Lemma copy_table_entries_shares_witness :
  runs (copy_table_entries (frame_addr 5) (frame_addr 8)) demo_space (fun _ k' => wf_mm k').
Proof.
  eapply runs_mono; [|apply (copy_table_entries_shares demo_space (frame_addr 5) (frame_addr 8));
    [apply demo_space_wf|left; vm_compute; discriminate|apply demo_maps]].
  intros _ k' [H _]. exact H.
Defined.


End PageTableProps.
