(* ===== verification/BlockIO.v ===== *)
(** * Block requests and the RAM disk (kernel/blk_drv)

    [ll_rw_block] turns a buffer into a request and queues it ([make_request],
    [add_request], ll_rw_blk.c); the first request of an idle device is served at once
    by the driver's request function, [do_rd_request] (ramdisk.c), which copies between
    the buffer and the RAM disk and ends the request ([end_request], blk.h). *)
From Stdlib Require Import ZArith Lia String.
From stdpp Require Import base list gmap.
From S2P Require Import Prelude State.
Open Scope Z_scope.

Definition MAJOR_NR_RAMDISK : Z := 1.

(** ** ll_rw_blk.c *)
Definition lock_buffer (bh : nat) : K unit :=
  let! h := get_bh bh in
  if truth (b_lock h) then sleep_on (WaitBuffer bh)
  else mod_bh bh (fun h => h <| b_lock := 1 |>).
(** [unlock_buffer]; a buffer that is not locked only gives a message. *)
Definition unlock_buffer (bh : nat) : K unit :=
  mod_bh bh (fun h => h <| b_lock := 0 |>) ;;;
  let! h := get_bh bh in
  wake_up (b_wait h).

(** [IN_ORDER(s1,s2)]. *)
Definition IN_ORDER (s1 s2 : request) : bool :=
  (rq_cmd s1 <? rq_cmd s2) ||
  ((rq_cmd s1 =? rq_cmd s2) &&
   ((rq_dev s1 <? rq_dev s2) ||
    ((rq_dev s1 =? rq_dev s2) && (rq_sector s1 <? rq_sector s2)))).

(** ** blk.h and ramdisk.c *)
Definition CURRENT : K (option nat) :=
  let! d := get_blk_dev MAJOR_NR_RAMDISK in ret (current_request d).
Definition end_request (uptodate : Z) : K unit :=
  let! c := CURRENT in
  let! r := unwrap "CURRENT" c in
  let! q := get_rq r in
  match rq_bh q with
  | Some bh => mod_bh bh (fun h => h <| b_uptodate := uptodate |>) ;;; unlock_buffer bh
  | None => skip
  end ;;;
  (if truth uptodate then skip
   else let! b := unwrap "CURRENT -> bh" (rq_bh q) in get_bh b ;;; skip) ;;;
  wake_up (rq_waiting q) ;;;
  let! w := gets (fun k => wait_for_request (k_blk k)) in
  wake_up w ;;;
  mod_rq r (fun q => q <| rq_dev := -1 |>) ;;;
  let! q := get_rq r in
  mod_blk_dev MAJOR_NR_RAMDISK (fun d => d <| current_request := rq_next q |>).

(** One round of [do_rd_request] from the label [repeat]; [inr] is its [return]. *)
Definition do_rd_request_step : K (unit + unit) :=
  let! c := CURRENT in
  match c with
  | None => ret (inr tt)
  | Some r =>
      let! q := get_rq r in
      if negb (MAJOR (rq_dev q) =? MAJOR_NR_RAMDISK) then panic "ramdisk: request list destroyed"
      else
        let! locked := match rq_bh q with
                       | Some b => let! h := get_bh b in ret (truth (b_lock h))
                       | None => ret true
                       end in
        if negb locked then panic "ramdisk: block not locked"
        else
          let! start := gets (fun k => rd_start (k_blk k)) in
          let! length := gets (fun k => rd_length (k_blk k)) in
          let addr := u64 (start + Z.shiftl (rq_sector q) 9) in
          let len := u64 (Z.shiftl (rq_nr_sectors q) 9) in
          if negb (MINOR (rq_dev q) =? MAJOR_NR_RAMDISK) || (u64 (start + length) <? u64 (addr + len)) then
            end_request 0 ;;; ret (inl tt)
          else
            (if rq_cmd q =? WRITE then kmemcpy addr (rq_buffer q) len
             else if rq_cmd q =? READ then kmemcpy (rq_buffer q) addr len
             else panic "unknown ramdisk-command") ;;;
            end_request 1 ;;;
            ret (inl tt)
  end.
(** Each round takes a request off the queue, which holds at most [NR_REQUEST]. *)
Definition do_rd_request : K unit := loop (S (S NR_REQUEST)) (fun _ => do_rd_request_step) tt.

(** [rd_init]: registers the driver. *)
Definition rd_init (mem_start length : Z) : K Z :=
  mod_blk_dev MAJOR_NR_RAMDISK (fun d => d <| request_fn := true |>) ;;;
  modify (fun k => k <| k_blk ::= fun s => s <| rd_start := mem_start |> <| rd_length := length |> |>) ;;;
  ret length.
(** [rd_load]: checks the magic number (offset 16 of [struct super_block]) of the disk. *)
Definition rd_load : K unit :=
  let! length := gets (fun k => rd_length (k_blk k)) in
  if length =? 0 then skip
  else
    let! start := gets (fun k => rd_start (k_blk k)) in
    let! magic := rd16 (start + 1024 + 16) in
    if negb (magic =? SUPER_MAGIC) then panic "No root filesystem!" else skip.

(** ** The request queue *)
(** [for(;tmp -> next;tmp = tmp -> next)] of [add_request]: the request to insert after. *)
Definition add_request_position (req tmp : nat) : K nat :=
  loop (S NR_REQUEST) (fun tmp =>
    let! t := get_rq tmp in
    match rq_next t with
    | None => ret (inr tmp)
    | Some n =>
        let! nq := get_rq n in
        let! q := get_rq req in
        if (IN_ORDER t q || negb (IN_ORDER t nq)) && IN_ORDER q nq then ret (inr tmp)
        else ret (inl n)
    end) tmp.
Definition add_request (major : Z) (req : nat) : K unit :=
  mod_rq req (fun q => q <| rq_next := None |>) ;;;
  let! q := get_rq req in
  match rq_bh q with
  | Some b => mod_bh b (fun h => h <| b_dirt := 0 |>)
  | None => skip
  end ;;;
  let! d := get_blk_dev major in
  match current_request d with
  | None =>
      mod_blk_dev major (fun d => d <| current_request := Some req |>) ;;;
      (* (dev -> request_fn)(): the RAM disk's is the only one there is *)
      do_rd_request
  | Some first =>
      let! tmp := add_request_position req first in
      let! t := get_rq tmp in
      mod_rq req (fun q => q <| rq_next := rq_next t |>) ;;;
      mod_rq tmp (fun q => q <| rq_next := Some req |>)
  end.

(** [while(--req >= request)]: the free request with the highest index below [n].  When
    there is none, the test inside the loop is never reached with [req < request], and
    [req] is left one before the array. *)
Fixpoint find_request (n : nat) : K nat :=
  match n with
  | O => fault "request[-1]"
  | S i => let! q := get_rq i in if rq_dev q <? 0 then ret i else find_request i
  end.
Definition make_request (major rw : Z) (bh : nat) : K unit :=
  let rw_ahead := (rw =? READA) || (rw =? WRITEA) in
  let! h := get_bh bh in
  if rw_ahead && truth (b_lock h) then skip
  else
    let rw := if rw_ahead then (if rw =? READA then READ else WRITE) else rw in
    if negb (rw =? READ) && negb (rw =? WRITE) then panic "Bad block dev command,must be R/W/RA/WA"
    else
      lock_buffer bh ;;;
      let! h := get_bh bh in
      if ((rw =? WRITE) && negb (truth (b_dirt h))) || ((rw =? READ) && truth (b_uptodate h)) then
        unlock_buffer bh
      else
        let! req := find_request (if rw =? READ then NR_REQUEST else ((NR_REQUEST * 2) / 3)%nat) in
        mod_rq req (fun _ =>
          mkRequest (b_dev h) rw 0 (u64 (Z.shiftl (b_blocknr h) 1)) 2 (b_data h) None (Some bh) None) ;;;
        add_request major req.

Definition ll_rw_block (rw : Z) (bh : nat) : K unit :=
  let! h := get_bh bh in
  let major := MAJOR (b_dev h) in
  if NR_BLK_DEV <=? major then skip
  else
    let! d := get_blk_dev major in
    if negb (request_fn d) then skip else make_request major rw bh.

Definition blk_dev_init : K unit :=
  for_up 0 NR_REQUEST (fun i =>
    mod_rq (Z.to_nat i) (fun q => q <| rq_dev := -1 |> <| rq_next := None |>)).

(** ** Executing one request on an idle RAM disk *)

(** No request is queued, nobody waits for one, and the driver is registered. *)
Definition free_request (q : request) : Prop := rq_dev q = -1.
Definition idle (k : kernel) : Prop :=
  length (requests (k_blk k)) = NR_REQUEST /\ Forall free_request (requests (k_blk k)) /\
  wait_for_request (k_blk k) = None /\ length (blk_dev (k_blk k)) = Z.to_nat NR_BLK_DEV /\
  idx (blk_dev (k_blk k)) MAJOR_NR_RAMDISK = Some (mkBlkDev true None).
(** The device number of the RAM disk: major 1, minor 1. *)
Definition RD_DEV : Z := 0x0101.
(** Block [blk] lies on the disk, and its address. *)
Definition in_disk (k : kernel) (blk : Z) : Prop :=
  0 <= blk /\ (blk + 1) * BLOCK_SIZE <= rd_length (k_blk k).
Definition rd_addr (k : kernel) (blk : Z) : Z := rd_start (k_blk k) + blk * BLOCK_SIZE.
Definition rd_fits (k : kernel) : Prop :=
  0 <= rd_start (k_blk k) /\ 0 <= rd_length (k_blk k) /\ rd_start (k_blk k) + rd_length (k_blk k) < 2 ^ 63.

Section Exec.
Variables (mm : mm_state) (ht : list (option nat)) (fl : nat) (bw : option Z).
Variables (fs : fs_state) (sc : sched_state) (ty : tty_state) (dv : dev_state) (rs rl : Z).
Let B (bufs : list buffer_head) (rqs : list request) (bd : list blk_dev_struct) (pm : memory) : kernel :=
  mkKernel mm (mkBlk bufs ht fl bw rqs None bd rs rl) fs sc pm ty dv.
Implicit Types (bufs : list buffer_head) (rqs : list request) (bd : list blk_dev_struct) (pm : memory).

Lemma B_get_bh bufs rqs bd pm b h : bufs !! b = Some h -> get_bh b (B bufs rqs bd pm) = Ok h (B bufs rqs bd pm).
Proof. intros H. by apply get_bh_Ok. Qed.
Lemma B_mod_bh bufs rqs bd pm b h f :
  bufs !! b = Some h -> mod_bh b f (B bufs rqs bd pm) = Ok tt (B (<[b := f h]> bufs) rqs bd pm).
Proof. intros H. by apply (mod_bh_Ok (B bufs rqs bd pm)). Qed.
Lemma B_get_rq bufs rqs bd pm r q : rqs !! r = Some q -> get_rq r (B bufs rqs bd pm) = Ok q (B bufs rqs bd pm).
Proof. intros H. unfold get_rq, bind, gets. cbn. by rewrite H. Qed.
Lemma B_mod_rq bufs rqs bd pm r q f :
  rqs !! r = Some q -> mod_rq r f (B bufs rqs bd pm) = Ok tt (B bufs (<[r := f q]> rqs) bd pm).
Proof. intros H. unfold mod_rq. by erewrite bind_Ok by by apply B_get_rq. Qed.
Lemma B_get_dev bufs rqs bd pm d v : idx bd d = Some v -> get_blk_dev d (B bufs rqs bd pm) = Ok v (B bufs rqs bd pm).
Proof. intros H. unfold get_blk_dev, bind, gets. cbn. by rewrite H. Qed.
Lemma B_mod_dev bufs rqs bd pm d v f :
  idx bd d = Some v -> mod_blk_dev d f (B bufs rqs bd pm) = Ok tt (B bufs rqs (upd_idx bd d (f v)) pm).
Proof. intros H. unfold mod_blk_dev. by erewrite bind_Ok by by apply B_get_dev. Qed.
Lemma B_unlock bufs rqs bd pm b h :
  bufs !! b = Some h -> b_wait h = None ->
  unlock_buffer b (B bufs rqs bd pm) = Ok tt (B (<[b := h <| b_lock := 0 |>]> bufs) rqs bd pm).
Proof.
  intros H Hw. unfold unlock_buffer. erewrite bind_Ok by by apply B_mod_bh.
  erewrite bind_Ok by (apply B_get_bh, list_lookup_insert_eq; by eapply lookup_lt_Some).
  change (b_wait h <| b_lock := 0 |>) with (b_wait h). by rewrite Hw.
Qed.

(** [end_request] of the only request of the queue. *)
Lemma B_end_request bufs rqs bd pm b h r q up :
  idx bd MAJOR_NR_RAMDISK = Some (mkBlkDev true (Some r)) -> rqs !! r = Some q ->
  rq_bh q = Some b -> rq_waiting q = None -> rq_next q = None -> bufs !! b = Some h -> b_wait h = None ->
  end_request up (B bufs rqs bd pm) =
  Ok tt (B (<[b := h <| b_uptodate := up |> <| b_lock := 0 |>]> bufs)
           (<[r := q <| rq_dev := -1 |>]> rqs)
           (upd_idx bd MAJOR_NR_RAMDISK (mkBlkDev true None)) pm).
Proof.
  intros Hd Hr Hb Hw Hn Hh Hbw. unfold end_request, CURRENT.
  rewrite bind_assoc. erewrite bind_Ok by by apply B_get_dev.
  erewrite bind_Ok by reflexivity. erewrite bind_Ok by reflexivity.
  erewrite bind_Ok by by apply B_get_rq. rewrite Hb, bind_assoc.
  erewrite bind_Ok by by apply B_mod_bh.
  assert (b < length bufs)%nat by by eapply lookup_lt_Some.
  erewrite bind_Ok by (apply B_unlock; [by apply list_lookup_insert_eq|done]).
  rewrite list_insert_insert_eq.
  assert (forall K0 : kernel -> outcome kernel unit, bind (if truth up then skip
    else let! b0 := unwrap "CURRENT -> bh" (Some b) in get_bh b0 ;;; skip) (fun _ => K0)
    (B (<[b := h <| b_uptodate := up |> <| b_lock := 0 |>]> bufs) rqs bd pm) =
    K0 (B (<[b := h <| b_uptodate := up |> <| b_lock := 0 |>]> bufs) rqs bd pm)) as ->.
  { intros K0. destruct (truth up); [done|]. rewrite bind_assoc. erewrite bind_Ok by reflexivity.
    rewrite bind_assoc. by erewrite bind_Ok by (by apply B_get_bh, list_lookup_insert_eq). }
  rewrite Hw. do 3 (erewrite bind_Ok by reflexivity).
  erewrite bind_Ok by by apply B_mod_rq.
  erewrite bind_Ok by (apply B_get_rq, list_lookup_insert_eq; by eapply lookup_lt_Some).
  erewrite B_mod_dev by done. change (rq_next q <| rq_dev := -1 |>) with (rq_next q). by rewrite Hn.
Qed.

(** The one request that [make_request] builds for buffer [b]. *)
Definition block_request (b : nat) (h : buffer_head) (rw : Z) : request :=
  mkRequest (b_dev h) rw 0 (u64 (Z.shiftl (b_blocknr h) 1)) 2 (b_data h) None (Some b) None.
(** What it does to memory: [addr] is the address of the block on the disk. *)
Definition transfer (rw addr data : Z) (pm : memory) : memory :=
  if rw =? WRITE then memcpy pm addr data BLOCK_SIZE else memcpy pm data addr BLOCK_SIZE.
Definition on_disk (h : buffer_head) : bool := (b_blocknr h + 1) * BLOCK_SIZE <=? rl.
Definition served (rw : Z) (h : buffer_head) (pm : memory) : memory :=
  if on_disk h then transfer rw (rs + b_blocknr h * BLOCK_SIZE) (b_data h) pm else pm.

Context (Hrs : 0 <= rs) (Hrl : 0 <= rl) (Hfit : rs + rl < 2 ^ 63).

Lemma B_step_idle bufs rqs bd pm :
  idx bd MAJOR_NR_RAMDISK = Some (mkBlkDev true None) ->
  do_rd_request_step (B bufs rqs bd pm) = Ok (inr tt) (B bufs rqs bd pm).
Proof.
  intros Hd. unfold do_rd_request_step, CURRENT. rewrite bind_assoc.
  by erewrite bind_Ok by by apply B_get_dev.
Qed.

Lemma request_range blk :
  0 <= blk < 2 ^ 32 ->
  u64 (rs + Z.shiftl (u64 (Z.shiftl blk 1)) 9) = rs + blk * BLOCK_SIZE /\
  u64 (Z.shiftl 2 9) = BLOCK_SIZE /\
  (u64 (rs + rl) <? u64 (rs + blk * BLOCK_SIZE + BLOCK_SIZE)) = negb ((blk + 1) * BLOCK_SIZE <=? rl).
Proof.
  intros Hb. unfold BLOCK_SIZE. rewrite !Z.shiftl_mul_pow2 by lia.
  rewrite (u64_small (blk * 2 ^ 1)) by lia. rewrite (u64_small (rs + _ * _)) by lia.
  rewrite (u64_small (rs + rl)) by lia. rewrite (u64_small (rs + blk * 1024 + 1024)) by lia.
  split_and!; [lia|reflexivity|].
  destruct (Z.ltb_spec (rs + rl) (rs + blk * 1024 + 1024)), (Z.leb_spec ((blk + 1) * 1024) rl); lia || done.
Qed.

Lemma B_step_serve bufs rqs bd pm b h r rw :
  idx bd MAJOR_NR_RAMDISK = Some (mkBlkDev true (Some r)) -> rqs !! r = Some (block_request b h rw) ->
  bufs !! b = Some h -> b_wait h = None -> b_lock h = 1 -> b_dev h = RD_DEV ->
  0 <= b_blocknr h < 2 ^ 32 -> rw = READ \/ rw = WRITE ->
  do_rd_request_step (B bufs rqs bd pm) =
  Ok (inl tt) (B (<[b := h <| b_uptodate := b2z (on_disk h) |> <| b_lock := 0 |>]> bufs)
           (<[r := (block_request b h rw) <| rq_dev := -1 |>]> rqs)
           (upd_idx bd MAJOR_NR_RAMDISK (mkBlkDev true None)) (served rw h pm)).
Proof.
  intros Hd Hr Hb Hw Hl Hdev Hblk Hrw. unfold do_rd_request_step, CURRENT.
  rewrite bind_assoc. erewrite bind_Ok by by apply B_get_dev.
  erewrite bind_Ok by reflexivity. cbn [current_request].
  erewrite bind_Ok by by apply B_get_rq. unfold block_request at 1. cbn [rq_dev].
  rewrite Hdev. change (negb (MAJOR RD_DEV =? MAJOR_NR_RAMDISK)) with false. cbv iota.
  cbn [rq_bh block_request]. rewrite bind_assoc. erewrite bind_Ok by by apply B_get_bh.
  erewrite bind_Ok by reflexivity. rewrite Hl. change (negb (truth 1)) with false. cbv iota.
  do 2 (erewrite bind_Ok by reflexivity).
  change (rd_start (k_blk (B bufs rqs bd pm))) with rs. change (rd_length (k_blk (B bufs rqs bd pm))) with rl.
  cbn [rq_sector rq_nr_sectors rq_dev rq_cmd rq_buffer block_request].
  destruct (request_range _ Hblk) as (-> & -> & ->).
  rewrite Hdev. change (MINOR RD_DEV =? MAJOR_NR_RAMDISK) with true. cbn [negb orb].
  unfold served. fold (on_disk h). destruct (on_disk h) eqn:Ho; cbn [negb b2z].
  - unfold transfer. destruct Hrw as [-> | ->].
    + change (READ =? WRITE) with false. change (READ =? READ) with true. cbv iota.
      erewrite bind_Ok by reflexivity.
      erewrite bind_Ok by (eapply B_end_request; try done; reflexivity). reflexivity.
    + change (WRITE =? WRITE) with true. cbv iota. erewrite bind_Ok by reflexivity.
      erewrite bind_Ok by (eapply B_end_request; try done; reflexivity). reflexivity.
  - erewrite bind_Ok by (eapply B_end_request; try done; reflexivity). reflexivity.
Qed.

(** The state after a request for [b] was served. *)
Definition rw_head (h : buffer_head) : buffer_head :=
  h <| b_dirt := 0 |> <| b_uptodate := b2z (on_disk h) |>.

Lemma B_add_request bufs rqs bd pm b h r rw :
  idx bd MAJOR_NR_RAMDISK = Some (mkBlkDev true None) -> rqs !! r = Some (block_request b h rw) ->
  bufs !! b = Some h -> b_wait h = None -> b_lock h = 1 -> b_dev h = RD_DEV ->
  0 <= b_blocknr h < 2 ^ 32 -> rw = READ \/ rw = WRITE ->
  add_request MAJOR_NR_RAMDISK r (B bufs rqs bd pm) =
  Ok tt (B (<[b := (rw_head h) <| b_lock := 0 |>]> bufs)
           (<[r := (block_request b h rw) <| rq_dev := -1 |>]> rqs) bd (served rw h pm)).
Proof.
  intros Hd Hr Hb Hw Hl Hdev Hblk Hrw. unfold add_request.
  assert (r < length rqs)%nat as Hrl' by by eapply lookup_lt_Some.
  assert (b < length bufs)%nat as Hbl by by eapply lookup_lt_Some.
  pose proof (idx_Some_bound _ _ _ Hd) as Hdl.
  erewrite bind_Ok by by apply B_mod_rq.
  erewrite bind_Ok by by apply B_get_rq, list_lookup_insert_eq.
  rsimpl. cbn [block_request rq_bh]. erewrite bind_Ok by by apply B_mod_bh.
  erewrite bind_Ok by by apply B_get_dev. cbn [current_request].
  erewrite bind_Ok by by apply B_mod_dev.
  unfold do_rd_request. cbn [loop].
  erewrite bind_Ok by (eapply (B_step_serve _ _ _ _ b (h <| b_dirt := 0 |>) r rw); try done;
    [by apply idx_upd_eq|by apply list_lookup_insert_eq|by apply list_lookup_insert_eq]).
  cbv iota. cbn [loop]. rewrite !list_insert_insert_eq, upd_idx_upd_idx.
  rewrite (upd_idx_id bd) by done.
  erewrite bind_Ok by (by apply B_step_idle). reflexivity.
Qed.

Lemma B_find_request bufs rqs bd pm n :
  Forall free_request rqs -> (n < length rqs)%nat ->
  find_request (S n) (B bufs rqs bd pm) = Ok n (B bufs rqs bd pm).
Proof.
  intros Hf Hn. cbn [find_request]. destruct (lookup_lt_is_Some_2 rqs n Hn) as [q Hq].
  erewrite bind_Ok by by apply B_get_rq. pose proof (Forall_lookup_1 _ _ _ _ Hf Hq) as E.
  unfold free_request in E. by rewrite E.
Qed.

(** A block that has to be transferred is transferred at once. *)
Lemma B_ll_rw_block bufs rqs bd pm b h rw :
  idx bd MAJOR_NR_RAMDISK = Some (mkBlkDev true None) -> length rqs = NR_REQUEST ->
  Forall free_request rqs -> bufs !! b = Some h -> b_wait h = None -> b_lock h = 0 -> b_dev h = RD_DEV ->
  0 <= b_blocknr h < 2 ^ 32 ->
  (rw = READ /\ b_uptodate h = 0) \/ (rw = WRITE /\ b_dirt h <> 0) ->
  exists rqs', Forall free_request rqs' /\ length rqs' = NR_REQUEST /\
    ll_rw_block rw b (B bufs rqs bd pm) = Ok tt (B (<[b := rw_head h]> bufs) rqs' bd (served rw h pm)).
Proof.
  intros Hd Hlen Hf Hb Hw Hl Hdev Hblk Hcase.
  assert (b < length bufs)%nat as Hbl by by eapply lookup_lt_Some.
  set (n := if rw =? READ then 31%nat else 20%nat).
  assert (n < length rqs)%nat as Hn by (rewrite Hlen; unfold n; destruct (rw =? READ); unfold NR_REQUEST; lia).
  exists (<[n := (block_request b h rw) <| rq_dev := -1 |>]> rqs).
  split_and!; [by apply Forall_insert|by rewrite length_insert|].
  unfold ll_rw_block. erewrite bind_Ok by by apply B_get_bh. rewrite Hdev.
  change (NR_BLK_DEV <=? MAJOR RD_DEV) with false. change (MAJOR RD_DEV) with MAJOR_NR_RAMDISK. cbv iota zeta.
  erewrite bind_Ok by by apply B_get_dev. cbn [request_fn negb]. unfold make_request.
  assert (((rw =? READA) || (rw =? WRITEA) = false) /\
          negb (rw =? READ) && negb (rw =? WRITE) = false /\
          ((rw =? WRITE) && negb (truth (b_dirt h))) || ((rw =? READ) && truth (b_uptodate h)) = false)
    as (Ea & Eb & Ec).
  { destruct Hcase as [[-> ->]|[-> ?%truth_true]]; [done|]. split_and!; [done..|].
    cbn [Z.eqb]. change (WRITE =? WRITE) with true. cbn. by rewrite H. }
  rewrite Ea. cbn [andb]. erewrite bind_Ok by by apply B_get_bh. cbv zeta iota. rewrite Eb.
  erewrite bind_Ok.
  2:{ unfold lock_buffer. erewrite bind_Ok by by apply B_get_bh. rewrite Hl. by apply B_mod_bh. }
  erewrite bind_Ok by by apply B_get_bh, list_lookup_insert_eq.
  change (b_dirt h <| b_lock := 1 |>) with (b_dirt h). change (b_uptodate h <| b_lock := 1 |>) with (b_uptodate h).
  rewrite Ec. erewrite (bind_Ok _ _ _ n); [|].
  2:{ replace (if rw =? READ then NR_REQUEST else ((NR_REQUEST * 2) / 3)%nat) with (S n)
        by (unfold n; by destruct (rw =? READ)). by apply B_find_request. }
  destruct (lookup_lt_is_Some_2 rqs n Hn) as [q Hq].
  erewrite bind_Ok by by apply B_mod_rq.
  rewrite (B_add_request _ _ _ _ b (h <| b_lock := 1 |>) n rw); try done.
  - rewrite !list_insert_insert_eq. repeat f_equal. destruct h. cbn in Hl. by subst.
  - by apply list_lookup_insert_eq.
  - by apply list_lookup_insert_eq.
  - destruct Hcase as [[-> _]|[-> _]]; auto.
Qed.
End Exec.

(** ** The same for the whole kernel *)

(** The state after a request for buffer [b] (with head [h]) was served. *)
Definition after_rw (k : kernel) (b : nat) (h : buffer_head) (rw : Z) (rqs : list request) : kernel :=
  k <| k_blk ::= fun s => s <| buffers ::= fun l => <[b := rw_head (rd_length s) h]> l |> <| requests := rqs |> |>
    <| k_pmem ::= served (rd_start (k_blk k)) (rd_length (k_blk k)) rw h |>.
(** A buffer of the RAM disk that nobody holds locked. *)
Definition rd_buffer (h : buffer_head) : Prop :=
  b_wait h = None /\ b_lock h = 0 /\ b_dev h = RD_DEV /\ 0 <= b_blocknr h < 2 ^ 32.
(** The command has something to transfer. *)
Definition needs_io (rw : Z) (h : buffer_head) : Prop :=
  (rw = READ /\ b_uptodate h = 0) \/ (rw = WRITE /\ b_dirt h <> 0).

Lemma ll_rw_block_serve k b h rw :
  idle k -> rd_fits k -> buffers (k_blk k) !! b = Some h -> rd_buffer h -> needs_io rw h ->
  exists rqs, ll_rw_block rw b k = Ok tt (after_rw k b h rw rqs) /\ idle (after_rw k b h rw rqs).
Proof.
  destruct k as [mm [bufs ht fl bw rqs wfr bd rs rl] fs sc pm ty dv].
  intros (Hlen&Hf&Hwfr&Hbdl&Hd) (?&?&?) Hb (Hw&Hl&Hdev&Hblk) Hneed. cbn in *. subst wfr.
  destruct (B_ll_rw_block mm ht fl bw fs sc ty dv rs rl ltac:(done) ltac:(done) ltac:(done) bufs rqs bd pm b h rw)
    as (rqs'&?&?&E); try done.
  exists rqs'. split; [exact E|]. done.
Qed.

(** Nothing to transfer: the buffer is locked and unlocked again. *)
Lemma ll_rw_block_noop k b h rw :
  idle k -> buffers (k_blk k) !! b = Some h -> rd_buffer h ->
  (rw = READ /\ b_uptodate h <> 0) \/ (rw = WRITE /\ b_dirt h = 0) ->
  ll_rw_block rw b k = Ok tt k.
Proof.
  destruct k as [mm [bufs ht fl bw rqs wfr bd rs rl] fs sc pm ty dv].
  intros (Hlen&Hf&Hwfr&Hbdl&Hd) Hb (Hw&Hl&Hdev&Hblk) Hcase. cbn in *. subst wfr.
  assert (b < length bufs)%nat as Hbl by by eapply lookup_lt_Some.
  unfold ll_rw_block. erewrite bind_Ok by by apply B_get_bh. rewrite Hdev.
  change (NR_BLK_DEV <=? MAJOR RD_DEV) with false. change (MAJOR RD_DEV) with MAJOR_NR_RAMDISK. cbv iota zeta.
  erewrite bind_Ok by by apply B_get_dev. cbn [request_fn negb]. unfold make_request.
  assert (((rw =? READA) || (rw =? WRITEA) = false) /\ negb (rw =? READ) && negb (rw =? WRITE) = false /\
    ((rw =? WRITE) && negb (truth (b_dirt h))) || ((rw =? READ) && truth (b_uptodate h)) = true) as (Ea & Eb & Ec).
  { destruct Hcase as [[-> Hu%truth_true]|[-> ->]]; [|done]. by rewrite Hu. }
  rewrite Ea. cbn [andb]. erewrite bind_Ok by by apply B_get_bh. cbv zeta iota. rewrite Eb.
  erewrite bind_Ok.
  2:{ unfold lock_buffer. erewrite bind_Ok by by apply B_get_bh. rewrite Hl. by apply B_mod_bh. }
  erewrite bind_Ok by by apply B_get_bh, list_lookup_insert_eq.
  change (b_dirt h <| b_lock := 1 |>) with (b_dirt h). change (b_uptodate h <| b_lock := 1 |>) with (b_uptodate h).
  rewrite Ec. rewrite (B_unlock _ _ _ _ _ _ _ _ _ _ _ _ _ _ b (h <| b_lock := 1 |>)); try done.
  - rewrite list_insert_insert_eq. do 4 f_equal. replace (h <| b_lock := 1 |> <| b_lock := 0 |>) with h.
    + by rewrite list_insert_id.
    + destruct h; cbn in Hl; by subst.
  - by apply list_lookup_insert_eq.
Qed.

(** [IN_ORDER] is the strict lexicographic order on (command, device, sector). *)
Definition rq_key (q : request) : Z * (Z * Z) := (rq_cmd q, (rq_dev q, rq_sector q)).
Definition lex_lt {A} (ltA : A -> A -> Prop) (p q : Z * A) : Prop := p.1 < q.1 \/ (p.1 = q.1 /\ ltA p.2 q.2).
Definition key_lt : Z * (Z * Z) -> Z * (Z * Z) -> Prop := lex_lt (lex_lt Z.lt).
Lemma IN_ORDER_spec s1 s2 : IN_ORDER s1 s2 = true <-> key_lt (rq_key s1) (rq_key s2).
Proof.
  unfold IN_ORDER, key_lt, lex_lt, rq_key. cbn.
  rewrite !orb_true_iff, !andb_true_iff, !orb_true_iff, !andb_true_iff, !Z.ltb_lt, !Z.eqb_eq. tauto.
Qed.

(** ** A concrete idle RAM disk of four blocks with one buffer *)
Definition demo_head (dev blk up dirt : Z) : buffer_head :=
  mkBufferHead 0x80040000 blk dev up dirt 1 0 None None None (Some 0%nat) (Some 0%nat).
Definition demo_disk (h : buffer_head) : kernel :=
  kernel0 <| k_blk ::= fun s => s <| buffers := [h] |>
    <| requests := replicate NR_REQUEST (zero_request <| rq_dev := -1 |>) |>
    <| blk_dev := [mkBlkDev false None; mkBlkDev true None; mkBlkDev false None; mkBlkDev false None;
                   mkBlkDev false None; mkBlkDev false None; mkBlkDev false None] |>
    <| rd_start := 0x80400000 |> <| rd_length := 4096 |> |>.
Lemma demo_disk_idle h : idle (demo_disk h).
Proof. split_and!; [done| |done..]. by apply Forall_replicate. Qed.
Lemma demo_disk_fits h : rd_fits (demo_disk h).
Proof. done. Qed.

(** ** Properties *)

Module BlockIOProps.

(** C32: One block of I/O on an idle RAM disk.  [ll_rw_block] returns with the transfer done:
    for a block on the disk, READ leaves in the buffer's 1024 bytes exactly the block's bytes
    and WRITE leaves in the block exactly the buffer's bytes, the buffer is unlocked, clean
    and up to date, no byte outside the target changes; for a block beyond the end of the disk
    no byte changes and the buffer is marked not up to date.  The request queue is idle again
    and no other buffer is touched. *)
Theorem ll_rw_block_transfers k b h rw :
  idle k -> rd_fits k -> buffers (k_blk k) !! b = Some h -> rd_buffer h -> needs_io rw h ->
  runs (ll_rw_block rw b) k (fun _ k' => idle k' /\
    (forall b', b' <> b -> buffers (k_blk k') !! b' = buffers (k_blk k) !! b') /\
    exists h', buffers (k_blk k') !! b = Some h' /\ b_lock h' = 0 /\ b_dirt h' = 0 /\ b_dev h' = b_dev h /\
      b_blocknr h' = b_blocknr h /\ b_data h' = b_data h /\ b_count h' = b_count h /\
      let disk := rd_addr k (b_blocknr h) in
      let (src, dst) := if rw =? WRITE then (b_data h, disk) else (disk, b_data h) in
      (in_disk k (b_blocknr h) -> b_uptodate h' = 1 /\
         (forall x, 0 <= x < BLOCK_SIZE -> k_pmem k' (dst + x) = k_pmem k (src + x)) /\
         (forall a, a < dst \/ dst + BLOCK_SIZE <= a -> k_pmem k' a = k_pmem k a)) /\
      (~ in_disk k (b_blocknr h) -> b_uptodate h' = 0 /\ forall a, k_pmem k' a = k_pmem k a)).
Proof.
  intros Hi Hfit Hb Hrd Hn. destruct (ll_rw_block_serve k b h rw Hi Hfit Hb Hrd Hn) as (rqs&E&Hi').
  unfold runs. rewrite E. split_and!; [done| |].
  { intros b' Hne. unfold after_rw. rsimpl. by apply list_lookup_insert_ne. }
  exists (rw_head (rd_length (k_blk k)) h). unfold after_rw. rsimpl.
  rewrite list_lookup_insert_eq by by eapply lookup_lt_Some.
  assert (on_disk (rd_length (k_blk k)) h = true <-> in_disk k (b_blocknr h)) as Hon.
  { unfold on_disk, in_disk. rewrite Z.leb_le. destruct Hrd as (_&_&_&?). lia. }
  unfold rw_head, served, transfer. rsimpl. split_and!; try done; [apply Hrd|].
  destruct Hn as [[-> _]|[-> _]]; cbn [Z.eqb]; change (READ =? WRITE) with false; change (WRITE =? WRITE) with true;
    cbv iota; (split; [intros ->%Hon|intros Hnot; rewrite (not_true_is_false _ (fun E => Hnot (proj1 Hon E))); done]);
    (split_and!; [done| |]); intros x Hx; unfold memcpy; fold (rd_addr k (b_blocknr h)).
  all: try (rewrite in_range_true by lia; f_equal; lia).
  all: by rewrite in_range_false by lia.
Qed.
Lemma ll_rw_block_transfers_witness :
  runs (ll_rw_block READ 0) (demo_disk (demo_head RD_DEV 2 0 0)) (fun _ k' => idle k').
Proof.
  eapply runs_mono; [|apply (ll_rw_block_transfers (demo_disk (demo_head RD_DEV 2 0 0)) 0 (demo_head RD_DEV 2 0 0) READ);
    [apply demo_disk_idle|apply demo_disk_fits|reflexivity|repeat split; vm_compute; congruence|
     left; split; reflexivity]].
  intros _ k' [H _]. exact H.
Defined.

(** The elevator's comparison [IN_ORDER] is a strict total order on requests by command
    (reads before writes), then device, then sector: irreflexive, transitive, and total up to
    equal keys. *)
Theorem IN_ORDER_strict_order :
  (forall s, IN_ORDER s s = false) /\
  (forall s1 s2 s3, IN_ORDER s1 s2 = true -> IN_ORDER s2 s3 = true -> IN_ORDER s1 s3 = true) /\
  (forall s1 s2, IN_ORDER s1 s2 = true \/ IN_ORDER s2 s1 = true \/ rq_key s1 = rq_key s2).
Proof.
  split_and!.
  - intros s. apply not_true_is_false. rewrite IN_ORDER_spec. unfold key_lt, lex_lt. lia.
  - intros s1 s2 s3. rewrite !IN_ORDER_spec. unfold key_lt, lex_lt. lia.
  - intros s1 s2. rewrite !IN_ORDER_spec. unfold key_lt, lex_lt, rq_key. cbn.
    destruct (Z.lt_total (rq_cmd s1) (rq_cmd s2)) as [|[->|]]; [tauto| |tauto].
    destruct (Z.lt_total (rq_dev s1) (rq_dev s2)) as [|[->|]]; [tauto| |tauto].
    destruct (Z.lt_total (rq_sector s1) (rq_sector s2)) as [|[->|]]; tauto.
Qed.

End BlockIOProps.
