(* ===== verification/Buffer.v ===== *)
(** * The buffer cache (fs/buffer.c)

    Buffer heads sit on a circular free list in order of last use and, when they hold a
    block of a device, on the hash chain of that block.  [getblk] finds or evicts a
    buffer, [bread] also fills it, [brelse] gives it back.  [NR_BUFFERS] is the length of
    [buffers].  [sync_dev] calls [sync_inodes] (fs/inode.c), which itself reads blocks: the
    class [SyncInodes] is that call, and InodeIO.v closes the loop with its instance.

    A chain has at most [NR_BUFFERS] heads: that bounds the loops along lists.  A loop
    that goes round again only when something changed under it (the label [repeat] and
    [while(bh -> b_dirt)] of [getblk], [while(1)] of [get_hash_table]) gets [ROUNDS]
    rounds: what can change is that [sync_inodes] reused a buffer, at most once for each
    inode. *)
From Stdlib Require Import ZArith Lia String.
From stdpp Require Import base list gmap functions.
From S2P Require Import Prelude State BlockIO.
Open Scope Z_scope.

Definition ROUNDS : nat := NR_INODE + 2.
Definition NR_BUFFERS : K nat := gets (fun k => length (buffers (k_blk k))).

Definition wait_on_buffer (bh : nat) : K unit :=
  let! h := get_bh bh in
  if truth (b_lock h) then sleep_on (WaitBuffer bh) else skip.

Definition _hashfn (dev block : Z) : Z := Z.modulo (u16 (Z.lxor dev block)) NR_HASH.
Definition get_hash (dev block : Z) : K (option nat) :=
  let! l := gets (fun k => hash_table (k_blk k)) in unwrap "hash_table index" (idx l (_hashfn dev block)).
Definition set_hash (dev block : Z) (v : option nat) : K unit :=
  get_hash dev block ;;;
  modify (fun k => k <| k_blk ::= fun s => s <| hash_table ::= fun l => upd_idx l (_hashfn dev block) v |> |>).

Definition eq_ptr (p q : option nat) : bool := bool_decide (p = q).

Definition remove_from_queues (bh : nat) : K unit :=
  (* remove from hash-queue *)
  let! h := get_bh bh in
  match b_next h with
  | Some n => mod_bh n (fun x => x <| b_prev := b_prev h |>)
  | None => skip
  end ;;;
  match b_prev h with
  | Some p => mod_bh p (fun x => x <| b_next := b_next h |>)
  | None => skip
  end ;;;
  let! first := get_hash (b_dev h) (b_blocknr h) in
  when (eq_ptr first (Some bh)) (set_hash (b_dev h) (b_blocknr h) (b_next h)) ;;;
  (* remove from free list *)
  let! h := get_bh bh in
  match b_prev_free h, b_next_free h with
  | Some p, Some n =>
      mod_bh p (fun x => x <| b_next_free := Some n |>) ;;;
      let! h := get_bh bh in
      let! n := unwrap "b_next_free" (b_next_free h) in
      mod_bh n (fun x => x <| b_prev_free := b_prev_free h |>) ;;;
      let! fl := gets (fun k => free_list (k_blk k)) in
      if (fl =? bh)%nat then
        let! h := get_bh bh in
        let! n := unwrap "b_next_free" (b_next_free h) in
        modify (fun k => k <| k_blk ::= fun s => s <| free_list := n |> |>)
      else skip
  | _, _ => panic "Free block list corrupted"
  end.

Definition insert_into_queues (bh : nat) : K unit :=
  (* put at end of free list *)
  let! fl := gets (fun k => free_list (k_blk k)) in
  mod_bh bh (fun x => x <| b_next_free := Some fl |>) ;;;
  let! f := get_bh fl in
  mod_bh bh (fun x => x <| b_prev_free := b_prev_free f |>) ;;;
  let! f := get_bh fl in
  let! p := unwrap "free_list -> b_prev_free" (b_prev_free f) in
  mod_bh p (fun x => x <| b_next_free := Some bh |>) ;;;
  mod_bh fl (fun x => x <| b_prev_free := Some bh |>) ;;;
  (* put the buffer in new hash-queue if it has a device *)
  mod_bh bh (fun x => x <| b_prev := None |>) ;;;
  mod_bh bh (fun x => x <| b_next := None |>) ;;;
  let! h := get_bh bh in
  if b_dev h =? 0 then skip
  else
    let! first := get_hash (b_dev h) (b_blocknr h) in
    mod_bh bh (fun x => x <| b_next := first |>) ;;;
    set_hash (b_dev h) (b_blocknr h) (Some bh) ;;;
    match first with
    | Some n => mod_bh n (fun x => x <| b_prev := Some bh |>)
    | None => skip
    end.

(** [(tmp -> b_dev == dev) && (tmp -> b_blocknr == block)]; [block] is an [int], converted to
    [ulong]. *)
Definition is_block (dev block : Z) (h : buffer_head) : bool :=
  (b_dev h =? dev) && (b_blocknr h =? u64 block).

Definition find_buffer (dev block : Z) : K (option nat) :=
  let! n := NR_BUFFERS in
  let! first := get_hash dev block in
  loop (S n) (fun tmp =>
    match tmp with
    | None => ret (inr None)
    | Some b =>
        let! h := get_bh b in
        if is_block dev block h then ret (inr (Some b)) else ret (inl (b_next h))
    end) first.

(** [while(1)]: the second test fails only when the block changed during [wait_on_buffer]. *)
Definition get_hash_table (dev block : Z) : K (option nat) :=
  loop ROUNDS (fun _ =>
    let! r := find_buffer dev block in
    match r with
    | None => ret (inr None)
    | Some bh =>
        mod_bh bh (fun h => h <| b_count := u8 (b_count h + 1) |>) ;;;
        wait_on_buffer bh ;;;
        let! h := get_bh bh in
        if is_block dev block h then ret (inr (Some bh))
        else mod_bh bh (fun h => h <| b_count := u8 (b_count h - 1) |>) ;;; ret (inl tt)
    end) tt.

Definition BADNESS (h : buffer_head) : Z := Z.shiftl (b_dirt h) 1 + b_lock h.

(** The [do ... while] of [getblk]: walks the free list once, keeping the best unused
    buffer [bh] seen so far, and stops at a perfect one. *)
Definition getblk_scan (start : nat) : K (option nat) :=
  let! n := NR_BUFFERS in
  loop (S n) (fun '(tmp, bh) =>
    let! t := get_bh tmp in
    let next (bh : option nat) : K ((nat * option nat) + option nat) :=
      let! t := get_bh tmp in
      let! fl := gets (fun k => free_list (k_blk k)) in
      let! nx := unwrap "b_next_free" (b_next_free t) in
      if (nx =? fl)%nat then ret (inr bh) else ret (inl (nx, bh)) in
    if truth (b_count t) then next bh
    else
      let! better := match bh with
                     | None => ret true
                     | Some b => let! h := get_bh b in ret (BADNESS t <? BADNESS h)
                     end in
      if better then
        if BADNESS t =? 0 then ret (inr (Some tmp)) else next (Some tmp)
      else next bh) (start, None).

Definition brelse (buf : option nat) : K unit :=
  match buf with
  | None => skip
  | Some b =>
      wait_on_buffer b ;;;
      let! h := get_bh b in
      mod_bh b (fun h => h <| b_count := u8 (b_count h - 1) |>) ;;;
      if b_count h =? 0 then panic "Trying to free free buffer"
      else let! w := gets (fun k => buffer_wait (k_blk k)) in wake_up w
  end.

(** [sync_inodes()] of fs/inode.c, as the buffer cache calls it. *)
Class SyncInodes := sync_inodes : K unit.

Section Sync.
Context {SI : SyncInodes}.

(** The loop that [sync_dev] has twice: writes the dirty buffers of [dev]. *)
Definition write_buffers (dev : Z) : K unit :=
  let! n := NR_BUFFERS in
  for_up 0 n (fun i =>
    let bh := Z.to_nat i in
    let! h := get_bh bh in
    if negb (b_dev h =? dev) then skip
    else
      wait_on_buffer bh ;;;
      let! h := get_bh bh in
      when ((b_dev h =? dev) && truth (b_dirt h)) (ll_rw_block WRITE bh)).
Definition sync_dev (dev : Z) : K Z :=
  write_buffers dev ;;; sync_inodes ;;; write_buffers dev ;;; ret 0.

Definition sys_sync : K Z :=
  sync_inodes ;;;
  let! n := NR_BUFFERS in
  for_up 0 n (fun i =>
    let bh := Z.to_nat i in
    wait_on_buffer bh ;;;
    let! h := get_bh bh in
    when (truth (b_dirt h)) (ll_rw_block WRITE bh)) ;;;
  ret 0.

(** [while(bh -> b_dirt)] of [getblk]; [false] is [goto repeat].  After [sync_dev] wrote the
    buffer it is clean, unless it was dirtied again. *)
Definition getblk_clean (bh : nat) : K bool :=
  loop ROUNDS (fun _ =>
    let! h := get_bh bh in
    if truth (b_dirt h) then
      sync_dev (b_dev h) ;;;
      wait_on_buffer bh ;;;
      let! h := get_bh bh in
      if truth (b_count h) then ret (inr false) else ret (inl tt)
    else ret (inr true)) tt.

Definition getblk (dev block : Z) : K nat :=
  loop ROUNDS (fun _ =>
    let! r := get_hash_table dev block in
    match r with
    | Some bh => ret (inr bh)
    | None =>
        let! fl := gets (fun k => free_list (k_blk k)) in
        let! best := getblk_scan fl in
        match best with
        | None => sleep_on WaitBufferFree
        | Some bh =>
            wait_on_buffer bh ;;;
            let! h := get_bh bh in
            if truth (b_count h) then ret (inl tt)
            else
              let! clean := getblk_clean bh in
              if negb clean then ret (inl tt)
              else
                let! again := find_buffer dev block in
                match again with
                | Some _ => ret (inl tt)
                | None =>
                    mod_bh bh (fun h => h <| b_count := 1 |>) ;;;
                    mod_bh bh (fun h => h <| b_dirt := 0 |>) ;;;
                    mod_bh bh (fun h => h <| b_uptodate := 0 |>) ;;;
                    remove_from_queues bh ;;;
                    mod_bh bh (fun h => h <| b_dev := u16 dev |>) ;;;
                    mod_bh bh (fun h => h <| b_blocknr := u64 block |>) ;;;
                    insert_into_queues bh ;;;
                    ret (inr bh)
                end
        end
    end) tt.

Definition bread (dev block : Z) : K (option nat) :=
  let! bh := getblk dev block in
  let! h := get_bh bh in
  if truth (b_uptodate h) then ret (Some bh)
  else
    ll_rw_block READ bh ;;;
    wait_on_buffer bh ;;;
    let! h := get_bh bh in
    if truth (b_uptodate h) then ret (Some bh)
    else brelse (Some bh) ;;; ret None.

Definition COPYBLK (from to : Z) : K unit :=
  for_up 0 (Z.to_nat (BLOCK_SIZE / 8)) (fun i =>
    let! w := rd64 (from + 8 * i) in wr64 (to + 8 * i) w).

(** [bread_page(address,dev,b)]: both loops over the four block numbers. *)
Fixpoint bread_page_get (dev : Z) (b : list Z) : K (list (option nat)) :=
  match b with
  | [] => ret []
  | nr :: b' =>
      let! bh :=
        if truth nr then
          let! x := getblk dev nr in
          let! h := get_bh x in
          when (negb (truth (b_uptodate h))) (ll_rw_block READ x) ;;;
          ret (Some x)
        else ret None in
      let! rest := bread_page_get dev b' in
      ret (bh :: rest)
  end.
Fixpoint bread_page_copy (address : Z) (bhs : list (option nat)) : K unit :=
  match bhs with
  | [] => skip
  | bh :: bhs' =>
      match bh with
      | None => skip
      | Some x =>
          wait_on_buffer x ;;;
          let! h := get_bh x in
          when (truth (b_uptodate h)) (COPYBLK (b_data h) address) ;;;
          brelse (Some x)
      end ;;;
      bread_page_copy (address + BLOCK_SIZE) bhs'
  end.
Definition bread_page (address dev : Z) (b : list Z) : K unit :=
  let! bhs := bread_page_get dev b in bread_page_copy address bhs.

(** [breada(dev,first,...)]; [ahead] are the further arguments up to the negative one. *)
Fixpoint breada_ahead (dev : Z) (ahead : list Z) : K unit :=
  match ahead with
  | [] => skip
  | blk :: rest =>
      let! tmp := getblk dev blk in
      let! h := get_bh tmp in
      when (negb (truth (b_uptodate h))) (ll_rw_block READA tmp) ;;;
      mod_bh tmp (fun h => h <| b_count := u8 (b_count h - 1) |>) ;;;
      breada_ahead dev rest
  end.
Definition breada (dev first : Z) (ahead : list Z) : K (option nat) :=
  let! bh := getblk dev first in
  let! h := get_bh bh in
  when (negb (truth (b_uptodate h))) (ll_rw_block READ bh) ;;;
  breada_ahead dev ahead ;;;
  wait_on_buffer bh ;;;
  let! h := get_bh bh in
  if truth (b_uptodate h) then ret (Some bh)
  else brelse (Some bh) ;;; ret None.
End Sync.

Definition invalidate_buffers (dev : Z) : K unit :=
  let! n := NR_BUFFERS in
  for_up 0 n (fun i =>
    let bh := Z.to_nat i in
    let! h := get_bh bh in
    if negb (b_dev h =? dev) then skip
    else
      wait_on_buffer bh ;;;
      let! h := get_bh bh in
      when (b_dev h =? dev) (mod_bh bh (fun h => h <| b_uptodate := 0 |> <| b_dirt := 0 |>))).

(** [sizeof(struct buffer_head)]. *)
Definition SIZEOF_BH : Z := 64.
(** [buffer_init(buffer_end)]: heads grow up from [start_buffer], data blocks down from
    [buffer_end].  [b_blocknr] is not set; [blocknr0] is what the memory held there. *)
Definition buffer_init (start_buffer buffer_end : Z) (blocknr0 : nat -> Z) : K unit :=
  modify (fun k => k <| k_blk ::= fun s => s <| buffers := [] |> |>) ;;;
  loop (S (Z.to_nat (buffer_end - start_buffer))) (fun b =>
    let! n := NR_BUFFERS in
    let b := b - BLOCK_SIZE in
    if start_buffer + SIZEOF_BH * (Z.of_nat n + 1) <=? b then
      let h := mkBufferHead b (blocknr0 n) 0 0 0 0 0 None None None
                 (if (n =? 0)%nat then None else Some (n - 1)%nat) (Some (S n)) in
      modify (fun k => k <| k_blk ::= fun s => s <| buffers ::= fun l => l ++ [h] |> |>) ;;;
      ret (inl b)
    else ret (inr tt)) buffer_end ;;;
  let! n := NR_BUFFERS in
  if (n =? 0)%nat then fault "h - 1"
  else
    modify (fun k => k <| k_blk ::= fun s => s <| free_list := 0%nat |> |>) ;;;
    mod_bh 0 (fun h => h <| b_prev_free := Some (n - 1)%nat |>) ;;;
    mod_bh (n - 1) (fun h => h <| b_next_free := Some 0%nat |>) ;;;
    for_up 0 (Z.to_nat NR_HASH) (fun i =>
      modify (fun k => k <| k_blk ::= fun s => s <| hash_table ::= fun l => upd_idx l i None |> |>)).

(** ** Linked lists *)

(** [chain R x l]: following [R] from [x] goes through [l]. *)
Fixpoint chain (R : nat -> nat -> Prop) (x : nat) (l : list nat) : Prop :=
  match l with [] => True | y :: l' => R x y /\ chain R y l' end.
(** Doubly linked: [y] is next after [x] and [x] is before [y]. *)
Definition linked (next prev : nat -> option nat) (x y : nat) : Prop :=
  next x = Some y /\ prev y = Some x.
(** A list that ends in NULL, [p] being the head's predecessor. *)
Fixpoint hlist (next prev : nat -> option nat) (p : option nat) (l : list nat) : Prop :=
  match l with
  | [] => True
  | x :: l' => prev x = p /\ next x = head l' /\ hlist next prev (Some x) l'
  end.

Section Lists.
Implicit Types (R : nat -> nat -> Prop) (x y z b : nat) (l : list nat).
Implicit Types (next prev : nat -> option nat).

Lemma chain_app R x l1 y l2 : chain R x (l1 ++ y :: l2) <-> chain R x (l1 ++ [y]) /\ chain R y l2.
Proof. revert x. induction l1 as [|a l1 IH]; intros x; cbn; [tauto|]. rewrite IH. tauto. Qed.
Lemma chain_mono R R' x l z :
  (forall u v, u ∈ x :: l -> v ∈ l ++ [z] -> R u v -> R' u v) ->
  chain R x (l ++ [z]) -> chain R' x (l ++ [z]).
Proof.
  revert x. induction l as [|a l IH]; intros x H; cbn.
  - intros [? _]. split; [|done]. apply H; [set_solver|set_solver|done].
  - intros [? Hc]. split; [apply H; [set_solver|set_solver|done]|].
    apply IH; [|done]. intros u v ??. apply H; set_solver.
Qed.
Lemma list_last_split a l : exists l0 z, a :: l = l0 ++ [z].
Proof. destruct (exists_last (l := a :: l)) as (l0&z&E); [done|]. by exists l0, z. Qed.

(** Taking [b] out of the ring [b, a, l]. *)
Lemma ring_remove next prev b l0 z a l :
  NoDup (b :: a :: l) -> a :: l = l0 ++ [z] -> chain (linked next prev) b ((a :: l) ++ [b]) ->
  chain (linked (<[z := Some a]> next) (<[a := Some z]> prev)) a (l ++ [a]).
Proof.
  intros Hnd Hz [_ Hc]. destruct l0 as [|a' l0]; injection Hz as -> Hl.
  - destruct l; [|done]. cbn. split; [|done]. split; by rewrite fn_lookup_insert.
  - subst l. rewrite <- !app_assoc in *. cbn in *. apply chain_app in Hc as [Hc _].
    apply chain_app. split.
    + eapply chain_mono; [|exact Hc]. intros u v Hu Hv [??].
      apply list.NoDup_cons in Hnd as [_ Hnd]. change (a' :: l0 ++ [z]) with ([a'] ++ l0 ++ [z]) in Hnd.
      rewrite app_assoc in Hnd. apply list.NoDup_app in Hnd as (Hnd&Hz'&_).
      assert (u <> z) by (intros ->; apply (Hz' z); set_solver).
      assert (v <> a') as Hva.
      { intros ->. apply elem_of_app in Hv as [Hv|Hv].
        - cbn in Hnd. apply list.NoDup_cons in Hnd as [? _]. done.
        - apply list_elem_of_singleton in Hv as ->. apply (Hz' z); set_solver. }
      split; by rewrite fn_lookup_insert_ne.
    + cbn. split; [|done]. split; by rewrite fn_lookup_insert.
Qed.

(** Putting [b] before [f] into the ring [f, l], whose last element is [z]. *)
Lemma ring_insert next prev b l0 z f l :
  NoDup (b :: f :: l) -> f :: l = l0 ++ [z] -> chain (linked next prev) f (l ++ [f]) ->
  chain (linked (<[z := Some b]> (<[b := Some f]> next)) (<[f := Some b]> (<[b := Some z]> prev)))
    f ((l ++ [b]) ++ [f]).
Proof.
  intros Hnd Hz Hc. apply list.NoDup_cons in Hnd as [Hb Hnd].
  assert (z ∈ f :: l) as Hzin by (rewrite Hz; set_solver).
  assert (b <> f /\ b <> z) as [Hbf Hbz] by (split; intros ->; set_solver).
  rewrite <- app_assoc. cbn. apply chain_app. split.
  - destruct l0 as [|f' l0]; injection Hz as -> Hl.
    + destruct l; [|done]. cbn. split; [|done]. split.
      * by rewrite fn_lookup_insert.
      * rewrite fn_lookup_insert_ne by done. by rewrite fn_lookup_insert.
    + subst l. rewrite <- !app_assoc in *. cbn in *. apply chain_app in Hc as [Hc _].
      apply chain_app. split.
      * eapply chain_mono; [|exact Hc]. intros u v Hu Hv [??].
        change (f' :: l0 ++ [z]) with ([f'] ++ l0 ++ [z]) in Hnd.
        rewrite app_assoc in Hnd. apply list.NoDup_app in Hnd as (Hnd&Hz'&_).
        assert (u <> z) by (intros ->; apply (Hz' z); set_solver).
        assert (u <> b /\ v <> b) as [??] by (split; intros ->; set_solver).
        assert (v <> f') as Hva.
        { intros ->. apply elem_of_app in Hv as [Hv|Hv].
          - cbn in Hnd. apply list.NoDup_cons in Hnd as [? _]. done.
          - apply list_elem_of_singleton in Hv as ->. apply (Hz' z); set_solver. }
        split; by rewrite !fn_lookup_insert_ne.
      * cbn. split; [|done]. split; [by rewrite fn_lookup_insert|].
        rewrite fn_lookup_insert_ne by done. by rewrite fn_lookup_insert.
  - cbn. split; [|done]. split; [|by rewrite fn_lookup_insert].
    rewrite fn_lookup_insert_ne by done. by rewrite fn_lookup_insert.
Qed.

(** [ring next prev l]: [l], read from its head, is the whole circular list. *)
Definition ring next prev l : Prop :=
  match l with [] => False | f :: l' => chain (linked next prev) f (l' ++ [f]) end.

(** A ring can be read from any of its elements. *)
Lemma ring_rotate R x l1 y l2 :
  chain R x (l1 ++ y :: l2 ++ [x]) -> chain R y (l2 ++ x :: l1 ++ [y]).
Proof. intros [H1 H2]%chain_app. apply chain_app. done. Qed.

Lemma ring_rotate_app next prev l1 l2 : ring next prev (l1 ++ l2) -> ring next prev (l2 ++ l1).
Proof.
  destruct l1 as [|x l1], l2 as [|y l2]; cbn; rewrite ?app_nil_r; try done.
  rewrite <- !app_assoc. apply ring_rotate.
Qed.
Lemma ring_links next prev b l :
  ring next prev (b :: l) -> exists z a, next b = Some a /\ prev b = Some z /\
    head (l ++ [b]) = Some a /\ list.last (b :: l) = Some z.
Proof.
  cbn. intros Hc. destruct (list_last_split b l) as (l0&z&E).
  assert (list.last (b :: l) = Some z) as Hz by (rewrite E; apply last_snoc).
  assert (linked next prev z b) as [_ Hp].
  { destruct l0 as [|x l0]; injection E as -> El; subst l; [by apply Hc|].
    rewrite <- app_assoc in Hc. cbn in Hc. apply chain_app in Hc as [_ [? _]]. done. }
  destruct (l ++ [b]) as [|a m] eqn:Ea; [by destruct l|]. destruct Hc as [[Hn _] _].
  exists z, a. done.
Qed.
(** Taking [b] out, wherever it is. *)
Lemma ring_delete next prev l1 b l2 :
  NoDup (l1 ++ b :: l2) -> l1 ++ l2 <> [] -> ring next prev (l1 ++ b :: l2) ->
  exists z a, next b = Some a /\ prev b = Some z /\ z ∈ l1 ++ l2 /\ a ∈ l1 ++ l2 /\
    (l1 = [] -> head l2 = Some a) /\
    ring (<[z := Some a]> next) (<[a := Some z]> prev) (l1 ++ l2).
Proof.
  intros Hnd Hne Hr. apply (ring_rotate_app _ _ l1 (b :: l2)) in Hr. cbn [app] in Hr.
  destruct (ring_links _ _ _ _ Hr) as (z&a&Hn&Hp&Ha&Hz). exists z, a.
  assert (NoDup (b :: l2 ++ l1)) as Hnd'.
  { assert (b :: l2 ++ l1 ≡ₚ l1 ++ b :: l2) as -> by solve_Permutation. done. }
  destruct (l2 ++ l1) as [|a' m] eqn:Em.
  { destruct l1, l2; done. }
  cbn in Ha. injection Ha as ->. destruct (list_last_split a m) as (l0&z'&E).
  assert (z' = z) as ->.
  { rewrite last_cons, E, last_snoc in Hz. congruence. }
  assert (forall x, x ∈ a :: m -> x ∈ l1 ++ l2) as Hsub.
  { intros x. rewrite <- Em. set_solver. }
  split_and!; [done|done|apply Hsub; rewrite E; set_solver|apply Hsub; set_solver| |].
  - intros ->. rewrite app_nil_r in Em. by rewrite Em.
  - apply ring_rotate_app. rewrite Em. cbn. eapply ring_remove; done.
Qed.
Lemma ring_push next prev b f l :
  NoDup (b :: f :: l) -> ring next prev (f :: l) ->
  exists z, prev f = Some z /\ z ∈ f :: l /\
    ring (<[z := Some b]> (<[b := Some f]> next)) (<[f := Some b]> (<[b := Some z]> prev)) ((f :: l) ++ [b]).
Proof.
  intros Hnd Hr. destruct (ring_links _ _ _ _ Hr) as (z&a&_&Hp&_&Hz). exists z.
  split_and!; [done|by apply last_Some_elem_of|].
  destruct (list_last_split f l) as (l0&z'&E). rewrite E, last_snoc in Hz. injection Hz as ->.
  cbn. by eapply ring_insert.
Qed.

Lemma hlist_mono next prev next' prev' p l :
  (forall x, x ∈ l -> next' x = next x /\ prev' x = prev x) -> hlist next prev p l -> hlist next' prev' p l.
Proof.
  revert p. induction l as [|x l IH]; intros p H; cbn; [done|].
  intros (?&?&?). destruct (H x ltac:(set_solver)) as [-> ->]. split_and!; [done..|].
  apply IH; [|done]. intros; apply H; set_solver.
Qed.

(** The links after [b] was taken out of its hash chain. *)
Definition set_link (q : option nat) (v : option nat) (f : nat -> option nat) : nat -> option nat :=
  match q with Some x => <[x := v]> f | None => f end.
Lemma set_link_ne q v f x : q <> Some x -> set_link q v f x = f x.
Proof. destruct q as [y|]; intros H; [|done]. apply fn_lookup_insert_ne. congruence. Qed.

Lemma hlist_remove next prev p l1 b l2 :
  NoDup (l1 ++ b :: l2) -> (forall q, p = Some q -> q ∉ l1 ++ b :: l2) ->
  hlist next prev p (l1 ++ b :: l2) ->
  prev b = match list.last l1 with Some q => Some q | None => p end /\ next b = head l2 /\
  hlist (set_link (prev b) (next b) next) (set_link (next b) (prev b) prev) p (l1 ++ l2).
Proof.
  revert p. induction l1 as [|x l1 IH]; intros p Hnd Hp.
  - cbn. intros (Hpb&Hnb&Hl). split_and!; [done..|]. rewrite Hpb, Hnb.
    destruct l2 as [|c l2]; [done|]. cbn in *. destruct Hl as (Hpc&Hnc&Hl).
    apply list.NoDup_cons in Hnd as [Hb Hnd]. apply list.NoDup_cons in Hnd as [Hc Hnd].
    split_and!; [by rewrite fn_lookup_insert| |].
    + rewrite set_link_ne; [done|]. intros ->. apply (Hp c eq_refl). set_solver.
    + eapply hlist_mono; [|exact Hl]. intros y Hy. split.
      * apply set_link_ne. intros ->. apply (Hp y eq_refl). set_solver.
      * apply fn_lookup_insert_ne. intros ->. done.
  - cbn [app hlist]. intros (Hpx&Hnx&Hl). apply list.NoDup_cons in Hnd as [Hx Hnd].
    destruct (IH (Some x)) as (Hpb&Hnb&Hl'); [done|by intros q [= <-]|done|].
    assert (match list.last l1 with Some q => Some q | None => Some x end = list.last (x :: l1)) as E.
    { symmetry. apply last_cons. }
    split_and!; [|done| | |].
    + rewrite Hpb, E. destruct (list.last (x :: l1)) eqn:E'; [done|]. by apply last_None in E'.
    + rewrite set_link_ne; [done|]. rewrite Hnb. intros Hh.
      apply Hx. apply head_Some_elem_of in Hh. set_solver.
    + destruct l1 as [|y l1'].
      * cbn in Hpb |- *. rewrite Hpb. cbn. by rewrite fn_lookup_insert, Hnb.
      * rewrite set_link_ne; [done|]. rewrite Hpb. destruct (list.last (y :: l1')) as [q|] eqn:E'; [|by apply last_None in E'].
        intros [= ->]. apply Hx. apply last_Some_elem_of in E'. set_solver.
    + done.
Qed.

Lemma hlist_insert next prev b l :
  b ∉ l -> NoDup l -> hlist next prev None l -> prev b = None -> next b = head l ->
  hlist next (set_link (head l) (Some b) prev) None (b :: l).
Proof.
  intros Hb Hnd Hl Hpb Hnb. cbn. split_and!; [|done|].
  - rewrite set_link_ne; [done|]. intros E%head_Some_elem_of. done.
  - destruct l as [|c l]; [done|]. cbn in *. destruct Hl as (?&?&?). apply list.NoDup_cons in Hnd as [Hc ?].
    split_and!; [by rewrite fn_lookup_insert|done|].
    eapply hlist_mono; [|done]. intros y Hy. split; [done|]. apply fn_lookup_insert_ne. by intros ->.
Qed.
End Lists.

(** ** The queues of the cache *)

(** A link field of every buffer, as a function. *)
Definition view (f : buffer_head -> option nat) (bufs : list buffer_head) (b : nat) : option nat := bufs !! b ≫= f.
(** Everything of a head that is not a link. *)
Definition core (h : buffer_head) :=
  (b_data h, b_blocknr h, b_dev h, b_uptodate h, b_dirt h, b_count h, b_lock h, b_wait h).
Definition head_hash (h : buffer_head) : Z := _hashfn (b_dev h) (b_blocknr h).

(** The free list: [l] is the ring from [fl] on. *)
Definition ring_ok (bufs : list buffer_head) (fl : nat) (l : list nat) : Prop :=
  head l = Some fl /\ NoDup l /\ ring (view b_next_free bufs) (view b_prev_free bufs) l.
(** The hash chains: [ch i] is the chain of bucket [i]. *)
Definition chains_ok (bufs : list buffer_head) (ht : list (option nat)) (ch : Z -> list nat) : Prop :=
  Z.of_nat (length ht) = NR_HASH /\
  forall i, 0 <= i < NR_HASH -> idx ht i = Some (head (ch i)) /\ NoDup (ch i) /\
    hlist (view b_next bufs) (view b_prev bufs) None (ch i).
(** Buffer [b] is on the chain of its hash value, if it has a device, and on no other. *)
Definition placed (bufs : list buffer_head) (ch : Z -> list nat) (b : nat) : Prop :=
  forall h, bufs !! b = Some h ->
    (forall i, 0 <= i < NR_HASH -> b ∈ ch i <-> (b_dev h <> 0 /\ head_hash h = i)) /\
    (b_dev h = 0 -> b_next h = None /\ b_prev h = None).

Definition queues_ok (bufs : list buffer_head) (ht : list (option nat)) (fl : nat) (l : list nat) (ch : Z -> list nat) : Prop :=
  ring_ok bufs fl l /\ (forall b, b ∈ l <-> (b < length bufs)%nat) /\
  chains_ok bufs ht ch /\ (forall i b, 0 <= i < NR_HASH -> b ∈ ch i -> (b < length bufs)%nat) /\
  (forall b, placed bufs ch b) /\ (2 <= length bufs)%nat.

Section Views.
Implicit Types (bufs : list buffer_head) (f : buffer_head -> option nat) (g : buffer_head -> buffer_head).
Lemma view_alter_eq f g b v bufs x :
  (b < length bufs)%nat -> (forall h, f (g h) = v) -> view f (alter g b bufs) x = (<[b := v]> (view f bufs)) x.
Proof.
  intros [h Hh]%lookup_lt_is_Some Hf. unfold view. destruct (decide (x = b)) as [->|].
  - rewrite fn_lookup_insert, list_lookup_alter_eq, Hh. cbn. apply Hf.
  - by rewrite fn_lookup_insert_ne, list_lookup_alter_ne by done.
Qed.
Lemma view_alter_ne f g b bufs x : (forall h, f (g h) = f h) -> view f (alter g b bufs) x = view f bufs x.
Proof.
  intros Hf. unfold view. destruct (decide (x = b)) as [->|]; [|by rewrite list_lookup_alter_ne].
  rewrite list_lookup_alter_eq. destruct (bufs !! b); cbn; [apply Hf|done].
Qed.
Lemma core_alter g b bufs x : (forall h, core (g h) = core h) -> core <$> alter g b bufs !! x = core <$> bufs !! x.
Proof.
  intros Hf. destruct (decide (x = b)) as [->|]; [|by rewrite list_lookup_alter_ne].
  rewrite list_lookup_alter_eq. destruct (bufs !! b); cbn; [by rewrite Hf|done].
Qed.
Lemma alter_insert g b bufs h : bufs !! b = Some h -> alter g b bufs = <[b := g h]> bufs.
Proof.
  intros Hh. apply list_eq. intros x. destruct (decide (x = b)) as [->|].
  - rewrite list_lookup_alter_eq, Hh, list_lookup_insert_eq; [done|]. by eapply lookup_lt_Some.
  - by rewrite list_lookup_alter_ne, list_lookup_insert_ne.
Qed.
End Views.

(** A state with given buffers and queues; the rest is that of [k]. *)
Definition put_q (bufs : list buffer_head) (ht : list (option nat)) (fl : nat) (k : kernel) : kernel :=
  k <| k_blk ::= fun s => s <| buffers := bufs |> <| hash_table := ht |> <| free_list := fl |> |>.

Section ExecQ.
Variable k : kernel.
Implicit Types (bufs : list buffer_head) (ht : list (option nat)) (fl : nat).

Lemma put_q_eta : put_q (buffers (k_blk k)) (hash_table (k_blk k)) (free_list (k_blk k)) k = k.
Proof. by destruct k as [? [] ? ? ? ?]. Qed.
Lemma Q_get_bh bufs ht fl b h : bufs !! b = Some h -> get_bh b (put_q bufs ht fl k) = Ok h (put_q bufs ht fl k).
Proof. intros H. by apply get_bh_Ok. Qed.
Lemma Q_mod_bh bufs ht fl b g :
  (b < length bufs)%nat -> mod_bh b g (put_q bufs ht fl k) = Ok tt (put_q (alter g b bufs) ht fl k).
Proof.
  intros [h Hh]%lookup_lt_is_Some. rewrite (mod_bh_Ok _ b h) by done. rewrite (alter_insert _ _ _ h) by done. done.
Qed.
Lemma Q_get_hash bufs ht fl dev blk v :
  idx ht (_hashfn dev blk) = Some v -> get_hash dev blk (put_q bufs ht fl k) = Ok v (put_q bufs ht fl k).
Proof. intros H. unfold get_hash, bind, gets, put_q. rsimpl. by rewrite H. Qed.
Lemma Q_set_hash bufs ht fl dev blk v w :
  idx ht (_hashfn dev blk) = Some v ->
  set_hash dev blk w (put_q bufs ht fl k) = Ok tt (put_q bufs (upd_idx ht (_hashfn dev blk) w) fl k).
Proof. intros H. unfold set_hash. by erewrite bind_Ok by by apply Q_get_hash. Qed.

(** [mod_bh] through a pointer that may be NULL. *)
Definition opt_alter (g : buffer_head -> buffer_head) (p : option nat) bufs : list buffer_head :=
  match p with Some b => alter g b bufs | None => bufs end.
Lemma length_opt_alter g p bufs : length (opt_alter g p bufs) = length bufs.
Proof. destruct p; cbn; [apply length_alter|done]. Qed.
Lemma lookup_opt_alter_ne g p bufs b : p <> Some b -> opt_alter g p bufs !! b = bufs !! b.
Proof. destruct p; cbn; [|done]. intros. apply list_lookup_alter_ne. congruence. Qed.

(** The buffers after [remove_from_queues]. *)
Definition unlinked (h : buffer_head) (z a : nat) bufs : list buffer_head :=
  alter (fun x => x <| b_prev_free := Some z |>) a (alter (fun x => x <| b_next_free := Some a |>) z
    (opt_alter (fun x => x <| b_next := b_next h |>) (b_prev h)
      (opt_alter (fun x => x <| b_prev := b_prev h |>) (b_next h) bufs))).

Lemma Q_remove bufs ht fl b h z a first :
  bufs !! b = Some h -> b_next h <> Some b -> b_prev h <> Some b ->
  (forall n, b_next h = Some n -> (n < length bufs)%nat) -> (forall n, b_prev h = Some n -> (n < length bufs)%nat) ->
  idx ht (head_hash h) = Some first ->
  b_prev_free h = Some z -> b_next_free h = Some a -> z <> b -> a <> b ->
  (z < length bufs)%nat -> (a < length bufs)%nat ->
  remove_from_queues b (put_q bufs ht fl k) =
  Ok tt (put_q (unlinked h z a bufs)
           (if eq_ptr first (Some b) then upd_idx ht (head_hash h) (b_next h) else ht)
           (if (fl =? b)%nat then a else fl) k).
Proof.
  intros Hb Hnb Hpb Hn Hp Hf Hz Ha Hzb Hab Hzl Hal. unfold remove_from_queues.
  erewrite bind_Ok by by apply Q_get_bh.
  set (bufs1 := opt_alter (fun x => x <| b_prev := b_prev h |>) (b_next h) bufs).
  erewrite (bind_Ok _ _ _ tt (put_q bufs1 ht fl k)).
  2:{ unfold bufs1. destruct (b_next h) eqn:E; [|done]. apply Q_mod_bh. by apply Hn. }
  set (bufs2 := opt_alter (fun x => x <| b_next := b_next h |>) (b_prev h) bufs1).
  erewrite (bind_Ok _ _ _ tt (put_q bufs2 ht fl k)).
  2:{ unfold bufs2. destruct (b_prev h) eqn:E; [|done]. apply Q_mod_bh.
      unfold bufs1. rewrite length_opt_alter. by apply Hp. }
  assert (length bufs2 = length bufs) as Hl2 by (unfold bufs2, bufs1; by rewrite !length_opt_alter).
  assert (bufs2 !! b = Some h) as Hb2.
  { unfold bufs2, bufs1. by rewrite !lookup_opt_alter_ne. }
  erewrite bind_Ok by by apply Q_get_hash.
  erewrite (bind_Ok _ _ _ tt (put_q bufs2 (if eq_ptr first (Some b) then upd_idx ht (head_hash h) (b_next h) else ht) fl k)).
  2:{ unfold when. destruct (eq_ptr first (Some b)); [|done]. by eapply Q_set_hash. }
  erewrite bind_Ok by by apply Q_get_bh. rewrite Hz, Ha.
  erewrite bind_Ok by (apply Q_mod_bh; lia).
  erewrite bind_Ok by (apply Q_get_bh; by rewrite list_lookup_alter_ne).
  rewrite Ha. erewrite bind_Ok by reflexivity.
  erewrite bind_Ok by (apply Q_mod_bh; rewrite length_alter; lia).
  erewrite bind_Ok by reflexivity. change (free_list (k_blk (put_q _ _ fl k))) with fl.
  rewrite Hz. destruct (fl =? b)%nat; [|done].
  erewrite bind_Ok by (apply Q_get_bh; by rewrite !list_lookup_alter_ne).
  rewrite Ha. by erewrite bind_Ok by reflexivity.
Qed.
End ExecQ.

Definition rm (b : nat) (l : list nat) : list nat := filter (fun x => x <> b) l.
Lemma rm_notin b l : b ∉ l -> rm b l = l.
Proof.
  intros Hb. unfold rm. induction l as [|x l IH]; [done|].
  rewrite filter_cons_True by set_solver. f_equal. apply IH. set_solver.
Qed.
Lemma rm_split b l1 l2 : NoDup (l1 ++ b :: l2) -> rm b (l1 ++ b :: l2) = l1 ++ l2.
Proof.
  intros (?&Hx&[? ?]%list.NoDup_cons)%list.NoDup_app. unfold rm. rewrite list.filter_app, filter_cons_False by auto.
  f_equal; apply rm_notin; [|done]. intros Hb. apply (Hx b Hb). set_solver.
Qed.
Lemma elem_of_rm b l x : x ∈ rm b l <-> x <> b /\ x ∈ l.
Proof. unfold rm. by rewrite list_elem_of_filter. Qed.
Lemma NoDup_rm b l : NoDup l -> NoDup (rm b l).
Proof. apply list.NoDup_filter. Qed.

Section Remove.
Context (bufs : list buffer_head) (ht : list (option nat)) (fl : nat) (l : list nat) (ch : Z -> list nat).
Context (b : nat) (h : buffer_head).
Context (HQ : queues_ok bufs ht fl l ch) (Hb : bufs !! b = Some h).

Lemma head_hash_range x : 0 <= head_hash x < NR_HASH.
Proof. unfold head_hash, _hashfn. apply Z.mod_pos_bound. done. Qed.

(** The free list without [b]. *)
Lemma remove_ring : exists z a, b_next_free h = Some a /\ b_prev_free h = Some z /\ z <> b /\ a <> b /\
  (z < length bufs)%nat /\ (a < length bufs)%nat /\
  head (rm b l) = Some (if (fl =? b)%nat then a else fl) /\
  ring (<[z := Some a]> (view b_next_free bufs)) (<[a := Some z]> (view b_prev_free bufs)) (rm b l).
Proof.
  destruct HQ as ((Hh&Hnd&Hr)&Hmem&_&_&_&H2).
  assert (b ∈ l) as (l1&l2&->)%list_elem_of_split by (apply Hmem; by eapply lookup_lt_Some).
  rewrite rm_split by done.
  assert (b ∉ l1 ++ l2) as Hnot.
  { apply list.NoDup_app in Hnd as (?&Hx&[? ?]%list.NoDup_cons). intros [Hi|Hi]%elem_of_app; [|done].
    apply (Hx b Hi). set_solver. }
  assert (l1 ++ l2 <> []) as Hne.
  { intros E. destruct l1, l2; try done. cbn in *.
    assert (0%nat ∈ [b] /\ 1%nat ∈ [b]) as [H0 H1] by (split; apply Hmem; lia).
    apply list_elem_of_singleton in H0, H1. lia. }
  destruct (ring_delete _ _ _ _ _ Hnd Hne Hr) as (z&a&Hn&Hp&Hz&Ha&Hhd&Hr').
  unfold view in Hn, Hp. rewrite Hb in Hn, Hp. cbn in Hn, Hp.
  exists z, a. split_and!; try done; try (intros ->; done); try (apply Hmem; set_solver).
  destruct l1 as [|x l1]; cbn in *.
  - injection Hh as ->. rewrite Nat.eqb_refl. by apply Hhd.
  - injection Hh as ->. destruct (Nat.eqb_spec fl b) as [->|]; [|done]. set_solver.
Qed.

Lemma in_own_chain i : 0 <= i < NR_HASH -> b ∈ ch i <-> (b_dev h <> 0 /\ head_hash h = i).
Proof. destruct HQ as (_&_&_&_&Hpl&_). apply (Hpl b h Hb). Qed.

(** Links inside a chain stay inside it. *)
Lemma chain_links : b_dev h <> 0 -> exists l1 l2, ch (head_hash h) = l1 ++ b :: l2 /\
  b_prev h = list.last l1 /\ b_next h = head l2 /\
  hlist (set_link (b_prev h) (b_next h) (view b_next bufs)) (set_link (b_next h) (b_prev h) (view b_prev bufs))
    None (l1 ++ l2).
Proof.
  intros Hd. destruct HQ as (_&_&(_&Hch)&_&_&_). pose proof (head_hash_range h) as Hr.
  destruct (Hch _ Hr) as (_&Hnd&Hl).
  assert (b ∈ ch (head_hash h)) as (l1&l2&E)%list_elem_of_split by by apply in_own_chain.
  exists l1, l2. rewrite E in *.
  destruct (hlist_remove _ _ None l1 b l2 Hnd ltac:(intros q; discriminate) Hl) as (Hp&Hn&Hl').
  assert (view b_prev bufs b = b_prev h) as Ep by (unfold view; by rewrite Hb).
  assert (view b_next bufs b = b_next h) as En by (unfold view; by rewrite Hb).
  rewrite Ep, En in *. split_and!; try done. by destruct (list.last l1).
Qed.

Lemma link_facts : b_next h <> Some b /\ b_prev h <> Some b /\
  (forall n, b_next h = Some n \/ b_prev h = Some n -> (n < length bufs)%nat /\ n ∈ ch (head_hash h) /\ b_dev h <> 0).
Proof.
  destruct (decide (b_dev h = 0)) as [Hd|Hd].
  - destruct HQ as (_&_&_&_&Hpl&_). destruct (Hpl b h Hb) as [_ H0]. destruct (H0 Hd) as [-> ->].
    split_and!; try done. intros n [?|?]; done.
  - destruct (chain_links Hd) as (l1&l2&E&->&->&_). pose proof (head_hash_range h) as Hr.
    destruct HQ as (_&_&(_&Hch)&Hin&_&_). destruct (Hch _ Hr) as (_&Hnd&_). rewrite E in Hnd.
    apply list.NoDup_app in Hnd as (?&Hx&[Hb2 ?]%list.NoDup_cons).
    split_and!.
    + intros Hh%head_Some_elem_of. done.
    + intros Hh%last_Some_elem_of. apply (Hx b Hh). set_solver.
    + intros n [Hh%head_Some_elem_of|Hh%last_Some_elem_of]; (split; [|split; [|done]]);
        first [apply (Hin _ _ Hr) | idtac]; rewrite E; set_solver.
Qed.

Lemma unlinked_next z a x :
  view b_next (unlinked h z a bufs) x = set_link (b_prev h) (b_next h) (view b_next bufs) x.
Proof.
  destruct link_facts as (Hnb&Hpb&Hlinks).
  unfold unlinked. rewrite !view_alter_ne by done. unfold opt_alter, set_link.
  destruct (b_prev h) as [p|] eqn:Ep; [|destruct (b_next h); [by rewrite view_alter_ne|done]].
  rewrite (view_alter_eq _ _ _ (b_next h)); [|destruct (b_next h); rewrite ?length_alter; by apply Hlinks; right|done].
  unfold insert, fn_insert. destruct (decide _); [done|]. destruct (b_next h); [by rewrite view_alter_ne|done].
Qed.
Lemma unlinked_prev z a x :
  view b_prev (unlinked h z a bufs) x = set_link (b_next h) (b_prev h) (view b_prev bufs) x.
Proof.
  destruct link_facts as (Hnb&Hpb&Hlinks).
  unfold unlinked. rewrite !view_alter_ne by done. unfold opt_alter, set_link.
  replace (view b_prev (match b_prev h with Some b0 => _ | None => _ end) x) with
    (view b_prev (opt_alter (fun x => x <| b_prev := b_prev h |>) (b_next h) bufs) x).
  2:{ destruct (b_prev h); [by rewrite view_alter_ne|done]. }
  unfold opt_alter. destruct (b_next h) as [n|] eqn:En; [|done].
  rewrite (view_alter_eq _ _ _ (b_prev h)); [done| |done]. apply Hlinks; by left.
Qed.
Lemma unlinked_free z a x : (z < length bufs)%nat -> (a < length bufs)%nat ->
  view b_next_free (unlinked h z a bufs) x = (<[z := Some a]> (view b_next_free bufs)) x /\
  view b_prev_free (unlinked h z a bufs) x = (<[a := Some z]> (view b_prev_free bufs)) x.
Proof.
  intros Hz Ha. assert (forall f, (forall h v, f (h <| b_next := v |>) = f h) -> (forall h v, f (h <| b_prev := v |>) = f h) ->
    forall y, view f (opt_alter (fun x => x <| b_next := b_next h |>) (b_prev h)
      (opt_alter (fun x => x <| b_prev := b_prev h |>) (b_next h) bufs)) y = view f bufs y) as E.
  { intros f H1 H3 y. unfold opt_alter. destruct (b_prev h), (b_next h); by rewrite ?view_alter_ne. }
  unfold unlinked. split.
  - rewrite view_alter_ne by done. rewrite (view_alter_eq _ _ _ (Some a)) by (rewrite ?length_opt_alter; done).
    unfold insert, fn_insert. destruct (decide _); [done|]. by rewrite E.
  - rewrite (view_alter_eq _ _ _ (Some z)) by (rewrite ?length_alter, ?length_opt_alter; done).
    unfold insert, fn_insert. destruct (decide _); [done|]. rewrite view_alter_ne by done. by rewrite E.
Qed.
Lemma unlinked_core z a x : core <$> unlinked h z a bufs !! x = core <$> bufs !! x.
Proof.
  unfold unlinked, opt_alter. destruct (b_prev h), (b_next h); by rewrite !core_alter by done.
Qed.
Lemma unlinked_length z a : length (unlinked h z a bufs) = length bufs.
Proof. unfold unlinked. by rewrite !length_alter, !length_opt_alter. Qed.

Lemma remove_chains z a :
  let ht' := if eq_ptr (head (ch (head_hash h))) (Some b) then upd_idx ht (head_hash h) (b_next h) else ht in
  chains_ok (unlinked h z a bufs) ht' (fun i => rm b (ch i)).
Proof.
  intros ht'. destruct HQ as (Hring&Hmem&(Hlen&Hch)&Hin&Hpl&H2). pose proof (head_hash_range h) as Hr.
  assert (Z.of_nat (length ht') = NR_HASH) as Hlen'.
  { unfold ht'. destruct (eq_ptr _ _); rewrite ?length_upd_idx; done. }
  destruct link_facts as (Hnb&Hpb&Hlinks).
  pose proof (unlinked_next z a) as Hvn. pose proof (unlinked_prev z a) as Hvp.
  split; [done|]. intros i Hi. destruct (Hch i Hi) as (Hh&Hnd&Hl).
  destruct (decide (b_dev h <> 0 /\ head_hash h = i)) as [[Hd <-]|Hno].
  - destruct (chain_links Hd) as (l1&l2&E&Hp&Hn&Hl'). rewrite E in *. rewrite rm_split by done.
    split_and!.
    + unfold ht', eq_ptr. rewrite ?E. destruct (bool_decide_reflect (head (l1 ++ b :: l2) = Some b)) as [Hhd|Hhd].
      * rewrite idx_upd_eq by lia. rewrite Hn. destruct l1 as [|x l1]; [done|]. cbn in Hhd. injection Hhd as ->.
        cbn in Hnd. apply list.NoDup_cons in Hnd as [? _]. set_solver.
      * rewrite Hh. destruct l1; done.
    + rewrite <- (rm_split b) by done. by apply NoDup_rm.
    + eapply hlist_mono; [|exact Hl']. intros x _. split; [apply Hvn|apply Hvp].
  - assert (b ∉ ch i) as Hbi by (rewrite in_own_chain by done; done). rewrite rm_notin by done.
    assert (forall x, x ∈ ch i -> b_next h <> Some x /\ b_prev h <> Some x) as Hout.
    { intros x Hx. assert (head_hash h <> i \/ b_dev h = 0) as Hcase by (destruct (decide (b_dev h = 0)); [by right|left; naive_solver]).
      assert (forall y, b_next h = Some y \/ b_prev h = Some y -> y <> x) as Hy.
      { intros y Hy ->. destruct (Hlinks x Hy) as (Hxl&Hxc&Hd). apply lookup_lt_is_Some in Hxl as [hx Hhx].
        destruct (Hpl x hx Hhx) as [Hiff _]. apply (Hiff i Hi) in Hx as [_ E1].
        apply (Hiff _ Hr) in Hxc as [_ E2]. naive_solver. }
      split; intros E; by apply (Hy x); auto. }
    split_and!; [|done|].
    + unfold ht'. destruct (eq_ptr _ _) eqn:Ee; [|done].
      apply bool_decide_eq_true, head_Some_elem_of in Ee. rewrite in_own_chain in Ee by done. destruct Ee as [Hd _].
      rewrite idx_upd_ne; [done|lia|]. naive_solver.
    + eapply hlist_mono; [|exact Hl]. intros x Hx. rewrite Hvn, Hvp. destruct (Hout x Hx).
      by rewrite !set_link_ne.
Qed.
End Remove.

(** ** Insertion *)

(** The buffers after [insert_into_queues]; [z] was last on the free list, [first] first on
    the hash chain. *)
Definition on_free_list (b fl z : nat) (bufs : list buffer_head) : list buffer_head :=
  alter (fun x => x <| b_prev_free := Some b |>) fl (alter (fun x => x <| b_next_free := Some b |>) z
    (alter (fun x => x <| b_prev_free := Some z |>) b (alter (fun x => x <| b_next_free := Some fl |>) b bufs))).
Definition no_chain (b : nat) (bufs : list buffer_head) : list buffer_head :=
  alter (fun x => x <| b_next := None |>) b (alter (fun x => x <| b_prev := None |>) b bufs).
Definition on_chain (b : nat) (first : option nat) (bufs : list buffer_head) : list buffer_head :=
  opt_alter (fun x => x <| b_prev := Some b |>) first (alter (fun x => x <| b_next := first |>) b bufs).
Definition inserted (b fl z : nat) (dev : Z) (first : option nat) (bufs : list buffer_head) : list buffer_head :=
  let bufs := no_chain b (on_free_list b fl z bufs) in
  if dev =? 0 then bufs else on_chain b first bufs.

Lemma core_fields h h' : core h = core h' ->
  b_data h = b_data h' /\ b_blocknr h = b_blocknr h' /\ b_dev h = b_dev h' /\ b_uptodate h = b_uptodate h' /\
  b_dirt h = b_dirt h' /\ b_count h = b_count h' /\ b_lock h = b_lock h' /\ b_wait h = b_wait h'.
Proof. unfold core. intros [=]. done. Qed.

Lemma Q_insert k bufs ht fl b h f z first :
  bufs !! b = Some h -> bufs !! fl = Some f -> fl <> b -> b_prev_free f = Some z -> z <> b ->
  (z < length bufs)%nat -> idx ht (head_hash h) = Some first ->
  (forall n, first = Some n -> (n < length bufs)%nat) ->
  insert_into_queues b (put_q bufs ht fl k) =
  Ok tt (put_q (inserted b fl z (b_dev h) first bufs)
           (if b_dev h =? 0 then ht else upd_idx ht (head_hash h) (Some b)) fl k).
Proof.
  intros Hb Hf Hne Hz Hzb Hzl Hfirst Hfl. unfold insert_into_queues.
  assert (b < length bufs)%nat as Hbl by by eapply lookup_lt_Some.
  assert (fl < length bufs)%nat as Hfll by by eapply lookup_lt_Some.
  erewrite bind_Ok by reflexivity. change (free_list (k_blk (put_q bufs ht fl k))) with fl.
  erewrite bind_Ok by by apply Q_mod_bh.
  erewrite bind_Ok by (apply Q_get_bh; by rewrite list_lookup_alter_ne). rewrite Hz.
  erewrite bind_Ok by (apply Q_mod_bh; by rewrite length_alter).
  erewrite bind_Ok by (apply Q_get_bh; by rewrite !list_lookup_alter_ne). rewrite Hz.
  erewrite bind_Ok by reflexivity.
  do 4 (erewrite bind_Ok by (apply Q_mod_bh; by rewrite !length_alter)).
  change (alter _ b (alter _ b (alter _ fl _))) with (no_chain b (on_free_list b fl z bufs)).
  set (bufs6 := no_chain b (on_free_list b fl z bufs)).
  assert (length bufs6 = length bufs) as Hl6 by (unfold bufs6, no_chain, on_free_list; by rewrite !length_alter).
  assert (core <$> bufs6 !! b = Some (core h)) as Hc6.
  { unfold bufs6, no_chain, on_free_list. rewrite !core_alter by done. by rewrite Hb. }
  destruct (bufs6 !! b) as [h6|] eqn:Hb6; [|done].
  assert (core h6 = core h) as (_&Eb&Ed&_)%core_fields by (cbn in Hc6; congruence).
  erewrite bind_Ok by by apply Q_get_bh. unfold inserted. fold bufs6.
  rewrite Ed. destruct (b_dev h =? 0); [done|].
  rewrite Eb. erewrite bind_Ok by (by apply Q_get_hash).
  erewrite bind_Ok by (apply Q_mod_bh; lia). erewrite bind_Ok by (by eapply Q_set_hash).
  unfold on_chain, opt_alter. destruct first as [n|]; [|done].
  rewrite Q_mod_bh; [done|]. rewrite length_alter, Hl6. by apply Hfl.
Qed.

Lemma fn_insert_if (a x : nat) (v : option nat) (f : nat -> option nat) :
  (<[a := v]> f) x = if decide (x = a) then v else f x.
Proof. destruct (decide (x = a)) as [->|]; [apply fn_lookup_insert|by apply fn_lookup_insert_ne]. Qed.

Section InsertedViews.
Context (b fl z : nat) (dev : Z) (first : option nat) (bufs : list buffer_head).
Context (Hb : (b < length bufs)%nat) (Hfl : (fl < length bufs)%nat) (Hz : (z < length bufs)%nat).
Context (Hfirst : forall n, first = Some n -> (n < length bufs)%nat).
Let bufs' := inserted b fl z dev first bufs.
Local Ltac unfold_ins := unfold bufs', inserted, on_chain, no_chain, opt_alter.

Lemma inserted_length : length bufs' = length bufs.
Proof.
  unfold_ins. unfold on_free_list. destruct (dev =? 0); [|destruct first]; by rewrite !length_alter.
Qed.
Lemma inserted_core x : core <$> bufs' !! x = core <$> bufs !! x.
Proof.
  unfold_ins. unfold on_free_list. destruct (dev =? 0); [|destruct first]; by rewrite !core_alter by done.
Qed.
Lemma inserted_next_free x :
  view b_next_free bufs' x = (<[z := Some b]> (<[b := Some fl]> (view b_next_free bufs))) x.
Proof.
  trans (view b_next_free (on_free_list b fl z bufs) x).
  { unfold_ins. destruct (dev =? 0); [|destruct first]; by rewrite !view_alter_ne by done. }
  unfold on_free_list. rewrite view_alter_ne by done.
  rewrite (view_alter_eq _ _ _ (Some b)) by (rewrite ?length_alter; done).
  rewrite !fn_insert_if. destruct (decide (x = z)); [done|]. rewrite view_alter_ne by done.
  rewrite (view_alter_eq _ _ _ (Some fl)) by done. by rewrite fn_insert_if.
Qed.
Lemma inserted_prev_free x :
  view b_prev_free bufs' x = (<[fl := Some b]> (<[b := Some z]> (view b_prev_free bufs))) x.
Proof.
  trans (view b_prev_free (on_free_list b fl z bufs) x).
  { unfold_ins. destruct (dev =? 0); [|destruct first]; by rewrite !view_alter_ne by done. }
  unfold on_free_list. rewrite (view_alter_eq _ _ _ (Some b)) by (rewrite ?length_alter; done).
  rewrite !fn_insert_if. destruct (decide (x = fl)); [done|]. rewrite view_alter_ne by done.
  rewrite (view_alter_eq _ _ _ (Some z)) by (rewrite ?length_alter; done).
  rewrite !fn_insert_if. destruct (decide (x = b)); [done|]. by rewrite view_alter_ne.
Qed.
Lemma inserted_next x :
  view b_next bufs' x = (<[b := if dev =? 0 then None else first]> (view b_next bufs)) x.
Proof.
  assert (forall y, view b_next (no_chain b (on_free_list b fl z bufs)) y = (<[b := None]> (view b_next bufs)) y) as E.
  { intros y. unfold no_chain, on_free_list. rewrite (view_alter_eq _ _ _ None) by (rewrite ?length_alter; done).
    rewrite !fn_insert_if. destruct (decide (y = b)); [done|]. by rewrite !view_alter_ne by done. }
  unfold bufs', inserted. destruct (dev =? 0); [apply E|]. unfold on_chain, opt_alter.
  trans (view b_next (alter (fun h => h <| b_next := first |>) b (no_chain b (on_free_list b fl z bufs))) x).
  { destruct first; [by rewrite view_alter_ne|done]. }
  rewrite (view_alter_eq _ _ _ first) by (unfold no_chain, on_free_list; rewrite ?length_alter; done).
  rewrite !fn_insert_if. destruct (decide (x = b)) as [|Hn] eqn:D; [done|]. rewrite E.
  by rewrite fn_insert_if, D.
Qed.
Lemma inserted_prev x : first <> Some b ->
  view b_prev bufs' x = (if dev =? 0 then (<[b := None]> (view b_prev bufs)) x
                         else set_link first (Some b) (<[b := None]> (view b_prev bufs)) x).
Proof.
  intros Hfb.
  assert (forall y, view b_prev (no_chain b (on_free_list b fl z bufs)) y = (<[b := None]> (view b_prev bufs)) y) as E.
  { intros y. unfold no_chain, on_free_list. rewrite view_alter_ne by done.
    rewrite (view_alter_eq _ _ _ None) by (rewrite ?length_alter; done).
    rewrite !fn_insert_if. destruct (decide (y = b)); [done|]. by rewrite !view_alter_ne by done. }
  unfold bufs', inserted. destruct (dev =? 0); [apply E|]. unfold on_chain, opt_alter, set_link.
  destruct first as [n|]; [|by rewrite view_alter_ne].
  rewrite (view_alter_eq _ _ _ (Some b)); [|unfold no_chain, on_free_list; rewrite ?length_alter; by apply Hfirst|done].
  rewrite !fn_insert_if. destruct (decide (x = n)); [done|]. rewrite view_alter_ne by done. by rewrite E, fn_insert_if.
Qed.
End InsertedViews.

Section Insert.
Context (bufs : list buffer_head) (ht : list (option nat)) (fl : nat) (l : list nat) (ch : Z -> list nat).
Context (b : nat) (h : buffer_head).
(** Everything but [b] is in its place. *)
Context (Hring : ring_ok bufs fl l) (Hmem : forall x, x ∈ l <-> (x < length bufs)%nat /\ x <> b).
Context (Hch : chains_ok bufs ht ch) (Hin : forall i x, 0 <= i < NR_HASH -> x ∈ ch i -> (x < length bufs)%nat /\ x <> b).
Context (Hpl : forall x, x <> b -> placed bufs ch x) (H2 : (2 <= length bufs)%nat) (Hb : bufs !! b = Some h).

Definition pushed (i : Z) : list nat := if (negb (b_dev h =? 0)) && (head_hash h =? i) then b :: ch i else ch i.
Let first := head (ch (head_hash h)).

Lemma insert_first : idx ht (head_hash h) = Some first /\ (forall n, first = Some n -> (n < length bufs)%nat /\ n <> b).
Proof.
  destruct Hch as [Hlen Hchs]. pose proof (head_hash_range h) as Hr.
  split; [by apply Hchs|]. intros n Hn%head_Some_elem_of. by apply (Hin _ _ Hr).
Qed.
Lemma insert_ring : exists f z, bufs !! fl = Some f /\ fl <> b /\ b_prev_free f = Some z /\ z <> b /\
  (z < length bufs)%nat /\ ring_ok (inserted b fl z (b_dev h) first bufs) fl (l ++ [b]).
Proof.
  assert (forall n, first = Some n -> (n < length bufs)%nat) as Hfirst' by apply insert_first.
  destruct Hring as (Hhd&Hnd&Hr). destruct l as [|f0 l0]; [done|]. injection Hhd as ->.
  assert (b ∉ fl :: l0) as Hbl by (rewrite Hmem; tauto).
  assert (b < length bufs)%nat as Hblt by by eapply lookup_lt_Some.
  destruct (ring_push _ _ b fl l0 ltac:(by apply NoDup_cons_2) Hr) as (z&Hz&Hzl&Hr').
  assert (fl ∈ fl :: l0) as [Hfl Hflb]%Hmem by set_solver. apply Hmem in Hzl as [Hzl Hzb].
  destruct (lookup_lt_is_Some_2 _ _ Hfl) as [f Hf]. unfold view in Hz. rewrite Hf in Hz. cbn in Hz.
  exists f, z. unfold ring_ok. split_and!; try done.
  - apply list.NoDup_app. split_and!; [done|set_solver|apply NoDup_singleton].
  - cbn [app ring] in *. eapply chain_mono; [|exact Hr']. intros u v _ _ [Hu Hv].
    split; [rewrite inserted_next_free by done; exact Hu|rewrite inserted_prev_free by done; exact Hv].
Qed.
Lemma insert_chains z : (fl < length bufs)%nat -> (z < length bufs)%nat ->
  chains_ok (inserted b fl z (b_dev h) first bufs)
    (if b_dev h =? 0 then ht else upd_idx ht (head_hash h) (Some b)) pushed.
Proof.
  intros Hfl Hzl. destruct insert_first as [_ Hfirst]. destruct Hch as [Hlen Hchs].
  assert (b < length bufs)%nat as Hblt by by eapply lookup_lt_Some.
  assert (first <> Some b) as Hfb by (intros E; by apply (Hfirst b)).
  assert (forall n, first = Some n -> (n < length bufs)%nat) as Hfirst' by apply Hfirst.
  assert (forall i x, 0 <= i < NR_HASH -> x ∈ ch i -> x <> b) as Hxb by apply Hin.
  pose proof (head_hash_range h) as Hr.
  split; [destruct (b_dev h =? 0); by rewrite ?length_upd_idx|].
  intros i Hi. destruct (Hchs i Hi) as (Hh&Hnd&Hl). unfold pushed.
  destruct (Z.eqb_spec (b_dev h) 0) as [Hd|Hd]; cbn [negb andb].
  { split_and!; try done. eapply hlist_mono; [|exact Hl]. intros x Hx. rewrite inserted_next, inserted_prev by done.
    by rewrite Hd, !fn_lookup_insert_ne by (apply not_eq_sym, (Hxb i); done). }
  destruct (Z.eqb_spec (head_hash h) i) as [<-|Hne].
  - split_and!; [apply idx_upd_eq; lia|apply NoDup_cons_2; [intros Hbi; by apply (Hxb _ _ Hr Hbi)|done]|].
    assert (hlist (<[b := first]> (view b_next bufs)) (set_link first (Some b) (<[b := None]> (view b_prev bufs)))
      None (b :: ch (head_hash h))) as Hl'.
    { apply hlist_insert; [intros Hbi; by apply (Hxb _ _ Hr Hbi)|done| |by rewrite fn_lookup_insert|by rewrite fn_lookup_insert].
      eapply hlist_mono; [|exact Hl]. intros x Hx.
      by rewrite !fn_lookup_insert_ne by (apply not_eq_sym, (Hxb _ _ Hr Hx)). }
    eapply hlist_mono; [|exact Hl']. intros x Hx. rewrite inserted_next, inserted_prev by done.
    by replace (b_dev h =? 0) with false by lia.
  - split_and!; [rewrite idx_upd_ne by lia; done|done|]. eapply hlist_mono; [|exact Hl]. intros x Hx.
    rewrite inserted_next, inserted_prev by done. replace (b_dev h =? 0) with false by lia.
    assert (first <> Some x) as Hfx.
    { intros Ef%head_Some_elem_of. destruct (Hin _ _ Hr Ef) as [Hxl Hxnb].
      destruct (lookup_lt_is_Some_2 _ _ Hxl) as [hx Hhx]. destruct (Hpl x Hxnb hx Hhx) as [Hiff _].
      pose proof (proj1 (Hiff _ Hr) Ef) as [_ E1]. pose proof (proj1 (Hiff _ Hi) Hx) as [_ E2]. congruence. }
    rewrite set_link_ne by done. by rewrite !fn_lookup_insert_ne by (apply not_eq_sym, (Hxb i); done).
Qed.
Lemma insert_queues : exists f z, bufs !! fl = Some f /\ fl <> b /\ b_prev_free f = Some z /\ z <> b /\
  (z < length bufs)%nat /\
  queues_ok (inserted b fl z (b_dev h) first bufs)
    (if b_dev h =? 0 then ht else upd_idx ht (head_hash h) (Some b)) fl (l ++ [b]) pushed.
Proof.
  destruct insert_ring as (f&z&Hf&Hflb&Hz&Hzb&Hzl&Hr'). destruct insert_first as [_ Hfirst].
  assert (fl < length bufs)%nat as Hfl by by eapply lookup_lt_Some.
  assert (b < length bufs)%nat as Hblt by by eapply lookup_lt_Some.
  exists f, z. unfold queues_ok. rewrite inserted_length by (intros; by apply Hfirst). split_and!; try done; [|by apply insert_chains|..].
  - intros x. rewrite elem_of_app, Hmem, list_elem_of_singleton. destruct (decide (x = b)); naive_solver.
  - intros i x Hi. unfold pushed. destruct (_ && _); [|by apply Hin].
    intros [->|Hx]%elem_of_cons; [done|by apply (Hin i)].
  - intros x hx Hx. destruct (decide (x = b)) as [->|Hxb].
    + assert (core hx = core h) as (_&Eb&Ed&_)%core_fields.
      { pose proof (inserted_core b fl z (b_dev h) first bufs (fun n H => proj1 (Hfirst n H)) b) as E. rewrite Hx, Hb in E. cbn in E. congruence. }
      unfold head_hash. rewrite Eb, Ed. fold (head_hash h). split.
      * intros i Hi. unfold pushed. destruct (Z.eqb_spec (b_dev h) 0), (Z.eqb_spec (head_hash h) i); cbn [negb andb].
        all: try (split; [intros Hbi; by apply Hin in Hbi as [_ ?]|naive_solver]).
        split; [done|]. intros _. set_solver.
      * intros Hd. assert (first <> Some b) as Hfb by (intros E; by apply (Hfirst b)).
        pose proof (inserted_next b fl z (b_dev h) first bufs Hblt (fun n H => proj1 (Hfirst n H)) b) as En.
        pose proof (inserted_prev b fl z (b_dev h) first bufs Hblt (fun n H => proj1 (Hfirst n H)) b Hfb) as Ep.
        unfold view in En, Ep. rewrite Hx in En, Ep. cbn in En, Ep. rewrite Hd in En, Ep. cbn in En, Ep.
        rewrite fn_lookup_insert in En, Ep. done.
    + assert (first <> Some b) as Hfb by (intros E; by apply (Hfirst b)).
      pose proof (inserted_core b fl z (b_dev h) first bufs (fun n H => proj1 (Hfirst n H)) x) as Ec.
      pose proof (inserted_next b fl z (b_dev h) first bufs Hblt (fun n H => proj1 (Hfirst n H)) x) as En.
      pose proof (inserted_prev b fl z (b_dev h) first bufs Hblt (fun n H => proj1 (Hfirst n H)) x Hfb) as Ep.
      rewrite Hx in Ec. destruct (bufs !! x) as [h0|] eqn:Hx0; [|done].
      assert (core hx = core h0) as (_&Eb&Ed&_)%core_fields by (cbn in Ec; congruence).
      destruct (Hpl x Hxb h0 Hx0) as [Hiff H0]. unfold head_hash. rewrite Eb, Ed. fold (head_hash h0). split.
      * intros i Hi. rewrite <- Hiff by done. unfold pushed. destruct (_ && _); [|done]. set_solver.
      * intros Hd. destruct (H0 Hd) as [Hn0 Hp0]. rewrite fn_lookup_insert_ne in En by done.
        assert (first <> Some x) as Hfx.
        { intros Ef%head_Some_elem_of. pose proof (head_hash_range h) as Hr.
          by destruct (proj1 (Hiff _ Hr) Ef). }
        rewrite set_link_ne, fn_lookup_insert_ne in Ep by done.
        unfold view in En, Ep. rewrite Hx, Hx0 in En, Ep. cbn in En, Ep. rewrite Hn0, Hp0 in *.
        split; [done|]. rewrite Ep. by destruct (b_dev h =? 0).
Qed.
End Insert.

(** ** Moving a buffer to another block *)

(** [remove_from_queues(bh); bh -> b_dev = dev; bh -> b_blocknr = block; insert_into_queues(bh)] *)
Definition requeue (b : nat) (dev blk : Z) : K unit :=
  remove_from_queues b ;;;
  mod_bh b (fun h => h <| b_dev := dev |>) ;;;
  mod_bh b (fun h => h <| b_blocknr := blk |>) ;;;
  insert_into_queues b.

(** The buffers after the first three of the four steps. *)
Definition retagged (b : nat) (h : buffer_head) (z a : nat) (dev blk : Z) (bufs : list buffer_head) : list buffer_head :=
  alter (fun h => h <| b_blocknr := blk |>) b (alter (fun h => h <| b_dev := dev |>) b (unlinked h z a bufs)).

Section Requeue.
Context (bufs : list buffer_head) (ht : list (option nat)) (fl : nat) (l : list nat) (ch : Z -> list nat).
Context (b : nat) (h : buffer_head) (dev blk : Z).
Context (HQ : queues_ok bufs ht fl l ch) (Hb : bufs !! b = Some h).

Section Retagged.
Context (z a : nat) (Hz : (z < length bufs)%nat) (Ha : (a < length bufs)%nat).
Let bufs3 := retagged b h z a dev blk bufs.

Lemma retagged_view f x :
  (forall h v, f (h <| b_dev := v |>) = f h) -> (forall h v, f (h <| b_blocknr := v |>) = f h) ->
  view f bufs3 x = view f (unlinked h z a bufs) x.
Proof. intros H1 H3. unfold bufs3, retagged. by rewrite !view_alter_ne. Qed.
Lemma retagged_length : length bufs3 = length bufs.
Proof. unfold bufs3, retagged. by rewrite !length_alter, unlinked_length. Qed.
Lemma retagged_other x : x <> b -> core <$> bufs3 !! x = core <$> bufs !! x.
Proof.
  intros. unfold bufs3, retagged. rewrite !list_lookup_alter_ne by done. apply unlinked_core.
Qed.
Lemma retagged_self : exists h3, bufs3 !! b = Some h3 /\ core h3 = core (h <| b_dev := dev |> <| b_blocknr := blk |>).
Proof.
  unfold bufs3, retagged. rewrite !list_lookup_alter_eq.
  pose proof (unlinked_core bufs h z a b) as E. rewrite Hb in E.
  destruct (unlinked h z a bufs !! b) as [h2|]; [|done]. eexists. split; [done|].
  assert (core h2 = core h) as (E1&E2&E3&E4&E5&E6&E7&E8)%core_fields by (cbn in E; congruence).
  unfold core. rsimpl. by rewrite E1, E4, E5, E6, E7, E8.
Qed.
Lemma retagged_placed x : x <> b -> placed bufs3 (fun i => rm b (ch i)) x.
Proof.
  intros Hx hx Hhx. pose proof (retagged_other x Hx) as E. rewrite Hhx in E.
  destruct (bufs !! x) as [h0|] eqn:H0; [|done].
  assert (core hx = core h0) as (_&Eb&Ed&_)%core_fields by (cbn in E; congruence).
  destruct HQ as (_&_&_&_&Hpl&_). destruct (Hpl x h0 H0) as [Hiff Hnone].
  unfold head_hash. rewrite Eb, Ed. fold (head_hash h0). split.
  - intros i Hi. rewrite elem_of_rm, Hiff by done. tauto.
  - intros Hd. destruct (Hnone Hd) as [Hn Hp].
    destruct (link_facts bufs ht fl l ch b h HQ Hb) as (_&_&Hlinks).
    assert (forall q, q = b_next h \/ q = b_prev h -> q <> Some x) as Hno.
    { intros q Hq ->. destruct (Hlinks x) as (_&Hin&_); [naive_solver|].
      apply Hiff in Hin as [? _]; [done|]. apply head_hash_range. }
    pose proof (unlinked_next bufs ht fl l ch b h HQ Hb z a x) as En.
    pose proof (unlinked_prev bufs ht fl l ch b h HQ Hb z a x) as Ep.
    rewrite set_link_ne in En, Ep by auto.
    rewrite <- (retagged_view b_next) in En by done. rewrite <- (retagged_view b_prev) in Ep by done.
    unfold view in En, Ep. rewrite Hhx, H0 in En, Ep. cbn in En, Ep. by rewrite En, Ep.
Qed.
Lemma retagged_ring fl' :
  head (rm b l) = Some fl' ->
  ring (<[z := Some a]> (view b_next_free bufs)) (<[a := Some z]> (view b_prev_free bufs)) (rm b l) ->
  ring_ok bufs3 fl' (rm b l).
Proof.
  intros Hhd Hr. split_and!; [done|by apply NoDup_rm, HQ|]. destruct (rm b l) as [|f l']; [done|]. cbn in *.
  eapply chain_mono; [|exact Hr]. intros u v _ _ [Hu Hv].
  destruct (unlinked_free bufs h z a u Hz Ha) as [E1 _]. destruct (unlinked_free bufs h z a v Hz Ha) as [_ E2].
  split; rewrite retagged_view by done; congruence.
Qed.
Lemma retagged_chains :
  let ht' := if eq_ptr (head (ch (head_hash h))) (Some b) then upd_idx ht (head_hash h) (b_next h) else ht in
  chains_ok bufs3 ht' (fun i => rm b (ch i)).
Proof.
  intros ht'. destruct (remove_chains bufs ht fl l ch b h HQ Hb z a) as [Hlen Hch]. split; [done|].
  intros i Hi. destruct (Hch i Hi) as (?&?&Hl). split_and!; [done..|].
  eapply hlist_mono; [|exact Hl]. intros x _. by rewrite !retagged_view.
Qed.
End Retagged.

Lemma requeue_spec k : exists bufs' ht' fl' ch',
  requeue b dev blk (put_q bufs ht fl k) = Ok tt (put_q bufs' ht' fl' k) /\
  queues_ok bufs' ht' fl' (rm b l ++ [b]) ch' /\
  (forall x, x <> b -> core <$> bufs' !! x = core <$> bufs !! x) /\
  (exists hb, bufs' !! b = Some hb /\ core hb = core (h <| b_dev := dev |> <| b_blocknr := blk |>)).
Proof.
  destruct (remove_ring bufs ht fl l ch b h HQ Hb) as (z&a&Ha&Hz&Hzb&Hab&Hzl&Hal&Hhd&Hr).
  destruct (link_facts bufs ht fl l ch b h HQ Hb) as (Hnb&Hpb&Hlinks).
  pose proof HQ as (_&Hmem&(Hlen&Hch)&Hin&_&H2). pose proof (head_hash_range h) as Hrg.
  destruct (Hch _ Hrg) as (Hfirst&_&_).
  set (fl' := if (fl =? b)%nat then a else fl) in *.
  set (ht' := if eq_ptr (head (ch (head_hash h))) (Some b) then upd_idx ht (head_hash h) (b_next h) else ht).
  set (bufs3 := retagged b h z a dev blk bufs).
  destruct (retagged_self z a) as (h3&Hb3&Hc3). fold bufs3 in Hb3.
  destruct (insert_queues bufs3 ht' fl' (rm b l) (fun i => rm b (ch i)) b h3) as (f&z'&Hf&Hflb&Hz'&Hzb'&Hzl'&HQ').
  { by apply retagged_ring. }
  { intros x. unfold bufs3. rewrite elem_of_rm, Hmem, retagged_length. tauto. }
  { apply retagged_chains. }
  { intros i x Hi [? Hx]%elem_of_rm. unfold bufs3. rewrite retagged_length. split; [by eapply Hin|done]. }
  { apply retagged_placed. }
  { unfold bufs3. by rewrite retagged_length. }
  { done. }
  destruct (insert_first bufs3 ht' (fun i => rm b (ch i)) b h3) as [Hfi Hfl].
  { apply retagged_chains. }
  { intros i x Hi [? Hx]%elem_of_rm. unfold bufs3. rewrite retagged_length. split; [by eapply Hin|done]. }
  assert (forall n, head (rm b (ch (head_hash h3))) = Some n -> (n < length bufs3)%nat) as Hfl' by apply Hfl.
  eexists _, _, fl', _. split_and!; [|exact HQ'|..].
  - unfold requeue. erewrite bind_Ok.
    2:{ apply Q_remove; try done; intros n Hn; by apply Hlinks; auto. }
    fold ht'. fold fl'. erewrite bind_Ok by (apply Q_mod_bh; rewrite unlinked_length; by eapply lookup_lt_Some).
    erewrite bind_Ok by (apply Q_mod_bh; rewrite length_alter, unlinked_length; by eapply lookup_lt_Some).
    by eapply Q_insert.
  - intros x Hx. rewrite inserted_core by done. by apply retagged_other.
  - pose proof (inserted_core b fl' z' (b_dev h3) (head (rm b (ch (head_hash h3)))) bufs3 Hfl' b) as E.
    rewrite Hb3 in E. destruct (inserted _ _ _ _ _ _ !! b) as [hb|]; [|done].
    exists hb. split; [done|]. rewrite <- Hc3. cbn in E. congruence.
Qed.
End Requeue.

(** ** Looking a block up *)

Section Find.
Context (k : kernel) (l : list nat) (ch : Z -> list nat).
Let bufs := buffers (k_blk k).
Context (HQ : queues_ok bufs (hash_table (k_blk k)) (free_list (k_blk k)) l ch).

Lemma find_walk dev block s p fuel :
  (length s < fuel)%nat -> hlist (view b_next bufs) (view b_prev bufs) p s ->
  (forall b, b ∈ s -> (b < length bufs)%nat) ->
  exists r, loop fuel (fun tmp =>
    match tmp with
    | None => ret (inr None)
    | Some b =>
        let! h := get_bh b in
        if is_block dev block h then ret (inr (Some b)) else ret (inl (b_next h))
    end) (head s) k = Ok r k /\
    match r with
    | Some b => b ∈ s /\ exists h, bufs !! b = Some h /\ is_block dev block h = true
    | None => forall b h, b ∈ s -> bufs !! b = Some h -> is_block dev block h = false
    end.
Proof.
  revert s p. induction fuel as [|n IH]; intros s p Hf Hl Hin; [lia|]. rewrite loop_S.
  destruct s as [|b s]; cbn [head].
  - exists None. split; [done|]. set_solver.
  - destruct (lookup_lt_is_Some_2 bufs b) as [h Hh]; [apply Hin; set_solver|].
    rewrite bind_assoc. erewrite bind_Ok by by apply get_bh_Ok.
    destruct (is_block dev block h) eqn:E.
    + exists (Some b). split; [done|]. split; [set_solver|eauto].
    + erewrite bind_Ok by reflexivity. destruct Hl as (_&Hn&Hl).
      unfold view in Hn. rewrite Hh in Hn. cbn in Hn. rewrite Hn.
      destruct (IH s (Some b)) as (r&Hr&Hpost); [cbn in Hf; lia|done|set_solver|].
      exists r. split; [done|]. destruct r as [b'|]; [set_solver|].
      intros b' h' [->|Hb']%elem_of_cons Hh'; [congruence|eauto].
Qed.

Lemma is_block_hash dev block h :
  0 <= block < 2 ^ 32 -> is_block dev block h = true -> b_dev h = dev /\ b_blocknr h = block /\ head_hash h = _hashfn dev block.
Proof.
  intros Hb. unfold is_block, head_hash. rewrite andb_true_iff, !Z.eqb_eq. rewrite u64_small by lia. by intros [-> ->].
Qed.

Lemma find_buffer_spec dev block :
  dev <> 0 -> 0 <= block < 2 ^ 32 ->
  exists r, find_buffer dev block k = Ok r k /\
    match r with
    | Some b => exists h, bufs !! b = Some h /\ is_block dev block h = true
    | None => forall b h, bufs !! b = Some h -> is_block dev block h = false
    end.
Proof.
  intros Hd Hblk. pose proof HQ as (_&_&(Hlen&Hch)&Hin&Hpl&_).
  assert (0 <= _hashfn dev block < NR_HASH) as Hr by (unfold _hashfn; by apply Z.mod_pos_bound).
  destruct (Hch _ Hr) as (Hh&Hnd&Hl). unfold find_buffer.
  erewrite bind_Ok by reflexivity. erewrite bind_Ok.
  2:{ unfold get_hash. erewrite bind_Ok by reflexivity. rewrite Hh. reflexivity. }
  destruct (find_walk dev block (ch (_hashfn dev block)) None (S (length bufs))) as (r&Er&Hpost); [|done|by intros; eapply Hin|].
  { assert (length (ch (_hashfn dev block)) <= length bufs)%nat; [|lia].
    trans (length (seq 0 (length bufs))); [|by rewrite length_seq].
    apply submseteq_length, NoDup_submseteq; [done|].
    intros x Hx. apply elem_of_seq. split; [lia|]. cbn. by eapply Hin. }
  exists r. split; [exact Er|]. destruct r as [b|]; [naive_solver|].
  intros b h Hb. destruct (is_block dev block h) eqn:E; [|done].
  destruct (is_block_hash _ _ _ Hblk E) as (Ed&_&Eh).
  rewrite <- E. eapply Hpost; [|done]. apply (Hpl b h Hb); [done|]. by rewrite Ed.
Qed.
End Find.
