(* ===== verification/BufferCache.v ===== *)
(** * The buffer cache is transparent (fs/buffer.c over kernel/blk_drv)

    The invariant [cache_ok] of the buffer cache and what the operations of Buffer.v do
    under it.  The abstraction is the block device as its users see it: [disk k blk x] is
    byte [x] of block [blk], taken from the buffer that holds the block if there is one
    and from the RAM disk otherwise.  Reading, evicting and writing back do not change it. *)
From Stdlib Require Import ZArith Lia String.
From stdpp Require Import base list gmap functions.
From S2P Require Import Prelude State BlockIO Buffer.
Open Scope Z_scope.

(** ** The abstract disk *)
Definition holds (blk : Z) (h : buffer_head) : bool :=
  (b_dev h =? RD_DEV) && (b_blocknr h =? blk) && (b_uptodate h =? 1).
Definition cached (k : kernel) (blk : Z) : option buffer_head :=
  snd <$> list_find (fun h => holds blk h = true) (buffers (k_blk k)).
Definition disk (k : kernel) (blk x : Z) : Z :=
  match cached k blk with
  | Some h => k_pmem k (b_data h + x)
  | None => k_pmem k (rd_addr k blk + x)
  end.
(** Two states present the same disk. *)
Definition same_disk (k k' : kernel) : Prop :=
  forall blk x, 0 <= x < BLOCK_SIZE -> in_disk k blk -> disk k' blk x = disk k blk x.

(** ** The invariant *)
Record head_ok (k : kernel) (h : buffer_head) : Prop := mkHeadOk {
  ho_lock : b_lock h = 0;
  ho_wait : b_wait h = None;
  ho_count : 0 <= b_count h < 256;
  ho_dirt : b_dirt h = 0 \/ b_dirt h = 1;
  ho_uptodate : b_uptodate h = 0 \/ b_uptodate h = 1;
  ho_dev : b_dev h = 0 \/ b_dev h = RD_DEV;
  ho_blk : b_dev h = RD_DEV -> 0 <= b_blocknr h < 2 ^ 32;
  ho_free : b_dev h = 0 -> b_dirt h = 0;
  ho_valid : b_dirt h = 1 -> b_uptodate h = 1;
  ho_range : b_dev h = RD_DEV -> b_uptodate h = 1 -> in_disk k (b_blocknr h) }.

Definition apart (a b len : Z) : Prop := a + len <= b \/ b + len <= a.

Record cache_inv (k : kernel) (l : list nat) (ch : Z -> list nat) : Prop := mkCacheInv {
  ci_queues : queues_ok (buffers (k_blk k)) (hash_table (k_blk k)) (free_list (k_blk k)) l ch;
  ci_idle : idle k;
  ci_fits : rd_fits k;
  ci_wait : buffer_wait (k_blk k) = None;
  ci_heads : forall b h, buffers (k_blk k) !! b = Some h -> head_ok k h;
  ci_unique : forall b b' h h', buffers (k_blk k) !! b = Some h -> buffers (k_blk k) !! b' = Some h' ->
    b_dev h <> 0 -> b_dev h = b_dev h' -> b_blocknr h = b_blocknr h' -> b = b';
  ci_layout : forall b h, buffers (k_blk k) !! b = Some h ->
    b_data h + BLOCK_SIZE <= rd_start (k_blk k) \/ rd_start (k_blk k) + rd_length (k_blk k) <= b_data h;
  ci_apart : forall b b' h h', buffers (k_blk k) !! b = Some h -> buffers (k_blk k) !! b' = Some h' ->
    b <> b' -> apart (b_data h) (b_data h') BLOCK_SIZE;
  ci_coherent : forall b h x, buffers (k_blk k) !! b = Some h -> b_dev h = RD_DEV -> b_uptodate h = 1 ->
    b_dirt h = 0 -> 0 <= x < BLOCK_SIZE -> k_pmem k (b_data h + x) = k_pmem k (rd_addr k (b_blocknr h) + x) }.
Definition cache_ok (k : kernel) : Prop := exists l ch, cache_inv k l ch.

Lemma holds_spec blk h : holds blk h = true <-> b_dev h = RD_DEV /\ b_blocknr h = blk /\ b_uptodate h = 1.
Proof. unfold holds. rewrite !andb_true_iff, !Z.eqb_eq. tauto. Qed.

Section Disk.
Context (k : kernel) (l : list nat) (ch : Z -> list nat) (HI : cache_inv k l ch).

Lemma disk_holder b h blk x :
  buffers (k_blk k) !! b = Some h -> holds blk h = true -> disk k blk x = k_pmem k (b_data h + x).
Proof.
  intros Hb Hh. unfold disk, cached. destruct (list_find _ _) as [[b' h']|] eqn:E.
  - apply list_find_Some in E as (Hb'&Hh'&_). cbn.
    apply holds_spec in Hh as (?&?&?), Hh' as (?&?&?).
    assert (b = b') as <- by (eapply (ci_unique _ _ _ HI); try done; unfold RD_DEV in *; congruence).
    congruence.
  - apply list_find_None in E. apply (Forall_lookup_1 _ _ _ _ E) in Hb. done.
Qed.
Lemma disk_none blk x :
  (forall b h, buffers (k_blk k) !! b = Some h -> holds blk h = false) ->
  disk k blk x = k_pmem k (rd_addr k blk + x).
Proof.
  intros Hno. unfold disk, cached. destruct (list_find _ _) as [[b' h']|] eqn:E; [|done].
  apply list_find_Some in E as (Hb'&Hh'&_). by rewrite (Hno _ _ Hb') in Hh'.
Qed.
Lemma disk_cases blk :
  (exists b h, buffers (k_blk k) !! b = Some h /\ holds blk h = true) \/
  (forall b h, buffers (k_blk k) !! b = Some h -> holds blk h = false).
Proof.
  destruct (list_find (fun h => holds blk h = true) (buffers (k_blk k))) as [[b h]|] eqn:E.
  - apply list_find_Some in E as (?&?&_). left. eauto.
  - apply list_find_None in E. right. intros b h Hb. apply (Forall_lookup_1 _ _ _ _ E) in Hb.
    by apply not_true_is_false.
Qed.
(** A clean buffer agrees with the RAM disk: without a dirty holder the disk is the RAM disk. *)
Lemma disk_clean blk x :
  0 <= x < BLOCK_SIZE ->
  (forall b h, buffers (k_blk k) !! b = Some h -> holds blk h = true -> b_dirt h = 0) ->
  disk k blk x = k_pmem k (rd_addr k blk + x).
Proof.
  intros Hx Hcl. destruct (disk_cases blk) as [(b&h&Hb&Hh)|Hno]; [|by apply disk_none].
  rewrite (disk_holder b h) by done. pose proof Hh as (?&<-&?)%holds_spec.
  eapply (ci_coherent _ _ _ HI); try done. by eapply Hcl.
Qed.
End Disk.

(** What [disk] depends on. *)
Definition tag (h : buffer_head) : Z * Z * Z * Z := (b_data h, b_blocknr h, b_dev h, b_uptodate h).
Lemma disk_tags k k' :
  (forall b, tag <$> buffers (k_blk k') !! b = tag <$> buffers (k_blk k) !! b) ->
  k_pmem k' = k_pmem k -> rd_start (k_blk k') = rd_start (k_blk k) ->
  forall blk x, disk k' blk x = disk k blk x.
Proof.
  intros Ht Hm Hr blk x. unfold disk, cached, rd_addr. rewrite Hm, Hr.
  assert (forall bs bs' : list buffer_head, (forall b, tag <$> bs' !! b = tag <$> bs !! b) ->
    b_data <$> (snd <$> list_find (fun h => holds blk h = true) bs') =
    b_data <$> (snd <$> list_find (fun h => holds blk h = true) bs)) as Hgen.
  { induction bs as [|h bs IH]; intros [|h' bs'] H; try done.
    - by specialize (H 0%nat).
    - by specialize (H 0%nat).
    - pose proof (H 0%nat) as H0. cbn in H0. injection H0 as E1 E2 E3 E4.
      assert (holds blk h' = holds blk h) as Eh by (unfold holds; congruence).
      cbn [list_find]. destruct (decide (holds blk h' = true)) as [D|D], (decide (holds blk h = true)) as [D'|D'];
        try congruence; cbn; [by rewrite E1|].
      specialize (IH bs' (fun b => H (S b))).
      destruct (list_find _ bs') as [[]|], (list_find _ bs) as [[]|]; cbn in *; done. }
  specialize (Hgen _ _ Ht).
  destruct (list_find _ (buffers (k_blk k'))) as [[? h']|], (list_find _ (buffers (k_blk k))) as [[? h]|];
    cbn in *; congruence.
Qed.

(** ** Updates of one head *)

(** What the queues depend on. *)
Definition qtag (h : buffer_head) := (b_next h, b_prev h, b_next_free h, b_prev_free h, b_dev h, b_blocknr h).
Lemma queues_qtag bufs bufs' ht fl l ch :
  (forall b, qtag <$> bufs' !! b = qtag <$> bufs !! b) ->
  queues_ok bufs ht fl l ch -> queues_ok bufs' ht fl l ch.
Proof.
  intros Ht (Hr&Hmem&(Hlen&Hch)&Hin&Hpl&H2).
  assert (length bufs' = length bufs) as El.
  { assert (qtag <$> bufs' = qtag <$> bufs) as E by (apply list_eq; intros b; rewrite !list_lookup_fmap; apply Ht).
    apply (f_equal length) in E. by rewrite !length_fmap in E. }
  assert (forall b, view b_next bufs' b = view b_next bufs b /\ view b_prev bufs' b = view b_prev bufs b /\
    view b_next_free bufs' b = view b_next_free bufs b /\ view b_prev_free bufs' b = view b_prev_free bufs b) as V.
  { intros b. specialize (Ht b). unfold view. destruct (bufs' !! b), (bufs !! b); cbn in *; try done.
    injection Ht as -> -> -> -> _ _. done. }
  unfold queues_ok. rewrite El. split_and!; try done.
  - destruct Hr as (?&?&Hr). split_and!; [done..|]. destruct l as [|f l]; [done|]. cbn in *.
    eapply chain_mono; [|exact Hr]. intros u v _ _ [??]. destruct (V u) as (_&_&Hu&_), (V v) as (_&_&_&Hv).
    split; [by rewrite Hu|by rewrite Hv].
  - split; [done|]. intros i Hi. destruct (Hch i Hi) as (?&?&Hl). split_and!; [done..|].
    eapply hlist_mono; [|exact Hl]. intros x _. destruct (V x) as (->&->&_). done.
  - intros b h' Hb'. specialize (Ht b). rewrite Hb' in Ht. destruct (bufs !! b) as [h|] eqn:Hb; [|done].
    cbn in Ht. injection Ht as E1 E2 _ _ E5 E6. unfold head_hash. rewrite E1, E2, E5, E6. exact (Hpl b h Hb).
Qed.

(** [buffers[b] = h] *)
Definition set_bh (b : nat) (h : buffer_head) (k : kernel) : kernel :=
  k <| k_blk ::= fun s => s <| buffers ::= fun l => <[b := h]> l |> |>.

Lemma lookup_set b h (bufs : list buffer_head) b' h' : <[b := h]> bufs !! b' = Some h' ->
  (b' = b /\ h' = h /\ (b < length bufs)%nat) \/ (b' <> b /\ bufs !! b' = Some h').
Proof.
  intros H. apply list_lookup_insert_Some in H as [(->&->&?)|[??]]; [left|right]; auto.
Qed.
Lemma fmap_set {T} (f : buffer_head -> T) b h h' (bufs : list buffer_head) x :
  bufs !! b = Some h -> f h' = f h -> f <$> <[b := h']> bufs !! x = f <$> bufs !! x.
Proof.
  intros Hb E. destruct (decide (x = b)) as [->|]; [|by rewrite list_lookup_insert_ne].
  rewrite list_lookup_insert_eq by by eapply lookup_lt_Some. rewrite Hb. cbn. by rewrite E.
Qed.

(** ** One buffer changes *)

Lemma head_ok_ext k k' h : rd_length (k_blk k') = rd_length (k_blk k) -> head_ok k h -> head_ok k' h.
Proof. intros E []. split; try done. unfold in_disk. rewrite E. done. Qed.
Lemma head_ok_core k h h' : core h' = core h -> head_ok k h -> head_ok k h'.
Proof.
  intros (_&E2&E3&E4&E5&E6&E7&E8)%core_fields []. split; rewrite ?E2, ?E3, ?E4, ?E5, ?E6, ?E7, ?E8; done.
Qed.

(** The cache does not depend on the rest of the kernel. *)
Definition same_cache (k k' : kernel) : Prop := k_blk k' = k_blk k /\ k_pmem k' = k_pmem k.
Lemma cache_inv_ext k k' l ch : same_cache k k' -> cache_inv k l ch -> cache_inv k' l ch.
Proof.
  destruct k, k'. intros [E1 E2] []. cbn in E1, E2. subst. split; try done.
  intros b h Hb. eapply head_ok_ext; [|by eauto]. done.
Qed.
Lemma disk_ext k k' blk x : same_cache k k' -> disk k' blk x = disk k blk x.
Proof. intros [E1 E2]. unfold disk, cached, rd_addr. by rewrite E1, E2. Qed.

(** From [k] to [k'] the head of buffer [b] became [h'] (up to links), the other heads kept
    all but their links, and memory changed only in the data of [b] and, on the RAM disk, in
    the block of [h'].  With [keep] the content of that block is the same. *)
Record replaced (keep : Prop) (k k' : kernel) (b : nat) (h h' : buffer_head) : Prop := mkReplaced {
  rp_old : buffers (k_blk k) !! b = Some h;
  rp_new : exists hb, buffers (k_blk k') !! b = Some hb /\ core hb = core h';
  rp_other : forall x, x <> b -> core <$> buffers (k_blk k') !! x = core <$> buffers (k_blk k) !! x;
  rp_start : rd_start (k_blk k') = rd_start (k_blk k);
  rp_length : rd_length (k_blk k') = rd_length (k_blk k);
  rp_wait : buffer_wait (k_blk k') = buffer_wait (k_blk k);
  rp_data : b_data h' = b_data h;
  rp_head : head_ok k h';
  rp_unique : forall x hx, x <> b -> buffers (k_blk k) !! x = Some hx -> b_dev h' = RD_DEV ->
    b_dev hx = RD_DEV -> b_blocknr hx <> b_blocknr h';
  rp_mem_data : forall x hx y, x <> b -> buffers (k_blk k) !! x = Some hx -> 0 <= y < BLOCK_SIZE ->
    k_pmem k' (b_data hx + y) = k_pmem k (b_data hx + y);
  rp_mem_disk : forall blk y, in_disk k blk -> 0 <= y < BLOCK_SIZE -> b_dev h' <> RD_DEV \/ blk <> b_blocknr h' ->
    k_pmem k' (rd_addr k blk + y) = k_pmem k (rd_addr k blk + y);
  rp_view : keep -> b_dev h' = RD_DEV -> forall y, in_disk k (b_blocknr h') -> 0 <= y < BLOCK_SIZE ->
    k_pmem k' ((if b_uptodate h' =? 1 then b_data h' else rd_addr k (b_blocknr h')) + y) = disk k (b_blocknr h') y;
  rp_clean : b_dev h' = RD_DEV -> b_uptodate h' = 1 -> b_dirt h' = 0 -> forall y, 0 <= y < BLOCK_SIZE ->
    k_pmem k' (b_data h' + y) = k_pmem k' (rd_addr k (b_blocknr h') + y);
  rp_evict : forall blk, holds blk h = true -> b_dev h' <> RD_DEV \/ blk <> b_blocknr h' -> b_dirt h = 0 }.

Section Replaced.
Context (keep : Prop) (k k' : kernel) (l l' : list nat) (ch ch' : Z -> list nat) (b : nat) (h h' : buffer_head).
Context (HI : cache_inv k l ch) (HR : replaced keep k k' b h h').

Lemma replaced_lookup x hx : buffers (k_blk k') !! x = Some hx ->
  (x = b /\ core hx = core h') \/
  (x <> b /\ exists h0, buffers (k_blk k) !! x = Some h0 /\ core hx = core h0).
Proof.
  intros Hx. destruct (decide (x = b)) as [->|Hne].
  - destruct (rp_new _ _ _ _ _ _ HR) as (hb&Hb&E). left. split; [done|]. congruence.
  - right. split; [done|]. pose proof (rp_other _ _ _ _ _ _ HR x Hne) as E. rewrite Hx in E.
    destruct (buffers (k_blk k) !! x) as [h0|] eqn:H0; [|done]. exists h0. cbn in E. split; [done|congruence].
Qed.

Lemma replaced_inv :
  queues_ok (buffers (k_blk k')) (hash_table (k_blk k')) (free_list (k_blk k')) l' ch' -> idle k' ->
  cache_inv k' l' ch'.
Proof.
  intros HQ Hidle. assert (rd_addr k' = rd_addr k) as Era.
  { unfold rd_addr. by rewrite (rp_start _ _ _ _ _ _ HR). }
  pose proof (rp_old _ _ _ _ _ _ HR) as Hb. split; try done.
  - pose proof (ci_fits _ _ _ HI). unfold rd_fits. by rewrite (rp_start _ _ _ _ _ _ HR), (rp_length _ _ _ _ _ _ HR).
  - rewrite (rp_wait _ _ _ _ _ _ HR). apply HI.
  - intros x hx Hx. apply (head_ok_ext k); [apply HR|].
    destruct (replaced_lookup x hx Hx) as [(->&E)|(_&h0&H0&E)]; eapply head_ok_core; try exact E;
      [apply HR|by eapply HI].
  - intros x1 x2 h1 h2 H1 H2. pose proof (ho_dev _ _ (ci_heads _ _ _ HI b h Hb)).
    destruct (replaced_lookup x1 h1 H1) as [(->&(_&B1&D1&_)%core_fields)|(N1&h3&H3&(_&B1&D1&_)%core_fields)],
      (replaced_lookup x2 h2 H2) as [(->&(_&B2&D2&_)%core_fields)|(N2&h4&H4&(_&B2&D2&_)%core_fields)];
      rewrite B1, B2, D1, D2; intros Hd Ed Eb; try done.
    + destruct (ho_dev _ _ (rp_head _ _ _ _ _ _ HR)); [done|].
      exfalso. apply (rp_unique _ _ _ _ _ _ HR x2 h4); try done; congruence.
    + destruct (ho_dev _ _ (ci_heads _ _ _ HI _ _ H3)); [done|].
      exfalso. apply (rp_unique _ _ _ _ _ _ HR x1 h3); try done; congruence.
    + by apply (ci_unique _ _ _ HI x1 x2 h3 h4).
  - rewrite (rp_start _ _ _ _ _ _ HR), (rp_length _ _ _ _ _ _ HR). intros x hx Hx.
    destruct (replaced_lookup x hx Hx) as [(->&(E&_)%core_fields)|(_&h0&H0&(E&_)%core_fields)]; rewrite E;
      [rewrite (rp_data _ _ _ _ _ _ HR)|]; by eapply HI.
  - intros x1 x2 h1 h2 H1 H2 Hne.
    destruct (replaced_lookup x1 h1 H1) as [(->&(E1&_)%core_fields)|(N1&h3&H3&(E1&_)%core_fields)],
      (replaced_lookup x2 h2 H2) as [(->&(E2&_)%core_fields)|(N2&h4&H4&(E2&_)%core_fields)];
      rewrite E1, E2, ?(rp_data _ _ _ _ _ _ HR); try done; by eapply (ci_apart _ _ _ HI); try done.
  - intros x hx y Hx. rewrite Era.
    destruct (replaced_lookup x hx Hx) as [(->&(E1&E2&E3&E4&E5&_)%core_fields)|(N&h0&H0&(E1&E2&E3&E4&E5&_)%core_fields)];
      rewrite E1, E2, E3, E4, E5; intros Hd Hu Hc Hy.
    + by apply (rp_clean _ _ _ _ _ _ HR).
    + rewrite (rp_mem_data _ _ _ _ _ _ HR x h0) by done.
      rewrite (rp_mem_disk _ _ _ _ _ _ HR); [by apply (ci_coherent _ _ _ HI x)| |done|].
      * by apply (ho_range _ _ (ci_heads _ _ _ HI x h0 H0)).
      * destruct (decide (b_dev h' = RD_DEV)); [right|by left]. by apply (rp_unique _ _ _ _ _ _ HR x).
Qed.

Lemma replaced_other : cache_inv k' l' ch' -> forall blk y, in_disk k blk -> 0 <= y < BLOCK_SIZE ->
  b_dev h' <> RD_DEV \/ blk <> b_blocknr h' -> disk k' blk y = disk k blk y.
Proof.
  intros HI' blk y Hblk Hy Hcase. pose proof (rp_old _ _ _ _ _ _ HR) as Hb.
  assert (rd_addr k' = rd_addr k) as Era by (unfold rd_addr; by rewrite (rp_start _ _ _ _ _ _ HR)).
  assert (k_pmem k' (rd_addr k blk + y) = k_pmem k (rd_addr k blk + y)) as Hrd by by apply (rp_mem_disk _ _ _ _ _ _ HR).
  destruct (disk_cases k' blk) as [(x&hx&Hx&Hh)|Hno].
  - rewrite (disk_holder _ _ _ HI' x hx) by done. apply holds_spec in Hh as (D&B&U).
    destruct (replaced_lookup x hx Hx) as [(->&(E1&E2&E3&E4&_)%core_fields)|(N&h0&H0&(E1&E2&E3&E4&_)%core_fields)].
    { destruct Hcase; congruence. }
    rewrite (disk_holder _ _ _ HI x h0) by (try done; apply holds_spec; split_and!; congruence).
    rewrite E1. by apply (rp_mem_data _ _ _ _ _ _ HR x).
  - rewrite (disk_none k') by done. rewrite Era, Hrd.
    symmetry. apply (disk_clean _ _ _ HI); [done|]. intros x hx Hx Hh.
    destruct (decide (x = b)) as [->|N].
    + assert (hx = h) as -> by congruence. by eapply (rp_evict _ _ _ _ _ _ HR).
    + exfalso. pose proof (rp_other _ _ _ _ _ _ HR x N) as E. rewrite Hx in E.
      destruct (buffers (k_blk k') !! x) as [h0|] eqn:H0; [|done].
      assert (core h0 = core hx) as (E1&E2&E3&E4&_)%core_fields by (cbn in E; congruence).
      apply (Hno x h0) in H0. apply holds_spec in Hh as (?&?&?).
      assert (holds blk h0 = true) by (apply holds_spec; split_and!; congruence). congruence.
Qed.

Lemma replaced_disk : keep -> cache_inv k' l' ch' -> same_disk k k'.
Proof.
  intros Hkeep HI' blk y Hy Hblk.
  assert (rd_addr k' = rd_addr k) as Era by (unfold rd_addr; by rewrite (rp_start _ _ _ _ _ _ HR)).
  destruct (decide (b_dev h' = RD_DEV /\ blk = b_blocknr h')) as [[Hd ->]|Hother].
  2:{ apply replaced_other; try done. destruct (decide (b_dev h' = RD_DEV)); naive_solver. }
  rewrite <- (rp_view _ _ _ _ _ _ HR) by done. destruct (Z.eqb_spec (b_uptodate h') 1) as [Hu|Hu].
  - destruct (rp_new _ _ _ _ _ _ HR) as (hb&Hnb&E). pose proof E as (E1&E2&E3&E4&_)%core_fields.
    rewrite (disk_holder _ _ _ HI' b hb); [by rewrite E1|done|]. apply holds_spec. by rewrite E2, E3, E4.
  - rewrite (disk_none k'); [by rewrite Era|]. intros x hx Hx. apply not_true_is_false. intros (D&B&U)%holds_spec.
    destruct (replaced_lookup x hx Hx) as [(->&(E1&E2&E3&E4&_)%core_fields)|(N&h0&H0&(E1&E2&E3&E4&_)%core_fields)]; [congruence|].
    apply (rp_unique _ _ _ _ _ _ HR x h0); try done; congruence.
Qed.
End Replaced.

(** What a buffer of the RAM disk says about its own block. *)
Lemma disk_own k l ch b h y :
  cache_inv k l ch -> buffers (k_blk k) !! b = Some h -> b_dev h = RD_DEV ->
  disk k (b_blocknr h) y = k_pmem k ((if b_uptodate h =? 1 then b_data h else rd_addr k (b_blocknr h)) + y).
Proof.
  intros HI Hb Hd. destruct (Z.eqb_spec (b_uptodate h) 1) as [Hu|Hu].
  - apply (disk_holder _ _ _ HI b h); [done|]. by apply holds_spec.
  - apply disk_none. intros x hx Hx. apply not_true_is_false. intros (D&B&U)%holds_spec.
    assert (x = b) as -> by (apply (ci_unique _ _ _ HI x b hx h); unfold RD_DEV in *; congruence). congruence.
Qed.
Lemma own_unique k l ch b h x hx :
  cache_inv k l ch -> buffers (k_blk k) !! b = Some h -> x <> b -> buffers (k_blk k) !! x = Some hx ->
  b_dev h = RD_DEV -> b_dev hx = RD_DEV -> b_blocknr hx <> b_blocknr h.
Proof.
  intros HI Hb Hne Hx D Dx E. apply Hne. apply (ci_unique _ _ _ HI x b hx h); unfold RD_DEV in *; congruence.
Qed.

(** Only the use count of a buffer changes. *)
Lemma inv_count k l ch b h c :
  cache_inv k l ch -> buffers (k_blk k) !! b = Some h -> 0 <= c < 256 ->
  let k' := set_bh b (h <| b_count := c |>) k in
  cache_inv k' l ch /\ same_disk k k'.
Proof.
  intros HI Hb Hc k'. pose proof (ci_heads _ _ _ HI b h Hb) as Hh.
  assert (replaced True k k' b h (h <| b_count := c |>)) as HR.
  { split; try done.
    - eexists. unfold k', set_bh. rsimpl. rewrite list_lookup_insert_eq by by eapply lookup_lt_Some. done.
    - intros x Hx. unfold k', set_bh. rsimpl. by rewrite list_lookup_insert_ne.
    - destruct Hh. by split.
    - rsimpl. intros x hx Hne Hx ??. by apply (own_unique k l ch b h x hx HI).
    - rsimpl. intros _ Hd y _ _. by rewrite (disk_own k l ch b h y HI).
    - rsimpl. intros ??? y ?. by apply (ci_coherent _ _ _ HI b h).
    - rsimpl. intros blk (?&?&?)%holds_spec [?|?]; done. }
  assert (cache_inv k' l ch) as HI'.
  { apply (replaced_inv True k k' l l ch ch b h _ HI HR); [|apply HI].
    eapply queues_qtag; [|apply HI]. intros x. by apply (fmap_set qtag b h). }
  split; [done|]. by apply (replaced_disk True k k' l l ch ch b h _ HI HR I).
Qed.

(** The content of a buffer is dropped: only its own block can change. *)
Lemma inv_drop k l ch b h :
  cache_inv k l ch -> buffers (k_blk k) !! b = Some h -> b_dev h = RD_DEV ->
  let k' := set_bh b (h <| b_dirt := 0 |> <| b_uptodate := 0 |>) k in
  cache_inv k' l ch /\
  forall blk x, in_disk k blk -> 0 <= x < BLOCK_SIZE -> blk <> b_blocknr h -> disk k' blk x = disk k blk x.
Proof.
  intros HI Hb Hdev k'. pose proof (ci_heads _ _ _ HI b h Hb) as Hh.
  assert (replaced False k k' b h (h <| b_dirt := 0 |> <| b_uptodate := 0 |>)) as HR.
  { split; try done.
    - eexists. unfold k', set_bh. rsimpl. rewrite list_lookup_insert_eq by by eapply lookup_lt_Some. done.
    - intros x Hx. unfold k', set_bh. rsimpl. by rewrite list_lookup_insert_ne.
    - destruct Hh. split; rsimpl; auto; done.
    - rsimpl. intros x hx Hne Hx ??. by apply (own_unique k l ch b h x hx HI).
    - rsimpl. intros blk (?&?&?)%holds_spec [?|?]; done. }
  assert (cache_inv k' l ch) as HI'.
  { apply (replaced_inv False k k' l l ch ch b h _ HI HR); [|apply HI].
    eapply queues_qtag; [|apply HI]. intros x. by apply (fmap_set qtag b h). }
  split; [done|]. intros blk x Hin Hx Hne. apply (replaced_other False k k' l l ch ch b h _ HI HR HI'); auto.
Qed.

(** The user of a buffer writes into its data and marks it valid and dirty: the disk changes
    there. *)
Section Written.
Context (k : kernel) (l : list nat) (ch : Z -> list nat) (b : nat) (h : buffer_head) (m' : memory).
Context (HI : cache_inv k l ch) (Hb : buffers (k_blk k) !! b = Some h).
Context (Hdev : b_dev h = RD_DEV) (Hon : in_disk k (b_blocknr h)).
Context (Hm : forall a, ~ (b_data h <= a < b_data h + BLOCK_SIZE) -> m' a = k_pmem k a).
Let h' := h <| b_uptodate := 1 |> <| b_dirt := 1 |>.
Let k' := set_bh b h' (k <| k_pmem := m' |>).

Lemma written_lookup x hx : buffers (k_blk k') !! x = Some hx ->
  exists h0, buffers (k_blk k) !! x = Some h0 /\ (if decide (x = b) then hx = h' /\ h0 = h else hx = h0).
Proof.
  unfold k', set_bh. rsimpl. intros Hx. destruct (decide (x = b)) as [->|Hne].
  - rewrite list_lookup_insert_eq in Hx by by eapply lookup_lt_Some. exists h. split; [done|]. split; congruence.
  - rewrite list_lookup_insert_ne in Hx by done. by exists hx.
Qed.
Lemma written_rd blk y : in_disk k blk -> 0 <= y < BLOCK_SIZE -> m' (rd_addr k blk + y) = k_pmem k (rd_addr k blk + y).
Proof.
  intros Hin Hy. apply Hm. pose proof (ci_layout _ _ _ HI b h Hb). unfold rd_addr, in_disk, BLOCK_SIZE in *. lia.
Qed.
Lemma written_data x hx y : x <> b -> buffers (k_blk k) !! x = Some hx -> 0 <= y < BLOCK_SIZE ->
  m' (b_data hx + y) = k_pmem k (b_data hx + y).
Proof. intros Hne Hx Hy. apply Hm. pose proof (ci_apart _ _ _ HI x b hx h Hx Hb Hne). unfold apart in *. lia. Qed.

Lemma written_inv : cache_inv k' l ch.
Proof.
  assert (forall x hx, buffers (k_blk k') !! x = Some hx -> exists h0, buffers (k_blk k) !! x = Some h0 /\
    b_data hx = b_data h0 /\ b_blocknr hx = b_blocknr h0 /\ b_dev hx = b_dev h0) as Hsame.
  { intros x hx Hx. destruct (written_lookup x hx Hx) as (h0&H0&E). exists h0.
    destruct (decide (x = b)) as [->|]; [destruct E as [-> ->]; done|by subst]. }
  split; try apply HI.
  - eapply queues_qtag; [|apply HI]. intros x. by apply (fmap_set qtag b h).
  - intros x hx Hx. destruct (written_lookup x hx Hx) as (h0&H0&E). pose proof (ci_heads _ _ _ HI x h0 H0) as Hok.
    apply (head_ok_ext k); [done|]. destruct (decide (x = b)) as [->|]; [|by subst].
    destruct E as [-> ->]. destruct Hok. unfold h'. split; rsimpl; auto. intros E. by rewrite Hdev in E.
  - intros x1 x2 h1 h2 H1 H2. destruct (Hsame _ _ H1) as (h3&H3&_&->&->), (Hsame _ _ H2) as (h4&H4&_&->&->).
    by apply (ci_unique _ _ _ HI).
  - intros x hx Hx. destruct (Hsame _ _ Hx) as (h0&H0&->&_). by apply (ci_layout _ _ _ HI x).
  - intros x1 x2 h1 h2 H1 H2. destruct (Hsame _ _ H1) as (h3&H3&->&_), (Hsame _ _ H2) as (h4&H4&->&_).
    by apply (ci_apart _ _ _ HI).
  - intros x hx y Hx Hd Hu Hc Hy. destruct (written_lookup x hx Hx) as (h0&H0&E).
    destruct (decide (x = b)) as [->|Hne]; [destruct E as [-> ->]; done|]. subst h0.
    change (m' (b_data hx + y) = m' (rd_addr k (b_blocknr hx) + y)).
    rewrite (written_data x) by done. rewrite written_rd; [by apply (ci_coherent _ _ _ HI x)| |done].
    by apply (ho_range _ _ (ci_heads _ _ _ HI x hx H0)).
Qed.

Lemma written_disk blk x : in_disk k blk -> 0 <= x < BLOCK_SIZE ->
  disk k' blk x = if blk =? b_blocknr h then m' (b_data h + x) else disk k blk x.
Proof.
  intros Hin Hx. pose proof written_inv as HI'.
  assert (buffers (k_blk k') !! b = Some h') as Hb' by (apply list_lookup_insert_eq; by eapply lookup_lt_Some).
  destruct (Z.eqb_spec blk (b_blocknr h)) as [->|Hne].
  { by rewrite (disk_holder _ _ _ HI' b h') by (try done; by apply holds_spec). }
  destruct (disk_cases k blk) as [(x0&h0&H0&Hh)|Hno].
  - pose proof Hh as (Hd0&Hk0&_)%holds_spec. assert (x0 <> b) as Hxb by (intros ->; congruence).
    rewrite (disk_holder _ _ _ HI x0 h0), (disk_holder _ _ _ HI' x0 h0) by
      (try done; unfold k', set_bh; rsimpl; by rewrite list_lookup_insert_ne).
    by apply (written_data x0).
  - rewrite (disk_none k) by done. rewrite (disk_none k'); [by apply written_rd|].
    intros x1 h1 H1. destruct (written_lookup x1 h1 H1) as (h0&H0&E).
    destruct (decide (x1 = b)) as [->|]; [|subst; by eapply Hno]. destruct E as [-> ->].
    apply not_true_is_false. intros (_&E&_)%holds_spec. done.
Qed.
End Written.
(** The same for a buffer that is up to date already. *)
Section WrittenUp.
Context (k : kernel) (l : list nat) (ch : Z -> list nat) (b : nat) (h : buffer_head) (m' : memory).
Context (HI : cache_inv k l ch) (Hb : buffers (k_blk k) !! b = Some h).
Context (Hdev : b_dev h = RD_DEV) (Hup : b_uptodate h = 1).
Context (Hm : forall a, ~ (b_data h <= a < b_data h + BLOCK_SIZE) -> m' a = k_pmem k a).
Let k' := set_bh b (h <| b_dirt := 1 |>) (k <| k_pmem := m' |>).

Lemma up_in_disk : in_disk k (b_blocknr h).
Proof. by apply (ho_range _ _ (ci_heads _ _ _ HI b h Hb)). Qed.
Lemma up_same : h <| b_uptodate := 1 |> <| b_dirt := 1 |> = h <| b_dirt := 1 |>.
Proof. destruct h. cbn in Hup. by subst. Qed.
Lemma up_written_inv : cache_inv k' l ch.
Proof. pose proof (written_inv k l ch b h m' HI Hb Hdev up_in_disk Hm) as H. by rewrite up_same in H. Qed.
Lemma up_written_disk blk x : in_disk k blk -> 0 <= x < BLOCK_SIZE ->
  disk k' blk x = if blk =? b_blocknr h then m' (b_data h + x) else disk k blk x.
Proof. intros. pose proof (written_disk k l ch b h m' HI Hb Hdev up_in_disk Hm blk x) as E. rewrite up_same in E. by apply E. Qed.
End WrittenUp.

(** A block is transferred: the memory effect of [served], by direction. *)
Section Served.
Context (k : kernel) (h : buffer_head).
Let m' rw := served (rd_start (k_blk k)) (rd_length (k_blk k)) rw h (k_pmem k).

Lemma on_disk_in_disk : 0 <= b_blocknr h -> on_disk (rd_length (k_blk k)) h = true <-> in_disk k (b_blocknr h).
Proof. intros. unfold on_disk, in_disk. rewrite Z.leb_le. lia. Qed.
Lemma served_off rw : on_disk (rd_length (k_blk k)) h = false -> m' rw = k_pmem k.
Proof. intros E. unfold m', served. by rewrite E. Qed.
Lemma served_target rw y :
  on_disk (rd_length (k_blk k)) h = true -> 0 <= y < BLOCK_SIZE ->
  m' rw ((if rw =? WRITE then rd_addr k (b_blocknr h) else b_data h) + y) =
  k_pmem k ((if rw =? WRITE then b_data h else rd_addr k (b_blocknr h)) + y).
Proof.
  intros E Hy. unfold m', served, transfer. rewrite E. fold (rd_addr k (b_blocknr h)).
  destruct (rw =? WRITE); unfold memcpy; rewrite in_range_true by lia; f_equal; lia.
Qed.
Lemma served_other rw a :
  (let t := if rw =? WRITE then rd_addr k (b_blocknr h) else b_data h in a < t \/ t + BLOCK_SIZE <= a) ->
  m' rw a = k_pmem k a.
Proof.
  cbv zeta. intros Ha. unfold m', served, transfer. destruct (on_disk _ _); [|done]. fold (rd_addr k (b_blocknr h)).
  destruct (rw =? WRITE); unfold memcpy; by rewrite in_range_false by lia.
Qed.
End Served.

Lemma after_rw_replaced k l ch b h rw rqs :
  cache_inv k l ch -> buffers (k_blk k) !! b = Some h -> b_dev h = RD_DEV -> needs_io rw h ->
  replaced True k (after_rw k b h rw rqs) b h (rw_head (rd_length (k_blk k)) h).
Proof.
  intros HI Hb Hd Hn. pose proof (ci_heads _ _ _ HI b h Hb) as Hh.
  pose proof (ho_blk _ _ Hh Hd) as Hblk. pose proof (ci_layout _ _ _ HI b h Hb) as Hlay.
  pose proof (on_disk_in_disk k h ltac:(lia)) as Hon.
  assert (k_pmem (after_rw k b h rw rqs) = served (rd_start (k_blk k)) (rd_length (k_blk k)) rw h (k_pmem k)) as Em by done.
  assert (rw = READ \/ rw = WRITE /\ b_uptodate h = 1 /\ in_disk k (b_blocknr h)) as Hrw.
  { destruct Hn as [[-> _]|[-> Hdirt]]; [by left|right]. assert (b_uptodate h = 1).
    { apply (ho_valid _ _ Hh). destruct (ho_dirt _ _ Hh); lia. }
    split_and!; [done..|]. by apply (ho_range _ _ Hh). }
  split; try done.
  - eexists. split; [|done]. unfold after_rw. rsimpl. by rewrite list_lookup_insert_eq by by eapply lookup_lt_Some.
  - intros x Hx. unfold after_rw. rsimpl. by rewrite list_lookup_insert_ne.
  - destruct Hh. unfold rw_head. split; rsimpl; try done; try (by left).
    + destruct (on_disk _ _); auto.
    + intros _. destruct (on_disk _ _); [|done]. intros _. by apply Hon.
  - intros x hx Hne Hx ??. by apply (own_unique k l ch b h x hx HI).
  - intros x hx y Hne Hx Hy. rewrite Em. apply served_other.
    pose proof (ci_apart _ _ _ HI x b hx h Hx Hb Hne) as Hap. pose proof (ci_layout _ _ _ HI x hx Hx) as Hlx.
    unfold apart in Hap. destruct Hrw as [->|(->&_&(?&?))]; cbn; unfold rd_addr, BLOCK_SIZE in *; lia.
  - intros blk y [? Hin] Hy [|Hne]; [done|]. rewrite Em. apply served_other.
    change (b_blocknr (rw_head _ h)) with (b_blocknr h) in Hne.
    destruct Hrw as [->|(->&_&(?&?))]; cbn; unfold rd_addr, BLOCK_SIZE in *; lia.
  - intros _ _ y Hin Hy. rewrite Em. change (b_blocknr (rw_head _ h)) with (b_blocknr h) in *.
    rewrite (disk_own k l ch b h) by done. apply Hon in Hin as Ho.
    unfold rw_head. rsimpl. rewrite Ho. cbn [b2z Z.eqb].
    destruct Hrw as [->|(->&Hu&_)].
    + destruct Hn as [[_ Hu]|[? _]]; [|done]. rewrite Hu. exact (served_target k h READ y Ho Hy).
    + rewrite Hu. cbn [Z.eqb Pos.eqb]. apply served_other. cbn. destruct Hin. unfold rd_addr, BLOCK_SIZE in *. lia.
  - intros _ Hup _ y Hy. rewrite Em. unfold rw_head in *. rsimpl_all.
    destruct (on_disk (rd_length (k_blk k)) h) eqn:Ho; [|done]. pose proof (proj1 Hon eq_refl) as [? ?].
    destruct Hrw as [->|(->&_)].
    + rewrite (served_target k h READ y Ho Hy : _ (b_data h + y) = _). cbn. symmetry. apply served_other.
      cbn. unfold rd_addr, BLOCK_SIZE in *. lia.
    + rewrite (served_target k h WRITE y Ho Hy : _ (rd_addr k (b_blocknr h) + y) = _). cbn. apply served_other.
      cbn. unfold rd_addr, BLOCK_SIZE in *. lia.
  - intros blk (_&<-&_)%holds_spec [?|?]; done.
Qed.

Lemma inv_after_rw k l ch b h rw rqs :
  cache_inv k l ch -> buffers (k_blk k) !! b = Some h -> b_dev h = RD_DEV -> needs_io rw h ->
  let k' := after_rw k b h rw rqs in
  idle k' -> cache_inv k' l ch /\ same_disk k k' /\
  buffers (k_blk k') !! b = Some (rw_head (rd_length (k_blk k)) h).
Proof.
  intros HI Hb Hd Hn k' Hidle. pose proof (after_rw_replaced k l ch b h rw rqs HI Hb Hd Hn) as HR.
  assert (cache_inv k' l ch) as HI'.
  { apply (replaced_inv True k k' l l ch ch b h _ HI HR); [|done].
    eapply queues_qtag; [|apply HI]. intros x. by apply (fmap_set qtag b h). }
  split_and!; [done|by apply (replaced_disk True k k' l l ch ch b h _ HI HR I)|].
  unfold k', after_rw. rsimpl. by rewrite list_lookup_insert_eq by by eapply lookup_lt_Some.
Qed.

(** ** Evicting an unused clean buffer *)

(** The head [getblk] gives to a buffer it takes over for block [blk]. *)
Definition taken (h : buffer_head) (blk : Z) : buffer_head :=
  h <| b_count := 1 |> <| b_dirt := 0 |> <| b_uptodate := 0 |> <| b_dev := RD_DEV |> <| b_blocknr := blk |>.
Lemma core_data (o o' : option buffer_head) : core <$> o' = core <$> o -> b_data <$> o' = b_data <$> o.
Proof. destruct o as [h|], o' as [h'|]; try done. cbn. intros [=]. by f_equal. Qed.

(** The bytes that block I/O may write: the RAM disk and the data of the buffers. *)
Definition io_byte (k : kernel) (x : Z) : Prop :=
  rd_start (k_blk k) <= x < rd_start (k_blk k) + rd_length (k_blk k) \/
  exists b h, buffers (k_blk k) !! b = Some h /\ b_data h <= x < b_data h + BLOCK_SIZE.
(** Everything outside the block layer is the same. *)
Definition same_rest (k k' : kernel) : Prop :=
  k_mm k' = k_mm k /\ k_fs k' = k_fs k /\ (k_sched k' = k_sched k /\ k_tty k' = k_tty k) /\
  rd_start (k_blk k') = rd_start (k_blk k) /\ rd_length (k_blk k') = rd_length (k_blk k) /\
  (forall b, b_data <$> buffers (k_blk k') !! b = b_data <$> buffers (k_blk k) !! b) /\
  forall x, ~ io_byte k x -> k_pmem k' x = k_pmem k x.
Lemma same_rest_refl k : same_rest k k.
Proof. done. Qed.
Lemma io_byte_rest k k' x : same_rest k k' -> io_byte k' x -> io_byte k x.
Proof.
  intros (_&_&_&Es&El&Hd&_) [H|(b&h&Hb&H)]; [left; by rewrite <- Es, <- El|right].
  specialize (Hd b). rewrite Hb in Hd. destruct (buffers (k_blk k) !! b) as [h0|] eqn:E0; [|done].
  injection Hd as Hd. exists b, h0. split; [done|]. by rewrite <- Hd.
Qed.
Lemma same_rest_trans k1 k2 k3 : same_rest k1 k2 -> same_rest k2 k3 -> same_rest k1 k3.
Proof.
  intros H1 H2. pose proof (io_byte_rest k1 k2) as Hio. pose proof H1 as (?&?&(?&?)&?&?&Hd1&Hm1).
  destruct H2 as (?&?&(?&?)&?&?&Hd2&Hm2).
  unfold same_rest. split_and!; try congruence.
  intros x Hx. rewrite Hm2, Hm1; [done|done|]. intros Hio2. by apply Hx, Hio.
Qed.

Lemma set_bh_data b h h' k : buffers (k_blk k) !! b = Some h -> b_data h' = b_data h ->
  forall x, b_data <$> buffers (k_blk (set_bh b h' k)) !! x = b_data <$> buffers (k_blk k) !! x.
Proof. intros Hb E x. unfold set_bh. rsimpl. by apply (fmap_set b_data b h). Qed.
Lemma set_bh_rest b h h' k : buffers (k_blk k) !! b = Some h -> b_data h' = b_data h -> same_rest k (set_bh b h' k).
Proof. intros Hb E. pose proof (set_bh_data b h h' k Hb E). done. Qed.

(** Storing into the data of a buffer. *)
Lemma stored_rest b h h' m' k : buffers (k_blk k) !! b = Some h -> b_data h' = b_data h ->
  (forall x, ~ b_data h <= x < b_data h + BLOCK_SIZE -> m' x = k_pmem k x) ->
  same_rest k (set_bh b h' (k <| k_pmem := m' |>)).
Proof.
  intros Hb E Hm. split_and!; try done.
  - intros x. unfold set_bh. rsimpl. by apply (fmap_set b_data b h).
  - intros x Hx. apply Hm. intros H. apply Hx. right. by exists b, h.
Qed.

(** One block of I/O writes only the block or the buffer. *)
Lemma after_rw_rest k l ch b h rw rqs :
  cache_inv k l ch -> buffers (k_blk k) !! b = Some h -> b_dev h = RD_DEV -> same_rest k (after_rw k b h rw rqs).
Proof.
  intros HI Hb Hd. split_and!; try done.
  - intros x. unfold after_rw. rsimpl. by apply (fmap_set b_data b h).
  - intros x Hx. change (k_pmem (after_rw k b h rw rqs)) with (served (rd_start (k_blk k)) (rd_length (k_blk k)) rw h (k_pmem k)).
    pose proof (ho_blk _ _ (ci_heads _ _ _ HI b h Hb) Hd) as Hblk. unfold served, transfer.
    destruct (on_disk _ h) eqn:Ho; [|done]. apply (on_disk_in_disk k h) in Ho as [_ Ho]; [|lia].
    destruct (rw =? WRITE); unfold memcpy; (rewrite in_range_false; [done|]).
    + destruct (Z.lt_decidable x (rd_start (k_blk k) + b_blocknr h * BLOCK_SIZE)); [by left|right].
      apply Z.nlt_ge. intros ?. apply Hx. left. unfold BLOCK_SIZE in *. lia.
    + destruct (Z.lt_decidable x (b_data h)); [by left|right].
      apply Z.nlt_ge. intros ?. apply Hx. right. exists b, h. split; [done|]. lia.
Qed.

Lemma requeue_bind {A} b dev blk (K0 : K A) k :
  (remove_from_queues b ;;; mod_bh b (fun h => h <| b_dev := dev |>) ;;;
   mod_bh b (fun h => h <| b_blocknr := blk |>) ;;; insert_into_queues b ;;; K0) k =
  (requeue b dev blk ;;; K0) k.
Proof.
  unfold requeue, bind. destruct (remove_from_queues b k) as [[] k1|]; [|done].
  destruct (mod_bh b _ k1) as [[] k2|]; [|done]. by destruct (mod_bh b _ k2) as [[] k3|].
Qed.

Lemma evict_spec {A} (K0 : K A) k l ch b h blk :
  cache_inv k l ch -> buffers (k_blk k) !! b = Some h -> b_count h = 0 -> b_dirt h = 0 -> 0 <= blk < 2 ^ 32 ->
  (forall x hx, buffers (k_blk k) !! x = Some hx -> is_block RD_DEV blk hx = false) ->
  exists k' ch',
    (mod_bh b (fun h => h <| b_count := 1 |>) ;;; mod_bh b (fun h => h <| b_dirt := 0 |>) ;;;
     mod_bh b (fun h => h <| b_uptodate := 0 |>) ;;; remove_from_queues b ;;;
     mod_bh b (fun h => h <| b_dev := u16 RD_DEV |>) ;;; mod_bh b (fun h => h <| b_blocknr := u64 blk |>) ;;;
     insert_into_queues b ;;; K0) k = K0 k' /\
    cache_inv k' (rm b l ++ [b]) ch' /\ same_disk k k' /\ same_rest k k' /\
    (exists hb, buffers (k_blk k') !! b = Some hb /\ core hb = core (taken h blk)) /\
    (forall x, x <> b -> core <$> buffers (k_blk k') !! x = core <$> buffers (k_blk k) !! x).
Proof.
  intros HI Hb Hc Hdirt Hblk Hno. set (h1 := h <| b_count := 1 |> <| b_dirt := 0 |> <| b_uptodate := 0 |>).
  assert (b < length (buffers (k_blk k)))%nat as Hbl by by eapply lookup_lt_Some.
  set (bufs1 := <[b := h1]> (buffers (k_blk k))).
  assert (queues_ok bufs1 (hash_table (k_blk k)) (free_list (k_blk k)) l ch) as HQ1.
  { eapply queues_qtag; [|apply HI]. intros x. by apply (fmap_set qtag b h). }
  assert (bufs1 !! b = Some h1) as Hb1 by by apply list_lookup_insert_eq.
  destruct (requeue_spec bufs1 _ _ l ch b h1 RD_DEV blk HQ1 Hb1 k) as (bufs'&ht'&fl'&ch'&Erun&HQ'&Hother&hb&Hb'&Hcore).
  set (k' := put_q bufs' ht' fl' k). exists k', ch'.
  assert (forall x hx, buffers (k_blk k) !! x = Some hx -> b_dev hx = RD_DEV -> b_blocknr hx <> blk) as Hnew.
  { intros x hx Hx Hd Hbk. specialize (Hno x hx Hx). unfold is_block in Hno.
    rewrite Hd, Hbk, u64_small, !Z.eqb_refl in Hno by lia. done. }
  assert (replaced True k k' b h (taken h blk)) as HR.
  { split; try done.
    - eauto.
    - intros x Hx. change (buffers (k_blk k')) with bufs'. rewrite Hother by done. unfold bufs1.
      by rewrite list_lookup_insert_ne.
    - destruct (ci_heads _ _ _ HI b h Hb). unfold taken. split; rsimpl; try done; auto.
    - intros x hx _ Hx _ Hd. by apply (Hnew x).
    - intros _ _ y _ Hy. unfold taken. rsimpl. cbn [Z.eqb]. rewrite (disk_none k); [done|].
      intros x hx Hx. apply not_true_is_false. intros (Hd&Hbk&_)%holds_spec. by apply (Hnew x hx). }
  assert (cache_inv k' (rm b l ++ [b]) ch') as HI'.
  { apply (replaced_inv True k k' l _ ch _ b h _ HI HR); [done|apply HI]. }
  split_and!; try done.
  - do 3 (erewrite bind_Ok by (apply mod_bh_Ok; first [done|rsimpl; by rewrite list_lookup_insert_eq by (rewrite ?length_insert; done)])).
    rewrite u64_small by lia. change (u16 RD_DEV) with RD_DEV. rewrite requeue_bind.
    erewrite (bind_Ok _ _ _ tt k'); [done|]. etrans; [|exact Erun]. f_equal.
    unfold put_q, bufs1, h1. destruct k as [? [] ? ? ? ?]. unfold upd. cbn. by rewrite !list_insert_insert_eq.
  - exact (replaced_disk True k k' l (rm b l ++ [b]) ch ch' b h _ HI HR I HI').
  - unfold same_rest. split_and!; try done. intros x. change (buffers (k_blk k')) with bufs'. destruct (decide (x = b)) as [->|Hx].
    + rewrite Hb', Hb. cbn. f_equal. by apply core_fields in Hcore as (->&_).
    + assert (core <$> bufs' !! x = core <$> buffers (k_blk k) !! x) as E.
      { rewrite Hother by done. unfold bufs1. by rewrite list_lookup_insert_ne. }
      by apply core_data in E.
  - eauto.
  - intros x Hx. change (buffers (k_blk k')) with bufs'. rewrite Hother by done. unfold bufs1.
    by rewrite list_lookup_insert_ne.
Qed.

(** ** The choice of [getblk] *)

Definition unused (bufs : list buffer_head) (b : nat) : bool :=
  match bufs !! b with Some h => b_count h =? 0 | None => false end.
Definition spare (bufs : list buffer_head) (b : nat) : bool :=
  match bufs !! b with Some h => (b_count h =? 0) && (b_dirt h =? 0) | None => false end.
Definition first_such (p : nat -> bool) (l : list nat) : option nat := head (filter (fun b => p b = true) l).
(** The first spare buffer in the order of the free list, else the first unused one. *)
Definition pick (bufs : list buffer_head) (l : list nat) : option nat :=
  match first_such (spare bufs) l with Some b => Some b | None => first_such (unused bufs) l end.

Lemma first_such_Some p l b : first_such p l = Some b -> b ∈ l /\ p b = true.
Proof.
  intros Hh%head_Some_elem_of. apply list_elem_of_filter in Hh as [? ?]. done.
Qed.
Lemma first_such_None p l : first_such p l = None <-> forall b, b ∈ l -> p b = false.
Proof.
  unfold first_such. split.
  - intros H b Hb. apply not_true_is_false. intros Hp.
    assert (b ∈ filter (fun b => p b = true) l) as Hin by by apply list_elem_of_filter.
    destruct (filter _ l); [set_solver|done].
  - intros H. destruct (filter (fun b => p b = true) l) as [|x f] eqn:E; [done|].
    assert (x ∈ filter (fun b => p b = true) l) as [Hp Hx]%list_elem_of_filter by (rewrite E; set_solver).
    by rewrite H in Hp.
Qed.
Lemma first_such_app p l1 l2 :
  first_such p (l1 ++ l2) = match first_such p l1 with Some b => Some b | None => first_such p l2 end.
Proof. unfold first_such. rewrite list.filter_app. by destruct (filter _ l1). Qed.
Lemma first_such_cons p b l : first_such p (b :: l) = if p b then Some b else first_such p l.
Proof.
  unfold first_such. destruct (p b) eqn:E.
  - by rewrite filter_cons_True.
  - by rewrite filter_cons_False by congruence.
Qed.

Lemma ring_next next prev l1 x l2 :
  ring next prev (l1 ++ x :: l2) -> next x = head (l2 ++ l1 ++ [x]).
Proof.
  intros H%ring_rotate_app. cbn in H. rewrite <- app_assoc in H.
  destruct (l2 ++ l1 ++ [x]) as [|y m] eqn:E; [by destruct l2, l1|]. by destruct H as [[? _] _].
Qed.

Section Scan.
Context (k : kernel) (l : list nat) (ch : Z -> list nat) (HI : cache_inv k l ch).
Let bufs := buffers (k_blk k).
Let fl := free_list (k_blk k).

(** The body of the loop, as in [getblk_scan]. *)
Let body := (fun '(tmp, bh) =>
  let! t := get_bh tmp in
  let next (bh : option nat) : K ((nat * option nat) + option nat) :=
    let! t := get_bh tmp in
    let! fl := gets (fun k => free_list (k_blk k)) in
    let! nx := unwrap "b_next_free" (b_next_free t) in
    if (nx =? fl)%nat then ret (inr bh) else ret (inl (nx, bh)) in
  if truth (b_count t) then next bh
  else
    let! better := match bh with
                   | None => ret true
                   | Some b => let! h := get_bh b in ret (BADNESS t <? BADNESS h)
                   end in
    if better then
      if BADNESS t =? 0 then ret (inr (Some tmp)) else next (Some tmp)
    else next bh).

(** Where the walk goes from [tmp] with the candidate [bh]. *)
Let onward (tmp : nat) (l2 : list nat) (bh : option nat) : nat * option nat + option nat :=
  match l2 with [] => inr bh | y :: _ => inl (y, bh) end.

Lemma badness h : head_ok k h -> BADNESS h = 2 * b_dirt h.
Proof. intros H. unfold BADNESS. rewrite (ho_lock _ _ H), Z.shiftl_mul_pow2 by lia. lia. Qed.

Lemma scan_next l1 tmp l2 bh : l = l1 ++ tmp :: l2 ->
  (let! t := get_bh tmp in
   let! fl := gets (fun k => free_list (k_blk k)) in
   let! nx := unwrap "b_next_free" (b_next_free t) in
   if (nx =? fl)%nat then ret (inr bh) else ret (inl (nx, bh))) k = Ok (onward tmp l2 bh) k.
Proof.
  intros El. pose proof (ci_queues _ _ _ HI) as ((Hhd&Hnd&Hr)&Hmem&_).
  assert (tmp < length bufs)%nat as [t Ht]%lookup_lt_is_Some by (apply Hmem; rewrite El; set_solver).
  rewrite El in Hr. apply ring_next in Hr. unfold view in Hr. fold bufs in Hr. rewrite Ht in Hr. cbn in Hr.
  erewrite bind_Ok by by apply get_bh_Ok. erewrite bind_Ok by reflexivity. rewrite Hr.
  destruct l2 as [|y l2]; cbn [app head onward].
  - assert (head (l1 ++ [tmp]) = Some fl) as -> by (rewrite El in Hhd; unfold fl; rewrite <- Hhd; by destruct l1).
    erewrite bind_Ok by reflexivity. by rewrite Nat.eqb_refl.
  - erewrite bind_Ok by reflexivity. destruct (Nat.eqb_spec y (free_list (k_blk k))) as [->|]; [|done].
    exfalso. rewrite El in Hhd, Hnd. destruct l1 as [|x l1]; cbn in Hhd; injection Hhd as ->.
    + apply list.NoDup_cons in Hnd as [Hx _]. set_solver.
    + cbn in Hnd. apply list.NoDup_cons in Hnd as [Hx _]. set_solver.
Qed.

Lemma scan_step l1 tmp l2 : l = l1 ++ tmp :: l2 -> first_such (spare bufs) l1 = None ->
  body (tmp, first_such (unused bufs) l1) k =
  Ok (if spare bufs tmp then inr (Some tmp) else onward tmp l2 (first_such (unused bufs) (l1 ++ [tmp]))) k.
Proof.
  intros El Hno. pose proof (ci_queues _ _ _ HI) as (_&Hmem&_).
  assert (tmp < length bufs)%nat as [t Ht]%lookup_lt_is_Some by (apply Hmem; rewrite El; set_solver).
  pose proof (ci_heads _ _ _ HI tmp t Ht) as Hok. pose proof (badness t Hok) as Hbt.
  unfold body. erewrite bind_Ok by by apply get_bh_Ok. cbv zeta.
  rewrite first_such_app, first_such_cons.
  assert (spare bufs tmp = (b_count t =? 0) && (b_dirt t =? 0)) as -> by (unfold spare; by rewrite Ht).
  assert (unused bufs tmp = (b_count t =? 0)) as -> by (unfold unused; by rewrite Ht).
  unfold truth. destruct (Z.eqb_spec (b_count t) 0) as [Hc|Hc]; cbn [negb andb].
  2:{ rewrite (scan_next l1 tmp l2) by done. by destruct (first_such (unused bufs) l1). }
  destruct (first_such (unused bufs) l1) as [b|] eqn:Hfu.
  - apply first_such_Some in Hfu as [Hb Hu]. rewrite first_such_None in Hno. specialize (Hno b Hb).
    unfold unused in Hu. unfold spare in Hno. destruct (bufs !! b) as [h|] eqn:Hhb; [|done].
    pose proof (ci_heads _ _ _ HI b h Hhb) as Hokh. rewrite Hu in Hno. cbn in Hno.
    assert (BADNESS h = 2) as Eh.
    { rewrite (badness h Hokh). destruct (ho_dirt _ _ Hokh) as [E|E]; rewrite E in *; [done|lia]. }
    rewrite bind_assoc. erewrite bind_Ok by by apply get_bh_Ok. erewrite bind_Ok by reflexivity.
    rewrite Eh, Hbt. destruct (ho_dirt _ _ Hok) as [E|E]; rewrite E; cbn; [done|]. by apply (scan_next l1).
  - erewrite bind_Ok by reflexivity. rewrite Hbt.
    destruct (ho_dirt _ _ Hok) as [E|E]; rewrite E; cbn; [done|]. by apply (scan_next l1).
Qed.

Lemma scan_walk l2 : forall l1 tmp fuel, l = l1 ++ tmp :: l2 -> (length l2 < fuel)%nat ->
  first_such (spare bufs) l1 = None ->
  loop fuel body (tmp, first_such (unused bufs) l1) k =
  Ok (match first_such (spare bufs) (tmp :: l2) with Some b => Some b | None => first_such (unused bufs) l end) k.
Proof.
  induction l2 as [|y l2 IH]; intros l1 tmp fuel El Hf Hno; (destruct fuel as [|fuel]; [lia|]);
    rewrite loop_S; erewrite bind_Ok by (by eapply scan_step); rewrite first_such_cons;
    destruct (spare bufs tmp) eqn:Hs; try done; cbn [onward].
  - by rewrite El.
  - rewrite IH; [done|by rewrite El, <- app_assoc|cbn in Hf; lia|].
    rewrite first_such_app, Hno, first_such_cons, Hs. done.
Qed.

Lemma getblk_scan_spec : getblk_scan fl k = Ok (pick bufs l) k.
Proof.
  pose proof (ci_queues _ _ _ HI) as ((Hhd&Hnd&Hr)&Hmem&_).
  apply head_Some in Hhd as [l' El].
  unfold getblk_scan. erewrite bind_Ok by reflexivity. fold body.
  etrans; [apply (scan_walk l' [] (free_list (k_blk k)) _ El); [|done]|by rewrite <- El].
  assert (length l <= length bufs)%nat as Hl; [|rewrite El in Hl; cbn in Hl; unfold bufs in *; lia].
  trans (length (seq 0 (length bufs))); [|by rewrite length_seq].
  apply submseteq_length, NoDup_submseteq; [done|]. intros x Hx%Hmem. apply elem_of_seq. cbn. split; [lia|done].
Qed.
End Scan.

(** ** Writing back *)

Lemma same_disk_refl k : same_disk k k.
Proof. by intros blk x ??. Qed.
Lemma same_disk_trans k1 k2 k3 :
  same_rest k1 k2 -> same_disk k1 k2 -> same_disk k2 k3 -> same_disk k1 k3.
Proof.
  intros (_&_&_&_&Hl&_) H1 H2 blk x Hx Hin. rewrite H2; [by apply H1|done|].
  unfold in_disk in *. by rewrite Hl.
Qed.
(** What survives a write-back: everything of a head but its dirty mark. *)
Definition identity (h : buffer_head) := (b_data h, b_blocknr h, b_dev h, b_uptodate h, b_count h).
Definition same_identity (k k' : kernel) : Prop :=
  forall b, identity <$> buffers (k_blk k') !! b = identity <$> buffers (k_blk k) !! b.

Lemma same_identity_lookup k k' b h : same_identity k k' -> buffers (k_blk k) !! b = Some h ->
  exists h', buffers (k_blk k') !! b = Some h' /\ b_data h' = b_data h /\ b_blocknr h' = b_blocknr h /\
    b_dev h' = b_dev h /\ b_uptodate h' = b_uptodate h /\ b_count h' = b_count h.
Proof.
  intros H Hb. specialize (H b). rewrite Hb in H. destruct (buffers (k_blk k') !! b) as [h'|]; [|done].
  exists h'. cbn in H. injection H as -> -> -> -> ->. done.
Qed.
Lemma same_identity_trans k1 k2 k3 : same_identity k1 k2 -> same_identity k2 k3 -> same_identity k1 k3.
Proof. intros H1 H2 b. by rewrite H2. Qed.

Lemma wait_on_buffer_Ok k l ch b h :
  cache_inv k l ch -> buffers (k_blk k) !! b = Some h -> wait_on_buffer b k = Ok tt k.
Proof.
  intros HI Hb. unfold wait_on_buffer. erewrite bind_Ok by by apply get_bh_Ok.
  by rewrite (ho_lock _ _ (ci_heads _ _ _ HI b h Hb)).
Qed.
Lemma inv_rd_buffer k l ch b h :
  cache_inv k l ch -> buffers (k_blk k) !! b = Some h -> b_dev h = RD_DEV -> rd_buffer h.
Proof. intros HI Hb Hd. destruct (ci_heads _ _ _ HI b h Hb). split_and!; auto; by apply ho_blk0. Qed.

(** One dirty buffer is written. *)
Lemma write_one k l ch b h :
  cache_inv k l ch -> buffers (k_blk k) !! b = Some h -> b_dev h = RD_DEV -> b_dirt h <> 0 ->
  exists k', ll_rw_block WRITE b k = Ok tt k' /\ cache_inv k' l ch /\ same_disk k k' /\ same_rest k k' /\
    same_identity k k' /\
    (forall x hx, buffers (k_blk k') !! x = Some hx -> x <> b -> buffers (k_blk k) !! x = Some hx) /\
    (exists h', buffers (k_blk k') !! b = Some h' /\ b_dirt h' = 0).
Proof.
  intros HI Hb Hd Hdirt. assert (needs_io WRITE h) as Hn by (by right).
  destruct (ll_rw_block_serve k b h WRITE (ci_idle _ _ _ HI) (ci_fits _ _ _ HI) Hb (inv_rd_buffer _ _ _ _ _ HI Hb Hd) Hn)
    as (rqs&E&Hidle).
  destruct (inv_after_rw k l ch b h WRITE rqs HI Hb Hd Hn Hidle) as (HI'&Hdisk&Hb').
  pose proof (after_rw_rest k l ch b h WRITE rqs HI Hb Hd) as Hrest. eexists. split_and!; try done.
  - intros x. unfold after_rw. rsimpl. apply (fmap_set identity b h); [done|]. unfold identity, rw_head. rsimpl.
    destruct (ci_heads _ _ _ HI b h Hb) as [? ? ? Hdd ? ? Hbl ? Hv Hr].
    assert (b_uptodate h = 1) as Hu by (apply Hv; destruct Hdd; lia).
    assert (on_disk (rd_length (k_blk k)) h = true) as ->.
    { apply on_disk_in_disk; [by apply Hbl|by apply Hr]. } by rewrite Hu.
  - intros x hx. unfold after_rw. rsimpl. intros Hx Hne. by rewrite list_lookup_insert_ne in Hx.
  - eauto.
Qed.

Definition all_clean (k : kernel) : Prop := forall b h, buffers (k_blk k) !! b = Some h -> b_dirt h = 0.

Lemma write_loop k l ch (body : Z -> K unit) :
  cache_inv k l ch ->
  (forall i s h, cache_inv s l ch -> buffers (k_blk s) !! Z.to_nat i = Some h -> 0 <= i ->
     body i s = if (b_dev h =? RD_DEV) && truth (b_dirt h) then ll_rw_block WRITE (Z.to_nat i) s else Ok tt s) ->
  runs (for_up 0 (length (buffers (k_blk k))) body) k (fun _ k' =>
    cache_inv k' l ch /\ same_disk k k' /\ same_rest k k' /\ same_identity k k' /\ all_clean k').
Proof.
  intros HI Hbody. eapply runs_mono; [|apply (runs_for_up (fun i s => 0 <= i /\ cache_inv s l ch /\ same_disk k s /\
    same_rest k s /\ same_identity k s /\
    forall b h, buffers (k_blk s) !! b = Some h -> Z.of_nat b < i -> b_dirt h = 0))].
  - intros _ s (_&?&?&?&Hid&Hcl). split_and!; try done. intros b h Hb. apply (Hcl b h Hb).
    assert (b < length (buffers (k_blk k)))%nat; [|lia]. apply lookup_lt_is_Some.
    specialize (Hid b). rewrite Hb in Hid. destruct (buffers (k_blk k) !! b); [by eexists|done].
  - intros i s Hi (_&HIs&Hds&Hrs&Hids&Hcl).
    destruct (lookup_lt_is_Some_2 (buffers (k_blk k)) (Z.to_nat i)) as [h0 H0]; [lia|].
    destruct (same_identity_lookup _ _ _ _ Hids H0) as (h&Hb&_).
    unfold runs. rewrite (Hbody i s h) by (done || lia).
    destruct ((b_dev h =? RD_DEV) && truth (b_dirt h)) eqn:E.
    + apply andb_true_iff in E as [Ed%Z.eqb_eq Et%truth_true].
      destruct (write_one s l ch (Z.to_nat i) h HIs Hb Ed Et) as (s'&->&HI'&Hd'&Hr'&Hid'&Hoth&hb&Hb'&Hcb).
      split_and!; try done; [lia|by eapply same_disk_trans|by eapply same_rest_trans|by eapply same_identity_trans|].
      intros b hh Hbb Hlt. destruct (decide (b = Z.to_nat i)) as [->|Hne]; [congruence|].
      apply (Hcl b hh); [by apply Hoth|lia].
    + split_and!; try done; [lia|]. intros b hh Hbb Hlt. destruct (decide (b = Z.to_nat i)) as [->|Hne].
      * assert (hh = h) as -> by congruence. destruct (ci_heads _ _ _ HIs _ _ Hb).
        destruct ho_dev0 as [Hz|Hz]; [by apply ho_free0|]. rewrite Hz in E. cbn in E. by apply truth_false in E.
      * apply (Hcl b hh Hbb). lia.
  - split_and!; first [done | apply same_disk_refl | intros; lia].
Qed.

Lemma write_buffers_spec k l ch :
  cache_inv k l ch ->
  runs (write_buffers RD_DEV) k (fun _ k' =>
    cache_inv k' l ch /\ same_disk k k' /\ same_rest k k' /\ same_identity k k' /\ all_clean k').
Proof.
  intros HI. unfold write_buffers. eapply runs_step; [reflexivity|].
  apply write_loop; [done|]. intros i s h HIs Hb Hi. cbv zeta.
  erewrite bind_Ok by by apply get_bh_Ok. destruct (Z.eqb_spec (b_dev h) RD_DEV) as [E|E]; cbn [negb andb]; [|done].
  erewrite bind_Ok by by eapply wait_on_buffer_Ok. erewrite bind_Ok by by apply get_bh_Ok.
  rewrite E, Z.eqb_refl. unfold when. cbn [andb]. by destruct (truth (b_dirt h)).
Qed.

(** ** [getblk], [bread], [brelse], [sync_dev], [sys_sync]

    The lemmas are for a state in which [sync_inodes] has nothing to do; the class
    [SyncInodesOk] is what they need of it, and InodeIO.v proves that the code has it. *)

(** No inode is locked, and none has to be written. *)
Definition inodes_clean (k : kernel) : Prop :=
  Forall (fun n => i_lock n = 0 /\ (i_dirt n = 0 \/ i_pipe n <> 0)) (inode_table (k_fs k)) /\
  length (inode_table (k_fs k)) = NR_INODE.
Class SyncInodesOk (SI : SyncInodes) : Prop :=
  sync_inodes_quiet : forall k, inodes_clean k -> sync_inodes k = Ok tt k.

Lemma inodes_clean_rest k k' : same_rest k k' -> inodes_clean k -> inodes_clean k'.
Proof. intros (_&E&_). unfold inodes_clean. by rewrite E. Qed.

(** A buffer that is in use keeps its block; [b] has one more user. *)
Definition still_held (k k' : kernel) (b : nat) : Prop :=
  forall x hx, buffers (k_blk k) !! x = Some hx -> b_count hx <> 0 ->
    exists hx', buffers (k_blk k') !! x = Some hx' /\ b_data hx' = b_data hx /\ b_blocknr hx' = b_blocknr hx /\
      b_dev hx' = b_dev hx /\ (b_uptodate hx = 1 -> b_uptodate hx' = 1) /\
      b_count hx' = b_count hx + (if (x =? b)%nat then 1 else 0).
(** [b] is now in use for block [blk], with head [h]. *)
Definition got (k k' : kernel) (b : nat) (h : buffer_head) (blk : Z) : Prop :=
  cache_ok k' /\ same_disk k k' /\ same_rest k k' /\ still_held k k' b /\
  buffers (k_blk k') !! b = Some h /\ b_dev h = RD_DEV /\ b_blocknr h = blk /\ 1 <= b_count h.

Lemma is_block_RD blk h : 0 <= blk < 2 ^ 32 -> is_block RD_DEV blk h = true <-> b_dev h = RD_DEV /\ b_blocknr h = blk.
Proof. intros. unfold is_block. rewrite andb_true_iff, !Z.eqb_eq, u64_small by lia. tauto. Qed.

(** Some buffer can be taken without writing anything back. *)
Definition roomy (k : kernel) : Prop := exists b, spare (buffers (k_blk k)) b = true.
(** [getblk] can provide block [blk] without waiting: the block is in the cache, or there is an
    unused buffer that is clean, or an unused one that is dirty and no i-node needs writing. *)
Definition available (k : kernel) (blk : Z) : Prop :=
  exists b h, buffers (k_blk k) !! b = Some h /\
    (is_block RD_DEV blk h = true /\ b_count h < 255 \/
     (forall b h, buffers (k_blk k) !! b = Some h -> is_block RD_DEV blk h = false) /\ b_count h = 0 /\
       (b_dirt h = 0 \/ inodes_clean k)).
Definition untouched (k k' : kernel) (b : nat) : Prop :=
  forall x, x <> b -> core <$> buffers (k_blk k') !! x = core <$> buffers (k_blk k) !! x.
(** From [k] to [k'] buffer [b] got one more user, and nothing else happened to the buffers if
    no write-back was needed. *)
Definition took (k k' : kernel) (b : nat) (h : buffer_head) : Prop :=
  exists h0, buffers (k_blk k) !! b = Some h0 /\ b_count h = b_count h0 + 1 /\ b_data h = b_data h0 /\
    (roomy k -> b_dirt h = b_dirt h0 /\ untouched k k' b).

(** A buffer in use keeps its block. *)
Definition keeps_blocks (k k' : kernel) : Prop :=
  forall b h, buffers (k_blk k) !! b = Some h -> 1 <= b_count h -> b_uptodate h = 1 ->
    exists h', buffers (k_blk k') !! b = Some h' /\ b_dev h' = b_dev h /\ b_blocknr h' = b_blocknr h /\ b_uptodate h' = 1.
(** A buffer can be had for any block; [calm]: what a call that reads blocks and releases their
    buffers again leaves. *)
Definition ready (k : kernel) : Prop :=
  roomy k /\ forall b h, buffers (k_blk k) !! b = Some h -> b_count h < 255.
Definition usage (h : buffer_head) := (b_data h, b_count h, b_dirt h).
Definition calm (k k' : kernel) : Prop :=
  cache_ok k' /\ same_disk k k' /\ same_rest k k' /\
  (forall b, usage <$> buffers (k_blk k') !! b = usage <$> buffers (k_blk k) !! b) /\ keeps_blocks k k'.

Lemma ready_available k blk : ready k -> available k blk.
Proof.
  intros [[b Hs] Hc]. unfold spare in Hs. destruct (buffers (k_blk k) !! b) as [h|] eqn:Hb; [|done].
  apply andb_true_iff in Hs as [?%Z.eqb_eq ?%Z.eqb_eq].
  destruct (list_find (fun h => is_block RD_DEV blk h = true) (buffers (k_blk k))) as [[b1 h1]|] eqn:E.
  - apply list_find_Some in E as (Hb1&Hib&_). exists b1, h1. split; [done|]. left. split; [done|by eapply Hc].
  - apply list_find_None in E. exists b, h. split; [done|]. right. split_and!; auto.
    intros b1 h1 Hb1. apply not_true_is_false. by apply (Forall_lookup_1 _ _ _ _ E Hb1).
Qed.
(** The block is in the cache, or a clean buffer is unused: no i-node has to be written for it. *)
Definition at_hand (k : kernel) (blk : Z) : Prop :=
  ready k \/ exists b h, buffers (k_blk k) !! b = Some h /\ is_block RD_DEV blk h = true /\ b_count h < 255.
Lemma at_hand_available k blk : at_hand k blk -> available k blk.
Proof. intros [?|(b&h&?&?&?)]; [by apply ready_available|]. exists b, h. auto. Qed.
Lemma at_hand_ext k k' blk : k_blk k' = k_blk k -> at_hand k blk -> at_hand k' blk.
Proof. intros E. unfold at_hand, ready, roomy. by rewrite E. Qed.
Lemma calm_trans k1 k2 k3 : calm k1 k2 -> calm k2 k3 -> calm k1 k3.
Proof.
  intros (Hk&Hd&Hr&H1&G1) (Hk2&Hd2&Hr2&H2&G2). split_and!; [done|by eapply same_disk_trans|by eapply same_rest_trans| |].
  - intros b. by rewrite H2.
  - intros b h Hb Hc Hu. destruct (G1 b h Hb Hc Hu) as (h1&Hb1&E1&E2&Hu1).
    assert (1 <= b_count h1) as Hc1. { specialize (H1 b). rewrite Hb, Hb1 in H1. injection H1 as _ -> _. done. }
    destruct (G2 b h1 Hb1 Hc1 Hu1) as (h2&Hb2&E3&E4&Hu2). exists h2. split_and!; congruence.
Qed.
Lemma keeps_blocks_refl k : keeps_blocks k k.
Proof. intros b h ???. by exists h. Qed.
Lemma calm_refl k : cache_ok k -> calm k k.
Proof. intros. split_and!; try done. apply keeps_blocks_refl. Qed.
(** Reading blocks does not look at the i-nodes, the super blocks and the files. *)
Lemma calm_upd_fs (f : fs_state -> fs_state) k k' : calm k k' -> calm (k <| k_fs ::= f |>) (k' <| k_fs ::= f |>).
Proof.
  intros ((l&ch&HI)&Hd&(mm&fs&(sc&ty)&rs&rl&data&mem)&Hu&Hk). split_and!; [|exact Hd| |exact Hu|exact Hk].
  - exists l, ch. by apply (cache_inv_ext k').
  - split_and!; try done. rsimpl. by rewrite fs.
Qed.
Lemma calm_ready k k' : calm k k' -> ready k -> ready k'.
Proof.
  intros (_&_&_&Hu&_) [[b Hs] Hc]. split.
  - exists b. specialize (Hu b). unfold spare in *. destruct (buffers (k_blk k) !! b) as [h|]; [|done].
    destruct (buffers (k_blk k') !! b) as [h'|]; [|done]. cbn in Hu. injection Hu as _ -> ->. done.
  - intros x hx Hx. specialize (Hu x). rewrite Hx in Hu. destruct (buffers (k_blk k) !! x) as [h|] eqn:E; [|done].
    cbn in Hu. injection Hu as _ -> _. by eapply Hc.
Qed.
Lemma calm_in_disk k k' blk : calm k k' -> in_disk k' blk <-> in_disk k blk.
Proof. intros (_&_&(_&_&_&_&E&_)&_). unfold in_disk. by rewrite E. Qed.
Lemma calm_disk k k' blk x : calm k k' -> in_disk k blk -> 0 <= x < BLOCK_SIZE -> disk k' blk x = disk k blk x.
Proof. intros (_&H&_) ??. by apply H. Qed.
(** The usage of the buffers when [b] went back to what it was. *)
Lemma usage_back k k' b h0 h : untouched k k' b -> buffers (k_blk k) !! b = Some h0 ->
  buffers (k_blk k') !! b = Some h -> usage h = usage h0 ->
  forall x, usage <$> buffers (k_blk k') !! x = usage <$> buffers (k_blk k) !! x.
Proof.
  intros Hu H0 H E x. destruct (decide (x = b)) as [->|Hne]; [rewrite H0, H; cbn; by rewrite E|].
  specialize (Hu x Hne). destruct (buffers (k_blk k') !! x) as [h2|], (buffers (k_blk k) !! x) as [h1|]; try done. cbn in *.
  assert (core h2 = core h1) as (E1&_&_&_&E5&E6&_)%core_fields by congruence. unfold usage. by rewrite E1, E5, E6.
Qed.

Section Quiet.
Context {SI : SyncInodes} {HSI : SyncInodesOk SI}.

Lemma sync_dev_spec k l ch :
  cache_inv k l ch -> inodes_clean k ->
  runs (sync_dev RD_DEV) k (fun _ k' =>
    cache_inv k' l ch /\ same_disk k k' /\ same_rest k k' /\ same_identity k k' /\ all_clean k').
Proof.
  intros HI Hfs. unfold sync_dev. apply runs_bind. eapply runs_mono; [|by apply (write_buffers_spec k l ch)].
  intros _ k1 (HI1&Hd1&Hr1&Hid1&_). eapply runs_step; [apply sync_inodes_quiet; by apply (inodes_clean_rest k)|].
  apply runs_bind. eapply runs_mono; [|by apply (write_buffers_spec k1 l ch)].
  intros _ k2 (HI2&Hd2&Hr2&Hid2&Hcl). apply runs_ret. split_and!; try done;
    [by eapply same_disk_trans|by eapply same_rest_trans|by eapply same_identity_trans].
Qed.

Lemma get_hash_table_hit k l ch b h blk :
  cache_inv k l ch -> 0 <= blk < 2 ^ 32 -> buffers (k_blk k) !! b = Some h ->
  b_dev h = RD_DEV -> b_blocknr h = blk -> b_count h < 255 ->
  get_hash_table RD_DEV blk k = Ok (Some b) (set_bh b (h <| b_count := b_count h + 1 |>) k).
Proof.
  intros HI Hblk Hb Hd Hbk Hc. unfold get_hash_table. change ROUNDS with (S 33). rewrite loop_S, bind_assoc.
  destruct (find_buffer_spec k l ch (ci_queues _ _ _ HI) RD_DEV blk) as (r&Er&Hr); [done|done|].
  erewrite bind_Ok by exact Er. destruct r as [b'|].
  2:{ specialize (Hr b h Hb). by rewrite (proj2 (is_block_RD blk h Hblk)) in Hr. }
  destruct Hr as (h'&Hb'&[Hd' Hbk']%is_block_RD); [|done].
  assert (b' = b) as -> by (apply (ci_unique _ _ _ HI b' b h' h); unfold RD_DEV in *; congruence).
  pose proof (ho_count _ _ (ci_heads _ _ _ HI b h Hb)) as Hc0.
  destruct (inv_count k l ch b h (b_count h + 1) HI Hb ltac:(lia)) as [HI1 _].
  set (k1 := set_bh _ _ k) in *. rewrite bind_assoc. erewrite (bind_Ok _ _ _ tt k1).
  2:{ rewrite (mod_bh_Ok _ _ h) by done. cbv beta. rewrite u8_small by lia. done. }
  assert (buffers (k_blk k1) !! b = Some (h <| b_count := b_count h + 1 |>)) as Hb1.
  { unfold k1, set_bh. rsimpl. by apply list_lookup_insert_eq; eapply lookup_lt_Some. }
  rewrite bind_assoc. erewrite bind_Ok by (by eapply wait_on_buffer_Ok).
  rewrite bind_assoc. erewrite bind_Ok by by apply get_bh_Ok.
  rewrite (proj2 (is_block_RD blk _ Hblk)) by done. done.
Qed.
Lemma get_hash_table_miss k l ch blk :
  cache_inv k l ch -> 0 <= blk < 2 ^ 32 ->
  (forall b h, buffers (k_blk k) !! b = Some h -> is_block RD_DEV blk h = false) ->
  get_hash_table RD_DEV blk k = Ok None k.
Proof.
  intros HI Hblk Hno. unfold get_hash_table. change ROUNDS with (S 33). rewrite loop_S, bind_assoc.
  destruct (find_buffer_spec k l ch (ci_queues _ _ _ HI) RD_DEV blk) as (r&Er&Hr); [done|done|].
  erewrite bind_Ok by exact Er. destruct r as [b|]; [|done]. destruct Hr as (h&Hb&E). by rewrite (Hno b h Hb) in E.
Qed.

Lemma getblk_hit k l ch b h blk :
  cache_inv k l ch -> 0 <= blk < 2 ^ 32 -> buffers (k_blk k) !! b = Some h ->
  b_dev h = RD_DEV -> b_blocknr h = blk -> b_count h < 255 ->
  exists k' h', getblk RD_DEV blk k = Ok b k' /\ got k k' b h' blk /\
    b_uptodate h' = b_uptodate h /\ b_data h' = b_data h /\ took k k' b h'.
Proof.
  intros HI Hblk Hb Hd Hbk Hc. pose proof (ho_count _ _ (ci_heads _ _ _ HI b h Hb)) as Hc0.
  destruct (inv_count k l ch b h (b_count h + 1) HI Hb ltac:(lia)) as [HI1 Hd1].
  exists (set_bh b (h <| b_count := b_count h + 1 |>) k), (h <| b_count := b_count h + 1 |>). split_and!; try done.
  { unfold getblk. change ROUNDS with (S 33). rewrite loop_S, bind_assoc.
    by erewrite bind_Ok by by eapply get_hash_table_hit. }
  2:{ exists h. split_and!; try done. intros _. split; [done|]. intros x Hx. unfold set_bh. rsimpl.
      by rewrite list_lookup_insert_ne. }
  split_and!; try done; [by exists l, ch|by eapply set_bh_rest| | |rsimpl; lia].
  - intros x hx Hx Hcx. unfold set_bh. rsimpl. destruct (Nat.eqb_spec x b) as [->|Hne].
    + rewrite list_lookup_insert_eq by by eapply lookup_lt_Some. eexists. split_and!; try done; by rsimpl; assert (hx = h) as -> by congruence.
    + rewrite list_lookup_insert_ne by done. exists hx. split_and!; try done. lia.
  - unfold set_bh. rsimpl. by apply list_lookup_insert_eq; eapply lookup_lt_Some.
Qed.

(** The part of [getblk] after the buffer [b] was chosen. *)
Lemma getblk_clean_noop k b h :
  buffers (k_blk k) !! b = Some h -> b_dirt h = 0 -> getblk_clean b k = Ok true k.
Proof.
  intros Hb Hd. unfold getblk_clean. change ROUNDS with (S 33). rewrite loop_S, bind_assoc.
  erewrite bind_Ok by by apply get_bh_Ok. by rewrite Hd.
Qed.
Lemma getblk_clean_sync k l ch b h :
  cache_inv k l ch -> inodes_clean k -> buffers (k_blk k) !! b = Some h -> b_count h = 0 -> b_dirt h <> 0 ->
  exists k', getblk_clean b k = Ok true k' /\ cache_inv k' l ch /\ same_disk k k' /\ same_rest k k' /\
    same_identity k k' /\ all_clean k'.
Proof.
  intros HI Hfs Hb Hc Hd. pose proof (ci_heads _ _ _ HI b h Hb) as Hok.
  assert (b_dev h = RD_DEV) as Hdev by (destruct (ho_dev _ _ Hok); [by destruct Hd; apply (ho_free _ _ Hok)|done]).
  pose proof (sync_dev_spec k l ch HI Hfs) as Hs. apply runs_Ok in Hs as (r&k1&Es&HI1&Hd1&Hr1&Hid1&Hcl1).
  destruct (same_identity_lookup _ _ _ _ Hid1 Hb) as (h1&Hb1&_&_&_&_&Hc1).
  exists k1. split_and!; try done. unfold getblk_clean. change ROUNDS with (S (S 32)). rewrite loop_S, bind_assoc.
  erewrite bind_Ok by by apply get_bh_Ok. apply truth_true in Hd. rewrite Hd, Hdev, bind_assoc.
  erewrite bind_Ok by exact Es. rewrite bind_assoc. erewrite bind_Ok by by eapply wait_on_buffer_Ok.
  rewrite bind_assoc. erewrite bind_Ok by by apply get_bh_Ok. rewrite Hc1, Hc. cbn [truth].
  erewrite bind_Ok by reflexivity. cbv beta iota. rewrite loop_S, bind_assoc. erewrite bind_Ok by by apply get_bh_Ok.
  by rewrite (Hcl1 b h1 Hb1).
Qed.

Lemma not_cached_identity k k' blk :
  same_identity k k' -> (forall b h, buffers (k_blk k) !! b = Some h -> is_block RD_DEV blk h = false) ->
  forall b h, buffers (k_blk k') !! b = Some h -> is_block RD_DEV blk h = false.
Proof.
  intros Hid Hno b h Hb. specialize (Hid b). rewrite Hb in Hid.
  destruct (buffers (k_blk k) !! b) as [h0|] eqn:H0; [|done]. specialize (Hno b h0 H0).
  cbn in Hid. injection Hid as _ E1 E2 _ _. unfold is_block in *. by rewrite E1, E2.
Qed.

Lemma still_held_evict k k1 k' b h0 :
  same_identity k k1 -> buffers (k_blk k) !! b = Some h0 -> b_count h0 = 0 ->
  (forall x, x <> b -> core <$> buffers (k_blk k') !! x = core <$> buffers (k_blk k1) !! x) -> still_held k k' b.
Proof.
  intros Hid H0 Hc Hother x hx Hx Hcx. destruct (Nat.eqb_spec x b) as [->|Hne]; [congruence|].
  destruct (same_identity_lookup _ _ _ _ Hid Hx) as (h1&Hx1&E1&E2&E3&E4&E5).
  specialize (Hother x Hne). rewrite Hx1 in Hother. destruct (buffers (k_blk k') !! x) as [h2|]; [|done].
  assert (core h2 = core h1) as (F1&F2&F3&F4&_&F6&_)%core_fields by (cbn in Hother; congruence).
  exists h2. split_and!; try done; try congruence. rewrite F6, E5. lia.
Qed.

Lemma getblk_miss k l ch b h blk :
  cache_inv k l ch -> b_dirt h = 0 \/ inodes_clean k -> 0 <= blk < 2 ^ 32 ->
  (forall b h, buffers (k_blk k) !! b = Some h -> is_block RD_DEV blk h = false) ->
  pick (buffers (k_blk k)) l = Some b -> buffers (k_blk k) !! b = Some h -> b_count h = 0 ->
  exists k' h', getblk RD_DEV blk k = Ok b k' /\ got k k' b h' blk /\ b_uptodate h' = 0 /\ b_data h' = b_data h /\
    b_count h' = 1 /\ b_dirt h' = 0 /\ (b_dirt h = 0 -> untouched k k' b) /\
    exists ch', cache_inv k' (rm b l ++ [b]) ch'.
Proof.
  intros HI Hfs Hblk Hno Hpick Hb Hc.
  assert (exists k1 h1, getblk_clean b k = Ok true k1 /\ cache_inv k1 l ch /\ same_disk k k1 /\ same_rest k k1 /\
    same_identity k k1 /\ buffers (k_blk k1) !! b = Some h1 /\ b_dirt h1 = 0 /\ b_count h1 = 0 /\ b_data h1 = b_data h /\
    (b_dirt h = 0 -> k1 = k))
    as (k1&h1&Ecl&HI1&Hd1&Hr1&Hid1&Hb1&Hdirt1&Hc1&Hdata1&Hsame).
  { destruct (decide (b_dirt h = 0)) as [Hd|Hd].
    - exists k, h. split_and!; try done. by eapply getblk_clean_noop.
    - destruct Hfs as [Hfs|Hfs]; [done|]. destruct (getblk_clean_sync k l ch b h HI Hfs Hb Hc Hd) as (k1&?&?&?&?&Hid&Hcl).
      destruct (same_identity_lookup _ _ _ _ Hid Hb) as (h1&Hb1&?&_&_&_&?). exists k1, h1.
      split_and!; try done; [by eapply Hcl|congruence]. }
  pose proof (not_cached_identity _ _ _ Hid1 Hno) as Hno1.
  destruct (evict_spec (ret (inr (A := unit) b)) k1 l ch b h1 blk HI1 Hb1 Hc1 Hdirt1 Hblk Hno1)
    as (k'&ch'&Eev&HI'&Hd'&Hr'&(hb&Hhb&Hcore)&Hother).
  pose proof Hcore as (F1&F2&F3&F4&F5&F6&_)%core_fields.
  exists k', hb. split_and!; try done; [| |by rewrite F1|by intros <-%Hsame|by exists ch'].
  - unfold getblk. change ROUNDS with (S 33). rewrite loop_S, bind_assoc.
    erewrite bind_Ok by by eapply get_hash_table_miss. erewrite (bind_Ok _ _ _ (inr b) k'); [done|].
    erewrite bind_Ok by reflexivity. erewrite bind_Ok by by apply (getblk_scan_spec k l ch). rewrite Hpick.
    erewrite bind_Ok by by eapply wait_on_buffer_Ok. erewrite bind_Ok by by apply get_bh_Ok.
    rewrite Hc. change (truth 0) with false; cbv iota. erewrite bind_Ok by exact Ecl. cbn [negb].
    destruct (find_buffer_spec k1 l ch (ci_queues _ _ _ HI1) RD_DEV blk) as (r&Er&Hr); [done|done|].
    erewrite bind_Ok by exact Er. destruct r as [b2|]; [|exact Eev].
    destruct Hr as (h2&Hb2&E2). by rewrite (Hno1 b2 h2 Hb2) in E2.
  - split_and!; try done; [by eexists _, _|by eapply same_disk_trans|by eapply same_rest_trans| |].
    + by eapply (still_held_evict k k1 k' b h).
    + rewrite F6. unfold taken; rsimpl; lia.
Qed.

Lemma pick_unused bufs l b : pick bufs l = Some b -> b ∈ l /\ unused bufs b = true.
Proof.
  unfold pick. destruct (first_such (spare bufs) l) as [b'|] eqn:E.
  - intros [= <-]. apply first_such_Some in E as [? Hs]. split; [done|]. unfold spare, unused in *.
    destruct (bufs !! b'); [|done]. by apply andb_true_iff in Hs as [? _].
  - apply first_such_Some.
Qed.

Lemma pick_spare bufs l b b0 h : pick bufs l = Some b -> b0 ∈ l -> spare bufs b0 = true -> bufs !! b = Some h ->
  b_dirt h = 0.
Proof.
  unfold pick. destruct (first_such (spare bufs) l) as [b'|] eqn:E.
  - intros [= <-] _ _ Hb. apply first_such_Some in E as [_ Hs]. unfold spare in Hs. rewrite Hb in Hs.
    apply andb_true_iff in Hs as [_ ?%Z.eqb_eq]. done.
  - intros _ Hb0 Hs _. rewrite first_such_None in E. by rewrite E in Hs.
Qed.

Lemma pick_exists k l ch b h : cache_inv k l ch -> buffers (k_blk k) !! b = Some h -> b_count h = 0 ->
  exists b', pick (buffers (k_blk k)) l = Some b'.
Proof.
  intros HI Hb Hc. pose proof (ci_queues _ _ _ HI) as (_&Hmem&_).
  assert (b ∈ l) as Hin by (apply Hmem; by eapply lookup_lt_Some).
  destruct (pick (buffers (k_blk k)) l) as [b'|] eqn:Hp; [eauto|].
  exfalso. unfold pick in Hp. destruct (first_such (spare _) l); [done|]. rewrite first_such_None in Hp.
  specialize (Hp b Hin). unfold unused in Hp. rewrite Hb, Hc in Hp. done.
Qed.

(** A call for a block returns if the block is available. *)
Lemma getblk_returns k l ch blk :
  cache_inv k l ch -> 0 <= blk < 2 ^ 32 -> available k blk ->
  exists b k' h', getblk RD_DEV blk k = Ok b k' /\ got k k' b h' blk /\ took k k' b h'.
Proof.
  intros HI Hblk (b0&h0&Hb0&[[Hib Hc]|(Hno&Hc0&Hdirt)]).
  - apply is_block_RD in Hib as [Hd Hbk]; [|done].
    destruct (getblk_hit k l ch b0 h0 blk HI Hblk Hb0 Hd Hbk Hc) as (k'&h'&?&?&_&_&?). by exists b0, k', h'.
  - pose proof (ci_queues _ _ _ HI) as (_&Hmem&_).
    assert (b0 ∈ l) as Hin by (apply Hmem; by eapply lookup_lt_Some).
    destruct (pick_exists k l ch b0 h0 HI Hb0 Hc0) as [b Hp].
    pose proof (pick_unused _ _ _ Hp) as [_ Hu]. unfold unused in Hu.
    destruct (buffers (k_blk k) !! b) as [h|] eqn:Hb; [|done]. apply Z.eqb_eq in Hu.
    assert (b_dirt h = 0 \/ inodes_clean k) as Hor.
    { destruct Hdirt as [E|?]; [left|by right]. apply (pick_spare _ _ _ b0 h Hp Hin); [|done].
      unfold spare. by rewrite Hb0, Hc0, E. }
    destruct (getblk_miss k l ch b h blk HI Hor Hblk Hno Hp Hb Hu) as (k'&h'&?&?&?&?&?&?&Hunt&_). exists b, k', h'.
    split_and!; try done. exists h. split_and!; try done; [lia|]. intros [b1 Hs1].
    assert (b1 ∈ l) as Hin1. { apply Hmem. unfold spare in Hs1. destruct (_ !! b1) eqn:E1; [by eapply lookup_lt_Some|done]. }
    pose proof (pick_spare _ _ _ b1 h Hp Hin1 Hs1 Hb) as E. split; [congruence|by apply Hunt].
Qed.

(** Filling the buffer that [getblk] returned. *)
(** A block that is not in the cache goes to the buffer that the scan picked, which is then the
    last of the free list. *)
Lemma getblk_picks k l ch blk :
  cache_inv k l ch -> inodes_clean k -> 0 <= blk < 2 ^ 32 ->
  (forall b h, buffers (k_blk k) !! b = Some h -> is_block RD_DEV blk h = false) ->
  (exists b h, buffers (k_blk k) !! b = Some h /\ b_count h = 0) ->
  runs (getblk RD_DEV blk) k (fun b k' => pick (buffers (k_blk k)) l = Some b /\
    (exists ch', cache_inv k' (rm b l ++ [b]) ch') /\
    exists h, got k k' b h blk /\ b_uptodate h = 0 /\ b_count h = 1 /\ b_dirt h = 0).
Proof.
  intros HI Hfs Hblk Hno (b0&h0&Hb0&Hc0). destruct (pick_exists k l ch b0 h0 HI Hb0 Hc0) as [b Hp].
  pose proof (pick_unused _ _ _ Hp) as [_ Hu]. unfold unused in Hu.
  destruct (buffers (k_blk k) !! b) as [h|] eqn:Hb; [|done]. apply Z.eqb_eq in Hu.
  destruct (getblk_miss k l ch b h blk HI (or_intror Hfs) Hblk Hno Hp Hb Hu) as (k'&h'&E&?&?&?&?&?&_&?).
  unfold runs. rewrite E. split_and!; try done. by exists h'.
Qed.

Lemma fill_one k l ch b h :
  cache_inv k l ch -> buffers (k_blk k) !! b = Some h -> b_dev h = RD_DEV -> b_uptodate h = 0 ->
  exists k' h', ll_rw_block READ b k = Ok tt k' /\ cache_inv k' l ch /\ same_disk k k' /\ same_rest k k' /\
    buffers (k_blk k') !! b = Some h' /\ b_data h' = b_data h /\ b_blocknr h' = b_blocknr h /\ b_dev h' = b_dev h /\
    b_count h' = b_count h /\ b_dirt h' = b_dirt h /\ (b_uptodate h' = 1 <-> in_disk k (b_blocknr h)) /\
    (forall x, x <> b -> buffers (k_blk k') !! x = buffers (k_blk k) !! x).
Proof.
  intros HI Hb Hd Hu. assert (needs_io READ h) as Hn by (by left).
  destruct (ll_rw_block_serve k b h READ (ci_idle _ _ _ HI) (ci_fits _ _ _ HI) Hb (inv_rd_buffer _ _ _ _ _ HI Hb Hd) Hn)
    as (rqs&E&Hidle).
  destruct (inv_after_rw k l ch b h READ rqs HI Hb Hd Hn Hidle) as (HI'&Hdisk&Hb').
  pose proof (after_rw_rest k l ch b h READ rqs HI Hb Hd) as Hrest. eexists _, _. split_and!; try done.
  - destruct (ci_heads _ _ _ HI b h Hb). unfold rw_head. rsimpl. destruct ho_dirt0 as [->|E1]; [done|].
    specialize (ho_valid0 E1). lia.
  - unfold rw_head. rsimpl. pose proof (ho_blk _ _ (ci_heads _ _ _ HI b h Hb) Hd).
    rewrite <- (on_disk_in_disk k h) by lia. destruct (on_disk _ _); done.
  - intros x Hx. unfold after_rw. rsimpl. by rewrite list_lookup_insert_ne.
Qed.

Lemma brelse_Ok k l ch b h :
  cache_inv k l ch -> buffers (k_blk k) !! b = Some h -> 1 <= b_count h ->
  let k' := set_bh b (h <| b_count := b_count h - 1 |>) k in
  brelse (Some b) k = Ok tt k' /\ cache_inv k' l ch /\ same_disk k k'.
Proof.
  intros HI Hb Hc k'. pose proof (ho_count _ _ (ci_heads _ _ _ HI b h Hb)) as Hc0.
  destruct (inv_count k l ch b h (b_count h - 1) HI Hb ltac:(lia)) as [HI1 Hd1]. split; [|done].
  unfold brelse. erewrite bind_Ok by by eapply wait_on_buffer_Ok. erewrite bind_Ok by by apply get_bh_Ok.
  erewrite (bind_Ok _ _ _ tt k').
  2:{ rewrite (mod_bh_Ok _ _ h) by done. cbv beta. rewrite u8_small by lia. done. }
  replace (b_count h =? 0) with false by lia. erewrite bind_Ok by reflexivity.
  change (buffer_wait (k_blk k')) with (buffer_wait (k_blk k)). by rewrite (ci_wait _ _ _ HI).
Qed.

Lemma bread_tail k k1 b h1 blk :
  got k k1 b h1 blk -> 
  exists r k', (let! h := get_bh b in
    if truth (b_uptodate h) then ret (Some b)
    else ll_rw_block READ b ;;; wait_on_buffer b ;;; let! h := get_bh b in
      if truth (b_uptodate h) then ret (Some b) else brelse (Some b) ;;; ret None) k1 = Ok r k' /\
    cache_ok k' /\ same_disk k k' /\ same_rest k k' /\
    match r with
    | Some b' => b' = b /\ exists h, got k k' b h blk /\ b_uptodate h = 1 /\
        forall x, 0 <= x < BLOCK_SIZE -> k_pmem k' (b_data h + x) = disk k blk x
    | None => ~ in_disk k blk
    end /\
    exists h, buffers (k_blk k') !! b = Some h /\ b_dirt h = b_dirt h1 /\ b_data h = b_data h1 /\
      b_count h = b_count h1 - (if r then 0 else 1) /\ untouched k1 k' b.
Proof.
  intros ((l&ch&HI1)&Hd1&Hr1&Hheld&Hb1&Hdev&Hbk&Hc).
  assert (forall q, in_disk k1 q <-> in_disk k q) as Hind by (intros q; unfold in_disk; by destruct Hr1 as (_&_&_&_&->&_)).
  pose proof (ci_heads _ _ _ HI1 b h1 Hb1) as Hok.
  erewrite bind_Ok by by apply get_bh_Ok. destruct (ho_uptodate _ _ Hok) as [Hu|Hu]; rewrite Hu.
  2:{ change (truth 1) with true. cbv iota. eexists _, _. split; [done|].
      split_and!; try done; [by exists l, ch| |exists h1; split_and!; try done; lia].
      exists h1. split; [split_and!; try done; by exists l, ch|]. split; [done|]. intros x Hx.
      rewrite <- (disk_holder _ _ _ HI1 b h1 blk) by (try done; by apply holds_spec).
      apply Hd1; [done|]. apply Hind. rewrite <- Hbk. by apply (ho_range _ _ Hok). }
  change (truth 0) with false. cbv iota.
  destruct (fill_one k1 l ch b h1 HI1 Hb1 Hdev Hu) as (k2&h2&E2&HI2&Hd2&Hr2&Hb2&F1&F2&F3&F4&F5&Hu2&Hoth).
  erewrite bind_Ok by exact E2. erewrite bind_Ok by by eapply wait_on_buffer_Ok.
  erewrite bind_Ok by by apply get_bh_Ok.
  assert (same_rest k k2) as Hr by by eapply same_rest_trans.
  assert (same_disk k k2) as Hd by by apply (same_disk_trans k k1).
  pose proof (ci_heads _ _ _ HI2 b h2 Hb2) as Hok2. destruct (ho_uptodate _ _ Hok2) as [Hu'|Hu']; rewrite Hu'.
  - change (truth 0) with false. cbv iota.
    destruct (brelse_Ok k2 l ch b h2 HI2 Hb2 ltac:(lia)) as (Eb&HI3&Hd3).
    erewrite bind_Ok by exact Eb. eexists _, _. split; [done|].
    split_and!; try done; [by exists l, ch|by eapply same_disk_trans|by eapply same_rest_trans, set_bh_rest| |].
    + intros Hin%Hind. rewrite <- Hbk in Hin. apply Hu2 in Hin. lia.
    + eexists. unfold set_bh. rsimpl. rewrite list_lookup_insert_eq by by eapply lookup_lt_Some.
      split_and!; try done; [rsimpl; lia|]. intros x Hx. rsimpl. by rewrite list_lookup_insert_ne, Hoth.
  - change (truth 1) with true. cbv iota. eexists _, _. split; [done|].
    split_and!; try done; [by exists l, ch| |exists h2; split_and!; try done; [lia|]; intros x Hx; by rewrite Hoth].
    exists h2.
    assert (in_disk k blk) as Hin by (apply Hind; rewrite <- Hbk; by apply Hu2).
    assert (still_held k k2 b) as Hheld2.
    { intros x hx Hx Hcx. destruct (Hheld x hx Hx Hcx) as (hx1&Hx1&G1&G2&G3&G4&G5).
      destruct (decide (x = b)) as [->|Hne].
      - assert (hx1 = h1) as -> by congruence. exists h2. split_and!; try done; congruence.
      - exists hx1. rewrite Hoth by done. by split_and!. }
    split; [split_and!; first [done | congruence | lia | by exists l, ch]|split; [done|]].
    intros x Hx. rewrite <- (disk_holder _ _ _ HI2 b h2 blk) by (try done; apply holds_spec; split_and!; congruence).
    by apply Hd.
Qed.

Lemma keeps_held k k1 k' b : still_held k k1 b -> untouched k1 k' b ->
  (forall h, buffers (k_blk k) !! b = Some h -> 1 <= b_count h -> b_uptodate h = 1 ->
    exists h', buffers (k_blk k') !! b = Some h' /\ b_dev h' = b_dev h /\ b_blocknr h' = b_blocknr h /\ b_uptodate h' = 1) ->
  keeps_blocks k k'.
Proof.
  intros Hh Hu Hb x h Hx Hc Hup. destruct (decide (x = b)) as [->|Hne]; [by apply Hb|].
  destruct (Hh x h Hx ltac:(lia)) as (h'&Hx'&_&?&?&?&_). specialize (Hu x Hne). rewrite Hx' in Hu.
  destruct (buffers (k_blk k') !! x) as [h2|]; [|done]. cbn in Hu.
  assert (core h2 = core h') as (_&E2&E3&E4&_)%core_fields by congruence. exists h2. split_and!; [done|congruence|congruence|rewrite E4; auto].
Qed.
Lemma bread_spec k l ch blk :
  cache_inv k l ch -> 0 <= blk < 2 ^ 32 -> available k blk ->
  runs (bread RD_DEV blk) k (fun r k' => cache_ok k' /\ same_disk k k' /\ same_rest k k' /\
    match r with
    | Some b => in_disk k blk /\ exists h, got k k' b h blk /\ b_uptodate h = 1 /\ took k k' b h /\
        forall x, 0 <= x < BLOCK_SIZE -> k_pmem k' (b_data h + x) = disk k blk x
    | None => ~ in_disk k blk /\ (roomy k -> calm k k')
    end).
Proof.
  intros HI Hblk Hav. destruct (getblk_returns k l ch blk HI Hblk Hav) as (b&k1&h1&Eg&Hgot&Htook).
  destruct (bread_tail k k1 b h1 blk Hgot) as (r&k'&Et&Hok&Hd&Hr&Hres&h2&Hb2&G1&G2&G3&Hunt).
  unfold bread, runs. erewrite bind_Ok by exact Eg. rewrite Et. split_and!; try done.
  destruct r as [b'|].
  2:{ split; [done|]. destruct Htook as (h0&Hb0&?&?&Hroom). intros [? Hu1]%Hroom. split_and!; try done.
      2:{ destruct Hgot as (_&_&_&Hheld&Hb1&Hdev1&Hbk1&_). apply (keeps_held k k1 k' b Hheld Hunt). intros hx Hbx Hcx Hux. exfalso. apply Hres.
          destruct (Hheld b hx Hbx ltac:(lia)) as (h1'&Hb1'&_&E1&E2&_). assert (h1' = h1) as -> by congruence.
          rewrite <- Hbk1, E1. apply (ho_range _ _ (ci_heads _ _ _ HI b hx Hbx)); [congruence|done]. }
      apply (usage_back k k' b h0 h2); try done; [|unfold usage; f_equal; [f_equal; [congruence|lia]|congruence]].
      intros x Hne. by rewrite (Hunt x Hne), (Hu1 x Hne). }
  destruct Hres as (->&h&Hg&Hu&Hx).
  assert (took k k' b h) as Ht.
  { destruct Hg as (_&_&_&_&Hb&_). assert (h2 = h) as -> by congruence. destruct Htook as (h0&?&?&?&Hroom).
    exists h0. split_and!; try done; [lia|congruence|]. intros [? Hu1]%Hroom. split; [congruence|].
    intros x Hne. by rewrite (Hunt x Hne), (Hu1 x Hne). }
  split; [|by exists h].
  destruct Hg as ((l2&ch2&HI2)&_&(_&_&_&_&Hlen&_)&_&Hb&Hdev&<-&_).
  pose proof (ho_range _ _ (ci_heads _ _ _ HI2 b h Hb) Hdev Hu) as Hin. unfold in_disk in *. by rewrite <- Hlen.
Qed.

(** Reading a block and releasing its buffer. *)
Lemma bread_read k blk :
  cache_ok k -> ready k -> 0 <= blk < 2 ^ 32 -> in_disk k blk ->
  exists b h k1 k2, bread RD_DEV blk k = Ok (Some b) k1 /\ buffers (k_blk k1) !! b = Some h /\ same_rest k k1 /\
    (forall x, 0 <= x < BLOCK_SIZE -> k_pmem k1 (b_data h + x) = disk k blk x) /\
    brelse (Some b) k1 = Ok tt k2 /\ calm k k2.
Proof.
  intros (l&ch&HI) Hre Hblk Hin. pose proof (bread_spec k l ch blk HI Hblk (ready_available _ _ Hre)) as H.
  apply runs_Ok in H as (r&k1&E&_&Hd&Hr&H). destruct r as [b|]; [|by destruct H].
  destruct H as (_&h&((l1&ch1&HI1)&_&_&Hheld&Hb&_&_&Hc)&_&(h0&Hb0&Hc0&Hdt&Hroom)&Hx).
  destruct (brelse_Ok k1 l1 ch1 b h HI1 Hb Hc) as (Ebr&HI2&Hd2).
  destruct (Hroom ltac:(apply Hre)) as [Hdirt Hunt].
  exists b, h, k1, (set_bh b (h <| b_count := b_count h - 1 |>) k1). split_and!; try done.
  split_and!; [by exists l1, ch1|by eapply same_disk_trans|by eapply same_rest_trans, set_bh_rest| |].
  2:{ apply (keeps_held k k1 _ b Hheld).
      - intros x Hne. unfold set_bh. rsimpl. by rewrite list_lookup_insert_ne.
      - intros hx Hbx Hcx Hux. destruct (Hheld b hx Hbx ltac:(lia)) as (h'&Hb'&_&E1&E2&E3&_). assert (h' = h) as -> by congruence.
        exists (h <| b_count := b_count h - 1 |>). split_and!; try done; [|by apply E3]. unfold set_bh. rsimpl.
        apply list_lookup_insert_eq. by eapply lookup_lt_Some. }
  apply (usage_back k _ b h0 (h <| b_count := b_count h - 1 |>)); try done.
  - intros x Hne. unfold set_bh. rsimpl. by rewrite list_lookup_insert_ne, (Hunt x Hne).
  - unfold set_bh. rsimpl. by apply list_lookup_insert_eq; eapply lookup_lt_Some.
  - unfold usage. rsimpl. f_equal; [f_equal; [done|lia]|done].
Qed.
(** Reading a block and holding its buffer. *)
Lemma bread_hold k blk : cache_ok k -> ready k -> 0 <= blk < 2 ^ 32 -> in_disk k blk ->
  exists b h k1 l ch, bread RD_DEV blk k = Ok (Some b) k1 /\ cache_inv k1 l ch /\ buffers (k_blk k1) !! b = Some h /\ 1 <= b_count h /\
    (b_dev h = RD_DEV /\ b_blocknr h = blk /\ b_uptodate h = 1) /\ same_rest k k1 /\ same_disk k k1 /\ (forall x, 0 <= x < BLOCK_SIZE -> k_pmem k1 (b_data h + x) = disk k blk x) /\
    calm k (set_bh b (h <| b_count := b_count h - 1 |>) k1).
Proof.
  intros Hok Hre Hblk Hin. destruct (bread_read k blk Hok Hre Hblk Hin) as (b&h&k1&k2&E1&Hb&Hr&Hd&E2&Hc).
  pose proof Hok as (l0&ch0&HI0). pose proof (bread_spec k l0 ch0 blk HI0 Hblk (ready_available _ _ Hre)) as H.
  apply runs_Ok in H as (r&k1'&E1'&_&Hsd&_&H). rewrite E1 in E1'. injection E1' as <- <-.
  destruct H as (_&h'&((l&ch&HI)&_&_&_&Hb'&Hdev&Hbk&Hcnt)&Hup&_). assert (h' = h) as -> by congruence.
  destruct (brelse_Ok k1 l ch b h HI Hb Hcnt) as (E2'&_&_). rewrite E2 in E2'. injection E2' as ->.
  exists b, h, k1, l, ch. by split_and!.
Qed.
Lemma bread_fails k blk :
  cache_ok k -> ready k -> 0 <= blk < 2 ^ 32 -> ~ in_disk k blk ->
  exists k1, bread RD_DEV blk k = Ok None k1 /\ calm k k1.
Proof.
  intros (l&ch&HI) Hre Hblk Hin. pose proof (bread_spec k l ch blk HI Hblk (ready_available _ _ Hre)) as H.
  apply runs_Ok in H as (r&k1&E&_&Hd&Hr&H). destruct r as [b|]; [by destruct H|].
  exists k1. split; [done|]. apply H, Hre.
Qed.

(** [sys_sync] after [sync_inodes]: it leaves the RAM disk equal to the disk its users see. *)
Lemma sys_sync_tail k0 k l ch :
  sync_inodes k0 = Ok tt k -> cache_inv k l ch ->
  runs sys_sync k0 (fun r k' => r = 0 /\ cache_ok k' /\ same_disk k k' /\ same_rest k k' /\ all_clean k' /\
    forall blk x, in_disk k blk -> 0 <= x < BLOCK_SIZE -> k_pmem k' (rd_addr k blk + x) = disk k blk x).
Proof.
  intros E HI. unfold sys_sync. eapply runs_step; [exact E|]. eapply runs_step; [reflexivity|].
  apply runs_bind. eapply runs_mono; [|apply (write_loop k l ch); [done|]].
  - intros _ k' (HI'&Hd&Hr&Hid&Hcl). apply runs_ret. split_and!; try done; [by exists l, ch|].
    intros blk x Hin Hx. rewrite <- (Hd blk x) by done. unfold rd_addr. destruct Hr as (_&_&_&<-&_).
    symmetry. apply (disk_clean _ _ _ HI'); [done|]. intros b h Hb _. by eapply Hcl.
  - intros i s h HIs Hb Hi. cbv zeta. erewrite bind_Ok by by eapply wait_on_buffer_Ok.
    erewrite bind_Ok by by apply get_bh_Ok. unfold when.
    destruct (ho_dev _ _ (ci_heads _ _ _ HIs _ _ Hb)) as [Ed|Ed]; rewrite Ed; cbn [andb].
    + by rewrite (ho_free _ _ (ci_heads _ _ _ HIs _ _ Hb) Ed).
    + change (RD_DEV =? RD_DEV) with true. cbn [andb]. by destruct (truth (b_dirt h)).
Qed.
End Quiet.
