(* ===== verification/BufferInit.v ===== *)
(** * The buffer cache at boot (fs/buffer.c [buffer_init], ll_rw_blk.c [blk_dev_init],
    ramdisk.c [rd_init])

    What [buffer_init] builds, and that the three initialisations together establish the
    invariant of the cache.  The file ends with the concrete state that the examples use. *)
From Stdlib Require Import ZArith Lia String.
From stdpp Require Import base list gmap functions.
From S2P Require Import Prelude State BlockIO Buffer BufferCache.
Open Scope Z_scope.

(** The number of buffers: each takes a head and a block. *)
Definition nr_buffers (start_buffer buffer_end : Z) : Z := (buffer_end - start_buffer) / (BLOCK_SIZE + SIZEOF_BH).

Section Init.
Context (start_buffer buffer_end : Z) (blocknr0 : nat -> Z).

(** Head [i] as the first loop writes it. *)
Definition init_head (i : nat) : buffer_head :=
  mkBufferHead (buffer_end - BLOCK_SIZE * (Z.of_nat i + 1)) (blocknr0 i) 0 0 0 0 0 None None None
    (if (i =? 0)%nat then None else Some (i - 1)%nat) (Some (S i)).
Definition init_heads (n : nat) : list buffer_head := init_head <$> seq 0 n.

Lemma init_heads_S n : init_heads (S n) = init_heads n ++ [init_head n].
Proof. unfold init_heads. by rewrite seq_S, fmap_app. Qed.
Lemma init_heads_length n : length (init_heads n) = n.
Proof. unfold init_heads. by rewrite length_fmap, length_seq. Qed.
Lemma init_heads_lookup n i : (i < n)%nat -> init_heads n !! i = Some (init_head i).
Proof. intros. unfold init_heads. by rewrite list_lookup_fmap, lookup_seq_lt by lia. Qed.

Let with_buffers (l : list buffer_head) (k : kernel) : kernel :=
  k <| k_blk ::= fun s => s <| buffers := l |> |>.

Lemma build_heads k :
  start_buffer <= buffer_end -> buffers (k_blk k) = [] ->
  runs (loop (S (Z.to_nat (buffer_end - start_buffer))) (fun b =>
    let! n := NR_BUFFERS in
    let b := b - BLOCK_SIZE in
    if start_buffer + SIZEOF_BH * (Z.of_nat n + 1) <=? b then
      let h := mkBufferHead b (blocknr0 n) 0 0 0 0 0 None None None
                 (if (n =? 0)%nat then None else Some (n - 1)%nat) (Some (S n)) in
      modify (fun k => k <| k_blk ::= fun s => s <| buffers ::= fun l => l ++ [h] |> |>) ;;;
      ret (inl b)
    else ret (inr tt)) buffer_end) k
    (fun _ k' => k' = with_buffers (init_heads (Z.to_nat (nr_buffers start_buffer buffer_end))) k).
Proof.
  intros Hle Hnil. set (N := nr_buffers start_buffer buffer_end).
  assert (0 <= N /\ (BLOCK_SIZE + SIZEOF_BH) * N <= buffer_end - start_buffer < (BLOCK_SIZE + SIZEOF_BH) * (N + 1)) as (HN0&HN1&HN2).
  { unfold N, nr_buffers, BLOCK_SIZE, SIZEOF_BH. change (1024 + 64) with 1088.
    pose proof (Z.div_mod (buffer_end - start_buffer) 1088). pose proof (Z.mod_pos_bound (buffer_end - start_buffer) 1088).
    split; [apply Z.div_pos; lia|]. lia. }
  unfold BLOCK_SIZE, SIZEOF_BH in *.
  apply (runs_loop (fun b s => exists n : nat, Z.of_nat n <= N /\ b = buffer_end - BLOCK_SIZE * Z.of_nat n /\
      s = with_buffers (init_heads n) k) (fun b _ => Z.to_nat (b - start_buffer))).
  - intros b s (n&Hn&->&->). unfold BLOCK_SIZE, SIZEOF_BH in *. eapply runs_step; [reflexivity|]. cbv zeta.
    change (length (buffers (k_blk (with_buffers (init_heads n) k)))) with (length (init_heads n)).
    rewrite init_heads_length. destruct (Z.leb_spec (start_buffer + 64 * (Z.of_nat n + 1)) (buffer_end - 1024 * Z.of_nat n - 1024)) as [Hc|Hc].
    + eapply runs_step; [reflexivity|]. apply runs_ret. split; [|lia]. exists (S n).
      split_and!; [lia|lia|]. rewrite init_heads_S. unfold with_buffers.
      unfold init_head, BLOCK_SIZE.
      replace (buffer_end - 1024 * Z.of_nat n - 1024) with (buffer_end - 1024 * (Z.of_nat n + 1)) by lia. done.
    + apply runs_ret. replace (Z.to_nat N) with n by lia. done.
  - exists 0%nat. split_and!; [lia|lia|]. unfold with_buffers. destruct k as [? [] ? ? ? ?]. cbn in Hnil. by subst.
  - lia.
Qed.

(** The circular free list closed, as the last lines leave it. *)
Definition closed_heads (n : nat) : list buffer_head :=
  alter (fun h => h <| b_next_free := Some 0%nat |>) (n - 1)%nat
    (alter (fun h => h <| b_prev_free := Some (n - 1)%nat |>) 0%nat (init_heads n)).

Lemma closed_length n : length (closed_heads n) = n.
Proof. unfold closed_heads. by rewrite !length_alter, init_heads_length. Qed.
Lemma closed_core n i : core <$> closed_heads n !! i = core <$> init_heads n !! i.
Proof. unfold closed_heads. by rewrite !core_alter. Qed.
Lemma closed_links n i : (i < n)%nat ->
  view b_next (closed_heads n) i = None /\ view b_prev (closed_heads n) i = None /\
  view b_next_free (closed_heads n) i = Some (if (i =? n - 1)%nat then 0 else S i)%nat /\
  view b_prev_free (closed_heads n) i = Some (if (i =? 0)%nat then n - 1 else i - 1)%nat.
Proof.
  intros Hi. assert (forall f, view f (init_heads n) i = f (init_head i)) as V.
  { intros f. unfold view. by rewrite init_heads_lookup. }
  unfold closed_heads. split_and!.
  - by rewrite !view_alter_ne, V by done.
  - by rewrite !view_alter_ne, V by done.
  - rewrite (view_alter_eq _ _ _ (Some 0%nat)) by (rewrite ?length_alter, ?init_heads_length; done || lia).
    rewrite fn_insert_if. destruct (Nat.eqb_spec i (n - 1)), (decide (i = n - 1)%nat); try done.
    by rewrite view_alter_ne, V by done.
  - rewrite view_alter_ne by done.
    rewrite (view_alter_eq _ _ _ (Some (n - 1)%nat)) by (rewrite ?init_heads_length; done || lia).
    rewrite fn_insert_if, V. unfold init_head. cbn [b_prev_free].
    destruct (Nat.eqb_spec i 0), (decide (i = 0)%nat); done.
Qed.

Lemma chain_seq R x m y :
  (forall i, (x <= i < x + m)%nat -> R i (S i)) -> R (x + m)%nat y -> chain R x (seq (S x) m ++ [y]).
Proof.
  revert x. induction m as [|m IH]; intros x H Hy; cbn.
  - rewrite Nat.add_0_r in Hy. done.
  - split; [apply H; lia|]. apply IH; [intros i ?; apply H; lia|]. by rewrite Nat.add_succ_comm.
Qed.

Lemma closed_queues n ht :
  (2 <= n)%nat -> Z.of_nat (length ht) = NR_HASH -> (forall i, 0 <= i < NR_HASH -> idx ht i = Some None) ->
  queues_ok (closed_heads n) ht 0 (seq 0 n) (fun _ => []).
Proof.
  intros Hn Hlen Hht. unfold queues_ok. rewrite closed_length. split_and!; try done.
  - split_and!; [destruct n; [lia|done]|apply NoDup_seq|]. destruct n as [|n]; [lia|]. cbn [seq ring].
    apply chain_seq.
    + intros i Hi. destruct (closed_links (S n) i ltac:(lia)) as (_&_&Hnf&_), (closed_links (S n) (S i) ltac:(lia)) as (_&_&_&Hpf).
      split; [rewrite Hnf; destruct (Nat.eqb_spec i (S n - 1)); [lia|done]|].
      rewrite Hpf. destruct (Nat.eqb_spec (S i) 0); [lia|]. f_equal. lia.
    + destruct (closed_links (S n) (0 + n) ltac:(lia)) as (_&_&Hnf&_), (closed_links (S n) 0 ltac:(lia)) as (_&_&_&Hpf).
      split; [rewrite Hnf; destruct (Nat.eqb_spec (0 + n) (S n - 1)); [done|lia]|].
      rewrite Hpf. cbn. f_equal. lia.
  - intros b. rewrite elem_of_seq. lia.
  - split; [done|]. intros i Hi. split_and!; [by apply Hht|apply NoDup_nil_2|done].
  - intros i b _ Hb. set_solver.
  - intros b h Hb. assert (b < n)%nat as Hbn by (rewrite <- (closed_length n); by eapply lookup_lt_Some).
    pose proof (closed_core n b) as E. rewrite Hb, init_heads_lookup in E by done.
    assert (core h = core (init_head b)) as (_&_&Ed&_)%core_fields by (cbn in E; congruence).
    destruct (closed_links n b Hbn) as (Hnx&Hpv&_). unfold view in Hnx, Hpv. rewrite Hb in Hnx, Hpv. cbn in Hnx, Hpv.
    rewrite Ed. split; [|done]. intros i _. split; [set_solver|]. intros [? _]. done.
Qed.

Lemma buffer_init_spec k :
  start_buffer <= buffer_end -> 2 <= nr_buffers start_buffer buffer_end ->
  Z.of_nat (length (hash_table (k_blk k))) = NR_HASH ->
  runs (buffer_init start_buffer buffer_end blocknr0) k (fun _ k' =>
    let n := Z.to_nat (nr_buffers start_buffer buffer_end) in
    exists ht, k' = put_q (closed_heads n) ht 0 k /\
      queues_ok (closed_heads n) ht 0 (seq 0 n) (fun _ => [])).
Proof.
  intros Hle HN Hht. unfold buffer_init. eapply runs_step; [reflexivity|].
  apply runs_bind. eapply runs_mono; [|by apply build_heads].
  intros _ k1 ->. set (n := Z.to_nat (nr_buffers start_buffer buffer_end)).
  assert (2 <= n)%nat as Hn by lia.
  eapply (runs_step _ _ _ n).
  { trans (Ok (length (init_heads n)) ((k <| k_blk ::= fun s => s <| buffers := [] |> |>)
      <| k_blk ::= fun s => s <| buffers := init_heads n |> |>)); [done|]. by rewrite init_heads_length. }
  destruct (Nat.eqb_spec n 0) as [|_]; [lia|]. eapply runs_step; [reflexivity|].
  set (k0 := put_q (init_heads n) (hash_table (k_blk k)) 0 k).
  apply (runs_step _ _ k0 tt (put_q (alter (fun h => h <| b_prev_free := Some (n - 1)%nat |>) 0%nat (init_heads n)) (hash_table (k_blk k)) 0 k)).
  { apply Q_mod_bh. rewrite init_heads_length. lia. }
  eapply runs_step.
  { apply Q_mod_bh. rewrite length_alter, init_heads_length. lia. }
  fold (closed_heads n).
  eapply runs_mono; [|apply (runs_for_up (fun i s => 0 <= i /\ exists ht, s = put_q (closed_heads n) ht 0 k /\
    Z.of_nat (length ht) = NR_HASH /\ forall j, 0 <= j < i -> idx ht j = Some None))].
  - intros _ s (_&ht&->&Hl&Hj). exists ht. split; [done|]. apply closed_queues; [done|done|].
    intros i Hi. apply Hj. unfold NR_HASH in *. lia.
  - intros i s Hi (_&ht&->&Hl&Hj). apply runs_modify. split; [lia|]. exists (upd_idx ht i None).
    split_and!; [done|by rewrite length_upd_idx|]. intros j Hji. destruct (decide (j = i)) as [->|].
    + apply idx_upd_eq. unfold NR_HASH in *. lia.
    + rewrite idx_upd_ne by lia. apply Hj. lia.
  - split; [lia|]. exists (hash_table (k_blk k)). split_and!; [done|done|lia].
Qed.
End Init.

(** ** Boot: the block layer's part of [machine_main] *)

(** [rd_init(0x8007D000UL,0x5A000UL); blk_dev_init(); buffer_init(&_buffer_end)]; the linker
    script puts [_buffer_end] 100 KB after [_buffer_start]. *)
Definition RD_START : Z := 0x8007D000.
Definition RD_LENGTH : Z := 0x5A000.
Definition boot_storage (buffer_start : Z) (blocknr0 : nat -> Z) : K unit :=
  rd_init RD_START RD_LENGTH ;;;
  blk_dev_init ;;;
  buffer_init buffer_start (buffer_start + 100 * 1024) blocknr0.

(** Before boot: the tables have their static sizes, and no request or waiter exists. *)
Definition static_blk (s : blk_state) : Prop :=
  length (requests s) = NR_REQUEST /\ wait_for_request s = None /\ buffer_wait s = None /\
  Z.of_nat (length (hash_table s)) = NR_HASH /\ length (blk_dev s) = Z.to_nat NR_BLK_DEV /\
  Forall (fun d => current_request d = None) (blk_dev s).

Lemma blk_dev_init_spec k :
  length (requests (k_blk k)) = NR_REQUEST ->
  runs blk_dev_init k (fun _ k' => exists rqs, k' = k <| k_blk ::= fun s => s <| requests := rqs |> |> /\
    length rqs = NR_REQUEST /\ Forall free_request rqs).
Proof.
  intros Hlen. unfold blk_dev_init.
  eapply runs_mono; [|apply (runs_for_up (fun i s => 0 <= i /\ exists rqs, s = k <| k_blk ::= fun s => s <| requests := rqs |> |> /\
    length rqs = NR_REQUEST /\ forall j q, rqs !! j = Some q -> Z.of_nat j < i -> free_request q))].
  - intros _ s (_&rqs&->&Hl&Hf). exists rqs. split_and!; try done. apply Forall_lookup. intros j q Hq.
    apply (Hf j q Hq). apply lookup_lt_Some in Hq. lia.
  - intros i s Hi (_&rqs&->&Hl&Hf). destruct (lookup_lt_is_Some_2 rqs (Z.to_nat i)) as [q Hq]; [lia|].
    unfold runs, mod_rq, get_rq. rewrite bind_assoc. erewrite bind_Ok by reflexivity. rsimpl. rewrite Hq.
    erewrite bind_Ok by reflexivity. split; [lia|]. eexists. split; [by destruct k as [? [] ? ? ? ?]|].
    rewrite length_insert. split; [done|]. intros j q' Hq' Hj.
    apply list_lookup_insert_Some in Hq' as [(<-&<-&_)|[Hne Hq']]; [done|]. apply (Hf j q' Hq'). lia.
  - split; [lia|]. exists (requests (k_blk k)). split_and!; [by destruct k as [? [] ? ? ? ?]|done|lia].
Qed.

(** What a head looks like after [buffer_init]. *)
Lemma closed_head e blocknr0 n b h :
  closed_heads e blocknr0 n !! b = Some h -> (b < n)%nat /\ core h = core (init_head e blocknr0 b).
Proof.
  intros Hb. assert (b < n)%nat as Hbn by (rewrite <- (closed_length e blocknr0 n); by eapply lookup_lt_Some).
  split; [done|]. pose proof (closed_core e blocknr0 n b) as E. rewrite Hb, init_heads_lookup in E by done.
  cbn in E. congruence.
Qed.

Lemma init_cache_inv k start blocknr0 ht :
  let n := 94%nat in let e := start + 100 * 1024 in
  let k' := put_q (closed_heads e blocknr0 n) ht 0 k in
  queues_ok (closed_heads e blocknr0 n) ht 0 (seq 0 n) (fun _ => []) -> idle k -> rd_fits k ->
  buffer_wait (k_blk k) = None ->
  e <= rd_start (k_blk k) \/ rd_start (k_blk k) + rd_length (k_blk k) <= start ->
  cache_inv k' (seq 0 n) (fun _ => []).
Proof.
  intros n e k' HQ Hidle Hfits Hbw Hdis.
  assert (forall b h, closed_heads e blocknr0 n !! b = Some h -> (b < n)%nat /\
    b_data h = e - 1024 * (Z.of_nat b + 1) /\ b_dev h = 0 /\ b_uptodate h = 0 /\ b_dirt h = 0 /\ b_count h = 0 /\
    b_lock h = 0 /\ b_wait h = None) as Hh.
  { intros b h [Hb (E1&_&E3&E4&E5&E6&E7&E8)%core_fields]%closed_head. by split_and!. }
  split; try done.
  - intros b h Hb. destruct (Hh b h Hb) as (?&?&E3&E4&E5&E6&E7&E8).
    split; rewrite ?E3, ?E4, ?E5, ?E6, ?E7, ?E8; try done; auto; lia.
  - intros b b' h h' Hb _ Hd. destruct (Hh b h Hb) as (_&_&E3&_). done.
  - intros b h Hb. destruct (Hh b h Hb) as (Hbn&->&_). unfold BLOCK_SIZE, n, e in *. rsimpl.
    change (rd_start (k_blk k')) with (rd_start (k_blk k)). change (rd_length (k_blk k')) with (rd_length (k_blk k)). lia.
  - intros b b' h h' Hb Hb' Hne. destruct (Hh b h Hb) as (_&->&_), (Hh b' h' Hb') as (_&->&_).
    unfold apart, BLOCK_SIZE. lia.
  - intros b h x Hb Hd. destruct (Hh b h Hb) as (_&_&E3&_). by rewrite E3 in Hd.
Qed.

Lemma boot_storage_spec k start blocknr0 :
  static_blk (k_blk k) -> 0 <= start ->
  start + 100 * 1024 <= RD_START \/ RD_START + RD_LENGTH <= start ->
  runs (boot_storage start blocknr0) k (fun _ k' => cache_ok k' /\ length (buffers (k_blk k')) = 94%nat /\
    k_pmem k' = k_pmem k /\ k_fs k' = k_fs k /\ k_mm k' = k_mm k /\ k_sched k' = k_sched k /\
    rd_start (k_blk k') = RD_START /\ rd_length (k_blk k') = RD_LENGTH /\
    (forall b h, buffers (k_blk k') !! b = Some h -> b_count h = 0 /\ b_dev h = 0 /\ start <= b_data h) /\
    forall blk x, disk k' blk x = k_pmem k (RD_START + blk * BLOCK_SIZE + x)).
Proof.
  intros (Hrq&Hwfr&Hbw&Hht&Hbd&Hcur) Hs Hdis. unfold boot_storage.
  destruct (idx_is_Some (blk_dev (k_blk k)) MAJOR_NR_RAMDISK) as [d Hd]; [rewrite Hbd; unfold MAJOR_NR_RAMDISK, NR_BLK_DEV; lia|].
  assert (current_request d = None) as Hdc.
  { unfold idx in Hd. cbn in Hd. by apply (Forall_lookup_1 _ _ _ _ Hcur Hd). }
  assert (start + 100 * 1024 - start = 100 * 1024) as Esz by lia.
  eapply runs_step.
  { unfold rd_init, mod_blk_dev, get_blk_dev. rewrite !bind_assoc. erewrite bind_Ok by reflexivity. rewrite Hd.
    erewrite bind_Ok by reflexivity. erewrite bind_Ok by reflexivity. reflexivity. }
  set (k1 := upd k_blk _ (upd k_blk _ k)). apply runs_bind. eapply runs_mono; [|by apply (blk_dev_init_spec k1)].
  intros _ k2 (rqs&->&Hrl&Hrf). set (k2 := upd k_blk _ k1).
  eapply runs_mono; [|apply (buffer_init_spec start (start + 100 * 1024) blocknr0 k2)].
  2: lia. 2: unfold nr_buffers; rewrite Esz; vm_compute; done. 2: done.
  intros _ k3 (ht&->&HQ).
  assert (Z.to_nat (nr_buffers start (start + 100 * 1024)) = 94%nat) as En by (unfold nr_buffers; rewrite Esz; done).
  rewrite En in *.
  assert (idle k2) as Hidle.
  { split_and!; try done.
    - change (length (upd_idx (blk_dev (k_blk k)) MAJOR_NR_RAMDISK (d <| request_fn := true |>)) = Z.to_nat NR_BLK_DEV).
      by rewrite length_upd_idx.
    - change (idx (upd_idx (blk_dev (k_blk k)) MAJOR_NR_RAMDISK (d <| request_fn := true |>)) MAJOR_NR_RAMDISK = Some (mkBlkDev true None)).
      rewrite idx_upd_eq by (rewrite Hbd; unfold MAJOR_NR_RAMDISK, NR_BLK_DEV; lia). destruct d; cbn in Hdc; by subst. }
  pose proof (init_cache_inv k2 start blocknr0 ht HQ Hidle ltac:(done) ltac:(done) Hdis) as HI.
  split_and!; try done.
  - by eexists _, _.
  - intros b h [Hb (E1&_&E3&_&_&E6&_)%core_fields]%closed_head. rewrite E1, E3, E6. split_and!; try done. cbn [init_head b_data]. unfold BLOCK_SIZE. lia.
Qed.

Lemma static_kernel0 : static_blk (k_blk kernel0).
Proof. split_and!; try done. by apply Forall_replicate. Qed.

(** ** The state after boot, for the examples *)
Definition final {A} (m : K A) (k : kernel) : kernel := match m k with Ok _ k' => k' | Stop _ k' => k' end.
Lemma runs_final {A} (m : K A) k (Q : kernel -> Prop) : runs m k (fun _ k' => Q k') -> Q (final m k).
Proof. unfold runs, final. by destruct (m k). Qed.

(** The machine [kernel0] with memory [m] after the boot of the storage stack, and with the file
    system state [fs].  Sealed, so that proofs use its properties and do not unfold it. *)
Definition blank : memory := fun _ => 0.
Definition booted_def (m : memory) : kernel := final (boot_storage 0x80010000 (fun _ => 0)) (kernel0 <| k_pmem := m |>).
Definition booted_aux : seal booted_def.
Proof. by eexists. Qed.
Definition booted : memory -> kernel := booted_aux.(unseal).
Lemma booted_eq : booted = booted_def.
Proof. exact booted_aux.(seal_eq). Qed.
Definition booted_fs (m : memory) (fs : fs_state) : kernel := (booted m) <| k_fs := fs |>.

Section Booted.
Context (m : memory).

Lemma booted_spec : (fun k' => cache_ok k' /\ length (buffers (k_blk k')) = 94%nat /\
    k_pmem k' = m /\ k_fs k' = k_fs kernel0 /\ k_mm k' = k_mm kernel0 /\ k_sched k' = k_sched kernel0 /\
    rd_start (k_blk k') = RD_START /\ rd_length (k_blk k') = RD_LENGTH /\
    (forall b h, buffers (k_blk k') !! b = Some h -> b_count h = 0 /\ b_dev h = 0 /\ 0x80010000 <= b_data h) /\
    forall blk x, disk k' blk x = m (RD_START + blk * BLOCK_SIZE + x)) (booted m).
Proof.
  rewrite booted_eq. unfold booted_def. apply (runs_final (boot_storage 0x80010000 (fun _ => 0))).
  eapply runs_mono; [|apply (boot_storage_spec (kernel0 <| k_pmem := m |>)); [apply static_kernel0|done|by left]].
  rsimpl. intros _ k' H. exact H.
Qed.
Lemma booted_free b h : buffers (k_blk (booted m)) !! b = Some h -> b_count h = 0 /\ b_dev h = 0 /\ b_dirt h = 0.
Proof.
  destruct booted_spec as ((l&ch&HI)&_&_&_&_&_&_&_&H&_). intros Hb. destruct (H b h Hb) as (?&Hd&_). split_and!; try done.
  by apply (ho_free _ _ (ci_heads _ _ _ HI b h Hb)).
Qed.
Lemma booted_some : exists h, buffers (k_blk (booted m)) !! 0%nat = Some h.
Proof. destruct booted_spec as (_&Hlen&_). apply lookup_lt_is_Some_2. rewrite Hlen. lia. Qed.

Context (fs : fs_state).
Lemma booted_fs_ok : cache_ok (booted_fs m fs).
Proof. destruct booted_spec as ((l&ch&HI)&_). exists l, ch. by apply (cache_inv_ext (booted m)). Qed.
Lemma booted_fs_ready : ready (booted_fs m fs).
Proof.
  destruct booted_some as [h Hh]. split.
  - exists 0%nat. unfold spare. change (buffers (k_blk (booted_fs m fs))) with (buffers (k_blk (booted m))). rewrite Hh.
    by destruct (booted_free _ _ Hh) as (->&_&->).
  - intros b h' (->&_)%booted_free. lia.
Qed.
Lemma booted_fs_in_disk blk : 0 <= blk < 360 -> in_disk (booted_fs m fs) blk.
Proof.
  intros. unfold in_disk. change (rd_length (k_blk (booted_fs m fs))) with (rd_length (k_blk (booted m))).
  destruct booted_spec as (_&_&_&_&_&_&_&->&_). unfold RD_LENGTH, BLOCK_SIZE. lia.
Qed.
Lemma booted_fs_disk blk x : disk (booted_fs m fs) blk x = m (RD_START + blk * BLOCK_SIZE + x).
Proof. rewrite (disk_ext (booted m)) by done. apply booted_spec. Qed.
Lemma booted_fs_io x : io_byte (booted_fs m fs) x -> 0x80010000 <= x.
Proof.
  destruct booted_spec as (_&_&_&_&_&_&Hrs&_&H&_). intros [Hx|(b&h&Hb&Hx)].
  - change (rd_start (k_blk (booted_fs m fs))) with (rd_start (k_blk (booted m))) in Hx. rewrite Hrs in Hx. unfold RD_START in Hx. lia.
  - destruct (H b h Hb) as (_&_&?). lia.
Qed.
End Booted.
