(* ===== verification/InodeIO.v ===== *)
(** * Reading and writing i-nodes (fs/inode.c), finding the super block (fs/super.c)

    [read_inode], [write_inode], [sync_inodes], [invalidate_inodes] and the locks of
    inodes and super blocks.  [sync_inodes] is the instance of the class [SyncInodes]
    that the buffer cache calls.  It is recursive through [write_inode], [bread],
    [getblk] and [sync_dev]; each level of the recursion holds the lock of one more
    inode, so there are at most [NR_INODE] of them before a task would wait for itself. *)
From Stdlib Require Import ZArith Lia String.
From stdpp Require Import base list gmap.
From S2P Require Import Prelude State BlockIO Buffer BufferCache BufferInit.
Open Scope Z_scope.

(** ** fs/super.c: locks and [get_super] *)
Definition wait_on_super (s : nat) : K unit :=
  let! sb := get_sb s in
  if truth (s_lock sb) then sleep_on (WaitSuper s) else skip.
Definition lock_super (s : nat) : K unit :=
  let! sb := get_sb s in
  if truth (s_lock sb) then sleep_on (WaitSuper s) else mod_sb s (fun x => x <| s_lock := 1 |>).
Definition free_super (s : nat) : K unit :=
  mod_sb s (fun x => x <| s_lock := 0 |>) ;;;
  let! sb := get_sb s in
  wake_up (s_wait sb).
(** The pointer [s] goes through the table; it starts again from the beginning when the
    device changed during [wait_on_super]. *)
Definition get_super (dev : Z) : K (option nat) :=
  if dev =? 0 then ret None
  else
    loop (2 * S NR_SUPER) (fun s =>
      if (s <? NR_SUPER)%nat then
        let! sb := get_sb s in
        if s_dev sb =? dev then
          wait_on_super s ;;;
          let! sb := get_sb s in
          if s_dev sb =? dev then ret (inr (Some s)) else ret (inl 0%nat)
        else ret (inl (S s))
      else ret (inr None)) 0%nat.

(** ** fs/inode.c: locks *)
Definition wait_on_inode (inode : nat) : K unit :=
  let! n := get_inode inode in
  if truth (i_lock n) then sleep_on (WaitInode inode) else skip.
Definition lock_inode (inode : nat) : K unit :=
  let! n := get_inode inode in
  if truth (i_lock n) then sleep_on (WaitInode inode) else mod_inode inode (fun n => n <| i_lock := 1 |>).
Definition unlock_inode (inode : nat) : K unit :=
  mod_inode inode (fun n => n <| i_lock := 0 |>) ;;;
  let! n := get_inode inode in
  wake_up (i_wait n).

Definition invalidate_inodes (dev : Z) : K unit :=
  for_up 0 NR_INODE (fun i =>
    let inode := Z.to_nat i in
    wait_on_inode inode ;;;
    let! n := get_inode inode in
    when (i_dev n =? dev) (mod_inode inode (fun n => n <| i_dev := 0 |> <| i_dirt := 0 |>))).

(** ** The d_inode on a block: 32 bytes, little endian *)
Definition D_INODE_SIZE : Z := 32.
Fixpoint load_zones (m : memory) (a : Z) (n : nat) : list Z :=
  match n with O => [] | S k => ld 2 m a :: load_zones m (a + 2) k end.
Fixpoint store_zones (m : memory) (a : Z) (z : list Z) : memory :=
  match z with [] => m | v :: z' => store_zones (st 2 m a v) (a + 2) z' end.
(** [*(struct d_inode * )inode = ...] keeps the fields that are only in memory. *)
Definition load_d_inode (m : memory) (a : Z) (n : m_inode) : m_inode :=
  n <| i_mode := ld 2 m a |> <| i_uid := ld 2 m (a + 2) |> <| i_size := ld 4 m (a + 4) |>
    <| i_mtime := ld 4 m (a + 8) |> <| i_gid := ld 1 m (a + 12) |> <| i_nlinks := ld 1 m (a + 13) |>
    <| i_zone := load_zones m (a + 14) 9 |>.
Definition store_d_inode (m : memory) (a : Z) (n : m_inode) : memory :=
  store_zones (st 1 (st 1 (st 4 (st 4 (st 2 (st 2 m a (i_mode n)) (a + 2) (i_uid n)) (a + 4) (i_size n))
    (a + 8) (i_mtime n)) (a + 12) (i_gid n)) (a + 13) (i_nlinks n)) (a + 14) (i_zone n).

(** [2 + s_imap_blocks + s_zmap_blocks + (i_num - 1) / INODES_PER_BLOCK], the division unsigned,
    and [(i_num - 1) % INODES_PER_BLOCK]. *)
Definition inode_block (sb : super_block) (i_num : Z) : Z :=
  s32 (u64 (2 + s_imap_blocks sb + s_zmap_blocks sb + u64 (i_num - 1) / INODES_PER_BLOCK)).
Definition inode_offset (i_num : Z) : Z := D_INODE_SIZE * (u64 (i_num - 1) mod INODES_PER_BLOCK).

Section IO.
Context {SI : SyncInodes}.

Definition read_inode (inode : nat) : K unit :=
  lock_inode inode ;;;
  let! n := get_inode inode in
  let! sb := get_super (i_dev n) in
  match sb with
  | None => panic "trying to read inode without device"
  | Some s =>
      let! sb := get_sb s in
      let! bh := bread (i_dev n) (inode_block sb (i_num n)) in
      match bh with
      | None => panic "unable to read i-node block"
      | Some b =>
          let! h := get_bh b in
          let! m := gets k_pmem in
          mod_inode inode (load_d_inode m (b_data h + inode_offset (i_num n))) ;;;
          brelse (Some b) ;;;
          unlock_inode inode
      end
  end.

Definition write_inode (inode : nat) : K unit :=
  lock_inode inode ;;;
  let! n := get_inode inode in
  if (i_dirt n =? 0) || (i_dev n =? 0) then unlock_inode inode
  else
    let! sb := get_super (i_dev n) in
    match sb with
    | None => panic "trying to write inode without device"
    | Some s =>
        let! sb := get_sb s in
        let! bh := bread (i_dev n) (inode_block sb (i_num n)) in
        match bh with
        | None => panic "unable to read i-node block"
        | Some b =>
            let! h := get_bh b in
            let! n := get_inode inode in
            modify (fun k => k <| k_pmem ::= fun m => store_d_inode m (b_data h + inode_offset (i_num n)) n |>) ;;;
            mod_bh b (fun h => h <| b_dirt := 1 |>) ;;;
            mod_inode inode (fun n => n <| i_dirt := 0 |>) ;;;
            brelse (Some b) ;;;
            unlock_inode inode
        end
    end.
End IO.

(** [sync_inodes()], [n] levels deep. *)
Fixpoint sync_inodes_rec (n : nat) : K unit :=
  match n with
  | O => halt NoFuel
  | S m =>
      for_up 0 NR_INODE (fun i =>
        let inode := Z.to_nat i in
        wait_on_inode inode ;;;
        let! d := get_inode inode in
        when (truth (i_dirt d) && negb (truth (i_pipe d))) (write_inode (SI := sync_inodes_rec m) inode))
  end.
#[export] Instance fs_sync_inodes : SyncInodes := sync_inodes_rec (S (S NR_INODE)).

(** ** With no dirty inode [sync_inodes] does nothing *)
Lemma for_up_noop (n : nat) lo (body : Z -> K unit) k :
  (forall i, lo <= i < lo + Z.of_nat n -> body i k = Ok tt k) -> for_up lo n body k = Ok tt k.
Proof.
  revert lo. induction n as [|n IH]; intros lo H; [done|]. cbn [for_up].
  rewrite (bind_Ok _ _ _ tt k) by (apply H; lia). apply IH. intros i Hi. apply H. lia.
Qed.
#[export] Instance sync_rec_ok level : SyncInodesOk (sync_inodes_rec (S level)).
Proof.
  intros k [Hf Hlen]. unfold sync_inodes. cbn [sync_inodes_rec].
  apply for_up_noop. intros i Hi. cbv zeta.
  destruct (lookup_lt_is_Some_2 (inode_table (k_fs k)) (Z.to_nat i)) as [n Hn]; [lia|].
  pose proof (Forall_lookup_1 _ _ _ _ Hf Hn) as [Hl Hd].
  unfold wait_on_inode. rewrite bind_assoc. erewrite bind_Ok by by apply get_inode_Ok. rewrite Hl.
  erewrite bind_Ok by reflexivity. erewrite bind_Ok by by apply get_inode_Ok.
  unfold when. destruct Hd as [->|Hp%truth_true]; [done|]. rewrite Hp. by rewrite andb_false_r.
Qed.
#[export] Instance fs_sync_inodes_ok : SyncInodesOk fs_sync_inodes := sync_rec_ok (S NR_INODE).

(** ** The encoding of an i-node is invertible *)
Definition d_inode_ok (n : m_inode) : Prop :=
  0 <= i_mode n < 65536 /\ 0 <= i_uid n < 65536 /\ 0 <= i_size n < 2 ^ 32 /\ 0 <= i_mtime n < 2 ^ 32 /\
  0 <= i_gid n < 256 /\ 0 <= i_nlinks n < 256 /\ length (i_zone n) = 9%nat /\
  Forall (fun z => 0 <= z < 65536) (i_zone n).

Lemma ld_store_zones_before n m a z b : b + Z.of_nat n <= a -> ld n (store_zones m a z) b = ld n m b.
Proof.
  revert m a. induction z as [|v z IH]; intros m a H; [done|]. cbn [store_zones].
  rewrite IH by lia. apply ld_st_disjoint. lia.
Qed.
Lemma load_store_zones m a z :
  Forall (fun z => 0 <= z < 65536) z -> load_zones (store_zones m a z) a (length z) = z.
Proof.
  revert m a. induction z as [|v z IH]; intros m a H; [done|]. inversion_clear H as [|? ? Hv Hz].
  cbn [store_zones load_zones length]. f_equal; [|by apply IH].
  rewrite ld_store_zones_before by lia. rewrite ld_st_same. apply Z.mod_small. exact Hv.
Qed.
Lemma load_store_d_inode m a n n0 :
  d_inode_ok n ->
  load_d_inode (store_d_inode m a n) a n0 =
  n0 <| i_mode := i_mode n |> <| i_uid := i_uid n |> <| i_size := i_size n |> <| i_mtime := i_mtime n |>
     <| i_gid := i_gid n |> <| i_nlinks := i_nlinks n |> <| i_zone := i_zone n |>.
Proof.
  intros (H1&H2&H3&H4&H5&H6&H7&H8). unfold load_d_inode, store_d_inode.
  assert (forall n m a v, 0 <= v < 256 ^ Z.of_nat n -> ld n (st n m a v) a = v) as Hsame.
  { intros. rewrite ld_st_same. by apply Z.mod_small. }
  rewrite !ld_store_zones_before by lia. rewrite <- H7, load_store_zones by done.
  repeat (first [rewrite Hsame by exact H1 | rewrite Hsame by exact H2 | rewrite Hsame by exact H3
    | rewrite Hsame by exact H4 | rewrite Hsame by exact H5 | rewrite Hsame by exact H6
    | rewrite ld_st_disjoint by lia]).
  done.
Qed.

(** ** What [get_super], [read_inode] and [write_inode] do *)
(** [s] is the first entry of the table for [dev], and it is not locked. *)
Definition found_super (k : kernel) (dev : Z) (s : nat) (sb : super_block) : Prop :=
  dev <> 0 /\ (s < NR_SUPER)%nat /\ length (super_blocks (k_fs k)) = NR_SUPER /\
  super_blocks (k_fs k) !! s = Some sb /\ s_dev sb = dev /\ s_lock sb = 0 /\
  forall s' sb', (s' < s)%nat -> super_blocks (k_fs k) !! s' = Some sb' -> s_dev sb' <> dev.

Lemma get_sb_Ok k s sb : super_blocks (k_fs k) !! s = Some sb -> get_sb s k = Ok sb k.
Proof. intros H. unfold get_sb. by erewrite bind_Ok, H by reflexivity. Qed.

Lemma get_super_found k dev s sb : found_super k dev s sb -> get_super dev k = Ok (Some s) k.
Proof.
  intros (Hdev&Hs&Hlen&Hsb&Hd&Hl&Hbefore). unfold get_super. apply Z.eqb_neq in Hdev as ->.
  assert (forall d s0 fuel, (s0 + d = s)%nat -> (d < fuel)%nat -> loop fuel (fun s =>
      if (s <? NR_SUPER)%nat then
        let! sb := get_sb s in
        if s_dev sb =? dev then
          wait_on_super s ;;;
          let! sb := get_sb s in
          if s_dev sb =? dev then ret (inr (Some s)) else ret (inl 0%nat)
        else ret (inl (S s))
      else ret (inr None)) s0 k = Ok (Some s) k) as H; [|apply (H s 0%nat); unfold NR_SUPER in *; lia].
  induction d as [|d IH]; intros s0 fuel Es Hf; (destruct fuel as [|fuel]; [lia|]); rewrite loop_S.
  - assert (s0 = s) as -> by lia. assert ((s <? NR_SUPER)%nat = true) as -> by by apply Nat.ltb_lt.
    rewrite bind_assoc. erewrite bind_Ok by by apply get_sb_Ok. apply Z.eqb_eq in Hd. rewrite Hd, bind_assoc.
    unfold wait_on_super. rewrite bind_assoc. erewrite bind_Ok by by apply get_sb_Ok. rewrite Hl.
    erewrite bind_Ok by reflexivity. rewrite bind_assoc. erewrite bind_Ok by by apply get_sb_Ok. by rewrite Hd.
  - assert ((s0 <? NR_SUPER)%nat = true) as -> by (apply Nat.ltb_lt; lia).
    destruct (lookup_lt_is_Some_2 (super_blocks (k_fs k)) s0) as [sb0 H0]; [lia|].
    rewrite bind_assoc. erewrite bind_Ok by by apply get_sb_Ok.
    assert (s_dev sb0 <> dev) as ->%Z.eqb_neq by (apply (Hbefore s0); [lia|done]).
    erewrite bind_Ok by reflexivity. apply IH; lia.
Qed.

Definition set_inode (i : nat) (n : m_inode) (k : kernel) : kernel :=
  k <| k_fs ::= fun s => s <| inode_table ::= fun l => <[i := n]> l |> |>.
Lemma mod_inode_Ok k i n f : inode_table (k_fs k) !! i = Some n -> mod_inode i f k = Ok tt (set_inode i (f n) k).
Proof. intros H. unfold mod_inode. by erewrite bind_Ok by by apply get_inode_Ok. Qed.
Lemma set_inode_lookup k i n n0 : inode_table (k_fs k) !! i = Some n0 -> inode_table (k_fs (set_inode i n k)) !! i = Some n.
Proof. intros H. apply list_lookup_insert_eq. by eapply lookup_lt_Some. Qed.
Lemma set_inode_twice k i n n' : set_inode i n' (set_inode i n k) = set_inode i n' k.
Proof. unfold set_inode. destruct k as [? ? [] ? ? ?]. unfold upd. cbn. by rewrite list_insert_insert_eq. Qed.
Lemma found_super_set_inode k dev s sb i n : found_super k dev s sb -> found_super (set_inode i n k) dev s sb.
Proof. done. Qed.
Lemma same_cache_set_inode k i n : same_cache k (set_inode i n k).
Proof. done. Qed.

Lemma lock_inode_Ok k i n : inode_table (k_fs k) !! i = Some n -> i_lock n = 0 ->
  lock_inode i k = Ok tt (set_inode i (n <| i_lock := 1 |>) k).
Proof.
  intros Hn Hl. unfold lock_inode. erewrite bind_Ok by by apply get_inode_Ok. rewrite Hl.
  change (truth 0) with false. cbv iota. by apply mod_inode_Ok.
Qed.
Lemma unlock_inode_Ok k i n : inode_table (k_fs k) !! i = Some n -> i_wait n = None ->
  unlock_inode i k = Ok tt (set_inode i (n <| i_lock := 0 |>) k).
Proof.
  intros Hn Hw. unfold unlock_inode. erewrite bind_Ok by by apply mod_inode_Ok.
  erewrite bind_Ok by (apply get_inode_Ok; by eapply set_inode_lookup). rsimpl. by rewrite Hw.
Qed.

(** Stores into a block, seen from the start of the block. *)
Definition window (m' m : memory) (base : Z) : Prop := forall y, m' (base + y) = m y.
Lemma st_window n m m' base a a' v : window m' m base -> a' = base + a -> window (st n m' a' v) (st n m a v) base.
Proof.
  intros H -> x. unfold st. replace (base + x - (base + a)) with (x - a) by lia.
  replace (base + a <=? base + x) with (a <=? x) by lia.
  replace (base + x <? base + a + Z.of_nat n) with (x <? a + Z.of_nat n) by lia. by rewrite H.
Qed.
Lemma store_zones_window z : forall m m' base a a', window m' m base -> a' = base + a ->
  window (store_zones m' a' z) (store_zones m a z) base.
Proof.
  induction z as [|v z IH]; intros m m' base a a' H ->; [done|]. cbn [store_zones].
  apply IH; [by apply st_window|lia].
Qed.
Lemma store_d_inode_window m m' base off n : window m' m base ->
  window (store_d_inode m' (base + off) n) (store_d_inode m off n) base.
Proof.
  intros H. unfold store_d_inode. apply store_zones_window; [|lia].
  do 6 (apply st_window; [|lia]). done.
Qed.
Lemma store_zones_outside z : forall m a x, x < a \/ a + 2 * Z.of_nat (length z) <= x -> store_zones m a z x = m x.
Proof.
  induction z as [|v z IH]; intros m a x H; [done|]. cbn [store_zones length] in *.
  rewrite IH by lia. unfold st. rewrite in_range_false; [done|lia].
Qed.
Lemma store_d_inode_outside m a n x : length (i_zone n) = 9%nat -> x < a \/ a + D_INODE_SIZE <= x ->
  store_d_inode m a n x = m x.
Proof.
  intros Hz H. unfold store_d_inode, D_INODE_SIZE in *. rewrite store_zones_outside by (rewrite Hz; lia).
  unfold st. rewrite !in_range_false; [done|lia..].
Qed.
(** A byte after a store depends only on that byte before. *)
Lemma st_at n m m' a v x : m x = m' x -> st n m a v x = st n m' a v x.
Proof. intros H. unfold st. by rewrite H. Qed.
Lemma store_zones_at z : forall m m' a x, m x = m' x -> store_zones m a z x = store_zones m' a z x.
Proof. induction z as [|v z IH]; intros m m' a x H; [done|]. cbn [store_zones]. apply IH. by apply st_at. Qed.
Lemma store_d_inode_at m m' a n x : m x = m' x -> store_d_inode m a n x = store_d_inode m' a n x.
Proof. intros H. unfold store_d_inode. apply store_zones_at. by do 6 apply st_at. Qed.
(** Loading only looks at the 32 bytes. *)
Lemma load_zones_ext m m' c : forall a a', (forall y, 0 <= y < 2 * Z.of_nat c -> m' (a' + y) = m (a + y)) ->
  load_zones m' a' c = load_zones m a c.
Proof.
  induction c as [|c IH]; intros a a' H; [done|]. cbn [load_zones]. f_equal.
  - apply ld_shift. intros y Hy. apply H. lia.
  - apply IH. intros y Hy. rewrite <- !Z.add_assoc. apply H. lia.
Qed.
Lemma load_d_inode_ext m m' a a' n : (forall y, 0 <= y < D_INODE_SIZE -> m' (a' + y) = m (a + y)) ->
  load_d_inode m' a' n = load_d_inode m a n.
Proof.
  intros H. unfold D_INODE_SIZE in H. assert (forall c i, 0 <= i -> i + Z.of_nat c <= 32 -> ld c m' (a' + i) = ld c m (a + i)) as Hld.
  { intros c i ??. apply ld_shift. intros j ?. rewrite <- !Z.add_assoc. apply H. lia. }
  unfold load_d_inode. rewrite !(Hld _ _) by lia.
  rewrite (load_zones_ext m m' 9 (a + 14) (a' + 14)) by (intros y ?; rewrite <- !Z.add_assoc; apply H; lia).
  pose proof (Hld 2%nat 0 ltac:(lia) ltac:(lia)) as E. rewrite !Z.add_0_r in E. by rewrite E.
Qed.
Lemma load_d_inode_lock m a n : i_lock n = 0 -> (load_d_inode m a (n <| i_lock := 1 |>)) <| i_lock := 0 |> = load_d_inode m a n.
Proof. intros Hl. unfold load_d_inode. generalize (load_zones m (a + 14) 9). destruct n. cbn in Hl. by subst. Qed.
Lemma inode_offset_range num : 0 <= inode_offset num /\ inode_offset num + D_INODE_SIZE <= BLOCK_SIZE.
Proof.
  unfold inode_offset, D_INODE_SIZE. assert (0 <= u64 (num - 1) mod INODES_PER_BLOCK < INODES_PER_BLOCK) as H
    by by apply Z.mod_pos_bound.
  unfold INODES_PER_BLOCK, BLOCK_SIZE in *. change (1024 / 32) with 32 in *. lia.
Qed.

(** The bytes of the block of an i-node after it was written. *)
Definition inode_written (k : kernel) (blk off : Z) (n : m_inode) (blk' x : Z) : Z :=
  if blk' =? blk then store_d_inode (disk k blk) off n x else disk k blk' x.

Section Specs.
Context {SI : SyncInodes} {HSI : SyncInodesOk SI}.

Lemma write_inode_spec k i n s sb :
  cache_ok k -> at_hand k (inode_block sb (i_num n)) -> found_super k RD_DEV s sb ->
  inode_table (k_fs k) !! i = Some n -> i_lock n = 0 -> i_wait n = None -> i_dirt n <> 0 -> i_dev n = RD_DEV ->
  length (i_zone n) = 9%nat ->
  0 <= inode_block sb (i_num n) < 2 ^ 32 -> in_disk k (inode_block sb (i_num n)) ->
  runs (write_inode i) k (fun _ k' => cache_ok k' /\ at_hand k' (inode_block sb (i_num n)) /\
    k_fs k' = k_fs (set_inode i (n <| i_dirt := 0 |>) k) /\ rd_length (k_blk k') = rd_length (k_blk k) /\
    forall blk x, in_disk k blk -> 0 <= x < BLOCK_SIZE ->
      disk k' blk x = inode_written k (inode_block sb (i_num n)) (inode_offset (i_num n)) n blk x).
Proof.
  intros Hok Hav Hsb Hn Hl Hw Hdirt Hdev Hz Hblk Hin. set (blk := inode_block sb (i_num n)) in *.
  unfold write_inode. eapply runs_step; [by apply (lock_inode_Ok _ _ n)|].
  set (n1 := n <| i_lock := 1 |>). set (k1 := set_inode i n1 k).
  assert (inode_table (k_fs k1) !! i = Some n1) as Hn1 by by eapply set_inode_lookup.
  eapply runs_step; [by apply get_inode_Ok|]. change (i_dirt n1) with (i_dirt n). change (i_dev n1) with (i_dev n).
  apply Z.eqb_neq in Hdirt. rewrite Hdirt, Hdev. cbn [orb].
  eapply runs_step; [by apply (get_super_found _ _ s sb)|]. eapply runs_step; [by apply get_sb_Ok, Hsb|].
  change (i_num n1) with (i_num n). fold blk.
  destruct Hok as (l&ch&HI). pose proof (cache_inv_ext k k1 l ch ltac:(done) HI) as HI1.
  pose proof (bread_spec k1 l ch blk HI1 Hblk (at_hand_available k1 blk Hav)) as Hbr.
  apply runs_Ok in Hbr as (r&k2&Ebr&_&Hd2&Hr2&Hres). destruct r as [b|]; [|by destruct Hres].
  destruct Hres as (_&h&((l2&ch2&HI2)&_&_&_&Hb&Hbd&Hbk&Hc)&Hup&_&Hdata).
  eapply runs_step; [exact Ebr|]. eapply runs_step; [by apply get_bh_Ok|].
  destruct Hr2 as (_&Hfs2&_&_&Hlen2&_).
  eapply runs_step; [apply get_inode_Ok; by rewrite Hfs2|]. change (i_num n1) with (i_num n).
  eapply runs_step; [reflexivity|]. eapply runs_step; [by apply mod_bh_Ok|].
  pose proof (inode_offset_range (i_num n)) as Hoff. set (off := inode_offset (i_num n)) in *.
  set (m' := store_d_inode (k_pmem k2) (b_data h + off) n1).
  assert (forall a, ~ (b_data h <= a < b_data h + BLOCK_SIZE) -> m' a = k_pmem k2 a) as Hm'.
  { intros a Ha. apply store_d_inode_outside; [done|]. lia. }
  pose proof (up_written_inv k2 l2 ch2 b h m' HI2 Hb Hbd Hup Hm') as HI3.
  pose proof (up_written_disk k2 l2 ch2 b h m' HI2 Hb Hbd Hup Hm') as Hd3.
  set (k3 := set_bh b _ _) in HI3, Hd3. change (upd k_blk _ _) with k3.
  assert (inode_table (k_fs k3) !! i = Some n1) as Hn3 by (change (k_fs k3) with (k_fs k2); by rewrite Hfs2).
  eapply runs_step; [by apply mod_inode_Ok|]. set (k4 := set_inode i _ k3).
  pose proof (cache_inv_ext k3 k4 l2 ch2 ltac:(done) HI3) as HI4.
  assert (buffers (k_blk k4) !! b = Some (h <| b_dirt := 1 |>)) as Hb4 by (apply list_lookup_insert_eq; by eapply lookup_lt_Some).
  destruct (brelse_Ok k4 l2 ch2 b _ HI4 Hb4 Hc) as (E5&HI5&Hd5).
  eapply runs_step; [exact E5|]. set (k5 := set_bh b _ k4) in *.
  assert (inode_table (k_fs k5) !! i = Some (n1 <| i_dirt := 0 |>)) as Hn5 by (by eapply set_inode_lookup).
  unfold runs. rewrite (unlock_inode_Ok k5 i _ Hn5 Hw). set (k6 := set_inode i _ k5).
  pose proof (cache_inv_ext k5 k6 l2 ch2 ltac:(done) HI5) as HI6.
  split_and!.
  - by exists l2, ch2.
  - right. exists b, (h <| b_dirt := 1 |> <| b_count := b_count h - 1 |>). split.
    + apply list_lookup_insert_eq. by eapply lookup_lt_Some.
    + split; [apply is_block_RD; [done|by split]|]. rsimpl. pose proof (ho_count _ _ (ci_heads _ _ _ HI2 b h Hb)). lia.
  - assert (k_fs k6 = (k_fs k2) <| inode_table ::= fun t =>
      <[i := n1 <| i_dirt := 0 |> <| i_lock := 0 |>]> (<[i := n1 <| i_dirt := 0 |>]> t) |>) as -> by done.
    rewrite Hfs2. unfold k1, set_inode. rsimpl. destruct (k_fs k). unfold upd. cbn. rewrite !list_insert_insert_eq.
    unfold n1. destruct n; cbn in Hl. unfold upd. cbn. by rewrite Hl.
  - done.
  - intros blk' x Hin' Hx. rewrite (disk_ext k5 k6) by done.
    assert (in_disk k2 blk') as Hin2 by (unfold in_disk in *; by rewrite Hlen2).
    rewrite (Hd5 blk' x) by done. rewrite (disk_ext k3 k4) by done. rewrite (Hd3 blk' x) by done.
    unfold inode_written. rewrite Hbk. destruct (Z.eqb_spec blk' blk) as [->|Hne].
    2:{ rewrite (Hd2 blk' x) by done. by apply disk_ext. }
    unfold m'. rewrite (store_d_inode_window (fun y => k_pmem k2 (b_data h + y)) (k_pmem k2) (b_data h) off n1) by done.
    apply (store_d_inode_at _ _ off n). rewrite Hdata by done. by apply disk_ext.
Qed.

Lemma read_inode_spec k i n s sb :
  cache_ok k -> at_hand k (inode_block sb (i_num n)) -> found_super k RD_DEV s sb ->
  inode_table (k_fs k) !! i = Some n -> i_lock n = 0 -> i_wait n = None -> i_dev n = RD_DEV ->
  0 <= inode_block sb (i_num n) < 2 ^ 32 -> in_disk k (inode_block sb (i_num n)) ->
  runs (read_inode i) k (fun _ k' => cache_ok k' /\ same_disk k k' /\
    k_fs k' = k_fs (set_inode i (load_d_inode (disk k (inode_block sb (i_num n))) (inode_offset (i_num n)) n) k)).
Proof.
  intros Hok Hav Hsb Hn Hl Hw Hdev Hblk Hin. set (blk := inode_block sb (i_num n)) in *.
  unfold read_inode. eapply runs_step; [by apply (lock_inode_Ok _ _ n)|].
  set (n1 := n <| i_lock := 1 |>). set (k1 := set_inode i n1 k).
  assert (inode_table (k_fs k1) !! i = Some n1) as Hn1 by by eapply set_inode_lookup.
  eapply runs_step; [by apply get_inode_Ok|]. change (i_dev n1) with (i_dev n). rewrite Hdev.
  eapply runs_step; [by apply (get_super_found _ _ s sb)|]. eapply runs_step; [by apply get_sb_Ok, Hsb|].
  change (i_num n1) with (i_num n). fold blk.
  destruct Hok as (l&ch&HI). pose proof (cache_inv_ext k k1 l ch ltac:(done) HI) as HI1.
  pose proof (bread_spec k1 l ch blk HI1 Hblk (at_hand_available k1 blk Hav)) as Hbr.
  apply runs_Ok in Hbr as (r&k2&Ebr&_&Hd2&(_&Hfs2&_&_&Hlen2&_)&Hres). destruct r as [b|]; [|by destruct Hres].
  destruct Hres as (_&h&((l2&ch2&HI2)&_&_&_&Hb&Hbd&Hbk&Hc)&Hup&_&Hdata).
  eapply runs_step; [exact Ebr|]. eapply runs_step; [by apply get_bh_Ok|]. eapply runs_step; [reflexivity|].
  eapply runs_step; [apply mod_inode_Ok; by rewrite Hfs2|]. set (m := load_d_inode _ _ n1). set (k3 := set_inode i m k2).
  assert (buffers (k_blk k3) !! b = Some h) as Hb3 by done.
  destruct (brelse_Ok k3 l2 ch2 b h (cache_inv_ext k2 k3 l2 ch2 ltac:(done) HI2) Hb3 Hc) as (E4&HI4&Hd4).
  eapply runs_step; [exact E4|]. set (k4 := set_bh b _ k3) in *.
  assert (inode_table (k_fs k2) !! i = Some n1) as Hn2 by (by rewrite Hfs2).
  unfold runs. erewrite (unlock_inode_Ok k4 i) by first [by eapply (set_inode_lookup k2) | done]. set (k5 := set_inode i _ k4).
  split_and!.
  - exists l2, ch2. by apply (cache_inv_ext k4).
  - intros blk' x Hx Hin'. rewrite (disk_ext k4 k5) by done.
    assert (in_disk k3 blk') by (unfold in_disk in *; change (rd_length (k_blk k3)) with (rd_length (k_blk k2)); by rewrite Hlen2).
    rewrite (Hd4 blk' x), (disk_ext k2 k3), (Hd2 blk' x) by done.
    by apply disk_ext.
  - change (k_fs k5) with (k_fs (set_inode i (m <| i_lock := 0 |>) (set_inode i m k2))).
    rewrite set_inode_twice, <- (load_d_inode_lock _ _ n Hl), <- (load_d_inode_ext _ (k_pmem k2) _ (b_data h + inode_offset (i_num n))).
    + fold n1 m. assert (forall n0, k_fs (set_inode i n0 k2) = k_fs (set_inode i n0 k1)) as -> by (intros n0; unfold set_inode; rsimpl; by rewrite Hfs2).
      unfold k1. by rewrite set_inode_twice.
    + intros y Hy. pose proof (inode_offset_range (i_num n)). unfold D_INODE_SIZE in *. rewrite <- Z.add_assoc, Hdata by lia. by apply disk_ext.
Qed.
(** When a clean buffer is unused, nothing else changes. *)
Lemma read_inode_calm k i n s sb :
  cache_ok k -> ready k -> found_super k RD_DEV s sb ->
  inode_table (k_fs k) !! i = Some n -> i_lock n = 0 -> i_wait n = None -> i_dev n = RD_DEV ->
  0 <= inode_block sb (i_num n) < 2 ^ 32 -> in_disk k (inode_block sb (i_num n)) ->
  exists k', read_inode i k = Ok tt k' /\
    calm (set_inode i (load_d_inode (disk k (inode_block sb (i_num n))) (inode_offset (i_num n)) n) k) k'.
Proof.
  intros (l0&ch0&HI0) Hre Hsb Hn Hl Hw Hdev Hblk Hin. set (blk := inode_block sb (i_num n)) in *.
  unfold read_inode. erewrite bind_Ok by by apply (lock_inode_Ok _ _ n).
  set (n1 := n <| i_lock := 1 |>). set (k1 := set_inode i n1 k).
  assert (inode_table (k_fs k1) !! i = Some n1) as Hn1 by by eapply set_inode_lookup.
  erewrite bind_Ok by by apply get_inode_Ok. change (i_dev n1) with (i_dev n). rewrite Hdev.
  erewrite bind_Ok by by apply (get_super_found _ _ s sb). cbv iota. erewrite bind_Ok by by apply get_sb_Ok, Hsb.
  change (i_num n1) with (i_num n). fold blk.
  assert (cache_ok k1) as Hok1 by (exists l0, ch0; by apply (cache_inv_ext k)).
  destruct (bread_hold k1 blk Hok1 Hre Hblk Hin) as (b&h&k2&l&ch&E&HI&Hb&Hc&_&Hr&_&Hdata&Hcalm).
  erewrite bind_Ok by exact E. cbv iota. erewrite bind_Ok by by apply get_bh_Ok. erewrite bind_Ok by reflexivity.
  pose proof Hr as (_&Hfs&_). assert (inode_table (k_fs k2) !! i = Some n1) as Hn2 by by rewrite Hfs.
  erewrite bind_Ok by by apply mod_inode_Ok. set (m := load_d_inode _ _ n1). set (k3 := set_inode i m k2).
  destruct (brelse_Ok k3 l ch b h (cache_inv_ext k2 k3 l ch ltac:(done) HI) Hb Hc) as (E4&_&_).
  erewrite bind_Ok by exact E4. set (k4 := set_bh b _ k3).
  eexists. split; [apply (unlock_inode_Ok k4 i m); [by eapply (set_inode_lookup k2)|done]|].
  assert (m <| i_lock := 0 |> = load_d_inode (disk k blk) (inode_offset (i_num n)) n) as ->.
  { unfold m, n1. rewrite load_d_inode_lock by done. apply load_d_inode_ext. intros y Hy.
    pose proof (inode_offset_range (i_num n)). rewrite <- Z.add_assoc. by rewrite Hdata by lia. }
  set (m' := load_d_inode (disk k blk) _ n).
  apply (calm_upd_fs (fun s => s <| inode_table ::= fun l => <[i := m']> l |>)) in Hcalm.
  assert (forall k0, k0 <| k_fs ::= fun s => s <| inode_table ::= fun l => <[i := m']> l |> |> = set_inode i m' k0) as Es by done.
  rewrite !Es in Hcalm. unfold k1 in Hcalm. rewrite set_inode_twice in Hcalm.
  assert (set_inode i m' k4 = set_inode i m' (set_bh b (h <| b_count := b_count h - 1 |>) k2)) as ->; [|done].
  unfold k4, k3. transitivity (set_inode i m' (set_inode i m (set_bh b (h <| b_count := b_count h - 1 |>) k2))); [done|].
  apply set_inode_twice.
Qed.
End Specs.

Lemma write_read_spec k i j n nj s sb :
  cache_ok k -> at_hand k (inode_block sb (i_num n)) -> found_super k RD_DEV s sb ->
  inode_table (k_fs k) !! i = Some n -> i_lock n = 0 -> i_wait n = None -> i_dirt n <> 0 -> i_dev n = RD_DEV ->
  d_inode_ok n -> i <> j -> inode_table (k_fs k) !! j = Some nj -> i_lock nj = 0 -> i_wait nj = None ->
  i_dev nj = RD_DEV -> i_num nj = i_num n ->
  0 <= inode_block sb (i_num n) < 2 ^ 32 -> in_disk k (inode_block sb (i_num n)) ->
  runs (write_inode i ;;; read_inode j) k (fun _ k' => cache_ok k' /\
    inode_table (k_fs k') !! i = Some (n <| i_dirt := 0 |>) /\
    inode_table (k_fs k') !! j = Some (nj <| i_mode := i_mode n |> <| i_uid := i_uid n |> <| i_size := i_size n |>
      <| i_mtime := i_mtime n |> <| i_gid := i_gid n |> <| i_nlinks := i_nlinks n |> <| i_zone := i_zone n |>)).
Proof.
  intros Hok Hav Hsb Hn Hl Hw Hd Hdev Hdn Hij Hj Hjl Hjw Hjd Hjn Hblk Hin.
  apply runs_bind. eapply runs_mono; [|apply (write_inode_spec k i n s sb); try done; apply Hdn].
  intros _ k1 (Hok1&Hav1&Hfs1&Hlen1&Hdisk1).
  assert (inode_table (k_fs k1) !! j = Some nj) as Hj1 by (rewrite Hfs1; unfold set_inode; rsimpl; by rewrite list_lookup_insert_ne).
  assert (found_super k1 RD_DEV s sb) as Hsb1 by (unfold found_super; by rewrite Hfs1).
  assert (forall b, in_disk k b -> in_disk k1 b) as Hind by (intros b; unfold in_disk; by rewrite Hlen1).
  eapply runs_mono; [|apply (read_inode_spec k1 j nj s sb); rewrite ?Hjn; try done; by apply Hind].
  intros _ k2 (Hok2&_&Hfs2). split; [done|]. rewrite Hfs2. unfold set_inode. rsimpl. rewrite Hfs1. unfold set_inode. rsimpl. split.
  - rewrite list_lookup_insert_ne by done. apply list_lookup_insert_eq. by eapply lookup_lt_Some.
  - rewrite list_lookup_insert_eq by (rewrite length_insert; by eapply lookup_lt_Some). f_equal.
    rewrite <- (load_store_d_inode (disk k (inode_block sb (i_num n))) (inode_offset (i_num n)) n nj Hdn), Hjn.
    apply load_d_inode_ext. intros y Hy. pose proof (inode_offset_range (i_num n)). rewrite Hdisk1 by (try done; lia).
    unfold inode_written. by rewrite Z.eqb_refl.
Qed.

(** ** Properties *)
Module CacheProps.

(** C1: [bread] on a block number of the RAM disk, in any state of the cache that satisfies its
    invariant and in which the block is [available] (it is cached, or a buffer can be taken for it without
    waiting), returns.  If the block is on the disk the result
    is a buffer for exactly that block, up to date, whose 1024 data bytes are the block's content as
    the file system sees it (an unwritten dirty copy included); otherwise the result is NULL.  The
    content of the whole disk is unchanged, every buffer in use keeps its block, data and users,
    and the invariant holds again. *)
Theorem bread_transparent k blk :
  cache_ok k -> 0 <= blk < 2 ^ 32 -> available k blk ->
  runs (bread RD_DEV blk) k (fun r k' => cache_ok k' /\ same_disk k k' /\ same_rest k k' /\
    match r with
    | Some b => in_disk k blk /\ exists h, got k k' b h blk /\ b_uptodate h = 1 /\
        forall x, 0 <= x < BLOCK_SIZE -> k_pmem k' (b_data h + x) = disk k blk x
    | None => ~ in_disk k blk
    end).
Proof.
  intros (l&ch&HI) Hblk Hav. eapply runs_mono; [|by apply (bread_spec k l ch)].
  intros [b|] k'; [|naive_solver]. intros (?&?&?&?&h&?&?&_&?). split_and!; try done. by exists h.
Qed.
Lemma bread_transparent_witness :
  cache_ok (booted_fs blank (k_fs kernel0)) /\ runs (bread RD_DEV 7) (booted_fs blank (k_fs kernel0)) (fun r k' => r <> None).
Proof.
  split; [apply booted_fs_ok|]. eapply runs_mono; [|apply (bread_transparent (booted_fs blank (k_fs kernel0)) 7);
    [apply booted_fs_ok|lia|apply ready_available, booted_fs_ready]].
  intros [b|] k' (_&_&_&H) E; [done|]. apply H, booted_fs_in_disk. lia.
Defined.

(** C16: replacement.  When the block is in no buffer and some buffer is unused, [getblk] returns the
    first unused and clean buffer in the order of the free list, or the first unused one if all of
    them are dirty (no i-node has to be written, so [sync_inodes] has nothing to do then); the buffer becomes the last of the free list (least recently used order), is
    marked invalid with one user, no buffer in use is disturbed, and nothing is lost: the content
    of the disk is the same, the dirty blocks having been written back. *)
Theorem getblk_replacement k l ch blk :
  cache_inv k l ch -> inodes_clean k -> 0 <= blk < 2 ^ 32 ->
  (forall b h, buffers (k_blk k) !! b = Some h -> is_block RD_DEV blk h = false) ->
  (exists b h, buffers (k_blk k) !! b = Some h /\ b_count h = 0) ->
  runs (getblk RD_DEV blk) k (fun b k' => pick (buffers (k_blk k)) l = Some b /\
    (exists ch', cache_inv k' (rm b l ++ [b]) ch') /\
    exists h, got k k' b h blk /\ b_uptodate h = 0 /\ b_count h = 1 /\ b_dirt h = 0).
Proof. apply getblk_picks. Qed.
Lemma getblk_replacement_witness :
  exists l ch, cache_inv (booted_fs blank (k_fs kernel0)) l ch /\
    runs (getblk RD_DEV 7) (booted_fs blank (k_fs kernel0)) (fun b k' => pick (buffers (k_blk (booted blank))) l = Some b).
Proof.
  destruct (booted_fs_ok blank (k_fs kernel0)) as (l&ch&HI). exists l, ch. split; [exact HI|].
  eapply runs_mono; [|apply (getblk_replacement (booted_fs blank (k_fs kernel0)) l ch 7 HI); [|lia| |]].
  - intros b k' [H _]. exact H.
  - split; [|reflexivity]. apply Forall_replicate. auto.
  - intros b h (_&Hd&_)%booted_free. unfold is_block. by rewrite Hd.
  - destruct (booted_spec blank) as (_&Hlen&_).
    destruct (lookup_lt_is_Some_2 (buffers (k_blk (booted blank))) 0) as [h Hh]; [rewrite Hlen; lia|].
    exists 0%nat, h. split; [exact Hh|apply (booted_free _ _ _ Hh)].
Defined.

(** Releasing a buffer that has no user is caught: [brelse] panics. *)
Theorem brelse_free_buffer_panics k b h :
  cache_ok k -> buffers (k_blk k) !! b = Some h -> b_count h = 0 ->
  exists k', brelse (Some b) k = Stop (Panic "Trying to free free buffer") k'.
Proof.
  intros (l&ch&HI) Hb Hc. eexists. unfold brelse. erewrite bind_Ok by by eapply wait_on_buffer_Ok.
  erewrite bind_Ok by by apply get_bh_Ok. erewrite bind_Ok by by apply mod_bh_Ok. by rewrite Hc.
Qed.
Lemma brelse_free_buffer_panics_witness :
  exists k', brelse (Some 0%nat) (booted_fs blank (k_fs kernel0)) = Stop (Panic "Trying to free free buffer") k'.
Proof.
  destruct (booted_spec blank) as (_&Hlen&_).
  destruct (lookup_lt_is_Some_2 (buffers (k_blk (booted blank))) 0) as [h Hh]; [rewrite Hlen; lia|].
  apply (brelse_free_buffer_panics (booted_fs blank (k_fs kernel0)) 0 h); [apply booted_fs_ok|exact Hh|apply (booted_free _ _ _ Hh)].
Defined.

(** The boot sequence of the storage stack ([rd_init], [blk_dev_init], [buffer_init] over the
    100 KB that main.c sets aside) returns and establishes the invariant of the cache, with 94
    buffers, all unused, and the disk equal to the memory of the RAM disk. *)
Theorem boot_establishes_cache k start blocknr0 :
  static_blk (k_blk k) -> 0 <= start ->
  start + 100 * 1024 <= RD_START \/ RD_START + RD_LENGTH <= start ->
  runs (boot_storage start blocknr0) k (fun _ k' => cache_ok k' /\ length (buffers (k_blk k')) = 94%nat /\
    k_pmem k' = k_pmem k /\
    (forall b h, buffers (k_blk k') !! b = Some h -> b_count h = 0 /\ b_dev h = 0) /\
    forall blk x, disk k' blk x = k_pmem k (RD_START + blk * BLOCK_SIZE + x)).
Proof.
  intros. eapply runs_mono; [|by apply boot_storage_spec]. naive_solver.
Qed.
Lemma boot_establishes_cache_witness :
  runs (boot_storage 0x80010000 (fun _ => 0)) kernel0 (fun _ k' => cache_ok k').
Proof.
  eapply runs_mono; [|apply (boot_establishes_cache kernel0); [apply static_kernel0|lia|left; unfold RD_START; lia]].
  intros ? k' [H _]. exact H.
Defined.

(** C25: round trip of i-nodes through the cache.  [write_inode] of a dirty i-node followed by
    [read_inode] of the same number into another slot returns, leaves the first i-node clean, and
    the second one has mode, owner, size, time, group, links and the nine zones of the first. *)
Theorem write_read_inode k i j n nj s sb :
  cache_ok k -> at_hand k (inode_block sb (i_num n)) -> found_super k RD_DEV s sb ->
  inode_table (k_fs k) !! i = Some n -> i_lock n = 0 -> i_wait n = None -> i_dirt n <> 0 -> i_dev n = RD_DEV ->
  d_inode_ok n -> i <> j -> inode_table (k_fs k) !! j = Some nj -> i_lock nj = 0 -> i_wait nj = None ->
  i_dev nj = RD_DEV -> i_num nj = i_num n ->
  0 <= inode_block sb (i_num n) < 2 ^ 32 -> in_disk k (inode_block sb (i_num n)) ->
  runs (write_inode i ;;; read_inode j) k (fun _ k' => cache_ok k' /\
    inode_table (k_fs k') !! i = Some (n <| i_dirt := 0 |>) /\
    inode_table (k_fs k') !! j = Some (nj <| i_mode := i_mode n |> <| i_uid := i_uid n |> <| i_size := i_size n |>
      <| i_mtime := i_mtime n |> <| i_gid := i_gid n |> <| i_nlinks := i_nlinks n |> <| i_zone := i_zone n |>)).
Proof. apply write_read_spec. Qed.

Definition demo_inode : m_inode :=
  mkInode 0x81A4 1 5000 77 2 1 [10; 11; 12; 13; 14; 0; 0; 0; 0] None 0 0 RD_DEV 40 1 0 1 0 0 0 0.
Definition demo_blank : m_inode := zero_inode <| i_dev := RD_DEV |> <| i_num := 40 |>.
Definition demo_super : super_block :=
  mkSuper 128 360 1 1 8 0 268966912 SUPER_MAGIC (replicate I_MAP_SLOTS None) (replicate Z_MAP_SLOTS None)
    RD_DEV None None 0 None 0 0 0.
Definition demo_fs : fs_state :=
  mkFs (demo_inode :: demo_blank :: replicate 30 zero_inode) 0 (demo_super :: replicate 7 zero_super) (replicate NR_FILE zero_file) RD_DEV.
Lemma write_read_inode_witness :
  runs (write_inode 0 ;;; read_inode 1) (booted_fs blank demo_fs) (fun _ k' => exists nj,
    inode_table (k_fs k') !! 1%nat = Some nj /\ i_size nj = 5000 /\ i_zone nj = [10; 11; 12; 13; 14; 0; 0; 0; 0]).
Proof.
  eapply runs_mono; [|apply (write_read_inode (booted_fs blank demo_fs) 0 1 demo_inode demo_blank 0 demo_super);
    try reflexivity; try discriminate; [apply booted_fs_ok|left; apply booted_fs_ready| | | |]].
  - intros ? k' (_&_&->). eexists. split; [reflexivity|]. split; reflexivity.
  - split_and!; try reflexivity; try discriminate. { unfold NR_SUPER; lia. } intros; lia.
  - split_and!; try reflexivity; try discriminate. repeat constructor; lia.
  - split; [vm_compute; discriminate|reflexivity].
  - apply booted_fs_in_disk. split; [vm_compute; discriminate|reflexivity].
Defined.
End CacheProps.
