(* ===== verification/Bitmap.v ===== *)
(** * The bitmaps of a Minix file system (fs/bitmap.c), freeing a file (fs/truncate.c)

    [free_block], [new_block] and [free_inode] on the zone and i-node bitmaps whose blocks
    the super block keeps in memory, and [truncate].  A bitmap is read and written with
    64-bit accesses at any byte address, as the code does. *)
From Stdlib Require Import ZArith Lia String.
From stdpp Require Import base list gmap.
From S2P Require Import Prelude State BlockIO Buffer BufferCache BufferInit InodeIO.
Open Scope Z_scope.

(** The macro of fs/bitmap.c (and of fs/super.c): a block holds [2^13] bits. *)
Definition BLOCK_SIZE_BITS : Z := 13.
Definition BITS_PER_BLOCK : Z := Z.shiftl 1 BLOCK_SIZE_BITS.

(** ** Bits *)
Definition clear_block (addr : Z) : K unit :=
  for_up 0 128 (fun i => wr64 (addr + 8 * i) 0).

Definition set_bit (nr addr : Z) : K Z :=
  let addr := addr + Z.shiftr nr 3 in
  let bit := Z.land nr 7 in
  let! v := rd64 addr in
  let old := Z.land (Z.shiftr v bit) 1 in
  wr64 addr (Z.lor v (Z.shiftl 1 bit)) ;;;
  ret old.

Definition clear_bit (nr addr : Z) : K Z :=
  let addr := addr + Z.shiftr nr 3 in
  let bit := Z.land nr 7 in
  let! v := rd64 addr in
  let old := Z.land (u64 (Z.lnot (Z.shiftr v bit))) 1 in
  wr64 addr (Z.land v (u64 (Z.lnot (Z.shiftl 1 bit)))) ;;;
  ret old.

(** The inner loop: the lowest set bit of [v], [v >>= 1] per round. *)
Fixpoint first_one (n : nat) (v j : Z) : option Z :=
  match n with
  | O => None
  | S n => if truth (Z.land v 1) then Some j else first_one n (Z.shiftr v 1) (j + 1)
  end.
(** The outer loop reads the word at [addr] each time: [addr] is never advanced. *)
Definition find_first_zero (addr : Z) : K Z :=
  loop 129 (fun i =>
    if i <? BLOCK_SIZE then
      let! w := rd64 addr in
      let v := u64 (Z.lnot w) in
      if truth v then
        match first_one 64 v 0 with
        | Some j => ret (inr (Z.shiftl i 3 + j))
        | None => ret (inl (i + 8))
        end
      else ret (inl (i + 8))
    else ret (inr (Z.shiftl i 3))) 0.

(** [sb->s_zmap[i]], [sb->s_imap[i]] (the array index checked), and the buffer there. *)
Definition map_slot (m : list (option nat)) (i : Z) : K (option nat) := unwrap "bitmap slot" (idx m i).

(** ** Blocks *)
Section Blocks.
Context {SI : SyncInodes}.

(** The part of [free_block] on the buffer of the block: [true] if it is in use and the function
    returns early. *)
Definition drop_cached (dev block : Z) : K bool :=
  let! bh := get_hash_table dev block in
  match bh with
  | None => ret false
  | Some b =>
      let! h := get_bh b in
      if 1 <? b_count h then brelse (Some b) ;;; ret true
      else
        mod_bh b (fun h => h <| b_dirt := 0 |>) ;;;
        mod_bh b (fun h => h <| b_uptodate := 0 |>) ;;;
        brelse (Some b) ;;;
        ret false
  end.

Definition free_block (dev block : Z) : K unit :=
  let! s := get_super dev in
  match s with
  | None => panic "trying to free block on nonexistent device"
  | Some s =>
      let! sb := get_sb s in
      if (block <? s_firstdatazone sb) || (s_nzones sb <=? block)
      then panic "trying to free block not in datazone"
      else
        let! busy := drop_cached dev block in
        if busy then skip
        else
          let! sb := get_sb s in
          let block := block - (s_firstdatazone sb - 1) in
          let! z := map_slot (s_zmap sb) (Z.shiftr block BLOCK_SIZE_BITS) in
          let! z := unwrap "s_zmap" z in
          let! h := get_bh z in
          let! old := clear_bit (Z.land block (BITS_PER_BLOCK - 1)) (b_data h) in
          if truth old then panic "free_block: bit already cleared"
          else mod_bh z (fun h => h <| b_dirt := 1 |>)
  end.

(** The search of [new_block] and [new_inode]: [(i, bh, j)] when the loop is left. *)
Definition search_map (slots : nat) (m : list (option nat)) : K (Z * option nat * Z) :=
  loop (S slots) (fun '(i, bh, j) =>
    if i <? Z.of_nat slots then
      let! bh := map_slot m i in
      match bh with
      | None => ret (inl (i + 1, bh, j))
      | Some b =>
          let! h := get_bh b in
          let! j := find_first_zero (b_data h) in
          if j <? BITS_PER_BLOCK then ret (inr (i, bh, j)) else ret (inl (i + 1, bh, j))
      end
    else ret (inr (i, bh, j))) (0, None, BITS_PER_BLOCK).

Definition new_block (dev : Z) : K Z :=
  let! s := get_super dev in
  match s with
  | None => panic "trying to get new block from nonexistent device"
  | Some s =>
      let! sb := get_sb s in
      let! (i, bh, j) := search_map Z_MAP_SLOTS (s_zmap sb) in
      match bh with
      | Some b =>
          if (Z.of_nat Z_MAP_SLOTS <=? i) || (BITS_PER_BLOCK <=? j) then ret 0
          else
            let! h := get_bh b in
            let! old := set_bit j (b_data h) in
            if truth old then panic "new_block: bit already set"
            else
              mod_bh b (fun h => h <| b_dirt := 1 |>) ;;;
              let j := j + (Z.shiftl i BLOCK_SIZE_BITS + s_firstdatazone sb - 1) in
              if s_nzones sb <=? j then ret 0
              else
                let! b := getblk dev j in
                let! h := get_bh b in
                if negb (b_count h =? 1) then panic "new block: count is != 1"
                else
                  clear_block (b_data h) ;;;
                  mod_bh b (fun h => h <| b_uptodate := 1 |>) ;;;
                  mod_bh b (fun h => h <| b_dirt := 1 |>) ;;;
                  brelse (Some b) ;;;
                  ret j
      | None => ret 0
      end
  end.
End Blocks.

(** ** I-nodes *)
Definition free_inode (inode : option nat) : K unit :=
  match inode with
  | None => skip
  | Some i =>
      let! n := get_inode i in
      if i_dev n =? 0 then mod_inode i (fun _ => zero_inode)
      else if 1 <? i_count n then panic "free_inode"
      else if truth (i_nlinks n) then panic "trying to free inode with links"
      else
        let! s := get_super (i_dev n) in
        match s with
        | None => panic "trying to free inode on nonexistent device"
        | Some s =>
            let! sb := get_sb s in
            if (i_num n <? 1) || (s_ninodes sb <? i_num n)
            then panic "trying to free inode 0 or nonexistent inode"
            else
              let! b := map_slot (s_imap sb) (Z.shiftr (i_num n) BLOCK_SIZE_BITS) in
              match b with
              | None => panic "nonexistent imap in superblock"
              | Some b =>
                  let! h := get_bh b in
                  (* the mask is [1 << 13], not [(1 << 13) - 1] *)
                  let! _ := clear_bit (Z.land (i_num n) BITS_PER_BLOCK) (b_data h) in
                  mod_bh b (fun h => h <| b_dirt := 1 |>) ;;;
                  mod_inode i (fun _ => zero_inode)
              end
        end
  end.

(** ** fs/truncate.c *)
Section Truncate.
Context {SI : SyncInodes}.

(** The loop over the 512 zone numbers of an indirect block. *)
Definition free_zones (free : Z -> K unit) (b : nat) : K unit :=
  for_up 0 512 (fun i =>
    let! h := get_bh b in
    let! z := rd16 (b_data h + 2 * i) in
    when (truth z) (free z)).
Definition free_ind (dev block : Z) : K unit :=
  if block =? 0 then skip
  else
    let! bh := bread dev block in
    match bh with
    | Some b => free_zones (free_block dev) b ;;; brelse (Some b)
    | None => skip
    end ;;;
    free_block dev block.
Definition free_dind (dev block : Z) : K unit :=
  if block =? 0 then skip
  else
    let! bh := bread dev block in
    match bh with
    | Some b => free_zones (free_ind dev) b ;;; brelse (Some b)
    | None => skip
    end ;;;
    free_block dev block.

(** [inode->i_zone[i]], [inode->i_zone[i] = v]. *)
Definition zone (inode : nat) (i : Z) : K Z :=
  let! n := get_inode inode in unwrap "i_zone index" (idx (i_zone n) i).
Definition set_zone (inode : nat) (i v : Z) : K unit :=
  mod_inode inode (fun n => n <| i_zone ::= fun z => upd_idx z i v |>).

Definition truncate (inode : nat) : K unit :=
  let! n := get_inode inode in
  if negb (S_ISREG (i_mode n)) || S_ISDIR (i_mode n) then skip
  else
    for_up 0 7 (fun i =>
      let! z := zone inode i in
      when (truth z) (
        let! n := get_inode inode in
        free_block (i_dev n) z ;;;
        set_zone inode i 0)) ;;;
    let! n := get_inode inode in
    let! z := zone inode 7 in
    free_ind (i_dev n) z ;;;
    let! n := get_inode inode in
    let! z := zone inode 8 in
    (* [free_ind], not [free_dind] *)
    free_ind (i_dev n) z ;;;
    set_zone inode 8 0 ;;;
    set_zone inode 7 0 ;;;
    mod_inode inode (fun n => n <| i_size := 0 |>) ;;;
    mod_inode inode (fun n => n <| i_dirt := 1 |>) ;;;
    let! t := CURRENT_TIME in
    mod_inode inode (fun n => n <| i_ctime := u32 t |>) ;;;
    mod_inode inode (fun n => n <| i_mtime := i_ctime n |>).
End Truncate.

(** ** Memory as bits: bit [p] of memory is bit [p mod 8] of the byte at [p / 8] *)
Definition mbit (m : memory) (p : Z) : bool := Z.testbit (u8 (m (p / 8))) (p mod 8).

Lemma u8_testbit x i : 0 <= i < 8 -> Z.testbit (u8 x) i = Z.testbit x i.
Proof. intros. unfold u8. by rewrite Z.mod_pow2_bits_low by dlia. Qed.
Lemma byte_eq x y : (forall i, 0 <= i < 8 -> Z.testbit x i = Z.testbit y i) -> u8 x = u8 y.
Proof.
  intros H. apply Z.bits_inj'. intros i Hi. destruct (Z.lt_ge_cases i 8).
  - rewrite !u8_testbit by dlia. apply H. lia.
  - unfold u8. by rewrite !Z.mod_pow2_bits_high by dlia.
Qed.
Lemma mbit_byte m a i : 0 <= i < 8 -> mbit m (8 * a + i) = Z.testbit (m a) i.
Proof.
  intros. unfold mbit. replace ((8 * a + i) / 8) with a by dlia. replace ((8 * a + i) mod 8) with i by dlia.
  by apply u8_testbit.
Qed.
Lemma mbit_eq m m' a : (forall i, 0 <= i < 8 -> mbit m' (8 * a + i) = mbit m (8 * a + i)) -> u8 (m' a) = u8 (m a).
Proof. intros H. apply byte_eq. intros i Hi. specialize (H i Hi). by rewrite !mbit_byte in H. Qed.

Lemma ld_testbit n m : forall a i, 0 <= i < 8 * Z.of_nat n -> Z.testbit (ld n m a) i = mbit m (8 * a + i).
Proof.
  induction n as [|n IH]; intros a i Hi; [lia|].
  change (ld (S n) m a) with (u8 (m a) + 256 * ld n m (a + 1)).
  rewrite Z.add_nocarry_lxor. 2:{
    apply Z.bits_inj'. intros j Hj. rewrite Z.land_spec, Z.bits_0. change 256 with (2 ^ 8).
    rewrite Z.mul_comm, <- Z.shiftl_mul_pow2, Z.shiftl_spec by dlia. destruct (Z.lt_ge_cases j 8).
    - rewrite (Z.testbit_neg_r _ (j - 8)) by dlia. apply andb_false_r.
    - unfold u8. by rewrite Z.mod_pow2_bits_high by dlia. }
  rewrite Z.lxor_spec. change 256 with (2 ^ 8). rewrite Z.mul_comm, <- Z.shiftl_mul_pow2, Z.shiftl_spec by dlia.
  destruct (Z.lt_ge_cases i 8).
  - rewrite (Z.testbit_neg_r _ (i - 8)) by dlia. rewrite xorb_false_r, u8_testbit, mbit_byte by dlia. done.
  - unfold u8 at 1. rewrite Z.mod_pow2_bits_high by dlia. rewrite IH by dlia. cbn. f_equal. lia.
Qed.
Lemma mbit_st n m a v p :
  mbit (st n m a v) p = if (8 * a <=? p) && (p <? 8 * (a + Z.of_nat n)) then Z.testbit v (p - 8 * a) else mbit m p.
Proof.
  unfold mbit, st. pose proof (Z.mod_pos_bound p 8 ltac:(lia)).
  destruct (Z.leb_spec (8 * a) p), (Z.ltb_spec p (8 * (a + Z.of_nat n))); cbn [andb].
  2-4: rewrite in_range_false by dlia; done.
  rewrite in_range_true by dlia. rewrite !u8_testbit, Z.shiftr_spec by dlia. f_equal. dlia.
Qed.

(** The result and the memory of [set_bit] and [clear_bit]: exactly one bit changes. *)
Definition flips (m m' : memory) (a nr : Z) (v : bool) : Prop :=
  (forall p, mbit m' p = if p =? 8 * a + nr then v else mbit m p) /\
  (forall x, ~ (a + nr / 8 <= x < a + nr / 8 + 8) -> m' x = m x).

Lemma bit_addr nr : 0 <= nr -> Z.shiftr nr 3 = nr / 8 /\ Z.land nr 7 = nr mod 8.
Proof.
  intros. split; [by rewrite Z.shiftr_div_pow2|]. change 7 with (Z.ones 3). by rewrite Z.land_ones by dlia.
Qed.
Lemma low_bit v b : 0 <= b -> Z.land (Z.shiftr v b) 1 = b2z (Z.testbit v b).
Proof.
  intros. rewrite (Z.land_ones _ 1) by dlia. change (2 ^ 1) with 2. rewrite <- Z.bit0_mod, Z.shiftr_spec by dlia.
  rewrite Z.add_0_l. by destruct (Z.testbit v b).
Qed.
Lemma u64_testbit v i : 0 <= i < 64 -> Z.testbit (u64 v) i = Z.testbit v i.
Proof. intros. unfold u64. by rewrite Z.mod_pow2_bits_low by dlia. Qed.

Lemma set_bit_spec k nr a : 0 <= nr ->
  exists m', set_bit nr a k = Ok (b2z (mbit (k_pmem k) (8 * a + nr))) (k <| k_pmem := m' |>) /\
    flips (k_pmem k) m' a nr true.
Proof.
  intros Hnr. unfold set_bit. destruct (bit_addr nr Hnr) as [-> ->]. set (b := nr mod 8).
  assert (0 <= b < 8) as Hb by (apply Z.mod_pos_bound; dlia). set (A := a + nr / 8).
  set (v := ld 8 (k_pmem k) A). eexists. split.
  - cbv zeta. erewrite bind_Ok by reflexivity. erewrite bind_Ok by reflexivity.
    change (ld 8 (k_pmem k) A) with v. rewrite low_bit by dlia. unfold v. rewrite ld_testbit by dlia.
    replace (8 * A + b) with (8 * a + nr) by (unfold A, b; dlia). reflexivity.
  - split.
    + intros p. rewrite mbit_st. rewrite Z.lor_spec. unfold v.
      destruct (Z.leb_spec (8 * A) p), (Z.ltb_spec p (8 * (A + Z.of_nat 8))); cbn [andb];
        try (replace (p =? 8 * a + nr) with false by (unfold A, b in *; dlia); done).
      rewrite ld_testbit by dlia. replace (8 * A + (p - 8 * A)) with p by dlia.
      rewrite Z.shiftl_spec by dlia. destruct (Z.eqb_spec p (8 * a + nr)) as [->|Hne].
      * replace (8 * a + nr - 8 * A - b) with 0 by (unfold A, b; dlia). apply orb_true_r.
      * rewrite <- (Z.shiftl_spec 1 b) by dlia. rewrite Z.shiftl_1_l, Z.pow2_bits_eqb by dlia.
        replace (b =? p - 8 * A) with false by (unfold A, b in *; dlia). apply orb_false_r.
    + intros x Hx. unfold st. rewrite in_range_false; [done|]. unfold A in *. dlia.
Qed.
Lemma clear_bit_spec k nr a : 0 <= nr ->
  exists m', clear_bit nr a k = Ok (b2z (negb (mbit (k_pmem k) (8 * a + nr)))) (k <| k_pmem := m' |>) /\
    flips (k_pmem k) m' a nr false.
Proof.
  intros Hnr. unfold clear_bit. destruct (bit_addr nr Hnr) as [-> ->]. set (b := nr mod 8).
  assert (0 <= b < 8) as Hb by (apply Z.mod_pos_bound; dlia). set (A := a + nr / 8).
  set (v := ld 8 (k_pmem k) A). eexists. split.
  - cbv zeta. erewrite bind_Ok by reflexivity. erewrite bind_Ok by reflexivity.
    change (ld 8 (k_pmem k) A) with v. rewrite <- (Z.shiftr_0_r (u64 _)), low_bit by dlia.
    rewrite u64_testbit, Z.lnot_spec, Z.shiftr_spec by dlia. rewrite Z.add_0_l. unfold v. rewrite ld_testbit by dlia.
    replace (8 * A + b) with (8 * a + nr) by (unfold A, b; dlia). reflexivity.
  - split.
    + intros p. rewrite mbit_st. rewrite Z.land_spec. unfold v.
      destruct (Z.leb_spec (8 * A) p), (Z.ltb_spec p (8 * (A + Z.of_nat 8))); cbn [andb];
        try (replace (p =? 8 * a + nr) with false by (unfold A, b in *; dlia); done).
      rewrite ld_testbit by dlia. replace (8 * A + (p - 8 * A)) with p by dlia.
      rewrite u64_testbit, Z.lnot_spec, Z.shiftl_1_l, Z.pow2_bits_eqb by dlia.
      destruct (Z.eqb_spec p (8 * a + nr)) as [->|Hne].
      * replace (b =? 8 * a + nr - 8 * A) with true by (unfold A, b; dlia). apply andb_false_r.
      * replace (b =? p - 8 * A) with false by (unfold A, b in *; dlia). apply andb_true_r.
    + intros x Hx. unfold st. rewrite in_range_false; [done|]. unfold A in *. dlia.
Qed.

(** ** The search for a free bit *)
(** The lowest [j] below the bound with [f j = false]. *)
Fixpoint lowest_free (f : Z -> bool) (n : nat) (j : Z) : option Z :=
  match n with
  | O => None
  | S n => if f j then lowest_free f n (j + 1) else Some j
  end.
Lemma lowest_free_Some f n : forall j r, lowest_free f n j = Some r ->
  j <= r < j + Z.of_nat n /\ f r = false /\ forall i, j <= i < r -> f i = true.
Proof.
  induction n as [|n IH]; intros j r H; [done|]. cbn [lowest_free] in H. destruct (f j) eqn:E.
  - apply IH in H as (?&?&Hb). split_and!; [lia|lia|done|]. intros i Hi.
    destruct (decide (i = j)) as [->|]; [done|]. apply Hb. lia.
  - injection H as <-. split_and!; [lia|lia|done|]. intros i Hi. lia.
Qed.
Lemma lowest_free_None f n : forall j, lowest_free f n j = None -> forall i, j <= i < j + Z.of_nat n -> f i = true.
Proof.
  induction n as [|n IH]; intros j H i Hi; [lia|]. cbn [lowest_free] in H. destruct (f j) eqn:E; [|done].
  destruct (decide (i = j)) as [->|]; [done|]. apply (IH _ H). lia.
Qed.
Lemma first_one_lowest f n : forall v j, (forall i, 0 <= i < Z.of_nat n -> Z.testbit v i = negb (f (j + i))) ->
  first_one n v j = lowest_free f n j.
Proof.
  induction n as [|n IH]; intros v j H; [done|]. cbn [first_one lowest_free].
  rewrite <- (Z.shiftr_0_r v) at 1. rewrite low_bit, (H 0), Z.add_0_r by lia.
  destruct (f j); cbn [negb b2z]; [|done]. change (truth 0) with false. cbv iota. apply IH.
  intros i Hi. rewrite Z.shiftr_spec, H by lia. do 2 f_equal. lia.
Qed.

(** The first 64 bits of the map at [a]. *)
Definition free_in_word (m : memory) (a : Z) : option Z := lowest_free (fun j => mbit m (8 * a + j)) 64 0.

Lemma find_first_zero_spec k a :
  find_first_zero a k = Ok (default BITS_PER_BLOCK (free_in_word (k_pmem k) a)) k.
Proof.
  unfold find_first_zero. set (body := fun i : Z => _). set (w := ld 8 (k_pmem k) a). set (v := u64 (Z.lnot w)).
  assert (first_one 64 v 0 = free_in_word (k_pmem k) a) as Hv.
  { apply first_one_lowest. intros i Hi. unfold v. rewrite u64_testbit, Z.lnot_spec by lia. unfold w.
    rewrite ld_testbit by lia. by rewrite Z.add_0_l. }
  destruct (free_in_word (k_pmem k) a) as [j|] eqn:Hf.
  - rewrite loop_S. erewrite (bind_Ok _ _ _ (inr j)); [done|]. unfold body. change (0 <? BLOCK_SIZE) with true.
    cbv iota. erewrite bind_Ok by reflexivity. fold w. fold v. assert (truth v = true) as ->.
    { apply truth_true. intros E. rewrite E in Hv. done. }
    by rewrite Hv.
  - assert (forall i, i < 1024 -> body i k = Ok (inl (i + 8)) k) as Hb.
    { intros i Hi. unfold body. change BLOCK_SIZE with 1024. apply Z.ltb_lt in Hi as ->.
      erewrite bind_Ok by reflexivity. fold w. fold v. rewrite Hv. by destruct (truth v). }
    assert (forall d i fuel, i + 8 * Z.of_nat d = 1024 -> (d < fuel)%nat -> loop fuel body i k = Ok BITS_PER_BLOCK k) as H.
    { induction d as [|d IH]; intros i fuel Hi Hf'; (destruct fuel as [|fuel]; [lia|]); rewrite loop_S.
      - assert (i = 1024) as -> by lia. done.
      - erewrite bind_Ok by (apply Hb; lia). apply IH; lia. }
    apply (H 128%nat); lia.
Qed.

(** With one block of bitmap, the search is the search in its first word. *)
Lemma search_map_spec k (slots : nat) z h m :
  m = Some z :: replicate (slots - 1) None -> (0 < slots)%nat -> buffers (k_blk k) !! z = Some h ->
  search_map slots m k =
  match free_in_word (k_pmem k) (b_data h) with
  | Some j => Ok (0, Some z, j) k
  | None => Ok (Z.of_nat slots, if (slots =? 1)%nat then Some z else None, BITS_PER_BLOCK) k
  end.
Proof.
  intros -> Hs Hz. unfold search_map. set (body := fun p : Z * option nat * Z => _).
  pose proof (find_first_zero_spec k (b_data h)) as Hff.
  assert (body (0, None, BITS_PER_BLOCK) k = Ok (match free_in_word (k_pmem k) (b_data h) with
    Some j => inr (0, Some z, j) | None => inl (1, Some z, BITS_PER_BLOCK) end) k) as H0.
  { unfold body. destruct (Z.ltb_spec 0 (Z.of_nat slots)); [|lia]. rewrite (bind_Ok _ _ _ (Some z) k) by done.
    erewrite bind_Ok by by apply get_bh_Ok. erewrite bind_Ok by exact Hff.
    destruct (free_in_word _ _) as [j|] eqn:E; [|done]. change (default _ (Some j)) with j.
    apply lowest_free_Some in E as (?&_). destruct (Z.ltb_spec j BITS_PER_BLOCK); [done|]. change BITS_PER_BLOCK with 8192 in *. lia. }
  rewrite loop_S. erewrite bind_Ok by exact H0. destruct (free_in_word _ _) as [j|]; [done|].
  assert (forall d i bh fuel, i + Z.of_nat d = Z.of_nat slots -> 1 <= i -> (d < fuel)%nat ->
    loop fuel body (i, bh, BITS_PER_BLOCK) k = Ok (Z.of_nat slots, if (d =? 0)%nat then bh else None, BITS_PER_BLOCK) k) as H.
  { induction d as [|d IH]; intros i bh fuel Hi Hi1 Hf; (destruct fuel as [|fuel]; [lia|]); rewrite loop_S.
    - assert (i = Z.of_nat slots) as -> by lia. unfold body. by rewrite Z.ltb_irrefl.
    - erewrite (bind_Ok _ _ _ (inl (i + 1, None, BITS_PER_BLOCK)) k).
      + rewrite IH by lia. by destruct d.
      + unfold body. destruct (Z.ltb_spec i (Z.of_nat slots)); [|lia].
        erewrite (bind_Ok _ _ _ None k); [done|]. unfold map_slot, idx. destruct (Z.ltb_spec i 0); [lia|].
        destruct (Z.to_nat i) as [|n] eqn:En; [lia|].
        change ((Some z :: ?l) !! S n) with (l !! n). by rewrite lookup_replicate_2 by lia. }
  rewrite (H (slots - 1)%nat) by lia. do 3 f_equal. destruct slots as [|[|]]; done || lia.
Qed.

(** ** [clear_block] *)
Lemma set_pmem_id k : k <| k_pmem := k_pmem k |> = k.
Proof. by destruct k. Qed.
Lemma clear_block_spec k a :
  exists m', clear_block a k = Ok tt (k <| k_pmem := m' |>) /\
    (forall x, a <= x < a + BLOCK_SIZE -> m' x = 0) /\ (forall x, ~ (a <= x < a + BLOCK_SIZE) -> m' x = k_pmem k x).
Proof.
  pose proof (runs_for_up (fun i k' => exists m', k' = k <| k_pmem := m' |> /\
      (forall x, a <= x < a + 8 * i -> m' x = 0) /\ (forall x, ~ (a <= x < a + 8 * i) -> m' x = k_pmem k x))
      (fun i => wr64 (a + 8 * i) 0) 128 0 k) as H.
  apply runs_Ok in H as ([]&k'&E&m'&->&H1&H2).
  - exists m'. split; [exact E|]. unfold BLOCK_SIZE. split; intros x Hx; [apply H1|apply H2]; lia.
  - intros i s Hi (m'&->&H1&H2). unfold wr64, wr. apply runs_modify. exists (st 8 m' (a + 8 * i) 0).
    split; [by destruct k|]. split; intros x Hx; unfold st.
    + destruct (decide (a + 8 * i <= x)); [rewrite in_range_true by lia; by rewrite Z.shiftr_0_l|].
      rewrite in_range_false by lia. apply H1. lia.
    + rewrite in_range_false by lia. apply H2. lia.
  - exists (k_pmem k). rewrite set_pmem_id. split_and!; try done. intros x Hx. lia.
Qed.

(** ** Allocating a block *)
(** The zone bitmap of the RAM disk is one block, held in buffer [z]; the data zones follow it
    and are on the disk. *)
Record zmap_ok (k : kernel) (s : nat) (sb : super_block) (z : nat) (hz : buffer_head) : Prop := mkZmapOk {
  zo_super : found_super k RD_DEV s sb;
  zo_slots : s_zmap sb = Some z :: replicate 7 None;
  zo_buf : buffers (k_blk k) !! z = Some hz;
  zo_count : 1 <= b_count hz;
  zo_dev : b_dev hz = RD_DEV;
  zo_up : b_uptodate hz = 1;
  zo_first : 1 <= s_firstdatazone sb;
  zo_meta : b_blocknr hz < s_firstdatazone sb;
  zo_zones : s_nzones sb <= 65535;
  zo_disk : forall j, s_firstdatazone sb <= j < s_nzones sb -> in_disk k j }.
(** Bit [j] of the map, as it is on the disk. *)
Definition used_bit (k : kernel) (hz : buffer_head) (j : Z) : bool := mbit (disk k (b_blocknr hz)) j.

Lemma mbit_window m m' a i : (forall x, 0 <= x < BLOCK_SIZE -> m' (a + x) = m x) -> 0 <= i < BITS_PER_BLOCK ->
  mbit m' (8 * a + i) = mbit m i.
Proof.
  intros H Hi. change BITS_PER_BLOCK with 8192 in Hi. unfold BLOCK_SIZE in H. unfold mbit.
  replace ((8 * a + i) / 8) with (a + i / 8) by dlia. replace ((8 * a + i) mod 8) with (i mod 8) by dlia.
  rewrite H by dlia. done.
Qed.
Lemma zmap_bits k l ch s sb z hz i : cache_inv k l ch -> zmap_ok k s sb z hz -> 0 <= i < BITS_PER_BLOCK ->
  mbit (k_pmem k) (8 * b_data hz + i) = used_bit k hz i.
Proof.
  intros HI []. apply mbit_window. intros x _. symmetry. apply (disk_holder _ _ _ HI z hz); [done|].
  by apply holds_spec.
Qed.
Lemma lowest_free_ext f g n : forall j, (forall i, j <= i < j + Z.of_nat n -> f i = g i) -> lowest_free f n j = lowest_free g n j.
Proof.
  induction n as [|n IH]; intros j H; [done|]. cbn [lowest_free]. rewrite H by lia. rewrite IH; [done|].
  intros i Hi. apply H. lia.
Qed.
(** Writing into a buffer in use takes no spare buffer away. *)
Lemma ready_written k b h h' m' : ready k -> buffers (k_blk k) !! b = Some h -> 1 <= b_count h -> b_count h' = b_count h ->
  ready (set_bh b h' (k <| k_pmem := m' |>)).
Proof.
  intros [[x Hs] Hc] Hb H1 He. split.
  - exists x. unfold spare, set_bh in *. rsimpl. rewrite list_lookup_insert_ne; [done|]. intros ->. rewrite Hb in Hs.
    apply andb_true_iff in Hs as [?%Z.eqb_eq _]. lia.
  - unfold set_bh. rsimpl. intros x' hx [(->&->&_)|[_ Hx]]%list_lookup_insert_Some; [rewrite He|]; by eapply Hc.
Qed.
Lemma mod_bh2 k b h f g (A : Type) (c : K A) : buffers (k_blk k) !! b = Some h ->
  (mod_bh b f ;;; mod_bh b g ;;; c) k = c (set_bh b (g (f h)) k).
Proof.
  intros Hb. erewrite bind_Ok by by apply mod_bh_Ok.
  erewrite bind_Ok by (apply mod_bh_Ok; rsimpl; apply list_lookup_insert_eq; by eapply lookup_lt_Some).
  f_equal. unfold set_bh. destruct k as [? [] ? ? ? ?]. unfold upd. cbn. by rewrite list_insert_insert_eq.
Qed.

(** What [new_block] and [free_block] do to the disk: bit [j] of the map becomes [v], the data
    zone [zone] changes to [f], and every other block stays as it is. *)
Definition zone_change (k k' : kernel) (hz : buffer_head) (j : Z) (v : bool) (zones : Z -> Prop) : Prop :=
  (forall i, 0 <= i < BITS_PER_BLOCK -> used_bit k' hz i = if i =? j then v else used_bit k hz i) /\
  (forall blk x, in_disk k blk -> 0 <= x < BLOCK_SIZE -> blk <> b_blocknr hz -> ~ zones blk -> disk k' blk x = disk k blk x).

(** Changing a bit of the map and marking its buffer dirty. *)
Lemma map_flip k l ch s sb z hz j v m' :
  cache_inv k l ch -> zmap_ok k s sb z hz -> 0 <= j <= BITS_PER_BLOCK - 64 -> flips (k_pmem k) m' (b_data hz) j v ->
  let k' := set_bh z (hz <| b_dirt := 1 |>) (k <| k_pmem := m' |>) in
  cache_inv k' l ch /\ zmap_ok k' s sb z (hz <| b_dirt := 1 |>) /\ zone_change k k' hz j v (fun _ => False).
Proof.
  intros HI HZ Hj [Hbits Hout] k'. pose proof HZ as [].
  assert (forall a, ~ (b_data hz <= a < b_data hz + BLOCK_SIZE) -> m' a = k_pmem k a) as Hm.
  { intros a Ha. apply Hout. unfold BLOCK_SIZE in Ha. change BITS_PER_BLOCK with 8192 in Hj. dlia. }
  pose proof (up_written_inv k l ch z hz m' HI zo_buf0 zo_dev0 zo_up0 Hm) as HI'. fold k' in HI'.
  pose proof (up_written_disk k l ch z hz m' HI zo_buf0 zo_dev0 zo_up0 Hm) as Hd. fold k' in Hd.
  assert (buffers (k_blk k') !! z = Some (hz <| b_dirt := 1 |>)) as Hz' by (apply list_lookup_insert_eq; by eapply lookup_lt_Some).
  split; [done|]. split; [by split|]. split.
  - intros i Hi. rewrite <- (zmap_bits k l ch s sb z hz i HI HZ Hi). unfold used_bit.
    rewrite <- (mbit_window (disk k' (b_blocknr hz)) m' (b_data hz) i); [|intros x Hx|done].
    + rewrite Hbits. by replace (8 * b_data hz + i =? 8 * b_data hz + j) with (i =? j) by lia.
    + rewrite Hd, Z.eqb_refl; [done| |done]. by apply (up_in_disk k l ch z hz HI).
  - intros blk x Hin Hx Hne _. rewrite Hd by done. by apply Z.eqb_neq in Hne as ->.
Qed.

Section Alloc.
Context {SI : SyncInodes} {HSI : SyncInodesOk SI}.

(** The second half of [new_block]: the block of a free zone, cleared. *)
Lemma new_zone_spec k l ch zone :
  cache_inv k l ch -> ready k -> 0 <= zone < 2 ^ 32 -> in_disk k zone ->
  (forall b h, buffers (k_blk k) !! b = Some h -> is_block RD_DEV zone h = true -> b_count h = 0) ->
  runs (let! b := getblk RD_DEV zone in
        let! h := get_bh b in
        if negb (b_count h =? 1) then panic "new block: count is != 1"
        else
          clear_block (b_data h) ;;;
          mod_bh b (fun h => h <| b_uptodate := 1 |>) ;;;
          mod_bh b (fun h => h <| b_dirt := 1 |>) ;;;
          brelse (Some b) ;;;
          ret zone) k (fun r k' => r = zone /\ cache_ok k' /\ same_rest k k' /\
    (forall blk x, in_disk k blk -> 0 <= x < BLOCK_SIZE -> disk k' blk x = if blk =? zone then 0 else disk k blk x) /\
    forall b h, buffers (k_blk k) !! b = Some h -> b_count h <> 0 -> core <$> buffers (k_blk k') !! b = Some (core h)).
Proof.
  intros HI Hre Hz Hin Hfree. destruct (getblk_returns k l ch zone HI Hz (ready_available _ _ Hre)) as (b&k1&h&Eg&Hgot&Htook).
  eapply runs_step; [exact Eg|]. destruct Hgot as ((l1&ch1&HI1)&Hd1&Hr1&Hheld&Hb&Hdev&Hbk&Hc).
  destruct Htook as (h0&Hb0&Hc0&_&Hroom). destruct (Hroom ltac:(apply Hre)) as [_ Hunt].
  assert (b_count h0 = 0) as Hh0.
  { destruct (decide (b_count h0 = 0)) as [|Hne]; [done|]. destruct (Hheld b h0 Hb0 Hne) as (h'&Hb'&_&E1&E2&_).
    apply (Hfree b h0 Hb0). apply is_block_RD; [done|]. split; congruence. }
  eapply runs_step; [by apply get_bh_Ok|]. replace (b_count h =? 1) with true by lia. cbn [negb].
  destruct (clear_block_spec k1 (b_data h)) as (m'&Ec&Hz0&Hsame). eapply runs_step; [exact Ec|].
  assert (in_disk k1 (b_blocknr h)) as Hin1 by (rewrite Hbk; unfold in_disk in *; by destruct Hr1 as (_&_&_&_&->&_)).
  pose proof (written_inv k1 l1 ch1 b h m' HI1 Hb Hdev Hin1 Hsame) as HI2.
  pose proof (written_disk k1 l1 ch1 b h m' HI1 Hb Hdev Hin1 Hsame) as Hd2.
  unfold runs. rewrite (mod_bh2 _ b h) by done. set (k2 := set_bh b _ _) in *.
  destruct (brelse_Ok k2 l1 ch1 b (h <| b_uptodate := 1 |> <| b_dirt := 1 |>) HI2) as (Eb&HI3&Hd3);
    [apply list_lookup_insert_eq; by eapply lookup_lt_Some|done|].
  erewrite bind_Ok by exact Eb. split; [done|]. split; [by exists l1, ch1|]. split.
  { apply (same_rest_trans k k1 _ Hr1). apply (same_rest_trans _ k2); [|apply (set_bh_rest b (h <| b_uptodate := 1 |> <| b_dirt := 1 |>)); [|done]].
    - by apply (stored_rest b h).
    - apply list_lookup_insert_eq. by eapply lookup_lt_Some. }
  split.
  - intros blk x Hinb Hx. assert (in_disk k1 blk) as Hinb1 by (unfold in_disk in *; by destruct Hr1 as (_&_&_&_&->&_)).
    rewrite (Hd3 blk x Hx Hinb1), (Hd2 blk x Hinb1 Hx), Hbk.
    destruct (Z.eqb_spec blk zone) as [->|]; [apply Hz0; lia|by apply Hd1].
  - intros x hx Hx Hcx. assert (x <> b) as Hne by (intros ->; congruence). specialize (Hunt x Hne). rewrite Hx in Hunt.
    unfold k2, set_bh. rsimpl. rewrite !list_lookup_insert_ne by done. exact Hunt.
Qed.

Definition zone_of_bit (sb : super_block) (j : Z) : Z := j + s_firstdatazone sb - 1.
(** The lowest free bit, among the first 64. *)
Definition first_free (k : kernel) (hz : buffer_head) : option Z := lowest_free (used_bit k hz) 64 0.

Lemma new_block_spec k s sb z hz :
  cache_ok k -> ready k -> zmap_ok k s sb z hz -> used_bit k hz 0 = true ->
  (forall j b h, first_free k hz = Some j -> buffers (k_blk k) !! b = Some h ->
     is_block RD_DEV (zone_of_bit sb j) h = true -> b_count h = 0) ->
  runs (new_block RD_DEV) k (fun r k' => cache_ok k' /\ k_fs k' = k_fs k /\
    match first_free k hz with
    | None => r = 0 /\ k' = k
    | Some j =>
        if s_nzones sb <=? zone_of_bit sb j then r = 0 /\ zone_change k k' hz j true (fun _ => False)
        else r = zone_of_bit sb j /\ zone_change k k' hz j true (fun b => b = zone_of_bit sb j) /\
             (forall x, 0 <= x < BLOCK_SIZE -> disk k' (zone_of_bit sb j) x = 0) /\
             exists hz', zmap_ok k' s sb z hz' /\ b_blocknr hz' = b_blocknr hz
    end).
Proof.
  intros (l&ch&HI) Hre HZ Hbit0 Hfree. pose proof HZ as []. unfold new_block.
  eapply runs_step; [by apply (get_super_found k RD_DEV s sb)|]. eapply runs_step; [by apply get_sb_Ok, zo_super0|].
  assert (free_in_word (k_pmem k) (b_data hz) = first_free k hz) as Hff.
  { apply lowest_free_ext. intros i Hi. apply (zmap_bits k l ch s sb z hz i HI HZ).
    change BITS_PER_BLOCK with 8192. lia. }
  pose proof (search_map_spec k Z_MAP_SLOTS z hz (s_zmap sb) zo_slots0 ltac:(unfold Z_MAP_SLOTS; lia) zo_buf0) as Hs.
  rewrite Hff in Hs. destruct (first_free k hz) as [j|] eqn:Hj.
  2:{ eapply runs_step; [exact Hs|]. apply runs_ret. split_and!; try done. by exists l, ch. }
  eapply runs_step; [exact Hs|]. cbv beta iota. pose proof (lowest_free_Some _ _ _ _ Hj) as (Hjr&Hjf&_).
  change (Z.of_nat Z_MAP_SLOTS <=? 0) with false. change BITS_PER_BLOCK with 8192 at 1.
  replace (8192 <=? j) with false by lia. cbn [orb].
  eapply runs_step; [by apply get_bh_Ok|].
  destruct (set_bit_spec k j (b_data hz) ltac:(lia)) as (m'&Es&Hfl). eapply runs_step; [exact Es|].
  rewrite (zmap_bits k l ch s sb z hz j HI HZ), Hjf by (change BITS_PER_BLOCK with 8192; lia).
  change (truth (b2z false)) with false. cbv iota. eapply runs_step; [by apply mod_bh_Ok|].
  destruct (map_flip k l ch s sb z hz j true m' HI HZ ltac:(change BITS_PER_BLOCK with 8192; lia) Hfl) as (HI1&HZ1&Hch).
  set (k1 := set_bh z _ _) in *. change (upd k_blk _ _) with k1.
  replace (j + (Z.shiftl 0 BLOCK_SIZE_BITS + s_firstdatazone sb - 1)) with (zone_of_bit sb j)
    by (unfold zone_of_bit; rewrite Z.shiftl_0_l; lia).
  destruct (Z.leb_spec (s_nzones sb) (zone_of_bit sb j)) as [Hbig|Hsm].
  { apply runs_ret. split_and!; try done; by exists l, ch. }
  assert (s_firstdatazone sb <= zone_of_bit sb j) as Hlow.
  { assert (j <> 0) by (intros ->; congruence). unfold zone_of_bit. lia. }
  assert (in_disk k (zone_of_bit sb j)) as Hin by by apply zo_disk0.
  eapply runs_mono; [|apply (new_zone_spec k1 l ch (zone_of_bit sb j) HI1)]; [|by eapply ready_written|lia|done|].
  - intros r k2 (->&Hok2&(_&Hfs&_&_&Hlen&_)&Hd2&Hheld). split_and!; try done.
    + split.
      * intros i Hi. destruct Hch as [Hch _]. rewrite <- Hch by done. unfold used_bit, mbit.
        change BITS_PER_BLOCK with 8192 in Hi.
        rewrite Hd2; [|by apply (up_in_disk k l ch z hz HI)|unfold BLOCK_SIZE; dlia].
        replace (b_blocknr hz =? zone_of_bit sb j) with false by lia. done.
      * intros blk x Hb Hx Hne Hnz. rewrite Hd2 by done. apply Z.eqb_neq in Hnz as ->.
        apply (proj2 Hch); auto.
    + intros x Hx. rewrite Hd2, Z.eqb_refl by done. done.
    + destruct HZ1. specialize (Hheld z _ zo_buf1 ltac:(lia)).
      destruct (buffers (k_blk k2) !! z) as [hz'|] eqn:Hz'; [|done].
      assert (core hz' = core (hz <| b_dirt := 1 |>)) as (E1&E2&E3&E4&E5&E6&_)%core_fields by (cbn in Hheld; congruence).
      exists hz'. split; [|done]. split; rewrite ?E2, ?E3, ?E4, ?E6; try done.
      * unfold found_super in *. by rewrite Hfs.
      * intros j' Hj'. specialize (zo_disk1 j' Hj'). unfold in_disk in *. by rewrite Hlen.
  - intros b h Hb Hib. unfold k1, set_bh in Hb. rsimpl_in Hb. apply list_lookup_insert_Some in Hb as [(->&<-&_)|[Hne Hb]].
    + apply is_block_RD in Hib as [_ E]; [|lia]. rsimpl_in E. lia.
    + by apply (Hfree j b h).
Qed.

(** ** Freeing a block *)
Definition in_use (k : kernel) (blk : Z) : Prop :=
  exists b h, buffers (k_blk k) !! b = Some h /\ is_block RD_DEV blk h = true /\ b_count h <> 0.

Lemma set_bh_twice k b h h' : set_bh b h' (set_bh b h k) = set_bh b h' k.
Proof. unfold set_bh. destruct k as [? [] ? ? ? ?]. unfold upd. cbn. by rewrite list_insert_insert_eq. Qed.

Lemma drop_cached_free k l ch blk :
  cache_inv k l ch -> 0 <= blk < 2 ^ 32 -> ~ in_use k blk ->
  exists k1, drop_cached RD_DEV blk k = Ok false k1 /\ cache_inv k1 l ch /\ same_rest k k1 /\
    (forall b x, in_disk k b -> 0 <= x < BLOCK_SIZE -> b <> blk -> disk k1 b x = disk k b x) /\
    (forall b h, buffers (k_blk k) !! b = Some h -> b_count h <> 0 -> buffers (k_blk k1) !! b = Some h) /\
    (ready k -> ready k1).
Proof.
  intros HI Hblk Hfree. unfold drop_cached.
  destruct (list_find (fun h => is_block RD_DEV blk h = true) (buffers (k_blk k))) as [[b h]|] eqn:E.
  2:{ apply list_find_None in E. exists k. erewrite bind_Ok.
      2:{ apply (get_hash_table_miss k l ch blk HI Hblk). intros b h Hb. apply not_true_is_false.
          by apply (Forall_lookup_1 _ _ _ _ E Hb). }
      split_and!; done. }
  apply list_find_Some in E as (Hb&Hib&_). pose proof Hib as [Hd Hbk]%is_block_RD; [|done].
  assert (b_count h = 0) as Hc by (destruct (decide (b_count h = 0)); [done|]; destruct Hfree; by exists b, h).
  assert (b < length (buffers (k_blk k)))%nat as Hbl by by eapply lookup_lt_Some.
  erewrite bind_Ok by (apply (get_hash_table_hit k l ch b h blk); try done; lia). rewrite Hc.
  set (h1 := h <| b_count := 0 + 1 |>). set (k1 := set_bh b h1 k).
  assert (buffers (k_blk k1) !! b = Some h1) as Hb1 by by apply list_lookup_insert_eq.
  destruct (inv_count k l ch b h 1 HI Hb ltac:(lia)) as [HI1 Hd1]. fold h1 k1 in HI1, Hd1.
  erewrite bind_Ok by by apply get_bh_Ok. change (1 <? b_count h1) with false. cbv iota.
  rewrite (mod_bh2 _ b h1) by done.
  destruct (inv_drop k1 l ch b h1 HI1 Hb1 Hd) as [HI2 Hd2]. set (h2 := h1 <| b_dirt := 0 |> <| b_uptodate := 0 |>) in *.
  set (k2 := set_bh b h2 k1) in *.
  destruct (brelse_Ok k2 l ch b h2 HI2) as (Eb&HI3&Hd3);
    [apply list_lookup_insert_eq; unfold k1, set_bh; rsimpl; by rewrite length_insert|done|].
  erewrite bind_Ok by exact Eb. eexists. split; [done|]. split; [exact HI3|]. split.
  { unfold k2, k1. rewrite !set_bh_twice. by eapply set_bh_rest. } split_and!.
  - intros b' x Hin Hx Hne. rewrite (Hd3 b' x Hx Hin), Hd2 by (try done; intros E; apply Hne; by rewrite <- Hbk). by apply Hd1.
  - unfold k2, k1. rewrite !set_bh_twice. intros x hx Hx Hcx. assert (x <> b) as Hne by (intros ->; congruence).
    unfold set_bh. rsimpl. by rewrite list_lookup_insert_ne.
  - unfold k2, k1. rewrite !set_bh_twice. intros [_ Hcnt]. split.
    + exists b. unfold spare, set_bh. rsimpl. by rewrite list_lookup_insert_eq.
    + unfold set_bh. rsimpl. intros x hx [(->&<-&_)|[_ Hx]]%list_lookup_insert_Some; [done|by eapply Hcnt].
Qed.
Lemma drop_cached_busy k l ch blk :
  cache_inv k l ch -> 0 <= blk < 2 ^ 32 -> in_use k blk -> ready k -> drop_cached RD_DEV blk k = Ok true k.
Proof.
  intros HI Hblk (b&h&Hb&Hib&Hc) [_ Hcnt]. pose proof Hib as [Hd Hbk]%is_block_RD; [|done].
  assert (b < length (buffers (k_blk k)))%nat as Hbl by by eapply lookup_lt_Some.
  specialize (Hcnt b h Hb). pose proof (ho_count _ _ (ci_heads _ _ _ HI b h Hb)).
  unfold drop_cached. erewrite bind_Ok by (by apply (get_hash_table_hit k l ch b h blk)).
  set (h1 := h <| b_count := b_count h + 1 |>). set (k1 := set_bh b h1 k).
  assert (buffers (k_blk k1) !! b = Some h1) as Hb1 by by apply list_lookup_insert_eq.
  destruct (inv_count k l ch b h (b_count h + 1) HI Hb ltac:(lia)) as [HI1 Hd1]. fold h1 k1 in HI1, Hd1.
  erewrite bind_Ok by by apply get_bh_Ok. destruct (Z.ltb_spec 1 (b_count h1)) as [_|Hle]; [|unfold h1 in Hle; rsimpl_in Hle; lia].
  destruct (brelse_Ok k1 l ch b h1 HI1 Hb1) as (Eb&_); [unfold h1; rsimpl; lia|].
  erewrite bind_Ok by exact Eb. f_equal. unfold k1. rewrite set_bh_twice.
  replace (h1 <| b_count := b_count h1 - 1 |>) with h; [unfold set_bh; destruct k as [? [] ? ? ? ?]; cbn in *; unfold upd; cbn; by rewrite list_insert_id|].
  unfold h1. destruct h. unfold upd. cbn. f_equal. lia.
Qed.

Definition bit_of_zone (sb : super_block) (blk : Z) : Z := blk - (s_firstdatazone sb - 1).

Lemma free_block_spec k s sb z hz blk :
  cache_ok k -> zmap_ok k s sb z hz -> s_firstdatazone sb <= blk < s_nzones sb ->
  bit_of_zone sb blk <= BITS_PER_BLOCK - 64 -> ~ in_use k blk ->
  mayrun (free_block RD_DEV blk) k
    (fun _ k' => used_bit k hz (bit_of_zone sb blk) = true /\ cache_ok k' /\ k_fs k' = k_fs k /\ (ready k -> ready k') /\
       zone_change k k' hz (bit_of_zone sb blk) false (fun b => b = blk) /\
       exists hz', zmap_ok k' s sb z hz' /\ b_blocknr hz' = b_blocknr hz)
    (fun e _ => used_bit k hz (bit_of_zone sb blk) = false /\ e = Panic "free_block: bit already cleared").
Proof.
  intros (l&ch&HI) HZ Hblk Hj Hfree. pose proof HZ as []. unfold mayrun, free_block.
  erewrite bind_Ok by by apply (get_super_found k RD_DEV s sb). cbv iota.
  erewrite bind_Ok by by apply get_sb_Ok, zo_super0.
  destruct (Z.ltb_spec blk (s_firstdatazone sb)); [lia|]. destruct (Z.leb_spec (s_nzones sb) blk); [lia|]. cbn [orb].
  destruct (drop_cached_free k l ch blk HI ltac:(lia) Hfree) as (k1&E1&HI1&Hr1&Hd1&Hheld&Hready).
  erewrite bind_Ok by exact E1. cbv iota. pose proof Hr1 as (_&Hfs&_&_&Hlen&_).
  assert (zmap_ok k1 s sb z hz) as HZ1.
  { split; try done; [unfold found_super in *; by rewrite Hfs|by apply Hheld; [|lia]|].
    intros j' Hj'. specialize (zo_disk0 j' Hj'). unfold in_disk in *. by rewrite Hlen. }
  pose proof HZ1 as [Hsb1 _ Hb1 _ _ _ _ _ _ _].
  erewrite bind_Ok by by apply get_sb_Ok, Hsb1. cbv zeta. change (blk - (s_firstdatazone sb - 1)) with (bit_of_zone sb blk).
  set (j := bit_of_zone sb blk) in *. change BITS_PER_BLOCK with 8192 in Hj.
  assert (1 <= j) as Hj1 by (unfold j, bit_of_zone; lia).
  assert (Z.shiftr j BLOCK_SIZE_BITS = 0) as -> by (rewrite Z.shiftr_div_pow2 by done; change (2 ^ BLOCK_SIZE_BITS) with 8192; dlia).
  assert (Z.land j (BITS_PER_BLOCK - 1) = j) as ->.
  { change (BITS_PER_BLOCK - 1) with (Z.ones 13). rewrite Z.land_ones by lia. apply Z.mod_small. lia. }
  rewrite (bind_Ok _ _ _ (Some z) k1) by (unfold map_slot; by rewrite zo_slots0).
  rewrite (bind_Ok _ _ _ z k1) by done. erewrite bind_Ok by by apply get_bh_Ok.
  destruct (clear_bit_spec k1 j (b_data hz) ltac:(lia)) as (m'&Ec&Hfl). erewrite bind_Ok by exact Ec.
  rewrite (zmap_bits k1 l ch s sb z hz j HI1 HZ1) by (change BITS_PER_BLOCK with 8192; lia).
  assert (forall i, 0 <= i < BITS_PER_BLOCK -> used_bit k1 hz i = used_bit k hz i) as Hbits.
  { intros i Hi. unfold used_bit, mbit. change BITS_PER_BLOCK with 8192 in Hi.
    rewrite Hd1; [done|by apply (up_in_disk k l ch z hz HI)|unfold BLOCK_SIZE; dlia|lia]. }
  rewrite Hbits by (change BITS_PER_BLOCK with 8192; lia).
  destruct (used_bit k hz j) eqn:Hu; [|done]. change (truth (b2z (negb true))) with false. cbv iota.
  rewrite (mod_bh_Ok _ z hz) by done.
  destruct (map_flip k1 l ch s sb z hz j false m' HI1 HZ1 ltac:(change BITS_PER_BLOCK with 8192; lia) Hfl) as (HI2&HZ2&Hc1&Hc2).
  set (k2 := set_bh z _ _) in *. change (upd k_blk _ _) with k2. split; [done|]. split; [by exists l, ch|].
  split; [done|]. split; [intros Hre; by apply (ready_written k1 z hz); auto|]. split; [|by exists (hz <| b_dirt := 1 |>)]. split.
  - intros i Hi. rewrite Hc1, Hbits by done. done.
  - intros b x Hin Hx Hne Hnb. rewrite Hc2; [by apply Hd1|unfold in_disk in *; by rewrite Hlen|done|done|auto].
Qed.

(** A block in use is not freed. *)
Lemma free_block_busy k s sb z hz blk :
  cache_ok k -> zmap_ok k s sb z hz -> ready k -> s_firstdatazone sb <= blk < s_nzones sb -> in_use k blk ->
  free_block RD_DEV blk k = Ok tt k.
Proof.
  intros (l&ch&HI) [] Hre Hblk Hu. unfold free_block.
  erewrite bind_Ok by by apply (get_super_found k RD_DEV s sb). cbv iota.
  erewrite bind_Ok by by apply get_sb_Ok, zo_super0.
  destruct (Z.ltb_spec blk (s_firstdatazone sb)); [lia|]. destruct (Z.leb_spec (s_nzones sb) blk); [lia|]. cbn [orb].
  by erewrite bind_Ok by (apply (drop_cached_busy k l ch blk HI); [lia|done|done]).
Qed.
End Alloc.

(** ** A small file system for the examples: 128 i-nodes, 360 zones, the zone bitmap in block 3,
    the first data zone is 8; zone bit 0 is set, as [read_super] leaves it *)
Definition bits_of_block (blk w : Z) : memory := st 1024 blank (RD_START + blk * BLOCK_SIZE) w.
Definition demo_zsuper (z : nat) : super_block :=
  mkSuper 128 360 1 1 8 0 268966912 SUPER_MAGIC (replicate I_MAP_SLOTS None) (Some z :: replicate 7 None)
    RD_DEV None None 0 None 0 0 0.
Definition demo_zfs (z : nat) : fs_state :=
  mkFs (replicate NR_INODE zero_inode) 0 (demo_zsuper z :: replicate 7 zero_super) (replicate NR_FILE zero_file) RD_DEV.

Lemma demo_zmap (w : Z) :
  exists k z hz, cache_ok k /\ ready k /\ zmap_ok k 0 (demo_zsuper z) z hz /\ b_blocknr hz = 3 /\
    (forall blk x, 0 <= blk < 360 -> 0 <= x < BLOCK_SIZE -> disk k blk x = bits_of_block 3 w (RD_START + blk * BLOCK_SIZE + x)) /\
    forall b h blk, buffers (k_blk k) !! b = Some h -> 0 <= blk < 2 ^ 32 -> blk <> 3 ->
      is_block RD_DEV blk h = true -> b_count h = 0.
Proof.
  set (m := bits_of_block 3 w). set (k0 := booted_fs m (demo_zfs 0)).
  destruct (booted_fs_ok m (demo_zfs 0)) as (l&ch&HI). pose proof (booted_fs_ready m (demo_zfs 0)) as Hre.
  pose proof (bread_spec k0 l ch 3 HI ltac:(lia) (ready_available _ _ Hre)) as H.
  apply runs_Ok in H as (r&k1&E&Hok&Hd&Hr&H). pose proof (booted_fs_in_disk m (demo_zfs 0) 3 ltac:(lia)) as Hin.
  destruct r as [z|]; [|by destruct H]. destruct H as (_&hz&(_&_&_&_&Hz&Hzd&Hzk&Hzc)&Hup&(h0&Hz0&Hc0&_&Hroom)&Hdata).
  destruct (Hroom ltac:(apply Hre)) as [_ Hunt]. pose proof (booted_free m z h0 Hz0) as (Eh0&_&_).
  assert (forall b h, buffers (k_blk k1) !! b = Some h -> b <> z -> b_count h = 0 /\ b_dev h = 0 /\ b_dirt h = 0) as Hothers.
  { intros b h Hb Hne. specialize (Hunt b Hne). rewrite Hb in Hunt. destruct (buffers (k_blk k0) !! b) as [hb|] eqn:E0; [|done].
    assert (core h = core hb) as (_&_&->&_&->&->&_)%core_fields by (cbn in Hunt; congruence). by apply (booted_free m b). }
  assert (exists y, y <> z /\ spare (buffers (k_blk k1)) y = true) as (y&Hyz&Hy).
  { set (y := if (z =? 0)%nat then 1%nat else 0%nat). assert (y <> z) as Hyz by (unfold y; destruct (Nat.eqb_spec z 0); lia).
    exists y. split; [done|]. destruct (booted_spec m) as (_&Hlen&_). specialize (Hunt y Hyz).
    destruct (lookup_lt_is_Some_2 (buffers (k_blk (booted m))) y) as [hy0 Ey]; [rewrite Hlen; unfold y; destruct (z =? 0)%nat; lia|].
    change (buffers (k_blk k0)) with (buffers (k_blk (booted m))) in Hunt. rewrite Ey in Hunt. unfold spare.
    destruct (buffers (k_blk k1) !! y) as [hy|] eqn:Ey1; [|done]. by destruct (Hothers y hy Ey1 Hyz) as (->&_&->). }
  exists (k1 <| k_fs := demo_zfs z |>), z, hz. split; [|split; [|split; [|split_and!]]].
  - destruct Hok as (l1&ch1&HI1). exists l1, ch1. by apply (cache_inv_ext k1).
  - split; [by exists y|]. intros b h Hb. destruct (decide (b = z)) as [->|Hne]; [|destruct (Hothers b h Hb Hne); lia].
    assert (h = hz) as -> by (rsimpl_in Hb; congruence). lia.
  - split; try done; try lia.
    + split_and!; try done. { unfold NR_SUPER. lia. } intros ? ? ?. lia.
    + unfold demo_zsuper. cbn. lia.
    + intros j Hj. unfold demo_zsuper in Hj. cbn in Hj. pose proof (booted_fs_in_disk m (demo_zfs 0) j ltac:(lia)) as Hj'.
      unfold in_disk in *. destruct Hr as (_&_&_&_&E5&_). rsimpl. by rewrite E5.
  - done.
  - intros blk x Hblk Hx. rewrite (disk_ext k1) by done. rewrite Hd by (try done; by apply booted_fs_in_disk).
    apply booted_fs_disk.
  - intros b h blk Hb Hblk Hne [_ Hib]%is_block_RD; [|done]. destruct (decide (b = z)) as [->|Hbz]; [|by apply (Hothers b h)].
    assert (h = hz) as -> by (rsimpl_in Hb; congruence). congruence.
Qed.

(** ** Properties *)
Module BitmapProps.

(** C22: [new_block] on the RAM disk.  With [j] the lowest clear bit among the first 64 bits of the
    zone bitmap, it returns zone [j + s_firstdatazone - 1], sets bit [j] and no other, the block of
    the zone is all zero on the disk, and no other block of the disk changes, whatever the cache
    had to evict.  If the zone is beyond the device the result is 0, but the bit stays set; if the
    first 64 bits are all set the result is 0 and nothing changes, whatever the later bits are.  The
    states in which [new_block] panics (no super block, the buffer of the zone in use) are excluded. *)
Theorem new_block_allocates k s sb z hz :
  cache_ok k -> ready k -> zmap_ok k s sb z hz -> used_bit k hz 0 = true ->
  (forall j b h, first_free k hz = Some j -> buffers (k_blk k) !! b = Some h ->
     is_block RD_DEV (zone_of_bit sb j) h = true -> b_count h = 0) ->
  runs (new_block RD_DEV) k (fun r k' => cache_ok k' /\ k_fs k' = k_fs k /\
    match first_free k hz with
    | None => r = 0 /\ k' = k
    | Some j =>
        if s_nzones sb <=? zone_of_bit sb j then r = 0 /\ zone_change k k' hz j true (fun _ => False)
        else r = zone_of_bit sb j /\ zone_change k k' hz j true (fun b => b = zone_of_bit sb j) /\
             (forall x, 0 <= x < BLOCK_SIZE -> disk k' (zone_of_bit sb j) x = 0) /\
             exists hz', zmap_ok k' s sb z hz' /\ b_blocknr hz' = b_blocknr hz
    end).
Proof. apply new_block_spec. Qed.

Lemma demo_bits k hz w : b_blocknr hz = 3 ->
  (forall blk x, 0 <= blk < 360 -> 0 <= x < BLOCK_SIZE -> disk k blk x = bits_of_block 3 w (RD_START + blk * BLOCK_SIZE + x)) ->
  forall i, 0 <= i < BITS_PER_BLOCK -> used_bit k hz i = Z.testbit w i.
Proof.
  intros Hk Hd i Hi. unfold used_bit. rewrite Hk.
  rewrite <- (mbit_window (disk k 3) (bits_of_block 3 w) (RD_START + 3 * BLOCK_SIZE) i); [|intros; symmetry; apply Hd; lia|done].
  change BITS_PER_BLOCK with 8192 in Hi. unfold bits_of_block. rewrite mbit_st.
  change (8 * (RD_START + 3 * BLOCK_SIZE + Z.of_nat 1024)) with (8 * (RD_START + 3 * BLOCK_SIZE) + 8192).
  rewrite in_range_true by lia. f_equal. lia.
Qed.
Lemma new_block_allocates_witness :
  exists k z hz, zmap_ok k 0 (demo_zsuper z) z hz /\ runs (new_block RD_DEV) k (fun r k' => r = 9 /\ used_bit k' hz 2 = true).
Proof.
  destruct (demo_zmap 3) as (k&z&hz&Hok&Hre&HZ&Hk&Hd&Hfree). exists k, z, hz. split; [exact HZ|].
  pose proof (demo_bits k hz 3 Hk Hd) as Hb.
  assert (first_free k hz = Some 2) as Hff.
  { unfold first_free. cbn [lowest_free]. rewrite !Hb by (change BITS_PER_BLOCK with 8192; lia). reflexivity. }
  pose proof (new_block_allocates k 0 (demo_zsuper z) z hz Hok Hre HZ) as H. rewrite Hff in H.
  eapply runs_mono; [|apply H].
  - cbv beta iota. change (s_nzones (demo_zsuper z) <=? zone_of_bit (demo_zsuper z) 2) with false. cbv iota.
    intros r k' (_&_&->&[Hu _]&_). split; [reflexivity|]. rewrite Hu; [reflexivity|]. change BITS_PER_BLOCK with 8192. lia.
  - rewrite Hb by (change BITS_PER_BLOCK with 8192; lia). reflexivity.
  - intros j b h [= <-] Hb'. apply (Hfree b h _ Hb'); unfold zone_of_bit; cbn; lia.
Defined.

(** C23: [free_block] of a data zone whose block is in no use.  If the bit of the zone is set the
    function returns, the bit is clear, every other bit and every other block are as before; if the
    bit is already clear it panics. *)
Theorem free_block_frees k s sb z hz blk :
  cache_ok k -> zmap_ok k s sb z hz -> s_firstdatazone sb <= blk < s_nzones sb ->
  bit_of_zone sb blk <= BITS_PER_BLOCK - 64 -> ~ in_use k blk ->
  mayrun (free_block RD_DEV blk) k
    (fun _ k' => used_bit k hz (bit_of_zone sb blk) = true /\ cache_ok k' /\ k_fs k' = k_fs k /\ (ready k -> ready k') /\
       zone_change k k' hz (bit_of_zone sb blk) false (fun b => b = blk) /\
       exists hz', zmap_ok k' s sb z hz' /\ b_blocknr hz' = b_blocknr hz)
    (fun e _ => used_bit k hz (bit_of_zone sb blk) = false /\ e = Panic "free_block: bit already cleared").
Proof. apply free_block_spec. Qed.
Lemma free_block_frees_witness :
  exists k z hz, zmap_ok k 0 (demo_zsuper z) z hz /\
    mayrun (free_block RD_DEV 8) k (fun _ k' => used_bit k' hz 1 = false) (fun _ _ => False) /\
    mayrun (free_block RD_DEV 9) k (fun _ _ => False) (fun e _ => e = Panic "free_block: bit already cleared").
Proof.
  destruct (demo_zmap 3) as (k&z&hz&Hok&Hre&HZ&Hk&Hd&Hfree). exists k, z, hz. split; [exact HZ|].
  pose proof (demo_bits k hz 3 Hk Hd) as Hb.
  assert (forall blk, 8 <= blk < 360 -> ~ in_use k blk) as Hnu.
  { intros blk Hblk (b&h&Hbb&Hib&Hc). apply Hc, (Hfree b h blk Hbb); [lia|lia|exact Hib]. }
  pose proof (fun blk => free_block_frees k 0 (demo_zsuper z) z hz blk Hok HZ) as H. cbn in H.
  split.
  - specialize (H 8 ltac:(lia) ltac:(vm_compute; discriminate) (Hnu 8 ltac:(lia))). unfold mayrun in *.
    change (bit_of_zone (demo_zsuper z) 8) with 1 in H.
    destruct (free_block RD_DEV 8 k) as [? k'|]; destruct H as [Hu H].
    + destruct H as (_&_&_&[Hc _]&_). rewrite Hc; [reflexivity|]. change BITS_PER_BLOCK with 8192. lia.
    + rewrite Hb in Hu by (change BITS_PER_BLOCK with 8192; lia). discriminate.
  - specialize (H 9 ltac:(lia) ltac:(vm_compute; discriminate) (Hnu 9 ltac:(lia))). unfold mayrun in *.
    change (bit_of_zone (demo_zsuper z) 9) with 2 in H.
    destruct (free_block RD_DEV 9 k) as [? k'|]; destruct H as [Hu H].
    + rewrite Hb in Hu by (change BITS_PER_BLOCK with 8192; lia). discriminate.
    + exact H.
Defined.
End BitmapProps.
