(* ===== verification/Inode.v ===== *)
(** * The i-node table (fs/inode.c, [new_inode] of fs/bitmap.c)

    [_bmap], [iput], [get_empty_inode], [get_pipe_inode], [iget] and [new_inode].  The
    specification of [bmap] is the pure function [zone_number] on the content of the disk. *)
From Stdlib Require Import ZArith Lia String.
From stdpp Require Import base list gmap.
From S2P Require Import Prelude State PageAlloc BlockIO Buffer BufferCache BufferInit InodeIO Bitmap.
Open Scope Z_scope.

(** Decides the first condition of the goal, when it is closed. *)
Ltac closed_if :=
  match goal with
  | |- context [if ?c then _ else _] =>
      let v := eval vm_compute in c in first [constr_eq v true | constr_eq v false]; change c with v; cbv iota
  end.

Section InodeOps.
Context {SI : SyncInodes}.

(** The three places where [_bmap] allocates: a zone of the i-node, ... *)
Definition bmap_zone (inode : nat) (i : Z) (create : bool) : K Z :=
  let! z := zone inode i in
  when (create && (z =? 0)) (
    let! n := get_inode inode in
    let! b := new_block (i_dev n) in
    set_zone inode i (u16 b) ;;;
    when (truth (u16 b)) (
      let! t := CURRENT_TIME in
      mod_inode inode (fun n => n <| i_ctime := u32 t |>) ;;;
      mod_inode inode (fun n => n <| i_dirt := 1 |>))) ;;;
  zone inode i.
(** ... and an entry of an indirect block, with the [bread] and [brelse] around it. *)
Definition bmap_indirect (inode : nat) (block off : Z) (create : bool) : K (option Z) :=
  let! n := get_inode inode in
  let! bh := bread (i_dev n) block in
  match bh with
  | None => ret None
  | Some b =>
      let! h := get_bh b in
      let! i := rd16 (b_data h + 2 * off) in
      let! i :=
        if create && (i =? 0) then
          let! n := get_inode inode in
          let! i := new_block (i_dev n) in
          when (truth i) (
            let! h := get_bh b in
            wr16 (b_data h + 2 * off) i ;;;
            mod_bh b (fun h => h <| b_dirt := 1 |>)) ;;;
          ret i
        else ret i in
      brelse (Some b) ;;;
      ret (Some i)
  end.

Definition _bmap (inode : nat) (block : Z) (create : bool) : K Z :=
  if block <? 0 then panic "_bmap: block < 0"
  else if 7 + 512 + 512 * 512 <=? block then panic "_bmap: block > big"
  else if block <? 7 then bmap_zone inode block create
  else
    let block := block - 7 in
    if block <? 512 then
      let! z := bmap_zone inode 7 create in
      if z =? 0 then ret 0
      else
        let! r := bmap_indirect inode z block create in
        ret (default 0 r)
    else
      let block := block - 512 in
      let! z := bmap_zone inode 8 create in
      if z =? 0 then ret 0
      else
        let! r := bmap_indirect inode z (Z.shiftr block 9) create in
        match r with
        | None => ret 0
        | Some i =>
            if i =? 0 then ret 0
            else
              let! r := bmap_indirect inode i (Z.land block 511) create in
              ret (default 0 r)
        end.
Definition bmap (inode : nat) (block : Z) : K Z := _bmap inode block false.
Definition create_block (inode : nat) (block : Z) : K Z := _bmap inode block true.

(** [iput]: the part after the label [repeat]. *)
Definition iput_repeat (inode : nat) : K unit :=
  loop ROUNDS (fun _ : unit =>
    let! n := get_inode inode in
    if 1 <? i_count n then
      mod_inode inode (fun n => n <| i_count := u16 (i_count n - 1) |>) ;;; ret (inr tt)
    else if i_nlinks n =? 0 then
      truncate inode ;;; free_inode (Some inode) ;;; ret (inr tt)
    else if truth (i_dirt n) then
      write_inode inode ;;; wait_on_inode inode ;;; ret (inl tt)
    else
      mod_inode inode (fun n => n <| i_count := u16 (i_count n - 1) |>) ;;; ret (inr tt)) tt.
Definition iput (inode : option nat) : K unit :=
  match inode with
  | None => skip
  | Some inode =>
      wait_on_inode inode ;;;
      let! n := get_inode inode in
      if i_count n =? 0 then panic "iput: trying to free free inode"
      else if truth (i_pipe n) then
        wake_up (i_wait n) ;;;
        mod_inode inode (fun n => n <| i_count := u16 (i_count n - 1) |>) ;;;
        let! n := get_inode inode in
        if truth (i_count n) then skip
        else
          free_page (i_size n) ;;;
          mod_inode inode (fun n => n <| i_count := 0 |>) ;;;
          mod_inode inode (fun n => n <| i_dirt := 0 |>) ;;;
          mod_inode inode (fun n => n <| i_pipe := 0 |>)
      else
        when (S_ISBLK (i_mode n)) (
          let! z := zone inode 0 in
          let! _ := sync_dev z in
          wait_on_inode inode) ;;;
        iput_repeat inode
  end.

(** [get_empty_inode]: the search goes round the table from [last_inode], [n] steps left. *)
Fixpoint empty_scan (n : nat) (inode : option nat) : K (option nat) :=
  match n with
  | O => ret inode
  | S m =>
      modify (fun k => k <| k_fs ::= fun s => s <| last_inode ::= fun l =>
        if (NR_INODE <=? S l)%nat then 0%nat else S l |> |>) ;;;
      let! last := gets (fun k => last_inode (k_fs k)) in
      let! x := get_inode last in
      if i_count x =? 0 then
        if (i_dirt x =? 0) && (i_lock x =? 0) then ret (Some last) else empty_scan m (Some last)
      else empty_scan m inode
  end.
Definition get_empty_inode : K nat :=
  loop ROUNDS (fun _ : unit =>
    let! inode := empty_scan NR_INODE None in
    match inode with
    | None => panic "No free inodes in mem"
    | Some inode =>
        wait_on_inode inode ;;;
        loop ROUNDS (fun _ : unit =>
          let! n := get_inode inode in
          if truth (i_dirt n) then write_inode inode ;;; wait_on_inode inode ;;; ret (inl tt)
          else ret (inr tt)) tt ;;;
        let! n := get_inode inode in
        if truth (i_count n) then ret (inl tt)
        else
          mod_inode inode (fun _ => zero_inode) ;;;
          mod_inode inode (fun n => n <| i_count := 1 |>) ;;;
          ret (inr inode)
    end) tt.

Definition get_pipe_inode : K (option nat) :=
  let! inode := get_empty_inode in
  let! page := get_free_page in
  mod_inode inode (fun n => n <| i_size := u32 page |>) ;;;
  if u32 page =? 0 then
    mod_inode inode (fun n => n <| i_count := 0 |>) ;;; ret None
  else
    mod_inode inode (fun n => n <| i_count := 2 |>) ;;;
    set_zone inode 1 0 ;;;
    set_zone inode 0 0 ;;;
    mod_inode inode (fun n => n <| i_pipe := 1 |>) ;;;
    ret (Some inode).

(** [iget]: the super block mounted on an i-node, and the walk through the table. *)
Definition mounted_on (inode : nat) : K (option nat) :=
  let! sbs := gets (fun k => super_blocks (k_fs k)) in
  ret (fst <$> list_find (fun sb => s_imount sb = Some inode) sbs).
Definition iget (dev nr : Z) : K nat :=
  if dev =? 0 then panic "iget with dev == 0"
  else
    let! empty := get_empty_inode in
    loop (S NR_INODE * S (S NR_SUPER)) (fun '(inode, dev, nr) =>
      if (inode <? NR_INODE)%nat then
        let! n := get_inode inode in
        if negb (i_dev n =? dev) || negb (i_num n =? nr) then ret (inl (S inode, dev, nr))
        else
          wait_on_inode inode ;;;
          let! n := get_inode inode in
          if negb (i_dev n =? dev) || negb (i_num n =? nr) then ret (inl (0%nat, dev, nr))
          else
            mod_inode inode (fun n => n <| i_count := u16 (i_count n + 1) |>) ;;;
            if truth (i_mount n) then
              let! s := mounted_on inode in
              match s with
              | None => iput (Some empty) ;;; ret (inr inode)
              | Some s =>
                  iput (Some inode) ;;;
                  let! sb := get_sb s in
                  ret (inl (0%nat, s_dev sb, ROOT_INO))
              end
            else iput (Some empty) ;;; ret (inr inode)
      else
        mod_inode empty (fun n => n <| i_dev := u16 dev |>) ;;;
        mod_inode empty (fun n => n <| i_num := u16 nr |>) ;;;
        read_inode empty ;;;
        ret (inr empty)) (0%nat, dev, nr).

(** [new_inode] (fs/bitmap.c). *)
Definition new_inode (dev : Z) : K (option nat) :=
  let! inode := get_empty_inode in
  let! s := get_super dev in
  match s with
  | None => panic "new_inode with unknown device"
  | Some s =>
      let! sb := get_sb s in
      let! (i, bh, j) := search_map I_MAP_SLOTS (s_imap sb) in
      let full := (BITS_PER_BLOCK <=? j) || (s_ninodes sb <? j + Z.shiftl i BLOCK_SIZE_BITS) in
      match bh, full with
      | Some b, false =>
          let! h := get_bh b in
          let! old := set_bit j (b_data h) in
          if truth old then panic "new_inode: bit already set"
          else
            mod_bh b (fun h => h <| b_dirt := 1 |>) ;;;
            let! t := cur in
            mod_inode inode (fun n => n <| i_count := 1 |> <| i_nlinks := 1 |> <| i_dev := u16 dev |>
              <| i_uid := u16 (t_euid t) |> <| i_gid := u8 (t_egid t) |> <| i_dirt := 1 |>
              <| i_num := u16 (j + Z.shiftl i BLOCK_SIZE_BITS) |>) ;;;
            let! now := CURRENT_TIME in
            mod_inode inode (fun n => n <| i_ctime := u32 now |> <| i_atime := u32 now |> <| i_mtime := u32 now |>) ;;;
            ret (Some inode)
      | _, _ => iput (Some inode) ;;; ret None
      end
  end.
End InodeOps.

(** ** What [bmap] computes *)
#[export] Instance in_disk_dec k blk : Decision (in_disk k blk).
Proof. unfold in_disk. apply _. Defined.
(** Entry [off] of the indirect block [blk]; 0 when the block cannot be read. *)
Definition indirect (k : kernel) (blk off : Z) : Z :=
  if decide (in_disk k blk) then ld 2 (disk k blk) (2 * off) else 0.
Definition follow (k : kernel) (blk off : Z) : Z := if blk =? 0 then 0 else indirect k blk off.
(** The disk zone of block [block] of a file with these nine zones; 0 for a hole. *)
Definition zone_number (k : kernel) (zones : list Z) (block : Z) : Z :=
  let z i := default 0 (idx zones i) in
  if block <? 7 then z block
  else if block <? 7 + 512 then follow k (z 7) (block - 7)
  else let b := block - (7 + 512) in follow k (follow k (z 8) (b / 512)) (b mod 512).

Section Bmap.
Context {SI : SyncInodes} {HSI : SyncInodesOk SI}.

Lemma bmap_zone_read k i n j z create : inode_table (k_fs k) !! i = Some n -> idx (i_zone n) j = Some z ->
  (create = true -> z <> 0) -> bmap_zone i j create k = Ok z k.
Proof.
  intros Hn Hz Hc. unfold bmap_zone, zone. rewrite bind_assoc. erewrite bind_Ok by by apply get_inode_Ok.
  rewrite Hz. erewrite bind_Ok by reflexivity.
  assert (create && (z =? 0) = false) as -> by (destruct create; [cbn; specialize (Hc eq_refl); lia|done]).
  erewrite bind_Ok by reflexivity.
  erewrite bind_Ok by by apply get_inode_Ok. by rewrite Hz.
Qed.
Lemma bmap_indirect_read k i n blk off create :
  cache_ok k -> ready k -> inode_table (k_fs k) !! i = Some n -> i_dev n = RD_DEV -> 0 <= blk < 65536 -> 0 <= off < 512 ->
  (create = true -> indirect k blk off <> 0) ->
  exists k', bmap_indirect i blk off create k = Ok (if decide (in_disk k blk) then Some (indirect k blk off) else None) k' /\ calm k k'.
Proof.
  intros Hok Hre Hn Hd Hblk Hoff Hcr. unfold bmap_indirect. erewrite bind_Ok by by apply get_inode_Ok. rewrite Hd.
  unfold indirect in *. destruct (decide (in_disk k blk)) as [Hin|Hin].
  - destruct (bread_read k blk Hok Hre ltac:(lia) Hin) as (b&h&k1&k2&E1&Hb&Hr&Hdata&E2&Hcalm).
    exists k2. split; [|done]. erewrite bind_Ok by exact E1. cbv iota. erewrite bind_Ok by by apply get_bh_Ok.
    assert (ld 2 (k_pmem k1) (b_data h + 2 * off) = ld 2 (disk k blk) (2 * off)) as Ev.
    { apply ld_shift. intros x Hx. rewrite <- Z.add_assoc. apply Hdata. unfold BLOCK_SIZE. lia. }
    erewrite bind_Ok by (unfold rd16, rd, gets; rewrite Ev; reflexivity).
    assert (create && (ld 2 (disk k blk) (2 * off) =? 0) = false) as -> by (destruct create; [cbn; specialize (Hcr eq_refl); lia|done]).
    erewrite bind_Ok by reflexivity. by erewrite bind_Ok by exact E2.
  - destruct (bread_fails k blk Hok Hre ltac:(lia) Hin) as (k1&E1&Hcalm). exists k1. split; [|done].
    by erewrite bind_Ok by exact E1.
Qed.
Lemma follow_calm k k' blk off : calm k k' -> 0 <= off < 512 -> follow k' blk off = follow k blk off.
Proof.
  intros Hc Hoff. unfold follow, indirect. destruct (blk =? 0); [done|].
  pose proof (calm_in_disk k k' blk Hc) as Hiff. destruct (decide (in_disk k' blk)), (decide (in_disk k blk)); try tauto.
  apply ld_ext. intros x Hx. apply calm_disk; [done|done|]. unfold BLOCK_SIZE. lia.
Qed.
Lemma follow_bound k blk off : 0 <= follow k blk off < 65536.
Proof.
  unfold follow, indirect. destruct (blk =? 0); [lia|]. destruct (decide _); [|lia]. apply (ld_bound 2).
Qed.

(** One level of indirection, as [_bmap] goes through it. *)
Lemma bmap_level k i n z off create {A} (c : option Z -> K A) (zero : K A) Q :
  cache_ok k -> ready k -> inode_table (k_fs k) !! i = Some n -> i_dev n = RD_DEV -> 0 <= z < 65536 -> 0 <= off < 512 ->
  (create = true -> follow k z off <> 0) ->
  (forall k' r, calm k k' -> default 0 r = follow k z off -> runs (c r) k' Q) ->
  (follow k z off = 0 -> runs zero k Q) ->
  runs (if z =? 0 then zero else let! r := bmap_indirect i z off create in c r) k Q.
Proof.
  intros Hok Hre Hn Hd Hz Hoff Hcr Hc H0. unfold follow in *. destruct (z =? 0); [by apply H0|].
  destruct (bmap_indirect_read k i n z off create Hok Hre Hn Hd Hz Hoff Hcr) as (k'&E&Hcalm).
  eapply runs_step; [exact E|]. apply Hc; [done|]. unfold indirect. by destruct (decide _).
Qed.

(** Without [create], or for a block that has a zone, [_bmap] finds the zone. *)
Lemma _bmap_spec k i n block create :
  cache_ok k -> ready k -> inode_table (k_fs k) !! i = Some n -> i_dev n = RD_DEV ->
  length (i_zone n) = 9%nat -> Forall (fun z => 0 <= z < 65536) (i_zone n) ->
  0 <= block < 7 + 512 + 512 * 512 -> (create = true -> zone_number k (i_zone n) block <> 0) ->
  runs (_bmap i block create) k (fun r k' => r = zone_number k (i_zone n) block /\ calm k k').
Proof.
  intros Hok Hre Hn Hd Hlen Hf Hblk. unfold _bmap, zone_number.
  assert (forall j, 0 <= j < 9 -> exists z, idx (i_zone n) j = Some z /\ 0 <= z < 65536) as Hzone.
  { intros j Hj. destruct (idx_is_Some (i_zone n) j) as [z Hz]; [rewrite Hlen; lia|]. exists z. split; [done|].
    unfold idx in Hz. destruct (j <? 0); [done|]. by apply (Forall_lookup_1 _ _ _ _ Hf Hz). }
  destruct (Z.ltb_spec block 0); [lia|]. destruct (Z.leb_spec (7 + 512 + 512 * 512) block); [lia|].
  assert (forall off, follow k 0 off = 0) as Hf0 by done.
  destruct (Z.ltb_spec block 7).
  { destruct (Hzone block ltac:(lia)) as (z&Hz&_). rewrite Hz. intros Hcr. unfold runs.
    rewrite (bmap_zone_read k i n block z create Hn Hz) by done. split; [done|by apply calm_refl]. }
  cbv zeta. replace (block - 7 <? 512) with (block <? 7 + 512) by lia. destruct (Z.ltb_spec block (7 + 512)).
  - destruct (Hzone 7 ltac:(lia)) as (z&Hz&Hzb). rewrite Hz. intros Hcr.
    eapply runs_step; [apply (bmap_zone_read k i n 7 z); [done..|]; by intros Ec ->; apply (Hcr Ec)|].
    apply (bmap_level k i n); [done..|lia|done| |].
    + intros k' r Hc E. apply runs_ret. by split.
    + intros E. apply runs_ret. by split; [symmetry|apply calm_refl].
  - destruct (Hzone 8 ltac:(lia)) as (z&Hz&Hzb). rewrite Hz. intros Hcr.
    eapply runs_step; [apply (bmap_zone_read k i n 8 z); [done..|]; by intros Ec ->; apply (Hcr Ec)|].
    replace (block - 7 - 512) with (block - (7 + 512)) by lia. set (b := block - (7 + 512)) in *.
    assert (Z.shiftr b 9 = b / 512) as -> by by rewrite Z.shiftr_div_pow2.
    assert (Z.land b 511 = b mod 512) as -> by (change 511 with (Z.ones 9); by rewrite Z.land_ones).
    change (default 0 (Some z)) with z in *. set (z1 := follow k z (b / 512)).
    assert (0 <= b / 512 < 512) by (unfold b; dlia). assert (0 <= b mod 512 < 512) by (unfold b; dlia).
    apply (bmap_level k i n); [done..| | |].
    { intros Ec E. apply (Hcr Ec). unfold z1. by rewrite E. }
    + intros k' r Hc E. pose proof (follow_bound k z (b / 512)) as Hb1. fold z1 in E, Hb1.
      assert (inode_table (k_fs k') !! i = Some n) as Hn' by (destruct Hc as (_&_&(_&->&_)&_); done).
      assert (match r with None => z1 = 0 | Some i => i = z1 end) as Hr by (destruct r; cbn in E; congruence).
      destruct r as [i'|].
      2:{ apply runs_ret. rewrite Hr. split; [|done]. done. }
      subst i'. rewrite <- (follow_calm k k') by done.
      apply (bmap_level k' i n); [apply Hc|by eapply calm_ready|done..| | |].
      { intros Ec. rewrite (follow_calm k k') by done. by apply Hcr. }
      * intros k2 r Hc2 E2. apply runs_ret. split; [done|by eapply calm_trans].
      * intros E2. apply runs_ret. by split; [symmetry|].
    + intros E. apply runs_ret. unfold z1. rewrite E. split; [done|by apply calm_refl].
Qed.
Lemma bmap_spec k i n block :
  cache_ok k -> ready k -> inode_table (k_fs k) !! i = Some n -> i_dev n = RD_DEV ->
  length (i_zone n) = 9%nat -> Forall (fun z => 0 <= z < 65536) (i_zone n) ->
  0 <= block < 7 + 512 + 512 * 512 ->
  runs (bmap i block) k (fun r k' => r = zone_number k (i_zone n) block /\ calm k k').
Proof. intros. by apply _bmap_spec. Qed.
End Bmap.

(** ** [get_empty_inode]: the first slot after [last_inode] that is unused, clean and unlocked *)
Definition next_slot (l : nat) : nat := if (NR_INODE <=? S l)%nat then 0%nat else S l.
Fixpoint rot (l n : nat) : list nat :=
  match n with O => [] | S m => next_slot l :: rot (next_slot l) m end.
Definition vacant (t : list m_inode) (i : nat) : bool :=
  match t !! i with Some n => (i_count n =? 0) && (i_dirt n =? 0) && (i_lock n =? 0) | None => false end.
Definition set_last (l : nat) (k : kernel) : kernel := k <| k_fs ::= fun s => s <| last_inode := l |> |>.

Lemma rot_complete l x : (l < NR_INODE)%nat -> (x < NR_INODE)%nat -> x ∈ rot l NR_INODE.
Proof.
  intros Hl Hx.
  assert (forallb (fun l => forallb (fun x => existsb (Nat.eqb x) (rot l NR_INODE)) (seq 0 NR_INODE)) (seq 0 NR_INODE) = true) as H
    by (vm_compute; reflexivity).
  rewrite forallb_forall in H. specialize (H l ltac:(apply in_seq; lia)).
  rewrite forallb_forall in H. specialize (H x ltac:(apply in_seq; lia)).
  apply existsb_exists in H as (y&Hy&->%Nat.eqb_eq). by apply list_elem_of_In.
Qed.
Lemma next_slot_lt l : (next_slot l < NR_INODE)%nat.
Proof. unfold next_slot, NR_INODE. destruct (Nat.leb_spec 32 (S l)); lia. Qed.

Lemma empty_scan_spec k t x : inode_table (k_fs k) = t -> length t = NR_INODE ->
  forall n c l, last_inode (k_fs k) = l -> first_such (vacant t) (rot l n) = Some x ->
  empty_scan n c k = Ok (Some x) (set_last x k).
Proof.
  intros Ht Hlen n. revert k Ht. induction n as [|n IH]; intros k Ht c l Hl Hx; [done|]. cbn [empty_scan rot] in *.
  rewrite first_such_cons in Hx. rewrite (bind_Ok _ _ _ tt (set_last (next_slot l) k)).
  2:{ unfold modify, set_last. f_equal. destruct k as [? ? [] ? ? ?]. cbn in Hl. unfold upd. cbn. by subst. }
  erewrite bind_Ok by reflexivity.
  change (last_inode (k_fs (set_last (next_slot l) k))) with (next_slot l).
  destruct (lookup_lt_is_Some_2 t (next_slot l)) as [y Hy]; [rewrite Hlen; apply next_slot_lt|].
  erewrite bind_Ok by (apply get_inode_Ok; change (inode_table (k_fs (set_last ?a k))) with (inode_table (k_fs k)); by rewrite Ht).
  assert (forall z, set_last x (set_last z k) = set_last x k) as Htw by (intros; by destruct k as [? ? [] ? ? ?]).
  unfold vacant in Hx at 1. rewrite Hy in Hx.
  destruct (i_count y =? 0); cbn [andb] in Hx.
  - destruct ((i_dirt y =? 0) && (i_lock y =? 0)); [by injection Hx as <-|].
    rewrite (IH (set_last (next_slot l) k) Ht _ (next_slot l)) by done. by rewrite Htw.
  - rewrite (IH (set_last (next_slot l) k) Ht _ (next_slot l)) by done. by rewrite Htw.
Qed.

(** ** The i-nodes in memory *)
(** No i-node is locked, waited for or mounted on, and an i-node of a device is in one slot only. *)
Record icache_ok (k : kernel) : Prop := mkIcacheOk {
  ic_length : length (inode_table (k_fs k)) = NR_INODE;
  ic_last : (last_inode (k_fs k) < NR_INODE)%nat;
  ic_idle : forall i n, inode_table (k_fs k) !! i = Some n -> i_lock n = 0 /\ i_wait n = None /\ i_mount n = 0;
  ic_count : forall i n, inode_table (k_fs k) !! i = Some n -> 0 <= i_count n < 65535;
  ic_unique : forall i j n m, inode_table (k_fs k) !! i = Some n -> inode_table (k_fs k) !! j = Some m ->
    i_dev n <> 0 -> i_dev n = i_dev m -> i_num n = i_num m -> i = j }.
Definition fresh_inode : m_inode := zero_inode <| i_count := 1 |>.

Section Iget.
Context {SI : SyncInodes} {HSI : SyncInodesOk SI}.

Lemma get_empty_inode_spec k e :
  icache_ok k -> first_such (vacant (inode_table (k_fs k))) (rot (last_inode (k_fs k)) NR_INODE) = Some e ->
  get_empty_inode k = Ok e (set_inode e fresh_inode (set_last e k)).
Proof.
  intros Hic He. unfold get_empty_inode. change ROUNDS with (S 33) at 1. rewrite loop_S.
  rewrite bind_assoc. erewrite bind_Ok by (by apply (empty_scan_spec k _ e eq_refl (ic_length _ Hic) NR_INODE None (last_inode (k_fs k)))).
  set (k1 := set_last e k). pose proof He as [_ Hv]%first_such_Some. unfold vacant in Hv.
  destruct (inode_table (k_fs k) !! e) as [n|] eqn:Hn; [|done].
  apply andb_true_iff in Hv as [[Hc%Z.eqb_eq Hd%Z.eqb_eq]%andb_true_iff Hl%Z.eqb_eq].
  assert (inode_table (k_fs k1) !! e = Some n) as Hn1 by done.
  cbv iota. rewrite bind_assoc. unfold wait_on_inode at 1. rewrite bind_assoc. erewrite bind_Ok by by apply get_inode_Ok. rewrite Hl.
  erewrite bind_Ok by reflexivity. rewrite bind_assoc.
  erewrite (bind_Ok _ _ _ tt k1).
  2:{ change ROUNDS with (S 33). rewrite loop_S, bind_assoc. erewrite bind_Ok by by apply get_inode_Ok. rewrite Hd. done. }
  rewrite bind_assoc. erewrite bind_Ok by by apply get_inode_Ok. rewrite Hc. change (truth 0) with false. cbv iota.
  rewrite bind_assoc. erewrite bind_Ok by by apply mod_inode_Ok. rewrite bind_assoc.
  erewrite bind_Ok by (apply mod_inode_Ok; by eapply set_inode_lookup). by rewrite set_inode_twice.
Qed.

(** Giving the empty i-node back. *)
Lemma iput_fresh k e n0 : inode_table (k_fs k) !! e = Some n0 -> n0 = fresh_inode ->
  iput (Some e) k = Ok tt (set_inode e zero_inode k).
Proof.
  intros He ->. unfold iput. unfold wait_on_inode. rewrite bind_assoc. erewrite bind_Ok by by apply get_inode_Ok.
  erewrite bind_Ok by reflexivity. erewrite bind_Ok by by apply get_inode_Ok. do 2 closed_if.
  erewrite bind_Ok by reflexivity. unfold iput_repeat. change ROUNDS with (S 33). rewrite loop_S, bind_assoc.
  erewrite bind_Ok by by apply get_inode_Ok. do 2 closed_if. unfold truncate. rewrite !bind_assoc.
  erewrite bind_Ok by by apply get_inode_Ok. closed_if. erewrite bind_Ok by reflexivity.
  rewrite bind_assoc. unfold free_inode. rewrite bind_assoc. erewrite bind_Ok by by apply get_inode_Ok. closed_if.
  by erewrite bind_Ok by by apply mod_inode_Ok.
Qed.

Definition matches (dev nr : Z) (n : m_inode) : bool := (i_dev n =? dev) && (i_num n =? nr).
Definition iget_body (empty : nat) : nat * Z * Z -> K (nat * Z * Z + nat) := fun '(inode, dev, nr) =>
  if (inode <? NR_INODE)%nat then
    let! n := get_inode inode in
    if negb (i_dev n =? dev) || negb (i_num n =? nr) then ret (inl (S inode, dev, nr))
    else
      wait_on_inode inode ;;;
      let! n := get_inode inode in
      if negb (i_dev n =? dev) || negb (i_num n =? nr) then ret (inl (0%nat, dev, nr))
      else
        mod_inode inode (fun n => n <| i_count := u16 (i_count n + 1) |>) ;;;
        if truth (i_mount n) then
          let! s := mounted_on inode in
          match s with
          | None => iput (Some empty) ;;; ret (inr inode)
          | Some s =>
              iput (Some inode) ;;;
              let! sb := get_sb s in
              ret (inl (0%nat, s_dev sb, ROOT_INO))
          end
        else iput (Some empty) ;;; ret (inr inode)
  else
    mod_inode empty (fun n => n <| i_dev := u16 dev |>) ;;;
    mod_inode empty (fun n => n <| i_num := u16 nr |>) ;;;
    read_inode empty ;;;
    ret (inr empty).

Lemma iget_walk k e dev nr i : length (inode_table (k_fs k)) = NR_INODE -> (i <= NR_INODE)%nat ->
  (forall j n, (j < i)%nat -> inode_table (k_fs k) !! j = Some n -> matches dev nr n = false) ->
  forall d s fuel, (s + d = i)%nat -> (d <= fuel)%nat ->
    loop fuel (iget_body e) (s, dev, nr) k = loop (fuel - d) (iget_body e) (i, dev, nr) k.
Proof.
  intros Hlen Hi Hno. induction d as [|d IH]; intros s fuel Es Hf.
  - rewrite Nat.sub_0_r. f_equal. assert (s = i) as -> by lia. done.
  - destruct fuel as [|fuel]; [lia|]. rewrite loop_S. cbn [Nat.sub]. rewrite <- (IH (S s) fuel) by lia.
    destruct (lookup_lt_is_Some_2 (inode_table (k_fs k)) s) as [n Hn]; [lia|].
    erewrite (bind_Ok _ _ _ (inl (S s, dev, nr)) k); [done|]. unfold iget_body.
    destruct (Nat.ltb_spec s NR_INODE); [|lia]. erewrite bind_Ok by by apply get_inode_Ok.
    specialize (Hno s n ltac:(lia) Hn). unfold matches in Hno. rewrite <- negb_andb, Hno. done.
Qed.

Lemma icache_vacant k e : first_such (vacant (inode_table (k_fs k))) (rot (last_inode (k_fs k)) NR_INODE) = Some e ->
  exists n, inode_table (k_fs k) !! e = Some n /\ i_count n = 0.
Proof.
  intros [_ Hv]%first_such_Some. unfold vacant in Hv. destruct (inode_table (k_fs k) !! e) as [n|]; [|done].
  exists n. split; [done|]. apply andb_true_iff in Hv as [[?%Z.eqb_eq _]%andb_true_iff _]. done.
Qed.

(** The i-node is in the table: it gets one more user, the slot taken first is given back. *)
Lemma iget_hit k e i n dev nr :
  icache_ok k -> dev <> 0 -> first_such (vacant (inode_table (k_fs k))) (rot (last_inode (k_fs k)) NR_INODE) = Some e ->
  inode_table (k_fs k) !! i = Some n -> i_dev n = dev -> i_num n = nr -> i <> e ->
  iget dev nr k = Ok i (set_inode e zero_inode (set_inode i (n <| i_count := i_count n + 1 |>)
                         (set_inode e fresh_inode (set_last e k)))).
Proof.
  intros Hic Hdev He Hn Hd Hnr Hie. unfold iget. apply Z.eqb_neq in Hdev as Hdz. rewrite Hdz.
  erewrite bind_Ok by by apply get_empty_inode_spec. destruct (icache_vacant k e He) as (ne&Hne&Hce).
  set (k1 := set_inode e fresh_inode (set_last e k)).
  assert (inode_table (k_fs k1) = <[e := fresh_inode]> (inode_table (k_fs k))) as Ht by done.
  assert (inode_table (k_fs k1) !! i = Some n) as Hn1 by (rewrite Ht; by rewrite list_lookup_insert_ne).
  destruct (ic_idle _ Hic i n Hn) as (Hl&_&Hm). pose proof (ic_count _ Hic i n Hn) as Hcb.
  assert (i < NR_INODE)%nat as Hi by (rewrite <- (ic_length _ Hic); by eapply lookup_lt_Some).
  assert (length (inode_table (k_fs k1)) = NR_INODE) as Hlen1 by (rewrite Ht, length_insert; apply Hic).
  assert (forall j m, (j < i)%nat -> inode_table (k_fs k1) !! j = Some m -> matches dev nr m = false) as Hno.
  { intros j m Hj Hm'. apply not_true_is_false. unfold matches. intros [E1%Z.eqb_eq E2%Z.eqb_eq]%andb_true_iff.
    rewrite Ht in Hm'. apply list_lookup_insert_Some in Hm' as [(_&<-&_)|[_ Hm']]; [by cbn in E1|].
    assert (j = i); [|lia]. apply (ic_unique _ Hic j i m n); congruence. }
  change (loop ?f (fun p => _) ?a k1) with (loop f (iget_body e) a k1).
  rewrite (iget_walk k1 e dev nr i Hlen1 ltac:(lia) Hno i 0%nat) by (unfold NR_INODE, NR_SUPER in *; lia).
  assert (exists f, (S NR_INODE * S (S NR_SUPER) - i = S f)%nat) as [f ->] by (exists (S NR_INODE * S (S NR_SUPER) - i - 1)%nat; unfold NR_INODE, NR_SUPER in *; lia).
  rewrite loop_S. unfold iget_body at 1. destruct (Nat.ltb_spec i NR_INODE); [|lia].
  rewrite bind_assoc. erewrite bind_Ok by by apply get_inode_Ok. rewrite Hd, Hnr, !Z.eqb_refl. cbn [negb orb].
  rewrite bind_assoc. unfold wait_on_inode. rewrite bind_assoc. erewrite bind_Ok by by apply get_inode_Ok. rewrite Hl.
  erewrite bind_Ok by reflexivity. rewrite bind_assoc. erewrite bind_Ok by by apply get_inode_Ok.
  rewrite Hd, Hnr, !Z.eqb_refl. cbn [negb orb]. rewrite bind_assoc. erewrite bind_Ok by by apply mod_inode_Ok.
  rewrite Hm. change (truth 0) with false. cbv iota. rewrite u16_small by lia. rewrite bind_assoc.
  erewrite bind_Ok.
  2:{ apply (iput_fresh _ e fresh_inode); [|done]. unfold set_inode at 1. rsimpl. rewrite list_lookup_insert_ne by done.
      rewrite Ht. apply list_lookup_insert_eq. by eapply lookup_lt_Some. }
  done.
Qed.

Definition loaded_inode (k : kernel) (sb : super_block) (nr : Z) : m_inode :=
  load_d_inode (disk k (inode_block sb nr)) (inode_offset nr) (fresh_inode <| i_dev := RD_DEV |> <| i_num := nr |>).

(** The i-node is in no other slot: it is read from the disk into the slot found. *)
Lemma iget_loads k e nr :
  icache_ok k -> first_such (vacant (inode_table (k_fs k))) (rot (last_inode (k_fs k)) NR_INODE) = Some e ->
  (forall j n, j <> e -> inode_table (k_fs k) !! j = Some n -> matches RD_DEV nr n = false) -> 0 <= nr < 65536 ->
  iget RD_DEV nr k = (read_inode e ;;; ret e) (set_inode e (fresh_inode <| i_dev := RD_DEV |> <| i_num := nr |>) (set_last e k)).
Proof.
  intros Hic He Hno Hnr. unfold iget. change (RD_DEV =? 0) with false. cbv iota.
  erewrite bind_Ok by by apply get_empty_inode_spec. destruct (icache_vacant k e He) as (ne&Hne&_).
  set (k1 := set_inode e fresh_inode (set_last e k)).
  assert (inode_table (k_fs k1) = <[e := fresh_inode]> (inode_table (k_fs k))) as Ht by done.
  assert (length (inode_table (k_fs k1)) = NR_INODE) as Hlen1 by (rewrite Ht, length_insert; apply Hic).
  assert (forall j m, (j < NR_INODE)%nat -> inode_table (k_fs k1) !! j = Some m -> matches RD_DEV nr m = false) as Hno1.
  { intros j m _ Hm. rewrite Ht in Hm. apply list_lookup_insert_Some in Hm as [(->&<-&_)|[Hj Hm]]; [done|]. by apply (Hno j). }
  change (loop ?f (fun p => _) ?a k1) with (loop f (iget_body e) a k1).
  rewrite (iget_walk k1 e RD_DEV nr NR_INODE Hlen1 ltac:(lia) Hno1 NR_INODE 0%nat) by (unfold NR_INODE, NR_SUPER in *; lia).
  change (S NR_INODE * S (S NR_SUPER) - NR_INODE)%nat with (S 297). rewrite loop_S.
  change (iget_body e (NR_INODE, RD_DEV, nr)) with (mod_inode e (fun n => n <| i_dev := u16 RD_DEV |>) ;;;
    mod_inode e (fun n => n <| i_num := u16 nr |>) ;;; read_inode e ;;; ret (inr (A := nat * Z * Z) e)).
  assert (inode_table (k_fs k1) !! e = Some fresh_inode) as He1 by (rewrite Ht; apply list_lookup_insert_eq; by eapply lookup_lt_Some).
  rewrite !bind_assoc. erewrite bind_Ok by by apply mod_inode_Ok. rewrite !bind_assoc.
  erewrite bind_Ok by (apply mod_inode_Ok; by eapply set_inode_lookup). rewrite bind_assoc, set_inode_twice, u16_small by lia.
  change (u16 RD_DEV) with RD_DEV. unfold k1. by rewrite set_inode_twice.
Qed.
Lemma iget_miss k e nr s sb :
  icache_ok k -> first_such (vacant (inode_table (k_fs k))) (rot (last_inode (k_fs k)) NR_INODE) = Some e ->
  (forall j n, j <> e -> inode_table (k_fs k) !! j = Some n -> matches RD_DEV nr n = false) -> 0 <= nr < 65536 ->
  cache_ok k -> at_hand k (inode_block sb nr) -> found_super k RD_DEV s sb ->
  0 <= inode_block sb nr < 2 ^ 32 -> in_disk k (inode_block sb nr) ->
  runs (iget RD_DEV nr) k (fun i k' => i = e /\ cache_ok k' /\ same_disk k k' /\
    k_fs k' = k_fs (set_inode e (loaded_inode k sb nr) (set_last e k))).
Proof.
  intros Hic He Hno Hnr Hok Hav Hsb Hblk Hin. unfold runs. rewrite (iget_loads k e nr) by done.
  destruct (icache_vacant k e He) as (ne&Hne&_).
  set (n2 := fresh_inode <| i_dev := RD_DEV |> <| i_num := nr |>). set (k2 := set_inode e n2 (set_last e k)).
  assert (same_cache k k2) as Hsc by done.
  pose proof (read_inode_spec k2 e n2 s sb) as H. change (i_num n2) with nr in H.
  assert (inode_table (k_fs k2) !! e = Some n2) as He2 by (apply list_lookup_insert_eq; by eapply lookup_lt_Some).
  specialize (H ltac:(destruct Hok as (l&ch&HI); exists l, ch; by apply (cache_inv_ext k)) Hav Hsb He2 eq_refl eq_refl eq_refl Hblk Hin).
  apply runs_Ok in H as ([]&k3&E&Hok3&Hd3&Hfs3). erewrite bind_Ok by exact E. split_and!; try done.
  rewrite Hfs3. unfold k2. rewrite set_inode_twice. unfold loaded_inode. fold n2.
  by rewrite (load_d_inode_ext (disk k (inode_block sb nr)) _ (inode_offset nr)) by (intros; by apply disk_ext).
Qed.
Lemma iget_miss_calm k e nr s sb :
  icache_ok k -> first_such (vacant (inode_table (k_fs k))) (rot (last_inode (k_fs k)) NR_INODE) = Some e ->
  (forall j n, j <> e -> inode_table (k_fs k) !! j = Some n -> matches RD_DEV nr n = false) -> 0 <= nr < 65536 ->
  cache_ok k -> ready k -> found_super k RD_DEV s sb ->
  0 <= inode_block sb nr < 2 ^ 32 -> in_disk k (inode_block sb nr) ->
  exists k', iget RD_DEV nr k = Ok e k' /\ calm (set_inode e (loaded_inode k sb nr) (set_last e k)) k'.
Proof.
  intros Hic He Hno Hnr (l&ch&HI) Hre Hsb Hblk Hin. rewrite (iget_loads k e nr) by done.
  destruct (icache_vacant k e He) as (ne&Hne&_).
  set (n2 := fresh_inode <| i_dev := RD_DEV |> <| i_num := nr |>). set (k2 := set_inode e n2 (set_last e k)).
  assert (inode_table (k_fs k2) !! e = Some n2) as He2 by (apply list_lookup_insert_eq; by eapply lookup_lt_Some).
  destruct (read_inode_calm k2 e n2 s sb) as (k3&E&Hc); try done; [exists l, ch; by apply (cache_inv_ext k)|].
  exists k3. erewrite bind_Ok by exact E. split; [done|].
  rewrite <- (set_inode_twice (set_last e k) e n2 (loaded_inode k sb nr)). exact Hc.
Qed.

Lemma icache_set k e n0 n : icache_ok k -> inode_table (k_fs k) !! e = Some n0 ->
  i_lock n = 0 -> i_wait n = None -> i_mount n = 0 -> 0 <= i_count n < 65535 ->
  (i_dev n <> 0 -> forall j m, j <> e -> inode_table (k_fs k) !! j = Some m -> matches (i_dev n) (i_num n) m = false) ->
  icache_ok (set_inode e n (set_last e k)).
Proof.
  intros Hic He Hl Hw Hm Hc Hu. assert (forall i x, inode_table (k_fs (set_inode e n (set_last e k))) !! i = Some x ->
    i = e /\ x = n \/ i <> e /\ inode_table (k_fs k) !! i = Some x) as Hlook.
  { intros i x [(->&->&_)|[? Hx]]%list_lookup_insert_Some; [by left|right]. done. }
  assert (forall d nu x, matches d nu x = false -> d = i_dev x -> nu = i_num x -> False) as Hmm.
  { intros d nu x H -> ->. unfold matches in H. by rewrite !Z.eqb_refl in H. }
  split.
  - unfold set_inode. rsimpl. rewrite length_insert. apply Hic.
  - change (e < NR_INODE)%nat. rewrite <- (ic_length _ Hic). by eapply lookup_lt_Some.
  - intros i x [[-> ->]|[_ Hx]]%Hlook; [done|by eapply Hic].
  - intros i x [[-> ->]|[_ Hx]]%Hlook; [done|by eapply Hic].
  - intros i j x y [[-> ->]|[Hi Hx]]%Hlook [[-> ->]|[Hj Hy]]%Hlook Hd Ed En; [done| | |by eapply (ic_unique _ Hic)].
    + exfalso. apply (Hmm _ _ y (Hu Hd j y Hj Hy)); done.
    + exfalso. apply (Hmm _ _ x (Hu ltac:(congruence) i x Hi Hx)); congruence.
Qed.

Lemma vacant_first k i : icache_ok k -> vacant (inode_table (k_fs k)) i = true ->
  exists e, first_such (vacant (inode_table (k_fs k))) (rot (last_inode (k_fs k)) NR_INODE) = Some e.
Proof.
  intros Hic Hv. destruct (first_such _ _) as [e|] eqn:E; [by exists e|]. rewrite first_such_None in E.
  rewrite E in Hv; [done|]. apply rot_complete; [apply Hic|]. unfold vacant in Hv. rewrite <- (ic_length _ Hic).
  destruct (_ !! i) eqn:Hi; [by eapply lookup_lt_Some|done].
Qed.

Definition iget_result (k : kernel) (sb : super_block) (nr : Z) (i : nat) (n' : m_inode) : Prop :=
  (exists n, inode_table (k_fs k) !! i = Some n /\ matches RD_DEV nr n = true /\ n' = n <| i_count := i_count n + 1 |>) \/
  n' = loaded_inode k sb nr.

Lemma iget_spec k nr s sb v :
  icache_ok k -> (forall i n, inode_table (k_fs k) !! i = Some n -> i_count n < 65534) ->
  vacant (inode_table (k_fs k)) v = true -> 0 <= nr < 65536 ->
  cache_ok k -> at_hand k (inode_block sb nr) -> found_super k RD_DEV s sb ->
  0 <= inode_block sb nr < 2 ^ 32 -> in_disk k (inode_block sb nr) ->
  runs (iget RD_DEV nr) k (fun i k' => icache_ok k' /\ cache_ok k' /\ same_disk k k' /\
    exists n', inode_table (k_fs k') !! i = Some n' /\ matches RD_DEV nr n' = true /\ 1 <= i_count n' /\ iget_result k sb nr i n').
Proof.
  intros Hic Hcnt Hv Hnr Hok Hav Hsb Hblk Hin. destruct (vacant_first k v Hic Hv) as [e He].
  destruct (icache_vacant k e He) as (ne&Hne&_).
  destruct (list_find (fun n => matches RD_DEV nr n = true) (<[e := zero_inode]> (inode_table (k_fs k)))) as [[i n]|] eqn:E.
  - apply list_find_Some in E as (Hn&Hm&_). apply list_lookup_insert_Some in Hn as [(_&<-&_)|[Hie Hn]]; [done|].
    assert (i <> e) as Hie' by done. pose proof Hm as [Hd%Z.eqb_eq Hnum%Z.eqb_eq]%andb_true_iff.
    unfold runs. rewrite (iget_hit k e i n RD_DEV nr) by done. set (k' := set_inode e zero_inode _).
    assert (icache_ok k') as Hic'.
    { pose proof (ic_idle _ Hic i n Hn) as (Hl&Hw&Hmt). pose proof (ic_count _ Hic i n Hn). specialize (Hcnt i n Hn).
      pose proof (icache_set (set_inode i (n <| i_count := i_count n + 1 |>) (set_last i k)) e ne zero_inode) as H1.
      assert (k_fs k' = k_fs (set_inode e zero_inode (set_last e (set_inode i (n <| i_count := i_count n + 1 |>) (set_last i k))))) as Ek.
      { unfold k', set_inode, set_last. rsimpl. destruct (k_fs k). unfold upd. cbn.
        rewrite (list_insert_insert_ne _ i e) by done. by rewrite list_insert_insert_eq. }
      assert (forall a b, k_fs a = k_fs b -> icache_ok b -> icache_ok a) as Hext by (intros a b Eab []; split; rewrite Eab; done).
      apply (Hext _ _ Ek). apply H1; try done.
      + apply (icache_set k i n); try done; [by rsimpl; lia|]. intros Hnz j m Hj Hm'. apply not_true_is_false.
        intros [E1%Z.eqb_eq E2%Z.eqb_eq]%andb_true_iff. apply Hj. apply (ic_unique _ Hic j i m n); try done; congruence.
      + unfold set_inode. rsimpl. by rewrite list_lookup_insert_ne. }
    split; [done|]. split; [destruct Hok as (l&ch&HI); exists l, ch; by apply (cache_inv_ext k)|]. split; [done|].
    exists (n <| i_count := i_count n + 1 |>). split_and!; try done.
    + unfold k', set_inode. rsimpl. rewrite list_lookup_insert_ne by done. apply list_lookup_insert_eq.
      rewrite length_insert. by eapply lookup_lt_Some.
    + rsimpl. pose proof (ic_count _ Hic i n Hn). lia.
    + left. by exists n.
  - apply list_find_None in E.
    assert (forall j n, j <> e -> inode_table (k_fs k) !! j = Some n -> matches RD_DEV nr n = false) as Hno.
    { intros j n Hj Hn. apply not_true_is_false. apply (Forall_lookup_1 _ _ j n E). by rewrite list_lookup_insert_ne. }
    eapply runs_mono; [|by apply (iget_miss k e nr s sb)]. intros ? k' (->&Hok'&Hd'&Hfs').
    assert (icache_ok (set_inode e (loaded_inode k sb nr) (set_last e k))) as Hic'.
    { apply (icache_set k e ne); try done. }
    split; [destruct Hic'; split; rewrite Hfs'; done|]. split; [done|]. split; [done|].
    exists (loaded_inode k sb nr). split_and!; try done; [|unfold matches, loaded_inode, load_d_inode; rsimpl; by rewrite !Z.eqb_refl|by right].
    rewrite Hfs'. apply list_lookup_insert_eq. by eapply lookup_lt_Some.
Qed.
End Iget.

(** ** Properties *)
Module InodeProps.

(** C20: [bmap] computes the zone of a block of a file.  For every block number up to the limit
    7 + 512 + 512 * 512 it returns, and the result is the direct zone, the entry of the indirect
    block, or the entry of the block found through the double indirect block, as these blocks are on
    the disk, and 0 for a hole or an unreadable indirect block.  It leaves the disk, the i-nodes and
    the use of the buffers as they were. *)
Theorem bmap_correct k i n block :
  cache_ok k -> ready k -> inode_table (k_fs k) !! i = Some n -> i_dev n = RD_DEV ->
  length (i_zone n) = 9%nat -> Forall (fun z => 0 <= z < 65536) (i_zone n) ->
  0 <= block < 7 + 512 + 512 * 512 ->
  runs (bmap i block) k (fun r k' => r = zone_number k (i_zone n) block /\ calm k k').
Proof. apply bmap_spec. Qed.

Definition demo_file : m_inode := zero_inode <| i_dev := RD_DEV |> <| i_num := 5 |> <| i_count := 1 |>
  <| i_zone := [10; 11; 12; 13; 14; 15; 16; 20; 0] |>.
Definition demo_ifs : fs_state :=
  mkFs (demo_file :: replicate 31 zero_inode) 0 (demo_zsuper 0 :: replicate 7 zero_super) (replicate NR_FILE zero_file) RD_DEV.
(** Entry 1 of the indirect block 20 is 33. *)
Definition demo_ik : kernel := booted_fs (bits_of_block 20 (33 * 65536)) demo_ifs.
Lemma bmap_correct_witness : runs (bmap 0 8) demo_ik (fun r k' => r = 33 /\ calm demo_ik k').
Proof.
  eapply runs_mono; [|apply (bmap_correct demo_ik 0 demo_file 8);
    [apply booted_fs_ok|apply booted_fs_ready|reflexivity|reflexivity|reflexivity|repeat constructor; lia|lia]].
  intros r k' [-> Hc]. split; [|exact Hc]. unfold zone_number. cbn.
  change (follow demo_ik 20 1 = 33). unfold follow, indirect. cbn [Z.eqb Pos.eqb].
  destruct (decide (in_disk demo_ik 20)) as [_|H]; [|destruct H; apply booted_fs_in_disk; lia].
  etrans; [apply (ld_ext 2 (fun x => bits_of_block 20 (33 * 65536) (RD_START + 20 * BLOCK_SIZE + x))); intros x _; apply booted_fs_disk|].
  vm_compute. reflexivity.
Defined.

(** C21: [iget] on the RAM disk, when the table of i-nodes has a slot that is unused, clean and
    unlocked, returns a slot with the i-node asked for, in use.  The slot is the one the i-node is
    in already, with one more user, or a fresh one loaded from the i-node's block on the disk; the
    table never holds an i-node twice. *)
Theorem iget_returns_inode k nr s sb v :
  icache_ok k -> (forall i n, inode_table (k_fs k) !! i = Some n -> i_count n < 65534) ->
  vacant (inode_table (k_fs k)) v = true -> 0 <= nr < 65536 ->
  cache_ok k -> at_hand k (inode_block sb nr) -> found_super k RD_DEV s sb ->
  0 <= inode_block sb nr < 2 ^ 32 -> in_disk k (inode_block sb nr) ->
  runs (iget RD_DEV nr) k (fun i k' => icache_ok k' /\ cache_ok k' /\ same_disk k k' /\
    exists n', inode_table (k_fs k') !! i = Some n' /\ matches RD_DEV nr n' = true /\ 1 <= i_count n' /\ iget_result k sb nr i n').
Proof. apply iget_spec. Qed.

Lemma demo_icache : icache_ok demo_ik.
Proof.
  assert (forall i n, inode_table (k_fs demo_ik) !! i = Some n -> n = demo_file /\ i = 0%nat \/ n = zero_inode) as H.
  { intros [|i] n; [intros [= <-]; by left|]. change (inode_table (k_fs demo_ik) !! S i) with (replicate 31 zero_inode !! i).
    intros [-> _]%lookup_replicate_1. by right. }
  split; try done.
  - change (0 < 32)%nat. lia.
  - intros i n [[-> _]| ->]%H; done.
  - intros i n [[-> _]| ->]%H; done.
  - intros i j n m [[-> ->]| ->]%H [[-> ->]| ->]%H; done.
Qed.
Lemma iget_returns_inode_witness :
  runs (iget RD_DEV 9) demo_ik (fun i k' => exists n', inode_table (k_fs k') !! i = Some n' /\ i_num n' = 9) /\
  runs (iget RD_DEV 5) demo_ik (fun i k' => exists n', inode_table (k_fs k') !! i = Some n' /\ i_num n' = 5).
Proof.
  assert (forall nr, 0 <= nr < 65536 -> inode_block (demo_zsuper 0) nr = 4 -> runs (iget RD_DEV nr) demo_ik (fun i k' => exists n',
    inode_table (k_fs k') !! i = Some n' /\ i_num n' = nr)) as H.
  2:{ split; apply H; try reflexivity; lia. }
  intros nr Hnr Hb. eapply runs_mono; [|apply (iget_returns_inode demo_ik nr 0 (demo_zsuper 0) 1); rewrite ?Hb;
    [exact demo_icache| |reflexivity|exact Hnr|apply booted_fs_ok|left; apply booted_fs_ready| |lia|apply booted_fs_in_disk; lia]].
  - intros i k' (_&_&_&n'&Hn&[_ Hm%Z.eqb_eq]%andb_true_iff&_). exists n'. auto.
  - intros [|i] n; [intros [= <-]; reflexivity|].
    change (inode_table (k_fs demo_ik) !! S i) with (replicate 31 zero_inode !! i). intros [-> _]%lookup_replicate_1. reflexivity.
  - split_and!; try reflexivity; try discriminate. { unfold NR_SUPER. lia. } intros; lia.
Defined.
End InodeProps.
