(* ===== verification/PageFault.v ===== *)
(** * Demand paging and the access to user memory (mm/memory.c, kernel/segment.c,
    the store fault of trap/machine_exception.c)

    [do_no_page], [machine_exception_store_or_amo_access_fault], the translation of user
    addresses that the kernel makes for itself, [get_fs_byte] ... [put_fs_64long], and the
    [page_transform]/[mem_copy] functions. *)
From Stdlib Require Import ZArith Lia String.
From stdpp Require Import base list gmap.
From S2P Require Import Prelude State Pte PageAlloc PageTable BlockIO Buffer BufferCache BufferInit InodeIO Bitmap Inode.
Open Scope Z_scope.

Section Faults.
Context {SI : SyncInodes}.

(** [for(i = 0;i < 4;block++,i++) nr[i] = bmap(current->executable,block);] *)
Fixpoint bmap_run (inode : nat) (block : Z) (n : nat) : K (list Z) :=
  match n with
  | O => ret []
  | S m => let! z := bmap inode block in let! rest := bmap_run inode (s32 (block + 1)) m in ret (z :: rest)
  end.

Definition do_no_page (address : Z) : K unit :=
  let address := Z.land address (u64 (Z.lnot (PAGE_SIZE - 1))) in
  let! t := cur in
  match t_executable t with
  | None => get_empty_page address
  | Some x =>
      if t_end_data t <=? address then get_empty_page address
      else
        let! shared := share_page address in
        if truth shared then skip
        else
          let! page := get_free_page in
          if page =? 0 then oom
          else
            let tmp := u64 (address - t_start_code t) in
            let block := s32 (u64 (1 + tmp / BLOCK_SIZE)) in
            let! nr := bmap_run x block 4 in
            let! n := get_inode x in
            bread_page page (i_dev n) nr ;;;
            let i := s32 (u64 (tmp + t_start_code t + 4096 - t_end_data t)) in
            for_up 0 (Z.to_nat i) (fun j => wr8 (page + 4096 - 1 - j) 0) ;;;
            let! r := put_page page address in
            if truth r then skip else free_page page ;;; oom
  end.

(** The entry of [address] in the page directory in use: [None] when the directory entry is not
    valid, [Some None] when the table entry is not. *)
Definition table_entry_of (address : Z) : K (option (option Z)) :=
  let! pd := gets (fun k => page_dir_table (k_mm k)) in
  let! dw := rd64 (entry pd (GET_PAGE_DIR_ID address)) in
  if negb (truth (pte_v dw)) then ret None
  else
    let e := entry (pte_ppn_to_addr dw) (GET_PAGE_ENTRY_ID address) in
    let! w := rd64 e in
    if negb (truth (pte_v w)) then ret (Some None) else ret (Some (Some w)).

Definition machine_exception_store_or_amo_access_fault (addr : Z) : K unit :=
  let! pd := gets (fun k => page_dir_table (k_mm k)) in
  let! nopage :=
    if (USER_END_ADDR <? addr) || (addr <? USER_START_ADDR) then ret true
    else if pd =? 0 then ret true
    else let! e := table_entry_of addr in ret (bool_decide (mjoin e = None)) in
  if nopage then do_no_page addr else do_wp_page addr.

(** [user_addr_to_kernel] and [user_addr_to_kernel_write]: [first] is set until the fault
    handler ran once; the new value of [*addr] is returned. *)
Fixpoint translate (fault : Z -> K unit) (first : nat) (addr : Z) : K Z :=
  if addr <? USER_START_ADDR then ret addr
  else
    let! pd := gets (fun k => page_dir_table (k_mm k)) in
    if pd =? 0 then panic "page_dir_table is null"
    else if USER_END_ADDR <? addr then panic "addr > USER_END_ADDR"
    else
      let! e := table_entry_of addr in
      match e, first with
      | Some (Some w), _ => ret (pte_ppn_to_addr w + Z.land addr 0xFFF)
      | _, S first' => fault addr ;;; translate fault first' addr
      | None, O => panic "page dir is not enabled"
      | Some None, O => panic "page entry is not enabled"
      end.
Definition user_addr_to_kernel (addr : Z) : K Z := translate do_no_page 1 addr.
Definition user_addr_to_kernel_write (addr : Z) : K Z := translate machine_exception_store_or_amo_access_fault 1 addr.

(** ** kernel/segment.c *)
Definition get_fs : K Z := gets (fun k => fs_is_kernel (k_mm k)).
Definition set_fs (v : Z) : K unit := modify (fun k => k <| k_mm ::= fun s => s <| fs_is_kernel := v |> |>).
Definition get_ds : Z := 1.
Definition fs_addr (addr : Z) : K Z :=
  let! f := get_fs in if f =? 0 then user_addr_to_kernel addr else ret addr.
Definition get_fs_byte (addr : Z) : K Z := let! a := fs_addr addr in rd8 a.
Definition get_fs_word (addr : Z) : K Z := let! a := fs_addr addr in rd16 a.
Definition get_fs_long (addr : Z) : K Z := let! a := fs_addr addr in rd32 a.
Definition get_fs_64long (addr : Z) : K Z := let! a := fs_addr addr in rd64 a.
Definition put_fs_byte (val addr : Z) : K unit := let! a := fs_addr addr in wr8 a (u8 val).
Definition put_fs_word (val addr : Z) : K unit := let! a := fs_addr addr in wr16 a (u16 val).
Definition put_fs_long (val addr : Z) : K unit := let! a := fs_addr addr in wr32 a (u32 val).
Definition put_fs_64long (val addr : Z) : K unit := let! a := fs_addr addr in wr64 a (u64 val).
End Faults.

(** ** [page_transform_start], [page_transform_addr], [mem_copy_from_kernel], [mem_copy_to_kernel]

    [user_addr_to_kernel(&addr)] is called with the address of the parameter [addr] itself, that
    is, of a variable on the kernel stack: below [USER_START_ADDR], so that it returns at once. *)
Definition page_transform_start : K unit :=
  modify (fun k => k <| k_mm ::= fun s => s <| traned := false |> |>).
Definition page_transform_addr (addr : Z) : K Z :=
  let! mm := gets k_mm in
  if negb (traned mm) || negb (GET_PAGE_ID addr =? GET_PAGE_ID (lastkerneladdr mm)) then
    let lastuser := u64 (addr - lastkerneladdr mm + lastuseraddr mm) in
    modify (fun k => k <| k_mm ::= fun s => s <| traned := true |> <| lastuseraddr := lastuser |> <| lastkerneladdr := lastuser |> |>) ;;;
    ret lastuser
  else ret addr.
(** [while(size--)]: neither pointer is advanced. *)
Fixpoint mem_copy_from_kernel_loop (n : nat) (from to : Z) : K unit :=
  match n with
  | O => skip
  | S m =>
      let! to := page_transform_addr to in
      let! v := rd8 from in
      wr8 to v ;;;
      mem_copy_from_kernel_loop m from to
  end.
Definition mem_copy_from_kernel (from to size : Z) : K unit :=
  page_transform_start ;;; mem_copy_from_kernel_loop (Z.to_nat size) from to.
Fixpoint mem_copy_to_kernel_loop (n : nat) (from to : Z) : K unit :=
  match n with
  | O => skip
  | S m =>
      let! from := page_transform_addr from in
      let! v := rd8 from in
      wr8 to v ;;;
      mem_copy_to_kernel_loop m from to
  end.
Definition mem_copy_to_kernel (from to size : Z) : K unit :=
  page_transform_start ;;; mem_copy_to_kernel_loop (Z.to_nat size) from to.

(** The same copies from and to a variable that is not in [k_pmem].  Only the first byte [v] of the
    source is ever read; and only the first byte of the destination is ever written, with the value
    that the function returns. *)
Fixpoint mem_copy_from_value_loop (n : nat) (v to : Z) : K unit :=
  match n with
  | O => skip
  | S m => let! to := page_transform_addr to in wr8 to v ;;; mem_copy_from_value_loop m v to
  end.
Definition mem_copy_from_value (v to size : Z) : K unit :=
  page_transform_start ;;; mem_copy_from_value_loop (Z.to_nat size) v to.
Fixpoint mem_copy_to_value_loop (n : nat) (from v : Z) : K Z :=
  match n with
  | O => ret v
  | S m => let! from := page_transform_addr from in let! v := rd8 from in mem_copy_to_value_loop m from v
  end.
Definition mem_copy_to_value (from old size : Z) : K Z :=
  page_transform_start ;;; mem_copy_to_value_loop (Z.to_nat size) from old.

Lemma ld_1 m a : ld 1 m a = u8 (m a).
Proof. change (u8 (m a) + 256 * 0 = u8 (m a)). lia. Qed.

(** ** What they do *)
Section Specs.
Context {SI : SyncInodes}.

Lemma table_entry_of_spec k a :
  exists r, table_entry_of a k = Ok r k /\ mjoin r = walk k (page_dir_table (k_mm k)) a.
Proof.
  unfold table_entry_of, walk, table_of, dir_entry. erewrite bind_Ok by reflexivity. erewrite bind_Ok by reflexivity.
  destruct (truth (pte_v _)); cbn [negb]; [|by eexists]. cbv zeta. erewrite bind_Ok by reflexivity.
  destruct (truth (pte_v _)); by eexists.
Qed.

Definition user_range (a : Z) : Prop := USER_START_ADDR <= a <= USER_END_ADDR.
Lemma translate_mapped k fault n a w :
  user_range a -> page_dir_table (k_mm k) <> 0 -> walk k (page_dir_table (k_mm k)) a = Some w ->
  translate fault n a k = Ok (pte_ppn_to_addr w + a mod PAGE_SIZE) k.
Proof.
  intros [H1 H2] Hpd Hw. assert (translate fault n a k = (if a <? USER_START_ADDR then ret a
    else
    let! pd := gets (fun k => page_dir_table (k_mm k)) in
    if pd =? 0 then panic "page_dir_table is null"
    else if USER_END_ADDR <? a then panic "addr > USER_END_ADDR"
    else
      let! e := table_entry_of a in
      match e, n with
      | Some (Some w), _ => ret (pte_ppn_to_addr w + Z.land a 0xFFF)
      | _, S first' => fault a ;;; translate fault first' a
      | None, O => panic "page dir is not enabled"
      | Some None, O => panic "page entry is not enabled"
      end) k) as -> by by destruct n.
  destruct (Z.ltb_spec a USER_START_ADDR); [lia|]. erewrite bind_Ok by reflexivity.
  apply Z.eqb_neq in Hpd. rewrite Hpd. destruct (Z.ltb_spec USER_END_ADDR a); [lia|].
  destruct (table_entry_of_spec k a) as (r&Er&Hr). erewrite bind_Ok by exact Er. rewrite Hw in Hr.
  destruct r as [[w'|]|]; try done. injection Hr as ->. unfold ret. do 2 f_equal.
  change 0xFFF with (Z.ones 12). by rewrite Z.land_ones by lia.
Qed.

(** The byte of user memory at [a]. *)
Definition user_byte (k : kernel) (a : Z) : option Z :=
  match walk k (page_dir_table (k_mm k)) a with
  | Some w => Some (u8 (k_pmem k (pte_ppn_to_addr w + a mod PAGE_SIZE)))
  | None => None
  end.

Lemma fs_addr_mapped k a w :
  fs_is_kernel (k_mm k) = 0 -> user_range a -> page_dir_table (k_mm k) <> 0 ->
  walk k (page_dir_table (k_mm k)) a = Some w -> fs_addr a k = Ok (pte_ppn_to_addr w + a mod PAGE_SIZE) k.
Proof.
  intros Hf Ha Hpd Hw. unfold fs_addr, get_fs. erewrite bind_Ok by reflexivity. rewrite Hf. by apply translate_mapped.
Qed.
Lemma get_fs_byte_spec k a v :
  fs_is_kernel (k_mm k) = 0 -> user_range a -> page_dir_table (k_mm k) <> 0 -> user_byte k a = Some v ->
  get_fs_byte a k = Ok v k.
Proof.
  intros Hf Ha Hpd Hv. unfold user_byte in Hv. destruct (walk _ _ a) as [w|] eqn:Hw; [|done]. injection Hv as <-.
  unfold get_fs_byte. erewrite bind_Ok by by apply fs_addr_mapped. unfold rd8, rd, gets. by rewrite ld_1.
Qed.
Lemma put_fs_byte_spec k a v w :
  fs_is_kernel (k_mm k) = 0 -> user_range a -> page_dir_table (k_mm k) <> 0 ->
  walk k (page_dir_table (k_mm k)) a = Some w ->
  put_fs_byte v a k = Ok tt (k <| k_pmem ::= fun m => st 1 m (pte_ppn_to_addr w + a mod PAGE_SIZE) (u8 v) |>).
Proof.
  intros Hf Ha Hpd Hw. unfold put_fs_byte. by erewrite bind_Ok by by apply fs_addr_mapped.
Qed.
End Specs.

(** [page_transform_addr] returns its argument as long as [lastuseraddr = lastkerneladdr], which
    it keeps. *)
Definition untranslated (k : kernel) : Prop := lastuseraddr (k_mm k) = lastkerneladdr (k_mm k).
Lemma page_transform_addr_id k a : untranslated k -> 0 <= a < 2 ^ 64 ->
  exists mm', page_transform_addr a k = Ok a (k <| k_mm := mm' |>) /\ lastuseraddr mm' = lastkerneladdr mm' /\
    mem_map mm' = mem_map (k_mm k) /\ page_dir_table mm' = page_dir_table (k_mm k).
Proof.
  intros Hu Ha. unfold page_transform_addr. erewrite bind_Ok by reflexivity. destruct (negb _ || negb _).
  - unfold untranslated in Hu. rewrite Hu, Z.sub_add, u64_small by lia.
    exists ((k_mm k) <| traned := true |> <| lastuseraddr := a |> <| lastkerneladdr := a |>).
    split; [|done]. by erewrite bind_Ok by reflexivity.
  - exists (k_mm k). split; [|done]. unfold ret. f_equal. by destruct k.
Qed.

Definition copied_byte (m : memory) (from to : Z) : memory := fun x => if x =? to then u8 (m from) else m x.
Lemma st_1 m a v x : st 1 m a v x = if x =? a then u8 v else m x.
Proof.
  unfold st. destruct (Z.eqb_spec x a) as [->|Hne].
  - rewrite in_range_true by lia. by rewrite Z.sub_diag, Z.shiftr_0_r.
  - by rewrite in_range_false by lia.
Qed.
Lemma mem_copy_from_kernel_spec k from to size :
  untranslated k -> 0 <= to < 2 ^ 64 -> from <> to -> 0 < size ->
  runs (mem_copy_from_kernel from to size) k (fun _ k' => forall x, k_pmem k' x = copied_byte (k_pmem k) from to x).
Proof.
  intros Hu Hto Hne Hs. unfold mem_copy_from_kernel. eapply runs_step; [reflexivity|].
  set (k0 := upd k_mm _ k). assert (exists n, Z.to_nat size = S n) as [n ->] by (exists (Z.to_nat size - 1)%nat; lia).
  assert (forall n k, untranslated k -> runs (mem_copy_from_kernel_loop n from to) k (fun _ k' =>
    forall x, k_pmem k' x = if (n =? 0)%nat then k_pmem k x else copied_byte (k_pmem k) from to x)) as H.
  2:{ by apply (H (S n) k0). }
  clear k Hu k0 n Hs. intros n. induction n as [|n IH]; intros k Hu; [by apply runs_ret|]. cbn [mem_copy_from_kernel_loop].
  destruct (page_transform_addr_id k to Hu Hto) as (mm'&E&Hu'&_). eapply runs_step; [exact E|].
  eapply runs_step; [reflexivity|]. eapply runs_step; [reflexivity|].
  set (k1 := upd k_pmem _ _). assert (untranslated k1) as Hu1 by done.
  eapply runs_mono; [|apply (IH k1 Hu1)]. intros [] k' H x. rewrite H.
  assert (forall y, k_pmem k1 y = copied_byte (k_pmem k) from to y) as H1.
  { intros y. unfold k1. rsimpl. rewrite st_1, ld_1. unfold copied_byte. destruct (y =? to); [|done].
    by rewrite (u8_small (u8 _)) by apply u8_bound. }
  cbn [Nat.eqb]. destruct (n =? 0)%nat; [by apply H1|]. unfold copied_byte at 1. rewrite !H1. unfold copied_byte.
  apply Z.eqb_neq in Hne. rewrite Hne. by destruct (x =? to).
Qed.

(** Free frames lie in the memory that [mem_init] was given. *)
Definition free_below (k : kernel) : Prop := forall j, is_frame j -> count k j = 0 -> frame_addr j < HIGH_MEMORY (k_mm k).
Lemma demo_space_free : free_below demo_space.
Proof.
  intros i Hi Hc. rewrite demo_space_high, demo_space_count in * by done.
  unfold frame_addr, FREE_FRAMES, LOW_MEM, PAGING_SIZE, USED in *.
  destruct (i =? 6), (i =? 5), (Z.ltb_spec i 1280); lia.
Qed.
(** Frame [i] was free, has one user, and is a page of zeros that [address] maps; no other page is mapped
    differently, and no other count changed but that of a new table, if there was none for [address]. *)
Definition fresh_page (k k' : kernel) (pd address i : Z) : Prop :=
  maps_page k k' pd address (frame_addr i) /\
  (forall x, 0 <= x < PAGE_SIZE -> k_pmem k' (frame_addr i + x) = 0) /\
  exists l : list Z, NoDup (i :: l) /\ frames_taken k k' (i :: l) /\
    Z.of_nat (length l) = if truth (pte_v (dir_entry k pd (GET_PAGE_DIR_ID address))) then 0 else 1.
(** A page for an address that no file backs. *)
Lemma get_empty_page_spec k address :
  let pd := page_dir_table (k_mm k) in
  wf_mm k -> pt_wf k pd -> free_below k ->
  mayrun (get_empty_page address) k
    (fun _ k' => wf_mm k' /\ pt_wf k' pd /\ page_dir_table (k_mm k') = pd /\ exists i, fresh_page k k' pd address i)
    (fun e k' => e = DoExit SIGSEGV /\ forall j, is_frame j -> count k' j = count k j).
Proof.
  intros pd Hmm Hpt Hhigh. unfold mayrun, get_empty_page.
  destruct (get_free_page_cases k Hmm) as [(i&(Hi&Hci&_)&E)|(_&E)]; erewrite bind_Ok by exact E.
  2:{ by erewrite !bind_Ok by reflexivity. }
  assert (is_frame i) as Hf by done. pose proof (alloc_same_tables k pd i Hpt Hf Hci) as Hst.
  pose proof (alloc_pt_wf k pd i Hmm Hpt Hf Hci) as Hpt1. pose proof (alloc_wf_mm k i Hmm) as Hmm1.
  pose proof (alloc_count k i Hmm Hf) as Hcnt. set (k1 := zero_page (frame_addr i) PAGING_SIZE (set_count i 1 k)) in *.
  assert (frame_addr i =? 0 = false) as -> by (pose proof (frame_addr_bound i Hf); unfold LOW_MEM in *; lia).
  rewrite bind_assoc. pose proof (put_page_spec k1 i address Hmm1 Hpt1 Hf) as H.
  apply runs_Ok in H as (r&k2&Ep&Hmm2&Hpt2&Hpd2&Hcase). erewrite bind_Ok by exact Ep. erewrite bind_Ok by reflexivity.
  destruct Hcase as [(->&->&_)|(->&[Hw Hoth]&(l&[Hl Hc2]&Hlen)&Hdata)].
  - cbn [Z.eqb]. rewrite <- (Z.add_0_r (frame_addr i)).
    rewrite (bind_Ok _ _ _ tt (set_count i 0 k1)).
    2:{ rewrite (free_page_frame k1 i 0); [|done|unfold is_frame in Hf; lia|unfold PAGING_SIZE; lia|].
        - rewrite Hcnt, decide_True by done. done.
        - change (HIGH_MEMORY (k_mm k1)) with (HIGH_MEMORY (k_mm k)). rewrite Z.add_0_r. by apply Hhigh. }
    split; [done|]. intros j Hj. unfold is_frame in *. destruct (decide (j = i)) as [->|Hne]; [rewrite count_set_eq by (done || lia); done|].
    rewrite count_set_ne by lia. rewrite Hcnt. by destruct (decide (i = j)).
  - assert (frame_addr i =? 0 = false) as -> by (pose proof (frame_addr_bound i Hf); unfold LOW_MEM in *; lia).
    split_and!; [done..|]. exists i. assert (i ∉ l) as Hil.
    { intros Hin. rewrite Forall_forall in Hl. apply Hl in Hin as [_ Hin]. rewrite Hcnt, decide_True in Hin by done. done. }
    split_and!; [split; [done|]|..].
    + intros a Ha. rewrite Hoth by done. by apply walk_same.
    + intros x Hx. rewrite Hdata.
      * unfold k1, zero_page. rsimpl. unfold memset. by rewrite in_range_true by (unfold PAGE_SIZE, PAGING_SIZE in *; lia).
      * split_and!; [done|by rewrite Hcnt, decide_True|by apply (wf_dir_apart _ _ Hpt)|].
        intros d (?&Hv'&?&E'). apply (alloc_not_table k pd i Hpt Hci d). unfold has_table, table_of in *.
        rewrite (proj1 Hst) in Hv', E' by done. done.
      * lia.
    + change (page_dir_table (k_mm k1)) with pd in Hlen. exists l. split_and!.
      * apply NoDup_cons. split; [done|]. destruct l as [|j [|]]; [by constructor|by apply NoDup_singleton|].
        cbn [length] in Hlen. destruct (truth (pte_v (dir_entry k1 pd (GET_PAGE_DIR_ID address)))); lia.
      * split.
        { constructor; [done|]. eapply Forall_impl; [exact Hl|]. intros j [? Hj]. split; [done|]. rewrite Hcnt in Hj.
          by destruct (decide (i = j)). }
        intros x. rewrite Hc2, Hcnt. destruct (decide (x ∈ l)); [by rewrite decide_True by set_solver|].
        destruct (decide (i = x)) as [->|]; [by rewrite decide_True by set_solver|by rewrite decide_False by set_solver].
      * rewrite Hlen, (proj1 Hst) by apply dir_id_bound. by destruct (truth (pte_v (dir_entry k pd (GET_PAGE_DIR_ID address)))).
Qed.
Lemma do_no_page_anonymous_spec {SI : SyncInodes} k p t address :
  let pd := page_dir_table (k_mm k) in
  wf_mm k -> pt_wf k pd -> free_below k ->
  current (k_sched k) = p -> tasks (k_sched k) !! p = Some t ->
  t_executable t = None \/ t_end_data t <= Z.land address (u64 (Z.lnot (PAGE_SIZE - 1))) ->
  mayrun (do_no_page address) k
    (fun _ k' => wf_mm k' /\ pt_wf k' pd /\ page_dir_table (k_mm k') = pd /\
       exists i, fresh_page k k' pd (Z.land address (u64 (Z.lnot (PAGE_SIZE - 1)))) i)
    (fun e k' => e = DoExit SIGSEGV /\ forall j, is_frame j -> count k' j = count k j).
Proof.
  intros pd Hmm Hpt Hhigh Hcur Ht Hor.
  assert (do_no_page address k = get_empty_page (Z.land address (u64 (Z.lnot (PAGE_SIZE - 1)))) k) as E.
  { unfold do_no_page. cbv zeta. unfold cur. rewrite bind_assoc. erewrite bind_Ok by reflexivity. rewrite Hcur.
    erewrite bind_Ok by (unfold get_task; erewrite bind_Ok by reflexivity; by rewrite Ht).
    destruct (t_executable t); [|done]. destruct Hor as [?|Hle]; [done|]. by apply Z.leb_le in Hle as ->. }
  unfold mayrun. rewrite E. by apply get_empty_page_spec.
Qed.

(** ** Properties *)
Module PageFaultProps.

(** Reading and writing user memory from the kernel.  For a user address that the current page
    directory maps to a frame that holds no page table, [put_fs_byte] changes exactly the byte of
    that frame, the mapping stays as it is, and [get_fs_byte] then reads the value back. *)
Theorem fs_byte_roundtrip {SI : SyncInodes} k a v w i :
  fs_is_kernel (k_mm k) = 0 -> user_range a -> page_dir_table (k_mm k) <> 0 ->
  pt_wf k (page_dir_table (k_mm k)) -> walk k (page_dir_table (k_mm k)) a = Some w ->
  is_frame i -> pte_ppn_to_addr w = frame_addr i -> apart_dir (page_dir_table (k_mm k)) i ->
  (forall d, ~ has_table k (page_dir_table (k_mm k)) d i) ->
  runs (put_fs_byte v a ;;; get_fs_byte a) k (fun r k' => r = u8 v /\ k_mm k' = k_mm k /\
    walk k' (page_dir_table (k_mm k)) a = Some w /\
    forall x, k_pmem k' x = if x =? frame_addr i + a mod PAGE_SIZE then u8 v else k_pmem k x).
Proof.
  intros Hf Ha Hpd Hpt Hw Hi Ew Hap Hno. eapply runs_step; [by apply (put_fs_byte_spec k a v w)|]. rewrite Ew.
  set (k1 := upd k_pmem _ k). pose proof (Z.mod_pos_bound a PAGE_SIZE ltac:(done)) as Hm.
  assert (forall x, k_pmem k1 x = if x =? frame_addr i + a mod PAGE_SIZE then u8 v else k_pmem k x) as Hmem.
  { intros x. unfold k1. rsimpl. rewrite st_1. by rewrite (u8_small (u8 v)) by apply u8_bound. }
  assert (walk k1 (page_dir_table (k_mm k)) a = Some w) as Hw1.
  { rewrite <- Hw. apply walk_same. apply (same_tables_outside _ _ _ (fun x => x = frame_addr i + a mod PAGE_SIZE)); [done|..].
    - intros x Hx. rewrite Hmem. by apply Z.eqb_neq in Hx as ->.
    - intros x Hx ->. frames. lia.
    - intros d j x Hh Hx ->. assert (j <> i) as Hne by (intros ->; by apply (Hno d)). destruct Hh as (_&_&Hj&_). frames. lia. }
  unfold runs. rewrite (get_fs_byte_spec k1 a (u8 v)); [done..|]. unfold user_byte.
  change (page_dir_table (k_mm k1)) with (page_dir_table (k_mm k)). rewrite Hw1, Ew, Hmem, Z.eqb_refl.
  by rewrite (u8_small (u8 v)) by apply u8_bound.
Qed.
Lemma fs_byte_roundtrip_witness :
  runs (put_fs_byte 300 (USER_START_ADDR + 7) ;;; get_fs_byte (USER_START_ADDR + 7)) demo_space (fun r _ => r = 44).
Proof.
  eapply runs_mono; [|apply (fs_byte_roundtrip demo_space (USER_START_ADDR + 7) 300 demo_leaf 6);
    [reflexivity|split; vm_compute; discriminate|discriminate|exact demo_space_pt|exact demo_walk|split; [lia|rewrite PAGING_PAGES_val; lia]
    |reflexivity|apply apart_demo; split; [lia|rewrite PAGING_PAGES_val; lia]|intros d [_ H]%demo_has; discriminate H]].
  intros r k' [-> _]. reflexivity.
Defined.

(** C33: a defect.  [put_fs_byte] translates with [user_addr_to_kernel], which ignores the write
    protection of the page: a store by the kernel into a page shared copy-on-write goes into the
    shared frame.  The entry stays write-protected, no use count changes, so that every address
    space that maps the frame sees the new byte. *)
Theorem put_fs_byte_breaks_cow {SI : SyncInodes} k a v w i :
  fs_is_kernel (k_mm k) = 0 -> user_range a -> page_dir_table (k_mm k) <> 0 ->
  walk k (page_dir_table (k_mm k)) a = Some w -> pte_ppn_to_addr w = frame_addr i ->
  pte_w w = 0 -> 2 <= count k i ->
  runs (put_fs_byte v a) k (fun _ k' => k_mm k' = k_mm k /\ u8 (k_pmem k' (frame_addr i + a mod PAGE_SIZE)) = u8 v /\
    forall pd b w', walk k' pd b = Some w' -> pte_ppn_to_addr w' = frame_addr i -> b mod PAGE_SIZE = a mod PAGE_SIZE ->
      user_byte (k' <| k_mm ::= fun s => s <| page_dir_table := pd |> |>) b = Some (u8 v)).
Proof.
  intros Hf Ha Hpd Hw Ew _ _. unfold runs. rewrite (put_fs_byte_spec k a v w) by done. rewrite Ew.
  set (k1 := upd k_pmem _ k).
  assert (u8 (k_pmem k1 (frame_addr i + a mod PAGE_SIZE)) = u8 v) as Hv.
  { unfold k1. rsimpl. rewrite st_1, Z.eqb_refl. by rewrite !(u8_small (u8 _)) by apply u8_bound. }
  split; [done|]. split; [done|]. intros pd b w' Hw' Ew' Eb. unfold user_byte.
  change (walk (k1 <| k_mm ::= _ |>) _ b) with (walk k1 pd b). rewrite Hw', Ew', Eb. by rewrite <- Hv.
Qed.
Lemma put_fs_byte_breaks_cow_witness :
  pte_w demo_leaf = 0 /\ count demo_space 6 = 2 /\
  runs (put_fs_byte 65 (USER_START_ADDR + 7)) demo_space (fun _ k' => u8 (k_pmem k' (frame_addr 6 + 7)) = 65).
Proof.
  assert (count demo_space 6 = 2) as Hc by (rewrite demo_space_count; [reflexivity|split; [lia|rewrite PAGING_PAGES_val; lia]]).
  split; [reflexivity|]. split; [exact Hc|].
  eapply runs_mono; [|apply (put_fs_byte_breaks_cow demo_space (USER_START_ADDR + 7) 65 demo_leaf 6);
    [reflexivity|split; vm_compute; discriminate|discriminate|exact demo_walk|reflexivity|reflexivity|lia]].
  intros ? k' (_&H&_). exact H.
Defined.

(** A defect.  [mem_copy_from_kernel] never advances its pointers, and [page_transform_addr]
    never translates: for any size it stores the first byte of the source at the untranslated
    destination address, and nothing else. *)
Theorem mem_copy_from_kernel_one_byte k from to size :
  untranslated k -> 0 <= to < 2 ^ 64 -> from <> to -> 0 < size ->
  runs (mem_copy_from_kernel from to size) k (fun _ k' => forall x, k_pmem k' x = copied_byte (k_pmem k) from to x).
Proof. apply mem_copy_from_kernel_spec. Qed.
Lemma mem_copy_from_kernel_one_byte_witness :
  runs (mem_copy_from_kernel 0x80000000 USER_START_ADDR 5) demo_space (fun _ k' => k_pmem k' (USER_START_ADDR + 1) = k_pmem demo_space (USER_START_ADDR + 1)).
Proof.
  eapply runs_mono; [|apply (mem_copy_from_kernel_one_byte demo_space 0x80000000 USER_START_ADDR 5);
    [reflexivity|unfold USER_START_ADDR; lia|discriminate|lia]].
  intros ? k' H. rewrite H. reflexivity.
Defined.

(** C31: a page fault on an address that no file backs (no executable, or at or beyond the end of
    the data).  [do_no_page] either maps the page of the address to a frame of zeros that was free, readable
    and writable for the user, takes at most one more frame, for a table where there was none, and leaves
    every other mapping, the well-formedness of the page tables and the use counts of all other frames
    as they were; or it ends the task with SIGSEGV and leaves every use count as it was.  As after
    [mem_init], free frames lie below [HIGH_MEMORY]. *)
Theorem do_no_page_anonymous {SI : SyncInodes} k p t address :
  let pd := page_dir_table (k_mm k) in
  wf_mm k -> pt_wf k pd -> free_below k ->
  current (k_sched k) = p -> tasks (k_sched k) !! p = Some t ->
  t_executable t = None \/ t_end_data t <= Z.land address (u64 (Z.lnot (PAGE_SIZE - 1))) ->
  mayrun (do_no_page address) k
    (fun _ k' => wf_mm k' /\ pt_wf k' pd /\ page_dir_table (k_mm k') = pd /\
       exists i, fresh_page k k' pd (Z.land address (u64 (Z.lnot (PAGE_SIZE - 1)))) i)
    (fun e k' => e = DoExit SIGSEGV /\ forall j, is_frame j -> count k' j = count k j).
Proof. apply do_no_page_anonymous_spec. Qed.
(** In the memory that [mem_init] leaves at boot. *)
Lemma do_no_page_anonymous_witness :
  mayrun (do_no_page (USER_START_ADDR + 0x5123)) demo_space
    (fun _ k' => exists w i, walk k' demo_pd (USER_START_ADDR + 0x5000) = Some w /\ pte_ppn_to_addr w = frame_addr i) (fun _ _ => True).
Proof.
  pose proof (do_no_page_anonymous demo_space init_task zero_task (USER_START_ADDR + 0x5123)
    demo_space_wf demo_space_pt demo_space_free eq_refl eq_refl (or_introl eq_refl)) as H.
  revert H. unfold mayrun. destruct (do_no_page _ demo_space) as [? k'|]; [|intros _; exact I].
  intros (_&_&_&i&((w&Hw&Hu)&_)&_). exists w, i. split; [exact Hw|]. apply Hu.
Defined.
End PageFaultProps.
