(* ===== verification/UserMem.v ===== *)
(** * User buffers (kernel/segment.c)

    The file system moves bytes between kernel memory and a buffer of the running program with
    [get_fs_byte] and [put_fs_byte].  [ubuf] states what a buffer must satisfy for that to be a plain
    copy: each of its bytes has a physical address of its own, which does not depend on the memory
    that the kernel writes meanwhile.  The two loops that copy are given here, with what they do. *)
From Stdlib Require Import ZArith Lia String.
From stdpp Require Import base list gmap.
From S2P Require Import Prelude State Pte PageAlloc PageTable BlockIO Buffer BufferCache PageFault.
Open Scope Z_scope.

Section Copy.
Context {SI : SyncInodes}.

(** [while(chars-- > 0) put_fs_byte( *(p++),buf++);] *)
Definition put_bytes (n : nat) (p buf : Z) : K unit :=
  for_up 0 n (fun i => let! c := rd8 (p + i) in put_fs_byte c (buf + i)).
(** [while(chars-- > 0) *(p++) = get_fs_byte(buf++);] *)
Definition get_bytes (n : nat) (p buf : Z) : K unit :=
  for_up 0 n (fun i => let! c := get_fs_byte (buf + i) in wr8 (p + i) c).
(** [while(chars-- > 0) put_fs_byte(0,buf++);] *)
Definition put_zeros (n : nat) (buf : Z) : K unit := for_up 0 n (fun i => put_fs_byte 0 (buf + i)).

(** [verify_area] (kernel/fork.c): [size] is an [int], and the pages are made writable one by one. *)
Definition verify_area (addr size : Z) : K unit :=
  let size := s32 (size + Z.land addr (PAGE_SIZE - 1)) in
  let start := Z.land addr (Z.lnot (PAGE_SIZE - 1)) in
  for_up 0 (Z.to_nat ((size + 4095) / 4096)) (fun i => write_verify (start + 4096 * i)).

(** The [n] bytes at [a] are at the physical addresses [phys 0], [phys 1], ...: outside the set [io],
    pairwise distinct, and found there as long as the kernel writes only in [io] and in the buffer. *)
Record ubuf (io : Z -> Prop) (k : kernel) (a n : Z) (phys : Z -> Z) : Prop := mkUbuf {
  ub_out : forall i, 0 <= i < n -> ~ io (phys i);
  ub_inj : forall i j, 0 <= i < n -> 0 <= j < n -> phys i = phys j -> i = j;
  ub_map : forall k' i, 0 <= i < n -> k_mm k' = k_mm k ->
    (forall x, ~ io x -> (forall j, 0 <= j < n -> x <> phys j) -> k_pmem k' x = k_pmem k x) ->
    fs_addr (a + i) k' = Ok (phys i) k' }.

(** The bytes that are in the buffer. *)
Definition uload (k : kernel) (phys : Z -> Z) (i : Z) : Z := u8 (k_pmem k (phys i)).

Lemma ubuf_ext io k k' a n phys :
  ubuf io k a n phys -> k_mm k' = k_mm k ->
  (forall x, ~ io x -> (forall j, 0 <= j < n -> x <> phys j) -> k_pmem k' x = k_pmem k x) -> ubuf io k' a n phys.
Proof.
  intros [Ho Hi Hm] Emm Hk. split; [done..|]. intros k2 i Hn E2 H2. apply Hm; [done|congruence|].
  intros x Hx Hj. by rewrite H2, Hk.
Qed.
Lemma ubuf_weaken (io io' : Z -> Prop) k a n phys : (forall x, io' x -> io x) -> ubuf io k a n phys -> ubuf io' k a n phys.
Proof.
  intros H [Ho Hi Hm]. split; [|done|].
  - intros i Hn Hio. by apply (Ho i Hn), H.
  - intros k' i Hn E Hk. apply Hm; [done..|]. intros x Hx. apply Hk. intros Hio. by apply Hx, H.
Qed.
(** Part of a buffer is a buffer, as long as the rest of it may be written too. *)
Lemma ubuf_sub io k a n phys o m : 0 <= o -> 0 <= m -> o + m <= n ->
  ubuf io k a n phys -> ubuf io k (a + o) m (fun i => phys (o + i)).
Proof.
  intros Ho Hm Hle [Hout Hinj Hmap]. split.
  - intros i Hi. apply Hout. lia.
  - intros i j Hi Hj E. apply Hinj in E; lia.
  - intros k' i Hi E Hk. rewrite <- Z.add_assoc. apply Hmap; [lia|done|]. intros x Hx Hj. apply Hk; [done|].
    intros j Hj'. apply Hj. lia.
Qed.

Lemma get_fs_byte_ubuf io k a n phys i : ubuf io k a n phys -> 0 <= i < n -> get_fs_byte (a + i) k = Ok (uload k phys i) k.
Proof.
  intros [_ _ Hm] Hi. unfold get_fs_byte. erewrite bind_Ok by by apply Hm. unfold rd8, rd, gets. by rewrite ld_1.
Qed.
Lemma put_fs_byte_ubuf io k a n phys i v : ubuf io k a n phys -> 0 <= i < n ->
  put_fs_byte v (a + i) k = Ok tt (k <| k_pmem ::= fun m => st 1 m (phys i) (u8 v) |>).
Proof. intros [_ _ Hm] Hi. unfold put_fs_byte. by erewrite bind_Ok by by apply Hm. Qed.

(** ** The loops *)

Lemma set_pmem_self k : k <| k_pmem := k_pmem k |> = k.
Proof. by destruct k. Qed.

(** Filling the buffer with the bytes [f 0], [f 1], ... *)
Lemma put_loop io k a n phys (f : Z -> Z) (body : Z -> K unit) :
  ubuf io k a (Z.of_nat n) phys ->
  (forall k' i, 0 <= i < Z.of_nat n -> k_mm k' = k_mm k ->
     (forall x, (forall j, 0 <= j < Z.of_nat n -> x <> phys j) -> k_pmem k' x = k_pmem k x) ->
     body i k' = put_fs_byte (f i) (a + i) k') ->
  exists m', for_up 0 n body k = Ok tt (k <| k_pmem := m' |>) /\
    (forall i, 0 <= i < Z.of_nat n -> m' (phys i) = u8 (f i)) /\
    (forall x, (forall i, 0 <= i < Z.of_nat n -> x <> phys i) -> m' x = k_pmem k x).
Proof.
  intros Hub Hbody.
  assert (runs (for_up 0 n body) k (fun _ k' => exists m', k' = k <| k_pmem := m' |> /\
    (forall i, 0 <= i < Z.of_nat n -> m' (phys i) = u8 (f i)) /\
    (forall x, (forall i, 0 <= i < Z.of_nat n -> x <> phys i) -> m' x = k_pmem k x))) as H.
  2:{ apply runs_Ok in H as ([]&k'&E&m'&->&H). by exists m'. }
  eapply runs_mono; [|apply (runs_for_up (fun i k' => 0 <= i /\ exists m', k' = k <| k_pmem := m' |> /\
    (forall j, 0 <= j < i -> m' (phys j) = u8 (f j)) /\
    (forall x, (forall j, 0 <= j < Z.of_nat n -> x <> phys j) -> m' x = k_pmem k x)))].
  - intros [] k' (_&m'&->&H1&H2). by exists m'.
  - intros i k' Hi (_&m'&->&H1&H2). unfold runs. rewrite Hbody; [|lia|done|done].
    assert (ubuf io (k <| k_pmem := m' |>) a (Z.of_nat n) phys) as Hub'.
    { apply (ubuf_ext io k); [done..|]. intros x _ Hx. by apply H2. }
    rewrite (put_fs_byte_ubuf io _ a (Z.of_nat n) phys) by (done || lia). split; [lia|].
    eexists. split; [by destruct k|]. split.
    + intros j Hj. rewrite st_1. destruct (Z.eqb_spec (phys j) (phys i)) as [E|E].
      * assert (j = i) as -> by (apply (ub_inj _ _ _ _ _ Hub); [lia|lia|done]). by rewrite u8_small by apply u8_bound.
      * apply H1. assert (j <> i) by (intros ->; done). lia.
    + intros x Hx. rewrite st_1. assert (x <> phys i) as ->%Z.eqb_neq by (apply Hx; lia). by apply H2.
  - split; [lia|]. exists (k_pmem k). split; [by rewrite set_pmem_self|]. split; [lia|done].
Qed.
Lemma put_bytes_spec io k a n phys p :
  ubuf io k a (Z.of_nat n) phys ->
  (forall i j, 0 <= i < Z.of_nat n -> 0 <= j < Z.of_nat n -> p + i <> phys j) ->
  exists m', put_bytes n p a k = Ok tt (k <| k_pmem := m' |>) /\
    (forall i, 0 <= i < Z.of_nat n -> m' (phys i) = u8 (k_pmem k (p + i))) /\
    (forall x, (forall i, 0 <= i < Z.of_nat n -> x <> phys i) -> m' x = k_pmem k x).
Proof.
  intros Hub Hp.
  destruct (put_loop io k a n phys (fun i => u8 (k_pmem k (p + i))) (fun i => let! c := rd8 (p + i) in put_fs_byte c (a + i)) Hub)
    as (m'&E&H1&H2).
  - intros k' i Hi _ Hk. erewrite bind_Ok by reflexivity. rewrite ld_1, Hk; [done|]. auto.
  - exists m'. split; [done|]. split; [|done]. intros i Hi. rewrite H1 by done. by rewrite u8_small by apply u8_bound.
Qed.
Lemma put_zeros_spec io k a n phys :
  ubuf io k a (Z.of_nat n) phys ->
  exists m', put_zeros n a k = Ok tt (k <| k_pmem := m' |>) /\
    (forall i, 0 <= i < Z.of_nat n -> m' (phys i) = 0) /\
    (forall x, (forall i, 0 <= i < Z.of_nat n -> x <> phys i) -> m' x = k_pmem k x).
Proof. intros Hub. by apply (put_loop io k a n phys (fun _ => 0)). Qed.

(** Copying the buffer into kernel memory. *)
Lemma get_bytes_spec (io : Z -> Prop) k a n phys p :
  ubuf io k a (Z.of_nat n) phys -> (forall i, 0 <= i < Z.of_nat n -> io (p + i)) ->
  exists m', get_bytes n p a k = Ok tt (k <| k_pmem := m' |>) /\
    (forall i, 0 <= i < Z.of_nat n -> m' (p + i) = uload k phys i) /\
    (forall x, ~ p <= x < p + Z.of_nat n -> m' x = k_pmem k x).
Proof.
  intros Hub Hp.
  assert (runs (get_bytes n p a) k (fun _ k' => exists m', k' = k <| k_pmem := m' |> /\
    (forall i, 0 <= i < Z.of_nat n -> m' (p + i) = uload k phys i) /\
    (forall x, ~ p <= x < p + Z.of_nat n -> m' x = k_pmem k x))) as H.
  2:{ apply runs_Ok in H as ([]&k'&E&m'&->&H). by exists m'. }
  unfold get_bytes. eapply runs_mono; [|apply (runs_for_up (fun i k' => 0 <= i <= Z.of_nat n /\ exists m', k' = k <| k_pmem := m' |> /\
    (forall j, 0 <= j < i -> m' (p + j) = uload k phys j) /\
    (forall x, ~ p <= x < p + i -> m' x = k_pmem k x)))].
  - intros [] k' (_&m'&->&H1&H2). exists m'. split; [done|]. split; [by intros i Hi; apply H1; lia|].
    intros x Hx. apply H2. lia.
  - intros i k' Hi (_&m'&->&H1&H2). set (k1 := upd k_pmem _ k).
    assert (ubuf io k1 a (Z.of_nat n) phys) as Hub'.
    { apply (ubuf_ext io k); [done..|]. intros x Hx _. apply H2. intros Hr. apply Hx.
      replace x with (p + (x - p)) by lia. apply Hp. lia. }
    eapply runs_step; [apply (get_fs_byte_ubuf io _ a (Z.of_nat n) phys); [done|lia]|].
    assert (uload k1 phys i = uload k phys i) as ->.
    { unfold uload, k1. rsimpl. rewrite H2; [done|]. intros Hr. apply (ub_out _ _ _ _ _ Hub i ltac:(lia)).
      replace (phys i) with (p + (phys i - p)) by lia. apply Hp. lia. }
    unfold wr8, wr. apply runs_modify. split; [lia|]. eexists. split; [by destruct k|]. split.
    + intros j Hj. rewrite st_1. destruct (Z.eqb_spec (p + j) (p + i)) as [E|E].
      * assert (j = i) as -> by lia. by rewrite u8_small by apply u8_bound.
      * apply H1. lia.
    + intros x Hx. rewrite st_1. assert (x <> p + i) as ->%Z.eqb_neq by lia. apply H2. lia.
  - split; [lia|]. exists (k_pmem k). split; [by rewrite set_pmem_self|]. split; [lia|done].
Qed.

(** ** Buffers of the two kinds there are *)

(** Addresses of the same page are translated alike. *)
Lemma walk_page k pd a b : a / PAGE_SIZE = b / PAGE_SIZE -> walk k pd a = walk k pd b.
Proof.
  intros E. assert (GET_PAGE_DIR_ID a = GET_PAGE_DIR_ID b /\ GET_PAGE_ENTRY_ID a = GET_PAGE_ENTRY_ID b) as [E1 E2].
  { unfold GET_PAGE_DIR_ID, GET_PAGE_ENTRY_ID, PAGING_HIGH_LEVEL_SHIFT, PAGING_SHIFT.
    change 0x3FFFFFFF with (Z.ones 30). change (PAGING_HIGH_LEVEL_SIZE - 1) with (Z.ones 21).
    rewrite !Z.land_ones, !Z.shiftr_div_pow2 by lia. unfold PAGE_SIZE in E.
    change (2 ^ 30) with 1073741824. change (2 ^ 21) with 2097152. change (2 ^ 12) with 4096.
    split; Z.div_mod_to_equations; lia. }
  unfold walk. by rewrite E1, E2.
Qed.

(** A kernel buffer: [set_fs(get_ds())] is in force, or the address is below the user space. *)
Lemma ubuf_kernel (io : Z -> Prop) k a n :
  fs_is_kernel (k_mm k) <> 0 \/ a + n <= USER_START_ADDR ->
  (forall i, 0 <= i < n -> ~ io (a + i)) -> ubuf io k a n (fun i => a + i).
Proof.
  intros Hf Hio. split; [done|lia|]. intros k' i Hi E _. unfold fs_addr, get_fs. erewrite bind_Ok by reflexivity.
  rewrite E. destruct (Z.eqb_spec (fs_is_kernel (k_mm k)) 0) as [E0|]; [|done].
  unfold user_addr_to_kernel, translate. destruct Hf as [|Hf]; [done|].
  by assert (a + i <? USER_START_ADDR = true) as -> by lia.
Qed.

(** A user buffer inside one page that is mapped to frame [f], which holds no page table. *)
Lemma ubuf_page (io : Z -> Prop) k a n w f :
  let pd := page_dir_table (k_mm k) in
  fs_is_kernel (k_mm k) = 0 -> pd <> 0 -> pt_wf k pd -> USER_START_ADDR <= a -> a + n <= USER_END_ADDR ->
  a mod PAGE_SIZE + n <= PAGE_SIZE -> walk k pd a = Some w -> pte_ppn_to_addr w = frame_addr f ->
  is_frame f -> apart_dir pd f -> (forall d, ~ has_table k pd d f) ->
  (forall x, io x -> x < LOW_MEM /\ (x < pd \/ pd + 8 * PAGE_DIR_TABLE_NUM <= x)) ->
  ubuf io k a n (fun i => frame_addr f + (a mod PAGE_SIZE + i)).
Proof.
  intros pd Hf Hpd Hwf Hlo Hhi Hpg Hw Ew Hfr Hap Hno Hio.
  pose proof (Z.mod_pos_bound a PAGE_SIZE ltac:(done)) as Hm. pose proof (frame_addr_bound f Hfr) as Hfb. split.
  - intros i Hi Hx%Hio. unfold PAGE_SIZE in *. lia.
  - lia.
  - intros k' i Hi Emm Hk.
    assert (a + i = (a mod PAGE_SIZE + i) + a / PAGE_SIZE * PAGE_SIZE) as Ea by (pose proof (Z.div_mod a PAGE_SIZE ltac:(done)); lia).
    assert ((a + i) / PAGE_SIZE = a / PAGE_SIZE) as Ediv.
    { rewrite Ea, Z.div_add, (Z.div_small (a mod PAGE_SIZE + i)) by (done || lia). lia. }
    assert ((a + i) mod PAGE_SIZE = a mod PAGE_SIZE + i) as Emod by (rewrite Ea, Z.mod_add, Z.mod_small by (done || lia); done).
    assert (walk k' pd (a + i) = Some w) as Hw'.
    { rewrite (walk_same k k').
      - rewrite <- Hw. apply walk_page. by rewrite Ediv.
      - apply (same_tables_outside k k' pd (fun x => io x \/ exists j, 0 <= j < n /\ x = frame_addr f + (a mod PAGE_SIZE + j))); [done|..].
        + intros x Hx. apply Hk; [tauto|]. intros j Hj ->. apply Hx. right. by exists j.
        + intros x Hx [Hi'%Hio|(j&Hj&->)]; [unfold PAGE_TABLE_ITEM_NUM, PAGE_DIR_TABLE_NUM in *; lia|]. frames. lia.
        + intros d j x Hh Hx [Hi'%Hio|(j'&Hj'&->)].
          * destruct Hh as (_&_&Hj&_). pose proof (frame_addr_bound j Hj). lia.
          * assert (j <> f) as Hne by (intros ->; by apply (Hno d)). destruct Hh as (_&_&Hj&_). frames. lia. }
    rewrite (fs_addr_mapped k' (a + i) w); [by rewrite Ew, Emod|by rewrite Emm|split; lia|by rewrite Emm|by rewrite Emm].
Qed.
End Copy.
