(* ===== verification/Namei.v ===== *)
(** * Path names and directories (fs/namei.c)

    [permission], [match], [find_entry], [add_entry], [get_dir], [dir_namei], [namei],
    [open_namei] and the system calls [mknod], [mkdir], [rmdir], [unlink] and [link].  A
    [struct dir_entry *] is the address of the entry in the data of a buffer; a function that
    sets [*res_dir] returns it next to the buffer.  [find_entry] may also change [*dir]. *)
From Stdlib Require Import ZArith Lia String.
From stdpp Require Import base list gmap.
From S2P Require Import Prelude State PageAlloc BlockIO Buffer BufferCache BufferInit InodeIO Bitmap Inode PageFault.
Open Scope Z_scope.

(** ** fcntl.h, const.h, sys/stat.h, errno.h *)
Definition O_ACCMODE : Z := 3.
Definition O_WRONLY : Z := 1.
Definition O_CREAT : Z := 0x40.
Definition O_EXCL : Z := 0x80.
Definition O_TRUNC : Z := 0x200.
Definition I_DIRECTORY : Z := 0x4000.
Definition I_REGULAR : Z := 0x8000.
Definition S_ISVTX : Z := 0x200.
Definition ERROR : Z := 99.
Definition EEXIST : Z := 17.
Definition EXDEV : Z := 18.
Definition ENOTDIR : Z := 20.
Definition EISDIR : Z := 21.
Definition ENOTEMPTY : Z := 39.
Definition MAY_EXEC : Z := 1.
Definition MAY_WRITE : Z := 2.
Definition MAY_READ : Z := 4.
Definition SLASH : Z := 47.
Definition DOT : Z := 46.
Definition DIR_ENTRY_SIZE : Z := 16.
(** The bytes of "\004\002\006\377". *)
Definition ACC_MODE (x : Z) : Z :=
  match Z.land x O_ACCMODE with 0 => 4 | 1 => 2 | 2 => 6 | _ => 255 end.
(** The longest path, and the largest directory, that the model follows. *)
Definition PATH_FUEL : nat := 4096.

(** ** Permissions *)
Definition access_class (t : task_struct) (n : m_inode) : Z :=
  if t_euid t =? i_uid n then Z.shiftr (i_mode n) 6
  else if t_egid t =? i_gid n then Z.shiftr (i_mode n) 3
  else i_mode n.
Definition permission (inode : nat) (mask : Z) : K bool :=
  let! n := get_inode inode in
  if truth (i_dev n) && (i_nlinks n =? 0) then ret false
  else
    let! t := cur in
    let mode := access_class t n in
    let! su := suser in
    ret ((Z.land (Z.land mode mask) 7 =? mask) || su).

Section Namei.
Context {SI : SyncInodes}.

(** ** Directory entries *)
(** [de->inode], [de->name[i]]. *)
Definition de_inode (de : Z) : K Z := rd16 de.
Definition de_name (de i : Z) : K Z := rd8 (de + 2 + i).

(** [for(ulong i = 0;i < len;i++)] of [match], [n] rounds left. *)
Fixpoint match_bytes (name de i : Z) (n : nat) : K bool :=
  match n with
  | O => ret true
  | S m =>
      let! a := get_fs_byte (name + i) in
      let! b := de_name de i in
      if a =? b then match_bytes name de (i + 1) m else ret false
  end.
Definition match_entry (len name de : Z) : K bool :=
  let! ino := de_inode de in
  if (ino =? 0) || (NAME_LEN <? len) then ret false
  else
    let! stop := if len <? NAME_LEN then let! c := de_name de len in ret (truth c) else ret false in
    if stop then ret false else match_bytes name de 0 (Z.to_nat len).

(** The walk of [find_entry] through the blocks of a directory: entry [i] at [de], in the buffer
    [bh], which is NULL after a block could not be read. *)
Definition find_entry_loop (dir : nat) (name namelen entries : Z) (bh : nat) : K (option (nat * Z)) :=
  let! h := get_bh bh in
  loop (S (Z.to_nat entries)) (fun '(i, bh, de) =>
    if i <? entries then
      let! b := unwrap "find_entry: bh" bh in
      let! h := get_bh b in
      let! (bh, de) :=
        if BLOCK_SIZE + b_data h <? de then
          brelse (Some b) ;;;
          let! block := bmap dir (i / DIR_ENTRIES_PER_BLOCK) in
          let! bh := if block =? 0 then ret None
                     else let! n := get_inode dir in bread (i_dev n) block in
          match bh with
          | None => ret (None, de)
          | Some b => let! h := get_bh b in ret (Some b, b_data h)
          end
        else ret (Some b, de) in
      match bh with
      | None => ret (inl (i + DIR_ENTRIES_PER_BLOCK, None, de))
      | Some b =>
          let! m := match_entry namelen name de in
          if m then ret (inr (Some (b, de))) else ret (inl (i + 1, Some b, de + DIR_ENTRY_SIZE))
      end
    else brelse bh ;;; ret (inr None)) (0, Some bh, b_data h).

(** The "magic" of '..': the directory to search and the length of the name. *)
Definition dotdot (dir : nat) (name namelen : Z) : K (nat * Z) :=
  let! dd := if namelen =? 2 then
               let! c := get_fs_byte name in
               if c =? DOT then let! c := get_fs_byte (name + 1) in ret (c =? DOT) else ret false
             else ret false in
  if dd then
    let! t := cur in
    if decide (t_root t = Some dir) then ret (dir, 1)
    else
      let! n := get_inode dir in
      if i_num n =? ROOT_INO then
        let! s := get_super (i_dev n) in
        let! s := unwrap "find_entry: sb" s in
        let! sb := get_sb s in
        match s_imount sb with
        | None => ret (dir, namelen)
        | Some m =>
            iput (Some dir) ;;;
            mod_inode m (fun n => n <| i_count := u16 (i_count n + 1) |>) ;;;
            ret (m, namelen)
        end
      else ret (dir, namelen)
  else ret (dir, namelen).

Definition find_entry (dir : nat) (name namelen : Z) : K (nat * option (nat * Z)) :=
  let namelen := if NAME_LEN <? namelen then NAME_LEN else namelen in
  let! n := get_inode dir in
  let entries := i_size n / DIR_ENTRY_SIZE in
  if namelen =? 0 then ret (dir, None)
  else
    let! (dir, namelen) := dotdot dir name namelen in
    let! block := zone dir 0 in
    if block =? 0 then ret (dir, None)
    else
      let! n := get_inode dir in
      let! bh := bread (i_dev n) block in
      match bh with
      | None => ret (dir, None)
      | Some b => let! r := find_entry_loop dir name namelen entries b in ret (dir, r)
      end.

(** The bytes of the name of a new entry. *)
Definition put_name (de name namelen : Z) : K unit :=
  for_up 0 14 (fun i =>
    let! c := if i <? namelen then get_fs_byte (name + i) else ret 0 in
    wr8 (de + 2 + i) c).
Definition add_entry (dir : nat) (name namelen : Z) : K (option (nat * Z)) :=
  let namelen := if NAME_LEN <? namelen then NAME_LEN else namelen in
  if namelen =? 0 then ret None
  else
    let! block := zone dir 0 in
    if block =? 0 then ret None
    else
      let! n := get_inode dir in
      let! bh := bread (i_dev n) block in
      match bh with
      | None => ret None
      | Some b =>
          let! h := get_bh b in
          loop (S (S (Z.to_nat (i_size n / DIR_ENTRY_SIZE)))) (fun '(i, bh, de) =>
            let! b := unwrap "add_entry: bh" bh in
            let! h := get_bh b in
            let! next :=
              if BLOCK_SIZE + b_data h <=? de then
                brelse (Some b) ;;;
                let! block := create_block dir (i / DIR_ENTRIES_PER_BLOCK) in
                if block =? 0 then ret (inr None)
                else
                  let! n := get_inode dir in
                  let! bh := bread (i_dev n) block in
                  match bh with
                  | None => ret (inl (i + DIR_ENTRIES_PER_BLOCK, None, de))
                  | Some b => let! h := get_bh b in ret (inr (Some (b, b_data h)))
                  end
              else ret (inr (Some (b, de))) in
            match next with
            | inl again => ret (inl again)
            | inr None => ret (inr None)
            | inr (Some (b, de)) =>
                let! n := get_inode dir in
                when (i_size n <=? i * DIR_ENTRY_SIZE) (
                  wr16 de 0 ;;;
                  mod_inode dir (fun n => n <| i_size := u32 ((i + 1) * DIR_ENTRY_SIZE) |>) ;;;
                  mod_inode dir (fun n => n <| i_dirt := 1 |>) ;;;
                  let! t := CURRENT_TIME in
                  mod_inode dir (fun n => n <| i_ctime := u32 t |>)) ;;;
                let! ino := de_inode de in
                if ino =? 0 then
                  let! t := CURRENT_TIME in
                  mod_inode dir (fun n => n <| i_mtime := u32 t |>) ;;;
                  put_name de name namelen ;;;
                  mod_bh b (fun h => h <| b_dirt := 1 |>) ;;;
                  ret (inr (Some (b, de)))
                else ret (inl (i + 1, Some b, de + DIR_ENTRY_SIZE))
            end) (0, Some b, b_data h)
      end.

(** ** Walking a path *)
(** [for(namelen = 0;(c = get_fs_byte(pathname++)) && (c != '/');namelen++);]: the length, the
    last character and the new value of [pathname]. *)
Definition scan_name (pathname : Z) : K (Z * Z * Z) :=
  loop PATH_FUEL (fun '(pathname, namelen) =>
    let! c := get_fs_byte pathname in
    if truth c && negb (c =? SLASH) then ret (inl (pathname + 1, namelen + 1))
    else ret (inr (namelen, c, pathname + 1))) (pathname, 0).
Definition get_dir_start (pathname : Z) : K (option (nat * Z)) :=
  let! t := cur in
  let! root := match t_root t with Some r => let! n := get_inode r in ret (if i_count n =? 0 then None else Some r) | None => ret None end in
  match root with
  | None => panic "No root inode"
  | Some root =>
      let! pwd := match t_pwd t with Some r => let! n := get_inode r in ret (if i_count n =? 0 then None else Some r) | None => ret None end in
      match pwd with
      | None => panic "No cwd inode"
      | Some pwd =>
          let! c := get_fs_byte pathname in
          if c =? SLASH then ret (Some (root, pathname + 1))
          else if truth c then ret (Some (pwd, pathname))
          else ret None
      end
  end.
Definition get_dir (pathname : Z) : K (option nat) :=
  let! start := get_dir_start pathname in
  match start with
  | None => ret None
  | Some (inode, pathname) =>
      mod_inode inode (fun n => n <| i_count := u16 (i_count n + 1) |>) ;;;
      loop PATH_FUEL (fun '(inode, pathname) =>
        let thisname := pathname in
        let! n := get_inode inode in
        let! ok := if S_ISDIR (i_mode n) then permission inode MAY_EXEC else ret false in
        if negb ok then iput (Some inode) ;;; ret (inr None)
        else
          let! (namelen, c, pathname) := scan_name pathname in
          if c =? 0 then ret (inr (Some inode))
          else
            let! (inode, r) := find_entry inode thisname namelen in
            match r with
            | None => iput (Some inode) ;;; ret (inr None)
            | Some (b, de) =>
                let! inr_ := de_inode de in
                let! n := get_inode inode in
                let idev := i_dev n in
                brelse (Some b) ;;;
                iput (Some inode) ;;;
                let! inode := iget idev inr_ in
                ret (inl (inode, pathname))
            end) (inode, pathname)
  end.

(** The last component: [(namelen, basename)]. *)
Definition base_name (pathname : Z) : K (Z * Z) :=
  loop PATH_FUEL (fun '(pathname, basename) =>
    let! c := get_fs_byte pathname in
    let pathname := pathname + 1 in
    if truth c then ret (inl (pathname, if c =? SLASH then pathname else basename))
    else ret (inr (pathname - basename - 1, basename))) (pathname, pathname).
Definition dir_namei (pathname : Z) : K (option (nat * Z * Z)) :=
  let! dir := get_dir pathname in
  match dir with
  | None => ret None
  | Some dir => let! (namelen, basename) := base_name pathname in ret (Some (dir, namelen, basename))
  end.

Definition namei (pathname : Z) : K (option nat) :=
  let! r := dir_namei pathname in
  match r with
  | None => ret None
  | Some (dir, namelen, basename) =>
      if namelen =? 0 then ret (Some dir)
      else
        let! (dir, r) := find_entry dir basename namelen in
        match r with
        | None => iput (Some dir) ;;; ret None
        | Some (b, de) =>
            let! inr_ := de_inode de in
            let! n := get_inode dir in
            let dev := i_dev n in
            brelse (Some b) ;;;
            iput (Some dir) ;;;
            let! dir := iget dev inr_ in
            let! t := CURRENT_TIME in
            mod_inode dir (fun n => n <| i_atime := u32 t |>) ;;;
            mod_inode dir (fun n => n <| i_dirt := 1 |>) ;;;
            ret (Some dir)
        end
  end.
End Namei.

(** ** [open_namei] and the system calls

    An error is returned as the negative number; [inl e] is an error and [inr inode] is success
    with [*res_inode]. *)
Section Calls.
Context {SI : SyncInodes}.

(** [iput(...)]... and the error code: the way the error exits look. *)
Definition fail2 (a b : nat) (e : Z) : K Z := iput (Some a) ;;; iput (Some b) ;;; ret (- e).
Definition fail2_bh (a b : nat) (bh : nat) (e : Z) : K Z :=
  iput (Some a) ;;; iput (Some b) ;;; brelse (Some bh) ;;; ret (- e).
Definition link_entry (de : Z) (bh : nat) (inode : nat) : K unit :=
  let! n := get_inode inode in
  wr16 de (i_num n) ;;;
  mod_bh bh (fun h => h <| b_dirt := 1 |>).

(** The branch of [open_namei] for a name that does not exist. *)
Definition open_create (dir : nat) (flag mode basename namelen : Z) : K (Z + nat) :=
  if Z.land flag O_CREAT =? 0 then iput (Some dir) ;;; ret (inl (- ENOENT))
  else
    let! ok := permission dir MAY_WRITE in
    if negb ok then iput (Some dir) ;;; ret (inl (- EACCES))
    else
      let! d := get_inode dir in
      let! inode := new_inode (i_dev d) in
      match inode with
      | None => iput (Some dir) ;;; ret (inl (- ENOSPC))
      | Some inode =>
          let! t := cur in
          mod_inode inode (fun n => n <| i_uid := u16 (t_euid t) |>) ;;;
          mod_inode inode (fun n => n <| i_mode := u16 mode |>) ;;;
          mod_inode inode (fun n => n <| i_dirt := 1 |>) ;;;
          let! r := add_entry dir basename namelen in
          match r with
          | None =>
              mod_inode inode (fun n => n <| i_nlinks := u8 (i_nlinks n - 1) |>) ;;;
              iput (Some inode) ;;; iput (Some dir) ;;; ret (inl (- ENOSPC))
          | Some (bh, de) =>
              link_entry de bh inode ;;;
              brelse (Some bh) ;;;
              iput (Some dir) ;;;
              ret (inr inode)
          end
      end.
Definition open_namei (pathname flag mode : Z) : K (Z + nat) :=
  let flag := if truth (Z.land flag O_TRUNC) && (Z.land flag O_ACCMODE =? 0) then Z.lor flag O_WRONLY else flag in
  let! t := cur in
  let mode := Z.lor (Z.land mode (Z.land 0x1FF (Z.lnot (t_umask t)))) I_REGULAR in
  let! r := dir_namei pathname in
  match r with
  | None => ret (inl (- ENOENT))
  | Some (dir, namelen, basename) =>
      if namelen =? 0 then
        if Z.land flag (Z.lor O_ACCMODE (Z.lor O_CREAT O_TRUNC)) =? 0 then ret (inr dir)
        else iput (Some dir) ;;; ret (inl (- EISDIR))
      else
        let! (dir, r) := find_entry dir basename namelen in
        match r with
        | None => open_create dir flag mode basename namelen
        | Some (bh, de) =>
            let! inr_ := de_inode de in
            let! d := get_inode dir in
            let dev := i_dev d in
            brelse (Some bh) ;;;
            iput (Some dir) ;;;
            if truth (Z.land flag O_EXCL) then ret (inl (- EEXIST))
            else
              let! inode := iget dev inr_ in
              let! n := get_inode inode in
              let! bad := if S_ISDIR (i_mode n) && truth (Z.land flag O_ACCMODE) then ret true
                          else let! ok := permission inode (ACC_MODE flag) in ret (negb ok) in
              if bad then iput (Some inode) ;;; ret (inl (- EPERM))
              else
                let! now := CURRENT_TIME in
                mod_inode inode (fun n => n <| i_atime := u32 now |>) ;;;
                when (truth (Z.land flag O_TRUNC)) (truncate inode) ;;;
                ret (inr inode)
        end
  end.

(** The common beginning of [mknod], [mkdir], [rmdir] and [unlink]: the directory is found, the
    name is not empty and the directory may be written. *)
Definition parent (name : Z) : K (Z + nat * Z * Z) :=
  let! r := dir_namei name in
  match r with
  | None => ret (inl (- ENOENT))
  | Some (dir, namelen, basename) =>
      if namelen =? 0 then iput (Some dir) ;;; ret (inl (- ENOENT))
      else
        let! ok := permission dir MAY_WRITE in
        if negb ok then iput (Some dir) ;;; ret (inl (- EPERM))
        else ret (inr (dir, namelen, basename))
  end.
(** ... of [mknod] and [mkdir]: the name is new, and there is an i-node for it. *)
Definition new_node (name : Z) : K (Z + nat * Z * Z * nat) :=
  let! r := parent name in
  match r with
  | inl e => ret (inl e)
  | inr (dir, namelen, basename) =>
      let! (dir, r) := find_entry dir basename namelen in
      match r with
      | Some (bh, _) => brelse (Some bh) ;;; iput (Some dir) ;;; ret (inl (- EEXIST))
      | None =>
          let! d := get_inode dir in
          let! inode := new_inode (i_dev d) in
          match inode with
          | None => iput (Some dir) ;;; ret (inl (- ENOSPC))
          | Some inode => ret (inr (dir, namelen, basename, inode))
          end
      end
  end.

Definition sys_mknod (filename mode dev : Z) : K Z :=
  let! su := suser in
  if negb su then ret (- EPERM)
  else
    let! r := new_node filename in
    match r with
    | inl e => ret e
    | inr (dir, namelen, basename, inode) =>
        mod_inode inode (fun n => n <| i_mode := u16 mode |>) ;;;
        when (S_ISBLK mode || S_ISCHR mode) (set_zone inode 0 (u16 dev)) ;;;
        let! t := CURRENT_TIME in
        mod_inode inode (fun n => n <| i_atime := u32 t |> <| i_mtime := u32 t |>) ;;;
        mod_inode inode (fun n => n <| i_dirt := 1 |>) ;;;
        let! r := add_entry dir basename namelen in
        match r with
        | None =>
            iput (Some dir) ;;;
            mod_inode inode (fun n => n <| i_nlinks := 0 |>) ;;;
            iput (Some inode) ;;;
            ret (- ENOSPC)
        | Some (bh, de) =>
            link_entry de bh inode ;;;
            iput (Some dir) ;;; iput (Some inode) ;;; brelse (Some bh) ;;;
            ret 0
        end
    end.

(** The entries "." and ".." of a new directory. *)
Definition dot_entries (dir inode : nat) (bh : nat) : K unit :=
  let! h := get_bh bh in
  let de := b_data h in
  let! n := get_inode inode in
  wr16 de (i_num n) ;;;
  wr8 (de + 2) DOT ;;; wr8 (de + 3) 0 ;;;
  let de := de + DIR_ENTRY_SIZE in
  let! d := get_inode dir in
  wr16 de (i_num d) ;;;
  wr8 (de + 2) DOT ;;; wr8 (de + 3) DOT ;;; wr8 (de + 4) 0.
Definition sys_mkdir (pathname mode : Z) : K Z :=
  let! su := suser in
  if negb su then ret (- EPERM)
  else
    let! r := new_node pathname in
    match r with
    | inl e => ret e
    | inr (dir, namelen, basename, inode) =>
        mod_inode inode (fun n => n <| i_size := 32 |>) ;;;
        mod_inode inode (fun n => n <| i_dirt := 1 |>) ;;;
        let! t := CURRENT_TIME in
        mod_inode inode (fun n => n <| i_atime := u32 t |> <| i_mtime := u32 t |>) ;;;
        let! n := get_inode inode in
        let! b := new_block (i_dev n) in
        set_zone inode 0 (u16 b) ;;;
        if u16 b =? 0 then
          iput (Some dir) ;;;
          mod_inode inode (fun n => n <| i_nlinks := u8 (i_nlinks n - 1) |>) ;;;
          iput (Some inode) ;;;
          ret (- ENOSPC)
        else
          mod_inode inode (fun n => n <| i_dirt := 1 |>) ;;;
          let! n := get_inode inode in
          let! z := zone inode 0 in
          let! dir_block := bread (i_dev n) z in
          match dir_block with
          | None =>
              iput (Some dir) ;;;
              let! n := get_inode inode in
              let! z := zone inode 0 in
              free_block (i_dev n) z ;;;
              mod_inode inode (fun n => n <| i_nlinks := u8 (i_nlinks n - 1) |>) ;;;
              iput (Some inode) ;;;
              ret (- ERROR)
          | Some dir_block =>
              dot_entries dir inode dir_block ;;;
              mod_inode inode (fun n => n <| i_nlinks := 2 |>) ;;;
              mod_bh dir_block (fun h => h <| b_dirt := 1 |>) ;;;
              brelse (Some dir_block) ;;;
              let! t := cur in
              mod_inode inode (fun n => n <| i_mode := u16 (Z.lor I_DIRECTORY (Z.land (Z.land mode 0x1FF) (Z.lnot (t_umask t)))) |>) ;;;
              mod_inode inode (fun n => n <| i_dirt := 1 |>) ;;;
              let! r := add_entry dir basename namelen in
              match r with
              | None =>
                  iput (Some dir) ;;;
                  let! n := get_inode inode in
                  let! z := zone inode 0 in
                  free_block (i_dev n) z ;;;
                  mod_inode inode (fun n => n <| i_nlinks := 0 |>) ;;;
                  iput (Some inode) ;;;
                  ret (- ENOSPC)
              | Some (bh, de) =>
                  link_entry de bh inode ;;;
                  mod_inode dir (fun n => n <| i_nlinks := u8 (i_nlinks n + 1) |>) ;;;
                  mod_inode dir (fun n => n <| i_dirt := 1 |>) ;;;
                  iput (Some dir) ;;; iput (Some inode) ;;; brelse (Some bh) ;;;
                  ret 0
              end
          end
    end.

(** [strcmp(".",name)] and [strcmp("..",name)] are 0. *)
Definition is_dot (de : Z) : K bool :=
  let! a := de_name de 0 in let! b := de_name de 1 in ret ((a =? DOT) && (b =? 0)).
Definition is_dotdot (de : Z) : K bool :=
  let! a := de_name de 0 in let! b := de_name de 1 in let! c := de_name de 2 in
  ret ((a =? DOT) && (b =? DOT) && (c =? 0)).
Definition empty_dir (inode : nat) : K bool :=
  let! n := get_inode inode in
  let len := i_size n / DIR_ENTRY_SIZE in
  let! z := zone inode 0 in
  let! bh := if (len <? 2) || (z =? 0) then ret None else bread (i_dev n) z in
  match bh with
  | None => ret false
  | Some b =>
      let! h := get_bh b in
      let de := b_data h in
      let! i0 := de_inode de in
      let! i1 := de_inode (de + DIR_ENTRY_SIZE) in
      let! d0 := is_dot de in
      let! d1 := is_dotdot (de + DIR_ENTRY_SIZE) in
      if negb (i0 =? i_num n) || (i1 =? 0) || negb d0 || negb d1 then ret false
      else
        loop (S (Z.to_nat len)) (fun '(nr, b, de) =>
          if nr <? len then
            let! h := get_bh b in
            let! next :=
              if b_data h + BLOCK_SIZE <=? de then
                brelse (Some b) ;;;
                let! block := bmap inode (nr / DIR_ENTRIES_PER_BLOCK) in
                if block =? 0 then ret (inl (inl (nr + DIR_ENTRIES_PER_BLOCK, b, de)))
                else
                  let! n := get_inode inode in
                  let! bh := bread (i_dev n) block in
                  match bh with
                  | None => ret (inl (inr false))
                  | Some b => let! h := get_bh b in ret (inr (b, b_data h))
                  end
              else ret (inr (b, de)) in
            match next with
            | inl r => ret r
            | inr (b, de) =>
                let! ino := de_inode de in
                if truth ino then brelse (Some b) ;;; ret (inr false)
                else ret (inl (nr + 1, b, de + DIR_ENTRY_SIZE))
            end
          else brelse (Some b) ;;; ret (inr true)) (2, b, de + 2 * DIR_ENTRY_SIZE)
  end.

(** [rmdir] and [unlink]: the directory and the entry. *)
Definition existing (name : Z) : K (Z + nat * nat * Z) :=
  let! r := parent name in
  match r with
  | inl e => ret (inl e)
  | inr (dir, namelen, basename) =>
      let! (dir, r) := find_entry dir basename namelen in
      match r with
      | None => iput (Some dir) ;;; ret (inl (- ENOENT))
      | Some (bh, de) => ret (inr (dir, bh, de))
      end
  end.
Definition sys_rmdir (name : Z) : K Z :=
  let! su := suser in
  if negb su then ret (- EPERM)
  else
    let! r := existing name in
    match r with
    | inl e => ret e
    | inr (dir, bh, de) =>
        let! d := get_inode dir in
        let! ino := de_inode de in
        let! inode := iget (i_dev d) ino in
        let! d := get_inode dir in
        let! n := get_inode inode in
        let! t := cur in
        if truth (Z.land (i_mode d) S_ISVTX) && truth (t_euid t) && negb (i_uid n =? t_euid t)
        then fail2_bh dir inode bh EPERM
        else if negb (i_dev n =? i_dev d) || (1 <? i_count n) then fail2_bh dir inode bh EPERM
        else if (inode =? dir)%nat then fail2_bh inode dir bh EPERM
        else if negb (S_ISDIR (i_mode n)) then fail2_bh inode dir bh ENOTDIR
        else
          let! empty := empty_dir inode in
          if negb empty then fail2_bh inode dir bh ENOTEMPTY
          else
            wr16 de 0 ;;;
            mod_bh bh (fun h => h <| b_dirt := 1 |>) ;;;
            brelse (Some bh) ;;;
            mod_inode inode (fun n => n <| i_nlinks := 0 |>) ;;;
            mod_inode inode (fun n => n <| i_dirt := 1 |>) ;;;
            mod_inode dir (fun n => n <| i_nlinks := u8 (i_nlinks n - 1) |>) ;;;
            let! now := CURRENT_TIME in
            mod_inode dir (fun n => n <| i_mtime := u32 now |> <| i_ctime := u32 now |>) ;;;
            mod_inode dir (fun n => n <| i_dirt := 1 |>) ;;;
            iput (Some dir) ;;; iput (Some inode) ;;;
            ret 0
    end.

Definition sys_unlink (name : Z) : K Z :=
  let! r := existing name in
  match r with
  | inl e => ret e
  | inr (dir, bh, de) =>
      let! d := get_inode dir in
      let! ino := de_inode de in
      let! inode := iget (i_dev d) ino in
      let! d := get_inode dir in
      let! n := get_inode inode in
      let! t := cur in
      let! su := suser in
      if truth (Z.land (i_mode d) S_ISVTX) && negb su && negb (t_euid t =? i_uid n) && negb (t_euid t =? i_uid d)
      then fail2_bh dir inode bh EPERM
      else if S_ISDIR (i_mode n) then fail2_bh inode dir bh EPERM
      else
        when (i_nlinks n =? 0) (mod_inode inode (fun n => n <| i_nlinks := 1 |>)) ;;;
        wr16 de 0 ;;;
        mod_bh bh (fun h => h <| b_dirt := 1 |>) ;;;
        brelse (Some bh) ;;;
        mod_inode inode (fun n => n <| i_nlinks := u8 (i_nlinks n - 1) |>) ;;;
        mod_inode inode (fun n => n <| i_dirt := 1 |>) ;;;
        let! now := CURRENT_TIME in
        mod_inode inode (fun n => n <| i_ctime := u32 now |>) ;;;
        iput (Some inode) ;;; iput (Some dir) ;;;
        ret 0
  end.

Definition sys_link (oldname newname : Z) : K Z :=
  let! oldinode := namei oldname in
  match oldinode with
  | None => ret (- ENOENT)
  | Some oldinode =>
      let! n := get_inode oldinode in
      if S_ISDIR (i_mode n) then iput (Some oldinode) ;;; ret (- EPERM)
      else
        let! r := dir_namei newname in
        match r with
        | None => iput (Some oldinode) ;;; ret (- EACCES)
        | Some (dir, namelen, basename) =>
            if namelen =? 0 then fail2 oldinode dir EPERM
            else
              let! d := get_inode dir in
              let! n := get_inode oldinode in
              if negb (i_dev d =? i_dev n) then fail2 dir oldinode EXDEV
              else
                let! ok := permission dir MAY_WRITE in
                if negb ok then fail2 dir oldinode EACCES
                else
                  let! (dir, r) := find_entry dir basename namelen in
                  match r with
                  | Some (bh, _) => brelse (Some bh) ;;; fail2 dir oldinode EEXIST
                  | None =>
                      let! r := add_entry dir basename namelen in
                      match r with
                      | None => fail2 dir oldinode ENOSPC
                      | Some (bh, de) =>
                          link_entry de bh oldinode ;;;
                          brelse (Some bh) ;;;
                          iput (Some dir) ;;;
                          mod_inode oldinode (fun n => n <| i_nlinks := u8 (i_nlinks n + 1) |>) ;;;
                          let! now := CURRENT_TIME in
                          mod_inode oldinode (fun n => n <| i_ctime := u32 now |>) ;;;
                          mod_inode oldinode (fun n => n <| i_dirt := 1 |>) ;;;
                          iput (Some oldinode) ;;;
                          ret 0
                      end
                  end
        end
  end.
End Calls.
