(* ===== verification/Directory.v ===== *)
(** * Directories: what the functions of Namei.v do

    The entries of a directory are abstracted to the question whether the entry at an address has
    a given name ([entry_named]), and a block of entries to the first entry that has it
    ([first_entry]); the file shows that [match], [find_entry] and the splitting of a path compute
    these. *)
From Stdlib Require Import ZArith Lia String.
From stdpp Require Import base list gmap.
From S2P Require Import Prelude State PageAlloc BlockIO Buffer BufferCache BufferInit InodeIO Bitmap Inode PageFault UserMem Namei.
Open Scope Z_scope.

(** ** Names in memory *)

(** The bytes [bs] are in the user buffer at [a]. *)
Definition ustring {SI : SyncInodes} (io : Z -> Prop) (k : kernel) (a : Z) (bs : list Z) (phys : Z -> Z) : Prop :=
  ubuf io k a (Z.of_nat (length bs)) phys /\ forall i c, bs !! i = Some c -> uload k phys (Z.of_nat i) = c.

(** The bytes from [a] on begin with [bs]. *)
Fixpoint starts_with (m : memory) (a : Z) (bs : list Z) : bool :=
  match bs with
  | [] => true
  | c :: r => (c =? u8 (m a)) && starts_with m (a + 1) r
  end.
(** The directory entry at [de] is in use and has the name [bs]: a name of less than 14 bytes is
    followed by a zero byte. *)
Definition entry_named (m : memory) (de : Z) (bs : list Z) : bool :=
  negb (ld 2 m de =? 0) &&
  ((NAME_LEN <=? Z.of_nat (length bs)) || (u8 (m (de + 2 + Z.of_nat (length bs))) =? 0)) &&
  starts_with m (de + 2) bs.
(** The first of [n] entries, from entry [i] on, that has the name. *)
Fixpoint first_entry (m : memory) (base : Z) (bs : list Z) (i : Z) (n : nat) : option Z :=
  match n with
  | O => None
  | S n => if entry_named m (base + DIR_ENTRY_SIZE * i) bs then Some i else first_entry m base bs (i + 1) n
  end.

Lemma starts_with_ext m m' a a' bs :
  (forall i, 0 <= i < Z.of_nat (length bs) -> m' (a' + i) = m (a + i)) -> starts_with m' a' bs = starts_with m a bs.
Proof.
  revert a a'. induction bs as [|c bs IH]; intros a a' H; [done|]. cbn in *.
  pose proof (H 0 ltac:(lia)) as H0. rewrite !Z.add_0_r in H0. rewrite H0. f_equal. apply IH. intros i Hi.
  rewrite <- !Z.add_assoc. apply H. lia.
Qed.
Lemma entry_named_ext m m' a a' bs : Z.of_nat (length bs) <= NAME_LEN ->
  (forall i, 0 <= i < DIR_ENTRY_SIZE -> m' (a' + i) = m (a + i)) -> entry_named m' a' bs = entry_named m a bs.
Proof.
  unfold DIR_ENTRY_SIZE, NAME_LEN. intros Hlen H. unfold entry_named, NAME_LEN. f_equal; [f_equal|].
  - f_equal. f_equal. apply ld_shift. intros i Hi. apply H. lia.
  - destruct (Z.leb_spec 14 (Z.of_nat (length bs))); [done|]. cbn. rewrite <- !Z.add_assoc, H by lia. done.
  - apply starts_with_ext. intros i Hi. rewrite <- !Z.add_assoc. apply H. lia.
Qed.
Lemma first_entry_ext m m' a a' bs i n : Z.of_nat (length bs) <= NAME_LEN -> 0 <= i ->
  (forall x, 0 <= x < DIR_ENTRY_SIZE * (i + Z.of_nat n) -> m' (a' + x) = m (a + x)) ->
  first_entry m' a' bs i n = first_entry m a bs i n.
Proof.
  intros Hlen. revert i. induction n as [|n IH]; intros i Hi H; [done|]. cbn [first_entry].
  rewrite (entry_named_ext m m' (a + DIR_ENTRY_SIZE * i)); [|done|].
  - destruct (entry_named _ _ _); [done|]. apply IH; [lia|]. intros x Hx. apply H. lia.
  - intros x Hx. rewrite <- !Z.add_assoc. apply H. unfold DIR_ENTRY_SIZE in *. lia.
Qed.
(** The meaning of [first_entry]. *)
Lemma first_entry_Some m base bs i n j : first_entry m base bs i n = Some j ->
  i <= j < i + Z.of_nat n /\ entry_named m (base + DIR_ENTRY_SIZE * j) bs = true /\
  forall l, i <= l < j -> entry_named m (base + DIR_ENTRY_SIZE * l) bs = false.
Proof.
  revert i. induction n as [|n IH]; intros i; [done|]. cbn [first_entry].
  destruct (entry_named m (base + DIR_ENTRY_SIZE * i) bs) eqn:E.
  - intros [= <-]. split; [lia|]. split; [done|lia].
  - intros (?&?&H)%IH. split; [lia|]. split; [done|]. intros l Hl. destruct (decide (l = i)) as [->|]; [done|]. apply H. lia.
Qed.
Lemma first_entry_None m base bs i n : first_entry m base bs i n = None <->
  forall l, i <= l < i + Z.of_nat n -> entry_named m (base + DIR_ENTRY_SIZE * l) bs = false.
Proof.
  revert i. induction n as [|n IH]; intros i; cbn [first_entry]; [split; [lia|done]|].
  destruct (entry_named m (base + DIR_ENTRY_SIZE * i) bs) eqn:E.
  - split; [done|]. intros H. rewrite H in E by lia. done.
  - rewrite IH. split; intros H l Hl; [|apply H; lia]. destruct (decide (l = i)) as [->|]; [done|]. apply H. lia.
Qed.
Lemma first_entry_app m base bs i n1 n2 : first_entry m base bs i (n1 + n2) =
  match first_entry m base bs i n1 with Some j => Some j | None => first_entry m base bs (i + Z.of_nat n1) n2 end.
Proof.
  revert i. induction n1 as [|n1 IH]; intros i; cbn [Nat.add first_entry]; [f_equal; lia|].
  destruct (entry_named _ _ _); [done|]. rewrite IH. destruct (first_entry _ _ _ _ n1); [done|f_equal; lia].
Qed.

Section Match.
Context {SI : SyncInodes} {HSI : SyncInodesOk SI}.

Lemma match_bytes_spec io k a bs phys de : ustring io k a bs phys ->
  forall r i, drop i bs = r -> match_bytes a de (Z.of_nat i) (length r) k = Ok (starts_with (k_pmem k) (de + 2 + Z.of_nat i) r) k.
Proof.
  intros [Hub Hbs]. induction r as [|c r IH]; intros i Hr; [done|]. cbn [match_bytes length starts_with].
  assert (bs !! i = Some c) as Hc by (rewrite <- (Nat.add_0_r i), <- lookup_drop, Hr; done).
  pose proof (lookup_lt_Some _ _ _ Hc). erewrite bind_Ok by (apply (get_fs_byte_ubuf io _ a (Z.of_nat (length bs)) phys); [done|lia]).
  rewrite (Hbs i c Hc). unfold de_name, rd8, rd. erewrite bind_Ok by reflexivity. rewrite ld_1.
  destruct (c =? u8 (k_pmem k (de + 2 + Z.of_nat i))); [|done]. cbn [andb].
  replace (Z.of_nat i + 1) with (Z.of_nat (S i)) by lia. rewrite IH; [do 2 f_equal; lia|].
  rewrite <- Nat.add_1_r, <- drop_drop, Hr. done.
Qed.
Lemma match_entry_spec io k a bs phys de : ustring io k a bs phys -> Z.of_nat (length bs) <= NAME_LEN ->
  match_entry (Z.of_nat (length bs)) a de k = Ok (entry_named (k_pmem k) de bs) k.
Proof.
  intros Hs Hlen. unfold match_entry, entry_named, de_inode, rd16, rd. erewrite bind_Ok by reflexivity.
  assert (NAME_LEN <? Z.of_nat (length bs) = false) as -> by blia. rewrite orb_false_r.
  destruct (ld 2 (k_pmem k) de =? 0); [done|]. cbn [negb andb].
  assert ((if Z.of_nat (length bs) <? NAME_LEN then let! c := de_name de (Z.of_nat (length bs)) in ret (truth c) else ret false) k =
    Ok (negb ((NAME_LEN <=? Z.of_nat (length bs)) || (u8 (k_pmem k (de + 2 + Z.of_nat (length bs))) =? 0))) k) as E.
  { rewrite Z.leb_antisym. destruct (Z.of_nat (length bs) <? NAME_LEN); [|done]. unfold de_name, rd8, rd.
    erewrite bind_Ok by reflexivity. by rewrite ld_1. }
  erewrite bind_Ok by exact E. destruct (_ || _); cbn [negb andb]; [|done].
  rewrite Nat2Z.id. pose proof (match_bytes_spec io k a bs phys de Hs bs 0%nat eq_refl) as H.
  rewrite Z.add_0_r in H. exact H.
Qed.

(** [find_entry]'s walk, as long as it stays in the first block. *)
Definition find_body (dir : nat) (name namelen entries : Z) : Z * option nat * Z -> K (Z * option nat * Z + option (nat * Z)) :=
  fun '(i, bh, de) =>
      if i <? entries then
        let! b := unwrap "find_entry: bh" bh in
        let! h := get_bh b in
        let! (bh, de) :=
          if BLOCK_SIZE + b_data h <? de then
            brelse (Some b) ;;;
            let! block := bmap dir (i / DIR_ENTRIES_PER_BLOCK) in
            let! bh := if block =? 0 then ret None
                       else let! n := get_inode dir in bread (i_dev n) block in
            match bh with
            | None => ret (None, de)
            | Some b => let! h := get_bh b in ret (Some b, b_data h)
            end
          else ret (Some b, de) in
        match bh with
        | None => ret (inl (i + DIR_ENTRIES_PER_BLOCK, None, de))
        | Some b =>
            let! m := match_entry namelen name de in
            if m then ret (inr (Some (b, de))) else ret (inl (i + 1, Some b, de + DIR_ENTRY_SIZE))
        end
      else brelse bh ;;; ret (inr None).
Lemma find_walk_block io k a bs phys dir b h entries : ustring io k a bs phys -> Z.of_nat (length bs) <= NAME_LEN ->
  buffers (k_blk k) !! b = Some h -> 0 <= entries <= DIR_ENTRIES_PER_BLOCK + 1 ->
  forall n i fuel, i + Z.of_nat n = entries -> 0 <= i -> (n < fuel)%nat ->
  loop fuel (find_body dir a (Z.of_nat (length bs)) entries) (i, Some b, b_data h + DIR_ENTRY_SIZE * i) k =
  match first_entry (k_pmem k) (b_data h) bs i n with
  | Some j => Ok (Some (b, b_data h + DIR_ENTRY_SIZE * j)) k
  | None => (brelse (Some b) ;;; ret None) k
  end.
Proof.
  intros Hs Hlen Hb He. induction n as [|n IH]; intros i fuel Ei Hi Hf; (destruct fuel as [|fuel]; [lia|]); rewrite loop_S;
    unfold find_body at 1.
  - assert (i <? entries = false) as -> by blia. cbn [first_entry]. rewrite bind_assoc. unfold bind.
    by destruct (brelse (Some b) k).
  - assert (i <? entries = true) as -> by blia. rewrite bind_assoc. erewrite bind_Ok by reflexivity.
    rewrite bind_assoc. erewrite bind_Ok by by apply get_bh_Ok. rewrite bind_assoc.
    assert (BLOCK_SIZE + b_data h <? b_data h + DIR_ENTRY_SIZE * i = false) as ->.
    { change DIR_ENTRIES_PER_BLOCK with 64 in He. unfold BLOCK_SIZE, DIR_ENTRY_SIZE. lia. }
    erewrite bind_Ok by reflexivity. cbv iota beta. rewrite bind_assoc. erewrite bind_Ok by by apply (match_entry_spec io k a bs phys).
    cbn [first_entry]. destruct (entry_named _ _ bs); [done|]. erewrite bind_Ok by reflexivity. cbv iota.
    rewrite <- (IH (i + 1) fuel) by lia. do 2 f_equal. lia.
Qed.
Lemma find_entry_loop_spec io k a bs phys dir b h entries : ustring io k a bs phys -> Z.of_nat (length bs) <= NAME_LEN ->
  buffers (k_blk k) !! b = Some h -> 0 <= entries <= DIR_ENTRIES_PER_BLOCK + 1 ->
  find_entry_loop dir a (Z.of_nat (length bs)) entries b k =
  match first_entry (k_pmem k) (b_data h) bs 0 (Z.to_nat entries) with
  | Some j => Ok (Some (b, b_data h + DIR_ENTRY_SIZE * j)) k
  | None => (brelse (Some b) ;;; ret None) k
  end.
Proof.
  intros Hs Hlen Hb He. unfold find_entry_loop. erewrite bind_Ok by by apply get_bh_Ok.
  rewrite <- (find_walk_block io k a bs phys dir b h entries Hs Hlen Hb He (Z.to_nat entries) 0 (S (Z.to_nat entries))) by lia.
  by replace (b_data h + DIR_ENTRY_SIZE * 0) with (b_data h) by (unfold DIR_ENTRY_SIZE; lia).
Qed.

Lemma ustring_take io k a bs phys m : ustring io k a bs phys -> ustring io k a (take m bs) phys.
Proof.
  intros [Hub Hbs]. split.
  - pose proof (ubuf_sub io k a (Z.of_nat (length bs)) phys 0 (Z.of_nat (length (take m bs))) ltac:(lia) ltac:(lia)) as H.
    rewrite length_take in *. specialize (H ltac:(lia) Hub). rewrite Z.add_0_r in H. exact H.
  - intros i c Hc. apply Hbs. apply lookup_take_Some in Hc. tauto.
Qed.
Lemma ustring_rest k k' a bs phys : ustring (io_byte k) k a bs phys -> same_rest k k' -> ustring (io_byte k) k' a bs phys.
Proof.
  intros [Hub Hbs] (mm&fs&(sc&ty)&rs&rl&data&mem). split.
  - apply (ubuf_ext (io_byte k) k); [done..|]. intros x Hx _. by apply mem.
  - intros i c Hc. rewrite <- (Hbs i c Hc). unfold uload. f_equal. apply mem, (ub_out _ _ _ _ _ Hub).
    apply lookup_lt_Some in Hc. lia.
Qed.

(** A name other than ".." is looked up in the directory itself. *)
Lemma dotdot_other io k dir a bs phys : ustring io k a bs phys -> bs <> [DOT; DOT] ->
  dotdot dir a (Z.of_nat (length bs)) k = Ok (dir, Z.of_nat (length bs)) k.
Proof.
  intros [Hub Hbs] Hne. unfold dotdot. erewrite (bind_Ok _ _ _ false k); [done|].
  destruct (Z.eqb_spec (Z.of_nat (length bs)) 2) as [E|]; [|done].
  destruct bs as [|c [|d [|]]]; try (cbn in E; lia).
  pose proof (get_fs_byte_ubuf io k a _ phys 0 Hub ltac:(lia)) as E0.
  pose proof (get_fs_byte_ubuf io k a _ phys 1 Hub ltac:(cbn; lia)) as E1. rewrite Z.add_0_r in E0.
  pose proof (Hbs 0%nat c eq_refl) as Hc. pose proof (Hbs 1%nat d eq_refl) as Hd. change (uload k phys 0 = c) in Hc. change (uload k phys 1 = d) in Hd. rewrite Hc in E0. rewrite Hd in E1.
  erewrite bind_Ok by exact E0. destruct (Z.eqb_spec c DOT) as [->|]; [|done].
  erewrite bind_Ok by exact E1. destruct (Z.eqb_spec d DOT) as [->|]; [done|done].
Qed.

(** An i-node with several users loses one. *)
Lemma iput_shared k i n : inode_table (k_fs k) !! i = Some n -> i_lock n = 0 -> i_pipe n = 0 ->
  S_ISBLK (i_mode n) = false -> 2 <= i_count n < 65536 ->
  iput (Some i) k = Ok tt (set_inode i (n <| i_count := i_count n - 1 |>) k).
Proof.
  intros Hn Hl Hp Hb Hc. pose proof (get_inode_Ok k i n Hn) as Eg.
  unfold iput, wait_on_inode. rewrite bind_assoc. erewrite bind_Ok by exact Eg. rewrite Hl. erewrite bind_Ok by reflexivity.
  erewrite bind_Ok by exact Eg. rewrite Hp. assert (i_count n =? 0 = false) as -> by lia. change (truth 0) with false. cbv iota.
  rewrite Hb. erewrite bind_Ok by reflexivity. unfold iput_repeat. change ROUNDS with (S 33). rewrite loop_S, bind_assoc.
  erewrite bind_Ok by exact Eg. assert (1 <? i_count n = true) as -> by lia. rewrite bind_assoc.
  erewrite bind_Ok by by apply mod_inode_Ok. cbv beta. by rewrite u16_small by lia.
Qed.
(** ".." in the root directory of the task is "."; in the root of the mounted device, whose super
    block leads back to it, and in any other directory, it is an entry like the others. *)
Lemma dotdot_bytes k io a phys : ustring io k a [DOT; DOT] phys ->
  get_fs_byte a k = Ok DOT k /\ get_fs_byte (a + 1) k = Ok DOT k.
Proof.
  intros [Hub Hbs]. pose proof (get_fs_byte_ubuf io k a _ phys 0 Hub ltac:(cbn; lia)) as E0.
  pose proof (get_fs_byte_ubuf io k a _ phys 1 Hub ltac:(cbn; lia)) as E1. rewrite Z.add_0_r in E0.
  pose proof (Hbs 0%nat DOT eq_refl) as H0. pose proof (Hbs 1%nat DOT eq_refl) as H1.
  change (uload k phys 0 = DOT) in H0. change (uload k phys 1 = DOT) in H1. by rewrite E0, E1, H0, H1.
Qed.
Lemma dotdot_root io k dir t a phys : ustring io k a [DOT; DOT] phys ->
  tasks (k_sched k) !! current (k_sched k) = Some t -> t_root t = Some dir -> dotdot dir a 2 k = Ok (dir, 1) k.
Proof.
  intros [E0 E1]%dotdot_bytes Ht Hr. unfold dotdot. change (2 =? 2) with true. cbv iota. rewrite bind_assoc.
  erewrite bind_Ok by exact E0. change (DOT =? DOT) with true. cbv iota. rewrite bind_assoc. erewrite bind_Ok by exact E1.
  change (DOT =? DOT) with true. erewrite bind_Ok by reflexivity. cbv iota.
  erewrite bind_Ok by by apply cur_Ok. by rewrite decide_True.
Qed.
Definition mounted_here (sb : super_block) (dir : nat) (n : m_inode) : Prop :=
  i_num n = ROOT_INO -> s_imount sb = None \/
    s_imount sb = Some dir /\ 2 <= i_count n < 65536 /\ i_lock n = 0 /\ i_pipe n = 0 /\ S_ISBLK (i_mode n) = false.
Lemma dotdot_up io k dir t n s sb a phys : ustring io k a [DOT; DOT] phys ->
  tasks (k_sched k) !! current (k_sched k) = Some t -> t_root t <> Some dir -> inode_table (k_fs k) !! dir = Some n ->
  found_super k (i_dev n) s sb -> mounted_here sb dir n -> dotdot dir a 2 k = Ok (dir, 2) k.
Proof.
  intros [E0 E1]%dotdot_bytes Ht Hr Hn Hsb Him. unfold dotdot. change (2 =? 2) with true. cbv iota. rewrite bind_assoc.
  erewrite bind_Ok by exact E0. change (DOT =? DOT) with true. cbv iota. rewrite bind_assoc. erewrite bind_Ok by exact E1.
  change (DOT =? DOT) with true. erewrite bind_Ok by reflexivity. cbv iota.
  erewrite bind_Ok by by apply cur_Ok. rewrite decide_False by done. erewrite bind_Ok by by apply get_inode_Ok.
  destruct (Z.eqb_spec (i_num n) ROOT_INO) as [En|]; [|done]. erewrite bind_Ok by by eapply get_super_found.
  erewrite bind_Ok by reflexivity. erewrite bind_Ok by by apply get_sb_Ok, Hsb.
  destruct (Him En) as [->|(->&Hc&Hl&Hp&Hb)]; [done|].
  erewrite bind_Ok by by apply iput_shared. erewrite bind_Ok by (apply mod_inode_Ok; by eapply set_inode_lookup).
  rewrite set_inode_twice. unfold ret. f_equal.
  assert (n <| i_count := i_count n - 1 |> <| i_count := u16 (i_count (n <| i_count := i_count n - 1 |>) + 1) |> = n) as ->.
  { rsimpl. replace (i_count n - 1 + 1) with (i_count n) by lia. rewrite u16_small by lia. by destruct n. }
  clear -Hn. destruct k as [? ? [] ? ? ? ?]. unfold set_inode, upd. cbn in *. by rewrite list_insert_id.
Qed.

(** The name that [find_entry] looks for. *)
Definition truncated (bs : list Z) : list Z := take (Z.to_nat NAME_LEN) bs.
Lemma truncated_length bs : Z.of_nat (length (truncated bs)) = (if NAME_LEN <? Z.of_nat (length bs) then NAME_LEN else Z.of_nat (length bs)).
Proof. unfold truncated. rewrite length_take. unfold NAME_LEN. destruct (Z.ltb_spec 14 (Z.of_nat (length bs))); lia. Qed.

(** What the search for [name] in the block [z] of a directory of [size] bytes gives. *)
Definition found_in (k : kernel) (dir : nat) (z size : Z) (name : list Z) (r : nat * option (nat * Z)) (k' : kernel) : Prop :=
  fst r = dir /\
  match first_entry (disk k z) 0 name 0 (Z.to_nat (size / DIR_ENTRY_SIZE)) with
  | Some i => exists b h, snd r = Some (b, b_data h + DIR_ENTRY_SIZE * i) /\ got k k' b h z /\
      (forall x, 0 <= x < BLOCK_SIZE -> k_pmem k' (b_data h + x) = disk k z x) /\
      exists k2, brelse (Some b) k' = Ok tt k2 /\ calm k k2
  | None => snd r = None /\ calm k k'
  end.
(** The name that is looked up is [name], which [dotdot] may have changed. *)
Lemma find_entry_head k dir n z a bs (name : list Z) :
  inode_table (k_fs k) !! dir = Some n -> idx (i_zone n) 0 = Some z -> bs <> [] ->
  dotdot dir a (Z.of_nat (length (truncated bs))) k = Ok (dir, Z.of_nat (length name)) k ->
  find_entry dir a (Z.of_nat (length bs)) k =
  (if z =? 0 then ret (dir, None)
   else
     let! bh := bread (i_dev n) z in
     match bh with
     | None => ret (dir, None)
     | Some b => let! r := find_entry_loop dir a (Z.of_nat (length name)) (i_size n / DIR_ENTRY_SIZE) b in ret (dir, r)
     end) k.
Proof.
  intros Hn Hz Hne Hdd. assert (Z.of_nat (length (truncated bs)) <> 0) as Hl0.
  { rewrite truncated_length. unfold NAME_LEN. destruct bs; [done|]. cbn. destruct (_ <? _); lia. }
  unfold find_entry. rewrite <- truncated_length. erewrite bind_Ok by by apply get_inode_Ok. cbv zeta.
  apply Z.eqb_neq in Hl0 as ->. erewrite bind_Ok by exact Hdd. cbv iota.
  erewrite bind_Ok. 2:{ unfold zone. erewrite bind_Ok by by apply get_inode_Ok. by rewrite Hz. }
  destruct (z =? 0); [done|]. by erewrite bind_Ok by by apply get_inode_Ok.
Qed.
Lemma find_entry_gen k dir n z a bs name phys :
  cache_ok k -> ready k -> inode_table (k_fs k) !! dir = Some n -> i_dev n = RD_DEV ->
  idx (i_zone n) 0 = Some z -> 0 < z < 65536 -> in_disk k z -> 0 <= i_size n <= BLOCK_SIZE ->
  ustring (io_byte k) k a name phys -> Z.of_nat (length name) <= NAME_LEN -> bs <> [] ->
  dotdot dir a (Z.of_nat (length (truncated bs))) k = Ok (dir, Z.of_nat (length name)) k ->
  runs (find_entry dir a (Z.of_nat (length bs))) k (found_in k dir z (i_size n) name).
Proof.
  intros Hok Hre Hn Hd Hz Hzb Hin Hsz Hst Hl Hne Hdd. unfold found_in.
  assert (0 <= i_size n / DIR_ENTRY_SIZE <= 64) by (unfold BLOCK_SIZE, DIR_ENTRY_SIZE in *; dlia).
  unfold runs at 1. rewrite (find_entry_head k dir n z a bs name Hn Hz Hne Hdd).
  assert (z =? 0 = false) as -> by lia. rewrite Hd.
  destruct (bread_read k z Hok Hre ltac:(lia) Hin) as (b&h0&k1&k2&E&Hb0&_&_&E2&Hcalm).
  pose proof Hok as (l&ch&HI). pose proof (bread_spec k l ch z HI ltac:(lia) (ready_available _ _ Hre)) as H1.
  unfold runs in H1. rewrite E in H1. destruct H1 as (_&Hsd&Hr&_&h&Hgot&_&Htook&Hx).
  erewrite bind_Ok by exact E. cbv iota.
  pose proof Hgot as ((l1&ch1&HI1)&_&_&_&Hb&_&_&Hc). unfold bind.
  rewrite (find_entry_loop_spec _ k1 a _ phys dir b h _ (ustring_rest _ _ _ _ _ Hst Hr) Hl Hb) by (change DIR_ENTRIES_PER_BLOCK with 64; lia).
  rewrite (first_entry_ext (disk k z) (k_pmem k1) 0 (b_data h)) by
    (first [done | lia | intros x Hxr; rewrite Z.add_0_l; apply Hx; unfold BLOCK_SIZE, DIR_ENTRY_SIZE in *; lia]).
  destruct (first_entry (disk k z) 0 name 0 _) as [i|]; cbn [fst snd].
  - split; [done|]. exists b, h. split_and!; try done. by exists k2.
  - unfold bind. rewrite E2. cbn. by split_and!.
Qed.
Lemma truncated_le bs : Z.of_nat (length (truncated bs)) <= NAME_LEN.
Proof. rewrite truncated_length. destruct (Z.ltb_spec NAME_LEN (Z.of_nat (length bs))); lia. Qed.
Lemma find_entry_spec k dir n z a bs phys :
  cache_ok k -> ready k -> inode_table (k_fs k) !! dir = Some n -> i_dev n = RD_DEV ->
  idx (i_zone n) 0 = Some z -> 0 < z < 65536 -> in_disk k z -> 0 <= i_size n <= BLOCK_SIZE ->
  ustring (io_byte k) k a bs phys -> bs <> [] -> truncated bs <> [DOT; DOT] ->
  runs (find_entry dir a (Z.of_nat (length bs))) k (found_in k dir z (i_size n) (truncated bs)).
Proof.
  intros Hok Hre Hn Hd Hz Hzb Hin Hsz Hs Hne Hdd.
  pose proof (ustring_take _ _ _ _ _ (Z.to_nat NAME_LEN) Hs : ustring _ _ _ (truncated bs) _) as Hst.
  eapply find_entry_gen; try done; [apply truncated_le|]. exact (dotdot_other _ k dir a (truncated bs) phys Hst Hdd).
Qed.
End Match.

(** ** Permissions *)

(** Where the permission bits of the task are in [i_mode]. *)
Definition class_shift (t : task_struct) (n : m_inode) : Z :=
  if t_euid t =? i_uid n then 6 else if t_egid t =? i_gid n then 3 else 0.
(** Every right of the mask is granted. *)
Definition grants (t : task_struct) (n : m_inode) (mask : Z) : Prop :=
  forall b, 0 <= b < 3 -> Z.testbit mask b = true -> Z.testbit (i_mode n) (class_shift t n + b) = true.

Lemma access_class_bits t n b : 0 <= b -> Z.testbit (access_class t n) b = Z.testbit (i_mode n) (class_shift t n + b).
Proof.
  intros Hb. unfold access_class, class_shift. destruct (_ =? _); [rewrite Z.shiftr_spec by done; f_equal; lia|].
  destruct (_ =? _); [rewrite Z.shiftr_spec by done; f_equal; lia|f_equal; lia].
Qed.
Lemma masked_class t n mask : 0 <= mask < 8 ->
  (Z.land (Z.land (access_class t n) mask) 7 =? mask) = true <-> grants t n mask.
Proof.
  intros Hm. rewrite Z.eqb_eq. unfold grants.
  assert (Z.land mask 7 = mask) as Em by (change 7 with (Z.ones 3); rewrite Z.land_ones, Z.mod_small; lia).
  rewrite <- Z.land_assoc, Em. split.
  - intros E b Hb Hbit. rewrite <- access_class_bits by lia. rewrite <- E, Z.land_spec in Hbit. apply andb_true_iff in Hbit. tauto.
  - intros H. apply Z.bits_inj_iff'. intros b Hb. rewrite Z.land_spec, access_class_bits by done.
    destruct (Z.testbit mask b) eqn:E; [|apply andb_false_r]. rewrite andb_true_r. apply H; [|done].
    split; [done|]. destruct (Z.lt_ge_cases b 3); [done|]. rewrite <- Em, Z.land_spec, (Z.bits_above_log2 7) in E by (cbn; lia).
    by rewrite andb_false_r in E.
Qed.

(** ** The last component of a path *)
Section Path.
Context {SI : SyncInodes}.

(** The address after the last slash, of the bytes [bs] at [a]; [base] if there is none. *)
Fixpoint after_slash (a base : Z) (bs : list Z) : Z :=
  match bs with
  | [] => base
  | c :: r => after_slash (a + 1) (if c =? SLASH then a + 1 else base) r
  end.
Lemma after_slash_app a base bs cs : after_slash a base (bs ++ cs) = after_slash (a + Z.of_nat (length bs)) (after_slash a base bs) cs.
Proof.
  revert a base. induction bs as [|c bs IH]; intros a base; cbn [app after_slash length]; [f_equal; lia|]. rewrite IH. f_equal. lia.
Qed.
Lemma after_slash_none a base bs : SLASH ∉ bs -> after_slash a base bs = base.
Proof.
  revert a base. induction bs as [|c bs IH]; intros a base H; [done|]. cbn [after_slash]. apply not_elem_of_cons in H as [H1 H2].
  rewrite IH by done. by assert (c =? SLASH = false) as -> by lia.
Qed.
Lemma base_name_loop io k a bs phys : ustring io k a (bs ++ [0]) phys -> 0 ∉ bs ->
  forall r i fuel base, drop i bs = r -> (length r < fuel)%nat -> (i + length r = length bs)%nat ->
  loop fuel (fun '(pathname, basename) =>
    let! c := get_fs_byte pathname in
    let pathname := pathname + 1 in
    if truth c then ret (inl (pathname, if c =? SLASH then pathname else basename))
    else ret (inr (pathname - basename - 1, basename))) (a + Z.of_nat i, base) k =
  Ok (a + Z.of_nat (length bs) - after_slash (a + Z.of_nat i) base r, after_slash (a + Z.of_nat i) base r) k.
Proof.
  intros [Hub Hbs] H0. rewrite length_app in Hub. cbn [length] in Hub.
  induction r as [|c r IH]; intros i fuel base Hr Hf Hl; (destruct fuel as [|fuel]; [cbn in Hf; lia|]); cbn [length] in *;
    rewrite loop_S, bind_assoc; (erewrite bind_Ok by (apply (get_fs_byte_ubuf io k a _ phys (Z.of_nat i) Hub); lia)).
  - rewrite (Hbs i 0) by (apply list_lookup_middle; lia). erewrite bind_Ok by reflexivity. cbv iota. cbn [after_slash].
    unfold ret. do 2 f_equal. lia.
  - assert (bs !! i = Some c) as Hc by (rewrite <- (Nat.add_0_r i), <- lookup_drop, Hr; done).
    rewrite (Hbs i c) by by apply lookup_app_l_Some.
    assert (truth c = true) as ->.
    { unfold truth. apply negb_true_iff, Z.eqb_neq. intros ->. apply H0. by eapply list_elem_of_lookup_2. }
    erewrite bind_Ok by reflexivity. cbv iota. cbn [after_slash].
    replace (a + Z.of_nat i + 1) with (a + Z.of_nat (S i)) by lia. apply IH; [|lia|lia].
    rewrite <- Nat.add_1_r, <- drop_drop, Hr. done.
Qed.
Lemma base_name_spec io k a bs phys : ustring io k a (bs ++ [0]) phys -> 0 ∉ bs -> (length bs < PATH_FUEL)%nat ->
  base_name a k = Ok (a + Z.of_nat (length bs) - after_slash a a bs, after_slash a a bs) k.
Proof.
  intros Hs H0 Hf. pose proof (base_name_loop io k a bs phys Hs H0 bs 0%nat PATH_FUEL a eq_refl Hf ltac:(lia)) as H.
  rewrite Z.add_0_r in H. exact H.
Qed.
End Path.

(** A string below the user space, in the state after boot. *)
Lemma booted_ustring m fs a bs : a + Z.of_nat (length bs) <= 0x80010000 ->
  a + Z.of_nat (length bs) <= USER_START_ADDR ->
  (forall i c, bs !! i = Some c -> u8 (m (a + Z.of_nat i)) = c) ->
  ustring (io_byte (booted_fs m fs)) (booted_fs m fs) a bs (fun i => a + i).
Proof.
  intros Hlo Hu Hbs. split.
  - apply ubuf_kernel; [by right|]. intros i Hi Hx%booted_fs_io. lia.
  - intros i c Hc. rewrite <- (Hbs i c Hc). unfold uload. f_equal.
    change (k_pmem (booted_fs m fs)) with (k_pmem (booted m)). by destruct (booted_spec m) as (_&_&->&_).
Qed.

Module DirectoryProps.

(** [find_entry] finds the first entry of a name other than dot-dot in a directory of one block
    (dot-dot at a root is treated on its own in Path.v).  The directory's block is read from the disk and its entries are searched in order for the name (cut to 14
    bytes); the result is the buffer of the block and the address of the first entry that is in use
    and has exactly that name, or NULL if no entry has, and then no buffer stays in use.  Releasing
    the buffer that was found leaves everything as it was before the call. *)
Theorem find_entry_correct k dir n z a bs phys :
  cache_ok k -> ready k -> inode_table (k_fs k) !! dir = Some n -> i_dev n = RD_DEV ->
  idx (i_zone n) 0 = Some z -> 0 < z < 65536 -> in_disk k z -> 0 <= i_size n <= BLOCK_SIZE ->
  ustring (io_byte k) k a bs phys -> bs <> [] -> truncated bs <> [DOT; DOT] ->
  runs (find_entry dir a (Z.of_nat (length bs))) k (fun r k' => fst r = dir /\
    match first_entry (disk k z) 0 (truncated bs) 0 (Z.to_nat (i_size n / DIR_ENTRY_SIZE)) with
    | Some i => exists b h, snd r = Some (b, b_data h + DIR_ENTRY_SIZE * i) /\ got k k' b h z /\
        (forall x, 0 <= x < BLOCK_SIZE -> k_pmem k' (b_data h + x) = disk k z x) /\
        exists k2, brelse (Some b) k' = Ok tt k2 /\ calm k k2
    | None => snd r = None /\ calm k k'
    end).
Proof. apply find_entry_spec. Qed.

(** The directory in block 10: entry 0 is free, entry 1 is "ab", i-node 7; the name is at 256. *)
Definition demo_dir_bytes : memory :=
  st 4 (st 2 (st 2 blank (RD_START + 10 * BLOCK_SIZE + 16) 7) (RD_START + 10 * BLOCK_SIZE + 18) (97 + 98 * 256)) 256 (97 + 98 * 256).
Definition demo_directory : m_inode := zero_inode <| i_dev := RD_DEV |> <| i_num := 1 |> <| i_count := 1 |> <| i_nlinks := 2 |>
  <| i_mode := 0x41ED |> <| i_size := 32 |> <| i_zone := [10; 0; 0; 0; 0; 0; 0; 0; 0] |>.
Definition demo_dfs (size : Z) : fs_state :=
  mkFs (demo_directory <| i_size := size |> :: replicate 31 zero_inode) 0 (replicate 8 zero_super) (replicate NR_FILE zero_file) RD_DEV.
Lemma find_entry_correct_witness :
  runs (find_entry 0 256 2) (booted_fs demo_dir_bytes (demo_dfs 32)) (fun r k' =>
    exists b h, snd r = Some (b, b_data h + 16) /\ ld 2 (k_pmem k') (b_data h + 16) = 7).
Proof.
  eapply runs_mono; [|apply (find_entry_correct (booted_fs demo_dir_bytes (demo_dfs 32)) 0
    (demo_directory <| i_size := 32 |>) 10 256 [97; 98] (fun i => 256 + i));
    [apply booted_fs_ok|apply booted_fs_ready|reflexivity|reflexivity|reflexivity|lia|apply booted_fs_in_disk; lia|
     split; vm_compute; discriminate| |done|done]].
  - intros r k' [_ H]. rewrite (first_entry_ext (fun x => demo_dir_bytes (RD_START + 10 * BLOCK_SIZE + x)) _ 0 0) in H; 
      [|vm_compute; congruence|lia|intros x _; apply booted_fs_disk].
    change (first_entry _ _ _ _ _) with (Some 1) in H. destruct H as (b&h&E&_&Hx&_). exists b, h. split; [exact E|].
    rewrite (ld_shift 2 (fun x => demo_dir_bytes (RD_START + 10 * BLOCK_SIZE + x)) _ 16).
    + vm_compute. reflexivity.
    + intros x Hxr. rewrite <- Z.add_assoc, Hx by (unfold BLOCK_SIZE; lia). apply booted_fs_disk.
  - apply booted_ustring; [vm_compute; congruence|vm_compute; congruence|].
    intros [|[|[|]]] c [= <-]; reflexivity.
Defined.

(** The walk of [find_entry] leaves the first block one entry too late.  The test is
    [de > BLOCK_SIZE + bh->b_data], so when a directory has 65 entries the walk compares the name
    with the 16 bytes that follow the first block's data in memory (those of another buffer), and
    takes them for entry 64; the second block, where entry 64 is, is not read. *)
Theorem find_entry_reads_past_block io k a bs phys dir b h :
  ustring io k a bs phys -> Z.of_nat (length bs) <= NAME_LEN -> buffers (k_blk k) !! b = Some h ->
  first_entry (k_pmem k) (b_data h) bs 0 64 = None -> entry_named (k_pmem k) (b_data h + BLOCK_SIZE) bs = true ->
  find_entry_loop dir a (Z.of_nat (length bs)) (DIR_ENTRIES_PER_BLOCK + 1) b k = Ok (Some (b, b_data h + BLOCK_SIZE)) k.
Proof.
  intros Hs Hlen Hb Hn Hp. rewrite (find_entry_loop_spec io k a bs phys dir b h) by (done || (change DIR_ENTRIES_PER_BLOCK with 64; lia)).
  change (Z.to_nat (DIR_ENTRIES_PER_BLOCK + 1)) with (64 + 1)%nat. rewrite first_entry_app, Hn. cbn [first_entry]. change (b_data h + DIR_ENTRY_SIZE * (0 + Z.of_nat 64)) with (b_data h + BLOCK_SIZE).
  by rewrite Hp.
Qed.
(** A block of free entries, followed in memory by an entry "ab". *)
Definition demo_past : kernel := kernel0 <| k_blk ::= fun s => s <| buffers := [(demo_head RD_DEV 10 1 0) <| b_data := 4096 |>] |> |>
  <| k_pmem := st 2 (st 2 (st 4 blank 256 (97 + 98 * 256)) 5120 9) 5122 (97 + 98 * 256) |>.
Lemma find_entry_reads_past_block_witness :
  find_entry_loop 0 256 2 65 0 demo_past = Ok (Some (0%nat, 5120)) demo_past.
Proof.
  etrans; [|reflexivity]. refine (find_entry_reads_past_block (fun _ => False) demo_past 256 [97; 98] (fun i => 256 + i) 0 0 ((demo_head RD_DEV 10 1 0) <| b_data := 4096 |>) _ _ _ _ _);
    [split|vm_compute; discriminate|reflexivity|vm_compute; reflexivity|vm_compute; reflexivity].
  - apply ubuf_kernel; [right; vm_compute; discriminate|tauto].
  - intros [|[|[|]]] c [= <-]; reflexivity.
Defined.

(** what [permission] decides.  A file that has been deleted is refused to everybody.  Otherwise
    the superuser has every right, and another user has the rights of the mask exactly if their bits
    are set in the class that applies: the owner's (bits 6 to 8 of the mode), else the group's
    (bits 3 to 5), else the others'. *)
Theorem permission_decides k inode n t mask :
  inode_table (k_fs k) !! inode = Some n -> tasks (k_sched k) !! current (k_sched k) = Some t -> 0 <= mask < 8 ->
  exists r, permission inode mask k = Ok r k /\
    (r = true <-> (i_dev n = 0 \/ i_nlinks n <> 0) /\ (t_euid t = 0 \/ grants t n mask)).
Proof.
  intros Hn Ht Hm. exists (negb (truth (i_dev n) && (i_nlinks n =? 0)) &&
    ((Z.land (Z.land (access_class t n) mask) 7 =? mask) || (t_euid t =? 0))). split.
  - unfold permission. erewrite bind_Ok by by apply get_inode_Ok. destruct (_ && _); [done|].
    erewrite bind_Ok by by apply cur_Ok. cbv zeta. unfold suser. rewrite bind_assoc. by erewrite bind_Ok by by apply cur_Ok.
  - rewrite andb_true_iff, orb_true_iff, masked_class, Z.eqb_eq, negb_true_iff, andb_false_iff, Z.eqb_neq by done.
    unfold truth. rewrite negb_false_iff, Z.eqb_eq. tauto.
Qed.
Lemma permission_decides_witness :
  permission 0 MAY_WRITE (booted_fs blank (demo_dfs 32)) = Ok true (booted_fs blank (demo_dfs 32)).
Proof.
  destruct (permission_decides (booted_fs blank (demo_dfs 32)) 0 (demo_directory <| i_size := 32 |>) zero_task MAY_WRITE) as (r&E&Hr);
    [reflexivity| |unfold MAY_WRITE; lia|].
  - change (k_sched (booted_fs blank (demo_dfs 32))) with (k_sched (booted blank)). destruct (booted_spec blank) as (_&_&_&_&_&->&_).
    vm_compute. reflexivity.
  - rewrite E. f_equal. apply Hr. split; [right; vm_compute; discriminate|by left].
Defined.

(** [dir_namei] hands on the last component of a path.  For a path [pre ++ c] where [c] has no
    slash and [pre] is empty or ends in one, [basename] points to [c] and [namelen] is its length
    (0 for a path that ends in a slash). *)
Theorem base_name_last_component io k a pre c phys :
  ustring io k a ((pre ++ c) ++ [0]) phys -> 0 ∉ pre ++ c -> (length (pre ++ c) < PATH_FUEL)%nat ->
  pre = [] \/ last pre = Some SLASH -> SLASH ∉ c ->
  base_name a k = Ok (Z.of_nat (length c), a + Z.of_nat (length pre)) k.
Proof.
  intros Hs H0 Hf Hp Hc. rewrite (base_name_spec io k a (pre ++ c) phys Hs H0 Hf), after_slash_app, after_slash_none by done.
  assert (after_slash a a pre = a + Z.of_nat (length pre)) as ->.
  { destruct Hp as [->|Hl]; [cbn; lia|]. apply last_Some in Hl as [l ->]. rewrite after_slash_app, length_app. cbn. lia. }
  rewrite length_app. do 2 f_equal. lia.
Qed.
Definition demo_path_mem : memory := st 8 blank 256 (47 + 97 * 256 + 47 * 256 ^ 2 + 98 * 256 ^ 3 + 99 * 256 ^ 4).
Lemma base_name_last_component_witness :
  base_name 256 (booted_fs demo_path_mem (demo_dfs 32)) = Ok (2, 259) (booted_fs demo_path_mem (demo_dfs 32)).
Proof.
  apply (base_name_last_component (io_byte (booted_fs demo_path_mem (demo_dfs 32))) _ 256 [47; 97; 47] [98; 99] (fun i => 256 + i)).
  - apply booted_ustring; [vm_compute; congruence|vm_compute; congruence|].
    intros [|[|[|[|[|[|[|]]]]]]] c [= <-]; reflexivity.
  - set_solver.
  - unfold PATH_FUEL. cbn. lia.
  - by right.
  - set_solver.
Defined.
End DirectoryProps.
