(* ===== verification/Path.v ===== *)
(** * Path resolution: what [namei] computes

    [walk] is the reference: the walk of a path through the directories on the disk, component by
    component, as a function of the content of the disk, the i-nodes in use and the task that asks.
    The file shows that [get_dir] and [namei] follow it, through the i-node table and the buffer
    cache, and that they change nothing but slots of the table that nobody uses. *)
From Stdlib Require Import ZArith Lia String.
From stdpp Require Import base list gmap.
From S2P Require Import Prelude State PageAlloc BlockIO Buffer BufferCache BufferInit InodeIO Bitmap Inode PageFault UserMem Namei Directory.
Open Scope Z_scope.

(** ** The components of a path *)
Fixpoint components (bs : list Z) : list (list Z) :=
  match bs with
  | [] => [[]]
  | c :: r =>
      if c =? SLASH then [] :: components r
      else match components r with x :: xs => (c :: x) :: xs | [] => [[c]] end
  end.
Fixpoint join (names : list (list Z)) : list Z :=
  match names with
  | [] => []
  | [c] => c
  | c :: r => c ++ SLASH :: join r
  end.

Lemma components_ne bs : components bs <> [].
Proof. destruct bs as [|c r]; cbn; [done|]. destruct (c =? SLASH); [done|]. by destruct (components r). Qed.
Lemma join_cons c names : names <> [] -> join (c :: names) = c ++ SLASH :: join names.
Proof. by destruct names. Qed.
Lemma join_components bs : join (components bs) = bs.
Proof.
  induction bs as [|c r IH]; [done|]. cbn [components]. pose proof (components_ne r).
  destruct (Z.eqb_spec c SLASH) as [->|]; [rewrite join_cons by done; by rewrite IH|].
  destruct (components r) as [|x [|y xs]]; [done|cbn in *; by rewrite IH|]. rewrite join_cons in * by done. cbn. by rewrite <- IH.
Qed.
(** The last component is empty if the path ends in a slash. *)
Definition final_slash (bs : list Z) : bool := List.last bs 0 =? SLASH.
Lemma last_component bs : bs <> [] -> final_slash bs = true <-> List.last (components bs) [] = [].
Proof.
  unfold final_slash. rewrite Z.eqb_eq. induction bs as [|c r IH]; [done|]. intros _. cbn [components].
  destruct r as [|c' r].
  - cbn. destruct (Z.eqb_spec c SLASH) as [->|]; done.
  - change (List.last (c :: c' :: r) 0) with (List.last (c' :: r) 0). rewrite (IH ltac:(done)). pose proof (components_ne (c' :: r)) as Hne.
    destruct (components (c' :: r)) as [|x xs] eqn:E; [done|]. destruct (c =? SLASH); [done|].
    destruct xs as [|y xs]; [|done]. cbn [List.last]. split; [|done]. intros ->. exfalso.
    cbn [components] in E. destruct (c' =? SLASH); [by pose proof (components_ne r); destruct (components r)|].
    by destruct (components r) as [|? ?].
Qed.
Lemma components_Forall (P : Z -> Prop) bs : Forall P bs -> Forall (Forall P) (components bs).
Proof.
  induction 1 as [|c r Hc Hr IH]; cbn [components]; [by repeat constructor|].
  destruct (c =? SLASH); [by constructor|]. destruct (components r) as [|x xs]; [by repeat constructor|].
  inversion_clear IH. by repeat constructor.
Qed.
Lemma components_slash bs : Forall (fun c => SLASH ∉ c) (components bs).
Proof.
  induction bs as [|c r IH]; cbn [components]; [constructor; [apply not_elem_of_nil|done]|].
  destruct (Z.eqb_spec c SLASH); [constructor; [apply not_elem_of_nil|done]|].
  destruct (components r) as [|x xs]; inversion_clear IH; (constructor; [|done]); apply not_elem_of_cons;
    (split; [congruence|]); [apply not_elem_of_nil|done].
Qed.
Lemma length_join names : names <> [] -> (length names <= S (length (join names)))%nat.
Proof.
  induction names as [|c names IH]; [done|]. intros _. destruct names as [|c' names]; [cbn; lia|].
  rewrite join_cons, length_app by done. cbn [length]. specialize (IH ltac:(done)). cbn [length] in IH. lia.
Qed.
(** The last component is what follows the last slash. *)
Lemma after_slash_join names a base : names <> [] -> Forall (fun c => SLASH ∉ c) names ->
  after_slash a base (join names) =
  match names with
  | [_] => base
  | _ => a + Z.of_nat (length (join names)) - Z.of_nat (length (List.last names []))
  end.
Proof.
  revert a base. induction names as [|c names IH]; [done|]. intros a base _ [Hc Hn]%Forall_cons.
  destruct names as [|c' names]; [by apply after_slash_none|].
  rewrite join_cons, after_slash_app by done. cbn [after_slash]. change (SLASH =? SLASH) with true. cbv iota.
  rewrite IH by done. rewrite length_app. cbn [length].
  destruct names as [|c2 names]; [cbn [join List.last length]; lia|].
  change (List.last (c :: c' :: c2 :: names) []) with (List.last (c' :: c2 :: names) []). lia.
Qed.
Lemma join_last names : names <> [] -> exists pre, join names = pre ++ List.last names [].
Proof.
  induction names as [|c names IH]; [done|]. intros _. destruct names as [|c' names]; [by exists []|].
  destruct (IH ltac:(done)) as [pre E]. exists (c ++ SLASH :: pre). rewrite join_cons, E by done. by rewrite <- app_assoc.
Qed.

(** ** The reference *)
(** The fields of an i-node that are on the disk, with its device and number. *)
Definition d_part (n : m_inode) : m_inode :=
  mkInode (i_mode n) (i_uid n) (i_size n) (i_mtime n) (i_gid n) (i_nlinks n) (i_zone n) None 0 0 (i_dev n) (i_num n) 0 0 0 0 0 0 0.
Definition in_use (nr : Z) (n : m_inode) : bool := matches RD_DEV nr n && negb (i_count n =? 0).
Definition permits (t : task_struct) (n : m_inode) (mask : Z) : bool :=
  negb (truth (i_dev n) && (i_nlinks n =? 0)) && ((Z.land (Z.land (access_class t n) mask) 7 =? mask) || (t_euid t =? 0)).
(** What the walk says of a path: the number of the i-node, that there is none, or that the walk
    meets something that is not followed here ([passable], [loadable]). *)
Inductive outcome := Found (nr : Z) | Missing | Beyond.

Section Reference.
(** The content [d] of a disk of [len] bytes, its super block, the table of i-nodes and the task. *)
Context (d : Z -> memory) (len : Z) (sb : super_block) (T : list m_inode) (t : task_struct).

Definition on_dev (z : Z) : bool := (0 <=? z) && ((z + 1) * BLOCK_SIZE <=? len).
Definition d_inode (nr : Z) : m_inode :=
  load_d_inode (d (inode_block sb nr)) (inode_offset nr) (fresh_inode <| i_dev := RD_DEV |> <| i_num := nr |>).
(** I-node [nr]: as it is in memory while somebody uses it, and else as it is on the disk. *)
Definition inode_of (nr : Z) : m_inode :=
  match list_find (fun n => in_use nr n = true) T with
  | Some (_, n) => d_part n
  | None => d_part (d_inode nr)
  end.
(** The i-node number of the first entry of a directory that has the name. *)
Definition entry_of (n : m_inode) (name : list Z) : option Z :=
  let z := default 0 (idx (i_zone n) 0) in
  if (z =? 0) || negb (on_dev z) then None
  else (fun i => ld 2 (d z) (DIR_ENTRY_SIZE * i)) <$> first_entry (d z) 0 name 0 (Z.to_nat (i_size n / DIR_ENTRY_SIZE)).
(** The name that is looked up in directory [nr]: ".." in the task's root is ".", and a name ends
    after 14 bytes. *)
Definition sought (root nr : Z) (c : list Z) : list Z :=
  if decide (c = [DOT; DOT] /\ nr = root) then [DOT] else truncated c.
Definition child (root nr : Z) (c : list Z) : option Z :=
  match c with [] => None | _ => entry_of (inode_of nr) (sought root nr c) end.
Definition may_enter (n : m_inode) : bool := S_ISDIR (i_mode n) && permits t n MAY_EXEC.
(** An i-node with links that is not a block device, and, if it is a directory, has one block. *)
Definition passable (n : m_inode) : bool :=
  negb (i_nlinks n =? 0) && negb (S_ISBLK (i_mode n)) &&
  (negb (S_ISDIR (i_mode n)) || (0 <=? i_size n) && (i_size n <=? BLOCK_SIZE)).
(** The block of the i-node is on the disk. *)
Definition loadable (nr : Z) : bool :=
  (0 <=? inode_block sb nr) && (inode_block sb nr <? 2 ^ 32) && on_dev (inode_block sb nr).
(** One step, from directory [nr] to its entry [c]. *)
Definition step (root nr : Z) (c : list Z) : outcome :=
  match child root nr c with
  | Some x => if loadable x then Found x else Beyond
  | None => Missing
  end.
Definition enter (nr : Z) : outcome :=
  if passable (inode_of nr) then if may_enter (inode_of nr) then Found nr else Missing else Beyond.
Definition and_then (o : outcome) (f : Z -> outcome) : outcome :=
  match o with Found x => f x | _ => o end.
(** The walk along the components of a path; an empty last component, after a final slash, is the
    directory itself. *)
Fixpoint walk (root nr : Z) (names : list (list Z)) : outcome :=
  match names with
  | [] => Found nr
  | [[]] => enter nr
  | c :: r => and_then (enter nr) (fun nr => and_then (step root nr c) (fun x => walk root x r))
  end.
(** A path from the root or from the working directory. *)
Definition resolve (root pwd : Z) (bs : list Z) : outcome :=
  match bs with
  | [] => Missing
  | c :: r => if c =? SLASH then walk root root (components r) else walk root pwd (components bs)
  end.

(** The directory of the last component, which is what [get_dir] returns. *)
Fixpoint dirs (root nr : Z) (names : list (list Z)) : outcome :=
  match names with
  | [] => Found nr
  | [_] => enter nr
  | c :: r => and_then (enter nr) (fun nr => and_then (step root nr c) (fun x => dirs root x r))
  end.
Lemma walk_dirs root nr names : names <> [] -> walk root nr names =
  and_then (dirs root nr names) (fun x => match List.last names [] with [] => Found x | c => step root x c end).
Proof.
  revert nr. induction names as [|c names IH]; [done|]. intros nr _. destruct names as [|c' names].
  - cbn [walk dirs List.last]. destruct c as [|b c]; destruct (enter nr); cbn; try done. by destruct (step root _ _).
  - assert (forall x, walk root x (c :: c' :: names) = and_then (enter x) (fun nr => and_then (step root nr c) (fun x => walk root x (c' :: names)))) as ->
      by (intros; by destruct c).
    change (dirs root nr (c :: c' :: names)) with (and_then (enter nr) (fun nr => and_then (step root nr c) (fun x => dirs root x (c' :: names)))).
    destruct (enter nr) as [x| |]; cbn [and_then]; try done. destruct (step root x c) as [y| |]; cbn [and_then]; try done. by apply IH.
Qed.
End Reference.

(** ** The i-node table during a walk *)
(** One more user. *)
Definition held (n : m_inode) : m_inode := n <| i_count := i_count n + 1 |>.
(** Every i-node in use is as it was; only unused slots were filled with something else. *)
Definition same_used (T T' : list m_inode) : Prop :=
  forall i n, T !! i = Some n ->
    (i_count n <> 0 -> T' !! i = Some n) /\ (i_count n = 0 -> exists n', T' !! i = Some n' /\ i_count n' = 0).

(** The slot of a directory in use. *)
Definition dir_slot (X : list m_inode) (o : option nat) (n : m_inode) : Prop :=
  exists i, o = Some i /\ X !! i = Some n /\ i_dev n = RD_DEV /\ i_count n <> 0.
(** The super block of the disk leads to its root directory, or nowhere before that is set. *)
Definition root_mounted (T : list m_inode) (sb : super_block) : Prop :=
  s_imount sb = None \/ exists n, dir_slot T (s_imount sb) n /\ i_num n = ROOT_INO.

Section Table.
Context (d : Z -> memory) (len : Z) (sb : super_block).

(** No i-node is locked, waited for or mounted on, an i-node is in one slot only, and an unused
    one is clean and as it is on the disk. *)
Record table_ok (T : list m_inode) : Prop := mkTableOk {
  to_length : length T = NR_INODE;
  to_idle : forall i n, T !! i = Some n -> i_lock n = 0 /\ i_wait n = None /\ i_mount n = 0;
  to_count : forall i n, T !! i = Some n -> 0 <= i_count n < 65534;
  to_unique : forall i j n m, T !! i = Some n -> T !! j = Some m ->
    i_dev n <> 0 -> i_dev n = i_dev m -> i_num n = i_num m -> i = j;
  to_zones : forall i n, T !! i = Some n -> i_dev n = RD_DEV ->
    length (i_zone n) = 9%nat /\ Forall (fun z => 0 <= z < 65536) (i_zone n);
  to_pipe : forall i n, T !! i = Some n -> i_dev n = RD_DEV -> i_pipe n = 0;
  to_clean : forall i n, T !! i = Some n -> i_count n = 0 -> i_dirt n = 0;
  to_unused : forall i n, T !! i = Some n -> i_dev n = RD_DEV -> i_count n = 0 ->
    loadable len sb (i_num n) = true /\ d_part n = d_part (d_inode d sb (i_num n));
  to_vacant : exists v, vacant T v = true }.

Lemma matches_spec nr n : matches RD_DEV nr n = true <-> i_dev n = RD_DEV /\ i_num n = nr.
Proof. unfold matches. by rewrite andb_true_iff, !Z.eqb_eq. Qed.
Lemma in_use_spec nr n : in_use nr n = true <-> (i_dev n = RD_DEV /\ i_num n = nr) /\ i_count n <> 0.
Proof. unfold in_use. by rewrite andb_true_iff, matches_spec, negb_true_iff, Z.eqb_neq. Qed.

Lemma inode_of_slot T i n : table_ok T -> T !! i = Some n -> i_dev n = RD_DEV -> inode_of d sb T (i_num n) = d_part n.
Proof.
  intros Hok Hn Hd. unfold inode_of. destruct (list_find _ T) as [[j m]|] eqn:E.
  - apply list_find_Some in E as (Hm&[[Hmd Hmn] _]%in_use_spec&_).
    assert (j = i) as -> by (apply (to_unique _ Hok j i m n); try done; [rewrite Hmd; done|congruence]). congruence.
  - apply list_find_None in E. pose proof (Forall_lookup_1 _ _ _ _ E Hn) as Hu. cbv beta in Hu. rewrite in_use_spec in Hu.
    destruct (decide (i_count n = 0)) as [Hc|Hc]; [|tauto]. symmetry. by eapply to_unused.
Qed.
Lemma inode_of_unused T nr : (forall i n, T !! i = Some n -> i_count n <> 0 -> matches RD_DEV nr n = false) ->
  inode_of d sb T nr = d_part (d_inode d sb nr).
Proof.
  intros H. unfold inode_of. destruct (list_find _ T) as [[j m]|] eqn:E; [|done].
  apply list_find_Some in E as (Hm&[[Hmd Hmn] Hc]%in_use_spec&_). specialize (H j m Hm Hc).
  assert (matches RD_DEV nr m = true) by by apply matches_spec. congruence.
Qed.
Lemma same_used_refl T : same_used T T.
Proof. intros i n Hn. split; [done|]. by exists n. Qed.
Lemma same_used_trans T1 T2 T3 : same_used T1 T2 -> same_used T2 T3 -> same_used T1 T3.
Proof.
  intros H1 H2 i n Hn. destruct (H1 i n Hn) as [A B]. split.
  - intros Hc. apply (H2 i n); auto.
  - intros (n'&Hn'&Hc')%B. by apply (H2 i n').
Qed.
Lemma inode_of_same T T' nr : table_ok T -> table_ok T' -> same_used T T' -> inode_of d sb T' nr = inode_of d sb T nr.
Proof.
  intros Hok Hok' Hs. unfold inode_of at 2. destruct (list_find _ T) as [[i n]|] eqn:E.
  - apply list_find_Some in E as (Hn&[[Hd <-] Hc]%in_use_spec&_). apply (inode_of_slot _ i); [done| |done]. by apply (Hs i n).
  - apply list_find_None in E. apply inode_of_unused. intros i n Hn Hc.
    destruct (lookup_lt_is_Some_2 T i) as [m Hm]; [rewrite (to_length _ Hok), <- (to_length _ Hok'); by eapply lookup_lt_Some|].
    destruct (Hs i m Hm) as [A B]. destruct (decide (i_count m = 0)) as [Hz|Hz].
    + destruct (B Hz) as (n'&Hn'&?). congruence.
    + specialize (A Hz). assert (m = n) as -> by congruence. pose proof (Forall_lookup_1 _ _ _ _ E Hm) as Hu. cbv beta in Hu.
      apply not_true_is_false. intros [??]%matches_spec. apply Hu. by apply in_use_spec.
Qed.

(** Filling an unused slot. *)
Lemma refill T e x : table_ok T -> (exists n, T !! e = Some n /\ i_count n = 0) ->
  i_count x = 0 -> i_dirt x = 0 -> i_lock x = 0 -> i_wait x = None -> i_mount x = 0 ->
  (i_dev x <> 0 -> forall j m, j <> e -> T !! j = Some m -> matches (i_dev x) (i_num x) m = false) ->
  (i_dev x = RD_DEV -> i_pipe x = 0 /\ length (i_zone x) = 9%nat /\ Forall (fun z => 0 <= z < 65536) (i_zone x) /\
    loadable len sb (i_num x) = true /\ d_part x = d_part (d_inode d sb (i_num x))) ->
  table_ok (<[e := x]> T) /\ same_used T (<[e := x]> T).
Proof.
  intros Hok (ne&Hne&Hce) Hc Hdi Hl Hw Hm Hu Hx. pose proof (lookup_lt_Some _ _ _ Hne) as He.
  assert (forall i n, <[e := x]> T !! i = Some n -> i = e /\ n = x \/ i <> e /\ T !! i = Some n) as Hlook.
  { intros i n [(->&->&_)|[? Hn]]%list_lookup_insert_Some; [by left|right]. done. }
  assert (forall m, matches (i_dev x) (i_num x) m = false -> i_dev m = i_dev x -> i_num m = i_num x -> False) as Hmm.
  { intros m H E1 E2. unfold matches in H. by rewrite E1, E2, !Z.eqb_refl in H. }
  split; [split|].
  - rewrite length_insert. apply Hok.
  - intros i n [[-> ->]|[_ Hn]]%Hlook; [done|by eapply to_idle].
  - intros i n [[-> ->]|[_ Hn]]%Hlook; [lia|by eapply to_count].
  - intros i j n m [[-> ->]|[Hi Hn]]%Hlook [[-> ->]|[Hj Hmj]]%Hlook Hd Ed En; [done| | |by eapply (to_unique _ Hok)].
    + exfalso. by apply (Hmm m (Hu Hd j m Hj Hmj)).
    + exfalso. apply (Hmm n (Hu ltac:(congruence) i n Hi Hn)); congruence.
  - intros i n [[-> ->]|[_ Hn]]%Hlook Hd; [by destruct (Hx Hd) as (_&?&?&_)|by eapply to_zones].
  - intros i n [[-> ->]|[_ Hn]]%Hlook Hd; [by apply Hx|by eapply to_pipe].
  - intros i n [[-> ->]|[_ Hn]]%Hlook; [done|by eapply to_clean].
  - intros i n [[-> ->]|[_ Hn]]%Hlook Hd ?; [by destruct (Hx Hd) as (_&_&_&?&?)|by eapply to_unused].
  - exists e. unfold vacant. rewrite list_lookup_insert_eq by done. by rewrite Hc, Hdi, Hl.
  - intros i n Hn. destruct (decide (i = e)) as [->|Hne'].
    + assert (n = ne) as -> by congruence. split; [done|]. intros _. exists x. by rewrite list_lookup_insert_eq.
    + rewrite list_lookup_insert_ne by done. split; [done|]. by exists n.
Qed.
Lemma d_inode_zones nr : length (i_zone (d_inode d sb nr)) = 9%nat /\ Forall (fun z => 0 <= z < 65536) (i_zone (d_inode d sb nr)).
Proof.
  change (i_zone (d_inode d sb nr)) with (load_zones (d (inode_block sb nr)) (inode_offset nr + 14) 9).
  generalize (inode_offset nr + 14). generalize 9%nat.
  intros c. induction c as [|c IH]; intros a; [by split; [|constructor]|]. cbn [load_zones length]. destruct (IH (a + 2)) as [E Hf].
  split; [by rewrite E|]. constructor; [apply (ld_bound 2)|done].
Qed.
(** The i-node of the disk in a slot that nobody uses. *)
Lemma cold_inode nr : exists x, held x = d_inode d sb nr /\ d_part x = d_part (d_inode d sb nr) /\
  i_zone x = i_zone (d_inode d sb nr) /\ i_dev x = RD_DEV /\ i_num x = nr /\
  i_count x = 0 /\ i_dirt x = 0 /\ i_lock x = 0 /\ i_wait x = None /\ i_mount x = 0 /\ i_pipe x = 0.
Proof.
  exists ((d_inode d sb nr) <| i_count := 0 |>). unfold d_inode, load_d_inode.
  generalize (load_zones (d (inode_block sb nr)) (inode_offset nr + 14) 9). intros zs.
  repeat match goal with |- context [ld ?n ?m ?a] => generalize (ld n m a); intros ? end. done.
Qed.
End Table.

(** The table at boot. *)
Lemma table_ok_zero d len sb : table_ok d len sb (replicate NR_INODE zero_inode).
Proof.
  assert (forall i n, replicate NR_INODE zero_inode !! i = Some n -> n = zero_inode) as Hz by (intros i n H; by apply lookup_replicate_1 in H as [-> _]).
  split; [done|..|by exists 0%nat]; try (intros i n H; by rewrite (Hz i n H)).
  intros i j n m H _ Hd. by rewrite (Hz i n H) in Hd.
Qed.
(** Only the blocks that are on the disk matter, and where the i-nodes are. *)
Lemma d_inode_disk d d' len sb sb' nr : loadable len sb nr = true ->
  (forall z x, on_dev len z = true -> 0 <= x < BLOCK_SIZE -> d' z x = d z x) ->
  inode_block sb' nr = inode_block sb nr -> d_inode d' sb' nr = d_inode d sb nr.
Proof.
  intros Hl Hd Hb. unfold d_inode. rewrite Hb. apply load_d_inode_ext. intros y Hy. pose proof (inode_offset_range nr).
  apply Hd; [|unfold D_INODE_SIZE, BLOCK_SIZE in *; lia]. unfold loadable in Hl. by apply andb_true_iff in Hl as [_ ?].
Qed.
Lemma table_ok_disk d d' len sb sb' T : table_ok d len sb T ->
  (forall z x, on_dev len z = true -> 0 <= x < BLOCK_SIZE -> d' z x = d z x) ->
  (forall nr, inode_block sb' nr = inode_block sb nr) -> table_ok d' len sb' T.
Proof.
  intros [] Hd Hb. split; try done. intros i n Hn Hdev Hc. destruct (to_unused0 i n Hn Hdev Hc) as [Hl ->].
  split; [unfold loadable in *; by rewrite Hb|]. by rewrite (d_inode_disk d d' len sb sb').
Qed.
(** Another number of users. *)
Lemma table_ok_users d len sb T i j n m c : table_ok d len sb T -> T !! i = Some n -> 0 < c < 65534 ->
  T !! j = Some m -> i <> j -> i_count m = 0 -> table_ok d len sb (<[i := n <| i_count := c |>]> T).
Proof.
  intros Hok Hn Hc Hm Hij Hmc. set (n' := n <| i_count := c |>).
  assert (forall x y, <[i := n']> T !! x = Some y -> exists y0, T !! x = Some y0 /\ (y = y0 \/ y = y0 <| i_count := c |>)) as Hlook.
  { intros x y [(->&<-&_)|[_ Hy]]%list_lookup_insert_Some; [exists n; split; [done|by right]|]. exists y. split; [done|by left]. }
  destruct Hok as [H1 H2 H3 H4 H5 H6 H7 H8 H9]. split.
  - by rewrite length_insert.
  - intros x y (y0&Hy&[-> | ->])%Hlook; exact (H2 x y0 Hy).
  - intros x y (y0&Hy&[-> | ->])%Hlook; [exact (H3 x y0 Hy)|rsimpl; lia].
  - intros x1 x2 y1 y2 (z1&Hz1&[-> | ->])%Hlook (z2&Hz2&[-> | ->])%Hlook; exact (H4 x1 x2 z1 z2 Hz1 Hz2).
  - intros x y (y0&Hy&[-> | ->])%Hlook; exact (H5 x y0 Hy).
  - intros x y (y0&Hy&[-> | ->])%Hlook; exact (H6 x y0 Hy).
  - intros x y (y0&Hy&[-> | ->])%Hlook; [exact (H7 x y0 Hy)|rsimpl; lia].
  - intros x y (y0&Hy&[-> | ->])%Hlook; [exact (H8 x y0 Hy)|rsimpl; lia].
  - exists j. unfold vacant. rewrite list_lookup_insert_ne by done. rewrite Hm, Hmc, (H7 j m Hm Hmc).
    by destruct (H2 j m Hm) as (->&_).
Qed.
(** ** The functions, in a state that differs from [k0] in the i-node table only *)
Definition with_table (T : list m_inode) (l : nat) (k : kernel) : kernel :=
  k <| k_fs ::= fun s => s <| inode_table := T |> <| last_inode := l |> |>.

Section Steps.
Context {SI : SyncInodes} {HSI : SyncInodesOk SI}.
Context (k0 : kernel) (s : nat) (sb : super_block) (t : task_struct).
Context (Hok0 : cache_ok k0) (Hre0 : ready k0) (Hsb0 : found_super k0 RD_DEV s sb)
  (Ht0 : tasks (k_sched k0) !! current (k_sched k0) = Some t).
Local Notation d := (disk k0).
Local Notation len := (rd_length (k_blk k0)).

(** The i-node table is [T], the search for an empty slot stands at [l], blocks may have been read. *)
Definition at_table (T : list m_inode) (l : nat) (k : kernel) : Prop := calm (with_table T l k0) k.

Lemma on_dev_spec z : on_dev len z = true <-> in_disk k0 z.
Proof. unfold on_dev, in_disk. rewrite andb_true_iff, !Z.leb_le. done. Qed.

Section At.
Context (T : list m_inode) (l : nat) (k : kernel) (HA : at_table T l k).

Lemma at_fs : k_fs k = k_fs (with_table T l k0).
Proof. apply HA. Qed.
Lemma at_get i n : T !! i = Some n -> get_inode i k = Ok n k.
Proof. intros H. apply get_inode_Ok. by rewrite at_fs. Qed.
Lemma at_upd (f : fs_state -> fs_state) T' l' : k_fs (with_table T' l' k0) = f (k_fs (with_table T l k0)) ->
  at_table T' l' (k <| k_fs ::= f |>).
Proof.
  intros E. pose proof (calm_upd_fs f _ _ HA) as H. unfold at_table.
  assert (with_table T' l' k0 = (with_table T l k0) <| k_fs ::= f |>) as ->; [|done].
  change (with_table T' l' k0) with (k0 <| k_fs := k_fs (with_table T' l' k0) |>). by rewrite E.
Qed.
Lemma at_set i n : at_table (<[i := n]> T) l (set_inode i n k).
Proof. by apply at_upd. Qed.
Lemma at_last l' : at_table T l' (set_last l' k).
Proof. by apply at_upd. Qed.
Lemma at_mod i n f : T !! i = Some n -> exists k', mod_inode i f k = Ok tt k' /\ at_table (<[i := f n]> T) l k'.
Proof.
  intros H. exists (set_inode i (f n) k). split; [apply mod_inode_Ok; by rewrite at_fs|apply at_set].
Qed.
Lemma at_calm k' : calm k k' -> at_table T l k'.
Proof. apply calm_trans, HA. Qed.
Lemma at_ready : ready k.
Proof. by apply (calm_ready _ _ HA). Qed.
Lemma at_cache : cache_ok k.
Proof. apply HA. Qed.
Lemma at_super : found_super k RD_DEV s sb.
Proof. unfold found_super. by rewrite at_fs. Qed.
Lemma at_in_disk z : in_disk k z <-> in_disk k0 z.
Proof. apply (calm_in_disk _ _ z HA). Qed.
Lemma at_disk z x : in_disk k0 z -> 0 <= x < BLOCK_SIZE -> disk k z x = d z x.
Proof. by apply (calm_disk _ _ z x HA). Qed.
Lemma at_sched : k_sched k = k_sched k0.
Proof. apply HA. Qed.
Lemma at_ustring a bs phys : ustring (io_byte k0) k0 a bs phys -> ustring (io_byte k) k a bs phys.
Proof.
  intros [Hub Hbs]. destruct HA as (_&_&Hr&_). pose proof Hr as (mm&_&_&_&_&_&mem). split.
  - apply (ubuf_weaken (io_byte k0)); [intros x; by apply (io_byte_rest (with_table T l k0))|].
    apply (ubuf_ext (io_byte k0) k0); [done..|]. intros x Hx _. by apply mem.
  - intros i c Hc. rewrite <- (Hbs i c Hc). unfold uload. f_equal. apply (mem (phys (Z.of_nat i))), (ub_out _ _ _ _ _ Hub).
    apply lookup_lt_Some in Hc. lia.
Qed.

Lemma at_permission i n mask : T !! i = Some n -> permission i mask k = Ok (permits t n mask) k.
Proof.
  intros Hn. unfold permission, permits. erewrite bind_Ok by by apply at_get. destruct (_ && _); [done|].
  assert (cur k = Ok t k) as Hc by (apply cur_Ok; by rewrite at_sched).
  erewrite bind_Ok by exact Hc. cbv zeta. unfold suser. rewrite bind_assoc. by erewrite bind_Ok by exact Hc.
Qed.
End At.

(** Giving up a reference. *)
Lemma at_iput T l k i n : at_table (<[i := held n]> T) l k -> T !! i = Some n ->
  i_lock n = 0 -> i_pipe n = 0 -> S_ISBLK (i_mode n) = false -> 0 <= i_count n < 65534 ->
  (i_count n = 0 -> i_nlinks n <> 0 /\ i_dirt n = 0) ->
  exists k', iput (Some i) k = Ok tt k' /\ at_table T l k'.
Proof.
  intros HA Hn Hl Hp Hb Hc H0.
  assert (<[i := held n]> T !! i = Some (held n)) as Hh by (apply list_lookup_insert_eq; by eapply lookup_lt_Some).
  pose proof (at_get _ _ _ HA i _ Hh) as Eg.
  destruct (at_mod _ _ _ HA i _ (fun n => n <| i_count := u16 (i_count n - 1) |>) Hh) as (k'&E&HA').
  assert (<[i := (held n) <| i_count := u16 (i_count (held n) - 1) |>]> (<[i := held n]> T) = T) as ET.
  { rewrite list_insert_insert_eq, list_insert_id; [done|]. rewrite Hn. f_equal. unfold held. rsimpl.
    replace (i_count n + 1 - 1) with (i_count n) by lia. rewrite u16_small by lia. by destruct n. }
  rewrite ET in HA'. exists k'. split; [|done].
  unfold iput, wait_on_inode. rewrite bind_assoc. erewrite bind_Ok by exact Eg.
  change (i_lock (held n)) with (i_lock n). rewrite Hl. erewrite bind_Ok by reflexivity. erewrite bind_Ok by exact Eg.
  change (i_count (held n)) with (i_count n + 1). change (i_pipe (held n)) with (i_pipe n). rewrite Hp.
  assert (i_count n + 1 =? 0 = false) as -> by lia. change (truth 0) with false. cbv iota.
  change (i_mode (held n)) with (i_mode n). rewrite Hb. erewrite bind_Ok by reflexivity.
  unfold iput_repeat. change ROUNDS with (S 33). rewrite loop_S, bind_assoc. erewrite bind_Ok by exact Eg.
  change (i_count (held n)) with (i_count n + 1). change (i_nlinks (held n)) with (i_nlinks n). change (i_dirt (held n)) with (i_dirt n).
  destruct (Z.ltb_spec 1 (i_count n + 1)).
  - rewrite bind_assoc. by erewrite bind_Ok by exact E.
  - destruct H0 as [Hnl ->]; [lia|]. apply Z.eqb_neq in Hnl as ->. change (truth 0) with false. cbv iota.
    rewrite bind_assoc. by erewrite bind_Ok by exact E.
Qed.

(** Taking a reference to i-node [nr]. *)
Definition got_inode (T : list m_inode) (nr : Z) (i : nat) (k : kernel) : Prop :=
  exists T' l n, (l < NR_INODE)%nat /\ table_ok d len sb T' /\ same_used T T' /\ T' !! i = Some n /\
    matches RD_DEV nr n = true /\ d_part n = inode_of d sb T nr /\ at_table (<[i := held n]> T') l k.

Lemma table_icache T l k : at_table T l k -> table_ok d len sb T -> (l < NR_INODE)%nat -> icache_ok k.
Proof.
  intros HA Hok Hl. split; rewrite (at_fs _ _ _ HA); try apply Hok; [done|].
  intros i n Hn. pose proof (to_count _ _ _ _ Hok i n Hn). lia.
Qed.
Lemma at_iget T l k nr : at_table T l k -> table_ok d len sb T -> (l < NR_INODE)%nat -> 0 <= nr < 65536 ->
  loadable len sb nr = true -> runs (iget RD_DEV nr) k (got_inode T nr).
Proof.
  intros HA Hok Hl Hnr Hld. pose proof (table_icache T l k HA Hok Hl) as Hic.
  pose proof Hld as Hload. unfold loadable in Hld. apply andb_true_iff in Hld as [[?%Z.leb_le ?%Z.ltb_lt]%andb_true_iff Hin%on_dev_spec].
  assert (inode_table (k_fs k) = T) as ET by by rewrite (at_fs _ _ _ HA).
  destruct (to_vacant _ _ _ _ Hok) as [v Hv]. destruct (vacant_first k v Hic) as [e He]; [by rewrite ET|].
  destruct (icache_vacant k e He) as (ne&Hne&Hce). rewrite ET in Hne. pose proof (lookup_lt_Some _ _ _ Hne) as Hlt.
  assert (e < NR_INODE)%nat as Hle by (rewrite <- (to_length _ _ _ _ Hok); exact Hlt).
  destruct (list_find (fun n => matches RD_DEV nr n = true) (<[e := zero_inode]> T)) as [[i n]|] eqn:E.
  - apply list_find_Some in E as (Hn&Hm&_). apply list_lookup_insert_Some in Hn as [(_&<-&_)|[Hie Hn]]; [done|].
    pose proof Hm as [Hd Hnum]%matches_spec. unfold runs. rewrite (iget_hit k e i n RD_DEV nr) by (done || (by rewrite ET)).
    destruct (refill d len sb T e zero_inode Hok) as [Hok' Hs]; try done; [by exists ne|].
    exists (<[e := zero_inode]> T), e, n. split_and!; try done.
    + by rewrite list_lookup_insert_ne.
    + rewrite <- Hnum. symmetry. by eapply inode_of_slot.
    + rewrite <- (list_insert_insert_eq T e zero_inode fresh_inode), list_insert_insert_ne by done.
      do 3 apply at_set. by eapply at_last.
  - apply list_find_None in E.
    assert (forall j n, j <> e -> T !! j = Some n -> matches RD_DEV nr n = false) as Hno.
    { intros j n Hj Hn. apply not_true_is_false. apply (Forall_lookup_1 _ _ j n E). by rewrite list_lookup_insert_ne. }
    destruct (iget_miss_calm k e nr s sb) as (k'&Ei&Hc); try done; try lia.
    { by rewrite ET. } { by apply (at_cache T l). } { by apply (at_ready T l). } { by apply (at_super T l). } { by apply (at_in_disk T l). }
    unfold runs. rewrite Ei.
    assert (loaded_inode k sb nr = d_inode d sb nr) as EL.
    { apply load_d_inode_ext. intros y Hy. pose proof (inode_offset_range nr). apply (at_disk T l k HA); [done|].
      unfold D_INODE_SIZE, BLOCK_SIZE in *. lia. }
    rewrite EL in Hc. destruct (cold_inode d sb nr) as (x&EX&Ed&Ez&Xd&Xn&Xc&Xdi&Xl&Xw&Xm&Xp). rewrite <- EX in Hc.
    destruct (refill d len sb T e x Hok) as [Hok' Hs]; try done; [by exists ne|by rewrite Xd, Xn| |].
    { intros _. destruct (d_inode_zones d sb nr). rewrite Xn, Ez. by split_and!. }
    exists (<[e := x]> T), e, x. split_and!; [done..|by rewrite list_lookup_insert_eq|by apply matches_spec| |].
    + rewrite Ed. symmetry. apply inode_of_unused. intros j m Hj Hcj. apply (Hno j); [|done]. intros ->. congruence.
    + rewrite list_insert_insert_eq. eapply at_calm; [|exact Hc]. apply at_set. by eapply at_last.
Qed.

(** Looking a name up in a directory of one block. *)
Definition found_at (X : list m_inode) (l : nat) (i : nat) (o : option Z) (r : nat * option (nat * Z)) (k' : kernel) : Prop :=
  fst r = i /\
  match o with
  | None => snd r = None /\ at_table X l k'
  | Some x => exists b de k2, snd r = Some (b, de) /\ k_fs k' = k_fs (with_table X l k0) /\
      de_inode de k' = Ok x k' /\ brelse (Some b) k' = Ok tt k2 /\ at_table X l k2
  end.

Lemma truncated_dotdot c : truncated c = [DOT; DOT] -> c = [DOT; DOT].
Proof.
  unfold truncated. change (Z.to_nat NAME_LEN) with 14%nat. destruct c as [|a [|b [|? c]]]; cbn; congruence.
Qed.
Lemma at_dotdot X l k i m root a c phys : at_table X l k -> X !! i = Some m -> i_dev m = RD_DEV ->
  (t_root t = Some i <-> i_num m = root) -> mounted_here sb i m -> ustring (io_byte k0) k0 a c phys ->
  ustring (io_byte k) k a (sought root (i_num m) c) phys /\ Z.of_nat (length (sought root (i_num m) c)) <= NAME_LEN /\
  dotdot i a (Z.of_nat (length (truncated c))) k = Ok (i, Z.of_nat (length (sought root (i_num m) c))) k.
Proof.
  intros HA Hm Hd Hroot Hmo Hs. pose proof (at_ustring X l k HA _ _ _ Hs) as Hk.
  pose proof (ustring_take _ _ _ _ _ (Z.to_nat NAME_LEN) Hk : ustring _ _ _ (truncated c) _) as Hkt.
  assert (tasks (k_sched k) !! current (k_sched k) = Some t) as Ht by by rewrite (at_sched _ _ _ HA).
  assert (inode_table (k_fs k) !! i = Some m) as Hmk by by rewrite (at_fs _ _ _ HA).
  unfold sought. destruct (decide (c = [DOT; DOT] /\ i_num m = root)) as [[-> Hr]|Hno].
  - split_and!; [exact (ustring_take _ _ _ _ _ 1 Hk)|cbn; unfold NAME_LEN; lia|].
    apply (dotdot_root (io_byte k) k i t a phys); [done|done|by apply Hroot].
  - split_and!; [done|apply truncated_le|]. destruct (decide (c = [DOT; DOT])) as [->|Hne].
    + apply (dotdot_up (io_byte k) k i t m s sb a phys); try done; [intros E; apply Hno; split; [done|by apply Hroot]|].
      rewrite Hd. by apply (at_super X l).
    + apply (dotdot_other (io_byte k) k i a _ phys); [done|]. intros E. by apply Hne, truncated_dotdot.
Qed.
Lemma at_find X l k i m root a c phys : at_table X l k -> X !! i = Some m -> i_dev m = RD_DEV ->
  length (i_zone m) = 9%nat -> Forall (fun z => 0 <= z < 65536) (i_zone m) -> 0 <= i_size m <= BLOCK_SIZE ->
  (t_root t = Some i <-> i_num m = root) -> mounted_here sb i m -> ustring (io_byte k0) k0 a c phys ->
  runs (find_entry i a (Z.of_nat (length c))) k
    (found_at X l i (match c with [] => None | _ => entry_of d len m (sought root (i_num m) c) end)).
Proof.
  intros HA Hm Hd Hlz Hz Hsz Hroot Hmo Hs. unfold found_at.
  assert (inode_table (k_fs k) !! i = Some m) as Hmk by by rewrite (at_fs _ _ _ HA).
  destruct (at_dotdot X l k i m root a c phys HA Hm Hd Hroot Hmo Hs) as (Hsk&Hln&Hdd).
  destruct (decide (c = [])) as [->|Hc].
  { unfold find_entry. eapply runs_step; [by apply (at_get _ _ _ HA)|]. by apply runs_ret. }
  assert (match c with [] => None | _ => entry_of d len m (sought root (i_num m) c) end =
    entry_of d len m (sought root (i_num m) c)) as -> by by destruct c.
  set (name := sought root (i_num m) c) in *.
  destruct (idx_is_Some (i_zone m) 0) as [z Hz0]; [rewrite Hlz; lia|].
  assert (0 <= z < 65536) as Hzb by (unfold idx in Hz0; by apply (Forall_lookup_1 _ _ _ _ Hz Hz0)).
  unfold entry_of. rewrite Hz0. change (default 0 (Some z)) with z.
  destruct (Z.eqb_spec z 0) as [->|Hnz].
  { unfold runs. rewrite (find_entry_head k i m 0 a c name) by done. done. }
  destruct (on_dev len z) eqn:Hon; cbn [orb negb].
  - apply on_dev_spec in Hon. pose proof (proj2 (at_in_disk _ _ _ HA z) Hon) as Hin.
    eapply runs_mono; [|eapply (find_entry_gen k i m z a c name phys); try done; [by apply (at_cache X l)|by apply (at_ready X l)|lia]].
    intros r k' [Hf Hr]. split; [done|].
    assert (first_entry (disk k z) 0 name 0 (Z.to_nat (i_size m / DIR_ENTRY_SIZE)) =
      first_entry (d z) 0 name 0 (Z.to_nat (i_size m / DIR_ENTRY_SIZE))) as EF.
    { apply first_entry_ext; [done|lia|]. intros x Hx. apply (at_disk X l k HA); [done|]. unfold BLOCK_SIZE, DIR_ENTRY_SIZE in *. dlia. }
    rewrite EF in Hr. destruct (first_entry (d z) 0 name 0 _) as [j|] eqn:Ej; cbn [fmap option_fmap option_map].
    + destruct Hr as (b&h&Er&Hgot&Hx&k2&E2&Hc2). exists b, (b_data h + DIR_ENTRY_SIZE * j), k2. split_and!; try done.
      * destruct Hgot as (_&_&(_&Hfs&_)&_). rewrite Hfs. by apply at_fs.
      * apply first_entry_Some in Ej as (Hj&_). unfold de_inode, rd16, rd, gets. f_equal.
        apply ld_shift. intros y Hy. rewrite <- Z.add_assoc, Hx by (unfold BLOCK_SIZE, DIR_ENTRY_SIZE in *; dlia).
        apply (at_disk X l k HA); [done|]. unfold BLOCK_SIZE, DIR_ENTRY_SIZE in *. dlia.
      * by eapply at_calm.
    + destruct Hr as [Er Hc2]. split; [done|]. by eapply at_calm.
  - unfold runs. rewrite (find_entry_head k i m z a c name) by done. assert (z =? 0 = false) as -> by lia. rewrite Hd.
    destruct (bread_fails k z) as (k1&E&Hcalm); [by apply (at_cache X l)|by apply (at_ready X l)|lia| |].
    { intros Hin%(at_in_disk X l k HA)%on_dev_spec. congruence. }
    erewrite bind_Ok by exact E. split; [done|]. split; [done|]. by eapply at_calm.
Qed.

(** ** One component of a path *)
(** Nobody has more references than before. *)
Definition settled (T : list m_inode) (k : kernel) : Prop :=
  exists T' l, (l < NR_INODE)%nat /\ table_ok d len sb T' /\ same_used T T' /\ at_table T' l k.
(** The walk starts with the table [T], where slot [ri] is the root directory of the task. *)
Context (T : list m_inode) (HT : table_ok d len sb T) (ri : nat) (rn : m_inode).
Context (Hmnt : root_mounted T sb).
Context (Hr : T !! ri = Some rn) (Hrd : i_dev rn = RD_DEV) (Hrc : i_count rn <> 0) (Htr : t_root t = Some ri).
Local Notation root := (i_num rn).
Local Notation inode_at := (inode_of d sb T).

Lemma got_root T' i n : table_ok d len sb T' -> same_used T T' -> T' !! i = Some n -> i_dev n = RD_DEV ->
  (t_root t = Some i <-> i_num n = root).
Proof.
  intros Hok Hs Hn Hd. destruct (Hs ri rn Hr) as [Hr' _]. specialize (Hr' Hrc). rewrite Htr. split.
  - intros [= <-]. congruence.
  - intros E. f_equal. apply (to_unique _ _ _ _ Hok ri i rn n); try done; [by rewrite Hrd|congruence].
Qed.
Lemma got_mounted T' i n : table_ok d len sb T' -> same_used T T' -> T' !! i = Some n -> i_dev n = RD_DEV ->
  S_ISBLK (i_mode n) = false -> mounted_here sb i (held n).
Proof.
  intros Hok Hs Hn Hd Hb En. destruct Hmnt as [E|(n0&(m&Em&Hn0&Hd0&Hc0)&En0)]; [by left|right]. rewrite Em.
  destruct (Hs m n0 Hn0) as [Hm _]. specialize (Hm Hc0).
  change (i_num (held n)) with (i_num n) in En.
  assert (m = i) as -> by (apply (to_unique _ _ _ _ Hok m i n0 n); try done; [by rewrite Hd0|congruence..]).
  assert (n0 = n) as -> by congruence. pose proof (to_count _ _ _ _ Hok i n Hn).
  change (i_count (held n)) with (i_count n + 1).
  split_and!; [done|lia|lia|by destruct (to_idle _ _ _ _ Hok i n Hn)|exact (to_pipe _ _ _ _ Hok i n Hn Hd)|done].
Qed.
Lemma passable_spec n : passable n = true -> i_nlinks n <> 0 /\ S_ISBLK (i_mode n) = false /\
  (S_ISDIR (i_mode n) = true -> 0 <= i_size n <= BLOCK_SIZE).
Proof.
  unfold passable. rewrite !andb_true_iff, !negb_true_iff, orb_true_iff, negb_true_iff, andb_true_iff, Z.eqb_neq, !Z.leb_le.
  intros [[Hnl Hb] Hs]. split_and!; [done|done|]. intros Hd. destruct Hs as [|]; [congruence|done].
Qed.
Lemma got_drop nr T' l i n k : table_ok d len sb T' -> T' !! i = Some n -> matches RD_DEV nr n = true ->
  d_part n = inode_at nr -> passable (inode_at nr) = true -> at_table (<[i := held n]> T') l k ->
  exists k', iput (Some i) k = Ok tt k' /\ at_table T' l k'.
Proof.
  intros Hok Hn [Hd _]%matches_spec Ed (Hnl&Hb&_)%passable_spec HA. rewrite <- Ed in Hnl, Hb.
  apply (at_iput T' l k i n HA Hn); [by eapply to_idle|by eapply to_pipe|exact Hb|by eapply to_count|].
  intros Hc. split; [exact Hnl|]. by eapply to_clean.
Qed.
(** The check of a directory before it is searched. *)
Lemma got_enter {A} nr i k (C : bool -> K A) Q : got_inode T nr i k -> runs (C (may_enter t (inode_at nr))) k Q ->
  runs (let! n := get_inode i in
        let! ok := if S_ISDIR (i_mode n) then permission i MAY_EXEC else ret false in C ok) k Q.
Proof.
  intros (T'&l&n&_&_&_&Hn&_&<-&HA) H.
  assert (<[i := held n]> T' !! i = Some (held n)) as Hh by (apply list_lookup_insert_eq; by eapply lookup_lt_Some).
  eapply runs_step; [by apply (at_get _ _ _ HA)|]. change (i_mode (held n)) with (i_mode n).
  assert (may_enter t (d_part n) = S_ISDIR (i_mode n) && permits t (held n) MAY_EXEC) as E by done. rewrite E in H.
  destruct (S_ISDIR (i_mode n)); [eapply runs_step; [by apply (at_permission _ _ _ HA)|done]|by eapply runs_step; [reflexivity|]].
Qed.

(** What the calls after [find_entry] give: with the entry, its buffer released and the reference
    to the directory exchanged for one to the i-node of the entry; or only the latter given up. *)
Definition stepped (i : nat) (o : outcome) (p : nat * option (nat * Z)) (k : kernel) : Prop :=
  fst p = i /\
  match o with
  | Missing => snd p = None /\ exists k', iput (Some i) k = Ok tt k' /\ settled T k'
  | Found x => exists b de m k2 k3, snd p = Some (b, de) /\ de_inode de k = Ok x k /\ get_inode i k = Ok m k /\
      i_dev m = RD_DEV /\ brelse (Some b) k = Ok tt k2 /\ iput (Some i) k2 = Ok tt k3 /\ runs (iget RD_DEV x) k3 (got_inode T x)
  | Beyond => True
  end.
Lemma got_step nr i k a c phys : got_inode T nr i k -> passable (inode_at nr) = true -> S_ISDIR (i_mode (inode_at nr)) = true ->
  ustring (io_byte k0) k0 a c phys -> step d len sb T root nr c <> Beyond ->
  runs (find_entry i a (Z.of_nat (length c))) k (stepped i (step d len sb T root nr c)).
Proof.
  intros (T'&l&n&Hl&Hok&Hs&Hn&Hm&Ed&HA) Hp Hdir Hus Hb. pose proof Hm as [Hd Hnum]%matches_spec.
  assert (<[i := held n]> T' !! i = Some (held n)) as Hh by (apply list_lookup_insert_eq; by eapply lookup_lt_Some).
  destruct (to_zones _ _ _ _ Hok i n Hn Hd) as [Hz1 Hz2].
  pose proof (got_root T' i n Hok Hs Hn Hd) as Hroot. destruct (passable_spec _ Hp) as (_&Hblk&Hsz). specialize (Hsz Hdir).
  rewrite <- Ed in Hsz, Hblk. pose proof (got_mounted T' i n Hok Hs Hn Hd Hblk) as Hmo. unfold step in *.
  assert (child d len sb T root nr c = match c with [] => None | _ => entry_of d len (held n) (sought root (i_num (held n)) c) end) as Ec.
  { unfold child. rewrite <- Ed, <- Hnum. by destruct c. }
  rewrite Ec in *. eapply runs_mono; [|exact (at_find _ l k i (held n) root a c phys HA Hh Hd Hz1 Hz2 Hsz Hroot Hmo Hus)].
  intros p k' [Hf H]. split; [done|]. rewrite <- Ec in *. destruct (child d len sb T root nr c) as [x|] eqn:Ex.
  - destruct H as (b&de&k2&Ep&Efs&Ede&Ebr&HA2). destruct (loadable len sb x) eqn:Hld; [|done].
    destruct (got_drop nr T' l i n k2 Hok Hn Hm Ed Hp HA2) as (k3&E3&HA3).
    exists b, de, (held n), k2, k3. split_and!; try done.
    + apply get_inode_Ok. by rewrite Efs.
    + assert (0 <= x < 65536) as Hx.
      { unfold child in Ex. destruct c; [done|]. unfold entry_of in Ex. destruct (_ || _); [done|].
        destruct (first_entry _ _ _ _ _); [|done]. injection Ex as <-. apply (ld_bound 2). }
      eapply runs_mono; [|exact (at_iget T' l k3 x HA3 Hok Hl Hx Hld)].
      intros i' k4 (T2&l2&n2&Hl2&Hok2&Hs2&Hn2&Hm2&Ed2&HA4). exists T2, l2, n2. split_and!; try done.
      * by eapply same_used_trans.
      * rewrite Ed2. by eapply inode_of_same.
  - destruct H as [Ep HA2]. split; [done|]. destruct (got_drop nr T' l i n k' Hok Hn Hm Ed Hp HA2) as (k3&E3&HA3).
    exists k3. split; [done|]. by exists T', l.
Qed.

(** ** The path in memory *)
Lemma ustring_app io k a xs ys phys : ustring io k a (xs ++ ys) phys ->
  ustring io k a xs phys /\ ustring io k (a + Z.of_nat (length xs)) ys (fun i => phys (Z.of_nat (length xs) + i)).
Proof.
  intros Hs. split.
  - pose proof (ustring_take io k a _ phys (length xs) Hs) as H. by rewrite take_app_length in H.
  - destruct Hs as [Hub Hbs]. rewrite length_app in Hub. split.
    { apply (ubuf_sub io k a (Z.of_nat (length xs + length ys)) phys); [lia|lia|lia|done]. }
    intros i c Hc. rewrite <- (Hbs (length xs + i)%nat c).
    + unfold uload. by rewrite Nat2Z.inj_add.
    + rewrite lookup_app_r by lia. by replace (length xs + i - length xs)%nat with i by lia.
Qed.
Lemma scan_name_spec io k a c e rest phys : ustring io k a (c ++ e :: rest) phys -> 0 ∉ c -> SLASH ∉ c ->
  e = 0 \/ e = SLASH -> (length c < PATH_FUEL)%nat ->
  scan_name a k = Ok (Z.of_nat (length c), e, a + Z.of_nat (length c) + 1) k.
Proof.
  intros [Hub Hbs] H0 Hsl He Hf. rewrite length_app in Hub. cbn [length] in Hub.
  assert (forall tl i fuel, drop i c = tl -> (length tl < fuel)%nat -> (i + length tl = length c)%nat ->
    loop fuel (fun '(pathname, namelen) =>
      let! c := get_fs_byte pathname in
      if truth c && negb (c =? SLASH) then ret (inl (pathname + 1, namelen + 1))
      else ret (inr (namelen, c, pathname + 1))) (a + Z.of_nat i, Z.of_nat i) k =
    Ok (Z.of_nat (length c), e, a + Z.of_nat (length c) + 1) k) as H.
  2:{ specialize (H c 0%nat PATH_FUEL eq_refl Hf ltac:(lia)). rewrite Z.add_0_r in H. exact H. }
  induction tl as [|x tl IH]; intros i fuel Ei Hfu Hl; (destruct fuel as [|fuel]; [cbn in Hfu; lia|]); cbn [length] in *;
    rewrite loop_S, bind_assoc; (erewrite bind_Ok by (apply (get_fs_byte_ubuf io k a _ phys (Z.of_nat i) Hub); lia)).
  - rewrite (Hbs i e) by (apply list_lookup_middle; lia).
    assert (truth e && negb (e =? SLASH) = false) as -> by (destruct He as [->| ->]; done).
    erewrite bind_Ok by reflexivity. cbv iota. unfold ret. repeat f_equal; lia.
  - assert (c !! i = Some x) as Hx by (rewrite <- (Nat.add_0_r i), <- lookup_drop, Ei; done).
    assert (x ∈ c) as Hin by by eapply list_elem_of_lookup_2.
    rewrite (Hbs i x) by by apply lookup_app_l_Some.
    assert (truth x && negb (x =? SLASH) = true) as ->.
    { unfold truth. apply andb_true_iff. split; apply negb_true_iff, Z.eqb_neq; intros ->; tauto. }
    erewrite bind_Ok by reflexivity. cbv iota.
    replace (a + Z.of_nat i + 1) with (a + Z.of_nat (S i)) by lia. replace (Z.of_nat i + 1) with (Z.of_nat (S i)) by lia.
    apply IH; [|lia|lia]. rewrite <- Nat.add_1_r, <- drop_drop, Ei. done.
Qed.

(** ** [get_dir] *)
Definition get_dir_body : nat * Z -> K (nat * Z + option nat) := fun '(inode, pathname) =>
  let thisname := pathname in
  let! n := get_inode inode in
  let! ok := if S_ISDIR (i_mode n) then permission inode MAY_EXEC else ret false in
  if negb ok then iput (Some inode) ;;; ret (inr None)
  else
    let! (namelen, c, pathname) := scan_name pathname in
    if c =? 0 then ret (inr (Some inode))
    else
      let! (inode, r) := find_entry inode thisname namelen in
      match r with
      | None => iput (Some inode) ;;; ret (inr None)
      | Some (b, de) =>
          let! inr_ := de_inode de in
          let! n := get_inode inode in
          let idev := i_dev n in
          brelse (Some b) ;;;
          iput (Some inode) ;;;
          let! inode := iget idev inr_ in
          ret (inl (inode, pathname))
      end.
(** How [get_dir] ends. *)
Definition ended (o : outcome) (res : option nat) (k : kernel) : Prop :=
  match o, res with
  | Found x, Some i => got_inode T x i k
  | Missing, None => settled T k
  | _, _ => False
  end.
Definition name_ok (c : list Z) : Prop := 0 ∉ c /\ SLASH ∉ c /\ (length c < PATH_FUEL)%nat.

Lemma got_put {A} nr i k (v : A) (Q : A -> kernel -> Prop) : got_inode T nr i k -> passable (inode_at nr) = true ->
  (forall k', settled T k' -> Q v k') -> runs (iput (Some i) ;;; ret v) k Q.
Proof.
  intros (T'&l&n&Hl&Hok&Hs&Hn&Hm&Ed&HA) Hp HQ. destruct (got_drop nr T' l i n k Hok Hn Hm Ed Hp HA) as (k'&E&HA').
  eapply runs_step; [exact E|]. apply runs_ret, HQ. by exists T', l.
Qed.
Lemma at_name i nr k a bs phys : got_inode T nr i k -> ustring (io_byte k0) k0 a bs phys -> ustring (io_byte k) k a bs phys.
Proof. intros (T'&l&n&_&_&_&_&_&_&HA). by eapply at_ustring. Qed.
Lemma get_dir_loop names : names <> [] -> Forall name_ok names ->
  forall fuel a phys nr i k, (length names <= fuel)%nat -> ustring (io_byte k0) k0 a (join names ++ [0]) phys ->
  got_inode T nr i k -> dirs d len sb T t root nr names <> Beyond ->
  runs (loop fuel get_dir_body (i, a)) k (ended (dirs d len sb T t root nr names)).
Proof.
  induction names as [|c names IH]; [done|]. intros _ [(H0&Hsl&Hfu) Hnames]%Forall_cons fuel a phys nr i k Hf Hus Hg Hb.
  destruct fuel as [|fuel]; [cbn in Hf; lia|]. cbn [length] in Hf. rewrite loop_S.
  assert (dirs d len sb T t root nr (c :: names) = and_then (enter d sb T t nr) (fun nr => match names with [] => Found nr | _ =>
    and_then (step d len sb T root nr c) (fun x => dirs d len sb T t root x names) end)) as ED.
  { destruct names; cbn [dirs]; [|done]. by destruct (enter _ _ _ _ nr). }
  rewrite ED in *. clear ED. unfold enter in *.
  destruct (passable (inode_at nr)) eqn:Hp; [|done]. apply runs_bind. unfold get_dir_body at 1.
  eapply got_enter; [exact Hg|]. destruct (may_enter t (inode_at nr)) eqn:Hme; cbn [negb and_then] in *.
  2:{ apply (got_put nr i k (inr None) _ Hg Hp). intros k' Hs. by apply runs_ret. }
  destruct names as [|c' names].
  - pose proof (at_name i nr k _ _ _ Hg Hus) as Hk. cbn [join] in Hk.
    eapply runs_step; [eapply (scan_name_spec _ _ _ c 0 []); by eauto|]. cbv iota. by apply runs_ret, runs_ret.
  - rewrite join_cons in Hus by done. rewrite <- app_assoc in Hus. cbn [app] in Hus.
    pose proof (at_name i nr k _ _ _ Hg Hus) as Hk. destruct (ustring_app _ _ _ _ _ _ Hus) as [Husc _].
    eapply runs_step; [eapply (scan_name_spec _ _ _ c SLASH); by eauto|]. change (SLASH =? 0) with false. cbv iota.
    apply andb_true_iff in Hme as [Hdir _]. apply runs_bind.
    eapply runs_mono; [|apply (got_step nr i k a c phys Hg Hp Hdir Husc)].
    2:{ intros E. by rewrite E in Hb. }
    destruct (step d len sb T root nr c) as [x| |]; [| |done]; intros [i' p] k1 [Hi Hst]; cbn [fst snd] in *; subst i'.
    + destruct Hst as (b&de&m&k2&k3&->&Ede&Em&Hmd&Ebr&Eip&Hig).
      eapply runs_step; [exact Ede|]. eapply runs_step; [exact Em|]. cbv zeta. rewrite Hmd.
      eapply runs_step; [exact Ebr|]. eapply runs_step; [exact Eip|]. apply runs_bind. eapply runs_mono; [|exact Hig].
      intros i2 k4 Hg2. apply runs_ret.
      change (c ++ SLASH :: join (c' :: names) ++ [0]) with (c ++ [SLASH] ++ join (c' :: names) ++ [0]) in Hus.
      rewrite app_assoc in Hus. destruct (ustring_app _ _ _ _ _ _ Hus) as [_ Hus2]. rewrite length_app in Hus2. cbn [length] in Hus2.
      replace (a + Z.of_nat (length c) + 1) with (a + Z.of_nat (length c + 1)) by lia.
      eapply IH; [done|done|lia|exact Hus2|exact Hg2|exact Hb].
    + destruct Hst as (->&k2&Eip&Hst). eapply runs_step; [exact Eip|]. by apply runs_ret, runs_ret.
Qed.

(** ** [namei] *)
Context (HTk : inode_table (k_fs k0) = T) (Hlast : (last_inode (k_fs k0) < NR_INODE)%nat).

Lemma at_start : at_table T (last_inode (k_fs k0)) k0.
Proof.
  unfold at_table. assert (with_table T (last_inode (k_fs k0)) k0 = k0) as ->; [|by apply calm_refl].
  rewrite <- HTk. clear. by destruct k0 as [? ? [] ? ? ?].
Qed.
Lemma start_settled : settled T k0.
Proof. exists T, (last_inode (k_fs k0)). split_and!; [done|done|apply same_used_refl|apply at_start]. Qed.
(** The directory where the walk starts gets one more user. *)
Lemma start_got i n : T !! i = Some n -> i_dev n = RD_DEV ->
  exists k, mod_inode i (fun n => n <| i_count := u16 (i_count n + 1) |>) k0 = Ok tt k /\ got_inode T (i_num n) i k.
Proof.
  intros Hn Hd. destruct (at_mod _ _ _ at_start i n (fun n => n <| i_count := u16 (i_count n + 1) |>) Hn) as (k&E&HA).
  pose proof (to_count _ _ _ _ HT i n Hn). cbv beta in HA. rewrite u16_small in HA by lia.
  exists k. split; [done|]. exists T, (last_inode (k_fs k0)), n. split_and!; try done; [apply same_used_refl|by apply matches_spec|].
  symmetry. by eapply inode_of_slot.
Qed.
Context (pn : m_inode) (Hpwd : dir_slot T (t_pwd t) pn).

(** Where the walk starts, and the components that it follows. *)
Definition start (bs : list Z) : Z * list (list Z) :=
  match bs with
  | c :: r => if c =? SLASH then (root, components r) else (i_num pn, components bs)
  | [] => (0, [])
  end.
Lemma start_names bs : bs <> [] -> exists pre, bs = pre ++ join (snd (start bs)) /\
  (pre = [] \/ pre = [SLASH]) /\ snd (start bs) <> [] /\ Forall (fun c => SLASH ∉ c) (snd (start bs)) /\
  (0 ∉ bs -> Forall (fun c => 0 ∉ c) (snd (start bs))).
Proof.
  intros Hne. destruct bs as [|c bs]; [done|].
  assert (forall l, 0 ∉ l -> Forall (fun c => 0 ∉ c) (components l)) as H0.
  { intros l Hl. eapply Forall_impl; [apply (components_Forall (fun x => x <> 0))|].
    - apply Forall_forall. intros x Hx ->. done.
    - intros x Hx Hin. rewrite Forall_forall in Hx. by apply (Hx 0). }
  cbn [start]. destruct (Z.eqb_spec c SLASH) as [->|]; cbn [snd].
  - exists [SLASH]. rewrite join_components. split_and!; [done|by right|apply components_ne|apply components_slash|].
    intros [_ Hb]%not_elem_of_cons. by apply H0.
  - exists []. rewrite join_components. split_and!; [done|by left|apply components_ne|apply components_slash|apply H0].
Qed.
Lemma start_slash bs : bs <> [] -> final_slash bs = true <-> List.last (snd (start bs)) [] = [].
Proof.
  intros Hne. destruct bs as [|c [|c' r]]; [done| |]; cbn [start].
  - rewrite last_component by done. cbn. by destruct (Z.eqb_spec c SLASH).
  - destruct (Z.eqb_spec c SLASH) as [->|]; cbn [snd]; [|by apply last_component]. rewrite <- last_component by done. done.
Qed.
Lemma names_ok bs : bs <> [] -> 0 ∉ bs -> (length bs < PATH_FUEL)%nat -> Forall name_ok (snd (start bs)) /\
  (length (snd (start bs)) <= PATH_FUEL)%nat.
Proof.
  intros Hne H0 Hf. destruct (start_names bs Hne) as (pre&E&_&Hn&Hsl&Hz). specialize (Hz H0).
  pose proof (length_join _ Hn) as Hl. rewrite E, length_app in Hf. split; [|lia].
  apply Forall_forall. intros c Hc. rewrite Forall_forall in Hz, Hsl. split_and!; [by apply Hz|by apply Hsl|].
  assert (length c <= length (join (snd (start bs))))%nat; [|lia].
  clear -Hc. induction (snd (start bs)) as [|x l IH]; [by apply elem_of_nil in Hc|].
  destruct l as [|y l]; [apply list_elem_of_singleton in Hc as ->; cbn; lia|].
  rewrite join_cons, length_app by done. cbn [length]. apply elem_of_cons in Hc as [->|Hc]; [lia|]. specialize (IH Hc). lia.
Qed.

Lemma get_dir_start_spec bs a phys : ustring (io_byte k0) k0 a (bs ++ [0]) phys -> 0 ∉ bs ->
  get_dir_start a k0 = match bs with
  | [] => Ok None k0
  | c :: _ => if c =? SLASH then Ok (Some (ri, a + 1)) k0 else Ok ((fun p => (p, a)) <$> t_pwd t) k0
  end.
Proof.
  intros [Hub Hbs] H0. destruct Hpwd as (pi&Hp&Hpn&_&Hpc).
  assert (cur k0 = Ok t k0) as Hc by by apply cur_Ok. unfold get_dir_start. erewrite bind_Ok by exact Hc. rewrite Htr, Hp.
  rewrite bind_assoc. erewrite bind_Ok by (apply get_inode_Ok; by rewrite HTk). apply Z.eqb_neq in Hrc, Hpc. rewrite Hrc.
  erewrite bind_Ok by reflexivity. cbv iota.
  rewrite bind_assoc. erewrite bind_Ok by (apply get_inode_Ok; by rewrite HTk). rewrite Hpc.
  erewrite bind_Ok by reflexivity. cbv iota.
  rewrite length_app in Hub. cbn [length] in Hub.
  pose proof (get_fs_byte_ubuf (io_byte k0) k0 a _ phys 0 Hub ltac:(lia)) as E. rewrite Z.add_0_r in E. erewrite bind_Ok by exact E.
  destruct bs as [|c bs]; cbn [app] in *.
  - pose proof (Hbs 0%nat 0 eq_refl) as Eb. change (uload k0 phys 0 = 0) in Eb. by rewrite Eb.
  - pose proof (Hbs 0%nat c eq_refl) as Eb. change (uload k0 phys 0 = c) in Eb. rewrite Eb. destruct (c =? SLASH); [done|].
    assert (truth c = true) as ->; [|done]. apply not_elem_of_cons in H0 as [H0 _]. unfold truth. apply negb_true_iff, Z.eqb_neq. congruence.
Qed.
Definition dir_outcome (bs : list Z) : outcome :=
  match bs with [] => Missing | _ => dirs d len sb T t root (fst (start bs)) (snd (start bs)) end.
Lemma get_dir_spec bs a phys : ustring (io_byte k0) k0 a (bs ++ [0]) phys -> 0 ∉ bs -> (length bs < PATH_FUEL)%nat ->
  dir_outcome bs <> Beyond -> runs (get_dir a) k0 (ended (dir_outcome bs)).
Proof.
  intros Hus H0 Hf Hb. unfold get_dir. pose proof (get_dir_start_spec bs a phys Hus H0) as Es.
  destruct (decide (bs = [])) as [->|Hne].
  { eapply runs_step; [exact Es|]. apply runs_ret. apply start_settled. }
  destruct (names_ok bs Hne H0 Hf) as [Hnm Hlen]. destruct (start_names bs Hne) as (pre&Ebs&_&Hnn&_).
  assert (exists i n pre, get_dir_start a k0 = Ok (Some (i, a + Z.of_nat (length pre))) k0 /\ bs = pre ++ join (snd (start bs)) /\
    T !! i = Some n /\ i_dev n = RD_DEV /\ fst (start bs) = i_num n) as (i&n&pre'&Es'&Ebs'&Hn&Hd&Enum).
  { destruct Hpwd as (pi&Hp&Hpn&Hpd&_). destruct bs as [|c bs]; [done|]. cbn [start] in *. rewrite Hp in Es.
    destruct (Z.eqb_spec c SLASH) as [->|]; cbn [fst snd] in *.
    - exists ri, rn, [SLASH]. by rewrite join_components.
    - exists pi, pn, []. rewrite join_components. split_and!; try done. rewrite Es. cbn. by rewrite Z.add_0_r. }
  eapply runs_step; [exact Es'|]. cbv iota beta. destruct (start_got i n Hn Hd) as (k1&E1&Hg).
  eapply runs_step; [exact E1|].
  assert (dir_outcome bs = dirs d len sb T t root (i_num n) (snd (start bs))) as Eo by (rewrite <- Enum; by destruct bs).
  rewrite Eo in *.
  let b := eval unfold get_dir_body in get_dir_body in
    match goal with |- context [loop PATH_FUEL b ?x] => change (loop PATH_FUEL b x) with (loop PATH_FUEL get_dir_body x) end.
  rewrite Ebs', <- app_assoc in Hus. destruct (ustring_app _ _ _ _ _ _ Hus) as [_ Hus2].
  by eapply get_dir_loop.
Qed.

(** The last component. *)
Lemma base_name_last k bs a phys : ustring (io_byte k) k a (bs ++ [0]) phys -> bs <> [] -> 0 ∉ bs -> (length bs < PATH_FUEL)%nat ->
  let c := List.last (snd (start bs)) [] in let o := (length bs - length c)%nat in
  (length c <= length bs)%nat /\ base_name a k = Ok (Z.of_nat (length c), a + Z.of_nat o) k /\ drop o bs = c.
Proof.
  intros Hus Hne H0 Hf c o. destruct (start_names bs Hne) as (pre&E&Hpre&Hn&Hsl&_).
  destruct (join_last _ Hn) as [pre2 E2]. fold c in E2.
  assert (bs = (pre ++ pre2) ++ c) as Ec by (rewrite E at 1; by rewrite E2, app_assoc).
  assert (length bs = length (pre ++ pre2) + length c)%nat as El by (rewrite Ec at 1; by rewrite length_app).
  assert (o = length (pre ++ pre2)) as Eo by lia. split; [lia|]. split.
  - rewrite (base_name_spec (io_byte k) k a bs phys) by done.
    assert (after_slash a a bs = a + Z.of_nat o) as ->; [|repeat f_equal; lia].
    rewrite E. destruct Hpre as [->| ->]; cbn [app after_slash]; [|change (SLASH =? SLASH) with true; cbv iota];
      rewrite after_slash_join by done; rewrite Eo, E2, !length_app; fold c;
      destruct (snd (start bs)) as [|x [|y l]]; try done; cbn [join List.last length] in *;
      try (assert (pre2 = []) as -> by (apply (app_inv_tail x); unfold c in E2; cbn in E2; by rewrite <- E2)); cbn [length]; lia.
  - rewrite Eo, Ec. apply drop_app_length.
Qed.

Lemma dirs_entered nr names x : names <> [] -> dirs d len sb T t root nr names = Found x ->
  passable (inode_at x) = true /\ S_ISDIR (i_mode (inode_at x)) = true.
Proof.
  assert (forall y, enter d sb T t y = Found x -> passable (inode_at x) = true /\ S_ISDIR (i_mode (inode_at x)) = true) as He.
  { intros y. unfold enter. destruct (passable (inode_at y)) eqn:Hp; [|done]. destruct (may_enter t (inode_at y)) eqn:Hm; [|done].
    intros [= <-]. apply andb_true_iff in Hm as [Hdir _]. done. }
  revert nr. induction names as [|c names IH]; [done|]. intros nr _ E. destruct names as [|c' names]; [by apply (He nr)|].
  change (and_then (enter d sb T t nr) (fun nr => and_then (step d len sb T root nr c) (fun x => dirs d len sb T t root x (c' :: names))) = Found x) in E.
  destruct (enter d sb T t nr) as [y| |]; [|done|done]. cbn [and_then] in E. destruct (step d len sb T root y c) as [z| |]; [|done|done].
  by apply (IH z).
Qed.
Lemma resolve_dirs bs : bs <> [] -> resolve d len sb T t root (i_num pn) bs =
  and_then (dir_outcome bs) (fun x => match List.last (snd (start bs)) [] with [] => Found x | c => step d len sb T root x c end).
Proof.
  intros Hne. destruct (start_names bs Hne) as (_&_&_&Hn&_). unfold dir_outcome. destruct bs as [|c bs]; [done|].
  unfold resolve, start in *. destruct (c =? SLASH); cbn [fst snd] in *; by apply walk_dirs.
Qed.
(** Slot [i] holds i-node [nr] with one more user, and perhaps other times and a dirty mark. *)
Definition named (nr : Z) (i : nat) (k : kernel) : Prop :=
  exists T' l n n', (l < NR_INODE)%nat /\ table_ok d len sb T' /\ same_used T T' /\ T' !! i = Some n /\
    matches RD_DEV nr n = true /\ d_part n = inode_at nr /\
    d_part n' = d_part n /\ i_count n' = i_count n + 1 /\ at_table (<[i := n']> T') l k.
Definition resolved (o : outcome) (res : option nat) (k : kernel) : Prop :=
  match o, res with
  | Found nr, Some i => named nr i k
  | Missing, None => settled T k
  | _, _ => False
  end.
Lemma got_named nr i k : got_inode T nr i k -> named nr i k.
Proof. intros (T'&l&n&?&?&?&?&?&?&?). by exists T', l, n, (held n). Qed.
Lemma got_touched nr i k : got_inode T nr i k ->
  runs (let! t := CURRENT_TIME in
        mod_inode i (fun n => n <| i_atime := u32 t |>) ;;;
        mod_inode i (fun n => n <| i_dirt := 1 |>) ;;;
        ret (Some i)) k (resolved (Found nr)).
Proof.
  intros (T'&l&n&Hl&Hok&Hs&Hn&Hm&Ed&HA). eapply runs_step; [reflexivity|]. set (now := u32 _). clearbody now.
  assert (i < length T')%nat as Hi by by eapply lookup_lt_Some.
  destruct (at_mod _ _ _ HA i (held n) (fun n => n <| i_atime := now |>)) as (k1&E1&HA1); [by apply list_lookup_insert_eq|].
  eapply runs_step; [exact E1|]. rewrite list_insert_insert_eq in HA1.
  destruct (at_mod _ _ _ HA1 i ((held n) <| i_atime := now |>) (fun n => n <| i_dirt := 1 |>)) as (k2&E2&HA2); [by apply list_lookup_insert_eq|].
  eapply runs_step; [exact E2|]. rewrite list_insert_insert_eq in HA2. apply runs_ret.
  by exists T', l, n, (held n <| i_atime := now |> <| i_dirt := 1 |>).
Qed.

(** The steps that [namei] and [open_namei] share: [Cn] goes on when a directory of the path is missing,
    [Cm] when its last entry is, [Cs] with the directory of a path that ends in a slash, [Ci] with the
    i-node. *)
Definition lookup {A} (pathname : Z) (Cn : K A) (Cs : nat -> K A) (Cm : nat -> Z -> Z -> K A) (Ci : nat -> K A) : K A :=
  let! r := dir_namei pathname in
  match r with
  | None => Cn
  | Some (dir, namelen, basename) =>
      if namelen =? 0 then Cs dir
      else
        let! (dir, r) := find_entry dir basename namelen in
        match r with
        | None => Cm dir basename namelen
        | Some (b, de) =>
            let! inr_ := de_inode de in
            let! n := get_inode dir in
            let dev := i_dev n in
            brelse (Some b) ;;;
            iput (Some dir) ;;;
            let! inode := iget dev inr_ in
            Ci inode
        end
  end.
Lemma lookup_spec {A} bs a phys Cn Cs Cm Ci (Q : A -> kernel -> Prop) : ustring (io_byte k0) k0 a (bs ++ [0]) phys -> 0 ∉ bs ->
  (length bs < PATH_FUEL)%nat -> let o := resolve d len sb T t root (i_num pn) bs in o <> Beyond ->
  (o = Missing -> forall k, settled T k -> runs Cn k Q) ->
  (forall x i k, o = Found x -> final_slash bs = true -> got_inode T x i k -> runs (Cs i) k Q) ->
  (o = Missing -> forall i b n k k', iput (Some i) k = Ok tt k' -> settled T k' -> runs (Cm i b n) k Q) ->
  (forall x i k, o = Found x -> final_slash bs = false -> got_inode T x i k -> runs (Ci i) k Q) ->
  runs (lookup a Cn Cs Cm Ci) k0 Q.
Proof.
  intros Hus H0 Hf o Hb Hn Hs Hm Hi. unfold lookup, dir_namei. apply runs_assoc, runs_bind.
  destruct (decide (bs = [])) as [->|Hne].
  { eapply runs_mono; [|by apply (get_dir_spec [] a phys)]. intros [i|] k H; [done|]. eapply runs_step; [reflexivity|]. by apply Hn. }
  unfold o in *. clear o. rewrite resolve_dirs in * by done.
  eapply runs_mono; [|apply (get_dir_spec bs a phys); [done..|]]; [|intros E; by rewrite E in Hb].
  intros [i|] k H; cbv iota; [|eapply runs_step; [reflexivity|]; destruct (dir_outcome bs); [done|by apply Hn|done]].
  destruct (dir_outcome bs) as [x| |] eqn:Ed; [|done|done]. cbn [and_then ended] in *.
  assert (passable (inode_at x) = true /\ S_ISDIR (i_mode (inode_at x)) = true) as [Hp Hdir].
  { destruct (start_names bs Hne) as (_&_&_&Hnn&_). apply (dirs_entered (fst (start bs)) (snd (start bs)) x Hnn). by destruct bs. }
  pose proof (at_name i x k _ _ _ H Hus) as Hk. pose proof (start_slash bs Hne) as Hsl.
  destruct (base_name_last k bs a phys Hk Hne H0 Hf) as (Hle&Ebn&Edr). set (c := List.last (snd (start bs)) []) in *.
  apply runs_assoc. eapply runs_step; [exact Ebn|]. eapply runs_step; [reflexivity|]. cbv iota beta.
  destruct (Z.eqb_spec (Z.of_nat (length c)) 0) as [Hz|Hz].
  { destruct c; [apply (Hs x); [done|by apply Hsl|done]|done]. }
  assert (match c with [] => Found x | z :: l => step d len sb T root x (z :: l) end = step d len sb T root x c) as Ec by by destruct c.
  rewrite Ec in *. rewrite <- (take_drop (length bs - length c) bs), <- app_assoc, Edr in Hus.
  destruct (ustring_app _ _ _ _ _ _ Hus) as [_ Hus2]. destruct (ustring_app _ _ _ _ _ _ Hus2) as [Hus3 _].
  rewrite length_take, Nat.min_l in Hus3 by lia.
  apply runs_bind. eapply runs_mono; [|apply (got_step x i k _ c _ H Hp Hdir Hus3 Hb)].
  destruct (step d len sb T root x c) as [y| |]; [| |done]; intros [i' p] k1 [Hi' Hst]; cbn [fst snd] in *; subst i'.
  - destruct Hst as (b&de&m&k2&k3&->&Ede&Em&Hmd&Ebr&Eip&Hig).
    eapply runs_step; [exact Ede|]. eapply runs_step; [exact Em|]. cbv zeta. rewrite Hmd.
    eapply runs_step; [exact Ebr|]. eapply runs_step; [exact Eip|]. apply runs_bind. eapply runs_mono; [|exact Hig].
    intros i2 k4 H4. apply (Hi y); [done| |done].
    apply not_true_is_false. intros Ht%Hsl. by rewrite Ht in Hz.
  - destruct Hst as (->&k2&Eip&Hst). by apply (Hm eq_refl i _ _ k1 k2).
Qed.
Lemma namei_spec bs a phys : ustring (io_byte k0) k0 a (bs ++ [0]) phys -> 0 ∉ bs -> (length bs < PATH_FUEL)%nat ->
  resolve d len sb T t root (i_num pn) bs <> Beyond ->
  runs (namei a) k0 (resolved (resolve d len sb T t root (i_num pn) bs)).
Proof.
  intros Hus H0 Hf Hb. pose proof (lookup_spec bs a phys (ret None) (fun dir => ret (Some dir)) (fun dir _ _ => iput (Some dir) ;;; ret None)
    (fun dir => let! t := CURRENT_TIME in mod_inode dir (fun n => n <| i_atime := u32 t |>) ;;;
      mod_inode dir (fun n => n <| i_dirt := 1 |>) ;;; ret (Some dir)) (resolved (resolve d len sb T t root (i_num pn) bs)) Hus H0 Hf Hb) as H.
  apply H; clear H.
  - intros -> k H. by apply runs_ret.
  - intros x i k -> _ H. apply runs_ret. by apply got_named.
  - intros -> i b n k k' E H. eapply runs_step; [exact E|]. by apply runs_ret.
  - intros x i k -> _ H. by apply got_touched.
Qed.

(** [open_namei] for reading: what is found may be read, or it is given back.  A directory that is
    named with a slash at the end is not asked for its permission. *)
Definition opened (slash : bool) (o : outcome) (r : Z + nat) (k : kernel) : Prop :=
  match o, r with
  | Found nr, inr i => slash || permits t (inode_at nr) MAY_READ = true /\ named nr i k
  | Found nr, inl e => slash || permits t (inode_at nr) MAY_READ = false /\ e = - EPERM /\ settled T k
  | Missing, inl e => e = - ENOENT /\ settled T k
  | _, _ => False
  end.
(** [open_namei] behind its call of [iget], for reading. *)
Definition open_found (inode : nat) : K (Z + nat) :=
  let! n := get_inode inode in
  let! bad := if S_ISDIR (i_mode n) && truth (Z.land 0 O_ACCMODE) then ret true
              else let! ok := permission inode (ACC_MODE 0) in ret (negb ok) in
  if bad then iput (Some inode) ;;; ret (inl (- EPERM))
  else
    let! now := CURRENT_TIME in
    mod_inode inode (fun n => n <| i_atime := u32 now |>) ;;;
    when (truth (Z.land 0 O_TRUNC)) (truncate inode) ;;;
    ret (inr inode).
Lemma got_open nr i k : got_inode T nr i k -> passable (inode_at nr) = true -> runs (open_found i) k (opened false (Found nr)).
Proof.
  intros Hg Hp. pose proof Hg as (T'&l&n&Hl&Hok&Hs&Hn&Hm&Ed&HA). assert (i < length T')%nat as Hi by by eapply lookup_lt_Some.
  assert (<[i := held n]> T' !! i = Some (held n)) as Hh by by apply list_lookup_insert_eq.
  unfold open_found. eapply runs_step; [by apply (at_get _ _ _ HA)|]. change (truth (Z.land 0 O_ACCMODE)) with false. rewrite andb_false_r. cbv iota.
  apply runs_assoc. eapply runs_step; [by apply (at_permission _ _ _ HA)|]. eapply runs_step; [reflexivity|].
  assert (permits t (held n) (ACC_MODE 0) = permits t (inode_at nr) MAY_READ) as -> by (by rewrite <- Ed).
  destruct (permits t (inode_at nr) MAY_READ) eqn:Eperm; cbn [negb]; cbv iota.
  - eapply runs_step; [reflexivity|]. set (now := u32 _). clearbody now.
    destruct (at_mod _ _ _ HA i (held n) (fun n => n <| i_atime := now |>)) as (k1&E1&HA1); [done|].
    eapply runs_step; [exact E1|]. rewrite list_insert_insert_eq in HA1. eapply runs_step; [reflexivity|]. apply runs_ret. split; [exact Eperm|]. by exists T', l, n, (held n <| i_atime := now |>).
  - apply (got_put nr i k _ _ Hg Hp). intros k' Hset. done.
Qed.
Lemma open_namei_spec bs a phys mode : ustring (io_byte k0) k0 a (bs ++ [0]) phys -> 0 ∉ bs -> (length bs < PATH_FUEL)%nat ->
  let o := resolve d len sb T t root (i_num pn) bs in o <> Beyond -> (forall nr, o = Found nr -> passable (inode_at nr) = true) ->
  runs (open_namei a 0 mode) k0 (opened (final_slash bs) o).
Proof.
  intros Hus H0 Hf o Hb Hp.
  pose proof (lookup_spec bs a phys (ret (inl (- ENOENT))) (fun dir => ret (inr dir)) (fun dir _ _ => iput (Some dir) ;;; ret (inl (- ENOENT)))
    open_found (opened (final_slash bs) o) Hus H0 Hf Hb) as H. fold o in H. unfold open_namei.
  change (if truth (Z.land 0 O_TRUNC) && (Z.land 0 O_ACCMODE =? 0) then Z.lor 0 O_WRONLY else 0) with 0. cbv zeta.
  eapply runs_step; [by apply cur_Ok|].
  change (Z.land 0 (Z.lor O_ACCMODE (Z.lor O_CREAT O_TRUNC)) =? 0) with true. change (truth (Z.land 0 O_EXCL)) with false. cbv iota.
  apply H; clear H.
  - intros E k H. rewrite E. by apply runs_ret.
  - intros x i k E Esl H. rewrite E, Esl. apply runs_ret. split; [done|]. by apply got_named.
  - intros E i b n k k' Ei H. rewrite E. eapply runs_step; [exact Ei|]. by apply runs_ret.
  - intros x i k E Esl H. rewrite E, Esl. apply got_open; [done|by apply Hp].
Qed.

End Steps.

(** The walk looks at nothing but the bytes of the disk. *)
Section Ext.
Context (d d' : Z -> memory) (len : Z) (sb : super_block) (T : list m_inode) (t : task_struct).
Context (Hd : forall z x, d' z x = d z x).

Lemma inode_of_ext nr : inode_of d' sb T nr = inode_of d sb T nr.
Proof.
  unfold inode_of. destruct (list_find _ T) as [[? ?]|]; [done|]. f_equal. apply load_d_inode_ext. intros y _. apply Hd.
Qed.
Lemma sought_le root nr c : Z.of_nat (length (sought root nr c)) <= NAME_LEN.
Proof. unfold sought. destruct (decide _); [cbn; unfold NAME_LEN; lia|apply truncated_le]. Qed.
Lemma step_ext root nr c : step d' len sb T root nr c = step d len sb T root nr c.
Proof.
  unfold step, child. rewrite inode_of_ext. destruct c as [|b c]; [done|]. unfold entry_of.
  destruct (_ || _); [done|]. rewrite (first_entry_ext (d (default 0 (idx (i_zone (inode_of d sb T nr)) 0))) _ 0 0);
    [|apply sought_le|lia|intros; apply Hd].
  destruct (first_entry _ _ _ _ _); [|done]. cbn. f_equal. by rewrite (ld_ext 2 (d (default 0 (idx (i_zone (inode_of d sb T nr)) 0)))) by (intros; apply Hd).
Qed.
Lemma walk_ext root names : forall nr, walk d' len sb T t root nr names = walk d len sb T t root nr names.
Proof.
  assert (forall nr, enter d' sb T t nr = enter d sb T t nr) as He by (intros; unfold enter; by rewrite !inode_of_ext).
  induction names as [|c names IH]; intros nr; [done|]. cbn [walk]. rewrite He.
  destruct (enter d sb T t nr) as [x| |]; cbn [and_then]; rewrite ?step_ext.
  - destruct (step d len sb T root x c); cbn [and_then]; rewrite ?IH; done.
  - done.
  - done.
Qed.
Lemma resolve_ext root pwd bs : resolve d' len sb T t root pwd bs = resolve d len sb T t root pwd bs.
Proof. destruct bs; [done|]. unfold resolve. destruct (_ =? _); apply walk_ext. Qed.
End Ext.

(** The walk asks the task for its rights only. *)
Lemma resolve_task d len sb T t t' root pwd bs : (forall n m, permits t' n m = permits t n m) ->
  resolve d len sb T t' root pwd bs = resolve d len sb T t root pwd bs.
Proof.
  intros Ht. assert (forall nr, enter d sb T t' nr = enter d sb T t nr) as He by (intros; unfold enter, may_enter; by rewrite Ht).
  assert (forall names nr, walk d len sb T t' root nr names = walk d len sb T t root nr names) as Hw.
  { induction names as [|c names IH]; intros nr; [done|]. cbn [walk]. rewrite He.
    destruct (enter d sb T t nr) as [x| |]; cbn [and_then]; [|done|done].
    destruct (step d len sb T root x c); cbn [and_then]; rewrite ?IH; done. }
  destruct bs; [done|]. unfold resolve. destruct (_ =? _); apply Hw.
Qed.
(** What the walk of a path needs of the state: the buffer cache, the super block [sb] of the disk,
    the i-node table, and the i-nodes [rn] and [pn] of the root and the working directory of the task. *)
Record resolvable (k : kernel) (sb : super_block) (t : task_struct) (rn pn : m_inode) : Prop := mkResolvable {
  rs_cache : cache_ok k;
  rs_ready : ready k;
  rs_super : exists s, found_super k RD_DEV s sb;
  rs_task : tasks (k_sched k) !! current (k_sched k) = Some t;
  rs_table : table_ok (disk k) (rd_length (k_blk k)) sb (inode_table (k_fs k));
  rs_last : (last_inode (k_fs k) < NR_INODE)%nat;
  rs_mounted : root_mounted (inode_table (k_fs k)) sb;
  rs_root : dir_slot (inode_table (k_fs k)) (t_root t) rn;
  rs_pwd : dir_slot (inode_table (k_fs k)) (t_pwd t) pn }.

(** ** Properties *)
Module PathProps.

(** C7: [namei] resolves paths.  On a disk whose i-nodes are not being waited for or mounted on, for
    a task with a root and a working directory, and for every path whose walk stays within
    directories of one block, [namei] returns, and what it returns is what the reference [resolve]
    says of the content of the disk: NULL if a component is missing or may not be searched, and
    otherwise a slot of the i-node table that holds the i-node the walk arrives at.  "..", "."
    and slashes at the end are as the walk treats them, a component is cut to 14 bytes, and ".."
    does not leave the root directory of the task.  All references and buffers taken on the way are
    given back: the i-nodes in use are as they were, except that the result has one more user, the
    disk and the use of the buffers have not changed, and every i-node that is not in use in the
    table is as on the disk. *)
Theorem namei_resolves {SI : SyncInodes} {HSI : SyncInodesOk SI} k sb t rn pn a bs phys :
  resolvable k sb t rn pn ->
  ustring (io_byte k) k a (bs ++ [0]) phys -> 0 ∉ bs -> (length bs < PATH_FUEL)%nat ->
  let o := resolve (disk k) (rd_length (k_blk k)) sb (inode_table (k_fs k)) t (i_num rn) (i_num pn) bs in
  o <> Beyond -> runs (namei a) k (resolved k sb (inode_table (k_fs k)) o).
Proof. intros [?? [s ?] ???? (ri&?&?&?&?) ?]. intros. by eapply namei_spec. Qed.

Fixpoint poke (m : memory) (a : Z) (bs : list Z) : memory :=
  match bs with [] => m | c :: r => st 1 (poke m (a + 1) r) a c end.
(** I-nodes 2 and 3, a directory and a file of 5 bytes, are in block 4; the root directory, with the
    entry "a", is in block 10, and directory 2, with the entry "b", in block 11. *)
Definition demo_tree : memory :=
  let blk n := RD_START + n * BLOCK_SIZE in
  let m := poke blank (blk 4 + 32) [0xED; 0x41; 0; 0; 48; 0; 0; 0; 0; 0; 0; 0; 0; 2; 11; 0] in
  let m := poke m (blk 4 + 64) [0xA4; 0x81; 0; 0; 5; 0; 0; 0; 0; 0; 0; 0; 0; 1; 12; 0] in
  let m := poke (poke (poke m (blk 10) [1; 0; 46]) (blk 10 + 16) [1; 0; 46; 46]) (blk 10 + 32) [2; 0; 97] in
  let m := poke (poke (poke m (blk 11) [2; 0; 46]) (blk 11 + 16) [1; 0; 46; 46]) (blk 11 + 32) [3; 0; 98] in
  poke m 256 [47; 97; 47; 46; 46; 47; 46; 46; 47; 97; 47; 98].
(** The path at 256 is "/a/../../a/b". *)
Definition demo_pathname : list Z := [47; 97; 47; 46; 46; 47; 46; 46; 47; 97; 47; 98].
Definition demo_root : m_inode := DirectoryProps.demo_directory <| i_size := 48 |>.
Definition demo_tsuper : super_block := (demo_zsuper 0) <| s_imount := Some 0%nat |> <| s_isup := Some 0%nat |>.
Definition demo_tfs : fs_state :=
  mkFs (demo_root :: replicate 31 zero_inode) 0 (demo_tsuper :: replicate 7 zero_super) (replicate NR_FILE zero_file) RD_DEV.
Definition demo_task : task_struct := zero_task <| t_root := Some 0%nat |> <| t_pwd := Some 0%nat |>.
Definition demo_tk : kernel := (booted_fs demo_tree demo_tfs) <| k_sched ::= fun s => s <| tasks ::= fun l => <[current s := demo_task]> l |> |>.

Lemma demo_slots i n : inode_table (k_fs demo_tk) !! i = Some n -> n = demo_root /\ i = 0%nat \/ n = zero_inode.
Proof.
  destruct i as [|i]; [intros [= <-]; by left|]. change (inode_table (k_fs demo_tk) !! S i) with (replicate 31 zero_inode !! i).
  intros [-> _]%lookup_replicate_1. by right.
Qed.
Lemma demo_table_ok d len : table_ok d len demo_tsuper (inode_table (k_fs demo_tk)).
Proof.
  split; try done.
  - intros i n [[-> _]| ->]%demo_slots; done.
  - intros i n [[-> _]| ->]%demo_slots; done.
  - intros i j n m [[-> ->]| ->]%demo_slots [[-> ->]| ->]%demo_slots; done.
  - intros i n [[-> _]| ->]%demo_slots; [|done]. intros _. split; [done|]. repeat constructor; lia.
  - intros i n [[-> _]| ->]%demo_slots; done.
  - intros i n [[-> _]| ->]%demo_slots; done.
  - intros i n [[-> _]| ->]%demo_slots; done.
  - exists 1%nat. done.
Qed.
Lemma demo_resolvable : resolvable demo_tk demo_tsuper demo_task demo_root demo_root.
Proof.
  split.
  - destruct (booted_fs_ok demo_tree demo_tfs) as (l&ch&HI). exists l, ch. by apply (cache_inv_ext (booted_fs demo_tree demo_tfs)).
  - apply (booted_fs_ready demo_tree demo_tfs).
  - exists 0%nat. split_and!; try reflexivity; try discriminate. { unfold NR_SUPER. lia. } intros; lia.
  - apply lookup_insert_eq.
  - apply demo_table_ok.
  - unfold NR_INODE. change (0 < 32)%nat. lia.
  - right. exists demo_root. split; [by exists 0%nat|reflexivity].
  - by exists 0%nat.
  - by exists 0%nat.
Qed.
Definition demo_blocks (z : Z) : memory := fun x => demo_tree (RD_START + z * BLOCK_SIZE + x).
Lemma namei_resolves_witness : runs (namei 256) demo_tk (fun r k' => exists i n, r = Some i /\
  inode_table (k_fs k') !! i = Some n /\ i_num n = 3 /\ i_size n = 5).
Proof.
  assert (forall z x, disk demo_tk z x = demo_blocks z x) as Hd by (intros; apply booted_fs_disk).
  assert (rd_length (k_blk demo_tk) = RD_LENGTH) as Hlen.
  { change (k_blk demo_tk) with (k_blk (booted demo_tree)). by destruct (booted_spec demo_tree) as (_&_&_&_&_&_&_&->&_). }
  assert (resolve (disk demo_tk) (rd_length (k_blk demo_tk)) demo_tsuper (inode_table (k_fs demo_tk)) demo_task 1 1 demo_pathname = Found 3) as E.
  { rewrite Hlen, (resolve_ext demo_blocks) by done. vm_compute. reflexivity. }
  pose proof (namei_resolves demo_tk demo_tsuper demo_task demo_root demo_root 256 demo_pathname (fun i => 256 + i)) as H.
  cbv zeta in H. change (i_num demo_root) with 1 in H. rewrite E in H. eapply runs_mono; [|apply H].
  - intros [i|] k' Hres; [|destruct Hres]. destruct Hres as (T'&l&n&n'&_&_&_&Hn&_&Ed&Ed'&_&HA). exists i, n'.
    rewrite Ed, (inode_of_ext demo_blocks) in Ed' by done. split_and!; [done| | |].
    + rewrite (at_fs _ _ _ _ HA). apply list_lookup_insert_eq. by eapply lookup_lt_Some.
    + apply (f_equal i_num) in Ed'. exact Ed'.
    + apply (f_equal i_size) in Ed'. exact Ed'.
  - apply demo_resolvable.
  - destruct (booted_ustring demo_tree demo_tfs 256 (demo_pathname ++ [0])) as [Hub Hbs]; [vm_compute; congruence|vm_compute; congruence| |].
    { intros i c. do 13 (destruct i as [|i]; [intros [= <-]; reflexivity|]). done. }
    split; [|exact Hbs]. by apply (ubuf_ext _ (booted_fs demo_tree demo_tfs)).
  - intros H0. repeat (apply elem_of_cons in H0 as [H0|H0]; [discriminate|]). by apply elem_of_nil in H0.
  - unfold PATH_FUEL. cbn. lia.
  - discriminate.
Defined.
End PathProps.
