(* ===== verification/Sched.v ===== *)
(** * The scheduler, wait queues and timers (kernel/sched.c)

    [schedule] chooses the next task and [switch_to] changes to it.  The call of [switch_to_tss], the
    assembly routine that exchanges the registers, ends the activation of the old task: it is the stop
    [Switch].  What the old task does when it is resumed is [switch_resume], and the rest of
    [sleep_on] is [sleep_on_resume].

    The theorems say what [schedule] chooses, that no runnable task is starved, and that a wait queue
    with two sleepers loses the first one. *)
From Stdlib Require Import ZArith Lia String.
From stdpp Require Import base list gmap.
From S2P Require Import Prelude State Mmio Pte.
Open Scope Z_scope.

(** The masks of signals. *)
Definition _S (nr : Z) : Z := Z.shiftl 1 (nr - 1).
Definition _BLOCKABLE : Z := Z.lnot (Z.lor (_S SIGKILL) (_S SIGSTOP)).
(** The addresses of [page_root_table] and [init_task_page_dir_table], which the linker chooses. *)
Definition page_root_table : Z := 0x80030000.
Definition init_task_page_dir_table : Z := 0x80031000.
Definition reg_ra : Z := 1.
Definition reg_sp : Z := 2.
Definition reg_a0 : Z := 10.

Definition mod_sched (f : sched_state -> sched_state) : K unit := modify (fun k => k <| k_sched ::= f |>).
(** [task[i]], a pointer that may be NULL. *)
Definition task_at (i : Z) : K (option Z) :=
  let! l := gets (fun k => task (k_sched k)) in unwrap "task index" (idx l i).
Definition set_task_at (i : Z) (p : option Z) : K unit := mod_sched (fun s => s <| task ::= fun l => upd_idx l i p |>).
(** [for(p = &LAST_TASK;p > &FIRST_TASK;--p) if( *p) ...] *)
Definition for_tasks (body : Z -> K unit) : K unit :=
  for_up 0 (NR_TASKS - 1) (fun j =>
    let! p := task_at (Z.of_nat NR_TASKS - 1 - j) in
    match p with Some p => body p | None => skip end).

(** ** Switching *)
Definition set_page_dir (dir_table : Z) : K unit :=
  modify (fun k => k <| k_mm ::= fun s => s <| page_dir_table := dir_table |> |>) ;;;
  pte_common_addr_to_ppn (page_root_table + 8 * 3) dir_table ;;;
  pte_common_enable_entry (page_root_table + 8 * 3) ;;;
  pte_common_enable_user (page_root_table + 8 * 3) ;;;
  pte_refresh_tlb.

Definition switch_to (taskid : Z) : K bool :=
  let! next := task_at taskid in
  let! self := gets (fun k => current (k_sched k)) in
  if decide (next = Some self) then ret true
  else
    let! p := unwrap "switch_to: task" next in
    let! ti := gets (fun k => trap_info (k_sched k)) in
    mod_task self (fun t => t <| t_tss ::= fun s => s <| tss_epc := ti_newepc ti |> |>) ;;;
    mod_sched (fun s => s <| current := p |>) ;;;
    mod_sched (fun s => s <| old_kernel_stack := cur_kernel_stack s |>) ;;;
    let! ks := gets (fun k => idx (kernel_stack (k_sched k)) taskid) in
    let! ks := unwrap "kernel_stack index" ks in
    mod_sched (fun s => s <| cur_kernel_stack := ks |>) ;;;
    let! kb := gets (fun k => idx (kernel_stackbottom (k_sched k)) taskid) in
    let! kb := unwrap "kernel_stackbottom index" kb in
    mod_sched (fun s => s <| cur_kernel_stackbottom := kb |>) ;;;
    let! t := cur in
    set_page_dir (t_page_dir_table t) ;;;
    halt (Switch p).

(** After a switch out of an interrupt: clear channel 0 of timer 0, and complete the interrupt that
    [trap_info] describes.  (The control registers that it also writes are not modelled.) *)
Definition interrupt_recover {BD : Board} : K unit :=
  let! from_interrupt := gets (fun k => trap_from_interrupt (k_sched k)) in
  when from_interrupt (
    let! eoi := readl (timer_channel_eoi 0 0) in
    writel (timer_channel_eoi 0 0) eoi ;;;
    let! _ := readl (timer_channel_eoi 0 0) in
    let! ti := gets (fun k => trap_info (k_sched k)) in
    writel (plic_claim_complete core_id) (ti_int_num ti) ;;;
    let! ti := gets (fun k => trap_info (k_sched k)) in
    writel (plic_threshold core_id) (ti_int_threshold ti)).
(** What the old task does when [switch_to_tss] returns to it; the value of [switch_to]. *)
Definition switch_resume {BD : Board} (oldtrapinfo : trap_info_t) : K bool :=
  interrupt_recover ;;;
  mod_sched (fun s => s <| trap_info := oldtrapinfo |>) ;;;
  (if ti_newepc oldtrapinfo <? USER_START_ADDR then pte_common_enable_user (page_root_table + 8 * 2)
   else pte_common_disable_user (page_root_table + 8 * 2)) ;;;
  ret false.

(** ** [schedule] *)
(** The first loop: alarms, and signals that end an interruptible sleep. *)
Definition check_signals : K unit :=
  for_tasks (fun p =>
    let! t := get_task p in
    let! now := gets (fun k => jiffies (k_sched k)) in
    when (truth (t_alarm t) && (t_alarm t <? now)) (
      mod_task p (fun t => t <| t_signal := Z.lor (t_signal t) (_S SIGALRM) |>) ;;;
      mod_task p (fun t => t <| t_alarm := 0 |>)) ;;;
    let! t := get_task p in
    when (truth (Z.land (t_signal t) (Z.lnot (s64 (_BLOCKABLE * t_blocked t)))) && (t_state t =? TASK_INTERRUPTIBLE))
      (mod_task p (fun t => t <| t_state := TASK_RUNNING |>))).
(** [while(--i)]: the runnable task with the largest counter, [c] and [next]. *)
Fixpoint scan_tasks (i : nat) (c next : Z) : K (Z * Z) :=
  match i with
  | O => ret (c, next)
  | S j =>
      let! p := task_at (Z.of_nat i) in
      match p with
      | None => scan_tasks j c next
      | Some p =>
          let! t := get_task p in
          if (t_state t =? TASK_RUNNING) && (c <? t_counter t) then scan_tasks j (s32 (t_counter t)) (Z.of_nat i)
          else scan_tasks j c next
      end
  end.
Definition recount : K unit :=
  for_tasks (fun p => mod_task p (fun t => t <| t_counter := s64 (Z.shiftr (t_counter t) 1 + t_priority t) |>)).
(** The loop that chooses, at most [SCHED_FUEL] rounds. *)
Definition SCHED_FUEL : nat := 64.
Definition choose (fuel : nat) : K Z :=
  loop fuel (fun _ =>
    let! (c, next) := scan_tasks (NR_TASKS - 1) (-1) 0 in
    if truth c then ret (inr next) else recount ;;; ret (inl tt)) tt.
Definition schedule : K bool :=
  check_signals ;;;
  let! next := choose SCHED_FUEL in
  switch_to next.

Definition sys_pause : K Z :=
  mod_cur (fun t => t <| t_state := TASK_INTERRUPTIBLE |>) ;;;
  let! _ := schedule in
  ret 0.

(** ** Wait queues *)
(** [*p] *)
Definition get_waitq (q : waitq) : K (option Z) :=
  match q with
  | WaitBuffer b => let! h := get_bh b in ret (b_wait h)
  | WaitBufferFree => gets (fun k => buffer_wait (k_blk k))
  | WaitRequest => gets (fun k => wait_for_request (k_blk k))
  | WaitInode i => let! n := get_inode i in ret (i_wait n)
  | WaitSuper i => let! n := get_sb i in ret (s_wait n)
  | WaitTty t q => let! n := get_tty t in ret (q_proc_list (queue_of q n))
  end.
(** The end of [sleep_on], after [schedule()] has returned [r]; [tmp] is the earlier head. *)
Definition sleep_on_resume (r : bool) (tmp : option Z) : K unit := if r then wake_up tmp else skip.
(** [interruptible_sleep_on]: [schedule()] returns only if a signal made the task runnable again and
    it was chosen; otherwise the task has been switched away from, and [interruptible_sleep_resume] is
    what it does when it is resumed (the value of [schedule()] is then [false]). *)
Definition interruptible_sleep_resume (q : waitq) (tmp : option Z) : K unit := set_waitq q tmp ;;; wake_up tmp.
Definition interruptible_sleep_on (q : waitq) : K unit :=
  let! self := gets (fun k => current (k_sched k)) in
  if self =? init_task then panic "task[0] trying to sleep"
  else
    let! tmp := get_waitq q in
    set_waitq q (Some self) ;;;
    loop SCHED_FUEL (fun _ =>
      mod_cur (fun t => t <| t_state := TASK_INTERRUPTIBLE |>) ;;;
      let! r := schedule in
      let! p := get_waitq q in
      let! self := gets (fun k => current (k_sched k)) in
      match p with
      | Some w => if r && negb (w =? self) then wake_up (Some w) ;;; ret (inl tt) else ret (inr tt)
      | None => ret (inr tt)
      end) tt ;;;
    interruptible_sleep_resume q tmp.

(** ** Timers

    A function is its address; [call] stands for calling it. *)
Section Timers.
Context (call : Z -> K unit).

Definition get_timer (i : nat) : K timer :=
  let! l := gets (fun k => timer_list (k_sched k)) in unwrap "timer_list pointer" (l !! i).
Definition mod_timer (i : nat) (f : timer -> timer) : K unit :=
  let! t := get_timer i in mod_sched (fun s => s <| timer_list ::= fun l => <[i := f t]> l |>).
Definition get_next_timer : K (option nat) := gets (fun k => next_timer (k_sched k)).
Definition set_next_timer (p : option nat) : K unit := mod_sched (fun s => s <| next_timer := p |>).

(** [for(p = timer_list;p < timer_list + TIME_REQUESTS;p++) if(!p -> fn) break;] *)
Fixpoint free_timer (p : nat) (n : nat) : K (option nat) :=
  match n with
  | O => ret None
  | S n => let! t := get_timer p in match tm_fn t with None => ret (Some p) | Some _ => free_timer (S p) n end
  end.
(** The first [while] of [add_timer]: [p] moves behind the timers that expire earlier. *)
Definition timer_sink (p : nat) : K nat :=
  loop (S TIME_REQUESTS) (fun p =>
    let! t := get_timer p in
    match tm_next t with
    | None => ret (inr p)
    | Some nx =>
        let! n := get_timer nx in
        if tm_jiffies n <? tm_jiffies t then
          mod_timer p (fun t => t <| tm_jiffies := s64 (tm_jiffies t - tm_jiffies n) |>) ;;;
          let! t := get_timer p in
          let fn := tm_fn t in
          mod_timer nx (fun n => n <| tm_fn := fn |>) ;;;
          let jiffies := tm_jiffies t in
          let! n := get_timer nx in
          mod_timer p (fun t => t <| tm_jiffies := tm_jiffies n |>) ;;;
          mod_timer nx (fun n => n <| tm_jiffies := jiffies |>) ;;;
          ret (inl nx)
        else ret (inr p)
    end) p.
(** The second [while]. *)
Definition timer_settle (p : nat) (jiffies : Z) : K unit :=
  loop (S TIME_REQUESTS) (fun p =>
    let! t := get_timer p in
    match tm_next t with
    | None => ret (inr tt)
    | Some nx => mod_timer nx (fun n => n <| tm_jiffies := s64 (tm_jiffies n - jiffies) |>) ;;; ret (inl nx)
    end) p.
Definition add_timer (jiffies : Z) (fn : option Z) : K unit :=
  match fn with
  | None => skip
  | Some f =>
      if jiffies <=? 0 then call f
      else
        let! p := free_timer 0 TIME_REQUESTS in
        match p with
        | None => panic "No more time requests free"
        | Some p =>
            mod_timer p (fun t => t <| tm_fn := fn |>) ;;;
            mod_timer p (fun t => t <| tm_jiffies := jiffies |>) ;;;
            let! nx := get_next_timer in
            mod_timer p (fun t => t <| tm_next := nx |>) ;;;
            set_next_timer (Some p) ;;;
            let! p := timer_sink p in
            let! t := get_timer p in
            timer_settle p (tm_jiffies t)
        end
  end.

(** [while(next_timer && next_timer -> jiffies <= 0)] of [do_timer]; each round ends a timer. *)
Definition run_timers (fuel : nat) : K unit :=
  loop fuel (fun _ =>
    let! nt := get_next_timer in
    match nt with
    | None => ret (inr tt)
    | Some p =>
        let! t := get_timer p in
        if tm_jiffies t <=? 0 then
          let! f := unwrap "do_timer: fn" (tm_fn t) in
          mod_timer p (fun t => t <| tm_fn := None |>) ;;;
          set_next_timer (tm_next t) ;;;
          call f ;;;
          ret (inl tt)
        else ret (inr tt)
    end) tt.
(** [user] is [cpl == privilege_level_user]. *)
Definition do_timer (user : bool) : K unit :=
  (if user then mod_cur (fun t => t <| t_utime := s64 (t_utime t + 1) |>)
   else mod_cur (fun t => t <| t_stime := s64 (t_stime t + 1) |>)) ;;;
  let! nt := get_next_timer in
  match nt with
  | Some p =>
      mod_timer p (fun t => t <| tm_jiffies := s64 (tm_jiffies t - 1) |>) ;;;
      run_timers (S TIME_REQUESTS)
  | None => skip
  end ;;;
  mod_cur (fun t => t <| t_counter := s64 (t_counter t - 1) |>) ;;;
  let! t := cur in
  if 0 <? t_counter t then skip
  else
    mod_cur (fun t => t <| t_counter := 0 |>) ;;;
    if negb user then skip
    else let! _ := schedule in skip.
Definition timer_interrupt (user : bool) (ctx : Z) : K Z := do_timer user ;;; ret 0.
End Timers.

(** ** System calls *)
Definition sys_alarm (seconds : Z) : K Z :=
  let! t := cur in
  let old := s32 (t_alarm t) in
  let! now := gets (fun k => jiffies (k_sched k)) in
  let old := if truth old then s32 (Z.quot (s64 (old - now)) HZ) else old in
  mod_cur (fun t => t <| t_alarm := if 0 <? seconds then s64 (now + HZ * seconds) else 0 |>) ;;;
  ret old.
Definition sys_getpid : K Z := let! t := cur in ret (t_pid t).
Definition sys_getppid : K Z := let! t := cur in ret (t_father t).
Definition sys_getuid : K Z := let! t := cur in ret (t_uid t).
Definition sys_geteuid : K Z := let! t := cur in ret (t_euid t).
Definition sys_getgid : K Z := let! t := cur in ret (t_gid t).
Definition sys_nice (increment : Z) : K Z :=
  let! t := cur in
  when (0 <? s64 (t_priority t - increment)) (mod_cur (fun t => t <| t_priority := s64 (t_priority t - increment) |>)) ;;;
  ret 0.

(** ** Initialisation *)
(** The registers that [regs_backup] saves are [regs] and [fregs].  The calls behind that, which start timer 0
    and register [timer_interrupt], are not part of this definition. *)
Definition first_task (regs fregs : list Z) : task_struct :=
  zero_task <| t_state := TASK_RUNNING |> <| t_counter := 15 |> <| t_priority := 15 |> <| t_father := -1 |>
    <| t_page_dir_table := init_task_page_dir_table |>
    <| t_code_base := 0xC0000000 |> <| t_data_base := 0xC0000000 |>
    <| t_code_limit := 640 * 1024 |> <| t_data_limit := 640 * 1024 |>
    <| t_tss := mkTss (upd_idx regs reg_sp (init_task + PAGE_SIZE)) fregs 0 |> <| t_tty := -1 |>.
Definition sched_init (regs fregs : list Z) : K unit :=
  for_up 1 (NR_TASKS - 1) (fun i => set_task_at i None) ;;;
  mod_sched (fun s => s <| tasks ::= fun l => <[init_task := first_task regs fregs]> l |>) ;;;
  pte_common_init init_task_page_dir_table PAGE_DIR_TABLE_NUM ;;;
  mod_sched (fun s => s <| cur_kernel_stack := default 0 (idx (kernel_stack s) 0) |>).

(** ** What the scheduler chooses *)

(** The task structure that [task[i]] points to. *)
Definition task_of (k : kernel) (i : Z) : option task_struct :=
  match idx (task (k_sched k)) i with Some (Some p) => tasks (k_sched k) !! p | _ => None end.
Definition slots (i : Z) : Prop := 1 <= i < Z.of_nat NR_TASKS.
Definition runnable (t : task_struct) : bool := t_state t =? TASK_RUNNING.

(** The table is well formed: every pointer leads to a task structure of its own, whose priority is
    positive and whose counter is not negative. *)
Record sched_ok (k : kernel) : Prop := mkSchedOk {
  so_length : length (task (k_sched k)) = NR_TASKS;
  so_live : forall i p, idx (task (k_sched k)) i = Some (Some p) -> exists t, tasks (k_sched k) !! p = Some t;
  so_distinct : forall i j p, idx (task (k_sched k)) i = Some (Some p) -> idx (task (k_sched k)) j = Some (Some p) -> i = j;
  so_counter : forall i t, slots i -> task_of k i = Some t -> 0 <= t_counter t < 2 ^ 30;
  so_priority : forall i t, slots i -> task_of k i = Some t -> 1 <= t_priority t < 2 ^ 29 }.

(** The scan, as a function of the table. *)
Fixpoint best (ts : Z -> option task_struct) (i : nat) (c next : Z) : Z * Z :=
  match i with
  | O => (c, next)
  | S j =>
      match ts (Z.of_nat i) with
      | Some t => if runnable t && (c <? t_counter t) then best ts j (t_counter t) (Z.of_nat i) else best ts j c next
      | None => best ts j c next
      end
  end.
Lemma task_at_Ok k i p : idx (task (k_sched k)) i = Some p -> task_at i k = Ok p k.
Proof. intros H. unfold task_at. erewrite bind_Ok by reflexivity. by rewrite H. Qed.
Lemma get_task_Ok k p t : tasks (k_sched k) !! p = Some t -> get_task p k = Ok t k.
Proof. intros H. unfold get_task. erewrite bind_Ok by reflexivity. by rewrite H. Qed.
Definition set_task (p : Z) (t : task_struct) (k : kernel) : kernel :=
  k <| k_sched ::= fun s => s <| tasks ::= fun l => <[p := t]> l |> |>.
Lemma mod_task_Ok k p t f : tasks (k_sched k) !! p = Some t -> mod_task p f k = Ok tt (set_task p (f t) k).
Proof. intros H. unfold mod_task. by erewrite bind_Ok by by apply get_task_Ok. Qed.
Lemma mod_cur_Ok k t f : tasks (k_sched k) !! current (k_sched k) = Some t ->
  mod_cur f k = Ok tt (set_task (current (k_sched k)) (f t) k).
Proof. intros H. unfold mod_cur. erewrite bind_Ok by reflexivity. by apply mod_task_Ok. Qed.
Lemma so_slot k i : sched_ok k -> slots i -> exists p, idx (task (k_sched k)) i = Some p.
Proof. intros H Hi. apply idx_is_Some. rewrite (so_length _ H). unfold slots in Hi. lia. Qed.

Lemma scan_tasks_best k : sched_ok k -> forall i c next, (i < NR_TASKS)%nat ->
  scan_tasks i c next k = Ok (best (task_of k) i c next) k.
Proof.
  intros Hok. induction i as [|i IH]; intros c next Hi; [done|]. cbn [scan_tasks best].
  assert (slots (Z.of_nat (S i))) as Hs by (unfold slots; lia). destruct (so_slot k _ Hok Hs) as [p Hp].
  erewrite bind_Ok by by apply task_at_Ok. unfold task_of at 1. rewrite Hp. destruct p as [p|]; [|by apply IH; lia].
  destruct (so_live _ Hok _ _ Hp) as [t Ht]. erewrite bind_Ok by by apply get_task_Ok. rewrite Ht. unfold runnable.
  assert (task_of k (Z.of_nat (S i)) = Some t) as Hti by (unfold task_of; by rewrite Hp).
  pose proof (so_counter _ Hok _ _ Hs Hti). rewrite s32_small by lia.
  destruct (_ && _); apply IH; lia.
Qed.
(** The scan yields the runnable task with the largest counter. *)
Lemma best_spec ts : forall i c next, let '(c', n') := best ts i c next in
  c <= c' /\ ((c', n') = (c, next) \/
    exists t, 1 <= n' <= Z.of_nat i /\ ts n' = Some t /\ runnable t = true /\ t_counter t = c' /\ c < c') /\
  forall j t, 1 <= j <= Z.of_nat i -> ts j = Some t -> runnable t = true -> t_counter t <= c'.
Proof.
  induction i as [|i IH]; intros c next; cbn [best]; [split_and!; [lia|by left|lia]|].
  destruct (ts (Z.of_nat (S i))) as [t|] eqn:Et.
  - destruct (runnable t && (c <? t_counter t)) eqn:Er.
    + apply andb_true_iff in Er as [Er Ec%Z.ltb_lt]. specialize (IH (t_counter t) (Z.of_nat (S i))).
      destruct (best ts i (t_counter t) (Z.of_nat (S i))) as [c' n']. destruct IH as (H1&H2&H3). split_and!; [lia| |].
      * right. destruct H2 as [[= -> ->]|(t'&?&?&?&?&?)]; [exists t|exists t']; split_and!; try done; lia.
      * intros j tj Hj Htj Hr. destruct (decide (j = Z.of_nat (S i))) as [->|]; [assert (tj = t) as -> by congruence; lia|].
        apply (H3 j tj); [lia|done..].
    + specialize (IH c next). destruct (best ts i c next) as [c' n']. destruct IH as (H1&H2&H3). split_and!; [lia| |].
      * destruct H2 as [?|(t'&?&?&?&?&?)]; [by left|]. right. exists t'. split_and!; try done; lia.
      * intros j tj Hj Htj Hr. destruct (decide (j = Z.of_nat (S i))) as [->|].
        -- assert (tj = t) as -> by congruence. rewrite Hr in Er. cbn in Er. lia.
        -- apply (H3 j tj); [lia|done..].
  - specialize (IH c next). destruct (best ts i c next) as [c' n']. destruct IH as (H1&H2&H3). split_and!; [lia| |].
    + destruct H2 as [?|(t'&?&?&?&?&?)]; [by left|]. right. exists t'. split_and!; try done; lia.
    + intros j tj Hj Htj Hr. destruct (decide (j = Z.of_nat (S i))) as [->|]; [congruence|]. apply (H3 j tj); [lia|done..].
Qed.

(** A loop over the tasks that changes each task structure by [f]. *)
Definition all_tasks (f : task_struct -> task_struct) (k k' : kernel) : Prop :=
  exists T, k' = k <| k_sched ::= fun s => s <| tasks := T |> |> /\
    (forall i p t, slots i -> idx (task (k_sched k)) i = Some (Some p) -> tasks (k_sched k) !! p = Some t -> T !! p = Some (f t)) /\
    (forall p, (forall i, slots i -> idx (task (k_sched k)) i <> Some (Some p)) -> T !! p = tasks (k_sched k) !! p).
Lemma for_tasks_spec k f (body : Z -> K unit) : sched_ok k ->
  (forall k' p t, tasks (k_sched k') !! p = Some t -> jiffies (k_sched k') = jiffies (k_sched k) ->
     body p k' = Ok tt (set_task p (f t) k')) ->
  runs (for_tasks body) k (fun _ k' => all_tasks f k k').
Proof.
  intros Hok Hbody. unfold for_tasks.
  eapply runs_mono; [|apply (runs_for_up (fun j k' => 0 <= j /\ exists T, k' = k <| k_sched ::= fun s => s <| tasks := T |> |> /\
    (forall i p t, slots i -> idx (task (k_sched k)) i = Some (Some p) -> tasks (k_sched k) !! p = Some t ->
       T !! p = Some (if Z.of_nat NR_TASKS - 1 - j <? i then f t else t)) /\
    (forall p, (forall i, slots i -> idx (task (k_sched k)) i <> Some (Some p)) -> T !! p = tasks (k_sched k) !! p)))].
  - intros [] k' (_&T&->&H1&H2). exists T. split; [done|]. split; [|done]. intros i p t Hi Hp Ht. rewrite (H1 i p t Hi Hp Ht).
    unfold slots in Hi. assert (Z.of_nat NR_TASKS - 1 - (0 + Z.of_nat (NR_TASKS - 1)) <? i = true) as -> by (unfold NR_TASKS; blia). done.
  - intros j k' Hj (_&T&->&H1&H2). set (i := Z.of_nat NR_TASKS - 1 - j).
    assert (slots i) as Hi by (unfold slots, i, NR_TASKS in *; lia). destruct (so_slot k i Hok Hi) as [p Hp].
    eapply runs_step; [by apply task_at_Ok|]. destruct p as [p|].
    2:{ apply runs_ret. split; [lia|]. exists T. split_and!; [done| |done]. intros i' p t Hi' Hp' Ht. rewrite (H1 i' p t Hi' Hp' Ht).
        do 2 f_equal. assert (i' <> i) by congruence. unfold i in *. destruct (Z.ltb_spec (Z.of_nat NR_TASKS - 1 - j) i'), (Z.ltb_spec (Z.of_nat NR_TASKS - 1 - (j + 1)) i'); lia || done. }
    destruct (so_live _ Hok _ _ Hp) as [t Ht]. unfold runs.
    assert (T !! p = Some t) as HT.
    { rewrite (H1 i p t Hi Hp Ht). unfold i. by rewrite Z.ltb_irrefl. }
    rewrite (Hbody _ p t) by done. split; [lia|]. exists (<[p := f t]> T). split; [by destruct k as [? ? ? [] ? ?]|]. split.
    + intros i' p' t' Hi' Hp' Ht'. destruct (decide (p' = p)) as [->|Hne].
      * assert (i' = i) as -> by (eapply (so_distinct _ Hok); done). rewrite lookup_insert_eq.
        assert (t' = t) as -> by congruence. unfold i.
        assert (Z.of_nat NR_TASKS - 1 - (j + 1) <? Z.of_nat NR_TASKS - 1 - j = true) as -> by blia. done.
      * rewrite lookup_insert_ne by done. rewrite (H1 i' p' t' Hi' Hp' Ht'). do 2 f_equal.
        assert (i' <> i) by congruence. unfold i in *.
        destruct (Z.ltb_spec (Z.of_nat NR_TASKS - 1 - j) i'), (Z.ltb_spec (Z.of_nat NR_TASKS - 1 - (j + 1)) i'); lia || done.
    + intros p' Hp'. rewrite lookup_insert_ne; [by apply H2|]. intros ->. by apply (Hp' i).
  - split; [lia|]. exists (tasks (k_sched k)). split; [by destruct k as [? ? ? [] ? ?]|]. split; [|done].
    intros i p t Hi Hp Ht. rewrite Ht. unfold slots in Hi.
    assert (Z.of_nat NR_TASKS - 1 - 0 <? i = false) as -> by blia. done.
Qed.
Lemma all_tasks_of f k k' i : all_tasks f k k' -> sched_ok k -> slots i -> task_of k' i = f <$> task_of k i.
Proof.
  intros (T&->&H1&_) Hok Hi. unfold task_of. rsimpl. destruct (so_slot k i Hok Hi) as [[p|] Hp]; rewrite Hp; [|done].
  destruct (so_live _ Hok _ _ Hp) as [t Ht]. by rewrite (H1 i p t Hi Hp Ht), Ht.
Qed.
Lemma all_tasks_ok f k k' : all_tasks f k k' -> sched_ok k ->
  (forall i t, slots i -> task_of k i = Some t -> 0 <= t_counter (f t) < 2 ^ 30 /\ 1 <= t_priority (f t) < 2 ^ 29) -> sched_ok k'.
Proof.
  intros Ha Hok Hf. pose proof (all_tasks_of f k k') as Hof. destruct Ha as (T&E&H1&H2).
  assert (task (k_sched k') = task (k_sched k)) as Et by (by rewrite E).
  split; rewrite ?Et; try apply Hok.
  - intros i p Hp. rewrite E. rsimpl. destruct (so_live _ Hok _ _ Hp) as [t Ht]. destruct (decide (slots i)) as [Hi|Hi].
    + eexists. by apply (H1 i p t).
    + exists t. rewrite H2; [done|]. intros j Hj Hpj. by rewrite (so_distinct _ Hok j i p Hpj Hp) in Hj.
  - intros i t Hi Ht. rewrite Hof in Ht; [|by exists T|done..]. apply fmap_Some in Ht as (t0&Ht0&->). by eapply Hf.
  - intros i t Hi Ht. rewrite Hof in Ht; [|by exists T|done..]. apply fmap_Some in Ht as (t0&Ht0&->). by eapply Hf.
Qed.

Definition recounted (t : task_struct) : task_struct := t <| t_counter := s64 (Z.shiftr (t_counter t) 1 + t_priority t) |>.
Lemma recounted_value k i t : sched_ok k -> slots i -> task_of k i = Some t ->
  t_counter (recounted t) = t_counter t / 2 + t_priority t /\ 1 <= t_counter (recounted t) < 2 ^ 30.
Proof.
  intros Hok Hi Ht. pose proof (so_counter _ Hok i t Hi Ht). pose proof (so_priority _ Hok i t Hi Ht).
  unfold recounted. rsimpl. rewrite Z.shiftr_div_pow2 by lia. change (2 ^ 1) with 2. rewrite s64_small by dlia. split; [done|dlia].
Qed.
Lemma recount_spec k : sched_ok k -> runs recount k (fun _ k' => all_tasks recounted k k' /\ sched_ok k').
Proof.
  intros Hok. eapply runs_mono; [|apply (for_tasks_spec k recounted); [done|]].
  - intros ? k' Ha. split; [done|]. apply (all_tasks_ok recounted k); [done..|]. intros i t Hi Ht.
    destruct (recounted_value k i t Hok Hi Ht). split; [lia|]. unfold recounted. rsimpl. by apply (so_priority _ Hok i).
  - intros k' p t Ht _. by apply mod_task_Ok.
Qed.
Lemma recounted_runnable t : runnable (recounted t) = runnable t.
Proof. done. Qed.

(** What a scan decides. *)
Definition chosen (k : kernel) (next : Z) : Prop :=
  exists t, slots next /\ task_of k next = Some t /\ runnable t = true /\ 0 < t_counter t /\
    forall j tj, slots j -> task_of k j = Some tj -> runnable tj = true -> t_counter tj <= t_counter t.
Definition nothing_runs (k : kernel) : Prop := forall j t, slots j -> task_of k j = Some t -> runnable t = false.
Definition all_used_up (k : kernel) : Prop :=
  (forall j t, slots j -> task_of k j = Some t -> runnable t = true -> t_counter t = 0) /\ ~ nothing_runs k.
Lemma scan_cases k : sched_ok k -> exists c next, scan_tasks (NR_TASKS - 1) (-1) 0 k = Ok (c, next) k /\
  (c = -1 /\ next = 0 /\ nothing_runs k \/ c = 0 /\ all_used_up k \/ 0 < c /\ chosen k next).
Proof.
  intros Hok. rewrite scan_tasks_best by (done || (unfold NR_TASKS; lia)). pose proof (best_spec (task_of k) (NR_TASKS - 1) (-1) 0) as H.
  destruct (best _ _ _ _) as [c next]. exists c, next. split; [done|]. destruct H as (Hc&Hn&Hmax).
  assert (forall j t, slots j -> task_of k j = Some t -> runnable t = true -> t_counter t <= c) as Hall.
  { intros j t Hj. apply Hmax. unfold slots, NR_TASKS in *. lia. }
  destruct Hn as [[= -> ->]|(t&Hb&Ht&Hr&Hct&_)].
  - left. split_and!; [done..|]. intros j t Hj Ht. destruct (runnable t) eqn:Er; [|done].
    pose proof (Hall j t Hj Ht Er). pose proof (so_counter _ Hok j t Hj Ht). lia.
  - assert (slots next) as Hs by (unfold slots, NR_TASKS in *; lia). pose proof (so_counter _ Hok next t Hs Ht) as Hp. right.
    destruct (decide (c = 0)) as [E|]; [left|right].
    + split; [done|]. split; [|intros Hnr; specialize (Hnr next t Hs Ht); congruence].
      intros j tj Hj Htj Hrj. pose proof (Hall j tj Hj Htj Hrj). pose proof (so_counter _ Hok j tj Hj Htj). lia.
    + split; [lia|]. exists t. split_and!; try done; [lia|]. intros j tj Hj Htj Hrj. rewrite Hct. by apply (Hall j).
Qed.

(** The choice: at once, or after one round of new counters. *)
Definition choice (k k' : kernel) (next : Z) : Prop :=
  sched_ok k' /\
  (k' = k /\ (next = 0 /\ nothing_runs k \/ chosen k next) \/
   all_used_up k /\ all_tasks recounted k k' /\ chosen k' next).
Lemma choose_spec k fuel : sched_ok k -> (2 <= fuel)%nat -> runs (choose fuel) k (fun next k' => choice k k' next).
Proof.
  intros Hok Hf. destruct fuel as [|[|fuel]]; [lia|lia|]. unfold choose.
  destruct (scan_cases k Hok) as (c&next&E&H). unfold runs. rewrite loop_S, bind_assoc. erewrite bind_Ok by exact E. cbv iota beta.
  destruct H as [(->&->&H)|[(->&H)|(Hc&H)]].
  - change (truth (-1)) with true. cbv iota. erewrite bind_Ok by reflexivity. cbv iota. split; [done|]. left. split; [done|by left].
  - change (truth 0) with false. cbv iota. rewrite bind_assoc. pose proof (recount_spec k Hok) as (?&k1&E1&Ha&Hok1)%runs_Ok.
    erewrite bind_Ok by exact E1. erewrite bind_Ok by reflexivity. cbv iota.
    destruct (scan_cases k1 Hok1) as (c1&next1&E2&H1). rewrite loop_S, bind_assoc. erewrite bind_Ok by exact E2. cbv iota beta.
    assert (0 < c1 /\ chosen k1 next1) as [Hc1 Hch].
    { destruct H as [_ Hsome]. destruct H1 as [(_&_&H1)|[(_&H1&_)|H1]]; [| |done]; exfalso; apply Hsome; intros j t Hj Ht.
      - specialize (H1 j (recounted t) Hj). rewrite (all_tasks_of recounted k k1 j Ha Hok Hj), Ht in H1. by apply H1.
      - destruct (runnable t) eqn:Er; [|done]. specialize (H1 j (recounted t) Hj).
        rewrite (all_tasks_of recounted k k1 j Ha Hok Hj), Ht in H1. specialize (H1 eq_refl Er).
        destruct (recounted_value k j t Hok Hj Ht). lia. }
    assert (truth c1 = true) as -> by (apply truth_true; lia). erewrite bind_Ok by reflexivity. cbv iota.
    split; [done|]. by right.
  - assert (truth c = true) as -> by (apply truth_true; lia). erewrite bind_Ok by reflexivity. cbv iota.
    split; [done|]. left. split; [done|by right].
Qed.

(** ** [schedule] as a whole *)

(** What the first loop does to a task: an alarm that has passed sets SIGALRM, and a signal that is
    not masked (the mask is [_BLOCKABLE * blocked]) ends an interruptible sleep. *)
Definition alarmed (now : Z) (t : task_struct) : task_struct :=
  if truth (t_alarm t) && (t_alarm t <? now) then
    t <| t_signal := Z.lor (t_signal t) (_S SIGALRM) |> <| t_alarm := 0 |>
  else t.
Definition roused (t : task_struct) : task_struct :=
  if truth (Z.land (t_signal t) (Z.lnot (s64 (_BLOCKABLE * t_blocked t)))) && (t_state t =? TASK_INTERRUPTIBLE)
  then t <| t_state := TASK_RUNNING |> else t.
Definition signalled (now : Z) (t : task_struct) : task_struct := roused (alarmed now t).

Lemma set_task_lookup p t k : tasks (k_sched (set_task p t k)) !! p = Some t.
Proof. unfold set_task. rsimpl. apply lookup_insert_eq. Qed.
Lemma set_task_twice p t t' k : set_task p t' (set_task p t k) = set_task p t' k.
Proof. destruct k as [? ? ? [] ? ?]. unfold set_task. rsimpl. unfold upd; cbn. by rewrite insert_insert_eq. Qed.
Lemma set_task_id p t k : tasks (k_sched k) !! p = Some t -> set_task p t k = k.
Proof. destruct k as [? ? ? [] ? ?]. unfold set_task. cbn. intros H. unfold upd; cbn. by rewrite insert_id. Qed.
Lemma check_signals_spec k : sched_ok k ->
  runs check_signals k (fun _ k' => all_tasks (signalled (jiffies (k_sched k))) k k' /\ sched_ok k').
Proof.
  intros Hok. set (now := jiffies (k_sched k)).
  eapply runs_mono; [|apply (for_tasks_spec k (signalled now)); [done|]].
  - intros ? k' Ha. split; [done|]. apply (all_tasks_ok (signalled now) k); [done..|]. intros i t Hi Ht.
    assert (t_counter (signalled now t) = t_counter t /\ t_priority (signalled now t) = t_priority t) as [-> ->]
      by (unfold signalled, roused, alarmed; repeat destruct (_ && _); done).
    split; [by apply (so_counter _ Hok i)|by apply (so_priority _ Hok i)].
  - intros k' p t Ht Hj. erewrite bind_Ok by by apply get_task_Ok. erewrite bind_Ok by reflexivity. rewrite Hj. fold now.
    assert ((when (truth (t_alarm t) && (t_alarm t <? now)) (
      mod_task p (fun t => t <| t_signal := Z.lor (t_signal t) (_S SIGALRM) |>) ;;;
      mod_task p (fun t => t <| t_alarm := 0 |>))) k' = Ok tt (set_task p (alarmed now t) k')) as E.
    { unfold alarmed, when. destruct (_ && _).
      - erewrite bind_Ok by by apply mod_task_Ok. erewrite mod_task_Ok by by apply set_task_lookup. by rewrite set_task_twice.
      - by rewrite set_task_id. }
    erewrite bind_Ok by exact E. erewrite bind_Ok by by apply get_task_Ok, set_task_lookup. unfold signalled, roused, when.
    destruct (truth _ && (t_state _ =? _)); [|done]. erewrite mod_task_Ok by by apply set_task_lookup. by rewrite set_task_twice.
Qed.

(** What [switch_to] needs besides: a first task, and the tables of the kernel stacks. *)
Record switch_ok (k : kernel) : Prop := mkSwitchOk {
  sw_first : exists p, idx (task (k_sched k)) 0 = Some (Some p);
  sw_stack : length (kernel_stack (k_sched k)) = NR_TASKS;
  sw_bottom : length (kernel_stackbottom (k_sched k)) = NR_TASKS;
  sw_current : exists t, tasks (k_sched k) !! current (k_sched k) = Some t }.
Lemma set_page_dir_Ok k d : exists m, set_page_dir d k = Ok tt (k <| k_mm ::= fun s => s <| page_dir_table := d |> |> <| k_pmem := m |>).
Proof. eexists. unfold set_page_dir, pte_common_addr_to_ppn, pte_common_enable_entry, pte_common_enable_user, mod_pte, pte_refresh_tlb. reflexivity. Qed.
Lemma switch_to_spec k next p t : switch_ok k -> 0 <= next < Z.of_nat NR_TASKS ->
  idx (task (k_sched k)) next = Some (Some p) -> tasks (k_sched k) !! p = Some t ->
  if decide (p = current (k_sched k)) then switch_to next k = Ok true k
  else exists k', switch_to next k = Stop (Switch p) k' /\ current (k_sched k') = p /\
    page_dir_table (k_mm k') = t_page_dir_table t /\ task (k_sched k') = task (k_sched k).
Proof.
  intros [_ Hs Hb [t0 Ht0]] Hn Hp Ht. unfold switch_to. erewrite bind_Ok by by apply task_at_Ok. erewrite bind_Ok by reflexivity.
  destruct (decide (p = current (k_sched k))) as [->|Hne]; [by rewrite decide_True|]. rewrite decide_False by congruence.
  erewrite bind_Ok by reflexivity. erewrite bind_Ok by reflexivity. erewrite bind_Ok by by apply mod_task_Ok.
  set (k1 := set_task _ _ k). erewrite bind_Ok by reflexivity. erewrite bind_Ok by reflexivity. erewrite bind_Ok by reflexivity.
  set (k2 := upd k_sched _ (upd k_sched _ k1)).
  destruct (idx_is_Some (kernel_stack (k_sched k)) next) as [ks Hks]; [by rewrite Hs|].
  destruct (idx_is_Some (kernel_stackbottom (k_sched k)) next) as [kb Hkb]; [by rewrite Hb|].
  change (kernel_stack (k_sched k2)) with (kernel_stack (k_sched k)). rewrite Hks.
  do 3 (erewrite bind_Ok by reflexivity).
  change (kernel_stackbottom (k_sched (upd k_sched _ k2))) with (kernel_stackbottom (k_sched k)). rewrite Hkb.
  do 2 (erewrite bind_Ok by reflexivity).
  set (k3 := upd k_sched _ (upd k_sched _ k2)).
  assert (tasks (k_sched k3) !! p = Some t) as Ht3.
  { change (tasks (k_sched k3)) with (<[current (k_sched k) := t0 <| t_tss ::= fun s => s <| tss_epc := ti_newepc (trap_info (k_sched k)) |> |>]> (tasks (k_sched k))).
    by rewrite lookup_insert_ne. }
  erewrite (bind_Ok cur _ k3 t k3) by (unfold cur; erewrite bind_Ok by reflexivity; by apply get_task_Ok).
  destruct (set_page_dir_Ok k3 (t_page_dir_table t)) as [m Em]. erewrite bind_Ok by exact Em.
  eexists. split; [reflexivity|]. by split_and!.
Qed.

Lemma all_tasks_rest f k k' : all_tasks f k k' -> task (k_sched k') = task (k_sched k) /\ current (k_sched k') = current (k_sched k) /\
  kernel_stack (k_sched k') = kernel_stack (k_sched k) /\ kernel_stackbottom (k_sched k') = kernel_stackbottom (k_sched k).
Proof. by intros (T&->&_). Qed.
Lemma all_tasks_live f k k' p : all_tasks f k k' -> sched_ok k ->
  is_Some (tasks (k_sched k) !! p) -> is_Some (tasks (k_sched k') !! p).
Proof.
  intros (T&->&H1&H2) Hok [t Ht]. rsimpl.
  destruct (list_find (fun o => o = Some p) (task (k_sched k))) as [[i o]|] eqn:E.
  - apply list_find_Some in E as (Hi&->&_).
    assert (idx (task (k_sched k)) (Z.of_nat i) = Some (Some p)) as Hp.
    { unfold idx. assert (Z.of_nat i <? 0 = false) as -> by blia. by rewrite Nat2Z.id. }
    destruct (decide (slots (Z.of_nat i))) as [Hs|Hs]; [by rewrite (H1 _ p t Hs Hp Ht)|].
    rewrite H2; [done|]. intros j Hj Hpj. by rewrite (so_distinct _ Hok _ _ p Hpj Hp) in Hj.
  - rewrite H2; [done|]. intros j Hj Hpj. apply list_find_None in E. unfold idx in Hpj.
    destruct (j <? 0); [done|]. by apply (Forall_lookup_1 _ _ _ _ E Hpj).
Qed.
Lemma all_tasks_switch f k k' : all_tasks f k k' -> sched_ok k -> switch_ok k -> switch_ok k'.
Proof.
  intros Ha Hok [H1 H2 H3 H4]. destruct (all_tasks_rest f k k' Ha) as (E1&E2&E3&E4).
  split; rewrite ?E1, ?E2, ?E3, ?E4; try done. by apply (all_tasks_live f k).
Qed.
Lemma choice_rest k k' next : choice k k' next -> sched_ok k -> switch_ok k -> sched_ok k' /\ switch_ok k' /\
  task (k_sched k') = task (k_sched k) /\ current (k_sched k') = current (k_sched k) /\
  exists p t, 0 <= next < Z.of_nat NR_TASKS /\ idx (task (k_sched k)) next = Some (Some p) /\ tasks (k_sched k') !! p = Some t.
Proof.
  intros (Hok'&H) Hok Hsw.
  assert (switch_ok k' /\ task (k_sched k') = task (k_sched k) /\ current (k_sched k') = current (k_sched k)) as (Hsw'&E1&E2).
  { destruct H as [(->&_)|(_&Ha&_)]; [done|]. destruct (all_tasks_rest _ _ _ Ha) as (?&?&_). split_and!; [by eapply all_tasks_switch|done..]. }
  split_and!; try done. rewrite <- E1.
  assert (next = 0 \/ chosen k' next) as [->|(t&Hs&Ht&_)] by (destruct H as [(->&[[-> _]|?])|(_&_&?)]; auto).
  - destruct (sw_first _ Hsw') as [p Hp]. destruct (so_live _ Hok' _ _ Hp) as [t Ht]. exists p, t. split_and!; [lia|unfold NR_TASKS; lia|done..].
  - unfold task_of in Ht. destruct (idx (task (k_sched k')) next) as [[p|]|] eqn:Hp; try done. exists p, t.
    unfold slots in Hs. split_and!; [lia..|done|done].
Qed.

(** The behaviour of [schedule]: new alarms and signals, the choice, and the switch. *)
Definition scheduled (k : kernel) (k2 : kernel) (p : Z) : Prop :=
  exists k1 next, all_tasks (signalled (jiffies (k_sched k))) k k1 /\ sched_ok k1 /\ choice k1 k2 next /\
    idx (task (k_sched k)) next = Some (Some p).
Lemma schedule_spec k : sched_ok k -> switch_ok k ->
  mayrun schedule k
    (fun r k' => r = true /\ scheduled k k' (current (k_sched k)))
    (fun e k' => exists p k2 t, e = Switch p /\ p <> current (k_sched k) /\ scheduled k k2 p /\
       current (k_sched k') = p /\ tasks (k_sched k2) !! p = Some t /\ page_dir_table (k_mm k') = t_page_dir_table t).
Proof.
  intros Hok Hsw. unfold mayrun, schedule.
  pose proof (check_signals_spec k Hok) as (?&k1&E1&Ha&Hok1)%runs_Ok. erewrite bind_Ok by exact E1.
  pose proof (choose_spec k1 SCHED_FUEL Hok1 ltac:(unfold SCHED_FUEL; lia)) as (next&k2&E2&Hch)%runs_Ok. erewrite bind_Ok by exact E2.
  destruct (all_tasks_rest _ _ _ Ha) as (Et&Ec&_).
  destruct (choice_rest k1 k2 next Hch Hok1 (all_tasks_switch _ _ _ Ha Hok Hsw)) as (Hok2&Hsw2&Et2&Ec2&p&t&Hn&Hp&Ht).
  assert (scheduled k k2 p) as Hs by (exists k1, next; rewrite <- Et; done).
  pose proof (switch_to_spec k2 next p t Hsw2 Hn ltac:(by rewrite Et2) Ht) as Hsp. rewrite Ec2, Ec in Hsp.
  destruct (decide (p = current (k_sched k))) as [->|Hne].
  - by rewrite Hsp.
  - destruct Hsp as (k'&->&?&?&?). exists p, k2, t. by split_and!.
Qed.

(** ** Every runnable task is chosen *)

(** A chosen task runs until [do_timer] sets its counter to 0. *)
Definition expire (next : Z) : K unit :=
  let! p := task_at next in
  match p with Some p => mod_task p (fun t => t <| t_counter := 0 |>) | None => skip end.
Fixpoint quanta (n : nat) : K (list Z) :=
  match n with
  | O => ret []
  | S n =>
      let! next := choose SCHED_FUEL in
      expire next ;;;
      let! l := quanta n in
      ret (next :: l)
  end.

Definition pos (k : kernel) (i : Z) : bool :=
  match task_of k i with Some t => runnable t && (0 <? t_counter t) | None => false end.
Definition positives (k : kernel) : nat := length (filter (fun i => pos k i = true) (seqZ 1 63)).
Lemma filter_length_lt (P Q : Z -> bool) x l : x ∈ l -> Q x = true -> P x = false -> (forall y, P y = true -> Q y = true) ->
  (length (filter (fun i => P i = true) l) < length (filter (fun i => Q i = true) l))%nat.
Proof.
  intros Hx HQ HP HPQ. induction l as [|y l IH]; [set_solver|].
  assert (length (filter (fun i => P i = true) l) <= length (filter (fun i => Q i = true) l))%nat as Hle.
  { clear -HPQ. induction l as [|y l IH]; [done|]. rewrite !filter_cons. specialize (HPQ y).
    destruct (decide (P y = true)), (decide (Q y = true)); cbn; try lia. tauto. }
  rewrite !filter_cons. apply elem_of_cons in Hx as [<-|Hx].
  - rewrite decide_False, decide_True by congruence. cbn. lia.
  - specialize (IH Hx). specialize (HPQ y). destruct (decide (P y = true)), (decide (Q y = true)); cbn; try lia. tauto.
Qed.
Lemma slots_seqZ i : slots i <-> i ∈ seqZ 1 63.
Proof. unfold slots. rewrite elem_of_seqZ. unfold NR_TASKS. lia. Qed.

Lemma set_task_of k i p t t' j : sched_ok k -> idx (task (k_sched k)) i = Some (Some p) -> tasks (k_sched k) !! p = Some t ->
  task_of (set_task p t' k) j = if decide (j = i) then Some t' else task_of k j.
Proof.
  intros Hok Hp Ht. unfold task_of. change (task (k_sched (set_task p t' k))) with (task (k_sched k)).
  destruct (decide (j = i)) as [->|Hne]; [rewrite Hp; apply set_task_lookup|].
  destruct (idx (task (k_sched k)) j) as [[q|]|] eqn:Hq; try done.
  change (tasks (k_sched (set_task p t' k))) with (<[p := t']> (tasks (k_sched k))).
  rewrite lookup_insert_ne; [done|]. intros ->. apply Hne. by apply (so_distinct _ Hok j i q).
Qed.
Lemma set_task_ok k i p t t' : sched_ok k -> idx (task (k_sched k)) i = Some (Some p) -> tasks (k_sched k) !! p = Some t ->
  (slots i -> 0 <= t_counter t' < 2 ^ 30 /\ 1 <= t_priority t' < 2 ^ 29) -> sched_ok (set_task p t' k).
Proof.
  intros Hok Hp Ht Hb. pose proof (fun j => set_task_of k i p t t' j Hok Hp Ht) as Hof.
  split; change (task (k_sched (set_task p t' k))) with (task (k_sched k)); try apply Hok.
  - intros j q Hq. change (tasks (k_sched (set_task p t' k))) with (<[p := t']> (tasks (k_sched k))).
    destruct (decide (p = q)) as [->|]; [rewrite lookup_insert_eq; by eexists|]. rewrite lookup_insert_ne by done.
    by apply (so_live _ Hok j).
  - intros j u Hj Hu. rewrite Hof in Hu. case_decide; [simplify_eq; by apply Hb|by apply (so_counter _ Hok j)].
  - intros j u Hj Hu. rewrite Hof in Hu. case_decide; [simplify_eq; by apply Hb|by apply (so_priority _ Hok j)].
Qed.
Lemma expire_spec k i p t : sched_ok k -> idx (task (k_sched k)) i = Some (Some p) -> tasks (k_sched k) !! p = Some t ->
  exists k', expire i k = Ok tt k' /\ sched_ok k' /\ (switch_ok k -> switch_ok k') /\
    forall j, task_of k' j = if decide (j = i) then Some (t <| t_counter := 0 |>) else task_of k j.
Proof.
  intros Hok Hp Ht. exists (set_task p (t <| t_counter := 0 |>) k). split_and!.
  - unfold expire. erewrite bind_Ok by by apply task_at_Ok. by apply mod_task_Ok.
  - apply (set_task_ok k i p t); [done..|]. intros Hi. rsimpl. split; [lia|]. apply (so_priority _ Hok i); [done|].
    unfold task_of. by rewrite Hp.
  - intros [H1 H2 H3 [tc H4]]. split; try done. change (tasks (k_sched (set_task p (t <| t_counter := 0 |>) k))) with (<[p := t <| t_counter := 0 |>]> (tasks (k_sched k))).
    change (current (k_sched (set_task p (t <| t_counter := 0 |>) k))) with (current (k_sched k)).
    destruct (decide (p = current (k_sched k))) as [->|]; [rewrite lookup_insert_eq; by eexists|rewrite lookup_insert_ne by done; by eexists].
  - intros j. by apply (set_task_of k i p t).
Qed.

(** Within how many quanta task [j] is chosen, at most. *)
Definition distance (k : kernel) (j : Z) : nat := if pos k j then positives k else (positives k + 64)%nat.
Definition runs_at (k : kernel) (j : Z) : Prop := exists t, task_of k j = Some t /\ runnable t = true.

Lemma positives_bound k : (positives k <= 63)%nat.
Proof. unfold positives. etrans; [apply length_filter|]. by rewrite length_seqZ. Qed.
Lemma distance_pos k j : slots j -> (1 <= distance k j)%nat.
Proof.
  intros Hj. unfold distance. destruct (pos k j) eqn:E; [|lia]. unfold positives.
  assert (j ∈ filter (fun i => pos k i = true) (seqZ 1 63)) as H by (apply list_elem_of_filter; split; [done|by apply slots_seqZ]).
  destruct (filter _ _); [set_solver|cbn; lia].
Qed.
Lemma quantum_step k j : sched_ok k -> switch_ok k -> slots j -> runs_at k j ->
  runs (let! next := choose SCHED_FUEL in expire next ;;; ret next) k (fun next k' =>
    sched_ok k' /\ switch_ok k' /\ runs_at k' j /\ (next = j \/ (distance k' j < distance k j)%nat)).
Proof.
  intros Hok Hsw Hj (tj&Htj&Hrj). apply runs_bind. eapply runs_mono; [|apply (choose_spec k); [done|unfold SCHED_FUEL; lia]].
  intros next k1 Hch. destruct (choice_rest k k1 next Hch Hok Hsw) as (Hok1&Hsw1&Et&_&p&t&Hn&Hp&Ht). rewrite <- Et in Hp.
  destruct (expire_spec k1 next p t Hok1 Hp Ht) as (k'&E&Hok'&Hsw'&Hof). eapply runs_step; [exact E|]. apply runs_ret.
  assert (task_of k1 next = Some t) as Htn by (unfold task_of; by rewrite Hp).
  assert (exists t1, task_of k1 j = Some t1 /\ runnable t1 = true /\ (k1 = k /\ chosen k next \/ 0 < t_counter t1 /\ all_used_up k /\ chosen k1 next)) as (t1&Ht1&Hr1&Hcase).
  { destruct Hch as (_&[(->&[[_ Hno]|Hc])|(Hup&Ha&Hc)]).
    - by rewrite (Hno j tj Hj Htj) in Hrj.
    - exists tj. split_and!; try done. by left.
    - exists (recounted tj). rewrite (all_tasks_of recounted k k1 j Ha Hok Hj), Htj. split_and!; [done|done|].
      right. destruct (recounted_value k j tj Hok Hj Htj). split_and!; [lia|done..]. }
  assert (slots next /\ pos k1 next = true) as [Hsn Hpn].
  { assert (chosen k1 next) as (tn&Hsn&Htn'&Hrn&Hcn&_) by (destruct Hcase as [[-> ?]|(_&_&?)]; done).
    split; [done|]. unfold pos. rewrite Htn', Hrn. cbn. lia. }
  split_and!; [done|by apply Hsw'| |].
  - unfold runs_at. rewrite Hof. case_decide; [|by exists t1]. subst. eexists. split; [done|].
    assert (t1 = t) as -> by congruence. done.
  - destruct (decide (next = j)) as [|Hne]; [by left|]. right.
    assert (pos k' j = pos k1 j) as Epos by (unfold pos; rewrite Hof; by case_decide).
    assert (positives k' < positives k1)%nat as Hlt.
    { apply (filter_length_lt _ _ next); [by apply slots_seqZ|done| |].
      - unfold pos. rewrite Hof, decide_True by done. rsimpl. apply andb_false_r.
      - intros y. unfold pos. rewrite Hof. case_decide; [|done]. rsimpl. by rewrite andb_false_r. }
    unfold distance. rewrite Epos. pose proof (positives_bound k1). destruct Hcase as [[-> _]|(Hpos&Hup&_)].
    + destruct (pos k j); lia.
    + assert (pos k1 j = true) as -> by (unfold pos; rewrite Ht1, Hr1; cbn; lia).
      assert (pos k j = false) as -> by (unfold pos; rewrite Htj, Hrj, (proj1 Hup j tj Hj Htj Hrj); done). lia.
Qed.
Lemma quanta_reach j n : forall k, sched_ok k -> switch_ok k -> slots j -> runs_at k j ->
  runs (quanta n) k (fun l _ => (distance k j <= n)%nat -> j ∈ l).
Proof.
  induction n as [|n IH]; intros k Hok Hsw Hj Hr; cbn [quanta].
  { apply runs_ret. intros Hd. pose proof (distance_pos k j Hj). lia. }
  pose proof (quantum_step k j Hok Hsw Hj Hr) as (next&k'&E&Hok'&Hsw'&Hr'&Hnext)%runs_Ok.
  apply bind_Ok_inv in E as (nx&k1&E1&E). apply bind_Ok_inv in E as ([]&k2&E2&[= <- <-]).
  eapply runs_step; [exact E1|]. eapply runs_step; [exact E2|]. apply runs_bind. eapply runs_mono; [|by apply IH].
  intros l k'' H. apply runs_ret. intros Hd. apply elem_of_cons. destruct Hnext as [->|Hlt]; [by left|right; apply H; lia].
Qed.

(** ** A wait queue with two sleepers *)

(** What the wait queue head is, as a property of the state. *)
Definition head_is (q : waitq) (k : kernel) (v : option Z) : Prop := get_waitq q k = Ok v k.
Definition state_of (k : kernel) (p : Z) : option Z := t_state <$> tasks (k_sched k) !! p.

Lemma set_waitq_spec k q v w : head_is q k w -> exists k', set_waitq q v k = Ok tt k' /\ head_is q k' v /\ k_sched k' = k_sched k.
Proof.
  unfold head_is, get_waitq, set_waitq. intros H. destruct q as [b| | |i|i|t q].
  - apply bind_Ok_inv in H as (h&k1&E&_). unfold get_bh in E. apply bind_Ok_inv in E as (l&k2&[= <- <-]&E).
    destruct (buffers (k_blk k) !! b) as [h'|] eqn:Hb; [|done]. injection E as -> <-. eexists. split; [by eapply mod_bh_Ok|]. split; [|done].
    by erewrite bind_Ok by (apply get_bh_Ok; rsimpl; apply list_lookup_insert_eq; by eapply lookup_lt_Some).
  - by eexists.
  - by eexists.
  - apply bind_Ok_inv in H as (h&k1&E&_). unfold get_inode in E. apply bind_Ok_inv in E as (l&k2&[= <- <-]&E).
    destruct (inode_table (k_fs k) !! i) as [h'|] eqn:Hb; [|done]. injection E as -> <-. unfold mod_inode.
    eexists. split; [by erewrite bind_Ok by by apply get_inode_Ok|]. split; [|done].
    by erewrite bind_Ok by (apply get_inode_Ok; rsimpl; apply list_lookup_insert_eq; by eapply lookup_lt_Some).
  - apply bind_Ok_inv in H as (h&k1&E&_). unfold get_sb in E. apply bind_Ok_inv in E as (l&k2&[= <- <-]&E).
    destruct (super_blocks (k_fs k) !! i) as [h'|] eqn:Hb; [|done]. injection E as -> <-. unfold mod_sb, get_sb.
    eexists. split; [rewrite bind_assoc; erewrite bind_Ok by reflexivity; rewrite Hb; by erewrite bind_Ok by reflexivity|]. split; [|done].
    rewrite bind_assoc. erewrite bind_Ok by reflexivity. rsimpl. rewrite list_lookup_insert_eq by by eapply lookup_lt_Some. done.
  - apply bind_Ok_inv in H as (h&k1&E&_). unfold get_tty in E. apply bind_Ok_inv in E as (l&k2&[= <- <-]&E).
    destruct (idx (tty_table (k_tty k)) t) as [h'|] eqn:Hb; [|done]. injection E as -> <-. unfold mod_queue, mod_tty, get_tty.
    eexists. split; [rewrite bind_assoc; erewrite bind_Ok by reflexivity; rewrite Hb; by erewrite bind_Ok by reflexivity|]. split; [|done].
    rewrite bind_assoc. erewrite bind_Ok by reflexivity. rsimpl. rewrite idx_upd_eq by by eapply idx_Some_bound. by destruct q.
Qed.
Lemma head_is_sched k k' q v : head_is q k v -> k_blk k' = k_blk k -> k_fs k' = k_fs k -> k_tty k' = k_tty k -> head_is q k' v.
Proof.
  unfold head_is. destruct k as [m b f s p t], k' as [m' b' f' s' p' t']. cbn. intros H -> -> ->.
  destruct q; cbn in *; unfold get_bh, get_inode, get_sb, get_tty, bind, gets, ret in *; cbn in *; try congruence;
  match goal with |- context [unwrap _ ?o] => destruct o; cbn in *; congruence end.
Qed.
(** Completing the interrupt touches only device registers. *)
Lemma interrupt_recover_Ok {BD : Board} k : exists d, interrupt_recover k = Ok tt (k <| k_dev := d |>).
Proof.
  unfold interrupt_recover. erewrite bind_Ok by reflexivity.
  destruct (trap_from_interrupt (k_sched k)); [by eexists|]. exists (k_dev k). by destruct k.
Qed.
Lemma switch_resume_Ok {BD : Board} ti k : exists d m,
  switch_resume ti k = Ok false (k <| k_dev := d |> <| k_sched ::= fun s => s <| trap_info := ti |> |> <| k_pmem := m |>).
Proof.
  destruct (interrupt_recover_Ok k) as [d E]. exists d. unfold switch_resume. erewrite bind_Ok by exact E.
  unfold pte_common_enable_user, pte_common_disable_user, mod_pte. erewrite bind_Ok by reflexivity.
  destruct (_ <? _); by eexists.
Qed.
Lemma sleep_on_spec k q v t : head_is q k v -> current (k_sched k) <> init_task ->
  tasks (k_sched k) !! current (k_sched k) = Some t ->
  exists k', @sleep_on unit q k = Stop (Sleep q) k' /\ head_is q k' (Some (current (k_sched k))) /\
    k_sched k' = k_sched (set_task (current (k_sched k)) (t <| t_state := TASK_UNINTERRUPTIBLE |>) k).
Proof.
  intros Hq Hne Ht. unfold sleep_on. erewrite bind_Ok by reflexivity. apply Z.eqb_neq in Hne as ->.
  destruct (set_waitq_spec k q (Some (current (k_sched k))) v Hq) as (k1&E1&Hq1&Es). erewrite bind_Ok by exact E1.
  assert (mod_cur (fun t => t <| t_state := TASK_UNINTERRUPTIBLE |>) k1 =
    Ok tt (set_task (current (k_sched k)) (t <| t_state := TASK_UNINTERRUPTIBLE |>) k1)) as E2.
  { unfold mod_cur. erewrite bind_Ok by reflexivity. rewrite Es. apply mod_task_Ok. by rewrite Es. }
  erewrite bind_Ok by exact E2. eexists. split; [reflexivity|]. split.
  - by apply (head_is_sched k1).
  - unfold set_task. rsimpl. by rewrite Es.
Qed.

Module SchedProps.

(** C11: [schedule] always comes to a decision, and switches to the right task.  When every task has a
    positive priority, it never loops for ever: after the alarms and signals have been looked at, it
    takes the runnable task with the largest counter if that is positive; if all runnable tasks have
    used up their time, it gives every task the counter [counter / 2 + priority] once and then takes
    the runnable task with the largest new counter; if no task is runnable it takes task 0.  It returns
    [true] if that is the running task, and otherwise switches to it, with its page directory. *)
Theorem schedule_chooses k : sched_ok k -> switch_ok k ->
  mayrun schedule k
    (fun r k' => r = true /\ scheduled k k' (current (k_sched k)))
    (fun e k' => exists p k2 t, e = Switch p /\ p <> current (k_sched k) /\ scheduled k k2 p /\
       current (k_sched k') = p /\ tasks (k_sched k2) !! p = Some t /\ page_dir_table (k_mm k') = t_page_dir_table t).
Proof. apply schedule_spec. Qed.

(** Two tasks besides the first one: task 1 has used up its time, task 2 sleeps for a signal. *)
Definition demo_task1 : task_struct := zero_task <| t_priority := 15 |> <| t_pid := 1 |>.
Definition demo_task2 : task_struct := zero_task <| t_priority := 15 |> <| t_pid := 2 |> <| t_counter := 3 |>
  <| t_state := TASK_INTERRUPTIBLE |>.
Definition demo_sched : kernel := kernel0 <| k_sched ::= fun s =>
  s <| tasks := {[init_task := zero_task; 4096 := demo_task1; 8192 := demo_task2]} |>
    <| task := Some init_task :: Some 4096 :: Some 8192 :: replicate 61 None |> |>.
Lemma demo_sched_idx i p : idx (task (k_sched demo_sched)) i = Some (Some p) -> (i = 0 /\ p = init_task) \/ (i = 1 /\ p = 4096) \/ (i = 2 /\ p = 8192).
Proof.
  unfold idx. destruct (Z.ltb_spec i 0); [done|]. change (task (k_sched demo_sched)) with (Some init_task :: Some 4096 :: Some 8192 :: replicate 61 None).
  destruct (Z.to_nat i) as [|[|[|n]]] eqn:E; cbn [lookup list_lookup]; [intros [= <-]; lia..|]. intros H0. apply lookup_replicate in H0 as [? _]. done.
Qed.
Lemma demo_sched_task i t : task_of demo_sched i = Some t -> i = 0 /\ t = zero_task \/ t = demo_task1 \/ t = demo_task2.
Proof.
  unfold task_of. destruct (idx _ i) as [[p|]|] eqn:E; try done. apply demo_sched_idx in E.
  assert (tasks (k_sched demo_sched) !! init_task = Some zero_task) by reflexivity.
  assert (tasks (k_sched demo_sched) !! 4096 = Some demo_task1) by reflexivity.
  assert (tasks (k_sched demo_sched) !! 8192 = Some demo_task2) by reflexivity.
  destruct E as [[-> ->]|[[_ ->]|[_ ->]]]; intros Ht; [left|right; left|right; right]; split_and?; congruence.
Qed.
Lemma demo_sched_ok : sched_ok demo_sched.
Proof.
  split.
  - done.
  - intros i p H. apply demo_sched_idx in H. destruct H as [[_ ->]|[[_ ->]|[_ ->]]];
      [exists zero_task|exists demo_task1|exists demo_task2]; reflexivity.
  - intros i j p Hi%demo_sched_idx Hj%demo_sched_idx. unfold init_task in *. lia.
  - intros i t _ [[_ ->]|[->| ->]]%demo_sched_task; split; vm_compute; congruence.
  - intros i t [Hi _] [[-> _]|[->| ->]]%demo_sched_task; [lia|split; vm_compute; congruence..].
Qed.
Lemma demo_switch_ok : switch_ok demo_sched.
Proof. split; try done; by eexists. Qed.
Lemma schedule_chooses_witness :
  mayrun schedule demo_sched (fun r k' => False) (fun e k' => e = Switch 4096 /\ current (k_sched k') = 4096).
Proof.
  pose proof (schedule_chooses demo_sched demo_sched_ok demo_switch_ok) as H. unfold mayrun in *.
  assert (match schedule demo_sched with Stop (Switch p) _ => p =? 4096 | _ => false end = true) as E by (vm_compute; reflexivity).
  destruct (schedule demo_sched) as [r k'|e k']; [discriminate|].
  destruct H as (p&k2&t&->&_&_&Hc&_). apply Z.eqb_eq in E as ->. split; [reflexivity|exact Hc].
Defined.

(** C27: no runnable task is starved.  If the tasks that are chosen use up their time, a runnable task
    is chosen within 127 decisions, whatever the counters and priorities are: at most 64 until the
    counters are renewed, and then at most 63 others have time left. *)
Theorem runnable_task_is_chosen k j : sched_ok k -> switch_ok k -> slots j -> runs_at k j ->
  runs (quanta 127) k (fun l _ => j ∈ l).
Proof.
  intros Hok Hsw Hj Hr. eapply runs_mono; [|by apply (quanta_reach j 127)]. intros l k' H. apply H.
  unfold distance. pose proof (positives_bound k). destruct (pos k j); lia.
Qed.
Lemma runnable_task_is_chosen_witness : runs (quanta 127) demo_sched (fun l _ => 1 ∈ l).
Proof.
  apply (runnable_task_is_chosen demo_sched 1); [apply demo_sched_ok|apply demo_switch_ok|split; vm_compute; congruence|].
  exists demo_task1. split; reflexivity.
Defined.

(** a wait queue with two sleepers loses the first one.  [A] sleeps on the queue; [B] calls
    [sleep_on], which leaves [B] as the head and [A] only in the variable [tmp] of [B].  [wake_up]
    makes [B] runnable; but when [B] is resumed, [switch_to] and so [schedule] return [false], and
    [sleep_on] wakes [tmp] only if [schedule] returned [true].  [A] still sleeps uninterruptibly and
    the queue does not lead to it any more. *)
Theorem sleep_on_loses_first_sleeper {BD : Board} k q A tA tB ti : let B := current (k_sched k) in
  head_is q k (Some A) -> B <> init_task -> A <> B -> tasks (k_sched k) !! A = Some tA ->
  t_state tA = TASK_UNINTERRUPTIBLE -> tasks (k_sched k) !! B = Some tB ->
  exists k1 k2 k3, @sleep_on unit q k = Stop (Sleep q) k1 /\
    (let! h := get_waitq q in wake_up h) k1 = Ok tt k2 /\ state_of k2 B = Some TASK_RUNNING /\
    (let! r := switch_resume ti in sleep_on_resume r (Some A)) k2 = Ok tt k3 /\
    state_of k3 A = Some TASK_UNINTERRUPTIBLE /\ head_is q k3 (Some B).
Proof.
  intros B Hq HB Hne HA Hst HtB. destruct (sleep_on_spec k q (Some A) tB Hq HB HtB) as (k1&E1&Hq1&Es1). fold B in Hq1, Es1.
  set (tB1 := tB <| t_state := TASK_UNINTERRUPTIBLE |>) in *.
  assert (tasks (k_sched k1) !! B = Some tB1) as HB1 by (rewrite Es1; apply set_task_lookup).
  set (k2 := set_task B (tB1 <| t_state := TASK_RUNNING |>) k1).
  destruct (switch_resume_Ok ti k2) as (d & m & E3).
  eexists k1, k2, _. split_and!.
  - done.
  - erewrite bind_Ok by exact Hq1. by apply mod_task_Ok.
  - unfold state_of, k2. by rewrite set_task_lookup.
  - erewrite bind_Ok by exact E3. reflexivity.
  - unfold state_of. rsimpl. unfold k2, set_task. rsimpl. rewrite lookup_insert_ne by done. rewrite Es1. unfold set_task. rsimpl.
    rewrite lookup_insert_ne by done. rewrite HA. cbn. by rewrite Hst.
  - by apply (head_is_sched k1).
Qed.
Definition demo_sleepers : kernel := demo_sched <| k_sched ::= fun s => s <| current := 8192 |>
  <| tasks ::= fun l => <[4096 := demo_task1 <| t_state := TASK_UNINTERRUPTIBLE |>]> l |> |>
  <| k_blk ::= fun s => s <| buffer_wait := Some 4096 |> |>.
Definition quiet_board : Board := {| io_reply := fun _ _ => 0; core_id := 0; meip_pending := fun _ => false |}.
Lemma sleep_on_loses_first_sleeper_witness (BD := quiet_board) :
  exists k1 k2 k3, @sleep_on unit WaitBufferFree demo_sleepers = Stop (Sleep WaitBufferFree) k1 /\
    (let! h := get_waitq WaitBufferFree in wake_up h) k1 = Ok tt k2 /\ state_of k2 8192 = Some TASK_RUNNING /\
    (let! r := switch_resume (mkTrapInfo 0 0 0 0 0 0) in sleep_on_resume r (Some 4096)) k2 = Ok tt k3 /\
    state_of k3 4096 = Some TASK_UNINTERRUPTIBLE /\ head_is WaitBufferFree k3 (Some 8192).
Proof.
  apply (sleep_on_loses_first_sleeper demo_sleepers WaitBufferFree 4096 (demo_task1 <| t_state := TASK_UNINTERRUPTIBLE |>) demo_task2);
    [reflexivity|discriminate|discriminate|reflexivity|reflexivity|reflexivity].
Defined.
End SchedProps.
