(* ===== verification/Plic.v ===== *)
(** * The interrupt controller and the timers (drivers/plic.c, drivers/timer.c)

    The tables [plic_instance], [timer_instance] and [time_irq] hold the functions to call, as addresses;
    [call] is the call of such a function.  [handle_irq_m_ext] claims an interrupt, raises the threshold
    to its priority, calls its function and completes it.  A timer has one source for its channels 0 and
    1 and one for 2 and 3; [timer_interrupt_handler] serves all channels that are pending.

    The control registers (interrupt enables) are not modelled: interrupts are not nested here. *)
From Stdlib Require Import ZArith Lia String.
From stdpp Require Import base list gmap.
From S2P Require Import Prelude State Mmio Sched.
Open Scope Z_scope.

Section Plic.
Context {BD : Board}.

(** [plic_instance[core_id][i]]; an index outside the table is a fault. *)
Definition get_instance (core i : Z) : K plic_instance_t :=
  let! t := gets (fun k => idx (plic_instance (k_dev k)) core) in
  let! l := unwrap "plic_instance core" t in
  unwrap "plic_instance source" (idx l i).
Definition set_instance (core i : Z) (x : plic_instance_t) : K unit :=
  let! _ := get_instance core i in
  mod_dev (fun d => d <| plic_instance ::= fun t => upd_idx t core (upd_idx (default [] (idx t core)) i x) |>).

Definition plic_init : K unit :=
  for_up 0 (Z.to_nat ((PLIC_NUM_SOURCES + 32) / 32)) (fun i => writel (plic_enable core_id i) 0) ;;;
  let! flag := gets (fun k => s_plic_priorities_init_flag (k_dev k)) in
  when (flag =? 0) (
    for_up 0 (Z.to_nat PLIC_NUM_SOURCES) (fun i => writel (plic_priority i) 0) ;;;
    mod_dev (fun d => d <| s_plic_priorities_init_flag := 1 |>)) ;;;
  writel (plic_threshold core_id) 0 ;;;
  for_up 0 IRQN_MAX (fun i => set_instance core_id i (mkPlicInstance 0 0)) ;;;
  loop 101 (fun i =>
    let! c := readl (plic_claim_complete core_id) in
    if (0 <? c) && (i <? 100) then ret (inl (i + 1)) else ret (inr tt)) 0.

(** [PLIC_NUM_SOURCES < irq_number || 0 > irq_number] *)
Definition bad_irq (irq : Z) : bool := (PLIC_NUM_SOURCES <? irq) || (irq <? 0).
Definition plic_irq_enable (irq : Z) : K Z :=
  if bad_irq irq then ret (-1)
  else
    let! current := readl (plic_enable core_id (irq / 32)) in
    writel (plic_enable core_id (irq / 32)) (Z.lor current (Z.shiftl 1 (irq mod 32))) ;;;
    ret 0.
Definition plic_irq_disable (irq : Z) : K Z :=
  if bad_irq irq then ret (-1)
  else
    let! current := readl (plic_enable core_id (irq / 32)) in
    writel (plic_enable core_id (irq / 32)) (Z.land current (Z.lnot (Z.shiftl 1 (irq mod 32)))) ;;;
    ret 0.
Definition plic_set_priority (irq priority : Z) : K Z :=
  if bad_irq irq then ret (-1) else writel (plic_priority irq) priority ;;; ret 0.
Definition plic_get_priority (irq : Z) : K Z :=
  if bad_irq irq then ret 0 else readl (plic_priority irq).
Definition plic_irq_claim : K Z := readl (plic_claim_complete core_id).
Definition plic_irq_complete (source : Z) : K Z := writel (plic_claim_complete core_id) source ;;; ret 0.
Definition plic_irq_register (irq callback ctx : Z) : K unit := set_instance core_id irq (mkPlicInstance callback ctx).
Definition plic_irq_unregister (irq : Z) : K unit := plic_irq_register irq 0 0.

Definition set_int_info (num threshold : Z) : K unit :=
  mod_sched (fun s => s <| trap_info ::= fun ti => ti <| ti_int_num := num |> <| ti_int_threshold := threshold |> |>).
(** [if(plic_instance[core_id][int_num].callback) plic_instance[core_id][int_num].callback(...)] *)
Definition call_instance (call : Z -> Z -> K Z) (num : Z) : K unit :=
  let! pi := get_instance core_id num in
  if truth (pi_callback pi) then let! _ := call (pi_callback pi) (pi_ctx pi) in skip else skip.
Definition handle_irq_m_ext (call : Z -> Z -> K Z) (epc : Z) : K Z :=
  let! pending := gets (fun k => meip_pending (io_log (k_dev k))) in
  when pending (
    let! num := readl (plic_claim_complete core_id) in
    let! threshold := readl (plic_threshold core_id) in
    set_int_info num threshold ;;;
    let! priority := readl (plic_priority num) in
    writel (plic_threshold core_id) priority ;;;
    call_instance call num ;;;
    writel (plic_claim_complete core_id) num ;;;
    writel (plic_threshold core_id) threshold) ;;;
  ret epc.
(** The variant for supervisor mode looks neither at [mip] nor at [trap_info]. *)
Definition handle_irq_s_ext (call : Z -> Z -> K Z) (epc : Z) : K Z :=
  let! num := readl (plic_claim_complete core_id) in
  let! threshold := readl (plic_threshold core_id) in
  let! priority := readl (plic_priority num) in
  writel (plic_threshold core_id) priority ;;;
  call_instance call num ;;;
  writel (plic_claim_complete core_id) num ;;;
  writel (plic_threshold core_id) threshold ;;;
  ret epc.

(** ** Timers *)
Definition timer_enable (n c : Z) : K unit :=
  let! v := readl (timer_control n c) in writel (timer_control n c) (Z.lor v 1).
Definition timer_disable (n c : Z) : K unit :=
  let! v := readl (timer_control n c) in writel (timer_control n c) (Z.land v (Z.lnot 1)).
Definition timer_enable_pwm (n c : Z) : K unit :=
  let! v := readl (timer_control n c) in writel (timer_control n c) (Z.lor v 8).
Definition timer_disable_pwm (n c : Z) : K unit :=
  let! v := readl (timer_control n c) in writel (timer_control n c) (Z.land v (Z.lnot 8)).
Definition timer_enable_interrupt (n c : Z) : K unit :=
  let! v := readl (timer_control n c) in writel (timer_control n c) (Z.land v (Z.lnot 4)).
Definition timer_disable_interrupt (n c : Z) : K unit :=
  let! v := readl (timer_control n c) in writel (timer_control n c) (Z.lor v 4).
Definition timer_set_mode (n c mode : Z) : K unit :=
  let! v := readl (timer_control n c) in
  writel (timer_control n c) (Z.land v (Z.lnot 2)) ;;;
  let! v := readl (timer_control n c) in
  writel (timer_control n c) (Z.lor v mode).
Definition timer_set_reload (n c count : Z) : K unit := writel (timer_load_count n c) count.
Definition timer_set_reload2 (n c count : Z) : K unit := writel (timer_load_count2 n c) count.
Definition timer_get_count (n c : Z) : K Z := readl (timer_current_value n c).
Definition timer_get_reload (n c : Z) : K Z := readl (timer_load_count n c).
Definition timer_get_reload2 (n c : Z) : K Z := readl (timer_load_count2 n c).
Definition timer_get_interrupt_status (n : Z) : K Z := readl (timer_intr_stat n).
Definition timer_get_raw_interrupt_status (n : Z) : K Z := readl (timer_raw_intr_stat n).
Definition timer_channel_get_interrupt_status (n c : Z) : K Z := readl (timer_channel_intr_stat n c).
Definition timer_clear_interrupt (n : Z) : K unit := let! v := readl (timer_eoi n) in writel (timer_eoi n) v.
Definition timer_channel_clear_interrupt (n c : Z) : K unit :=
  let! v := readl (timer_channel_eoi n c) in writel (timer_channel_eoi n c) v.
Definition timer_set_enable (n c enable : Z) : K unit :=
  writel (timer_control n c) (if truth enable then 2 + 1 else 4).

(** [timer_instance[device][channel]] *)
Definition get_timer_instance (n c : Z) : K timer_instance_t :=
  let! t := gets (fun k => idx (timer_instance (k_dev k)) n) in
  let! l := unwrap "timer_instance device" t in
  unwrap "timer_instance channel" (idx l c).
Definition set_timer_instance (n c : Z) (x : timer_instance_t) : K unit :=
  let! _ := get_timer_instance n c in
  mod_dev (fun d => d <| timer_instance ::= fun t => upd_idx t n (upd_idx (default [] (idx t n)) c x) |>).

Definition get_timer_irqn_by_device_and_channel (device channel : Z) : Z :=
  if (device <? TIMER_DEVICE_MAX) && (channel <? TIMER_CHANNEL_MAX) then
    if channel <? 2 then IRQN_TIMER0A_INTERRUPT + device * 2 else IRQN_TIMER0B_INTERRUPT + device * 2
  else 0.

(** One channel of [timer_interrupt_handler]: bit [i] of the status. *)
Definition serve_channel (call : Z -> Z -> K Z) (device stat i : Z) : K unit :=
  when (Z.testbit stat i) (
    let! ti := get_timer_instance device i in
    when (truth (tmi_callback ti)) (
      let! _ := call (tmi_callback ti) (tmi_ctx ti) in
      let! ti := get_timer_instance device i in
      when (truth (tmi_single_shot ti)) (timer_set_enable device i 0)) ;;;
    let! _ := readl (timer_channel_eoi device i) in
    skip).
Definition timer_interrupt_handler (call : Z -> Z -> K Z) (device ctx : Z) : K Z :=
  let! stat := readl (timer_intr_stat device) in
  for_up 0 (Z.to_nat TIMER_CHANNEL_MAX) (serve_channel call device stat) ;;;
  ret 0.

(** The addresses of [timer0_interrupt_callback], [timer1_interrupt_callback],
    [timer2_interrupt_callback] and of [timer_instance], which the linker chooses. *)
Definition timer_interrupt_callback (device : Z) : Z := 0x80010000 + 0x100 * device.
Definition timer_instance_addr (device : Z) : Z := 0x80040000 + 0x60 * device.
Definition timer_irq_register (device channel single_shot priority callback ctx : Z) : K Z :=
  if (device <? TIMER_DEVICE_MAX) && (channel <? TIMER_CHANNEL_MAX) then
    let irq := get_timer_irqn_by_device_and_channel device channel in
    set_timer_instance device channel (mkTimerInstance callback ctx (b2z (truth single_shot))) ;;;
    let! _ := plic_set_priority irq priority in
    plic_irq_register irq (timer_interrupt_callback device) (timer_instance_addr device) ;;;
    let! _ := plic_irq_enable irq in
    ret 0
  else ret (-1).
Definition has_callback (device c : Z) : K bool :=
  let! ti := get_timer_instance device c in ret (truth (tmi_callback ti)).
(** [||] evaluates its second argument only if the first is false. *)
Definition either (a b : K bool) : K bool := let! x := a in if x then ret true else b.
Definition timer_irq_unregister (device channel : Z) : K Z :=
  if (device <? TIMER_DEVICE_MAX) && (channel <? TIMER_CHANNEL_MAX) then
    set_timer_instance device channel (mkTimerInstance 0 0 0) ;;;
    let! idle :=
      either (let! a := either (has_callback device 0) (has_callback device 1) in ret (negb a))
             (let! b := either (has_callback device 2) (has_callback device 3) in ret (negb b)) in
    when idle (plic_irq_unregister (get_timer_irqn_by_device_and_channel device channel)) ;;;
    ret 0
  else ret (-1).

(** The older interface: one function per channel, called by [timer_isr]. *)
Definition get_time_irq (n c : Z) : K Z :=
  let! t := gets (fun k => idx (time_irq (k_dev k)) n) in
  let! l := unwrap "time_irq device" t in
  unwrap "time_irq channel" (idx l c).
Definition timer_isr_addr : Z := 0x80010800.
(** The lowest pending channel of the four. *)
Fixpoint isr_scan (call : Z -> K unit) (n channel i : Z) (rounds : nat) : K unit :=
  match rounds with
  | O => skip
  | S r =>
      if truth (Z.land channel 1) then
        let! f := get_time_irq n i in
        when (truth f) (let! f := get_time_irq n i in call f)
      else isr_scan call n (Z.shiftr channel 1) (i + 1) r
  end.
Definition timer_isr (call : Z -> K unit) (parm : Z) : K Z :=
  let n := if parm =? timer_base 0 then 0 else if parm =? timer_base 1 then 1 else if parm =? timer_base 2 then 2 else 3 in
  if n =? 3 then fault "timer[3]"
  else
    let! channel := readl (timer_intr_stat n) in
    isr_scan call n channel 0 4 ;;;
    let! _ := readl (timer_eoi n) in
    ret 0.
Definition timer_set_irq (n c func priority : Z) : K unit :=
  let! _ := get_time_irq n c in
  mod_dev (fun d => d <| time_irq ::= fun t => upd_idx t n (upd_idx (default [] (idx t n)) c func) |>) ;;;
  let irq := (if c <? 2 then IRQN_TIMER0A_INTERRUPT else IRQN_TIMER0B_INTERRUPT) + n * 2 in
  let! _ := plic_set_priority irq priority in
  plic_irq_register irq timer_isr_addr (timer_base n) ;;;
  let! _ := plic_irq_enable irq in
  skip.
End Plic.
