(* ===== verification/Tty.v ===== *)
(** * The terminal (kernel/chr_drv/tty_io.c, serial.c and tty_ioctl.c; linux/tty.h)

    A tty has three queues: [read_q] with the bytes from the line, [write_q] with the bytes for the
    line and [secondary] with the input after editing.  A queue is named by the number of its tty and
    by [which_queue].  An access outside the array of a queue is a [Fault].

    [Uart] stands for the serial hardware: [uart_busy k] says that bit 5 of the line status register
    stays set, so that the loop of [rs_write] that polls it never ends ([Hang]). *)
From Stdlib Require Import ZArith Lia String.
From stdpp Require Import base list gmap.
From S2P Require Import Prelude State Pte PageAlloc PageTable BlockIO Buffer BufferCache PageFault UserMem Sched.
Open Scope Z_scope.

Class Uart := uart_busy : kernel -> bool.

(** ** The macros of linux/tty.h *)
Definition INC (a : Z) : Z := Z.land (u32 (a + 1)) (TTY_BUF_SIZE - 1).
Definition DEC (a : Z) : Z := Z.land (u32 (a - 1)) (TTY_BUF_SIZE - 1).
Definition EMPTY (a : tty_queue) : bool := q_head a =? q_tail a.
Definition LEFT (a : tty_queue) : Z := Z.land (u32 (q_tail a - q_head a - 1)) (TTY_BUF_SIZE - 1).
Definition FULL (a : tty_queue) : bool := LEFT a =? 0.
Definition CHARS (a : tty_queue) : Z := Z.land (u32 (q_head a - q_tail a)) (TTY_BUF_SIZE - 1).
(** [(signed char)x] *)
Definition s8 (x : Z) : Z := (x + 2 ^ 7) mod 2 ^ 8 - 2 ^ 7.
Definition get_queue (tty : Z) (q : which_queue) : K tty_queue := let! t := get_tty tty in ret (queue_of q t).
Definition LAST (tty : Z) (q : which_queue) : K Z :=
  let! a := get_queue tty q in unwrap "tty_queue.buf" (idx (q_buf a) (Z.land (TTY_BUF_SIZE - 1) (u32 (q_head a - 1)))).
Definition GETCH (tty : Z) (q : which_queue) : K Z :=
  let! a := get_queue tty q in
  let! c := unwrap "tty_queue.buf" (idx (q_buf a) (q_tail a)) in
  mod_queue tty q (fun a => a <| q_tail := INC (q_tail a) |>) ;;;
  ret c.
Definition PUTCH (c tty : Z) (q : which_queue) : K unit :=
  let! a := get_queue tty q in
  let! _ := unwrap "tty_queue.buf" (idx (q_buf a) (q_head a)) in
  mod_queue tty q (fun a => a <| q_buf := upd_idx (q_buf a) (q_head a) (u8 c) |>) ;;;
  mod_queue tty q (fun a => a <| q_head := INC (q_head a) |>).
Definition VINTR : Z := 0.
Definition VQUIT : Z := 1.
Definition VERASE : Z := 2.
Definition VKILL : Z := 3.
Definition VEOF : Z := 4.
Definition VTIME : Z := 5.
Definition VMIN : Z := 6.
Definition VSTART : Z := 8.
Definition VSTOP : Z := 9.
(** [tty -> termios.c_cc[i]] *)
Definition cc (i : Z) (t : tty_struct) : Z := default 0 (idx (c_cc (tt_termios t)) i).
Definition CR : Z := 13.
Definition NL : Z := 10.
(** [_L_FLAG], [_I_FLAG], [_O_FLAG] with the flags of termios.h *)
Definition _L_FLAG (f : Z) (t : tty_struct) : bool := truth (Z.land (c_lflag (tt_termios t)) f).
Definition _I_FLAG (f : Z) (t : tty_struct) : bool := truth (Z.land (c_iflag (tt_termios t)) f).
Definition _O_FLAG (f : Z) (t : tty_struct) : bool := truth (Z.land (c_oflag (tt_termios t)) f).
Definition L_ISIG := _L_FLAG 0x1.
Definition L_CANON := _L_FLAG 0x2.
Definition L_ECHO := _L_FLAG 0x8.
Definition L_ECHOCTL := _L_FLAG 0x200.
Definition I_NLCR := _I_FLAG 0x40.
Definition I_NOCR := _I_FLAG 0x80.
Definition I_CRNL := _I_FLAG 0x100.
Definition I_UCLC := _I_FLAG 0x200.
Definition O_POST := _O_FLAG 0x1.
Definition O_LCUC := _O_FLAG 0x2.
Definition O_NLCR := _O_FLAG 0x4.
Definition O_CRNL := _O_FLAG 0x8.
Definition O_NLRET := _O_FLAG 0x20.
(** ctype.h, in the C locale *)
Definition tolower (c : Z) : Z := if (65 <=? c) && (c <=? 90) then c + 32 else c.
Definition toupper (c : Z) : Z := if (97 <=? c) && (c <=? 122) then c - 32 else c.
Definition SIGINT : Z := 2.
Definition SIGQUIT : Z := 3.
Definition INTMASK : Z := _S SIGINT.
Definition QUITMASK : Z := _S SIGQUIT.
Definition ALRMMASK : Z := _S SIGALRM.
Definition TTY_CHANNEL_NUM : Z := 1.
(** Every queue holds less than this many characters. *)
Definition TTY_FUEL : nat := 1025.

(** ** serial.c: the line *)
(** The table [table_list] has the queues of tty 0. *)
Definition serial_send_interrupt : K unit :=
  let! cur := get_queue 0 WriteQ in
  wake_up (q_proc_list cur) ;;;
  if truth (CHARS cur) then
    let! c := unwrap "tty_queue.buf" (idx (q_buf cur) (q_tail cur)) in
    modify (fun k => k <| k_tty ::= fun s => s <| uart_out ::= fun l => c :: l |> |>) ;;;
    mod_queue 0 WriteQ (fun a => a <| q_tail := INC (q_tail a) |>)
  else skip.
Section Terminal.
Context {UA : Uart} {SI : SyncInodes}.

Definition rs_write (tty : Z) : K unit :=
  let! a := get_queue tty WriteQ in
  if EMPTY a then skip
  else
    let! busy := gets uart_busy in
    if busy : bool then halt Hang else serial_send_interrupt.

(** ** tty_io.c *)
Definition tty_intr (tty mask : Z) : K unit :=
  let! t := get_tty tty in
  if tt_pgrp t <=? 0 then skip
  else
    for_up 0 NR_TASKS (fun i =>
      let! p := task_at i in
      match p with
      | None => skip
      | Some p =>
          let! s := get_task p in
          when (t_pgrp s =? tt_pgrp t) (mod_task p (fun s => s <| t_signal := Z.lor (t_signal s) mask |>))
      end).
Definition sleep_if_empty (tty : Z) (q : which_queue) : K unit :=
  loop SCHED_FUEL (fun _ =>
    let! t := cur in
    let! a := get_queue tty q in
    if (t_signal t =? 0) && EMPTY a then interruptible_sleep_on (WaitTty tty q) ;;; ret (inl tt)
    else ret (inr tt)) tt.
Definition sleep_if_full (tty : Z) (q : which_queue) : K unit :=
  let! a := get_queue tty q in
  if negb (FULL a) then skip
  else
    loop SCHED_FUEL (fun _ =>
      let! t := cur in
      let! a := get_queue tty q in
      if (t_signal t =? 0) && (LEFT a <? 128) then interruptible_sleep_on (WaitTty tty q) ;;; ret (inl tt)
      else ret (inr tt)) tt.
Definition wait_for_keypress : K unit := sleep_if_empty 0 SecondaryQ.

(** The echo of a character that is erased. *)
Definition echo_erase (tty c : Z) : K unit :=
  let! t := get_tty tty in
  when (L_ECHO t) (
    when (c <? 32) (PUTCH 127 tty WriteQ) ;;;
    PUTCH 127 tty WriteQ ;;;
    rs_write tty).
(** [while((!(EMPTY(tty -> secondary))) || ((c = LAST(tty -> secondary)) == '\n') || (c == EOF_CHAR(tty)))] *)
Definition kill_line (fuel : nat) (tty c : Z) : K unit :=
  loop fuel (fun c =>
    let! t := get_tty tty in
    let! (go, c) :=
      if negb (EMPTY (secondary t)) then ret (true, c)
      else let! l := LAST tty SecondaryQ in ret ((s8 l =? NL) || (s8 l =? cc VEOF t), s8 l) in
    if go : bool then
      echo_erase tty c ;;;
      mod_queue tty SecondaryQ (fun a => a <| q_head := DEC (q_head a) |>) ;;;
      ret (inl c)
    else ret (inr tt)) c.
Definition erase_char (tty : Z) : K unit :=
  let! t := get_tty tty in
  if EMPTY (secondary t) then skip
  else
    let! l := LAST tty SecondaryQ in
    let c := s8 l in
    if (c =? NL) || (c =? cc VEOF t) then skip
    else
      echo_erase tty c ;;;
      mod_queue tty SecondaryQ (fun a => a <| q_head := DEC (q_head a) |>).
(** The end of the loop of [copy_to_cooked]: the character is entered and echoed. *)
Definition enter_char (tty c : Z) : K unit :=
  let! t := get_tty tty in
  when ((c =? NL) || (c =? cc VEOF t)) (mod_queue tty SecondaryQ (fun a => a <| q_data := u32 (q_data a + 1) |>)) ;;;
  when (L_ECHO t) (
    (if c =? NL then PUTCH CR tty WriteQ ;;; PUTCH NL tty WriteQ
     else if c <? 32 then when (L_ECHOCTL t) (PUTCH 94 tty WriteQ ;;; PUTCH (c + 64) tty WriteQ)
     else PUTCH c tty WriteQ) ;;;
    rs_write tty) ;;;
  PUTCH c tty SecondaryQ.
(** The character of the line after the translations, [None] if it is dropped. *)
Definition translate_input (t : tty_struct) (c : Z) : option Z :=
  let lower c := if I_UCLC t then s8 (tolower c) else c in
  if c =? CR then
    if I_CRNL t then Some (lower NL) else if I_NOCR t then None else Some (lower c)
  else if (c =? NL) && I_NLCR t then Some (lower CR)
  else Some (lower c).
Definition cook_char (tty c : Z) : K unit :=
  let! t := get_tty tty in
  match translate_input t c with
  | None => skip
  | Some c =>
      if L_CANON t && (c =? cc VKILL t) then kill_line TTY_FUEL tty c
      else if L_CANON t && (c =? cc VERASE t) then erase_char tty
      else if L_CANON t && (c =? cc VSTOP t) then mod_tty tty (fun t => t <| tt_stopped := 1 |>)
      else if L_CANON t && (c =? cc VSTART t) then mod_tty tty (fun t => t <| tt_stopped := 0 |>)
      else if L_ISIG t && (c =? cc VINTR t) then tty_intr tty INTMASK
      else if L_ISIG t && (c =? cc VQUIT t) then tty_intr tty QUITMASK
      else enter_char tty c
  end.
Definition copy_to_cooked (tty : Z) : K unit :=
  loop TTY_FUEL (fun _ =>
    let! t := get_tty tty in
    if negb (EMPTY (read_q t)) && negb (FULL (secondary t)) then
      let! b := GETCH tty ReadQ in
      cook_char tty (s8 b) ;;;
      ret (inl tt)
    else ret (inr tt)) tt ;;;
  let! t := get_tty tty in
  wake_up (q_proc_list (secondary t)).
Definition do_tty_interrupt (tty : Z) : K unit := copy_to_cooked tty.
(** [rbr] is what is read from the receive register. *)
Definition serial_rev_interrupt (rbr : Z) : K unit :=
  let! cur := get_queue 0 ReadQ in
  when (CHARS cur <? TTY_BUF_SIZE - 1) (
    let! _ := unwrap "tty_queue.buf" (idx (q_buf cur) (q_head cur)) in
    mod_queue 0 ReadQ (fun a => a <| q_buf := upd_idx (q_buf a) (q_head a) (Z.land rbr 0xFF) |>) ;;;
    mod_queue 0 ReadQ (fun a => a <| q_head := u32 (q_head a + 1) |>)) ;;;
  do_tty_interrupt 0.

(** [do ... while((nr > 0) && (!EMPTY(tty -> secondary)))] of [tty_read]: [inl] is the [return] at
    an end-of-file character, [inr (b, nr)] the normal end. *)
Definition read_chars (tty buf b nr : Z) : K (Z + Z * Z) :=
  loop TTY_FUEL (fun '(b, nr) =>
    let! c := GETCH tty SecondaryQ in
    let! t := get_tty tty in
    when ((c =? cc VEOF t) || (c =? NL)) (mod_queue tty SecondaryQ (fun a => a <| q_data := u32 (q_data a - 1) |>)) ;;;
    if (c =? cc VEOF t) && L_CANON t then ret (inr (inl (b - buf)))
    else
      put_fs_byte c b ;;;
      let b := b + 1 in
      let nr := nr - 1 in
      let! t := get_tty tty in
      if (nr =? 0) || negb ((0 <? nr) && negb (EMPTY (secondary t))) then ret (inr (inr (b, nr)))
      else ret (inl (b, nr))) (b, nr).
Definition set_alarm (v : Z) : K unit := mod_cur (fun t => t <| t_alarm := v |>).
(** [flag = ((!oldalarm) || ((time + jiffies) < oldalarm))] *)
Definition alarm_first (time oldalarm : Z) : K bool :=
  let! now := gets (fun k => jiffies (k_sched k)) in
  ret ((oldalarm =? 0) || (s64 (time + now) <? oldalarm)).
Definition alarm_at (time : Z) : K unit :=
  let! now := gets (fun k => jiffies (k_sched k)) in set_alarm (s64 (time + now)).
(** One round of [while(nr > 0)]; [inr (inl r)] is [return r], [inr (inr b)] leaves the loop. *)
Definition tty_read_round (tty buf time minimum oldalarm : Z) : Z * Z * bool -> K (Z * Z * bool + (Z + Z)) :=
  fun '(b, nr, flag) =>
  if negb (0 <? nr) then ret (inr (inr b))
  else
    let! s := cur in
    if flag && truth (Z.land (t_signal s) ALRMMASK) then
      mod_cur (fun t => t <| t_signal := Z.land (t_signal t) (Z.lnot ALRMMASK) |>) ;;; ret (inr (inr b))
    else if truth (t_signal s) then ret (inr (inr b))
    else
      let! t := get_tty tty in
      if EMPTY (secondary t) || (L_CANON t && (q_data (secondary t) =? 0) && (20 <? LEFT (secondary t))) then
        sleep_if_empty tty SecondaryQ ;;; ret (inl (b, nr, flag))
      else
        let! r := read_chars tty buf b nr in
        match r with
        | inl v => ret (inr (inl v))
        | inr (b, nr) =>
            let! t := get_tty tty in
            let! flag :=
              if truth time && negb (L_CANON t) then
                let! f := alarm_first time oldalarm in
                (if f : bool then alarm_at time else set_alarm oldalarm) ;;; ret f
              else ret flag in
            if L_CANON t then (if truth (b - buf) then ret (inr (inr b)) else ret (inl (b, nr, flag)))
            else if minimum <=? b - buf then ret (inr (inr b)) else ret (inl (b, nr, flag))
        end.
(** The rounds of one activation: when [sleep_if_empty] returns with the queue as it was (a line is
    not complete), the loop comes back to it at once. *)
Definition READ_FUEL : nat := 4096.
Definition tty_read (channel buf nr : Z) : K Z :=
  if (TTY_CHANNEL_NUM - 1 <? channel) || (nr <? 0) then ret (-1)
  else
    let! s := cur in
    let oldalarm := t_alarm s in
    let! t := get_tty channel in
    let time := 10 * cc VTIME t in
    let minimum := cc VMIN t in
    let! (minimum, flag) :=
      if truth time && (minimum =? 0) then
        let! f := alarm_first time oldalarm in
        when f (alarm_at time) ;;; ret (1, f)
      else ret (minimum, false) in
    let minimum := if nr <? minimum then nr else minimum in
    let! r := loop READ_FUEL (tty_read_round channel buf time minimum oldalarm) (buf, nr, flag) in
    match r with
    | inl v => ret v
    | inr b =>
        set_alarm oldalarm ;;;
        let! s := cur in
        if truth (t_signal s) && (b =? buf) then ret (- EINTR) else ret (b - buf)
    end.

(** [tty_write]: the inner loop fills the queue; it returns [(b, nr)]. *)
Definition get_cr_flag : K Z := gets (fun k => cr_flag (k_tty k)).
Definition set_cr_flag (v : Z) : K unit := modify (fun k => k <| k_tty ::= fun s => s <| cr_flag := v |> |>).
(** The character after OCRNL and ONLRET. *)
Definition translate_output (t : tty_struct) (c : Z) : Z :=
  if (c =? CR) && O_CRNL t then NL else if (c =? NL) && O_NLRET t then CR else c.
Definition write_chars (tty b nr : Z) : K (Z * Z) :=
  loop TTY_FUEL (fun '(b, nr) =>
    let! t := get_tty tty in
    if (0 <? nr) && negb (FULL (write_q t)) then
      let! c := get_fs_byte b in
      let! cr := get_cr_flag in
      let c1 := if O_POST t then translate_output t c else c in
      if O_POST t && (c1 =? NL) && (cr =? 0) && O_NLCR t then
        set_cr_flag 1 ;;; PUTCH CR tty WriteQ ;;; ret (inl (b, nr))
      else
        let c2 := if O_POST t && O_LCUC t then toupper c1 else c1 in
        set_cr_flag 0 ;;;
        PUTCH c2 tty WriteQ ;;;
        ret (inl (b + 1, nr - 1))
    else ret (inr (b, nr))) (b, nr).
Definition tty_write (channel buf nr : Z) : K Z :=
  if (TTY_CHANNEL_NUM - 1 <? channel) || (nr <? 0) then ret (-1)
  else
    let! b := loop (2 * Z.to_nat nr + 1) (fun '(b, nr) =>
      if 0 <? nr then
        sleep_if_full channel WriteQ ;;;
        let! s := cur in
        if truth (t_signal s) then ret (inr b)
        else
          let! (b, nr) := write_chars channel b nr in
          rs_write channel ;;;
          (if 0 <? nr then let! _ := schedule in skip else skip) ;;;
          ret (inl (b, nr))
      else ret (inr b)) (buf, nr) in
    ret (b - buf).

(** ** tty_ioctl.c *)
Definition change_speed (tty : Z) : K unit := skip.
Definition flush (tty : Z) (q : which_queue) : K unit := mod_queue tty q (fun a => a <| q_head := q_tail a |>).
Definition wait_until_sent (tty : Z) : K unit := skip.
Definition send_break (tty : Z) : K unit := skip.
(** [struct termio]: the short form of [struct termios]. *)
Record termio := mkTermio { o_iflag : Z; o_oflag : Z; o_cflag : Z; o_lflag : Z; o_line : Z; o_cc : list Z }.
Definition NCC : nat := 8.
Definition SIZEOF_TERMIOS : Z := 36.
Definition SIZEOF_TERMIO : Z := 18.
(** [x] with its first byte, or its first two bytes, replaced. *)
Definition low8 (x v : Z) : Z := Z.lor (Z.land x (Z.lnot 0xFF)) v.
Definition low16 (x v : Z) : Z := Z.lor (Z.land x (Z.lnot 0xFFFF)) v.
Definition mod_termios (tty : Z) (f : termios -> termios) : K unit := mod_tty tty (fun t => t <| tt_termios ::= f |>).

Definition get_termios (tty arg : Z) : K Z :=
  verify_area arg SIZEOF_TERMIOS ;;;
  let! t := get_tty tty in
  mem_copy_from_value (u8 (c_iflag (tt_termios t))) arg SIZEOF_TERMIOS ;;;
  ret 0.
Definition set_termios (tty arg : Z) : K Z :=
  let! t := get_tty tty in
  let! v := mem_copy_to_value arg (u8 (c_iflag (tt_termios t))) SIZEOF_TERMIOS in
  mod_termios tty (fun s => s <| c_iflag := low8 (c_iflag s) v |>) ;;;
  change_speed tty ;;;
  ret 0.
Definition get_termio (tty arg : Z) : K Z :=
  verify_area arg SIZEOF_TERMIO ;;;
  let! t := get_tty tty in
  mem_copy_from_value (u8 (c_iflag (tt_termios t))) arg SIZEOF_TERMIO ;;;
  ret 0.
(** [tmp] is the local variable [tmp_termio], which is not initialised: only its first byte is read
    from the program. *)
Definition set_termio (tmp : termio) (tty arg : Z) : K Z :=
  let! v := mem_copy_to_value arg (u8 (o_iflag tmp)) SIZEOF_TERMIO in
  mod_termios tty (fun s => s <| c_iflag := low16 (c_iflag s) (low8 (o_iflag tmp) v) |>) ;;;
  mod_termios tty (fun s => s <| c_oflag := low16 (c_oflag s) (o_oflag tmp) |>) ;;;
  mod_termios tty (fun s => s <| c_cflag := low16 (c_cflag s) (o_cflag tmp) |>) ;;;
  mod_termios tty (fun s => s <| c_lflag := low16 (c_lflag s) (o_lflag tmp) |>) ;;;
  mod_termios tty (fun s => s <| c_line := o_line tmp |>) ;;;
  for_up 0 NCC (fun i => mod_termios tty (fun s => s <| c_cc ::= fun l => upd_idx l i (default 0 (idx (o_cc tmp) i)) |>)) ;;;
  change_speed tty ;;;
  ret 0.
(** The ioctl commands of termios.h that do something. *)
Inductive tty_cmd :=
  | TCGETS | TCSETS | TCSETSW | TCSETSF | TCGETA | TCSETA | TCSETAW | TCSETAF | TCSBRK | TCFLSH
  | TIOCGPGRP | TIOCSPGRP | TIOCOUTQ | TIOCINQ | BAD_CMD.
Definition decode_cmd (cmd : Z) : tty_cmd :=
  match cmd with
  | 0x5401 => TCGETS | 0x5402 => TCSETS | 0x5403 => TCSETSW | 0x5404 => TCSETSF
  | 0x5405 => TCGETA | 0x5406 => TCSETA | 0x5407 => TCSETAW | 0x5408 => TCSETAF
  | 0x5409 => TCSBRK | 0x540B => TCFLSH | 0x540F => TIOCGPGRP | 0x5410 => TIOCSPGRP
  | 0x5411 => TIOCOUTQ | 0x541B => TIOCINQ | _ => BAD_CMD
  end.
Definition tty_ioctl (tmp : termio) (dev cmd arg : Z) : K Z :=
  let! tty := if MAJOR dev =? 5 then
                let! t := cur in if t_tty t <? 0 then panic "tty_ioctl: dev<0" else ret (t_tty t)
              else ret (MINOR dev) in
  match decode_cmd cmd with
  | TCGETS => get_termios tty arg
  | TCSETSF => flush tty ReadQ ;;; flush tty SecondaryQ ;;; wait_until_sent tty ;;; set_termios tty arg
  | TCSETSW => wait_until_sent tty ;;; set_termios tty arg
  | TCSETS => set_termios tty arg
  | TCGETA => get_termio tty arg
  | TCSETAF => flush tty ReadQ ;;; flush tty SecondaryQ ;;; wait_until_sent tty ;;; set_termio tmp tty arg
  | TCSETAW => wait_until_sent tty ;;; set_termio tmp tty arg
  | TCSETA => set_termio tmp tty arg
  | TCSBRK => when (arg =? 0) (wait_until_sent tty ;;; send_break tty) ;;; ret 0
  | TCFLSH =>
      match arg with
      | 0 => flush tty ReadQ ;;; flush tty SecondaryQ ;;; ret 0
      | 1 => flush tty WriteQ ;;; ret 0
      | 2 => flush tty ReadQ ;;; flush tty SecondaryQ ;;; flush tty WriteQ ;;; ret 0
      | _ => ret (- EINVAL)
      end
  | TIOCGPGRP =>
      verify_area arg 4 ;;;
      let! t := get_tty tty in
      mem_copy_from_value (u8 (tt_pgrp t)) arg 4 ;;;
      ret 0
  | TIOCSPGRP =>
      let! t := get_tty tty in
      let! v := mem_copy_to_value arg (u8 (tt_pgrp t)) 4 in
      mod_tty tty (fun t => t <| tt_pgrp := s32 (low8 (tt_pgrp t) v) |>) ;;;
      ret 0
  | TIOCOUTQ =>
      verify_area arg 8 ;;;
      let! t := get_tty tty in
      mem_copy_from_value (u8 (CHARS (write_q t))) arg 8 ;;;
      ret 0
  | TIOCINQ =>
      verify_area arg 8 ;;;
      let! t := get_tty tty in
      mem_copy_from_value (u8 (CHARS (secondary t))) arg 8 ;;;
      ret 0
  | BAD_CMD => ret (- EINVAL)
  end.
End Terminal.

(** ** A queue is a bounded FIFO *)

(** Indices within the array. *)
Record queue_ok (a : tty_queue) : Prop := mkQueueOk {
  qo_length : length (q_buf a) = Z.to_nat TTY_BUF_SIZE;
  qo_head : 0 <= q_head a < TTY_BUF_SIZE;
  qo_tail : 0 <= q_tail a < TTY_BUF_SIZE }.
(** Its characters, the oldest one first. *)
Definition char_at (a : tty_queue) (i : nat) : Z := default 0 (idx (q_buf a) ((q_tail a + Z.of_nat i) mod TTY_BUF_SIZE)).
Definition contents (a : tty_queue) : list Z := char_at a <$> seq 0 (Z.to_nat ((q_head a - q_tail a) mod TTY_BUF_SIZE)).

Lemma land_buf x : Z.land (u32 x) (TTY_BUF_SIZE - 1) = x mod TTY_BUF_SIZE.
Proof.
  unfold TTY_BUF_SIZE, u32. change (1024 - 1) with (Z.ones 10). rewrite Z.land_ones by lia. change (2 ^ 10) with 1024. dlia.
Qed.
Lemma contents_length a : Z.of_nat (length (contents a)) = (q_head a - q_tail a) mod TTY_BUF_SIZE.
Proof. unfold contents. rewrite length_fmap, length_seq, Z2Nat.id; [done|]. apply Z.mod_pos_bound. done. Qed.
Lemma CHARS_contents a : CHARS a = Z.of_nat (length (contents a)).
Proof. unfold CHARS. by rewrite land_buf, contents_length. Qed.
Lemma LEFT_contents a : LEFT a = TTY_BUF_SIZE - 1 - Z.of_nat (length (contents a)).
Proof. unfold LEFT. rewrite land_buf, contents_length. unfold TTY_BUF_SIZE. dlia. Qed.
Lemma EMPTY_contents a : queue_ok a -> EMPTY a = true <-> contents a = [].
Proof.
  intros [_ Hh Ht]. unfold EMPTY. rewrite Z.eqb_eq, <- length_zero_iff_nil. pose proof (contents_length a).
  unfold TTY_BUF_SIZE in *. split; intros; [|dlia].
  assert (q_head a - q_tail a = 0) as E by lia. rewrite E, Z.mod_0_l in H by lia. lia.
Qed.
Lemma FULL_contents a : FULL a = true <-> length (contents a) = Z.to_nat (TTY_BUF_SIZE - 1).
Proof. unfold FULL. rewrite Z.eqb_eq, LEFT_contents. unfold TTY_BUF_SIZE. lia. Qed.

(** A character is added. *)
Definition put_char (c : Z) (a : tty_queue) : tty_queue :=
  a <| q_buf := upd_idx (q_buf a) (q_head a) (u8 c) |> <| q_head := INC (q_head a) |>.
Lemma put_char_contents c a : queue_ok a -> FULL a = false ->
  queue_ok (put_char c a) /\ contents (put_char c a) = contents a ++ [u8 c].
Proof.
  intros Hok Hf. pose proof Hok as [Hl Hh Ht]. unfold put_char.
  assert (LEFT a <> 0) as Hleft by (unfold FULL in Hf; lia). rewrite LEFT_contents, contents_length in Hleft.
  assert (INC (q_head a) = (q_head a + 1) mod TTY_BUF_SIZE) as EI by apply land_buf. split.
  - split; rsimpl; [by rewrite length_upd_idx|rewrite EI; by apply Z.mod_pos_bound|done].
  - unfold contents. rsimpl. rewrite EI.
    set (n := (q_head a - q_tail a) mod TTY_BUF_SIZE) in *.
    assert (0 <= n < TTY_BUF_SIZE - 1) as Hn by (unfold n, TTY_BUF_SIZE in *; dlia).
    assert (((q_head a + 1) mod TTY_BUF_SIZE - q_tail a) mod TTY_BUF_SIZE = n + 1) as -> by (unfold n, TTY_BUF_SIZE in *; dlia).
    replace (Z.to_nat (n + 1)) with (Z.to_nat n + 1)%nat by lia. rewrite seq_app, fmap_app. f_equal.
    + apply list_fmap_ext. intros i x Hx. apply lookup_seq in Hx as [-> Hx]. unfold char_at. rsimpl. rewrite idx_upd_ne; [done|lia|].
      unfold n, TTY_BUF_SIZE in *. dlia.
    + cbn. f_equal. unfold char_at. rsimpl. assert ((q_tail a + Z.of_nat (Z.to_nat n)) mod TTY_BUF_SIZE = q_head a) as ->.
      { rewrite Z2Nat.id by lia. unfold n, TTY_BUF_SIZE in *. dlia. }
      rewrite idx_upd_eq; [done|]. rewrite Hl. unfold TTY_BUF_SIZE in *. lia.
Qed.
(** The oldest character is taken. *)
Definition take_char (a : tty_queue) : tty_queue := a <| q_tail := INC (q_tail a) |>.
Lemma take_char_contents a c r : queue_ok a -> contents a = c :: r ->
  queue_ok (take_char a) /\ idx (q_buf a) (q_tail a) = Some c /\ contents (take_char a) = r.
Proof.
  intros Hok Hc. pose proof Hok as [Hl Hh Ht]. unfold take_char. pose proof (contents_length a) as Hn. rewrite Hc in Hn. cbn [length] in Hn.
  assert (INC (q_tail a) = (q_tail a + 1) mod TTY_BUF_SIZE) as EI by apply land_buf. split_and!.
  - split; rsimpl; [done|done|rewrite EI; by apply Z.mod_pos_bound].
  - unfold contents in Hc. replace (Z.to_nat ((q_head a - q_tail a) mod TTY_BUF_SIZE)) with (S (length r)) in Hc by lia.
    cbn in Hc. injection Hc as <- _. unfold char_at. rewrite Z.add_0_r, Z.mod_small by done.
    destruct (idx_is_Some (q_buf a) (q_tail a)) as [x Hx]; [rewrite Hl; unfold TTY_BUF_SIZE in *; lia|]. by rewrite Hx.
  - unfold contents in Hc. replace (Z.to_nat ((q_head a - q_tail a) mod TTY_BUF_SIZE)) with (S (length r)) in Hc by lia.
    set (m := length r) in *. rewrite <- cons_seq, fmap_cons in Hc. injection Hc as _ Er. unfold contents. rsimpl. rewrite EI.
    assert ((q_head a - (q_tail a + 1) mod TTY_BUF_SIZE) mod TTY_BUF_SIZE = Z.of_nat m) as -> by (unfold TTY_BUF_SIZE in *; dlia).
    rewrite Nat2Z.id, <- Er, <- (fmap_S_seq 0), <- list_fmap_compose.
    apply list_fmap_ext. intros i x _. unfold char_at. cbn. rsimpl. f_equal. f_equal. unfold TTY_BUF_SIZE. dlia.
Qed.

Definition queue_is (k : kernel) (tty : Z) (q : which_queue) (a : tty_queue) : Prop :=
  exists t, idx (tty_table (k_tty k)) tty = Some t /\ queue_of q t = a.
Lemma get_tty_Ok k tty t : idx (tty_table (k_tty k)) tty = Some t -> get_tty tty k = Ok t k.
Proof. intros H. unfold get_tty. erewrite bind_Ok by reflexivity. by rewrite H. Qed.
Lemma get_queue_Ok k tty q a : queue_is k tty q a -> get_queue tty q k = Ok a k.
Proof. intros (t&Ht&<-). unfold get_queue. by erewrite bind_Ok by by apply get_tty_Ok. Qed.
(** Writing a queue leaves the other queues, the flags and everything outside the terminals. *)
Lemma mod_queue_Ok k tty q a f : queue_is k tty q a -> exists k', mod_queue tty q f k = Ok tt k' /\ queue_is k' tty q (f a) /\
  (forall tty' q' a', (tty', q') <> (tty, q) -> 0 <= tty' -> queue_is k tty' q' a' -> queue_is k' tty' q' a') /\
  (exists s, k' = k <| k_tty := s |>).
Proof.
  intros (t&Ht&<-). unfold mod_queue, mod_tty. eexists. split; [by erewrite bind_Ok by by apply get_tty_Ok|]. split_and!.
  - eexists. rsimpl. split; [apply idx_upd_eq; by eapply idx_Some_bound|]. by destruct q.
  - intros tty' q' a' Hne Hp (t'&Ht'&<-). unfold queue_is. rsimpl. destruct (decide (tty' = tty)) as [->|Hd].
    + eexists. split; [apply idx_upd_eq; by eapply idx_Some_bound|]. assert (t' = t) as -> by congruence.
      destruct q, q'; done || (by destruct t).
    + exists t'. split; [|done]. apply idx_Some_bound in Ht. rewrite idx_upd_ne; [done|lia|congruence].
  - eexists. by destruct k.
Qed.
Lemma PUTCH_spec k tty q a c : queue_is k tty q a -> queue_ok a -> FULL a = false ->
  exists k', PUTCH c tty q k = Ok tt k' /\ queue_is k' tty q (put_char c a).
Proof.
  intros Hq Hok Hf. pose proof Hok as [Hl Hh Ht]. unfold PUTCH. erewrite bind_Ok by by apply get_queue_Ok.
  destruct (idx_is_Some (q_buf a) (q_head a)) as [x Hx]; [rewrite Hl; unfold TTY_BUF_SIZE in *; lia|].
  rewrite Hx. erewrite bind_Ok by reflexivity.
  destruct (mod_queue_Ok k tty q a (fun a => a <| q_buf := upd_idx (q_buf a) (q_head a) (u8 c) |>) Hq) as (k1&E1&Hq1&_).
  erewrite bind_Ok by exact E1.
  destruct (mod_queue_Ok k1 tty q _ (fun a => a <| q_head := INC (q_head a) |>) Hq1) as (k2&E2&Hq2&_). by exists k2.
Qed.
Lemma GETCH_spec k tty q a c r : queue_is k tty q a -> queue_ok a -> contents a = c :: r ->
  exists k', GETCH tty q k = Ok c k' /\ queue_is k' tty q (take_char a).
Proof.
  intros Hq Hok Hc. destruct (take_char_contents a c r Hok Hc) as (_&Hx&_). unfold GETCH.
  erewrite bind_Ok by by apply get_queue_Ok. rewrite Hx. erewrite bind_Ok by reflexivity.
  destruct (mod_queue_Ok k tty q a (fun a => a <| q_tail := INC (q_tail a) |>) Hq) as (k1&E1&Hq1&_).
  exists k1. by erewrite bind_Ok by exact E1.
Qed.

(** ** Killing the line *)

(** Computations that leave the queue [secondary] of a tty alone. *)
Definition sec (tty : Z) (k : kernel) : option tty_queue := secondary <$> idx (tty_table (k_tty k)) tty.
Definition keeps {A} (tty : Z) (m : K A) : Prop := forall k x k', m k = Ok x k' -> sec tty k' = sec tty k.
Lemma keeps_ret {A} tty (x : A) : keeps tty (ret x).
Proof. by intros k y k' [= <- <-]. Qed.
Lemma keeps_gets {A} tty (f : kernel -> A) : keeps tty (gets f).
Proof. by intros k y k' [= <- <-]. Qed.
Lemma keeps_halt {A} tty e : keeps tty (halt e : K A).
Proof. intros k y k' H. discriminate. Qed.
Lemma keeps_unwrap {A} tty s (o : option A) : keeps tty (unwrap s o).
Proof. intros k y k'. destruct o; [by intros [= <- <-]|discriminate]. Qed.
Lemma keeps_bind {A B} tty (m : K A) (f : A -> K B) : keeps tty m -> (forall x, keeps tty (f x)) -> keeps tty (bind m f).
Proof. intros Hm Hf k y k' (x&k1&E1&E2)%bind_Ok_inv. rewrite (Hf _ _ _ _ E2). by eapply Hm. Qed.
Lemma keeps_when tty b (m : K unit) : keeps tty m -> keeps tty (when b m).
Proof. intros Hm. destruct b; [done|apply keeps_ret]. Qed.
Lemma keeps_modify tty (f : kernel -> kernel) : (forall k, tty_table (k_tty (f k)) = tty_table (k_tty k)) -> keeps tty (modify f).
Proof. intros H k y k' [= <- <-]. unfold sec. by rewrite H. Qed.
Lemma keeps_get_tty tty tty' : keeps tty (get_tty tty').
Proof. apply keeps_bind; [apply keeps_gets|intros; apply keeps_unwrap]. Qed.
Lemma keeps_mod_write tty tty' f : keeps tty (mod_queue tty' WriteQ f).
Proof.
  intros k y k' (t&k1&E1&[= <- <-])%bind_Ok_inv. unfold get_tty in E1. apply bind_Ok_inv in E1 as (l&k2&[= <- <-]&E).
  destruct (idx (tty_table (k_tty k)) tty') as [t'|] eqn:Ht; [|discriminate]. injection E as -> <-. unfold sec. rsimpl.
  destruct (decide (tty' = tty)) as [->|Hne].
  - rewrite idx_upd_eq by by eapply idx_Some_bound. by rewrite Ht.
  - rewrite idx_upd_ne; [done| |done]. apply idx_Some_bound in Ht. lia.
Qed.
Create HintDb keeps discriminated.
#[export] Hint Resolve keeps_ret keeps_gets keeps_halt keeps_unwrap keeps_bind keeps_when keeps_get_tty keeps_mod_write : keeps.
Lemma keeps_get_queue tty tty' q : keeps tty (get_queue tty' q).
Proof. unfold get_queue. auto with keeps. Qed.
#[export] Hint Resolve keeps_get_queue : keeps.
Lemma keeps_PUTCH tty c tty' : keeps tty (PUTCH c tty' WriteQ).
Proof. unfold PUTCH. auto 10 with keeps. Qed.
Lemma keeps_wake_up tty p : keeps tty (wake_up p).
Proof.
  destruct p as [p|]; [|apply keeps_ret]. cbn. unfold mod_task, get_task. apply keeps_bind; [auto with keeps|].
  intros t. by apply keeps_modify.
Qed.
#[export] Hint Resolve keeps_PUTCH keeps_wake_up : keeps.
Lemma keeps_send tty : keeps tty serial_send_interrupt.
Proof.
  unfold serial_send_interrupt. apply keeps_bind; [auto with keeps|]. intros a. apply keeps_bind; [auto with keeps|]. intros _.
  destruct (truth _); [|apply keeps_ret]. apply keeps_bind; [auto with keeps|]. intros c. apply keeps_bind; [by apply keeps_modify|].
  auto with keeps.
Qed.
Lemma keeps_rs_write {UA : Uart} tty tty' : keeps tty (rs_write tty').
Proof.
  unfold rs_write. apply keeps_bind; [auto with keeps|]. intros a. destruct (EMPTY a); [apply keeps_ret|].
  apply keeps_bind; [auto with keeps|]. intros []; [auto with keeps|apply keeps_send].
Qed.
#[export] Hint Resolve keeps_rs_write : keeps.
Lemma keeps_echo_erase {UA : Uart} tty tty' c : keeps tty (echo_erase tty' c).
Proof. unfold echo_erase. auto 10 with keeps. Qed.

(** The character before the oldest one. *)
Definition before (a : tty_queue) : option Z := idx (q_buf a) ((q_tail a - 1) mod TTY_BUF_SIZE).
Lemma kill_line_step {UA : Uart} tty c a k r k' : sec tty k = Some a -> queue_ok a -> before a = Some NL ->
  (let! t := get_tty tty in
   let! (go, c) :=
     if negb (EMPTY (secondary t)) then ret (true, c)
     else let! l := LAST tty SecondaryQ in ret ((s8 l =? NL) || (s8 l =? cc VEOF t), s8 l) in
   if go : bool then
     echo_erase tty c ;;;
     mod_queue tty SecondaryQ (fun a => a <| q_head := DEC (q_head a) |>) ;;;
     ret (inl c)
   else ret (inr tt)) k = Ok r k' ->
  exists c', r = inl c' /\ sec tty k' = Some (a <| q_head := DEC (q_head a) |>).
Proof.
  intros Ha Hok Hb (t&k1&E1&E)%bind_Ok_inv. unfold sec in Ha. destruct (idx (tty_table (k_tty k)) tty) as [t0|] eqn:Ht; [|done].
  injection Ha as Ha. rewrite (get_tty_Ok k tty t0 Ht) in E1. injection E1 as <- <-. rewrite Ha in E.
  apply bind_Ok_inv in E as ([go c1]&k2&E2&E).
  assert (go = true /\ k2 = k) as [-> ->].
  { destruct (EMPTY a) eqn:He; cbn [negb] in E2; [|by injection E2 as <- <- <-].
    unfold LAST in E2. rewrite !bind_assoc in E2. unfold get_queue in E2. rewrite bind_assoc in E2.
    erewrite bind_Ok in E2 by by apply get_tty_Ok. erewrite bind_Ok in E2 by reflexivity. cbn [queue_of] in E2. rewrite Ha in E2.
    assert (idx (q_buf a) (Z.land (TTY_BUF_SIZE - 1) (u32 (q_head a - 1))) = Some NL) as Hl.
    { rewrite Z.land_comm, land_buf. unfold EMPTY in He. apply Z.eqb_eq in He. rewrite He. exact Hb. }
    rewrite Hl in E2. erewrite bind_Ok in E2 by reflexivity. by injection E2 as <- <- <-. }
  apply bind_Ok_inv in E as ([]&k3&E3&E). pose proof (keeps_echo_erase tty tty c1 k tt k3 E3) as Hk.
  unfold sec in Hk. rewrite Ht in Hk. cbn in Hk. destruct (idx (tty_table (k_tty k3)) tty) as [t3|] eqn:Ht3; [|done]. injection Hk as Hk.
  apply bind_Ok_inv in E as ([]&k4&E4&[= <- <-]). exists c1. split; [done|].
  destruct (mod_queue_Ok k3 tty SecondaryQ a (fun a => a <| q_head := DEC (q_head a) |>)) as (k5&E5&(t5&Ht5&Eq)&_).
  { exists t3. split; [done|]. cbn. congruence. }
  assert (k5 = k4) as -> by congruence. unfold sec. rewrite Ht5. cbn in *. by rewrite Eq.
Qed.
Lemma kill_line_spec {UA : Uart} tty fuel : forall c a k r k', sec tty k = Some a -> queue_ok a -> before a = Some NL ->
  kill_line fuel tty c k <> Ok r k'.
Proof.
  induction fuel as [|fuel IH]; intros c a k r k' Ha Hok Hb E; [discriminate|]. unfold kill_line in E. rewrite loop_S in E.
  apply bind_Ok_inv in E as (x&k1&E1&E). apply (kill_line_step tty c a k x k1 Ha Hok Hb) in E1 as (c'&->&Ha').
  eapply (IH c' _ k1 r k' Ha'); [|done|exact E]. destruct Hok. split; rsimpl; [done| |done]. unfold DEC. rewrite land_buf.
  by apply Z.mod_pos_bound.
Qed.

Module TtyProps.

(** C34: a queue of a terminal implements a bounded FIFO of characters.  [EMPTY] and [FULL] say that
    it holds none and 1023 characters, [LEFT] and [CHARS] count; [PUTCH] on a queue that is not full
    appends the character, and [GETCH] on a queue that is not empty returns and removes the oldest
    one; both keep the indices within the array. *)
Theorem tty_queue_refines_fifo k tty q a c : queue_is k tty q a -> queue_ok a ->
  (EMPTY a = true <-> contents a = []) /\ (FULL a = true <-> length (contents a) = 1023%nat) /\
  CHARS a = Z.of_nat (length (contents a)) /\ LEFT a = 1023 - Z.of_nat (length (contents a)) /\
  (FULL a = false -> exists k' a', PUTCH c tty q k = Ok tt k' /\ queue_is k' tty q a' /\ queue_ok a' /\
     contents a' = contents a ++ [u8 c]) /\
  (forall x r, contents a = x :: r -> exists k' a', GETCH tty q k = Ok x k' /\ queue_is k' tty q a' /\ queue_ok a' /\
     contents a' = r).
Proof.
  intros Hq Hok. split_and!; [by apply EMPTY_contents|apply FULL_contents|apply CHARS_contents|apply LEFT_contents| |].
  - intros Hf. destruct (PUTCH_spec k tty q a c Hq Hok Hf) as (k'&E&Hq'). destruct (put_char_contents c a Hok Hf).
    exists k', (put_char c a). by split_and!.
  - intros x r Hc. destruct (GETCH_spec k tty q a x r Hq Hok Hc) as (k'&E&Hq'). destruct (take_char_contents a x r Hok Hc) as (?&_&?).
    exists k', (take_char a). by split_and!.
Qed.
(** The queue of a fresh terminal, with the indices at the end of the array. *)
Definition demo_queue : tty_queue := mkQueue 0 1023 1023 None (replicate 1024 0).
Definition demo_tty : kernel := kernel0 <| k_tty ::= fun s => s <| tty_table := [init_tty <| secondary := demo_queue |>] |> |>.
Lemma demo_queue_ok : queue_ok demo_queue.
Proof. split; [reflexivity|cbn; unfold TTY_BUF_SIZE; lia|cbn; unfold TTY_BUF_SIZE; lia]. Qed.
Lemma tty_queue_refines_fifo_witness : exists k' a', PUTCH 65 0 SecondaryQ demo_tty = Ok tt k' /\ queue_is k' 0 SecondaryQ a' /\ contents a' = [65].
Proof.
  destruct (tty_queue_refines_fifo demo_tty 0 SecondaryQ demo_queue 65) as (_&_&_&_&H&_).
  - exists (init_tty <| secondary := demo_queue |>). split; reflexivity.
  - apply demo_queue_ok.
  - destruct H as (k'&a'&E&Hq&_&Hc); [reflexivity|]. exists k', a'. split; [exact E|]. split; [exact Hq|]. rewrite Hc. reflexivity.
Defined.

(** the kill character hangs the kernel after a line has been read.  The loop that empties the
    line goes on while the queue is not empty OR the last character is a newline; when the queue is
    empty and the character before it is the newline of the previous line, no number of rounds ends it. *)
Theorem kill_char_never_returns {UA : Uart} tty c fuel a k r k' :
  sec tty k = Some a -> queue_ok a -> contents a = [] -> before a = Some NL -> kill_line fuel tty c k <> Ok r k'.
Proof. intros Ha Hok _ Hb. by apply (kill_line_spec tty fuel c a). Qed.
#[local] Instance idle_uart : Uart := fun _ => false.
Definition demo_read_line : tty_queue := demo_queue <| q_buf := upd_idx (replicate 1024 0) 1022 NL |>.
Definition demo_line_read : kernel := kernel0 <| k_tty ::= fun s => s <| tty_table := [init_tty <| secondary := demo_read_line |>] |> |>.
Lemma kill_char_never_returns_witness : ~ exists r k', kill_line 2000 0 21 demo_line_read = Ok r k'.
Proof.
  intros (r&k'&E). revert E. apply (kill_char_never_returns 0 21 2000 demo_read_line); [reflexivity| |vm_compute; reflexivity|vm_compute; reflexivity].
  split; [reflexivity|split; vm_compute; congruence..].
Defined.
End TtyProps.
