(* ===== verification/Super.v ===== *)
(** * Mounting (fs/super.c)

    [put_super], [read_super], the system calls [umount] and [mount], and [mount_root].  The locks and
    [get_super] are in InodeIO.v.  [free] of [mount_root] is only printed; the model returns the two
    counts. *)
From Stdlib Require Import ZArith Lia String.
From stdpp Require Import base list gmap.
From S2P Require Import Prelude State PageAlloc BlockIO Buffer BufferCache BufferInit InodeIO Bitmap Inode PageFault UserMem Namei Sched.
Open Scope Z_scope.

Definition ENOTBLK : Z := 15.
Definition EBUSY : Z := 16.

(** [set_bit] of fs/super.c: it only reads the bit. *)
Definition set_bit_super (bitnr addr : Z) : K Z :=
  let! b := rd8 (addr + Z.shiftr bitnr 3) in
  ret (Z.land (Z.shiftr b (Z.land bitnr 7)) 1).

Section Mount.
Context {SI : SyncInodes}.

(** [for(i = 0;i < I_MAP_SLOTS;i++) brelse(sb -> s_imap[i]);] and the same for [s_zmap]. *)
Definition brelse_maps (s : nat) : K unit :=
  for_up 0 I_MAP_SLOTS (fun i => let! sb := get_sb s in let! b := unwrap "s_imap index" (idx (s_imap sb) i) in brelse b) ;;;
  for_up 0 Z_MAP_SLOTS (fun i => let! sb := get_sb s in let! b := unwrap "s_zmap index" (idx (s_zmap sb) i) in brelse b).
Definition put_super (dev : Z) : K unit :=
  let! root := gets (fun k => ROOT_DEV (k_fs k)) in
  if dev =? root then skip
  else
    let! s := get_super dev in
    match s with
    | None => skip
    | Some s =>
        let! sb := get_sb s in
        match s_imount sb with
        | Some _ => skip
        | None =>
            lock_super s ;;;
            mod_sb s (fun x => x <| s_dev := 0 |>) ;;;
            brelse_maps s ;;;
            free_super s
        end
    end.

(** [for(s = 0 + super_block;;s++)]: the first free super block. *)
Definition free_super_slot : K (option nat) :=
  let! l := gets (fun k => super_blocks (k_fs k)) in
  ret (fst <$> list_find (fun sb => s_dev sb = 0) (take NR_SUPER l)).
(** The assignment of the [struct d_super_block] in the buffer to the one at the start of [s]. *)
Definition load_d_super (m : memory) (a : Z) (s : super_block) : super_block :=
  s <| s_ninodes := ld 2 m a |> <| s_nzones := ld 2 m (a + 2) |> <| s_imap_blocks := ld 2 m (a + 4) |>
    <| s_zmap_blocks := ld 2 m (a + 6) |> <| s_firstdatazone := ld 2 m (a + 8) |>
    <| s_log_zone_size := ld 2 m (a + 10) |> <| s_max_size := ld 4 m (a + 12) |> <| s_magic := ld 2 m (a + 16) |>.
(** [s -> s_dev = 0; free_super(s); return NULL;] *)
Definition drop_super (s : nat) : K (option nat) :=
  mod_sb s (fun x => x <| s_dev := 0 |>) ;;; free_super s ;;; ret None.
(** The blocks of a bit map: [n] more, from entry [i] and block [block] on; the block after the last
    one read. *)
Fixpoint read_map (dev : Z) (put : Z -> option nat -> K unit) (n : nat) (i block : Z) : K Z :=
  match n with
  | O => ret block
  | S m =>
      let! bh := bread dev block in
      put i bh ;;;
      match bh with Some _ => read_map dev put m (i + 1) (block + 1) | None => ret block end
  end.
Definition put_imap (s : nat) (i : Z) (bh : option nat) : K unit :=
  let! sb := get_sb s in
  let! _ := unwrap "s_imap index" (idx (s_imap sb) i) in
  mod_sb s (fun x => x <| s_imap ::= fun l => upd_idx l i bh |>).
Definition put_zmap (s : nat) (i : Z) (bh : option nat) : K unit :=
  let! sb := get_sb s in
  let! _ := unwrap "s_zmap index" (idx (s_zmap sb) i) in
  mod_sb s (fun x => x <| s_zmap ::= fun l => upd_idx l i bh |>).
(** [p -> b_data[0] |= 1] *)
Definition set_first_bit (p : option (option nat)) : K unit :=
  let! p := unwrap "map index" p in
  let! b := unwrap "map[0]" p in
  let! h := get_bh b in
  let! v := rd8 (b_data h) in
  wr8 (b_data h) (Z.lor v 1).
Definition read_super (dev : Z) : K (option nat) :=
  if dev =? 0 then ret None
  else
    let! found := get_super dev in
    match found with
    | Some s => ret (Some s)
    | None =>
        let! slot := free_super_slot in
        match slot with
        | None => ret None
        | Some s =>
            mod_sb s (fun x => x <| s_dev := u16 dev |> <| s_isup := None |> <| s_imount := None |> <| s_time := 0 |>
              <| s_rd_only := 0 |> <| s_dirt := 0 |>) ;;;
            lock_super s ;;;
            let! bh := bread dev 1 in
            match bh with
            | None => drop_super s
            | Some b =>
                let! h := get_bh b in
                let! m := gets k_pmem in
                mod_sb s (load_d_super m (b_data h)) ;;;
                brelse (Some b) ;;;
                let! sb := get_sb s in
                if negb (s_magic sb =? SUPER_MAGIC) then drop_super s
                else
                  mod_sb s (fun x => x <| s_imap := replicate I_MAP_SLOTS None |>) ;;;
                  mod_sb s (fun x => x <| s_zmap := replicate Z_MAP_SLOTS None |>) ;;;
                  let! block := read_map dev (put_imap s) (Z.to_nat (s_imap_blocks sb)) 0 2 in
                  let! block := read_map dev (put_zmap s) (Z.to_nat (s_zmap_blocks sb)) 0 block in
                  if negb (block =? 2 + s_imap_blocks sb + s_zmap_blocks sb) then
                    brelse_maps s ;;; drop_super s
                  else
                    let! sb := get_sb s in
                    set_first_bit (idx (s_imap sb) 0) ;;;
                    let! sb := get_sb s in
                    set_first_bit (idx (s_zmap sb) 0) ;;;
                    free_super s ;;;
                    ret (Some s)
            end
        end
    end.

(** [for(inode = inode_table + 0; ...) if((inode -> i_dev == dev) && (inode -> i_count))] *)
Definition dev_busy (dev : Z) : K bool :=
  let! l := gets (fun k => inode_table (k_fs k)) in
  ret (existsb (fun n => (i_dev n =? dev) && truth (i_count n)) l).
Definition sys_umount (dev_name : Z) : K Z :=
  let! i := namei dev_name in
  match i with
  | None => ret (- ENOENT)
  | Some inode =>
      let! dev := zone inode 0 in
      let! n := get_inode inode in
      if negb (S_ISBLK (i_mode n)) then iput (Some inode) ;;; ret (- ENOTBLK)
      else
        iput (Some inode) ;;;
        let! root := gets (fun k => ROOT_DEV (k_fs k)) in
        if dev =? root then ret (- EBUSY)
        else
          let! s := get_super dev in
          match s with
          | None => ret (- ENOENT)
          | Some s =>
              let! sb := get_sb s in
              match s_imount sb with
              | None => ret (- ENOENT)
              | Some m =>
                  let! busy := dev_busy dev in
                  if busy : bool then ret (- EBUSY)
                  else
                    mod_inode m (fun n => n <| i_mount := 0 |>) ;;;
                    iput (Some m) ;;;
                    mod_sb s (fun x => x <| s_imount := None |>) ;;;
                    let! sb := get_sb s in
                    iput (s_isup sb) ;;;
                    put_super dev ;;;
                    sync_dev dev ;;;
                    ret 0
              end
          end
  end.
(** [S_ISBLK] is applied to [i_mount], and [dir_i -> i_num = ROOT_INO] is an assignment. *)
Definition sys_mount (dev_name dir_name rw_flag : Z) : K Z :=
  let! d := namei dev_name in
  match d with
  | None => ret (- ENOENT)
  | Some dev_i =>
      let! dev := zone dev_i 0 in
      let! n := get_inode dev_i in
      if negb (S_ISBLK (i_mount n)) then iput (Some dev_i) ;;; ret (- EPERM)
      else
        iput (Some dev_i) ;;;
        let! d := namei dir_name in
        match d with
        | None => ret (- ENOENT)
        | Some dir_i =>
            let! n := get_inode dir_i in
            let! busy := if negb (i_count n =? 1) then ret true
                         else mod_inode dir_i (fun n => n <| i_num := ROOT_INO |>) ;;; ret (truth ROOT_INO) in
            if busy : bool then iput (Some dir_i) ;;; ret (- EBUSY)
            else
              let! n := get_inode dir_i in
              if negb (S_ISDIR (i_mode n)) then iput (Some dir_i) ;;; ret (- EPERM)
              else
                let! s := read_super dev in
                match s with
                | None => iput (Some dir_i) ;;; ret (- EBUSY)
                | Some s =>
                    let! sb := get_sb s in
                    match s_imount sb with
                    | Some _ => iput (Some dir_i) ;;; ret (- EBUSY)
                    | None =>
                        let! n := get_inode dir_i in
                        if truth (i_mount n) then iput (Some dir_i) ;;; ret (- EPERM)
                        else
                          mod_sb s (fun x => x <| s_imount := Some dir_i |>) ;;;
                          mod_inode dir_i (fun n => n <| i_mount := 1 |>) ;;;
                          mod_inode dir_i (fun n => n <| i_dirt := 1 |>) ;;;
                          ret 0
                    end
                end
        end
  end.

(** [while(--i > 0) if(!set_bit(...)) free++;] over the bits [i - 1], ..., [lo] of a map. *)
Fixpoint count_free (map : super_block -> list (option nat)) (s : nat) (lo : Z) (n : nat) (free : Z) : K Z :=
  match n with
  | O => ret free
  | S m =>
      let i := lo + Z.of_nat m in
      let! sb := get_sb s in
      let! p := unwrap "map index" (idx (map sb) (Z.shiftr i BLOCK_SIZE_BITS)) in
      let! b := unwrap "map block" p in
      let! h := get_bh b in
      let! bit := set_bit_super (Z.land i (Z.shiftl 1 BLOCK_SIZE_BITS - 1)) (b_data h) in
      count_free map s lo m (if bit =? 0 then free + 1 else free)
  end.
Definition mount_root : K (Z * Z) :=
  for_up 0 NR_FILE (fun i => mod_file (Z.to_nat i) (fun f => f <| f_count := 0 |>)) ;;;
  for_up 0 NR_SUPER (fun i => mod_sb (Z.to_nat i) (fun s => s <| s_dev := 0 |> <| s_lock := 0 |> <| s_wait := None |>)) ;;;
  let! root := gets (fun k => ROOT_DEV (k_fs k)) in
  let! p := read_super root in
  match p with
  | None => panic "Unable to mount root"
  | Some p =>
      let! root := gets (fun k => ROOT_DEV (k_fs k)) in
      let! mi := iget root ROOT_INO in
      mod_inode mi (fun n => n <| i_count := u16 (i_count n + 3) |>) ;;;
      mod_sb p (fun s => s <| s_imount := Some mi |>) ;;;
      mod_sb p (fun s => s <| s_isup := Some mi |>) ;;;
      mod_cur (fun t => t <| t_pwd := Some mi |>) ;;;
      mod_cur (fun t => t <| t_root := Some mi |>) ;;;
      let! sb := get_sb p in
      let! zones := count_free s_zmap p 1 (Z.to_nat (s_nzones sb - 1)) 0 in
      let! inodes := count_free s_imap p 0 (Z.to_nat (s_ninodes sb + 1)) 0 in
      ret (zones, inodes)
  end.
End Mount.

Module SuperProps.

(** C36: no file system can be mounted.  Whatever the arguments and the state are, [sys_mount] does not
    return 0: the condition [(dir_i -> i_count != 1) || (dir_i -> i_num = ROOT_INO)] assigns instead of
    comparing, so it always holds, and every path that gets as far as the directory ends in EBUSY. *)
Theorem sys_mount_never_succeeds {SI : SyncInodes} k dev_name dir_name rw_flag :
  mayrun (sys_mount dev_name dir_name rw_flag) k
    (fun r _ => r = - ENOENT \/ r = - EPERM \/ r = - EBUSY) (fun _ _ => True).
Proof.
  unfold mayrun. destruct (sys_mount dev_name dir_name rw_flag k) as [r k'|e k'] eqn:E; [|done]. unfold sys_mount in E.
  apply bind_Ok_inv in E as (d&k1&_&E). destruct d as [dev_i|]; [|injection E as <- _; tauto].
  apply bind_Ok_inv in E as (dev&k2&_&E). apply bind_Ok_inv in E as (n&k3&_&E).
  destruct (negb (S_ISBLK (i_mount n))); apply bind_Ok_inv in E as (?&k4&_&E); [injection E as <- _; tauto|].
  apply bind_Ok_inv in E as (d&k5&_&E). destruct d as [dir_i|]; [|injection E as <- _; tauto].
  apply bind_Ok_inv in E as (n2&k6&_&E). apply bind_Ok_inv in E as (busy&k7&Eb&E).
  assert (busy = true) as ->.
  { destruct (negb (i_count n2 =? 1)); [by injection Eb|]. by apply bind_Ok_inv in Eb as (?&?&_&[= <- _]). }
  apply bind_Ok_inv in E as (?&k8&_&E). injection E as <- _. tauto.
Qed.
End SuperProps.
