(* ===== verification/FileIO.v ===== *)
(** * Reading and writing files, devices and pipes (fs/file_dev.c, block_dev.c, pipe.c, char_dev.c,
    read_write.c)

    The descriptor of an open file is its index in [file_table].  [off_t * pos] points to the [f_pos]
    of that file, so the functions that take it take the index. *)
From Stdlib Require Import ZArith Lia String.
From stdpp Require Import base list gmap.
From S2P Require Import Prelude State Pte PageAlloc PageTable BlockIO Buffer BufferCache BufferInit InodeIO Bitmap Inode PageFault UserMem Namei Sched Tty.
Open Scope Z_scope.

Definition O_APPEND : Z := 0x400.
Definition O_NONBLOCK : Z := 0x800.
Definition ENODEV : Z := 19.
(** The macro of linux/fs.h: a block has [2^10] bytes. *)
Definition FS_BLOCK_SIZE_BITS : Z := 10.

Section FileDev.
Context {SI : SyncInodes}.

(** ** file_dev.c *)
(** One round of the loop of [file_read]: [rest] bytes are left, the next one goes to [buf]; [inr] is
    the end of the loop. *)
Definition file_read_round (inode filp : nat) : Z * Z -> K (Z * Z + Z) := fun '(buf, rest) =>
  if rest =? 0 then ret (inr rest)
  else
    let! f := get_file filp in
    let! nr := bmap inode (s32 (Z.quot (f_pos f) BLOCK_SIZE)) in
    let! bh := if truth nr then
                 let! n := get_inode inode in
                 let! b := bread (i_dev n) nr in
                 match b with Some b => ret (inr (Some b)) | None => ret (inl tt) end
               else ret (inr None) in
    match bh with
    | inl _ => ret (inr rest)
    | inr bh =>
        let nr := Z.rem (f_pos f) BLOCK_SIZE in
        let chars := Z.min (BLOCK_SIZE - nr) rest in
        mod_file filp (fun f => f <| f_pos := f_pos f + chars |>) ;;;
        match bh with
        | Some b =>
            let! h := get_bh b in
            put_bytes (Z.to_nat chars) (nr + b_data h) buf ;;;
            brelse (Some b)
        | None => put_zeros (Z.to_nat chars) buf
        end ;;;
        ret (inl (buf + chars, rest - chars))
    end.
Definition file_read (inode filp : nat) (buf count : Z) : K Z :=
  if count <=? 0 then ret 0
  else
    let! rest := loop (S (Z.to_nat count)) (file_read_round inode filp) (buf, count) in
    let! t := CURRENT_TIME in
    mod_inode inode (fun n => n <| i_atime := u32 t |>) ;;;
    ret (if truth (count - rest) then count - rest else - ERROR).

(** One round of the loop of [file_write]: [i] bytes are written, the next one is at [buf] and goes
    to position [pos]. *)
Definition file_write_round (inode : nat) (count : Z) : Z * Z * Z -> K (Z * Z * Z + Z * Z) := fun '(i, pos, buf) =>
  if i <? count then
    let! block := create_block inode (s32 (Z.quot pos BLOCK_SIZE)) in
    if block =? 0 then ret (inr (i, pos))
    else
      let! n := get_inode inode in
      let! bh := bread (i_dev n) block in
      match bh with
      | None => ret (inr (i, pos))
      | Some b =>
          let c := Z.rem pos BLOCK_SIZE in
          let! h := get_bh b in
          let p := c + b_data h in
          mod_bh b (fun h => h <| b_dirt := 1 |>) ;;;
          let c := BLOCK_SIZE - c in
          let c := if count - i <? c then count - i else c in
          let pos := pos + c in
          let! n := get_inode inode in
          when (i_size n <? pos) (
            mod_inode inode (fun n => n <| i_size := u32 pos |>) ;;;
            mod_inode inode (fun n => n <| i_dirt := 1 |>)) ;;;
          get_bytes (Z.to_nat c) p buf ;;;
          brelse (Some b) ;;;
          ret (inl (i + c, pos, buf + c))
      end
  else ret (inr (i, pos)).
Definition file_write (inode filp : nat) (buf count : Z) : K Z :=
  let! f := get_file filp in
  let! n := get_inode inode in
  let append := truth (Z.land (f_flags f) O_APPEND) in
  let pos := if append then i_size n else f_pos f in
  let! (i, pos) := loop (S (Z.to_nat count)) (file_write_round inode count) (0, pos, buf) in
  let! t := CURRENT_TIME in
  mod_inode inode (fun n => n <| i_mtime := u32 t |>) ;;;
  when (negb append) (
    mod_file filp (fun f => f <| f_pos := pos |>) ;;;
    let! t := CURRENT_TIME in
    mod_inode inode (fun n => n <| i_ctime := u32 t |>)) ;;;
  ret (if truth i then i else -1).

(** ** block_dev.c *)
Definition block_write (dev : Z) (filp : nat) (buf count : Z) : K Z :=
  let! f := get_file filp in
  loop (S (Z.to_nat count)) (fun '(block, offset, buf, written, count) =>
    if 0 <? count then
      let chars := BLOCK_SIZE - offset in
      let chars := if count <? chars then count else chars in
      let! bh := if chars =? BLOCK_SIZE then let! b := getblk dev block in ret (Some b)
                 else breada dev block [s32 (block + 1); s32 (block + 2)] in
      match bh with
      | None => ret (inr (if truth written then written else - EIO))
      | Some b =>
          let! h := get_bh b in
          let p := offset + b_data h in
          mod_file filp (fun f => f <| f_pos := f_pos f + chars |>) ;;;
          get_bytes (Z.to_nat chars) p buf ;;;
          mod_bh b (fun h => h <| b_dirt := 1 |>) ;;;
          brelse (Some b) ;;;
          ret (inl (s32 (block + 1), 0, buf + chars, written + chars, count - chars))
      end
    else ret (inr written))
    (s32 (Z.shiftr (f_pos f) FS_BLOCK_SIZE_BITS), Z.land (f_pos f) (BLOCK_SIZE - 1), buf, 0, count).
Definition block_read (dev : Z) (filp : nat) (buf count : Z) : K Z :=
  let! f := get_file filp in
  loop (S (Z.to_nat count)) (fun '(block, offset, buf, read, count) =>
    if 0 <? count then
      let chars := BLOCK_SIZE - offset in
      let chars := if count <? chars then count else chars in
      let! bh := breada dev block [s32 (block + 1); s32 (block + 2)] in
      match bh with
      | None => ret (inr (if truth read then read else - EIO))
      | Some b =>
          let! h := get_bh b in
          let p := offset + b_data h in
          mod_file filp (fun f => f <| f_pos := f_pos f + chars |>) ;;;
          put_bytes (Z.to_nat chars) p buf ;;;
          brelse (Some b) ;;;
          ret (inl (s32 (block + 1), 0, buf + chars, read + chars, count - chars))
      end
    else ret (inr read))
    (s32 (Z.shiftr (u64 (f_pos f)) FS_BLOCK_SIZE_BITS), Z.land (f_pos f) (BLOCK_SIZE - 1), buf, 0, count).

(** ** pipe.c *)
Definition PIPE_HEAD (n : m_inode) : Z := default 0 (idx (i_zone n) 0).
Definition PIPE_TAIL (n : m_inode) : Z := default 0 (idx (i_zone n) 1).
Definition PIPE_SIZE (n : m_inode) : Z := Z.land (PIPE_HEAD n - PIPE_TAIL n) (PAGE_SIZE - 1).
(** One round; [inr] is a [return]: [inl] of a value, [inr] of the normal end. *)
Definition read_pipe_round (inode : nat) : Z * Z * Z -> K (Z * Z * Z + (Z + Z)) := fun '(buf, count, read) =>
  if 0 <? count then
    let! n := get_inode inode in
    let size := PIPE_SIZE n in
    if size =? 0 then
      wake_up (i_wait n) ;;;
      let! n := get_inode inode in
      if negb (i_count n =? 2) then ret (inr (inl read)) else sleep_on (WaitInode inode)
    else
      let chars := PAGE_SIZE - PIPE_TAIL n in
      let chars := if count <? chars then count else chars in
      let chars := if size <? chars then size else chars in
      let size := PIPE_TAIL n in
      set_zone inode 1 (u16 (PIPE_TAIL n + chars)) ;;;
      let! n := get_inode inode in
      set_zone inode 1 (Z.land (PIPE_TAIL n) (PAGE_SIZE - 1)) ;;;
      put_bytes (Z.to_nat chars) (i_size n + size) buf ;;;
      ret (inl (buf + chars, count - chars, read + chars))
  else ret (inr (inr read)).
Definition read_pipe (inode : nat) (buf count : Z) : K Z :=
  let! r := loop (S (Z.to_nat count)) (read_pipe_round inode) (buf, count, 0) in
  match r with
  | inl v => ret v
  | inr read => let! n := get_inode inode in wake_up (i_wait n) ;;; ret read
  end.
Definition write_pipe_round (inode : nat) : Z * Z * Z -> K (Z * Z * Z + (Z + Z)) := fun '(buf, count, written) =>
  if 0 <? count then
    let! n := get_inode inode in
    let size := PAGE_SIZE - 1 - PIPE_SIZE n in
    if size =? 0 then
      wake_up (i_wait n) ;;;
      let! n := get_inode inode in
      if negb (i_count n =? 2) then
        mod_cur (fun t => t <| t_signal := Z.lor (t_signal t) (_S SIGPIPE) |>) ;;;
        ret (inr (inl (if truth written then written else -1)))
      else sleep_on (WaitInode inode)
    else
      let chars := PAGE_SIZE - PIPE_HEAD n in
      let chars := if count <? chars then count else chars in
      let chars := if size <? chars then size else chars in
      let size := PIPE_HEAD n in
      set_zone inode 0 (u16 (PIPE_HEAD n + chars)) ;;;
      let! n := get_inode inode in
      set_zone inode 0 (Z.land (PIPE_HEAD n) (PAGE_SIZE - 1)) ;;;
      get_bytes (Z.to_nat chars) (i_size n + size) buf ;;;
      ret (inl (buf + chars, count - chars, written + chars))
  else ret (inr (inr written)).
Definition write_pipe (inode : nat) (buf count : Z) : K Z :=
  let! r := loop (S (Z.to_nat count)) (write_pipe_round inode) (buf, count, 0) in
  match r with
  | inl v => ret v
  | inr written => let! n := get_inode inode in wake_up (i_wait n) ;;; ret written
  end.
End FileDev.

(** ** char_dev.c *)
Section CharDev.
Context {SI : SyncInodes} {UA : Uart}.

Definition rw_ttyx (rw minor buf count : Z) : K Z :=
  if rw =? READ then tty_read minor buf count else tty_write minor buf count.
Definition rw_tty (rw minor buf count : Z) : K Z :=
  let! t := cur in
  if t_tty t <? 0 then ret (- EPERM) else rw_ttyx rw (t_tty t) buf count.
Definition rw_memory (rw minor buf count : Z) : K Z :=
  match minor with
  | 3 => ret (if rw =? READ then 0 else count)
  | _ => ret (- EIO)
  end.
(** [crw_table] *)
Definition rw_char (rw dev buf count : Z) : K Z :=
  match MAJOR dev with
  | 1 => rw_memory rw (MINOR dev) buf count
  | 4 => rw_ttyx rw (MINOR dev) buf count
  | 5 => rw_tty rw (MINOR dev) buf count
  | _ => ret (- ENODEV)
  end.

(** ** read_write.c *)
(** [current -> filp[fd]] for [fd < NR_OPEN]; [None] is NULL or a number that is too large. *)
Definition filp_of (fd : Z) : K (option nat) :=
  if Z.of_nat NR_OPEN <=? fd then ret None
  else let! t := cur in unwrap "filp index" (idx (t_filp t) fd).
Definition IS_SEEKABLE (x : Z) : bool := (1 <=? x) && (x <=? 3).
Definition sys_lseek (fd offset origin : Z) : K Z :=
  let! f := filp_of fd in
  match f with
  | None => ret (- EBADF)
  | Some filp =>
      let! f := get_file filp in
      match f_inode f with
      | None => ret (- EBADF)
      | Some inode =>
          let! n := get_inode inode in
          if negb (IS_SEEKABLE (MAJOR (i_dev n))) then ret (- EBADF)
          else if truth (i_pipe n) then ret (- ESPIPE)
          else
            let! pos :=
              match origin with
              | 0 => ret (if offset <? 0 then None else Some offset)
              | 1 => let p := s64 (f_pos f + offset) in ret (if p <? 0 then None else Some p)
              | 2 => let tmp := s32 (i_size n + offset) in ret (if tmp <? 0 then None else Some tmp)
              | _ => ret None
              end in
            match pos with
            | None => ret (- EINVAL)
            | Some p =>
                mod_file filp (fun f => f <| f_pos := p |>) ;;;
                let! f := get_file filp in
                ret (f_pos f)
            end
      end
  end.
Definition sys_read (fd buf count : Z) : K Z :=
  let! f := if count <? 0 then ret None else filp_of fd in
  match f with
  | None => ret (- EINVAL)
  | Some filp =>
      if count =? 0 then ret 0
      else
        verify_area buf count ;;;
        let! f := get_file filp in
        let! inode := unwrap "sys_read: inode" (f_inode f) in
        let! n := get_inode inode in
        if truth (i_pipe n) then
          if truth (Z.land (f_mode f) 1) then read_pipe inode buf count else ret (- EIO)
        else if S_ISCHR (i_mode n) then let! dev := zone inode 0 in rw_char READ dev buf count
        else if S_ISBLK (i_mode n) then let! dev := zone inode 0 in block_read dev filp buf count
        else if S_ISDIR (i_mode n) || S_ISREG (i_mode n) then
          let count := if i_size n <? count + f_pos f then s32 (i_size n - f_pos f) else count in
          if count <=? 0 then ret 0 else file_read inode filp buf count
        else ret (- EINVAL)
  end.
Definition sys_write (fd buf count : Z) : K Z :=
  let! f := if count <? 0 then ret None else filp_of fd in
  match f with
  | None => ret (- EINVAL)
  | Some filp =>
      if count =? 0 then ret 0
      else
        let! f := get_file filp in
        let! inode := unwrap "sys_write: inode" (f_inode f) in
        let! n := get_inode inode in
        if truth (i_pipe n) then
          if truth (Z.land (f_mode f) 2) then write_pipe inode buf count else ret (- EIO)
        else if S_ISCHR (i_mode n) then let! dev := zone inode 0 in rw_char WRITE dev buf count
        else if S_ISBLK (i_mode n) then let! dev := zone inode 0 in block_write dev filp buf count
        else if S_ISREG (i_mode n) then file_write inode filp buf count
        else ret (- EINVAL)
  end.
End CharDev.

(** ** [sys_pipe] *)
Section Pipe.
Context {SI : SyncInodes}.

(** [for(i=0;j<2 && i<NR_FILE;i++) if (!file_table[i].f_count) (f[j++]=i+file_table)->f_count++;] *)
Fixpoint take_files (i n : nat) (f : list nat) : K (list nat) :=
  match n with
  | O => ret f
  | S m =>
      if (2 <=? length f)%nat then ret f
      else
        let! e := get_file i in
        if f_count e =? 0 then
          mod_file i (fun e => e <| f_count := u16 (f_count e + 1) |>) ;;; take_files (S i) m (f ++ [i])
        else take_files (S i) m f
  end.
Definition set_filp (fd : Z) (f : option nat) : K unit := mod_cur (fun t => t <| t_filp ::= fun l => upd_idx l fd f |>).
(** [for(i=0;j<2 && i<NR_OPEN;i++) if (!current->filp[i]) { current->filp[fd[j]=i] = f[j]; j++; }] *)
Fixpoint take_fds (f : list nat) (i : Z) (n : nat) (fd : list Z) : K (list Z) :=
  match n with
  | O => ret fd
  | S m =>
      if (2 <=? length fd)%nat then ret fd
      else
        let! t := cur in
        let! p := unwrap "filp index" (idx (t_filp t) i) in
        match p with
        | Some _ => take_fds f (i + 1) m fd
        | None => set_filp i (f !! length fd) ;;; take_fds f (i + 1) m (fd ++ [i])
        end
  end.
Definition zero_count (f : nat) : K unit := mod_file f (fun e => e <| f_count := 0 |>).
Definition sys_pipe (fildes : Z) : K Z :=
  let! f := take_files 0 NR_FILE [] in
  match f with
  | [] => ret (-1)
  | [f0] => zero_count f0 ;;; ret (-1)
  | f0 :: f1 :: _ =>
      let! fd := take_fds f 0 NR_OPEN [] in
      match fd with
      | [] => zero_count f1 ;;; zero_count f0 ;;; ret (-1)
      | [fd0] => set_filp fd0 None ;;; zero_count f1 ;;; zero_count f0 ;;; ret (-1)
      | fd0 :: fd1 :: _ =>
          let! inode := get_pipe_inode in
          match inode with
          | None => set_filp fd1 None ;;; set_filp fd0 None ;;; zero_count f1 ;;; zero_count f0 ;;; ret (-1)
          | Some i =>
              mod_file f1 (fun e => e <| f_inode := Some i |>) ;;; mod_file f0 (fun e => e <| f_inode := Some i |>) ;;;
              mod_file f1 (fun e => e <| f_pos := 0 |>) ;;; mod_file f0 (fun e => e <| f_pos := 0 |>) ;;;
              mod_file f0 (fun e => e <| f_mode := 1 |>) ;;;
              mod_file f1 (fun e => e <| f_mode := 2 |>) ;;;
              put_fs_long fd0 fildes ;;;
              put_fs_long fd1 (fildes + 8) ;;;
              ret 0
          end
      end
  end.
End Pipe.
