(* ===== verification/Pipe.v ===== *)
(** * Pipes are bounded FIFOs of bytes (fs/pipe.c)

    The page of a pipe is abstracted to the list of the bytes in it ([pipe_bytes]); [read_pipe] takes
    bytes from its front and [write_pipe] appends to its end. *)
From Stdlib Require Import ZArith Lia String.
From stdpp Require Import base list gmap.
From S2P Require Import Prelude State Pte PageAlloc PageTable BlockIO Buffer BufferCache BufferInit InodeIO Bitmap Inode PageFault UserMem Namei Sched Tty FileIO.
Open Scope Z_scope.

(** The i-node of a pipe, with its indices in range. *)
Record pipe_ok (n : m_inode) : Prop := mkPipeOk {
  po_zones : (2 <= length (i_zone n))%nat;
  po_head : 0 <= PIPE_HEAD n < PAGE_SIZE;
  po_tail : 0 <= PIPE_TAIL n < PAGE_SIZE }.
Definition pipe_page (n : m_inode) (x : Z) : Prop := i_size n <= x < i_size n + PAGE_SIZE.
(** Byte [i] of the pipe, the oldest one first, and all of them. *)
Definition pipe_byte (k : kernel) (n : m_inode) (i : nat) : Z :=
  u8 (k_pmem k (i_size n + (PIPE_TAIL n + Z.of_nat i) mod PAGE_SIZE)).
Definition pipe_bytes (k : kernel) (n : m_inode) : list Z := pipe_byte k n <$> seq 0 (Z.to_nat (PIPE_SIZE n)).

Lemma PIPE_SIZE_mod n : PIPE_SIZE n = (PIPE_HEAD n - PIPE_TAIL n) mod PAGE_SIZE.
Proof.
  unfold PIPE_SIZE. change (PAGE_SIZE - 1) with (Z.ones 12). by rewrite Z.land_ones by lia.
Qed.
Lemma PIPE_SIZE_bound n : 0 <= PIPE_SIZE n < PAGE_SIZE.
Proof. rewrite PIPE_SIZE_mod. by apply Z.mod_pos_bound. Qed.
Lemma pipe_bytes_length k n : Z.of_nat (length (pipe_bytes k n)) = PIPE_SIZE n.
Proof. unfold pipe_bytes. rewrite length_fmap, length_seq. pose proof (PIPE_SIZE_bound n). lia. Qed.
Lemma pipe_bytes_lookup k n i : (i < length (pipe_bytes k n))%nat -> pipe_bytes k n !! i = Some (pipe_byte k n i).
Proof.
  intros Hi. unfold pipe_bytes in *. rewrite length_fmap, length_seq in Hi. rewrite list_lookup_fmap, lookup_seq_lt by done. done.
Qed.
(** The list is determined by its length and its bytes. *)
Lemma pipe_bytes_eq k n l : Z.of_nat (length l) = PIPE_SIZE n -> (forall i, (i < length l)%nat -> l !! i = Some (pipe_byte k n i)) ->
  pipe_bytes k n = l.
Proof.
  intros Hl H. apply list_eq_same_length with (n := length l); [done| |].
  - apply Nat2Z.inj. by rewrite pipe_bytes_length.
  - intros i x y Hi Hx Hy. rewrite H in Hy by done. rewrite pipe_bytes_lookup in Hx; [congruence|].
    apply Nat2Z.inj_lt. rewrite pipe_bytes_length. lia.
Qed.

Section Rounds.
Context {SI : SyncInodes}.

Definition set_tail (v : Z) (n : m_inode) : m_inode := n <| i_zone ::= fun z => upd_idx z 1 v |>.
Definition set_head (v : Z) (n : m_inode) : m_inode := n <| i_zone ::= fun z => upd_idx z 0 v |>.
Lemma tail_set_tail v n : (2 <= length (i_zone n))%nat -> PIPE_TAIL (set_tail v n) = v /\ PIPE_HEAD (set_tail v n) = PIPE_HEAD n.
Proof. intros H. unfold PIPE_TAIL, PIPE_HEAD, set_tail. rsimpl. rewrite idx_upd_eq, idx_upd_ne by lia. done. Qed.
Lemma head_set_head v n : (2 <= length (i_zone n))%nat -> PIPE_HEAD (set_head v n) = v /\ PIPE_TAIL (set_head v n) = PIPE_TAIL n.
Proof. intros H. unfold PIPE_TAIL, PIPE_HEAD, set_head. rsimpl. rewrite idx_upd_eq, idx_upd_ne by lia. done. Qed.
Lemma set_zone_Ok k inode n i v : inode_table (k_fs k) !! inode = Some n ->
  set_zone inode i v k = Ok tt (set_inode inode (n <| i_zone ::= fun z => upd_idx z i v |>) k).
Proof. intros H. unfold set_zone. by erewrite mod_inode_Ok by exact H. Qed.

(** What one round of [read_pipe] moves. *)
Definition read_chars (n : m_inode) (count : Z) : Z := Z.min (Z.min (PAGE_SIZE - PIPE_TAIL n) count) (PIPE_SIZE n).
Lemma read_pipe_round_spec k inode n io buf count read phys :
  inode_table (k_fs k) !! inode = Some n -> pipe_ok n -> 0 < count -> 0 < PIPE_SIZE n ->
  (forall x, pipe_page n x -> io x) -> ubuf io k buf count phys ->
  let c := read_chars n count in
  exists k' n', read_pipe_round inode (buf, count, read) k = Ok (inl (buf + c, count - c, read + c)) k' /\
    n' = set_tail ((PIPE_TAIL n + c) mod PAGE_SIZE) n /\ 0 < c <= count /\ c <= PIPE_SIZE n /\ pipe_ok n' /\
    k_fs k' = k_fs (set_inode inode n' k) /\ k_sched k' = k_sched k /\ k_mm k' = k_mm k /\
    pipe_bytes k' n' = drop (Z.to_nat c) (pipe_bytes k n) /\
    (forall i, 0 <= i < c -> k_pmem k' (phys i) = default 0 (pipe_bytes k n !! Z.to_nat i)) /\
    (forall x, (forall i, 0 <= i < c -> x <> phys i) -> k_pmem k' x = k_pmem k x).
Proof.
  intros Hn Hok Hc Hs Hio Hub c. pose proof Hok as [Hz Hh Ht]. pose proof (PIPE_SIZE_bound n) as Hsb.
  assert (0 < c <= count /\ c <= PIPE_SIZE n /\ PIPE_TAIL n + c <= PAGE_SIZE) as (Hc1&Hc2&Hc3) by (unfold c, read_chars; lia).
  unfold read_pipe_round. assert (0 <? count = true) as -> by lia. erewrite bind_Ok by by apply get_inode_Ok. cbv zeta.
  assert (PIPE_SIZE n =? 0 = false) as -> by lia.
  set (c1 := if count <? PAGE_SIZE - PIPE_TAIL n then count else PAGE_SIZE - PIPE_TAIL n).
  assert ((if PIPE_SIZE n <? c1 then PIPE_SIZE n else c1) = c) as ->.
  { unfold c1, c, read_chars. destruct (Z.ltb_spec count (PAGE_SIZE - PIPE_TAIL n)); case_match eqn:E; lia. }
  erewrite bind_Ok by by apply set_zone_Ok. set (n1 := n <| i_zone ::= _ |>).
  set (k1 := set_inode inode n1 k).
  assert (PIPE_TAIL n1 = PIPE_TAIL n + c) as Et1.
  { change n1 with (set_tail (u16 (PIPE_TAIL n + c)) n). rewrite (proj1 (tail_set_tail _ n Hz)). apply u16_small. unfold PAGE_SIZE in *. lia. }
  erewrite bind_Ok by by apply get_inode_Ok; eapply set_inode_lookup. rewrite Et1.
  assert (Z.land (PIPE_TAIL n + c) (PAGE_SIZE - 1) = (PIPE_TAIL n + c) mod PAGE_SIZE) as ->.
  { change (PAGE_SIZE - 1) with (Z.ones 12). by rewrite Z.land_ones by lia. }
  erewrite bind_Ok by by apply set_zone_Ok; eapply set_inode_lookup. unfold k1. rewrite set_inode_twice.
  set (n' := set_tail ((PIPE_TAIL n + c) mod PAGE_SIZE) n).
  assert (n1 <| i_zone ::= fun z => upd_idx z 1 ((PIPE_TAIL n + c) mod PAGE_SIZE) |> = n') as ->.
  { unfold n1, n', set_tail. destruct n. unfold upd; cbn. by rewrite upd_idx_upd_idx. }
  change (i_size n1) with (i_size n). set (k2 := set_inode inode n' k).
  assert (ubuf io k2 buf (Z.of_nat (Z.to_nat c)) phys) as Hub2.
  { rewrite Z2Nat.id by lia. pose proof (ubuf_sub io k2 buf count phys 0 c ltac:(lia) ltac:(lia) ltac:(lia)) as H.
    rewrite Z.add_0_r in H. apply H. by apply (ubuf_ext io k). }
  destruct (put_bytes_spec io k2 buf (Z.to_nat c) phys (i_size n + PIPE_TAIL n) Hub2) as (m'&E&Hm1&Hm2).
  { intros i j Hi Hj Ex. apply (ub_out _ _ _ _ _ Hub2 j Hj). rewrite <- Ex. apply Hio. unfold pipe_page. lia. }
  rewrite Z2Nat.id in Hm1, Hm2 by lia. erewrite bind_Ok by exact E. exists (k2 <| k_pmem := m' |>), n'.
  destruct (tail_set_tail ((PIPE_TAIL n + c) mod PAGE_SIZE) n Hz) as [Et' Eh']. fold n' in Et', Eh'.
  split_and!; try done; try lia.
  - split; [unfold n', set_tail; rsimpl; by rewrite length_upd_idx|by rewrite Eh'|rewrite Et'; by apply Z.mod_pos_bound].
  - assert (PIPE_SIZE n' = PIPE_SIZE n - c) as Es.
    { rewrite !PIPE_SIZE_mod, Et', Eh'. rewrite PIPE_SIZE_mod in Hc2. unfold PAGE_SIZE in *. dlia. }
    assert (length (pipe_bytes k n) = Z.to_nat (PIPE_SIZE n)) as Hlen by (rewrite <- (pipe_bytes_length k n); lia).
    apply pipe_bytes_eq; [rewrite length_drop; lia|]. intros i Hi. rewrite length_drop in Hi.
    rewrite lookup_drop, pipe_bytes_lookup by lia. f_equal. unfold pipe_byte. f_equal.
    change (i_size n') with (i_size n). rewrite Et'. rsimpl. rewrite Hm2.
    + change (k_pmem k2) with (k_pmem k). f_equal. f_equal. unfold PAGE_SIZE. dlia.
    + intros j Hj Ex. apply (ub_out _ _ _ _ _ Hub j ltac:(lia)). rewrite <- Ex. apply Hio. unfold pipe_page.
      pose proof (Z.mod_pos_bound ((PIPE_TAIL n + c) mod PAGE_SIZE + Z.of_nat i) PAGE_SIZE ltac:(done)). lia.
  - intros i Hi. rsimpl. rewrite Hm1 by done. change (k_pmem k2) with (k_pmem k).
    rewrite pipe_bytes_lookup by (apply Nat2Z.inj_lt; rewrite pipe_bytes_length; lia). change (default 0 (Some (pipe_byte k n (Z.to_nat i)))) with (pipe_byte k n (Z.to_nat i)). unfold pipe_byte. f_equal. f_equal.
    rewrite Z2Nat.id by lia. rewrite (Z.mod_small (PIPE_TAIL n + i)) by lia. lia.
Qed.

(** The task that waits for the pipe, if any, exists. *)
Definition waiter_ok (k : kernel) (n : m_inode) : Prop := forall p, i_wait n = Some p -> is_Some (tasks (k_sched k) !! p).
Lemma wake_up_Ok k n : waiter_ok k n -> exists s, wake_up (i_wait n) k = Ok tt (k <| k_sched := s |>).
Proof.
  intros H. destruct (i_wait n) as [p|] eqn:E.
  - destruct (H p E) as [t Ht]. eexists. cbn [wake_up]. rewrite (mod_task_Ok k p t) by done. unfold set_task. by destruct k.
  - exists (k_sched k). by destruct k.
Qed.
(** The bytes [bs] are in the buffer, and the rest of memory is as it was. *)
Definition delivered (k k' : kernel) (phys : Z -> Z) (bs : list Z) : Prop :=
  (forall i c, bs !! i = Some c -> k_pmem k' (phys (Z.of_nat i)) = c) /\
  (forall x, (forall i, 0 <= i < Z.of_nat (length bs) -> x <> phys i) -> k_pmem k' x = k_pmem k x).
Lemma delivered_app k1 k2 k3 phys bs cs :
  (forall i j, 0 <= i < Z.of_nat (length (bs ++ cs)) -> 0 <= j < Z.of_nat (length (bs ++ cs)) -> phys i = phys j -> i = j) ->
  delivered k1 k2 phys bs -> delivered k2 k3 (fun i => phys (Z.of_nat (length bs) + i)) cs -> delivered k1 k3 phys (bs ++ cs).
Proof.
  intros Hinj [H1 H2] [H3 H4]. split.
  - intros i c Hi. pose proof (lookup_lt_Some _ _ _ Hi) as Hl. apply lookup_app_Some in Hi as [Hi|[Hge Hi]].
    + rewrite H4; [by apply H1|]. intros j Hj Ex. rewrite length_app in Hinj. apply lookup_lt_Some in Hi. apply Hinj in Ex; lia.
    + rewrite <- (H3 _ _ Hi). do 2 f_equal. lia.
  - intros x Hx. rewrite length_app in Hx. rewrite H4; [apply H2|]; intros i Hi; apply Hx; lia.
Qed.
Lemma delivered_nil k k' phys : k_pmem k' = k_pmem k -> delivered k k' phys [].
Proof. intros E. split; [done|]. intros x _. by rewrite E. Qed.

(** The pipe is still the same one: its page, its users and who waits for it. *)
Definition same_pipe (n n' : m_inode) : Prop := i_size n' = i_size n /\ i_count n' = i_count n /\ i_wait n' = i_wait n.
(** The rounds of [read_pipe] until it has all bytes it wants, or the pipe is empty. *)
Lemma read_pipe_transfer io inode fuel : forall k n buf count read phys,
  (Z.to_nat count < fuel)%nat -> 0 <= count -> inode_table (k_fs k) !! inode = Some n -> pipe_ok n ->
  (forall x, pipe_page n x -> io x) -> ubuf io k buf count phys ->
  let m := Z.min count (PIPE_SIZE n) in
  exists k' n' fuel', loop fuel (read_pipe_round inode) (buf, count, read) k =
      loop (S fuel') (read_pipe_round inode) (buf + m, count - m, read + m) k' /\
    inode_table (k_fs k') !! inode = Some n' /\ pipe_ok n' /\ same_pipe n n' /\ k_sched k' = k_sched k /\ k_mm k' = k_mm k /\
    pipe_bytes k' n' = drop (Z.to_nat m) (pipe_bytes k n) /\ delivered k k' phys (take (Z.to_nat m) (pipe_bytes k n)).
Proof.
  induction fuel as [|fuel IH]; intros k n buf count read phys Hf Hc Hn Hok Hio Hub m; [lia|].
  pose proof (PIPE_SIZE_bound n) as Hsb. destruct (decide (m = 0)) as [Em|Em].
  { exists k, n, fuel. rewrite Em, !Z.add_0_r, Z.sub_0_r. split_and!; done || by apply delivered_nil. }
  destruct (read_pipe_round_spec k inode n io buf count read phys Hn Hok ltac:(lia) ltac:(lia) Hio Hub)
    as (k1&n1&E1&En1&Hc1&Hc2&Hok1&Efs&Esc&Emm&Hb1&Hd1&Hd2). set (c := read_chars n count) in *.
  rewrite loop_S. erewrite bind_Ok by exact E1. cbv iota.
  assert (inode_table (k_fs k1) !! inode = Some n1) as Hn1 by (rewrite Efs; by eapply set_inode_lookup).
  assert (PIPE_SIZE n1 = PIPE_SIZE n - c) as Es1.
  { rewrite <- (pipe_bytes_length k1 n1), Hb1, length_drop, <- (pipe_bytes_length k n). rewrite <- (pipe_bytes_length k n) in Hc2. lia. }
  assert (same_pipe n n1) as (Ez&Ect&Ewt) by by subst n1.
  set (phys1 := fun i => phys (c + i)).
  assert (ubuf io k1 (buf + c) (count - c) phys1) as Hub1.
  { apply (ubuf_sub io k1 buf count phys c (count - c)); [lia..|]. apply (ubuf_ext io k); [done..|]. intros x _ Hx.
    apply Hd2. intros i Hi. apply Hx. lia. }
  destruct (IH k1 n1 (buf + c) (count - c) (read + c) phys1) as (k'&n'&fuel'&E&Hn'&Hok'&(?&?&?)&?&?&Hb&Hdl);
    [lia..|done|done|unfold pipe_page; by rewrite Ez|done|].
  assert (Z.min (count - c) (PIPE_SIZE n1) = m - c) as Emc by (rewrite Es1; unfold m; lia). rewrite Emc in *.
  exists k', n', fuel'. split.
  { rewrite E. replace (buf + c + (m - c)) with (buf + m) by lia. replace (count - c - (m - c)) with (count - m) by lia.
    by replace (read + c + (m - c)) with (read + m) by lia. }
  do 2 (split; [done|]). split; [split_and!; congruence|]. do 2 (split; [congruence|]). split.
  - rewrite Hb, Hb1, drop_drop. f_equal. unfold m in *. lia.
  - assert (length (take (Z.to_nat c) (pipe_bytes k n)) = Z.to_nat c) as Hlc.
    { rewrite length_take, <- (Nat2Z.id (length (pipe_bytes k n))), pipe_bytes_length. lia. }
    assert (take (Z.to_nat m) (pipe_bytes k n) = take (Z.to_nat c) (pipe_bytes k n) ++ take (Z.to_nat (m - c)) (drop (Z.to_nat c) (pipe_bytes k n))) as ->.
    { rewrite take_take_drop. f_equal. unfold m in *. lia. }
    apply (delivered_app k k1).
    + intros i j Hi Hj. apply (ub_inj _ _ _ _ _ Hub); rewrite length_app, Hlc, length_take, length_drop in *; unfold m in *; lia.
    + split; [|by rewrite Hlc, Z2Nat.id by lia]. intros i x Hi. pose proof (lookup_lt_Some _ _ _ Hi).
      rewrite Hd1 by lia. apply lookup_take_Some in Hi as [Hi _]. by rewrite Nat2Z.id, Hi.
    + rewrite Hlc, Z2Nat.id by lia. by rewrite <- Hb1.
Qed.

(** ** Waiting *)
(** The task stopped in [sleep_on]: it is the one that waits for the i-node, and is not runnable. *)
Definition asleep (inode : nat) (k k' : kernel) (e : stop) : Prop :=
  e = Sleep (WaitInode inode) /\ current (k_sched k') = current (k_sched k) /\
  (exists n', inode_table (k_fs k') !! inode = Some n' /\ i_wait n' = Some (current (k_sched k))) /\
  exists t', tasks (k_sched k') !! current (k_sched k) = Some t' /\ t_state t' = TASK_UNINTERRUPTIBLE.
(** The state [k'] differs from [k] in who is runnable and who waits. *)
Definition pipe_kept (inode : nat) (k k' : kernel) : Prop :=
  k_pmem k' = k_pmem k /\ k_mm k' = k_mm k /\
  forall n, inode_table (k_fs k) !! inode = Some n -> exists n', inode_table (k_fs k') !! inode = Some n' /\
    i_size n' = i_size n /\ i_zone n' = i_zone n.
Lemma pipe_kept_bytes inode k k' n : pipe_kept inode k k' -> inode_table (k_fs k) !! inode = Some n -> pipe_ok n ->
  exists n', inode_table (k_fs k') !! inode = Some n' /\ i_size n' = i_size n /\ pipe_ok n' /\ pipe_bytes k' n' = pipe_bytes k n.
Proof.
  intros (Em&_&H) Hn [Hz Hh Ht]. destruct (H n Hn) as (n'&Hn'&Es&Ez). exists n'.
  assert (PIPE_HEAD n' = PIPE_HEAD n /\ PIPE_TAIL n' = PIPE_TAIL n) as [Eh Et] by (unfold PIPE_HEAD, PIPE_TAIL; by rewrite Ez).
  split_and!; [done|done|split; congruence|]. unfold pipe_bytes, pipe_byte, PIPE_SIZE. by rewrite Eh, Et, Es, Em.
Qed.
Lemma pipe_kept_fs inode k k' : k_pmem k' = k_pmem k -> k_mm k' = k_mm k -> k_fs k' = k_fs k -> pipe_kept inode k k'.
Proof. intros Em Emm Ef. split_and!; [done|done|]. intros n Hn. exists n. by rewrite Ef. Qed.
Lemma wake_up_kept inode k n u : waiter_ok k n -> tasks (k_sched k) !! current (k_sched k) = Some u ->
  exists kw u', wake_up (i_wait n) k = Ok tt kw /\ pipe_kept inode k kw /\ k_fs kw = k_fs k /\
    current (k_sched kw) = current (k_sched k) /\ tasks (k_sched kw) !! current (k_sched kw) = Some u' /\ t_signal u' = t_signal u.
Proof.
  intros H Hu. destruct (i_wait n) as [p|] eqn:E.
  2:{ exists k, u. split; [done|]. split; [by apply pipe_kept_fs|done]. }
  destruct (H p E) as [v Hv]. cbn [wake_up]. rewrite (mod_task_Ok k p v) by done. set (v' := v <| t_state := TASK_RUNNING |>).
  exists (set_task p v' k). destruct (decide (p = current (k_sched k))) as [->|Hne].
  - exists v'. split; [done|]. split; [by apply pipe_kept_fs|]. do 2 (split; [done|]). assert (v = u) as -> by congruence.
    split; [apply lookup_insert_eq|done].
  - exists u. split; [done|]. split; [by apply pipe_kept_fs|]. do 2 (split; [done|]). split; [|done].
    etransitivity; [by apply lookup_insert_ne|done].
Qed.
Lemma sleep_on_pipe {A} k n t inode : inode_table (k_fs k) !! inode = Some n -> tasks (k_sched k) !! current (k_sched k) = Some t ->
  current (k_sched k) <> init_task ->
  exists k', sleep_on (A := A) (WaitInode inode) k = Stop (Sleep (WaitInode inode)) k' /\ pipe_kept inode k k' /\
    asleep inode k k' (Sleep (WaitInode inode)).
Proof.
  intros Hn Ht Hne. unfold sleep_on. erewrite bind_Ok by reflexivity. apply Z.eqb_neq in Hne. rewrite Hne.
  cbn [set_waitq]. erewrite bind_Ok by by apply mod_inode_Ok. set (n' := n <| i_wait := Some (current (k_sched k)) |>). set (k1 := set_inode inode n' k).
  erewrite bind_Ok by by apply (mod_cur_Ok k1 t). eexists. split; [reflexivity|].
  assert (inode_table (k_fs k1) !! inode = Some n') as Hn1 by by eapply set_inode_lookup. split.
  - split_and!; [done|done|]. intros n0 Hn0. assert (n0 = n) as -> by congruence. by exists n'.
  - split_and!; [done|done|by exists n'|]. eexists. split; [apply lookup_insert_eq|done].
Qed.

(** ** Reading *)
(** [m] bytes have gone from the front of the pipe to the buffer. *)
Definition took_front (k k' : kernel) (inode : nat) (n : m_inode) (phys : Z -> Z) (m : Z) : Prop :=
  exists n', inode_table (k_fs k') !! inode = Some n' /\ pipe_ok n' /\ i_size n' = i_size n /\
    pipe_bytes k' n' = drop (Z.to_nat m) (pipe_bytes k n) /\ delivered k k' phys (take (Z.to_nat m) (pipe_bytes k n)).
Lemma took_front_kept k k1 k2 inode n phys m : pipe_kept inode k1 k2 -> took_front k k1 inode n phys m -> took_front k k2 inode n phys m.
Proof.
  intros Hp (n1&Hn1&Hok1&Es&Eb&Hd). destruct (pipe_kept_bytes _ _ _ _ Hp Hn1 Hok1) as (n2&?&?&?&?). exists n2.
  split_and!; try done; [congruence|congruence|]. destruct Hp as [Em _]. unfold delivered in *. by rewrite Em.
Qed.
Lemma read_pipe_spec io k inode n t buf count phys :
  0 <= count -> inode_table (k_fs k) !! inode = Some n -> pipe_ok n -> waiter_ok k n ->
  tasks (k_sched k) !! current (k_sched k) = Some t -> current (k_sched k) <> init_task ->
  (forall x, pipe_page n x -> io x) -> ubuf io k buf count phys ->
  let m := Z.min count (PIPE_SIZE n) in
  mayrun (read_pipe inode buf count) k
    (fun r k' => took_front k k' inode n phys m /\ r = m /\ (m = count \/ i_count n <> 2))
    (fun e k' => took_front k k' inode n phys m /\ m < count /\ i_count n = 2 /\ asleep inode k k' e).
Proof.
  intros Hc Hn Hok Hw Ht Hne Hio Hub m. unfold read_pipe. pose proof (PIPE_SIZE_bound n) as Hsb.
  destruct (read_pipe_transfer io inode (S (Z.to_nat count)) k n buf count 0 phys ltac:(lia) Hc Hn Hok Hio Hub)
    as (k1&n1&fuel&E&Hn1&Hok1&(Ez&Ect&Ewt)&Esc&Emm&Hb&Hd). fold m in E, Hb, Hd. unfold mayrun.
  assert (took_front k k1 inode n phys m) as Htook by by exists n1.
  assert (waiter_ok k1 n1) as Hw1 by (unfold waiter_ok; by rewrite Ewt, Esc).
  assert (tasks (k_sched k1) !! current (k_sched k1) = Some t) as Ht1 by by rewrite Esc.
  destruct (wake_up_kept inode k1 n1 t Hw1 Ht1) as (kw&t1&Ewk&Hkw&Efw&Ecw&Htw&_).
  pose proof (took_front_kept _ _ _ _ _ _ _ Hkw Htook) as Htook2.
  assert (inode_table (k_fs kw) !! inode = Some n1) as Hnw by by rewrite Efw.
  destruct (Z.ltb_spec 0 (count - m)) as [Hlt|Hge].
  - assert (PIPE_SIZE n1 = 0) as Es0.
    { rewrite <- (pipe_bytes_length k1 n1), Hb, length_drop. pose proof (pipe_bytes_length k n). unfold m in *. lia. }
    destruct (Z.eqb_spec (i_count n) 2) as [E2|E2].
    + destruct (sleep_on_pipe (A := Z * Z * Z + (Z + Z)) kw n1 t1 inode Hnw Htw) as (k2&Esl&Hk2&Has).
      { by rewrite Ecw, Esc. }
      assert (loop (S (Z.to_nat count)) (read_pipe_round inode) (buf, count, 0) k = Stop (Sleep (WaitInode inode)) k2) as Hl.
      { rewrite E, loop_S. unfold read_pipe_round at 1. assert (0 <? count - m = true) as -> by lia. rewrite bind_assoc.
        erewrite bind_Ok by by apply get_inode_Ok. cbv zeta. rewrite Es0. change (0 =? 0) with true. cbv iota. rewrite bind_assoc.
        erewrite bind_Ok by exact Ewk. rewrite bind_assoc. erewrite bind_Ok by by apply get_inode_Ok. rewrite Ect, E2. change (negb (2 =? 2)) with false.
        cbv iota. by erewrite bind_Stop by exact Esl. }
      rewrite (bind_Stop _ _ _ _ _ Hl). split; [by eapply took_front_kept|]. split; [lia|]. split; [done|]. revert Has. unfold asleep. by rewrite Ecw, Esc.
    + assert (loop (S (Z.to_nat count)) (read_pipe_round inode) (buf, count, 0) k = Ok (inl m) kw) as Hl.
      { rewrite E, loop_S. unfold read_pipe_round at 1. assert (0 <? count - m = true) as -> by lia. rewrite bind_assoc.
        erewrite bind_Ok by by apply get_inode_Ok. cbv zeta. rewrite Es0. change (0 =? 0) with true. cbv iota. rewrite bind_assoc.
        erewrite bind_Ok by exact Ewk. rewrite bind_assoc. erewrite bind_Ok by by apply get_inode_Ok. rewrite Ect. apply Z.eqb_neq in E2. by rewrite E2. }
      rewrite (bind_Ok _ _ _ _ _ Hl). split; [done|]. split; [done|]. by right.
  - assert (loop (S (Z.to_nat count)) (read_pipe_round inode) (buf, count, 0) k = Ok (inr m) k1) as Hl.
    { rewrite E, loop_S. unfold read_pipe_round at 1. by assert (0 <? count - m = false) as -> by lia. }
    rewrite (bind_Ok _ _ _ _ _ Hl). cbv iota. erewrite bind_Ok by by apply get_inode_Ok. erewrite bind_Ok by exact Ewk. split; [done|]. split; [done|]. left. unfold m. lia.
Qed.

(** ** Writing *)
Definition write_chars (n : m_inode) (count : Z) : Z := Z.min (Z.min (PAGE_SIZE - PIPE_HEAD n) count) (PAGE_SIZE - 1 - PIPE_SIZE n).
(** The first [c] bytes of the buffer. *)
Definition ubytes (k : kernel) (phys : Z -> Z) (c : Z) : list Z := (fun i => uload k phys (Z.of_nat i)) <$> seq 0 (Z.to_nat c).
Lemma ubytes_length k phys c : length (ubytes k phys c) = Z.to_nat c.
Proof. unfold ubytes. by rewrite length_fmap, length_seq. Qed.
Lemma ubytes_lookup k phys c i : (i < Z.to_nat c)%nat -> ubytes k phys c !! i = Some (uload k phys (Z.of_nat i)).
Proof. intros Hi. unfold ubytes. rewrite list_lookup_fmap, lookup_seq_lt by done. done. Qed.
Lemma ubytes_split k k' phys c d : 0 <= c -> 0 <= d -> (forall i, 0 <= i < c + d -> k_pmem k' (phys i) = k_pmem k (phys i)) ->
  ubytes k phys (c + d) = ubytes k phys c ++ ubytes k' (fun i => phys (c + i)) d.
Proof.
  intros Hc Hd H. unfold ubytes. rewrite Z2Nat.inj_add, seq_app, fmap_app by lia. f_equal.
  replace (seq (0 + Z.to_nat c) (Z.to_nat d)) with (Nat.add (Z.to_nat c) <$> seq 0 (Z.to_nat d)) by (rewrite fmap_add_seq; f_equal; lia).
  rewrite <- list_fmap_compose. apply list_fmap_ext. intros i x Hx. apply lookup_seq in Hx as [-> Hx]. cbn. unfold uload.
  rewrite H by lia. do 3 f_equal. lia.
Qed.
Lemma write_pipe_round_spec k inode n io buf count written phys :
  inode_table (k_fs k) !! inode = Some n -> pipe_ok n -> 0 < count -> PIPE_SIZE n < PAGE_SIZE - 1 ->
  (forall x, pipe_page n x -> io x) -> ubuf io k buf count phys ->
  let c := write_chars n count in
  exists k' n', write_pipe_round inode (buf, count, written) k = Ok (inl (buf + c, count - c, written + c)) k' /\
    n' = set_head ((PIPE_HEAD n + c) mod PAGE_SIZE) n /\ 0 < c <= count /\ c <= PAGE_SIZE - 1 - PIPE_SIZE n /\ pipe_ok n' /\
    k_fs k' = k_fs (set_inode inode n' k) /\ k_sched k' = k_sched k /\ k_mm k' = k_mm k /\
    pipe_bytes k' n' = pipe_bytes k n ++ ubytes k phys c /\
    (forall x, ~ pipe_page n x -> k_pmem k' x = k_pmem k x).
Proof.
  intros Hn Hok Hc Hs Hio Hub c. pose proof Hok as [Hz Hh Ht]. pose proof (PIPE_SIZE_bound n) as Hsb.
  assert (0 < c <= count /\ c <= PAGE_SIZE - 1 - PIPE_SIZE n /\ PIPE_HEAD n + c <= PAGE_SIZE) as (Hc1&Hc2&Hc3) by (unfold c, write_chars; lia).
  unfold write_pipe_round. assert (0 <? count = true) as -> by lia. erewrite bind_Ok by by apply get_inode_Ok. cbv zeta.
  assert (PAGE_SIZE - 1 - PIPE_SIZE n =? 0 = false) as -> by lia.
  set (c1 := if count <? PAGE_SIZE - PIPE_HEAD n then count else PAGE_SIZE - PIPE_HEAD n).
  assert ((if PAGE_SIZE - 1 - PIPE_SIZE n <? c1 then PAGE_SIZE - 1 - PIPE_SIZE n else c1) = c) as ->.
  { unfold c1, c, write_chars. destruct (Z.ltb_spec count (PAGE_SIZE - PIPE_HEAD n)); case_match eqn:E; lia. }
  erewrite bind_Ok by by apply set_zone_Ok. set (n1 := n <| i_zone ::= _ |>). set (k1 := set_inode inode n1 k).
  assert (PIPE_HEAD n1 = PIPE_HEAD n + c) as Et1.
  { change n1 with (set_head (u16 (PIPE_HEAD n + c)) n). rewrite (proj1 (head_set_head _ n Hz)). apply u16_small. unfold PAGE_SIZE in *. lia. }
  erewrite bind_Ok by by apply get_inode_Ok; eapply set_inode_lookup. rewrite Et1.
  assert (Z.land (PIPE_HEAD n + c) (PAGE_SIZE - 1) = (PIPE_HEAD n + c) mod PAGE_SIZE) as ->.
  { change (PAGE_SIZE - 1) with (Z.ones 12). by rewrite Z.land_ones by lia. }
  erewrite bind_Ok by by apply set_zone_Ok; eapply set_inode_lookup. unfold k1. rewrite set_inode_twice.
  set (n' := set_head ((PIPE_HEAD n + c) mod PAGE_SIZE) n).
  assert (n1 <| i_zone ::= fun z => upd_idx z 0 ((PIPE_HEAD n + c) mod PAGE_SIZE) |> = n') as ->.
  { unfold n1, n', set_head. destruct n. unfold upd; cbn. by rewrite upd_idx_upd_idx. }
  change (i_size n1) with (i_size n). set (k2 := set_inode inode n' k).
  assert (ubuf io k2 buf (Z.of_nat (Z.to_nat c)) phys) as Hub2.
  { rewrite Z2Nat.id by lia. pose proof (ubuf_sub io k2 buf count phys 0 c ltac:(lia) ltac:(lia) ltac:(lia)) as H.
    rewrite Z.add_0_r in H. apply H. by apply (ubuf_ext io k). }
  destruct (get_bytes_spec io k2 buf (Z.to_nat c) phys (i_size n + PIPE_HEAD n) Hub2) as (m'&E&Hm1&Hm2).
  { intros i Hi. apply Hio. unfold pipe_page. lia. }
  rewrite Z2Nat.id in Hm1, Hm2 by lia. erewrite bind_Ok by exact E. exists (k2 <| k_pmem := m' |>), n'.
  destruct (head_set_head ((PIPE_HEAD n + c) mod PAGE_SIZE) n Hz) as [Eh' Et']. fold n' in Et', Eh'.
  split_and!; try done; try lia.
  - split; [unfold n', set_head; rsimpl; by rewrite length_upd_idx|rewrite Eh'; by apply Z.mod_pos_bound|by rewrite Et'].
  - assert (length (pipe_bytes k n) = Z.to_nat (PIPE_SIZE n)) as Hlen by (rewrite <- (pipe_bytes_length k n); lia).
    apply pipe_bytes_eq.
    { rewrite length_app, ubytes_length, Hlen, Nat2Z.inj_add, !Z2Nat.id by lia. rewrite (PIPE_SIZE_mod n'), Et', Eh'.
      rewrite (PIPE_SIZE_mod n) in *. unfold PAGE_SIZE in *. dlia. }
    intros i Hi. rewrite length_app, ubytes_length, Hlen in Hi. unfold pipe_byte. change (i_size n') with (i_size n). rewrite Et'. rsimpl.
    destruct (decide (i < length (pipe_bytes k n))%nat) as [Hl|Hl].
    + rewrite lookup_app_l, pipe_bytes_lookup by done. f_equal. unfold pipe_byte. f_equal. symmetry. apply Hm2.
      rewrite PIPE_SIZE_mod in *. unfold PAGE_SIZE in *. dlia.
    + rewrite lookup_app_r, ubytes_lookup by lia. f_equal.
      set (j := (i - length (pipe_bytes k n))%nat).
      assert ((PIPE_TAIL n + Z.of_nat i) mod PAGE_SIZE = PIPE_HEAD n + Z.of_nat j) as ->.
      { assert (Z.of_nat i = PIPE_SIZE n + Z.of_nat j) as -> by lia. assert (Z.of_nat j < c) by lia.
        rewrite PIPE_SIZE_mod in *. unfold PAGE_SIZE in *. dlia. }
      rewrite Z.add_assoc, Hm1 by lia. unfold uload. change (k_pmem k2) with (k_pmem k). by rewrite (u8_small (u8 _)) by apply u8_bound.
  - intros x Hx. rsimpl. apply Hm2. unfold pipe_page in Hx. lia.
Qed.
(** The rounds of [write_pipe] until all bytes are written, or the pipe is full. *)
Lemma write_pipe_transfer io inode fuel : forall k n buf count written phys,
  (Z.to_nat count < fuel)%nat -> 0 <= count -> inode_table (k_fs k) !! inode = Some n -> pipe_ok n ->
  (forall x, pipe_page n x -> io x) -> ubuf io k buf count phys ->
  let m := Z.min count (PAGE_SIZE - 1 - PIPE_SIZE n) in
  exists k' n' fuel', loop fuel (write_pipe_round inode) (buf, count, written) k =
      loop (S fuel') (write_pipe_round inode) (buf + m, count - m, written + m) k' /\
    inode_table (k_fs k') !! inode = Some n' /\ pipe_ok n' /\ same_pipe n n' /\ k_sched k' = k_sched k /\
    pipe_bytes k' n' = pipe_bytes k n ++ ubytes k phys m /\ (forall x, ~ pipe_page n x -> k_pmem k' x = k_pmem k x).
Proof.
  induction fuel as [|fuel IH]; intros k n buf count written phys Hf Hc Hn Hok Hio Hub m; [lia|].
  pose proof (PIPE_SIZE_bound n) as Hsb. destruct (decide (m = 0)) as [Em|Em].
  { exists k, n, fuel. rewrite Em, !Z.add_0_r, Z.sub_0_r. unfold ubytes. cbn. rewrite app_nil_r. by split_and!. }
  destruct (write_pipe_round_spec k inode n io buf count written phys Hn Hok ltac:(lia) ltac:(lia) Hio Hub)
    as (k1&n1&E1&En1&Hc1&Hc2&Hok1&Efs&Esc&Emm&Hb1&Hd2). set (c := write_chars n count) in *.
  rewrite loop_S. erewrite bind_Ok by exact E1. cbv iota.
  assert (inode_table (k_fs k1) !! inode = Some n1) as Hn1 by (rewrite Efs; by eapply set_inode_lookup).
  assert (PIPE_SIZE n1 = PIPE_SIZE n + c) as Es1.
  { rewrite <- (pipe_bytes_length k1 n1), Hb1, length_app, ubytes_length, Nat2Z.inj_add, (pipe_bytes_length k n). lia. }
  assert (same_pipe n n1) as (Ez&Ect&Ewt) by by subst n1.
  assert (forall i, 0 <= i < count -> k_pmem k1 (phys i) = k_pmem k (phys i)) as Hsame.
  { intros i Hi. apply Hd2. intros Hp. by apply (ub_out _ _ _ _ _ Hub i Hi), Hio. }
  assert (ubuf io k1 (buf + c) (count - c) (fun i => phys (c + i))) as Hub1.
  { apply (ubuf_sub io k1 buf count phys c (count - c)); [lia..|]. apply (ubuf_ext io k); [done..|]. intros x Hx _.
    apply Hd2. intros Hp. by apply Hx, Hio. }
  destruct (IH k1 n1 (buf + c) (count - c) (written + c) (fun i => phys (c + i))) as (k'&n'&fuel'&E&Hn'&Hok'&(?&?&?)&?&Hb&Hd);
    [lia..|done|done|unfold pipe_page; by rewrite Ez|done|].
  assert (Z.min (count - c) (PAGE_SIZE - 1 - PIPE_SIZE n1) = m - c) as Emc by (rewrite Es1; unfold m; lia). rewrite Emc in *.
  exists k', n', fuel'. split.
  { rewrite E. replace (buf + c + (m - c)) with (buf + m) by lia. replace (count - c - (m - c)) with (count - m) by lia.
    by replace (written + c + (m - c)) with (written + m) by lia. }
  do 2 (split; [done|]). split; [split_and!; congruence|]. split; [congruence|]. split.
  - rewrite Hb, Hb1, <- app_assoc. rewrite <- (ubytes_split k k1 phys c (m - c)).
    + by replace (c + (m - c)) with m by lia.
    + lia.
    + unfold m in *. lia.
    + intros i Hi. apply Hsame. unfold m in *. lia.
  - intros x Hx. rewrite Hd, Hd2; [done..|]. unfold pipe_page. by rewrite Ez.
Qed.
(** The first [m] bytes of the buffer have gone to the end of the pipe. *)
Definition appended (k k' : kernel) (inode : nat) (n : m_inode) (phys : Z -> Z) (m : Z) : Prop :=
  exists n', inode_table (k_fs k') !! inode = Some n' /\ pipe_ok n' /\ i_size n' = i_size n /\
    pipe_bytes k' n' = pipe_bytes k n ++ ubytes k phys m /\ forall x, ~ pipe_page n x -> k_pmem k' x = k_pmem k x.
Lemma appended_kept k k1 k2 inode n phys m : pipe_kept inode k1 k2 -> appended k k1 inode n phys m -> appended k k2 inode n phys m.
Proof.
  intros Hp (n1&Hn1&Hok1&Es&Eb&Hd). destruct (pipe_kept_bytes _ _ _ _ Hp Hn1 Hok1) as (n2&?&?&?&?). exists n2.
  do 2 (split; [done|]). do 2 (split; [congruence|]). destruct Hp as [Em _]. by rewrite Em.
Qed.
(** The current task, [u] before, has the signal. *)
Definition signalled (k' : kernel) (u : task_struct) (sig : Z) : Prop :=
  exists u', tasks (k_sched k') !! current (k_sched k') = Some u' /\ t_signal u' = Z.lor (t_signal u) (_S sig).
Lemma write_pipe_spec io k inode n u buf count phys :
  0 <= count -> inode_table (k_fs k) !! inode = Some n -> pipe_ok n -> waiter_ok k n ->
  tasks (k_sched k) !! current (k_sched k) = Some u -> current (k_sched k) <> init_task ->
  (forall x, pipe_page n x -> io x) -> ubuf io k buf count phys ->
  let m := Z.min count (PAGE_SIZE - 1 - PIPE_SIZE n) in
  mayrun (write_pipe inode buf count) k
    (fun r k' => appended k k' inode n phys m /\
       (m = count /\ r = count \/ m < count /\ i_count n <> 2 /\ r = (if m =? 0 then -1 else m) /\ signalled k' u SIGPIPE))
    (fun e k' => appended k k' inode n phys m /\ m < count /\ i_count n = 2 /\ asleep inode k k' e).
Proof.
  intros Hc Hn Hok Hw Hu Hne Hio Hub m. unfold write_pipe. pose proof (PIPE_SIZE_bound n) as Hsb.
  destruct (write_pipe_transfer io inode (S (Z.to_nat count)) k n buf count 0 phys ltac:(lia) Hc Hn Hok Hio Hub)
    as (k1&n1&fuel&E&Hn1&Hok1&(Ez&Ect&Ewt)&Esc&Hb&Hd). fold m in E, Hb. unfold mayrun.
  assert (appended k k1 inode n phys m) as Happ by by exists n1.
  assert (waiter_ok k1 n1) as Hw1 by (unfold waiter_ok; by rewrite Ewt, Esc).
  assert (tasks (k_sched k1) !! current (k_sched k1) = Some u) as Hu1 by by rewrite Esc.
  destruct (wake_up_kept inode k1 n1 u Hw1 Hu1) as (kw&u1&Ewk&Hkw&Efw&Ecw&Huw&Esig).
  pose proof (appended_kept _ _ _ _ _ _ _ Hkw Happ) as Happ2.
  assert (inode_table (k_fs kw) !! inode = Some n1) as Hnw by by rewrite Efw.
  destruct (Z.ltb_spec 0 (count - m)) as [Hlt|Hge].
  - assert (PAGE_SIZE - 1 - PIPE_SIZE n1 = 0) as Es0.
    { rewrite <- (pipe_bytes_length k1 n1), Hb, length_app, ubytes_length. pose proof (pipe_bytes_length k n). unfold m in *. lia. }
    destruct (Z.eqb_spec (i_count n) 2) as [E2|E2].
    + destruct (sleep_on_pipe (A := Z * Z * Z + (Z + Z)) kw n1 u1 inode Hnw Huw) as (k2&Esl&Hk2&Has).
      { by rewrite Ecw, Esc. }
      assert (loop (S (Z.to_nat count)) (write_pipe_round inode) (buf, count, 0) k = Stop (Sleep (WaitInode inode)) k2) as Hl.
      { rewrite E, loop_S. unfold write_pipe_round at 1. assert (0 <? count - m = true) as -> by lia. rewrite bind_assoc.
        erewrite bind_Ok by by apply get_inode_Ok. cbv zeta. rewrite Es0. change (0 =? 0) with true. cbv iota. rewrite bind_assoc.
        erewrite bind_Ok by exact Ewk. rewrite bind_assoc. erewrite bind_Ok by by apply get_inode_Ok. rewrite Ect, E2. change (negb (2 =? 2)) with false.
        cbv iota. by erewrite bind_Stop by exact Esl. }
      rewrite (bind_Stop _ _ _ _ _ Hl). split; [by eapply appended_kept|]. split; [lia|]. split; [done|]. revert Has. unfold asleep. by rewrite Ecw, Esc.
    + set (g := fun v : task_struct => v <| t_signal := Z.lor (t_signal v) (_S SIGPIPE) |>).
      set (k2 := set_task (current (k_sched kw)) (g u1) kw).
      assert (loop (S (Z.to_nat count)) (write_pipe_round inode) (buf, count, 0) k = Ok (inl (if m =? 0 then -1 else m)) k2) as Hl.
      { rewrite E, loop_S. unfold write_pipe_round at 1. assert (0 <? count - m = true) as -> by lia. rewrite bind_assoc.
        erewrite bind_Ok by by apply get_inode_Ok. cbv zeta. rewrite Es0. change (0 =? 0) with true. cbv iota. rewrite bind_assoc.
        erewrite bind_Ok by exact Ewk. rewrite bind_assoc. erewrite bind_Ok by by apply get_inode_Ok. rewrite Ect. apply Z.eqb_neq in E2. rewrite E2.
        change (negb false) with true. cbv iota. rewrite bind_assoc. erewrite bind_Ok by exact (mod_cur_Ok kw u1 g Huw). change (0 + m) with m.
        change (truth m) with (negb (m =? 0)). by destruct (m =? 0). }
      rewrite (bind_Ok _ _ _ _ _ Hl). split.
      * apply (appended_kept _ kw); [by apply pipe_kept_fs|done].
      * right. split; [lia|]. do 2 (split; [done|]). exists (g u1). split; [apply lookup_insert_eq|]. unfold g. rsimpl. by rewrite Esig.
  - assert (loop (S (Z.to_nat count)) (write_pipe_round inode) (buf, count, 0) k = Ok (inr m) k1) as Hl.
    { rewrite E, loop_S. unfold write_pipe_round at 1. by assert (0 <? count - m = false) as -> by lia. }
    rewrite (bind_Ok _ _ _ _ _ Hl). cbv iota. erewrite bind_Ok by by apply get_inode_Ok. erewrite bind_Ok by exact Ewk.
    split; [done|]. left. unfold m in *. lia.
Qed.
End Rounds.

Module PipeProps.

(** C19: a pipe implements a bounded FIFO of bytes, on every branch.  [write_pipe] appends to the pipe the
    bytes of the buffer, as many as there is room for (a pipe holds 4095 bytes); when that is all, it returns
    their number; when not, and nobody has the other end open, the task gets SIGPIPE and the
    result is the number of the bytes written, -1 if that is 0; when not, and somebody has it open,
    the task goes to sleep on the i-node.  [read_pipe] takes the oldest bytes, as many as it asks for or there
    are; they are in the buffer in order and the pipe holds the rest; it returns their number if these are
    all it asks for or nobody has the other end open, and goes to sleep otherwise.  The indices wrap
    around at the end of the page. *)
Theorem pipe_refines_fifo io k inode n u buf count phys :
  0 <= count -> inode_table (k_fs k) !! inode = Some n -> pipe_ok n -> waiter_ok k n ->
  tasks (k_sched k) !! current (k_sched k) = Some u -> current (k_sched k) <> init_task ->
  (forall x, pipe_page n x -> io x) -> ubuf io k buf count phys ->
  (let m := Z.min count (PAGE_SIZE - 1 - PIPE_SIZE n) in
   mayrun (write_pipe inode buf count) k
     (fun r k' => appended k k' inode n phys m /\
        (m = count /\ r = count \/ m < count /\ i_count n <> 2 /\ r = (if m =? 0 then -1 else m) /\ signalled k' u SIGPIPE))
     (fun e k' => appended k k' inode n phys m /\ m < count /\ i_count n = 2 /\ asleep inode k k' e)) /\
  (let m := Z.min count (PIPE_SIZE n) in
   mayrun (read_pipe inode buf count) k
     (fun r k' => took_front k k' inode n phys m /\ r = m /\ (m = count \/ i_count n <> 2))
     (fun e k' => took_front k k' inode n phys m /\ m < count /\ i_count n = 2 /\ asleep inode k k' e)).
Proof. intros. split; [by apply (write_pipe_spec io)|by apply (read_pipe_spec io _ _ _ u)]. Qed.

(** A pipe whose page is at 0x1000 with the bytes 7, 8 at its end and start; the buffer is at 0x100. *)
Definition demo_pipe : m_inode := zero_inode <| i_size := 0x1000 |> <| i_count := 2 |> <| i_pipe := 1 |>
  <| i_zone := [1; 4095; 0; 0; 0; 0; 0; 0; 0] |>.
Definition demo_pipe_k : kernel := kernel0 <| k_pmem := fun x => if x =? 0x1FFF then 7 else if x =? 0x1000 then 8 else 0 |>
  <| k_fs ::= fun s => s <| inode_table := [demo_pipe] |> |>
  <| k_sched ::= fun s => s <| current := 0x80200000 |> <| tasks := {[0x80200000 := zero_task]} |> |>.
(** A reader that asks for three bytes gets the two that there are and sleeps. *)
Lemma pipe_refines_fifo_witness :
  exists k', read_pipe 0 0x100 3 demo_pipe_k = Stop (Sleep (WaitInode 0)) k' /\ k_pmem k' 0x100 = 7 /\ k_pmem k' 0x101 = 8.
Proof.
  destruct (pipe_refines_fifo (pipe_page demo_pipe) demo_pipe_k 0 demo_pipe zero_task 0x100 3 (fun i => 0x100 + i)) as [_ H].
  - lia.
  - reflexivity.
  - split; [vm_compute; lia|split; vm_compute; congruence..].
  - intros p. discriminate.
  - reflexivity.
  - discriminate.
  - auto.
  - apply ubuf_kernel; [right; vm_compute; congruence|]. intros i Hi [Hlo _]. change (0x1000 <= 0x100 + i) in Hlo. lia.
  - revert H. unfold mayrun. destruct (read_pipe 0 0x100 3 demo_pipe_k) as [r k'|e k'].
    + intros (_&_&[H|H]); exfalso; [discriminate H|exact (H eq_refl)].
    + intros ((n'&_&_&_&_&Hd&_)&_&_&(->&_)). exists k'. split; [reflexivity|].
      split; [apply (Hd 0%nat 7)|apply (Hd 1%nat 8)]; vm_compute; reflexivity.
Defined.
End PipeProps.
