(* ===== verification/FileRead.v ===== *)
(** * Reading a file (fs/file_dev.c)

    The contents of a file are a function of the disk ([file_byte]): byte [p] is in the zone that
    [zone_number] gives, and a hole reads as 0.  The file shows that [file_read] delivers them. *)
From Stdlib Require Import ZArith Lia String.
From stdpp Require Import base list gmap.
From S2P Require Import Prelude State Pte PageAlloc PageTable BlockIO Buffer BufferCache BufferInit InodeIO Bitmap Inode PageFault UserMem Namei Sched Tty FileIO Pipe.
Open Scope Z_scope.

Definition file_byte (k : kernel) (n : m_inode) (p : Z) : Z :=
  let z := zone_number k (i_zone n) (p / BLOCK_SIZE) in if z =? 0 then 0 else u8 (disk k z (p mod BLOCK_SIZE)).
Definition file_bytes (k : kernel) (n : m_inode) (p : Z) (c : nat) : list Z := (fun i => file_byte k n (p + Z.of_nat i)) <$> seq 0 c.

(** ** Writes to user memory do not disturb the cache *)
Lemma io_data k b h y : buffers (k_blk k) !! b = Some h -> 0 <= y < BLOCK_SIZE -> io_byte k (b_data h + y).
Proof. intros Hb Hy. right. exists b, h. split; [done|lia]. Qed.
Lemma io_disk k blk y : in_disk k blk -> 0 <= y < BLOCK_SIZE -> io_byte k (rd_addr k blk + y).
Proof. intros [H1 H2] Hy. left. unfold rd_addr, BLOCK_SIZE in *. lia. Qed.
Lemma user_write_inv k l ch m' : cache_inv k l ch -> (forall x, io_byte k x -> m' x = k_pmem k x) ->
  cache_inv (k <| k_pmem := m' |>) l ch /\ same_disk k (k <| k_pmem := m' |>).
Proof.
  intros HI Hm. set (k' := k <| k_pmem := m' |>).
  assert (cache_inv k' l ch) as HI'.
  { destruct HI as [H1 H2 H3 H4 H5 H6 H7 H8 H9]. split; try done.
    - intros b h Hb. apply (head_ok_ext k); [done|by apply (H5 b)].
    - intros b h x Hb Hdev Hu Hdi Hx. change (m' (b_data h + x) = m' (rd_addr k (b_blocknr h) + x)).
      rewrite !Hm; [by apply (H9 b)|apply io_disk; [|done]|by apply (io_data k b)]. by apply (ho_range _ _ (H5 b h Hb)). }
  split; [done|]. intros blk x Hx Hin. destruct (disk_cases k blk) as [(b&h&Hb&Hh)|Hno].
  - rewrite (disk_holder k l ch HI b h blk x Hb Hh), (disk_holder k' l ch HI' b h blk x Hb Hh). apply Hm. by apply (io_data k b).
  - rewrite (disk_none k blk x Hno), (disk_none k' blk x Hno). apply Hm. by apply io_disk.
Qed.

(** What the rounds of a read leave: the cache is in order, the disk and the i-nodes are the same. *)
Record undisturbed (k k' : kernel) : Prop := mkUndisturbed {
  un_cache : cache_ok k';
  un_ready : ready k';
  un_disk : same_disk k k';
  un_mm : k_mm k' = k_mm k;
  un_inodes : inode_table (k_fs k') = inode_table (k_fs k);
  un_sched : k_sched k' = k_sched k;
  un_start : rd_start (k_blk k') = rd_start (k_blk k);
  un_length : rd_length (k_blk k') = rd_length (k_blk k);
  un_data : forall b, b_data <$> buffers (k_blk k') !! b = b_data <$> buffers (k_blk k) !! b }.
Lemma undisturbed_refl k : cache_ok k -> ready k -> undisturbed k k.
Proof. intros. split; try done. Qed.
Lemma undisturbed_trans k1 k2 k3 : undisturbed k1 k2 -> undisturbed k2 k3 -> undisturbed k1 k3.
Proof.
  intros [] []. split; try done; try congruence.
  - intros blk x Hx Hin. rewrite un_disk1 by (try done; unfold in_disk in *; by rewrite un_length0). by apply un_disk0.
Qed.
Lemma undisturbed_in_disk k k' blk : undisturbed k k' -> in_disk k' blk <-> in_disk k blk.
Proof. intros []. unfold in_disk. by rewrite un_length0. Qed.
Lemma undisturbed_io k k' x : undisturbed k k' -> io_byte k' x <-> io_byte k x.
Proof.
  intros []. unfold io_byte. rewrite un_start0, un_length0. apply or_iff_compat_l. split; intros (b&h&Hb&Hx); pose proof (un_data0 b) as E; rewrite Hb in E.
  - destruct (buffers (k_blk k) !! b) as [h'|] eqn:Hb'; [|done]. exists b, h'. split; [done|]. injection E as E. lia.
  - destruct (buffers (k_blk k') !! b) as [h'|] eqn:Hb'; [|done]. exists b, h'. split; [done|]. injection E as E. lia.
Qed.
Lemma undisturbed_follow k k' blk off : undisturbed k k' -> 0 <= off < 512 -> follow k' blk off = follow k blk off.
Proof.
  intros Hu Hoff. unfold follow, indirect. destruct (blk =? 0); [done|].
  pose proof (undisturbed_in_disk k k' blk Hu). destruct (decide (in_disk k' blk)), (decide (in_disk k blk)); try tauto.
  apply ld_ext. intros x Hx. apply (un_disk _ _ Hu); [|done]. unfold BLOCK_SIZE. lia.
Qed.
Lemma undisturbed_zone k k' zones block : undisturbed k k' -> 0 <= block < 7 + 512 + 512 * 512 ->
  zone_number k' zones block = zone_number k zones block.
Proof.
  intros Hu Hb. unfold zone_number. destruct (Z.ltb_spec block 7); [done|].
  destruct (Z.ltb_spec block (7 + 512)); rewrite !(undisturbed_follow k k') by (done || dlia); done.
Qed.
Lemma zone_number_bound k zones block : Forall (fun z => 0 <= z < 65536) zones -> 0 <= zone_number k zones block < 65536.
Proof.
  intros Hf. unfold zone_number. destruct (_ <? _); [|destruct (_ <? _); apply follow_bound].
  destruct (idx zones block) as [z|] eqn:E; [|cbn; lia]. unfold idx in E. destruct (block <? 0); [done|].
  by apply (Forall_lookup_1 _ _ _ _ Hf E).
Qed.
(** The file size limit of the indirect blocks, in bytes. *)
Definition MAX_FILE : Z := (7 + 512 + 512 * 512) * BLOCK_SIZE.
Lemma undisturbed_byte k k' n p : undisturbed k k' -> 0 <= p < MAX_FILE ->
  (forall b, 0 <= b < 7 + 512 + 512 * 512 -> zone_number k (i_zone n) b <> 0 -> in_disk k (zone_number k (i_zone n) b)) ->
  file_byte k' n p = file_byte k n p.
Proof.
  intros Hu Hp Hin. unfold file_byte. rewrite (undisturbed_zone k k') by (done || (unfold MAX_FILE, BLOCK_SIZE in *; dlia)).
  destruct (Z.eqb_spec (zone_number k (i_zone n) (p / BLOCK_SIZE)) 0) as [|Hz]; [done|]. f_equal.
  apply (un_disk _ _ Hu); [by apply Z.mod_pos_bound|]. apply Hin; [|done]. unfold MAX_FILE, BLOCK_SIZE in *; dlia.
Qed.
Lemma calm_undisturbed k k' : ready k -> calm k k' -> undisturbed k k'.
Proof.
  intros Hr Hc. pose proof (calm_ready k k' Hc Hr). destruct Hc as (H1&H2&(mm&fs&(sc&ty)&rs&rl&data&mem)&H4&_). split; try done. by rewrite fs.
Qed.

Section Read.
Context {SI : SyncInodes} {HSI : SyncInodesOk SI}.

Lemma mod_file_Ok k i f g : file_table (k_fs k) !! i = Some f ->
  mod_file i g k = Ok tt (k <| k_fs ::= fun s => s <| file_table ::= fun l => <[i := g f]> l |> |>).
Proof. intros H. unfold mod_file, get_file. rewrite bind_assoc. erewrite bind_Ok by reflexivity. rewrite H. by erewrite bind_Ok by reflexivity. Qed.
Lemma get_file_Ok k i f : file_table (k_fs k) !! i = Some f -> get_file i k = Ok f k.
Proof. intros H. unfold get_file. erewrite bind_Ok by reflexivity. by rewrite H. Qed.

(** A file whose blocks can be read. *)
Record readable (k : kernel) (n : m_inode) : Prop := mkReadable {
  rf_dev : i_dev n = RD_DEV;
  rf_zones : length (i_zone n) = 9%nat;
  rf_bound : Forall (fun z => 0 <= z < 65536) (i_zone n);
  rf_disk : forall b, 0 <= b < 7 + 512 + 512 * 512 -> zone_number k (i_zone n) b <> 0 -> in_disk k (zone_number k (i_zone n) b) }.
Definition set_pos (filp : nat) (f : file) (p : Z) (k : kernel) : kernel :=
  k <| k_fs ::= fun s => s <| file_table ::= fun l => <[filp := f <| f_pos := p |>]> l |> |>.
Lemma undisturbed_set_pos k k' filp f p : undisturbed k k' -> undisturbed k (set_pos filp f p k').
Proof.
  intros []. split; try done. destruct un_cache0 as (l&ch&HI). exists l, ch. by apply (cache_inv_ext k').
Qed.
Lemma undisturbed_write k k1 m' : undisturbed k k1 -> (forall x, io_byte k x -> m' x = k_pmem k1 x) -> undisturbed k (k1 <| k_pmem := m' |>).
Proof.
  intros Hu Hm. pose proof Hu as []. destruct un_cache0 as (l&ch&HI).
  destruct (user_write_inv k1 l ch m' HI) as [HI' Hd']; [intros x Hx; apply Hm; by apply (undisturbed_io k k1 x Hu)|].
  split; try done; [by exists l, ch|]. intros blk x Hx Hin. rewrite Hd' by (try done; by apply (undisturbed_in_disk k k1)). by apply un_disk0.
Qed.
(** Releasing the buffer of a block that is held in [k1], after the user's memory was written. *)
Lemma brelse_after k k1 k2 l ch b h m' : cache_inv k1 l ch -> buffers (k_blk k1) !! b = Some h -> 1 <= b_count h ->
  undisturbed k (set_bh b (h <| b_count := b_count h - 1 |>) k1) ->
  (forall x, io_byte k1 x -> m' x = k_pmem k1 x) -> k_blk k2 = k_blk k1 -> k_pmem k2 = m' -> k_mm k2 = k_mm k1 ->
  inode_table (k_fs k2) = inode_table (k_fs k1) -> k_sched k2 = k_sched k1 ->
  exists k', brelse (Some b) k2 = Ok tt k' /\ undisturbed k k' /\ k_pmem k' = m' /\ file_table (k_fs k') = file_table (k_fs k2).
Proof.
  intros HI Hb Hc Hu Hm Eb Em Emm Ei Es.
  destruct (user_write_inv k1 l ch m' HI Hm) as [HI1 _].
  assert (cache_inv k2 l ch) as HI2 by (apply (cache_inv_ext (k1 <| k_pmem := m' |>)); done).
  destruct (brelse_Ok k2 l ch b h HI2 ltac:(by rewrite Eb) Hc) as (E&HI3&Hd3).
  set (k3 := set_bh b (h <| b_count := b_count h - 1 |>) k2) in *. exists k3. split_and!; [done| |done|done].
  set (ka := set_bh b (h <| b_count := b_count h - 1 |>) k1) in *.
  assert (k_blk k3 = k_blk ka) as Eb3 by (unfold k3, ka, set_bh; rsimpl; by rewrite Eb).
  pose proof (undisturbed_write k ka m' Hu) as Hw.
  assert (undisturbed k (ka <| k_pmem := m' |>)) as Hw'.
  { apply Hw. intros x Hx. change (k_pmem ka) with (k_pmem k1). apply Hm. apply (undisturbed_io k ka x Hu) in Hx.
    destruct Hx as [Hx|(b'&h'&Hb'&Hx)]; [by left|]. right. unfold ka, set_bh in Hb'. rsimpl_in Hb'.
    apply list_lookup_insert_Some in Hb' as [(<-&<-&_)|[_ Hb']]; [by exists b, h|by exists b', h']. }
  destruct Hw' as [C1 C2 C3 C4 C5 C6 C7 C8 C9]. split.
  - by exists l, ch.
  - unfold ready, roomy in *. by rewrite Eb3.
  - intros blk x Hx Hin. rewrite <- (C3 blk x Hx Hin). apply disk_ext. done.
  - change (k_mm k3) with (k_mm k2). rewrite Emm. apply C4.
  - change (inode_table (k_fs k3)) with (inode_table (k_fs k2)). by rewrite Ei.
  - change (k_sched k3) with (k_sched k2). by rewrite Es.
  - by rewrite Eb3.
  - by rewrite Eb3.
  - intros b'. rewrite Eb3. apply C9.
Qed.

(** The bytes of one block. *)
Lemma file_byte_block k n p i z : 0 <= p -> 0 <= i -> p mod BLOCK_SIZE + i < BLOCK_SIZE -> zone_number k (i_zone n) (p / BLOCK_SIZE) = z ->
  file_byte k n (p + i) = if z =? 0 then 0 else u8 (disk k z (p mod BLOCK_SIZE + i)).
Proof.
  intros Hp Hi Hb Hz. unfold file_byte. assert ((p + i) / BLOCK_SIZE = p / BLOCK_SIZE) as -> by (unfold BLOCK_SIZE in *; dlia).
  assert ((p + i) mod BLOCK_SIZE = p mod BLOCK_SIZE + i) as -> by (unfold BLOCK_SIZE in *; dlia). by rewrite Hz.
Qed.
Definition round_done (k k' : kernel) (n : m_inode) (filp : nat) (f : file) (phys : Z -> Z) (c : Z) : Prop :=
  undisturbed k k' /\ file_table (k_fs k') = <[filp := f <| f_pos := f_pos f + c |>]> (file_table (k_fs k)) /\
  (forall i, 0 <= i < c -> k_pmem k' (phys i) = file_byte k n (f_pos f + i)) /\
  (forall x, ~ io_byte k x -> (forall i, 0 <= i < c -> x <> phys i) -> k_pmem k' x = k_pmem k x).
Lemma file_read_round_spec k inode n filp f buf rest phys :
  cache_ok k -> ready k -> inode_table (k_fs k) !! inode = Some n -> readable k n ->
  file_table (k_fs k) !! filp = Some f -> 0 <= f_pos f -> f_pos f + rest <= MAX_FILE -> 0 < rest ->
  ubuf (io_byte k) k buf rest phys ->
  let c := Z.min (BLOCK_SIZE - f_pos f mod BLOCK_SIZE) rest in
  exists k', file_read_round inode filp (buf, rest) k = Ok (inl (buf + c, rest - c)) k' /\ round_done k k' n filp f phys c.
Proof.
  intros Hok Hre Hn [Hdev Hlen Hfz Hdisk] Hf Hp Hmax Hrest Hub c. set (p := f_pos f) in *.
  pose proof (Z.mod_pos_bound p BLOCK_SIZE ltac:(done)) as Hmod.
  assert (0 < c <= rest /\ p mod BLOCK_SIZE + c <= BLOCK_SIZE) as [Hc Hcb] by (unfold c; lia).
  assert (0 <= p / BLOCK_SIZE < 7 + 512 + 512 * 512) as Hblk by (unfold MAX_FILE, BLOCK_SIZE in *; dlia).
  unfold file_read_round. assert (rest =? 0 = false) as -> by lia. erewrite bind_Ok by by apply get_file_Ok. fold p.
  rewrite Z.quot_div_nonneg, Z.rem_mod_nonneg by (done || lia). rewrite (s32_small (p / BLOCK_SIZE)) by lia. fold c.
  pose proof (bmap_spec k inode n (p / BLOCK_SIZE) Hok Hre Hn Hdev Hlen Hfz Hblk) as (z&k1&E1&Hz&Hcalm)%runs_Ok.
  erewrite bind_Ok by exact E1. pose proof (calm_undisturbed k k1 Hre Hcalm) as Hu1.
  pose proof (zone_number_bound k (i_zone n) (p / BLOCK_SIZE) Hfz) as Hzb. rewrite <- Hz in Hzb.
  assert (k_fs k1 = k_fs k) as Efs1 by apply Hcalm.
  assert (forall x, ~ io_byte k x -> k_pmem k1 x = k_pmem k x) as Hmem1 by apply Hcalm.
  assert (forall k2, k_mm k2 = k_mm k -> (forall x, ~ io_byte k x -> k_pmem k2 x = k_pmem k x) ->
    ubuf (io_byte k) k2 buf (Z.of_nat (Z.to_nat c)) phys) as Hubs.
  { intros k2 E2 Hm2. rewrite Z2Nat.id by lia. pose proof (ubuf_sub (io_byte k) k2 buf rest phys 0 c ltac:(lia) ltac:(lia) ltac:(lia)) as H.
    rewrite Z.add_0_r in H. apply H. apply (ubuf_ext (io_byte k) k); [done..|]. intros x Hx _. by apply Hm2. }
  destruct (decide (z = 0)) as [Ez|Ez].
  - rewrite Ez. change (truth 0) with false. cbv iota. erewrite bind_Ok by reflexivity. cbv iota zeta.
    erewrite bind_Ok by (apply mod_file_Ok; rewrite Efs1; exact Hf).
    set (k2 := upd k_fs _ k1).
    destruct (put_zeros_spec (io_byte k) k2 buf (Z.to_nat c) phys) as (m'&E&Hm1&Hm2); [by apply Hubs; [apply Hu1|]|].
    rewrite Z2Nat.id in Hm1, Hm2 by lia. erewrite bind_Ok by exact E. exists (k2 <| k_pmem := m' |>). split; [done|].
    assert (forall x, io_byte k x -> forall i, 0 <= i < c -> x <> phys i) as Hno.
    { intros x Hx i Hi ->. apply (ub_out _ _ _ _ _ Hub i); [lia|done]. }
    split_and!.
    + apply (undisturbed_write k k2); [by apply (undisturbed_set_pos k k1 filp f)|]. intros x Hx. rewrite Hm2; [done|]. by apply Hno.
    + unfold k2. rsimpl. by rewrite Efs1.
    + intros i Hi. change (m' (phys i) = file_byte k n (p + i)). rewrite Hm1 by done.
      rewrite (file_byte_block k n p i z) by (done || lia). by rewrite Ez.
    + intros x Hx Hi. change (m' x = k_pmem k x). rewrite Hm2 by done. by apply Hmem1.
  - assert (truth z = true) as -> by by apply truth_true. rewrite bind_assoc.
    assert (inode_table (k_fs k1) !! inode = Some n) as Hn1 by by rewrite Efs1.
    erewrite bind_Ok by by apply get_inode_Ok. rewrite Hdev.
    destruct (bread_hold k1 z) as (b&h&k2&l&ch&E2&HI2&Hb2&Hcnt&_&Hr2&Hd2&Hdata&Hcalm2).
    { apply Hcalm. } { by eapply calm_ready. } { lia. } { rewrite (undisturbed_in_disk k k1) by done. rewrite Hz. apply Hdisk; [done|]. by rewrite <- Hz. }
    rewrite bind_assoc. erewrite bind_Ok by exact E2. cbv iota. erewrite bind_Ok by reflexivity. cbv iota zeta.
    pose proof Hr2 as (Emm2&Efs2&(Esc2&_)&Ers2&Erl2&Edata2&Hmem2).
    erewrite bind_Ok by (apply mod_file_Ok; rewrite Efs2, Efs1; exact Hf). set (k3 := upd k_fs _ k2).
    rewrite bind_assoc. erewrite bind_Ok by (apply get_bh_Ok; exact Hb2). rewrite bind_assoc.
    assert (forall x, io_byte k x <-> io_byte k2 x) as Hio2.
    { intros x. rewrite <- (undisturbed_io k k1 x Hu1). split; [|by apply io_byte_rest].
      intros [Hx|(b'&h'&Hb'&Hx)]; [left; by rewrite Ers2, Erl2|]. right. pose proof (Edata2 b') as E. rewrite Hb' in E.
      destruct (buffers (k_blk k2) !! b') as [h2|] eqn:Hb2'; [|done]. exists b', h2. split; [done|]. injection E as E. lia. }
    assert (forall x, ~ io_byte k x -> k_pmem k3 x = k_pmem k x) as Hmem3.
    { intros x Hx. change (k_pmem k2 x = k_pmem k x). rewrite Hmem2 by by rewrite (undisturbed_io k k1 x Hu1). by apply Hmem1. }
    destruct (put_bytes_spec (io_byte k) k3 buf (Z.to_nat c) phys (p mod BLOCK_SIZE + b_data h)) as (m'&E3&Hm1&Hm2).
    { apply Hubs; [|done]. change (k_mm k2 = k_mm k). rewrite Emm2. apply Hu1. }
    { intros i j Hi Hj Ex. apply (ub_out _ _ _ _ _ Hub j); [lia|]. rewrite <- Ex. apply Hio2.
      replace (p mod BLOCK_SIZE + b_data h + i) with (b_data h + (p mod BLOCK_SIZE + i)) by lia. apply (io_data k2 b); [done|lia]. }
    rewrite Z2Nat.id in Hm1, Hm2 by lia. erewrite bind_Ok by exact E3.
    destruct (brelse_after k k2 (k3 <| k_pmem := m' |>) l ch b h m') as (k4&E4&Hu4&Em4&Ef4); try done.
    { apply (undisturbed_trans k k1); [done|]. apply calm_undisturbed; [by eapply calm_ready|done]. }
    { intros x Hx%Hio2. rewrite Hm2; [done|]. intros i Hi ->. apply (ub_out _ _ _ _ _ Hub i); [lia|done]. }
    erewrite bind_Ok by exact E4. exists k4. split; [done|]. split_and!.
    + done.
    + rewrite Ef4. unfold k3. rsimpl. by rewrite Efs2, Efs1.
    + intros i Hi. rewrite Em4, Hm1 by done. change (k_pmem k3) with (k_pmem k2).
      replace (p mod BLOCK_SIZE + b_data h + i) with (b_data h + (p mod BLOCK_SIZE + i)) by lia. rewrite Hdata by lia.
      fold p. rewrite (file_byte_block k n p i z) by (done || lia). apply Z.eqb_neq in Ez as Ez'. rewrite Ez'. f_equal.
      apply (un_disk _ _ Hu1); [lia|]. rewrite Hz. apply Hdisk; [done|]. by rewrite <- Hz.
    + intros x Hx Hi. rewrite Em4, Hm2 by done. by apply Hmem3.
Qed.

Lemma undisturbed_readable k k' n : undisturbed k k' -> readable k n -> readable k' n.
Proof.
  intros Hu [H1 H2 H3 H4]. split; try done. intros b Hb. rewrite (undisturbed_zone k k') by done. intros Hz.
  rewrite (undisturbed_in_disk k k') by done. by apply H4.
Qed.
Lemma file_read_loop inode n filp fuel : forall k f buf rest phys,
  (Z.to_nat rest < fuel)%nat -> 0 <= rest ->
  cache_ok k -> ready k -> inode_table (k_fs k) !! inode = Some n -> readable k n ->
  file_table (k_fs k) !! filp = Some f -> 0 <= f_pos f -> f_pos f + rest <= MAX_FILE -> ubuf (io_byte k) k buf rest phys ->
  exists k', loop fuel (file_read_round inode filp) (buf, rest) k = Ok 0 k' /\ round_done k k' n filp f phys rest.
Proof.
  induction fuel as [|fuel IH]; intros k f buf rest phys Hfu Hrest Hok Hre Hn Hrd Hf Hp Hmax Hub; [lia|].
  rewrite loop_S. destruct (decide (rest = 0)) as [->|Hne].
  { exists k. split; [done|]. split_and!; [by apply undisturbed_refl| |lia|done]. rewrite Z.add_0_r, list_insert_id; [done|].
    rewrite Hf. f_equal. by destruct f. }
  destruct (file_read_round_spec k inode n filp f buf rest phys) as (k1&E1&Hu1&Ef1&Hb1&Hm1); try done; [lia|].
  set (c := Z.min (BLOCK_SIZE - f_pos f mod BLOCK_SIZE) rest) in *.
  assert (0 < c <= rest) as Hc by (pose proof (Z.mod_pos_bound (f_pos f) BLOCK_SIZE ltac:(done)); unfold c; lia).
  erewrite bind_Ok by exact E1. cbv iota. set (f1 := f <| f_pos := f_pos f + c |>) in *.
  assert (file_table (k_fs k1) !! filp = Some f1) as Hf1 by (rewrite Ef1; apply list_lookup_insert_eq; by eapply lookup_lt_Some).
  destruct (IH k1 f1 (buf + c) (rest - c) (fun i => phys (c + i))) as (k'&E&Hu&Ef&Hb&Hm); try done; try lia.
  - apply Hu1.
  - apply Hu1.
  - by rewrite (un_inodes _ _ Hu1).
  - by apply (undisturbed_readable k).
  - change (0 <= f_pos f + c). lia.
  - change (f_pos f + c + (rest - c) <= MAX_FILE). lia.
  - apply (ubuf_weaken (io_byte k)); [intros x; apply (undisturbed_io k k1 x Hu1)|].
    apply (ubuf_sub (io_byte k) k1 buf rest phys c (rest - c)); [lia..|]. apply (ubuf_ext (io_byte k) k); [done|apply Hu1|].
    intros x Hx Hi. apply Hm1; [done|]. intros i ?. apply Hi. lia.
  - exists k'. split; [done|]. split_and!.
    + by apply (undisturbed_trans k k1).
    + rewrite Ef, Ef1, list_insert_insert_eq. f_equal. unfold f1. destruct f. unfold upd; cbn. f_equal. lia.
    + intros i Hi. destruct (decide (i < c)) as [Hl|Hl].
      * rewrite Hm; [apply Hb1; lia| |].
        -- intros Hx. apply (undisturbed_io k k1 _ Hu1) in Hx. by apply (ub_out _ _ _ _ _ Hub i).
        -- intros j Hj Ex. apply (ub_inj _ _ _ _ _ Hub) in Ex; lia.
      * specialize (Hb (i - c) ltac:(lia)). replace (c + (i - c)) with i in Hb by lia. rewrite Hb.
        change (f_pos f1) with (f_pos f + c). replace (f_pos f + c + (i - c)) with (f_pos f + i) by lia.
        apply undisturbed_byte; [done|lia|apply Hrd].
    + intros x Hx Hi. rewrite Hm; [apply Hm1; [done|intros j ?; apply Hi; lia]| |intros j ?; apply Hi; lia].
      intros Hx1. apply Hx. by apply (undisturbed_io k k1 x Hu1).
Qed.
(** [file_read] delivers the bytes of the file. *)
Lemma file_read_spec k inode n filp f buf count phys :
  cache_ok k -> ready k -> inode_table (k_fs k) !! inode = Some n -> readable k n ->
  file_table (k_fs k) !! filp = Some f -> 0 <= f_pos f -> f_pos f + count <= MAX_FILE -> 0 < count ->
  ubuf (io_byte k) k buf count phys ->
  runs (file_read inode filp buf count) k (fun r k' => r = count /\ cache_ok k' /\ same_disk k k' /\
    file_table (k_fs k') = <[filp := f <| f_pos := f_pos f + count |>]> (file_table (k_fs k)) /\
    (forall i, 0 <= i < count -> k_pmem k' (phys i) = file_byte k n (f_pos f + i)) /\
    (forall x, ~ io_byte k x -> (forall i, 0 <= i < count -> x <> phys i) -> k_pmem k' x = k_pmem k x)).
Proof.
  intros Hok Hre Hn Hrd Hf Hp Hmax Hc Hub. unfold file_read. assert (count <=? 0 = false) as -> by lia.
  destruct (file_read_loop inode n filp (S (Z.to_nat count)) k f buf count phys) as (k1&E1&Hu1&Ef1&Hb1&Hm1); try done; try lia.
  eapply runs_step; [exact E1|]. eapply runs_step; [reflexivity|].
  assert (inode_table (k_fs k1) !! inode = Some n) as Hn1 by by rewrite (un_inodes _ _ Hu1).
  eapply runs_step; [by apply mod_inode_Ok|]. apply runs_ret. rewrite Z.sub_0_r.
  assert (truth count = true) as -> by (apply truth_true; lia). destruct (un_cache _ _ Hu1) as (l&ch&HI).
  split_and!; try done; [exists l, ch; by apply (cache_inv_ext k1)|].
  intros blk x Hx Hin. rewrite <- (un_disk _ _ Hu1 blk x Hx Hin). by apply disk_ext.
Qed.
End Read.

Module FileReadProps.

(** C6: reading a regular file returns its contents.  [file_read] of [count] bytes from position
    [f_pos], through the direct, indirect and double indirect zones, returns [count]; the buffer of
    the program then holds the bytes of the file from that position on (zeros where the file has a
    hole), nothing else of the program's memory has changed, the position is advanced, and the disk
    and the invariant of the cache are the same. *)
Theorem file_read_correct k inode n filp f buf count phys :
  cache_ok k -> ready k -> inode_table (k_fs k) !! inode = Some n -> readable k n ->
  file_table (k_fs k) !! filp = Some f -> 0 <= f_pos f -> f_pos f + count <= MAX_FILE -> 0 < count ->
  ubuf (io_byte k) k buf count phys ->
  runs (file_read inode filp buf count) k (fun r k' => r = count /\ cache_ok k' /\ same_disk k k' /\
    file_table (k_fs k') = <[filp := f <| f_pos := f_pos f + count |>]> (file_table (k_fs k)) /\
    (forall i, 0 <= i < count -> k_pmem k' (phys i) = file_byte k n (f_pos f + i)) /\
    (forall x, ~ io_byte k x -> (forall i, 0 <= i < count -> x <> phys i) -> k_pmem k' x = k_pmem k x)).
Proof. apply file_read_spec. Qed.
(** Two bytes at the end of block 0 of a file, in zone 10, and one of block 1, which is a hole. *)
Definition demo_text : memory := st 2 blank (RD_START + 10 * BLOCK_SIZE + 1022) (97 + 98 * 256).
Definition demo_regular : m_inode := zero_inode <| i_dev := RD_DEV |> <| i_mode := 0x81A4 |> <| i_size := 2000 |>
  <| i_zone := [10; 0; 0; 0; 0; 0; 0; 0; 0] |>.
Definition demo_open : file := mkFile 0x81A4 0 1 (Some 0%nat) 1022.
Definition demo_rfs : fs_state := mkFs (demo_regular :: replicate 31 zero_inode) 0 (replicate 8 zero_super) [demo_open] RD_DEV.
Definition demo_rk : kernel := booted_fs demo_text demo_rfs.
Lemma demo_zones b : 0 <= b < 7 + 512 + 512 * 512 -> zone_number demo_rk (i_zone demo_regular) b = if b =? 0 then 10 else 0.
Proof.
  intros Hb. unfold zone_number. change (i_zone demo_regular) with [10; 0; 0; 0; 0; 0; 0; 0; 0].
  destruct (Z.ltb_spec b 7).
  - assert (b = 0 \/ b = 1 \/ b = 2 \/ b = 3 \/ b = 4 \/ b = 5 \/ b = 6) as H1 by lia.
    repeat (destruct H1 as [->|H1]; [reflexivity|]). by subst.
  - assert (b =? 0 = false) as -> by lia. destruct (b <? 7 + 512); reflexivity.
Qed.
Lemma file_read_correct_witness :
  runs (file_read 0 0 0x100 3) demo_rk (fun r k' => r = 3 /\ k_pmem k' 0x100 = 97 /\ k_pmem k' 0x101 = 98 /\ k_pmem k' 0x102 = 0).
Proof.
  eapply runs_mono; [|apply (file_read_correct demo_rk 0 demo_regular 0 demo_open 0x100 3 (fun i => 0x100 + i))].
  - intros r k' (->&_&_&_&Hb&_). split; [reflexivity|]. pose proof (Hb 0 ltac:(lia)) as H0. pose proof (Hb 1 ltac:(lia)) as H1. pose proof (Hb 2 ltac:(lia)) as H2.
    unfold file_byte in *. change (f_pos demo_open) with 1022 in *.
    change ((1022 + 0) / BLOCK_SIZE) with 0 in H0. change ((1022 + 1) / BLOCK_SIZE) with 0 in H1. change ((1022 + 2) / BLOCK_SIZE) with 1 in H2.
    rewrite demo_zones in H0, H1, H2 by lia. cbn [Z.eqb Pos.eqb] in H0, H1, H2.
    unfold demo_rk in H0, H1. rewrite booted_fs_disk in H0, H1.
    split; [exact H0|]. split; [exact H1|exact H2].
  - apply booted_fs_ok.
  - apply booted_fs_ready.
  - reflexivity.
  - split; [reflexivity|reflexivity|repeat constructor; lia|]. intros b Hb. rewrite demo_zones by exact Hb.
    destruct (b =? 0); [|congruence]. intros _. apply booted_fs_in_disk. lia.
  - reflexivity.
  - vm_compute. congruence.
  - vm_compute. congruence.
  - lia.
  - apply ubuf_kernel; [right; vm_compute; congruence|]. intros i Hi Hx%booted_fs_io. lia.
Defined.
End FileReadProps.
