(* ===== verification/FileWrite.v ===== *)
(** * Overwriting a file (fs/file_dev.c)

    [file_write] on blocks that have zones: it changes the bytes written and nothing else of the disk,
    so that the contents of the file ([file_byte]) are those of the program's buffer there and the old
    ones elsewhere.  The zones of a file must be its own ([own_zones]); a clean unused buffer is needed
    for each block that is written, since the buffers become dirty ([spares]). *)
From Stdlib Require Import ZArith Lia String.
From stdpp Require Import base list gmap.
From S2P Require Import Prelude State Pte PageAlloc PageTable BlockIO Buffer BufferCache BufferInit InodeIO Bitmap Inode PageFault UserMem Namei Sched Tty FileIO Pipe FileRead.
Open Scope Z_scope.

(** ** The number of unused clean buffers *)
Definition is_spare (h : buffer_head) : bool := (b_count h =? 0) && (b_dirt h =? 0).
Fixpoint spare_heads (l : list buffer_head) : nat :=
  match l with [] => 0 | h :: t => (if is_spare h then 1 else 0) + spare_heads t end.
Definition spares (k : kernel) : nat := spare_heads (buffers (k_blk k)).

Lemma spare_heads_usage : forall l l', (forall b, usage <$> l' !! b = usage <$> l !! b) -> spare_heads l' = spare_heads l.
Proof.
  induction l as [|h l IH]; intros [|h' l'] H; try done; try by specialize (H 0%nat).
  cbn. rewrite (IH l') by (intros b; apply (H (S b))). specialize (H 0%nat). cbn in H. unfold is_spare. injection H as _ -> ->. done.
Qed.
Lemma spare_heads_set : forall l b h, (spare_heads l <= S (spare_heads (<[b := h]> l)))%nat.
Proof.
  induction l as [|h l IH]; intros b h'; [cbn; lia|]. destruct b as [|b].
  - cbn. destruct (is_spare h), (is_spare h'); lia.
  - change (<[S b := h']> (h :: l)) with (h :: <[b := h']> l). cbn [spare_heads]. specialize (IH b h'). destruct (is_spare h); lia.
Qed.
Lemma spare_heads_exists l : (0 < spare_heads l)%nat -> exists b, spare l b = true.
Proof.
  induction l as [|h l IH]; cbn; [lia|]. destruct (is_spare h) eqn:E.
  - intros _. by exists 0%nat.
  - intros [b Hb]%IH. by exists (S b).
Qed.
Lemma spare_heads_all l : (forall b h, l !! b = Some h -> is_spare h = true) -> spare_heads l = length l.
Proof.
  induction l as [|h l IH]; intros H; [done|]. cbn. rewrite (H 0%nat h) by done. f_equal. apply IH. intros b. apply (H (S b)).
Qed.
Definition few_users (k : kernel) : Prop := forall b h, buffers (k_blk k) !! b = Some h -> b_count h < 255.
Lemma spares_ready k : few_users k -> (0 < spares k)%nat -> ready k.
Proof. intros Hf Hs. split; [by apply spare_heads_exists|done]. Qed.
Lemma calm_spares k k' : calm k k' -> spares k' = spares k.
Proof. intros (_&_&_&Hu&_). by apply spare_heads_usage. Qed.

(** ** What a write leaves *)
(** The i-node after the file was written up to position [e]. *)
Definition grown (n : m_inode) (e : Z) : m_inode := if i_size n <? e then n <| i_size := u32 e |> <| i_dirt := 1 |> else n.
Lemma grown_dev n e : i_dev (grown n e) = i_dev n.
Proof. unfold grown. by destruct (_ <? _). Qed.
Lemma grown_zones n e : i_zone (grown n e) = i_zone n.
Proof. unfold grown. by destruct (_ <? _). Qed.
Lemma grown_size n e : 0 <= e < 2 ^ 32 -> i_size (grown n e) = Z.max (i_size n) e.
Proof. intros He. unfold grown. destruct (Z.ltb_spec (i_size n) e); rsimpl; [rewrite u32_small by done|]; lia. Qed.
Lemma grown_twice n e e' : 0 <= e <= e' -> e' < 2 ^ 32 -> grown (grown n e) e' = grown n e'.
Proof.
  intros He He'. unfold grown at 1. rewrite grown_size by lia. unfold grown. destruct n as [m u sz].
  cbn [i_size]. destruct (Z.ltb_spec sz e), (Z.ltb_spec sz e'), (Z.ltb_spec (Z.max sz e) e'); try lia; try done.
  by replace e' with e by lia.
Qed.

(** Byte [x] of zone [blk] is byte [q] of the file. *)
Definition at_pos (k : kernel) (n : m_inode) (q blk x : Z) : Prop :=
  blk = zone_number k (i_zone n) (q / BLOCK_SIZE) /\ x = q mod BLOCK_SIZE.
(** [c] bytes, [data 0], [data 1], ..., were written from position [p] of the file on. *)
Record wrote (k k' : kernel) (inode : nat) (n : m_inode) (p c : Z) (data : Z -> Z) : Prop := mkWrote {
  wr_cache : cache_ok k';
  wr_users : few_users k';
  wr_fs : k_fs k' = k_fs (set_inode inode (grown n (p + c)) k);
  wr_mm : k_mm k' = k_mm k;
  wr_sched : k_sched k' = k_sched k;
  wr_start : rd_start (k_blk k') = rd_start (k_blk k);
  wr_length : rd_length (k_blk k') = rd_length (k_blk k);
  wr_data : forall b, b_data <$> buffers (k_blk k') !! b = b_data <$> buffers (k_blk k) !! b;
  wr_mem : forall x, ~ io_byte k x -> k_pmem k' x = k_pmem k x;
  wr_bytes : forall i blk x, 0 <= i < c -> at_pos k n (p + i) blk x -> disk k' blk x = data i;
  wr_other : forall blk x, in_disk k blk -> 0 <= x < BLOCK_SIZE -> (forall i, 0 <= i < c -> ~ at_pos k n (p + i) blk x) ->
    disk k' blk x = disk k blk x }.

Section Write.
Context {SI : SyncInodes} {HSI : SyncInodesOk SI}.

(** Marking the buffer dirty, growing the i-node, copying the bytes and releasing the buffer, from
    the state [k2] in which block [z] is held in buffer [b]. *)
Lemma write_held k k1 k2 inode n p c z b h l ch buf phys :
  calm k k1 -> cache_inv k2 l ch -> buffers (k_blk k2) !! b = Some h -> 1 <= b_count h ->
  b_dev h = RD_DEV /\ b_blocknr h = z /\ b_uptodate h = 1 -> same_rest k1 k2 -> same_disk k1 k2 ->
  (forall x, 0 <= x < BLOCK_SIZE -> k_pmem k2 (b_data h + x) = disk k1 z x) ->
  calm k1 (set_bh b (h <| b_count := b_count h - 1 |>) k2) -> few_users k ->
  inode_table (k_fs k) !! inode = Some n -> z = zone_number k (i_zone n) (p / BLOCK_SIZE) -> in_disk k z ->
  0 < c -> 0 <= p -> p mod BLOCK_SIZE + c <= BLOCK_SIZE -> ubuf (io_byte k) k buf c phys ->
  let k4 := set_inode inode (grown n (p + c)) (set_bh b (h <| b_dirt := 1 |>) k2) in
  exists m' k', get_bytes (Z.to_nat c) (p mod BLOCK_SIZE + b_data h) buf k4 = Ok tt (k4 <| k_pmem := m' |>) /\
    brelse (Some b) (k4 <| k_pmem := m' |>) = Ok tt k' /\ wrote k k' inode n p c (uload k phys) /\ (spares k <= S (spares k'))%nat.
Proof.
  intros Hc1 HI Hb Hcnt (Hdev&Hbk&Hup) Hr2 Hd2 Hdata Hc2 Hfew Hn Hz Hin Hc Hp Hpc Hub k4.
  pose proof (Z.mod_pos_bound p BLOCK_SIZE ltac:(done)) as Hmod.
  pose proof Hc1 as (_&Hd1&Hr1&_). pose proof (same_rest_trans _ _ _ Hr1 Hr2) as Hr.
  pose proof Hr as (Emm&Efs&(Esc&_)&Ers&Erl&Edata&Hmem).
  assert (forall i, 0 <= i < BLOCK_SIZE -> io_byte k (b_data h + i)) as Hio.
  { intros i Hi. apply (io_byte_rest k k2); [done|]. by apply (io_data k2 b). }
  assert (forall i, 0 <= i < c -> io_byte k (p mod BLOCK_SIZE + b_data h + i)) as Hiop.
  { intros i Hi. replace (p mod BLOCK_SIZE + b_data h + i) with (b_data h + (p mod BLOCK_SIZE + i)) by lia. apply Hio. lia. }
  assert (ubuf (io_byte k) k4 buf (Z.of_nat (Z.to_nat c)) phys) as Hub4.
  { rewrite Z2Nat.id by lia. apply (ubuf_ext (io_byte k) k); [done..|]. intros x Hx _. by apply Hmem. }
  destruct (get_bytes_spec (io_byte k) k4 buf (Z.to_nat c) phys (p mod BLOCK_SIZE + b_data h)) as (m'&E1&Hm1&Hm2).
  { done. } { by rewrite Z2Nat.id by lia. }
  rewrite Z2Nat.id in Hm1, Hm2 by lia. change (k_pmem k4) with (k_pmem k2) in Hm2. exists m'.
  set (kw := set_bh b (h <| b_dirt := 1 |>) (k2 <| k_pmem := m' |>)). set (k5 := k4 <| k_pmem := m' |>).
  assert (forall a, ~ (b_data h <= a < b_data h + BLOCK_SIZE) -> m' a = k_pmem k2 a) as Hm by (intros a Ha; apply Hm2; lia).
  pose proof (up_written_inv k2 l ch b h m' HI Hb Hdev Hup Hm) as HIw. fold kw in HIw.
  assert (cache_inv k5 l ch) as HI5 by by apply (cache_inv_ext kw).
  assert (buffers (k_blk k5) !! b = Some (h <| b_dirt := 1 |>)) as Hb5 by (apply list_lookup_insert_eq; by eapply lookup_lt_Some).
  destruct (brelse_Ok k5 l ch b _ HI5 Hb5 Hcnt) as (E6&HI6&Hd6). set (k6 := set_bh b _ k5) in *.
  exists k6. split; [done|]. split; [done|].
  assert (forall blk x, in_disk k blk -> 0 <= x < BLOCK_SIZE ->
    disk k6 blk x = if blk =? z then m' (b_data h + x) else disk k blk x) as Hdisk.
  { intros blk x Hbin Hx. assert (in_disk k2 blk) as Hbin2 by (unfold in_disk in *; by rewrite Erl).
    rewrite Hd6 by done. rewrite (disk_ext kw k5) by done.
    pose proof (up_written_disk k2 l ch b h m' HI Hb Hdev Hup Hm blk x Hbin2 Hx) as Ed. fold kw in Ed. rewrite Ed, Hbk.
    destruct (blk =? z); [done|]. rewrite Hd2; [by apply Hd1|done|]. unfold in_disk in *. destruct Hr1 as (_&_&_&_&->&_). done. }
  assert (forall i, 0 <= i < c -> uload k4 phys i = uload k phys i) as Hul.
  { intros i Hi. unfold uload. f_equal. apply Hmem. apply (ub_out _ _ _ _ _ Hub i Hi). }
  assert (forall i blk x, at_pos k n (p + i) blk x -> 0 <= i < c -> blk = z /\ x = p mod BLOCK_SIZE + i) as Hat.
  { intros i blk x [-> ->] Hi. rewrite Hz. unfold BLOCK_SIZE in *. split; [|dlia]. f_equal. dlia. }
  set (hr := h <| b_count := b_count h - 1 |>) in *. set (ks := set_bh b hr k2) in *.
  pose proof (calm_trans _ _ _ Hc1 Hc2) as Hcs.
  assert (buffers (k_blk k6) = <[b := hr <| b_dirt := 1 |>]> (buffers (k_blk ks))) as Eb6.
  { unfold k6, ks, set_bh. rsimpl. unfold k5, k4, set_inode, set_bh. rsimpl. by rewrite !list_insert_insert_eq. }
  assert (few_users ks) as Hfs.
  { intros x hx Hx. destruct Hcs as (_&_&_&Hu&_). specialize (Hu x). rewrite Hx in Hu.
    destruct (buffers (k_blk k) !! x) as [h0|] eqn:E0; [|done]. injection Hu as _ -> _. by eapply Hfew. }
  split; [split|].
  - by exists l, ch.
  - intros x hx. rewrite Eb6. intros [(<-&<-&Hlt)|[_ Hx]]%list_lookup_insert_Some; [|by eapply Hfs].
    apply (Hfs b hr). unfold ks, set_bh. rsimpl. apply list_lookup_insert_eq. by eapply lookup_lt_Some.
  - unfold k6, k5, k4, set_bh. rsimpl. unfold set_inode. rsimpl. by rewrite Efs.
  - done.
  - done.
  - done.
  - done.
  - intros x. rewrite Eb6. destruct Hcs as (_&_&(_&_&_&_&_&Hds&_)&_). rewrite <- Hds.
    apply (fmap_set b_data b hr); [|done]. unfold ks, set_bh. rsimpl. apply list_lookup_insert_eq. by eapply lookup_lt_Some.
  - intros x Hx. change (m' x = k_pmem k x). rewrite Hm2, Hmem; [done|done|]. intros Hr0. apply Hx.
    replace x with (p mod BLOCK_SIZE + b_data h + (x - (p mod BLOCK_SIZE + b_data h))) by lia. apply Hiop. lia.
  - intros i blk x Hi Ha. destruct (Hat i blk x Ha Hi) as [-> ->]. rewrite Hdisk, Z.eqb_refl by (done || lia).
    rewrite <- Hul by done. rewrite <- Hm1 by done. f_equal. lia.
  - intros blk x Hbin Hx Hno. rewrite Hdisk by done. destruct (Z.eqb_spec blk z) as [->|]; [|done].
    assert (~ p mod BLOCK_SIZE + b_data h <= b_data h + x < p mod BLOCK_SIZE + b_data h + c) as Hr0.
    { intros Hr0. apply (Hno (x - p mod BLOCK_SIZE)); [lia|]. unfold at_pos. rewrite Hz. unfold BLOCK_SIZE in *.
      split; [f_equal; dlia|dlia]. }
    rewrite Hm2, Hdata by done. by apply Hd1.
  - rewrite <- (calm_spares k ks Hcs). unfold spares. rewrite Eb6. apply spare_heads_set.
Qed.
(** One round writes what is left of the buffer or the rest of the block. *)
Lemma file_write_round_spec k inode n count i pos buf phys :
  cache_ok k -> few_users k -> (0 < spares k)%nat -> inode_table (k_fs k) !! inode = Some n -> readable k n ->
  0 <= pos -> pos + (count - i) <= MAX_FILE -> i < count -> zone_number k (i_zone n) (pos / BLOCK_SIZE) <> 0 ->
  ubuf (io_byte k) k buf (count - i) phys ->
  let c := Z.min (BLOCK_SIZE - pos mod BLOCK_SIZE) (count - i) in
  exists k', file_write_round inode count (i, pos, buf) k = Ok (inl (i + c, pos + c, buf + c)) k' /\
    wrote k k' inode n pos c (uload k phys) /\ (spares k <= S (spares k'))%nat.
Proof.
  intros Hok Hfew Hsp Hn [Hdev Hlen Hfz Hdisk] Hp Hmax Hi Hz Hub c. set (z := zone_number k (i_zone n) (pos / BLOCK_SIZE)) in *.
  pose proof (Z.mod_pos_bound pos BLOCK_SIZE ltac:(done)) as Hmod. pose proof (spares_ready k Hfew Hsp) as Hre.
  assert (0 < c <= count - i /\ pos mod BLOCK_SIZE + c <= BLOCK_SIZE) as [Hc Hcb] by (unfold c; lia).
  assert (0 <= pos / BLOCK_SIZE < 7 + 512 + 512 * 512) as Hblk by (unfold MAX_FILE, BLOCK_SIZE in *; dlia).
  unfold file_write_round. assert (i <? count = true) as -> by lia. rewrite Z.quot_div_nonneg, Z.rem_mod_nonneg by (done || lia).
  rewrite (s32_small (pos / BLOCK_SIZE)) by lia.
  pose proof (_bmap_spec k inode n (pos / BLOCK_SIZE) true Hok Hre Hn Hdev Hlen Hfz Hblk ltac:(done)) as (z'&k1&E1&Hz'&Hcalm)%runs_Ok.
  fold z in Hz'. subst z'. erewrite bind_Ok by exact E1. assert (z =? 0 = false) as -> by lia.
  pose proof (calm_undisturbed k k1 Hre Hcalm) as Hu1. assert (k_fs k1 = k_fs k) as Efs1 by apply Hcalm.
  assert (inode_table (k_fs k1) !! inode = Some n) as Hn1 by by rewrite Efs1.
  erewrite bind_Ok by by apply get_inode_Ok. rewrite Hdev.
  pose proof (zone_number_bound k (i_zone n) (pos / BLOCK_SIZE) Hfz) as Hzb. fold z in Hzb.
  destruct (bread_hold k1 z) as (b&h&k2&l&ch&E2&HI2&Hb2&Hcnt&Hh&Hr2&Hd2&Hdata&Hcalm2).
  { apply Hcalm. } { by eapply calm_ready. } { lia. } { rewrite (undisturbed_in_disk k k1) by done. by apply Hdisk. }
  erewrite bind_Ok by exact E2. cbv iota beta zeta. erewrite bind_Ok by by apply get_bh_Ok.
  erewrite bind_Ok by by apply mod_bh_Ok. set (k3 := upd k_blk _ k2).
  assert (inode_table (k_fs k3) !! inode = Some n) as Hn3 by (destruct Hr2 as (_&E&_); change (k_fs k3) with (k_fs k2); by rewrite E).
  erewrite bind_Ok by by apply get_inode_Ok.
  replace (if count - i <? BLOCK_SIZE - pos mod BLOCK_SIZE then count - i else BLOCK_SIZE - pos mod BLOCK_SIZE) with c
    by (unfold c; destruct (Z.ltb_spec (count - i) (BLOCK_SIZE - pos mod BLOCK_SIZE)); lia).
  destruct (write_held k k1 k2 inode n pos c z b h l ch buf phys) as (m'&k'&E4&E5&Hw&Hsp'); try done.
  { by apply Hdisk. } { lia. } { replace c with (0 + c) by lia. rewrite <- (Z.add_0_r buf).
    pose proof (ubuf_sub (io_byte k) k buf (count - i) phys 0 c ltac:(lia) ltac:(lia) ltac:(lia) Hub) as H. done. }
  rewrite (bind_Ok _ _ _ tt (set_inode inode (grown n (pos + c)) k3)).
  2:{ unfold grown. destruct (_ <? _); cbn [when].
      - erewrite bind_Ok by by apply mod_inode_Ok. erewrite mod_inode_Ok by (by eapply set_inode_lookup). by rewrite set_inode_twice.
      - unfold skip, ret. f_equal. unfold set_inode. destruct k3 as [? ? [] ? ? ?]. unfold upd; cbn. by rewrite list_insert_id. }
  erewrite bind_Ok by exact E4. erewrite bind_Ok by exact E5. by exists k'.
Qed.
(** ** The zones of one file *)
(** The indirect blocks of the file. *)
Definition zone_table (k : kernel) (n : m_inode) (m : Z) : Prop :=
  m = default 0 (idx (i_zone n) 7) \/ m = default 0 (idx (i_zone n) 8) \/
  exists j, 0 <= j < 512 /\ m = follow k (default 0 (idx (i_zone n) 8)) j.
(** No zone of the file holds two of its blocks, or a block and a table. *)
Record own_zones (k : kernel) (n : m_inode) : Prop := mkOwnZones {
  oz_blocks : forall b b', 0 <= b < 7 + 512 + 512 * 512 -> 0 <= b' < 7 + 512 + 512 * 512 ->
    zone_number k (i_zone n) b <> 0 -> zone_number k (i_zone n) b = zone_number k (i_zone n) b' -> b = b';
  oz_tables : forall b m, 0 <= b < 7 + 512 + 512 * 512 -> zone_table k n m ->
    zone_number k (i_zone n) b <> 0 -> zone_number k (i_zone n) b <> m }.
Definition mapped (k : kernel) (n : m_inode) (p c : Z) : Prop :=
  forall i, 0 <= i < c -> zone_number k (i_zone n) ((p + i) / BLOCK_SIZE) <> 0.

Lemma file_block q : 0 <= q < MAX_FILE -> 0 <= q / BLOCK_SIZE < 7 + 512 + 512 * 512.
Proof. unfold MAX_FILE, BLOCK_SIZE. intros. dlia. Qed.
Lemma wrote_in_disk k k' inode n p c data blk : wrote k k' inode n p c data -> in_disk k' blk <-> in_disk k blk.
Proof. intros []. unfold in_disk. by rewrite wr_length0. Qed.
Lemma wrote_io k k' inode n p c data x : wrote k k' inode n p c data -> io_byte k' x <-> io_byte k x.
Proof.
  intros []. unfold io_byte. rewrite wr_start0, wr_length0. apply or_iff_compat_l.
  split; intros (b&h&Hb&Hx); pose proof (wr_data0 b) as E; rewrite Hb in E.
  - destruct (buffers (k_blk k) !! b) as [h'|] eqn:Hb'; [|done]. exists b, h'. split; [done|]. injection E as E. lia.
  - destruct (buffers (k_blk k') !! b) as [h'|] eqn:Hb'; [|done]. exists b, h'. split; [done|]. injection E as E. lia.
Qed.

(** A write does not touch the tables, so the zones of the file stay the same. *)
Section Zones.
Context (k k' : kernel) (inode : nat) (n : m_inode) (p c : Z) (data : Z -> Z).
Context (Hw : wrote k k' inode n p c data) (Hown : own_zones k n) (Hp : 0 <= p) (Hmax : p + c <= MAX_FILE).

Lemma wrote_follow m off : zone_table k n m -> 0 <= off < 512 -> follow k' m off = follow k m off.
Proof.
  intros Hm Hoff. unfold follow, indirect. destruct (Z.eqb_spec m 0) as [|Hm0]; [done|].
  pose proof (wrote_in_disk k k' inode n p c data m Hw). destruct (decide (in_disk k' m)), (decide (in_disk k m)); try tauto.
  apply ld_ext. intros x Hx. apply (wr_other _ _ _ _ _ _ _ Hw); [done|unfold BLOCK_SIZE; lia|].
  intros o Ho [E _]. assert (zone_number k (i_zone n) ((p + o) / BLOCK_SIZE) <> 0) as Hz by congruence.
  apply (oz_tables _ _ Hown ((p + o) / BLOCK_SIZE) m); [apply file_block; lia|done..].
Qed.
Lemma wrote_zone b : 0 <= b < 7 + 512 + 512 * 512 -> zone_number k' (i_zone n) b = zone_number k (i_zone n) b.
Proof.
  intros Hb. unfold zone_number. destruct (Z.ltb_spec b 7); [done|]. destruct (Z.ltb_spec b (7 + 512)).
  - apply wrote_follow; [by left|lia].
  - assert (0 <= (b - (7 + 512)) / 512 < 512) as Hq by dlia.
    rewrite (wrote_follow (default 0 (idx (i_zone n) 8))) by (first [by right; left | done]).
    apply wrote_follow; [|dlia]. right. right. by exists ((b - (7 + 512)) / 512).
Qed.
Lemma wrote_at_pos q blk x : 0 <= q < MAX_FILE -> at_pos k' n q blk x <-> at_pos k n q blk x.
Proof. intros Hq. unfold at_pos. by rewrite wrote_zone by by apply file_block. Qed.
Lemma wrote_table m : zone_table k' n m <-> zone_table k n m.
Proof.
  unfold zone_table. do 2 apply or_iff_compat_l. split; intros (j&Hj&->); exists j; (split; [done|]);
    [|symmetry]; by apply wrote_follow; [right; left|].
Qed.
Lemma wrote_own : own_zones k' n.
Proof.
  destruct Hown as [H1 H2]. split.
  - intros b b' Hb Hb'. rewrite !wrote_zone by done. by apply H1.
  - intros b m Hb Hm%wrote_table. rewrite wrote_zone by done. by apply H2.
Qed.
Lemma wrote_readable : readable k n -> readable k' n.
Proof.
  intros [H1 H2 H3 H4]. split; try done. intros b Hb. rewrite wrote_zone by done. intros Hz.
  rewrite (wrote_in_disk k k' inode n p c data) by done. by apply H4.
Qed.
(** The contents of the file afterwards. *)
Lemma wrote_byte q : readable k n -> mapped k n p c -> 0 <= q < MAX_FILE ->
  file_byte k' n q = if (p <=? q) && (q <? p + c) then u8 (data (q - p)) else file_byte k n q.
Proof.
  intros Hr Hmap Hq. unfold file_byte. rewrite wrote_zone by by apply file_block.
  pose proof (Z.mod_pos_bound q BLOCK_SIZE ltac:(done)) as Hmod.
  destruct (Z.eqb_spec (zone_number k (i_zone n) (q / BLOCK_SIZE)) 0) as [E0|E0].
  - destruct (Z.leb_spec p q), (Z.ltb_spec q (p + c)); try done. destruct (Hmap (q - p)); [lia|]. by replace (p + (q - p)) with q by lia.
  - destruct (Z.leb_spec p q) as [H1|H1], (Z.ltb_spec q (p + c)) as [H2|H2]; cbn [andb];
      try (f_equal; apply (wr_other _ _ _ _ _ _ _ Hw); [by apply (rf_disk _ _ Hr); [apply file_block|]|done|]; intros i Hi [E1 E2];
        apply (oz_blocks _ _ Hown) in E1; [unfold BLOCK_SIZE in *; dlia|by apply file_block|apply file_block; lia|done]).
    f_equal. apply (wr_bytes _ _ _ _ _ _ _ Hw); [lia|]. by replace (p + (q - p)) with q by lia.
Qed.
End Zones.

(** Properties of a file depend on its zones, not on its size. *)
Lemma same_zones_number k n n' b : i_zone n' = i_zone n -> zone_number k (i_zone n') b = zone_number k (i_zone n) b.
Proof. by intros ->. Qed.
Lemma own_same k n n' : i_zone n' = i_zone n -> own_zones k n -> own_zones k n'.
Proof. intros E [H1 H2]. split; unfold zone_table; rewrite E; done. Qed.
Lemma readable_same k n n' : i_zone n' = i_zone n -> i_dev n' = i_dev n -> readable k n -> readable k n'.
Proof. intros E Ed []. split; rewrite ?E, ?Ed; done. Qed.

(** Two writes, one after the other. *)
Lemma wrote_trans k k1 k2 inode n p c d data data' :
  wrote k k1 inode n p c data -> wrote k1 k2 inode (grown n (p + c)) (p + c) d data' ->
  (forall i, 0 <= i < d -> data' i = data (c + i)) -> inode_table (k_fs k) !! inode = Some n ->
  readable k n -> own_zones k n -> 0 <= p -> 0 < c -> 0 < d -> p + c + d <= MAX_FILE -> mapped k n p (c + d) ->
  wrote k k2 inode n p (c + d) data.
Proof.
  intros H1 H2 Hdata Hn Hrd Hown Hp Hc Hd Hmax Hmap. set (n1 := grown n (p + c)) in *.
  assert (i_zone n1 = i_zone n) as Ez by apply grown_zones.
  assert (forall q blk x, 0 <= q < MAX_FILE -> at_pos k1 n1 q blk x <-> at_pos k n q blk x) as Hat.
  { intros q blk x Hq. rewrite <- (wrote_at_pos k k1 inode n p c data) by (done || lia). unfold at_pos. by rewrite Ez. }
  pose proof (fun x => wrote_io k k1 inode n p c data x H1) as Hio.
  pose proof (fun b => wrote_in_disk k k1 inode n p c data b H1) as Hind. pose proof H1 as []. pose proof H2 as []. split; try done; try congruence.
  - rewrite wr_fs1. unfold set_inode. rsimpl. rewrite wr_fs0. unfold set_inode. rsimpl. unfold upd. destruct (k_fs k); cbn. f_equal.
    rewrite list_insert_insert_eq. f_equal. unfold n1. rewrite grown_twice by (unfold MAX_FILE, BLOCK_SIZE in *; lia). f_equal. lia.
  - intros x Hx. rewrite wr_mem1, wr_mem0; [done|done|by rewrite Hio].
  - intros i blk x Hi Ha. destruct (decide (i < c)) as [Hl|Hl].
    + pose proof Ha as [E1 E2]. rewrite wr_other1; [by apply (wr_bytes0 i); [lia|]| | |].
      * apply Hind. rewrite E1. apply Hrd; [apply file_block; lia|apply Hmap; lia].
      * rewrite E2. by apply Z.mod_pos_bound.
      * intros j Hj Ha'. apply Hat in Ha' as [E3 E4]; [|lia]. rewrite E1 in E3.
        apply (oz_blocks _ _ Hown) in E3; [unfold BLOCK_SIZE in *; dlia|apply file_block; lia..|apply Hmap; lia].
    + replace (data i) with (data' (i - c)) by (rewrite Hdata by lia; f_equal; lia). apply wr_bytes1; [lia|].
      apply Hat; [lia|]. by replace (p + c + (i - c)) with (p + i) by lia.
  - intros blk x Hbin Hx Hno. rewrite wr_other1; [apply wr_other0; [done..|]; intros i Hi; apply Hno; lia|by apply Hind|done|].
    intros j Hj Ha. apply Hat in Ha; [|lia]. apply (Hno (c + j)); [lia|]. by replace (p + (c + j)) with (p + c + j) by lia.
Qed.

Lemma file_write_loop inode count fuel : forall k n i pos buf phys,
  (Z.to_nat (count - i) <= fuel)%nat -> cache_ok k -> few_users k ->
  (pos + (count - i) - 1) / BLOCK_SIZE - pos / BLOCK_SIZE < Z.of_nat (spares k) ->
  inode_table (k_fs k) !! inode = Some n -> readable k n -> own_zones k n -> mapped k n pos (count - i) ->
  0 <= pos -> pos + (count - i) <= MAX_FILE -> i < count -> ubuf (io_byte k) k buf (count - i) phys ->
  exists k', loop (S fuel) (file_write_round inode count) (i, pos, buf) k = Ok (count, pos + (count - i)) k' /\
    wrote k k' inode n pos (count - i) (uload k phys) /\
    Z.of_nat (spares k) <= Z.of_nat (spares k') + ((pos + (count - i) - 1) / BLOCK_SIZE - pos / BLOCK_SIZE + 1).
Proof.
  induction fuel as [|fuel IH]; intros k n i pos buf phys Hfu Hok Hfew Hsp Hn Hrd Hown Hmap Hp Hmax Hi Hub; [lia|].
  destruct (file_write_round_spec k inode n count i pos buf phys) as (k1&E1&Hw1&Hs1); try done.
  { assert (pos / BLOCK_SIZE <= (pos + (count - i) - 1) / BLOCK_SIZE) by (apply Z.div_le_mono; [done|lia]). lia. }
  { specialize (Hmap 0 ltac:(lia)). by rewrite Z.add_0_r in Hmap. }
  set (c := Z.min (BLOCK_SIZE - pos mod BLOCK_SIZE) (count - i)) in *. rewrite loop_S. erewrite bind_Ok by exact E1. cbv iota.
  assert (0 < c <= count - i) as Hc by (pose proof (Z.mod_pos_bound pos BLOCK_SIZE ltac:(done)); unfold c; lia).
  destruct (decide (c = count - i)) as [Ec|Hne].
  { exists k1. rewrite loop_S. unfold file_write_round. assert (i + c <? count = false) as -> by lia. rewrite Ec in *. split_and!; [|done|].
    - erewrite bind_Ok by reflexivity. unfold ret. do 2 f_equal. lia.
    - assert (pos / BLOCK_SIZE <= (pos + (count - i) - 1) / BLOCK_SIZE) by (apply Z.div_le_mono; [done|lia]). lia. }
  assert ((pos + c) / BLOCK_SIZE = pos / BLOCK_SIZE + 1) as Eb by (unfold c, BLOCK_SIZE in *; dlia).
  destruct (IH k1 (grown n (pos + c)) (i + c) (pos + c) (buf + c) (fun j => phys (c + j))) as (k'&E&Hw&Hs); try done; try lia.
  - apply Hw1.
  - apply Hw1.
  - replace (pos + c + (count - (i + c)) - 1) with (pos + (count - i) - 1) by lia. lia.
  - rewrite (wr_fs _ _ _ _ _ _ _ Hw1). by eapply set_inode_lookup.
  - apply (readable_same k1 n); [apply grown_zones|apply grown_dev|]. by apply (wrote_readable k k1 inode n pos c (uload k phys)); try done; lia.
  - apply (own_same k1 n); [apply grown_zones|]. apply (wrote_own k k1 inode n pos c (uload k phys)); try done; lia.
  - intros j Hj. rewrite grown_zones, (wrote_zone k k1 inode n pos c (uload k phys)) by (try done; try apply file_block; lia).
    specialize (Hmap (c + j) ltac:(lia)). by rewrite Z.add_assoc in Hmap.
  - apply (ubuf_weaken (io_byte k)); [intros x; apply (wrote_io k k1 inode n pos c (uload k phys)); done|].
    apply (ubuf_sub (io_byte k) k1 buf (count - i) phys c); [lia..|]. apply (ubuf_ext (io_byte k) k); [done|apply Hw1|].
    intros x Hx _. by apply Hw1.
  - exists k'. replace (pos + c + (count - (i + c))) with (pos + (count - i)) in * by lia. split_and!; [done| |lia].
    replace (count - i) with (c + (count - (i + c))) by lia.
    apply (wrote_trans k k1 k' inode n pos c _ _ (uload k1 (fun j => phys (c + j)))); try done; try lia.
    + intros j Hj. unfold uload. f_equal. apply Hw1. apply (ub_out _ _ _ _ _ Hub). lia.
    + by replace (c + (count - (i + c))) with (count - i) by lia.
Qed.

(** ** [file_write] *)
(** Everything about the contents of files depends on the block layer only. *)
Lemma same_cache_zone k k' n b : same_cache k k' -> zone_number k' (i_zone n) b = zone_number k (i_zone n) b.
Proof.
  intros Hs. assert (forall m off, follow k' m off = follow k m off) as Hf.
  { intros m off. unfold follow, indirect. destruct (m =? 0); [done|]. pose proof Hs as [Eb _].
    assert (in_disk k' m <-> in_disk k m) as Hi by (unfold in_disk; by rewrite Eb).
    destruct (decide (in_disk k' m)), (decide (in_disk k m)); try tauto. apply ld_ext. intros x _. by apply disk_ext. }
  unfold zone_number. destruct (_ <? _); [done|]. destruct (_ <? _); by rewrite !Hf.
Qed.
Lemma same_cache_byte k k' n q : same_cache k k' -> file_byte k' n q = file_byte k n q.
Proof. intros Hs. unfold file_byte. rewrite (same_cache_zone k k') by done. by rewrite (disk_ext k k'). Qed.
Lemma same_cache_readable k k' n : same_cache k k' -> readable k n -> readable k' n.
Proof.
  intros Hs [H1 H2 H3 H4]. split; try done. intros b Hb. rewrite (same_cache_zone k k') by done. pose proof Hs as [Eb _].
  unfold in_disk. rewrite Eb. by apply H4.
Qed.
Lemma same_cache_io k k' x : same_cache k k' -> io_byte k' x <-> io_byte k x.
Proof. intros [E _]. unfold io_byte. by rewrite E. Qed.

Definition appends (f : file) : bool := truth (Z.land (f_flags f) O_APPEND).
Definition write_start (n : m_inode) (f : file) : Z := if appends f then i_size n else f_pos f.
(** The number of blocks that bytes [p] to [p + c - 1] lie in. *)
Definition blocks_of (p c : Z) : Z := (p + c - 1) / BLOCK_SIZE - p / BLOCK_SIZE + 1.
(** What [file_write] needs to write [c] bytes: the blocks have zones, the zones belong to the file,
    and there are spare buffers. *)
Record writable (k : kernel) (n : m_inode) (p c : Z) : Prop := mkWritable {
  wt_cache : cache_ok k;
  wt_users : few_users k;
  wt_spares : blocks_of p c <= Z.of_nat (spares k);
  wt_readable : readable k n;
  wt_own : own_zones k n;
  wt_mapped : mapped k n p c;
  wt_start : 0 <= p;
  wt_end : p + c <= MAX_FILE;
  wt_count : 0 < c }.

Lemma file_write_runs k inode n filp f buf count phys : let pos := write_start n f in
  inode_table (k_fs k) !! inode = Some n -> file_table (k_fs k) !! filp = Some f -> writable k n pos count ->
  ubuf (io_byte k) k buf count phys ->
  exists k1 k', file_write inode filp buf count k = Ok count k' /\ wrote k k1 inode n pos count (uload k phys) /\
    same_cache k1 k' /\ k_mm k' = k_mm k /\ Z.of_nat (spares k) <= Z.of_nat (spares k') + blocks_of pos count /\
    (exists n', inode_table (k_fs k') !! inode = Some n' /\ i_zone n' = i_zone n /\ i_dev n' = i_dev n /\
       i_size n' = Z.max (i_size n) (pos + count)) /\
    file_table (k_fs k') = if appends f then file_table (k_fs k) else <[filp := f <| f_pos := pos + count |>]> (file_table (k_fs k)).
Proof.
  intros pos Hn Hf [] Hub. unfold file_write. erewrite bind_Ok by by apply get_file_Ok. erewrite bind_Ok by by apply get_inode_Ok.
  fold (appends f). fold (write_start n f). fold pos.
  destruct (file_write_loop inode count (Z.to_nat count) k n 0 pos buf phys) as (k1&E1&Hw&Hs);
    rewrite ?Z.sub_0_r; try done; try lia; [unfold blocks_of in *; lia|].
  rewrite Z.sub_0_r in E1, Hw, Hs. erewrite bind_Ok by exact E1. cbv iota. erewrite bind_Ok by reflexivity.
  assert (inode_table (k_fs k1) !! inode = Some (grown n (pos + count))) as Hn1 by (rewrite (wr_fs _ _ _ _ _ _ _ Hw); by eapply set_inode_lookup).
  assert (file_table (k_fs k1) = file_table (k_fs k)) as Ef1 by (rewrite (wr_fs _ _ _ _ _ _ _ Hw); done).
  assert (0 <= pos + count < 2 ^ 32) as Hsz by (unfold MAX_FILE, BLOCK_SIZE in *; lia).
  assert (truth count = true) as Ht by (apply truth_true; lia).
  erewrite bind_Ok by by apply mod_inode_Ok. set (n2 := (grown n (pos + count)) <| i_mtime := u32 (startup_time (k_sched k1) + Z.quot (jiffies (k_sched k1)) HZ) |>). set (k2 := set_inode inode n2 k1).
  assert (inode_table (k_fs k2) !! inode = Some n2) as Hn2 by by eapply set_inode_lookup.
  exists k1. destruct (appends f) eqn:Ea; cbn [when negb].
  - exists k2. erewrite bind_Ok by reflexivity. rewrite Ht. split_and!; try done; [apply Hw|].
    exists n2. split_and!; [done|apply grown_zones|apply grown_dev|by apply grown_size].
  - set (n3 := n2 <| i_ctime := u32 (startup_time (k_sched k2) + Z.quot (jiffies (k_sched k2)) HZ) |>).
    assert (file_table (k_fs k2) !! filp = Some f) as Hf2 by (change (file_table (k_fs k1) !! filp = Some f); by rewrite Ef1).
    rewrite bind_assoc. set (k3 := set_pos filp f (pos + count) k2). erewrite (bind_Ok _ _ _ tt k3) by by apply mod_file_Ok.
    erewrite bind_Ok by (erewrite bind_Ok by reflexivity; by apply mod_inode_Ok). fold n3.
    eexists. split; [by rewrite Ht|]. split_and!; try done; [apply Hw| |].
    + exists n3. split_and!; [by eapply set_inode_lookup|apply grown_zones|apply grown_dev|by apply grown_size].
    + change (<[filp := f <| f_pos := pos + count |>]> (file_table (k_fs k1)) = <[filp := f <| f_pos := pos + count |>]> (file_table (k_fs k))).
      by rewrite Ef1.
Qed.
End Write.

Module FileWriteProps.

(** C2: writing to a regular file changes exactly the bytes written.  [file_write] of [count] bytes
    at the position of the file (at its end with O_APPEND), where the blocks have zones, returns
    [count]; the bytes of the file are then those of the program's buffer from that position on and the
    old ones elsewhere, every other byte of every zone of the disk is the same, the size is the larger
    of the old one and the end of the write, the position follows unless the file appends, and the
    memory of the program is not changed. *)
Theorem file_write_correct {SI : SyncInodes} {HSI : SyncInodesOk SI} k inode n filp f buf count phys :
  let pos := write_start n f in
  inode_table (k_fs k) !! inode = Some n -> file_table (k_fs k) !! filp = Some f -> writable k n pos count ->
  ubuf (io_byte k) k buf count phys ->
  runs (file_write inode filp buf count) k (fun r k' => r = count /\ cache_ok k' /\
    (forall q, 0 <= q < MAX_FILE ->
       file_byte k' n q = if (pos <=? q) && (q <? pos + count) then uload k phys (q - pos) else file_byte k n q) /\
    (forall blk x, in_disk k blk -> 0 <= x < BLOCK_SIZE -> (forall i, 0 <= i < count -> ~ at_pos k n (pos + i) blk x) ->
       disk k' blk x = disk k blk x) /\
    (exists n', inode_table (k_fs k') !! inode = Some n' /\ i_zone n' = i_zone n /\ i_size n' = Z.max (i_size n) (pos + count)) /\
    file_table (k_fs k') = (if appends f then file_table (k_fs k) else <[filp := f <| f_pos := pos + count |>]> (file_table (k_fs k))) /\
    (forall x, ~ io_byte k x -> k_pmem k' x = k_pmem k x)).
Proof.
  intros pos Hn Hf Hwt Hub. destruct (file_write_runs k inode n filp f buf count phys Hn Hf Hwt Hub) as (k1&k'&E&Hw&Hs&_&_&(n'&Hn'&Ez&_&Esz)&Ef).
  fold pos in Hw, Ef, Esz. unfold runs. rewrite E. pose proof Hwt as []. split_and!; try done.
  - destruct (wr_cache _ _ _ _ _ _ _ Hw) as (l&ch&HI). exists l, ch. by apply (cache_inv_ext k1).
  - intros q Hq. rewrite (same_cache_byte k1 k') by done.
    rewrite (wrote_byte k k1 inode n pos count (uload k phys)) by done.
    destruct (_ && _); [|done]. apply u8_small. unfold uload. apply u8_bound.
  - intros blk x Hin Hx Hno. rewrite (disk_ext k1 k') by done. by apply (wr_other _ _ _ _ _ _ _ Hw).
  - by exists n'.
  - intros x Hx. destruct Hs as [_ ->]. by apply (wr_mem _ _ _ _ _ _ _ Hw).
Qed.

(** C5: what is written is read back.  When [count] bytes are written to a file and then [count]
    bytes are read through another descriptor of the same file, from the position where the write began,
    the second buffer of the program holds the bytes that were in the first one. *)
Theorem write_then_read {SI : SyncInodes} {HSI : SyncInodesOk SI} k inode n w r fw fr buf buf2 count phys phys2 :
  inode_table (k_fs k) !! inode = Some n -> file_table (k_fs k) !! w = Some fw -> file_table (k_fs k) !! r = Some fr ->
  w <> r -> f_pos fr = write_start n fw -> writable k n (f_pos fr) count -> blocks_of (f_pos fr) count < Z.of_nat (spares k) ->
  ubuf (io_byte k) k buf count phys -> ubuf (io_byte k) k buf2 count phys2 ->
  runs (file_write inode w buf count ;;; file_read inode r buf2 count) k (fun v k' => v = count /\
    forall i, 0 <= i < count -> k_pmem k' (phys2 i) = uload k phys i).
Proof.
  intros Hn Hfw Hfr Hne Hpos Hwt Hsp Hub Hub2. pose proof Hwt as []. rewrite Hpos in Hwt.
  destruct (file_write_runs k inode n w fw buf count phys Hn Hfw Hwt Hub) as (k1&k'&E&Hw&Hs&Emm&Hsp'&(n'&Hn'&Ez&Ed&_)&Ef).
  rewrite <- Hpos in Hw, Hsp', Ef. eapply runs_step; [exact E|].
  assert (readable k' n') as Hrd.
  { apply (readable_same k' n); [done..|]. apply (same_cache_readable k1 k'); [done|].
    by apply (wrote_readable k k1 inode n (f_pos fr) count (uload k phys)). }
  assert (cache_ok k') as Hok. { destruct (wr_cache _ _ _ _ _ _ _ Hw) as (l&ch&HI). exists l, ch. by apply (cache_inv_ext k1). }
  assert (few_users k') as Hfew. { intros b h. destruct Hs as [-> _]. apply (wr_users _ _ _ _ _ _ _ Hw). }
  assert (file_table (k_fs k') !! r = Some fr) as Hfr' by (rewrite Ef; destruct (appends fw); [done|by rewrite list_lookup_insert_ne]).
  assert (forall x, io_byte k' x <-> io_byte k x) as Hio.
  { intros x. rewrite (same_cache_io k1 k') by done. by apply (wrote_io k k1 inode n (f_pos fr) count (uload k phys)). }
  assert (ubuf (io_byte k') k' buf2 count phys2) as Hub'.
  { apply (ubuf_weaken (io_byte k)); [by intros x ?%Hio|]. apply (ubuf_ext (io_byte k) k); [done..|].
    intros x Hx _. destruct Hs as [_ ->]. by apply (wr_mem _ _ _ _ _ _ _ Hw). }
  eapply runs_mono; [|apply (file_read_spec k' inode n' r fr buf2 count phys2); try done; apply spares_ready; [done|lia]].
  intros v k2 (->&_&_&_&Hb&_). split; [done|]. intros i Hi. rewrite Hb by done. unfold file_byte. rewrite Ez. fold (file_byte k' n (f_pos fr + i)).
  rewrite (same_cache_byte k1 k') by done. rewrite (wrote_byte k k1 inode n (f_pos fr) count (uload k phys)) by (done || lia).
  replace ((f_pos fr <=? f_pos fr + i) && (f_pos fr + i <? f_pos fr + count)) with true by lia.
  replace (f_pos fr + i - f_pos fr) with i by lia. apply u8_small. unfold uload. apply u8_bound.
Qed.

(** A file of two blocks, in zones 10 and 11, and the three bytes 7, 8, 9 of the program. *)
Definition demo_wtext : memory := st 3 blank 0x100 (7 + 8 * 256 + 9 * 65536).
Definition demo_wfile : m_inode := zero_inode <| i_dev := RD_DEV |> <| i_mode := 0x81A4 |> <| i_size := 1024 |>
  <| i_zone := [10; 11; 0; 0; 0; 0; 0; 0; 0] |>.
Definition demo_wfs : fs_state := mkFs (demo_wfile :: replicate 31 zero_inode) 0 (replicate 8 zero_super)
  [mkFile 0x81A4 2 1 (Some 0%nat) 1022; mkFile 0x81A4 0 1 (Some 0%nat) 1022] RD_DEV.
Definition demo_wk : kernel := booted_fs demo_wtext demo_wfs.
Lemma demo_wzones b : 0 <= b < 7 + 512 + 512 * 512 ->
  zone_number demo_wk (i_zone demo_wfile) b = if b =? 0 then 10 else if b =? 1 then 11 else 0.
Proof.
  intros Hb. unfold zone_number. change (i_zone demo_wfile) with [10; 11; 0; 0; 0; 0; 0; 0; 0].
  destruct (Z.ltb_spec b 7).
  - assert (b = 0 \/ b = 1 \/ b = 2 \/ b = 3 \/ b = 4 \/ b = 5 \/ b = 6) as H1 by lia.
    repeat (destruct H1 as [->|H1]; [reflexivity|]). by subst.
  - assert (b =? 0 = false) as -> by lia. assert (b =? 1 = false) as -> by lia. destruct (b <? 7 + 512); reflexivity.
Qed.
Lemma demo_spares : spares demo_wk = 94%nat.
Proof. unfold spares. rewrite spare_heads_all; [apply (booted_spec demo_wtext)|]. intros b h (Hc&_&Hd)%booted_free. unfold is_spare. by rewrite Hc, Hd. Qed.
Lemma demo_writable : writable demo_wk demo_wfile 1022 3.
Proof.
  split; [apply booted_fs_ok|by destruct (booted_fs_ready demo_wtext demo_wfs)|rewrite demo_spares; by vm_compute| | | |lia|unfold MAX_FILE, BLOCK_SIZE; lia|lia].
  - split; [done|done|repeat constructor; lia|]. intros b Hb. rewrite demo_wzones by done. intros _. apply booted_fs_in_disk.
    destruct (b =? 0), (b =? 1); lia.
  - split.
    + intros b b' Hb Hb'. rewrite !demo_wzones by done.
      destruct (Z.eqb_spec b 0), (Z.eqb_spec b' 0), (Z.eqb_spec b 1), (Z.eqb_spec b' 1); lia.
    + intros b m Hb Hm. rewrite demo_wzones by done. destruct Hm as [->|[->|(j&Hj&->)]]; done.
  - intros i Hi. rewrite demo_wzones by (apply file_block; unfold MAX_FILE, BLOCK_SIZE; lia).
    assert ((1022 + i) / BLOCK_SIZE = 0 \/ (1022 + i) / BLOCK_SIZE = 1) as [->| ->] by (unfold BLOCK_SIZE; dlia); done.
Qed.
Lemma demo_ubuf a : 0 <= a < 0x1000 -> ubuf (io_byte demo_wk) demo_wk a 3 (fun i => a + i).
Proof. intros Ha. apply ubuf_kernel; [right; unfold USER_START_ADDR; lia|]. intros i Hi Hx%booted_fs_io. lia. Qed.
Lemma file_write_correct_witness :
  runs (file_write 0 0 0x100 3) demo_wk (fun r k' => r = 3 /\ file_byte k' demo_wfile 1023 = 8 /\ file_byte k' demo_wfile 1024 = 9).
Proof.
  eapply runs_mono; [|apply (file_write_correct demo_wk 0 demo_wfile 0 (mkFile 0x81A4 2 1 (Some 0%nat) 1022) 0x100 3 (fun i => 0x100 + i));
    [reflexivity|reflexivity|exact demo_writable|apply demo_ubuf; lia]].
  intros r k' (->&_&Hb&_). split; [reflexivity|]. rewrite !Hb by (unfold MAX_FILE, BLOCK_SIZE; lia).
  unfold uload, demo_wk. split.
  - change (k_pmem (booted_fs demo_wtext demo_wfs)) with (k_pmem (booted demo_wtext)). destruct (booted_spec demo_wtext) as (_&_&->&_). reflexivity.
  - change (k_pmem (booted_fs demo_wtext demo_wfs)) with (k_pmem (booted demo_wtext)). destruct (booted_spec demo_wtext) as (_&_&->&_). reflexivity.
Defined.
Lemma write_then_read_witness :
  runs (file_write 0 0 0x100 3 ;;; file_read 0 1 0x200 3) demo_wk (fun v k' => v = 3 /\ k_pmem k' 0x201 = uload demo_wk (fun i => 0x100 + i) 1).
Proof.
  eapply runs_mono; [|apply (write_then_read demo_wk 0 demo_wfile 0 1 (mkFile 0x81A4 2 1 (Some 0%nat) 1022) (mkFile 0x81A4 0 1 (Some 0%nat) 1022)
    0x100 0x200 3 (fun i => 0x100 + i) (fun i => 0x200 + i));
    [reflexivity|reflexivity|reflexivity|discriminate|reflexivity|exact demo_writable| |apply demo_ubuf; lia|apply demo_ubuf; lia]].
  - intros v k' (->&Hb). split; [reflexivity|]. exact (Hb 1 ltac:(lia)).
  - rewrite demo_spares. reflexivity.
Defined.
End FileWriteProps.
