(* ===== verification/Sync.v ===== *)
(** * [sync]: i-nodes and buffers reach the disk (fs/buffer.c, fs/inode.c)

    [sys_sync] with i-nodes that have to be written.  [sync_inodes] stores each of them in its place in
    the table of i-nodes on the disk, by way of a buffer that becomes dirty, and the loop of [sys_sync]
    writes the buffers.  Needed are a clean unused buffer for each of these i-nodes ([spares]) and that
    nobody holds their locks; then the call does not sleep, and nothing is forgotten ([sys_sync_durable]). *)
From Stdlib Require Import ZArith Lia String.
From stdpp Require Import base list gmap.
From S2P Require Import Prelude State Pte PageAlloc PageTable BlockIO Buffer BufferCache BufferInit InodeIO Bitmap Inode PageFault UserMem Namei Sched Tty FileIO Pipe FileRead FileWrite.
Open Scope Z_scope.

(** ** Writing one i-node *)
(** What [write_inode] leaves of the state around the i-nodes and the disk. *)
Record kept_around (k k' : kernel) : Prop := mkKeptAround {
  ka_cache : cache_ok k';
  ka_users : few_users k';
  ka_mm : k_mm k' = k_mm k;
  ka_sched : k_sched k' = k_sched k;
  ka_tty : k_tty k' = k_tty k;
  ka_start : rd_start (k_blk k') = rd_start (k_blk k);
  ka_length : rd_length (k_blk k') = rd_length (k_blk k) }.
Lemma kept_around_refl k : cache_ok k -> few_users k -> kept_around k k.
Proof. by split. Qed.
Lemma kept_around_trans k1 k2 k3 : kept_around k1 k2 -> kept_around k2 k3 -> kept_around k1 k3.
Proof. intros [] []. split; [done|done|congruence..]. Qed.
Lemma kept_around_in_disk k k' blk : kept_around k k' -> in_disk k' blk <-> in_disk k blk.
Proof. intros []. unfold in_disk. by rewrite ka_length0. Qed.

Section Write.
Context {SI : SyncInodes} {HSI : SyncInodesOk SI}.
Lemma write_inode_around k i n s sb :
  cache_ok k -> few_users k -> (0 < spares k)%nat -> found_super k RD_DEV s sb ->
  inode_table (k_fs k) !! i = Some n -> i_lock n = 0 -> i_wait n = None -> i_dirt n <> 0 -> i_dev n = RD_DEV ->
  length (i_zone n) = 9%nat ->
  0 <= inode_block sb (i_num n) < 2 ^ 32 -> in_disk k (inode_block sb (i_num n)) ->
  exists k', write_inode i k = Ok tt k' /\ kept_around k k' /\ (spares k <= S (spares k'))%nat /\
    k_fs k' = k_fs (set_inode i (n <| i_dirt := 0 |>) k) /\
    forall blk x, in_disk k blk -> 0 <= x < BLOCK_SIZE ->
      disk k' blk x = inode_written k (inode_block sb (i_num n)) (inode_offset (i_num n)) n blk x.
Proof.
  intros Hok Hfew Hsp Hsb Hn Hl Hw Hdirt Hdev Hz Hblk Hin. pose proof (spares_ready k Hfew Hsp) as Hre.
  pose proof (write_inode_spec k i n s sb Hok (or_introl Hre) Hsb Hn Hl Hw Hdirt Hdev Hz Hblk Hin) as ([]&k'&E&Hok'&_&Hfs&Hlen&Hd)%runs_Ok.
  exists k'. split; [done|]. cut ((k_mm k' = k_mm k /\ k_sched k' = k_sched k /\ k_tty k' = k_tty k /\ rd_start (k_blk k') = rd_start (k_blk k)) /\
    few_users k' /\ (spares k <= S (spares k'))%nat).
  { intros ((?&?&?&?)&?&?). by split_and!. }
  clear Hok' Hfs Hlen Hd. set (blk := inode_block sb (i_num n)) in *. revert E. unfold write_inode.
  erewrite bind_Ok by by apply (lock_inode_Ok _ _ n). set (n1 := n <| i_lock := 1 |>). set (k1 := set_inode i n1 k).
  assert (inode_table (k_fs k1) !! i = Some n1) as Hn1 by by eapply set_inode_lookup.
  erewrite bind_Ok by by apply get_inode_Ok. change (i_dirt n1) with (i_dirt n). change (i_dev n1) with (i_dev n).
  apply Z.eqb_neq in Hdirt. rewrite Hdirt, Hdev. change (false || (RD_DEV =? 0)) with false. cbv iota.
  erewrite bind_Ok by by apply (get_super_found _ _ s sb).
  cbv iota. erewrite bind_Ok by by apply get_sb_Ok, Hsb. change (i_num n1) with (i_num n). fold blk.
  assert (cache_ok k1) as Hok1 by (destruct Hok as (l0&ch0&HI0); exists l0, ch0; by apply (cache_inv_ext k)).
  destruct (bread_hold k1 blk Hok1 Hre Hblk Hin) as (b&h&k2&l&ch&Eb&HI&Hb&Hc&(Hbd&_&Hup)&Hr&_&Hdata&Hcalm).
  erewrite bind_Ok by exact Eb. cbv iota. erewrite bind_Ok by by apply get_bh_Ok. pose proof Hr as (Emm&Hfs&(Esc&Ety)&Ers&_).
  erewrite bind_Ok by (apply get_inode_Ok; by rewrite Hfs). erewrite bind_Ok by reflexivity. erewrite bind_Ok by by apply mod_bh_Ok.
  change (i_num n1) with (i_num n). set (m' := store_d_inode (k_pmem k2) (b_data h + inode_offset (i_num n)) n1).
  set (k3 := set_bh b (h <| b_dirt := 1 |>) (k2 <| k_pmem := m' |>)).
  change (upd k_blk _ _) with k3. assert (inode_table (k_fs k3) !! i = Some n1) as Hn3 by (change (k_fs k3) with (k_fs k2); by rewrite Hfs).
  erewrite bind_Ok by by apply mod_inode_Ok. set (k4 := set_inode i _ k3).
  pose proof (inode_offset_range (i_num n)) as Hoff.
  assert (cache_inv k4 l ch) as HI4.
  { apply (cache_inv_ext k3); [done|]. apply up_written_inv; try done. intros a Ha. apply store_d_inode_outside; [done|]. lia. }
  assert (buffers (k_blk k4) !! b = Some (h <| b_dirt := 1 |>)) as Hb4 by (apply list_lookup_insert_eq; by eapply lookup_lt_Some).
  destruct (brelse_Ok k4 l ch b _ HI4 Hb4 Hc) as (E5&_&_). erewrite bind_Ok by exact E5. set (k5 := set_bh b _ k4).
  rewrite (unlock_inode_Ok k5 i (n1 <| i_dirt := 0 |>)) by first [by eapply (set_inode_lookup k3) | done].
  intros [= <-]. split; [done|]. clear E5. set (hr := h <| b_count := b_count h - 1 |>) in *. set (ks := set_bh b hr k2) in *.
  assert (buffers (k_blk k5) = <[b := hr <| b_dirt := 1 |>]> (buffers (k_blk ks))) as E6.
  { unfold k5, k4, k3, ks, set_bh, set_inode. rsimpl. by rewrite !list_insert_insert_eq. }
  unfold few_users, spares. change (buffers (k_blk (set_inode i _ k5))) with (buffers (k_blk k5)). rewrite E6.
  assert (few_users ks) as Hks by exact (proj2 (calm_ready k1 ks Hcalm Hre)). split.
  - intros x hx [(<-&<-&Hlt)|[_ Hx]]%list_lookup_insert_Some; [|by eapply Hks].
    apply (Hks b hr). unfold ks, set_bh. rsimpl. apply list_lookup_insert_eq. by eapply lookup_lt_Some.
  - change (buffers (k_blk k)) with (buffers (k_blk k1)). fold (spares k1). rewrite <- (calm_spares k1 ks Hcalm). apply spare_heads_set.
Qed.
End Write.

(** ** Writing all i-nodes *)
(** The i-nodes that [sync_inodes] writes, and what it makes of an i-node. *)
Definition to_write (n : m_inode) : bool := truth (i_dirt n) && negb (truth (i_pipe n)) && negb (i_dev n =? 0).
Definition cleaned (n : m_inode) : m_inode := if to_write n then n <| i_dirt := 0 |> else n.
(** The fields of [n] that are on the disk, put into [n0]. *)
Definition with_d_inode (n n0 : m_inode) : m_inode :=
  n0 <| i_mode := i_mode n |> <| i_uid := i_uid n |> <| i_size := i_size n |> <| i_mtime := i_mtime n |>
     <| i_gid := i_gid n |> <| i_nlinks := i_nlinks n |> <| i_zone := i_zone n |>.
(** The i-node is in its place on the disk with the contents [D]; the bytes of that place. *)
Definition stored (D : Z -> Z -> Z) (sb : super_block) (n : m_inode) : Prop :=
  forall n0, load_d_inode (D (inode_block sb (i_num n))) (inode_offset (i_num n)) n0 = with_d_inode n n0.
Definition place (sb : super_block) (n : m_inode) (blk x : Z) : Prop :=
  blk = inode_block sb (i_num n) /\ inode_offset (i_num n) <= x < inode_offset (i_num n) + D_INODE_SIZE.

(** A state in which [sync] need not wait: nobody holds an i-node; those that have to be written are well
    formed, have different numbers and a place on the disk; and there is a buffer for each of them. *)
Record syncable (k : kernel) (s : nat) (sb : super_block) : Prop := mkSyncable {
  sc_cache : cache_ok k;
  sc_users : few_users k;
  sc_super : found_super k RD_DEV s sb;
  sc_maps : 0 <= s_imap_blocks sb < 65536 /\ 0 <= s_zmap_blocks sb < 65536;
  sc_length : length (inode_table (k_fs k)) = NR_INODE;
  sc_unlocked : forall i n, inode_table (k_fs k) !! i = Some n -> i_lock n = 0 /\ i_wait n = None;
  sc_inodes : forall i n, inode_table (k_fs k) !! i = Some n -> to_write n = true ->
    i_dev n = RD_DEV /\ d_inode_ok n /\ 1 <= i_num n < 65536 /\ in_disk k (inode_block sb (i_num n));
  sc_numbers : forall i j n n', inode_table (k_fs k) !! i = Some n -> inode_table (k_fs k) !! j = Some n' ->
    to_write n = true -> to_write n' = true -> i_num n = i_num n' -> i = j;
  sc_spares : (length (filter (fun n => to_write n = true) (inode_table (k_fs k))) <= spares k)%nat }.

(** The table of i-nodes when the first [i] are done. *)
Definition upto (i : nat) (l : list m_inode) : list m_inode := (cleaned <$> take i l) ++ drop i l.
Lemma upto_here i l n : l !! i = Some n -> upto i l !! i = Some n.
Proof.
  intros H. unfold upto. pose proof (lookup_lt_Some _ _ _ H). rewrite lookup_app_r by (rewrite length_fmap, length_take; lia).
  rewrite length_fmap, length_take, lookup_drop. by replace (i + (i - min i (length l)))%nat with i by lia.
Qed.
Lemma upto_S i l n : l !! i = Some n -> upto (S i) l = <[i := cleaned n]> (upto i l).
Proof.
  intros H. unfold upto. pose proof (lookup_lt_Some _ _ _ H). rewrite (take_S_r _ _ _ H), fmap_app, (drop_S _ _ _ H), <- app_assoc. cbn [fmap list_fmap app].
  rewrite insert_app_r_alt by (rewrite length_fmap, length_take; lia). rewrite length_fmap, length_take.
  by replace (i - min i (length l))%nat with 0%nat by lia.
Qed.
Lemma upto_all l : upto (length l) l = cleaned <$> l.
Proof. unfold upto. by rewrite firstn_all, drop_all, app_nil_r. Qed.

Lemma inode_block_val sb num : 0 <= s_imap_blocks sb < 65536 /\ 0 <= s_zmap_blocks sb < 65536 -> 1 <= num < 65536 ->
  inode_block sb num = 2 + s_imap_blocks sb + s_zmap_blocks sb + (num - 1) / 32.
Proof.
  intros [? ?] ?. unfold inode_block. change INODES_PER_BLOCK with 32. rewrite (u64_small (num - 1)) by lia.
  rewrite u64_small by dlia. rewrite s32_small by dlia. done.
Qed.
Lemma inode_offset_val num : 1 <= num < 65536 -> inode_offset num = 32 * ((num - 1) mod 32).
Proof. intros. unfold inode_offset, D_INODE_SIZE. change INODES_PER_BLOCK with 32. by rewrite u64_small by lia. Qed.
(** I-nodes with different numbers have different places. *)
Lemma places_disjoint sb n n' blk x : 0 <= s_imap_blocks sb < 65536 /\ 0 <= s_zmap_blocks sb < 65536 ->
  1 <= i_num n < 65536 -> 1 <= i_num n' < 65536 -> i_num n <> i_num n' -> place sb n blk x -> ~ place sb n' blk x.
Proof.
  intros Hsb Hn Hn' Hne [E1 H1] [E2 H2]. rewrite inode_block_val in E1, E2 by done. rewrite inode_offset_val in H1, H2 by done.
  unfold D_INODE_SIZE in *. dlia.
Qed.

(** What holds of the state when the first [i] i-nodes are done. *)
Record written_upto (k : kernel) (sb : super_block) (i : nat) (t : kernel) : Prop := mkWrittenUpto {
  wu_around : kept_around k t;
  wu_fs : k_fs t = (k_fs k) <| inode_table := upto i (inode_table (k_fs k)) |>;
  wu_spares : (spares k <= length (filter (fun n => to_write n = true) (take i (inode_table (k_fs k)))) + spares t)%nat;
  wu_stored : forall j n, (j < i)%nat -> inode_table (k_fs k) !! j = Some n -> to_write n = true -> stored (disk t) sb n;
  wu_other : forall blk x, in_disk k blk -> 0 <= x < BLOCK_SIZE ->
    (forall j n, (j < i)%nat -> inode_table (k_fs k) !! j = Some n -> to_write n = true -> ~ place sb n blk x) ->
    disk t blk x = disk k blk x }.

Lemma filter_snoc i l n : l !! i = Some n ->
  length (filter (fun n => to_write n = true) (take (S i) l)) =
  (length (filter (fun n => to_write n = true) (take i l)) + (if to_write n then 1 else 0))%nat.
Proof.
  intros H. rewrite (take_S_r _ _ _ H), filter_app, length_app. cbn [filter list_filter]. destruct (to_write n) eqn:E.
  - by rewrite decide_True.
  - rewrite decide_False; [done|congruence].
Qed.
Lemma filter_upto i l : (length (filter (fun n => to_write n = true) (take i l)) <= length (filter (fun n => to_write n = true) l))%nat.
Proof. rewrite <- (take_drop i l) at 2. rewrite filter_app, length_app. lia. Qed.
Lemma stored_ext D D' sb n : stored D sb n -> (forall x, 0 <= x < BLOCK_SIZE -> place sb n (inode_block sb (i_num n)) x ->
  D' (inode_block sb (i_num n)) x = D (inode_block sb (i_num n)) x) -> stored D' sb n.
Proof.
  intros H E n0. rewrite <- H. apply load_d_inode_ext. intros y Hy. pose proof (inode_offset_range (i_num n)).
  apply E; [lia|]. split; [done|lia].
Qed.

Lemma wait_on_inode_Ok t i n : inode_table (k_fs t) !! i = Some n -> i_lock n = 0 -> wait_on_inode i t = Ok tt t.
Proof. intros Hn Hl. unfold wait_on_inode. erewrite bind_Ok by by apply get_inode_Ok. by rewrite Hl. Qed.
(** An i-node that need not be written is only looked at. *)
Lemma sync_skip level t i n : inode_table (k_fs t) !! i = Some n -> i_lock n = 0 -> i_wait n = None -> to_write n = false ->
  (wait_on_inode i ;;; let! d := get_inode i in
   when (truth (i_dirt d) && negb (truth (i_pipe d))) (write_inode (SI := sync_inodes_rec level) i)) t = Ok tt t.
Proof.
  intros Hn Hl Hw Hno. erewrite bind_Ok by by apply (wait_on_inode_Ok t i n). erewrite bind_Ok by by apply get_inode_Ok. unfold to_write in Hno.
  destruct (truth (i_dirt n) && negb (truth (i_pipe n))) eqn:E; [|done]. cbn [when]. cbn [andb] in Hno. apply negb_false_iff in Hno.
  unfold write_inode. erewrite bind_Ok by by apply (lock_inode_Ok _ _ n). erewrite bind_Ok by (apply get_inode_Ok; by eapply set_inode_lookup).
  change (i_dev (n <| i_lock := 1 |>)) with (i_dev n). rewrite Hno, orb_true_r.
  rewrite (unlock_inode_Ok _ i (n <| i_lock := 1 |>)) by first [by eapply set_inode_lookup | done]. rewrite set_inode_twice. f_equal.
  assert (n <| i_lock := 1 |> <| i_lock := 0 |> = n) as -> by (destruct n; cbn in Hl; by subst).
  unfold set_inode. destruct t as [? ? [] ? ? ?]. unfold upd; cbn in *. by rewrite list_insert_id.
Qed.

Section Loop.
Context (k : kernel) (s : nat) (sb : super_block) (Hk : syncable k s sb).
Lemma sync_step level i t n : inode_table (k_fs k) !! i = Some n -> written_upto k sb i t ->
  runs (wait_on_inode i ;;; let! d := get_inode i in
    when (truth (i_dirt d) && negb (truth (i_pipe d))) (write_inode (SI := sync_inodes_rec (S level)) i)) t
    (fun _ t' => written_upto k sb (S i) t').
Proof using Hk.
  intros Hn [Ha Hfs Hsp Hst Ho]. destruct (sc_unlocked _ _ _ Hk i n Hn) as [Hl Hw].
  assert (inode_table (k_fs t) !! i = Some n) as Hnt by (rewrite Hfs; by apply upto_here).
  destruct (to_write n) eqn:Et.
  2:{ unfold runs. rewrite (sync_skip (S level) t i n Hnt Hl Hw Et). split; [done|..].
    - rewrite Hfs, (upto_S _ _ _ Hn). unfold cleaned. rewrite Et, list_insert_id; [done|by apply upto_here].
    - rewrite (filter_snoc _ _ _ Hn), Et. lia.
    - intros j n' Hj Hn' Ht'. destruct (decide (j = i)) as [->|]; [congruence|]. apply (Hst j); [lia|done..].
    - intros blk x Hin Hx Hno. apply Ho; [done..|]. intros j n' Hj. apply Hno. lia. }
  destruct (sc_inodes _ _ _ Hk i n Hn Et) as (Hdev&Hdn&Hnum&Hin). pose proof (sc_maps _ _ _ Hk) as Hmaps.
  assert (i_dirt n <> 0 /\ truth (i_dirt n) && negb (truth (i_pipe n)) = true) as [Hd Et2].
  { unfold to_write in Et. apply andb_true_iff in Et as [Et _]. split; [|done]. apply andb_true_iff in Et as [Et _]. by apply truth_true. }
  eapply runs_step; [by apply (wait_on_inode_Ok t i n)|]. eapply runs_step; [by apply get_inode_Ok|]. rewrite Et2. cbn [when].
  assert (0 < spares t)%nat as Hspt.
  { pose proof (sc_spares _ _ _ Hk). pose proof (filter_upto (S i) (inode_table (k_fs k))) as H1. rewrite (filter_snoc _ _ _ Hn), Et in H1. lia. }
  assert (found_super t RD_DEV s sb) as Hsb by (pose proof (sc_super _ _ _ Hk); unfold found_super; by rewrite Hfs).
  assert (0 <= inode_block sb (i_num n) < 2 ^ 32) as Hblk by (rewrite inode_block_val by done; dlia).
  assert (length (i_zone n) = 9%nat) as Hz by apply Hdn.
  pose proof (proj2 (kept_around_in_disk k t (inode_block sb (i_num n)) Ha) Hin) as Hint.
  pose proof (write_inode_around (SI := sync_inodes_rec (S level)) (HSI := sync_rec_ok level) t i n s sb (ka_cache _ _ Ha) (ka_users _ _ Ha)
    Hspt Hsb Hnt Hl Hw Hd Hdev Hz Hblk Hint) as (t'&E&Ha'&Hsp'&Hfs'&Hd').
  unfold runs. rewrite E. split.
  - by eapply kept_around_trans.
  - rewrite Hfs'. unfold set_inode. rsimpl. rewrite Hfs, (upto_S _ _ _ Hn). unfold cleaned. by rewrite Et.
  - rewrite (filter_snoc _ _ _ Hn), Et. lia.
  - intros j n' Hj Hn' Ht'. destruct (sc_inodes _ _ _ Hk j n' Hn' Ht') as (_&_&Hnum'&Hin'). destruct (decide (j = i)) as [->|Hne].
    + assert (n' = n) as -> by congruence. intros n0. etransitivity; [|exact (load_store_d_inode (disk t (inode_block sb (i_num n))) (inode_offset (i_num n)) n n0 Hdn)].
      apply load_d_inode_ext. intros y Hy. pose proof (inode_offset_range (i_num n)).
      rewrite Hd' by first [by apply (kept_around_in_disk k t) | lia]. unfold inode_written. by rewrite Z.eqb_refl.
    + apply (stored_ext (disk t)); [apply (Hst j); [lia|done..]|]. intros x Hx Hp.
      rewrite Hd' by first [by apply (kept_around_in_disk k t) | lia]. unfold inode_written. destruct (Z.eqb_spec (inode_block sb (i_num n')) (inode_block sb (i_num n))) as [Eb|]; [|done].
      rewrite Eb. apply store_d_inode_outside; [apply Hdn|]. assert (i_num n <> i_num n') as Hne'.
      { intros En. by apply Hne, (sc_numbers _ _ _ Hk j i n' n). }
      pose proof (places_disjoint sb n' n _ x Hmaps Hnum' Hnum ltac:(done) Hp) as Hnp. unfold place in Hnp. lia.
  - intros blk x Hib Hx Hno. rewrite Hd' by first [by apply (kept_around_in_disk k t) | lia]. unfold inode_written.
    destruct (Z.eqb_spec blk (inode_block sb (i_num n))) as [->|Hne].
    + rewrite store_d_inode_outside; [|apply Hdn|].
      * apply Ho; [done..|]. intros j n' Hj. apply Hno. lia.
      * specialize (Hno i n ltac:(lia) Hn Et). unfold place in Hno. lia.
    + apply Ho; [done..|]. intros j n' Hj. apply Hno. lia.
Qed.
Lemma sync_inodes_spec : runs sync_inodes k (fun _ t => written_upto k sb NR_INODE t).
Proof using Hk.
  unfold sync_inodes, fs_sync_inodes. cbn [sync_inodes_rec].
  eapply runs_mono; [|apply (runs_for_up (fun i t => 0 <= i /\ written_upto k sb (Z.to_nat i) t))].
  - intros [] t [_ H]. done.
  - intros i t Hi [_ H]. cbv zeta. destruct (lookup_lt_is_Some_2 (inode_table (k_fs k)) (Z.to_nat i)) as [n Hn].
    { rewrite (sc_length _ _ _ Hk). lia. }
    eapply runs_mono; [|by apply (sync_step NR_INODE (Z.to_nat i) t n)]. intros [] t' H'.
    split; [lia|]. by replace (Z.to_nat (i + 1)) with (S (Z.to_nat i)) by lia.
  - split; [done|]. change (Z.to_nat 0) with 0%nat. split.
    + apply kept_around_refl; apply Hk.
    + unfold upto. cbn. by destruct (k_fs k).
    + cbn. lia.
    + intros; lia.
    + done.
Qed.
End Loop.

Module SyncProps.

(** C17: [sync] loses nothing.  In a state in which nobody holds an i-node, and in which the i-nodes that
    have to be written have different numbers, a place on the disk, and a clean unused buffer each,
    [sys_sync] returns 0 without sleeping.  Then every i-node but those of pipes is clean and the rest of the
    file system's tables as before, every buffer is clean, and the bytes of the RAM disk itself are: in
    the place of each i-node that was dirty its fields, whatever the buffers held there; everywhere else
    the content of the disk as the file system saw it before the call, dirty buffers included. *)
Theorem sys_sync_durable k s sb :
  syncable k s sb ->
  runs sys_sync k (fun r k' => r = 0 /\ cache_ok k' /\ all_clean k' /\ k_sched k' = k_sched k /\ k_mm k' = k_mm k /\
    k_fs k' = (k_fs k) <| inode_table := cleaned <$> inode_table (k_fs k) |> /\
    (forall i n, inode_table (k_fs k) !! i = Some n -> to_write n = true -> stored (fun blk x => k_pmem k' (rd_addr k blk + x)) sb n) /\
    forall blk x, in_disk k blk -> 0 <= x < BLOCK_SIZE ->
      (forall i n, inode_table (k_fs k) !! i = Some n -> to_write n = true -> ~ place sb n blk x) ->
      k_pmem k' (rd_addr k blk + x) = disk k blk x).
Proof.
  intros Hk. pose proof (sync_inodes_spec k s sb Hk) as ([]&t&E&[Ha Hfs _ Hst Ho])%runs_Ok.
  destruct (ka_cache _ _ Ha) as (l&ch&HI). eapply runs_mono; [|exact (sys_sync_tail k t l ch E HI)].
  intros r k' (->&Hok&_&(Emm&Efs&(Esc&_)&_)&Hcl&Hb).
  assert (forall i n, inode_table (k_fs k) !! i = Some n -> (i < NR_INODE)%nat) as Hi.
  { intros i n Hn%lookup_lt_Some. by rewrite (sc_length _ _ _ Hk) in Hn. }
  assert (forall blk x, in_disk k blk -> 0 <= x < BLOCK_SIZE -> k_pmem k' (rd_addr k blk + x) = disk t blk x) as Hbt.
  { intros blk x Hin Hx. assert (rd_addr k blk = rd_addr t blk) as -> by (unfold rd_addr; by rewrite (ka_start _ _ Ha)).
    apply Hb; [by apply (kept_around_in_disk k t)|done]. }
  split_and!; [done|done|done|by rewrite Esc, (ka_sched _ _ Ha)|by rewrite Emm, (ka_mm _ _ Ha)| | |].
  - rewrite Efs, Hfs. pose proof (upto_all (inode_table (k_fs k))) as Hu. rewrite (sc_length _ _ _ Hk) in Hu. by rewrite Hu.
  - intros i n Hn Ht. destruct (sc_inodes _ _ _ Hk i n Hn Ht) as (_&_&_&Hin). apply (stored_ext (disk t)).
    + apply (Hst i); [by eapply Hi|done..].
    + intros x Hx _. by apply Hbt.
  - intros blk x Hin Hx Hno. rewrite Hbt by done. apply Ho; [done..|]. intros j n _. apply Hno.
Qed.

(** The i-node 40 of 5000 bytes is dirty. *)
Definition demo_dirty : kernel := booted_fs blank CacheProps.demo_fs.
Lemma demo_dirty_inode i n : inode_table (k_fs demo_dirty) !! i = Some n -> i = 0%nat /\ n = CacheProps.demo_inode \/ to_write n = false /\ i_lock n = 0 /\ i_wait n = None.
Proof.
  change (inode_table (k_fs demo_dirty)) with (CacheProps.demo_inode :: CacheProps.demo_blank :: replicate 30 zero_inode).
  destruct i as [|[|i]]; cbn [lookup list_lookup]; [intros [= <-]; by left|intros [= <-]; by right|].
  intros [-> _]%lookup_replicate. by right.
Qed.
Lemma demo_syncable : syncable demo_dirty 0 CacheProps.demo_super.
Proof.
  split.
  - apply booted_fs_ok.
  - exact (proj2 (booted_fs_ready _ _)).
  - split_and!; try reflexivity; try discriminate; [unfold NR_SUPER; lia|]. intros; lia.
  - split; vm_compute; split; congruence.
  - reflexivity.
  - intros i n [[_ ->]|(_&?&?)]%demo_dirty_inode; by split.
  - intros i n [[_ ->]|(E&_)]%demo_dirty_inode Ht; [|congruence]. split_and!; try reflexivity; try (cbn; lia).
    + split_and!; try reflexivity; try discriminate. repeat constructor; lia.
    + apply booted_fs_in_disk. split; [vm_compute; discriminate|reflexivity].
  - intros i j n n' [[-> ->]|(E&_)]%demo_dirty_inode [[-> ->]|(E'&_)]%demo_dirty_inode Ht Ht'; congruence.
  - assert (spares demo_dirty = 94%nat) as ->.
    { unfold spares. rewrite spare_heads_all; [apply (booted_spec blank)|]. intros b h (Hc&_&Hd)%booted_free. unfold is_spare. by rewrite Hc, Hd. }
    vm_compute. lia.
Qed.
Lemma sys_sync_durable_witness :
  exists i n, inode_table (k_fs demo_dirty) !! i = Some n /\ to_write n = true /\
    runs sys_sync demo_dirty (fun r k' => r = 0 /\ all_clean k' /\
      ld 4 (k_pmem k') (rd_addr demo_dirty (inode_block CacheProps.demo_super 40) + inode_offset 40 + 4) = 5000).
Proof.
  exists 0%nat, CacheProps.demo_inode. split; [reflexivity|]. split; [reflexivity|].
  eapply runs_mono; [|exact (sys_sync_durable demo_dirty 0 CacheProps.demo_super demo_syncable)].
  intros r k' (Hr&_&Hcl&_&_&_&Hst&_). split; [exact Hr|]. split; [exact Hcl|].
  pose proof (f_equal i_size (Hst 0%nat CacheProps.demo_inode eq_refl eq_refl zero_inode)) as H.
  etransitivity; [|exact H]. symmetry. apply ld_shift. intros y Hy. f_equal. vm_compute (i_num _). lia.
Defined.
End SyncProps.
