(* ===== verification/Mount.v ===== *)
(** * Mounting the root file system (fs/super.c)

    What [read_super] and [mount_root] do with a disk that holds a well-formed file system: the super
    block and its bit maps are read into buffers that stay in use, and the root directory becomes
    the root and the working directory of the task.  The result is a state in which paths resolve
    ([resolvable], Path.v). *)
From Stdlib Require Import ZArith Lia String.
From stdpp Require Import base list gmap.
From S2P Require Import Prelude State PageAlloc BlockIO Buffer BufferCache BufferInit InodeIO Bitmap Inode PageFault UserMem Namei Directory Path Sched Super FileIO FileRead FileWrite.
Open Scope Z_scope.

(** ** A well-formed disk *)
(** The first bit of a bit map is set: no i-node and no zone has the number 0. *)
Definition first_bit_set (v : Z) : Prop := 0 <= v < 256 /\ Z.lor v 1 = v.
(** The content [d] of a disk of [len] bytes begins with a boot block, the super block in block 1 and
    the two bit maps, which are as large as the super block says. *)
Record image_ok (d : Z -> memory) (len : Z) : Prop := mkImageOk {
  im_magic : ld 2 (d 1) 16 = SUPER_MAGIC;
  im_imap : 1 <= ld 2 (d 1) 4 <= Z.of_nat I_MAP_SLOTS;
  im_zmap : 1 <= ld 2 (d 1) 6 <= Z.of_nat Z_MAP_SLOTS;
  im_inodes : ld 2 (d 1) 0 < ld 2 (d 1) 4 * BITS_PER_BLOCK;
  im_zones : ld 2 (d 1) 2 <= ld 2 (d 1) 6 * BITS_PER_BLOCK;
  im_disk : (2 + ld 2 (d 1) 4 + ld 2 (d 1) 6 + 1) * BLOCK_SIZE <= len;
  im_ibit : first_bit_set (d 2 0);
  im_zbit : first_bit_set (d (2 + ld 2 (d 1) 4) 0) }.

Lemma image_ok_disk d d' len : image_ok d len ->
  (forall blk x, on_dev len blk = true -> 0 <= x < BLOCK_SIZE -> d' blk x = d blk x) -> image_ok d' len.
Proof.
  intros [H1 H2 H3 H4 H5 H6 H7 H8] H. unfold I_MAP_SLOTS, Z_MAP_SLOTS in *. cbn in H2, H3.
  assert (forall blk, 0 <= blk < 2 + ld 2 (d 1) 4 + ld 2 (d 1) 6 + 1 -> on_dev len blk = true) as Hon.
  { intros blk Hb. unfold on_dev, BLOCK_SIZE in *. rewrite andb_true_iff, !Z.leb_le. lia. }
  assert (forall i, 0 <= i < 1000 -> ld 2 (d' 1) i = ld 2 (d 1) i) as E.
  { intros i Hi. apply ld_ext. intros x Hx. apply H; [apply Hon; lia|unfold BLOCK_SIZE; lia]. }
  unfold first_bit_set in *. split; rewrite ?E by lia; try done; unfold first_bit_set; rewrite H; first [done | apply Hon; lia].
Qed.

(** ** Block input while the tables change *)
Definition lightly (k : kernel) (c : nat) : Prop :=
  forall b h, buffers (k_blk k) !! b = Some h -> b_count h <= Z.of_nat c.
(** From [k0] to [k] at most [n] more buffers are in use; the disk and all that is not a table of the
    file system is as it was. *)
Record kept (k0 k : kernel) (n : nat) : Prop := mkKept {
  kp_cache : cache_ok k;
  kp_disk : same_disk k0 k;
  kp_rest : same_rest (k0 <| k_fs := k_fs k |>) k;
  kp_spares : (spares k0 <= spares k + n)%nat;
  kp_light : forall c, lightly k0 c -> lightly k (c + n) }.
(** Block [blk] is in buffer [b], in use. *)
Definition holding (k : kernel) (b : nat) (blk : Z) : Prop :=
  exists h, buffers (k_blk k) !! b = Some h /\ b_dev h = RD_DEV /\ b_blocknr h = blk /\ b_uptodate h = 1 /\ 1 <= b_count h.
(** The first [n] entries of [l] are buffers in use for the blocks from [block] on. *)
Definition map_held (k : kernel) (l : list (option nat)) (block : Z) (n : nat) : Prop :=
  forall i, (i < n)%nat -> exists b, l !! i = Some (Some b) /\ holding k b (block + Z.of_nat i).

Section Kept.
Context {SI : SyncInodes} {HSI : SyncInodesOk SI}.

Lemma kept_refl k : cache_ok k -> kept k k 0.
Proof.
  intros H. split; [done|done| |lia|intros c; by rewrite Nat.add_0_r].
  assert (k <| k_fs := k_fs k |> = k) as -> by by destruct k. done.
Qed.
Lemma kept_fs k0 k n (f : fs_state -> fs_state) : kept k0 k n -> kept k0 (k <| k_fs ::= f |>) n.
Proof.
  intros [(l&ch&HI) Hd (mm&fs&(sc&ty)&rs&rl&data&mem) Hs Hl]. split; [|exact Hd| |exact Hs|exact Hl].
  - exists l, ch. by apply (cache_inv_ext k).
  - by split_and!.
Qed.
Lemma kept_in_disk k0 k n blk : kept k0 k n -> in_disk k blk <-> in_disk k0 blk.
Proof. intros [_ _ (_&_&_&_&E&_) _ _]. unfold in_disk. by rewrite E. Qed.
Lemma kept_calm k0 k n k' : kept k0 k n -> calm k k' -> kept k0 k' n.
Proof.
  intros Hk Hc. pose proof Hc as (Hc1&Hc2&Hc3&Hc4&_). pose proof Hk as [_ Hd Hr Hs Hl]. split; [done| | | |].
  - intros blk x Hx Hin. rewrite (calm_disk _ _ _ _ Hc) by (try done; by eapply kept_in_disk). by apply Hd.
  - eapply same_rest_trans; [|exact Hc3]. pose proof Hc3 as (_&->&_). exact Hr.
  - by rewrite (calm_spares _ _ Hc).
  - intros c Hc0 b h Hb. specialize (Hc4 b). rewrite Hb in Hc4. destruct (buffers (k_blk k) !! b) as [h0|] eqn:E; [|done].
    injection Hc4 as _ -> _. by apply (Hl c Hc0 b).
Qed.
Lemma kept_ready k0 k n c : kept k0 k n -> (n < spares k0)%nat -> lightly k0 c -> (c + n < 255)%nat -> ready k.
Proof.
  intros [_ _ _ Hs Hl] Hn Hc Hb. apply spares_ready; [|lia]. intros b h Hbh. pose proof (Hl c Hc b h Hbh). lia.
Qed.
Lemma kept_disk_at k0 k n blk x : kept k0 k n -> in_disk k0 blk -> 0 <= x < BLOCK_SIZE -> disk k blk x = disk k0 blk x.
Proof. intros [_ Hd _ _ _] ??. by apply Hd. Qed.

(** Reading a block whose buffer stays in use. *)
Lemma kept_bread_held k0 k n c blk : kept k0 k n -> (n < spares k0)%nat -> lightly k0 c -> (c + n < 255)%nat ->
  0 <= blk < 2 ^ 32 -> in_disk k0 blk ->
  exists b k1, bread RD_DEV blk k = Ok (Some b) k1 /\ kept k0 k1 (S n) /\ k_fs k1 = k_fs k /\ holding k1 b blk /\
    forall b' blk', holding k b' blk' -> holding k1 b' blk'.
Proof.
  intros Hk Hn Hc Hb Hblk Hin. pose proof (kept_ready k0 k n c Hk Hn Hc Hb) as Hre. pose proof (kp_cache _ _ _ Hk) as Hok.
  destruct (bread_hold k blk Hok Hre Hblk) as (b&h&k1&l&ch&E&HI&Hbh&Hcnt&(Hd&Hbk&Hup)&Hr&Hsd&_&Hcalm); [by eapply kept_in_disk|].
  pose proof Hok as (l0&ch0&HI0). pose proof (bread_spec k l0 ch0 blk HI0 Hblk (ready_available _ _ Hre)) as H.
  unfold runs in H. rewrite E in H. destruct H as (_&_&_&_&h'&(_&_&_&Hheld&_)&_).
  exists b, k1. split; [done|]. pose proof Hk as [_ Hd0 Hr0 Hs0 Hl0]. split_and!.
  - pose proof (calm_spares _ _ Hcalm) as Hsp. pose proof Hcalm as (_&_&_&Hu&_).
    split; [by exists l, ch| | | |].
    + intros q x Hx Hq. rewrite Hsd by (try done; by eapply kept_in_disk). by apply Hd0.
    + eapply same_rest_trans; [|exact Hr]. pose proof Hr as (_&->&_). exact Hr0.
    + pose proof (spare_heads_set (buffers (k_blk (set_bh b (h <| b_count := b_count h - 1 |>) k1))) b h) as H1.
      unfold set_bh in H1 at 2. rsimpl_in H1. rewrite list_insert_insert_eq, list_insert_id in H1 by done.
      unfold spares in *. lia.
    + intros c' Hc' b' h1 Hb'. specialize (Hu b'). unfold set_bh in Hu. rsimpl_in Hu. destruct (decide (b' = b)) as [->|Hne].
      * rewrite list_lookup_insert_eq in Hu by by eapply lookup_lt_Some. assert (h1 = h) as -> by congruence.
        destruct (buffers (k_blk k) !! b) as [h0|] eqn:E0; [|done]. unfold usage in Hu. cbn in Hu. rsimpl_in Hu. injection Hu as _ Hu _.
        pose proof (Hl0 c' Hc' b h0 E0). lia.
      * rewrite list_lookup_insert_ne in Hu by done. rewrite Hb' in Hu.
        destruct (buffers (k_blk k) !! b') as [h0|] eqn:E0; [|done]. injection Hu as _ -> _. pose proof (Hl0 c' Hc' b' h0 E0). lia.
  - by destruct Hr as (_&->&_).
  - by exists h.
  - intros b' blk' (hx&Hx&Hxd&Hxb&Hxu&Hxc). destruct (Hheld b' hx Hx ltac:(lia)) as (hx'&?&_&?&?&?&?).
    exists hx'. split_and!; try done; try congruence; [auto|]. destruct (_ =? _)%nat; lia.
Qed.
(** Reading a block and releasing its buffer. *)
Lemma kept_peek k0 k n c blk : kept k0 k n -> (n < spares k0)%nat -> lightly k0 c -> (c + n < 255)%nat ->
  0 <= blk < 2 ^ 32 -> in_disk k0 blk ->
  exists b h k1, bread RD_DEV blk k = Ok (Some b) k1 /\ buffers (k_blk k1) !! b = Some h /\ k_fs k1 = k_fs k /\
    (forall x, 0 <= x < BLOCK_SIZE -> k_pmem k1 (b_data h + x) = disk k0 blk x) /\
    forall f, exists k2, brelse (Some b) (k1 <| k_fs ::= f |>) = Ok tt k2 /\ calm (k <| k_fs ::= f |>) k2.
Proof.
  intros Hk Hn Hc Hb Hblk Hin. pose proof (kept_ready k0 k n c Hk Hn Hc Hb) as Hre.
  destruct (bread_hold k blk (kp_cache _ _ _ Hk) Hre Hblk) as (b&h&k1&l&ch&E&HI&Hbh&Hcnt&_&Hr&_&Hx&Hcalm); [by eapply kept_in_disk|].
  exists b, h, k1. split_and!; [done|done|by destruct Hr as (_&->&_)| |].
  - intros x Hxr. rewrite Hx by done. by eapply kept_disk_at.
  - intros f. set (k1f := k1 <| k_fs ::= f |>).
    destruct (brelse_Ok k1f l ch b h (cache_inv_ext k1 k1f l ch ltac:(done) HI) Hbh Hcnt) as (E2&_&_).
    eexists. split; [exact E2|]. exact (calm_upd_fs f _ _ Hcalm).
Qed.
End Kept.

(** ** The super blocks *)
Definition set_sb (s : nat) (sb : super_block) (k : kernel) : kernel :=
  k <| k_fs ::= fun f => f <| super_blocks ::= fun l => <[s := sb]> l |> |>.
Lemma mod_sb_Ok k s sb f : super_blocks (k_fs k) !! s = Some sb -> mod_sb s f k = Ok tt (set_sb s (f sb) k).
Proof. intros H. unfold mod_sb. by erewrite bind_Ok by by apply get_sb_Ok. Qed.
Lemma set_sb_lookup k s sb sb0 : super_blocks (k_fs k) !! s = Some sb0 -> super_blocks (k_fs (set_sb s sb k)) !! s = Some sb.
Proof. intros H. apply list_lookup_insert_eq. by eapply lookup_lt_Some. Qed.
Lemma set_sb_twice k s sb sb' : set_sb s sb' (set_sb s sb k) = set_sb s sb' k.
Proof. unfold set_sb. destruct k as [? ? [] ? ? ? ?]. unfold upd. cbn. by rewrite list_insert_insert_eq. Qed.
(** The tables of [k] are those of [k0] with super block [s] set to [sb]. *)
Definition fs_with (k0 : kernel) (s : nat) (sb : super_block) (k : kernel) : Prop := k_fs k = k_fs (set_sb s sb k0).
Lemma fs_with_get k0 s sb k sb0 : super_blocks (k_fs k0) !! s = Some sb0 -> fs_with k0 s sb k -> super_blocks (k_fs k) !! s = Some sb.
Proof. intros H ->. by eapply set_sb_lookup. Qed.
Lemma fs_with_set k0 s sb sb' k : fs_with k0 s sb k -> fs_with k0 s sb' (set_sb s sb' k).
Proof.
  unfold fs_with. intros E. rewrite <- (set_sb_twice k0 s sb sb'). unfold set_sb at 1 2. rsimpl. by rewrite E.
Qed.

Section Super.
Context {SI : SyncInodes} {HSI : SyncInodesOk SI}.

(** No super block is for the device, or locked, or waited for. *)
Definition no_super (k : kernel) : Prop :=
  length (super_blocks (k_fs k)) = NR_SUPER /\
  forall s sb, super_blocks (k_fs k) !! s = Some sb -> s_dev sb = 0 /\ s_lock sb = 0 /\ s_wait sb = None.
Lemma get_super_none k : no_super k -> get_super RD_DEV k = Ok None k.
Proof.
  intros [Hlen H]. unfold get_super. change (RD_DEV =? 0) with false. cbv iota.
  assert (forall n s fuel, (s + n = NR_SUPER)%nat -> (n < fuel)%nat -> loop fuel (fun s =>
      if (s <? NR_SUPER)%nat then
        let! sb := get_sb s in
        if s_dev sb =? RD_DEV then
          wait_on_super s ;;;
          let! sb := get_sb s in
          if s_dev sb =? RD_DEV then ret (inr (Some s)) else ret (inl 0%nat)
        else ret (inl (S s))
      else ret (inr None)) s k = Ok None k) as Hl; [|apply (Hl NR_SUPER 0%nat); unfold NR_SUPER; lia].
  induction n as [|n IH]; intros s fuel Es Hf; (destruct fuel as [|fuel]; [lia|]); rewrite loop_S.
  - assert ((s <? NR_SUPER)%nat = false) as -> by (apply Nat.ltb_ge; lia). done.
  - assert ((s <? NR_SUPER)%nat = true) as -> by (apply Nat.ltb_lt; lia).
    destruct (lookup_lt_is_Some_2 (super_blocks (k_fs k)) s) as [sb Hsb]; [lia|].
    rewrite bind_assoc. erewrite bind_Ok by by apply get_sb_Ok. destruct (H s sb Hsb) as (->&_).
    change (0 =? RD_DEV) with false. erewrite bind_Ok by reflexivity. apply IH; lia.
Qed.
Lemma free_super_slot_first k : no_super k -> free_super_slot k = Ok (Some 0%nat) k.
Proof.
  intros [Hlen H]. unfold free_super_slot. erewrite bind_Ok by reflexivity. unfold ret.
  destruct (super_blocks (k_fs k)) as [|sb l] eqn:E; [done|]. destruct (H 0%nat sb eq_refl) as (Hd&_).
  rewrite firstn_all2 by (rewrite Hlen; done). cbn. by rewrite decide_True.
Qed.

(** [read_map] fills a bit map of the super block: [acc] is the map, [put_acc] sets it. *)
Section Map.
Context (acc : super_block -> list (option nat)) (put_acc : list (option nat) -> super_block -> super_block).
Context (put : Z -> option nat -> K unit) (s : nat).
Context (Hacc : forall l sb, acc (put_acc l sb) = l) (Hput_acc : forall l l' sb, put_acc l' (put_acc l sb) = put_acc l' sb).
Context (Hput : forall k sb i bh, super_blocks (k_fs k) !! s = Some sb -> (i < length (acc sb))%nat ->
  put (Z.of_nat i) bh k = Ok tt (set_sb s (put_acc (<[i := bh]> (acc sb)) sb) k)).

Lemma read_map_spec k0 c kb sb0 sb : lightly k0 c -> super_blocks (k_fs kb) !! s = Some sb0 ->
  forall n i l k m block, kept k0 k m -> fs_with kb s (put_acc l sb) k -> (i + n <= length l)%nat ->
  (m + n < spares k0)%nat -> (c + m + n < 255)%nat -> 0 <= block -> block + Z.of_nat n < 2 ^ 32 ->
  (forall blk, block <= blk < block + Z.of_nat n -> in_disk k0 blk) -> map_held k l (block - Z.of_nat i) i ->
  exists k' l', read_map RD_DEV put n (Z.of_nat i) block k = Ok (block + Z.of_nat n) k' /\ kept k0 k' (m + n) /\
    fs_with kb s (put_acc l' sb) k' /\ length l' = length l /\ map_held k' l' (block - Z.of_nat i) (i + n) /\
    forall b blk, holding k b blk -> holding k' b blk.
Proof.
  intros Hc Hsb. induction n as [|n IH]; intros i l k m block Hk Hf Hl Hm Hcm Hb0 Hb1 Hin Hmap.
  - exists k, l. cbn [read_map]. rewrite !Nat.add_0_r. split_and!; try done. unfold ret. f_equal. lia.
  - cbn [read_map].
    destruct (kept_bread_held k0 k m c block Hk) as (b&k1&E1&Hk1&Ef1&Hh1&Hold1); try done; try lia; [apply Hin; lia|].
    erewrite bind_Ok by exact E1.
    assert (fs_with kb s (put_acc l sb) k1) as Hf1 by (unfold fs_with; by rewrite Ef1).
    pose proof (fs_with_get _ _ _ _ _ Hsb Hf1) as Hsb1.
    erewrite bind_Ok by (eapply Hput; [exact Hsb1|rewrite Hacc; lia]). rewrite Hacc, Hput_acc. cbv iota.
    set (k2 := set_sb s (put_acc (<[i := Some b]> l) sb) k1).
    replace (Z.of_nat i + 1) with (Z.of_nat (S i)) by lia.
    destruct (IH (S i) (<[i := Some b]> l) k2 (S m) (block + 1)) as (k'&l'&E&Hk'&Hf'&Hl'&Hmap'&Hold'); try lia.
    + apply (kept_fs k0 k1). exact Hk1.
    + by eapply fs_with_set.
    + rewrite length_insert. lia.
    + intros blk Hblk. apply Hin. lia.
    + intros j Hj. destruct (decide (j = i)) as [->|Hne].
      * exists b. rewrite list_lookup_insert_eq by lia. split; [done|]. by replace (block + 1 - Z.of_nat (S i) + Z.of_nat i) with block by lia.
      * destruct (Hmap j ltac:(lia)) as (b'&Hb'&Hhb). exists b'. rewrite list_lookup_insert_ne by done. split; [done|].
        replace (block + 1 - Z.of_nat (S i) + Z.of_nat j) with (block - Z.of_nat i + Z.of_nat j) by lia. by apply Hold1.
    + exists k', l'. rewrite length_insert in Hl'.
      replace (block + 1 + Z.of_nat n) with (block + Z.of_nat (S n)) in E by lia.
      replace (block + 1 - Z.of_nat (S i)) with (block - Z.of_nat i) in Hmap' by lia.
      replace (S m + n)%nat with (m + S n)%nat in Hk' by lia. replace (S i + n)%nat with (i + S n)%nat in Hmap' by lia.
      split_and!; try done. intros b' blk' H. by apply Hold', Hold1.
Qed.
End Map.
Lemma put_imap_Ok s k sb i bh : super_blocks (k_fs k) !! s = Some sb -> (i < length (s_imap sb))%nat ->
  put_imap s (Z.of_nat i) bh k = Ok tt (set_sb s (sb <| s_imap := <[i := bh]> (s_imap sb) |>) k).
Proof.
  intros H Hi. unfold put_imap. erewrite bind_Ok by by apply get_sb_Ok. destruct (idx_is_Some (s_imap sb) (Z.of_nat i)) as [x Hx]; [lia|].
  rewrite Hx. erewrite bind_Ok by reflexivity. rewrite (mod_sb_Ok k s sb) by done. unfold upd_idx. by rewrite Nat2Z.id.
Qed.
Lemma put_zmap_Ok s k sb i bh : super_blocks (k_fs k) !! s = Some sb -> (i < length (s_zmap sb))%nat ->
  put_zmap s (Z.of_nat i) bh k = Ok tt (set_sb s (sb <| s_zmap := <[i := bh]> (s_zmap sb) |>) k).
Proof.
  intros H Hi. unfold put_zmap. erewrite bind_Ok by by apply get_sb_Ok. destruct (idx_is_Some (s_zmap sb) (Z.of_nat i)) as [x Hx]; [lia|].
  rewrite Hx. erewrite bind_Ok by reflexivity. rewrite (mod_sb_Ok k s sb) by done. unfold upd_idx. by rewrite Nat2Z.id.
Qed.
End Super.

(** ** [read_super] *)
Section ReadSuper.
Context {SI : SyncInodes} {HSI : SyncInodesOk SI}.

Lemma holding_disk k b h blk x : cache_ok k -> holding k b blk -> buffers (k_blk k) !! b = Some h ->
  disk k blk x = k_pmem k (b_data h + x).
Proof.
  intros (l&ch&HI) (h'&Hb&Hd&Hk&Hu&_) Hh. assert (h' = h) as -> by congruence.
  apply (disk_holder k l ch HI b h blk x Hb). by apply holds_spec.
Qed.
(** The bit is set already, so that the buffer is as before. *)
Lemma set_first_bit_Ok k b blk : cache_ok k -> holding k b blk -> first_bit_set (disk k blk 0) ->
  exists k', set_first_bit (Some (Some b)) k = Ok tt k' /\ calm k k' /\ k_blk k' = k_blk k.
Proof.
  intros Hok Hh [Hr Hv]. pose proof Hh as (h&Hb&_). rewrite (holding_disk k b h blk 0 Hok Hh Hb), Z.add_0_r in Hr, Hv.
  unfold set_first_bit. do 2 (erewrite bind_Ok by reflexivity). erewrite bind_Ok by by apply get_bh_Ok.
  erewrite bind_Ok by reflexivity. unfold wr8, wr. rewrite ld_1. unfold u8. rewrite Z.mod_small by exact Hr. rewrite Hv.
  set (m' := st 1 (k_pmem k) (b_data h) (k_pmem k (b_data h))).
  assert (forall x, m' x = k_pmem k x) as Hm.
  { intros x. unfold m', st. destruct (Z.leb_spec (b_data h) x), (Z.ltb_spec x (b_data h + Z.of_nat 1)); cbn [andb]; try done.
    assert (x = b_data h) as -> by lia. rewrite Z.sub_diag. unfold u8. by rewrite Z.mod_small. }
  exists (k <| k_pmem := m' |>). split; [done|]. split; [|done].
  destruct Hok as (l&ch&HI). destruct (user_write_inv k l ch m' HI) as [HI' Hd']; [intros x _; apply Hm|].
  split_and!; [by exists l, ch|done| |done|exact (keeps_blocks_refl k)]. split_and!; try done.
Qed.
Lemma holding_ext k k' b blk : k_blk k' = k_blk k -> holding k b blk -> holding k' b blk.
Proof. intros E (h&H). exists h. by rewrite E. Qed.

(** The super block that is on the disk, with its maps in buffers. *)
Definition mounted_super (k : kernel) (d : Z -> memory) (sb : super_block) : Prop :=
  load_d_super (d 1) 0 sb = sb /\ s_dev sb = RD_DEV /\ s_lock sb = 0 /\ s_wait sb = None /\
  length (s_imap sb) = I_MAP_SLOTS /\ length (s_zmap sb) = Z_MAP_SLOTS /\
  map_held k (s_imap sb) 2 (Z.to_nat (s_imap_blocks sb)) /\
  map_held k (s_zmap sb) (2 + s_imap_blocks sb) (Z.to_nat (s_zmap_blocks sb)).

Lemma map_held_mono k k' l block n : (forall b blk, holding k b blk -> holding k' b blk) -> map_held k l block n -> map_held k' l block n.
Proof. intros H Hm i Hi. destruct (Hm i Hi) as (b&Hb&Hh). exists b. auto. Qed.
Lemma load_d_super_ext m m' a a' sb : (forall x, 0 <= x < BLOCK_SIZE -> m' (a' + x) = m (a + x)) -> load_d_super m' a' sb = load_d_super m a sb.
Proof.
  intros H. unfold load_d_super. assert (forall c i, 0 <= i -> i + Z.of_nat c <= BLOCK_SIZE -> ld c m' (a' + i) = ld c m (a + i)) as Hld.
  { intros c i ??. apply ld_shift. intros j ?. rewrite <- !Z.add_assoc. apply H. lia. }
  rewrite !Hld by (unfold BLOCK_SIZE; lia). pose proof (Hld 2%nat 0 ltac:(lia) ltac:(unfold BLOCK_SIZE; lia)) as E.
  rewrite !Z.add_0_r in E. by rewrite E.
Qed.
Lemma load_d_super_twice m a sb : load_d_super m a (load_d_super m a sb) = load_d_super m a sb.
Proof. done. Qed.

(** [read_super] from the check of the magic number on. *)
Definition read_maps (s : nat) (sb : super_block) : K (option nat) :=
  if negb (s_magic sb =? SUPER_MAGIC) then drop_super s
  else
    mod_sb s (fun x => x <| s_imap := replicate I_MAP_SLOTS None |>) ;;;
    mod_sb s (fun x => x <| s_zmap := replicate Z_MAP_SLOTS None |>) ;;;
    let! block := read_map RD_DEV (put_imap s) (Z.to_nat (s_imap_blocks sb)) 0 2 in
    let! block := read_map RD_DEV (put_zmap s) (Z.to_nat (s_zmap_blocks sb)) 0 block in
    if negb (block =? 2 + s_imap_blocks sb + s_zmap_blocks sb) then
      brelse_maps s ;;; drop_super s
    else
      let! sb := get_sb s in
      set_first_bit (idx (s_imap sb) 0) ;;;
      let! sb := get_sb s in
      set_first_bit (idx (s_zmap sb) 0) ;;;
      free_super s ;;;
      ret (Some s).
(** The super block is loaded and locked. *)
Lemma read_super_loads k c : no_super k -> cache_ok k -> lightly k c -> (c < 255)%nat -> (0 < spares k)%nat -> in_disk k 1 ->
  exists k' sb, read_super RD_DEV k = read_maps 0 sb k' /\ kept k k' 0 /\ fs_with k 0 sb k' /\
    load_d_super (disk k 1) 0 sb = sb /\ s_dev sb = RD_DEV /\ s_wait sb = None /\ s_imount sb = None.
Proof.
  intros Hns Hok Hc Hcb Hsp Hin. unfold read_super. change (RD_DEV =? 0) with false. cbv iota.
  erewrite bind_Ok by by apply get_super_none. cbv iota. erewrite bind_Ok by by apply free_super_slot_first. cbv iota.
  destruct (lookup_lt_is_Some_2 (super_blocks (k_fs k)) 0) as [sb0 H0]; [rewrite (proj1 Hns); unfold NR_SUPER; lia|].
  destruct (proj2 Hns 0%nat sb0 H0) as (_&Hl0&Hw0).
  erewrite bind_Ok by by apply (mod_sb_Ok k 0 sb0). cbv beta. change (u16 RD_DEV) with RD_DEV.
  match goal with |- context [set_sb 0 ?x k] => set (sb1 := x) end. set (k1 := set_sb 0 sb1 k).
  assert (super_blocks (k_fs k1) !! 0%nat = Some sb1) as H1 by by eapply set_sb_lookup.
  erewrite (bind_Ok (lock_super 0)).
  2:{ unfold lock_super. erewrite bind_Ok by by apply get_sb_Ok. change (s_lock sb1) with (s_lock sb0). rewrite Hl0.
      change (truth 0) with false. cbv iota. by apply (mod_sb_Ok k1 0 sb1). }
  cbv beta. set (sb2 := sb1 <| s_lock := 1 |>). set (k2 := set_sb 0 sb2 k1).
  assert (fs_with k 0 sb2 k2) as Hf2 by by apply (fs_with_set k 0 sb1).
  assert (kept k k2 0) as Hk2 by (apply (kept_fs k k1), (kept_fs k k), kept_refl, Hok).
  destruct (kept_peek k k2 0 c 1 Hk2) as (b&h&k3&E3&Hb&Ef&Hx&Hrel); try done; try lia.
  erewrite bind_Ok by exact E3. cbv iota. erewrite bind_Ok by by apply get_bh_Ok. erewrite bind_Ok by reflexivity.
  assert (super_blocks (k_fs k3) !! 0%nat = Some sb2) as H3 by (rewrite Ef; by eapply fs_with_get).
  erewrite bind_Ok by by apply (mod_sb_Ok k3 0 sb2).
  rewrite (load_d_super_ext (disk k 1) (k_pmem k3) 0 (b_data h)) by (intros x Hxr; rewrite Z.add_0_l; by apply Hx).
  set (sb3 := load_d_super (disk k 1) 0 sb2).
  destruct (Hrel (fun f => f <| super_blocks ::= fun l => <[0%nat := sb3]> l |>)) as (k4&E4&Hc4).
  erewrite bind_Ok by exact E4.
  assert (fs_with k 0 sb3 k4) as Hf4.
  { destruct Hc4 as (_&_&(_&Ef4&_)&_). unfold fs_with. rewrite Ef4. exact (fs_with_set k 0 sb2 sb3 k2 Hf2). }
  erewrite bind_Ok by exact (get_sb_Ok _ _ _ (fs_with_get _ _ _ _ _ H0 Hf4)).
  exists k4, sb3. split_and!; try done. eapply kept_calm; [|exact Hc4]. by apply (kept_fs k k2).
Qed.
(** The first bits are set and the super block is unlocked. *)
Lemma set_first_bits k0 k sb n b1 b2 z : kept k0 k n -> super_blocks (k_fs k) !! 0%nat = Some sb -> s_wait sb = None ->
  idx (s_imap sb) 0 = Some (Some b1) -> idx (s_zmap sb) 0 = Some (Some b2) -> holding k b1 2 -> holding k b2 z ->
  in_disk k0 2 -> in_disk k0 z -> first_bit_set (disk k0 2 0) -> first_bit_set (disk k0 z 0) ->
  exists k', (let! sb := get_sb 0 in
              set_first_bit (idx (s_imap sb) 0) ;;;
              let! sb := get_sb 0 in
              set_first_bit (idx (s_zmap sb) 0) ;;;
              free_super 0 ;;; ret (Some 0%nat)) k = Ok (Some 0%nat) k' /\
    kept k0 k' n /\ k_fs k' = k_fs (set_sb 0 (sb <| s_lock := 0 |>) k) /\ k_blk k' = k_blk k.
Proof.
  intros Hk Hsb Hw E1 E2 Hh1 Hh2 Hi1 Hi2 Hb1 Hb2. erewrite bind_Ok by by apply get_sb_Ok. rewrite E1.
  destruct (set_first_bit_Ok k b1 2 (kp_cache _ _ _ Hk) Hh1) as (k1&Es1&Hc1&Eb1).
  { by rewrite (kept_disk_at k0 k n) by (done || (unfold BLOCK_SIZE; lia)). }
  erewrite bind_Ok by exact Es1. pose proof (kept_calm _ _ _ _ Hk Hc1) as Hk1.
  assert (k_fs k1 = k_fs k) as Ef1 by (by destruct Hc1 as (_&_&(_&->&_)&_)).
  erewrite bind_Ok by (apply get_sb_Ok; by rewrite Ef1). rewrite E2.
  destruct (set_first_bit_Ok k1 b2 z (kp_cache _ _ _ Hk1) (holding_ext _ _ _ _ Eb1 Hh2)) as (k2&Es2&Hc2&Eb2).
  { by rewrite (kept_disk_at k0 k1 n) by (done || (unfold BLOCK_SIZE; lia)). }
  erewrite bind_Ok by exact Es2. pose proof (kept_calm _ _ _ _ Hk1 Hc2) as Hk2.
  assert (k_fs k2 = k_fs k) as Ef2 by (destruct Hc2 as (_&_&(_&->&_)&_); done).
  exists (set_sb 0 (sb <| s_lock := 0 |>) k2). split_and!; [|by apply (kept_fs k0 k2)| |by rewrite <- Eb1, <- Eb2].
  - unfold free_super. rewrite !bind_assoc. erewrite bind_Ok by (apply (mod_sb_Ok k2 0 sb); by rewrite Ef2).
    rewrite bind_assoc. erewrite bind_Ok by (apply get_sb_Ok; eapply set_sb_lookup; by rewrite Ef2).
    rsimpl. rewrite Hw. by erewrite bind_Ok by reflexivity.
  - unfold set_sb. rsimpl. by rewrite Ef2.
Qed.
(** The maps are read. *)
Lemma read_maps_spec k0 k c sb : kept k0 k 0 -> fs_with k0 0 sb k -> (0 < length (super_blocks (k_fs k0)))%nat ->
  lightly k0 c -> (c + 16 < 255)%nat -> (16 < spares k0)%nat ->
  image_ok (disk k0) (rd_length (k_blk k0)) -> load_d_super (disk k0 1) 0 sb = sb -> s_dev sb = RD_DEV -> s_wait sb = None ->
  exists k' sb' n, read_maps 0 sb k = Ok (Some 0%nat) k' /\ kept k0 k' n /\ (n <= 16)%nat /\ fs_with k0 0 sb' k' /\
    mounted_super k' (disk k0) sb' /\ s_imount sb' = s_imount sb.
Proof.
  intros Hk Hf Hlen Hc Hcb Hsp Him Hld Hd Hw.
  destruct (lookup_lt_is_Some_2 (super_blocks (k_fs k0)) 0 Hlen) as [sb0 H0].
  pose proof (im_imap _ _ Him) as Hib. pose proof (im_zmap _ _ Him) as Hzb. unfold I_MAP_SLOTS, Z_MAP_SLOTS in Hib, Hzb.
  assert (s_imap_blocks sb = ld 2 (disk k0 1) 4) as Ei by (by rewrite <- Hld).
  assert (s_zmap_blocks sb = ld 2 (disk k0 1) 6) as Ez by (by rewrite <- Hld).
  assert (s_magic sb = SUPER_MAGIC) as Em by (rewrite <- Hld; apply Him). rewrite <- Ei, <- Ez in *.
  assert (forall blk, 0 <= blk < 2 + s_imap_blocks sb + s_zmap_blocks sb -> in_disk k0 blk) as Hin.
  { intros blk Hb. pose proof (im_disk _ _ Him). unfold in_disk. unfold BLOCK_SIZE in *. lia. }
  unfold read_maps. rewrite Em. change (SUPER_MAGIC =? SUPER_MAGIC) with true. cbn [negb]. cbv iota.
  erewrite bind_Ok by exact (mod_sb_Ok k 0 sb _ (fs_with_get _ _ _ _ _ H0 Hf)).
  set (sb1 := sb <| s_imap := replicate I_MAP_SLOTS None |>). apply (fs_with_set _ _ _ sb1) in Hf as Hf1. set (k1 := set_sb 0 sb1 k) in *.
  erewrite bind_Ok by exact (mod_sb_Ok k1 0 sb1 _ (fs_with_get _ _ _ _ _ H0 Hf1)).
  set (sb2 := sb1 <| s_zmap := replicate Z_MAP_SLOTS None |>). apply (fs_with_set _ _ _ sb2) in Hf1 as Hf2. set (k2 := set_sb 0 sb2 k1) in *.
  assert (kept k0 k2 0) as Hk2 by (apply (kept_fs k0 k1), (kept_fs k0 k), Hk).
  destruct (read_map_spec s_imap (fun l x => x <| s_imap := l |>) (put_imap 0) 0 ltac:(done) ltac:(done) (put_imap_Ok 0)
    k0 c k0 sb0 sb2 Hc H0 (Z.to_nat (s_imap_blocks sb)) 0 (replicate I_MAP_SLOTS None) k2 0 2 Hk2) as (k3&l1&E3&Hk3&Hf3&Hl1&Hm1&_);
    try done; try (unfold I_MAP_SLOTS; cbn; lia); [intros; apply Hin; lia|intros j Hj; lia|].
  erewrite bind_Ok by exact E3. rewrite Z2Nat.id by lia.
  assert (sb2 <| s_imap := l1 |> = sb2 <| s_imap := l1 |> <| s_zmap := replicate Z_MAP_SLOTS None |>) as Ez2 by reflexivity.
  rewrite Ez2 in Hf3. clear Ez2.
  destruct (read_map_spec s_zmap (fun l x => x <| s_zmap := l |>) (put_zmap 0) 0 ltac:(done) ltac:(done) (put_zmap_Ok 0)
    k0 c k0 sb0 (sb2 <| s_imap := l1 |>) Hc H0 (Z.to_nat (s_zmap_blocks sb)) 0 (replicate Z_MAP_SLOTS None) k3
    (0 + Z.to_nat (s_imap_blocks sb)) (2 + s_imap_blocks sb) Hk3 Hf3) as (k4&l2&E4&Hk4&Hf4&Hl2&Hm2&Hold);
    try (unfold Z_MAP_SLOTS; cbn; lia); [intros; apply Hin; lia|intros j Hj; lia|].
  erewrite bind_Ok by exact E4. rewrite Z2Nat.id by lia. rewrite Z.eqb_refl. cbn [negb]. cbv iota.
  apply (map_held_mono k3 k4) in Hm1; [|exact Hold]. cbn [Nat.add Z.of_nat] in Hm1, Hm2. rewrite Z.sub_0_r in Hm1, Hm2.
  set (sb4 := sb2 <| s_imap := l1 |> <| s_zmap := l2 |>).
  destruct (Hm1 0%nat ltac:(lia)) as (b1&Hb1&Hh1). destruct (Hm2 0%nat ltac:(lia)) as (b2&Hb2&Hh2). rewrite Z.add_0_r in Hh1, Hh2.
  destruct (set_first_bits k0 k4 sb4 _ b1 b2 (2 + s_imap_blocks sb) Hk4) as (k5&E5&Hk5&Ef5&Eb5);
    [exact (fs_with_get _ _ _ _ _ H0 Hf4)|exact Hw|exact Hb1|exact Hb2|exact Hh1|exact Hh2|apply Hin; lia|apply Hin; lia|apply Him| |].
  { rewrite Ei. apply Him. }
  rewrite E5. exists k5, (sb4 <| s_lock := 0 |>). eexists. split_and!; [done|exact Hk5|lia| | |done].
  - unfold fs_with. rewrite Ef5. exact (fs_with_set k0 0 sb4 _ k4 Hf4).
  - assert (forall b blk, holding k4 b blk -> holding k5 b blk) as Hh by (intros b blk; by apply holding_ext).
    split_and!; try done.
    + change ((load_d_super (disk k0 1) 0 sb) <| s_imap := replicate I_MAP_SLOTS None |> <| s_zmap := replicate Z_MAP_SLOTS None |>
        <| s_imap := l1 |> <| s_zmap := l2 |> <| s_lock := 0 |> = sb4 <| s_lock := 0 |>). by rewrite Hld.
    + by apply (map_held_mono k4 k5).
    + by apply (map_held_mono k4 k5).
Qed.
(** [read_super] of the RAM disk. *)
Lemma read_super_spec k c : no_super k -> cache_ok k -> lightly k c -> (c + 16 < 255)%nat -> (16 < spares k)%nat ->
  image_ok (disk k) (rd_length (k_blk k)) ->
  exists k' sb n, read_super RD_DEV k = Ok (Some 0%nat) k' /\ kept k k' n /\ (n <= 16)%nat /\ fs_with k 0 sb k' /\
    mounted_super k' (disk k) sb /\ s_imount sb = None.
Proof.
  intros Hns Hok Hc Hcb Hsp Him. pose proof (im_disk _ _ Him). pose proof (im_imap _ _ Him). pose proof (im_zmap _ _ Him).
  destruct (read_super_loads k c Hns Hok Hc) as (k1&sb&E&Hk&Hf&Hld&Hd&Hw&Hmt); try lia.
  { unfold in_disk, BLOCK_SIZE in *. lia. }
  rewrite E, <- Hmt. apply (read_maps_spec k k1 c sb); try done. rewrite (proj1 Hns). unfold NR_SUPER. lia.
Qed.
End ReadSuper.

(** ** Counting the free zones and i-nodes *)
(** Bit [i] of a bit map of disk [d] that begins in block [start]. *)
Definition map_bit (d : Z -> memory) (start i : Z) : bool := mbit (d (start + i / BITS_PER_BLOCK)) (i mod BITS_PER_BLOCK).
(** The bits from [lo] on, [n] of them, that are clear. *)
Definition free_bits (d : Z -> memory) (start lo : Z) (n : nat) : Z :=
  Z.of_nat (length (filter (fun j => map_bit d start (lo + Z.of_nat j) = false) (seq 0 n))).

Section Count.
Context {SI : SyncInodes} {HSI : SyncInodesOk SI}.

Lemma set_bit_super_Ok k a i m : 0 <= i < BITS_PER_BLOCK -> (forall x, 0 <= x < BLOCK_SIZE -> k_pmem k (a + x) = m x) ->
  set_bit_super i a k = Ok (Z.b2z (mbit m i)) k.
Proof.
  intros Hi Hm. change BITS_PER_BLOCK with 8192 in Hi. unfold BLOCK_SIZE in Hm. unfold set_bit_super, rd8, rd. erewrite bind_Ok by reflexivity. unfold ret. f_equal.
  rewrite ld_1, (Z.shiftr_div_pow2 i 3) by lia. change (2 ^ 3) with 8. rewrite Hm by dlia.
  change 7 with (Z.ones 3). rewrite Z.land_ones by lia. change (2 ^ 3) with 8. unfold mbit.
  change 1 with (Z.ones 1). rewrite Z.land_ones by lia. change (2 ^ 1) with 2. rewrite Z.shiftr_div_pow2 by dlia.
  rewrite Z.testbit_spec' by dlia. done.
Qed.
Lemma free_bits_S d start lo n : free_bits d start lo (S n) =
  free_bits d start lo n + (if map_bit d start (lo + Z.of_nat n) then 0 else 1).
Proof.
  unfold free_bits. rewrite seq_S, filter_app, length_app, Nat2Z.inj_add. f_equal. rewrite Nat.add_0_l.
  rewrite filter_cons, filter_nil. by destruct (map_bit _ _ _).
Qed.
Lemma count_free_Ok (acc : super_block -> list (option nat)) s start nm k sb lo n free : cache_ok k ->
  super_blocks (k_fs k) !! s = Some sb -> map_held k (acc sb) start nm ->
  0 <= lo -> lo + Z.of_nat n <= Z.of_nat nm * BITS_PER_BLOCK ->
  count_free acc s lo n free k = Ok (free + free_bits (disk k) start lo n) k.
Proof.
  intros Hok Hsb Hm Hlo. revert free. induction n as [|n IH]; intros free Hn; [by rewrite Z.add_0_r|]. cbn [count_free].
  change BITS_PER_BLOCK with 8192 in *. erewrite bind_Ok by by apply get_sb_Ok. set (i := lo + Z.of_nat n). assert (0 <= i < Z.of_nat nm * 8192) as Hi by lia.
  rewrite Z.shiftr_div_pow2 by done. change (2 ^ BLOCK_SIZE_BITS) with 8192.
  destruct (Hm (Z.to_nat (i / 8192)) ltac:(dlia)) as (b&Hb&Hh). rewrite Z2Nat.id in Hh by dlia.
  assert (idx (acc sb) (i / 8192) = Some (Some b)) as ->.
  { unfold idx. destruct (Z.ltb_spec (i / 8192) 0); [dlia|done]. }
  do 2 (erewrite bind_Ok by reflexivity). pose proof Hh as (h&Hbh&_). erewrite bind_Ok by by apply get_bh_Ok.
  change (Z.shiftl 1 BLOCK_SIZE_BITS - 1) with (Z.ones 13). rewrite Z.land_ones by lia. change (2 ^ 13) with 8192.
  erewrite bind_Ok by (apply (set_bit_super_Ok k (b_data h) _ (disk k (start + i / 8192)));
    [change BITS_PER_BLOCK with 8192; dlia|intros x Hx; symmetry; by apply (holding_disk k b)]).
  rewrite free_bits_S. fold i. unfold map_bit. change BITS_PER_BLOCK with 8192.
  rewrite IH by lia. destruct (mbit _ _); cbn [Z.b2z]; [change (1 =? 0) with false|change (0 =? 0) with true]; cbv iota; f_equal; lia.
Qed.
End Count.

(** ** The tables are cleared *)
Lemma clear_files k : length (file_table (k_fs k)) = NR_FILE ->
  runs (for_up 0 NR_FILE (fun i => mod_file (Z.to_nat i) (fun f => f <| f_count := 0 |>))) k (fun _ k' =>
    exists fs, k' = k <| k_fs ::= fun s => s <| file_table := fs |> |> /\ length fs = NR_FILE /\ Forall (fun f => f_count f = 0) fs).
Proof.
  intros Hlen. eapply runs_mono; [|apply (runs_for_up (fun i k' => 0 <= i /\ exists fs, k' = k <| k_fs ::= fun s => s <| file_table := fs |> |> /\
    length fs = NR_FILE /\ forall j f, Z.of_nat j < i -> fs !! j = Some f -> f_count f = 0))].
  - intros _ k' (_&fs&->&Hl&Hf). exists fs. split_and!; [done..|]. apply Forall_lookup. intros j f Hj. apply (Hf j); [|done].
    apply lookup_lt_Some in Hj. lia.
  - intros i k' Hi (_&fs&->&Hl&Hf). destruct (lookup_lt_is_Some_2 fs (Z.to_nat i)) as [f Hfi]; [lia|].
    unfold mod_file. eapply runs_step; [unfold get_file; erewrite bind_Ok by reflexivity; rsimpl; by rewrite Hfi|]. apply runs_modify.
    split; [lia|]. exists (<[Z.to_nat i := f <| f_count := 0 |>]> fs). split_and!; [done|by rewrite length_insert|].
    intros j g Hj [(_&<-&_)|[Hne Hg]]%list_lookup_insert_Some; [done|]. apply (Hf j); [lia|done].
  - split; [done|]. exists (file_table (k_fs k)). split_and!; [by destruct k as [? ? []]|done|lia].
Qed.
Lemma clear_supers k : length (super_blocks (k_fs k)) = NR_SUPER ->
  runs (for_up 0 NR_SUPER (fun i => mod_sb (Z.to_nat i) (fun s => s <| s_dev := 0 |> <| s_lock := 0 |> <| s_wait := None |>))) k (fun _ k' =>
    (exists sbs, k' = k <| k_fs ::= fun s => s <| super_blocks := sbs |> |>) /\ no_super k').
Proof.
  intros Hlen. eapply runs_mono; [|apply (runs_for_up (fun i k' => 0 <= i /\ exists sbs, k' = k <| k_fs ::= fun s => s <| super_blocks := sbs |> |> /\
    length sbs = NR_SUPER /\ forall j sb, Z.of_nat j < i -> sbs !! j = Some sb -> s_dev sb = 0 /\ s_lock sb = 0 /\ s_wait sb = None))].
  - intros _ k' (_&sbs&->&Hl&Hf). split; [by exists sbs|]. split; [done|]. intros j sb Hj. apply (Hf j); [|done].
    change (sbs !! j = Some sb) in Hj. apply lookup_lt_Some in Hj. rewrite <- Hl. lia.
  - intros i k' Hi (_&sbs&->&Hl&Hf). destruct (lookup_lt_is_Some_2 sbs (Z.to_nat i)) as [sb Hsb]; [lia|].
    unfold runs. erewrite mod_sb_Ok by exact Hsb. split; [lia|]. eexists. split_and!; [reflexivity|by rewrite length_insert|].
    intros j g Hj [(_&<-&_)|[Hne Hg]]%list_lookup_insert_Some; [done|]. apply (Hf j); [lia|done].
  - split; [done|]. exists (super_blocks (k_fs k)). split_and!; [by destruct k as [? ? []]|done|lia].
Qed.

(** ** [mount_root] *)
(** The kernel before the root file system is mounted: the buffers are there and none is in use, the
    i-node table is empty, and the RAM disk holds a file system. *)
Record bootable (k : kernel) (t : task_struct) : Prop := mkBootable {
  bt_cache : cache_ok k;
  bt_light : lightly k 0;
  bt_spares : (16 < spares k)%nat;
  bt_files : length (file_table (k_fs k)) = NR_FILE;
  bt_supers : length (super_blocks (k_fs k)) = NR_SUPER;
  bt_root : ROOT_DEV (k_fs k) = RD_DEV;
  bt_inodes : inode_table (k_fs k) = replicate NR_INODE zero_inode;
  bt_last : (last_inode (k_fs k) < NR_INODE)%nat;
  bt_task : tasks (k_sched k) !! current (k_sched k) = Some t;
  bt_image : image_ok (disk k) (rd_length (k_blk k)) }.
(** The root file system is mounted: the super block [sb] is the one of the disk with its bit maps in
    buffers, the only i-node in use is the root directory [rn], which the super block, the task and
    the caller's count refer to, and paths resolve. *)
Record mounted (k : kernel) (t : task_struct) (k' : kernel) (sb : super_block) (rn : m_inode) : Prop := mkMounted {
  mt_resolvable : resolvable k' sb (t <| t_pwd := s_imount sb |> <| t_root := s_imount sb |>) rn rn;
  mt_super : mounted_super k' (disk k) sb /\ s_isup sb = s_imount sb;
  mt_root : i_num rn = ROOT_INO /\ i_count rn = 4 /\ d_part rn = d_part (d_inode (disk k) sb ROOT_INO);
  mt_others : forall i n, inode_table (k_fs k') !! i = Some n -> s_imount sb <> Some i -> i_count n = 0;
  mt_files : Forall (fun f => f_count f = 0) (file_table (k_fs k'));
  mt_disk : same_disk k k' }.

Lemma root_loadable d len sb : image_ok d len -> load_d_super (d 1) 0 sb = sb -> loadable len sb ROOT_INO = true.
Proof.
  intros Him Hld. assert (s_imap_blocks sb = ld 2 (d 1) 4) as Ei by (by rewrite <- Hld).
  assert (s_zmap_blocks sb = ld 2 (d 1) 6) as Ez by (by rewrite <- Hld).
  pose proof (im_imap _ _ Him) as Hi. pose proof (im_zmap _ _ Him) as Hz. pose proof (im_disk _ _ Him) as Hd.
  rewrite <- Ei, <- Ez in *. unfold I_MAP_SLOTS, Z_MAP_SLOTS in *. cbn in Hi, Hz.
  assert (inode_block sb ROOT_INO = 2 + s_imap_blocks sb + s_zmap_blocks sb) as E.
  { unfold inode_block. change (u64 (ROOT_INO - 1) / INODES_PER_BLOCK) with 0. rewrite Z.add_0_r, u64_small, s32_small by lia. done. }
  unfold loadable, on_dev. rewrite E. unfold BLOCK_SIZE in *. rewrite !andb_true_iff, !Z.leb_le, Z.ltb_lt. lia.
Qed.
Lemma free_bits_ext d d' start lo n nm : 0 <= lo -> lo + Z.of_nat n <= nm * BITS_PER_BLOCK ->
  (forall j x, 0 <= j < nm -> 0 <= x < BLOCK_SIZE -> d' (start + j) x = d (start + j) x) ->
  free_bits d' start lo n = free_bits d start lo n.
Proof.
  intros Hlo Hn Hd. induction n as [|n IH]; [done|]. rewrite !free_bits_S, IH by lia. f_equal.
  change BITS_PER_BLOCK with 8192 in *. unfold map_bit, mbit. change BITS_PER_BLOCK with 8192.
  rewrite Hd; [done|dlia|unfold BLOCK_SIZE; dlia].
Qed.

Section MountRoot.
Context {SI : SyncInodes} {HSI : SyncInodesOk SI}.

Lemma calm_holding k k' b blk : calm k k' -> holding k b blk -> holding k' b blk.
Proof.
  intros (_&_&_&Hu&Hk) (h&Hb&Hd&Hn&Hup&Hc). destruct (Hk b h Hb Hc Hup) as (h'&Hb'&E1&E2&E3). exists h'.
  specialize (Hu b). rewrite Hb, Hb' in Hu. injection Hu as _ Ec _. split_and!; congruence.
Qed.
(** The super block is read. *)
Lemma mount_super k t : bootable k t -> exists k1 k2 sb n,
  (forall A (F : option nat -> K A),
   (for_up 0 NR_FILE (fun i => mod_file (Z.to_nat i) (fun f => f <| f_count := 0 |>)) ;;;
    for_up 0 NR_SUPER (fun i => mod_sb (Z.to_nat i) (fun s => s <| s_dev := 0 |> <| s_lock := 0 |> <| s_wait := None |>)) ;;;
    let! root := gets (fun k => ROOT_DEV (k_fs k)) in let! p := read_super root in F p) k = F (Some 0%nat) k2) /\
  kept k k2 n /\ (n <= 16)%nat /\ fs_with k1 0 sb k2 /\ no_super k1 /\
  (exists fs sbs, k1 = k <| k_fs ::= fun s => s <| file_table := fs |> |> <| k_fs ::= fun s => s <| super_blocks := sbs |> |> /\
    Forall (fun f => f_count f = 0) fs) /\
  mounted_super k2 (disk k) sb /\ s_imount sb = None.
Proof.
  intros []. pose proof (clear_files k bt_files0) as (u1&ka&E1&fs&->&Hlf&Hfz)%runs_Ok. destruct u1. set (ka := k <| k_fs ::= _ |>) in *.
  pose proof (clear_supers ka bt_supers0) as (u2&kb&E2&(sbs&->)&Hns)%runs_Ok. destruct u2. set (kb := ka <| k_fs ::= _ |>) in *.
  destruct (read_super_spec kb 0 Hns) as (k2&sb&n&E3&Hk2&Hn&Hf&Hms&Hmt); [|done|lia|done|exact bt_image0|].
  { apply (kp_cache k kb 0), (kept_fs k ka), (kept_fs k k), kept_refl, bt_cache0. }
  exists kb, k2, sb, n. split_and!; [| |done|done|done|by exists fs, sbs|exact Hms|done].
  - intros A F. erewrite bind_Ok by exact E1. erewrite bind_Ok by exact E2. erewrite bind_Ok by reflexivity.
    change (ROOT_DEV (k_fs kb)) with (ROOT_DEV (k_fs k)). rewrite bt_root0. by erewrite bind_Ok by exact E3.
  - destruct Hk2 as [H1 H2 H3 H4 H5]. by split.
Qed.

(** The state after [mount_super]. *)
Section Install.
Context (k : kernel) (t : task_struct) (k1 k2 : kernel) (sb : super_block) (n : nat) (B : bootable k t).
Context (Hk2 : kept k k2 n) (Hn : (n <= 16)%nat) (Hf : fs_with k1 0 sb k2) (Hns : no_super k1).
Context (H1 : exists fs sbs, k1 = k <| k_fs ::= fun s => s <| file_table := fs |> |> <| k_fs ::= fun s => s <| super_blocks := sbs |> |> /\
  Forall (fun f => f_count f = 0) fs).
Context (Hms : mounted_super k2 (disk k) sb) (Hmt : s_imount sb = None).
Local Notation T := (replicate NR_INODE zero_inode).
Local Notation len := (rd_length (k_blk k2)).

Lemma in_ready : ready k2.
Proof. destruct B. apply (kept_ready k k2 n 0); [done|lia|done|lia]. Qed.
Lemma in_super : found_super k2 RD_DEV 0 sb.
Proof.
  destruct Hns as [Hl _]. destruct Hms as (_&Hd&Hlk&_).
  assert (super_blocks (k_fs k2) = <[0%nat := sb]> (super_blocks (k_fs k1))) as E by by rewrite Hf.
  unfold found_super. rewrite E, length_insert. split_and!; try done; [unfold NR_SUPER; lia| |lia].
  apply list_lookup_insert_eq. rewrite Hl. unfold NR_SUPER. lia.
Qed.
Lemma in_fs : inode_table (k_fs k2) = T /\ (last_inode (k_fs k2) < NR_INODE)%nat /\ ROOT_DEV (k_fs k2) = RD_DEV /\
  Forall (fun f => f_count f = 0) (file_table (k_fs k2)).
Proof.
  destruct H1 as (fs&sbs&->&Hfs). rewrite Hf. destruct B. by split_and!.
Qed.
Lemma in_task : tasks (k_sched k2) !! current (k_sched k2) = Some t.
Proof. destruct Hk2 as [_ _ (_&_&(->&_)&_) _ _]. apply B. Qed.
Lemma in_length : len = rd_length (k_blk k).
Proof. by destruct Hk2 as [_ _ (_&_&_&_&->&_) _ _]. Qed.
Lemma in_disk_at blk x : on_dev len blk = true -> 0 <= x < BLOCK_SIZE -> disk k2 blk x = disk k blk x.
Proof.
  unfold on_dev. rewrite in_length, andb_true_iff, !Z.leb_le. intros ??. by apply (kp_disk _ _ _ Hk2).
Qed.

Lemma got_root_inode : runs (iget RD_DEV ROOT_INO) k2 (got_inode k2 sb T ROOT_INO).
Proof.
  destruct in_fs as (ET&Hl&_). apply (at_iget k2 0 sb in_ready in_super T (last_inode (k_fs k2))).
  - apply at_start; [apply Hk2|done].
  - apply table_ok_zero.
  - done.
  - done.
  - rewrite in_length. apply (root_loadable (disk k)); [apply B|apply Hms].
Qed.
(** No slot of the table is in use when the root directory is looked up. *)
Lemma filled_unused d T' i nd : table_ok d len sb T' -> same_used T T' -> T' !! i = Some nd -> i_count nd = 0.
Proof.
  intros Htab Hs Hi. pose proof (lookup_lt_Some _ _ _ Hi) as Hlt. rewrite (to_length _ _ _ _ Htab) in Hlt.
  destruct (Hs i zero_inode) as [_ H]; [by apply lookup_replicate_2|]. destruct (H eq_refl) as (n'&Hn'&?). congruence.
Qed.
(** The root directory is the root of the super block and of the task. *)
Lemma root_installed i k3 : got_inode k2 sb T ROOT_INO i k3 -> exists T' nd k4,
  (forall A (C : K A),
   (mod_inode i (fun n => n <| i_count := u16 (i_count n + 3) |>) ;;;
    mod_sb 0 (fun s => s <| s_imount := Some i |>) ;;;
    mod_sb 0 (fun s => s <| s_isup := Some i |>) ;;;
    mod_cur (fun t => t <| t_pwd := Some i |>) ;;;
    mod_cur (fun t => t <| t_root := Some i |>) ;;; C) k3 =
     C (set_task (current (k_sched k2)) (t <| t_pwd := Some i |> <| t_root := Some i |>)
       (set_sb 0 (sb <| s_imount := Some i |> <| s_isup := Some i |>) k4))) /\
  table_ok (disk k2) len sb T' /\ same_used T T' /\ T' !! i = Some nd /\ matches RD_DEV ROOT_INO nd = true /\
  d_part nd = d_part (d_inode (disk k2) sb ROOT_INO) /\
  exists l, (l < NR_INODE)%nat /\ at_table k2 (<[i := nd <| i_count := 4 |>]> T') l k4.
Proof.
  intros (T'&l&nd&Hl&Htab&Hsu&Hnd&Hm&Hdp&HA). pose proof (filled_unused _ _ _ _ Htab Hsu Hnd) as Hc0.
  destruct (at_mod _ _ _ _ HA i (held nd) (fun n => n <| i_count := u16 (i_count n + 3) |>)) as (k4&E4&HA4).
  { apply list_lookup_insert_eq. by eapply lookup_lt_Some. }
  rewrite list_insert_insert_eq in HA4.
  assert ((held nd) <| i_count := u16 (i_count (held nd) + 3) |> = nd <| i_count := 4 |>) as Eh by (destruct nd; cbn in Hc0; by subst).
  rewrite Eh in HA4. exists T', nd, k4. split.
  2:{ split_and!; [done..| |by exists l].
      rewrite Hdp. apply inode_of_unused. intros j m Hj Hcj. by apply lookup_replicate_1 in Hj as [-> _]. }
  intros A C. erewrite bind_Ok by exact E4. assert (super_blocks (k_fs k4) !! 0%nat = Some sb) as Hs4.
  { rewrite (at_fs _ _ _ _ HA4). apply in_super. }
  erewrite bind_Ok by exact (mod_sb_Ok k4 0 sb _ Hs4).
  erewrite bind_Ok by exact (mod_sb_Ok _ 0 _ _ (set_sb_lookup k4 0 _ sb Hs4)). rewrite set_sb_twice. set (k6 := set_sb 0 _ k4).
  assert (k_sched k6 = k_sched k2) as Es6 by exact (at_sched _ _ _ _ HA4).
  assert (tasks (k_sched k6) !! current (k_sched k6) = Some t) as Ht6 by (rewrite Es6; apply in_task).
  erewrite bind_Ok by by apply (mod_cur_Ok k6 t). cbv beta. rewrite Es6.
  erewrite (bind_Ok (mod_cur _)).
  2:{ apply mod_cur_Ok. change (current (k_sched (set_task ?p ?x k6))) with (current (k_sched k6)). rewrite Es6. apply set_task_lookup. }
  change (current (k_sched (set_task ?p ?x k6))) with (current (k_sched k6)). by rewrite Es6, set_task_twice.
Qed.

Section Installed.
Context (i : nat) (T' : list m_inode) (nd : m_inode) (k4 : kernel) (l : nat) (Hl : (l < NR_INODE)%nat).
Context (Htab : table_ok (disk k2) len sb T') (Hsu : same_used T T') (Hnd : T' !! i = Some nd) (Hm : matches RD_DEV ROOT_INO nd = true).
Context (Hdp : d_part nd = d_part (d_inode (disk k2) sb ROOT_INO)) (HA : at_table k2 (<[i := nd <| i_count := 4 |>]> T') l k4).
Local Notation sb' := (sb <| s_imount := Some i |> <| s_isup := Some i |>).
Local Notation rn := (nd <| i_count := 4 |>).
Local Notation k' := (set_task (current (k_sched k2)) (t <| t_pwd := Some i |> <| t_root := Some i |>) (set_sb 0 sb' k4)).

Lemma is_disk_at blk x : on_dev len blk = true -> 0 <= x < BLOCK_SIZE -> disk k' blk x = disk k blk x.
Proof.
  intros Hb Hx. rewrite <- (in_disk_at blk x) by done. change (disk k4 blk x = disk k2 blk x).
  apply (at_disk _ _ _ _ HA); [by apply on_dev_spec|done].
Qed.
Lemma is_cache : cache_ok k'.
Proof. destruct (at_cache _ _ _ _ HA) as (q&ch&HI). exists q, ch. by apply (cache_inv_ext k4). Qed.
Lemma is_table : inode_table (k_fs k') = <[i := rn]> T'.
Proof. change (inode_table (k_fs k4) = <[i := rn]> T'). by rewrite (at_fs _ _ _ _ HA). Qed.
Lemma is_found : found_super k' RD_DEV 0 sb'.
Proof.
  destruct in_super as (_&_&Hlen&Hs&Hd&Hlk&_).
  assert (super_blocks (k_fs k4) = super_blocks (k_fs k2)) as E by by rewrite (at_fs _ _ _ _ HA).
  assert (super_blocks (k_fs k') = <[0%nat := sb']> (super_blocks (k_fs k2))) as E' by (by rewrite <- E).
  unfold found_super. rewrite E', length_insert. split_and!; try done; [unfold NR_SUPER; lia| |lia].
  apply list_lookup_insert_eq. by eapply lookup_lt_Some.
Qed.
Lemma is_table_ok : table_ok (disk k') (rd_length (k_blk k')) sb' (inode_table (k_fs k')).
Proof.
  assert (rd_length (k_blk k') = len) as -> by (destruct HA as (_&_&(_&_&_&_&E&_)&_); exact E).
  rewrite is_table. apply (table_ok_disk (disk k2) _ _ sb); [|intros z x Hz Hx; by rewrite is_disk_at, in_disk_at|done].
  set (j := if (i =? 0)%nat then 1%nat else 0%nat). assert (j <> i /\ (j < NR_INODE)%nat) as [Hji Hj].
  { unfold j, NR_INODE. destruct (Nat.eqb_spec i 0); lia. }
  destruct (lookup_lt_is_Some_2 T' j) as [m Hmj]; [by rewrite (to_length _ _ _ _ Htab)|].
  apply (table_ok_users _ _ _ _ i j nd m 4 Htab Hnd ltac:(lia) Hmj); [by apply not_eq_sym|]. by apply (filled_unused _ _ _ _ Htab Hsu Hmj).
Qed.
Lemma is_slot : dir_slot (inode_table (k_fs k')) (Some i) rn.
Proof.
  exists i. rewrite is_table. apply matches_spec in Hm as [? _]. split_and!; try done. apply list_lookup_insert_eq. by eapply lookup_lt_Some.
Qed.
Lemma is_mounted : mounted k t k' sb' rn.
Proof.
  pose proof Hm as [_ Hnum]%matches_spec. destruct Hms as (Hld&Hd&Hlk&Hw&Hli&Hlz&Hmi&Hmz).
  assert (forall b blk, holding k2 b blk -> holding k' b blk) as Hh.
  { intros b blk Hb. apply (holding_ext k4); [done|]. by apply (calm_holding _ _ b blk HA). }
  assert (load_d_super (disk k 1) 0 sb' = sb') as Hld'.
  { change ((load_d_super (disk k 1) 0 sb) <| s_imount := Some i |> <| s_isup := Some i |> = sb'). by rewrite Hld. }
  split; [split| | | | |].
  - apply is_cache.
  - destruct (at_ready _ in_ready _ _ _ HA) as [[b Hs] Hc]. split; [by exists b|exact Hc].
  - exists 0%nat. apply is_found.
  - change (current (k_sched k')) with (current (k_sched k4)). rewrite (at_sched _ _ _ _ HA). apply set_task_lookup.
  - apply is_table_ok.
  - change (last_inode (k_fs k4) < NR_INODE)%nat. by rewrite (at_fs _ _ _ _ HA).
  - right. exists rn. split; [apply is_slot|done].
  - apply is_slot.
  - apply is_slot.
  - split; [|done]. split_and!; [done..| |]; by apply (map_held_mono k2).
  - split_and!; [done..|]. change (d_part nd = d_part (d_inode (disk k) sb ROOT_INO)). rewrite Hdp. f_equal.
    apply (d_inode_disk _ _ len); [|intros; by apply in_disk_at|done].
    rewrite in_length. by apply (root_loadable (disk k)); [apply B|].
  - intros j m. rewrite is_table. intros [(->&_)|[_ Hj]]%list_lookup_insert_Some Hne; [done|]. by apply (filled_unused _ _ _ _ Htab Hsu Hj).
  - change (Forall (fun f => f_count f = 0) (file_table (k_fs k4))). rewrite (at_fs _ _ _ _ HA). apply in_fs.
  - intros blk x Hx Hb. apply is_disk_at; [|done]. unfold on_dev. rewrite in_length, andb_true_iff, !Z.leb_le. exact Hb.
Qed.
Lemma is_counts : forall c z,
  count_free s_zmap 0 1 (Z.to_nat (s_nzones sb' - 1)) z k' = Ok (z + free_bits (disk k) (2 + s_imap_blocks sb') 1 (Z.to_nat (s_nzones sb' - 1))) k' /\
  count_free s_imap 0 0 (Z.to_nat (s_ninodes sb' + 1)) c k' = Ok (c + free_bits (disk k) 2 0 (Z.to_nat (s_ninodes sb' + 1))) k'.
Proof.
  intros c z. pose proof (mt_super _ _ _ _ _ is_mounted) as [(Hld&_&_&_&_&_&Hmi&Hmz) _].
  pose proof is_found as (_&_&_&Hs&_). pose proof (bt_image _ _ B) as Him. rewrite <- in_length in Him.
  assert (s_imap_blocks sb' = ld 2 (disk k 1) 4) as Ei by (by rewrite <- Hld). assert (s_zmap_blocks sb' = ld 2 (disk k 1) 6) as Ez by (by rewrite <- Hld).
  assert (s_ninodes sb' = ld 2 (disk k 1) 0) as En by (by rewrite <- Hld). assert (s_nzones sb' = ld 2 (disk k 1) 2) as Enz by (by rewrite <- Hld).
  destruct Him as [_ Hib Hzb Hin Hzn Hdk _ _]. rewrite <- Ei, <- Ez, <- ?En, <- ?Enz in *. change BITS_PER_BLOCK with 8192 in *. change BLOCK_SIZE with 1024 in *.
  assert (0 <= s_ninodes sb') as Hn0 by (rewrite En; pose proof (ld_bound 2 (disk k 1) 0); lia).
  rewrite (count_free_Ok s_zmap 0 _ _ k' sb' _ _ z is_cache Hs Hmz), (count_free_Ok s_imap 0 _ _ k' sb' _ _ c is_cache Hs Hmi)
    by (change BITS_PER_BLOCK with 8192; lia).
  rewrite (free_bits_ext (disk k) (disk k') (2 + s_imap_blocks sb') _ _ (s_zmap_blocks sb')),
    (free_bits_ext (disk k) (disk k') 2 _ _ (s_imap_blocks sb')); first [done | change BITS_PER_BLOCK with 8192; lia |
      intros j x Hj Hx; apply is_disk_at; [unfold on_dev; change BLOCK_SIZE with 1024; rewrite andb_true_iff, !Z.leb_le; lia|done]].
Qed.
Lemma installed_spec : exists sb' rn, mounted k t k' sb' rn /\
  (let! sb := get_sb 0 in
   let! zones := count_free s_zmap 0 1 (Z.to_nat (s_nzones sb - 1)) 0 in
   let! inodes := count_free s_imap 0 0 (Z.to_nat (s_ninodes sb + 1)) 0 in
   ret (zones, inodes)) k' =
  Ok (free_bits (disk k) (2 + s_imap_blocks sb') 1 (Z.to_nat (s_nzones sb' - 1)), free_bits (disk k) 2 0 (Z.to_nat (s_ninodes sb' + 1))) k'.
Proof.
  exists sb', rn. split; [apply is_mounted|]. destruct (is_counts 0 0) as [Ez Ei]. pose proof is_found as (_&_&_&Hs&_).
  erewrite bind_Ok by by apply get_sb_Ok. erewrite bind_Ok by exact Ez. by erewrite bind_Ok by exact Ei.
Qed.
End Installed.
Lemma install_spec : runs (
    let! root := gets (fun k => ROOT_DEV (k_fs k)) in
    let! mi := iget root ROOT_INO in
    mod_inode mi (fun n => n <| i_count := u16 (i_count n + 3) |>) ;;;
    mod_sb 0 (fun s => s <| s_imount := Some mi |>) ;;;
    mod_sb 0 (fun s => s <| s_isup := Some mi |>) ;;;
    mod_cur (fun t => t <| t_pwd := Some mi |>) ;;;
    mod_cur (fun t => t <| t_root := Some mi |>) ;;;
    let! sb := get_sb 0 in
    let! zones := count_free s_zmap 0 1 (Z.to_nat (s_nzones sb - 1)) 0 in
    let! inodes := count_free s_imap 0 0 (Z.to_nat (s_ninodes sb + 1)) 0 in
    ret (zones, inodes)) k2 (fun r k' => exists sb rn, mounted k t k' sb rn /\
  r = (free_bits (disk k) (2 + s_imap_blocks sb) 1 (Z.to_nat (s_nzones sb - 1)), free_bits (disk k) 2 0 (Z.to_nat (s_ninodes sb + 1)))).
Proof.
  destruct in_fs as (_&_&Hroot&_). eapply runs_step; [reflexivity|]. rewrite Hroot.
  pose proof got_root_inode as (i&k3&E3&Hg)%runs_Ok. eapply runs_step; [exact E3|].
  destruct (root_installed i k3 Hg) as (T'&nd&k4&E4&Htab&Hsu&Hnd&Hm&Hdp&l&Hl&HA). unfold runs. rewrite E4.
  destruct (installed_spec i T' nd k4 l Hl Htab Hsu Hnd Hm Hdp HA) as (sb'&rn&HM&E5). rewrite E5. by exists sb', rn.
Qed.
End Install.
Lemma mount_root_spec k t : bootable k t ->
  runs mount_root k (fun r k' => exists sb rn, mounted k t k' sb rn /\
    r = (free_bits (disk k) (2 + s_imap_blocks sb) 1 (Z.to_nat (s_nzones sb - 1)),
         free_bits (disk k) 2 0 (Z.to_nat (s_ninodes sb + 1)))).
Proof.
  intros B. destruct (mount_super k t B) as (k1&k2&sb&n&E&Hk2&Hn&Hf&Hns&H1&Hms&Hmt).
  pose proof (install_spec k t k1 k2 sb n B Hk2 Hn Hf Hns H1 Hms) as H.
  unfold runs, mount_root in *. rewrite E. cbv beta iota. exact H.
Qed.
End MountRoot.

(** ** Properties *)
Module MountProps.

(** C9: mounting the root file system.  On a disk with a well-formed super block and two bit maps of the
    size it gives, and in a kernel that has not mounted anything, [mount_root] returns.  The super block
    is then the one of the disk, with all blocks of its bit maps held in buffers; the root directory is
    the only i-node in use, with the content of i-node 1 of the disk and four users, and it is the root
    and the working directory of the task; no file is open; the disk is as before; and paths resolve
    ([resolvable], the hypothesis of [namei_resolves]).  The two numbers are the clear bits of the maps:
    the free zones and the free i-nodes. *)
Theorem mount_root_mounts {SI : SyncInodes} {HSI : SyncInodesOk SI} k t : bootable k t ->
  runs mount_root k (fun r k' => exists sb rn, mounted k t k' sb rn /\
    r = (free_bits (disk k) (2 + s_imap_blocks sb) 1 (Z.to_nat (s_nzones sb - 1)),
         free_bits (disk k) 2 0 (Z.to_nat (s_ninodes sb + 1)))).
Proof. apply mount_root_spec. Qed.

Import PathProps.
(** The tree of [demo_tree] with a super block of 32 i-nodes and 360 zones, of which the i-nodes 1 to 3
    and the zones 1 to 7 are in use, and the root directory in i-node 1. *)
Definition demo_image : memory :=
  let blk n := RD_START + n * BLOCK_SIZE in
  let m := poke demo_tree (blk 1) [32; 0; 104; 1; 1; 0; 1; 0; 5; 0; 0; 0; 0; 0; 8; 16; 0x7F; 0x13] in
  let m := poke (poke m (blk 2) [15]) (blk 3) [255] in
  poke m (blk 4) [0xED; 0x41; 0; 0; 48; 0; 0; 0; 0; 0; 0; 0; 0; 2; 10; 0].
Definition demo_dfs : fs_state :=
  mkFs (replicate NR_INODE zero_inode) 0 (replicate NR_SUPER zero_super) (replicate NR_FILE zero_file) RD_DEV.
Definition demo_disk (blk : Z) : memory := fun x => demo_image (RD_START + blk * BLOCK_SIZE + x).
Lemma demo_image_ok : image_ok demo_disk RD_LENGTH.
Proof. split; vm_compute; intuition congruence. Qed.
Lemma booted_spares m fs : spares (booted_fs m fs) = 94%nat.
Proof.
  unfold spares. change (buffers (k_blk (booted_fs m fs))) with (buffers (k_blk (booted m))).
  rewrite spare_heads_all; [apply (booted_spec m)|]. intros b h (Hc&_&Hd)%booted_free. unfold is_spare. by rewrite Hc, Hd.
Qed.
Lemma demo_bootable : bootable (booted_fs demo_image demo_dfs) zero_task.
Proof.
  split; try reflexivity.
  - apply booted_fs_ok.
  - intros b h (->&_)%booted_free. done.
  - rewrite booted_spares. by apply Nat.ltb_lt.
  - by apply Nat.ltb_lt.
  - change (k_sched (booted_fs demo_image demo_dfs)) with (k_sched (booted demo_image)).
    destruct (booted_spec demo_image) as (_&_&_&_&_&->&_). reflexivity.
  -     change (rd_length (k_blk (booted_fs demo_image demo_dfs))) with (rd_length (k_blk (booted demo_image))).
    destruct (booted_spec demo_image) as (_&_&_&_&_&_&_&->&_). apply (image_ok_disk demo_disk); [apply demo_image_ok|]. intros. apply booted_fs_disk.
Qed.
Lemma mount_root_mounts_witness : runs mount_root (booted_fs demo_image demo_dfs) (fun r k' => r = (352, 29) /\
  exists sb rn, mounted (booted_fs demo_image demo_dfs) zero_task k' sb rn).
Proof.
  eapply runs_mono; [|apply (mount_root_mounts _ _ demo_bootable)]. intros r k' (sb&rn&HM&->).
  split; [|by exists sb, rn].
  destruct (mt_super _ _ _ _ _ HM) as [(Hld&_) _].
  rewrite (load_d_super_ext (demo_disk 1) _ 0 0 sb) in Hld by (intros; apply booted_fs_disk).
  assert (s_imap_blocks sb = 1) as -> by (by rewrite <- Hld). assert (s_nzones sb = 360) as -> by (by rewrite <- Hld).
  assert (s_ninodes sb = 32) as -> by (by rewrite <- Hld).
  pose proof (free_bits_ext demo_disk (disk (booted_fs demo_image demo_dfs))) as H.
  rewrite (H (2 + 1) 1 (Z.to_nat (360 - 1)) 1); [|lia|vm_compute; discriminate|intros; apply booted_fs_disk].
  rewrite (H 2 0 (Z.to_nat (32 + 1)) 1); [|lia|vm_compute; discriminate|intros; apply booted_fs_disk].
  vm_compute. reflexivity.
Defined.
End MountProps.
