(* ===== verification/OpenFiles.v ===== *)
(** * Descriptors and attributes of files (fs/open.c, fcntl.c, stat.c, ioctl.c)

    The system calls that open, close and duplicate descriptors, change attributes, report them, and
    [sys_ioctl]. *)
From Stdlib Require Import ZArith Lia String.
From stdpp Require Import base list gmap.
From S2P Require Import Prelude State Pte PageAlloc PageTable BlockIO Buffer BufferCache BufferInit InodeIO Bitmap Inode PageFault UserMem Namei Directory Sched Tty FileIO Pipe FileRead.
Open Scope Z_scope.

Definition ENOTTY : Z := 25.

Section OpenFiles.
Context {SI : SyncInodes}.

(** ** open.c *)
Definition sys_ustat (dev ubuf : Z) : K Z := ret (- ENOSYS).
(** [struct utimbuf] has two 8-byte fields; [get_fs_long] reads four bytes of each. *)
Definition sys_utime (filename times : Z) : K Z :=
  let! i := namei filename in
  match i with
  | None => ret (- ENOENT)
  | Some inode =>
      let! (actime, modtime) :=
        if truth times then
          let! a := get_fs_long times in let! m := get_fs_long (times + 8) in ret (a, m)
        else let! t := CURRENT_TIME in ret (t, t) in
      mod_inode inode (fun n => n <| i_atime := u32 actime |>) ;;;
      mod_inode inode (fun n => n <| i_mtime := u32 modtime |>) ;;;
      mod_inode inode (fun n => n <| i_dirt := 1 |>) ;;;
      iput (Some inode) ;;;
      ret 0
  end.
(** Both the owner's and the group's bits are taken with [>> 6]. *)
Definition sys_access (filename mode : Z) : K Z :=
  let mode := Z.land mode 7 in
  let! i := namei filename in
  match i with
  | None => ret (- EACCES)
  | Some inode =>
      let! n := get_inode inode in
      let mode_bits := Z.land (i_mode n) 0x1FF in
      iput (Some inode) ;;;
      let! t := cur in
      let! n := get_inode inode in
      let res := if (t_uid t =? i_uid n) || (t_gid t =? i_gid n) then Z.shiftr mode_bits 6 else mode_bits in
      if Z.land (Z.land res 7) mode =? mode then ret 0
      else if (t_uid t =? 0) && ((Z.land mode 1 =? 0) || truth (Z.land mode_bits 0x49)) then ret 0
      else ret (- EACCES)
  end.
(** The directory that a name leads to, for [sys_chdir] and [sys_chroot]. *)
Definition sys_chdir (filename : Z) : K Z :=
  let! i := namei filename in
  match i with
  | None => ret (- ENOENT)
  | Some inode =>
      let! n := get_inode inode in
      if negb (S_ISDIR (i_mode n)) then iput (Some inode) ;;; ret (- ENOTDIR)
      else
        let! t := cur in
        iput (t_pwd t) ;;;
        mod_cur (fun t => t <| t_pwd := Some inode |>) ;;;
        ret 0
  end.
Definition sys_chroot (filename : Z) : K Z :=
  let! i := namei filename in
  match i with
  | None => ret (- ENOENT)
  | Some inode =>
      let! n := get_inode inode in
      if negb (S_ISDIR (i_mode n)) then iput (Some inode) ;;; ret (- ENOTDIR)
      else
        let! t := cur in
        iput (t_root t) ;;;
        mod_cur (fun t => t <| t_root := Some inode |>) ;;;
        ret 0
  end.
Definition sys_chmod (filename mode : Z) : K Z :=
  let! i := namei filename in
  match i with
  | None => ret (- ENOENT)
  | Some inode =>
      let! t := cur in
      let! n := get_inode inode in
      let! su := suser in
      if negb (t_euid t =? i_uid n) && negb su then iput (Some inode) ;;; ret (- EACCES)
      else
        mod_inode inode (fun n => n <| i_mode := u16 (Z.lor (Z.land mode 0xFFF) (Z.land (i_mode n) (Z.lnot 0xFFF))) |>) ;;;
        mod_inode inode (fun n => n <| i_dirt := 1 |>) ;;;
        iput (Some inode) ;;;
        ret 0
  end.
Definition sys_chown (filename uid gid : Z) : K Z :=
  let! i := namei filename in
  match i with
  | None => ret (- ENOENT)
  | Some inode =>
      let! su := suser in
      if negb su then iput (Some inode) ;;; ret (- EACCES)
      else
        mod_inode inode (fun n => n <| i_uid := u16 uid |>) ;;;
        mod_inode inode (fun n => n <| i_gid := u8 gid |>) ;;;
        mod_inode inode (fun n => n <| i_dirt := 1 |>) ;;;
        iput (Some inode) ;;;
        ret 0
  end.

(** The first free descriptor, the first free file. *)
Definition free_fd (t : task_struct) : option nat := fst <$> list_find (fun p => p = None) (t_filp t).
Definition free_file (l : list file) : option nat := fst <$> list_find (fun f => f_count f = 0) l.
(** [current->close_on_exec &= ~(1<<fd)] *)
Definition clear_close (fd : Z) : K unit :=
  mod_cur (fun t => t <| t_close_on_exec := Z.land (t_close_on_exec t) (Z.lnot (Z.shiftl 1 fd)) |>).
(** The test for terminals: [false] is the exit with EPERM. *)
Definition open_tty (inode : nat) : K bool :=
  let! n := get_inode inode in
  if S_ISCHR (i_mode n) then
    let! z := zone inode 0 in
    let! t := cur in
    if MAJOR z =? 4 then
      (if truth (t_leader t) && (t_tty t <? 0) then
         mod_cur (fun t => t <| t_tty := MINOR z |>) ;;;
         let! t := cur in
         mod_tty (t_tty t) (fun x => x <| tt_pgrp := s32 (t_pgrp t) |>)
       else skip) ;;;
      ret true
    else if MAJOR z =? 5 then ret (negb (t_tty t <? 0))
    else ret true
  else ret true.
Definition sys_open (filename flag mode : Z) : K Z :=
  let! t := cur in
  let mode := Z.land mode (Z.land 0x1FF (Z.lnot (t_umask t))) in
  match free_fd t with
  | None => ret (- EINVAL)
  | Some fd =>
      clear_close (Z.of_nat fd) ;;;
      let! l := gets (fun k => file_table (k_fs k)) in
      match free_file l with
      | None => ret (- EINVAL)
      | Some f =>
          set_filp (Z.of_nat fd) (Some f) ;;;
          mod_file f (fun e => e <| f_count := u16 (f_count e + 1) |>) ;;;
          let! r := open_namei filename flag mode in
          match r with
          | inl e => set_filp (Z.of_nat fd) None ;;; zero_count f ;;; ret e
          | inr inode =>
              let! ok := open_tty inode in
              if negb ok then
                iput (Some inode) ;;; set_filp (Z.of_nat fd) None ;;; zero_count f ;;; ret (- EPERM)
              else
                let! n := get_inode inode in
                mod_file f (fun e => e <| f_mode := u16 (i_mode n) |> <| f_flags := u16 flag |> <| f_count := 1 |>
                  <| f_inode := Some inode |> <| f_pos := 0 |>) ;;;
                ret (Z.of_nat fd)
          end
      end
  end.
Definition sys_creat (pathname mode : Z) : K Z := sys_open pathname (Z.lor O_CREAT O_TRUNC) mode.
Definition sys_close (fd : Z) : K Z :=
  if Z.of_nat NR_OPEN <=? fd then ret (- EINVAL)
  else
    clear_close fd ;;;
    let! p := filp_of fd in
    match p with
    | None => ret (- EINVAL)
    | Some filp =>
        set_filp fd None ;;;
        let! f := get_file filp in
        if f_count f =? 0 then panic "Close: file count is 0"
        else
          mod_file filp (fun f => f <| f_count := u16 (f_count f - 1) |>) ;;;
          let! f := get_file filp in
          if truth (f_count f) then ret 0
          else iput (f_inode f) ;;; ret 0
    end.

(** ** fcntl.c *)
(** [while (arg < NR_OPEN) if (current->filp[arg]) arg++; else break;] *)
Fixpoint next_free (l : list (option nat)) (arg : Z) (n : nat) : Z :=
  match n with
  | O => arg
  | S m => match idx l arg with Some (Some _) => next_free l (arg + 1) m | _ => arg end
  end.
Definition dupfd (fd arg : Z) : K Z :=
  let! p := filp_of fd in
  match p with
  | None => ret (- EBADF)
  | Some f =>
      if Z.of_nat NR_OPEN <=? arg then ret (- EINVAL)
      else
        let! t := cur in
        let arg := next_free (t_filp t) arg (Z.to_nat (Z.of_nat NR_OPEN - arg)) in
        if Z.of_nat NR_OPEN <=? arg then ret (- EMFILE)
        else
          clear_close arg ;;;
          set_filp arg (Some f) ;;;
          mod_file f (fun e => e <| f_count := u16 (f_count e + 1) |>) ;;;
          ret arg
  end.
Definition sys_dup2 (oldfd newfd : Z) : K Z := let! _ := sys_close newfd in dupfd oldfd newfd.
Definition sys_dup (fildes : Z) : K Z := dupfd fildes 0.
Definition sys_fcntl (fd cmd arg : Z) : K Z :=
  let! p := filp_of fd in
  match p with
  | None => ret (- EBADF)
  | Some filp =>
      match cmd with
      | 0 => dupfd fd (u32 arg)
      | 1 => let! t := cur in ret (Z.land (Z.shiftr (t_close_on_exec t) fd) 1)
      | 2 =>
          (if truth (Z.land arg 1) then
             mod_cur (fun t => t <| t_close_on_exec := Z.lor (t_close_on_exec t) (Z.shiftl 1 fd) |>)
           else clear_close fd) ;;;
          ret 0
      | 3 => let! f := get_file filp in ret (f_flags f)
      | 4 =>
          mod_file filp (fun f => f <| f_flags := u16 (Z.land (f_flags f) (Z.lnot (Z.lor O_APPEND O_NONBLOCK))) |>) ;;;
          mod_file filp (fun f => f <| f_flags := u16 (Z.lor (f_flags f) (Z.land arg (Z.lor O_APPEND O_NONBLOCK))) |>) ;;;
          ret 0
      | _ => ret (-1)
      end
  end.

(** ** stat.c *)
(** [struct stat] as 48 bytes in memory; [pad] are the bytes between its fields, which [cp_stat]
    does not initialise. *)
Definition SIZEOF_STAT : nat := 48.
Definition stat_image (pad : memory) (n : m_inode) : memory :=
  let m := st 2 pad 0 (i_dev n) in
  let m := st 2 m 2 (i_num n) in
  let m := st 2 m 4 (i_mode n) in
  let m := st 1 m 6 (i_nlinks n) in
  let m := st 2 m 8 (i_uid n) in
  let m := st 1 m 10 (i_gid n) in
  let m := st 2 m 12 (default 0 (idx (i_zone n) 0)) in
  let m := st 8 m 16 (i_size n) in
  let m := st 8 m 24 (i_atime n) in
  let m := st 8 m 32 (i_mtime n) in
  st 8 m 40 (i_ctime n).
Definition cp_stat (pad : memory) (inode : nat) (statbuf : Z) : K unit :=
  verify_area statbuf (Z.of_nat SIZEOF_STAT) ;;;
  let! n := get_inode inode in
  for_up 0 SIZEOF_STAT (fun i => put_fs_byte (stat_image pad n i) (statbuf + i)).
Definition sys_stat (pad : memory) (filename statbuf : Z) : K Z :=
  let! i := namei filename in
  match i with
  | None => ret (- ENOENT)
  | Some inode => cp_stat pad inode statbuf ;;; iput (Some inode) ;;; ret 0
  end.
Definition sys_fstat (pad : memory) (fd statbuf : Z) : K Z :=
  let! p := filp_of fd in
  match p with
  | None => ret (- EBADF)
  | Some filp =>
      let! f := get_file filp in
      match f_inode f with
      | None => ret (- EBADF)
      | Some inode => cp_stat pad inode statbuf ;;; ret 0
      end
  end.

(** ** ioctl.c *)
(** [ioctl_table] has [tty_ioctl] for the majors 4 and 5; [tty_ioctl] is declared there with an [int]
    for its last argument. *)
Definition sys_ioctl (tmp : termio) (fd cmd arg : Z) : K Z :=
  let! p := filp_of fd in
  match p with
  | None => ret (- EBADF)
  | Some filp =>
      let! f := get_file filp in
      let! inode := unwrap "sys_ioctl: inode" (f_inode f) in
      let! n := get_inode inode in
      if negb (S_ISCHR (i_mode n)) && negb (S_ISBLK (i_mode n)) then ret (- EINVAL)
      else
        let! dev := zone inode 0 in
        if 8 <=? MAJOR dev then ret (- ENODEV)
        else if (MAJOR dev =? 4) || (MAJOR dev =? 5) then tty_ioctl tmp dev cmd (s32 arg)
        else ret (- ENOTTY)
  end.
End OpenFiles.
