(* ===== verification/Process.v ===== *)
(** * Processes (kernel/fork.c, exit.c)

    [copy_process] and [find_empty_process] of [fork], [do_exit], [waitpid] and [kill].
    [fork_process_exit], a label of the assembly code, is a parameter.  The
    register [r] that a trap saved is at [ti_regs + 8 * r]. *)
From Stdlib Require Import ZArith Lia String.
From stdpp Require Import base list gmap finite.
From S2P Require Import Prelude State Pte PageAlloc PageTable BlockIO Buffer BufferCache BufferInit InodeIO Bitmap Inode PageFault UserMem Namei Directory Sched Tty FileIO Pipe FileRead OpenFiles.
Open Scope Z_scope.

(** ** fork.c *)
Section Fork.
Context {SI : SyncInodes} (fork_process_exit : Z).

Definition copy_mem (nr p : Z) : K Z :=
  let! t := get_task p in
  let old_data_base := t_data_base t in
  let data_limit := t_data_limit t in
  mod_task p (fun t => t <| t_start_code := USER_START_ADDR |>) ;;;
  let! r := copy_page_tables old_data_base USER_START_ADDR (t_page_dir_table t) (data_limit / PAGE_SIZE) in
  if truth r then
    free_page_tables USER_START_ADDR (t_page_dir_table t) data_limit ;;;
    ret (- ENOMEM)
  else ret 0.

(** [*p = *current; p -> state = ...; ...; p -> start_time = jiffies;] *)
Definition child_of (c : task_struct) (last_pid now : Z) : task_struct :=
  c <| t_state := TASK_UNINTERRUPTIBLE |> <| t_pid := last_pid |> <| t_father := t_pid c |> <| t_counter := t_priority c |>
    <| t_signal := 0 |> <| t_alarm := 0 |> <| t_leader := 0 |> <| t_utime := 0 |> <| t_stime := 0 |>
    <| t_cutime := 0 |> <| t_cstime := 0 |> <| t_start_time := now |>.
Definition new_task (p : Z) (t : task_struct) : K unit := mod_sched (fun s => s <| tasks ::= fun l => <[p := t]> l |>).
Definition set_kernel_stack (nr v : Z) : K unit := mod_sched (fun s => s <| kernel_stack ::= fun l => upd_idx l nr v |>).
Definition set_kernel_stackbottom (nr v : Z) : K unit := mod_sched (fun s => s <| kernel_stackbottom ::= fun l => upd_idx l nr v |>).
Definition STACK_PAGES : Z := Z.shiftr KERNEL_STACK_SIZE PAGING_SHIFT.
(** The frame of the child on its kernel stack, and its saved registers. *)
Definition child_frame (nr p top : Z) : K unit :=
  let sp := top - 8 * 32 - 8 * 32 in
  mod_task p (fun t => t <| t_tss ::= fun s => s <| tss_regs ::= fun l => upd_idx l reg_sp sp |> |>) ;;;
  let! ti := gets (fun k => trap_info (k_sched k)) in
  kmemcpy sp (ti_regs ti) (8 * 32) ;;;
  kmemcpy (sp + 8 * 32) (ti_fregs ti) (8 * 32) ;;;
  mod_task p (fun t => t <| t_tss ::= fun s => s <| tss_epc := u64 (ti_epc ti + 4) |> |>) ;;;
  wr64 (sp + 8 * reg_a0) 0 ;;;
  wr64 (sp + 8 * reg_ra) fork_process_exit ;;;
  let! ra := rd64 (ti_regs ti + 8 * reg_ra) in
  wr64 (sp - 8) ra.
Definition inc_count (i : option nat) : K unit :=
  match i with Some i => mod_inode i (fun n => n <| i_count := u16 (i_count n + 1) |>) | None => skip end.
(** The references that the child shares with its father. *)
Definition share_files (p : Z) : K unit :=
  for_up 0 NR_OPEN (fun i =>
    let! t := get_task p in
    let! f := unwrap "filp index" (idx (t_filp t) i) in
    match f with
    | Some f => mod_file f (fun e => e <| f_count := u16 (f_count e + 1) |>)
    | None => skip
    end) ;;;
  let! t := cur in
  inc_count (t_pwd t) ;;;
  inc_count (t_root t) ;;;
  inc_count (t_executable t).
Definition copy_process (nr : Z) : K Z :=
  let! p := get_free_pages 5 in
  if p =? 0 then ret (- EAGAIN)
  else
    set_task_at nr (Some p) ;;;
    let! c := cur in
    let! lp := gets (fun k => last_pid (k_sched k)) in
    let! now := gets (fun k => jiffies (k_sched k)) in
    new_task p (child_of c lp now) ;;;
    let! ks := get_free_pages STACK_PAGES in
    set_kernel_stack nr ks ;;;
    set_kernel_stackbottom nr ks ;;;
    if ks =? 0 then free_pages p 5 ;;; ret (- EAGAIN)
    else
      set_kernel_stack nr (ks + KERNEL_STACK_SIZE) ;;;
      child_frame nr p (ks + KERNEL_STACK_SIZE) ;;;
      mod_task p (fun t => t <| t_page_dir_table := p + PAGE_SIZE |>) ;;;
      pte_common_init (p + PAGE_SIZE) PAGE_DIR_TABLE_NUM ;;;
      let! r := copy_mem nr p in
      if truth r then
        set_task_at nr None ;;;
        free_pages (ks + KERNEL_STACK_SIZE - KERNEL_STACK_SIZE) STACK_PAGES ;;;
        free_pages p 5 ;;;
        ret (- EAGAIN)
      else
        share_files p ;;;
        mod_task p (fun t => t <| t_state := TASK_RUNNING |>) ;;;
        gets (fun k => last_pid (k_sched k)).

(** [for(i = 0;i < NR_TASKS;i++) if(task[i] && (task[i] -> pid == last_pid)) goto repeat;] *)
Fixpoint pid_used (pid : Z) (i : Z) (n : nat) : K bool :=
  match n with
  | O => ret false
  | S m =>
      let! p := task_at i in
      match p with
      | None => pid_used pid (i + 1) m
      | Some p => let! t := get_task p in if t_pid t =? pid then ret true else pid_used pid (i + 1) m
      end
  end.
Fixpoint free_slot (i : Z) (n : nat) : K Z :=
  match n with
  | O => ret (- EAGAIN)
  | S m => let! p := task_at i in match p with None => ret i | Some _ => free_slot (i + 1) m end
  end.
Definition next_pid (lp : Z) : Z := let lp := s32 (lp + 1) in if lp <? 0 then 1 else lp.
Definition find_empty_process : K Z :=
  loop (S NR_TASKS) (fun _ =>
    mod_sched (fun s => s <| last_pid ::= next_pid |>) ;;;
    let! lp := gets (fun k => last_pid (k_sched k)) in
    let! used := pid_used lp 0 NR_TASKS in
    if used : bool then ret (inl tt) else ret (inr tt)) tt ;;;
  free_slot 1 (NR_TASKS - 1).
End Fork.

(** ** exit.c *)
Section Exit.
Context {SI : SyncInodes}.

(** [release(p)]: the slot of [p], in slots [i], [i + 1], ... *)
Fixpoint release_from (p i : Z) (n : nat) : K unit :=
  match n with
  | O => panic "trying to release non-existent task"
  | S m =>
      let! q := task_at i in
      if decide (q = Some p) then
        set_task_at i None ;;;
        free_pages p 5 ;;;
        let! kb := gets (fun k => idx (kernel_stackbottom (k_sched k)) i) in
        let! kb := unwrap "kernel_stackbottom index" kb in
        free_pages kb STACK_PAGES ;;;
        set_kernel_stack i 0 ;;;
        set_kernel_stackbottom i 0 ;;;
        let! _ := schedule in
        skip
      else release_from p (i + 1) m
  end.
Definition release (p : option Z) : K unit :=
  match p with None => skip | Some p => release_from p 1 (NR_TASKS - 1) end.

(** [1 << (sig - 1)], an [int]. *)
Definition sigbit (sig : Z) : Z := s32 (Z.shiftl 1 (sig - 1)).
Definition add_signal (p sig : Z) : K unit := mod_task p (fun t => t <| t_signal := Z.lor (t_signal t) (sigbit sig) |>).
Definition send_sig (sig : Z) (p : option Z) (priv : bool) : K Z :=
  match p with
  | None => ret (- EINVAL)
  | Some p =>
      if (sig <? 1) || (32 <? sig) then ret (- EINVAL)
      else
        let! c := cur in
        let! t := get_task p in
        let! su := suser in
        if priv || (t_euid c =? t_euid t) || su then add_signal p sig ;;; ret 0 else ret (- EPERM)
  end.
Definition kill_session : K unit :=
  for_tasks (fun p =>
    let! t := get_task p in
    let! c := cur in
    when (t_session t =? t_session c) (add_signal p SIGHUP)).

(** [if(err = send_sig(sig,*p,priv)) retval = err;] *)
Definition send_err (sig : Z) (p : option Z) (priv : bool) (retval : Z) : K Z :=
  let! err := send_sig sig p priv in
  ret (if truth err then err else retval).
(** [while(--p > &FIRST_TASK)], with [visit] for the body. *)
Fixpoint kill_loop (visit : option Z -> Z -> K Z) (i : Z) (n : nat) (retval : Z) : K Z :=
  match n with
  | O => ret retval
  | S m => let! p := task_at i in let! r := visit p retval in kill_loop visit (i - 1) m r
  end.
(** The bodies: [if(( *p) && ...)], and the one for [pid == -1], which does not test for NULL. *)
Definition kill_if (sig : Z) (priv : bool) (test : task_struct -> task_struct -> bool) (p : option Z) (retval : Z) : K Z :=
  match p with
  | None => ret retval
  | Some q =>
      let! t := get_task q in
      let! c := cur in
      if test c t then send_err sig p priv retval else ret retval
  end.
Definition kill_any (sig : Z) (p : option Z) (retval : Z) : K Z := send_err sig p false retval.
Definition LAST : Z := Z.of_nat NR_TASKS - 1.
(** The body of the loop that [pid] selects. *)
Definition visit_of (pid sig : Z) : option Z -> Z -> K Z :=
  if pid =? 0 then kill_if sig true (fun c t => t_pgrp t =? t_pid c)
  else if 0 <? pid then kill_if sig false (fun c t => t_pid t =? pid)
  else if pid =? -1 then kill_any sig
  else kill_if sig false (fun c t => t_pgrp t =? s32 (- pid)).
Definition sys_kill (pid sig : Z) : K Z := kill_loop (visit_of pid sig) LAST (NR_TASKS - 1) 0.

(** [tell_father]: the task with number [pid], if there is one, gets [SIGCHLD]. *)
Fixpoint find_father (pid i : Z) (n : nat) : K (option Z) :=
  match n with
  | O => ret None
  | S m =>
      let! p := task_at i in
      match p with
      | None => find_father pid (i + 1) m
      | Some p => let! t := get_task p in if t_pid t =? pid then ret (Some p) else find_father pid (i + 1) m
      end
  end.
Definition tell_father (pid : Z) : K unit :=
  let! f := if truth pid then find_father pid 0 NR_TASKS else ret None in
  match f with
  | Some p => add_signal p SIGCHLD
  | None => let! self := gets (fun k => current (k_sched k)) in release (Some self)
  end.

(** [do_exit]: the children of the caller become children of [init]. *)
Definition give_away : K unit :=
  for_up 0 NR_TASKS (fun i =>
    let! p := task_at i in
    match p with
    | None => skip
    | Some p =>
        let! t := get_task p in
        let! c := cur in
        when (t_father t =? t_pid c) (
          mod_task p (fun t => t <| t_father := 1 |>) ;;;
          when (t_state t =? TASK_ZOMBIE) (
            let! init := task_at 1 in
            let! _ := send_sig SIGCHLD init true in
            skip))
    end).
Definition close_files : K unit :=
  for_up 0 NR_OPEN (fun i =>
    let! t := cur in
    let! f := unwrap "filp index" (idx (t_filp t) i) in
    match f with Some _ => let! _ := sys_close i in skip | None => skip end).
Definition put_inodes : K unit :=
  let! t := cur in
  iput (t_pwd t) ;;;
  mod_cur (fun t => t <| t_pwd := None |>) ;;;
  let! t := cur in
  iput (t_root t) ;;;
  mod_cur (fun t => t <| t_root := None |>) ;;;
  let! t := cur in
  iput (t_executable t) ;;;
  mod_cur (fun t => t <| t_executable := None |>).
Definition do_exit (code : Z) : K unit :=
  let! c := cur in
  when (truth (t_page_dir_table c)) (free_page_tables (t_page_dir_table c) (t_page_dir_table c) PAGE_DIR_TABLE_NUM) ;;;
  give_away ;;;
  close_files ;;;
  put_inodes ;;;
  let! c := cur in
  when (truth (t_leader c) && (0 <=? t_tty c)) (mod_tty (t_tty c) (fun t => t <| tt_pgrp := 0 |>)) ;;;
  when (truth (t_leader c)) kill_session ;;;
  mod_cur (fun t => t <| t_state := TASK_ZOMBIE |>) ;;;
  mod_cur (fun t => t <| t_exit_code := code |>) ;;;
  let! c := cur in
  tell_father (t_father c) ;;;
  let! _ := schedule in
  skip.
Definition sys_exit (error_code : Z) : K Z := do_exit (s32 (Z.shiftl (Z.land error_code 0xFF) 8)) ;;; ret (-1).

(** *** [sys_waitpid] *)
Definition WNOHANG : Z := 1.
Definition WUNTRACED : Z := 2.
(** The tests of the loop on [*p], a task that is not the caller. *)
Definition awaited (pid : Z) (c t : task_struct) : bool :=
  (t_father t =? t_pid c) &&
  (if 0 <? pid then t_pid t =? pid
   else if pid =? 0 then t_pgrp t =? t_pgrp c
   else if negb (pid =? -1) then t_pgrp t =? s64 (- pid) else true).
(** After [release], which schedules: what remains to be done for a zombie. *)
Definition waitpid_reaped (stat_addr flag code : Z) : K Z := put_fs_long code stat_addr ;;; ret flag.
(** One pass over the tasks: it returns to the caller of [waitpid] ([inr]), or ends with [flag]. *)
Fixpoint waitpid_scan (pid stat_addr options i : Z) (n : nat) (flag : Z) : K (Z + Z) :=
  match n with
  | O => ret (inl flag)
  | S m =>
      let! p := task_at i in
      let! self := gets (fun k => current (k_sched k)) in
      match p with
      | None => waitpid_scan pid stat_addr options (i - 1) m flag
      | Some q =>
          if q =? self then waitpid_scan pid stat_addr options (i - 1) m flag
          else
            let! t := get_task q in
            let! c := cur in
            if negb (awaited pid c t) then waitpid_scan pid stat_addr options (i - 1) m flag
            else if t_state t =? TASK_STOPPED then
              if negb (truth (Z.land options WUNTRACED)) then waitpid_scan pid stat_addr options (i - 1) m flag
              else put_fs_long 0x7F stat_addr ;;; ret (inr (t_pid t))
            else if t_state t =? TASK_ZOMBIE then
              mod_cur (fun c => c <| t_cutime := s64 (t_cutime c + t_utime t) |>) ;;;
              mod_cur (fun c => c <| t_cstime := s64 (t_cstime c + t_stime t) |>) ;;;
              release (Some q) ;;;
              let! r := waitpid_reaped stat_addr (t_pid t) (t_exit_code t) in
              ret (inr r)
            else waitpid_scan pid stat_addr options (i - 1) m 1
      end
  end.
(** After [schedule]: round again ([inl]), or interrupted. *)
Definition waitpid_woken : K (unit + Z) :=
  mod_cur (fun t => t <| t_signal := Z.land (t_signal t) (Z.lnot (Z.shiftl 1 SIGCHLD - 1)) |>) ;;;
  let! c := cur in
  ret (if truth (t_signal c) then inr (- EINTR) else inl tt).
Definition waitpid_round (pid stat_addr options : Z) : K (unit + Z) :=
  let! r := waitpid_scan pid stat_addr options LAST (NR_TASKS - 1) 0 in
  match r with
  | inr v => ret (inr v)
  | inl flag =>
      if truth flag then
        if truth (Z.land options WNOHANG) then ret (inr 0)
        else
          mod_cur (fun t => t <| t_state := TASK_INTERRUPTIBLE |>) ;;;
          let! _ := schedule in
          waitpid_woken
      else ret (inr (- ECHILD))
  end.
Definition sys_waitpid (fuel : nat) (pid stat_addr options : Z) : K Z :=
  verify_area stat_addr 4 ;;;
  loop fuel (fun _ => waitpid_round pid stat_addr options) tt.
End Exit.

(** ** [find_empty_process] finds a new process number *)

(** The table of tasks is in order. *)
Record table_ok (k : kernel) : Prop := mkTableOk {
  to_length : length (task (k_sched k)) = NR_TASKS;
  to_live : forall i p, idx (task (k_sched k)) i = Some (Some p) -> exists t, tasks (k_sched k) !! p = Some t }.
Definition has_pid (k : kernel) (pid : Z) : Prop := exists i t, task_of k i = Some t /\ t_pid t = pid.
Lemma table_slot k i : table_ok k -> 0 <= i < Z.of_nat NR_TASKS -> exists p, idx (task (k_sched k)) i = Some p.
Proof. intros H Hi. apply idx_is_Some. by rewrite (to_length _ H). Qed.
Lemma task_of_bound k i t : table_ok k -> task_of k i = Some t -> 0 <= i < Z.of_nat NR_TASKS.
Proof.
  intros H. unfold task_of. destruct (idx _ i) eqn:E; [|done]. intros _. apply idx_Some_bound in E. by rewrite (to_length _ H) in E.
Qed.
Lemma pid_used_spec k pid n : table_ok k -> forall i, 0 <= i -> i + Z.of_nat n = Z.of_nat NR_TASKS ->
  exists b, pid_used pid i n k = Ok b k /\ (b = true <-> exists j t, i <= j /\ task_of k j = Some t /\ t_pid t = pid).
Proof.
  intros Hok. induction n as [|n IH]; intros i Hi Hn; cbn [pid_used].
  - exists false. split; [done|]. split; [done|]. intros (j&t&Hj&Ht&_). apply task_of_bound in Ht; [lia|done].
  - destruct (table_slot k i Hok ltac:(lia)) as [p Hp]. erewrite bind_Ok by by apply task_at_Ok.
    destruct (IH (i + 1) ltac:(lia) ltac:(lia)) as (b&Eb&Hb).
    destruct p as [p|].
    + destruct (to_live _ Hok _ _ Hp) as [t Ht]. erewrite bind_Ok by by apply get_task_Ok.
      assert (task_of k i = Some t) as Hti by (unfold task_of; by rewrite Hp).
      destruct (Z.eqb_spec (t_pid t) pid) as [E|E].
      * exists true. split; [done|]. split; [|done]. intros _. by exists i, t.
      * exists b. split; [done|]. rewrite Hb. split; intros (j&tj&Hj&Htj&Hpid); exists j, tj; (split; [|done]); [lia|].
        destruct (decide (j = i)) as [->|]; [congruence|lia].
    + exists b. split; [done|]. rewrite Hb. split; intros (j&tj&Hj&Htj&Hpid); exists j, tj; (split; [|done]); [lia|].
      destruct (decide (j = i)) as [->|]; [|lia]. unfold task_of in Htj. by rewrite Hp in Htj.
Qed.
(** The process numbers that are tried, one after the other. *)
Definition candidate (lp : Z) (j : nat) : Z := Nat.iter j next_pid lp.
Lemma candidate_value lp j : 0 <= lp < 2 ^ 31 -> Z.of_nat j < 2 ^ 30 ->
  candidate lp j = if lp + Z.of_nat j <? 2 ^ 31 then lp + Z.of_nat j else lp + Z.of_nat j - (2 ^ 31 - 1).
Proof.
  intros Hlp. induction j as [|j IH]; intros Hj.
  - change (candidate lp 0) with lp. destruct (Z.ltb_spec (lp + Z.of_nat 0) (2 ^ 31)); lia.
  - change (candidate lp (S j)) with (next_pid (candidate lp j)). rewrite IH by lia. unfold next_pid.
    destruct (Z.ltb_spec (lp + Z.of_nat j) (2 ^ 31)), (Z.ltb_spec (lp + Z.of_nat (S j)) (2 ^ 31)); try lia.
    + rewrite s32_small by lia. destruct (Z.ltb_spec (lp + Z.of_nat j + 1) 0); lia.
    + assert (lp + Z.of_nat j + 1 = 2 ^ 31) as E by lia. rewrite E. change (s32 (2 ^ 31) <? 0) with true. cbv iota. lia.
    + rewrite s32_small by lia. destruct (Z.ltb_spec (lp + Z.of_nat j - (2 ^ 31 - 1) + 1) 0); lia.
Qed.
Lemma candidate_range lp j : 0 <= lp < 2 ^ 31 -> Z.of_nat j < 2 ^ 30 -> (0 < j)%nat -> 1 <= candidate lp j < 2 ^ 31.
Proof.
  intros Hlp Hj H0. rewrite candidate_value by done. destruct (Z.ltb_spec (lp + Z.of_nat j) (2 ^ 31)); lia.
Qed.
Lemma candidate_inj lp i j : 0 <= lp < 2 ^ 31 -> (0 < i <= 100)%nat -> (0 < j <= 100)%nat -> candidate lp i = candidate lp j -> i = j.
Proof.
  intros Hlp Hi Hj. rewrite !candidate_value by lia.
  destruct (Z.ltb_spec (lp + Z.of_nat i) (2 ^ 31)), (Z.ltb_spec (lp + Z.of_nat j) (2 ^ 31)); lia.
Qed.
(** 64 tasks cannot have 65 process numbers. *)
Lemma candidate_free k lp : table_ok k -> 0 <= lp < 2 ^ 31 -> exists j, (1 <= j <= S NR_TASKS)%nat /\ ~ has_pid k (candidate lp j).
Proof.
  intros Hok Hlp.
  set (pids := (fun i => default (-1) (t_pid <$> task_of k (Z.of_nat i))) <$> seq 0 NR_TASKS).
  set (cands := candidate lp <$> seq 1 (S NR_TASKS)).
  destruct (decide (Forall (fun c => c ∈ pids) cands)) as [Hall|Hno].
  - exfalso. assert (cands ⊆ pids) as Hsub by (intros x Hx; by apply (proj1 (Forall_forall _ _) Hall)).
    assert (length pids < length cands)%nat as Hlt by (unfold pids, cands; rewrite !length_fmap, !length_seq; lia).
    destruct (list_pigeonhole _ _ Hsub Hlt) as (i&j&x&Hij&Hi&Hj).
    unfold cands in Hi, Hj. apply list_lookup_fmap_Some in Hi as (a&->&Ha), Hj as (b&Eb&Hb).
    apply lookup_seq in Ha as [-> Ha], Hb as [-> Hb]. apply candidate_inj in Eb; [lia|done|unfold NR_TASKS in *; lia..].
  - apply not_Forall_Exists in Hno; [|apply _]. apply Exists_exists in Hno as (c&Hc&Hnp). apply list_elem_of_fmap in Hc as (j&->&Hj).
    apply elem_of_seq in Hj. exists j. split; [lia|]. intros (i&t&Ht&Hp). apply Hnp. apply list_elem_of_fmap.
    pose proof (task_of_bound k i t Hok Ht). exists (Z.to_nat i). rewrite Z2Nat.id by lia. rewrite Ht. split; [done|]. apply elem_of_seq. lia.
Qed.
Definition set_last_pid (lp : Z) (k : kernel) : kernel := k <| k_sched ::= fun s => s <| last_pid := lp |> |>.
Lemma find_pid_loop k fuel : forall lp, table_ok k -> (exists j, (1 <= j <= fuel)%nat /\ ~ has_pid k (candidate lp j)) ->
  exists j, (1 <= j <= fuel)%nat /\ ~ has_pid k (candidate lp j) /\
  loop fuel (fun _ : unit =>
    mod_sched (fun s => s <| last_pid ::= next_pid |>) ;;;
    let! lp := gets (fun k => last_pid (k_sched k)) in
    let! used := pid_used lp 0 NR_TASKS in
    if used : bool then ret (inl tt) else ret (inr tt)) tt (set_last_pid lp k) = Ok tt (set_last_pid (candidate lp j) k).
Proof.
  induction fuel as [|fuel IH]; intros lp Hok (j&Hj&Hfree); [lia|]. rewrite loop_S, bind_assoc.
  set (k1 := set_last_pid (next_pid lp) k).
  erewrite (bind_Ok _ _ _ tt k1) by (unfold k1; by destruct k as [? ? ? [] ? ?]). rewrite bind_assoc.
  erewrite bind_Ok by reflexivity. change (last_pid (k_sched k1)) with (next_pid lp). rewrite bind_assoc.
  destruct (pid_used_spec k1 (next_pid lp) NR_TASKS ltac:(by destruct Hok; split) 0 ltac:(lia) ltac:(lia)) as (b&Eb&Hb).
  erewrite bind_Ok by exact Eb.
  assert (b = true <-> has_pid k (next_pid lp)) as Hb'.
  { rewrite Hb. split; [intros (i&t&_&H); by exists i, t|]. intros (i&t&Ht&Hp). exists i, t.
    split; [|done]. apply task_of_bound in Ht; [lia|done]. }
  destruct b.
  - erewrite bind_Ok by reflexivity. cbv iota. destruct (IH (next_pid lp) Hok) as (j'&Hj'&Hfree'&E).
    + destruct j as [|[|j]]; [lia|exfalso; apply Hfree; by apply Hb'|]. exists (S j). split; [lia|].
      unfold candidate in *. by rewrite <- Nat.iter_succ_r.
    + exists (S j'). unfold candidate in *. rewrite Nat.iter_succ_r. by split_and!; [lia|lia| |].
  - exists 1%nat. split; [lia|]. split; [|done]. intros H. apply Hb' in H. done.
Qed.
Lemma free_slot_spec k n : table_ok k -> forall i, 1 <= i -> i + Z.of_nat n = Z.of_nat NR_TASKS ->
  exists r, free_slot i n k = Ok r k /\
    (i <= r < Z.of_nat NR_TASKS /\ idx (task (k_sched k)) r = Some None \/
     r = - EAGAIN /\ forall j, i <= j < Z.of_nat NR_TASKS -> idx (task (k_sched k)) j <> Some None).
Proof.
  intros Hok. induction n as [|n IH]; intros i Hi Hn; cbn [free_slot].
  - exists (- EAGAIN). split; [done|]. right. split; [done|lia].
  - destruct (table_slot k i Hok ltac:(lia)) as [[p|] Hp]; erewrite bind_Ok by by apply task_at_Ok.
    + destruct (IH (i + 1) ltac:(lia) ltac:(lia)) as (r&E&H). exists r. split; [done|]. destruct H as [[? ?]|[-> H]]; [left; split; [lia|done]|right].
      split; [done|]. intros j Hj. destruct (decide (j = i)) as [->|]; [congruence|apply H; lia].
    + exists i. split; [done|]. left. split; [lia|done].
Qed.
Lemma find_empty_process_spec k : table_ok k -> 0 <= last_pid (k_sched k) < 2 ^ 31 ->
  runs find_empty_process k (fun r k' => exists lp, k' = set_last_pid lp k /\ 1 <= lp < 2 ^ 31 /\ ~ has_pid k lp /\
    (slots r /\ idx (task (k_sched k)) r = Some None \/
     r = - EAGAIN /\ forall j, slots j -> idx (task (k_sched k)) j <> Some None)).
Proof.
  intros Hok Hlp. unfold find_empty_process. set (lp := last_pid (k_sched k)) in *.
  destruct (find_pid_loop k (S NR_TASKS) lp Hok (candidate_free k lp Hok Hlp)) as (j&Hj&Hfree&E).
  assert (set_last_pid lp k = k) as Ek by (unfold lp; by destruct k as [? ? ? [] ? ?]). rewrite Ek in E.
  eapply runs_step; [exact E|]. set (k1 := set_last_pid (candidate lp j) k).
  destruct (free_slot_spec k1 (NR_TASKS - 1) ltac:(by destruct Hok; split) 1 ltac:(lia) ltac:(unfold NR_TASKS; lia)) as (r&Er&Hr).
  unfold runs. rewrite Er. exists (candidate lp j). split; [done|]. split; [apply candidate_range; [done|unfold NR_TASKS in Hj; lia|lia]|].
  split; [done|]. unfold slots. exact Hr.
Qed.

(** ** What [sys_kill] does *)

(** The tasks that [kill(pid, sig)] is for, and those that the caller [c] may send a signal to. *)
Definition wanted (pid : Z) (c t : task_struct) : bool :=
  if pid =? 0 then t_pgrp t =? t_pid c
  else if 0 <? pid then t_pid t =? pid
  else if pid =? -1 then true
  else t_pgrp t =? s32 (- pid).
Definition permitted (pid : Z) (c t : task_struct) : bool := (pid =? 0) || (t_euid c =? t_euid t) || (t_euid c =? 0).
Definition killed (pid sig : Z) (c t : task_struct) : task_struct :=
  if wanted pid c t && permitted pid c t then t <| t_signal := Z.lor (t_signal t) (sigbit sig) |> else t.
(** What [send_sig] says of one slot, NULL for [None]. *)
Definition kill_err (pid : Z) (c : task_struct) (o : option task_struct) : Z :=
  match o with
  | None => if pid =? -1 then - EINVAL else 0
  | Some t => if wanted pid c t && negb (permitted pid c t) then - EPERM else 0
  end.
Lemma set_task_same k p t : tasks (k_sched k) !! p = Some t -> set_task p t k = k.
Proof.
  intros H. destruct k as [a b c [T s1 s2 s3 s4 s5 s6 s7 s8 s9 s10 s11 s12 s13 s14] m y d].
  exact (f_equal (fun T => mkKernel a b c (mkSched T s1 s2 s3 s4 s5 s6 s7 s8 s9 s10 s11 s12 s13 s14) m y d) (insert_id T p t H)).
Qed.
Lemma send_sig_spec k sig p priv c t : 1 <= sig <= 32 ->
  tasks (k_sched k) !! current (k_sched k) = Some c -> tasks (k_sched k) !! p = Some t ->
  send_sig sig (Some p) priv k =
    if priv || (t_euid c =? t_euid t) || (t_euid c =? 0) then Ok 0 (set_task p (t <| t_signal := Z.lor (t_signal t) (sigbit sig) |>) k)
    else Ok (- EPERM) k.
Proof.
  intros Hs Hc Ht. unfold send_sig. assert ((sig <? 1) || (32 <? sig) = false) as -> by blia.
  erewrite bind_Ok by by apply cur_Ok. erewrite bind_Ok by by apply get_task_Ok. unfold suser.
  rewrite bind_assoc. erewrite bind_Ok by by apply cur_Ok. erewrite bind_Ok by reflexivity.
  destruct (_ || _); [|done]. unfold add_signal. by erewrite bind_Ok by by apply mod_task_Ok.
Qed.
Lemma send_err_spec k sig p priv c t r pid : 1 <= sig <= 32 -> priv = (pid =? 0) -> wanted pid c t = true ->
  tasks (k_sched k) !! current (k_sched k) = Some c -> tasks (k_sched k) !! p = Some t ->
  send_err sig (Some p) priv r k =
    Ok (if truth (kill_err pid c (Some t)) then kill_err pid c (Some t) else r) (set_task p (killed pid sig c t) k).
Proof.
  intros Hs -> Hw Hc Ht. unfold send_err, kill_err, killed. rewrite Hw. cbn [andb].
  pose proof (send_sig_spec k sig p (pid =? 0) c t Hs Hc Ht) as E. unfold permitted. destruct (_ || _); erewrite bind_Ok by exact E.
  - done.
  - by rewrite set_task_same.
Qed.
(** One slot. *)
Lemma visit_spec k pid sig p c o r : 1 <= sig <= 32 -> tasks (k_sched k) !! current (k_sched k) = Some c ->
  match p with None => o = None | Some q => o = tasks (k_sched k) !! q /\ is_Some o end ->
  visit_of pid sig p r k = Ok (if truth (kill_err pid c o) then kill_err pid c o else r)
    (match p, o with Some q, Some t => set_task q (killed pid sig c t) k | _, _ => k end).
Proof.
  intros Hs Hc Ho. unfold visit_of. destruct p as [q|].
  - destruct Ho as [Eo [t ->]]. symmetry in Eo.
    assert (forall priv test, priv = (pid =? 0) -> (test c t = wanted pid c t) ->
      kill_if sig priv test (Some q) r k = Ok (if truth (kill_err pid c (Some t)) then kill_err pid c (Some t) else r) (set_task q (killed pid sig c t) k)) as Hif.
    { intros priv test Hp Hw. unfold kill_if. erewrite bind_Ok by by apply get_task_Ok. erewrite bind_Ok by by apply cur_Ok.
      rewrite Hw. destruct (wanted pid c t) eqn:E; [by apply send_err_spec|].
      unfold kill_err, killed. rewrite E. cbn. by rewrite set_task_same. }
    unfold wanted in Hif. destruct (Z.eqb_spec pid 0) as [->|]; [by apply Hif|]. destruct (0 <? pid) eqn:Ep; [by apply Hif|].
    destruct (Z.eqb_spec pid (-1)) as [->|]; [|by apply Hif]. by apply send_err_spec.
  - subst o. unfold kill_err. destruct (Z.eqb_spec pid 0) as [->|]; [done|]. destruct (Z.ltb_spec 0 pid); [|by destruct (Z.eqb_spec pid (-1))].
    assert (pid =? -1 = false) as -> by blia. done.
Qed.

(** The slots above [i] have been visited. *)
Definition killed_above (i pid sig : Z) (c : task_struct) (k k' : kernel) : Prop :=
  exists T, k' = k <| k_sched ::= fun s => s <| tasks := T |> |> /\
    (forall j p t, slots j -> idx (task (k_sched k)) j = Some (Some p) -> tasks (k_sched k) !! p = Some t ->
       T !! p = Some (if i <? j then killed pid sig c t else t)) /\
    (forall p, (forall j, slots j -> idx (task (k_sched k)) j <> Some (Some p)) -> T !! p = tasks (k_sched k) !! p).
Lemma killed_above_cur i pid sig c k k' : killed_above i pid sig c k k' ->
  tasks (k_sched k) !! current (k_sched k) = Some c ->
  exists c', tasks (k_sched k') !! current (k_sched k') = Some c' /\ t_pid c' = t_pid c /\ t_euid c' = t_euid c.
Proof.
  intros (T&->&H1&H2) Hc. rsimpl.
  destruct (decide (Exists (fun j => idx (task (k_sched k)) j = Some (Some (current (k_sched k)))) (seqZ 1 63))) as [He|Hn].
  - apply Exists_exists in He as (j&Hj&Hp). apply slots_seqZ in Hj. rewrite (H1 j _ c Hj Hp Hc). eexists. split; [done|].
    destruct (i <? j); [|done]. unfold killed. by destruct (_ && _).
  - exists c. rewrite H2; [done|]. intros j Hj Hp. apply Hn. apply Exists_exists. exists j. split; [by apply slots_seqZ|done].
Qed.
Lemma killed_same pid sig c c' t : t_pid c' = t_pid c -> t_euid c' = t_euid c -> killed pid sig c' t = killed pid sig c t.
Proof. intros E1 E2. unfold killed, wanted, permitted. by rewrite E1, E2. Qed.
Lemma kill_err_same pid c c' o : t_pid c' = t_pid c -> t_euid c' = t_euid c -> kill_err pid c' o = kill_err pid c o.
Proof. intros E1 E2. unfold kill_err, wanted, permitted. by rewrite E1, E2. Qed.
Lemma ltb_pred i j : j <> i -> (i - 1 <? j) = (i <? j).
Proof. intros H. blia. Qed.
(** One step of the loop. *)
Lemma kill_step k k' pid sig c i r : sched_ok k -> 1 <= sig <= 32 -> slots i ->
  tasks (k_sched k) !! current (k_sched k) = Some c -> killed_above i pid sig c k k' ->
  let e := kill_err pid c (task_of k i) in
  exists k'', (let! p := task_at i in visit_of pid sig p r) k' = Ok (if truth e then e else r) k'' /\ killed_above (i - 1) pid sig c k k''.
Proof.
  intros Hok Hs Hi Hc Ha e. destruct (killed_above_cur _ _ _ _ _ _ Ha Hc) as (c'&Hc'&E1&E2). destruct Ha as (T&->&H1&H2).
  destruct (so_slot k i Hok Hi) as [p Hp]. erewrite bind_Ok by by apply task_at_Ok.
  unfold e, task_of. rewrite Hp. destruct p as [p|].
  - destruct (so_live _ Hok _ _ Hp) as [t Ht]. rewrite Ht.
    assert (T !! p = Some t) as HT by (rewrite (H1 i p t Hi Hp Ht); by rewrite Z.ltb_irrefl).
    eexists. split. { rewrite (visit_spec _ pid sig (Some p) c' (Some t)) by (done || (split; [by symmetry|done])).
      rewrite (kill_err_same pid c c') by done. by rewrite (killed_same pid sig c c') by done. }
    exists (<[p := killed pid sig c t]> T). split; [by destruct k as [? ? ? [] ? ?]|]. split.
    + intros j q u Hj Hq Hu. destruct (decide (q = p)) as [->|Hne].
      * assert (j = i) as -> by (by apply (so_distinct _ Hok j i p)). rewrite lookup_insert_eq.
        assert (i - 1 <? i = true) as -> by blia. congruence.
      * rewrite lookup_insert_ne by done. rewrite (H1 j q u Hj Hq Hu), ltb_pred; [done|]. intros ->. congruence.
    + intros q Hq. rewrite lookup_insert_ne; [by apply H2|]. intros ->. by apply (Hq i).
  - eexists. split. { rewrite (visit_spec _ pid sig None c' None) by done. by rewrite (kill_err_same pid c c') by done. }
    exists T. split; [done|]. split; [|done]. intros j q u Hj Hq Hu. rewrite (H1 j q u Hj Hq Hu), ltb_pred; [done|]. intros ->. congruence.
Qed.
(** The value that is returned: the error of the first slot that has one, [r] if none has. *)
Definition first_error (err : Z -> Z) (i r r' : Z) : Prop :=
  (r' = r /\ forall j, 1 <= j <= i -> err j = 0) \/
  exists j, 1 <= j <= i /\ r' = err j /\ err j <> 0 /\ forall j', 1 <= j' < j -> err j' = 0.
Lemma first_error_step err i r r' : 1 <= i -> first_error err (i - 1) (if truth (err i) then err i else r) r' -> first_error err i r r'.
Proof.
  unfold truth. intros Hi [[-> H]|(j&Hj&H)]; [|right; exists j; split; [lia|done]].
  destruct (Z.eqb_spec (err i) 0) as [E|E]; cbn; [left|right].
  - split; [done|]. intros j Hj. destruct (decide (j = i)) as [->|]; [done|]. apply H. lia.
  - exists i. split_and!; try done; try lia. intros j' Hj'. apply H. lia.
Qed.
Lemma kill_loop_spec k pid sig c : sched_ok k -> 1 <= sig <= 32 -> tasks (k_sched k) !! current (k_sched k) = Some c ->
  forall n r k', (n < NR_TASKS)%nat -> killed_above (Z.of_nat n) pid sig c k k' ->
  runs (kill_loop (visit_of pid sig) (Z.of_nat n) n r) k' (fun r' k'' => killed_above 0 pid sig c k k'' /\
    first_error (fun j => kill_err pid c (task_of k j)) (Z.of_nat n) r r').
Proof.
  intros Hok Hs Hc. induction n as [|n IH]; intros r k' Hn Ha; cbn [kill_loop].
  { apply runs_ret. split; [done|]. left. split; [done|lia]. }
  destruct (kill_step k k' pid sig c (Z.of_nat (S n)) r Hok Hs ltac:(unfold slots; lia) Hc Ha) as (k''&E&Ha').
  apply bind_Ok_inv in E as (p&k1&E1&E2). eapply runs_step; [exact E1|]. eapply runs_step; [exact E2|]. replace (Z.of_nat (S n) - 1) with (Z.of_nat n) in * by lia.
  eapply runs_mono; [|apply IH; [lia|done]]. intros r' k3 [H1 H2]. split; [done|]. apply first_error_step; [lia|].
  by replace (Z.of_nat (S n) - 1) with (Z.of_nat n) by lia.
Qed.
Lemma sys_kill_spec k pid sig c : sched_ok k -> 1 <= sig <= 32 -> tasks (k_sched k) !! current (k_sched k) = Some c ->
  runs (sys_kill pid sig) k (fun r k' => all_tasks (killed pid sig c) k k' /\
    first_error (fun j => kill_err pid c (task_of k j)) 63 0 r).
Proof.
  intros Hok Hs Hc. change (sys_kill pid sig) with (kill_loop (visit_of pid sig) (Z.of_nat 63) 63 0).
  eapply runs_mono; [|apply (kill_loop_spec k pid sig c Hok Hs Hc 63 0 k); [unfold NR_TASKS; lia|]].
  - intros r k' [(T&->&H1&H2) H]. split; [|done]. exists T. split; [done|]. split; [|done]. intros j p t Hj Hp Ht.
    rewrite (H1 j p t Hj Hp Ht). unfold slots in Hj. assert (0 <? j = true) as -> by blia. done.
  - exists (tasks (k_sched k)). split; [by destruct k as [? ? ? [] ? ?]|]. split; [|done]. intros j p t Hj Hp Ht.
    unfold slots, NR_TASKS in Hj. assert (Z.of_nat 63 <? j = false) as -> by blia. done.
Qed.

Module ProcessProps.


(** C28: [find_empty_process] terminates and its process number is new.  It tries at most 65 numbers, one
    more than there are tasks; the number it stores in [last_pid] is positive (the [int] wraps round to
    1) and no task has it.  It returns a free slot other than slot 0, or [-EAGAIN] if there is none, and
    changes nothing else. *)
Theorem find_empty_process_unique k : table_ok k -> 0 <= last_pid (k_sched k) < 2 ^ 31 ->
  runs find_empty_process k (fun r k' => exists lp, k' = set_last_pid lp k /\ 1 <= lp < 2 ^ 31 /\ ~ has_pid k lp /\
    (slots r /\ idx (task (k_sched k)) r = Some None \/
     r = - EAGAIN /\ forall j, slots j -> idx (task (k_sched k)) j <> Some None)).
Proof. apply find_empty_process_spec. Qed.

(** The number after the largest [int] is 1, and task 1 has it. *)
Definition demo_wrap : kernel := set_last_pid (2 ^ 31 - 1) SchedProps.demo_sched.
Lemma demo_wrap_ok : table_ok demo_wrap.
Proof. destruct SchedProps.demo_sched_ok as [H1 H2 _ _ _]. by split. Qed.
Lemma find_empty_process_unique_witness :
  runs find_empty_process demo_wrap (fun r k' => 1 <= last_pid (k_sched k') /\ ~ has_pid demo_wrap (last_pid (k_sched k'))).
Proof.
  eapply runs_mono; [|apply (find_empty_process_unique demo_wrap demo_wrap_ok); split; vm_compute; congruence].
  intros r k' (lp&->&[H1 _]&H2&_). split; [exact H1|exact H2].
Defined.

(** C24: [kill] sends a signal of 1 to 32 to the right tasks and to no others.  The signal bit is set in exactly
    those tasks of the slots 1 to 63 that the number [pid] means (the group of the caller for 0, the
    task, all of them for -1, the group [-pid]) and that the caller may signal (the same effective
    user, the super-user, or its own group); nothing else is changed.  The result is the error of the
    lowest slot that has one: [-EPERM] for a task that may not be signalled and, for [pid = -1], also
    [-EINVAL] for an empty slot; 0 if there is none. *)
Theorem sys_kill_delivers k pid sig c : sched_ok k -> 1 <= sig <= 32 -> tasks (k_sched k) !! current (k_sched k) = Some c ->
  runs (sys_kill pid sig) k (fun r k' => all_tasks (killed pid sig c) k k' /\
    first_error (fun j => kill_err pid c (task_of k j)) 63 0 r).
Proof. apply sys_kill_spec. Qed.
Lemma sys_kill_delivers_witness :
  runs (sys_kill 2 SIGALRM) SchedProps.demo_sched (fun r k' => t_signal <$> tasks (k_sched k') !! 8192 = Some 8192).
Proof.
  eapply runs_mono; [|apply (sys_kill_delivers SchedProps.demo_sched 2 SIGALRM zero_task);
    [apply SchedProps.demo_sched_ok|split; vm_compute; congruence|reflexivity]].
  intros r k' [(T&->&H1&_) _]. change (t_signal <$> T !! 8192 = Some 8192).
  rewrite (H1 2 8192 SchedProps.demo_task2); [reflexivity|split; vm_compute; congruence|reflexivity|reflexivity].
Defined.
End ProcessProps.
