(* ===== verification/SysCalls.v ===== *)
(** * Signals and identity (kernel/signal.c, kernel/sys.c)

    The signal actions of a process, the frame that [do_signal] prepares for a handler, and the system
    calls of sys.c that read or change what a process is.  [mem_copy_from_kernel] and
    [mem_copy_to_kernel] copy only the first byte of their source, so a copy of a variable of the
    kernel is given by the value of its first byte. *)
From Stdlib Require Import ZArith Lia String.
From stdpp Require Import base list gmap.
From S2P Require Import Prelude State Pte PageAlloc PageTable BlockIO Buffer BufferCache BufferInit InodeIO Bitmap Inode PageFault UserMem Namei Sched Tty FileIO OpenFiles Process.
Open Scope Z_scope.

Section SysCalls.
Context {SI : SyncInodes}.

(** ** signal.c *)
Definition SA_NOMASK : Z := 0x40000000.
Definition SA_ONESHOT : Z := 0x80000000.
Definition SIG_IGN : Z := 1.
Definition SIZEOF_SIGACTION : Z := 24.
Definition sys_sgetmask : K Z := let! t := cur in ret (s32 (t_blocked t)).
Definition sys_ssetmask (newmask : Z) : K Z :=
  let! t := cur in
  mod_cur (fun t => t <| t_blocked := Z.land newmask (Z.lnot (Z.shiftl 1 (SIGKILL - 1))) |>) ;;;
  ret (s32 (t_blocked t)).
Definition get_action (i : Z) : K sigaction := let! t := cur in unwrap "sigaction index" (idx (t_sigaction t) i).
Definition mod_action (i : Z) (f : sigaction -> sigaction) : K unit :=
  let! a := get_action i in mod_cur (fun t => t <| t_sigaction ::= fun l => upd_idx l i (f a) |>).
(** The first byte of a [struct sigaction] is the lowest byte of [sa_handler]. *)
Definition first_byte (a : sigaction) : Z := u8 (sa_handler a).
Definition set_first_byte (v : Z) (a : sigaction) : sigaction := a <| sa_handler := sa_handler a - u8 (sa_handler a) + v |>.
Definition save_old (from : sigaction) (to : Z) : K unit :=
  verify_area to SIZEOF_SIGACTION ;;; mem_copy_from_value (first_byte from) to SIZEOF_SIGACTION.
Definition get_new (from i : Z) : K unit :=
  let! a := get_action i in
  let! v := mem_copy_to_value from (first_byte a) SIZEOF_SIGACTION in
  mod_action i (set_first_byte v).
Definition bad_signum (signum : Z) : bool := (signum <? 1) || (32 <? signum) || (signum =? SIGKILL).
Definition sys_signal (signum handler restorer : Z) : K Z :=
  if bad_signum signum then ret (-1)
  else
    let! old := get_action (signum - 1) in
    mod_action (signum - 1) (fun _ => mkSigaction (u64 handler) 0 (s32 (Z.lor SA_ONESHOT SA_NOMASK)) (u64 restorer)) ;;;
    ret (s64 (sa_handler old)).
Definition sys_sigaction (signum action oldaction : Z) : K Z :=
  if bad_signum signum then ret (-1)
  else
    let! tmp := get_action (signum - 1) in
    get_new action (signum - 1) ;;;
    when (truth oldaction) (save_old tmp oldaction) ;;;
    let! a := get_action (signum - 1) in
    (if truth (Z.land (sa_flags a) SA_NOMASK) then mod_action (signum - 1) (fun a => a <| sa_mask := 0 |>)
     else mod_action (signum - 1) (fun a => a <| sa_mask := u32 (Z.lor (sa_mask a) (sigbit signum)) |>)) ;;;
    ret 0.

Definition TRAP_CUSTOMBACKUPSTACKSIZE : Z := 70 * 8 - 64 * 8.
(** The part of [do_signal] that prepares the call of the handler [handler].  The arguments
    [&trap_info.regs] and [&trap_info.fregs] are the addresses of the two pointers. *)
Definition signal_frame (i signr handler : Z) : K unit :=
  let! ti := gets (fun k => trap_info (k_sched k)) in
  let! sp := rd64 (ti_regs ti + 8 * reg_sp) in
  let stack := u64 (sp - TRAP_CUSTOMBACKUPSTACKSIZE) in
  let longs := Z.shiftl 66 3 in
  verify_area stack longs ;;;
  mem_copy_from_value (u8 (ti_regs ti)) stack (32 * 8) ;;;
  mem_copy_from_value (u8 (ti_fregs ti)) (u64 (stack + 32 * 8)) (32 * 8) ;;;
  mem_copy_from_value (u8 (ti_epc ti)) (u64 (stack + 64 * 8)) 8 ;;;
  let! a := get_action i in
  when (negb (truth (Z.land (sa_flags a) SA_NOMASK))) (
    let! t := cur in
    mem_copy_from_value (u8 (t_blocked t)) (u64 (stack + 65 * 8)) 8) ;;;
  wr64 (ti_regs ti + 8 * reg_ra) (sa_restorer a) ;;;
  let! sp := rd64 (ti_regs ti + 8 * reg_sp) in
  wr64 (ti_regs ti + 8 * reg_sp) (u64 (sp - longs)) ;;;
  wr64 (ti_regs ti + 8 * reg_a0) (u64 signr) ;;;
  mod_sched (fun s => s <| trap_info ::= fun ti => ti <| ti_newepc := handler |> |>) ;;;
  mod_cur (fun t => t <| t_blocked := Z.lor (t_blocked t) (sa_mask a) |>).
Definition do_signal (signr : Z) : K unit :=
  let i := signr - 1 in
  let! a := get_action i in
  let handler := sa_handler a in
  if handler =? SIG_IGN then skip
  else if (handler =? 0) && (signr =? SIGCHLD) then skip
  else
    when (handler =? 0) (do_exit (sigbit signr)) ;;;
    let! a := get_action i in
    when (truth (Z.land (sa_flags a) SA_ONESHOT)) (mod_action i (fun a => a <| sa_handler := 0 |>)) ;;;
    signal_frame i signr handler.

(** ** sys.c *)
(** The calls that are not implemented. *)
Definition sys_ftime : K Z := ret (- ENOSYS).
Definition sys_break : K Z := ret (- ENOSYS).
Definition sys_ptrace : K Z := ret (- ENOSYS).
Definition sys_stty : K Z := ret (- ENOSYS).
Definition sys_gtty : K Z := ret (- ENOSYS).
Definition sys_rename : K Z := ret (- ENOSYS).
Definition sys_prof : K Z := ret (- ENOSYS).
Definition sys_acct : K Z := ret (- ENOSYS).
Definition sys_phys : K Z := ret (- ENOSYS).
Definition sys_lock : K Z := ret (- ENOSYS).
Definition sys_mpx : K Z := ret (- ENOSYS).
Definition sys_ulimit : K Z := ret (- ENOSYS).

(** The second part of [sys_setregid]; the third operand of [||] is the assignment [sgid = egid]. *)
Definition set_egid (egid : Z) : K Z :=
  let! t := cur in
  let! ok :=
    if (t_gid t =? egid) || (t_egid t =? egid) then ret true
    else
      mod_cur (fun t => t <| t_sgid := u16 egid |>) ;;;
      if truth (u16 egid) then ret true else suser in
  if ok : bool then mod_cur (fun t => t <| t_egid := u16 egid |>) ;;; ret 0 else ret (- EPERM).
Definition sys_setregid (rgid egid : Z) : K Z :=
  let! ok :=
    if 0 <? rgid then
      let! t := cur in
      let! su := suser in
      if (t_gid t =? rgid) || su then mod_cur (fun t => t <| t_gid := u16 rgid |>) ;;; ret true else ret false
    else ret true in
  if ok : bool then (if 0 <? egid then set_egid egid else ret 0) else ret (- EPERM).
Definition sys_setgid (gid : Z) : K Z := sys_setregid gid gid.
Definition sys_time (tloc : Z) : K Z :=
  let! now := CURRENT_TIME in
  let i := s32 now in
  when (truth tloc) (verify_area tloc 8 ;;; put_fs_long i tloc) ;;;
  ret i.
(** [ruid] is an [int], [euid] an [uint]. *)
Definition sys_setreuid (ruid euid : Z) : K Z :=
  let! t := cur in
  let old_ruid := t_uid t in
  let! su := suser in
  let! ok :=
    if 0 <? ruid then
      if (t_euid t =? ruid) || (old_ruid =? ruid) || su then mod_cur (fun t => t <| t_uid := u16 ruid |>) ;;; ret true
      else ret false
    else ret true in
  if ok : bool then
    if 0 <? euid then
      let! t := cur in
      let! su := suser in
      if (old_ruid =? euid) || (t_euid t =? euid) || su then mod_cur (fun t => t <| t_euid := u16 euid |>) ;;; ret 0
      else mod_cur (fun t => t <| t_uid := old_ruid |>) ;;; ret (- EPERM)
    else ret 0
  else ret (- EPERM).
Definition sys_setuid (uid : Z) : K Z := sys_setreuid uid (u32 uid).
Definition sys_stime (tptr : Z) : K Z :=
  let! su := suser in
  if negb su then ret (- EPERM)
  else
    let! v := get_fs_long tptr in
    mod_sched (fun s => s <| startup_time := v - Z.quot (jiffies s) HZ |>) ;;;
    ret 0.
Definition SIZEOF_TMS : Z := 32.
Definition sys_times (tbuf : Z) : K Z :=
  when (truth tbuf) (
    verify_area tbuf SIZEOF_TMS ;;;
    let! t := cur in
    mem_copy_from_value (u8 (t_utime t)) tbuf SIZEOF_TMS) ;;;
  gets (fun k => jiffies (k_sched k)).
Definition sys_brk (end_data_seg : Z) : K Z :=
  let! t := cur in
  when ((t_end_code t <=? end_data_seg) && (end_data_seg <? u64 (t_start_stack t - 16384)))
    (mod_cur (fun t => t <| t_brk := end_data_seg |>)) ;;;
  let! t := cur in
  ret (s64 (t_brk t)).
Fixpoint setpgid_loop (pid pgid i : Z) (n : nat) : K Z :=
  match n with
  | O => ret (- ESRCH)
  | S m =>
      let! p := task_at i in
      match p with
      | None => setpgid_loop pid pgid (i + 1) m
      | Some p =>
          let! t := get_task p in
          if t_pid t =? pid then
            let! c := cur in
            if truth (t_leader t) then ret (- EPERM)
            else if negb (t_session t =? t_session c) then ret (- EPERM)
            else mod_task p (fun t => t <| t_pgrp := pgid |>) ;;; ret 0
          else setpgid_loop pid pgid (i + 1) m
      end
  end.
Definition sys_setpgid (pid pgid : Z) : K Z :=
  let! c := cur in
  let pid := if pid =? 0 then s32 (t_pid c) else pid in
  let pgid := if pgid =? 0 then s32 (t_pid c) else pgid in
  setpgid_loop pid pgid 0 NR_TASKS.
Definition sys_getpgrp : K Z := let! t := cur in ret (t_pgrp t).
Definition sys_setsid : K Z :=
  let! t := cur in
  let! su := suser in
  if truth (t_leader t) && negb su then ret (- EPERM)
  else
    mod_cur (fun t => t <| t_leader := 1 |>) ;;;
    mod_cur (fun t => t <| t_pgrp := t_pid t |> <| t_session := t_pid t |>) ;;;
    mod_cur (fun t => t <| t_tty := -1 |>) ;;;
    let! t := cur in
    ret (t_pgrp t).
Definition SIZEOF_UTSNAME : Z := 45.
(** ['l'], the first byte of [thisname] *)
Definition thisname0 : Z := 108.
Definition sys_uname (name : Z) : K Z :=
  if name =? 0 then ret (- ERROR)
  else
    verify_area name SIZEOF_UTSNAME ;;;
    mem_copy_from_value thisname0 name SIZEOF_UTSNAME ;;;
    ret 0.
Definition sys_umask (mask : Z) : K Z :=
  let! t := cur in
  mod_cur (fun t => t <| t_umask := Z.land mask 511 |>) ;;;
  ret (t_umask t).
Definition sys_debug (p : Z) : K Z := ret 0.
Definition syscall_return_value_check (returnvalue no : Z) : Z := returnvalue.
End SysCalls.

(** ** Who may become whom *)

Lemma suser_Ok k t : tasks (k_sched k) !! current (k_sched k) = Some t -> suser k = Ok (t_euid t =? 0) k.
Proof. intros H. unfold suser. by erewrite bind_Ok by by apply cur_Ok. Qed.
Lemma set_task_cur k t : tasks (k_sched (set_task (current (k_sched k)) t k)) !! current (k_sched (set_task (current (k_sched k)) t k)) = Some t.
Proof. apply set_task_lookup. Qed.
#[export] Hint Resolve cur_Ok suser_Ok mod_cur_Ok set_task_cur : syscalls.
(** One step of a system call that works on the caller's task structure. *)
Ltac sys_step := rewrite ?bind_assoc; erewrite bind_Ok by eauto with syscalls.

(** Setting the two user numbers of a task. *)
Definition with_ids (uid euid : Z) (t : task_struct) : task_struct := t <| t_uid := uid |> <| t_euid := euid |>.
Lemma with_ids_same t : with_ids (t_uid t) (t_euid t) t = t.
Proof. by destruct t. Qed.
(** The caller may take [x] as an id. *)
Definition may_be (t : task_struct) (x : Z) : bool := (t_uid t =? x) || (t_euid t =? x) || (t_euid t =? 0).

Lemma sys_setreuid_spec k t ruid euid : tasks (k_sched k) !! current (k_sched k) = Some t ->
  sys_setreuid ruid euid k =
    if (0 <? ruid) && negb (may_be t ruid) || (0 <? euid) && negb (may_be t euid) then Ok (- EPERM) k
    else Ok 0 (set_task (current (k_sched k))
      (with_ids (if 0 <? ruid then u16 ruid else t_uid t) (if 0 <? euid then u16 euid else t_euid t) t) k).
Proof.
  intros Ht. pose proof (set_task_same k _ t Ht) as Esame. unfold sys_setreuid, may_be. sys_step. sys_step. rewrite (orb_comm (t_euid t =? ruid)).
  set (t1 := t <| t_uid := u16 ruid |>). set (k1 := set_task (current (k_sched k)) t1 k).
  destruct (0 <? ruid); cbn [andb].
  - destruct (_ || _); cbn [negb orb]; [|done]. sys_step. fold k1. erewrite bind_Ok by reflexivity.
    destruct (0 <? euid); cbn [andb]; [|done].
    rewrite (bind_Ok _ _ _ t1 k1) by (apply cur_Ok, set_task_cur). rewrite (bind_Ok _ _ _ (t_euid t1 =? 0) k1) by (apply suser_Ok, set_task_cur).
    change (t_euid t1) with (t_euid t). destruct (_ || _); cbn [negb].
    + erewrite bind_Ok by (apply mod_cur_Ok, set_task_cur). unfold k1, ret. by rewrite set_task_twice.
    + erewrite bind_Ok by (apply mod_cur_Ok, set_task_cur). unfold k1, ret. rewrite set_task_twice.
      replace (t1 <| t_uid := t_uid t |>) with t by by destruct t. by rewrite Esame.
  - cbn [orb]. erewrite bind_Ok by reflexivity. destruct (0 <? euid); cbn [andb].
    + sys_step. sys_step. destruct (_ || _); cbn [negb]; sys_step; [by destruct t|].
      replace (t <| t_uid := t_uid t |>) with t by by destruct t. by rewrite Esame.
    + cbn. rewrite with_ids_same, Esame. done.
Qed.
(** [setregid(-1, egid)] *)
Lemma sys_setregid_spec k t egid : tasks (k_sched k) !! current (k_sched k) = Some t -> 1 <= egid < 65536 ->
  exists sgid, sys_setregid (-1) egid k = Ok 0 (set_task (current (k_sched k)) (t <| t_sgid := sgid |> <| t_egid := egid |>) k).
Proof.
  intros Ht He. unfold sys_setregid. erewrite bind_Ok by reflexivity. assert (0 <? egid = true) as -> by blia. unfold set_egid.
  assert (u16 egid = egid) as Eu by (apply u16_small; lia). rewrite Eu. sys_step. destruct (_ || _).
  - exists (t_sgid t). erewrite bind_Ok by reflexivity. cbv iota. sys_step. by destruct t.
  - exists egid. sys_step. unfold truth. assert (egid =? 0 = false) as -> by blia. cbn [negb]. erewrite bind_Ok by reflexivity. cbv iota.
    sys_step. unfold ret. by rewrite set_task_twice.
Qed.

Module SysCallsProps.

(** C29: no process gets another user's identity by [setreuid].  The call succeeds exactly if each id
    that is asked for is one that the caller has or the caller is the super-user, and otherwise it
    returns [-EPERM] and nothing is changed, although the real id was already stored.  Only the two ids
    of the caller change; without privilege both are among the two that it had. *)
Theorem sys_setreuid_safe k t ruid euid : tasks (k_sched k) !! current (k_sched k) = Some t ->
  0 <= t_uid t < 65536 -> 0 <= t_euid t < 65536 ->
  runs (sys_setreuid ruid euid) k (fun r k' =>
    let ok := (0 < ruid -> may_be t ruid = true) /\ (0 < euid -> may_be t euid = true) in
    (r = - EPERM /\ ~ ok /\ k' = k) \/
    exists u e, r = 0 /\ ok /\ k' = set_task (current (k_sched k)) (with_ids u e t) k /\
      (t_euid t <> 0 -> (u = t_uid t \/ u = t_euid t) /\ (e = t_uid t \/ e = t_euid t))).
Proof.
  intros Ht Hu He. unfold runs. rewrite (sys_setreuid_spec k t) by done.
  destruct ((0 <? ruid) && negb (may_be t ruid) || (0 <? euid) && negb (may_be t euid)) eqn:E.
  - left. split; [done|]. split; [|done]. intros [H1 H2]. apply orb_true_iff in E as [[A B]%andb_true_iff|[A B]%andb_true_iff].
    + rewrite H1 in B by lia. done.
    + rewrite H2 in B by lia. done.
  - right. apply orb_false_iff in E as [E1 E2]. do 2 eexists. split; [done|].
    assert (forall x, (0 <? x) && negb (may_be t x) = false -> 0 < x -> may_be t x = true) as Hok.
    { intros x Hx Hp. destruct (may_be t x); [done|]. assert (0 <? x = true) as Ex by blia. by rewrite Ex in Hx. }
    split_and!; [by apply Hok|by apply Hok|done|]. intros Hne.
    assert (forall x, (0 <? x) && negb (may_be t x) = false -> 0 < x -> u16 x = t_uid t \/ u16 x = t_euid t) as Hid.
    { intros x Hx Hp. specialize (Hok x Hx Hp). unfold may_be in Hok.
      destruct (Z.eqb_spec (t_uid t) x) as [Ex|]; [left; rewrite <- Ex; by apply u16_small|].
      destruct (Z.eqb_spec (t_euid t) x) as [Ex|]; [right; rewrite <- Ex; by apply u16_small|]. apply Z.eqb_neq in Hne. by rewrite Hne in Hok. }
    split; [destruct (0 <? ruid) eqn:Er|destruct (0 <? euid) eqn:Er]; [apply Hid; [by rewrite Er|lia]|by left|apply Hid; [by rewrite Er|lia]|by right].
Qed.
(** User 5 runs a program of user 7. *)
Definition demo_user : task_struct := zero_task <| t_uid := 5 |> <| t_euid := 7 |>.
Definition demo_ids : kernel := kernel0 <| k_sched ::= fun s => s <| current := init_task |> <| tasks := {[init_task := demo_user]} |> |>.
Lemma sys_setreuid_safe_witness : runs (sys_setreuid 7 9) demo_ids (fun r k' => r = - EPERM /\ k' = demo_ids).
Proof.
  eapply runs_mono; [|apply (sys_setreuid_safe demo_ids demo_user 7 9); [reflexivity|split; vm_compute; congruence|split; vm_compute; congruence]].
  intros r k' [(->&_&->)|(u&e&_&[_ H]&_)]; [split; reflexivity|discriminate (H eq_refl)].
Defined.

(** A defect: any process can take any effective group.  The third test of [setregid] is the assignment
    [sgid = egid], which is true. *)
Theorem sys_setregid_gives_any_group k t egid : tasks (k_sched k) !! current (k_sched k) = Some t -> 1 <= egid < 65536 ->
  exists sgid, sys_setregid (-1) egid k = Ok 0 (set_task (current (k_sched k)) (t <| t_sgid := sgid |> <| t_egid := egid |>) k).
Proof. apply sys_setregid_spec. Qed.
End SysCallsProps.
