(* ===== verification/FileCount.v ===== *)
(** * File counts

    The field [f_count] of an open file must be the number of descriptors that refer to it, in all
    tasks: [sys_close] releases the i-node when it reaches 0.  [files_ok] states that, and the
    operations that make or drop a reference ([dup], [dup2], [fcntl], [close] and the sharing of the
    files at a [fork]) are shown to keep it; [beside] says what [copy_process] leaves alone while it
    builds the child. *)
From Stdlib Require Import ZArith Lia String.
From stdpp Require Import base list gmap.
From S2P Require Import Prelude State Pte PageAlloc PageTable BlockIO Buffer BufferCache BufferInit InodeIO Bitmap Inode PageFault UserMem Namei Sched Tty FileIO FileRead OpenFiles Process SysCalls.
Open Scope Z_scope.

(** ** Counting *)
Definition fd_refs (f : nat) (l : list (option nat)) : nat := length (filter (fun o => o = Some f) l).
Definition task_refs (f : nat) (o : option task_struct) : nat := match o with Some t => fd_refs f (t_filp t) | None => 0 end.
Definition refs (k : kernel) (f : nat) : nat := sum_list_with (fun i => task_refs f (task_of k i)) (seqZ 0 64).
Definition one_if (b : bool) : nat := if b then 1 else 0.

Lemma fd_refs_upd f l i old new : idx l i = Some old ->
  (fd_refs f (upd_idx l i new) + one_if (bool_decide (old = Some f)) = fd_refs f l + one_if (bool_decide (new = Some f)))%nat.
Proof.
  unfold idx, upd_idx, fd_refs. destruct (Z.ltb_spec i 0); [done|]. intros Hl.
  rewrite insert_take_drop by by eapply lookup_lt_Some. rewrite <- (take_drop_middle l _ _ Hl) at 3.
  rewrite !filter_app, !length_app, !filter_cons. repeat case_decide; repeat case_bool_decide; cbn [length one_if]; try done; lia.
Qed.
Lemma fd_refs_le f l : (fd_refs f l <= length l)%nat.
Proof. apply length_filter. Qed.
Lemma fd_refs_pos f l i : idx l i = Some (Some f) -> (1 <= fd_refs f l)%nat.
Proof.
  unfold idx, fd_refs. destruct (_ <? _); [done|]. intros H%list_elem_of_lookup_2.
  assert (Some f ∈ filter (fun o => o = Some f) l) as He by by apply list_elem_of_filter. destruct (filter _ l); [set_solver|cbn; lia].
Qed.
(** The sum changes where one summand does. *)
Lemma sum_with_upd (f g : Z -> nat) x (l : list Z) : NoDup l -> x ∈ l -> (forall y, y ∈ l -> y <> x -> g y = f y) ->
  (sum_list_with g l + f x = sum_list_with f l + g x)%nat.
Proof.
  induction l as [|y l IH]; intros Hnd Hx Hfg; [set_solver|]. apply NoDup_cons in Hnd as [Hy Hnd]. cbn [sum_list_with].
  destruct (decide (y = x)) as [->|Hne].
  - assert (sum_list_with g l = sum_list_with f l) as ->; [|lia]. clear IH Hx Hnd. induction l as [|z l IHl]; [done|]. cbn [sum_list_with].
    rewrite IHl by set_solver. rewrite (Hfg z) by set_solver. done.
  - rewrite (Hfg y) by set_solver. specialize (IH Hnd ltac:(set_solver) ltac:(set_solver)). lia.
Qed.
Lemma sum_with_le (f : Z -> nat) c l : (forall x, x ∈ l -> (f x <= c)%nat) -> (sum_list_with f l <= c * length l)%nat.
Proof.
  induction l as [|x l IH]; intros H; cbn [sum_list_with length]; [lia|]. specialize (IH ltac:(set_solver)).
  pose proof (H x ltac:(set_solver)). lia.
Qed.

(** ** The invariant *)
Record files_ok (k : kernel) : Prop := mkFilesOk {
  fo_table : table_ok k;
  fo_distinct : forall i j p, idx (task (k_sched k)) i = Some (Some p) -> idx (task (k_sched k)) j = Some (Some p) -> i = j;
  fo_current : exists i, idx (task (k_sched k)) i = Some (Some (current (k_sched k)));
  fo_filp : forall i t, task_of k i = Some t -> length (t_filp t) = NR_OPEN;
  fo_open : forall i t fd f, task_of k i = Some t -> idx (t_filp t) fd = Some (Some f) -> is_Some (file_table (k_fs k) !! f);
  fo_count : forall f e, file_table (k_fs k) !! f = Some e -> f_count e = Z.of_nat (refs k f) }.

Lemma refs_bound k f : (forall i t, task_of k i = Some t -> length (t_filp t) = NR_OPEN) -> (refs k f <= 20 * 64)%nat.
Proof.
  intros H. apply (sum_with_le _ 20 (seqZ 0 64)). intros i _. unfold task_refs. destruct (task_of k i) as [t|] eqn:E; [|lia].
  pose proof (fd_refs_le f (t_filp t)) as Hle. by rewrite (H i t E) in Hle.
Qed.
Lemma refs_upd k k' f i : 0 <= i < 64 -> (forall j, j <> i -> task_of k' j = task_of k j) ->
  (refs k' f + task_refs f (task_of k i) = refs k f + task_refs f (task_of k' i))%nat.
Proof.
  intros Hi H. unfold refs. apply (sum_with_upd (fun i => task_refs f (task_of k i)) (fun i => task_refs f (task_of k' i)) i).
  - apply NoDup_seqZ.
  - apply elem_of_seqZ. lia.
  - intros j _ Hj. by rewrite H.
Qed.

(** A task structure and the table of files are changed together. *)
Definition set_files (l : list file) (k : kernel) : kernel := k <| k_fs ::= fun s => s <| file_table := l |> |>.
Lemma slot_range k i p : table_ok k -> idx (task (k_sched k)) i = Some p -> 0 <= i < 64.
Proof. intros H Hi. apply idx_Some_bound in Hi. rewrite (to_length _ H) in Hi. unfold NR_TASKS in Hi. lia. Qed.
Lemma task_of_set k i p c c' l j : files_ok k -> idx (task (k_sched k)) i = Some (Some p) -> tasks (k_sched k) !! p = Some c ->
  task_of (set_files l (set_task p c' k)) j = if decide (j = i) then Some c' else task_of k j.
Proof.
  intros Hok Hp Hc. unfold task_of. change (task (k_sched (set_files l (set_task p c' k)))) with (task (k_sched k)).
  change (tasks (k_sched (set_files l (set_task p c' k)))) with (<[p := c']> (tasks (k_sched k))).
  destruct (decide (j = i)) as [->|Hne]; [rewrite Hp; apply lookup_insert_eq|].
  destruct (idx (task (k_sched k)) j) as [[q|]|] eqn:Hq; try done. rewrite lookup_insert_ne; [done|]. intros ->.
  apply Hne. by apply (fo_distinct _ Hok j i q).
Qed.
Lemma files_ok_upd k i p c c' l : files_ok k -> idx (task (k_sched k)) i = Some (Some p) -> tasks (k_sched k) !! p = Some c ->
  length (t_filp c') = NR_OPEN ->
  (forall fd f, idx (t_filp c') fd = Some (Some f) -> is_Some (l !! f)) ->
  (forall f, is_Some (file_table (k_fs k) !! f) -> is_Some (l !! f)) ->
  (forall f e', l !! f = Some e' -> exists e, file_table (k_fs k) !! f = Some e /\
     f_count e' + Z.of_nat (fd_refs f (t_filp c)) = f_count e + Z.of_nat (fd_refs f (t_filp c'))) ->
  files_ok (set_files l (set_task p c' k)).
Proof.
  intros Hok Hp Hc Hlen Hopen Hkeep Hcnt. set (k' := set_files l (set_task p c' k)).
  pose proof (fun j => task_of_set k i p c c' l j Hok Hp Hc) as Hof. fold k' in Hof.
  pose proof (slot_range k i _ (fo_table _ Hok) Hp) as Hi.
  assert (task_of k i = Some c) as Hci by (unfold task_of; by rewrite Hp).
  split.
  - destruct (fo_table _ Hok) as [H1 H2]. split; [done|]. intros j q Hq. change (tasks (k_sched k')) with (<[p := c']> (tasks (k_sched k))).
    destruct (decide (p = q)) as [->|]; [rewrite lookup_insert_eq; by eexists|]. rewrite lookup_insert_ne by done. by apply (H2 j).
  - apply (fo_distinct _ Hok).
  - apply (fo_current _ Hok).
  - intros j t Ht. rewrite Hof in Ht. case_decide; [by simplify_eq|by apply (fo_filp _ Hok j)].
  - intros j t fd f Ht Hf. rewrite Hof in Ht. case_decide; [simplify_eq; by apply (Hopen fd)|by apply Hkeep, (fo_open _ Hok j t fd)].
  - intros f e' He'. destruct (Hcnt f e' He') as (e&He&E). pose proof (fo_count _ Hok f e He) as Hce.
    pose proof (refs_upd k k' f i Hi ltac:(intros j Hj; rewrite Hof; by rewrite decide_False)) as Hr.
    rewrite Hci, (Hof i), decide_True in Hr by done. cbn [task_refs] in Hr. lia.
Qed.

(** ** [dup] *)
Lemma next_free_spec l : length l = NR_OPEN -> forall n arg, 0 <= arg -> arg + Z.of_nat n = Z.of_nat NR_OPEN ->
  let r := next_free l arg n in
  arg <= r <= Z.of_nat NR_OPEN /\ (forall j, arg <= j < r -> exists f, idx l j = Some (Some f)) /\
  (r < Z.of_nat NR_OPEN -> idx l r = Some None).
Proof.
  intros Hl. induction n as [|n IH]; intros arg Ha Hn; cbn [next_free]; [split_and!; [lia..|lia]|].
  destruct (idx_is_Some l arg ltac:(rewrite Hl; lia)) as [[f|] E]; rewrite E.
  - destruct (IH (arg + 1) ltac:(lia) ltac:(lia)) as (H1&H2&H3). split_and!; [lia..| |done]. intros j Hj.
    destruct (decide (j = arg)) as [->|]; [by exists f|]. apply H2. lia.
  - split_and!; [lia..|done].
Qed.
Lemma set_files_insert k f e g : file_table (k_fs k) !! f = Some e ->
  mod_file f g k = Ok tt (set_files (<[f := g e]> (file_table (k_fs k))) k).
Proof. intros H. rewrite (mod_file_Ok _ _ e) by done. by destruct k as [? ? [] ? ? ?]. Qed.
Lemma one_if_eq (f g : nat) : one_if (bool_decide (Some f = Some g)) = one_if (bool_decide (f = g)).
Proof. repeat case_bool_decide; congruence. Qed.
Lemma insert_is_Some {A} (l : list A) i j x : is_Some (<[i := x]> l !! j) <-> is_Some (l !! j).
Proof. by rewrite !lookup_lt_is_Some, length_insert. Qed.
(** A reference to the file [f] is stored in a descriptor that is not in use. *)
Lemma add_fd_ok k i c c' fd f e : files_ok k -> idx (task (k_sched k)) i = Some (Some (current (k_sched k))) ->
  tasks (k_sched k) !! current (k_sched k) = Some c -> idx (t_filp c) fd = Some None -> file_table (k_fs k) !! f = Some e ->
  t_filp c' = upd_idx (t_filp c) fd (Some f) ->
  files_ok (set_files (<[f := e <| f_count := u16 (f_count e + 1) |>]> (file_table (k_fs k))) (set_task (current (k_sched k)) c' k)).
Proof.
  intros Hok Hi Hc Hfd He Ec. assert (task_of k i = Some c) as Hci by (unfold task_of; by rewrite Hi).
  pose proof (refs_bound k f (fo_filp _ Hok)) as Hb. pose proof (fo_count _ Hok f e He) as Hce.
  apply (files_ok_upd k i _ c); [done..| | | |].
  - rewrite Ec. unfold upd_idx. rewrite length_insert. by apply (fo_filp _ Hok i).
  - intros fd' g Hg. rewrite insert_is_Some. rewrite Ec in Hg. destruct (decide (fd' = fd)) as [->|Hne].
    + rewrite idx_upd_eq in Hg by by eapply idx_Some_bound. injection Hg as <-. by eexists.
    + rewrite idx_upd_ne in Hg; [by apply (fo_open _ Hok i c fd')|by eapply idx_Some_bound|done].
  - intros g Hg. by rewrite insert_is_Some.
  - intros g e' Hg. pose proof (fd_refs_upd g (t_filp c) fd None (Some f) Hfd) as Hr. rewrite <- Ec, one_if_eq in Hr.
    rewrite bool_decide_false in Hr by done. cbn [one_if] in Hr. apply list_lookup_insert_Some in Hg as [(<-&<-&_)|[Hne Hg]].
    + exists e. split; [done|]. rewrite bool_decide_true in Hr by done. cbn [one_if] in Hr. rsimpl. rewrite u16_small by lia. lia.
    + exists e'. split; [done|]. rewrite bool_decide_false in Hr by done. cbn [one_if] in Hr. lia.
Qed.

Section Descriptors.
Context {SI : SyncInodes} {HSI : SyncInodesOk SI}.

Lemma filp_of_spec k c fd : tasks (k_sched k) !! current (k_sched k) = Some c -> length (t_filp c) = NR_OPEN -> 0 <= fd ->
  exists o, filp_of fd k = Ok o k /\ forall f, o = Some f <-> idx (t_filp c) fd = Some (Some f).
Proof.
  intros Hc Hl Hfd. unfold filp_of. destruct (Z.leb_spec (Z.of_nat NR_OPEN) fd).
  - exists None. split; [done|]. intros f. split; [done|]. intros H1%idx_Some_bound. rewrite Hl in H1. lia.
  - erewrite bind_Ok by by apply cur_Ok. destruct (idx_is_Some (t_filp c) fd ltac:(rewrite Hl; lia)) as [o E]. rewrite E.
    exists o. split; [done|]. intros f. split; congruence.
Qed.
(** What [dupfd] does. *)
Definition duplicated (k : kernel) (c : task_struct) (fd arg r : Z) (k' : kernel) : Prop :=
  exists f c', idx (t_filp c) fd = Some (Some f) /\ arg <= r < Z.of_nat NR_OPEN /\
    (forall j, arg <= j < r -> exists g, idx (t_filp c) j = Some (Some g)) /\ idx (t_filp c) r = Some None /\
    tasks (k_sched k') !! current (k_sched k') = Some c' /\ t_filp c' = upd_idx (t_filp c) r (Some f).
Definition dup_fails (c : task_struct) (fd arg r : Z) : Prop :=
  r = - EBADF /\ (forall f, idx (t_filp c) fd <> Some (Some f)) \/
  r = - EINVAL /\ Z.of_nat NR_OPEN <= arg \/
  r = - EMFILE /\ forall j, arg <= j < Z.of_nat NR_OPEN -> idx (t_filp c) j <> Some None.
Lemma dupfd_spec k c fd arg : files_ok k -> tasks (k_sched k) !! current (k_sched k) = Some c -> 0 <= fd -> 0 <= arg ->
  runs (dupfd fd arg) k (fun r k' => files_ok k' /\ (duplicated k c fd arg r k' \/ dup_fails c fd arg r /\ k' = k)).
Proof.
  intros Hok Hc Hfd Harg. destruct (fo_current _ Hok) as [i Hi].
  assert (task_of k i = Some c) as Hci by (unfold task_of; by rewrite Hi). pose proof (fo_filp _ Hok i c Hci) as Hl.
  unfold dupfd. destruct (filp_of_spec k c fd Hc Hl Hfd) as (o&E&Ho). eapply runs_step; [exact E|]. destruct o as [f|].
  2:{ apply runs_ret. split; [done|]. right. split; [|done]. left. split; [done|]. intros f Hf. by apply Ho in Hf. }
  destruct (Z.leb_spec (Z.of_nat NR_OPEN) arg).
  { apply runs_ret. split; [done|]. right. split; [|done]. right; left. split; [done|lia]. }
  eapply runs_step; [by apply cur_Ok|].
  destruct (next_free_spec (t_filp c) Hl (Z.to_nat (Z.of_nat NR_OPEN - arg)) arg Harg ltac:(lia)) as (H1&H2&H3).
  set (r := next_free _ _ _) in *. destruct (Z.leb_spec (Z.of_nat NR_OPEN) r).
  { apply runs_ret. split; [done|]. right. split; [|done]. right; right. split; [done|]. intros j Hj. destruct (H2 j ltac:(lia)) as [g ->]. done. }
  specialize (H3 ltac:(lia)). assert (idx (t_filp c) fd = Some (Some f)) as Hf by by apply Ho.
  destruct (fo_open _ Hok i c fd f Hci Hf) as [e He].
  unfold clear_close, set_filp. eapply runs_step; [by apply mod_cur_Ok|]. eapply runs_step; [apply mod_cur_Ok, set_task_cur|].
  rewrite set_task_twice. eapply runs_step; [by apply set_files_insert|]. apply runs_ret. split; [by apply (add_fd_ok k i c _ r f e)|].
  left. eexists f, _. split_and!; [done|lia|lia|done|done|apply set_task_lookup|done].
Qed.

(** ** [close]: the state [k'] in which it returns, or releases the i-node of the file *)
Lemma del_fd_ok k i c c' fd f e : files_ok k -> idx (task (k_sched k)) i = Some (Some (current (k_sched k))) ->
  tasks (k_sched k) !! current (k_sched k) = Some c -> idx (t_filp c) fd = Some (Some f) -> file_table (k_fs k) !! f = Some e ->
  t_filp c' = upd_idx (t_filp c) fd None ->
  files_ok (set_files (<[f := e <| f_count := f_count e - 1 |>]> (file_table (k_fs k))) (set_task (current (k_sched k)) c' k)).
Proof.
  intros Hok Hi Hc Hfd He Ec. assert (task_of k i = Some c) as Hci by (unfold task_of; by rewrite Hi).
  apply (files_ok_upd k i _ c); [done..| | | |].
  - rewrite Ec. unfold upd_idx. rewrite length_insert. by apply (fo_filp _ Hok i).
  - intros fd' g Hg. rewrite insert_is_Some. rewrite Ec in Hg. destruct (decide (fd' = fd)) as [->|Hne].
    + by rewrite idx_upd_eq in Hg by by eapply idx_Some_bound.
    + rewrite idx_upd_ne in Hg; [by apply (fo_open _ Hok i c fd')|by eapply idx_Some_bound|done].
  - intros g Hg. by rewrite insert_is_Some.
  - intros g e' Hg. pose proof (fd_refs_upd g (t_filp c) fd (Some f) None Hfd) as Hr. rewrite <- Ec, one_if_eq in Hr.
    rewrite (bool_decide_false (None = _)) in Hr by done. cbn [one_if] in Hr. apply list_lookup_insert_Some in Hg as [(<-&<-&_)|[Hne Hg]].
    + exists e. split; [done|]. rewrite bool_decide_true in Hr by done. cbn [one_if] in Hr. rsimpl. lia.
    + exists e'. split; [done|]. rewrite bool_decide_false in Hr by done. cbn [one_if] in Hr. lia.
Qed.
Lemma refs_pos k i c fd f : task_of k i = Some c -> 0 <= i < 64 -> idx (t_filp c) fd = Some (Some f) -> (1 <= refs k f)%nat.
Proof.
  intros Hc Hi Hf. unfold refs. pose proof (sum_list_with_in i (fun i => task_refs f (task_of k i)) (seqZ 0 64) ltac:(apply elem_of_seqZ; lia)) as H.
  cbv beta in H. rewrite Hc in H. cbn [task_refs] in H. pose proof (fd_refs_pos f (t_filp c) fd Hf). lia.
Qed.
Lemma sys_close_spec k c fd f e : files_ok k -> tasks (k_sched k) !! current (k_sched k) = Some c ->
  idx (t_filp c) fd = Some (Some f) -> file_table (k_fs k) !! f = Some e ->
  exists k', files_ok k' /\ (refs k' f + 1 = refs k f)%nat /\
    sys_close fd k = if (refs k' f =? 0)%nat then (iput (f_inode e) ;;; ret 0) k' else Ok 0 k'.
Proof.
  intros Hok Hc Hfd He. destruct (fo_current _ Hok) as [i Hi].
  assert (task_of k i = Some c) as Hci by (unfold task_of; by rewrite Hi). pose proof (fo_filp _ Hok i c Hci) as Hl.
  pose proof (idx_Some_bound _ _ _ Hfd) as Hb. rewrite Hl in Hb.
  pose proof (refs_pos k i c fd f Hci (slot_range k i _ (fo_table _ Hok) Hi) Hfd) as Hpos. pose proof (fo_count _ Hok f e He) as Hce.
  set (c1 := c <| t_close_on_exec := Z.land (t_close_on_exec c) (Z.lnot (Z.shiftl 1 fd)) |>).
  set (c' := c1 <| t_filp ::= fun l => upd_idx l fd None |>). set (e' := e <| f_count := f_count e - 1 |>).
  set (k' := set_files (<[f := e']> (file_table (k_fs k))) (set_task (current (k_sched k)) c' k)). exists k'.
  assert (files_ok k') as Hok' by by apply (del_fd_ok k i c c' fd f e).
  assert (file_table (k_fs k') !! f = Some e') as He' by (apply list_lookup_insert_eq; by eapply lookup_lt_Some).
  pose proof (fo_count _ Hok' f e' He') as Hce'. change (f_count e') with (f_count e - 1) in Hce'.
  split; [done|]. split; [lia|]. set (R := (iput (f_inode e) ;;; ret 0) k'). unfold sys_close. assert (Z.of_nat NR_OPEN <=? fd = false) as -> by blia.
  set (k1 := set_task (current (k_sched k)) c1 k).
  unfold clear_close, set_filp. rewrite (bind_Ok _ _ _ tt k1) by exact (mod_cur_Ok k c _ Hc).
  assert (filp_of fd k1 = Ok (Some f) k1) as E1.
  { unfold filp_of. assert (Z.of_nat NR_OPEN <=? fd = false) as -> by blia. erewrite bind_Ok by (apply cur_Ok, set_task_cur).
    change (t_filp c1) with (t_filp c). by rewrite Hfd. }
  set (k2 := set_task (current (k_sched k)) c' k).
  erewrite bind_Ok by exact E1. cbv iota. rewrite (bind_Ok _ _ _ tt k2) by (etrans; [exact (mod_cur_Ok k1 c1 _ (set_task_cur k c1))|]; exact (f_equal (Ok tt) (set_task_twice _ c1 c' k))).
  erewrite bind_Ok by exact (get_file_Ok k2 f e He). assert (f_count e =? 0 = false) as -> by blia.
  assert (u16 (f_count e - 1) = f_count e - 1) as Eu by (pose proof (refs_bound k f (fo_filp _ Hok)); apply u16_small; lia).
  rewrite (bind_Ok _ _ _ tt k') by (etrans; [exact (set_files_insert k2 f e _ He)|]; cbv beta; by rewrite Eu).
  erewrite bind_Ok by exact (get_file_Ok k' f e' He'). change (f_inode e') with (f_inode e). change (f_count e') with (f_count e - 1). rewrite Hce'. unfold truth.
  destruct (Nat.eqb_spec (refs k' f) 0) as [E0|E0].
  - rewrite E0. reflexivity.
  - assert (Z.of_nat (refs k' f) =? 0 = false) as -> by blia. reflexivity.
Qed.
End Descriptors.

(** ** [fork]: the child gets a copy of the table of descriptors *)
Definition set_slot (nr p : Z) (k : kernel) : kernel := k <| k_sched ::= fun s => s <| task ::= fun l => upd_idx l nr (Some p) |> |>.
Lemma fork_files_ok k i c nr p t l : files_ok k -> task_of k i = Some c -> 1 <= nr < 64 ->
  idx (task (k_sched k)) nr = Some None -> (forall j, idx (task (k_sched k)) j <> Some (Some p)) -> t_filp t = t_filp c ->
  (forall f, l !! f = (fun e => e <| f_count := f_count e + Z.of_nat (fd_refs f (t_filp c)) |>) <$> file_table (k_fs k) !! f) ->
  files_ok (set_files l (set_slot nr p (set_task p t k))).
Proof.
  intros Hok Hc Hnr Hfree Hnew Et Hl. set (k' := set_files l (set_slot nr p (set_task p t k))).
  assert (forall j, idx (task (k_sched k')) j = if decide (j = nr) then Some (Some p) else idx (task (k_sched k)) j) as Hidx.
  { intros j. change (task (k_sched k')) with (upd_idx (task (k_sched k)) nr (Some p)).
    destruct (decide (j = nr)) as [->|]; [apply idx_upd_eq; by eapply idx_Some_bound|apply idx_upd_ne; [lia|done]]. }
  assert (forall q, tasks (k_sched k') !! q = if decide (q = p) then Some t else tasks (k_sched k) !! q) as Htasks.
  { intros q. change (tasks (k_sched k')) with (<[p := t]> (tasks (k_sched k))).
    destruct (decide (q = p)) as [->|]; [apply lookup_insert_eq|by apply lookup_insert_ne]. }
  assert (forall j, task_of k' j = if decide (j = nr) then Some t else task_of k j) as Hof.
  { intros j. unfold task_of. rewrite Hidx. destruct (decide (j = nr)); [by rewrite Htasks, decide_True|].
    destruct (idx (task (k_sched k)) j) as [[q|]|] eqn:Eq; try done. rewrite Htasks, decide_False; [done|]. intros ->. by apply (Hnew j). }
  assert (forall f, is_Some (l !! f) <-> is_Some (file_table (k_fs k) !! f)) as Hdom by (intros f; rewrite Hl; apply fmap_is_Some).
  split.
  - destruct (fo_table _ Hok) as [H1 H2]. split; [change (task (k_sched k')) with (upd_idx (task (k_sched k)) nr (Some p)); unfold upd_idx; by rewrite length_insert|].
    intros j q Hq. rewrite Htasks. case_decide; [by eexists|]. rewrite Hidx in Hq. case_decide; [congruence|by apply (H2 j)].
  - intros a b q Ha Hb. rewrite Hidx in Ha, Hb. destruct (decide (a = nr)) as [Ea|Ea], (decide (b = nr)) as [Eb|Eb].
    + congruence.
    + injection Ha as <-. by destruct (Hnew b).
    + injection Hb as <-. by destruct (Hnew a).
    + by apply (fo_distinct _ Hok a b q).
  - destruct (fo_current _ Hok) as [j Hj]. exists j. rewrite Hidx. case_decide; [congruence|done].
  - intros j u Hu. rewrite Hof in Hu. case_decide; [simplify_eq; rewrite Et|]; by eapply (fo_filp _ Hok).
  - intros j u fd f Hu Hf. apply Hdom. rewrite Hof in Hu. case_decide; [simplify_eq; rewrite Et in Hf|]; by eapply (fo_open _ Hok).
  - intros f e' He'. change (file_table (k_fs k')) with l in He'. rewrite Hl in He'. apply fmap_Some in He' as (e&He&->). rsimpl.
    rewrite (fo_count _ Hok f e He). pose proof (refs_upd k k' f nr ltac:(lia) ltac:(intros j Hj; rewrite Hof; by rewrite decide_False)) as Hr.
    rewrite Hof, decide_True in Hr by done. assert (task_of k nr = None) as Hn by (unfold task_of; by rewrite Hfree).
    rewrite Hn in Hr. cbn [task_refs] in Hr. rewrite Et in Hr. lia.
Qed.

(** The loop of [copy_process] over the descriptors. *)
Definition counted (n : nat) (fl : list (option nat)) (l l' : list file) : Prop :=
  forall f, l' !! f = (fun e => e <| f_count := f_count e + Z.of_nat (fd_refs f (take n fl)) |>) <$> l !! f.
Lemma fd_refs_snoc f n l o : l !! n = Some o -> fd_refs f (take (S n) l) = (fd_refs f (take n l) + one_if (bool_decide (o = Some f)))%nat.
Proof.
  intros H. unfold fd_refs. rewrite (take_S_r _ _ _ H), filter_app, length_app, filter_cons. case_decide; case_bool_decide; done.
Qed.
Lemma fd_refs_take f n l : (fd_refs f (take n l) <= n)%nat.
Proof. pose proof (fd_refs_le f (take n l)). rewrite length_take in H. lia. Qed.
Definition share_body (p : Z) (i : Z) : K unit :=
  let! t := get_task p in
  let! f := unwrap "filp index" (idx (t_filp t) i) in
  match f with
  | Some f => mod_file f (fun e => e <| f_count := u16 (f_count e + 1) |>)
  | None => skip
  end.
Lemma share_loop k p t : tasks (k_sched k) !! p = Some t -> length (t_filp t) = NR_OPEN ->
  (forall fd f, idx (t_filp t) fd = Some (Some f) -> is_Some (file_table (k_fs k) !! f)) ->
  (forall f e, file_table (k_fs k) !! f = Some e -> 0 <= f_count e <= 2000) ->
  runs (for_up 0 NR_OPEN (share_body p)) k (fun _ k' => exists l', k' = set_files l' k /\ counted NR_OPEN (t_filp t) (file_table (k_fs k)) l').
Proof.
  intros Ht Hl Hopen Hsmall.
  eapply runs_mono; [|apply (runs_for_up (fun i k' => 0 <= i /\ exists l', k' = set_files l' k /\ counted (Z.to_nat i) (t_filp t) (file_table (k_fs k)) l'))].
  - intros [] k' [_ (l'&->&H)]. by exists l'.
  - intros i k' Hi [_ (l'&->&H)]. unfold share_body. eapply runs_step; [by apply get_task_Ok|].
    destruct (idx_is_Some (t_filp t) i ltac:(rewrite Hl; lia)) as [o Ho]. rewrite Ho. eapply runs_step; [reflexivity|].
    assert (t_filp t !! Z.to_nat i = Some o) as Ho' by (unfold idx in Ho; destruct (i <? 0); done).
    unfold counted in *. replace (Z.to_nat (i + 1)) with (S (Z.to_nat i)) by lia.
    destruct o as [f|].
    + destruct (Hopen i f Ho) as [e He]. assert (l' !! f = Some (e <| f_count := f_count e + Z.of_nat (fd_refs f (take (Z.to_nat i) (t_filp t))) |>)) as He'
        by (rewrite H, He; done).
      unfold runs. erewrite set_files_insert by exact He'. split; [lia|]. eexists. split; [reflexivity|]. intros g.
      change (file_table (k_fs (set_files l' k))) with l'. rewrite (fd_refs_snoc g _ _ _ Ho'), one_if_eq.
      destruct (decide (f = g)) as [<-|Hne].
      * rewrite list_lookup_insert_eq by by eapply lookup_lt_Some. rewrite He. rsimpl. rewrite bool_decide_true by done. cbn [one_if].
        pose proof (Hsmall f e He). pose proof (fd_refs_take f (Z.to_nat i) (t_filp t)). unfold NR_OPEN in Hi. cbn [fmap option_fmap option_map].
        rewrite u16_small by lia. unfold upd. cbn. do 2 f_equal. lia.
      * rewrite list_lookup_insert_ne by done. rewrite bool_decide_false by done. cbn [one_if]. by rewrite Nat.add_0_r.
    + apply runs_ret. split; [lia|]. exists l'. split; [done|]. intros g. rewrite (fd_refs_snoc g _ _ _ Ho').
      rewrite bool_decide_false by done. cbn [one_if]. by rewrite Nat.add_0_r.
  - split; [lia|]. exists (file_table (k_fs k)). split; [by destruct k as [? ? [] ? ? ?]|]. intros f.
    change (take (Z.to_nat 0) (t_filp t)) with (@nil (option nat)). destruct (_ !! f) as [e|]; [|done]. cbn. f_equal. destruct e. unfold upd. cbn. f_equal. lia.
Qed.
(** ** [copy_process]: what it does around the sharing *)
(** What [fork] leaves alone while it builds the child at [p]: files, i-nodes, the table of tasks, all other
    tasks, and what the child shares. *)
Definition links (t : task_struct) := (t_filp t, t_pwd t, t_root t, t_executable t).
Record beside (p : Z) (k k' : kernel) : Prop := mkBeside {
  be_fs : k_fs k' = k_fs k;
  be_slots : task (k_sched k') = task (k_sched k);
  be_current : current (k_sched k') = current (k_sched k);
  be_pid : last_pid (k_sched k') = last_pid (k_sched k);
  be_others : forall q, q <> p -> tasks (k_sched k') !! q = tasks (k_sched k) !! q;
  be_links : links <$> tasks (k_sched k') !! p = links <$> tasks (k_sched k) !! p }.
Definition Beside {A} (p : Z) (m : K A) : Prop := forall k a k', m k = Ok a k' -> beside p k k'.
#[export] Instance beside_preorder p : PreOrder (beside p).
Proof.
  split; [by split|]. intros k1 k2 k3 [] []. split; try congruence. intros q Hq. by rewrite be_others1, be_others0.
Qed.

Lemma beside_bind {A B} p (m : K A) (f : A -> K B) : Beside p m -> (forall a, Beside p (f a)) -> Beside p (bind m f).
Proof.
  intros Hm Hf k b k'. unfold bind. destruct (m k) as [a k1|] eqn:E; [|done]. intros Eb. transitivity k1; [by eapply Hm|by eapply Hf].
Qed.
Lemma beside_same {A} p (m : K A) : (forall k a k', m k = Ok a k' -> k' = k) -> Beside p m.
Proof. intros H k a k' ->%H. done. Qed.
Lemma beside_ret {A} p (a : A) : Beside p (ret a).
Proof. by apply beside_same; intros ??? [= _ <-]. Qed.
Lemma beside_gets {A} p (f : kernel -> A) : Beside p (gets f).
Proof. by apply beside_same; intros ??? [= _ <-]. Qed.
Lemma beside_halt {A} p e : Beside (A := A) p (halt e).
Proof. by apply beside_same. Qed.
Lemma beside_skip p : Beside p skip.
Proof. apply beside_ret. Qed.
Lemma beside_unwrap {A} p why (o : option A) : Beside p (unwrap why o).
Proof. destruct o; [apply beside_ret|apply beside_halt]. Qed.
Lemma beside_when p b (m : K unit) : Beside p m -> Beside p (when b m).
Proof. intros H. destruct b; [done|apply beside_skip]. Qed.
Lemma beside_loop {A B} p n (body : A -> K (A + B)) a : (forall a, Beside p (body a)) -> Beside p (loop n body a).
Proof.
  intros H. revert a. induction n as [|n IH]; intros a; [apply beside_halt|]. rewrite loop_S.
  apply beside_bind; [done|]. intros [?|?]; [done|apply beside_ret].
Qed.
Lemma beside_for_up p lo n (body : Z -> K unit) : (forall i, Beside p (body i)) -> Beside p (for_up lo n body).
Proof. intros H. revert lo. induction n as [|n IH]; intros lo; [apply beside_skip|]. cbn [for_up]. apply beside_bind; [done|]. by intros _. Qed.
(** Memory and its map. *)
Lemma beside_modify p (g : kernel -> kernel) : (forall k, k_fs (g k) = k_fs k) -> (forall k, k_sched (g k) = k_sched k) -> Beside p (modify g).
Proof. intros E1 E2 k a k' [= _ <-]. split; by rewrite ?E1, ?E2. Qed.
(** The tables of kernel stacks. *)
Lemma beside_sched p (g : sched_state -> sched_state) :
  (forall s, task (g s) = task s /\ current (g s) = current s /\ last_pid (g s) = last_pid s /\ tasks (g s) = tasks s) -> Beside p (mod_sched g).
Proof. intros E k a k' [= _ <-]. destruct (E (k_sched k)) as (E1&E2&E3&E4). split; rsimpl; by rewrite ?E1, ?E2, ?E3, ?E4. Qed.
(** The structure of the child. *)
Lemma beside_mod_task p f : (forall t, links (f t) = links t) -> Beside p (mod_task p f).
Proof.
  intros E k a k'. destruct (tasks (k_sched k) !! p) as [t|] eqn:Ht.
  - rewrite (mod_task_Ok k p t) by done. intros [= _ <-]. split; try done.
    + intros q Hq. by apply lookup_insert_ne.
    + change (links <$> <[p := f t]> (tasks (k_sched k)) !! p = links <$> tasks (k_sched k) !! p). rewrite lookup_insert_eq, Ht. cbn. by rewrite E.
  - unfold mod_task, get_task, bind, gets. cbv beta iota. by rewrite Ht.
Qed.
Lemma beside_get_free_page_scan p i : Beside p (get_free_page_scan i).
Proof.
  induction i as [|i IH]; cbn [get_free_page_scan]; [apply beside_ret|]. destruct (i =? 0)%nat; [apply beside_ret|].
  apply beside_bind; [apply beside_bind; [apply beside_gets|intros; apply beside_unwrap]|]. intros c. destruct (c =? 0); [|done].
  apply beside_bind; [|intros _; cbv zeta; apply beside_bind; [by apply beside_modify|intros _; apply beside_ret]].
  apply beside_bind; [apply beside_bind; [apply beside_gets|intros; apply beside_unwrap]|intros _; by apply beside_modify].
Qed.
(** [beside] proves [Beside p m] by the shape of [m], unfolding what it calls. *)
Ltac beside_head m := lazymatch m with ?f _ => beside_head f | _ => m end.
Ltac beside_step :=
  lazymatch goal with
  | |- forall _, _ => intros ?
  | |- Beside _ (bind _ _) => apply beside_bind
  | |- Beside _ (ret _) => apply beside_ret
  | |- Beside _ (gets _) => apply beside_gets
  | |- Beside _ (halt _) => apply beside_halt
  | |- Beside _ (unwrap _ _) => apply beside_unwrap
  | |- Beside _ (when _ _) => apply beside_when
  | |- Beside _ (loop _ _ _) => apply beside_loop
  | |- Beside _ (for_up _ _ _) => apply beside_for_up
  | |- Beside _ (get_free_page_scan _) => apply beside_get_free_page_scan
  | |- Beside _ (modify _) => apply beside_modify; intros; reflexivity
  | |- Beside _ (mod_sched _) => apply beside_sched; intros; split_and!; reflexivity
  | |- Beside _ (mod_task _ _) => apply beside_mod_task; intros; reflexivity
  | |- Beside _ (match ?x with _ => _ end) => destruct x
  | |- Beside _ (let _ := _ in _) => cbv zeta
  | |- Beside _ ?m => let h := beside_head m in unfold h; cbv beta zeta
  end.
Ltac beside := repeat beside_step.

Lemma beside_get_free_pages p n : Beside p (get_free_pages n).
Proof. beside. Qed.
Lemma beside_free_pages p a n : Beside p (free_pages a n).
Proof. beside. Qed.
Lemma beside_stack p nr v : Beside p (set_kernel_stack nr v).
Proof. beside. Qed.
Lemma beside_child_frame p f nr top : Beside p (child_frame f nr p top).
Proof. beside. Qed.
Lemma beside_directory p v : Beside p (mod_task p (fun t => t <| t_page_dir_table := v |>)).
Proof. beside. Qed.
Lemma beside_running p v : Beside p (mod_task p (fun t => t <| t_state := v |>)).
Proof. beside. Qed.
Lemma beside_init p pte n : Beside p (pte_common_init pte n).
Proof. beside. Qed.
Lemma beside_copy_mem p nr : Beside p (copy_mem nr p).
Proof. beside. Qed.

(** The invariant looks at the table of files and at the descriptors of the tasks only. *)
Record same_files (k k' : kernel) : Prop := mkSameFiles {
  sf_table : file_table (k_fs k') = file_table (k_fs k);
  sf_slots : task (k_sched k') = task (k_sched k);
  sf_current : current (k_sched k') = current (k_sched k);
  sf_filp : forall j, t_filp <$> task_of k' j = t_filp <$> task_of k j }.
Lemma files_ok_same k k' : files_ok k -> same_files k k' -> files_ok k'.
Proof.
  intros [[T1 T2] H2 H3 H4 H5 H6] [Ef Es Ec El].
  assert (forall j t', task_of k' j = Some t' -> exists t, task_of k j = Some t /\ t_filp t' = t_filp t) as Hback.
  { intros j t' Ht. specialize (El j). rewrite Ht in El. destruct (task_of k j) as [t|]; [|done]. exists t. cbn in El. split; [done|congruence]. }
  assert (forall f, refs k' f = refs k f) as Hr.
  { intros f. unfold refs. generalize (seqZ 0 64). induction l as [|j l IH]; [done|]. cbn [sum_list_with]. f_equal; [|done]. unfold task_refs. specialize (El j).
    destruct (task_of k' j), (task_of k j); cbn in El; congruence. }
  split; rewrite ?Es, ?Ec, ?Ef.
  - split; rewrite Es; [done|]. intros j q Hq. destruct (T2 j q Hq) as [t Ht]. specialize (El j). unfold task_of in El. rewrite Es, Hq, Ht in El.
    destruct (tasks (k_sched k') !! q) as [t'|]; [by exists t'|done].
  - done.
  - done.
  - intros j t' (t&Ht&->)%Hback. by eapply H4.
  - intros j t' fd f (t&Ht&->)%Hback. by eapply H5.
  - intros f e He. rewrite Hr. by apply H6.
Qed.
Lemma same_files_trans k1 k2 k3 : same_files k1 k2 -> same_files k2 k3 -> same_files k1 k3.
Proof. intros [] []. split; congruence. Qed.
Lemma beside_same_files p k k' : beside p k k' -> same_files k k'.
Proof.
  intros [Ef Es Ec _ Eo El]. split; [by rewrite Ef|done|done|]. intros j. unfold task_of. rewrite Es. destruct (idx _ j) as [[q|]|]; try done.
  destruct (decide (q = p)) as [->|Hq]; [|by rewrite Eo]. destruct (tasks (k_sched k') !! p), (tasks (k_sched k) !! p); cbn in *; try done. unfold links in El. congruence.
Qed.
Lemma inc_count_inv o k u k' : inc_count o k = Ok u k' -> k_sched k' = k_sched k /\ file_table (k_fs k') = file_table (k_fs k).
Proof.
  destruct o as [i|]; cbn [inc_count]; [|by intros [= _ <-]]. unfold mod_inode, get_inode, bind, gets. cbv beta iota.
  destruct (inode_table (k_fs k) !! i); [|done]. by intros [= _ <-].
Qed.

(** [fork]: the child at [p] in slot [nr], with everything that [copy_process] does before it shares the
    files, then the sharing. *)
Lemma share_files_ok k k1 k2 k' i c nr p t u : files_ok k -> task_of k i = Some c -> 1 <= nr < 64 ->
  idx (task (k_sched k)) nr = Some None -> (forall j, idx (task (k_sched k)) j <> Some (Some p)) -> t_filp t = t_filp c ->
  k1 = set_slot nr p (set_task p t k) -> beside p k1 k2 -> share_files p k2 = Ok u k' ->
  files_ok k' /\ k_sched k' = k_sched k2.
Proof.
  intros Hok Hc Hnr Hfree Hnew Et E1 Hb Es. pose proof (be_links _ _ _ Hb) as Hl. assert (tasks (k_sched k1) !! p = Some t) as Ht1 by (subst k1; apply lookup_insert_eq).
  rewrite Ht1 in Hl. destruct (tasks (k_sched k2) !! p) as [t2|] eqn:Ht2; [|done].
  assert (t_filp t2 = t_filp c) as Et2 by (cbn in Hl; unfold links in Hl; congruence). assert (k_fs k2 = k_fs k) as Ef by (rewrite (be_fs _ _ _ Hb); by subst k1).
  assert (length (t_filp t2) = NR_OPEN) as Hlen by (rewrite Et2; by apply (fo_filp _ Hok i)).
  pose proof (share_loop k2 p t2 Ht2 Hlen) as Hshare. rewrite Ef in Hshare.
  assert (forall fd f, idx (t_filp t2) fd = Some (Some f) -> is_Some (file_table (k_fs k) !! f)) as H1.
  { intros fd f. rewrite Et2. by apply (fo_open _ Hok i). }
  assert (forall f e, file_table (k_fs k) !! f = Some e -> 0 <= f_count e <= 2000) as H2.
  { intros f e He. rewrite (fo_count _ Hok f e He). pose proof (refs_bound k f (fo_filp _ Hok)). lia. }
  pose proof (Hshare H1 H2) as ([]&k3&E3&l'&->&Hcnt)%runs_Ok.
  unfold share_files in Es. apply bind_Ok_inv in Es as (u1&k3&E3'&Es). change (for_up 0 NR_OPEN _ k2) with (for_up 0 NR_OPEN (share_body p) k2) in E3'.
  rewrite E3 in E3'. injection E3' as _ <-. apply bind_Ok_inv in Es as (cc&k3'&Ecur&Es). assert (k3' = set_files l' k2) as ->.
  { unfold cur, get_task, bind, gets in Ecur. cbv beta iota in Ecur. destruct (tasks _ !! _); [|done]. by injection Ecur as _ <-. }
  apply bind_Ok_inv in Es as (u2&k4&E4&Es). apply bind_Ok_inv in Es as (u3&k5&E5&E6).
  apply inc_count_inv in E4 as [S4 F4]. apply inc_count_inv in E5 as [S5 F5]. apply inc_count_inv in E6 as [S6 F6].
  assert (k_sched k' = k_sched k2) as Esc by by rewrite S6, S5, S4. assert (file_table (k_fs k') = l') as Efs by by rewrite F6, F5, F4.
  split; [|done]. apply (files_ok_same (set_files l' k1)).
  - subst k1. apply (fork_files_ok k i c); try done. intros f. rewrite Hcnt, Et2, take_ge; [done|by rewrite (fo_filp _ Hok i c Hc)].
  - apply (same_files_trans _ (set_files l' k2)).
    + destruct (beside_same_files _ _ _ Hb) as [_ ? ? ?]. by split.
    + split; [by rewrite Efs|by rewrite Esc|by rewrite Esc|]. intros j. unfold task_of. by rewrite Esc.
Qed.
(** No task structure lies in a free frame. *)
Definition tasks_in_use (k : kernel) : Prop :=
  forall j q i, idx (task (k_sched k)) j = Some (Some q) -> is_frame i -> q = frame_addr i -> count k i <> 0.
(** What [fork] can come to.  When there is no stack, the structure of the child is given back but its slot
    still points to it. *)
Definition forked (k : kernel) (c : task_struct) (nr r : Z) (k' : kernel) : Prop :=
  r = last_pid (k_sched k) /\ files_ok k' /\ exists t, task_of k' nr = Some t /\ t_filp t = t_filp c.
Definition not_forked (nr r : Z) (k' : kernel) : Prop := r = - EAGAIN /\ files_ok k' /\ task_of k' nr = None.
Definition no_stack (k : kernel) (c : task_struct) (nr r : Z) (k' : kernel) : Prop :=
  r = - EAGAIN /\ file_table (k_fs k') = file_table (k_fs k) /\ exists t, task_of k' nr = Some t /\ t_filp t = t_filp c.
Lemma beside_task k1 k2 p nr t : beside p k1 k2 -> idx (task (k_sched k1)) nr = Some (Some p) -> tasks (k_sched k1) !! p = Some t ->
  exists t', task_of k2 nr = Some t' /\ t_filp t' = t_filp t.
Proof.
  intros Hb Hi Ht. pose proof (be_links _ _ _ Hb) as Hl. unfold task_of. rewrite (be_slots _ _ _ Hb), Hi. rewrite Ht in Hl.
  destruct (tasks (k_sched k2) !! p) as [t'|]; [|done]. exists t'. split; [done|]. cbn in Hl. unfold links in Hl. congruence.
Qed.
Lemma copy_process_spec f k c nr r k' : files_ok k -> wf_mm k -> tasks_in_use k ->
  tasks (k_sched k) !! current (k_sched k) = Some c -> 1 <= nr < 64 -> idx (task (k_sched k)) nr = Some None ->
  copy_process f nr k = Ok r k' -> forked k c nr r k' \/ not_forked nr r k' \/ no_stack k c nr r k'.
Proof.
  intros Hok Hmm Huse Hc Hnr Hfree E. destruct (fo_current _ Hok) as [i Hi].
  assert (task_of k i = Some c) as Hci by (unfold task_of; by rewrite Hi). pose proof Hnr as Hnr'.
  unfold copy_process in E. apply bind_Ok_inv in E as (p&k0&E0&E).
  pose proof (beside_get_free_pages p 5 k p k0 E0) as B0. pose proof (beside_same_files _ _ _ B0) as S0.
  assert (p = 0 \/ forall j, idx (task (k_sched k)) j <> Some (Some p)) as Hp.
  { pose proof (get_free_pages_cases k 5 Hmm ltac:(by rewrite PAGING_PAGES_val)) as (p'&k0'&E0'&_&H)%runs_Ok. rewrite E0 in E0'. injection E0' as <- <-.
    destruct H as [(->&_)|(g&(Hg1&Hg2&Hg)&_&->&_)]; [by left|right]. intros j Hj. apply (Huse j _ g Hj); [split; lia|done|]. apply Hg. lia. }
  pose proof (files_ok_same k k0 Hok S0) as Hok0. assert (idx (task (k_sched k0)) nr = Some None) as Hfree0 by by rewrite (be_slots _ _ _ B0).
  destruct (Z.eqb_spec p 0) as [->|Hp0].
  { injection E as <- <-. right; left. split_and!; [done|done|]. unfold task_of. by rewrite Hfree0. }
  destruct Hp as [Hp|Hnew]; [done|]. assert (forall j, idx (task (k_sched k0)) j <> Some (Some p)) as Hnew0 by (intros j; rewrite (be_slots _ _ _ B0); apply Hnew).
  assert (p <> current (k_sched k)) as Hne by (intros ->; by apply (Hnew i)).
  assert (tasks (k_sched k0) !! current (k_sched k0) = Some c) as Hc0 by (rewrite (be_current _ _ _ B0), (be_others _ _ _ B0); congruence).
  assert (task_of k0 i = Some c) as Hci0 by (unfold task_of; rewrite (be_slots _ _ _ B0), Hi, <- (be_current _ _ _ B0); done).
  assert (forall kx, kx = k0 <| k_sched ::= fun s => s <| task ::= fun l => upd_idx l nr (Some p) |> |> -> cur kx = Ok c kx) as Hcur.
  { intros kx ->. apply cur_Ok. exact Hc0. }
  apply bind_Ok_inv in E as (u1&ka&Ea&E). injection Ea as _ Ea. symmetry in Ea. rewrite (bind_Ok _ _ _ c ka) in E by (apply Hcur; exact Ea).
  apply bind_Ok_inv in E as (lp&ka'&El&E). injection El as _ <-. apply bind_Ok_inv in E as (now&ka'&En&E). injection En as _ <-.
  apply bind_Ok_inv in E as (u2&k1&E1&E). set (t := child_of c lp now) in E1.
  assert (k1 = set_slot nr p (set_task p t k0)) as Hk1.
  { subst ka. injection E1 as _ <-. by destruct k0 as [? ? ? [] ? ?]. }
  assert (idx (task (k_sched k1)) nr = Some (Some p)) as Hs1.
  { rewrite Hk1. change (idx (upd_idx (task (k_sched k0)) nr (Some p)) nr = Some (Some p)). apply idx_upd_eq. by eapply idx_Some_bound. }
  assert (tasks (k_sched k1) !! p = Some t) as Ht1 by (rewrite Hk1; apply lookup_insert_eq).
  apply bind_Ok_inv in E as (ks&k2&E2&E). apply bind_Ok_inv in E as (u3&k3&E3&E). apply bind_Ok_inv in E as (u4&k4&E4&E).
  assert (beside p k1 k4) as B4.
  { transitivity k2; [by eapply beside_get_free_pages|]. transitivity k3.
    - eapply (beside_sched p); [|exact E3]. done.
    - eapply (beside_sched p); [|exact E4]. done. }
  destruct (ks =? 0).
  - apply bind_Ok_inv in E as (u5&k5&E5&E). injection E as <- <-. right; right.
    assert (beside p k1 k5) as B5 by (transitivity k4; [done|by eapply beside_free_pages]). split; [done|]. split.
    + rewrite (be_fs _ _ _ B5), Hk1. apply (sf_table _ _ S0).
    + exact (beside_task k1 k5 p nr t B5 Hs1 Ht1).
  - apply bind_Ok_inv in E as (u5&k5&E5&E). apply bind_Ok_inv in E as (u6&k6&E6&E). apply bind_Ok_inv in E as (u7&k7&E7&E).
    apply bind_Ok_inv in E as (u8&k8&E8&E). apply bind_Ok_inv in E as (r1&k9&E9&E).
    assert (beside p k1 k9) as B9.
    { transitivity k4; [done|]. transitivity k5; [by eapply beside_stack|]. transitivity k6; [by eapply beside_child_frame|].
      transitivity k7; [by eapply beside_directory|]. transitivity k8; [by eapply beside_init|by eapply beside_copy_mem]. }
    clear E2 E3 E4 E5 E6 E7 E8 E9. destruct (truth r1).
    + right; left. apply bind_Ok_inv in E as (v1&k10&E10&E). apply bind_Ok_inv in E as (v2&k11&E11&E). apply bind_Ok_inv in E as (v3&k12&E12&E).
      injection E as <- <-. assert (beside p k10 k12) as B12 by (transitivity k11; by eapply beside_free_pages).
      injection E10 as _ E10. assert (task (k_sched k10) = task (k_sched k0)) as Es10.
      { rewrite <- E10. rsimpl. rewrite (be_slots _ _ _ B9), Hk1. change (task (k_sched (set_slot nr p (set_task p t k0)))) with (upd_idx (task (k_sched k0)) nr (Some p)).
        rewrite upd_idx_upd_idx. by apply upd_idx_id. }
      split; [done|]. split.
      * apply (files_ok_same k10); [|by eapply beside_same_files]. apply (files_ok_same k0); [done|].
        assert (forall j, task_of k10 j = task_of k0 j) as Ht10.
        { intros j. unfold task_of. rewrite Es10. destruct (idx (task (k_sched k0)) j) as [[q|]|] eqn:Eq; try done.
          assert (q <> p) as Hq by (intros ->; by apply (Hnew0 j)). rewrite <- E10. change (tasks (k_sched k9) !! q = tasks (k_sched k0) !! q).
          rewrite (be_others _ _ _ B9), Hk1 by done. apply lookup_insert_ne. congruence. }
        split; [|done| |by intros j; rewrite Ht10].
        -- rewrite <- E10. change (file_table (k_fs k9) = file_table (k_fs k0)). rewrite (be_fs _ _ _ B9). by rewrite Hk1.
        -- rewrite <- E10. change (current (k_sched k9) = current (k_sched k0)). rewrite (be_current _ _ _ B9). by rewrite Hk1.
      * unfold task_of. by rewrite (be_slots _ _ _ B12), Es10, Hfree0.
    + left. apply bind_Ok_inv in E as (v1&k10&E10&E). apply bind_Ok_inv in E as (v2&k11&E11&E). injection E as <- <-.
      destruct (share_files_ok k0 k1 k9 k10 i c nr p t v1 Hok0 Hci0 Hnr Hfree0 Hnew0 eq_refl Hk1 B9 E10) as [Hok10 Es10].
      assert (beside p k10 k11) as B11 by by eapply beside_running.
      split_and!.
      * rewrite (be_pid _ _ _ B11), Es10, (be_pid _ _ _ B9), Hk1. apply (be_pid _ _ _ B0).
      * apply (files_ok_same k10); [done|by eapply beside_same_files].
      * destruct (beside_task k1 k9 p nr t B9 Hs1 Ht1) as (t9&Ht9&Et9). pose proof (sf_filp _ _ (beside_same_files _ _ _ B11) nr) as Hf.
        assert (task_of k10 nr = Some t9) as Ht10 by (unfold task_of in *; by rewrite Es10). rewrite Ht10 in Hf.
        destruct (task_of k11 nr) as [t'|]; [|done]. exists t'. split; [done|]. cbn in Hf. change (t_filp c) with (t_filp t). congruence.
Qed.

(** ** Statements *)

(** The table with one task, whose descriptors 0 and 1 are the same file. *)
Definition demo_opener : task_struct := zero_task <| t_filp := Some 0%nat :: Some 0%nat :: replicate 18 None |>.
Definition demo_files : kernel := kernel0
  <| k_sched ::= fun s => s <| current := init_task |> <| tasks := {[init_task := demo_opener]} |> <| task := Some init_task :: replicate 63 None |> |>
  <| k_fs ::= fun s => s <| file_table := zero_file <| f_count := 2 |> :: replicate 63 zero_file |> |>.
Lemma demo_files_idx i p : idx (task (k_sched demo_files)) i = Some (Some p) -> i = 0 /\ p = init_task.
Proof.
  unfold idx. destruct (Z.ltb_spec i 0); [done|]. change (task (k_sched demo_files)) with (Some init_task :: replicate 63 None).
  destruct (Z.to_nat i) as [|n] eqn:E; cbn [lookup list_lookup]; [intros [= <-]; split; [lia|done]|]. intros H0. apply lookup_replicate in H0 as [? _]. done.
Qed.
Lemma demo_files_task i t : task_of demo_files i = Some t -> t = demo_opener.
Proof.
  unfold task_of. destruct (idx _ i) as [[p|]|] eqn:E; try done. apply demo_files_idx in E as [_ ->].
  assert (tasks (k_sched demo_files) !! init_task = Some demo_opener) as -> by reflexivity. congruence.
Qed.
Lemma demo_files_ok : files_ok demo_files.
Proof.
  split.
  - split; [done|]. intros i p [_ ->]%demo_files_idx. by exists demo_opener.
  - intros i j p [-> _]%demo_files_idx [-> _]%demo_files_idx. done.
  - by exists 0.
  - intros i t ->%demo_files_task. done.
  - intros i t fd f ->%demo_files_task. unfold idx. destruct (_ <? _); [done|]. change (t_filp demo_opener) with (Some 0%nat :: Some 0%nat :: replicate 18 None).
    destruct (Z.to_nat fd) as [|[|n]]; cbn [lookup list_lookup]; [intros [= <-]; by eexists..|]. intros H0. apply lookup_replicate in H0 as [? _]. done.
  - assert (forallb (fun f => match file_table (k_fs demo_files) !! f with Some e => f_count e =? Z.of_nat (refs demo_files f) | None => true end) (seq 0 64) = true) as H
      by (vm_compute; reflexivity).
    rewrite forallb_forall in H. intros f e He. specialize (H f). rewrite He in H. apply Z.eqb_eq, H, in_seq.
    apply lookup_lt_Some in He. change (length (file_table (k_fs demo_files))) with 64%nat in He. lia.
Qed.

Lemma demo_in_use : tasks_in_use demo_files.
Proof. intros j q i [_ ->]%demo_files_idx [Hi _] E. exfalso. unfold init_task, frame_addr, LOW_MEM, PAGING_SIZE in E. lia. Qed.

Module FileCountProps.

End FileCountProps.
