(* ===== verification/Time.v ===== *)
(** * Calendar time (kernel/mktime.c)

    [kernel_mktime] turns a broken-down time into seconds since 1970; the products are computed in
    [int].  It is compared with the Gregorian calendar, which is written down here year by year and
    month by month. *)
From Stdlib Require Import ZArith Lia String.
From stdpp Require Import base list.
From S2P Require Import Prelude State.
Open Scope Z_scope.

Record tm := mkTm {
  tm_sec : Z;
  tm_min : Z;
  tm_hour : Z;
  tm_mday : Z;
  tm_mon : Z;
  tm_year : Z }.
Definition MINUTE : Z := 60.
Definition HOUR : Z := 60 * MINUTE.
Definition DAY : Z := 24 * HOUR.
Definition YEAR : Z := 365 * DAY.
Definition month : list Z :=
  [0;
   DAY * (31);
   DAY * (31 + 29);
   DAY * (31 + 29 + 31);
   DAY * (31 + 29 + 31 + 30);
   DAY * (31 + 29 + 31 + 30 + 31);
   DAY * (31 + 29 + 31 + 30 + 31 + 30);
   DAY * (31 + 29 + 31 + 30 + 31 + 30 + 31);
   DAY * (31 + 29 + 31 + 30 + 31 + 30 + 31 + 31);
   DAY * (31 + 29 + 31 + 30 + 31 + 30 + 31 + 31 + 30);
   DAY * (31 + 29 + 31 + 30 + 31 + 30 + 31 + 31 + 30 + 31);
   DAY * (31 + 29 + 31 + 30 + 31 + 30 + 31 + 31 + 30 + 31 + 30)].
(** [None] is an access outside the array [month]. *)
Definition kernel_mktime (t : tm) : option Z :=
  let year := s32 (tm_year t - 70) in
  let res := s32 (s32 (YEAR * year) + s32 (DAY * Z.shiftr (s32 (year + 1)) 2)) in
  m ← idx month (tm_mon t);
  let res := res + m in
  let res := if (1 <? tm_mon t) && truth (Z.land (s32 (year + 2)) 0x03) then res - DAY else res in
  let res := res + s32 (DAY * s32 (tm_mday t + 1)) in
  let res := res + s32 (HOUR * tm_hour t) in
  let res := res + s32 (MINUTE * tm_min t) in
  Some (res + tm_sec t).
(** [time_init] (startup/machine_main.c) passes the year 2019, not 119. *)
Definition boot_tm : tm := mkTm 12 51 22 20 11 2019.
Definition time_init : K unit :=
  let! s := unwrap "month index" (kernel_mktime boot_tm) in
  modify (fun k => k <| k_sched ::= fun s0 => s0 <| startup_time := s |> |>).

(** ** The calendar *)
Definition is_leap (y : Z) : bool := (y mod 4 =? 0) && (negb (y mod 100 =? 0) || (y mod 400 =? 0)).
Definition days_in_year (y : Z) : Z := if is_leap y then 366 else 365.
(** The days of month [m], 0 for January. *)
Definition days_in_month (y m : Z) : Z :=
  if m =? 1 then (if is_leap y then 29 else 28)
  else if (m =? 3) || (m =? 5) || (m =? 8) || (m =? 10) then 30 else 31.
Fixpoint sum_from (f : Z -> Z) (lo : Z) (n : nat) : Z :=
  match n with O => 0 | S n => f lo + sum_from f (lo + 1) n end.
(** The days from 1 January 1970 to the first day of a month. *)
Definition days_before (y m : Z) : Z :=
  sum_from days_in_year 1970 (Z.to_nat (y - 1970)) + sum_from (days_in_month y) 0 (Z.to_nat m).
Definition seconds_since_1970 (t : tm) : Z :=
  DAY * (days_before (1900 + tm_year t) (tm_mon t) + (tm_mday t - 1)) + HOUR * tm_hour t + MINUTE * tm_min t + tm_sec t.
(** A date and time of the calendar, in the years 1970 to 2038. *)
Record valid_tm (t : tm) : Prop := mkValidTm {
  vt_year : 70 <= tm_year t <= 138;
  vt_mon : 0 <= tm_mon t <= 11;
  vt_mday : 1 <= tm_mday t <= days_in_month (1900 + tm_year t) (tm_mon t);
  vt_hour : 0 <= tm_hour t <= 23;
  vt_min : 0 <= tm_min t <= 59;
  vt_sec : 0 <= tm_sec t <= 60 }.

(** The part of [kernel_mktime] that depends on the year and the month, in days. *)
Definition mktime_days (year mon : Z) : Z :=
  365 * year + Z.shiftr (year + 1) 2 + nth (Z.to_nat mon) [0;31;60;91;121;152;182;213;244;274;305;335] 0 -
  (if (1 <? mon) && truth (Z.land (year + 2) 3) then 1 else 0).
Lemma mktime_days_calendar year mon : 0 <= year <= 68 -> 0 <= mon <= 11 -> mktime_days year mon = days_before (1970 + year) mon.
Proof.
  intros Hy Hm.
  assert (forallb (fun y => forallb (fun m => mktime_days y m =? days_before (1970 + y) m) (seqZ 0 12)) (seqZ 0 69) = true) as H
    by (vm_compute; reflexivity).
  rewrite forallb_forall in H. specialize (H year). rewrite forallb_forall in H. apply Z.eqb_eq, H; apply list_elem_of_In, elem_of_seqZ; lia.
Qed.
Lemma month_lookup m : 0 <= m <= 11 -> idx month m = Some (DAY * nth (Z.to_nat m) [0;31;60;91;121;152;182;213;244;274;305;335] 0).
Proof.
  intros Hm. assert (m ∈ seqZ 0 12) as H by (apply elem_of_seqZ; lia).
  assert (forallb (fun m => bool_decide (idx month m = Some (DAY * nth (Z.to_nat m) [0;31;60;91;121;152;182;213;244;274;305;335] 0))) (seqZ 0 12) = true) as Hb
    by (vm_compute; reflexivity).
  rewrite forallb_forall in Hb. apply list_elem_of_In in H. by apply Hb, bool_decide_eq_true in H.
Qed.
Lemma days_in_month_bound y m : days_in_month y m <= 31.
Proof. unfold days_in_month. repeat case_match; lia. Qed.

Lemma kernel_mktime_spec t : valid_tm t -> kernel_mktime t = Some (seconds_since_1970 t + 2 * DAY).
Proof.
  intros [Hy Hm Hd Hh Hmi Hs]. unfold kernel_mktime, seconds_since_1970. pose proof (days_in_month_bound (1900 + tm_year t) (tm_mon t)).
  rewrite month_lookup by done. cbn [mbind option_bind].
  set (y := tm_year t - 70). replace (1900 + tm_year t) with (1970 + y) by (unfold y; lia).
  rewrite <- mktime_days_calendar by (unfold y; lia). unfold mktime_days.
  assert (0 <= y <= 68) as Hy' by (unfold y; lia). rewrite (s32_small y), (s32_small (y + 1)), (s32_small (y + 2)) by lia.
  assert (0 <= Z.shiftr (y + 1) 2 <= 17) as Hq by (rewrite Z.shiftr_div_pow2 by lia; change (2 ^ 2) with 4; dlia).
  set (q := Z.shiftr (y + 1) 2) in *. unfold YEAR, DAY, HOUR, MINUTE in *.
  rewrite (s32_small (365 * _ * y)), (s32_small (_ * q)), (s32_small (tm_mday t + 1)) by lia. rewrite !s32_small by lia. f_equal. destruct (_ && _); lia.
Qed.

Module TimeProps.

(** C35: [kernel_mktime] is two days late, and otherwise agrees with the Gregorian calendar.  For every
    date and time of the years 1970 to 2038 it returns the seconds since 1 January 1970, 0:00, plus
    two days: it adds [tm_mday + 1] days where the day of the month counts from 1 and [tm_mday - 1]
    days have passed.  No [int] product overflows in these years. *)
Theorem kernel_mktime_two_days_late t : valid_tm t -> kernel_mktime t = Some (seconds_since_1970 t + 2 * DAY).
Proof. apply kernel_mktime_spec. Qed.
(** 29 February 2000, 12:30:15 *)
Lemma kernel_mktime_two_days_late_witness : kernel_mktime (mkTm 15 30 12 29 1 100) = Some (951827415 + 172800).
Proof. apply (kernel_mktime_two_days_late (mkTm 15 30 12 29 1 100)). split; split; vm_compute; congruence. Defined.
End TimeProps.
