(* ===== verification/Exec.v ===== *)
(** * The loading of programs (fs/exec.c)

    [do_execve] checks the file, copies the arguments into fresh pages at the end of the new address
    space, and replaces the address space of the task.  The array [page] of these pages is a local
    variable whose address is not used: a list that is passed on.  The local variables whose address
    is passed to [copy_strings], and the buffer for the first line of a script, are on the kernel
    stack; [frame] is the address of these variables. *)
From Stdlib Require Import ZArith Lia String.
From stdpp Require Import base list gmap.
From S2P Require Import Prelude State Pte PageAlloc PageTable BlockIO Buffer BufferCache BufferInit InodeIO Bitmap Inode PageFault UserMem Namei Sched FileIO OpenFiles.
Open Scope Z_scope.

(** a.out.h *)
Record exec := mkExec {
  a_magic : Z;
  a_text : Z;
  a_data : Z;
  a_bss : Z;
  a_syms : Z;
  a_entry : Z;
  a_trsize : Z;
  a_drsize : Z }.
Definition load_exec (m : memory) (a : Z) : exec :=
  mkExec (ld 4 m a) (ld 4 m (a + 4)) (ld 4 m (a + 8)) (ld 4 m (a + 12)) (ld 4 m (a + 16)) (ld 4 m (a + 20))
    (ld 4 m (a + 24)) (ld 4 m (a + 28)).
Definition ZMAGIC : Z := 0x10B.
Definition SEGMENT_SIZE : Z := 1024.
Definition N_TXTOFF (ex : exec) : Z := if a_magic ex =? ZMAGIC then SEGMENT_SIZE - 32 + 32 else 32.
Definition ENOEXEC : Z := 8.
Definition S_ISUID : Z := 0x800.
Definition S_ISGID : Z := 0x400.
Definition MAX_ARG_PAGES : nat := 32.
(** The arguments fit in [MAX_ARG_PAGES] pages. *)
Definition ARG_FUEL : nat := Z.to_nat (Z.of_nat MAX_ARG_PAGES * PAGE_SIZE).

Section Exec.
Context {SI : SyncInodes} (frame : Z).

(** [while(get_fs_byte(p++));]: the address after the string. *)
Definition skip_string (p : Z) : K Z :=
  loop ARG_FUEL (fun p => let! c := get_fs_byte p in ret (if truth c then inl (p + 1) else inr (p + 1))) p.
(** [while(argc-- > 0) { put_fs_64long(p,argv++); ... }]: the new [p] and [argv]. *)
Fixpoint put_pointers (n : nat) (p argv : Z) : K (Z * Z) :=
  match n with
  | O => ret (p, argv)
  | S m => put_fs_64long p argv ;;; let! p := skip_string p in put_pointers m p (argv + 8)
  end.
Definition set_reg (r v : Z) : K unit := let! ti := gets (fun k => trap_info (k_sched k)) in wr64 (ti_regs ti + 8 * r) v.
Definition create_tables (p argc envc : Z) : K Z :=
  let sp := Z.land p (Z.lnot 7) in
  let sp := u64 (sp - 8 * (envc + 1)) in
  let envp := sp in
  let sp := u64 (sp - 8 * (argc + 1)) in
  let argv := sp in
  set_reg reg_a0 (u64 argc) ;;;
  set_reg 11 argv ;;;
  set_reg 12 envp ;;;
  let! (p, argv) := put_pointers (Z.to_nat argc) p argv in
  put_fs_64long 0 argv ;;;
  let! (p, envp) := put_pointers (Z.to_nat envc) p envp in
  put_fs_64long 0 envp ;;;
  ret sp.
Definition count (argv : Z) : K Z :=
  if argv =? 0 then ret 0
  else loop ARG_FUEL (fun '(i, tmp) => let! v := get_fs_64long tmp in ret (if truth v then inl (i + 1, tmp + 8) else inr i)) (0, argv).

(** The inner loop of [copy_strings]: [len] characters, backwards from [tmp] to [p].  [None] is the
    exit [return 0]; the array [page] is returned in any case. *)
Fixpoint copy_chars (from_kmem old_fs : Z) (len : nat) (p tmp offset pag : Z) (page : list Z) : K (option (Z * Z * Z * Z) * list Z) :=
  match len with
  | O => ret (Some (p, tmp, offset, pag), page)
  | S m =>
      let p := p - 1 in
      let tmp := tmp - 1 in
      let! (offset, pag, page) :=
        if offset - 1 <? 0 then
          let i := u64 (p - USER_START_ADDR) / PAGE_SIZE in
          when (from_kmem =? 2) (set_fs old_fs) ;;;
          let! a := unwrap "page index" (idx page i) in
          let! (a, page) := if truth a then ret (a, page) else let! a := get_free_page in ret (a, upd_idx page i a) in
          when (truth a && (from_kmem =? 2)) (set_fs get_ds) ;;;
          ret (p mod PAGE_SIZE, a, page)
        else ret (offset - 1, pag, page) in
      if pag =? 0 then ret (None, page)
      else
        let! c := get_fs_byte tmp in
        wr8 (pag + offset) c ;;;
        copy_chars from_kmem old_fs m p tmp offset pag page
  end.
(** The loop over the strings, from the last one. *)
Fixpoint copy_args (argv from_kmem old_fs : Z) (argc : nat) (p offset pag : Z) (page : list Z) : K (Z * list Z) :=
  match argc with
  | O =>
      when (from_kmem =? 2) (set_fs old_fs) ;;;
      ret (p, page)
  | S argc =>
      when (from_kmem =? 1) (set_fs get_ds) ;;;
      let! tmp := get_fs_64long (argv + 8 * Z.of_nat argc) in
      if tmp =? 0 then panic "argc is wrong"
      else
        when (from_kmem =? 1) (set_fs old_fs) ;;;
        let! tmp' := skip_string tmp in
        let len := tmp' - tmp in
        if s64 p - len <? 0 then set_fs old_fs ;;; ret (0, page)
        else
          let! (r, page) := copy_chars from_kmem old_fs (Z.to_nat len) p tmp' offset pag page in
          match r with
          | None => ret (0, page)
          | Some (p, _, offset, pag) => copy_args argv from_kmem old_fs argc p offset pag page
          end
  end.
Definition copy_strings (argc argv : Z) (page : list Z) (p from_kmem : Z) : K (Z * list Z) :=
  if p =? 0 then ret (0, page)
  else
    let! old_fs := get_fs in
    when (from_kmem =? 2) (set_fs get_ds) ;;;
    copy_args argv from_kmem old_fs (Z.to_nat argc) p 0 0 page.

Definition change_ldt (text_size : Z) (page : list Z) : K Z :=
  let code_limit := Z.land (u64 (text_size + PAGE_SIZE - 1)) 0xFFFFF000 in
  let data_limit := 0x4000000 in
  let code_base := 0xC0000000 in
  mod_cur (fun t => t <| t_code_base := code_base |> <| t_code_limit := code_limit |>
    <| t_data_base := code_base |> <| t_data_limit := data_limit |>) ;;;
  for_up 0 MAX_ARG_PAGES (fun j =>
    let i := Z.of_nat MAX_ARG_PAGES - 1 - j in
    let! a := unwrap "page index" (idx page i) in
    when (truth a) (let! _ := put_page a (code_base + data_limit - PAGE_SIZE * (j + 1)) in skip)) ;;;
  ret data_limit.

(** *** The first line of a script *)
Definition buf : Z := frame + 24.
(** [strncpy(to,from,n)] *)
Fixpoint strncpy (n : nat) (to from : Z) : K unit :=
  match n with
  | O => skip
  | S m =>
      let! c := rd8 from in
      wr8 to c ;;;
      if c =? 0 then kmemset (to + 1) 0 (Z.of_nat m) else strncpy m (to + 1) (from + 1)
  end.
(** [strchr(p,c)]: [None] is NULL. *)
Fixpoint strchr (n : nat) (p c : Z) : K (option Z) :=
  match n with
  | O => fault "strchr"
  | S m =>
      let! x := rd8 p in
      if x =? c then ret (Some p) else if x =? 0 then ret None else strchr m (p + 1) c
  end.
Definition blank_char (c : Z) : bool := (c =? 32) || (c =? 9).
Definition LINE : nat := 1023.
Definition skip_blanks (cp : Z) : K Z :=
  loop LINE (fun cp => let! c := rd8 cp in ret (if blank_char c then inl (cp + 1) else inr cp)) cp.
(** [for(;*cp && ...;cp++) if( *cp == '/') i_name = cp + 1;] *)
Definition scan_interp (cp : Z) : K (Z * Z) :=
  loop LINE (fun '(cp, i_name) =>
    let! c := rd8 cp in
    ret (if truth c && negb (blank_char c) then inl (cp + 1, if c =? 47 then cp + 1 else i_name) else inr (cp, i_name))) (cp, cp).
(** The name of the interpreter, its last component and its argument (0 if there is none). *)
Definition parse_line : K (option (Z * Z * Z)) :=
  let! nl := strchr LINE buf 10 in
  match nl with
  | None => ret None
  | Some e =>
      wr8 e 0 ;;;
      let! cp := skip_blanks buf in
      let! c := rd8 cp in
      if c =? 0 then ret None
      else
        let! (e, i_name) := scan_interp cp in
        let! c := rd8 e in
        if truth c then wr8 e 0 ;;; ret (Some (cp, i_name, e + 1)) else ret (Some (cp, i_name, 0))
  end.

(** *** [do_execve] *)
Definition exec_error1 (page : list Z) (retval : Z) : K Z :=
  for_up 0 MAX_ARG_PAGES (fun i => let! a := unwrap "page index" (idx page i) in free_page a) ;;;
  ret retval.
Definition exec_error2 (inode : nat) (page : list Z) (retval : Z) : K Z := iput (Some inode) ;;; exec_error1 page retval.
(** The permission bits that apply to the caller. *)
Definition exec_mode (n : m_inode) (t : task_struct) : Z :=
  if t_euid t =? i_uid n then Z.shiftr (i_mode n) 6
  else if t_egid t =? i_gid n then Z.shiftr (i_mode n) 3
  else i_mode n.
(** The test of the header: [true] is the exit with ENOEXEC. *)
Definition bad_exec (ex : exec) (i_size : Z) : bool :=
  negb (a_magic ex =? ZMAGIC) || truth (a_trsize ex) || truth (a_drsize ex) ||
  (0x3000000 <? u32 (a_text ex + a_data ex + a_bss ex)) ||
  (i_size <? u32 (a_text ex + a_data ex + a_syms ex) + N_TXTOFF ex).
(** From the point of no return on. *)
Definition close_on_exec_files : K unit :=
  for_up 0 NR_OPEN (fun i =>
    let! t := cur in
    when (truth (Z.land (Z.shiftr (t_close_on_exec t) i) 1)) (let! _ := sys_close i in skip)) ;;;
  mod_cur (fun t => t <| t_close_on_exec := 0 |>).
Definition exec_commit (inode : nat) (ex : exec) (page : list Z) (p argc envc e_uid e_gid : Z) : K Z :=
  let! t := cur in
  when (bool_decide (t_executable t <> None)) (iput (t_executable t)) ;;;
  mod_cur (fun t => t <| t_executable := Some inode |>) ;;;
  mod_cur (fun t => t <| t_sigaction ::= fmap (fun a => a <| sa_handler := 0 |>) |>) ;;;
  close_on_exec_files ;;;
  let! t := cur in
  free_page_tables (t_code_base t) (t_page_dir_table t) (t_code_limit t) ;;;
  let! t := cur in
  free_page_tables (t_data_base t) (t_page_dir_table t) (t_data_limit t) ;;;
  let! d := change_ldt (a_text ex) page in
  let! p := create_tables (u64 (p + (d - Z.of_nat MAX_ARG_PAGES * PAGE_SIZE))) argc envc in
  let end_code := u32 (0xC0000000 + a_text ex) in
  let end_data := a_data ex + end_code in
  mod_cur (fun t => t <| t_start_code := 0xC0000000 |> <| t_end_code := end_code |> <| t_end_data := end_data |>
    <| t_brk := a_bss ex + end_data |> <| t_start_stack := Z.land p 0xFFFFF000 |>
    <| t_euid := u16 e_uid |> <| t_egid := u16 e_gid |>) ;;;
  pte_common_disable_user (page_root_table + 8 * 2) ;;;
  set_reg reg_sp p ;;;
  mod_sched (fun s => s <| trap_info ::= fun ti => ti <| ti_newepc := a_entry ex |> |>) ;;;
  ret argc.

(** The interpretation of [#!]: the new [inode], [p], [argc] and [page], or the returned value.  The
    variables [filename], [i_arg] and [i_name] are at [frame], [frame + 8] and [frame + 16]. *)
Definition exec_script (inode : nat) (b : nat) (argv envp p argc envc : Z) (page : list Z) : K (nat * Z * Z * list Z + Z) :=
  let! h := get_bh b in
  strncpy 1022 buf (b_data h + 2) ;;;
  brelse (Some b) ;;;
  iput (Some inode) ;;;
  wr8 (buf + 1022) 0 ;;;
  let! line := parse_line in
  match line with
  | None => let! r := exec_error1 page (- ENOEXEC) in ret (inr r)
  | Some (interp, i_name, i_arg) =>
      let! (p, page) := copy_strings envc envp page p 0 in
      let argc := argc - 1 in
      let! (p, page) := copy_strings argc (argv + 8) page p 0 in
      let! (p, page) := copy_strings 1 frame page p 1 in
      let argc := argc + 1 in
      wr64 (frame + 8) i_arg ;;;
      wr64 (frame + 16) i_name ;;;
      let! (p, page, argc) :=
        if truth i_arg then let! (p, page) := copy_strings 1 (frame + 8) page p 2 in ret (p, page, argc + 1)
        else ret (p, page, argc) in
      let! (p, page) := copy_strings 1 (frame + 16) page p 2 in
      let argc := argc + 1 in
      if p =? 0 then let! r := exec_error1 page (- ENOMEM) in ret (inr r)
      else
        let! old_fs := get_fs in
        set_fs get_ds ;;;
        let! i := namei interp in
        set_fs old_fs ;;;
        match i with
        | None => let! r := exec_error1 page (- ENOENT) in ret (inr r)
        | Some inode => ret (inl (inode, p, argc, page))
        end
  end.
(** One round from [restart_interp]. *)
Definition exec_round (argv envp envc : Z) : nat * Z * Z * list Z * bool -> K (nat * Z * Z * list Z * bool + Z) :=
  fun '(inode, p, argc, page, sh_bang) =>
  let error retval := let! r := exec_error2 inode page retval in ret (inr r) in
  let! n := get_inode inode in
  if negb (S_ISREG (i_mode n)) then error (- EACCES)
  else
    let! t := cur in
    let e_uid := if truth (Z.land (i_mode n) S_ISUID) then i_uid n else t_euid t in
    let e_gid := if truth (Z.land (i_mode n) S_ISGID) then i_gid n else t_egid t in
    let! su := suser in
    if negb (truth (Z.land (exec_mode n t) 1)) && negb (truth (Z.land (i_mode n) 0x49) && su) then error (- ENOEXEC)
    else
      let! z := zone inode 0 in
      let! bh := bread (i_dev n) z in
      match bh with
      | None => error (- EACCES)
      | Some b =>
          let! h := get_bh b in
          let! ex := gets (fun k => load_exec (k_pmem k) (b_data h)) in
          let! c0 := rd8 (b_data h) in
          let! c1 := rd8 (b_data h + 1) in
          if (c0 =? 35) && (c1 =? 33) && negb sh_bang then
            let! r := exec_script inode b argv envp p argc envc page in
            match r with
            | inr v => ret (inr v)
            | inl (inode, p, argc, page) => ret (inl (inode, p, argc, page, true))
            end
          else
            brelse (Some b) ;;;
            let! n := get_inode inode in
            if bad_exec ex (i_size n) then error (- ENOEXEC)
            else if negb (N_TXTOFF ex =? BLOCK_SIZE) then error (- ENOEXEC)
            else
              let! (p, page) :=
                if sh_bang then ret (p, page)
                else
                  let! (p, page) := copy_strings envc envp page p 0 in
                  copy_strings argc argv page p 0 in
              if negb sh_bang && (p =? 0) then let! r := exec_error2 inode page (- ENOMEM) in ret (inr r)
              else let! r := exec_commit inode ex page p argc envc e_uid e_gid in ret (inr r)
      end.
Definition do_execve (filename argv envp : Z) : K Z :=
  wr64 frame filename ;;;
  let p := 0xC0000000 + PAGE_SIZE * Z.of_nat MAX_ARG_PAGES - 8 in
  let! i := namei filename in
  match i with
  | None => ret (- ENOENT)
  | Some inode =>
      let! argc := count argv in
      let! envc := count envp in
      loop 3 (exec_round argv envp envc) (inode, p, argc, replicate MAX_ARG_PAGES 0, false)
  end.
End Exec.
