(* ===== verification/Trap.v ===== *)
(** * Traps and system calls (trap/machine_exception.c, machine_interrupt.c, kernel/system_call.S,
    linux/sys.h)

    [machine_exception_handler] is entered from the trap vector with the saved registers in memory, at
    [regs] and [fregs]; it returns the address at which the program goes on.  The registers of the
    control unit that it reads are arguments: [badaddr] (mbadaddr) and [from_machine] (the previous
    privilege level).  [system_call] finds the handler in [sys_call_table]; an argument of type [int] is
    the sign-extended lower half of its register.  [while(1);] is the stop [Hang].

    Parameters: [frame], [stat_junk], [termio_junk] are what is on the kernel stack where [do_execve],
    [cp_stat] and [set_termio] have their local variables; [wait_fuel] bounds the rounds of [waitpid];
    [timer_fn] calls a function of [add_timer], [driver] a callback of a driver that is not modelled. *)
From Stdlib Require Import ZArith Lia String.
From stdpp Require Import base list gmap.
From S2P Require Import Prelude State Mmio Pte PageAlloc PageTable BlockIO Buffer BufferCache BufferInit InodeIO Bitmap Inode PageFault UserMem Namei Sched Plic Tty Super FileIO OpenFiles Process SysCalls Exec.
Open Scope Z_scope.

(** [bitscan] (common.c): the position of the lowest bit that is set, -1 if none is. *)
Fixpoint bitscan_from (i : Z) (n : nat) (v : Z) : Z :=
  match n with
  | O => -1
  | S m => if truth (Z.land v 1) then i else bitscan_from (i + 1) m (Z.shiftr v 1)
  end.
Definition bitscan (v : Z) : Z := bitscan_from 0 64 v.

Section Traps.
Context {SI : SyncInodes} {UA : Uart} {BD : Board} (frame fork_process_exit : Z) (stat_junk : memory) (termio_junk : termio)
  (wait_fuel : nat) (timer_fn : Z -> K unit) (driver : Z -> Z -> K Z).

(** [sys_setup] (startup/machine_main.c) *)
Definition sys_setup : K Z := rd_load ;;; let! _ := mount_root in ret 0.
(** [sys_fork], [sys_execve] and [sys_getegid] (kernel/system_call.S).  When there is no slot, [sys_fork]
    executes [ret] without having restored [ra], which is the address after its call of
    [find_empty_process], so it tests the same value again for ever.  [sys_getegid] is only [ret]: its
    value is its first argument. *)
Definition sys_fork : K Z :=
  let! nr := find_empty_process in
  if nr <? 0 then halt Hang else copy_process fork_process_exit nr.
Definition sys_execve (filename argv envp : Z) : K Z := do_execve frame filename argv envp.
Definition sys_getegid (a0 : Z) : K Z := ret a0.

(** The entries of [sys_call_table] that are not NULL. *)
Definition sys_call_table (nr a0 a1 a2 : Z) : option (K Z) :=
  match nr with
  | 0 => Some sys_setup
  | 1 => Some sys_fork
  | 2 => Some (sys_waitpid wait_fuel (s64 a0) a1 (s32 a2))
  | 3 => Some (sys_creat a0 (s32 a1))
  | 4 => Some (sys_execve a0 a1 a2)
  | 5 => Some (sys_mknod a0 (s32 a1) (s32 a2))
  | 6 => Some (sys_chmod a0 (s32 a1))
  | 7 => Some (sys_chown a0 (s32 a1) (s32 a2))
  | 8 => Some sys_break
  | 9 => Some (sys_mount a0 a1 (s32 a2))
  | 10 => Some (sys_umount a0)
  | 11 => Some (sys_setuid (s32 a0))
  | 12 => Some (sys_stime a0)
  | 13 => Some sys_ptrace
  | 14 => Some (sys_alarm (s64 a0))
  | 15 => Some sys_pause
  | 16 => Some (sys_utime a0 a1)
  | 18 => Some sys_stty
  | 19 => Some sys_gtty
  | 20 => Some (sys_nice (s64 a0))
  | 21 => Some sys_ftime
  | 22 => Some sys_sync
  | 23 => Some (sys_dup (u32 a0))
  | 24 => Some sys_rename
  | 25 => Some (sys_fcntl (u32 a0) (u32 a1) a2)
  | 26 => Some (sys_rmdir a0)
  | 27 => Some (sys_pipe a0)
  | 28 => Some sys_prof
  | 29 => Some (sys_setgid (s32 a0))
  | 30 => Some (sys_signal (s32 a0) (s64 a1) (s64 a2))
  | 31 => Some sys_acct
  | 32 => Some sys_phys
  | 33 => Some sys_lock
  | 34 => Some (sys_ioctl termio_junk (u32 a0) (u32 a1) a2)
  | 35 => Some sys_mpx
  | 36 => Some (sys_setpgid (s32 a0) (s32 a1))
  | 37 => Some sys_ulimit
  | 38 => Some (sys_umask (s32 a0))
  | 39 => Some (sys_chroot a0)
  | 40 => Some (sys_ustat (s32 a0) a1)
  | 41 => Some (sys_dup2 (u32 a0) (u32 a1))
  | 42 => Some sys_getppid
  | 43 => Some sys_getpgrp
  | 44 => Some sys_setsid
  | 45 => Some (sys_sigaction (s32 a0) a1 a2)
  | 46 => Some sys_sgetmask
  | 47 => Some (sys_ssetmask (s32 a0))
  | 49 => Some (sys_chdir a0)
  | 50 => Some (sys_setreuid (s32 a0) (u32 a1))
  | 51 => Some (sys_setregid (s32 a0) (s32 a1))
  | 52 => Some (sys_debug a0)
  | 57 => Some (sys_close (u32 a0))
  | 62 => Some (sys_lseek (u32 a0) (s64 a1) (s32 a2))
  | 63 => Some (sys_read (u32 a0) a1 (s32 a2))
  | 64 => Some (sys_write (u32 a0) a1 (s32 a2))
  | 80 => Some (sys_fstat stat_junk (u32 a0) a1)
  | 93 => Some (sys_exit (s32 a0))
  | 129 => Some (sys_kill (s32 a0) (s32 a1))
  | 153 => Some (sys_times a0)
  | 160 => Some (sys_uname a0)
  | 172 => Some sys_getpid
  | 174 => Some sys_getuid
  | 175 => Some sys_geteuid
  | 176 => Some sys_getgid
  | 177 => Some (sys_getegid a0)
  | 214 => Some (sys_brk a0)
  | 1024 => Some (sys_open a0 (s32 a1) (s32 a2))
  | 1025 => Some (sys_link a0 a1)
  | 1026 => Some (sys_unlink a0)
  | 1030 => Some (sys_mkdir a0 (s32 a1))
  | 1033 => Some (sys_access a0 (s32 a1))
  | 1038 => Some (sys_stat stat_junk a0 a1)
  | 1062 => Some (sys_time a0)
  | _ => None
  end.
Definition nr_system_calls : Z := 2048.
(** [system_call]: the number is compared as a signed one.  [bad_sys_call] is only [li a0,-1; ret]: it
    leaves [sp] 16 lower than it was, so the caller, compiled C, goes on with another frame than its own,
    and the model stops there.  The word [syscall_from_kernel] is 0 and nothing writes it, so the part that
    calls [do_signal] is always skipped. *)
Definition system_call (nr a0 a1 a2 : Z) : K Z :=
  if s64 (nr_system_calls - 1 - nr) <? 0 then fault "bad_sys_call: the stack pointer is not restored"
  else
    match sys_call_table nr a0 a1 a2 with
    | Some handler => handler
    | None => fault "sys_call_table: NULL, or outside the table"
    end.

Definition get_reg (regs r : Z) : K Z := rd64 (regs + 8 * r).
Definition set_trap_info (ti : trap_info_t) : K unit := mod_sched (fun s => s <| trap_info := ti |>).
Definition set_newepc (v : Z) : K unit := mod_sched (fun s => s <| trap_info ::= fun ti => ti <| ti_newepc := v |> |>).
(** The causes for which the handler returns: system calls, and the access faults. *)
Definition is_ecall (cause : Z) : bool := (8 <=? cause) && (cause <=? 11).
Definition is_access_fault (cause : Z) : bool := (cause =? 5) || (cause =? 7) || (cause =? 1).
Definition fatal (cause badaddr : Z) (from_machine : bool) : bool :=
  negb (is_ecall cause) && (negb (is_access_fault cause) || from_machine || (badaddr <? 0xC0000000)).
Definition handle_cause (cause epc regs badaddr : Z) : K unit :=
  if (cause =? 1) || (cause =? 5) then set_newepc epc ;;; do_no_page badaddr
  else if cause =? 7 then set_newepc epc ;;; machine_exception_store_or_amo_access_fault badaddr
  else if cause =? 8 then
    let! nr := get_reg regs 17 in
    let! a0 := get_reg regs reg_a0 in
    let! a1 := get_reg regs 11 in
    let! a2 := get_reg regs 12 in
    let! r := system_call nr a0 a1 a2 in
    wr64 (regs + 8 * reg_a0) (u64 r)
  else skip.
(** Both handlers keep [trap_info] and [trap_from_interrupt] in local variables and put them back. *)
Definition set_from_interrupt (b : bool) : K unit := mod_sched (fun s => s <| trap_from_interrupt := b |>).
Definition enter_trap (from_interrupt : bool) (epc newepc regs fregs : Z) : K (trap_info_t * bool) :=
  let! old := gets (fun k => trap_info (k_sched k)) in
  let! old_from := gets (fun k => trap_from_interrupt (k_sched k)) in
  set_from_interrupt from_interrupt ;;;
  set_trap_info (old <| ti_regs := regs |> <| ti_fregs := fregs |> <| ti_epc := epc |> <| ti_newepc := newepc |>) ;;;
  ret (old, old_from).
Definition leave_trap (old : trap_info_t * bool) : K Z :=
  let! r := gets (fun k => ti_newepc (trap_info (k_sched k))) in
  set_trap_info (fst old) ;;;
  set_from_interrupt (snd old) ;;;
  ret r.
Definition machine_exception_handler (cause epc regs fregs badaddr : Z) (from_machine : bool) : K Z :=
  let! old := enter_trap false epc (u64 (epc + 4)) regs fregs in
  if fatal cause badaddr from_machine then halt Hang
  else
    handle_cause cause epc regs badaddr ;;;
    if is_ecall cause || is_access_fault cause then leave_trap old else halt Hang.

(** The function behind a callback address: the timers' of [timer_irq_register] and [timer_interrupt] of
    sched.c; [driver] stands for those of other drivers.  [user] says whether the interrupt came from a
    program. *)
Definition timer_interrupt_addr : Z := 0x80010400.
Definition timer_callback (user : bool) (f ctx : Z) : K Z :=
  if f =? timer_interrupt_addr then timer_interrupt timer_fn user ctx else driver f ctx.
Definition irq_callback (user : bool) (f ctx : Z) : K Z :=
  if f =? timer_interrupt_callback 0 then timer_interrupt_handler (timer_callback user) 0 ctx
  else if f =? timer_interrupt_callback 1 then timer_interrupt_handler (timer_callback user) 1 ctx
  else if f =? timer_interrupt_callback 2 then timer_interrupt_handler (timer_callback user) 2 ctx
  else driver f ctx.
Definition machine_interrupt_handler (cause epc regs fregs : Z) (user : bool) : K Z :=
  let! old := enter_trap true epc epc regs fregs in
  when (cause =? 11) (let! _ := handle_irq_m_ext (irq_callback user) epc in skip) ;;;
  let! r := leave_trap old in
  if r <? 0x80000000 then halt Hang else ret r.
End Traps.
