(* ===== verification/Boot.v ===== *)
(** * The start of the kernel (startup/machine_main.c)

    [machine_main] sets up the root page table and initialises the components one after the other;
    the system call [setup], the first that process 1 makes, mounts the root file system.  What the
    initialisation establishes is what the other files assume of a state: the invariants of the buffer
    cache, the memory map and the task table, and the hypotheses of [mount_root].

    Not part of [machine_main] here: the control registers (Sv39 mode, interrupts, the change to user
    mode), [tty_init] and the end of [sched_init], which register the interrupt handlers of the serial
    line and start timer 0 through drivers that are not modelled, and [chr_dev_init], which is empty.
    [buffer_start] is the address [_buffer_start] of the linker script, and [regs] and [fregs] are the
    registers that [sched_init] saves. *)
From Stdlib Require Import ZArith Lia String.
From stdpp Require Import base list gmap.
From S2P Require Import Prelude State Pte PageAlloc BlockIO Buffer BufferCache BufferInit InodeIO Bitmap Inode PageFault UserMem Namei Directory Path Sched Super FileIO FileRead FileWrite Mount Tty Plic Mmio Time Trap.
Open Scope Z_scope.

(** The entries of the root page table: 1 GB at 0x80000000 is mapped to itself, for everybody; the
    entries from 3 on point to tables.  [page_dir_table] is NULL until the first task is switched to. *)
Definition root_entry (i : Z) : Z := page_root_table + 8 * i.
Definition kernel_entry_init : K unit :=
  pte_common_addr_to_ppn (root_entry 2) 0x80000000 ;;;
  pte_common_set_accessibility (root_entry 2) pte_accessibility_all ;;;
  pte_common_enable_entry (root_entry 2) ;;;
  pte_common_enable_user (root_entry 2).
Definition page_tables_init : K unit :=
  pte_common_init page_root_table PAGE_ROOT_TABLE_NUM ;;;
  kernel_entry_init ;;;
  for_up 3 (Z.to_nat (PAGE_ROOT_TABLE_NUM - 3)) (fun i =>
    pte_common_set_accessibility (root_entry i) pte_accessibility_pointer ;;;
    pte_common_enable_entry (root_entry i)) ;;;
  let! dir := gets (fun k => page_dir_table (k_mm k)) in
  pte_common_addr_to_ppn (root_entry 3) dir ;;;
  pte_common_enable_user (root_entry 3).

Definition START_MEM : Z := 0x80100000.
Definition END_MEM : Z := 0x80600000.
Definition machine_main (regs fregs : list Z) (buffer_start : Z) (blocknr0 : nat -> Z) : K unit :=
  page_tables_init ;;;
  modify (fun k => k <| k_fs ::= fun s => s <| ROOT_DEV := 0x0101 |> |>) ;;;
  let! _ := rd_init RD_START RD_LENGTH in
  mem_init START_MEM END_MEM ;;;
  blk_dev_init ;;;
  time_init ;;;
  sched_init regs fregs ;;;
  buffer_init buffer_start (buffer_start + 100 * 1024) blocknr0.

(** ** The page tables *)
(** Memory differs from [m0] in the root page table only, whose entries are [e]. *)
Definition entries (m0 m : memory) (e : Z -> Z) : Prop :=
  (forall j, 0 <= j < PAGE_ROOT_TABLE_NUM -> ld 8 m (root_entry j) = e j) /\
  forall x, x < page_root_table \/ root_entry PAGE_ROOT_TABLE_NUM <= x -> m x = m0 x.
(** A write to entry [i]. *)
Lemma entries_upd k m0 m e i f : entries m0 m e -> 0 <= i < PAGE_ROOT_TABLE_NUM -> word_op f ->
  exists m', mod_pte (root_entry i) f (k <| k_pmem := m |>) = Ok tt (k <| k_pmem := m' |>) /\
    entries m0 m' (fun j => if j =? i then f (e i) else e j).
Proof.
  intros [He Hm] Hi Hf. exists (pte_upd f m (root_entry i)). split; [apply mod_pte_Ok|]. split.
  - intros j Hj. destruct (Z.eqb_spec j i) as [->|Hne]; [by rewrite ld_pte_upd, He|].
    rewrite ld_pte_upd_ne; [by apply He|]. unfold root_entry. lia.
  - intros x Hx. rewrite pte_upd_ne; [by apply Hm|]. unfold root_entry in *. lia.
Qed.
Lemma entries_ext m0 m e e' : entries m0 m e -> (forall j, 0 <= j < PAGE_ROOT_TABLE_NUM -> e j = e' j) -> entries m0 m e'.
Proof. intros [He Hm] H. split; [|done]. intros j Hj. rewrite <- H by done. by apply He. Qed.

(** Entry 2: valid, with all rights, for the page 0x80000 on; entry 3: a table, at [dir]. *)
Definition root_map (dir j : Z) : Z :=
  if j <? 2 then 0 else if j =? 2 then 0x2000001F else if j =? 3 then pte_enable_user (pte_addr_to_ppn dir 1) else 1.
Section Tables.
Context (k : kernel) (m0 : memory).
Local Notation "k @ m" := (k <| k_pmem := m |>) (at level 10).
Lemma map_kernel m : entries m0 m (fun _ => 0) -> runs kernel_entry_init (k @ m) (fun _ k' => exists m', k' = k @ m' /\
  entries m0 m' (fun j => if j =? 2 then 0x2000001F else 0)).
Proof.
  intros H0. assert (0 <= 2 < PAGE_ROOT_TABLE_NUM) as H2 by (unfold PAGE_ROOT_TABLE_NUM; lia).
  destruct (entries_upd k _ _ _ 2 (pte_addr_to_ppn 0x80000000) H0 H2) as (m1&E1&H1); [auto with pte|].
  destruct (entries_upd k _ _ _ 2 (pte_set_accessibility pte_accessibility_all) H1 H2) as (m2&E2&H3); [auto with pte|].
  destruct (entries_upd k _ _ _ 2 pte_enable_entry H3 H2) as (m3&E3&H4); [auto with pte|].
  destruct (entries_upd k _ _ _ 2 pte_enable_user H4 H2) as (m4&E4&H5); [auto with pte|].
  do 3 (eapply runs_step; [eassumption|]). unfold runs, pte_common_enable_user. rewrite E4. exists m4. split; [done|].
  apply (entries_ext _ _ _ _ H5). intros j _. cbv beta. by destruct (j =? 2).
Qed.
Definition linked (i j : Z) : Z := if j =? 2 then 0x2000001F else if (3 <=? j) && (j <? i) then 1 else 0.
Lemma link_tables m : entries m0 m (linked 3) -> runs (for_up 3 (Z.to_nat (PAGE_ROOT_TABLE_NUM - 3)) (fun i =>
    pte_common_set_accessibility (root_entry i) pte_accessibility_pointer ;;;
    pte_common_enable_entry (root_entry i))) (k @ m) (fun _ k' => exists m', k' = k @ m' /\ entries m0 m' (linked PAGE_ROOT_TABLE_NUM)).
Proof.
  intros H. apply (runs_for_up (fun i k' => exists m', k' = k @ m' /\ entries m0 m' (linked i))); [|by exists m].
  clear m H. intros i k' Hi (m&->&H). assert (0 <= i < PAGE_ROOT_TABLE_NUM) as Hi' by (unfold PAGE_ROOT_TABLE_NUM in *; lia).
  destruct (entries_upd k _ _ _ i (pte_set_accessibility pte_accessibility_pointer) H Hi') as (m1&E1&H1); [auto with pte|].
  destruct (entries_upd k _ _ _ i pte_enable_entry H1 Hi') as (m2&E2&H2); [auto with pte|].
  eapply runs_step; [exact E1|]. unfold runs, pte_common_enable_entry. rewrite E2. exists m2. split; [done|]. apply (entries_ext _ _ _ _ H2). intros j _. cbv beta. rewrite Z.eqb_refl. unfold linked.
  destruct (Z.eqb_spec j i) as [->|Hne].
  - assert (i =? 2 = false) as -> by lia. assert ((3 <=? i) && (i <? i) = false) as -> by lia. assert ((3 <=? i) && (i <? i + 1) = true) as -> by lia. done.
  - destruct (j =? 2); [done|]. assert ((j <? i + 1) = (j <? i)) as -> by lia. done.
Qed.
End Tables.
Lemma page_tables_init_spec k : runs page_tables_init k (fun _ k' => exists m, k' = k <| k_pmem := m |> /\
  entries (k_pmem k) m (root_map (page_dir_table (k_mm k)))).
Proof.
  unfold page_tables_init. set (m0 := memset (k_pmem k) page_root_table 0 (8 * PAGE_ROOT_TABLE_NUM)).
  apply (runs_step _ _ _ tt (k <| k_pmem := m0 |>)); [done|].
  assert (entries (k_pmem k) m0 (fun _ => 0)) as H0.
  { split; intros x Hx; unfold root_entry in *.
    - apply ld_memset_0; lia.
    - unfold m0, memset. rewrite in_range_false; [done|lia]. }
  apply runs_bind. eapply runs_mono; [|apply (map_kernel k _ m0 H0)]. intros _ k1 (m1&->&H1).
  apply runs_bind. eapply runs_mono; [|apply (link_tables k (k_pmem k) m1)].
  2:{ apply (entries_ext _ _ _ _ H1). intros j _. unfold linked. destruct (j =? 2), (Z.leb_spec 3 j), (Z.ltb_spec j 3); done || lia. }
  intros _ k2 (m2&->&H2). eapply runs_step; [reflexivity|]. rsimpl. set (dir := page_dir_table (k_mm k)).
  assert (0 <= 3 < PAGE_ROOT_TABLE_NUM) as Hr by (unfold PAGE_ROOT_TABLE_NUM; lia).
  destruct (entries_upd k _ _ _ 3 (pte_addr_to_ppn dir) H2 Hr) as (m3&E3&H3); [auto with pte|].
  destruct (entries_upd k _ _ _ 3 pte_enable_user H3 Hr) as (m4&E4&H4); [auto with pte|].
  eapply runs_step; [exact E3|]. unfold runs, pte_common_enable_user. rewrite E4. exists m4. split; [done|].
  apply (entries_ext _ _ _ _ H4). intros j Hj. cbv beta. unfold linked, root_map.
  destruct (Z.eqb_spec j 3) as [->|Hne]; [done|]. destruct (Z.ltb_spec j 2), (Z.eqb_spec j 2), (Z.leb_spec 3 j), (Z.ltb_spec j PAGE_ROOT_TABLE_NUM); done || lia.
Qed.

(** ** The state that the program starts from, and the one that [machine_main] leaves *)
(** The tables have their static sizes and contents, and the RAM disk was loaded with the kernel. *)
Record static (k : kernel) : Prop := mkStatic {
  st_blk : static_blk (k_blk k);
  st_mm : wf_mm k;
  st_inodes : inode_table (k_fs k) = replicate NR_INODE zero_inode;
  st_last : last_inode (k_fs k) = 0%nat;
  st_supers : length (super_blocks (k_fs k)) = NR_SUPER;
  st_files : length (file_table (k_fs k)) = NR_FILE;
  st_tasks : length (task (k_sched k)) = NR_TASKS;
  st_task : idx (task (k_sched k)) 0 = Some (Some init_task);
  st_current : current (k_sched k) = init_task;
  st_image : image_ok (fun blk x => k_pmem k (RD_START + blk * BLOCK_SIZE + x)) RD_LENGTH }.
Record started (k0 : kernel) (t : task_struct) (k : kernel) : Prop := mkStarted {
  sd_boot : bootable k t;
  sd_clean : all_clean k;
  sd_disk : forall blk x, on_dev RD_LENGTH blk = true -> 0 <= x < BLOCK_SIZE -> disk k blk x = k_pmem k0 (RD_START + blk * BLOCK_SIZE + x);
  sd_sched : sched_ok k;
  sd_alone : forall i, task_of k i = if i =? 0 then Some t else None;
  sd_mm : wf_mm k;
  sd_frames : forall j, 0 <= j < PAGING_PAGES ->
    count k j = if (START_MEM <=? frame_addr j) && (frame_addr j <? END_MEM) then 0 else USED;
  sd_root : forall j, 0 <= j < PAGE_ROOT_TABLE_NUM -> ld 8 (k_pmem k) (root_entry j) = root_map (page_dir_table (k_mm k)) j;
  sd_dir : forall j, 0 <= j < PAGE_DIR_TABLE_NUM -> ld 8 (k_pmem k) (init_task_page_dir_table + 8 * j) = 0 }.

(** [mem_init] changes the memory map only. *)
Lemma set_mem_map_mm i v k u k' : set_mem_map i v k = Ok u k' -> exists mm, k' = k <| k_mm := mm |> /\ page_dir_table mm = page_dir_table (k_mm k).
Proof.
  unfold set_mem_map, bind. destruct (get_mem_map i k) as [c k1|] eqn:E; [|done]. intros [= _ <-].
  assert (k1 = k) as -> by (revert E; unfold get_mem_map, bind, gets, unwrap; destruct (idx (mem_map (k_mm k)) i); by intros [=]).
  by eexists.
Qed.
Lemma for_mem_map v n : forall lo k u k', for_up lo n (fun i => set_mem_map i v) k = Ok u k' ->
  exists mm, k' = k <| k_mm := mm |> /\ page_dir_table mm = page_dir_table (k_mm k).
Proof.
  induction n as [|n IH]; intros lo k u k'; cbn [for_up].
  - intros [= _ <-]. exists (k_mm k). by destruct k.
  - unfold bind. destruct (set_mem_map lo v k) as [u1 k1|] eqn:E; [|done]. apply set_mem_map_mm in E as (mm&->&E).
    intros (mm'&->&E')%IH. exists mm'. split; [done|]. by rewrite E'.
Qed.
Lemma mem_init_mm lo hi k u k' : mem_init lo hi k = Ok u k' -> exists mm, k' = k <| k_mm := mm |> /\ page_dir_table mm = page_dir_table (k_mm k).
Proof.
  unfold mem_init, bind at 1, modify at 1. unfold bind. destruct (for_up 0 _ _ _) as [u1 k1|] eqn:E; [|done].
  apply for_mem_map in E as (mm&->&E). intros (mm'&->&E')%for_mem_map. exists mm'. split; [done|]. by rewrite E'.
Qed.
(** [sched_init] leaves task 0 alone in the table. *)
Lemma sched_init_spec regs fregs k : length (task (k_sched k)) = NR_TASKS -> runs (sched_init regs fregs) k (fun _ k' =>
  exists l ks m, k' = k <| k_sched ::= fun s => s <| task := l |> <| tasks ::= fun ts => <[init_task := first_task regs fregs]> ts |>
      <| cur_kernel_stack := ks |> |> <| k_pmem := m |> /\
    m = memset (k_pmem k) init_task_page_dir_table 0 (8 * PAGE_DIR_TABLE_NUM) /\ length l = NR_TASKS /\
    forall j, 0 <= j < Z.of_nat NR_TASKS -> idx l j = if j =? 0 then idx (task (k_sched k)) 0 else Some None).
Proof.
  intros Hlen. unfold sched_init. apply runs_bind. eapply runs_mono; [|apply (runs_for_up (fun i k' => 1 <= i /\
    exists l, k' = k <| k_sched ::= fun s => s <| task := l |> |> /\ length l = NR_TASKS /\ idx l 0 = idx (task (k_sched k)) 0 /\
      forall j, 1 <= j < i -> idx l j = Some None))].
  - intros _ k1 (_&l&->&Hl&H0&Hj). eapply runs_step; [reflexivity|]. eapply runs_step; [reflexivity|]. apply runs_modify.
    exists l, (default 0 (idx (kernel_stack (k_sched k)) 0)). eexists. split; [reflexivity|]. split_and!; [reflexivity|done|].
    intros j Hr. destruct (Z.eqb_spec j 0) as [->|]; [done|]. apply Hj. change (Z.of_nat NR_TASKS) with 64 in Hr. change (1 + Z.of_nat (NR_TASKS - 1)) with 64. lia.
  - intros i k1 Hi (Hi1&l&->&Hl&H0&Hj). apply runs_modify. split; [lia|]. exists (upd_idx l i None). split_and!.
    + done.
    + by rewrite length_upd_idx.
    + by rewrite idx_upd_ne by lia.
    + intros j Hr. destruct (decide (j = i)) as [->|]; [apply idx_upd_eq; rewrite Hl; change (1 + Z.of_nat (NR_TASKS - 1)) with 64 in Hi; change (Z.of_nat NR_TASKS) with 64; lia|].
      rewrite idx_upd_ne by lia. apply Hj. lia.
  - split; [lia|]. exists (task (k_sched k)). split_and!; [by destruct k as [? ? ? [] ? ? ?]|done|done|lia].
Qed.

(** Before [buffer_init]. *)
Record before_buffers (k0 : kernel) (t : task_struct) (k : kernel) : Prop := mkBefore {
  bb_idle : idle k;
  bb_disk : rd_start (k_blk k) = RD_START /\ rd_length (k_blk k) = RD_LENGTH;
  bb_wait : buffer_wait (k_blk k) = None;
  bb_hash : Z.of_nat (length (hash_table (k_blk k))) = NR_HASH;
  bb_fs : k_fs k = (k_fs k0) <| ROOT_DEV := RD_DEV |>;
  bb_current : current (k_sched k) = init_task /\ tasks (k_sched k) !! init_task = Some t;
  bb_tasks : length (task (k_sched k)) = NR_TASKS /\
    forall j, 0 <= j < Z.of_nat NR_TASKS -> idx (task (k_sched k)) j = if j =? 0 then Some (Some init_task) else Some None;
  bb_mm : wf_mm k /\ forall j, 0 <= j < PAGING_PAGES ->
    count k j = if (START_MEM <=? frame_addr j) && (frame_addr j <? END_MEM) then 0 else USED;
  bb_root : forall j, 0 <= j < PAGE_ROOT_TABLE_NUM -> ld 8 (k_pmem k) (root_entry j) = root_map (page_dir_table (k_mm k)) j;
  bb_dir : forall j, 0 <= j < PAGE_DIR_TABLE_NUM -> ld 8 (k_pmem k) (init_task_page_dir_table + 8 * j) = 0;
  bb_mem : forall x, init_task_page_dir_table + 8 * PAGE_DIR_TABLE_NUM <= x -> k_pmem k x = k_pmem k0 x }.

Lemma tasks_alone k t : current (k_sched k) = init_task /\ tasks (k_sched k) !! init_task = Some t ->
  length (task (k_sched k)) = NR_TASKS ->
  (forall j, 0 <= j < Z.of_nat NR_TASKS -> idx (task (k_sched k)) j = if j =? 0 then Some (Some init_task) else Some None) ->
  sched_ok k /\ forall i, task_of k i = if i =? 0 then Some t else None.
Proof.
  intros [_ Ht] Hlen Hj.
  assert (forall i p, idx (task (k_sched k)) i = Some (Some p) -> i = 0 /\ p = init_task) as H1.
  { intros i p H. pose proof (idx_Some_bound _ _ _ H) as Hb. rewrite Hlen in Hb. rewrite Hj in H by done.
    destruct (Z.eqb_spec i 0); [by simplify_eq|done]. }
  assert (forall i, task_of k i = if i =? 0 then Some t else None) as H2.
  { intros i. unfold task_of. destruct (idx (task (k_sched k)) i) as [[p|]|] eqn:E.
    - apply H1 in E as [-> ->]. exact Ht.
    - destruct (Z.eqb_spec i 0) as [->|]; [|done]. rewrite Hj in E by (unfold NR_TASKS; lia). done.
    - destruct (Z.eqb_spec i 0) as [->|]; [|done]. rewrite Hj in E by (unfold NR_TASKS; lia). done. }
  split; [|done]. split; [done| | | |].
  - intros i p [-> ->]%H1. by exists t.
  - intros i j p [-> _]%H1 [-> _]%H1. done.
  - intros i u Hi. rewrite H2. unfold slots in Hi. assert (i =? 0 = false) as -> by lia. done.
  - intros i u Hi. rewrite H2. unfold slots in Hi. assert (i =? 0 = false) as -> by lia. done.
Qed.

Lemma buffer_init_starts k0 t start blocknr0 k : static k0 -> before_buffers k0 t k -> 0 <= start ->
  start + 100 * 1024 <= RD_START \/ RD_START + RD_LENGTH <= start ->
  runs (buffer_init start (start + 100 * 1024) blocknr0) k (fun _ => started k0 t).
Proof.
  intros S B Hs Hdis. destruct B as [Hidle [Hrs Hrl] Hw Hh Hfs Hcur [Htl Htj] [Hmm Hct] Hroot Hdir Hmem].
  assert (start + 100 * 1024 - start = 100 * 1024) as Esz by lia.
  eapply runs_mono; [|apply (buffer_init_spec start (start + 100 * 1024) blocknr0 k)].
  2: lia. 2: unfold nr_buffers; rewrite Esz; vm_compute; done. 2: done.
  intros _ k' (ht&->&HQ). assert (Z.to_nat (nr_buffers start (start + 100 * 1024)) = 94%nat) as En by (unfold nr_buffers; rewrite Esz; done).
  rewrite En in *.
  assert (rd_fits k) as Hfits by (unfold rd_fits; rewrite Hrs, Hrl; done).
  pose proof (init_cache_inv k start blocknr0 ht HQ Hidle Hfits Hw ltac:(by rewrite Hrs, Hrl)) as HI.
  set (k' := put_q _ ht 0 k) in *.
  assert (forall b h, buffers (k_blk k') !! b = Some h -> b_count h = 0 /\ b_dirt h = 0) as Hb.
  { intros b h [Hb (_&_&_&_&E5&E6&_)%core_fields]%closed_head. by rewrite E5, E6. }
  assert (forall blk x, on_dev RD_LENGTH blk = true -> 0 <= x < BLOCK_SIZE -> disk k' blk x = k_pmem k0 (RD_START + blk * BLOCK_SIZE + x)) as Hd.
  { intros blk x Hblk Hx. rewrite (disk_clean _ _ _ HI) by (first [done | intros b h Hbh _; by apply (Hb b h)]).
    unfold rd_addr. change (rd_start (k_blk k')) with (rd_start (k_blk k)). rewrite Hrs. apply Hmem.
    unfold on_dev in Hblk. apply andb_true_iff in Hblk as [?%Z.leb_le _]. unfold RD_START, BLOCK_SIZE in *.
    change (init_task_page_dir_table + 8 * PAGE_DIR_TABLE_NUM) with 0x80035000. lia. }
  destruct (tasks_alone k' t Hcur Htl Htj) as [Hso Hal].
  split; try done; [split|].
  - by eexists _, _.
  - intros b h Hbh. destruct (Hb b h Hbh) as [-> _]. done.
  - unfold spares. rewrite spare_heads_all.
    + change (16 < length (closed_heads (start + 100 * 1024) blocknr0 94))%nat. rewrite closed_length. by apply Nat.ltb_lt.
    + intros b h Hbh. destruct (Hb b h Hbh) as [E1 E2]. unfold is_spare. by rewrite E1, E2.
  - change (length (file_table (k_fs k)) = NR_FILE). rewrite Hfs. apply S.
  - change (length (super_blocks (k_fs k)) = NR_SUPER). rewrite Hfs. apply S.
  - change (ROOT_DEV (k_fs k) = RD_DEV). by rewrite Hfs.
  - change (inode_table (k_fs k) = replicate NR_INODE zero_inode). rewrite Hfs. apply S.
  - change (last_inode (k_fs k) < NR_INODE)%nat. rewrite Hfs. change (last_inode (k_fs k0) < NR_INODE)%nat. rewrite (st_last _ S). by apply Nat.ltb_lt.
  - destruct Hcur as [E ?]. change (tasks (k_sched k) !! current (k_sched k) = Some t). by rewrite E.
  - change (rd_length (k_blk k')) with (rd_length (k_blk k)). rewrite Hrl. apply (image_ok_disk _ _ _ (st_image _ S)). exact Hd.
  - intros b h Hbh. by apply (Hb b h).
Qed.

Lemma rd_init_Ok k d : idx (blk_dev (k_blk k)) MAJOR_NR_RAMDISK = Some d ->
  rd_init RD_START RD_LENGTH k = Ok RD_LENGTH (k <| k_blk ::= fun s => s <| blk_dev ::= fun l => upd_idx l MAJOR_NR_RAMDISK (d <| request_fn := true |>) |> |>
    <| k_blk ::= fun s => s <| rd_start := RD_START |> <| rd_length := RD_LENGTH |> |>).
Proof.
  intros Hd. unfold rd_init, mod_blk_dev, get_blk_dev. rewrite !bind_assoc. erewrite bind_Ok by reflexivity. rewrite Hd.
  erewrite bind_Ok by reflexivity. erewrite bind_Ok by reflexivity. reflexivity.
Qed.
Lemma time_init_Ok k : time_init k = Ok tt (k <| k_sched ::= fun s0 => s0 <| startup_time := 1406952928 |> |>).
Proof. reflexivity. Qed.
Lemma machine_main_spec regs fregs start blocknr0 k : static k -> 0 <= start ->
  start + 100 * 1024 <= RD_START \/ RD_START + RD_LENGTH <= start ->
  runs (machine_main regs fregs start blocknr0) k (fun _ => started k (first_task regs fregs)).
Proof.
  intros S Hs Hdis. pose proof S as [(Hrq&Hwfr&Hbw&Hht&Hbd&Hcur) Hmm _ _ _ _ Htl Ht0 Hc _].
  destruct (idx_is_Some (blk_dev (k_blk k)) MAJOR_NR_RAMDISK) as [d Hd]; [rewrite Hbd; unfold MAJOR_NR_RAMDISK, NR_BLK_DEV; lia|].
  assert (current_request d = None) as Hdc by (unfold idx in Hd; cbn in Hd; by apply (Forall_lookup_1 _ _ _ _ Hcur Hd)).
  unfold machine_main. apply runs_bind. eapply runs_mono; [|apply page_tables_init_spec]. intros _ k1 (m1&->&He&Hout).
  eapply runs_step; [reflexivity|]. set (k2 := upd k_fs _ _).
  eapply runs_step; [by apply (rd_init_Ok k2 d)|]. set (k3 := upd k_blk _ _).
  pose proof (mem_init_counts k3 START_MEM END_MEM Hmm) as Hmem.
  apply runs_Ok in Hmem as (u&k4&E4&Hmm4&_&Hct4); [|vm_compute; split; discriminate|vm_compute; discriminate|reflexivity|reflexivity].
  eapply runs_step; [exact E4|]. destruct (mem_init_mm _ _ _ _ _ E4) as (mm&->&Hpd). set (k4 := upd k_mm _ k3) in *.
  apply runs_bind. eapply runs_mono; [|by apply (blk_dev_init_spec k4)]. intros _ k5 (rqs&->&Hrl&Hrf). set (k5 := upd k_blk _ _).
  eapply runs_step; [apply time_init_Ok|]. set (k6 := upd k_sched _ _).
  apply runs_bind. eapply runs_mono; [|by apply (sched_init_spec regs fregs k6)].
  intros _ k7 (l&ks&m&->&->&Hl&Hlj). apply buffer_init_starts; [done| |done|done]. set (k7 := upd k_pmem _ _).
  set (m := memset (k_pmem k6) init_task_page_dir_table 0 (8 * PAGE_DIR_TABLE_NUM)) in *.
  assert (forall x, x < init_task_page_dir_table -> m x = m1 x) as Hlow.
  { intros x Hx. unfold m, memset. rewrite in_range_false; [done|lia]. }
  assert (root_entry PAGE_ROOT_TABLE_NUM <= init_task_page_dir_table) as Hdirs by (vm_compute; discriminate).
  split; try done.
  - split_and!; try done; [change (length (upd_idx (blk_dev (k_blk k)) MAJOR_NR_RAMDISK (d <| request_fn := true |>)) = Z.to_nat NR_BLK_DEV);
      by rewrite length_upd_idx|].
    change (idx (upd_idx (blk_dev (k_blk k)) MAJOR_NR_RAMDISK (d <| request_fn := true |>)) MAJOR_NR_RAMDISK = Some (mkBlkDev true None)).
    rewrite idx_upd_eq by (rewrite Hbd; unfold MAJOR_NR_RAMDISK, NR_BLK_DEV; lia). destruct d; cbn in Hdc; by subst.
  - split; [exact Hc|]. change (<[init_task := first_task regs fregs]> (tasks (k_sched k)) !! init_task = Some (first_task regs fregs)). apply lookup_insert_eq.
  - split; [done|]. intros j Hj. change (idx l j = if j =? 0 then Some (Some init_task) else Some None). rewrite Hlj by done.
    destruct (j =? 0); [exact Ht0|done].
  - intros j Hj. change (ld 8 m (root_entry j) = root_map (page_dir_table mm) j). rewrite Hpd, <- He by done.
    apply ld_ext. intros x Hx. apply Hlow. unfold root_entry in *. cbn in Hx. lia.
  - intros j Hj. change (ld 8 m (init_task_page_dir_table + 8 * j) = 0). apply ld_memset_0; lia.
  - intros x Hx. change (m x = k_pmem k x). unfold m, memset. rewrite in_range_false by lia. apply Hout. right. assert (0 <= PAGE_DIR_TABLE_NUM) by (vm_compute; discriminate). lia.
Qed.

(** ** [setup] *)
Section Setup.
Context {SI : SyncInodes} {HSI : SyncInodesOk SI}.
Lemma rd_load_Ok k : cache_ok k -> all_clean k -> image_ok (disk k) (rd_length (k_blk k)) -> rd_load k = Ok tt k.
Proof.
  intros (l&ch&HI) Hcl Him. unfold rd_load. erewrite bind_Ok by reflexivity. destruct (_ =? 0); [done|].
  erewrite bind_Ok by reflexivity. unfold rd16, rd. erewrite bind_Ok by reflexivity.
  assert (ld 2 (k_pmem k) (rd_start (k_blk k) + 1024 + 16) = ld 2 (disk k 1) 16) as ->.
  { apply (ld_shift 2). intros j Hj. change (Z.of_nat 2) with 2 in Hj. rewrite (disk_clean _ _ _ HI).
    - unfold rd_addr, BLOCK_SIZE. f_equal. lia.
    - unfold BLOCK_SIZE. lia.
    - intros b h Hb _. by eapply Hcl. }
  by rewrite (im_magic _ _ Him).
Qed.
Lemma sys_setup_spec k t : bootable k t -> all_clean k ->
  runs sys_setup k (fun r k' => r = 0 /\ exists sb rn, mounted k t k' sb rn).
Proof.
  intros B Hcl. unfold sys_setup. eapply runs_step; [by apply rd_load_Ok; [apply B| |apply B]|]. apply runs_bind.
  eapply runs_mono; [|by apply mount_root_spec]. intros r k' (sb&rn&HM&_). apply runs_ret. split; [done|]. by exists sb, rn.
Qed.
End Setup.

(** ** Properties *)
Module BootProps.

(** C8: the kernel boots.  From the state in which the program is loaded, with a well-formed file
    system in the RAM disk, [machine_main] returns and establishes what the rest of the kernel relies
    on: the invariant of the buffer cache with every buffer clean and unused and the disk as it was
    loaded; the memory map, with exactly the frames from 0x80100000 to 0x80600000 free; the task table,
    with task 0 alone; the root page table, which maps the gigabyte at 0x80000000 to itself, and an
    empty page directory of task 0.  In that state the system call [setup] returns 0 with the root
    file system mounted, so that paths resolve. *)
Theorem machine_main_boots {SI : SyncInodes} {HSI : SyncInodesOk SI} regs fregs start blocknr0 k :
  static k -> 0 <= start -> start + 100 * 1024 <= RD_START \/ RD_START + RD_LENGTH <= start ->
  let t := first_task regs fregs in
  runs (machine_main regs fregs start blocknr0) k (fun _ k1 => started k t k1 /\
    runs sys_setup k1 (fun r k2 => r = 0 /\ exists sb rn, mounted k1 t k2 sb rn)).
Proof.
  intros HS Hs Hdis t. eapply runs_mono; [|by apply machine_main_spec]. intros u k1 H1. split; [exact H1|].
  apply sys_setup_spec; apply H1.
Qed.
Lemma demo_static : static (kernel0 <| k_pmem := MountProps.demo_image |>).
Proof.
  split; try reflexivity; [apply static_kernel0|apply kernel0_wf|apply MountProps.demo_image_ok].
Qed.
Lemma machine_main_boots_witness :
  runs (machine_main [] [] 0x800D7000 (fun _ => 0)) (kernel0 <| k_pmem := MountProps.demo_image |>) (fun _ k1 =>
    runs sys_setup k1 (fun r k2 => r = 0 /\ exists sb t rn, resolvable k2 sb t rn rn /\ i_size rn = 48)).
Proof.
  eapply runs_mono; [|apply (machine_main_boots [] [] 0x800D7000 (fun _ => 0)); [exact demo_static|lia|right; vm_compute; discriminate]].
  intros _ k1 [Hst H]. revert H. apply runs_mono. intros r k2 (->&sb&rn&HM). split; [reflexivity|].
  eexists sb, _, rn. split; [exact (mt_resolvable _ _ _ _ _ HM)|].
  destruct (mt_root _ _ _ _ _ HM) as (_&_&Hp). apply (f_equal i_size) in Hp. pose proof (sd_disk _ _ _ Hst) as Hd.
  destruct (mt_super _ _ _ _ _ HM) as [(Hld&_) _].
  rewrite (load_d_super_ext (MountProps.demo_disk 1) _ 0 0 sb) in Hld by (intros; apply Hd; [reflexivity|lia]).
  assert (forall nr, inode_block sb nr = inode_block (demo_zsuper 0) nr) as Eb by (intros nr; by rewrite <- Hld).
  rewrite (d_inode_disk MountProps.demo_disk (disk k1) RD_LENGTH (demo_zsuper 0)) in Hp by (first [exact Hd | apply Eb | reflexivity]).
  exact Hp.
Defined.
End BootProps.
