(* ===== verification/Tables.v ===== *)
(** * The types of the kernel's tables

    The C types fix the length of every table and of every array in a structure, and the range of every
    integer field; the model has lists and unbounded integers.  [tables_ok] says that a state has the
    shape that the types prescribe, for the fields of i-nodes, open files, super blocks, queues and tasks
    that are narrower than a register.  A lemma per field ([ty_set_*], database [ty]) says which values
    keep the type of the structure, and a lemma per table which structures keep that of the table.
    Frame.v shows that no entry into the kernel leaves [tables_ok]. *)
From Stdlib Require Import ZArith Lia String.
From stdpp Require Import base list gmap.
From S2P Require Import Prelude State InodeIO Super Process.
Open Scope Z_scope.

(** [uint8_t], [uint16_t], [uint32_t] *)
Definition uint8 (v : Z) : Prop := 0 <= v < 256.
Definition uint16 (v : Z) : Prop := 0 <= v < 65536.
Definition uint32 (v : Z) : Prop := 0 <= v < 2 ^ 32.

(** ** Structures *)
(** The fields of an i-node that are also on the disk are those of [d_inode_ok]. *)
Record inode_ty (n : m_inode) : Prop := mkInodeTy {
  ty_d_inode : d_inode_ok n;
  ty_atime : uint32 (i_atime n); ty_ctime : uint32 (i_ctime n);
  ty_dev : uint16 (i_dev n); ty_num : uint16 (i_num n); ty_count : uint16 (i_count n);
  ty_lock : uint8 (i_lock n); ty_dirt : uint8 (i_dirt n); ty_pipe : uint8 (i_pipe n);
  ty_mount : uint8 (i_mount n) }.
Definition super_ty (s : super_block) : Prop :=
  length (s_imap s) = I_MAP_SLOTS /\ length (s_zmap s) = Z_MAP_SLOTS /\ uint16 (s_dev s) /\ uint16 (s_ninodes s) /\
  uint16 (s_nzones s) /\ uint16 (s_imap_blocks s) /\ uint16 (s_zmap_blocks s).
Definition file_ty (f : file) : Prop := uint16 (f_mode f) /\ uint16 (f_flags f) /\ uint16 (f_count f).
(** [filp[NR_OPEN]], [sigaction[32]], [tss.regs[32]], [tss.fregs[32]]; the ids are [uint16_t]. *)
Definition ids_ty (u : Z * Z * Z) : Prop := let '(u, e, s) := u in uint16 u /\ uint16 e /\ uint16 s.
Definition task_ty (t : task_struct) : Prop :=
  length (t_filp t) = NR_OPEN /\ length (t_sigaction t) = 32%nat /\
  length (tss_regs (t_tss t)) = 32%nat /\ length (tss_fregs (t_tss t)) = 32%nat /\
  ids_ty (t_uid t, t_euid t, t_suid t) /\ ids_ty (t_gid t, t_egid t, t_sgid t).
(** [char buf[TTY_BUF_SIZE]]; [char] is unsigned here. *)
Definition queue_ty (q : tty_queue) : Prop := length (q_buf q) = Z.to_nat TTY_BUF_SIZE /\ Forall uint8 (q_buf q).
Definition tty_ty (t : tty_struct) : Prop := queue_ty (read_q t) /\ queue_ty (write_q t) /\ queue_ty (secondary t).

(** ** Tables *)
Definition mm_ty (s : mm_state) : Prop := length (mem_map s) = Z.to_nat PAGING_PAGES /\ Forall uint8 (mem_map s).
Definition blk_ty (s : blk_state) : Prop :=
  length (hash_table s) = Z.to_nat NR_HASH /\ length (requests s) = NR_REQUEST /\ length (blk_dev s) = Z.to_nat NR_BLK_DEV.
Definition fs_ty (s : fs_state) : Prop :=
  length (inode_table s) = NR_INODE /\ Forall inode_ty (inode_table s) /\
  length (super_blocks s) = NR_SUPER /\ Forall super_ty (super_blocks s) /\ length (file_table s) = NR_FILE /\ Forall file_ty (file_table s).
Definition sched_ty (s : sched_state) : Prop :=
  map_Forall (fun _ t => task_ty t) (tasks s) /\ length (task s) = NR_TASKS /\
  length (kernel_stack s) = NR_TASKS /\ length (kernel_stackbottom s) = NR_TASKS /\ length (timer_list s) = TIME_REQUESTS.
Record tables_ok (k : kernel) : Prop := mkTablesOk {
  ty_mm : mm_ty (k_mm k);
  ty_blk : blk_ty (k_blk k);
  ty_fs : fs_ty (k_fs k);
  ty_sched : sched_ty (k_sched k);
  ty_tty : Forall tty_ty (tty_table (k_tty k)) }.

(** ** Integers *)
Lemma uint8_u8 v : uint8 (u8 v).
Proof. apply u8_bound. Qed.
Lemma uint16_u16 v : uint16 (u16 v).
Proof. apply u16_bound. Qed.
Lemma uint16_u8 v : uint16 (u8 v).
Proof. pose proof (u8_bound v). unfold uint16. lia. Qed.
Lemma uint32_u32 v : uint32 (u32 v).
Proof. apply Z.mod_pos_bound. lia. Qed.
Lemma uint16_ld m a : uint16 (ld 2 m a).
Proof. exact (ld_bound 2 m a). Qed.
Lemma uint16_page v : uint16 (Z.land v (PAGE_SIZE - 1)).
Proof. change (PAGE_SIZE - 1) with (Z.ones 12). rewrite Z.land_ones by lia. pose proof (Z.mod_pos_bound v (2 ^ 12)). unfold uint16. lia. Qed.

(** ** Updates of a structure *)
(** [ty] proves that a changed structure has its type: by a lemma of the database [ty] for each field that
    is set, and by the range of the value. *)
Create HintDb ty discriminated.
#[export] Hint Resolve uint8_u8 uint16_u16 uint16_u8 uint32_u32 uint16_page : ty.
Ltac ty_int := first [ assumption | simple apply uint16_u16 | simple apply uint32_u32 | simple apply uint8_u8 | simple apply uint16_u8
                     | simple apply uint16_page | unfold uint8, uint16, uint32, ROOT_INO; lia ].
Ltac ty_inode :=
  intros; repeat match goal with H : inode_ty _ |- _ => destruct H end;
  match goal with H : d_inode_ok _ |- _ => unfold d_inode_ok in H; destruct H as (?&?&?&?&?&?&?&?) end;
  split; [refine (conj _ (conj _ (conj _ (conj _ (conj _ (conj _ (conj _ _)))))))|..]; rsimpl; rewrite ?length_upd_idx; try ty_int.
Lemma ty_set_i_mode n v : uint16 v -> inode_ty n -> inode_ty (n <| i_mode := v |>).
Proof. ty_inode. Qed.
Lemma ty_set_i_uid n v : uint16 v -> inode_ty n -> inode_ty (n <| i_uid := v |>).
Proof. ty_inode. Qed.
Lemma ty_set_i_size n v : uint32 v -> inode_ty n -> inode_ty (n <| i_size := v |>).
Proof. ty_inode. Qed.
Lemma ty_set_i_mtime n v : uint32 v -> inode_ty n -> inode_ty (n <| i_mtime := v |>).
Proof. ty_inode. Qed.
Lemma ty_set_i_gid n v : uint8 v -> inode_ty n -> inode_ty (n <| i_gid := v |>).
Proof. ty_inode. Qed.
Lemma ty_set_i_nlinks n v : uint8 v -> inode_ty n -> inode_ty (n <| i_nlinks := v |>).
Proof. ty_inode. Qed.
Lemma ty_set_i_atime n v : uint32 v -> inode_ty n -> inode_ty (n <| i_atime := v |>).
Proof. ty_inode. Qed.
Lemma ty_set_i_ctime n v : uint32 v -> inode_ty n -> inode_ty (n <| i_ctime := v |>).
Proof. ty_inode. Qed.
Lemma ty_set_i_dev n v : uint16 v -> inode_ty n -> inode_ty (n <| i_dev := v |>).
Proof. ty_inode. Qed.
Lemma ty_set_i_num n v : uint16 v -> inode_ty n -> inode_ty (n <| i_num := v |>).
Proof. ty_inode. Qed.
Lemma ty_set_i_count n v : uint16 v -> inode_ty n -> inode_ty (n <| i_count := v |>).
Proof. ty_inode. Qed.
Lemma ty_set_i_lock n v : uint8 v -> inode_ty n -> inode_ty (n <| i_lock := v |>).
Proof. ty_inode. Qed.
Lemma ty_set_i_dirt n v : uint8 v -> inode_ty n -> inode_ty (n <| i_dirt := v |>).
Proof. ty_inode. Qed.
Lemma ty_set_i_pipe n v : uint8 v -> inode_ty n -> inode_ty (n <| i_pipe := v |>).
Proof. ty_inode. Qed.
Lemma ty_set_i_mount n v : uint8 v -> inode_ty n -> inode_ty (n <| i_mount := v |>).
Proof. ty_inode. Qed.
Lemma ty_set_i_wait n v : inode_ty n -> inode_ty (n <| i_wait := v |>).
Proof. ty_inode. Qed.
Lemma ty_set_i_zone n i v : uint16 v -> inode_ty n -> inode_ty (n <| i_zone ::= fun z => upd_idx z i v |>).
Proof. ty_inode. by apply Forall_insert. Qed.
#[export] Hint Resolve ty_set_i_mode ty_set_i_uid ty_set_i_size ty_set_i_mtime ty_set_i_gid ty_set_i_nlinks ty_set_i_atime ty_set_i_ctime ty_set_i_dev ty_set_i_num ty_set_i_count ty_set_i_lock ty_set_i_dirt ty_set_i_pipe ty_set_i_mount ty_set_i_wait ty_set_i_zone : ty.
Lemma ty_zero_inode : inode_ty zero_inode.
Proof.
  split; [refine (conj _ (conj _ (conj _ (conj _ (conj _ (conj _ (conj _ _)))))))|..]; try (unfold uint8, uint16, uint32; cbn; lia).
  by apply Forall_replicate.
Qed.
Lemma load_zones_ty m a n : length (load_zones m a n) = n /\ Forall uint16 (load_zones m a n).
Proof.
  revert a. induction n as [|n IH]; intros a; [done|]. cbn. destruct (IH (a + 2)) as [-> H]. split; [done|].
  constructor; [exact (ld_bound 2 m a)|done].
Qed.
Lemma ty_load_d_inode m a n : inode_ty n -> inode_ty (load_d_inode m a n).
Proof.
  intros [_ ? ? ? ? ? ? ? ? ?]. split; try done. destruct (load_zones_ty m (a + 14) 9).
  refine (conj (ld_bound 2 m _) (conj (ld_bound 2 m _) (conj (ld_bound 4 m _) (conj (ld_bound 4 m _)
    (conj (ld_bound 1 m _) (conj (ld_bound 1 m _) (conj _ _))))))); done.
Qed.
#[export] Hint Resolve ty_zero_inode ty_load_d_inode ty_ctime : ty.
#[export] Hint Extern 5 (uint8 _) => unfold uint8; lia : ty.
#[export] Hint Extern 5 (uint16 _) => unfold uint16, ROOT_INO; lia : ty.
#[export] Hint Extern 5 (uint32 _) => unfold uint32; lia : ty.

Lemma ty_set_s_dev s v : uint16 v -> super_ty s -> super_ty (s <| s_dev := v |>).
Proof. by intros Hv (?&?&?&?). Qed.
Lemma ty_set_s_imap s i b : super_ty s -> super_ty (s <| s_imap ::= fun l => upd_idx l i b |>).
Proof. intros (?&?). split; [by rsimpl; rewrite length_upd_idx|done]. Qed.
Lemma ty_set_s_zmap s i b : super_ty s -> super_ty (s <| s_zmap ::= fun l => upd_idx l i b |>).
Proof. intros (?&?&?). split; [done|]. split; [by rsimpl; rewrite length_upd_idx|done]. Qed.
Lemma ty_no_imap s : super_ty s -> super_ty (s <| s_imap := replicate I_MAP_SLOTS None |>).
Proof. by intros (?&?). Qed.
Lemma ty_no_zmap s : super_ty s -> super_ty (s <| s_zmap := replicate Z_MAP_SLOTS None |>).
Proof. by intros (?&?&?). Qed.
Lemma ty_load_d_super m a s : super_ty s -> super_ty (load_d_super m a s).
Proof.
  intros (?&?&?&?). unfold load_d_super, super_ty. rsimpl.
  refine (conj _ (conj _ (conj _ (conj (uint16_ld m _) (conj (uint16_ld m _) (conj (uint16_ld m _) (uint16_ld m _))))))); assumption.
Qed.
Lemma ty_set_f_count f v : uint16 v -> file_ty f -> file_ty (f <| f_count := v |>).
Proof. by intros ? (?&?&?). Qed.
Lemma ty_set_f_flags f v : uint16 v -> file_ty f -> file_ty (f <| f_flags := v |>).
Proof. by intros ? (?&?&?). Qed.
Lemma ty_set_f_mode f v : uint16 v -> file_ty f -> file_ty (f <| f_mode := v |>).
Proof. by intros ? (?&?&?). Qed.
(** A field whose type is not looked at. *)
Ltac ty_strip := match goal with |- ?P (@upd _ _ ?q ?i ?f ?r) => change (P r) end.
#[export] Hint Extern 3 (inode_ty _) => ty_strip : ty.
#[export] Hint Extern 3 (super_ty _) => ty_strip : ty.
#[export] Hint Extern 3 (file_ty _) => ty_strip : ty.
#[export] Hint Extern 3 (task_ty _) => ty_strip : ty.
#[export] Hint Resolve ty_set_s_dev ty_set_s_imap ty_set_s_zmap ty_no_imap ty_no_zmap ty_load_d_super ty_set_f_count ty_set_f_flags ty_set_f_mode : ty.
Lemma ty_zero_task : task_ty zero_task.
Proof.
  assert (uint16 0) as Hw by (unfold uint16; lia).
  split_and!; first [exact eq_refl | exact (conj Hw (conj Hw Hw)) | exact Hw].
Qed.
Lemma ty_set_t_filp t i v : task_ty t -> task_ty (t <| t_filp ::= fun l => upd_idx l i v |>).
Proof. intros (?&?). split; [by rsimpl; rewrite length_upd_idx|done]. Qed.
Lemma ty_child c p now : task_ty c -> task_ty (child_of c p now).
Proof. done. Qed.

(** ** Updates of a table *)
Lemma Forall_upd_idx {A} (P : A -> Prop) l i x : Forall P l -> P x -> Forall P (upd_idx l i x).
Proof. intros. by apply Forall_insert. Qed.
Lemma ty_set_q_buf a i v : uint8 v -> queue_ty a -> queue_ty (a <| q_buf := upd_idx (q_buf a) i v |>).
Proof. intros Hv [H1 H2]. split; [by rsimpl; rewrite length_upd_idx|by apply Forall_upd_idx]. Qed.
Lemma ty_set_sigaction t i v : task_ty t -> task_ty (t <| t_sigaction ::= fun l => upd_idx l i v |>).
Proof. intros (?&?&?). refine (conj _ (conj _ _)); [done|by rsimpl; rewrite length_upd_idx|done]. Qed.
Lemma ty_map_sigaction t f : task_ty t -> task_ty (t <| t_sigaction ::= fmap f |>).
Proof. intros (?&?&?). refine (conj _ (conj _ _)); [done|by rsimpl; rewrite length_fmap|done]. Qed.
Lemma ty_set_reg t i v : task_ty t -> task_ty (t <| t_tss ::= fun s => s <| tss_regs ::= fun l => upd_idx l i v |> |>).
Proof. intros (?&?&?&?). refine (conj _ (conj _ (conj _ _))); [done|done|by rsimpl; rewrite length_upd_idx|done]. Qed.
Lemma ty_set_t_uid t v : uint16 v -> task_ty t -> task_ty (t <| t_uid := v |>).
Proof. by intros Hv (?&?&?&?&(?&?&?)&(?&?&?)). Qed.
Lemma ty_set_t_euid t v : uint16 v -> task_ty t -> task_ty (t <| t_euid := v |>).
Proof. by intros Hv (?&?&?&?&(?&?&?)&(?&?&?)). Qed.
Lemma ty_set_t_gid t v : uint16 v -> task_ty t -> task_ty (t <| t_gid := v |>).
Proof. by intros Hv (?&?&?&?&(?&?&?)&(?&?&?)). Qed.
Lemma ty_set_t_egid t v : uint16 v -> task_ty t -> task_ty (t <| t_egid := v |>).
Proof. by intros Hv (?&?&?&?&(?&?&?)&(?&?&?)). Qed.
Lemma ty_set_t_sgid t v : uint16 v -> task_ty t -> task_ty (t <| t_sgid := v |>).
Proof. by intros Hv (?&?&?&?&(?&?&?)&(?&?&?)). Qed.
#[export] Hint Resolve ty_set_t_uid ty_set_t_euid ty_set_t_gid ty_set_t_egid ty_set_t_sgid ty_set_q_buf ty_set_t_filp ty_set_sigaction ty_map_sigaction ty_set_reg : ty.
Lemma tables_inode k i n f : inode_table (k_fs k) !! i = Some n -> (inode_ty n -> inode_ty (f n)) -> tables_ok k ->
  tables_ok (k <| k_fs ::= fun s => s <| inode_table ::= fun l => <[i := f n]> l |> |>).
Proof.
  intros Hn Hf [H1 H2 (F1&F2&F3) H4 H5]. split; try done. split_and!; rsimpl; rewrite ?length_insert; try apply F3; [done|].
  apply Forall_insert; [done|]. by apply Hf, (Forall_lookup_1 _ _ _ _ F2 Hn).
Qed.
Lemma tables_super k i n f : super_blocks (k_fs k) !! i = Some n -> (super_ty n -> super_ty (f n)) -> tables_ok k ->
  tables_ok (k <| k_fs ::= fun s => s <| super_blocks ::= fun l => <[i := f n]> l |> |>).
Proof.
  intros Hn Hf [H1 H2 (F1&F2&F3&F4&F5&F6) H4 H5]. split; try done. split_and!; rsimpl; rewrite ?length_insert; try done.
  apply Forall_insert; [done|]. by apply Hf, (Forall_lookup_1 _ _ _ _ F4 Hn).
Qed.
Lemma tables_file k i n f : file_table (k_fs k) !! i = Some n -> (file_ty n -> file_ty (f n)) -> tables_ok k ->
  tables_ok (k <| k_fs ::= fun s => s <| file_table ::= fun l => <[i := f n]> l |> |>).
Proof.
  intros Hn Hf [H1 H2 (F1&F2&F3&F4&F5&F6) H4 H5]. split; try done. split_and!; rsimpl; rewrite ?length_insert; try done.
  apply Forall_insert; [done|]. by apply Hf, (Forall_lookup_1 _ _ _ _ F6 Hn).
Qed.
Lemma tables_task k p t : task_ty t -> tables_ok k ->
  tables_ok (k <| k_sched ::= fun s => s <| tasks ::= fun l => <[p := t]> l |> |>).
Proof. intros Ht [H1 H2 H3 (S1&S2) H5]. split; try done. split; [|done]. by apply map_Forall_insert_2. Qed.
Lemma tables_task_at k p t : tables_ok k -> tasks (k_sched k) !! p = Some t -> task_ty t.
Proof. intros [_ _ _ [S1 _] _]. apply S1. Qed.
Lemma tables_tty k i t f : idx (tty_table (k_tty k)) i = Some t -> (tty_ty t -> tty_ty (f t)) -> tables_ok k ->
  tables_ok (k <| k_tty ::= fun s => s <| tty_table ::= fun l => upd_idx l i (f t) |> |>).
Proof.
  intros Ht Hf [H1 H2 H3 H4 H5]. split; try done. apply Forall_upd_idx; [done|]. apply Hf.
  unfold idx in Ht. destruct (i <? 0); [done|]. by apply (Forall_lookup_1 _ _ _ _ H5 Ht).
Qed.
Lemma tables_mem_map k i v : tables_ok k ->
  tables_ok (k <| k_mm ::= fun s => s <| mem_map ::= fun l => upd_idx l i (u8 v) |> |>).
Proof.
  intros [[M1 M2] H2 H3 H4 H5]. split; try done. split; rsimpl; [by rewrite length_upd_idx|].
  apply Forall_upd_idx; [done|]. apply uint8_u8.
Qed.

Lemma tables_blk k g : (blk_ty (k_blk k) -> blk_ty (g (k_blk k))) -> tables_ok k -> tables_ok (k <| k_blk ::= g |>).
Proof. intros Hg [H1 H2 H3 H4 H5]. split; try done. by apply Hg. Qed.

(** A change of fields whose type is not looked at keeps the type by conversion. *)
Ltac ty := intros; repeat case_match; first [ assumption | match goal with H : ?P ?x |- ?P ?y => exact H end | solve [eauto 20 with ty nocore] ].

(** The state before [machine_main] has the right types. *)
Lemma kernel0_tables : tables_ok kernel0.
Proof.
  assert (forall A (P : A -> Prop) n x, P x -> Forall P (replicate n x)) as HF by (intros; by apply Forall_replicate).
  assert (uint8 0) as Hb by (unfold uint8; lia). assert (uint16 0) as Hw by (unfold uint16; lia).
  split.
  - split; [exact (length_replicate (Z.to_nat PAGING_PAGES) 0)|by apply HF].
  - split_and!; exact eq_refl.
  - refine (conj eq_refl (conj _ (conj eq_refl (conj _ (conj eq_refl _))))); apply HF;
      [exact ty_zero_inode|refine (conj eq_refl (conj eq_refl _)); by repeat split|exact (conj Hw (conj Hw Hw))].
  - split_and!; try exact eq_refl. apply map_Forall_singleton. exact ty_zero_task.
  - apply Forall_singleton. assert (queue_ty (mkQueue 0 0 0 None (replicate (Z.to_nat TTY_BUF_SIZE) 0))) as Hq.
    { split; [exact (length_replicate (Z.to_nat TTY_BUF_SIZE) 0)|by apply HF]. }
    exact (conj Hq (conj Hq Hq)).
Qed.
