(* ===== verification/Frame.v ===== *)
(** * What system calls leave alone

    [Keeps m]: the code [m] changes neither [current], nor [trap_info], nor the user ids of any task
    (it may remove tasks), and keeps the types of the tables ([tables_ok]) if they are so at first; when
    it stops (sleeps, switches, panics) the ids are still the old ones and the types still hold.
    The predicate is closed under the operations of the monad, and the hint database [keeps] has a
    lemma for every function of the kernel that more than one other function calls, so that the proof
    for a system call is the tactic [keeps].  The file also follows the calls that do not keep the ids: [fork]
    copies a task, and [setuid] and [setreuid] change its ids; [execve] and the handlers of traps keep
    the types only ([Typed]). *)
From Stdlib Require Import ZArith Lia String.
From stdpp Require Import base list gmap.
From S2P Require Import Prelude State Pte PageAlloc PageTable BlockIO Buffer BufferCache BufferInit InodeIO Bitmap Inode PageFault UserMem Namei Mmio Sched Plic Tty Super FileIO OpenFiles Process SysCalls Exec Trap Tables.
Open Scope Z_scope.

Definition ids : Type := Z * Z * Z.
Definition uids (t : task_struct) : ids := (t_uid t, t_euid t, t_suid t).

(** ** The predicate *)
(** Every task has ids that [allowed] admits at its address. *)
Definition ids_ok (allowed : Z -> ids -> Prop) (k : kernel) : Prop :=
  forall p t, tasks (k_sched k) !! p = Some t -> allowed p (uids t).
Definition held (allowed : Z -> ids -> Prop) (typed : Prop) (c : Z) (ti : trap_info_t) (k : kernel) : Prop :=
  ids_ok allowed k /\ current (k_sched k) = c /\ trap_info (k_sched k) = ti /\ (typed -> tables_ok k).
Definition post {A} (allowed : Z -> ids -> Prop) (typed : Prop) (c : Z) (ti : trap_info_t) (o : outcome kernel A) : Prop :=
  match o with Ok _ k' => held allowed typed c ti k' | Stop _ k' => ids_ok allowed k' /\ (typed -> tables_ok k') end.
Definition Keeps {A} (m : K A) : Prop :=
  forall allowed typed c ti k, held allowed typed c ti k -> post allowed typed c ti (m k).

Create HintDb keeps discriminated.
#[export] Hint Constants Opaque : keeps.
#[export] Hint Variables Opaque : keeps.
#[export] Hint Extern 1 (uint16 _) => ty_int : keeps.

Lemma post_bind {A B} allowed typed c ti (m : K A) (f : A -> K B) k :
  post allowed typed c ti (m k) -> (forall a k', m k = Ok a k' -> held allowed typed c ti k' -> post allowed typed c ti (f a k')) ->
  post allowed typed c ti (bind m f k).
Proof. unfold bind. destruct (m k) as [a k'|e k']; [|done]. intros H Hf. by apply Hf. Qed.
Lemma kept_bind {A B} (m : K A) (f : A -> K B) : Keeps m -> (forall a, Keeps (f a)) -> Keeps (bind m f).
Proof. intros Hm Hf allowed typed c ti k H. apply post_bind; [by apply Hm|]. intros a k' _ H'. by apply Hf. Qed.
Lemma kept_ret {A} (a : A) : Keeps (ret a).
Proof. by intros allowed typed c ti k H. Qed.
#[export] Hint Resolve kept_ret : keeps.
Lemma kept_halt {A} e : Keeps (A := A) (halt e).
Proof. by intros allowed typed c ti k (H1&_&_&H). Qed.
#[export] Hint Resolve kept_halt : keeps.
Lemma kept_gets {A} (f : kernel -> A) : Keeps (gets f).
Proof. by intros allowed typed c ti k H. Qed.
#[export] Hint Resolve kept_gets : keeps.
Lemma kept_skip : Keeps skip.
Proof. by intros allowed typed c ti k H. Qed.
#[export] Hint Resolve kept_skip : keeps.
Lemma kept_unwrap {A} why (o : option A) : Keeps (unwrap why o).
Proof. destruct o; [apply kept_ret|apply kept_halt]. Qed.
#[export] Hint Resolve kept_unwrap : keeps.
Lemma kept_when b (m : K unit) : Keeps m -> Keeps (when b m).
Proof. intros H. destruct b; [done|apply kept_skip]. Qed.
Lemma kept_loop {A B} n (body : A -> K (A + B)) a : (forall a, Keeps (body a)) -> Keeps (loop n body a).
Proof.
  intros H. revert a. induction n as [|n IH]; intros a; [apply kept_halt|]. rewrite loop_S. apply kept_bind; [done|]. intros [?|?]; [done|apply kept_ret].
Qed.
Lemma kept_for_up lo n (body : Z -> K unit) : (forall i, Keeps (body i)) -> Keeps (for_up lo n body).
Proof. intros H. revert lo. induction n as [|n IH]; intros lo; [apply kept_skip|]. cbn [for_up]. apply kept_bind; [done|]. by intros _. Qed.

(** Changes of the state. *)
Lemma kept_modify (g : kernel -> kernel) :
  (forall k, k_sched (g k) = k_sched k) -> (forall k, tables_ok k -> tables_ok (g k)) -> Keeps (modify g).
Proof. intros E T allowed typed c ti k (H1&H2&H3&H4). cbn. unfold held, ids_ok. rewrite E. split_and!; auto. Qed.
Lemma kept_sched (g : sched_state -> sched_state) :
  (forall s, tasks (g s) = tasks s /\ current (g s) = current s /\ trap_info (g s) = trap_info s) ->
  (forall s, sched_ty s -> sched_ty (g s)) -> Keeps (mod_sched g).
Proof.
  intros E T allowed typed c ti k (H1&H2&H3&H4). cbn. unfold held, ids_ok. rsimpl. destruct (E (k_sched k)) as (->&->&->).
  split_and!; [done..|]. intros Hty. destruct (H4 Hty). split; try done. by apply T.
Qed.
(** A change of an entry that was found in its table. *)
Lemma kept_entry {T A} why (table : kernel -> T) (look : T -> option A) (g : A -> kernel -> kernel) :
  (forall k a, k_sched (g a k) = k_sched k) -> (forall k a, look (table k) = Some a -> tables_ok k -> tables_ok (g a k)) ->
  Keeps (let! a := (let! t := gets table in unwrap why (look t)) in modify (g a)).
Proof.
  intros E T' allowed typed c ti k (H1&H2&H3&H4). unfold bind, gets. cbv beta iota. unfold unwrap.
  destruct (look (table k)) as [a|] eqn:El; cbn; [|done]. unfold held, ids_ok. rewrite E. split_and!; auto.
Qed.
Lemma kept_get_task p : Keeps (get_task p).
Proof. unfold get_task. apply kept_bind; [apply kept_gets|]. intros; apply kept_unwrap. Qed.
#[export] Hint Resolve kept_get_task : keeps.
(** A task after a change at [p]. *)
Lemma held_task allowed typed c ti k p t : held allowed typed c ti k -> allowed p (uids t) -> (typed -> task_ty t) ->
  held allowed typed c ti (k <| k_sched ::= fun s => s <| tasks ::= fun l => <[p := t]> l |> |>).
Proof.
  intros (H1&H2&H3&H4) Ht Hty. split; [|split_and!; [done..|]; intros; apply tables_task; auto].
  intros q u Hu. change (<[p := t]> (tasks (k_sched k)) !! q = Some u) in Hu.
  apply lookup_insert_Some in Hu as [[<- <-]|[_ Hu]]; [done|by apply H1].
Qed.
Lemma kept_mod_task p f : (forall t, uids (f t) = uids t) -> (forall t, task_ty t -> task_ty (f t)) -> Keeps (mod_task p f).
Proof.
  intros E T allowed typed c ti k H. pose proof H as (H1&_&_&H4). unfold mod_task, get_task, bind, gets. cbv beta iota. unfold unwrap.
  destruct (tasks (k_sched k) !! p) as [t|] eqn:Ht; [|done]. apply held_task; [done| |].
  - rewrite E. by apply H1.
  - intros Hty. apply T. by eapply tables_task_at; [apply H4|].
Qed.
Lemma kept_mod_cur f : (forall t, uids (f t) = uids t) -> (forall t, task_ty t -> task_ty (f t)) -> Keeps (mod_cur f).
Proof. intros E T. unfold mod_cur. apply kept_bind; [apply kept_gets|]. intros. by apply kept_mod_task. Qed.
(** The tables of structures with a type. *)
Lemma kept_mod_inode i f : (forall n, inode_ty n -> inode_ty (f n)) -> Keeps (mod_inode i f).
Proof. intros T. apply kept_entry; [done|]. intros k n Hn. apply tables_inode; [done|apply T]. Qed.
Lemma kept_mod_sb i f : (forall s, super_ty s -> super_ty (f s)) -> Keeps (mod_sb i f).
Proof. intros T. apply kept_entry; [done|]. intros k n Hn. apply tables_super; [done|apply T]. Qed.
Lemma kept_mod_file i f : (forall e, file_ty e -> file_ty (f e)) -> Keeps (mod_file i f).
Proof. intros T. apply kept_entry; [done|]. intros k n Hn. apply tables_file; [done|apply T]. Qed.
Lemma kept_mod_tty i f : (forall t, tty_ty t -> tty_ty (f t)) -> Keeps (mod_tty i f).
Proof. intros T. apply kept_entry; [done|]. intros k t Ht. apply tables_tty; [done|apply T]. Qed.
Lemma kept_mod_queue i q f : (forall a, queue_ty a -> queue_ty (f a)) -> Keeps (mod_queue i q f).
Proof. intros T. apply kept_mod_tty. intros t (?&?&?). destruct q; split_and!; try done; by apply T. Qed.

(** [keeps] proves [Keeps m]: by an instance, or by the shape of [m], or by its definition. *)
Ltac kept_head m := lazymatch m with ?f _ => kept_head f | _ => m end.
Ltac kept_tables := let H := fresh in intros ? H; destruct H; split; assumption.
Ltac ty_sched := intros ? (?&?&?&?&?); split_and!; rsimpl; rewrite ?length_upd_idx, ?length_insert; assumption.
Ltac kept_leaf :=
  first [ apply kept_modify; [intros; reflexivity|kept_tables]
        | apply kept_sched; [intros; split_and!; reflexivity|ty_sched]
        | apply kept_mod_task; [intros; repeat case_match; reflexivity|ty]
        | apply kept_mod_cur; [intros; repeat case_match; reflexivity|ty] ].
(** The functions that take code as an argument. *)
Ltac kept_apply := fail.
Ltac kept_step :=
  lazymatch goal with
  | |- forall _, _ => intros ?
  | |- Keeps (bind _ _) => apply kept_bind
  | |- Keeps (when _ _) => apply kept_when
  | |- Keeps (loop _ _ _) => apply kept_loop
  | |- Keeps (for_up _ _ _) => apply kept_for_up
  | |- Keeps (modify _) => kept_leaf
  | |- Keeps (mod_sched _) => kept_leaf
  | |- Keeps (mod_task _ _) => kept_leaf
  | |- Keeps (mod_cur _) => kept_leaf
  | |- Keeps (mod_inode _ _) => apply kept_mod_inode; [ty]
  | |- Keeps (mod_sb _ _) => apply kept_mod_sb; [ty]
  | |- Keeps (mod_file _ _) => apply kept_mod_file; [ty]
  | |- Keeps (mod_tty _ _) => apply kept_mod_tty; [ty]
  | |- Keeps (mod_queue _ _ _) => apply kept_mod_queue; [ty]
  | |- Keeps (match ?x with _ => _ end) => destruct x
  | |- Keeps (let _ := _ in _) => cbv zeta
  | |- Keeps ?m => first [ solve [eauto 2 with keeps nocore] | kept_apply | progress cbv beta iota | let h := kept_head m in unfold h; cbv beta zeta ]
  end.
Ltac keeps := repeat kept_step.

(** ** The functions of the kernel *)
(** State.v *)
Lemma kept_kmemset (dst c len : Z) : Keeps (kmemset dst c len).
Proof. unfold kmemset. keeps. Qed.
#[export] Hint Resolve kept_kmemset : keeps.
Lemma kept_kmemcpy (dst src len : Z) : Keeps (kmemcpy dst src len).
Proof. unfold kmemcpy. keeps. Qed.
#[export] Hint Resolve kept_kmemcpy : keeps.
Lemma kept_get_bh (b : nat) : Keeps (get_bh b).
Proof. unfold get_bh. keeps. Qed.
#[export] Hint Resolve kept_get_bh : keeps.
Lemma kept_mod_bh (b : nat) (f : buffer_head -> buffer_head) : Keeps (mod_bh b f).
Proof. unfold mod_bh. keeps. Qed.
#[export] Hint Resolve kept_mod_bh : keeps.
Lemma kept_get_rq (r : nat) : Keeps (get_rq r).
Proof. unfold get_rq. keeps. Qed.
#[export] Hint Resolve kept_get_rq : keeps.
Lemma kept_mod_rq (r : nat) (f : request -> request) : Keeps (mod_rq r f).
Proof.
  apply kept_entry; [done|]. intros k a _. apply tables_blk. intros (?&?&?). split_and!; rsimpl; by rewrite ?length_insert, ?length_upd_idx.
Qed.
#[export] Hint Resolve kept_mod_rq : keeps.
Lemma kept_get_blk_dev (major : Z) : Keeps (get_blk_dev major).
Proof. unfold get_blk_dev. keeps. Qed.
#[export] Hint Resolve kept_get_blk_dev : keeps.
Lemma kept_mod_blk_dev (major : Z) (f : blk_dev_struct -> blk_dev_struct) : Keeps (mod_blk_dev major f).
Proof.
  apply kept_entry; [done|]. intros k a _. apply tables_blk. intros (?&?&?). split_and!; rsimpl; by rewrite ?length_insert, ?length_upd_idx.
Qed.
#[export] Hint Resolve kept_mod_blk_dev : keeps.
Lemma kept_get_inode (i : nat) : Keeps (get_inode i).
Proof. unfold get_inode. keeps. Qed.
#[export] Hint Resolve kept_get_inode : keeps.
Lemma kept_get_sb (i : nat) : Keeps (get_sb i).
Proof. unfold get_sb. keeps. Qed.
#[export] Hint Resolve kept_get_sb : keeps.
Lemma kept_get_file (i : nat) : Keeps (get_file i).
Proof. unfold get_file. keeps. Qed.
#[export] Hint Resolve kept_get_file : keeps.
Lemma kept_get_tty (i : Z) : Keeps (get_tty i).
Proof. unfold get_tty. keeps. Qed.
#[export] Hint Resolve kept_get_tty : keeps.
Lemma kept_cur : Keeps cur.
Proof. unfold cur. keeps. Qed.
#[export] Hint Resolve kept_cur : keeps.
Lemma kept_CURRENT_TIME : Keeps CURRENT_TIME.
Proof. unfold CURRENT_TIME. keeps. Qed.
#[export] Hint Resolve kept_CURRENT_TIME : keeps.
Lemma kept_suser : Keeps suser.
Proof. unfold suser. keeps. Qed.
#[export] Hint Resolve kept_suser : keeps.
Lemma kept_wake_up (q : option Z) : Keeps (wake_up q).
Proof. unfold wake_up. keeps. Qed.
#[export] Hint Resolve kept_wake_up : keeps.
Lemma kept_set_waitq (q : waitq) (v : option Z) : Keeps (set_waitq q v).
Proof. unfold set_waitq. keeps. Qed.
#[export] Hint Resolve kept_set_waitq : keeps.
Lemma kept_sleep_on {A} (q : waitq) : Keeps (A := A) (sleep_on q).
Proof. unfold sleep_on. keeps. Qed.
#[export] Hint Resolve kept_sleep_on : keeps.
(** Pte.v *)
Lemma kept_mod_pte (pte : Z) (f : Z -> Z) : Keeps (mod_pte pte f).
Proof. unfold mod_pte. keeps. Qed.
#[export] Hint Resolve kept_mod_pte : keeps.
Lemma kept_pte_common_init (pte itemnum : Z) : Keeps (pte_common_init pte itemnum).
Proof. unfold pte_common_init. keeps. Qed.
#[export] Hint Resolve kept_pte_common_init : keeps.
Lemma kept_pte_common_set_accessibility (pte accessibility : Z) : Keeps (pte_common_set_accessibility pte accessibility).
Proof. unfold pte_common_set_accessibility. keeps. Qed.
#[export] Hint Resolve kept_pte_common_set_accessibility : keeps.
Lemma kept_pte_common_addr_to_ppn (pte addr : Z) : Keeps (pte_common_addr_to_ppn pte addr).
Proof. unfold pte_common_addr_to_ppn. keeps. Qed.
#[export] Hint Resolve kept_pte_common_addr_to_ppn : keeps.
Lemma kept_pte_common_ppn_to_addr (pte : Z) : Keeps (pte_common_ppn_to_addr pte).
Proof. unfold pte_common_ppn_to_addr. keeps. Qed.
#[export] Hint Resolve kept_pte_common_ppn_to_addr : keeps.
Lemma kept_pte_common_enable_entry (pte : Z) : Keeps (pte_common_enable_entry pte).
Proof. unfold pte_common_enable_entry. keeps. Qed.
#[export] Hint Resolve kept_pte_common_enable_entry : keeps.
Lemma kept_pte_common_enable_user (pte : Z) : Keeps (pte_common_enable_user pte).
Proof. unfold pte_common_enable_user. keeps. Qed.
#[export] Hint Resolve kept_pte_common_enable_user : keeps.
Lemma kept_pte_common_disable_user (pte : Z) : Keeps (pte_common_disable_user pte).
Proof. unfold pte_common_disable_user. keeps. Qed.
#[export] Hint Resolve kept_pte_common_disable_user : keeps.
Lemma kept_pte_refresh_tlb : Keeps pte_refresh_tlb.
Proof. unfold pte_refresh_tlb. keeps. Qed.
#[export] Hint Resolve kept_pte_refresh_tlb : keeps.
(** PageAlloc.v *)
Lemma kept_get_mem_map (i : Z) : Keeps (get_mem_map i).
Proof. unfold get_mem_map. keeps. Qed.
#[export] Hint Resolve kept_get_mem_map : keeps.
Lemma kept_set_mem_map (i v : Z) : Keeps (set_mem_map i v).
Proof. unfold set_mem_map. apply kept_bind; [keeps|]. intros _. apply kept_modify; [done|]. intros k. apply tables_mem_map. Qed.
#[export] Hint Resolve kept_set_mem_map : keeps.
Lemma kept_get_free_page_scan (i : nat) : Keeps (get_free_page_scan i).
Proof. induction i; intros; cbn [get_free_page_scan]; keeps. Qed.
#[export] Hint Resolve kept_get_free_page_scan : keeps.
Lemma kept_get_free_page : Keeps get_free_page.
Proof. unfold get_free_page. keeps. Qed.
#[export] Hint Resolve kept_get_free_page : keeps.
Lemma kept_free_page (addr : Z) : Keeps (free_page addr).
Proof. unfold free_page. keeps. Qed.
#[export] Hint Resolve kept_free_page : keeps.
Lemma kept_free_pages (addr pagenum : Z) : Keeps (free_pages addr pagenum).
Proof. unfold free_pages. keeps. Qed.
#[export] Hint Resolve kept_free_pages : keeps.
(** PageTable.v *)
Lemma kept_invalidate : Keeps invalidate.
Proof. unfold invalidate. keeps. Qed.
#[export] Hint Resolve kept_invalidate : keeps.
Lemma kept_oom {A} : Keeps (A := A) oom.
Proof. unfold oom. keeps. Qed.
#[export] Hint Resolve kept_oom : keeps.
Lemma kept_free_page_tables (from dir0 size : Z) : Keeps (free_page_tables from dir0 size).
Proof. unfold free_page_tables. keeps. Qed.
#[export] Hint Resolve kept_free_page_tables : keeps.
Lemma kept_put_page (page address : Z) : Keeps (put_page page address).
Proof. unfold put_page. keeps. Qed.
#[export] Hint Resolve kept_put_page : keeps.
Lemma kept_un_wp_page (table_entry : Z) : Keeps (un_wp_page table_entry).
Proof. unfold un_wp_page. keeps. Qed.
#[export] Hint Resolve kept_un_wp_page : keeps.
Lemma kept_share_page_scan (address : Z) (n : nat) : Keeps (share_page_scan address n).
Proof. revert address. induction n; intros; cbn [share_page_scan]; keeps. Qed.
#[export] Hint Resolve kept_share_page_scan : keeps.
(** BlockIO.v *)
Lemma kept_unlock_buffer (bh : nat) : Keeps (unlock_buffer bh).
Proof. unfold unlock_buffer. keeps. Qed.
#[export] Hint Resolve kept_unlock_buffer : keeps.
Lemma kept_CURRENT : Keeps CURRENT.
Proof. unfold CURRENT. keeps. Qed.
#[export] Hint Resolve kept_CURRENT : keeps.
Lemma kept_find_request (n : nat) : Keeps (find_request n).
Proof. induction n; intros; cbn [find_request]; keeps. Qed.
#[export] Hint Resolve kept_find_request : keeps.
Lemma kept_ll_rw_block (rw : Z) (bh : nat) : Keeps (ll_rw_block rw bh).
Proof. unfold ll_rw_block. keeps. Qed.
#[export] Hint Resolve kept_ll_rw_block : keeps.
(** Buffer.v *)
Section Files.
Context {SI : SyncInodes} {HSI : Keeps sync_inodes} {UA : Uart}.
Lemma kept_NR_BUFFERS : Keeps NR_BUFFERS.
Proof. unfold NR_BUFFERS. keeps. Qed.
#[local] Hint Resolve kept_NR_BUFFERS : keeps.
Lemma kept_wait_on_buffer (bh : nat) : Keeps (wait_on_buffer bh).
Proof. unfold wait_on_buffer. keeps. Qed.
#[local] Hint Resolve kept_wait_on_buffer : keeps.
Lemma kept_get_hash (dev block : Z) : Keeps (get_hash dev block).
Proof. unfold get_hash. keeps. Qed.
#[local] Hint Resolve kept_get_hash : keeps.
Lemma kept_set_hash (dev block : Z) (v : option nat) : Keeps (set_hash dev block v).
Proof. unfold set_hash. apply kept_bind; [keeps|]. intros _. apply kept_modify; [done|]. intros k. apply tables_blk. intros (?&?&?). split_and!; rsimpl; by rewrite ?length_upd_idx. Qed.
#[local] Hint Resolve kept_set_hash : keeps.
Lemma kept_remove_from_queues (bh : nat) : Keeps (remove_from_queues bh).
Proof. unfold remove_from_queues. keeps. Qed.
#[local] Hint Resolve kept_remove_from_queues : keeps.
Lemma kept_insert_into_queues (bh : nat) : Keeps (insert_into_queues bh).
Proof. unfold insert_into_queues. keeps. Qed.
#[local] Hint Resolve kept_insert_into_queues : keeps.
Lemma kept_find_buffer (dev block : Z) : Keeps (find_buffer dev block).
Proof. unfold find_buffer. keeps. Qed.
#[local] Hint Resolve kept_find_buffer : keeps.
Lemma kept_get_hash_table (dev block : Z) : Keeps (get_hash_table dev block).
Proof. unfold get_hash_table. keeps. Qed.
#[local] Hint Resolve kept_get_hash_table : keeps.
Lemma kept_brelse (buf : option nat) : Keeps (brelse buf).
Proof. unfold brelse. keeps. Qed.
#[local] Hint Resolve kept_brelse : keeps.
Lemma kept_sync_dev (dev : Z) : Keeps (sync_dev dev).
Proof. unfold sync_dev. keeps. Qed.
#[local] Hint Resolve kept_sync_dev : keeps.
Lemma kept_getblk (dev block : Z) : Keeps (getblk dev block).
Proof. unfold getblk. keeps. Qed.
#[local] Hint Resolve kept_getblk : keeps.
Lemma kept_bread (dev block : Z) : Keeps (bread dev block).
Proof. unfold bread. keeps. Qed.
#[local] Hint Resolve kept_bread : keeps.
Lemma kept_bread_page_get (dev : Z) (b : list Z) : Keeps (bread_page_get dev b).
Proof. revert dev. induction b; intros; cbn [bread_page_get]; keeps. Qed.
#[local] Hint Resolve kept_bread_page_get : keeps.
Lemma kept_bread_page_copy (address : Z) (bhs : list (option nat)) : Keeps (bread_page_copy address bhs).
Proof. revert address. induction bhs; intros; cbn [bread_page_copy]; keeps. Qed.
#[local] Hint Resolve kept_bread_page_copy : keeps.
Lemma kept_breada_ahead (dev : Z) (ahead : list Z) : Keeps (breada_ahead dev ahead).
Proof. revert dev. induction ahead; intros; cbn [breada_ahead]; keeps. Qed.
#[local] Hint Resolve kept_breada_ahead : keeps.
Lemma kept_breada (dev first : Z) (ahead : list Z) : Keeps (breada dev first ahead).
Proof. unfold breada. keeps. Qed.
#[local] Hint Resolve kept_breada : keeps.
(** InodeIO.v *)
Lemma kept_lock_super (s : nat) : Keeps (lock_super s).
Proof. unfold lock_super. keeps. Qed.
#[local] Hint Resolve kept_lock_super : keeps.
Lemma kept_free_super (s : nat) : Keeps (free_super s).
Proof. unfold free_super. keeps. Qed.
#[local] Hint Resolve kept_free_super : keeps.
Lemma kept_get_super (dev : Z) : Keeps (get_super dev).
Proof. unfold get_super. keeps. Qed.
#[local] Hint Resolve kept_get_super : keeps.
Lemma kept_wait_on_inode (inode : nat) : Keeps (wait_on_inode inode).
Proof. unfold wait_on_inode. keeps. Qed.
#[local] Hint Resolve kept_wait_on_inode : keeps.
Lemma kept_lock_inode (inode : nat) : Keeps (lock_inode inode).
Proof. unfold lock_inode. keeps. Qed.
#[local] Hint Resolve kept_lock_inode : keeps.
Lemma kept_unlock_inode (inode : nat) : Keeps (unlock_inode inode).
Proof. unfold unlock_inode. keeps. Qed.
#[local] Hint Resolve kept_unlock_inode : keeps.
Lemma kept_read_inode (inode : nat) : Keeps (read_inode inode).
Proof. unfold read_inode. keeps. Qed.
#[local] Hint Resolve kept_read_inode : keeps.
Lemma kept_write_inode (inode : nat) : Keeps (write_inode inode).
Proof. unfold write_inode. keeps. Qed.
#[local] Hint Resolve kept_write_inode : keeps.
(** Bitmap.v *)
Lemma kept_set_bit (nr addr : Z) : Keeps (set_bit nr addr).
Proof. unfold set_bit. keeps. Qed.
#[local] Hint Resolve kept_set_bit : keeps.
Lemma kept_clear_bit (nr addr : Z) : Keeps (clear_bit nr addr).
Proof. unfold clear_bit. keeps. Qed.
#[local] Hint Resolve kept_clear_bit : keeps.
Lemma kept_map_slot (m : list (option nat)) (i : Z) : Keeps (map_slot m i).
Proof. unfold map_slot. keeps. Qed.
#[local] Hint Resolve kept_map_slot : keeps.
Lemma kept_free_block (dev block : Z) : Keeps (free_block dev block).
Proof. unfold free_block. keeps. Qed.
#[local] Hint Resolve kept_free_block : keeps.
Lemma kept_search_map (slots : nat) (m : list (option nat)) : Keeps (search_map slots m).
Proof. unfold search_map. keeps. Qed.
#[local] Hint Resolve kept_search_map : keeps.
Lemma kept_new_block (dev : Z) : Keeps (new_block dev).
Proof. unfold new_block. keeps. Qed.
#[local] Hint Resolve kept_new_block : keeps.
Lemma kept_free_zones (free : Z -> K unit) (b : nat) : (forall z, Keeps (free z)) -> Keeps (free_zones free b).
Proof. intros H. unfold free_zones. keeps. Qed.
Ltac kept_apply ::=
  lazymatch goal with
  | |- Keeps (free_zones _ _) => apply kept_free_zones
  end.
Lemma kept_free_ind (dev block : Z) : Keeps (free_ind dev block).
Proof. unfold free_ind. keeps. Qed.
#[local] Hint Resolve kept_free_ind : keeps.
Lemma kept_zone (inode : nat) (i : Z) : Keeps (zone inode i).
Proof. unfold zone. keeps. Qed.
#[local] Hint Resolve kept_zone : keeps.
Lemma kept_set_zone (inode : nat) (i v : Z) : uint16 v -> Keeps (set_zone inode i v).
Proof. intros Hv. unfold set_zone. keeps. Qed.
#[local] Hint Resolve kept_set_zone : keeps.
Lemma kept_truncate (inode : nat) : Keeps (truncate inode).
Proof. unfold truncate. keeps. Qed.
#[local] Hint Resolve kept_truncate : keeps.
(** Inode.v *)
Lemma kept_bmap_aux (inode : nat) (block : Z) (create : bool) : Keeps (_bmap inode block create).
Proof. unfold _bmap. keeps. Qed.
#[local] Hint Resolve kept_bmap_aux : keeps.
Lemma kept_bmap (inode : nat) (block : Z) : Keeps (bmap inode block).
Proof. unfold bmap. keeps. Qed.
#[local] Hint Resolve kept_bmap : keeps.
Lemma kept_create_block (inode : nat) (block : Z) : Keeps (create_block inode block).
Proof. unfold create_block. keeps. Qed.
#[local] Hint Resolve kept_create_block : keeps.
Lemma kept_iput (inode : option nat) : Keeps (iput inode).
Proof. unfold iput. keeps. Qed.
#[local] Hint Resolve kept_iput : keeps.
Lemma kept_empty_scan (n : nat) (inode : option nat) : Keeps (empty_scan n inode).
Proof. revert inode. induction n; intros; cbn [empty_scan]; keeps. Qed.
#[local] Hint Resolve kept_empty_scan : keeps.
Lemma kept_get_empty_inode : Keeps get_empty_inode.
Proof. unfold get_empty_inode. keeps. Qed.
#[local] Hint Resolve kept_get_empty_inode : keeps.
Lemma kept_mounted_on (inode : nat) : Keeps (mounted_on inode).
Proof. unfold mounted_on. keeps. Qed.
#[local] Hint Resolve kept_mounted_on : keeps.
Lemma kept_iget (dev nr : Z) : Keeps (iget dev nr).
Proof. unfold iget. keeps. Qed.
#[local] Hint Resolve kept_iget : keeps.
Lemma kept_new_inode (dev : Z) : Keeps (new_inode dev).
Proof. unfold new_inode. keeps. Qed.
#[local] Hint Resolve kept_new_inode : keeps.
(** PageFault.v *)
Lemma kept_bmap_run (inode : nat) (block : Z) (n : nat) : Keeps (bmap_run inode block n).
Proof. revert inode block. induction n; intros; cbn [bmap_run]; keeps. Qed.
#[local] Hint Resolve kept_bmap_run : keeps.
Lemma kept_do_no_page (address : Z) : Keeps (do_no_page address).
Proof. unfold do_no_page. keeps. Qed.
#[local] Hint Resolve kept_do_no_page : keeps.
Lemma kept_table_entry_of (address : Z) : Keeps (table_entry_of address).
Proof. unfold table_entry_of. keeps. Qed.
#[local] Hint Resolve kept_table_entry_of : keeps.
Lemma kept_machine_exception_store_or_amo_access_fault (addr : Z) : Keeps (machine_exception_store_or_amo_access_fault addr).
Proof. unfold machine_exception_store_or_amo_access_fault. keeps. Qed.
#[local] Hint Resolve kept_machine_exception_store_or_amo_access_fault : keeps.
Lemma kept_translate (fault : Z -> K unit) (first : nat) (addr : Z) : (forall a, Keeps (fault a)) -> Keeps (translate fault first addr).
Proof. intros H. revert addr. induction first; intros; cbn [translate]; keeps. Qed.
Ltac kept_apply ::=
  lazymatch goal with
  | |- Keeps (free_zones _ _) => apply kept_free_zones
  | |- Keeps (translate _ _ _) => apply kept_translate
  end.
Lemma kept_get_fs : Keeps get_fs.
Proof. unfold get_fs. keeps. Qed.
#[local] Hint Resolve kept_get_fs : keeps.
Lemma kept_set_fs (v : Z) : Keeps (set_fs v).
Proof. unfold set_fs. keeps. Qed.
#[local] Hint Resolve kept_set_fs : keeps.
Lemma kept_fs_addr (addr : Z) : Keeps (fs_addr addr).
Proof. unfold fs_addr. keeps. Qed.
#[local] Hint Resolve kept_fs_addr : keeps.
Lemma kept_get_fs_byte (addr : Z) : Keeps (get_fs_byte addr).
Proof. unfold get_fs_byte. keeps. Qed.
#[local] Hint Resolve kept_get_fs_byte : keeps.
Lemma kept_get_fs_long (addr : Z) : Keeps (get_fs_long addr).
Proof. unfold get_fs_long. keeps. Qed.
#[local] Hint Resolve kept_get_fs_long : keeps.
Lemma kept_get_fs_64long (addr : Z) : Keeps (get_fs_64long addr).
Proof. unfold get_fs_64long. keeps. Qed.
#[local] Hint Resolve kept_get_fs_64long : keeps.
Lemma kept_put_fs_byte (val addr : Z) : Keeps (put_fs_byte val addr).
Proof. unfold put_fs_byte. keeps. Qed.
#[local] Hint Resolve kept_put_fs_byte : keeps.
Lemma kept_put_fs_long (val addr : Z) : Keeps (put_fs_long val addr).
Proof. unfold put_fs_long. keeps. Qed.
#[local] Hint Resolve kept_put_fs_long : keeps.
Lemma kept_put_fs_64long (val addr : Z) : Keeps (put_fs_64long val addr).
Proof. unfold put_fs_64long. keeps. Qed.
#[local] Hint Resolve kept_put_fs_64long : keeps.
Lemma kept_page_transform_start : Keeps page_transform_start.
Proof. unfold page_transform_start. keeps. Qed.
#[local] Hint Resolve kept_page_transform_start : keeps.
Lemma kept_page_transform_addr (addr : Z) : Keeps (page_transform_addr addr).
Proof. unfold page_transform_addr. keeps. Qed.
#[local] Hint Resolve kept_page_transform_addr : keeps.
Lemma kept_mem_copy_from_kernel_loop (n : nat) (from to : Z) : Keeps (mem_copy_from_kernel_loop n from to).
Proof. revert from to. induction n; intros; cbn [mem_copy_from_kernel_loop]; keeps. Qed.
#[local] Hint Resolve kept_mem_copy_from_kernel_loop : keeps.
Lemma kept_mem_copy_to_kernel_loop (n : nat) (from to : Z) : Keeps (mem_copy_to_kernel_loop n from to).
Proof. revert from to. induction n; intros; cbn [mem_copy_to_kernel_loop]; keeps. Qed.
#[local] Hint Resolve kept_mem_copy_to_kernel_loop : keeps.
Lemma kept_mem_copy_from_value_loop (n : nat) (v to : Z) : Keeps (mem_copy_from_value_loop n v to).
Proof. revert v to. induction n; intros; cbn [mem_copy_from_value_loop]; keeps. Qed.
#[local] Hint Resolve kept_mem_copy_from_value_loop : keeps.
Lemma kept_mem_copy_from_value (v to size : Z) : Keeps (mem_copy_from_value v to size).
Proof. unfold mem_copy_from_value. keeps. Qed.
#[local] Hint Resolve kept_mem_copy_from_value : keeps.
Lemma kept_mem_copy_to_value_loop (n : nat) (from v : Z) : Keeps (mem_copy_to_value_loop n from v).
Proof. revert from v. induction n; intros; cbn [mem_copy_to_value_loop]; keeps. Qed.
#[local] Hint Resolve kept_mem_copy_to_value_loop : keeps.
Lemma kept_mem_copy_to_value (from old size : Z) : Keeps (mem_copy_to_value from old size).
Proof. unfold mem_copy_to_value. keeps. Qed.
#[local] Hint Resolve kept_mem_copy_to_value : keeps.
(** UserMem.v *)
Lemma kept_put_bytes (n : nat) (p buf : Z) : Keeps (put_bytes n p buf).
Proof. unfold put_bytes. keeps. Qed.
#[local] Hint Resolve kept_put_bytes : keeps.
Lemma kept_get_bytes (n : nat) (p buf : Z) : Keeps (get_bytes n p buf).
Proof. unfold get_bytes. keeps. Qed.
#[local] Hint Resolve kept_get_bytes : keeps.
Lemma kept_verify_area (addr size : Z) : Keeps (verify_area addr size).
Proof. unfold verify_area. keeps. Qed.
#[local] Hint Resolve kept_verify_area : keeps.
(** Namei.v *)
Lemma kept_permission (inode : nat) (mask : Z) : Keeps (permission inode mask).
Proof. unfold permission. keeps. Qed.
#[local] Hint Resolve kept_permission : keeps.
Lemma kept_de_inode (de : Z) : Keeps (de_inode de).
Proof. unfold de_inode. keeps. Qed.
#[local] Hint Resolve kept_de_inode : keeps.
Lemma kept_de_name (de i : Z) : Keeps (de_name de i).
Proof. unfold de_name. keeps. Qed.
#[local] Hint Resolve kept_de_name : keeps.
Lemma kept_match_bytes (name de i : Z) (n : nat) : Keeps (match_bytes name de i n).
Proof. revert name de i. induction n; intros; cbn [match_bytes]; keeps. Qed.
#[local] Hint Resolve kept_match_bytes : keeps.
Lemma kept_match_entry (len name de : Z) : Keeps (match_entry len name de).
Proof. unfold match_entry. keeps. Qed.
#[local] Hint Resolve kept_match_entry : keeps.
Lemma kept_find_entry (dir : nat) (name namelen : Z) : Keeps (find_entry dir name namelen).
Proof. unfold find_entry. keeps. Qed.
#[local] Hint Resolve kept_find_entry : keeps.
Lemma kept_add_entry (dir : nat) (name namelen : Z) : Keeps (add_entry dir name namelen).
Proof. unfold add_entry. keeps. Qed.
#[local] Hint Resolve kept_add_entry : keeps.
Lemma kept_dir_namei (pathname : Z) : Keeps (dir_namei pathname).
Proof. unfold dir_namei. keeps. Qed.
#[local] Hint Resolve kept_dir_namei : keeps.
Lemma kept_namei (pathname : Z) : Keeps (namei pathname).
Proof. unfold namei. keeps. Qed.
#[local] Hint Resolve kept_namei : keeps.
Lemma kept_fail2_bh (a b : nat) (bh : nat) (e : Z) : Keeps (fail2_bh a b bh e).
Proof. unfold fail2_bh. keeps. Qed.
#[local] Hint Resolve kept_fail2_bh : keeps.
Lemma kept_link_entry (de : Z) (bh : nat) (inode : nat) : Keeps (link_entry de bh inode).
Proof. unfold link_entry. keeps. Qed.
#[local] Hint Resolve kept_link_entry : keeps.
Lemma kept_parent (name : Z) : Keeps (parent name).
Proof. unfold parent. keeps. Qed.
#[local] Hint Resolve kept_parent : keeps.
Lemma kept_new_node (name : Z) : Keeps (new_node name).
Proof. unfold new_node. keeps. Qed.
#[local] Hint Resolve kept_new_node : keeps.
Lemma kept_existing (name : Z) : Keeps (existing name).
Proof. unfold existing. keeps. Qed.
#[local] Hint Resolve kept_existing : keeps.
(** Sched.v *)
Lemma kept_task_at (i : Z) : Keeps (task_at i).
Proof. unfold task_at. keeps. Qed.
#[local] Hint Resolve kept_task_at : keeps.
Lemma kept_set_task_at (i : Z) (p : option Z) : Keeps (set_task_at i p).
Proof. unfold set_task_at. keeps. Qed.
#[local] Hint Resolve kept_set_task_at : keeps.
Lemma kept_for_tasks (body : Z -> K unit) : (forall p, Keeps (body p)) -> Keeps (for_tasks body).
Proof. intros H. unfold for_tasks. keeps. Qed.
Ltac kept_apply ::=
  lazymatch goal with
  | |- Keeps (free_zones _ _) => apply kept_free_zones
  | |- Keeps (translate _ _ _) => apply kept_translate
  | |- Keeps (for_tasks _) => apply kept_for_tasks
  end.
Lemma kept_scan_tasks (i : nat) (c next : Z) : Keeps (scan_tasks i c next).
Proof. revert c next. induction i; intros; cbn [scan_tasks]; keeps. Qed.
#[local] Hint Resolve kept_scan_tasks : keeps.
Lemma kept_choose (fuel : nat) : Keeps (choose fuel).
Proof. unfold choose. keeps. Qed.
#[local] Hint Resolve kept_choose : keeps.
(** Code that does not return: its [current] does not matter. *)
Definition never {A} (m : K A) : Prop := forall k a k', m k <> Ok a k'.
Lemma never_bind {A B} (m : K A) (f : A -> K B) : (forall a, never (f a)) -> never (bind m f).
Proof. intros H k b k'. unfold bind. destruct (m k) as [a k1|]; [apply H|done]. Qed.
Lemma post_never {A} allowed typed c ti c' ti' (m : K A) k : never m -> post allowed typed c ti (m k) -> post allowed typed c' ti' (m k).
Proof. intros Hn. destruct (m k) as [a k'|e k'] eqn:E; [by apply Hn in E|done]. Qed.
Lemma kept_switch_to (taskid : Z) : Keeps (switch_to taskid).
Proof.
  unfold switch_to. apply kept_bind; [apply kept_task_at|]. intros next. apply kept_bind; [apply kept_gets|]. intros self.
  destruct (decide _); [apply kept_ret|]. apply kept_bind; [apply kept_unwrap|]. intros p. apply kept_bind; [apply kept_gets|]. intros ti0.
  apply kept_bind; [keeps|]. intros _ allowed typed c ti k (H1&H2&H3&H4). set (tail := fun _ : unit => bind (mod_sched (fun s => s <| old_kernel_stack := _ |>)) _).
  assert (Keeps (tail tt)) as Ht by (unfold tail; keeps).
  apply (post_never allowed typed p ti); [|].
  - apply never_bind. intros []. unfold tail. repeat (apply never_bind; intros ?). done.
  - unfold bind, mod_sched, modify. apply Ht. split_and!; [done..|]. intros Hty. by destruct (H4 Hty).
Qed.
#[local] Hint Resolve kept_switch_to : keeps.
Lemma kept_schedule : Keeps schedule.
Proof. unfold schedule. keeps. Qed.
#[local] Hint Resolve kept_schedule : keeps.
Lemma kept_interruptible_sleep_on (q : waitq) : Keeps (interruptible_sleep_on q).
Proof. unfold interruptible_sleep_on. keeps. Qed.
#[local] Hint Resolve kept_interruptible_sleep_on : keeps.
Lemma kept_get_timer (i : nat) : Keeps (get_timer i).
Proof. unfold get_timer. keeps. Qed.
#[local] Hint Resolve kept_get_timer : keeps.
Lemma kept_mod_timer (i : nat) (f : timer -> timer) : Keeps (mod_timer i f).
Proof. unfold mod_timer. keeps. Qed.
#[local] Hint Resolve kept_mod_timer : keeps.
Lemma kept_get_next_timer : Keeps get_next_timer.
Proof. unfold get_next_timer. keeps. Qed.
#[local] Hint Resolve kept_get_next_timer : keeps.
Lemma kept_set_next_timer (p : option nat) : Keeps (set_next_timer p).
Proof. unfold set_next_timer. keeps. Qed.
#[local] Hint Resolve kept_set_next_timer : keeps.
Lemma kept_free_timer (p : nat) (n : nat) : Keeps (free_timer p n).
Proof. revert p. induction n; intros; cbn [free_timer]; keeps. Qed.
#[local] Hint Resolve kept_free_timer : keeps.
Lemma kept_quanta (n : nat) : Keeps (quanta n).
Proof. induction n; intros; cbn [quanta]; keeps. Qed.
#[local] Hint Resolve kept_quanta : keeps.
(** Tty.v *)
Lemma kept_get_queue (tty : Z) (q : which_queue) : Keeps (get_queue tty q).
Proof. unfold get_queue. keeps. Qed.
#[local] Hint Resolve kept_get_queue : keeps.
Lemma kept_LAST (tty : Z) (q : which_queue) : Keeps (Tty.LAST tty q).
Proof. unfold Tty.LAST. keeps. Qed.
#[local] Hint Resolve kept_LAST : keeps.
Lemma kept_GETCH (tty : Z) (q : which_queue) : Keeps (GETCH tty q).
Proof. unfold GETCH. keeps. Qed.
#[local] Hint Resolve kept_GETCH : keeps.
Lemma kept_PUTCH (c tty : Z) (q : which_queue) : Keeps (PUTCH c tty q).
Proof. unfold PUTCH. keeps. Qed.
#[local] Hint Resolve kept_PUTCH : keeps.
Lemma kept_rs_write (tty : Z) : Keeps (rs_write tty).
Proof. unfold rs_write. keeps. Qed.
#[local] Hint Resolve kept_rs_write : keeps.
Lemma kept_sleep_if_empty (tty : Z) (q : which_queue) : Keeps (sleep_if_empty tty q).
Proof. unfold sleep_if_empty. keeps. Qed.
#[local] Hint Resolve kept_sleep_if_empty : keeps.
Lemma kept_echo_erase (tty c : Z) : Keeps (echo_erase tty c).
Proof. unfold echo_erase. keeps. Qed.
#[local] Hint Resolve kept_echo_erase : keeps.
Lemma kept_set_alarm (v : Z) : Keeps (set_alarm v).
Proof. unfold set_alarm. keeps. Qed.
#[local] Hint Resolve kept_set_alarm : keeps.
Lemma kept_alarm_first (time oldalarm : Z) : Keeps (alarm_first time oldalarm).
Proof. unfold alarm_first. keeps. Qed.
#[local] Hint Resolve kept_alarm_first : keeps.
Lemma kept_alarm_at (time : Z) : Keeps (alarm_at time).
Proof. unfold alarm_at. keeps. Qed.
#[local] Hint Resolve kept_alarm_at : keeps.
Lemma kept_change_speed (tty : Z) : Keeps (change_speed tty).
Proof. unfold change_speed. keeps. Qed.
#[local] Hint Resolve kept_change_speed : keeps.
Lemma kept_mod_termios (tty : Z) (f : termios -> termios) : Keeps (mod_termios tty f).
Proof. unfold mod_termios. keeps. Qed.
#[local] Hint Resolve kept_mod_termios : keeps.
(** Super.v *)
Lemma kept_brelse_maps (s : nat) : Keeps (brelse_maps s).
Proof. unfold brelse_maps. keeps. Qed.
#[local] Hint Resolve kept_brelse_maps : keeps.
Lemma kept_read_map (dev : Z) (put : Z -> option nat -> K unit) (n : nat) (i block : Z) :
  (forall i o, Keeps (put i o)) -> Keeps (read_map dev put n i block).
Proof. intros H. revert i block. induction n; intros; cbn [read_map]; keeps. Qed.
Ltac kept_apply ::=
  lazymatch goal with
  | |- Keeps (free_zones _ _) => apply kept_free_zones
  | |- Keeps (translate _ _ _) => apply kept_translate
  | |- Keeps (for_tasks _) => apply kept_for_tasks
  | |- Keeps (read_map _ _ _ _ _) => apply kept_read_map
  end.
Lemma kept_read_super (dev : Z) : Keeps (read_super dev).
Proof. unfold read_super. keeps. Qed.
#[local] Hint Resolve kept_read_super : keeps.
Lemma kept_count_free (map : super_block -> list (option nat)) (s : nat) (lo : Z) (n : nat) (free : Z) : Keeps (count_free map s lo n free).
Proof. revert map s lo free. induction n; intros; cbn [count_free]; keeps. Qed.
#[local] Hint Resolve kept_count_free : keeps.
(** FileIO.v *)
Lemma kept_rw_ttyx (rw minor buf count : Z) : Keeps (rw_ttyx rw minor buf count).
Proof. unfold rw_ttyx. keeps. Qed.
#[local] Hint Resolve kept_rw_ttyx : keeps.
Lemma kept_rw_char (rw dev buf count : Z) : Keeps (rw_char rw dev buf count).
Proof. unfold rw_char. keeps. Qed.
#[local] Hint Resolve kept_rw_char : keeps.
Lemma kept_filp_of (fd : Z) : Keeps (filp_of fd).
Proof. unfold filp_of. keeps. Qed.
#[local] Hint Resolve kept_filp_of : keeps.
Lemma kept_take_files (i n : nat) (f : list nat) : Keeps (take_files i n f).
Proof. revert i f. induction n; intros; cbn [take_files]; keeps. Qed.
#[local] Hint Resolve kept_take_files : keeps.
Lemma kept_set_filp (fd : Z) (f : option nat) : Keeps (set_filp fd f).
Proof. unfold set_filp. keeps. Qed.
#[local] Hint Resolve kept_set_filp : keeps.
Lemma kept_take_fds (f : list nat) (i : Z) (n : nat) (fd : list Z) : Keeps (take_fds f i n fd).
Proof. revert f i fd. induction n; intros; cbn [take_fds]; keeps. Qed.
#[local] Hint Resolve kept_take_fds : keeps.
Lemma kept_zero_count (f : nat) : Keeps (zero_count f).
Proof. unfold zero_count. keeps. Qed.
#[local] Hint Resolve kept_zero_count : keeps.
(** OpenFiles.v *)
Lemma kept_clear_close (fd : Z) : Keeps (clear_close fd).
Proof. unfold clear_close. keeps. Qed.
#[local] Hint Resolve kept_clear_close : keeps.
Lemma kept_sys_close (fd : Z) : Keeps (sys_close fd).
Proof. unfold sys_close. keeps. Qed.
#[local] Hint Resolve kept_sys_close : keeps.
Lemma kept_dupfd (fd arg : Z) : Keeps (dupfd fd arg).
Proof. unfold dupfd. keeps. Qed.
#[local] Hint Resolve kept_dupfd : keeps.
Lemma kept_cp_stat (pad : memory) (inode : nat) (statbuf : Z) : Keeps (cp_stat pad inode statbuf).
Proof. unfold cp_stat. keeps. Qed.
#[local] Hint Resolve kept_cp_stat : keeps.
(** Process.v *)
Lemma kept_set_kernel_stack (nr v : Z) : Keeps (set_kernel_stack nr v).
Proof. unfold set_kernel_stack. keeps. Qed.
#[local] Hint Resolve kept_set_kernel_stack : keeps.
Lemma kept_set_kernel_stackbottom (nr v : Z) : Keeps (set_kernel_stackbottom nr v).
Proof. unfold set_kernel_stackbottom. keeps. Qed.
#[local] Hint Resolve kept_set_kernel_stackbottom : keeps.
Lemma kept_pid_used (pid : Z) (i : Z) (n : nat) : Keeps (pid_used pid i n).
Proof. revert pid i. induction n; intros; cbn [pid_used]; keeps. Qed.
#[local] Hint Resolve kept_pid_used : keeps.
Lemma kept_free_slot (i : Z) (n : nat) : Keeps (free_slot i n).
Proof. revert i. induction n; intros; cbn [free_slot]; keeps. Qed.
#[local] Hint Resolve kept_free_slot : keeps.
Lemma kept_release_from (p i : Z) (n : nat) : Keeps (release_from p i n).
Proof. revert p i. induction n; intros; cbn [release_from]; keeps. Qed.
#[local] Hint Resolve kept_release_from : keeps.
Lemma kept_release (p : option Z) : Keeps (release p).
Proof. unfold release. keeps. Qed.
#[local] Hint Resolve kept_release : keeps.
Lemma kept_add_signal (p sig : Z) : Keeps (add_signal p sig).
Proof. unfold add_signal. keeps. Qed.
#[local] Hint Resolve kept_add_signal : keeps.
Lemma kept_send_sig (sig : Z) (p : option Z) (priv : bool) : Keeps (send_sig sig p priv).
Proof. unfold send_sig. keeps. Qed.
#[local] Hint Resolve kept_send_sig : keeps.
Lemma kept_send_err (sig : Z) (p : option Z) (priv : bool) (retval : Z) : Keeps (send_err sig p priv retval).
Proof. unfold send_err. keeps. Qed.
#[local] Hint Resolve kept_send_err : keeps.
Lemma kept_kill_loop (visit : option Z -> Z -> K Z) (i : Z) (n : nat) (retval : Z) :
  (forall p r, Keeps (visit p r)) -> Keeps (kill_loop visit i n retval).
Proof. intros H. revert i retval. induction n; intros; cbn [kill_loop]; keeps. Qed.
Ltac kept_apply ::=
  lazymatch goal with
  | |- Keeps (free_zones _ _) => apply kept_free_zones
  | |- Keeps (translate _ _ _) => apply kept_translate
  | |- Keeps (for_tasks _) => apply kept_for_tasks
  | |- Keeps (read_map _ _ _ _ _) => apply kept_read_map
  | |- Keeps (kill_loop _ _ _ _) => apply kept_kill_loop
  end.
Lemma kept_find_father (pid i : Z) (n : nat) : Keeps (find_father pid i n).
Proof. revert pid i. induction n; intros; cbn [find_father]; keeps. Qed.
#[local] Hint Resolve kept_find_father : keeps.
Lemma kept_do_exit (code : Z) : Keeps (do_exit code).
Proof. unfold do_exit. keeps. Qed.
#[local] Hint Resolve kept_do_exit : keeps.
Lemma kept_waitpid_scan (pid stat_addr options i : Z) (n : nat) (flag : Z) : Keeps (waitpid_scan pid stat_addr options i n flag).
Proof. revert pid stat_addr options i flag. induction n; intros; cbn [waitpid_scan]; keeps. Qed.
#[local] Hint Resolve kept_waitpid_scan : keeps.
Lemma kept_visit_of pid sig p r : Keeps (visit_of pid sig p r).
Proof. unfold visit_of. destruct (pid =? 0); [keeps|]. destruct (0 <? pid); [keeps|]. destruct (pid =? -1); keeps. Qed.
#[local] Hint Resolve kept_visit_of : keeps.
(** SysCalls.v *)
Lemma kept_get_action (i : Z) : Keeps (get_action i).
Proof. unfold get_action. keeps. Qed.
#[local] Hint Resolve kept_get_action : keeps.
Lemma kept_mod_action (i : Z) (f : sigaction -> sigaction) : Keeps (mod_action i f).
Proof. unfold mod_action. keeps. Qed.
#[local] Hint Resolve kept_mod_action : keeps.
Lemma kept_setpgid_loop (pid pgid i : Z) (n : nat) : Keeps (setpgid_loop pid pgid i n).
Proof. revert pid pgid i. induction n; intros; cbn [setpgid_loop]; keeps. Qed.
#[local] Hint Resolve kept_setpgid_loop : keeps.

(** Exec.v *)
Lemma kept_skip_string p : Keeps (skip_string p).
Proof. unfold skip_string. keeps. Qed.
#[local] Hint Resolve kept_skip_string : keeps.
Lemma kept_put_pointers n p argv : Keeps (put_pointers n p argv).
Proof. revert p argv. induction n; intros; cbn [put_pointers]; keeps. Qed.
#[local] Hint Resolve kept_put_pointers : keeps.
Lemma kept_set_reg r v : Keeps (set_reg r v).
Proof. unfold set_reg. keeps. Qed.
#[local] Hint Resolve kept_set_reg : keeps.
Lemma kept_create_tables p argc envc : Keeps (create_tables p argc envc).
Proof. unfold create_tables. keeps. Qed.
#[local] Hint Resolve kept_create_tables : keeps.
Lemma kept_count argv : Keeps (Exec.count argv).
Proof. unfold Exec.count. keeps. Qed.
#[local] Hint Resolve kept_count : keeps.
Lemma kept_copy_chars fk ofs n p tmp offset pag page : Keeps (copy_chars fk ofs n p tmp offset pag page).
Proof. revert p tmp offset pag page. induction n; intros; cbn [copy_chars]; keeps. Qed.
#[local] Hint Resolve kept_copy_chars : keeps.
Lemma kept_copy_args argv fk ofs n p offset pag page : Keeps (copy_args argv fk ofs n p offset pag page).
Proof. revert p offset pag page. induction n; intros; cbn [copy_args]; keeps. Qed.
#[local] Hint Resolve kept_copy_args : keeps.
Lemma kept_copy_strings argc argv page p fk : Keeps (copy_strings argc argv page p fk).
Proof. unfold copy_strings. keeps. Qed.
#[local] Hint Resolve kept_copy_strings : keeps.
Lemma kept_change_ldt text_size page : Keeps (change_ldt text_size page).
Proof. unfold change_ldt. keeps. Qed.
#[local] Hint Resolve kept_change_ldt : keeps.
Lemma kept_strncpy n to from : Keeps (strncpy n to from).
Proof. revert to from. induction n; intros; cbn [strncpy]; keeps. Qed.
#[local] Hint Resolve kept_strncpy : keeps.
Lemma kept_strchr n p c : Keeps (strchr n p c).
Proof. revert p. induction n; intros; cbn [strchr]; keeps. Qed.
#[local] Hint Resolve kept_strchr : keeps.
Lemma kept_parse_line frame : Keeps (parse_line frame).
Proof. unfold parse_line. keeps. Qed.
#[local] Hint Resolve kept_parse_line : keeps.
Lemma kept_exec_error1 page r : Keeps (exec_error1 page r).
Proof. unfold exec_error1. keeps. Qed.
#[local] Hint Resolve kept_exec_error1 : keeps.
Lemma kept_exec_error2 inode page r : Keeps (exec_error2 inode page r).
Proof. unfold exec_error2. keeps. Qed.
#[local] Hint Resolve kept_exec_error2 : keeps.
Lemma kept_close_on_exec_files : Keeps (close_on_exec_files).
Proof. unfold close_on_exec_files. keeps. Qed.
#[local] Hint Resolve kept_close_on_exec_files : keeps.
Lemma kept_exec_script frame inode b argv envp p argc envc page : Keeps (exec_script frame inode b argv envp p argc envc page).
Proof. unfold exec_script. keeps. Qed.
#[local] Hint Resolve kept_exec_script : keeps.

(** ** The table of system calls *)
(** The calls that may change ids: [fork], [execve], [setuid], [setreuid]. *)
Definition changes_ids (nr : Z) : bool := (nr =? 1) || (nr =? 4) || (nr =? 11) || (nr =? 50).
Lemma kept_sys_call_table frame fork_process_exit stat_junk termio_junk wait_fuel nr a0 a1 a2 h :
  changes_ids nr = false ->
  sys_call_table frame fork_process_exit stat_junk termio_junk wait_fuel nr a0 a1 a2 = Some h -> Keeps h.
Proof.
  intros Hnr. unfold sys_call_table.
  repeat match goal with |- (match ?x with _ => _ end = Some _) -> _ => destruct x end; intros [= <-]; try discriminate Hnr; clear Hnr; keeps.
Qed.

(** ** Types *)
(** The state in which a computation returns or stops. *)
Definition end_state {A} (o : outcome kernel A) : kernel := match o with Ok _ k => k | Stop _ k => k end.
Lemma post_end {A} allowed typed c ti (o : outcome kernel A) : post allowed typed c ti o ->
  ids_ok allowed (end_state o) /\ (typed -> tables_ok (end_state o)).
Proof. destruct o; [by intros (?&_&_&?)|done]. Qed.
(** Code that keeps the types of the tables, whatever else it changes. *)
Definition Typed {A} (m : K A) : Prop := forall k, tables_ok k -> tables_ok (end_state (m k)).
Lemma typed_keeps {A} (m : K A) : Keeps m -> Typed m.
Proof.
  intros Hm k Hk. apply (post_end (fun _ _ => True) True (current (k_sched k)) (trap_info (k_sched k))); [|done].
  by apply Hm.
Qed.
Lemma typed_bind {A B} (m : K A) (f : A -> K B) : Typed m -> (forall a, Typed (f a)) -> Typed (bind m f).
Proof. intros Hm Hf k Hk. unfold bind. pose proof (Hm k Hk) as H. destruct (m k); [by apply Hf|done]. Qed.
Lemma typed_when b (m : K unit) : Typed m -> Typed (when b m).
Proof. intros H. destruct b; [done|by intros k]. Qed.
Lemma typed_loop {A B} n (body : A -> K (A + B)) a : (forall a, Typed (body a)) -> Typed (loop n body a).
Proof.
  intros H. revert a. induction n as [|n IH]; intros a; [by intros k|]. rewrite loop_S. apply typed_bind; [done|]. intros [?|?]; [done|by intros k].
Qed.
Lemma typed_sched (g : sched_state -> sched_state) : (forall s, sched_ty s -> sched_ty (g s)) -> Typed (mod_sched g).
Proof. intros T k []. split; try done. by apply T. Qed.
Lemma typed_mod_task p f : (forall t, task_ty t -> task_ty (f t)) -> Typed (mod_task p f).
Proof.
  intros T k H. unfold mod_task, get_task, bind, gets. cbv beta iota. unfold unwrap.
  destruct (tasks (k_sched k) !! p) as [t|] eqn:Ht; [|done]. apply tables_task; [|done]. by apply T, (tables_task_at k p).
Qed.
Lemma typed_mod_cur f : (forall t, task_ty t -> task_ty (f t)) -> Typed (mod_cur f).
Proof. intros T. unfold mod_cur. apply typed_bind; [by intros k|]. intros. by apply typed_mod_task. Qed.
(** [typed] is to [Typed] what [keeps] is to [Keeps]; it uses the lemmas of the latter. *)
Ltac typed_step :=
  lazymatch goal with
  | |- forall _, _ => intros ?
  | |- Typed (bind _ _) => apply typed_bind
  | |- Typed (when _ _) => apply typed_when
  | |- Typed (loop _ _ _) => apply typed_loop
  | |- Typed (mod_sched _) => apply typed_sched; by ty_sched
  | |- Typed (mod_task _ _) => apply typed_mod_task; ty
  | |- Typed (mod_cur _) => apply typed_mod_cur; ty
  | |- Typed (let _ := _ in _) => cbv zeta
  | |- Typed (match ?x with _ => _ end) => destruct x
  | |- Typed _ => first [ assumption | solve [auto 2 with nocore] | solve [eauto 2 with keeps nocore] | apply typed_keeps; solve [keeps] | progress cbv beta iota ]
  end.
Ltac typed := repeat typed_step.

Lemma exec_commit_typed inode ex page p argc envc e_uid e_gid : Typed (exec_commit inode ex page p argc envc e_uid e_gid).
Proof. unfold exec_commit. typed. Qed.
#[local] Hint Resolve exec_commit_typed : keeps.
Lemma exec_round_typed frame argv envp envc s : Typed (exec_round frame argv envp envc s).
Proof. unfold exec_round. typed. Qed.
#[local] Hint Resolve exec_round_typed : keeps.
Lemma do_execve_typed frame filename argv envp : Typed (do_execve frame filename argv envp).
Proof. unfold do_execve. typed. Qed.
(** ** The calls that change ids *)
(** Ids that the running task may give itself or a child, from those it has ([u], [e], [s]) or had at
    the beginning of the call ([u0], [e0], [s0]). *)
Record closed (allowed : Z -> ids -> Prop) (c : Z) : Prop := mkClosed {
  cl_child : forall p u, allowed c u -> allowed p u;
  cl_uid : forall u e s r, allowed c (u, e, s) -> 0 < r -> r = e \/ r = u \/ e = 0 -> allowed c (u16 r, e, s);
  cl_euid : forall u0 e0 s0 u e s r, allowed c (u0, e0, s0) -> allowed c (u, e, s) -> 0 < r -> r = u0 \/ r = e \/ e = 0 ->
    allowed c (u, u16 r, s);
  cl_back : forall u0 e0 s0 u e s, allowed c (u0, e0, s0) -> allowed c (u, e, s) -> allowed c (u0, e, s) }.

Section Changes.
Context (allowed : Z -> ids -> Prop) (typed : Prop) (c : Z) (ti : trap_info_t) (Hcl : closed allowed c).

Lemma post_keeps {A B} (m : K A) (f : A -> K B) k : held allowed typed c ti k -> Keeps m ->
  (forall a k', held allowed typed c ti k' -> post allowed typed c ti (f a k')) -> post allowed typed c ti (bind m f k).
Proof. intros H Hm Hf. apply post_bind; [by apply Hm|]. intros a k' _. apply Hf. Qed.
Lemma post_cur {B} (f : task_struct -> K B) k : held allowed typed c ti k ->
  (forall t, tasks (k_sched k) !! c = Some t -> allowed c (uids t) -> (typed -> task_ty t) -> post allowed typed c ti (f t k)) ->
  post allowed typed c ti (bind cur f k).
Proof.
  intros (H1&H2&H3&H4) Hf. unfold bind, cur, get_task, gets, unwrap. unfold bind. rewrite H2.
  destruct (tasks (k_sched k) !! c) as [t|] eqn:E; [|done]. apply Hf; [done|by apply H1|]. intros Hty. by eapply tables_task_at; [apply H4|].
Qed.
Lemma post_suser {B} (f : bool -> K B) k t : held allowed typed c ti k -> tasks (k_sched k) !! c = Some t ->
  post allowed typed c ti (f (t_euid t =? 0) k) -> post allowed typed c ti (bind suser f k).
Proof. intros (H1&H2&H3&H4) Ht Hf. unfold bind at 1, suser, cur, get_task, gets, unwrap, bind. by rewrite H2, Ht. Qed.
Lemma post_mod_cur f k : held allowed typed c ti k -> (forall t, tasks (k_sched k) !! c = Some t -> allowed c (uids (f t))) ->
  (forall t, typed -> task_ty t -> task_ty (f t)) -> post allowed typed c ti (mod_cur f k).
Proof.
  intros H Hf T. pose proof H as (_&H2&_&H4). unfold mod_cur, mod_task, get_task, gets, unwrap, bind. rewrite H2.
  destruct (tasks (k_sched k) !! c) as [t|] eqn:E; [|by destruct H as (?&_&_&?)]. apply held_task; [done|by apply Hf|].
  intros Hty. apply T; [done|]. by eapply tables_task_at; [apply H4|].
Qed.
Lemma post_new_task {B} p t (f : unit -> K B) k : held allowed typed c ti k -> allowed p (uids t) -> (typed -> task_ty t) ->
  (forall k', held allowed typed c ti k' -> post allowed typed c ti (f tt k')) -> post allowed typed c ti (bind (new_task p t) f k).
Proof. intros H Ht Hty Hf. apply Hf. by apply held_task. Qed.
Lemma post_ret {A} (a : A) k : held allowed typed c ti k -> post allowed typed c ti (ret a k).
Proof. done. Qed.
(** A child has the ids of its father. *)
Lemma copy_process_post fork_process_exit nr k : held allowed typed c ti k -> post allowed typed c ti (copy_process fork_process_exit nr k).
Proof.
  intros H. unfold copy_process. apply post_keeps; [done|keeps|]. intros p k1 H1. destruct (p =? 0); [by apply kept_ret|].
  apply post_keeps; [done|keeps|]. intros _ k2 H2. apply post_cur; [done|]. intros t _ Ht Hty.
  apply post_keeps; [done|keeps|]. intros lp k3 H3. apply post_keeps; [done|keeps|]. intros now k4 H4.
  apply post_new_task; [done|by apply (cl_child _ _ Hcl)|intros; by apply ty_child, Hty|]. intros k5 H5.
  match goal with |- post _ _ _ _ (?m _) => assert (Keeps m) as Hm by keeps; by apply Hm end.
Qed.
Lemma sys_fork_post fork_process_exit k : held allowed typed c ti k -> post allowed typed c ti (sys_fork fork_process_exit k).
Proof.
  intros H. unfold sys_fork. apply post_keeps; [done|keeps|]. intros nr k1 H1.
  destruct (nr <? 0); [by apply kept_halt|by apply copy_process_post].
Qed.
(** [setreuid]: the two halves of the call. *)
Lemma sys_setreuid_post ruid euid k : held allowed typed c ti k -> post allowed typed c ti (sys_setreuid ruid euid k).
Proof.
  intros H. unfold sys_setreuid. apply post_cur; [done|]. intros t0 Ht0 Ha0 Hty0. eapply post_suser; [done|exact Ht0|].
  apply post_bind.
  - destruct (Z.ltb_spec 0 ruid); [|by apply post_ret].
    destruct ((t_euid t0 =? ruid) || (t_uid t0 =? ruid) || (t_euid t0 =? 0)) eqn:Et; [|by apply post_ret].
    apply post_bind; [|by intros; apply post_ret]. apply post_mod_cur; [done| |ty]. intros t Ht. assert (t = t0) as -> by congruence.
    apply (cl_uid _ _ Hcl (t_uid t0)); [exact Ha0|done|rsimpl; lia].
  - intros ok k1 _ H1. destruct ok; [|by apply post_ret]. destruct (Z.ltb_spec 0 euid); [|by apply post_ret].
    apply post_cur; [done|]. intros t1 Ht1 Ha1 Hty1. eapply post_suser; [done|exact Ht1|].
    destruct ((t_uid t0 =? euid) || (t_euid t1 =? euid) || (t_euid t1 =? 0)) eqn:Et.
    + apply post_bind; [|by intros; apply post_ret]. apply post_mod_cur; [done| |ty]. intros t Ht. assert (t = t1) as -> by congruence.
      apply (cl_euid _ _ Hcl (t_uid t0) (t_euid t0) (t_suid t0) _ (t_euid t1)); [exact Ha0|exact Ha1|done|rsimpl; lia].
    + apply post_bind; [|by intros; apply post_ret]. apply post_mod_cur; [done| |intros t Hty; apply ty_set_t_uid; by destruct (Hty0 Hty) as (_&_&_&_&(?&_)&_)]. intros t Ht. assert (t = t1) as -> by congruence.
      apply (cl_back _ _ Hcl (t_uid t0) (t_euid t0) (t_suid t0) (t_uid t1)); [exact Ha0|exact Ha1].
Qed.
(** Every system call except [execve]. *)
Lemma system_call_post frame fork_process_exit stat_junk termio_junk wait_fuel nr a0 a1 a2 k :
  nr <> 4 -> held allowed typed c ti k ->
  post allowed typed c ti (system_call frame fork_process_exit stat_junk termio_junk wait_fuel nr a0 a1 a2 k).
Proof.
  intros Hnr H. unfold system_call. destruct (_ <? 0); [by apply kept_halt|].
  destruct (sys_call_table _ _ _ _ _ nr a0 a1 a2) as [h|] eqn:Eh; [|by apply kept_halt].
  destruct (changes_ids nr) eqn:Ec; [|by apply (kept_sys_call_table _ _ _ _ _ _ _ _ _ _ Ec Eh)].
  assert (nr = 1 \/ nr = 11 \/ nr = 50) as [->|[->| ->]] by (unfold changes_ids in Ec; lia).
  - change (Some (sys_fork fork_process_exit) = Some h) in Eh. apply (inj Some) in Eh as <-. by apply sys_fork_post.
  - change (Some (sys_setuid (s32 a0)) = Some h) in Eh. apply (inj Some) in Eh as <-. by apply sys_setreuid_post.
  - change (Some (sys_setreuid (s32 a0) (u32 a1)) = Some h) in Eh. apply (inj Some) in Eh as <-. by apply sys_setreuid_post.
Qed.
End Changes.

(** Every system call, and every exception. *)
Lemma system_call_typed frame fork_process_exit stat_junk termio_junk wait_fuel nr a0 a1 a2 :
  Typed (system_call frame fork_process_exit stat_junk termio_junk wait_fuel nr a0 a1 a2).
Proof.
  destruct (Z.eq_dec nr 4) as [->|Hnr]; [exact (do_execve_typed frame a0 a1 a2)|]. intros k Hk.
  apply (post_end (fun _ _ => True) True (current (k_sched k)) (trap_info (k_sched k))); [|done].
  by apply system_call_post.
Qed.
#[local] Hint Resolve system_call_typed : keeps.
Lemma exception_typed frame fork_process_exit stat_junk termio_junk wait_fuel cause epc regs fregs badaddr fm :
  Typed (machine_exception_handler frame fork_process_exit stat_junk termio_junk wait_fuel cause epc regs fregs badaddr fm).
Proof. unfold machine_exception_handler, enter_trap, leave_trap, handle_cause, set_newepc, set_trap_info, set_from_interrupt, get_reg. typed. Qed.

(** The interrupt handler, if the functions that kernel timers and other drivers call keep the types; and
    what a task does when it is resumed. *)
Section Interrupts.
Context {BD : Board} (timer_fn : Z -> K unit) (driver : Z -> Z -> K Z).
Context (Hfn : forall f, Typed (timer_fn f)) (Hdriver : forall f ctx, Typed (driver f ctx)).
Lemma typed_for_up lo n (body : Z -> K unit) : (forall i, Typed (body i)) -> Typed (for_up lo n body).
Proof. intros H. revert lo. induction n as [|n IH]; intros lo; [by intros k|]. cbn [for_up]. apply typed_bind; [done|]. by intros _. Qed.
Lemma run_timers_typed fuel : Typed (run_timers timer_fn fuel).
Proof. unfold run_timers. typed. Qed.
#[local] Hint Resolve run_timers_typed : keeps.
Lemma do_timer_typed user : Typed (do_timer timer_fn user).
Proof. unfold do_timer. typed. Qed.
#[local] Hint Resolve do_timer_typed : keeps.
Lemma timer_callback_typed user f ctx : Typed (timer_callback timer_fn driver user f ctx).
Proof. unfold timer_callback, timer_interrupt. typed. Qed.
#[local] Hint Resolve timer_callback_typed : keeps.
Lemma serve_channel_typed user device stat i : Typed (serve_channel (timer_callback timer_fn driver user) device stat i).
Proof. unfold serve_channel. typed. Qed.
Lemma timer_interrupt_handler_typed user device ctx : Typed (timer_interrupt_handler (timer_callback timer_fn driver user) device ctx).
Proof. unfold timer_interrupt_handler. apply typed_bind; [typed|]. intros stat. apply typed_bind; [|typed]. apply typed_for_up. intros i. apply serve_channel_typed. Qed.
#[local] Hint Resolve timer_interrupt_handler_typed : keeps.
Lemma irq_callback_typed user f ctx : Typed (irq_callback timer_fn driver user f ctx).
Proof. unfold irq_callback. typed. Qed.
#[local] Hint Resolve irq_callback_typed : keeps.
Lemma handle_irq_m_ext_typed user epc : Typed (handle_irq_m_ext (irq_callback timer_fn driver user) epc).
Proof. unfold handle_irq_m_ext, call_instance, set_int_info. typed. Qed.
#[local] Hint Resolve handle_irq_m_ext_typed : keeps.
Lemma interrupt_typed cause epc regs fregs user : Typed (machine_interrupt_handler timer_fn driver cause epc regs fregs user).
Proof. unfold machine_interrupt_handler, enter_trap, leave_trap, set_trap_info, set_from_interrupt. typed. Qed.
Lemma switch_resume_typed old : Typed (switch_resume old).
Proof. unfold switch_resume. typed. Qed.
End Interrupts.
End Files.

(** The writing back of i-nodes, which [getblk] calls. *)
Lemma kept_sync_inodes_rec n : Keeps (sync_inodes_rec n).
Proof.
  induction n as [|n IH]; [apply kept_halt|]. cbn [sync_inodes_rec]. apply kept_for_up. intros i. cbv zeta.
  apply kept_bind; [apply kept_wait_on_inode|]. intros _. apply kept_bind; [apply kept_get_inode|]. intros d.
  apply kept_when. by apply (kept_write_inode (SI := sync_inodes_rec n) (HSI := IH)).
Qed.
Lemma kept_fs_sync_inodes : Keeps (sync_inodes (SyncInodes := fs_sync_inodes)).
Proof. apply kept_sync_inodes_rec. Qed.

(** ** The whole interface *)
(** Real or effective user 0. *)
Definition privileged (u : ids) : Prop := let '(u, e, _) := u in u = 0 \/ e = 0.
(** The ids are of type [unsigned short]. *)
Definition ids_fit (u : ids) : Prop := let '(u, e, _) := u in 0 <= u < 65536 /\ 0 <= e < 65536.
Definition was_privileged (k : kernel) (p : Z) : Prop := exists t, tasks (k_sched k) !! p = Some t /\ privileged (uids t).
Definition no_gain (k : kernel) (p : Z) (u : ids) : Prop :=
  ids_fit u /\ (privileged u -> was_privileged k p \/ was_privileged k (current (k_sched k))).
Lemma no_gain_closed k : closed (no_gain k) (current (k_sched k)).
Proof.
  assert (forall r, 0 <= u16 r < 65536) as Hr by (intros r; apply u16_bound). split.
  - intros p [[u e] s] [Hf Hp]. split; [done|]. intros Hu. right. by destruct (Hp Hu).
  - intros u e s r [[Hu He] Hp] Hr0 Hor. pose proof (Hr r) as Hb. split; [done|]. intros [H|H]; [|apply Hp; by right].
    destruct Hor as [->|[->| ->]]; [| |apply Hp; by right].
    + rewrite u16_small in H by lia. apply Hp. by right.
    + rewrite u16_small in H by lia. apply Hp. by left.
  - intros u0 e0 s0 u e s r [[Hu0 He0] Hp0] [[Hu He] Hp] Hr0 Hor. pose proof (Hr r) as Hb. split; [done|]. intros [H|H]; [apply Hp; by left|].
    destruct Hor as [->|[->| ->]]; [| |apply Hp; by right].
    + rewrite u16_small in H by lia. apply Hp0. by left.
    + rewrite u16_small in H by lia. apply Hp. by right.
  - intros u0 e0 s0 u e s [[Hu0 He0] Hp0] [[Hu He] Hp]. split; [done|]. intros [H|H]; [apply Hp0; by left|apply Hp; by right].
Qed.

(** The saved register [r]; the state in which [trap_from_interrupt] and [trap_info] are set; the trap
    information of a system call at [epc]. *)
Definition saved (k : kernel) (regs r : Z) : Z := ld 8 (k_pmem k) (regs + 8 * r).
Definition trapped (from : bool) (ti : trap_info_t) (k : kernel) : kernel :=
  k <| k_sched ::= fun s => s <| trap_info := ti |> <| trap_from_interrupt := from |> |>.
Definition ecall_info (ti : trap_info_t) (epc regs fregs : Z) : trap_info_t :=
  ti <| ti_regs := regs |> <| ti_fregs := fregs |> <| ti_epc := epc |> <| ti_newepc := u64 (epc + 4) |>.

(** The ways in which the kernel is entered, with the memory that programs change in between; [enter] is
    the state in which the entered code returns or stops. *)
Inductive entry :=
| Exception (cause epc regs fregs badaddr : Z) (from_machine : bool)
| Interrupt (cause epc regs fregs : Z) (user : bool)
| Resume (old : trap_info_t)
| Program (writes : memory -> memory).
Section Entries.
Context {UA : Uart} {BD : Board} (frame fork_process_exit : Z) (stat_junk : Z -> Z) (termio_junk : termio) (wait_fuel : nat).
Context (timer_fn : Z -> K unit) (driver : Z -> Z -> K Z).
Definition enter (k : kernel) (e : entry) : kernel :=
  match e with
  | Exception cause epc regs fregs badaddr fm =>
      end_state (machine_exception_handler frame fork_process_exit stat_junk termio_junk wait_fuel cause epc regs fregs badaddr fm k)
  | Interrupt cause epc regs fregs user => end_state (machine_interrupt_handler timer_fn driver cause epc regs fregs user k)
  | Resume old => end_state (switch_resume old k)
  | Program writes => k <| k_pmem ::= writes |>
  end.
Lemma enter_typed (Hfn : forall f, Typed (timer_fn f)) (Hdriver : forall f ctx, Typed (driver f ctx)) k e :
  tables_ok k -> tables_ok (enter k e).
Proof.
  intros Hk. destruct e; cbn [enter].
  - by apply (exception_typed (HSI := kept_fs_sync_inodes)).
  - by apply interrupt_typed.
  - by apply switch_resume_typed.
  - by destruct Hk.
Qed.
End Entries.

Module FrameProps.

(** User 5 with the effective id 7, who wants to be user 0. *)
Definition demo_caller : task_struct := zero_task <| t_uid := 5 |> <| t_euid := 7 |>.
Definition demo_unprivileged : kernel := kernel0 <| k_sched ::= fun s => s <| current := init_task |> <| tasks := {[init_task := demo_caller]} |> |>.

(** The kernel keeps the types of its data.  Whatever exceptions (with them all system calls, [fork] and
    [execve] included), interrupts and resumptions come one after the other, with any arguments, and
    whatever programs write in between: every table keeps the length of its C array, every i-node its nine
    zones, and every i-node, open file, super block, queue and task its fields in the range of their
    integer types, wherever the entered code returns, sleeps, switches or panics. *)
Theorem kernel_keeps_types {UA : Uart} {BD : Board} frame fork_process_exit stat_junk termio_junk wait_fuel timer_fn driver entries k :
  (forall f, Typed (timer_fn f)) -> (forall f ctx, Typed (driver f ctx)) -> tables_ok k ->
  tables_ok (foldl (enter frame fork_process_exit stat_junk termio_junk wait_fuel timer_fn driver) k entries).
Proof.
  intros Hfn Hdriver. revert k. induction entries as [|e es IH]; intros k Hk; [done|]. cbn [foldl].
  by apply IH, enter_typed.
Qed.
(** [getpid] (172). *)
Definition demo_call : kernel := demo_unprivileged <| k_pmem := st 8 (fun _ => 0) (0x1000 + 8 * 17) 172 |>.
End FrameProps.
