(* ===== verification/Irq.v ===== *)
(** * Timer interrupts from the claim to the completion

    The parts of Trap.v, Plic.v and Sched.v that one tick of timer 0 goes through:
    [machine_interrupt_handler], [handle_irq_m_ext], [timer_interrupt_handler], [do_timer],
    [schedule], and, when the tick ends the time of the task, [switch_resume] of the task that goes on.
    The theorem follows the accesses to the registers of the interrupt controller: every interrupt that
    is claimed is completed and the threshold is put back, by the handler or by the next task. *)
From Stdlib Require Import ZArith Lia String.
From stdpp Require Import base list gmap.
From S2P Require Import Prelude State Mmio Pte Sched Plic Tty Exec Trap.
Open Scope Z_scope.

(** ** What the scheduler leaves alone *)
(** The device registers and the trap state. *)
Definition irq_part (k : kernel) : dev_state * trap_info_t * bool :=
  (k_dev k, trap_info (k_sched k), trap_from_interrupt (k_sched k)).
Definition Quiet {A} (m : K A) : Prop :=
  forall k, mayrun m k (fun _ k' => irq_part k' = irq_part k) (fun _ k' => irq_part k' = irq_part k).

Lemma quiet_bind {A B} (m : K A) (f : A -> K B) : Quiet m -> (forall a, Quiet (f a)) -> Quiet (bind m f).
Proof.
  intros Hm Hf k. specialize (Hm k). unfold mayrun, bind in *. destruct (m k) as [a k1|e k1]; [|done].
  specialize (Hf a k1). unfold mayrun in Hf. rewrite <- Hm. done.
Qed.
Lemma quiet_ret {A} (a : A) : Quiet (ret a).
Proof. done. Qed.
Lemma quiet_halt {A} e : Quiet (halt e : K A).
Proof. done. Qed.
Lemma quiet_gets {A} (f : kernel -> A) : Quiet (gets f).
Proof. done. Qed.
Lemma quiet_modify f : (forall k, irq_part (f k) = irq_part k) -> Quiet (modify f).
Proof. intros Hf k. apply Hf. Qed.
Lemma quiet_unwrap {A} s (o : option A) : Quiet (unwrap s o).
Proof. by destruct o. Qed.
Lemma quiet_when b (m : K unit) : Quiet m -> Quiet (when b m).
Proof. by destruct b. Qed.
Lemma quiet_for_up lo n body : (forall i, Quiet (body i)) -> Quiet (for_up lo n body).
Proof. revert lo. induction n as [|n IH]; intros lo H; [done|]. cbn. apply quiet_bind; auto. Qed.
Lemma quiet_loop {A B} fuel (body : A -> K (A + B)) a : (forall a, Quiet (body a)) -> Quiet (loop fuel body a).
Proof.
  revert a. induction fuel as [|n IH]; intros a H; [done|]. cbn. apply quiet_bind; [done|]. intros [a'|b]; auto using quiet_ret.
Qed.

Create HintDb quiet.
#[export] Hint Resolve quiet_ret quiet_halt quiet_gets quiet_unwrap : quiet.
Ltac quiet_step :=
  first [ solve [auto with quiet nocore]
        | apply quiet_bind; [|intro]
        | apply quiet_when | apply quiet_for_up; intro | apply quiet_loop; intro
        | apply quiet_modify; intro; reflexivity
        | match goal with
          | |- Quiet (if ?b then _ else _) => destruct b
          | |- Quiet (match ?x with _ => _ end) => destruct x
          end ].
Ltac quiet := repeat quiet_step.

Lemma quiet_mod_task p f : Quiet (mod_task p f).
Proof. unfold mod_task, get_task. quiet. Qed.
Lemma quiet_task_at i : Quiet (task_at i).
Proof. unfold task_at. quiet. Qed.
#[export] Hint Resolve quiet_mod_task quiet_task_at : quiet.
Lemma quiet_scan_tasks i c next : Quiet (scan_tasks i c next).
Proof. revert c next. induction i as [|i IH]; intros c next; cbn [scan_tasks]; [quiet|]. unfold get_task. quiet. Qed.
#[export] Hint Resolve quiet_scan_tasks : quiet.
Lemma quiet_cur : Quiet cur.
Proof. unfold cur, get_task. quiet. Qed.
Lemma quiet_get_task p : Quiet (get_task p).
Proof. unfold get_task. quiet. Qed.
Lemma quiet_mod_pte e f : Quiet (mod_pte e f).
Proof. unfold mod_pte. quiet. Qed.
Lemma quiet_for_tasks body : (forall p, Quiet (body p)) -> Quiet (for_tasks body).
Proof. intros H. unfold for_tasks. quiet. Qed.
#[export] Hint Resolve quiet_cur quiet_get_task quiet_mod_pte : quiet.
Lemma quiet_set_page_dir d : Quiet (set_page_dir d).
Proof. unfold set_page_dir, pte_common_addr_to_ppn, pte_common_enable_entry, pte_common_enable_user, pte_refresh_tlb. quiet. Qed.
Lemma quiet_check_signals : Quiet check_signals.
Proof. unfold check_signals. apply quiet_for_tasks. intros p. quiet. Qed.
Lemma quiet_choose fuel : Quiet (choose fuel).
Proof. unfold choose, recount. quiet. Qed.
#[export] Hint Resolve quiet_set_page_dir quiet_check_signals quiet_choose : quiet.
Lemma quiet_switch_to i : Quiet (switch_to i).
Proof. unfold switch_to, mod_sched. quiet. Qed.
Lemma quiet_schedule : Quiet schedule.
Proof. pose proof quiet_switch_to. unfold schedule. quiet. Qed.

Lemma bind_cong {A B} (m : K A) (f g : A -> K B) k :
  (forall a k', m k = Ok a k' -> f a k' = g a k') -> bind m f k = bind m g k.
Proof. intros H. unfold bind. destruct (m k) as [a k'|e k'] eqn:E; [by apply H|done]. Qed.

(** ** Register accesses *)
Section Irq.
Context {BD : Board}.
Definition logged (l : list io_event) (k : kernel) : kernel := k <| k_dev ::= fun d => d <| io_log := l |> |>.
Definition log_of (k : kernel) : list io_event := io_log (k_dev k).
(** What the device answers after the accesses [l]. *)
Definition answer (l : list io_event) (a : Z) : Z := u32 (io_reply l a).
Definition read_log (l : list io_event) (a : Z) : list io_event := IoRead a (answer l a) :: l.
Definition write_log (l : list io_event) (a v : Z) : list io_event := IoWrite a (u32 v) :: l.
Lemma readl_Ok k a : readl a k = Ok (answer (log_of k) a) (logged (read_log (log_of k) a) k).
Proof. done. Qed.
Lemma writel_Ok k a v : writel a v k = Ok tt (logged (write_log (log_of k) a v) k).
Proof. done. Qed.
Lemma logged_log l k : log_of (logged l k) = l.
Proof. done. Qed.
Lemma logged_logged l l' k : logged l (logged l' k) = logged l k.
Proof. done. Qed.

(** ** One interrupt *)
(** The accesses of the claim of source [num], after the accesses [l], up to the call of its function. *)
Definition claim_log (l : list io_event) : list io_event := read_log l (plic_claim_complete core_id).
Definition threshold_of (l : list io_event) : Z := answer (claim_log l) (plic_threshold core_id).
Definition raised_log (num : Z) (l : list io_event) : list io_event :=
  let l2 := read_log (claim_log l) (plic_threshold core_id) in
  write_log (read_log l2 (plic_priority num)) (plic_threshold core_id) (answer l2 (plic_priority num)).
(** The completion: the source, and the threshold that was found. *)
Definition completed_log (num threshold : Z) (l : list io_event) : list io_event :=
  write_log (write_log l (plic_claim_complete core_id) num) (plic_threshold core_id) threshold.
Definition with_int (num threshold : Z) (ti : trap_info_t) : trap_info_t := ti <| ti_int_num := num |> <| ti_int_threshold := threshold |>.
Definition claimed (num : Z) (k : kernel) : kernel :=
  logged (raised_log num (log_of k))
    (k <| k_sched ::= fun s => s <| trap_info ::= with_int num (threshold_of (log_of k)) |> |>).

(** The entries of the two tables. *)
Definition instance_at (k : kernel) (core i : Z) : option plic_instance_t :=
  match idx (plic_instance (k_dev k)) core with Some l => idx l i | None => None end.
Definition channel_at (k : kernel) (n c : Z) : option timer_instance_t :=
  match idx (timer_instance (k_dev k)) n with Some l => idx l c | None => None end.
Lemma get_instance_Ok k core i pi : instance_at k core i = Some pi -> get_instance core i k = Ok pi k.
Proof.
  unfold instance_at, get_instance. intros H. erewrite bind_Ok by reflexivity.
  destruct (idx (plic_instance (k_dev k)) core) as [l|]; [|done]. erewrite bind_Ok by reflexivity. by rewrite H.
Qed.
Lemma get_timer_instance_Ok k n c ti : channel_at k n c = Some ti -> get_timer_instance n c k = Ok ti k.
Proof.
  unfold channel_at, get_timer_instance. intros H. erewrite bind_Ok by reflexivity.
  destruct (idx (timer_instance (k_dev k)) n) as [l|]; [|done]. erewrite bind_Ok by reflexivity. by rewrite H.
Qed.

Lemma handle_irq_m_ext_spec call epc k num pi :
  meip_pending (log_of k) = true -> answer (log_of k) (plic_claim_complete core_id) = num ->
  instance_at k core_id num = Some pi -> truth (pi_callback pi) = true ->
  handle_irq_m_ext call epc k =
  (let! _ := call (pi_callback pi) (pi_ctx pi) in
   writel (plic_claim_complete core_id) num ;;;
   writel (plic_threshold core_id) (threshold_of (log_of k)) ;;;
   ret epc) (claimed num k).
Proof.
  intros Hp Hn Hi Hc. unfold handle_irq_m_ext. erewrite bind_Ok by reflexivity. fold (log_of k). rewrite Hp. cbn [when].
  rewrite bind_assoc. erewrite bind_Ok by apply readl_Ok. rewrite Hn. rewrite bind_assoc. erewrite bind_Ok by apply readl_Ok.
  rewrite logged_log. rewrite bind_assoc. erewrite bind_Ok by reflexivity.
  rewrite bind_assoc. erewrite bind_Ok by apply readl_Ok. rewrite bind_assoc. erewrite bind_Ok by apply writel_Ok.
  unfold call_instance. rewrite !bind_assoc. erewrite bind_Ok by by apply get_instance_Ok. rewrite Hc.
  match goal with |- _ ?s = _ => change s with (claimed num k) end.
  unfold bind. destruct (call (pi_callback pi) (pi_ctx pi) (claimed num k)) as [v k'|e k']; reflexivity.
Qed.

(** ** The channels of timer 0 *)
(** Only channel 0 is pending, and its function is not one for a single shot. *)
Lemma timer_interrupt_handler_spec call ctx k ti :
  answer (log_of k) (timer_intr_stat 0) mod 16 = 1 -> channel_at k 0 0 = Some ti -> truth (tmi_callback ti) = true ->
  truth (tmi_single_shot ti) = false ->
  (let k1 := logged (read_log (log_of k) (timer_intr_stat 0)) k in
   forall v k2, call (tmi_callback ti) (tmi_ctx ti) k1 = Ok v k2 -> k_dev k2 = k_dev k1) ->
  timer_interrupt_handler call 0 ctx k =
  (let! _ := call (tmi_callback ti) (tmi_ctx ti) in
   let! _ := readl (timer_channel_eoi 0 0) in ret 0) (logged (read_log (log_of k) (timer_intr_stat 0)) k).
Proof.
  intros Hs Hti Hc Hss Hq. unfold timer_interrupt_handler. erewrite bind_Ok by apply readl_Ok.
  set (stat := answer _ _) in *. set (k1 := logged _ k).
  assert (Hbit : forall i, 0 <= i < 4 -> Z.testbit stat i = (i =? 0)).
  { intros i Hi. rewrite <- (Z.mod_pow2_bits_low stat 4 i) by lia. change (2 ^ 4) with 16. rewrite Hs.
    assert (i = 0 \/ i = 1 \/ i = 2 \/ i = 3) as [->|[->|[->| ->]]] by lia; done. }
  assert (H0 : serve_channel call 0 stat 0 k1 =
    (let! _ := call (tmi_callback ti) (tmi_ctx ti) in let! _ := readl (timer_channel_eoi 0 0) in skip) k1).
  { unfold serve_channel. rewrite Hbit by lia. cbn [when Z.eqb].
    erewrite bind_Ok by by apply get_timer_instance_Ok. rewrite Hc. cbn [when]. rewrite bind_assoc.
    apply bind_cong. intros v k2 E. assert (Hd : k_dev k2 = k_dev k1) by by eapply Hq. rewrite bind_assoc. erewrite bind_Ok by (apply get_timer_instance_Ok; unfold channel_at; by rewrite Hd).
    by rewrite Hss. }
  assert (Hn : forall i, 0 < i < 4 -> serve_channel call 0 stat i = skip).
  { intros i Hi. unfold serve_channel. rewrite Hbit by lia. by destruct (Z.eqb_spec i 0); [lia|]. }
  change (Z.to_nat TIMER_CHANNEL_MAX) with 4%nat. cbn [for_up].
  change (0 + 1) with 1. change (1 + 1) with 2. change (2 + 1) with 3. rewrite (Hn 1), (Hn 2), (Hn 3) by lia.
  unfold bind in *. rewrite H0. by destruct (call (tmi_callback ti) (tmi_ctx ti) k1) as [v k2|e k2].
Qed.

(** ** The tick *)
(** The running task after one tick of its time. *)
Definition accounted (user : bool) (t : task_struct) : task_struct :=
  if user then t <| t_utime := s64 (t_utime t + 1) |> else t <| t_stime := s64 (t_stime t + 1) |>.
Definition ticked (user : bool) (t : task_struct) : task_struct :=
  let c := s64 (t_counter t - 1) in (accounted user t) <| t_counter := if 0 <? c then c else 0 |>.
Lemma accounted_counter user t : t_counter (accounted user t) = t_counter t.
Proof. by destruct user. Qed.
Lemma do_timer_spec fn user k t :
  next_timer (k_sched k) = None -> tasks (k_sched k) !! current (k_sched k) = Some t ->
  do_timer fn user k =
  (if (0 <? s64 (t_counter t - 1)) || negb user then skip else let! _ := schedule in skip)
    (set_task (current (k_sched k)) (ticked user t) k).
Proof.
  intros Hn Ht. unfold do_timer. set (p := current (k_sched k)).
  rewrite (bind_Ok _ _ _ tt (set_task p (accounted user t) k)) by (destruct user; by apply mod_cur_Ok).
  erewrite bind_Ok by reflexivity. change (next_timer (k_sched (set_task p (accounted user t) k))) with (next_timer (k_sched k)).
  rewrite Hn. erewrite bind_Ok by reflexivity.
  erewrite bind_Ok by apply mod_cur_Ok, set_task_lookup.
  change (current (k_sched (set_task p (accounted user t) k))) with p. rewrite set_task_twice, accounted_counter.
  set (c := s64 (t_counter t - 1)). set (k1 := set_task p _ k).
  assert (Hk1 : tasks (k_sched k1) !! current (k_sched k1) = Some ((accounted user t) <| t_counter := c |>)) by apply set_task_lookup.
  erewrite bind_Ok by by apply cur_Ok. change (t_counter (accounted user t) <| t_counter := c |>) with c. unfold ticked. fold c.
  destruct (0 <? c); [done|]. erewrite bind_Ok by by apply mod_cur_Ok. unfold k1. rewrite set_task_twice.
  cbn [orb]. by destruct (negb user).
Qed.
Lemma ticked_ok user k i t : sched_ok k -> switch_ok k -> idx (task (k_sched k)) i = Some (Some (current (k_sched k))) ->
  tasks (k_sched k) !! current (k_sched k) = Some t ->
  let k1 := set_task (current (k_sched k)) (ticked user t) k in sched_ok k1 /\ switch_ok k1.
Proof.
  intros Hok [H1 H2 H3 H4] Hi Ht k1. split.
  - apply (set_task_ok k i _ t); [done..|]. intros Hs.
    assert (Hof : task_of k i = Some t) by (unfold task_of; by rewrite Hi).
    pose proof (so_counter _ Hok i t Hs Hof). pose proof (so_priority _ Hok i t Hs Hof).
    assert (Hp : t_priority (ticked user t) = t_priority t) by (by destruct user). rewrite Hp.
    split; [|done]. change (t_counter (ticked user t)) with (if 0 <? s64 (t_counter t - 1) then s64 (t_counter t - 1) else 0).
    rewrite s64_small by lia. destruct (Z.ltb_spec 0 (t_counter t - 1)); lia.
  - split; try done. eexists. apply set_task_lookup.
Qed.

(** ** The whole interrupt *)
(** Timer 0 has an interrupt pending on channel 0 alone, and [sched_init] has registered
    [timer_interrupt] for it. *)
Record tick_ready (k : kernel) : Prop := mkTickReady {
  rd_pending : meip_pending (log_of k) = true;
  rd_claim : answer (log_of k) (plic_claim_complete core_id) = IRQN_TIMER0A_INTERRUPT;
  rd_status : answer (raised_log IRQN_TIMER0A_INTERRUPT (log_of k)) (timer_intr_stat 0) mod 16 = 1;
  rd_source : instance_at k core_id IRQN_TIMER0A_INTERRUPT = Some (mkPlicInstance (timer_interrupt_callback 0) (timer_instance_addr 0));
  rd_channel : channel_at k 0 0 = Some (mkTimerInstance timer_interrupt_addr 0 0) }.
(** The accesses up to the call of [timer_interrupt]. *)
Definition served_log (k : kernel) : list io_event :=
  read_log (raised_log IRQN_TIMER0A_INTERRUPT (log_of k)) (timer_intr_stat 0).
(** What [interrupt_recover] adds: channel 0 is cleared, the interrupt is completed. *)
Definition recovered_log (num threshold : Z) (l : list io_event) : list io_event :=
  let eoi := timer_channel_eoi 0 0 in
  completed_log num threshold (read_log (write_log (read_log l eoi) eoi (answer l eoi)) eoi).
Lemma switch_resume_completes ti k : trap_from_interrupt (k_sched k) = true ->
  exists k2, switch_resume ti k = Ok false k2 /\ trap_info (k_sched k2) = ti /\
    log_of k2 = recovered_log (ti_int_num (trap_info (k_sched k))) (ti_int_threshold (trap_info (k_sched k))) (log_of k).
Proof.
  intros Hf. unfold switch_resume, interrupt_recover. rewrite bind_assoc. erewrite bind_Ok by reflexivity. rewrite Hf. cbn [when].
  rewrite bind_assoc. erewrite bind_Ok by apply readl_Ok. do 6 (rewrite ?bind_assoc; erewrite bind_Ok by (first [apply readl_Ok|apply writel_Ok|reflexivity])).
  unfold pte_common_enable_user, pte_common_disable_user, mod_pte. erewrite bind_Ok by reflexivity.
  destruct (_ <? _); eexists; split; [reflexivity|done|reflexivity|done].
Qed.

Section Tick.
Context (timer_fn : Z -> K unit) (driver : Z -> Z -> K Z) (user : bool) (k0 : kernel) (t : task_struct).
Context (i : Z) (Hready : tick_ready k0) (Hok : sched_ok k0) (Hsw : switch_ok k0).
Context (Hi : idx (task (k_sched k0)) i = Some (Some (current (k_sched k0)))).
Context (Ht : tasks (k_sched k0) !! current (k_sched k0) = Some t) (Hnt : next_timer (k_sched k0) = None)
  (Hc : - 2 ^ 63 < t_counter t < 2 ^ 63).
(** The state in which [timer_interrupt] is called, with any saved trap state. *)
Definition serving (ti : trap_info_t) : kernel :=
  logged (served_log k0) (k0 <| k_sched ::= fun s =>
    s <| trap_from_interrupt := true |> <| trap_info := with_int IRQN_TIMER0A_INTERRUPT (threshold_of (log_of k0)) ti |> |>).

Lemma timer_interrupt_outcome ti :
  mayrun (timer_interrupt timer_fn user 0) (serving ti)
    (fun _ k' => irq_part k' = irq_part (serving ti) /\
       (1 < t_counter t -> tasks (k_sched k') = <[current (k_sched k0) := ticked user t]> (tasks (k_sched k0))))
    (fun e k' => irq_part k' = irq_part (serving ti) /\ user = true /\ t_counter t <= 1 /\
       exists p, e = Switch p /\ p <> current (k_sched k0)).
Proof.
  unfold timer_interrupt, mayrun. unfold bind at 1. rewrite (do_timer_spec _ _ _ t) by done.
  set (k1 := set_task _ _ _). change (irq_part (serving ti)) with (irq_part k1).
  assert (Hser : sched_ok (serving ti) /\ switch_ok (serving ti)) by (split; split; first [apply Hok|apply Hsw]).
  destruct (ticked_ok user (serving ti) i t) as [Hok1 Hsw1]; [apply Hser|apply Hser|done|done|]. fold k1 in Hok1, Hsw1.
  rewrite s64_small by lia. destruct (Z.ltb_spec 0 (t_counter t - 1)) as [Hlt|Hle]; cbn [orb]; [by split|].
  destruct user; cbn [negb]; [|split; [done|lia]].
  pose proof (quiet_schedule k1) as Hq. pose proof (schedule_spec k1 Hok1 Hsw1) as Hs. unfold mayrun, bind in *.
  destruct (schedule k1) as [v k'|e k']; [split; [done|lia]|].
  destruct Hs as (p & _ & _ & -> & Hp & _). split; [done|]. split; [done|]. split; [lia|]. by exists p.
Qed.

(** The handler, as what follows the call of [timer_interrupt]. *)
Lemma handler_dispatch epc regs fregs :
  let ti := (trap_info (k_sched k0)) <| ti_regs := regs |> <| ti_fregs := fregs |> <| ti_epc := epc |> <| ti_newepc := epc |> in
  machine_interrupt_handler timer_fn driver 11 epc regs fregs user k0 =
  (let! _ := timer_interrupt timer_fn user 0 in
   let! _ := readl (timer_channel_eoi 0 0) in
   writel (plic_claim_complete core_id) IRQN_TIMER0A_INTERRUPT ;;;
   writel (plic_threshold core_id) (threshold_of (log_of k0)) ;;;
   let! r := leave_trap (trap_info (k_sched k0), trap_from_interrupt (k_sched k0)) in
   if r <? 0x80000000 then halt Hang else ret r) (serving ti).
Proof.
  intros ti. unfold machine_interrupt_handler.
  set (k1 := k0 <| k_sched ::= fun s => s <| trap_from_interrupt := true |> <| trap_info := ti |> |>).
  rewrite (bind_Ok _ _ _ (trap_info (k_sched k0), trap_from_interrupt (k_sched k0)) k1) by reflexivity.
  change (11 =? 11) with true. cbn [when]. destruct Hready as [H1 H2 H3 H4 H5].
  pose proof (handle_irq_m_ext_spec (irq_callback timer_fn driver user) epc k1 _ _ H1 H2 H4 eq_refl) as E1.
  assert (E2 : irq_callback timer_fn driver user (timer_interrupt_callback 0) (timer_instance_addr 0) (claimed IRQN_TIMER0A_INTERRUPT k1) =
    (let! _ := timer_interrupt timer_fn user 0 in let! _ := readl (timer_channel_eoi 0 0) in ret 0) (serving ti)).
  { apply (timer_interrupt_handler_spec (timer_callback timer_fn driver user) (timer_instance_addr 0) (claimed IRQN_TIMER0A_INTERRUPT k1)
      (mkTimerInstance timer_interrupt_addr 0 0)); [done..|].
    intros k2 v k3 E. pose proof (timer_interrupt_outcome ti) as Ho. unfold mayrun in Ho.
    change (timer_interrupt timer_fn user 0 (serving ti) = Ok v k3) in E.
    rewrite E in Ho. destruct Ho as [Hq _]. by injection Hq. }
  unfold bind in *. rewrite E1. cbn [pi_callback pi_ctx]. rewrite E2.
  destruct (timer_interrupt timer_fn user 0 (serving ti)) as [v k2|e k2]; reflexivity.
Qed.
End Tick.
End Irq.

Module IrqProps.

(** C12: a tick of the timer is never lost, also when it takes the processor away from the task.  Timer 0
    has an interrupt pending.  Either the handler returns to the interrupted instruction, the trap state
    is what it was, the task has been charged one tick, and the interrupt has been completed and the
    threshold of the controller put back.  Or, only if the tick came from a program whose time is used
    up, the scheduler switches to another task with the interrupt still open; then that task, when it
    goes on behind [switch_to_tss], clears the timer, completes the interrupt and puts the threshold
    back, and has its own trap state again. *)
Theorem timer_tick_completed {BD : Board} timer_fn driver epc regs fregs user k i t :
  tick_ready k -> sched_ok k -> switch_ok k -> idx (task (k_sched k)) i = Some (Some (current (k_sched k))) ->
  tasks (k_sched k) !! current (k_sched k) = Some t -> - 2 ^ 63 < t_counter t < 2 ^ 63 ->
  next_timer (k_sched k) = None -> 0x80000000 <= epc ->
  mayrun (machine_interrupt_handler timer_fn driver 11 epc regs fregs user) k
    (fun r k' => r = epc /\
       trap_info (k_sched k') = trap_info (k_sched k) /\ trap_from_interrupt (k_sched k') = trap_from_interrupt (k_sched k) /\
       log_of k' = completed_log IRQN_TIMER0A_INTERRUPT (threshold_of (log_of k)) (read_log (served_log k) (timer_channel_eoi 0 0)) /\
       (1 < t_counter t -> tasks (k_sched k') = <[current (k_sched k) := ticked user t]> (tasks (k_sched k))))
    (fun e k1 => user = true /\ t_counter t <= 1 /\ (exists p, e = Switch p /\ p <> current (k_sched k)) /\
       forall ti, exists k2, switch_resume ti k1 = Ok false k2 /\ trap_info (k_sched k2) = ti /\
         log_of k2 = recovered_log IRQN_TIMER0A_INTERRUPT (threshold_of (log_of k)) (served_log k)).
Proof.
  intros Hr Hok Hsw Hi Ht Hc Hnt Hepc. unfold mayrun.
  rewrite (handler_dispatch timer_fn driver user k t i) by done. set (ti := _ <| ti_newepc := epc |>).
  pose proof (timer_interrupt_outcome timer_fn user k t i Hok Hsw Hi Ht Hnt Hc ti) as Ho. unfold mayrun in Ho.
  unfold bind at 1. destruct (timer_interrupt timer_fn user 0 (serving k ti)) as [v k'|e k'].
  - destruct Ho as [[= Hd Hti Hf] Htask]. erewrite bind_Ok by apply readl_Ok. do 2 (erewrite bind_Ok by apply writel_Ok).
    erewrite bind_Ok by reflexivity.
    match goal with |- context [if ?r <? _ then _ else _] =>
      replace r with epc by (change (epc = ti_newepc (trap_info (k_sched k'))); by rewrite Hti) end.
    assert (epc <? 0x80000000 = false) as -> by blia. split; [done|]. do 2 (split; [done|]).
    split; [|exact Htask].
    change (completed_log IRQN_TIMER0A_INTERRUPT (threshold_of (log_of k)) (read_log (io_log (k_dev k')) (timer_channel_eoi 0 0)) =
      completed_log IRQN_TIMER0A_INTERRUPT (threshold_of (log_of k)) (read_log (served_log k) (timer_channel_eoi 0 0))).
    by rewrite Hd.
  - destruct Ho as ([= Hd Hti Hf] & Hu & Hle & Hp). do 3 (split; [done|]). intros ti'.
    destruct (switch_resume_completes ti' k' Hf) as (k2 & E & Hti2 & Hlog). exists k2. split; [exact E|].
    split; [exact Hti2|]. rewrite Hlog, Hti. unfold log_of. by rewrite Hd.
Qed.

(** A board with a tick of timer 0 pending: the status has bit 0, the claim gives source 14. *)
Definition tick_board : Board := {|
  io_reply := fun _ a => if a =? timer_intr_stat 0 then 1 else if a =? plic_claim_complete 0 then IRQN_TIMER0A_INTERRUPT else 0;
  core_id := 0; meip_pending := fun _ => true |}.
(** Task 0 runs, task 1 is ready, and the timer is registered as [sched_init] does it. *)
Definition demo_dev : dev_state := Eval vm_compute in
  match timer_irq_register (BD := tick_board) 0 0 0 PLIC_NUM_PRIORITIES timer_interrupt_addr 0 SchedProps.demo_sched with
  | Ok _ k | Stop _ k => k_dev k
  end.
Definition demo_tick : kernel := SchedProps.demo_sched <| k_dev := demo_dev |>.
(** A computation of which a computation shows that it switches to [p]. *)
Lemma mayrun_switch {A} (m : K A) k Q (E E' : stop -> kernel -> Prop) p :
  mayrun m k Q E -> match m k with Stop (Switch q) _ => q =? p | _ => false end = true ->
  (forall e k1, E e k1 -> E' e k1) -> mayrun m k (fun _ _ => False) (fun e k1 => e = Switch p /\ E' e k1).
Proof.
  unfold mayrun. intros H Hs HE. destruct (m k) as [v k'|e k']; [done|]. destruct e; try done.
  apply Z.eqb_eq in Hs as ->. auto.
Qed.
Lemma demo_tick_ready (BD := tick_board) : tick_ready demo_tick.
Proof. split; by vm_compute. Qed.
Lemma demo_tick_sched : sched_ok demo_tick.
Proof. pose proof SchedProps.demo_sched_ok as Hd. split; apply Hd. Qed.
Lemma demo_tick_switch : switch_ok demo_tick.
Proof. pose proof SchedProps.demo_switch_ok as Hd. split; apply Hd. Qed.
Lemma demo_tick_task : idx (task (k_sched demo_tick)) 0 = Some (Some (current (k_sched demo_tick))) /\
  tasks (k_sched demo_tick) !! current (k_sched demo_tick) = Some zero_task /\ next_timer (k_sched demo_tick) = None.
Proof. by vm_compute. Qed.
Definition demo_handler (BD := tick_board) : K Z :=
  machine_interrupt_handler (fun _ => skip) (fun _ _ => ret 0) 11 0xC0000000 0x1000 0x1100 true.
Lemma demo_tick_preempts : match demo_handler demo_tick with Stop (Switch p) _ => p =? 4096 | _ => false end = true.
Proof. by vm_compute. Qed.
Lemma timer_tick_completed_witness (BD := tick_board) :
  mayrun demo_handler demo_tick
    (fun _ _ => False)
    (fun e k1 => e = Switch 4096 /\
       forall ti, exists k2, switch_resume ti k1 = Ok false k2 /\ trap_info (k_sched k2) = ti /\
         log_of k2 = recovered_log IRQN_TIMER0A_INTERRUPT (threshold_of (log_of demo_tick)) (served_log demo_tick)).
Proof.
  destruct demo_tick_task as (Hi & Ht & Hn).
  refine (mayrun_switch demo_handler demo_tick _ _ _ 4096
    (timer_tick_completed (fun _ => skip) (fun _ _ => ret 0) 0xC0000000 0x1000 0x1100 true demo_tick 0 zero_task
      demo_tick_ready demo_tick_sched demo_tick_switch Hi Ht _ Hn _) demo_tick_preempts _); [by split|lia|].
  intros e k1 (_ & _ & _ & H). exact H.
Defined.
End IrqProps.
