(* ===== verification/Smp.v ===== *)
(** * Several harts on one memory, and a logic for what a lock protects

    The locks of the board support (bsp/include/atomic.h, bsp/locks.c) are the code that two harts run at
    the same time.  Such code is an interaction tree over the memory operations [memE]: one event is one
    access of the hart, and the harts interleave between events.  Memory is sequentially consistent:
    every acquisition and release in the code has a [fence], which is an event without effect here.

    [step] lets one hart do its next operation; [execs] runs a schedule; the rules [safe_*] prove
    invariants of all schedules.  A hart has a ghost state [phase]: its tally (the sum of the [ENote]s of
    its client), its share of what the lock protects, and, while it is inside the lock, the values of the
    protected words when it came in and now.  No other hart changes it, so that a proof about a hart
    looks at that hart alone; [lock_inv] ties the ghost states to memory. *)
From Stdlib Require Import ZArith Lia.
From stdpp Require Import base list gmap functions.
From ITree Require Import ITree.
From S2P Require Import Prelude.
Open Scope Z_scope.
Declare Scope hart_scope.
Delimit Scope hart_scope with hart.
Notation "'let*' x := t 'in' k" := (ITree.bind t (fun x => k))
  (at level 10, x pattern, t at level 100, k at level 200,
   format "'[v' 'let*'  x  :=  t  'in' '/' k ']'") : hart_scope.
Notation "t ;; k" := (ITree.bind t (fun _ => k))
  (at level 100, k at level 200, right associativity, format "'[v' t  ;; '/' k ']'") : hart_scope.
#[local] Open Scope hart_scope.

(** ** The machine *)
(** A word of memory by its address; the accesses of this code never overlap. *)
Notation words := (gmap Z Z).
Definition word_at (m : words) (a : Z) : Z := default 0 (m !! a).

(** [atomic_swap], [atomic_add], plain and volatile loads and stores, [mb], and the system call of the
    error path, which the trap handler answers by going on behind it (machine_exception.c).  [ENote] is
    a remark of the program that uses a lock; it has no effect on memory. *)
Variant memE : Type -> Type :=
| ESwap (a v : Z) : memE Z
| EAdd (a v : Z) : memE Z
| ELoad (a : Z) : memE Z
| EStore (a v : Z) : memE unit
| EFence : memE unit
| EEcall : memE unit
| ENote (d : Z) : memE unit.

Definition exec {X} (e : memE X) (m : words) : X * words :=
  match e with
  | ESwap a v => (word_at m a, <[a := v]> m)
  | EAdd a v => (word_at m a, <[a := s32 (word_at m a + v)]> m)
  | ELoad a => (word_at m a, m)
  | EStore a v => (tt, <[a := v]> m)
  | EFence => (tt, m)
  | EEcall => (tt, m)
  | ENote _ => (tt, m)
  end.
Definition note {X} (e : memE X) : Z := match e with ENote d => d | _ => 0 end.

Record machine := mkMachine {
  m_mem : words;
  m_tally : nat -> Z;
  m_harts : list (itree memE unit) }.

(** Hart [i] does its next operation (or a silent step); [None] when it has finished. *)
Definition step (i : nat) (M : machine) : option machine :=
  match m_harts M !! i with
  | None => None
  | Some t =>
      match observe t with
      | RetF _ => None
      | TauF t' => Some (mkMachine (m_mem M) (m_tally M) (<[i := t']> (m_harts M)))
      | VisF e k =>
          let r := exec e (m_mem M) in
          Some (mkMachine (snd r) (<[i := m_tally M i + note e]> (m_tally M)) (<[i := k (fst r)]> (m_harts M)))
      end
  end.
(** The machines that some interleaving reaches. *)
Inductive reaches (M : machine) : machine -> Prop :=
| reaches_here : reaches M M
| reaches_step i M1 M2 : reaches M M1 -> step i M1 = Some M2 -> reaches M M2.

(** A schedule: hart and number of operations; a hart that has finished passes. *)
Fixpoint steps (i n : nat) (M : machine) : machine :=
  match n with
  | O => M
  | S m => match step i M with Some M' => steps i m M' | None => M end
  end.
Definition execs (sched : list (nat * nat)) (M : machine) : machine :=
  fold_left (fun M p => steps (fst p) (snd p) M) sched M.

Lemma reaches_trans M1 M2 M3 : reaches M1 M2 -> reaches M2 M3 -> reaches M1 M3.
Proof. intros H12 H23. induction H23 as [|i M M' _ IH Hs]; [done|]. by eapply reaches_step. Qed.
Lemma execs_reaches sched M : reaches M (execs sched M).
Proof.
  unfold execs. revert M. induction sched as [|[i n] l IH]; intros M; cbn; [apply reaches_here|].
  eapply reaches_trans; [|apply IH]. clear IH. revert M. induction n as [|n IH]; intros M; cbn; [apply reaches_here|].
  destruct (step i M) as [M'|] eqn:Hs; [|apply reaches_here].
  eapply reaches_trans; [|apply IH]. eapply reaches_step; [apply reaches_here|done].
Qed.

(** A hart that runs alone: its value and the memory, if it finishes within [n] operations. *)
Fixpoint alone {A} (n : nat) (t : itree memE A) (m : words) : option (A * words) :=
  match n with
  | O => None
  | S n' =>
      match observe t with
      | RetF a => Some (a, m)
      | TauF t' => alone n' t' m
      | VisF e k => let r := exec e m in alone n' (k (fst r)) (snd r)
      end
  end.

Lemma observe_bind {A B} (t : itree memE A) (k : A -> itree memE B) :
  observe (ITree.bind t k) =
  match observe t with
  | RetF a => observe (k a)
  | TauF t' => TauF (ITree.bind t' k)
  | VisF e h => VisF e (fun x => ITree.bind (h x) k)
  end.
Proof. unfold observe. cbn. unfold observe. by destruct (_observe t). Qed.

Lemma observe_iter {I B} (body : I -> itree memE (I + B)) x :
  observe (ITree.iter body x) =
  observe (ITree.bind (body x) (fun r => match r with inl y => Tau (ITree.iter body y) | inr b => Ret b end)).
Proof. done. Qed.

(** Is the hart (or word) [j] the one that an update is about? *)
Ltac at_hart j i :=
  destruct (decide (j = i)) as [->|?];
    [rewrite ?fn_lookup_insert|rewrite ?fn_lookup_insert_ne by done]; try done; try lia.

(** ** The ghost state *)
Record phase := mkPhase {
  ph_tally : Z;
  ph_own : Z;
  ph_in : option ((Z -> Z) * (Z -> Z)) }.

Section Logic.
(** The lock word; the words it protects; what they say about the shares of the harts; how a share and a
    tally are related. *)
Context (lk : Z) (prot : list Z) (R : (Z -> Z) -> (nat -> Z) -> Prop) (rel : Z -> Z -> Prop) (lk_prot : lk ∉ prot)
  {R_ext : Proper ((=) ==> pointwise_relation nat (=) ==> iff) R}.

Definition agree (m : words) (f : Z -> Z) : Prop := forall a, a ∈ prot -> word_at m a = f a.
Definition owns (φ : nat -> phase) : nat -> Z := fun i => ph_own (φ i).
Record lock_inv (m : words) (tally : nat -> Z) (φ : nat -> phase) : Prop := mkLockInv {
  li_tally i : tally i = ph_tally (φ i);
  li_rel i : rel (ph_tally (φ i)) (ph_own (φ i));
  li_lock :
    (word_at m lk = 0 /\ (forall i, ph_in (φ i) = None) /\ exists f, agree m f /\ R f (owns φ)) \/
    (word_at m lk = -1 /\ exists i f0 f, ph_in (φ i) = Some (f0, f) /\
      (forall j, j <> i -> ph_in (φ j) = None) /\ agree m f /\ R f0 (owns φ)) }.

(** [safe n i t p Q]: during its next [n] operations hart [i], in ghost state [p], keeps the invariant
    whatever the others did before each of them; if it returns, [Q] holds. *)
Fixpoint safe {A} (n i : nat) (t : itree memE A) (p : phase) (Q : A -> phase -> Prop) : Prop :=
  match n with
  | O => True
  | S n' =>
      match observe t with
      | RetF a => Q a p
      | TauF t' => safe n' i t' p Q
      | VisF e k =>
          forall m tally φ, lock_inv m tally φ -> φ i = p ->
          exists p', lock_inv (snd (exec e m)) (<[i := tally i + note e]> tally) (<[i := p']> φ) /\
            safe n' i (k (fst (exec e m))) p' Q
      end
  end.

Lemma safe_S {A} n i (t : itree memE A) p Q :
  safe (S n) i t p Q =
  match observe t with
  | RetF a => Q a p
  | TauF t' => safe n i t' p Q
  | VisF e k =>
      forall m tally φ, lock_inv m tally φ -> φ i = p ->
      exists p', lock_inv (snd (exec e m)) (<[i := tally i + note e]> tally) (<[i := p']> φ) /\
        safe n i (k (fst (exec e m))) p' Q
  end.
Proof. done. Qed.
#[local] Arguments safe : simpl never.

Lemma safe_observe {A} n i (t u : itree memE A) p Q :
  observe t = observe u -> safe n i u p Q -> safe n i t p Q.
Proof. destruct n as [|n]; [done|]. rewrite !safe_S. by intros ->. Qed.
Lemma safe_conseq {A} n i (t : itree memE A) p (Q Q' : A -> phase -> Prop) :
  safe n i t p Q -> (forall a p', Q a p' -> Q' a p') -> safe n i t p Q'.
Proof.
  intros H HQ. revert t p H. induction n as [|n IH]; [done|]. intros t p. rewrite !safe_S.
  destruct (observe t) as [a|t'|X e k]; [auto|auto|].
  intros H m tally φ Hi Hp. destruct (H m tally φ Hi Hp) as (p' & Hi' & Hs). eauto.
Qed.
Lemma safe_le {A} n n' i (t : itree memE A) p Q : (n' <= n)%nat -> safe n i t p Q -> safe n' i t p Q.
Proof.
  revert n' t p. induction n as [|n IH]; intros [|n'] t p Hle; try done; [lia|].
  rewrite !safe_S. destruct (observe t) as [a|t'|X e k]; [done|apply IH; lia|].
  intros H m tally φ Hi Hp. destruct (H m tally φ Hi Hp) as (p' & Hi' & Hs).
  exists p'. split; [done|]. apply IH; [lia|done].
Qed.
Lemma safe_ret {A} n i (a : A) p (Q : A -> phase -> Prop) : Q a p -> safe n i (Ret a) p Q.
Proof. destruct n; [done|]. done. Qed.
Lemma safe_tau {A} n i (t : itree memE A) p Q : safe n i t p Q -> safe n i (Tau t) p Q.
Proof. destruct n as [|n]; [done|]. intros H. apply (safe_le (S n) n) in H; [done|lia]. Qed.
Lemma safe_bind {A B} n i (t : itree memE A) (k : A -> itree memE B) p Q :
  safe n i t p (fun a p' => safe n i (k a) p' Q) -> safe n i (ITree.bind t k) p Q.
Proof.
  revert t p. induction n as [|n IH]; [done|]. intros t p H. rewrite safe_S in H.
  destruct (observe t) as [a|t'|X e k'] eqn:Ht.
  - eapply safe_observe; [|exact H]. by rewrite observe_bind, Ht.
  - rewrite safe_S, observe_bind, Ht. apply IH. eapply safe_conseq; [exact H|].
    intros a p'. apply safe_le. lia.
  - rewrite safe_S, observe_bind, Ht. intros m tally φ Hi Hp.
    destruct (H m tally φ Hi Hp) as (p' & Hi' & Hs). exists p'. split; [done|].
    apply IH. eapply safe_conseq; [exact Hs|]. intros a p2. apply safe_le. lia.
Qed.
(** A loop keeps an assertion [J] of the hart. *)
Lemma safe_iter {I B} (J : I -> phase -> Prop) i (body : I -> itree memE (I + B)) Q :
  (forall n x p, J x p ->
    safe n i (body x) p (fun r p' => match r with inl y => J y p' | inr b => Q b p' end)) ->
  forall n x p, J x p -> safe n i (ITree.iter body x) p Q.
Proof.
  intros Hbody n. induction n as [|n IH]; [done|]. intros x p HJ.
  eapply safe_observe with (u := ITree.bind (body x)
    (fun r => match r with inl y => Tau (ITree.iter body y) | inr b => Ret b end)); [done|].
  apply safe_bind. eapply safe_conseq; [apply (Hbody _ _ _ HJ)|]. intros [y|b] p' Hr; [|done].
  cbn. by apply IH.
Qed.

(** *** The rules for the operations *)
Lemma lock_inv_ext m tally tally' φ φ' :
  (forall j, tally j = tally' j) -> (forall j, φ j = φ' j) -> lock_inv m tally φ -> lock_inv m tally' φ'.
Proof.
  intros Ht Hφ [Hi Hr Hl].
  assert (HR : forall f, R f (owns φ) <-> R f (owns φ')).
  { intros f. apply R_ext; [done|]. intros j. unfold owns. by rewrite Hφ. }
  split; [intros j; by rewrite <- Ht, <- Hφ|intros j; by rewrite <- Hφ|].
  destruct Hl as [(H0 & Hn & f & Ha & HRf)|(H1 & j & f0 & f & Hj & Hn & Ha & HRf)]; [left|right].
  - split; [done|]. split; [intros j; by rewrite <- Hφ|]. exists f. by rewrite <- HR.
  - split; [done|]. exists j, f0, f. rewrite <- HR, <- Hφ. split; [done|].
    split; [intros h Hh; rewrite <- Hφ; by apply Hn|done].
Qed.
Lemma safe_event {A} n i (e : memE A) p (Q : A -> phase -> Prop) :
  (forall m tally φ, lock_inv m tally φ -> φ i = p -> exists p',
    lock_inv (snd (exec e m)) (<[i := tally i + note e]> tally) (<[i := p']> φ) /\ Q (fst (exec e m)) p') ->
  safe n i (ITree.trigger e) p Q.
Proof.
  intros H. destruct n as [|n]; [done|]. rewrite safe_S. cbn. intros m tally φ Hi Hp.
  destruct (H m tally φ Hi Hp) as (p' & Hi' & HQ). exists p'. split; [done|]. by apply safe_ret.
Qed.
(** An operation that leaves the lock and what it protects alone. *)
Lemma safe_quiet {A} n i (e : memE A) p (Q : A -> phase -> Prop) :
  note e = 0 ->
  (forall m a, a = lk \/ a ∈ prot -> word_at (snd (exec e m)) a = word_at m a) ->
  (forall m, Q (fst (exec e m)) p) -> safe n i (ITree.trigger e) p Q.
Proof.
  intros He Hm HQ. apply safe_event. intros m tally φ Hi Hp. exists p. split; [|done].
  eapply lock_inv_ext with (tally := tally) (φ := φ).
  - intros j. at_hart j i.
  - intros j. at_hart j i.
  - destruct Hi as [Hi Hr Hl]. split; [done|done|].
    assert (Hag : forall f, agree m f -> agree (snd (exec e m)) f).
    { intros f Ha a Hin. rewrite Hm by auto. by apply Ha. }
    destruct Hl as [(H0 & Hn & f & Ha & HRf)|(H1 & j & f0 & f & Hj & Hn & Ha & HRf)]; [left|right].
    all: rewrite (Hm m lk) by auto.
    + split; [done|]. split; [done|]. exists f. auto.
    + split; [done|]. exists j, f0, f. auto.
Qed.
Lemma word_at_insert m a v : word_at (<[a := v]> m) a = v.
Proof. unfold word_at. by rewrite lookup_insert_eq. Qed.
Lemma word_at_insert_ne m a b v : a <> b -> word_at (<[a := v]> m) b = word_at m b.
Proof. intros H. unfold word_at. by rewrite lookup_insert_ne. Qed.

(** When hart [i] is inside, the ghost state of the invariant is its own. *)
Lemma lock_inv_inside m tally φ i t g f0 f :
  lock_inv m tally φ -> φ i = mkPhase t g (Some (f0, f)) ->
  word_at m lk = -1 /\ (forall j, j <> i -> ph_in (φ j) = None) /\ agree m f /\ R f0 (owns φ).
Proof.
  intros [_ _ [(_ & Hn & _)|(H1 & j & f0' & f' & Hj & Hn & Ha & HRf)]] Hp.
  { specialize (Hn i). by rewrite Hp in Hn. }
  destruct (decide (i = j)) as [<-|Hij].
  - rewrite Hp in Hj. cbn in Hj. simplify_eq. auto.
  - specialize (Hn i Hij). by rewrite Hp in Hn.
Qed.
Lemma owns_insert φ i p : pointwise_relation nat (=) (owns (<[i := p]> φ)) (<[i := ph_own p]> (owns φ)).
Proof.
  intros j. unfold owns.
  at_hart j i.
Qed.
Lemma owns_insert_same φ i p : ph_own p = ph_own (φ i) -> pointwise_relation nat (=) (owns (<[i := p]> φ)) (owns φ).
Proof.
  intros Hp j. rewrite owns_insert. unfold owns.
  at_hart j i.
Qed.
Lemma lock_inv_rest m tally φ i p d :
  lock_inv m tally φ -> ph_tally p = tally i + d -> rel (ph_tally p) (ph_own p) ->
  (forall j, (<[i := tally i + d]> tally) j = ph_tally ((<[i := p]> φ) j)) /\
  (forall j, rel (ph_tally ((<[i := p]> φ) j)) (ph_own ((<[i := p]> φ) j))).
Proof.
  intros [Hi Hr _] Hp Hrel. split; intros j.
  all: at_hart j i.
Qed.

(** A load inside; what the protected words said when the hart came in may be used from here on. *)
Lemma safe_load_in n i a t g f0 f (Q : Z -> phase -> Prop) :
  a ∈ prot -> (forall γ, γ i = g -> R f0 γ -> Q (f a) (mkPhase t g (Some (f0, f)))) ->
  safe n i (ITree.trigger (ELoad a)) (mkPhase t g (Some (f0, f))) Q.
Proof.
  intros Ha HQ. apply safe_event. intros m tally φ Hi Hp. exists (mkPhase t g (Some (f0, f))).
  destruct (lock_inv_inside _ _ _ _ _ _ _ _ Hi Hp) as (_ & _ & Hag & HR).
  cbn. rewrite (Hag a Ha). split; [|by apply (HQ (owns φ)); [unfold owns; rewrite Hp|]]. eapply lock_inv_ext; [| |exact Hi].
  - intros j. at_hart j i.
  - intros j. at_hart j i.
Qed.
Lemma safe_store_in n i a v t g f0 f (Q : unit -> phase -> Prop) :
  a ∈ prot -> Q tt (mkPhase t g (Some (f0, <[a := v]> f))) ->
  safe n i (ITree.trigger (EStore a v)) (mkPhase t g (Some (f0, f))) Q.
Proof.
  intros Ha HQ. apply safe_event. intros m tally φ Hi Hp. exists (mkPhase t g (Some (f0, <[a := v]> f))).
  split; [|done]. cbn.
  destruct (lock_inv_inside _ _ _ _ _ _ _ _ Hi Hp) as (H1 & Hn & Hag & HR).
  destruct (lock_inv_rest m tally φ i (mkPhase t g (Some (f0, <[a := v]> f))) 0 Hi) as [Ht Hr].
  { cbn. rewrite (li_tally _ _ _ Hi i), Hp. cbn. lia. }
  { cbn. pose proof (li_rel _ _ _ Hi i) as Hrel. by rewrite Hp in Hrel. }
  split; [done|done|right]. rewrite word_at_insert_ne by (intros ->; done).
  split; [done|]. exists i, f0, (<[a := v]> f). rewrite fn_lookup_insert. split; [done|].
  split; [intros j Hj; rewrite fn_lookup_insert_ne by done; by apply Hn|]. split.
  - intros b Hb. destruct (decide (a = b)) as [<-|Hab].
    + by rewrite word_at_insert, fn_lookup_insert.
    + rewrite word_at_insert_ne, fn_lookup_insert_ne by done. by apply Hag.
  - eapply R_ext; [done| |exact HR]. apply owns_insert_same. by rewrite Hp.
Qed.
(** Taking the lock: the word comes back 0 exactly when nobody is inside. *)
Lemma safe_acquire n i t g (Q : Z -> phase -> Prop) :
  Q (-1) (mkPhase t g None) -> (forall f, Q 0 (mkPhase t g (Some (f, f)))) ->
  safe n i (ITree.trigger (ESwap lk (-1))) (mkPhase t g None) Q.
Proof.
  intros Hbusy Hfree. apply safe_event. intros m tally φ Hi Hp.
  assert (Hrest : forall p, p = mkPhase t g (ph_in p) -> _) by
    (intros p Hpe; apply (lock_inv_rest m tally φ i p 0 Hi);
     [rewrite (li_tally _ _ _ Hi i), Hp, Hpe; cbn; lia
     |rewrite Hpe; pose proof (li_rel _ _ _ Hi i) as Hrel; by rewrite Hp in Hrel]).
  assert (Hag : forall f v, agree m f -> agree (<[lk := v]> m) f).
  { intros f v Ha a Hin. rewrite word_at_insert_ne by (intros ->; done). by apply Ha. }
  assert (Hown : forall p, p = mkPhase t g (ph_in p) ->
    pointwise_relation nat (=) (owns (<[i := p]> φ)) (owns φ)).
  { intros p Hpe. apply owns_insert_same. by rewrite Hp, Hpe. }
  cbn. destruct (li_lock _ _ _ Hi) as [(H0 & Hn & f & Ha & HRf)|(H1 & j & f0 & f & Hj & Hn & Ha & HRf)].
  - exists (mkPhase t g (Some (f, f))). rewrite H0. split; [|done].
    destruct (Hrest (mkPhase t g (Some (f, f))) eq_refl) as [Ht Hr]. split; [done|done|right].
    rewrite word_at_insert. split; [done|]. exists i, f, f. rewrite fn_lookup_insert. split; [done|].
    split; [intros j Hj; rewrite fn_lookup_insert_ne by done; apply Hn|]. split; [by apply Hag|].
    by eapply R_ext; [done|by apply Hown|].
  - exists (mkPhase t g None). rewrite H1. split; [|done].
    destruct (Hrest (mkPhase t g None) eq_refl) as [Ht Hr]. split; [done|done|right].
    rewrite word_at_insert. split; [done|]. exists j, f0, f.
    assert (Hji : j <> i) by (intros ->; rewrite Hp in Hj; done).
    rewrite fn_lookup_insert_ne by done. split; [done|].
    split; [intros h Hh; at_hart h i; by apply Hn|]. split; [by apply Hag|].
    by eapply R_ext; [done|by apply Hown|].
Qed.
(** Giving the lock up: what it protects has to be in order for the new share. *)
Lemma safe_release {A} n i (e : memE A) t g g' f0 f (Q : A -> phase -> Prop) :
  note e = 0 -> (forall m, snd (exec e m) = <[lk := 0]> m) -> rel t g' ->
  (forall γ, γ i = g -> R f0 γ -> R f (<[i := g']> γ)) ->
  (forall a, Q a (mkPhase t g' None)) ->
  safe n i (ITree.trigger e) (mkPhase t g (Some (f0, f))) Q.
Proof.
  intros He Hm Hrel HR HQ. apply safe_event. intros m tally φ Hi Hp. exists (mkPhase t g' None).
  split; [|done]. rewrite Hm, He.
  destruct (lock_inv_inside _ _ _ _ _ _ _ _ Hi Hp) as (H1 & Hn & Hag & HR0).
  destruct (lock_inv_rest m tally φ i (mkPhase t g' None) 0 Hi) as [Ht Hr]; [|done|].
  { cbn. rewrite (li_tally _ _ _ Hi i), Hp. cbn. lia. }
  split; [done|done|left]. rewrite word_at_insert. split; [done|].
  split; [intros j; at_hart j i; by apply Hn|]. exists f. split.
  - intros a Ha. rewrite word_at_insert_ne by (intros ->; done). by apply Hag.
  - eapply R_ext; [done|apply owns_insert|]. apply HR; [|done]. unfold owns. by rewrite Hp.
Qed.
Lemma safe_note n i d t g b (Q : unit -> phase -> Prop) :
  rel (t + d) g -> Q tt (mkPhase (t + d) g b) -> safe n i (ITree.trigger (ENote d)) (mkPhase t g b) Q.
Proof.
  intros Hrel HQ. apply safe_event. intros m tally φ Hi Hp. exists (mkPhase (t + d) g b). split; [|done].
  destruct (lock_inv_rest m tally φ i (mkPhase (t + d) g b) d Hi) as [Ht Hr]; [|done|].
  { cbn. by rewrite (li_tally _ _ _ Hi i), Hp. }
  assert (Hin : forall j, ph_in ((<[i := mkPhase (t + d) g b]> φ) j) = ph_in (φ j)).
  { intros j. at_hart j i. by rewrite Hp. }
  assert (Hown : pointwise_relation nat (=) (owns (<[i := mkPhase (t + d) g b]> φ)) (owns φ)).
  { apply owns_insert_same. by rewrite Hp. }
  split; [done|done|]. cbn.
  destruct (li_lock _ _ _ Hi) as [(H0 & Hn & f & Ha & HRf)|(H1 & j & f0 & f & Hj & Hn & Ha & HRf)]; [left|right].
  - split; [done|]. split; [intros j; by rewrite Hin|]. exists f. split; [done|]. by eapply R_ext.
  - split; [done|]. exists j, f0, f. rewrite Hin. split; [done|].
    split; [intros h Hh; rewrite Hin; by apply Hn|]. split; [done|]. by eapply R_ext.
Qed.

(** *** Every interleaving keeps the invariant *)
Definition all_safe (n : nat) (M : machine) (φ : nat -> phase) : Prop :=
  lock_inv (m_mem M) (m_tally M) φ /\
  forall i t, m_harts M !! i = Some t -> safe n i t (φ i) (fun _ _ => True).
Lemma step_safe n i M M' φ :
  all_safe (S n) M φ -> step i M = Some M' -> exists φ', all_safe n M' φ'.
Proof.
  intros [Hinv Hs]. unfold step. destruct (m_harts M !! i) as [t|] eqn:Ht; [|done].
  pose proof (Hs i t Ht) as Hi. rewrite safe_S in Hi.
  destruct (observe t) as [a|t'|X e k]; [done| |]; intros Heq; simplify_eq; cbn.
  - exists φ. split; [done|]. intros j u. cbn. destruct (decide (i = j)) as [<-|Hij].
    + rewrite list_lookup_insert_eq by (by eapply lookup_lt_Some). by intros [= <-].
    + rewrite list_lookup_insert_ne by done. intros Hu. apply (safe_le (S n)); [lia|]. by apply Hs.
  - destruct (Hi _ _ _ Hinv eq_refl) as (p' & Hinv' & Hk). exists (<[i := p']> φ). split; [done|].
    intros j u. cbn. destruct (decide (i = j)) as [<-|Hij].
    + rewrite list_lookup_insert_eq by (by eapply lookup_lt_Some). intros [= <-].
      by rewrite fn_lookup_insert.
    + rewrite list_lookup_insert_ne, fn_lookup_insert_ne by done. intros Hu.
      apply (safe_le (S n)); [lia|]. by apply Hs.
Qed.
Theorem reaches_safe M M' φ :
  (forall n, all_safe n M φ) -> reaches M M' -> exists φ', lock_inv (m_mem M') (m_tally M') φ'.
Proof.
  intros H0 Hr. assert (Hn : forall n, exists φ', all_safe n M' φ').
  { induction Hr as [|i M1 M2 Hr IH Hstep]; intros n; [eauto|].
    destruct (IH (S n)) as [φ1 H1]. by eapply step_safe. }
  destruct (Hn O) as (φ' & Hinv & _). eauto.
Qed.
End Logic.
