(* ===== verification/Locks.v ===== *)
(** * Locks between the harts (bsp/include/atomic.h, bsp/locks.c)

    Spin locks, semaphores, core locks (a hart may take a core lock again while it has it), and the
    recursive locks of locks.c, which keep one table of owners for all lock words.  A function is the
    tree of its memory operations; [hart] is the number that [csrr mhartid] reads (locks.c takes it from
    the [core_info] that the register sscratch points to).  Fields: [lock] at
    offset 0, [count] at 4, [core] or [waiting] at 8; an entry of the table has [lock] at 0, [counter]
    at 8 and [core] at 16.

    [corelock_mutual_exclusion] and [semaphore_never_overdrawn] hold for every interleaving of any number
    of harts that run any disciplined client.  The recursive locks do not keep two harts apart, and a
    hart can wait for a lock that is free ([reculock_both_inside], [reculock_waits_on_entry_0]). *)
From Stdlib Require Import ZArith Lia.
From stdpp Require Import base list gmap functions.
From ITree Require Import ITree.
From S2P Require Import Prelude Smp.
Open Scope Z_scope.
#[local] Open Scope hart_scope.

Notation code := (itree memE).
Definition atomic_swap (a v : Z) : code Z := ITree.trigger (ESwap a v).
Definition atomic_add (a v : Z) : code Z := ITree.trigger (EAdd a v).
Definition load (a : Z) : code Z := ITree.trigger (ELoad a).
Definition atomic_read (a : Z) : code Z := ITree.trigger (ELoad a).
Definition store (a v : Z) : code unit := ITree.trigger (EStore a v).
Definition atomic_set (a v : Z) : code unit := ITree.trigger (EStore a v).
Definition mb : code unit := ITree.trigger EFence.
Definition scall : code unit := ITree.trigger EEcall.
Definition remark (d : Z) : code unit := ITree.trigger (ENote d).
(** [while(c);] and [do b while(c);] *)
Definition while_ (c : code Z) : code unit :=
  ITree.iter (fun _ => let* r := c in Ret (if truth r then inl tt else inr tt)) tt.
Definition do_while (b : code unit) (c : code Z) : code unit := while_ (b ;; c).

(** ** Spin locks *)
Definition spinlock_trylock (lock : Z) : code Z :=
  let* res := atomic_swap lock (-1) in mb ;; Ret res.
Definition spinlock_lock (lock : Z) : code unit := while_ (spinlock_trylock lock).
Definition spinlock_unlock (lock : Z) : code unit := mb ;; atomic_set lock 0.

(** ** Semaphores *)
Definition semaphore_signal (sem i : Z) : code unit :=
  spinlock_lock sem ;;
  let* c := load (sem + 4) in
  store (sem + 4) (s32 (c + i)) ;;
  spinlock_unlock sem.
Definition semaphore_wait (sem i : Z) : code unit :=
  let* _ := atomic_add (sem + 8) 1 in
  ITree.iter (fun _ =>
    spinlock_lock sem ;;
    let* c := load (sem + 4) in
    if i <=? c then
      let* c' := load (sem + 4) in
      store (sem + 4) (s32 (c' - i)) ;;
      let* _ := atomic_add (sem + 8) (-1) in
      spinlock_unlock sem ;;
      Ret (inr tt)
    else spinlock_unlock sem ;; Ret (inl tt)) tt.
Definition semaphore_count (sem : Z) : code Z :=
  spinlock_lock sem ;;
  let* res := load (sem + 4) in
  spinlock_unlock sem ;;
  Ret res.
Definition semaphore_waiting (sem : Z) : code Z := atomic_read (sem + 8).

(** ** Core locks *)
Section Corelock.
Context (hart : Z).
Definition corelock_trylock (lock : Z) : code Z :=
  let* busy := spinlock_trylock lock in
  if truth busy then Ret (-1)
  else
    let* count := load (lock + 4) in
    let* res :=
      if count =? 0 then
        let* c := load (lock + 4) in
        store (lock + 4) (s32 (c + 1)) ;;
        store (lock + 8) (s32 hart) ;;
        Ret 0
      else
        let* core := load (lock + 8) in
        if u64 core =? hart then
          let* c := load (lock + 4) in
          store (lock + 4) (s32 (c + 1)) ;;
          Ret 0
        else Ret (-1) in
    spinlock_unlock lock ;;
    Ret res.
Definition corelock_lock (lock : Z) : code unit :=
  spinlock_lock lock ;;
  let* count := load (lock + 4) in
  if count =? 0 then
    let* c := load (lock + 4) in
    store (lock + 4) (s32 (c + 1)) ;;
    store (lock + 8) (s32 hart) ;;
    spinlock_unlock lock
  else
    let* core := load (lock + 8) in
    if u64 core =? hart then
      let* c := load (lock + 4) in
      store (lock + 4) (s32 (c + 1)) ;;
      spinlock_unlock lock
    else
      spinlock_unlock lock ;;
      do_while (while_ (atomic_read (lock + 4))) (corelock_trylock lock).
Definition corelock_unlock (lock : Z) : code unit :=
  spinlock_lock lock ;;
  let* core := load (lock + 8) in
  (if u64 core =? hart then
     let* c := load (lock + 4) in
     store (lock + 4) (s32 (c - 1)) ;;
     let* c' := load (lock + 4) in
     if c' <=? 0 then store (lock + 8) (-1) ;; store (lock + 4) 0 else Ret tt
   else spinlock_unlock lock ;; scall) ;;
  spinlock_unlock lock.
End Corelock.
(** [SPINLOCK_INIT] and [CORELOCK_INIT] *)
Definition SPINLOCK_INIT (lock : Z) (m : words) : words := <[lock := 0]> m.
Definition CORELOCK_INIT (lock : Z) (m : words) : words :=
  <[lock := 0]> (<[lock + 4 := 0]> (<[lock + 8 := -1]> m)).

(** ** The recursive locks of locks.c *)
Definition LOCK_MAX_NUM : nat := 1024.
Definition show_error : code unit := scall.
Definition lock_trylock (lock : Z) : code Z := let* res := atomic_swap lock (-1) in mb ;; Ret res.
Definition lock_lock (lock : Z) : code unit := while_ (lock_trylock lock).
Definition lock_unlock (lock : Z) : code unit := mb ;; let* _ := atomic_swap lock 0 in Ret tt.

Section Reculock.
(** The address of the table; the register sscratch of the hart, which holds the address of its
    [core_info] ([core_init]). *)
Context (reculock sscratch : Z).
Definition core_get_readonly_info : code Z := Ret sscratch.
(** [core_get_readonly_info() -> core_id] *)
Definition get_core : code Z := let* info := core_get_readonly_info in load (info + 8).
Fixpoint get_reculock_from (n : nat) (p lock : Z) : code Z :=
  match n with
  | O => Ret 0
  | S m => let* l := load p in if l =? lock then Ret p else get_reculock_from m (p + 24) lock
  end.
Definition get_reculock (lock : Z) : code Z := get_reculock_from LOCK_MAX_NUM reculock lock.
Definition get_free_reculock : code Z := get_reculock_from LOCK_MAX_NUM reculock 0.
Definition set_entry (p lock counter core : Z) : code unit :=
  store p lock ;; store (p + 8) counter ;; store (p + 16) core.
Definition reculock_init (lock : Z) : code Z :=
  let* p := get_free_reculock in
  if p =? 0 then Ret 0 else set_entry p lock 0 0 ;; Ret p.
Definition reculock_deinit (lock : Z) : code unit :=
  lock_lock lock ;;
  let* p := get_reculock lock in
  (if p =? 0 then Ret tt else set_entry p 0 0 0) ;;
  lock_unlock lock.
(** The entry of a lock, a new one if it has none.  When the table is full the code reports the error
    and uses the null pointer, which is an access fault in the kernel: the handler loops for ever. *)
Definition find_reculock (lock : Z) : code Z :=
  let* p := get_reculock lock in
  if p =? 0 then
    let* q := reculock_init lock in
    if q =? 0 then lock_unlock lock ;; show_error ;; ITree.spin else Ret q
  else Ret p.
Definition reculock_trylock (lock : Z) : code Z :=
  let* hart := get_core in
  let* busy := lock_trylock lock in
  if truth busy then Ret (-1)
  else
    let* p := find_reculock lock in
    let* counter := load (p + 8) in
    let* res :=
      if counter =? 0 then
        let* c := load (p + 8) in
        store (p + 8) (s64 (c + 1)) ;;
        store (p + 16) hart ;;
        Ret 0
      else
        let* core := load (p + 16) in
        if core =? hart then
          let* c := load (p + 8) in
          store (p + 8) (s64 (c + 1)) ;;
          Ret 0
        else Ret (-1) in
    lock_unlock lock ;;
    Ret res.
(** What it does when another hart has the lock; it looks at the counter of entry 0. *)
Definition reculock_wait (lock : Z) : code unit :=
  do_while (while_ (atomic_read (reculock + 8))) (reculock_trylock lock).
Definition reculock_lock (lock : Z) : code unit :=
  let* hart := get_core in
  lock_lock lock ;;
  let* p := find_reculock lock in
  let* counter := load (p + 8) in
  if counter =? 0 then
    let* c := load (p + 8) in
    store (p + 8) (s64 (c + 1)) ;;
    store (p + 16) hart ;;
    lock_unlock lock
  else
    let* core := load (p + 16) in
    if core =? hart then
      let* c := load (p + 8) in
      store (p + 8) (s64 (c + 1)) ;;
      lock_unlock lock
    else
      lock_unlock lock ;; reculock_wait lock.
Definition reculock_unlock (lock : Z) : code unit :=
  let* hart := get_core in
  lock_lock lock ;;
  let* p := get_reculock lock in
  if p =? 0 then lock_unlock lock ;; show_error ;; ITree.spin
  else
    let* core := load (p + 16) in
    (if core =? hart then
       let* c := load (p + 8) in
       store (p + 8) (s64 (c - 1)) ;;
       let* c' := load (p + 8) in
       if c' <=? 0 then store (p + 16) 0 ;; store (p + 8) 0 ;; store p 0 else Ret tt
     else lock_unlock lock ;; show_error) ;;
    lock_unlock lock.

(** The interface for the C library. *)
Definition _lock_init (lock : Z) : code unit := store lock 0.
Definition _lock_init_recursive (lock : Z) : code unit := let* _ := reculock_init lock in Ret tt.
Definition _lock_close (lock : Z) : code unit := lock_unlock lock.
Definition _lock_close_recursive (lock : Z) : code unit := reculock_deinit lock.
Definition _lock_acquire (lock : Z) : code unit := lock_lock lock.
Definition _lock_acquire_recursive (lock : Z) : code unit := reculock_lock lock.
Definition _lock_try_acquire (lock : Z) : code Z := lock_trylock lock.
Definition _lock_try_acquire_recursive (lock : Z) : code Z := reculock_trylock lock.
Definition _lock_release (lock : Z) : code unit := lock_unlock lock.
Definition _lock_release_recursive (lock : Z) : code unit := reculock_unlock lock.
End Reculock.

(** ** The programs that use a core lock *)
(** Any finite program of one hart: it takes the lock, tries to, gives it up, or writes other words. *)
Inductive client :=
| Done
| Acquire (c : client)
| TryAcquire (got missed : client)
| Release (c : client)
| Work (a v : Z) (c : client).
(** The remarks count the times the hart has the lock. *)
Fixpoint client_code (hart lock : Z) (c : client) : code unit :=
  match c with
  | Done => Ret tt
  | Acquire c => corelock_lock hart lock ;; remark 1 ;; client_code hart lock c
  | TryAcquire got missed =>
      let* r := corelock_trylock hart lock in
      if truth r then client_code hart lock missed else remark 1 ;; client_code hart lock got
  | Release c => remark (-1) ;; corelock_unlock hart lock ;; client_code hart lock c
  | Work a v c => store a v ;; client_code hart lock c
  end.
(** The client gives up only what it has, [d] times so far; the depth fits an [int]; its own words are
    not those of the lock. *)
Fixpoint disciplined (lock d : Z) (c : client) : Prop :=
  match c with
  | Done => True
  | Acquire c => d < 2 ^ 31 - 1 /\ disciplined lock (d + 1) c
  | TryAcquire got missed => d < 2 ^ 31 - 1 /\ disciplined lock (d + 1) got /\ disciplined lock d missed
  | Release c => 0 < d /\ disciplined lock (d - 1) c
  | Work a v c => (a <> lock /\ a <> lock + 4 /\ a <> lock + 8) /\ disciplined lock d c
  end.
Definition clients (lock : Z) (cs : list client) : list (code unit) :=
  imap (fun i c => client_code (Z.of_nat i) lock c) cs.

(** A program that grants and takes permits of a semaphore; a grant is remarked before it is made, a
    taking after it has succeeded. *)
Inductive sem_client :=
| SemDone
| Signal (k : Z) (c : sem_client)
| Wait (k : Z) (c : sem_client).
Fixpoint sem_client_code (sem : Z) (c : sem_client) : code unit :=
  match c with
  | SemDone => Ret tt
  | Signal k c => remark k ;; semaphore_signal sem k ;; sem_client_code sem c
  | Wait k c => semaphore_wait sem k ;; remark (- k) ;; sem_client_code sem c
  end.
(** The permits that a program grants in all; no amount is negative. *)
Fixpoint granted (c : sem_client) : Z :=
  match c with SemDone => 0 | Signal k c => k + granted c | Wait k c => granted c end.
Fixpoint amounts_ok (c : sem_client) : Prop :=
  match c with SemDone => True | Signal k c | Wait k c => 0 <= k /\ amounts_ok c end.
Definition sum_granted (cs : list sem_client) : Z := foldr (fun c s => granted c + s) 0 cs.
(** The sum over the first [n] harts. *)
Fixpoint total (n : nat) (γ : nat -> Z) : Z :=
  match n with O => 0 | S m => total m γ + γ m end.

Section Programs.
Context (lk : Z) (R : (Z -> Z) -> (nat -> Z) -> Prop) (rel : Z -> Z -> Prop)
  {R_ext : Proper ((=) ==> pointwise_relation nat (=) ==> iff) R}.
(** The words that the spin lock of a semaphore or core lock protects. *)
Notation safe prot := (Smp.safe lk prot R rel).

Lemma safe_fence prot n i p (Q : unit -> phase -> Prop) : Q tt p -> safe prot n i mb p Q.
Proof. intros HQ. by apply safe_quiet. Qed.
Lemma safe_spinlock_trylock prot n i t g (Q : Z -> phase -> Prop) :
  lk ∉ prot ->
  Q (-1) (mkPhase t g None) -> (forall f, Q 0 (mkPhase t g (Some (f, f)))) ->
  safe prot n i (spinlock_trylock lk) (mkPhase t g None) Q.
Proof.
  intros Hlk Hbusy Hfree. unfold spinlock_trylock. apply safe_bind. apply safe_acquire; [done|exact R_ext| |].
  - apply safe_bind, safe_fence. by apply safe_ret.
  - intros f. apply safe_bind, safe_fence. by apply safe_ret.
Qed.
Lemma safe_spinlock_lock prot n i t g (Q : unit -> phase -> Prop) :
  lk ∉ prot -> (forall f, Q tt (mkPhase t g (Some (f, f)))) ->
  safe prot n i (spinlock_lock lk) (mkPhase t g None) Q.
Proof.
  intros Hlk HQ. apply (safe_iter _ _ _ _ (fun _ p => p = mkPhase t g None)); [|done].
  intros n' [] p ->. apply safe_bind. apply safe_spinlock_trylock; [done| |].
  - apply safe_ret. reflexivity.
  - intros f. apply safe_ret. apply HQ.
Qed.
Lemma safe_spinlock_unlock prot n i t g g' f0 f (Q : unit -> phase -> Prop) :
  lk ∉ prot -> rel t g' -> (forall γ, γ i = g -> R f0 γ -> R f (<[i := g']> γ)) -> Q tt (mkPhase t g' None) ->
  safe prot n i (spinlock_unlock lk) (mkPhase t g (Some (f0, f))) Q.
Proof.
  intros Hlk Hrel HR HQ. unfold spinlock_unlock. apply safe_bind, safe_fence.
  eapply safe_release; [done|done|done|done|exact Hrel|exact HR|]. by intros [].
Qed.
(** Giving the lock up without having changed anything. *)
Lemma safe_spinlock_unlock_same prot n i t g f (Q : unit -> phase -> Prop) :
  lk ∉ prot -> rel t g -> Q tt (mkPhase t g None) ->
  safe prot n i (spinlock_unlock lk) (mkPhase t g (Some (f, f))) Q.
Proof.
  intros Hlk Hrel HQ. eapply safe_spinlock_unlock; [done|done| |done].
  intros γ Hg. apply R_ext; [done|]. intros j. at_hart j i.
Qed.
Lemma safe_while prot n i c p (Q : unit -> phase -> Prop) :
  (forall n, safe prot n i c p (fun r p' => if truth r then p' = p else Q tt p')) ->
  safe prot n i (while_ c) p Q.
Proof.
  intros Hc. apply (safe_iter _ _ _ _ (fun _ p' => p' = p)); [|done].
  intros n' [] p' ->. apply safe_bind. eapply safe_conseq; [apply Hc|].
  intros r p2 Hr. cbv beta in Hr. apply safe_ret. by destruct (truth r).
Qed.
Lemma safe_atomic_read prot n i a p (Q : Z -> phase -> Prop) :
  (forall v, Q v p) -> safe prot n i (atomic_read a) p Q.
Proof. intros HQ. by apply safe_quiet. Qed.
End Programs.

(** Which words are protected. *)
Ltac prot := rewrite ?elem_of_cons, ?elem_of_nil; lia.
(** One operation of a hart that is inside. *)
Ltac hart_step :=
  try apply safe_bind;
  first [ apply safe_load_in; [apply _|prot|]
        | apply safe_store_in; [prot|apply _|prot|]
        | apply safe_spinlock_lock; [apply _|prot|] ].
(** The release, when [H] says that the words are in order for the new share. *)
Ltac leave share H :=
  apply safe_spinlock_unlock with (g' := share); [apply _|prot|lia|intros ? <- ?; eapply H; first [lia|by eauto]|].
Ltac leave_same := apply safe_spinlock_unlock_same; [apply _|prot|lia|].

(** ** Core locks: what the lock protects *)
Section CorelockProofs.
Context (lk : Z).
(** The count is 0 and nobody has the lock, or the hart [o] that [core] names has it [count] times and
    no other has it at all. *)
Definition corelock_shares (f : Z -> Z) (γ : nat -> Z) : Prop :=
  (f (lk + 4) = 0 /\ forall j, γ j = 0) \/
  (exists o : nat, f (lk + 8) = Z.of_nat o /\ Z.of_nat o < 2 ^ 31 /\ f (lk + 4) = γ o /\
    0 < γ o < 2 ^ 31 /\ forall j, j <> o -> γ j = 0).
Notation has_share := (fun t g : Z => 0 <= t <= g).
Notation prot := [lk + 4; lk + 8].
Notation safe := (Smp.safe lk prot corelock_shares has_share).

#[local] Instance corelock_shares_ext :
  Proper ((=) ==> pointwise_relation nat (=) ==> iff) corelock_shares.
Proof.
  assert (H : forall f γ γ', pointwise_relation nat (=) γ γ' -> corelock_shares f γ -> corelock_shares f γ').
  { intros f γ γ' He [[H0 Hz]|(o & Ho & Hb & Hc & Hr & Hz)]; [left|right].
    - split; [done|]. intros j. by rewrite <- He.
    - exists o. rewrite <- (He o). do 4 (split; [done|]). intros j. rewrite <- (He j). auto. }
  intros f ? <- γ γ' He. split; apply H; [done|by symmetry].
Qed.
(** The ways the protected words change. *)
Lemma corelock_first f0 γ (i : nat) :
  f0 (lk + 4) = 0 -> Z.of_nat i < 2 ^ 31 -> corelock_shares f0 γ ->
  corelock_shares (<[lk + 8 := s32 (Z.of_nat i)]> (<[lk + 4 := s32 (f0 (lk + 4) + 1)]> f0)) (<[i := γ i + 1]> γ).
Proof.
  intros H0 Hi [[_ Hz]|(o & _ & _ & Hc & Hr & _)]; [|lia]. right. exists i.
  rewrite H0, Hz, fn_lookup_insert, fn_lookup_insert_ne, fn_lookup_insert, fn_lookup_insert by lia.
  rewrite !s32_small by lia. do 3 (split; [done|]). split; [lia|]. intros j Hj. by rewrite fn_lookup_insert_ne.
Qed.
(** The test of [core] finds the owner. *)
Lemma corelock_owner f0 γ (i : nat) :
  f0 (lk + 4) <> 0 -> u64 (f0 (lk + 8)) = Z.of_nat i -> corelock_shares f0 γ ->
  f0 (lk + 8) = Z.of_nat i /\ f0 (lk + 4) = γ i /\ 0 < γ i < 2 ^ 31 /\ Z.of_nat i < 2 ^ 31 /\
  forall j, j <> i -> γ j = 0.
Proof.
  intros H0 Hu [[Hc _]|(o & Ho & Hb & Hc & Hr & Hz)]; [done|]. rewrite Ho, u64_small in Hu by lia.
  assert (o = i) as -> by lia. auto.
Qed.
Lemma corelock_again f0 γ (i : nat) :
  f0 (lk + 4) <> 0 -> u64 (f0 (lk + 8)) = Z.of_nat i -> γ i < 2 ^ 31 - 1 -> corelock_shares f0 γ ->
  corelock_shares (<[lk + 4 := s32 (f0 (lk + 4) + 1)]> f0) (<[i := γ i + 1]> γ).
Proof.
  intros H0 Hu Hb HR. destruct (corelock_owner _ _ _ H0 Hu HR) as (Ho & Hc & Hr & Hi & Hz).
  right. exists i. rewrite !fn_lookup_insert, fn_lookup_insert_ne, Hc, s32_small by lia.
  split; [done|]. split; [done|]. split; [lia|]. split; [lia|]. intros j Hj. rewrite fn_lookup_insert_ne by done. auto.
Qed.
(** The hart with a positive share is the owner; giving up the last time resets the lock. *)
Lemma corelock_has f0 γ (i : nat) :
  0 < γ i -> corelock_shares f0 γ ->
  u64 (f0 (lk + 8)) = Z.of_nat i /\ f0 (lk + 8) = Z.of_nat i /\ f0 (lk + 4) = γ i /\ γ i < 2 ^ 31 /\
  Z.of_nat i < 2 ^ 31 /\ forall j, j <> i -> γ j = 0.
Proof.
  intros Hi [[_ Hz]|(o & Ho & Hb & Hc & Hr & Hz)]; [rewrite Hz in Hi; lia|].
  destruct (decide (o = i)) as [->|Hne]; [|rewrite Hz in Hi by done; lia].
  rewrite Ho, u64_small by lia. split; [lia|]. do 3 (split; [lia|]). auto.
Qed.
Lemma corelock_last f0 γ (i : nat) :
  γ i = 1 -> corelock_shares f0 γ ->
  corelock_shares (<[lk + 4 := 0]> (<[lk + 8 := -1]> (<[lk + 4 := s32 (f0 (lk + 4) - 1)]> f0))) (<[i := γ i - 1]> γ).
Proof.
  intros Hg HR. destruct (corelock_has f0 γ i) as (_ & _ & _ & _ & _ & Hz); [lia|done|].
  left. rewrite fn_lookup_insert. split; [done|]. intros j. at_hart j i. by apply Hz.
Qed.
Lemma corelock_less f0 γ (i : nat) :
  1 < γ i -> corelock_shares f0 γ ->
  corelock_shares (<[lk + 4 := s32 (f0 (lk + 4) - 1)]> f0) (<[i := γ i - 1]> γ).
Proof.
  intros Hg HR. destruct (corelock_has f0 γ i) as (_ & Ho & Hc & Hb & Hi & Hz); [lia|done|].
  right. exists i. rewrite !fn_lookup_insert, fn_lookup_insert_ne, Hc, s32_small by lia.
  do 2 (split; [done|]). do 2 (split; [lia|]). intros j Hj. rewrite fn_lookup_insert_ne by done. auto.
Qed.

Lemma safe_corelock_trylock n (i : nat) t d (Q : Z -> phase -> Prop) :
  Z.of_nat i < 2 ^ 31 -> d < 2 ^ 31 - 1 -> 0 <= t <= d ->
  Q (-1) (mkPhase t d None) -> Q 0 (mkPhase t (d + 1) None) ->
  safe n i (corelock_trylock (Z.of_nat i) lk) (mkPhase t d None) Q.
Proof.
  intros Hi Hd Ht Hbusy Hgot. unfold corelock_trylock. apply safe_bind.
  apply safe_spinlock_trylock; [apply _|prot|by apply safe_ret|intros f].
  hart_step. intros _ _ _. destruct (Z.eqb_spec (f (lk + 4)) 0) as [H0|H0]; apply safe_bind.
  - hart_step. intros _ _ _. do 2 hart_step. apply safe_ret, safe_bind. leave (d + 1) corelock_first. by apply safe_ret.
  - hart_step. intros _ _ _. destruct (Z.eqb_spec (u64 (f (lk + 8))) (Z.of_nat i)) as [Hu|Hu].
    + hart_step. intros _ _ _. hart_step. apply safe_ret, safe_bind. leave (d + 1) corelock_again. by apply safe_ret.
    + apply safe_ret, safe_bind. leave_same. by apply safe_ret.
Qed.
Lemma safe_corelock_lock n (i : nat) t d (Q : unit -> phase -> Prop) :
  Z.of_nat i < 2 ^ 31 -> d < 2 ^ 31 - 1 -> 0 <= t <= d -> Q tt (mkPhase t (d + 1) None) ->
  safe n i (corelock_lock (Z.of_nat i) lk) (mkPhase t d None) Q.
Proof.
  intros Hi Hd Ht HQ. unfold corelock_lock. hart_step. intros f.
  hart_step. intros _ _ _. destruct (Z.eqb_spec (f (lk + 4)) 0) as [H0|H0].
  - hart_step. intros _ _ _. do 2 hart_step. by leave (d + 1) corelock_first.
  - hart_step. intros _ _ _. destruct (Z.eqb_spec (u64 (f (lk + 8))) (Z.of_nat i)) as [Hu|Hu].
    + hart_step. intros _ _ _. hart_step. by leave (d + 1) corelock_again.
    + apply safe_bind. leave_same. apply safe_while. intros n'. apply safe_bind.
      apply safe_while. intros n2. apply safe_atomic_read; [apply _|intros v]. destruct (truth v); [done|].
      by apply safe_corelock_trylock.
Qed.
Lemma safe_corelock_unlock n (i : nat) t d (Q : unit -> phase -> Prop) :
  0 < d -> 0 <= t < d -> Q tt (mkPhase t (d - 1) None) ->
  safe n i (corelock_unlock (Z.of_nat i) lk) (mkPhase t d None) Q.
Proof.
  intros Hd Ht HQ. unfold corelock_unlock. hart_step. intros f.
  hart_step. intros γ Hγ HR. destruct (corelock_has f γ i) as (Hu & _ & Hc & Hb & _); [lia|done|].
  rewrite Hu, Z.eqb_refl. apply safe_bind. hart_step. intros _ _ _. do 2 hart_step. intros _ _ _.
  rewrite fn_lookup_insert.
  destruct (Z.leb_spec (s32 (f (lk + 4) - 1)) 0) as [Hl|Hl]; rewrite Hc, s32_small in Hl by lia.
  - do 2 hart_step. leave (d - 1) corelock_last. done.
  - apply safe_ret. leave (d - 1) corelock_less. done.
Qed.

Lemma safe_client n (i : nat) c d :
  Z.of_nat i < 2 ^ 31 -> 0 <= d -> disciplined lk d c ->
  safe n i (client_code (Z.of_nat i) lk c) (mkPhase d d None) (fun _ _ => True).
Proof.
  intros Hi. revert d. induction c as [|c IH|got IHg missed IHm|c IH|a v c IH]; intros d Hd; cbn.
  - intros _. by apply safe_ret.
  - intros [Hb Hc]. apply safe_bind, safe_corelock_lock; [done|done|lia|].
    apply safe_bind, safe_note; [apply _|lia|]. apply IH; [lia|done].
  - intros (Hb & Hg & Hm). apply safe_bind, safe_corelock_trylock; [done|done|lia| |].
    + by apply IHm.
    + apply safe_bind, safe_note; [apply _|lia|]. apply IHg; [lia|done].
  - intros [Hb Hc]. apply safe_bind, safe_note; [apply _|lia|].
    apply safe_bind, safe_corelock_unlock; [done|lia|]. apply IH; [lia|done].
  - intros [Ha Hc]. apply safe_bind, safe_quiet; [apply _|done| |intros m; by apply IH].
    intros m b Hb. cbn. apply word_at_insert_ne.
    destruct Hb as [->|[->|[->|[]%elem_of_nil]%elem_of_cons]%elem_of_cons]; lia.
Qed.
Lemma corelock_init_inv m :
  lock_inv lk prot corelock_shares has_share (CORELOCK_INIT lk m) (fun _ => 0) (fun _ => mkPhase 0 0 None).
Proof.
  split; [done|cbn; lia|left]. split; [unfold CORELOCK_INIT; by rewrite word_at_insert|].
  split; [done|].  exists (word_at (CORELOCK_INIT lk m)). split; [done|left]. split; [|done].
  unfold CORELOCK_INIT. by rewrite word_at_insert_ne, word_at_insert by lia.
Qed.
(** A positive tally is a positive share, and the owner's is the only one. *)
Lemma corelock_one_owner m tally φ i j :
  lock_inv lk prot corelock_shares has_share m tally φ -> 0 < tally i -> 0 < tally j -> i = j.
Proof.
  intros Hinv Hi Hj.
  assert (Hown : forall h, 0 < tally h -> 0 < owns φ h).
  { intros h Hh. pose proof (li_rel _ _ _ _ _ _ _ Hinv h) as [_ Hle].
    rewrite <- (li_tally _ _ _ _ _ _ _ Hinv h) in Hle. unfold owns. lia. }
  assert (HR : exists f, corelock_shares f (owns φ)).
  { destruct (li_lock _ _ _ _ _ _ _ Hinv) as [(_ & _ & f & _ & HR)|(_ & h & f0 & f & _ & _ & _ & HR)]; eauto. }
  destruct HR as [f HR].
  destruct (corelock_has f (owns φ) i (Hown i Hi) HR) as (_ & _ & _ & _ & _ & Hz).
  destruct (decide (j = i)) as [->|Hne]; [done|]. specialize (Hown j Hj). rewrite Hz in Hown by done. lia.
Qed.
End CorelockProofs.

(** ** The wait of the recursive locks *)
(** A loop whose condition stays true, whatever is done after it, does not end. *)
Lemma alone_bind {A B} n (t : code A) (k : A -> code B) m :
  (forall n', alone n' t m = None) -> alone n (ITree.bind t k) m = None.
Proof.
  revert t m. induction n as [|n IH]; [done|]. intros t m H. cbn [alone]. rewrite observe_bind.
  destruct (observe t) as [a|t'|X e h] eqn:Ht.
  - specialize (H 1%nat). cbn in H. by rewrite Ht in H.
  - apply IH. intros n'. specialize (H (S n')). cbn in H. by rewrite Ht in H.
  - apply IH. intros n'. specialize (H (S n')). cbn in H. by rewrite Ht in H.
Qed.
Lemma alone_iter {I B} n (body : I -> code (I + B)) x m :
  alone n (ITree.iter body x) m =
  alone n (ITree.bind (body x) (fun r => match r with inl y => Tau (ITree.iter body y) | inr b => Ret b end)) m.
Proof. by destruct n. Qed.
#[local] Arguments truth : simpl never.
#[local] Arguments word_at : simpl never.
Lemma alone_while_read n a m : word_at m a <> 0 -> alone n (while_ (atomic_read a)) m = None.
Proof.
  intros Ha. assert (Ht : truth (word_at m a) = true) by (unfold truth; by destruct (Z.eqb_spec (word_at m a) 0)).
  induction n as [n IH] using lt_wf_ind. destruct n as [|[|n]]; [done|done|].
  unfold while_. cbn [alone]. rewrite observe_iter, !observe_bind.
  change (observe (atomic_read a)) with (VisF (R := Z) (ELoad a) (fun v => Ret v : code Z)).
  cbn [exec fst snd]. rewrite !observe_bind. cbn [observe _observe]. rewrite Ht.
  apply (IH n). lia.
Qed.

(** ** Semaphores *)
Lemma total_ext n γ γ' : (forall j, (j < n)%nat -> γ j = γ' j) -> total n γ = total n γ'.
Proof. intros H. induction n as [|n IH]; [done|]. cbn. rewrite IH, H by auto with lia. done. Qed.
Lemma total_insert n i v γ : (i < n)%nat -> total n (<[i := v]> γ) = total n γ - γ i + v.
Proof.
  induction n as [|n IH]; [lia|]. intros Hi. cbn. destruct (decide (i = n)) as [->|Hne].
  - rewrite fn_lookup_insert. rewrite (total_ext n (<[n := v]> γ) γ); [lia|].
    intros j Hj. rewrite fn_lookup_insert_ne by lia. done.
  - rewrite IH, fn_lookup_insert_ne by lia. lia.
Qed.
Lemma total_zero n γ : (forall j, γ j = 0) -> total n γ = 0.
Proof. intros H. induction n as [|n IH]; cbn; [done|]. by rewrite IH, H. Qed.
Lemma total_le n γ γ' : (forall j, (j < n)%nat -> γ j <= γ' j) -> total n γ <= total n γ'.
Proof.
  intros H. induction n as [|n IH]; [done|]. cbn. pose proof (H n (Nat.lt_succ_diag_r n)).
  assert (total n γ <= total n γ') by auto with lia. lia.
Qed.

Lemma granted_nonneg c : amounts_ok c -> 0 <= granted c.
Proof.
  induction c as [|k c IH|k c IH]; cbn; [done| |]; intros [Hk Hc]; specialize (IH Hc); lia.
Qed.

Lemma total_granted cs : total (length cs) (fun j => default 0 (granted <$> cs !! j)) = sum_granted cs.
Proof.
  induction cs as [|c cs IH] using rev_ind; [done|]. rewrite length_app. cbn [length].
  rewrite Nat.add_1_r. cbn [total]. rewrite lookup_app_r, Nat.sub_diag by lia. cbn.
  rewrite (total_ext _ _ (fun j => default 0 (granted <$> cs !! j))), IH.
  - clear IH. unfold sum_granted. induction cs as [|d cs IH]; cbn; lia.
  - intros j Hj. by rewrite lookup_app_l.
Qed.

Section SemaphoreProofs.
(** The semaphore starts with [init] permits; hart [j] of [N] grants at most [B j]. *)
Context (sem init : Z) (N : nat) (B : nat -> Z).
Definition semaphore_shares (f : Z -> Z) (γ : nat -> Z) : Prop :=
  f (sem + 4) = init + total N γ /\ 0 <= init + total N γ /\ forall j, (j < N)%nat -> γ j <= B j.
Notation safe := (Smp.safe sem [sem + 4] semaphore_shares (fun t g => g <= t)).
Hypothesis bounded : init + total N B < 2 ^ 31.

#[local] Instance semaphore_shares_ext :
  Proper ((=) ==> pointwise_relation nat (=) ==> iff) semaphore_shares.
Proof.
  intros f ? <- γ γ' He. unfold semaphore_shares. rewrite (total_ext N γ γ') by (intros; apply He).
  by setoid_rewrite He.
Qed.
Lemma semaphore_permits f γ : semaphore_shares f γ -> 0 <= f (sem + 4) < 2 ^ 31.
Proof. intros (Hf & H0 & HB). pose proof (total_le N γ B HB). lia. Qed.
(** Granting or taking [k] permits. *)
Lemma semaphore_change f γ i k :
  (i < N)%nat -> γ i + k <= B i -> 0 <= f (sem + 4) + k -> semaphore_shares f γ ->
  semaphore_shares (<[sem + 4 := s32 (f (sem + 4) + k)]> f) (<[i := γ i + k]> γ).
Proof.
  intros Hi Hk H0 (Hf & Hp & HB).
  assert (Ht : total N (<[i := γ i + k]> γ) = total N γ + k) by (rewrite total_insert by done; lia).
  assert (HB' : forall j, (j < N)%nat -> (<[i := γ i + k]> γ) j <= B j) by (intros j Hj; at_hart j i; auto).
  pose proof (total_le N _ B HB'). unfold semaphore_shares. rewrite fn_lookup_insert, Ht, s32_small by lia.
  split; [lia|]. split; [lia|done].
Qed.
Lemma semaphore_init_inv m :
  0 <= init -> (forall j, (j < N)%nat -> 0 <= B j) ->
  lock_inv sem [sem + 4] semaphore_shares (fun t g => g <= t)
    (<[sem := 0]> (<[sem + 4 := init]> (<[sem + 8 := 0]> m))) (fun _ => 0) (fun _ => mkPhase 0 0 None).
Proof.
  intros H0 HB. assert (Ht : total N (owns (fun _ => mkPhase 0 0 None)) = 0) by (by apply total_zero).
  split; [done|cbn; lia|left]. split; [by rewrite word_at_insert|]. split; [done|].
  exists (<[sem + 4 := init]> (fun _ => 0)). split.
  - intros a [->|[]%elem_of_nil]%elem_of_cons.
    by rewrite word_at_insert_ne, word_at_insert, fn_lookup_insert by lia.
  - unfold semaphore_shares. rewrite fn_lookup_insert, Ht. split; [lia|]. split; [lia|done].
Qed.
Lemma semaphore_bound m tally φ :
  lock_inv sem [sem + 4] semaphore_shares (fun t g => g <= t) m tally φ -> 0 <= init + total N tally.
Proof.
  intros Hinv. assert (Hle : total N (owns φ) <= total N tally).
  { apply total_le. intros j _. rewrite (li_tally _ _ _ _ _ _ _ Hinv j). apply (li_rel _ _ _ _ _ _ _ Hinv j). }
  destruct (li_lock _ _ _ _ _ _ _ Hinv) as [(_ & _ & f & _ & _ & HR & _)|(_ & h & f0 & f & _ & _ & _ & _ & HR & _)]; lia.
Qed.
Lemma safe_semaphore_signal n i t d k (Q : unit -> phase -> Prop) :
  (i < N)%nat -> 0 <= k -> d + k <= t -> d + k <= B i -> Q tt (mkPhase t (d + k) None) ->
  safe n i (semaphore_signal sem k) (mkPhase t d None) Q.
Proof.
  intros Hi Hk Ht HB HQ. unfold semaphore_signal. hart_step. intros f.
  hart_step. intros γ Hγ HR. hart_step. pose proof (semaphore_permits f γ HR).
  by leave (d + k) semaphore_change.
Qed.
Lemma safe_semaphore_wait n i t d k (Q : unit -> phase -> Prop) :
  (i < N)%nat -> 0 <= k -> d <= t -> d <= B i -> Q tt (mkPhase t (d - k) None) ->
  safe n i (semaphore_wait sem k) (mkPhase t d None) Q.
Proof.
  intros Hi Hk Ht HB HQ. unfold semaphore_wait. apply safe_bind.
  apply safe_quiet; [apply _|done|intros m a [->|[->|[]%elem_of_nil]%elem_of_cons]; apply word_at_insert_ne; lia|].
  intros m. apply (safe_iter _ _ _ _ (fun _ p => p = mkPhase t d None)); [|done].
  intros n' [] p ->. hart_step. intros f. hart_step. intros γ Hγ HR.
  destruct (Z.leb_spec k (f (sem + 4))) as [Hle|Hlt].
  - hart_step. intros _ _ _. hart_step. apply safe_bind.
    apply safe_quiet; [apply _|done|intros m' a [->|[->|[]%elem_of_nil]%elem_of_cons]; apply word_at_insert_ne; lia|].
    intros _. apply safe_bind. replace (f (sem + 4) - k) with (f (sem + 4) + - k) by lia.
    leave (d + - k) semaphore_change. by apply safe_ret.
  - apply safe_bind. leave_same. by apply safe_ret.
Qed.
Lemma safe_sem_client n i c d :
  (i < N)%nat -> amounts_ok c -> d + granted c <= B i ->
  safe n i (sem_client_code sem c) (mkPhase d d None) (fun _ _ => True).
Proof.
  intros Hi. revert d. induction c as [|k c IH|k c IH]; intros d; cbn.
  - intros _ _. by apply safe_ret.
  - intros [Hk Hc] HB. pose proof (granted_nonneg c Hc).
    apply safe_bind, safe_note; [apply _|lia|].
    apply safe_bind, safe_semaphore_signal; [done|done|lia|lia|]. apply IH; [done|lia].
  - intros [Hk Hc] HB. pose proof (granted_nonneg c Hc).
    apply safe_bind, safe_semaphore_wait; [done|done|lia|lia|].
    apply safe_bind, safe_note; [apply _|lia|]. apply IH; [done|lia].
Qed.
End SemaphoreProofs.

(** ** What the locks guarantee *)
Module LocksProps.
(** The harts start their clients; the lock is initialised, the rest of memory is anything. *)
Definition corelock_start (lock : Z) (m : words) (cs : list client) : machine :=
  mkMachine (CORELOCK_INIT lock m) (fun _ => 0) (clients lock cs).

(** C4: Mutual exclusion of core locks.  Any number of harts run any programs that take a core lock,
    again if they have it, try to take it, and give up only what they have; the harts interleave at
    every access to memory.  In every state that is reached at most one hart has the lock. *)
Theorem corelock_mutual_exclusion lock m cs M i j :
  Forall (disciplined lock 0) cs -> Z.of_nat (length cs) <= 2 ^ 31 ->
  reaches (corelock_start lock m cs) M -> 0 < m_tally M i -> 0 < m_tally M j -> i = j.
Proof.
  intros Hcs Hlen Hr Hi Hj. destruct (reaches_safe lock [lock + 4; lock + 8] (corelock_shares lock) (fun t g => 0 <= t <= g)
    (corelock_start lock m cs) M (fun _ => mkPhase 0 0 None)) as [φ Hinv]; [|done|by eapply corelock_one_owner].
  intros n. split; [apply corelock_init_inv|]. cbn. unfold clients. intros h t.
  rewrite list_lookup_imap. destruct (cs !! h) as [c|] eqn:Hc; [|done]. intros [= <-].
  apply safe_client; [|lia|by eapply Forall_lookup_1].
  apply lookup_lt_Some in Hc. lia.
Qed.
(** Hart 0 takes the lock twice, hart 1 tries once and waits. *)
Definition demo_clients : list client :=
  [Acquire (Work 0 7 (Acquire (Release (Release Done)))); TryAcquire Done (Acquire (Release Done))].
Definition demo_run : machine :=
  execs [(0, 15); (1, 6); (0, 4); (1, 30)]%nat (corelock_start 64 ∅ demo_clients).
Lemma corelock_mutual_exclusion_witness :
  m_tally demo_run 0%nat = 2 /\ forall j, 0 < m_tally demo_run j -> j = 0%nat.
Proof.
  assert (H0 : m_tally demo_run 0%nat = 2) by by vm_compute.
  split; [exact H0|]. intros j Hj.
  refine (corelock_mutual_exclusion 64 ∅ demo_clients demo_run j 0 _ _ (execs_reaches _ _) Hj _); [|done|].
  - repeat (constructor; [cbn; lia|]). constructor.
  - rewrite H0. lia.
Defined.

(** The semaphore starts free, with [init] permits. *)
Definition semaphore_start (sem init : Z) (m : words) (cs : list sem_client) : machine :=
  mkMachine (<[sem := 0]> (<[sem + 4 := init]> (<[sem + 8 := 0]> m))) (fun _ => 0) (map (sem_client_code sem) cs).

(** C18: A semaphore is never overdrawn.  Harts grant and take permits in any interleaving; as long as all
    grants together fit an [int], the permits taken never exceed those there were at the start and those
    granted since. *)
Theorem semaphore_never_overdrawn sem init m cs M :
  0 <= init -> Forall amounts_ok cs -> init + sum_granted cs < 2 ^ 31 ->
  reaches (semaphore_start sem init m cs) M -> 0 <= init + total (length cs) (m_tally M).
Proof.
  intros H0 Hcs Hsum Hr. set (B := fun j : nat => default 0 (granted <$> cs !! j)).
  assert (HB : init + total (length cs) B < 2 ^ 31) by (unfold B; rewrite total_granted; done).
  destruct (reaches_safe sem [sem + 4] (semaphore_shares sem init (length cs) B) (fun t g => g <= t)
    (semaphore_start sem init m cs) M (fun _ => mkPhase 0 0 None)) as [φ Hinv]; [|done|].
  - intros n. split.
    { apply semaphore_init_inv; [done|]. intros j _. unfold B. destruct (cs !! j) as [c|] eqn:Hc; [|done].
      apply granted_nonneg. by eapply Forall_lookup_1. }
    cbn. intros i t. rewrite list_lookup_fmap.
    destruct (cs !! i) as [c|] eqn:Hc; [|done]. intros [= <-].
    eapply safe_sem_client; [done| |by eapply Forall_lookup_1|].
    + by eapply lookup_lt_Some.
    + unfold B. by rewrite Hc.
  - by eapply semaphore_bound.
Qed.

(** Two harts share 3 permits and grant 2 each. *)
Definition demo_sem : list sem_client := [Wait 2 (Signal 2 SemDone); Wait 1 (Wait 2 (Signal 2 SemDone))].
Definition demo_sem_run : machine :=
  execs [(0, 5); (1, 12); (0, 5); (1, 40)]%nat (semaphore_start 64 3 ∅ demo_sem).
Lemma semaphore_never_overdrawn_witness :
  total 2 (m_tally demo_sem_run) < 0 /\ 0 <= 3 + total 2 (m_tally demo_sem_run).
Proof.
  split; [by vm_compute|].
  apply (semaphore_never_overdrawn 64 3 ∅ demo_sem demo_sem_run); [lia| |done|apply execs_reaches].
  repeat (constructor; [cbn; lia|]). constructor.
Defined.

(** [core_info]: the fields [core_id] of the entries 0 and 1, at 4096 and 4120. *)
Definition demo_cores : words := <[4104 := 0]> (<[4128 := 1]> ∅).
(** Two harts and the table of recursive locks at 8192; hart 0 takes the lock at 16, hart 1 first the
    lock at 32. *)
Definition reculock_start : machine :=
  mkMachine demo_cores (fun _ => 0)
    [reculock_lock 8192 4096 16 ;; remark 1;
     reculock_lock 8192 4120 32 ;; reculock_lock 8192 4120 16 ;; remark 1].
(** The recursive locks do not exclude.  The table is searched and changed under the lock word at
    hand, so two locks can claim the same entry: hart 1, which takes another lock, overwrites the entry of
    the lock that hart 0 has, and then takes the lock of hart 0. *)
Theorem reculock_both_inside :
  exists M, reaches reculock_start M /\ m_tally M 0%nat = 1 /\ m_tally M 1%nat = 1.
Proof.
  exists (execs [(1, 1028); (0, 2000); (1, 4000)]%nat reculock_start).
  split; [apply execs_reaches|]. by vm_compute.
Qed.

(** Entry 0 is the lock at 16, which hart 0 has; the lock at 32 is free. *)
Definition other_lock_held : words := <[8192 := 16]> (<[8200 := 1]> (<[8208 := 0]> demo_cores)).
(** A hart that waits for a recursive lock waits for entry 0 of the table instead.  The lock at 32 is
    free, an attempt to take it succeeds at once, and a hart that waits for it never gets it. *)
Theorem reculock_waits_on_entry_0 :
  (exists m, alone 3000 (reculock_trylock 8192 4120 32) other_lock_held = Some (0, m)) /\
  forall n, alone n (reculock_wait 8192 4120 32) other_lock_held = None.
Proof.
  split; [eexists; by vm_compute|]. intros n. unfold reculock_wait, do_while, while_ at 1.
  rewrite alone_iter. do 3 (apply alone_bind; intros ?). by apply alone_while_read.
Qed.
End LocksProps.
